(* ===== verification/_CoqProject ===== *)
-Q . S2P
Prelude.v
CircleBuf.v
CString.v
Mixer.v
Tinymix.v
Dsp.v
DspProofs.v
BusVolume.v
Mix.v
MicArray.v
PcmParams.v
PcmPlugin.v
SamplePlugin.v
PcmWrapper.v
PcmDevice.v
Streamer.v
StreamerProofs.v
StreamerData.v
AudioExtra.v
Remote.v
OutputPath.v
Platform.v
PlatformInfo.v
Sharing.v
SharingProofs.v
Hfp.v
BtCall.v
BtCallProofs.v
StreamInfo.v
AudioHw.v
AudioDevice.v
AudioHwProofs.v
AudioDeviceProofs.v
NormalHw.v
Ecnr.v
Sscanf.v
A2bConfig.v
A2bConfigProofs.v
A2bBus.v
A2bControl.v
A2bProofs.v
A2bFault.v
A2bMonitor.v
A2bCommands.v
A2bTool.v
