(* ===== verification/Prelude.v ===== *)
(** * Verification of the vehicle audio HAL and of the A2B bus driver

    A model, in Rocq, of the audio hardware abstraction layer of a vehicle
    head unit and of the kernel driver of the audio bus (A2B) that connects
    its microphones and amplifiers, with theorems on their behaviour.  The
    sources of the HAL are C files under
    [src/legacy/rokid-openvoice-process-android-pro/]:
    [hardware/modules/mic_array/mic_array.c], and the directory
    [frameworks/native/services/openvoice_process/test_new/audio/hal/phoenix/]
    (called HAL below), with the headers [audio_dsp_common.h] and [remote.h]
    of [test_new/audio/common/] beside it.  The driver is in
    [src/test/bsp/i2c/a2b24xx/], with headers in [src/test/bsp/i2c/xml/].

    ** The program

    Applications play on up to sixteen buses.  [audio_hw.c] is the device the
    framework talks to: it opens, starts, stops and closes the streams, selects
    the card of a stream, reads and writes their data, handles the
    parameters and the mode of the device (calls), and keeps the status of
    the buses (volume, ducking, muting, output slot); [hal_streamer.c]
    gives each open bus a ring buffer ([ext_circlebuffer.c]) and an output
    slot, and a playback thread takes one period from each ring buffer and
    mixes it into the frames of the sound card.  Volumes, mutes, equalizers
    and source selection go to a DSP through [dsp.c], which prints numbers
    and writes them to mixer controls by name.  Recording goes through
    [pcm_wrapper.c], which can insert a PCM plugin loaded at run time
    ([pcm_plugin.c]; [pcm_sample_plugin.c] is one); the microphone array has a
    HAL module of its own ([mic_array.c]).  At the start [platform.c] finds the
    sound cards and reads an XML description ([platform_info.c]) that binds
    buses to cards and to slots.  [audio_sharing.c] mirrors what one seat plays
    to the cards of other seats; [remote.c] sends commands to an audio service
    on another processor; [hfp.c] starts and stops hands-free calls;
    [audio_bt_call.c] copies the sound of a call between the Bluetooth chip
    and the codec and shows it to an echo canceller ([ecnr_fake.c]);
    [audio_extra.c] holds helpers of them all.  Boards without buses use
    [audio_hw_normal.c] in the place of [audio_hw.c].

    The A2B driver ([a2b24xx.c]) reads a list of register accesses and delays
    from an XML file and carries it out over I2C to discover and configure
    the nodes of the bus.  A delayed work, queued by a timer or by the
    interrupt of the master, looks for faults; nodes that dropped off the bus
    are discovered again with the part of the list that belongs to them.  A
    character device takes commands (reset, loopback tests, microphones).
    [adi_a2b_busconfig.c] is a program that reads such lists, also for buses
    behind the nodes of the bus, and shows the transfers.

    ** Files

    - [Prelude]: outcomes of C code, the state monad and its rules, machine
      integers, buffers and arrays, generic lemmas, tactics, hints.
    - [CircleBuf]: HAL/audio_extra/ext_circlebuffer.c.  [circlebuf_s] is the
      structure, one definition per function.
    - [CString]: what the HAL uses of [strtol], [atoi], [strcmp], [strncpy],
      [strstr], [strtok] and [sprintf] with [%d].
    - [Mixer]: the mixer of tinyalsa as the class [MixerOps] with its laws
      [MixerLaws], and a concrete card that satisfies them.
    - [Tinymix]: the [tinymix_*] functions, [dsp_control] and
      [dsp_get_value] of HAL/dsp.c against that interface.
    - [Dsp], [DspProofs]: all [dspdev_*] functions of HAL/dsp.c, the vehicle
      configuration, [dsp_init] and [play_sound]; their theorems.
    - [BusVolume]: the bus status of HAL/audio_hw.c and audio_hw.h
      ([set_bus_volume] and the setters), the callbacks of
      HAL/audio_hal_bridge.cpp that write it, and the output slots of
      [hal_streamer_open] and [hal_streamer_close], over [Dsp].
    - [Mix]: the mixer of the playback thread in
      HAL/audio_extra/hal_streamer.c ([do_channel_map] and what it calls),
      over [CircleBuf].
    - [MicArray]: hardware/modules/mic_array/mic_array.c over the class
      [PcmIn] of a recording device.
    - [PcmParams], [PcmPlugin]: HAL/plugin/pcm_plugin.c and pcm_plugin.h,
      the hardware parameters and the life cycle of a plugin.
    - [SamplePlugin]: HAL/plugin/adds/pcm_sample_plugin.c, as an instance of
      the plugin table.
    - [PcmWrapper]: HAL/plugin/pcm_wrapper.c over [PcmPlugin] and a record
      of tinyalsa functions.
    - [PcmDevice]: the PCM devices of tinyalsa as the class [PcmSystem] with
      its laws, a concrete sound system, and [pcm_open_prepare_helper] of
      HAL/audio_hw.c.
    - [Streamer], [StreamerProofs], [StreamerData]: the rest of
      HAL/audio_extra/hal_streamer.c (handles, binding of buses, opening and
      closing, a round of each thread, reading and writing) over [Mix],
      [BusVolume] and [PcmDevice]; theorems on handles and on data.
    - [AudioExtra]: HAL/audio_extra/audio_extra.c.
    - [Remote]: HAL/remote.c over the class [Rpmsg] of the socket layer;
      [OutputPath]: the paths of the remote service in HAL/audio_hw.c.
    - [Platform], [PlatformInfo]: HAL/x9serial/platform.c and
      HAL/platform_info.c; the handlers of the description call [Streamer].
    - [Sharing], [SharingProofs]: HAL/audio_sharing.c over [CircleBuf],
      [AudioExtra], [Platform], [PcmDevice] and, for the thread of the main
      card, [Streamer] and [OutputPath]; theorems.
    - [Hfp]: HAL/audio_extra/hfp.c over [Mixer], [PcmDevice], [Platform] and
      [Remote].
    - [BtCall], [BtCallProofs]: HAL/audio_bt_call.c and [set_btcall_status] of
      HAL/audio_hw.c, over [Streamer], [PcmDevice], [Platform] and [Remote];
      theorems.
    - [StreamInfo]: the part of HAL/audio_hw.c that needs no device: what a
      stream supports, configurations, sizes of buffers, addresses, parameter
      replies; the class [AudioSystem] of the constants and helpers of the
      Android framework, with its laws.
    - [AudioHw]: the streams of HAL/audio_hw.c.  [sout] and [sin] are the
      structures of a stream, [hw] is the device with the states of all
      components above; opening, waking, standby, writing, reading,
      positions, effects.
    - [AudioDevice]: the device of HAL/audio_hw.c: creation and closing of
      streams, parameters, mode, gains of ports, patches, dump, [adev_open] and
      [adev_close].
    - [AudioHwProofs], [AudioDeviceProofs]: theorems on the two.
    - [NormalHw]: HAL/audio_hw_normal.c over [PcmDevice] and [Platform], with
      theorems.
    - [Ecnr]: HAL/ecnr_fake.c and the places of HAL/audio_bt_call.c and
      HAL/audio_hw.c that use it, with theorems.
    - [Sscanf]: the kernel's [sscanf] and [strtoul] as the driver uses them.
    - [A2bConfig], [A2bConfigProofs]: the table of actions of a2b24xx.c and
      its reading ([parseAction], [parseXML]); the text of a command list and
      the round trip.
    - [A2bBus]: the driver on the bus.  [a2b24xx] is the structure,
      [a2b_sys] adds the transfers so far, the mutex, the interrupt line and
      the queued works; [host] is what the chips and the kernel answer.
      [processInterrupt] calls [checkFaultNode] and is called by what that
      calls, without the check; the call is an argument of
      [processInterrupt_with].
    - [A2bControl]: the control device, probe, remove and the module.
    - [A2bProofs], [A2bFault], [A2bMonitor], [A2bCommands]: theorems on the
      setup, on faults, on the works and the interrupt, on commands and life
      cycle.
    - [A2bTool]: adi_a2b_busconfig.c, the program that shows the transfers
      for a bus and the buses behind its nodes ([tool] holds its globals),
      with theorems.

    ** How C is modelled

    A function becomes a definition of the same name.  Its result is an
    [outcome]: a value ([Done]), waiting for ever on a lock ([Blocked]), the
    end of the process ([Exited]) or undefined behaviour ([Undef]).  State
    that a file keeps (statics, a structure behind a handle) is a record that
    is passed and returned, in [Dsp] and [BusVolume] through the monad [st].
    Signed arithmetic is [i32], undefined outside the type; unsigned
    arithmetic wraps ([u32], [s32], [s16]).  Every array access, [memcpy],
    [sprintf] and null pointer is checked: leaving an object is [Undef].  So a
    theorem that an operation gives [Done] is also a theorem that it stays in
    bounds.  A pointer that may be null is an [option]; an out parameter is a
    further result.  Allocation, opening of files and devices, properties of
    the system and [errno] are arguments.  Code outside the repository
    (tinyalsa, plugin libraries, the build flavour) is a class or a record of
    functions, and what is assumed about it is a law of the class, shown to
    hold of a concrete instance.  Text written to the log is left out, and
    so is freeing memory at the end of a life cycle.

    Loops are structural where their bound is known.  Where a loop has fuel,
    the theorem supplies enough: [downline_loop] has 5 rounds, the number of
    retries of the code; [play_sound] has one round more than the whole
    blocks of the sound; [find_line] has the length of the text, of which
    every round consumes a line; [dec_digits] has ten digits, enough for a
    32-bit number; [tokens] has one round more than the characters of the
    text, of which every token uses one; [write_wait] has one poll more
    than the periods that are queued, after which the playback thread has
    made all the room it can, and with less room than the block needs the
    theorem shows [Blocked] for every fuel; [wait_stopped] has the 300
    polls of the code; [read_frames] of [BtCall] takes its fuel as an argument,
    and [in_read_frames] takes it from the field [e_fuel] of its environment;
    [parse_loop] has the 256 entries of the table, [discovery_loop] the two
    attempts of the code, [rediscover], [last_node] and [sub_buses] the 256
    values of their loop variable, [tool_loop] the length of the text, of
    which every round consumes a line.
    A loop that waits on the outside ([semwait_loop], [parse_file]) runs over
    the list of what the outside answers.  A loop that runs out of fuel is [Blocked], so that it can
    not be mistaken for success.

    ** What the theorems show

    - Ring buffer ([CircleBuf]): it refines a bounded byte queue with
      its mutex for every sequence of operations, blocks that leave the mutex
      held and the calls that then wait for ever included; round trip of write and read; creation; move
      between buffers; the write that returns with the mutex held, and the
      copy that forgets queued bytes.
    - Mixing ([Mix]): one period is, sample by sample, the sum of the ready
      buses in their slots, in wrapping 16-bit arithmetic, and consumes
      exactly one period of each.
    - DSP ([DspProofs]): every session is safe and keeps the caches in
      range; every status is determined by the arguments; round trips of
      switches and levels; volumes, offsets and mute masks as the card shows
      them; the retry loop and the start-up sound end with the right result.
    - Buses ([BusVolume]): every session is safe; the level of a bus,
      computed from volume, muting, chime, ducking and focus, reaches the one
      control of its slot; slots are lost when a taken slot is
      opened.
    - Microphones ([MicArray]): every sequence of reads whose moves of the
      cached bytes do not overlap delivers the recording without gap or
      repetition, and any other is undefined; errors empty the cache; which
      reads copy overlapping memory; stale samples after a restart; the card
      lookup.
    - Plugins ([PcmParams], [PcmPlugin], [SamplePlugin]): refinement is the
      intersection of intervals and masks; the selected configuration is
      consistent; the dispatcher implements a four-state machine; frames are
      transferred only after configuration and preparation; a cooperative
      plugin comes up; the dump and injection files of the sample plugin, and
      that it can never be configured.
    - Wrapper ([PcmWrapper]): a configuration reaches the plugin; the status
      of a read; a whole playback session; what happens without a plugin.
    - Streamer ([StreamerProofs], [StreamerData]): over all sequences of
      starts and standbys, while capture devices open and threads can be
      created and leave in time, the handles count their users and no device
      leaks; binding and probing refine a list of cards with their buses; a
      blocking write returns and appends its block exactly when the block
      fits beside the bytes that never make a whole period; what a capture round appends and
      what a timed read returns.
    - Extras ([AudioExtra]): widening and selecting slots is a round trip;
      the gain of slots equals its sample-wise definition; a wait ends at its
      deadline.
    - Remote service ([Remote], [OutputPath]): from the first command that
      finds the connection on, each packet is handed to one [write] in order,
      what the service gets is what the writes took, and the result of a
      [write] that failed is returned except by a stop; paths are started and stopped by their count of users.
    - Platform ([Platform], [PlatformInfo]): the table of cards follows hot
      plugging; the head set pins are crossed; routes at the start; slot maps
      are read as written; the description of the cards binds the buses as
      the abstract binding does.
    - Sharing ([SharingProofs]): the users of a destination are counted
      over mirrors between the seats, without the virtual device; a
      mirrored block is queued with the gain of the other seat; a round plays
      one period or loses what is queued.
    - Hands-free calls ([Hfp]): a call has exactly its two devices open,
      or an opening failed and the call is stuck for the rest of the session;
      a start that fails is never undone; the index of every volume.
    - Bluetooth calls ([BtCallProofs]): the start and the end of a call are
      balanced, together with all other users of the streamer; a resampler
      gets the recording without gap; a call that can not be opened.

    - Streams ([AudioHwProofs]): over all sequences of opening, waking, standby
      and closing of streams, on cards on which nothing fails, no device leaks
      and the handles of the streamer count the streams that play; the presentation position wraps before the
      first period has been played.
    - Device ([AudioDeviceProofs]): blocks written to the stream of a seat reach
      its device, with the gain, and the position counts their frames; a call
      is active exactly while the mode is the mode of calls, on a board with
      the Bluetooth chip on the SoC whose devices open; writes that can
      not start still count as written and leave the count of the path of the
      remote service too high; closing the recording of a call; levels of the
      gain of a port.
    - Plain HAL ([NormalHw]): in every session without the resampler of
      recordings writes and reads claim all their bytes and the open devices are accounted for, those of streams that were
      closed too early included; what a resampler does to a recording; the
      rates of a device.
    - Echo canceller ([Ecnr]): a session selects the first channels of every
      frame; which handlers are never freed.
    - What a stream supports ([StreamInfo]): lists of supported values stay
      free of duplicates and gaps; the reply with the rates can be read back.

    - A2B command list ([A2bConfigProofs]): the text of a command list is read
      back as its commands.
    - A2B setup ([A2bProofs]): the setup of the network performs exactly the
      commands of its table, whatever the bus answers; so from the file to
      the bus.
    - A2B faults ([A2bFault]): the check for faults refines a search and a
      rediscovery node by node; a bus whose nodes come back is without a
      fault afterwards.
    - A2B monitor ([A2bMonitor]): in every interleaving of works, interrupts
      and commands the bus stays watched and the mutex is released; a reset
      enables the interrupt once too often.
    - A2B commands ([A2bCommands]): the tables that the setup fills, entry
      by entry, from the command list; what a command writes; what probe and remove hold and give back.
    - A2B tool ([A2bTool]): the configuration of a bus behind a node arrives
      there; an include behind the last action of a list changes the entry of
      that action.

    Each property is preceded by a comment with its number.  Where the code
    does not do what it means to, the theorem states what it does.

    ** Not modelled

    The files that streams and calls dump to for debugging, functions of the
    devices that only return a constant, the list of microphones, and
    [adev_set_audio_param_config], whose body is switched off.

    Threads are modelled at the granularity of critical sections;
    interleavings inside a critical section and memory ordering are not
    modelled.  The C++ services around the HAL, with all of
    [audio_hal_bridge.cpp] but the two callbacks of ducking and muting, the vendored
    signal processing libraries and the near copy of the HAL in [hal/normal]
    are outside the scope.  Of the A2B driver, reports to the safety island
    and callbacks of the sound core without a body are left out; a work runs
    to its end before the next one starts.
    Of the tool, the generator of test tones, which computes with floating
    point numbers, and the format of the output are left out.
    The draft for several buses ([multi_bus.c]), which is not built, and the
    vendored stacks and tools beside the driver are outside the scope. *)

From stdpp Require Import base list numbers.
From Stdlib Require Import ZArith Lia.

#[global] Open Scope Z_scope.

(** ** Outcomes of C code *)

(** The result of running a piece of C: it returns, it waits for ever on a
    lock that nobody releases, it ends the process with [exit], or it has
    undefined behaviour (an access outside an object, a signed overflow, a
    division by zero, the use of an invalid pointer). *)
Inductive outcome (A : Type) : Type :=
| Done (a : A)
| Blocked
| Exited
| Undef.
Arguments Done {A} a.
Arguments Blocked {A}.
Arguments Exited {A}.
Arguments Undef {A}.

Definition obind {A B} (m : outcome A) (k : A -> outcome B) : outcome B :=
  match m with
  | Done a => k a
  | Blocked => Blocked
  | Exited => Exited
  | Undef => Undef
  end.

(** A stateful operation of C code over a state [S]. *)
Definition st (S A : Type) : Type := S -> outcome (A * S).

Definition sret {S A} (a : A) : st S A := fun s => Done (a, s).

Definition sbind {S A B} (m : st S A) (k : A -> st S B) : st S B :=
  fun s => obind (m s) (fun '(a, s') => k a s').

Definition sget {S} : st S S := fun s => Done (s, s).

Definition smodify {S} (f : S -> S) : st S unit := fun s => Done (tt, f s).

Definition slift {S A} (m : outcome A) : st S A :=
  fun s => obind m (fun a => Done (a, s)).

Declare Scope hal_scope.
Delimit Scope hal_scope with hal.

Notation "'let!' x := e 'in' k" := (obind e (fun x => k))
  (at level 10, x pattern, e at level 100, k at level 200,
   format "'[v' let!  x  :=  e  'in'  '/' k ']'") : hal_scope.
Notation "'do!' x := e 'in' k" := (sbind e (fun x => k))
  (at level 10, x pattern, e at level 100, k at level 200,
   format "'[v' do!  x  :=  e  'in'  '/' k ']'") : hal_scope.
#[global] Open Scope hal_scope.

(** ** Machine integers *)

Definition INT32_MIN : Z := -2147483648.
Definition INT32_MAX : Z := 2147483647.
Definition UINT32_MAX : Z := 4294967295.

(** Signed 32-bit arithmetic: a result outside the type is undefined. *)
Definition i32 (z : Z) : outcome Z :=
  if (INT32_MIN <=? z) && (z <=? INT32_MAX) then Done z else Undef.

(** Unsigned 32-bit arithmetic wraps around. *)
Definition u32 (z : Z) : Z := z mod 4294967296.

(** Conversion of a 32-bit pattern to [int]. *)
Definition s32 (z : Z) : Z :=
  let w := u32 z in if w <=? INT32_MAX then w else w - 4294967296.

Definition is_i32 (z : Z) : Prop := INT32_MIN <= z <= INT32_MAX.
Definition is_u32 (z : Z) : Prop := 0 <= z <= UINT32_MAX.

(** ** Error numbers of the Linux ABI *)

Definition ENOENT : Z := 2.
Definition EIO : Z := 5.
Definition ENOMEM : Z := 12.
Definition EFAULT : Z := 14.
Definition ENODEV : Z := 19.
Definition EINVAL : Z := 22.
Definition EPIPE : Z := 32.
Definition EBADFD : Z := 77.

(** ** Buffers *)

Definition zlen {A} (l : list A) : Z := Z.of_nat (length l).

Definition zslice {A} (l : list A) (off n : Z) : list A :=
  take (Z.to_nat n) (drop (Z.to_nat off) l).

Definition splice {A} (l : list A) (off : nat) (bs : list A) : list A :=
  take off l ++ bs ++ drop (off + length bs) l.

(** Reading [n] elements at [off]; a count that is negative as an [int] is a
    huge [size_t], so it leaves the object. *)
Definition mem_read {A} (l : list A) (off n : Z) : outcome (list A) :=
  if (0 <=? off) && (0 <=? n) && (off + n <=? zlen l)
  then Done (zslice l off n) else Undef.

Definition mem_write {A} (l : list A) (off : Z) (bs : list A) : outcome (list A) :=
  if (0 <=? off) && (off + zlen bs <=? zlen l)
  then Done (splice l (Z.to_nat off) bs) else Undef.

(** [memcpy (dst + doff, src + soff, n)] between two distinct objects. *)
Definition memcpy {A} (dst : list A) (doff : Z) (src : list A) (soff n : Z)
  : outcome (list A) :=
  let! bs := mem_read src soff n in mem_write dst doff bs.

(** An element of a C array, by its index. *)
Definition array_get {A} (l : list A) (i : Z) : outcome A :=
  if 0 <=? i then match l !! Z.to_nat i with Some a => Done a | None => Undef end else Undef.

Definition array_set {A} (l : list A) (i : Z) (a : A) : outcome (list A) :=
  if (0 <=? i) && (i <? zlen l) then Done (<[Z.to_nat i := a]> l) else Undef.

(** ** Specifications of stateful operations *)

(** [run_spec F m Q s]: if [m] returns from [s], its result and final state
    satisfy [Q]; if it does not return, [F] holds.  [wlp] is partial, [wp]
    total correctness. *)
Definition run_spec {S A} (F : Prop) (m : st S A) (Q : A -> S -> Prop) (s : S) : Prop :=
  match m s with
  | Done (a, s') => Q a s'
  | _ => F
  end.

Definition wlp {S A} : st S A -> (A -> S -> Prop) -> S -> Prop := run_spec True.
Definition wp {S A} : st S A -> (A -> S -> Prop) -> S -> Prop := run_spec False.

(** ** Lemmas *)

Create HintDb hal.

Lemma run_bind {S A B} (F : Prop) (m : st S A) (k : A -> st S B) Q s :
  run_spec F m (fun a => run_spec F (k a) Q) s -> run_spec F (sbind m k) Q s.
Proof. unfold run_spec, sbind. by destruct (m s) as [[a s']| | |]. Qed.

Lemma run_ret {S A} (F : Prop) (a : A) (Q : A -> S -> Prop) s :
  Q a s -> run_spec F (sret a) Q s.
Proof. done. Qed.

Lemma run_get {S} (F : Prop) (Q : S -> S -> Prop) s : Q s s -> run_spec F sget Q s.
Proof. done. Qed.

Lemma run_modify {S} (F : Prop) (f : S -> S) (Q : unit -> S -> Prop) s :
  Q tt (f s) -> run_spec F (smodify f) Q s.
Proof. done. Qed.

Lemma run_lift {S A} (F : Prop) (m : outcome A) (Q : A -> S -> Prop) s :
  match m with Done a => Q a s | _ => F end -> run_spec F (slift m) Q s.
Proof. unfold run_spec, slift. by destruct m. Qed.

Lemma run_mono {S A} (F : Prop) (m : st S A) (Q Q' : A -> S -> Prop) s :
  run_spec F m Q s -> (forall a s', Q a s' -> Q' a s') -> run_spec F m Q' s.
Proof. unfold run_spec. destruct (m s) as [[a s']| | |]; eauto. Qed.

Lemma wlp_elim {S A} (m : st S A) Q s a s' : wlp m Q s -> m s = Done (a, s') -> Q a s'.
Proof. unfold wlp, run_spec. intros H E. by rewrite E in H. Qed.

Lemma wp_elim {S A} (m : st S A) Q s :
  wp m Q s -> exists a s', m s = Done (a, s') /\ Q a s'.
Proof. unfold wp, run_spec. destruct (m s) as [[a s']| | |]; [eauto|done..]. Qed.

Lemma zlen_nonneg {A} (l : list A) : 0 <= zlen l.
Proof. unfold zlen; lia. Qed.
#[export] Hint Resolve zlen_nonneg : hal.

Lemma obind_done {A B} (m : outcome A) (k : A -> outcome B) (b : B) :
  obind m k = Done b -> exists a, m = Done a /\ k a = Done b.
Proof. destruct m; simpl; try discriminate. eauto. Qed.

Lemma i32_inv (z w : Z) : i32 z = Done w -> w = z /\ is_i32 z.
Proof.
  unfold i32, is_i32. destruct (INT32_MIN <=? z) eqn:E1; [|discriminate].
  destruct (z <=? INT32_MAX) eqn:E2; [|discriminate]. simpl.
  apply Z.leb_le in E1. apply Z.leb_le in E2. intros [= ->]. auto.
Qed.

Lemma i32_done (z : Z) : is_i32 z -> i32 z = Done z.
Proof.
  intros [H1 H2]. unfold i32.
  apply Z.leb_le in H1. apply Z.leb_le in H2. by rewrite H1, H2.
Qed.

Lemma u32_small (z : Z) : is_u32 z -> u32 z = z.
Proof. unfold is_u32, UINT32_MAX, u32. intros. apply Z.mod_small. lia. Qed.

Lemma u32_range (z : Z) : is_u32 (u32 z).
Proof. unfold is_u32, UINT32_MAX, u32. pose proof (Z.mod_pos_bound z 4294967296). lia. Qed.

Lemma s32_small (z : Z) : 0 <= z <= INT32_MAX -> s32 z = z.
Proof.
  intros H. unfold s32. rewrite u32_small by (unfold is_u32, UINT32_MAX, INT32_MAX in *; lia).
  destruct (z <=? INT32_MAX) eqn:E; [done|]. apply Z.leb_gt in E. lia.
Qed.

Lemma length_zslice {A} (l : list A) (off n : Z) :
  0 <= off -> 0 <= n -> off + n <= zlen l -> length (zslice l off n) = Z.to_nat n.
Proof. unfold zslice, zlen. intros. rewrite length_take, length_drop. lia. Qed.

Lemma length_splice {A} (l : list A) (off : nat) (bs : list A) :
  (off + length bs <= length l)%nat -> length (splice l off bs) = length l.
Proof.
  unfold splice. intros. rewrite !length_app, length_take, length_drop. lia.
Qed.

Lemma lookup_splice {A} (l : list A) (off : nat) (bs : list A) (i : nat) :
  (off + length bs <= length l)%nat ->
  splice l off bs !! i =
    if decide (off <= i < off + length bs)%nat then bs !! (i - off)%nat else l !! i.
Proof.
  intros H. unfold splice. case_decide.
  - rewrite lookup_app_r; rewrite length_take; [|lia].
    rewrite lookup_app_l by lia. f_equal; lia.
  - destruct (decide (i < off)%nat).
    + rewrite lookup_app_l by (rewrite length_take; lia).
      by rewrite lookup_take_lt.
    + rewrite lookup_app_r; rewrite length_take; [|lia].
      rewrite lookup_app_r by lia. rewrite lookup_drop. f_equal; lia.
Qed.

Lemma lookup_zslice {A} (l : list A) (off n : Z) (i : nat) :
  0 <= off -> (i < Z.to_nat n)%nat -> zslice l off n !! i = l !! (Z.to_nat off + i)%nat.
Proof. intros. unfold zslice. rewrite lookup_take_lt by lia. by rewrite lookup_drop. Qed.

Lemma zlen_app {A} (l k : list A) : zlen (l ++ k) = zlen l + zlen k.
Proof. unfold zlen. rewrite length_app. lia. Qed.

Lemma zslice_all {A} (l : list A) : zslice l 0 (zlen l) = l.
Proof. unfold zslice, zlen. rewrite Nat2Z.id. rewrite drop_0. by apply firstn_all. Qed.

Lemma mem_read_done {A} (l : list A) (off n : Z) :
  0 <= off -> 0 <= n -> off + n <= zlen l -> mem_read l off n = Done (zslice l off n).
Proof.
  intros H1 H2 H3. unfold mem_read.
  apply Z.leb_le in H1. apply Z.leb_le in H2. apply Z.leb_le in H3. by rewrite H1, H2, H3.
Qed.

Lemma mem_write_done {A} (l : list A) (off : Z) (bs : list A) :
  0 <= off -> off + zlen bs <= zlen l ->
  mem_write l off bs = Done (splice l (Z.to_nat off) bs).
Proof.
  intros H1 H2. unfold mem_write.
  apply Z.leb_le in H1. apply Z.leb_le in H2. by rewrite H1, H2.
Qed.

Lemma zlen_zslice {A} (l : list A) (off n : Z) :
  0 <= off -> 0 <= n -> off + n <= zlen l -> zlen (zslice l off n) = n.
Proof. intros. unfold zlen at 1. rewrite length_zslice by done. lia. Qed.

Lemma memcpy_done {A} (dst : list A) (doff : Z) (src : list A) (soff n : Z) :
  0 <= doff -> 0 <= soff -> 0 <= n -> soff + n <= zlen src -> doff + n <= zlen dst ->
  memcpy dst doff src soff n = Done (splice dst (Z.to_nat doff) (zslice src soff n)).
Proof.
  intros. unfold memcpy. rewrite mem_read_done by done. simpl.
  apply mem_write_done; [done|]. by rewrite zlen_zslice.
Qed.

Lemma zlen_splice {A} (l : list A) (off : Z) (bs : list A) :
  0 <= off -> off + zlen bs <= zlen l -> zlen (splice l (Z.to_nat off) bs) = zlen l.
Proof. unfold zlen. intros. rewrite length_splice by lia. done. Qed.

Lemma splice_nil {A} (l : list A) (off : nat) : splice l off [] = l.
Proof. unfold splice. simpl. rewrite Nat.add_0_r. apply take_drop. Qed.

Lemma splice_splice {A} (l : list A) (off : nat) (b1 b2 : list A) :
  (off + length b1 + length b2 <= length l)%nat ->
  splice (splice l off b1) (off + length b1) b2 = splice l off (b1 ++ b2).
Proof.
  intros H. apply list_eq. intros i.
  rewrite !lookup_splice by (rewrite ?length_splice, ?length_app; lia).
  rewrite length_app.
  repeat case_decide; try lia; try done.
  - rewrite lookup_app_r by lia. f_equal; lia.
  - rewrite lookup_app_l by lia. done.
Qed.

Lemma splice_all {A} (l bs : list A) : length bs = length l -> splice l 0 bs = bs.
Proof. intros E. unfold splice. simpl. rewrite E, drop_all. apply app_nil_r. Qed.

Lemma take_splice_0 {A} (l bs : list A) (n : nat) :
  n = length bs -> take n (splice l 0 bs) = bs.
Proof. intros ->. unfold splice. simpl. apply take_app_length. Qed.

Lemma array_get_done {A} `{Inhabited A} (l : list A) (i : Z) :
  0 <= i < zlen l -> array_get l i = Done (l !!! Z.to_nat i).
Proof.
  intros [H1 H2]. unfold array_get, zlen in *. rewrite (proj2 (Z.leb_le _ _) H1).
  destruct (lookup_lt_is_Some_2 l (Z.to_nat i)) as [a E]; [lia|].
  by rewrite E, (list_lookup_total_correct _ _ _ E).
Qed.

Lemma array_get_lookup {A} (l : list A) (i : Z) (a : A) :
  0 <= i -> l !! Z.to_nat i = Some a -> array_get l i = Done a.
Proof. intros I E. unfold array_get. by rewrite (proj2 (Z.leb_le 0 i) I), E. Qed.

Lemma array_set_done {A} (l : list A) (i : Z) (a : A) :
  0 <= i < zlen l -> array_set l i a = Done (<[Z.to_nat i := a]> l).
Proof.
  intros [H1 H2]. unfold array_set. by rewrite (proj2 (Z.leb_le _ _) H1), (proj2 (Z.ltb_lt _ _) H2).
Qed.

(** ** Tactics *)

(** Turns boolean comparisons in the context into propositions and splits
    the first conditional of the goal. *)
Ltac zbool :=
  repeat match goal with
  | H : (_ <=? _) = true |- _ => apply Z.leb_le in H
  | H : (_ <=? _) = false |- _ => apply Z.leb_gt in H
  | H : (_ <? _) = true |- _ => apply Z.ltb_lt in H
  | H : (_ <? _) = false |- _ => apply Z.ltb_ge in H
  | H : (_ =? _) = true |- _ => apply Z.eqb_eq in H
  | H : (_ =? _) = false |- _ => apply Z.eqb_neq in H
  | H : (_ >? _) = _ |- _ => rewrite Z.gtb_ltb in H
  | H : (_ >=? _) = _ |- _ => rewrite Z.geb_leb in H
  end.

Ltac zif :=
  match goal with
  | |- context [if ?b then _ else _] =>
      lazymatch type of b with bool => destruct b eqn:?; zbool end
  end.

(** Computes the lengths of slices and spliced buffers; the bounds are left
    to [lia]. *)
Ltac zlens :=
  repeat first
    [ rewrite zlen_zslice by lia
    | rewrite zlen_splice by (zlens; lia) ].

(** Inverts a chain of binds that returned. *)
Ltac obinv H :=
  apply obind_done in H;
  let a := fresh "a" in let E := fresh "E" in destruct H as (a & E & H).

(** One step of symbolic execution of a stateful operation. *)
Ltac run_step :=
  lazymatch goal with
  | |- run_spec _ (sbind _ _) _ _ => apply run_bind
  | |- run_spec _ (sret _) _ _ => apply run_ret
  | |- run_spec _ sget _ _ => apply run_get; cbv beta
  | |- run_spec _ (smodify _) _ _ => apply run_modify; cbv beta
  | |- run_spec _ (slift _) _ _ => apply run_lift
  | |- run_spec _ (let '(_, _) := ?x in _) _ _ => destruct x
  | |- run_spec _ (if ?b then _ else _) _ _ => destruct b eqn:?
  | |- run_spec _ (match ?x with Some _ => _ | None => _ end) _ _ => destruct x eqn:?
  end.
