(* ===== verification/CircleBuf.v ===== *)
(** * The byte ring buffer of the HAL

    Models [audio_extra/ext_circlebuffer.c]: the ring buffer through which
    the stream threads of the HAL pass PCM data.  [circlebuf_s] is the C
    structure with the mutex reduced to the flag "held"; every operation is
    one critical section.  Caller memory is a list of bytes and an offset,
    and each [memcpy] is checked against the bounds of both objects. *)

From stdpp Require Import base list numbers.
From Stdlib Require Import ZArith Lia.
From S2P Require Import Prelude.

(** ** Data *)

Record circlebuf_s := {
  data : list Z;
  size : Z;
  used : Z;
  read_offset : Z;
  write_offset : Z;
  over_write : bool;
  chann : Z;
  fmt : Z;
  rate : Z;
  lock : bool
}.

Definition set_data (d : list Z) (rb : circlebuf_s) : circlebuf_s :=
  {| data := d; size := rb.(size); used := rb.(used);
     read_offset := rb.(read_offset); write_offset := rb.(write_offset);
     over_write := rb.(over_write); chann := rb.(chann); fmt := rb.(fmt);
     rate := rb.(rate); lock := rb.(lock) |}.

Definition set_used (u : Z) (rb : circlebuf_s) : circlebuf_s :=
  {| data := rb.(data); size := rb.(size); used := u;
     read_offset := rb.(read_offset); write_offset := rb.(write_offset);
     over_write := rb.(over_write); chann := rb.(chann); fmt := rb.(fmt);
     rate := rb.(rate); lock := rb.(lock) |}.

Definition set_read_offset (o : Z) (rb : circlebuf_s) : circlebuf_s :=
  {| data := rb.(data); size := rb.(size); used := rb.(used);
     read_offset := o; write_offset := rb.(write_offset);
     over_write := rb.(over_write); chann := rb.(chann); fmt := rb.(fmt);
     rate := rb.(rate); lock := rb.(lock) |}.

Definition set_write_offset (o : Z) (rb : circlebuf_s) : circlebuf_s :=
  {| data := rb.(data); size := rb.(size); used := rb.(used);
     read_offset := rb.(read_offset); write_offset := o;
     over_write := rb.(over_write); chann := rb.(chann); fmt := rb.(fmt);
     rate := rb.(rate); lock := rb.(lock) |}.

Definition set_lock (l : bool) (rb : circlebuf_s) : circlebuf_s :=
  {| data := rb.(data); size := rb.(size); used := rb.(used);
     read_offset := rb.(read_offset); write_offset := rb.(write_offset);
     over_write := rb.(over_write); chann := rb.(chann); fmt := rb.(fmt);
     rate := rb.(rate); lock := l |}.

(** A non-recursive mutex: locking a mutex that is held waits for its owner. *)
Definition pthread_mutex_lock (rb : circlebuf_s) : outcome circlebuf_s :=
  if rb.(lock) then Blocked else Done (set_lock true rb).

Definition pthread_mutex_unlock (rb : circlebuf_s) : circlebuf_s := set_lock false rb.

(** ** Creation *)

Definition AUDIO_CIRCLEBUF_DEFAULT_SIZE : Z := 4096.
Definition OUT_PERIOD_MS : Z := 20.

Section Create.
  (** The C allocator: [calloc_ok] says whether the header can be allocated,
      [malloc n] is the (uninitialised) block for [n] bytes, if any. *)
  Variable calloc_ok : bool.
  Variable malloc : Z -> option (list Z).
  (** [pcm_format_to_bits] of tinyalsa. *)
  Variable pcm_format_to_bits : Z -> Z.

(** The argument of [malloc] is a [size_t]. *)
Definition size_t (n : Z) : Z := n mod 18446744073709551616.

Definition audio_circlebuf_create (sz : Z) : option circlebuf_s :=
  if calloc_ok then
    let sz := if sz =? 0 then AUDIO_CIRCLEBUF_DEFAULT_SIZE else sz in
    match malloc (size_t sz) with
    | None => None
    | Some d =>
        Some {| data := d; size := sz; used := 0; read_offset := 0; write_offset := 0;
                over_write := false; chann := 0; fmt := 0; rate := 0; lock := false |}
    end
  else None.

Definition MIX_THRESHOLD_BYTES_BY_RATE (ch format rt : Z) : Z :=
  u32 (u32 (ch * Z.shiftr (pcm_format_to_bits format) 3) * u32 (rt * OUT_PERIOD_MS)) / 1000.

Definition audio_circlebuf_create_pcm (channel format rt len : Z) : option circlebuf_s :=
  let sz := s32 (MIX_THRESHOLD_BYTES_BY_RATE channel format rt * len) in
  if calloc_ok then
    let sz := if sz =? 0 then AUDIO_CIRCLEBUF_DEFAULT_SIZE else sz in
    match malloc (size_t sz) with
    | None => None
    | Some d =>
        Some {| data := d; size := sz; used := 0; read_offset := 0; write_offset := 0;
                over_write := false; chann := s32 channel; fmt := format; rate := rt;
                lock := false |}
    end
  else None.
End Create.

(** ** Operations *)

Definition audio_circlebuf_set_over_write (rb : circlebuf_s) (ov : bool) : circlebuf_s :=
  {| data := rb.(data); size := rb.(size); used := rb.(used);
     read_offset := rb.(read_offset); write_offset := rb.(write_offset);
     over_write := ov; chann := rb.(chann); fmt := rb.(fmt);
     rate := rb.(rate); lock := rb.(lock) |}.

Definition audio_circlebuf_is_over_write (rb : circlebuf_s) : bool := rb.(over_write).

Definition audio_circlebuf_skip (rb : circlebuf_s) (sz : Z) : outcome circlebuf_s :=
  if sz >=? rb.(used) then
    Done (set_used 0 (set_read_offset rb.(write_offset) rb))
  else
    let! u := i32 (rb.(used) - sz) in
    let rb := set_used u rb in
    let! to_end := i32 (rb.(size) - rb.(read_offset)) in
    if sz >? to_end then
      let! sz := i32 (sz - to_end) in
      Done (set_read_offset sz rb)
    else
      let! ro := i32 (rb.(read_offset) + sz) in
      Done (set_read_offset ro rb).

(** [out] is the object the caller's pointer is in, [ooff] its offset there. *)
Definition audio_circlebuf_read (rb : option circlebuf_s) (out : list Z) (ooff sz : Z)
  : outcome (Z * option circlebuf_s * list Z) :=
  match rb with
  | None => Done (- EINVAL, None, out)
  | Some rb =>
      let! rb := pthread_mutex_lock rb in
      let read_size := if sz >? rb.(used) then rb.(used) else sz in
      let! to_end := i32 (rb.(size) - rb.(read_offset)) in
      let! (rb, out) :=
        (if read_size >? to_end then
           let! out := memcpy out ooff rb.(data) rb.(read_offset) to_end in
           let! start_size := i32 (read_size - to_end) in
           let! out := memcpy out (ooff + to_end) rb.(data) 0 start_size in
           Done (set_read_offset start_size rb, out)
         else
           let! out := memcpy out ooff rb.(data) rb.(read_offset) read_size in
           let! ro := i32 (rb.(read_offset) + read_size) in
           Done (set_read_offset ro rb, out)) in
      let! u := i32 (rb.(used) - read_size) in
      Done (read_size, Some (pthread_mutex_unlock (set_used u rb)), out)
  end.

(** [in_] is the caller's object, seen from the pointer it passes. *)
Definition audio_circlebuf_write (rb : option circlebuf_s) (in_ : option (list Z)) (sz : Z)
  : outcome (Z * option circlebuf_s) :=
  match rb, in_ with
  | None, _ | _, None => Done (0, rb)
  | Some rb, Some inp =>
    if sz =? 0 then Done (0, Some rb) else
    let! rb := pthread_mutex_lock rb in
    let! available_size := i32 (rb.(size) - rb.(used)) in
    let! to_end := i32 (rb.(size) - rb.(write_offset)) in
    let write_size := if sz >? available_size then available_size else sz in
    if (write_size <? sz) && rb.(over_write) && (sz >? rb.(size)) then
      (* the early return leaves the mutex held *)
      let write_size := rb.(size) in
      let! skip := i32 (sz - write_size) in
      let rb := set_write_offset 0 (set_read_offset 0 rb) in
      let! d := memcpy rb.(data) 0 inp skip write_size in
      Done (sz, Some (set_used write_size (set_data d rb)))
    else
      let! (rb, write_size) :=
        (if (write_size <? sz) && rb.(over_write) then
           let! diff := i32 (sz - write_size) in
           let! ro := i32 (rb.(read_offset) + diff) in
           let! write_size := i32 (write_size + diff) in
           let! ro := (if ro >=? rb.(size) then i32 (ro - rb.(size)) else Done ro) in
           let! u := i32 (rb.(used) - diff) in
           Done (set_used u (set_read_offset ro rb), write_size)
         else Done (rb, write_size)) in
      let! rb :=
        (if write_size >? to_end then
           let! d := memcpy rb.(data) rb.(write_offset) inp 0 to_end in
           let! from_start := i32 (write_size - to_end) in
           let! d := memcpy d 0 inp to_end from_start in
           Done (set_write_offset from_start (set_data d rb))
         else
           let! d := memcpy rb.(data) rb.(write_offset) inp 0 write_size in
           let! wo := i32 (rb.(write_offset) + write_size) in
           Done (set_write_offset wo (set_data d rb))) in
      let! u := i32 (rb.(used) + write_size) in
      Done (write_size, Some (pthread_mutex_unlock (set_used u rb)))
  end.

Definition audio_circlebuf_used (rb : circlebuf_s) : Z := rb.(used).
Definition audio_circlebuf_size (rb : circlebuf_s) : Z := rb.(size).
Definition audio_circlebuf_available (rb : circlebuf_s) : outcome Z :=
  i32 (rb.(size) - rb.(used)).

Definition audio_circlebuf_clear (rb : circlebuf_s) : circlebuf_s :=
  set_used 0 (set_read_offset 0 (set_write_offset 0 rb)).

Definition audio_circlebuf_get_ch (rb : option circlebuf_s) : Z :=
  match rb with None => - EINVAL | Some rb => rb.(chann) end.

Definition audio_circlebuf_get_fmt (rb : option circlebuf_s) : Z :=
  match rb with None => - EINVAL | Some rb => rb.(fmt) end.

(** [audio_circlebuf_copy_internal] for two distinct buffers; [move] is the
    flag of the C function. *)
Definition audio_circlebuf_copy_internal (src dst : option circlebuf_s) (len : Z) (move : bool)
  : outcome (Z * option circlebuf_s * option circlebuf_s) :=
  match src, dst with
  | Some src, Some dst =>
    if len =? 0 then Done (0, Some src, Some dst) else
    let! to_copy := audio_circlebuf_available dst in
    let to_copy := if len <? to_copy then len else to_copy in
    let available := audio_circlebuf_used src in
    let to_copy := if available <? to_copy then available else to_copy in
    let! contiguous :=
      (if dst.(write_offset) >? dst.(read_offset)
       then i32 (dst.(size) - dst.(write_offset))
       else i32 (dst.(read_offset) - dst.(write_offset))) in
    let! (src, dst) :=
      (if contiguous >=? to_copy then
         let! (src, dst) :=
           (if move then
              let! (_, src, d) :=
                audio_circlebuf_read (Some src) dst.(data) dst.(write_offset) to_copy in
              Done (src, set_data d dst)
            else if src.(read_offset) <? src.(write_offset) then
              let! d := memcpy dst.(data) dst.(write_offset) src.(data) src.(read_offset) to_copy in
              Done (Some src, set_data d dst)
            else
              let! to_end := i32 (src.(size) - src.(read_offset)) in
              let! d := memcpy dst.(data) dst.(write_offset) src.(data) src.(read_offset) to_end in
              let! wo := i32 (dst.(write_offset) + to_end) in
              let! rest := i32 (to_copy - to_end) in
              let! d := memcpy d wo src.(data) 0 rest in
              Done (Some src, set_write_offset wo (set_data d dst))) in
         let! wo := i32 (dst.(write_offset) + to_copy) in
         Done (src, set_write_offset wo dst)
       else
         let! remainder := i32 (to_copy - contiguous) in
         let! (src, dst) :=
           (if move then
              let! (_, src, d) :=
                audio_circlebuf_read (Some src) dst.(data) dst.(write_offset) contiguous in
              let! (_, src, d) := audio_circlebuf_read src d 0 remainder in
              Done (src, set_data d dst)
            else if src.(read_offset) <? src.(write_offset) then
              let! d := memcpy dst.(data) dst.(write_offset) src.(data) src.(read_offset) contiguous in
              let! d := memcpy d 0 src.(data) (src.(read_offset) + contiguous) remainder in
              Done (Some src, set_data d dst)
            else
              let! to_end := i32 (src.(size) - src.(read_offset)) in
              if to_end >? contiguous then
                (* the source index is taken from [dst], as in the C code *)
                let! d := memcpy dst.(data) dst.(write_offset) src.(data) dst.(read_offset) contiguous in
                let! diff := i32 (to_end - contiguous) in
                if diff >? remainder then
                  let! d := memcpy d 0 src.(data) (dst.(read_offset) + contiguous) remainder in
                  Done (Some src, set_data d dst)
                else
                  let! d := memcpy d 0 src.(data) (dst.(read_offset) + contiguous) diff in
                  let! rest := i32 (remainder - diff) in
                  let! d := memcpy d diff src.(data) 0 rest in
                  Done (Some src, set_data d dst)
              else
                let! d := memcpy dst.(data) dst.(write_offset) src.(data) dst.(read_offset) to_end in
                let! diff := i32 (contiguous - to_end) in
                if diff =? 0 then Done (Some src, set_data d dst)
                else
                  let! d := memcpy d (dst.(write_offset) + to_end) src.(data) 0 diff in
                  let! d := memcpy d 0 src.(data) diff remainder in
                  Done (Some src, set_data d dst)) in
         Done (src, set_write_offset remainder dst)) in
    Done (to_copy, src, Some (set_used to_copy dst))
  | _, _ => Done (0, src, dst)
  end.

Definition audio_circlebuf_move (src dst : option circlebuf_s) (len : Z) :=
  audio_circlebuf_copy_internal src dst len true.

Definition audio_circlebuf_copy (src dst : option circlebuf_s) (len : Z) :=
  audio_circlebuf_copy_internal src dst len false.

(** ** Well-formedness and abstract contents *)

(** Offsets run up to and including [size]: the code wraps an offset only
    when it moves past the end, so 0 and [size] denote the same place and
    the three offsets agree modulo [size]. *)
Record wf (rb : circlebuf_s) : Prop := {
  wf_size : 0 < rb.(size) <= INT32_MAX;
  wf_data : zlen rb.(data) = rb.(size);
  wf_used : 0 <= rb.(used) <= rb.(size);
  wf_ro : 0 <= rb.(read_offset) <= rb.(size);
  wf_wo : 0 <= rb.(write_offset) <= rb.(size);
  wf_link : rb.(read_offset) + rb.(used) - rb.(write_offset) = 0
            \/ rb.(read_offset) + rb.(used) - rb.(write_offset) = rb.(size)
            \/ rb.(read_offset) + rb.(used) - rb.(write_offset) = - rb.(size)
}.

Definition unlocked (rb : circlebuf_s) : Prop := rb.(lock) = false.

(** [u] bytes of [d] from index [ro], continuing at the start of [d]. *)
Definition window (ro u : Z) (d : list Z) : list Z :=
  take (Z.to_nat u) (drop (Z.to_nat ro) d ++ d).

(** The bytes a reader will get, in order. *)
Definition contents (rb : circlebuf_s) : list Z :=
  window rb.(read_offset) rb.(used) rb.(data).

Lemma lookup_window (ro u : Z) (d : list Z) (i : nat) :
  0 <= ro <= zlen d -> Z.of_nat i < u <= zlen d ->
  window ro u d !! i =
    if decide (ro + Z.of_nat i < zlen d)
    then d !! Z.to_nat (ro + Z.of_nat i)
    else d !! Z.to_nat (ro + Z.of_nat i - zlen d).
Proof.
  unfold zlen, window. intros Hro Hu. rewrite lookup_take_lt by lia. case_decide.
  - rewrite lookup_app_l by (rewrite length_drop; lia). rewrite lookup_drop. f_equal. lia.
  - rewrite lookup_app_r by (rewrite length_drop; lia).
    rewrite length_drop. f_equal. lia.
Qed.

Lemma length_window (ro u : Z) (d : list Z) :
  0 <= ro <= zlen d -> u <= zlen d -> length (window ro u d) = Z.to_nat u.
Proof.
  unfold zlen, window. intros. rewrite length_take, length_app, length_drop. lia.
Qed.

Lemma window_ext (ro u : Z) (d l : list Z) :
  0 <= ro <= zlen d -> 0 <= u <= zlen d ->
  zlen l = u ->
  (forall i, Z.of_nat i < u ->
     l !! i = if decide (ro + Z.of_nat i < zlen d)
              then d !! Z.to_nat (ro + Z.of_nat i)
              else d !! Z.to_nat (ro + Z.of_nat i - zlen d)) ->
  window ro u d = l.
Proof.
  intros Hro Hu Hl H. apply list_eq_same_length with (length l).
  - done.
  - rewrite length_window by lia. unfold zlen in Hl. lia.
  - intros i x y Hi Hx Hy. unfold zlen in Hl.
    rewrite lookup_window in Hx by lia. rewrite H in Hy by lia. congruence.
Qed.

Lemma window_take (ro u n : Z) (d : list Z) :
  0 <= n <= u -> take (Z.to_nat n) (window ro u d) = window ro n d.
Proof. intros. unfold window. rewrite take_take. f_equal. lia. Qed.

(** Moving the start of the window forward, with or without wrapping. *)
Lemma window_drop (ro u n ro' : Z) (d : list Z) :
  0 <= ro <= zlen d -> 0 <= n <= u -> u <= zlen d -> 0 <= ro' <= zlen d ->
  ro' = ro + n \/ ro' = ro + n - zlen d ->
  window ro' (u - n) d = drop (Z.to_nat n) (window ro u d).
Proof.
  intros Hro Hn Hu Hro' Hadv. apply window_ext; [done|lia| |].
  - unfold zlen at 1. rewrite length_drop, length_window by lia. lia.
  - intros i Hi. rewrite lookup_drop, lookup_window by lia.
    repeat case_decide; try (f_equal; lia).
Qed.

(** What a write of [bs] at [wo] leaves in the storage, as the two copies of
    [audio_circlebuf_write] produce it. *)
Definition put (wo : Z) (bs : list Z) (d : list Z) : list Z :=
  let to_end := zlen d - wo in
  if zlen bs >? to_end then
    splice (splice d (Z.to_nat wo) (zslice bs 0 to_end)) 0 (zslice bs to_end (zlen bs - to_end))
  else splice d (Z.to_nat wo) bs.

Lemma zlen_put (wo : Z) (bs d : list Z) :
  0 <= wo <= zlen d -> zlen bs <= zlen d -> zlen (put wo bs d) = zlen d.
Proof.
  intros. pose proof (zlen_nonneg bs). unfold put. zif.
  - change 0%nat with (Z.to_nat 0). zlens. done.
  - zlens. done.
Qed.

Lemma lookup_put (wo : Z) (bs d : list Z) (p : nat) :
  0 <= wo <= zlen d -> zlen bs <= zlen d -> Z.of_nat p < zlen d ->
  put wo bs d !! p =
    let k := if decide (wo <= Z.of_nat p) then Z.of_nat p - wo
             else Z.of_nat p + zlen d - wo in
    if decide (k < zlen bs) then bs !! Z.to_nat k else d !! p.
Proof.
  intros Hwo Hbs Hp. unfold put. zif.
  - assert (length (zslice bs 0 (zlen d - wo)) = Z.to_nat (zlen d - wo)) as E1
      by (rewrite length_zslice; lia).
    assert (length (zslice bs (zlen d - wo) (zlen bs - (zlen d - wo)))
            = Z.to_nat (zlen bs - (zlen d - wo))) as E2 by (rewrite length_zslice; lia).
    unfold zlen in *.
    rewrite lookup_splice by (rewrite length_splice; lia).
    rewrite lookup_splice by lia. simpl. rewrite E1, E2.
    repeat case_decide; try lia; try done.
    + rewrite lookup_zslice by lia. f_equal; lia.
    + rewrite lookup_zslice by lia. f_equal; lia.
  - unfold zlen in *. rewrite lookup_splice by lia. simpl.
    repeat case_decide; try lia; try done. f_equal; lia.
Qed.

(** A write into the free part appends to the contents. *)
Lemma window_put (ro u wo : Z) (bs d : list Z) :
  0 <= ro <= zlen d -> 0 <= u -> u + zlen bs <= zlen d -> 0 <= wo <= zlen d ->
  ro + u - wo = 0 \/ ro + u - wo = zlen d \/ ro + u - wo = - zlen d ->
  window ro (u + zlen bs) (put wo bs d) = window ro u d ++ bs.
Proof.
  intros Hro Hu Hfit Hwo Hlink. pose proof (zlen_nonneg bs).
  apply window_ext; rewrite ?zlen_put by lia; [done|lia| |].
  - unfold zlen at 1. rewrite length_app, length_window by lia. unfold zlen. lia.
  - intros i Hi.
    assert (forall p, 0 <= p < zlen d ->
      put wo bs d !! Z.to_nat p =
        let k := if decide (wo <= p) then p - wo else p + zlen d - wo in
        if decide (k < zlen bs) then bs !! Z.to_nat k else d !! Z.to_nat p) as Hput.
    { intros p Hpr. rewrite lookup_put by lia. rewrite Z2Nat.id by lia. done. }
    destruct (decide (Z.of_nat i < u)).
    + rewrite lookup_app_l by (rewrite length_window; lia).
      rewrite lookup_window by lia.
      repeat case_decide; rewrite Hput by lia; simpl; repeat case_decide; try lia; done.
    + rewrite lookup_app_r by (rewrite length_window; lia).
      rewrite length_window by lia.
      repeat case_decide; rewrite Hput by lia; simpl; repeat case_decide; try lia;
        f_equal; lia.
Qed.

Lemma window_wrap (ro n : Z) (d : list Z) :
  0 <= ro <= zlen d -> zlen d - ro <= n <= zlen d ->
  window ro n d = zslice d ro (zlen d - ro) ++ zslice d 0 (n - (zlen d - ro)).
Proof.
  intros. unfold window, zslice, zlen in *. simpl.
  rewrite take_app, length_drop.
  rewrite (take_ge (drop _ d)) by (rewrite length_drop; lia).
  rewrite (take_ge (drop _ d)) by (rewrite length_drop; lia).
  f_equal. f_equal. lia.
Qed.

Lemma window_nowrap (ro n : Z) (d : list Z) :
  0 <= ro <= zlen d -> n <= zlen d - ro -> window ro n d = zslice d ro n.
Proof.
  intros. unfold window, zslice, zlen in *. rewrite take_app_le; [done|].
  rewrite length_drop. lia.
Qed.

(** ** Each operation against the abstract contents *)

Ltac i32s :=
  repeat (rewrite i32_done by (unfold is_i32, INT32_MIN, INT32_MAX in *; lia); cbn [obind]).

Lemma zlen_contents (rb : circlebuf_s) : wf rb -> zlen (contents rb) = rb.(used).
Proof.
  intros []. unfold contents, zlen at 1. rewrite length_window by lia. lia.
Qed.

(** The C parameters an operation never changes. *)
Definition same_shape (rb rb' : circlebuf_s) : Prop :=
  rb'.(size) = rb.(size) /\ rb'.(over_write) = rb.(over_write) /\
  rb'.(chann) = rb.(chann) /\ rb'.(fmt) = rb.(fmt) /\ rb'.(rate) = rb.(rate).

Lemma same_shape_trans (rb1 rb2 rb3 : circlebuf_s) :
  same_shape rb1 rb2 -> same_shape rb2 rb3 -> same_shape rb1 rb3.
Proof. unfold same_shape. intuition congruence. Qed.

Lemma same_shape_refl (rb : circlebuf_s) : same_shape rb rb.
Proof. by repeat split. Qed.

Lemma read_correct (rb : circlebuf_s) (out : list Z) (ooff sz : Z) :
  wf rb -> unlocked rb -> 0 <= sz -> 0 <= ooff ->
  ooff + Z.min sz rb.(used) <= zlen out ->
  exists rb',
    audio_circlebuf_read (Some rb) out ooff sz
      = Done (Z.min sz rb.(used), Some rb',
              splice out (Z.to_nat ooff) (take (Z.to_nat sz) (contents rb)))
    /\ wf rb' /\ unlocked rb' /\ same_shape rb rb'
    /\ contents rb' = drop (Z.to_nat sz) (contents rb).
Proof.
  intros W L Hsz Hoff Hout. pose proof (zlen_contents rb W) as HC. destruct W as [S D U RO WO K].
  set (n := Z.min sz (used rb)).
  assert (take (Z.to_nat sz) (contents rb) = window (read_offset rb) n (data rb)) as Etake.
  { destruct (decide (sz <= used rb)).
    - replace n with sz by lia. apply window_take. lia.
    - rewrite take_ge by (unfold zlen in HC; lia).
      unfold contents. f_equal. lia. }
  assert (drop (Z.to_nat sz) (contents rb) = drop (Z.to_nat n) (contents rb)) as Edrop.
  { destruct (decide (sz <= used rb)); [replace n with sz by lia; done|].
    rewrite !drop_ge by (unfold zlen in HC; lia). done. }
  rewrite Etake, Edrop. unfold audio_circlebuf_read, pthread_mutex_lock. rewrite L. cbn.
  replace (if sz >? used rb then used rb else sz) with n by (zif; lia).
  i32s. zif.
  - rewrite memcpy_done by lia. cbn [obind]. i32s.
    rewrite memcpy_done by (zlens; lia). cbn. i32s.
    eexists; split; [apply f_equal, f_equal2; [reflexivity|]|].
    + rewrite Z2Nat.inj_add by lia.
      replace (Z.to_nat (size rb - read_offset rb))
        with (length (zslice (data rb) (read_offset rb) (size rb - read_offset rb)))
        by (rewrite length_zslice; lia).
      rewrite splice_splice.
      * rewrite window_wrap by lia. rewrite D. done.
      * rewrite !length_zslice by lia. unfold zlen in *. lia.
    + split; [constructor; cbn; lia|]. split; [done|]. split; [by repeat split|].
      unfold contents. cbn. apply window_drop; lia.
  - rewrite memcpy_done by lia. cbn. i32s. cbn. i32s.
    eexists; split; [apply f_equal, f_equal2; [reflexivity|]|].
    + rewrite window_nowrap by lia. done.
    + split; [constructor; cbn; lia|]. split; [done|]. split; [by repeat split|].
      unfold contents. cbn. apply window_drop; lia.
Qed.

Lemma put_two (d inp : list Z) (wo n : Z) :
  0 <= wo <= zlen d -> zlen d - wo < n <= zlen d -> n <= zlen inp ->
  splice (splice d (Z.to_nat wo) (zslice inp 0 (zlen d - wo))) (Z.to_nat 0)
         (zslice inp (zlen d - wo) (n - (zlen d - wo)))
  = put wo (zslice inp 0 n) d.
Proof.
  intros. unfold put. rewrite zlen_zslice by lia. zif; [|lia]. simpl. f_equal.
  - f_equal. unfold zslice. simpl. rewrite !drop_0, take_take. f_equal. lia.
  - unfold zslice. simpl. rewrite !drop_0, !take_drop_commute, take_take. f_equal. f_equal. lia.
Qed.

Lemma put_one (d inp : list Z) (wo n : Z) :
  0 <= n <= zlen d - wo -> n <= zlen inp ->
  splice d (Z.to_nat wo) (zslice inp 0 n) = put wo (zslice inp 0 n) d.
Proof. intros. unfold put. rewrite zlen_zslice by lia. zif; [lia|done]. Qed.

(** The final part of [audio_circlebuf_write]: [n] bytes that fit. *)
Lemma write_tail (rb : circlebuf_s) (inp : list Z) (n : Z) :
  wf rb -> 0 <= n <= rb.(size) - rb.(used) -> n <= zlen inp ->
  exists rb',
    (let! rb :=
        (if n >? rb.(size) - rb.(write_offset) then
           let! d := memcpy rb.(data) rb.(write_offset) inp 0 (rb.(size) - rb.(write_offset)) in
           let! from_start := i32 (n - (rb.(size) - rb.(write_offset))) in
           let! d := memcpy d 0 inp (rb.(size) - rb.(write_offset)) from_start in
           Done (set_write_offset from_start (set_data d rb))
         else
           let! d := memcpy rb.(data) rb.(write_offset) inp 0 n in
           let! wo := i32 (rb.(write_offset) + n) in
           Done (set_write_offset wo (set_data d rb))) in
      let! u := i32 (rb.(used) + n) in
      Done (n, Some (pthread_mutex_unlock (set_used u rb)))) = Done (n, Some rb')
    /\ wf rb' /\ unlocked rb' /\ same_shape rb rb'
    /\ contents rb' = contents rb ++ take (Z.to_nat n) inp.
Proof.
  intros [S D U RO WO K] Hn Hin.
  assert (take (Z.to_nat n) inp = zslice inp 0 n) as -> by done.
  assert (zlen (zslice inp 0 n) = n) as Ez by (rewrite zlen_zslice; lia).
  assert (window (read_offset rb) (used rb + n) (put (write_offset rb) (zslice inp 0 n) (data rb))
          = contents rb ++ zslice inp 0 n) as Hput.
  { rewrite <- Ez at 1. apply window_put; rewrite ?Ez, ?D; lia. }
  zif.
  - rewrite memcpy_done by lia. cbn [obind]. i32s.
    rewrite memcpy_done by (zlens; lia). cbn [obind]. cbn. i32s.
    eexists; split; [done|]. cbn. rewrite <- D. rewrite put_two by lia.
    split; [constructor; cbn; rewrite ?zlen_put; rewrite ?Ez; lia|].
    split; [done|]. split; [by repeat split|]. done.
  - rewrite memcpy_done by lia. cbn [obind]. i32s. cbn. i32s.
    eexists; split; [done|]. cbn. rewrite put_one by lia.
    split; [constructor; cbn; rewrite ?zlen_put; rewrite ?Ez; lia|].
    split; [done|]. split; [by repeat split|]. done.
Qed.

(** Number of bytes a write stores in a buffer with [over_write] off. *)
Lemma write_fits (rb : circlebuf_s) (inp : list Z) (sz : Z) :
  wf rb -> unlocked rb -> 0 <= sz <= zlen inp ->
  rb.(over_write) = false \/ sz <= rb.(size) - rb.(used) ->
  exists rb',
    audio_circlebuf_write (Some rb) (Some inp) sz
      = Done (Z.min sz (rb.(size) - rb.(used)), Some rb')
    /\ wf rb' /\ unlocked rb' /\ same_shape rb rb'
    /\ contents rb' = contents rb ++ take (Z.to_nat (Z.min sz (rb.(size) - rb.(used)))) inp.
Proof.
  intros W L Hsz Hmode. pose proof W as [S D U RO WO K].
  unfold audio_circlebuf_write. destruct (sz =? 0) eqn:E0; zbool.
  { subst sz. rewrite Z.min_l by lia. exists rb. simpl. rewrite app_nil_r. done. }
  unfold pthread_mutex_lock. rewrite L. cbn -[memcpy]. i32s.
  set (n := Z.min sz (size rb - used rb)).
  replace (if sz >? size rb - used rb then size rb - used rb else sz) with n by (zif; lia).
  assert ((n <? sz) && over_write rb = false) as ->.
  { destruct Hmode as [->|]; [apply andb_false_r|].
    apply andb_false_intro1. apply Z.ltb_ge. lia. }
  simpl andb. cbn [obind].
  apply (write_tail (set_lock true rb)); [by constructor|subst n; cbn; lia|lia].
Qed.

(** In overwrite mode a block no larger than the buffer pushes the oldest
    bytes out. *)
Lemma write_over (rb : circlebuf_s) (inp : list Z) (sz : Z) :
  wf rb -> unlocked rb -> rb.(over_write) = true -> 2 * rb.(size) <= INT32_MAX ->
  rb.(size) - rb.(used) < sz <= rb.(size) -> sz <= zlen inp ->
  exists rb',
    audio_circlebuf_write (Some rb) (Some inp) sz = Done (sz, Some rb')
    /\ wf rb' /\ unlocked rb' /\ same_shape rb rb'
    /\ contents rb' = drop (Z.to_nat (sz - (rb.(size) - rb.(used)))) (contents rb)
                      ++ take (Z.to_nat sz) inp.
Proof.
  intros W L O Hbig Hsz Hin. pose proof W as [S D U RO WO K].
  unfold audio_circlebuf_write. destruct (sz =? 0) eqn:E0; zbool; [lia|].
  unfold pthread_mutex_lock. rewrite L. cbn -[memcpy]. i32s. rewrite O.
  destruct (sz >? size rb - used rb) eqn:E1; zbool; [|lia].
  destruct (size rb - used rb <? sz) eqn:E2; zbool; [|lia]. simpl andb.
  destruct (sz >? size rb) eqn:E3; zbool; [lia|]. i32s.
  set (diff := sz - (size rb - used rb)).
  assert (diff = sz - (size rb - used rb)) as Ed by done. clearbody diff.
  replace (size rb - used rb + diff) with sz by lia. i32s.
  set (ro := if read_offset rb + diff >=? size rb
             then read_offset rb + diff - size rb else read_offset rb + diff).
  assert ((if read_offset rb + diff >=? size rb
           then Done (read_offset rb + diff - size rb) else Done (read_offset rb + diff))
          = Done ro) as -> by (subst ro; by zif).
  cbn [obind].
  set (rb1 := set_used (used rb - diff) (set_read_offset ro (set_lock true rb))).
  assert (0 <= ro <= size rb /\ (ro = read_offset rb + diff \/ ro = read_offset rb + diff - size rb))
    as [Hro Hro2] by (subst ro; zif; lia).
  assert (wf rb1) as W1 by (constructor; cbn; lia).
  assert (contents rb1 = drop (Z.to_nat diff) (contents rb)) as <-.
  { unfold contents. cbn. apply window_drop; lia. }
  apply (write_tail rb1); [done|cbn; lia|lia].
Qed.

(** In overwrite mode a block larger than the whole buffer leaves its last
    [size] bytes, but the early return keeps the mutex. *)
Lemma write_over_big (rb : circlebuf_s) (inp : list Z) (sz : Z) :
  wf rb -> unlocked rb -> rb.(over_write) = true ->
  rb.(size) < sz <= INT32_MAX -> sz <= zlen inp ->
  exists rb',
    audio_circlebuf_write (Some rb) (Some inp) sz = Done (sz, Some rb')
    /\ wf rb' /\ rb'.(lock) = true /\ same_shape rb rb'
    /\ contents rb' = zslice inp (sz - rb.(size)) rb.(size).
Proof.
  intros W L O Hsz Hin. pose proof W as [S D U RO WO K].
  unfold audio_circlebuf_write. destruct (sz =? 0) eqn:E0; zbool; [lia|].
  unfold pthread_mutex_lock. rewrite L. cbn -[memcpy]. i32s. rewrite O.
  destruct (sz >? size rb - used rb) eqn:E1; zbool; [|lia].
  destruct (size rb - used rb <? sz) eqn:E2; zbool; [|lia]. simpl andb.
  destruct (sz >? size rb) eqn:E3; zbool; [|lia]. i32s.
  rewrite memcpy_done by lia. cbn [obind].
  eexists; split; [done|]. cbn.
  split; [constructor; cbn; zlens; lia|]. split; [done|]. split; [by repeat split|].
  unfold contents. cbn.
  rewrite window_nowrap by (zlens; lia).
  assert (length (zslice inp (sz - size rb) (size rb)) = length (data rb)) as El
    by (rewrite length_zslice; unfold zlen in *; lia).
  unfold splice. simpl. rewrite (drop_ge (data rb)) by lia. rewrite app_nil_r.
  unfold zslice at 1. simpl. rewrite drop_0. apply take_ge. unfold zlen in *. lia.
Qed.

Lemma skip_correct (rb : circlebuf_s) (sz : Z) :
  wf rb -> 0 <= sz ->
  exists rb',
    audio_circlebuf_skip rb sz = Done rb'
    /\ wf rb' /\ rb'.(lock) = rb.(lock) /\ same_shape rb rb'
    /\ contents rb' = drop (Z.to_nat sz) (contents rb).
Proof.
  intros W Hsz. pose proof (zlen_contents rb W) as HC. destruct W as [S D U RO WO K].
  unfold audio_circlebuf_skip. destruct (sz >=? used rb) eqn:E; zbool.
  - eexists; split; [done|]. split; [constructor; cbn; lia|].
    split; [done|]. split; [by repeat split|].
    rewrite drop_ge by (unfold zlen in HC; lia). done.
  - i32s. cbn. i32s. destruct (sz >? size rb - read_offset rb) eqn:E1; zbool; i32s;
      (eexists; split; [done|]; split; [constructor; cbn; lia|];
       split; [done|]; split; [by repeat split|]; unfold contents; cbn; apply window_drop; lia).
Qed.

Lemma clear_correct (rb : circlebuf_s) :
  wf rb ->
  wf (audio_circlebuf_clear rb) /\ (audio_circlebuf_clear rb).(lock) = rb.(lock)
  /\ same_shape rb (audio_circlebuf_clear rb) /\ contents (audio_circlebuf_clear rb) = [].
Proof.
  intros [S D U RO WO K]. split; [constructor; cbn; lia|].
  split; [done|]. split; [by repeat split|]. done.
Qed.

(** ** Refinement: the ring buffer is a bounded byte queue *)

Inductive cb_op :=
| OpWrite (bs : list Z)
| OpRead (n : Z)
| OpSkip (n : Z)
| OpClear
| OpUsed
| OpAvailable.

(** One call of the C interface: the return value, the bytes delivered to
    the caller (for a read, into a buffer of the requested length), and the
    buffer afterwards. *)
Definition run_op (rb : circlebuf_s) (op : cb_op) : outcome (Z * list Z * circlebuf_s) :=
  match op with
  | OpWrite bs =>
      let! (r, rb') := audio_circlebuf_write (Some rb) (Some bs) (zlen bs) in
      match rb' with Some rb' => Done (r, [], rb') | None => Undef end
  | OpRead n =>
      let! (r, rb', out) :=
        audio_circlebuf_read (Some rb) (replicate (Z.to_nat n) 0) 0 n in
      match rb' with Some rb' => Done (r, take (Z.to_nat r) out, rb') | None => Undef end
  | OpSkip n => let! rb' := audio_circlebuf_skip rb n in Done (0, [], rb')
  | OpClear => Done (0, [], audio_circlebuf_clear rb)
  | OpUsed => Done (audio_circlebuf_used rb, [], rb)
  | OpAvailable => let! n := audio_circlebuf_available rb in Done (n, [], rb)
  end.

Fixpoint run_ops (rb : circlebuf_s) (ops : list cb_op)
  : outcome (list (Z * list Z) * circlebuf_s) :=
  match ops with
  | [] => Done ([], rb)
  | op :: ops =>
      let! (r, bs, rb) := run_op rb op in
      let! (t, rb) := run_ops rb ops in
      Done ((r, bs) :: t, rb)
  end.

(** The abstract queue: a capacity, the overwrite mode and the bytes. *)
Record queue := { q_cap : Z; q_over : bool; q_bytes : list Z }.

Definition with_bytes (q : queue) (l : list Z) : queue :=
  {| q_cap := q.(q_cap); q_over := q.(q_over); q_bytes := l |}.

Definition last_n (n : Z) (l : list Z) : list Z := drop (length l - Z.to_nat n) l.

Definition spec_op (q : queue) (op : cb_op) : Z * list Z * queue :=
  match op with
  | OpWrite bs =>
      if q.(q_over) then (zlen bs, [], with_bytes q (last_n q.(q_cap) (q.(q_bytes) ++ bs)))
      else let n := Z.min (zlen bs) (q.(q_cap) - zlen q.(q_bytes)) in
           (n, [], with_bytes q (q.(q_bytes) ++ take (Z.to_nat n) bs))
  | OpRead n =>
      (Z.min n (zlen q.(q_bytes)), take (Z.to_nat n) q.(q_bytes),
       with_bytes q (drop (Z.to_nat n) q.(q_bytes)))
  | OpSkip n => (0, [], with_bytes q (drop (Z.to_nat n) q.(q_bytes)))
  | OpClear => (0, [], with_bytes q [])
  | OpUsed => (zlen q.(q_bytes), [], q)
  | OpAvailable => (q.(q_cap) - zlen q.(q_bytes), [], q)
  end.

(** The calls that leave the mutex free: in overwrite mode no block is larger
    than the buffer. *)
Definition valid_op (cap : Z) (over : bool) (op : cb_op) : Prop :=
  match op with
  | OpWrite bs => over = true -> zlen bs <= cap
  | OpRead n | OpSkip n => 0 <= n
  | _ => True
  end.

Definition abs (rb : circlebuf_s) : queue :=
  {| q_cap := rb.(size); q_over := rb.(over_write); q_bytes := contents rb |}.

(** The states the refinement relates: in overwrite mode the sum of two
    offsets has to stay an [int32_t]. *)
Definition ok (rb : circlebuf_s) : Prop :=
  wf rb /\ unlocked rb /\ (rb.(over_write) = true -> 2 * rb.(size) <= INT32_MAX).

Lemma abs_with (rb rb' : circlebuf_s) (l : list Z) :
  same_shape rb rb' -> contents rb' = l -> abs rb' = with_bytes (abs rb) l.
Proof. intros (E1 & E2 & _) <-. unfold abs, with_bytes. cbn. congruence. Qed.

Lemma ok_shape (rb rb' : circlebuf_s) :
  ok rb -> wf rb' -> unlocked rb' -> same_shape rb rb' -> ok rb'.
Proof. intros (_ & _ & H) W L (E1 & E2 & _). split; [done|]. split; [done|]. by rewrite E1, E2. Qed.

Lemma last_n_fits (n : Z) (l : list Z) : zlen l <= n -> last_n n l = l.
Proof. unfold zlen, last_n. intros. replace (_ - _)%nat with 0%nat by lia. done. Qed.

Lemma run_op_refines (rb : circlebuf_s) (op : cb_op) :
  ok rb -> valid_op rb.(size) rb.(over_write) op ->
  exists rb', run_op rb op = Done (fst (spec_op (abs rb) op), rb')
              /\ ok rb' /\ abs rb' = snd (spec_op (abs rb) op)
              /\ same_shape rb rb'.
Proof.
  intros O V. pose proof O as (W & L & B). pose proof (zlen_contents rb W) as HC.
  pose proof W as [S D U RO WO K].
  destruct op as [bs|n|n| | |]; cbn [run_op valid_op] in *.
  - pose proof (zlen_nonneg bs).
    destruct (decide (over_write rb = false \/ zlen bs <= size rb - used rb)) as [F|F].
    + destruct (write_fits rb bs (zlen bs) W L) as (rb' & -> & W' & L' & Sh & C); [lia|done|].
      cbn [obind]. exists rb'. rewrite (abs_with rb rb' _ Sh C). cbn -[last_n].
      destruct (over_write rb) eqn:Eo.
      * destruct F as [F|F]; [done|]. rewrite Z.min_l in * by lia.
        rewrite last_n_fits by (unfold zlen in *; rewrite length_app; lia).
        rewrite take_ge by (unfold zlen; lia). eauto using ok_shape.
      * rewrite HC. eauto using ok_shape.
    + destruct (over_write rb) eqn:Eo; [|tauto].
      destruct (write_over rb bs (zlen bs) W L Eo) as (rb' & -> & W' & L' & Sh & C);
        [by apply B|split; [|by apply V]; lia|lia|].
      cbn [obind]. exists rb'. rewrite (abs_with rb rb' _ Sh C). cbn -[last_n]. rewrite Eo. cbn -[last_n].
      assert (last_n (size rb) (contents rb ++ bs)
              = drop (Z.to_nat (zlen bs - (size rb - used rb))) (contents rb)
                ++ take (Z.to_nat (zlen bs)) bs) as ->.
      { unfold last_n. rewrite length_app, take_ge by (unfold zlen; lia).
        rewrite drop_app_le by (unfold zlen in *; specialize (V eq_refl); lia).
        f_equal. f_equal. unfold zlen in *. lia. }
      eauto using ok_shape.
  - destruct (read_correct rb (replicate (Z.to_nat n) 0) 0 n W L)
      as (rb' & -> & W' & L' & Sh & C); [done|done|unfold zlen; rewrite length_replicate; lia|].
    cbn [obind]. exists rb'. rewrite (abs_with rb rb' _ Sh C). cbn. rewrite HC.
    split; [|eauto using ok_shape]. do 2 f_equal.
    unfold splice. cbn. apply f_equal2; [done|].
    assert (length (take (Z.to_nat n) (contents rb)) = Z.to_nat (Z.min n (used rb))) as El
      by (rewrite length_take; unfold zlen in HC; lia).
    change (Z.to_nat 0) with 0%nat. rewrite take_0. by rewrite app_nil_l, take_app_length'.
  - destruct (skip_correct rb n W V) as (rb' & -> & W' & L' & Sh & C).
    exists rb'. rewrite (abs_with rb rb' _ Sh C).
    split; [done|]. split; [|done]. eapply ok_shape; eauto; unfold unlocked in *; congruence.
  - destruct (clear_correct rb W) as (W' & L' & Sh & C).
    exists (audio_circlebuf_clear rb). rewrite (abs_with rb _ _ Sh C).
    split; [done|]. split; [|done]. eapply ok_shape; eauto; unfold unlocked in *; congruence.
  - exists rb. cbn. rewrite HC. auto using same_shape_refl.
  - exists rb. cbn. unfold audio_circlebuf_available. i32s. rewrite HC. auto using same_shape_refl.
Qed.

(** ** The whole interface, the mutex included

    A block larger than the whole buffer, in overwrite mode, is stored by an
    early return that keeps the mutex. [spec_call] is the bounded queue with
    that mutex: [held] says that a call has kept it, and from then on the two
    operations that take it, a read and a write of at least one byte, wait
    for ever. *)
Definition spec_call (q : queue) (held : bool) (op : cb_op)
  : outcome (Z * list Z * queue * bool) :=
  match op with
  | OpWrite [] => Done (0, [], q, held)
  | OpWrite bs =>
      if held then Blocked else Done (spec_op q op, q.(q_over) && (q.(q_cap) <? zlen bs))
  | OpRead _ => if held then Blocked else Done (spec_op q op, false)
  | _ => Done (spec_op q op, held)
  end.

Fixpoint spec_calls (q : queue) (held : bool) (ops : list cb_op)
  : outcome (list (Z * list Z) * queue * bool) :=
  match ops with
  | [] => Done ([], q, held)
  | op :: ops =>
      let! (r, bs, q, held) := spec_call q held op in
      let! (t, q, held) := spec_calls q held ops in
      Done ((r, bs) :: t, q, held)
  end.

(** The arguments of the C interface: a block has at most [INT32_MAX] bytes,
    since its length is passed as an [int32_t], and counts are not negative. *)
Definition call_args (op : cb_op) : Prop :=
  match op with
  | OpWrite bs => zlen bs <= INT32_MAX
  | OpRead n | OpSkip n => 0 <= n
  | _ => True
  end.

(** A well-formed buffer whose mutex may be held. *)
Definition sane (rb : circlebuf_s) : Prop :=
  wf rb /\ (rb.(over_write) = true -> 2 * rb.(size) <= INT32_MAX).

Lemma sane_shape (rb rb' : circlebuf_s) : sane rb -> wf rb' -> same_shape rb rb' -> sane rb'.
Proof. intros (_ & H) W (E1 & E2 & _). split; [done|]. by rewrite E1, E2. Qed.

(** One call answers what [spec_call] answers. *)
Definition call_refines (rb : circlebuf_s) (op : cb_op) : Prop :=
  match spec_call (abs rb) rb.(lock) op with
  | Done (r, bs, q, held) =>
      exists rb', run_op rb op = Done (r, bs, rb') /\ sane rb' /\ abs rb' = q /\ rb'.(lock) = held
  | _ => run_op rb op = Blocked
  end.

Lemma call_unlocked (rb : circlebuf_s) (op : cb_op) :
  sane rb -> rb.(lock) = false -> valid_op rb.(size) rb.(over_write) op -> call_refines rb op.
Proof.
  intros Hs L V. pose proof Hs as [W B]. destruct (run_op_refines rb op) as (rb' & E & (W' & L' & B') & A & _);
    [split; [done|by split]|done|].
  unfold call_refines, unlocked in *. rewrite L.
  assert (forall held, held = false ->
          let '(r, bs, q, h) := (spec_op (abs rb) op, held) in
          exists rb', run_op rb op = Done (r, bs, rb') /\ sane rb' /\ abs rb' = q /\ rb'.(lock) = h)
    as Goal_.
  { intros held ->. destruct (spec_op (abs rb) op) as [[r bs] q]. exists rb'.
    split; [done|]. by split; [split|]. }
  destruct op as [bs|n|n| | |]; try (by apply Goal_).
  destruct bs as [|x bs]; [|apply Goal_; cbn [abs q_over q_cap]].
  - exists rb. split; [done|]. split_and!; done.
  - destruct (over_write rb); [|done]. cbn in V. specialize (V eq_refl). apply Z.ltb_ge. done.
Qed.

Lemma call_big (rb : circlebuf_s) (bs : list Z) :
  sane rb -> rb.(lock) = false -> rb.(over_write) = true ->
  rb.(size) < zlen bs <= INT32_MAX -> call_refines rb (OpWrite bs).
Proof.
  intros [W B] L O Hbig. pose proof W as [S D U RO WO K].
  destruct (write_over_big rb bs (zlen bs) W L O Hbig) as (rb' & E & W' & L' & Sh & C); [lia|].
  unfold call_refines, spec_call. rewrite L. destruct bs as [|x bs]; [unfold zlen in Hbig; cbn in Hbig; lia|].
  set (b := x :: bs) in *. cbn [spec_op abs q_over q_cap q_bytes]. rewrite O.
  destruct (Z.ltb_spec (size rb) (zlen b)); [cbn [andb]|lia].
  exists rb'. cbn [run_op]. rewrite E. split; [done|].
  split; [by apply (sane_shape rb)|]. split; [|done].
  rewrite (abs_with rb rb' _ Sh C). f_equal.
  unfold zslice, last_n, zlen in *. rewrite length_app, take_ge by (rewrite length_drop; lia).
  rewrite drop_app_ge by lia. f_equal. lia.
Qed.

(** The calls that do not take the mutex, and those that find it held. *)
Lemma call_locked (rb : circlebuf_s) (op : cb_op) :
  sane rb -> rb.(lock) = true -> call_args op -> call_refines rb op.
Proof.
  intros Hs L V. pose proof Hs as [W B]. pose proof (zlen_contents rb W) as HC. pose proof W as [S D U RO WO K].
  unfold call_refines. rewrite L.
  destruct op as [[|x bs]|n|n| | |]; cbn [spec_call].
  - exists rb. split_and!; done.
  - unfold run_op, audio_circlebuf_write, pthread_mutex_lock. rewrite L.
    destruct (zlen (x :: bs) =? 0) eqn:E0; zbool; [unfold zlen in E0; cbn in E0; lia|done].
  - unfold run_op, audio_circlebuf_read, pthread_mutex_lock. by rewrite L.
  - destruct (skip_correct rb n W V) as (rb' & E & W' & L' & Sh & C). exists rb'.
    rewrite (abs_with rb rb' _ Sh C). cbn [run_op]. rewrite E.
    split; [done|]. split; [by apply (sane_shape rb)|]. split; [done|congruence].
  - destruct (clear_correct rb W) as (W' & L' & Sh & C). exists (audio_circlebuf_clear rb).
    rewrite (abs_with rb _ _ Sh C).
    split; [done|]. split; [by apply (sane_shape rb)|]. split; [done|congruence].
  - exists rb. cbn. rewrite HC. split_and!; done.
  - exists rb. cbn. unfold audio_circlebuf_available. i32s. rewrite HC. split_and!; done.
Qed.

Lemma call_refines_any (rb : circlebuf_s) (op : cb_op) :
  sane rb -> call_args op -> call_refines rb op.
Proof.
  intros Hs V. destruct (lock rb) eqn:L; [by apply call_locked|].
  destruct op as [bs|n|n| | |]; try (by apply call_unlocked).
  destruct (decide (over_write rb = true /\ size rb < zlen bs)) as [[O Hbig]|F].
  - apply call_big; [done|done|done|]. cbn in V. lia.
  - apply call_unlocked; [done|done|]. cbn. intros O. apply Z.nlt_ge. tauto.
Qed.

(** C1. Refinement of the ring buffer by a bounded byte queue with its mutex:
    every sequence of writes, reads, skips, clears and queries on a
    well-formed ring buffer answers, call by call, what the bounded queue
    [spec_calls] answers, without an access outside an object or an integer
    overflow.  In overwrite mode the queue keeps the last [size] bytes; a
    block larger than the whole buffer also leaves the mutex held, and then
    the sequence waits for ever at its next read or non-empty write, and at
    no other call.  The conditions are that a block has at most [INT32_MAX]
    bytes, that counts are not negative, and that in overwrite mode twice the
    size of the buffer is an [int32_t]. *)
Theorem circlebuf_refines_queue (rb : circlebuf_s) (ops : list cb_op) :
  sane rb -> Forall call_args ops ->
  match spec_calls (abs rb) rb.(lock) ops with
  | Done (t, q, held) =>
      exists rb', run_ops rb ops = Done (t, rb') /\ sane rb' /\ abs rb' = q /\ rb'.(lock) = held
  | _ => run_ops rb ops = Blocked
  end.
Proof.
  revert rb. induction ops as [|op ops IH]; intros rb O V.
  { exists rb. done. }
  apply Forall_cons_1 in V as [V1 V2]. cbn [run_ops spec_calls].
  pose proof (call_refines_any rb op O V1) as H. unfold call_refines in H.
  destruct (spec_call (abs rb) (lock rb) op) as [[[[r bs] q] held]| | |]; cbn [obind];
    try (rewrite H; done).
  destruct H as (rb1 & -> & O1 & <- & <-). cbn [obind]. specialize (IH rb1 O1 V2).
  destruct (spec_calls (abs rb1) (lock rb1) ops) as [[[t q] held]| | |]; cbn [obind];
    try (rewrite IH; done).
  destruct IH as (rb2 & -> & H2). cbn [obind]. eauto.
Qed.

(** A four-byte buffer used by the witnesses. *)
Definition rb4 (over : bool) : circlebuf_s :=
  {| data := [0; 0; 0; 0]; size := 4; used := 0; read_offset := 0; write_offset := 0;
     over_write := over; chann := 2; fmt := 0; rate := 48000; lock := false |}.

Lemma rb4_ok (over : bool) : ok (rb4 over).
Proof.
  split; [constructor; cbn; unfold zlen, INT32_MAX; cbn; lia|].
  split; [done|]. intros _. cbn. unfold INT32_MAX. lia.
Qed.

Lemma circlebuf_refines_queue_witness :
  (exists rb', run_ops (rb4 true) [OpWrite [1; 2; 3]; OpRead 2; OpWrite [4; 5; 6]; OpRead 9]
    = Done ([(3, []); (2, [1; 2]); (3, []); (4, [3; 4; 5; 6])], rb'))
  /\ run_ops (rb4 true) [OpWrite [1; 2; 3; 4; 5]; OpUsed; OpRead 4] = Blocked.
Proof.
  assert (forall over, sane (rb4 over)) as Hs by (intros over; destruct (rb4_ok over) as (? & ? & ?); by split).
  split.
  - destruct (circlebuf_refines_queue (rb4 true)
                [OpWrite [1; 2; 3]; OpRead 2; OpWrite [4; 5; 6]; OpRead 9] (Hs true))
      as (rb' & E & _).
    { repeat (constructor; [cbn; unfold zlen, INT32_MAX; cbn; lia|]). constructor. }
    exists rb'. exact E.
  - apply (circlebuf_refines_queue (rb4 true) [OpWrite [1; 2; 3; 4; 5]; OpUsed; OpRead 4] (Hs true)).
    repeat (constructor; [cbn; unfold zlen, INT32_MAX; cbn; lia|]). constructor.
Defined.

(** Round trip: the bytes of a write that fits come back from the next
    read in the same order, after what was already queued. *)
Theorem circlebuf_write_read_roundtrip (rb : circlebuf_s) (bs : list Z) :
  ok rb -> zlen bs <= rb.(size) - rb.(used) ->
  exists rb', run_ops rb [OpWrite bs; OpRead rb.(size)]
    = Done ([(zlen bs, []); (rb.(used) + zlen bs, contents rb ++ bs)], rb')
    /\ contents rb' = [] /\ ok rb'.
Proof.
  intros O Hfit. pose proof O as (W & L & B). pose proof (zlen_contents rb W) as HC.
  pose proof W as [S D U RO WO K]. pose proof (zlen_nonneg bs) as Hbs.
  destruct (run_op_refines rb (OpWrite bs) O) as (rb1 & E1 & O1 & A1 & (Z1 & Z2 & _)); [cbn; lia|].
  destruct (run_op_refines rb1 (OpRead rb.(size)) O1) as (rb2 & E2 & O2 & A2 & _); [cbn; lia|].
  assert (contents rb1 = contents rb ++ bs /\ fst (spec_op (abs rb) (OpWrite bs)) = (zlen bs, []))
    as [C1 F1].
  { cbn -[last_n] in A1. cbn -[last_n].
    destruct (over_write rb); injection A1 as _ _ A1; rewrite A1; split; try done.
    - apply last_n_fits. unfold zlen in *. rewrite length_app. lia.
    - rewrite HC, Z.min_l by lia. rewrite take_ge; [done|unfold zlen; lia].
    - rewrite HC, Z.min_l by lia. done. }
  assert (zlen (contents rb1) = used rb + zlen bs) as L1.
  { rewrite C1. unfold zlen in *. rewrite length_app. lia. }
  exists rb2. cbn [run_ops]. rewrite E1, F1. cbn [obind]. rewrite E2. cbn [obind].
  cbn [spec_op fst snd abs q_bytes]. rewrite L1, Z.min_r by lia.
  assert (take (Z.to_nat (size rb)) (contents rb1) = contents rb ++ bs) as ->.
  { rewrite take_ge by (unfold zlen in *; lia). done. }
  split; [done|]. split; [|done].
  injection A2 as _ _ A2. rewrite A2. apply drop_ge. unfold zlen in *. lia.
Qed.

Lemma circlebuf_write_read_roundtrip_witness :
  exists rb', run_ops (rb4 false) [OpWrite [7; 8; 9]; OpRead 4]
    = Done ([(3, []); (3, [7; 8; 9])], rb') /\ contents rb' = [] /\ ok rb'.
Proof.
  apply (circlebuf_write_read_roundtrip (rb4 false) [7; 8; 9] (rb4_ok false)). unfold zlen. cbn. lia.
Defined.

(** In overwrite mode, a block larger than the whole buffer leaves
    exactly its last [size] bytes and is reported as written in full, but
    the mutex stays locked: every later read or write on the buffer
    blocks. *)
Theorem circlebuf_overwrite_big_deadlocks
    (rb : circlebuf_s) (bs bs2 out : list Z) (ooff n : Z) :
  ok rb -> rb.(over_write) = true -> rb.(size) < zlen bs <= INT32_MAX -> bs2 <> [] ->
  exists rb',
    audio_circlebuf_write (Some rb) (Some bs) (zlen bs) = Done (zlen bs, Some rb')
    /\ contents rb' = last_n rb.(size) bs
    /\ audio_circlebuf_read (Some rb') out ooff n = Blocked
    /\ audio_circlebuf_write (Some rb') (Some bs2) (zlen bs2) = Blocked.
Proof.
  intros (W & L & B) O Hbig Hne. pose proof W as [S D U RO WO K].
  destruct (write_over_big rb bs (zlen bs) W L O Hbig) as (rb' & E & W' & L' & Sh & C); [lia|].
  exists rb'. split; [done|]. split; [|split].
  - rewrite C. unfold zslice, last_n, zlen in *.
    rewrite take_ge by (rewrite length_drop; lia). f_equal. lia.
  - unfold audio_circlebuf_read, pthread_mutex_lock. by rewrite L'.
  - unfold audio_circlebuf_write, pthread_mutex_lock. rewrite L'.
    destruct (zlen bs2 =? 0) eqn:E0; zbool; [|done].
    destruct bs2; [done|]. unfold zlen in E0. cbn in E0. lia.
Qed.

Lemma circlebuf_overwrite_big_deadlocks_witness :
  exists rb',
    audio_circlebuf_write (Some (rb4 true)) (Some [1; 2; 3; 4; 5]) 5 = Done (5, Some rb')
    /\ contents rb' = [2; 3; 4; 5]
    /\ audio_circlebuf_read (Some rb') [0; 0] 0 2 = Blocked
    /\ audio_circlebuf_write (Some rb') (Some [1]) 1 = Blocked.
Proof.
  apply (circlebuf_overwrite_big_deadlocks (rb4 true) [1; 2; 3; 4; 5] [1] [0; 0] 0 2 (rb4_ok true));
    [done|cbn; unfold zlen, INT32_MAX; cbn; lia|done].
Defined.

(** A buffer created for [len] periods of 20 ms of PCM is empty,
    unlocked and well formed, and holds exactly the bytes of these periods
    (4096 bytes when the product is zero), as long as the products fit their
    32-bit types. *)
Theorem circlebuf_create_pcm_ok (calloc_ok : bool) (malloc : Z -> option (list Z))
    (bits : Z -> Z) (ch format rt len : Z) (rb : circlebuf_s) :
  (forall n d, malloc n = Some d -> zlen d = n) ->
  is_u32 (ch * Z.shiftr (bits format) 3) -> is_u32 (rt * OUT_PERIOD_MS) ->
  is_u32 (ch * Z.shiftr (bits format) 3 * (rt * OUT_PERIOD_MS)) -> 0 <= len ->
  ch * Z.shiftr (bits format) 3 * (rt * OUT_PERIOD_MS) / 1000 * len <= INT32_MAX ->
  audio_circlebuf_create_pcm calloc_ok malloc bits ch format rt len = Some rb ->
  wf rb /\ unlocked rb /\ contents rb = [] /\ rb.(over_write) = false /\
  rb.(size) = let n := ch * Z.shiftr (bits format) 3 * (rt * OUT_PERIOD_MS) / 1000 * len in
              if n =? 0 then AUDIO_CIRCLEBUF_DEFAULT_SIZE else n.
Proof.
  intros Hm H1 H2 H3 Hlen Hfit E. unfold audio_circlebuf_create_pcm in E.
  destruct calloc_ok; [|done]. unfold MIX_THRESHOLD_BYTES_BY_RATE in E.
  rewrite (u32_small _ H1), (u32_small _ H2), (u32_small _ H3) in E.
  set (p := ch * Z.shiftr (bits format) 3 * (rt * OUT_PERIOD_MS)) in *.
  assert (0 <= p / 1000) by (destruct H3; apply Z.div_pos; lia).
  rewrite s32_small in E by nia.
  set (n := if p / 1000 * len =? 0 then AUDIO_CIRCLEBUF_DEFAULT_SIZE else p / 1000 * len) in *.
  assert (0 < n <= INT32_MAX).
  { subst n. unfold AUDIO_CIRCLEBUF_DEFAULT_SIZE, INT32_MAX in *. zif; nia. }
  destruct (malloc (size_t n)) as [d|] eqn:Em; [|done]. injection E as <-.
  apply Hm in Em. unfold size_t in Em.
  rewrite Z.mod_small in Em by (unfold INT32_MAX in *; lia).
  split; [constructor; cbn; lia|]. done.
Qed.

(** An allocator that always succeeds, for the witness. *)
Definition malloc_zero (n : Z) : option (list Z) :=
  if 0 <=? n then Some (replicate (Z.to_nat n) 0) else None.

Lemma malloc_zero_len (n : Z) (d : list Z) : malloc_zero n = Some d -> zlen d = n.
Proof.
  unfold malloc_zero. destruct (0 <=? n) eqn:E; [|done]. zbool. intros [= <-].
  unfold zlen. rewrite length_replicate. lia.
Qed.

Lemma circlebuf_create_pcm_ok_witness :
  exists rb,
    audio_circlebuf_create_pcm true malloc_zero (fun _ => 16) 2 0 8000 2 = Some rb
    /\ wf rb /\ contents rb = [] /\ rb.(size) = 1280.
Proof.
  eexists. split; [reflexivity|].
  edestruct (circlebuf_create_pcm_ok true malloc_zero (fun _ => 16) 2 0 8000 2)
    as (W & _ & C & _ & S);
    [exact malloc_zero_len|vm_compute; done|vm_compute; done|vm_compute; done|lia
    |vm_compute; done|reflexivity|].
  split; [exact W|]. split; [exact C|exact S].
Defined.

(** ** Moving data between two buffers *)

Lemma splice_0 (l bs : list Z) : splice l 0 bs = bs ++ drop (length bs) l.
Proof. reflexivity. Qed.

Lemma window_prefix (bs tl : list Z) : window 0 (zlen bs) (bs ++ tl) = bs.
Proof.
  unfold window, zlen. rewrite Nat2Z.id, Z2Nat.inj_0, drop_0, <- app_assoc.
  apply take_app_length.
Qed.

(** The destination after a move of [bs] into a buffer that was cleared. *)
Lemma moved_dst (dst : circlebuf_s) (bs : list Z) :
  wf dst -> zlen bs <= dst.(size) -> dst.(read_offset) = 0 ->
  let dst' := set_used (zlen bs)
                (set_write_offset (zlen bs) (set_data (splice dst.(data) 0 bs) dst)) in
  wf dst' /\ same_shape dst dst' /\ contents dst' = bs.
Proof.
  intros [S D U RO WO K] Hb R0. pose proof (zlen_nonneg bs). split; [|split].
  - constructor; cbn; try lia. change 0%nat with (Z.to_nat 0). rewrite zlen_splice; lia.
  - by repeat split.
  - unfold contents. cbn. rewrite R0, splice_0. apply window_prefix.
Qed.

(** Moving into a cleared buffer: [audio_circlebuf_move] transfers as
    many bytes as are asked for, available in the source and fit into the
    destination, in order and exactly once: the destination holds the head
    of the source's queue and the source keeps the tail. *)
Theorem circlebuf_move_into_cleared (src dst : circlebuf_s) (len : Z) :
  wf src -> unlocked src -> wf dst -> 0 < len <= INT32_MAX ->
  let d0 := audio_circlebuf_clear dst in
  let n := Z.min (Z.min len dst.(size)) src.(used) in
  exists src' dst',
    audio_circlebuf_move (Some src) (Some d0) len = Done (n, Some src', Some dst')
    /\ wf src' /\ unlocked src' /\ same_shape src src' /\ wf dst' /\ same_shape dst dst'
    /\ contents dst' = take (Z.to_nat n) (contents src)
    /\ contents src' = drop (Z.to_nat n) (contents src).
Proof.
  intros W L Wd Hlen d0 n. pose proof (zlen_contents src W) as HC.
  pose proof W as [S D U RO WO K]. pose proof Wd as [Sd Dd _ _ _ _].
  destruct (clear_correct dst Wd) as (Wd0 & _ & Shd & _). fold d0 in Wd0, Shd.
  assert (zlen (take (Z.to_nat n) (contents src)) = n) as Hn.
  { unfold zlen in *. rewrite length_take. lia. }
  destruct (read_correct src d0.(data) 0 0 W L) as (s1 & E1 & W1 & L1 & Sh1 & C1);
    [lia..|rewrite Z.min_l by lia; unfold d0; cbn; lia|].
  rewrite Z.min_l in E1 by lia. rewrite take_0, splice_nil in E1. rewrite drop_0 in C1.
  pose proof (zlen_contents s1 W1) as HC1. rewrite C1, HC in HC1.
  destruct (read_correct s1 d0.(data) 0 n W1 L1) as (s2 & E2 & W2 & L2 & Sh2 & C2);
    [lia|lia|unfold d0; cbn; lia|].
  rewrite Z.min_l in E2 by lia. rewrite C1 in E2, C2.
  destruct (moved_dst d0 (take (Z.to_nat n) (contents src)) Wd0) as (Wd' & Shd' & Cd');
    [unfold d0; cbn; lia|done|]. rewrite Hn in Wd', Shd', Cd'.
  unfold audio_circlebuf_move, audio_circlebuf_copy_internal, audio_circlebuf_available,
    audio_circlebuf_used.
  change (size d0) with (size dst). change (used d0) with 0.
  change (write_offset d0) with 0. change (read_offset d0) with 0.
  zif; [lia|]. i32s. cbn [Z.gtb Z.compare]. i32s.
  assert ((if used src <? (if len <? size dst - 0 then len else size dst - 0) then used src
           else if len <? size dst - 0 then len else size dst - 0) = n) as ->.
  { subst n. destruct (len <? size dst - 0) eqn:?; zbool; zif; lia. }
  cbn [obind]. change (0 - 0) with 0. zif.
  - assert (n = 0) as En by lia. rewrite En in *. rewrite E1. cbn [obind]. i32s.
    cbn [write_offset set_data]. change (write_offset d0) with 0. i32s.
    rewrite take_0, splice_nil in *. eexists _, _. split; [reflexivity|]. rewrite drop_0, C1.
    eauto 10 using same_shape_trans.
  - i32s. rewrite E1. cbn [obind]. rewrite Z.sub_0_r, E2. cbn [obind].
    eexists _, _. split; [reflexivity|]. rewrite C2. eauto 10 using same_shape_trans.
Qed.

Lemma circlebuf_move_into_cleared_witness :
  let src := {| data := [5; 6; 3; 4]; size := 4; used := 4; read_offset := 2; write_offset := 2;
                over_write := false; chann := 2; fmt := 0; rate := 48000; lock := false |} in
  exists src' dst',
    audio_circlebuf_move (Some src) (Some (audio_circlebuf_clear (rb4 false))) 3
      = Done (3, Some src', Some dst')
    /\ contents dst' = [3; 4; 5] /\ contents src' = [6].
Proof.
  intros src. assert (wf src) as W by (constructor; cbn; unfold zlen, INT32_MAX; cbn; lia).
  destruct (circlebuf_move_into_cleared src (rb4 false) 3 W)
    as (s' & d' & E & _ & _ & _ & _ & _ & Cd & Cs);
    [done|apply rb4_ok|unfold INT32_MAX; lia|].
  exists s', d'. split; [exact E|]. split; [exact Cd|exact Cs].
Defined.

(** Moving or copying into a buffer that already holds data: whatever
    the geometry, a call that returns has set the fill level of the
    destination to the count of this transfer alone, so the bytes that were
    queued there are no longer accounted for. *)
Theorem circlebuf_copy_forgets_queued
    (src dst dst' : circlebuf_s) (osrc : option circlebuf_s) (len r : Z) (move : bool) :
  len <> 0 ->
  audio_circlebuf_copy_internal (Some src) (Some dst) len move = Done (r, osrc, Some dst') ->
  r = Z.min (Z.min len (dst.(size) - dst.(used))) src.(used)
  /\ audio_circlebuf_used dst' = r.
Proof.
  intros Hlen H. unfold audio_circlebuf_copy_internal in H.
  destruct (len =? 0) eqn:E0; zbool; [done|].
  obinv H. apply i32_inv in E as [-> _].
  obinv H. clear E. obinv H. destruct a0 as [s d]. clear E.
  injection H as <- <- <-. split; [|done]. unfold audio_circlebuf_used.
  destruct (len <? size dst - used dst) eqn:?; zbool; zif; lia.
Qed.

(** A buffer of four bytes of which the first two are queued. *)
Definition rb_half (d : list Z) : circlebuf_s :=
  {| data := d; size := 4; used := 2; read_offset := 0; write_offset := 2;
     over_write := false; chann := 2; fmt := 0; rate := 48000; lock := false |}.

Lemma circlebuf_copy_forgets_queued_witness :
  exists s' d',
    audio_circlebuf_copy_internal (Some (rb_half [1; 2; 3; 4])) (Some (rb_half [9; 8; 0; 0])) 2 true
      = Done (2, Some s', Some d')
    /\ audio_circlebuf_used d' = 2 /\ contents d' = [9; 8].
Proof.
  eexists _, _. split; [vm_compute; reflexivity|]. split; [|vm_compute; reflexivity].
  eapply (circlebuf_copy_forgets_queued (rb_half [1; 2; 3; 4]) (rb_half [9; 8; 0; 0]) _ _ 2 2 true);
    [lia|vm_compute; reflexivity].
Defined.
