(* ===== verification/CString.v ===== *)
(** * C strings

    What the HAL uses of [string.h] ([strstr], [strcmp], [strncpy]), of
    [ctype.h], [stdlib.h] and [stdio.h]: [strtol] (with
    base 0, 8, 10 and 16), [atoi] and [sprintf] with the format [%d] into a
    [char[4]].  A C string is a [string] without its terminating NUL. *)

From stdpp Require Import base list numbers.
From Stdlib Require Import ZArith Lia Ascii String.
From S2P Require Import Prelude.

#[local] Open Scope Z_scope.

(** ** Characters *)

Definition code (c : ascii) : Z := Z.of_N (N_of_ascii c).

Definition isspace (c : ascii) : bool :=
  ((9 <=? code c) && (code c <=? 13)) || (code c =? 32).

(** The value of a digit in a base up to 36, as [strtol] reads it. *)
Definition digit_value (c : ascii) : option Z :=
  let k := code c in
  if (48 <=? k) && (k <=? 57) then Some (k - 48)
  else if (97 <=? k) && (k <=? 122) then Some (k - 87)
  else if (65 <=? k) && (k <=? 90) then Some (k - 55)
  else None.

Definition digit_in (base : Z) (c : ascii) : option Z :=
  match digit_value c with
  | Some d => if d <? base then Some d else None
  | None => None
  end.

(** ** Searching and copying *)

(** [strstr (s, p)] is not null. *)
Fixpoint contains (p s : string) : bool :=
  String.prefix p s || match s with EmptyString => false | String _ r => contains p r end.

(** [strcmp (arr, s) == 0] for a [char] array; an array without a NUL is read
    past its end. *)
Fixpoint strcmp_eq (arr : list ascii) (s : string) : outcome bool :=
  match arr with
  | [] => Undef
  | c :: arr =>
      match s with
      | EmptyString => Done (code c =? 0)
      | String d s => if (c =? d)%char then strcmp_eq arr s else Done false
      end
  end.

(** [strncpy (arr, s, n)]: the first [n] characters, padded with NUL. *)
Definition strncpy (arr : list ascii) (s : string) (n : Z) : outcome (list ascii) :=
  if 0 <=? n then
    let l := list_ascii_of_string s in
    mem_write arr 0 (take (Z.to_nat n) l ++ replicate (Z.to_nat n - List.length l) "000"%char)
  else Undef.

(** [strtok_r] with one delimiter [d]: the next token and the text that is
    left, or nothing when only delimiters are left. *)
Fixpoint skip_delim (d : ascii) (s : string) : string :=
  match s with
  | String c r => if (c =? d)%char then skip_delim d r else s
  | EmptyString => s
  end.

Fixpoint token (d : ascii) (s : string) : string * string :=
  match s with
  | EmptyString => (EmptyString, EmptyString)
  | String c r =>
      if (c =? d)%char then (EmptyString, r)
      else let '(t, r) := token d r in (String c t, r)
  end.

Definition strtok (d : ascii) (s : string) : option (string * string) :=
  match skip_delim d s with
  | EmptyString => None
  | s => Some (token d s)
  end.

(** ** strtol *)

Definition LONG_MAX : Z := 9223372036854775807.
Definition LONG_MIN : Z := -9223372036854775808.

Fixpoint skip_space (s : string) : string :=
  match s with
  | String c r => if isspace c then skip_space r else s
  | EmptyString => s
  end.

(** The digits of [s] in [base], after [acc]: the number and the rest. *)
Fixpoint take_digits (base acc : Z) (s : string) : Z * string :=
  match s with
  | String c r =>
      match digit_in base c with
      | Some d => take_digits base (acc * base + d) r
      | None => (acc, s)
      end
  | EmptyString => (acc, s)
  end.

Definition starts_digit (base : Z) (s : string) : bool :=
  match s with
  | String c _ => match digit_in base c with Some _ => true | None => false end
  | EmptyString => false
  end.

(** The subject sequence after the sign: the base that applies and the text
    of the digits.  [0x] counts as a prefix only before a digit. *)
Definition base_prefix (base : Z) (s : string) : Z * string :=
  match s with
  | String "0"%char (String x r) =>
      if ((base =? 0) || (base =? 16))
         && ((code x =? 120) || (code x =? 88)) && starts_digit 16 r
      then (16, r)
      else (if base =? 0 then 8 else base, s)
  | String "0"%char EmptyString => (if base =? 0 then 8 else base, s)
  | _ => (if base =? 0 then 10 else base, s)
  end.

Definition sign_prefix (s : string) : bool * string :=
  match s with
  | String "-"%char r => (true, r)
  | String "+"%char r => (false, r)
  | _ => (false, s)
  end.

Record strtol_result := { st_value : Z; st_end : string; st_erange : bool }.

(** [strtol (s, &end, base)]; without digits the end pointer is [s]. *)
Definition strtol (s : string) (base : Z) : strtol_result :=
  let '(neg, r) := sign_prefix (skip_space s) in
  let '(b, r) := base_prefix base r in
  if starts_digit b r then
    let '(n, e) := take_digits b 0 r in
    let v := if neg then - n else n in
    if v >? LONG_MAX then {| st_value := LONG_MAX; st_end := e; st_erange := true |}
    else if v <? LONG_MIN then {| st_value := LONG_MIN; st_end := e; st_erange := true |}
    else {| st_value := v; st_end := e; st_erange := false |}
  else {| st_value := 0; st_end := s; st_erange := false |}.

(** [atoi]: a value that is not an [int] is undefined. *)
Definition atoi (s : string) : outcome Z := i32 (strtol s 10).(st_value).

(** ** sprintf "%d" *)

Definition digit_char (d : Z) : ascii := ascii_of_N (Z.to_N (48 + d)).

(** The decimal digits of [n] in front of [acc]. *)
Fixpoint dec_digits (fuel : nat) (n : Z) (acc : string) : string :=
  match fuel with
  | O => acc
  | S fuel =>
      let acc := String (digit_char (n mod 10)) acc in
      if n / 10 =? 0 then acc else dec_digits fuel (n / 10) acc
  end.

(** Ten digits are enough for a 32-bit integer. *)
Definition print_int (n : Z) : string :=
  if n <? 0 then String "-"%char (dec_digits 10 (- n) EmptyString) else dec_digits 10 n EmptyString.

(** [sprintf (s, "%d", n)] into [char s[4]]: a text of more than three
    characters overruns the array. *)
Definition sprintf_d4 (n : Z) : outcome string :=
  if Nat.leb (String.length (print_int n)) 3 then Done (print_int n) else Undef.

(** ** Lemmas *)

Lemma length_append (s t : string) : String.length (s ++ t) = (String.length s + String.length t)%nat.
Proof. induction s as [|c s IH]; [done|]. exact (f_equal S IH). Qed.

Lemma digit_char_value (d : Z) : 0 <= d <= 9 -> digit_value (digit_char d) = Some d.
Proof.
  intros H. assert (d = 0 \/ d = 1 \/ d = 2 \/ d = 3 \/ d = 4 \/ d = 5 \/ d = 6 \/ d = 7
                    \/ d = 8 \/ d = 9) as D by lia.
  by repeat (destruct D as [->|D]; [reflexivity|]); subst.
Qed.

Lemma digit_char_in (d base : Z) :
  0 <= d <= 9 -> d < base -> digit_in base (digit_char d) = Some d.
Proof.
  intros H L. unfold digit_in. rewrite digit_char_value by done.
  apply Z.ltb_lt in L. by rewrite L.
Qed.

Lemma take_dec_digits (fuel : nat) (n : Z) (acc : string) :
  0 <= n < 10 ^ Z.of_nat fuel -> (0 < fuel)%nat ->
  take_digits 10 0 (dec_digits fuel n acc) = take_digits 10 n acc.
Proof.
  revert n acc. induction fuel as [|fuel IH]; intros n acc Hn Hf; [lia|].
  assert (0 <= n mod 10 <= 9) by (pose proof (Z.mod_pos_bound n 10); lia).
  pose proof (Z.div_mod n 10 ltac:(lia)) as Hdm.
  assert (0 <= n / 10 < 10 ^ Z.of_nat fuel) as Hq.
  { rewrite Nat2Z.inj_succ, Z.pow_succ_r in Hn by lia.
    split; [apply Z.div_pos; lia|apply Z.div_lt_upper_bound; lia]. }
  cbn [dec_digits]. zif.
  - cbn [take_digits]. rewrite digit_char_in by lia. f_equal. lia.
  - rewrite IH; [|done|].
    + cbn [take_digits]. rewrite digit_char_in by lia. f_equal. lia.
    + destruct fuel; [|lia]. simpl in Hq. lia.
Qed.

(** The text starts with a digit that is not 0, unless the number is 0. *)
Lemma dec_digits_head (fuel : nat) (n : Z) (acc : string) :
  0 <= n < 10 ^ Z.of_nat fuel -> (0 < fuel)%nat ->
  exists d r, dec_digits fuel n acc = String (digit_char d) r /\ 0 <= d <= 9
              /\ (d = 0 -> n = 0 /\ r = acc).
Proof.
  revert n acc. induction fuel as [|fuel IH]; intros n acc Hn Hf; [lia|].
  assert (0 <= n mod 10 <= 9) by (pose proof (Z.mod_pos_bound n 10); lia).
  pose proof (Z.div_mod n 10 ltac:(lia)) as Hdm.
  assert (0 <= n / 10 < 10 ^ Z.of_nat fuel) as Hq.
  { rewrite Nat2Z.inj_succ, Z.pow_succ_r in Hn by lia.
    split; [apply Z.div_pos; lia|apply Z.div_lt_upper_bound; lia]. }
  cbn [dec_digits]. zif.
  - exists (n mod 10), acc. split; [done|]. split; [done|]. intros. split; [lia|done].
  - assert (0 < fuel)%nat by (destruct fuel; [simpl in Hq; lia|lia]).
    destruct (IH (n / 10) (String (digit_char (n mod 10)) acc) Hq) as (d & r & -> & ? & Hd); [done|].
    exists d, r. split; [done|]. split; [done|]. intros E. destruct (Hd E). lia.
Qed.

(** [strtol] on the digits that [print_int] writes, in base 10 or with the
    base taken from the text. *)
Lemma base_prefix_digits (base n : Z) :
  base = 0 \/ base = 10 -> 0 <= n < 10 ^ 10 ->
  exists b, base_prefix base (dec_digits 10 n EmptyString) = (b, dec_digits 10 n EmptyString)
            /\ starts_digit b (dec_digits 10 n EmptyString) = true
            /\ take_digits b 0 (dec_digits 10 n EmptyString) = (n, EmptyString).
Proof.
  intros Hb Hn. destruct (decide (n = 0)) as [->|Hne].
  { exists (if base =? 0 then 8 else base). destruct Hb as [-> | ->]; done. }
  exists 10. destruct (dec_digits_head 10 n EmptyString) as (d & r & E & Hd & H0); [done|lia|].
  assert (d <> 0) as Hd0 by (intros ?; destruct (H0 ltac:(done)); lia).
  split; [|split].
  - rewrite E. assert (d = 1 \/ d = 2 \/ d = 3 \/ d = 4 \/ d = 5 \/ d = 6 \/ d = 7
                    \/ d = 8 \/ d = 9) as D by lia.
    destruct Hb as [-> | ->]; repeat (destruct D as [->|D]; [reflexivity|]); subst; reflexivity.
  - rewrite E. cbn [starts_digit]. rewrite digit_char_in by lia. done.
  - rewrite take_dec_digits by (done || lia). done.
Qed.

Lemma digits_not_sign (n : Z) :
  0 <= n < 10 ^ 10 ->
  skip_space (dec_digits 10 n EmptyString) = dec_digits 10 n EmptyString
  /\ sign_prefix (dec_digits 10 n EmptyString) = (false, dec_digits 10 n EmptyString).
Proof.
  intros Hn. destruct (dec_digits_head 10 n EmptyString) as (d & r & -> & Hd & _); [done|lia|].
  assert (d = 0 \/ d = 1 \/ d = 2 \/ d = 3 \/ d = 4 \/ d = 5 \/ d = 6 \/ d = 7
          \/ d = 8 \/ d = 9) as D by lia.
  repeat (destruct D as [->|D]; [split; reflexivity|]); subst; split; reflexivity.
Qed.

Lemma strtol_print_int (base n : Z) :
  base = 0 \/ base = 10 -> is_i32 n ->
  strtol (print_int n) base = {| st_value := n; st_end := EmptyString; st_erange := false |}.
Proof.
  intros Hb [H1 H2]. unfold INT32_MIN, INT32_MAX in *.
  unfold print_int. destruct (n <? 0) eqn:En; zbool;
  assert ((n >? LONG_MAX) = false /\ (n <? LONG_MIN) = false) as [L1 L2]
    by (rewrite Z.gtb_ltb; split; apply Z.ltb_ge; unfold LONG_MAX, LONG_MIN; lia).
  - destruct (base_prefix_digits base (- n) Hb) as (b & E1 & E2 & E3); [lia|].
    unfold strtol. cbn [skip_space isspace]. cbn [sign_prefix].
    change (isspace "-") with false. cbn [sign_prefix].
    rewrite E1, E2, E3. rewrite Z.opp_involutive, L1, L2. done.
  - destruct (base_prefix_digits base n Hb) as (b & E1 & E2 & E3); [lia|].
    destruct (digits_not_sign n) as [S1 S2]; [lia|].
    unfold strtol. rewrite S1, S2, E1, E2, E3, L1, L2. done.
Qed.

(** Printing with [%d] and reading back with [atoi] is the identity on [int]. *)
Lemma atoi_print_int (n : Z) : is_i32 n -> atoi (print_int n) = Done n.
Proof. intros H. unfold atoi. rewrite strtol_print_int by auto. by apply i32_done. Qed.

Lemma length_dec_digits_le (k fuel : nat) (n : Z) (acc : string) :
  0 <= n < 10 ^ Z.of_nat k -> (0 < k)%nat ->
  (String.length (dec_digits fuel n acc) <= k + String.length acc)%nat.
Proof.
  revert fuel n acc. induction k as [|k IH]; intros fuel n acc Hn Hk; [lia|].
  destruct fuel as [|fuel]; [simpl; lia|]. cbn [dec_digits].
  assert (0 <= n / 10 < 10 ^ Z.of_nat k) as Hq.
  { rewrite Nat2Z.inj_succ, Z.pow_succ_r in Hn by lia.
    split; [apply Z.div_pos; lia|apply Z.div_lt_upper_bound; lia]. }
  zif; [simpl; lia|].
  assert (0 < k)%nat by (destruct k; [simpl in Hq; lia|lia]).
  etransitivity; [by apply IH|]. simpl. lia.
Qed.

Lemma length_dec_digits_ge (k fuel : nat) (n : Z) (acc : string) :
  10 ^ Z.of_nat k <= n -> (k < fuel)%nat ->
  (k + 1 + String.length acc <= String.length (dec_digits fuel n acc))%nat.
Proof.
  revert fuel n acc. induction k as [|k IH]; intros fuel n acc Hn Hk;
    (destruct fuel as [|fuel]; [lia|]); cbn [dec_digits].
  - zif; [simpl; lia|]. clear Hn Hk.
    assert (forall f m a, String.length a <= String.length (dec_digits f m a))%nat as Hmono.
    { clear. induction f as [|f IH]; intros; cbn [dec_digits]; [lia|].
      zif; [simpl; lia|]. etransitivity; [|apply IH]. simpl. lia. }
    specialize (Hmono fuel (n / 10) (String (digit_char (n mod 10)) acc)). simpl in *. lia.
  - assert (10 ^ Z.of_nat k <= n / 10) as Hq.
    { rewrite Nat2Z.inj_succ, Z.pow_succ_r in Hn by lia. apply Z.div_le_lower_bound; lia. }
    assert (0 < 10 ^ Z.of_nat k) by (apply Z.pow_pos_nonneg; lia).
    zif; [lia|].
    specialize (IH fuel (n / 10) (String (digit_char (n mod 10)) acc) Hq ltac:(lia)). simpl in *. lia.
Qed.

(** Exactly the numbers from -99 to 999 fit into a [char[4]]. *)
Definition fits4 (n : Z) : Prop := -99 <= n <= 999.

Lemma sprintf_d4_done (n : Z) : fits4 n -> sprintf_d4 n = Done (print_int n).
Proof.
  intros H. unfold sprintf_d4, fits4 in *.
  assert (String.length (print_int n) <= 3)%nat as ->%Nat.leb_le; [|done].
  unfold print_int. zif.
  - pose proof (length_dec_digits_le 2 10 (- n) EmptyString). simpl in *. lia.
  - pose proof (length_dec_digits_le 3 10 n EmptyString). simpl in *. lia.
Qed.

Lemma sprintf_d4_undef (n : Z) : ~ fits4 n -> sprintf_d4 n = Undef.
Proof.
  intros H. unfold sprintf_d4, fits4 in *.
  assert (3 < String.length (print_int n))%nat as L.
  { unfold print_int. zif.
    - pose proof (length_dec_digits_ge 2 10 (- n) EmptyString). simpl in *. lia.
    - pose proof (length_dec_digits_ge 3 10 n EmptyString). simpl in *. lia. }
  destruct (Nat.leb _ 3) eqn:E; [|done]. apply Nat.leb_le in E. lia.
Qed.

Lemma fits4_i32 (n : Z) : fits4 n -> is_i32 n.
Proof. unfold fits4, is_i32, INT32_MIN, INT32_MAX. lia. Qed.
#[export] Hint Resolve fits4_i32 sprintf_d4_done : hal.

(** ** Tokens *)

Definition free_of (d : ascii) (s : string) : Prop := ~ In d (list_ascii_of_string s).

Lemma token_word (d : ascii) (w r : string) :
  free_of d w -> token d (w ++ String d r) = (w, r) /\ token d w = (w, EmptyString).
Proof.
  induction w as [|c w IH]; intros F; cbn [append token].
  - by rewrite Ascii.eqb_refl.
  - unfold free_of in *. cbn in F. destruct (Ascii.eqb_spec c d) as [-> | N]; [tauto|].
    destruct IH as [-> ->]; [tauto|]. done.
Qed.

(** A word in front of a delimiter, or at the end, is the next token. *)
Lemma strtok_word (d : ascii) (w r : string) :
  w <> EmptyString -> free_of d w ->
  strtok d (w ++ String d r) = Some (w, r) /\ strtok d w = Some (w, EmptyString).
Proof.
  intros N F. destruct (token_word d w r F) as [E1 E2]. unfold strtok.
  destruct w as [|c w]; [done|]. unfold free_of in F. cbn in F. cbn [append skip_delim].
  destruct (Ascii.eqb_spec c d) as [-> | Nc]; [tauto|]. by rewrite <-E1, <-E2.
Qed.

(** A printed number is a word without the delimiter [d]. *)
Lemma print_int_word (d : ascii) (n : Z) :
  digit_value d = None -> 0 <= n < 10 ^ 10 -> print_int n <> EmptyString /\ free_of d (print_int n).
Proof.
  intros D B. unfold print_int. rewrite (proj2 (Z.ltb_ge n 0)) by lia. split.
  - destruct (dec_digits_head 10 n EmptyString) as (c & r & -> & _); [done|lia|done].
  - assert (forall fuel k acc, 0 <= k -> free_of d acc -> free_of d (dec_digits fuel k acc)) as H;
      [|by apply H; [lia|intros []]].
    induction fuel as [|fuel IH]; intros k acc K F; cbn [dec_digits]; [done|].
    assert (free_of d (String (digit_char (k mod 10)) acc)) as F'.
    { intros [E | I]; [|done]. pose proof (Z.mod_pos_bound k 10 ltac:(lia)) as Bm.
      apply (f_equal digit_value) in E. rewrite digit_char_value, D in E by lia. discriminate E. }
    zif; [done|]. apply IH; [apply Z.div_pos; lia|done].
Qed.

(** The fields of a text between the delimiters [d]. *)
Fixpoint fields (d : ascii) (s : string) : list string :=
  match s with
  | EmptyString => [EmptyString]
  | String c r =>
      if (c =? d)%char then EmptyString :: fields d r
      else match fields d r with w :: ws => String c w :: ws | [] => [] end
  end.

Lemma fields_word (d : ascii) (w r : string) :
  free_of d w -> fields d w = [w] /\ fields d (w ++ String d r) = w :: fields d r.
Proof.
  induction w as [|c w IH]; intros F; cbn [append fields].
  - by rewrite Ascii.eqb_refl.
  - unfold free_of in *. cbn in F. destruct (Ascii.eqb_spec c d) as [-> | N]; [tauto|].
    destruct IH as [-> ->]; [tauto|]. done.
Qed.

(** Ten digits are enough for an [int]. *)
Lemma length_print_int (n : Z) : 0 <= n <= INT32_MAX -> (String.length (print_int n) <= 10)%nat.
Proof.
  intros B. unfold INT32_MAX in B. unfold print_int. rewrite (proj2 (Z.ltb_ge n 0)) by lia.
  etransitivity; [apply (length_dec_digits_le 10); [change (10 ^ Z.of_nat 10) with 10000000000; lia|lia]|].
  cbn. lia.
Qed.
