(* ===== verification/Mixer.v ===== *)
(** * The tinyalsa mixer as an interface

    The HAL drives the audio codec and the DSP through the mixer of
    tinyalsa, which is a library outside this repository.  [MixerOps] lists
    the calls the HAL makes, over an abstract state [M] of the sound card;
    [MixerLaws] states what the HAL relies on.  [card] is a concrete sound
    card that satisfies the laws. *)

From stdpp Require Import base list numbers strings.
From Stdlib Require Import ZArith Lia.
From S2P Require Import Prelude.

#[local] Open Scope Z_scope.

(** ** Operations *)

Inductive mixer_ctl_type :=
| MIXER_CTL_TYPE_BOOL
| MIXER_CTL_TYPE_INT
| MIXER_CTL_TYPE_ENUM
| MIXER_CTL_TYPE_BYTE
| MIXER_CTL_TYPE_IEC958
| MIXER_CTL_TYPE_INT64
| MIXER_CTL_TYPE_UNKNOWN.

#[global] Instance mixer_ctl_type_eq_dec : EqDecision mixer_ctl_type.
Proof. solve_decision. Defined.

(** A control is named by its index on the card. *)
Class MixerOps (M : Type) := {
  mixer_open : M -> Z -> bool;
  mixer_get_ctl : M -> Z -> option Z;
  mixer_get_ctl_by_name : M -> string -> option Z;
  mixer_ctl_get_type : M -> Z -> mixer_ctl_type;
  mixer_ctl_get_num_values : M -> Z -> Z;
  mixer_ctl_get_value : M -> Z -> Z -> Z;
  mixer_ctl_set_value : M -> Z -> Z -> Z -> Z * M;
  mixer_ctl_set_enum_by_string : M -> Z -> string -> Z * M;
  mixer_ctl_is_access_tlv_rw : M -> Z -> bool;
  mixer_ctl_get_array : M -> Z -> Z -> Z;
  mixer_ctl_set_array : M -> Z -> list Z -> Z * M;
  TLV_HEADER_SIZE : Z
}.

(** The C allocator: whether [calloc] of so many bytes succeeds. *)
Class Alloc := { calloc_ok : Z -> bool }.

(** ** Laws *)

(** Two states of one card: the same controls, with the same types. *)
Record same_controls {M} `{MixerOps M} (m m' : M) : Prop := {
  sc_open : forall card, mixer_open m' card = mixer_open m card;
  sc_ctl : forall i, mixer_get_ctl m' i = mixer_get_ctl m i;
  sc_name : forall n, mixer_get_ctl_by_name m' n = mixer_get_ctl_by_name m n;
  sc_type : forall c, mixer_ctl_get_type m' c = mixer_ctl_get_type m c;
  sc_num : forall c, mixer_ctl_get_num_values m' c = mixer_ctl_get_num_values m c
}.

(** Every value of a control other than [c] is unchanged. *)
Definition same_except {M} `{MixerOps M} (c : Z) (m m' : M) : Prop :=
  forall c' i, c' <> c -> mixer_ctl_get_value m' c' i = mixer_ctl_get_value m c' i.

Class MixerLaws (M : Type) `{MixerOps M} := {
  set_value_get (m m' : M) (c i v : Z) :
    mixer_ctl_set_value m c i v = (0, m') -> mixer_ctl_get_value m' c i = v;
  set_value_other (m m' : M) (c i v r j : Z) :
    mixer_ctl_set_value m c i v = (r, m') -> j <> i ->
    mixer_ctl_get_value m' c j = mixer_ctl_get_value m c j;
  set_value_frame (m m' : M) (c i v r : Z) :
    mixer_ctl_set_value m c i v = (r, m') -> same_controls m m' /\ same_except c m m';
  set_enum_frame (m m' : M) (c r : Z) (s : string) :
    mixer_ctl_set_enum_by_string m c s = (r, m') -> same_controls m m' /\ same_except c m m';
  num_values_u32 (m : M) (c : Z) : is_u32 (mixer_ctl_get_num_values m c);
  (** the values the driver of control [c] accepts: a fixed range *)
  ctl_accepts : M -> Z -> Z -> Prop;
  accepts_set (m : M) (c i v : Z) :
    ctl_accepts m c v -> 0 <= i < mixer_ctl_get_num_values m c ->
    exists m', mixer_ctl_set_value m c i v = (0, m');
  accepts_stable (m m' : M) (c c' i v w r : Z) :
    mixer_ctl_set_value m c i v = (r, m') -> ctl_accepts m c' w -> ctl_accepts m' c' w;
  (** the items of an enumerated control *)
  enum_item : M -> Z -> string -> Z -> Prop;
  enum_item_set (m : M) (c k : Z) (s : string) :
    enum_item m c s k ->
    exists m', mixer_ctl_set_enum_by_string m c s = (0, m') /\ mixer_ctl_get_value m' c 0 = k;
  enum_item_stable (m m' : M) (c c' k r : Z) (s s' : string) :
    mixer_ctl_set_enum_by_string m c s = (r, m') -> enum_item m c' s' k -> enum_item m' c' s' k
}.

#[global] Instance same_controls_equiv {M} `{MixerOps M} : Equivalence (@same_controls M _).
Proof.
  split.
  - intros m. by constructor.
  - intros m m' []. by constructor.
  - intros m1 m2 m3 [] []. constructor; congruence.
Qed.

#[global] Instance same_except_equiv {M} `{MixerOps M} (c : Z) : Equivalence (same_except (M:=M) c).
Proof.
  split.
  - intros m c' i _. done.
  - intros m m' E c' i Hc. symmetry. by apply E.
  - intros m1 m2 m3 E1 E2 c' i Hc. rewrite E2 by done. by apply E1.
Qed.

(** ** A concrete card *)

Record snd_ctl := {
  c_name : string;
  c_type : mixer_ctl_type;
  c_values : list Z;
  c_min : Z;
  c_max : Z;
  c_enums : list string
}.

Record card := { card_open : bool; card_ctls : list snd_ctl }.

Definition with_values (c : snd_ctl) (vs : list Z) : snd_ctl :=
  {| c_name := c.(c_name); c_type := c.(c_type); c_values := vs; c_min := c.(c_min);
     c_max := c.(c_max); c_enums := c.(c_enums) |}.

Definition get_control (m : card) (c : Z) : option snd_ctl :=
  if 0 <=? c then m.(card_ctls) !! Z.to_nat c else None.

Fixpoint name_index (n : string) (i : Z) (l : list snd_ctl) : option Z :=
  match l with
  | [] => None
  | c :: l => if String.eqb c.(c_name) n then Some i else name_index n (i + 1) l
  end.

Fixpoint enum_index (s : string) (i : Z) (l : list string) : option Z :=
  match l with
  | [] => None
  | e :: l => if String.eqb e s then Some i else enum_index s (i + 1) l
  end.

Definition card_num_values (m : card) (c : Z) : Z :=
  match get_control m c with
  | Some ct => u32 (zlen ct.(c_values))
  | None => 0
  end.

Definition card_get_value (m : card) (c i : Z) : Z :=
  match get_control m c with
  | Some ct => if 0 <=? i then default (- EINVAL) (ct.(c_values) !! Z.to_nat i) else - EINVAL
  | None => - EINVAL
  end.

Definition card_set_value (m : card) (c i v : Z) : Z * card :=
  match get_control m c with
  | Some ct =>
      if (0 <=? i) && (i <? zlen ct.(c_values)) && (ct.(c_min) <=? v) && (v <=? ct.(c_max)) then
        (0, {| card_open := m.(card_open);
               card_ctls := <[Z.to_nat c := with_values ct (<[Z.to_nat i := v]> ct.(c_values))]>
                              m.(card_ctls) |})
      else (- EINVAL, m)
  | None => (- EINVAL, m)
  end.

Definition card_set_enum (m : card) (c : Z) (s : string) : Z * card :=
  match get_control m c with
  | Some ct =>
      match enum_index s 0 ct.(c_enums) with
      | Some k => card_set_value m c 0 k
      | None => (- EINVAL, m)
      end
  | None => (- EINVAL, m)
  end.

#[global] Instance card_ops : MixerOps card := {|
  mixer_open m c := m.(card_open) && (c =? 0);
  mixer_get_ctl m i := match get_control m i with Some _ => Some i | None => None end;
  mixer_get_ctl_by_name m n := name_index n 0 m.(card_ctls);
  mixer_ctl_get_type m c :=
    match get_control m c with Some ct => ct.(c_type) | None => MIXER_CTL_TYPE_UNKNOWN end;
  mixer_ctl_get_num_values := card_num_values;
  mixer_ctl_get_value := card_get_value;
  mixer_ctl_set_value := card_set_value;
  mixer_ctl_set_enum_by_string := card_set_enum;
  mixer_ctl_is_access_tlv_rw _ _ := false;
  mixer_ctl_get_array _ _ _ := - EINVAL;
  mixer_ctl_set_array m _ _ := (- EINVAL, m);
  TLV_HEADER_SIZE := 8
|}.

Lemma name_index_update (n : string) (k : nat) (ct ct' : snd_ctl) (l : list snd_ctl) (i : Z) :
  l !! k = Some ct -> ct'.(c_name) = ct.(c_name) ->
  name_index n i (<[k := ct']> l) = name_index n i l.
Proof.
  revert k i. induction l as [|c l IH]; intros [|k] i H E; simpl in *; try done.
  - injection H as ->. by rewrite E.
  - zif; [done|]. by apply IH.
Qed.

(** Replacing the values of control [c] by as many others. *)
Lemma update_frame (m : card) (c : Z) (ct : snd_ctl) (vs : list Z) :
  get_control m c = Some ct -> length vs = length ct.(c_values) ->
  let m' := {| card_open := m.(card_open);
               card_ctls := <[Z.to_nat c := with_values ct vs]> m.(card_ctls) |} in
  (forall c', get_control m' c' = if decide (c' = c) then Some (with_values ct vs)
                                  else get_control m c')
  /\ same_controls m m' /\ same_except c m m'.
Proof.
  intros G L m'. unfold get_control in G. destruct (0 <=? c) eqn:E0; [|done]. zbool.
  assert (forall c', get_control m' c' = if decide (c' = c) then Some (with_values ct vs)
                                         else get_control m c') as GC.
  { intros c'. unfold get_control, m'. cbn. destruct (0 <=? c') eqn:E1; zbool.
    - case_decide as D.
      + subst c'. apply list_lookup_insert_eq. by eapply lookup_lt_Some.
      + apply list_lookup_insert_ne. lia.
    - case_decide; [lia|done]. }
  split; [exact GC|]. split.
  - constructor; cbn.
    + done.
    + intros i. rewrite GC. case_decide; [subst i|done].
      unfold get_control. apply Z.leb_le in E0. by rewrite E0, G.
    + intros n. eapply name_index_update; [exact G|done].
    + intros i. rewrite GC. case_decide; [subst i|done].
      unfold get_control. apply Z.leb_le in E0. by rewrite E0, G.
    + intros i. unfold card_num_values. rewrite GC. case_decide; [subst i|done].
      unfold get_control. apply Z.leb_le in E0. rewrite E0, G. cbn. unfold zlen. by rewrite L.
  - intros c' i Hc. cbn. unfold card_get_value. rewrite GC. by case_decide.
Qed.

Lemma card_set_value_laws (m m' : card) (c i v r : Z) :
  card_set_value m c i v = (r, m') ->
  (r = 0 -> card_get_value m' c i = v)
  /\ (forall j, j <> i -> card_get_value m' c j = card_get_value m c j)
  /\ same_controls m m' /\ same_except c m m'.
Proof.
  unfold card_set_value. destruct (get_control m c) as [ct|] eqn:G.
  2: { intros [= <- <-]. done. }
  destruct (_ && _) eqn:B; intros [= <- <-]; [|done].
  apply andb_prop in B as [[[B1 B2]%andb_prop _]%andb_prop _]. zbool.
  destruct (update_frame m c ct (<[Z.to_nat i := v]> ct.(c_values)) G) as (GC & SC & SE).
  { by rewrite length_insert. }
  split; [|split; [|by split]].
  - intros _. unfold card_get_value. rewrite GC, decide_True by done. cbn [c_values with_values].
    destruct (0 <=? i) eqn:E; zbool; [|lia].
    rewrite list_lookup_insert_eq; [done|]. unfold zlen in *. lia.
  - intros j Hj. unfold card_get_value. rewrite GC, decide_True, G by done. cbn [c_values with_values].
    destruct (0 <=? j) eqn:E; zbool; [|done]. rewrite list_lookup_insert_ne by lia. done.
Qed.

Definition card_accepts (m : card) (c v : Z) : Prop :=
  exists ct, get_control m c = Some ct /\ ct.(c_min) <= v <= ct.(c_max).

Definition card_enum_item (m : card) (c : Z) (s : string) (k : Z) : Prop :=
  exists ct, get_control m c = Some ct /\ enum_index s 0 ct.(c_enums) = Some k
             /\ ct.(c_min) <= k <= ct.(c_max) /\ 1 <= zlen ct.(c_values).

Lemma card_set_ok (m : card) (c i v : Z) (ct : snd_ctl) :
  get_control m c = Some ct -> ct.(c_min) <= v <= ct.(c_max) -> 0 <= i < zlen ct.(c_values) ->
  exists m', card_set_value m c i v = (0, m').
Proof.
  intros G R I. unfold card_set_value. rewrite G. zif; [eauto|].
  rewrite !andb_false_iff in *. destruct Heqb as [[[?|?]|?]|?]; zbool; lia.
Qed.

(** What a write leaves of every control: its range, its items and the
    number of its values. *)
Lemma card_set_static (m m' : card) (c i v r : Z) :
  card_set_value m c i v = (r, m') ->
  forall c' ct, get_control m c' = Some ct ->
  exists ct', get_control m' c' = Some ct' /\ ct'.(c_min) = ct.(c_min)
              /\ ct'.(c_max) = ct.(c_max) /\ ct'.(c_enums) = ct.(c_enums)
              /\ zlen ct'.(c_values) = zlen ct.(c_values).
Proof.
  unfold card_set_value. intros E c' ct' G'. destruct (get_control m c) as [ct|] eqn:G.
  2: { injection E as <- <-. eauto 10. }
  destruct (_ && _) in E; injection E as <- <-; [|eauto 10].
  destruct (update_frame m c ct (<[Z.to_nat i := v]> ct.(c_values)) G) as (GC & _ & _).
  { by rewrite length_insert. }
  rewrite GC. case_decide; [|eauto 10]. subst c'. rewrite G in G'. injection G' as <-.
  eexists. split; [done|]. cbn. unfold zlen. rewrite length_insert. done.
Qed.

Lemma card_set_enum_value (m m' : card) (c r : Z) (s : string) :
  card_set_enum m c s = (r, m') ->
  m' = m \/ exists k, card_set_value m c 0 k = (r, m').
Proof.
  unfold card_set_enum. destruct (get_control m c); [|intros [= <- <-]; auto].
  destruct (enum_index _ _ _); [eauto|intros [= <- <-]; auto].
Qed.

#[global, refine] Instance card_laws : MixerLaws card := {|
  ctl_accepts := card_accepts;
  enum_item := card_enum_item
|}.
Proof.
  - intros m m' c i v E. destruct (card_set_value_laws m m' c i v 0 E) as (? & ? & ? & ?); eauto.
  - intros m m' c i v r j E Hj.
    destruct (card_set_value_laws m m' c i v r E) as (? & ? & ? & ?); eauto.
  - intros m m' c i v r E. destruct (card_set_value_laws m m' c i v r E) as (? & ? & ? & ?); eauto.
  - intros m m' c r s E. apply card_set_enum_value in E as [-> | (k & E)]; [done|].
    destruct (card_set_value_laws m m' c 0 k r E) as (? & ? & ? & ?); eauto.
  - intros m c. cbn. unfold card_num_values. destruct (get_control m c); [apply u32_range|].
    unfold is_u32, UINT32_MAX. lia.
  - intros m c i v (ct & G & R) I. cbn in *. unfold card_num_values in I. rewrite G in I.
    apply (card_set_ok m c i v ct G R). split; [lia|].
    unfold u32 in I. pose proof (Z.mod_le (zlen (c_values ct)) 4294967296).
    pose proof (zlen_nonneg (c_values ct)). lia.
  - intros m m' c c' i v w r E (ct & G & R).
    destruct (card_set_static m m' c i v r E c' ct G) as (ct' & G' & E1 & E2 & _).
    exists ct'. rewrite E1, E2. done.
  - intros m c k s (ct & G & E & R & L). cbn. unfold card_set_enum. rewrite G, E.
    destruct (card_set_ok m c 0 k ct G R) as (m' & Em); [lia|]. rewrite Em.
    exists m'. split; [done|]. by apply (card_set_value_laws m m' c 0 k 0 Em).
  - intros m m' c c' k r s s' E (ct & G & I). apply card_set_enum_value in E as [-> | (j & E)].
    + exists ct. done.
    + destruct (card_set_static m m' c 0 j r E c' ct G) as (ct' & G' & E1 & E2 & E3 & E4).
      exists ct'. rewrite E1, E2, E3, E4. done.
Defined.
