(* ===== verification/Tinymix.v ===== *)
(** * Mixer access of the DSP HAL

    Models the static functions of [dsp.c] that sit between the DSP
    interface and tinyalsa: [isnumber], [tinymix_detail_control],
    [tinymix_set_byte_ctl], [tinymix_set_value], [dsp_control] and
    [dsp_get_value].  The state is the sound card [M] of the [Mixer]
    interface; text written to stdout and the log is not modelled. *)

From stdpp Require Import base list numbers strings.
From Stdlib Require Import ZArith Lia.
From S2P Require Import Prelude CString Mixer.

#[local] Open Scope Z_scope.

Definition isnumber (str : string) : bool :=
  if Nat.eqb (String.length str) 0 then false
  else Nat.eqb (String.length (strtol str 0).(st_end)) 0.

(** Little-endian bytes of an [unsigned int]. *)
Definition le32 (n : Z) : list Z :=
  [n mod 256; n / 256 mod 256; n / 65536 mod 256; n / 16777216 mod 256].

Section Tinymix.
Context {M : Type} `{MixerOps M} `{Alloc}.

(** ** Reading a control *)

(** The loop over the values: for every type with a value, the last value
    read is left in [*value]. *)
Fixpoint detail_loop (m : M) (c : Z) (type : mixer_ctl_type) (i : Z) (n : nat) (value : Z) : Z :=
  match n with
  | O => value
  | S n =>
      let value :=
        match type with
        | MIXER_CTL_TYPE_INT | MIXER_CTL_TYPE_BOOL | MIXER_CTL_TYPE_ENUM =>
            mixer_ctl_get_value m c i
        | _ => value
        end in
      detail_loop m c type (i + 1) n value
  end.

(** The lookup shared by the readers and the writers. *)
Definition find_control (m : M) (control : string) : outcome (option Z) :=
  if isnumber control then
    let! n := atoi control in Done (mixer_get_ctl m (u32 n))
  else Done (mixer_get_ctl_by_name m control).

Definition tinymix_detail_control (m : M) (control : string) (value : Z) : outcome (Z * Z) :=
  let! ctl := find_control m control in
  match ctl with
  | None => Done (ENOENT, value)
  | Some c =>
      let type := mixer_ctl_get_type m c in
      let num_values := mixer_ctl_get_num_values m c in
      let tlv_header_size := if mixer_ctl_is_access_tlv_rw m c then TLV_HEADER_SIZE else 0 in
      if bool_decide (type = MIXER_CTL_TYPE_BYTE)
         && (negb (calloc_ok (u32 (num_values + tlv_header_size)))
             || (mixer_ctl_get_array m c (num_values + tlv_header_size) <? 0))
      then Done (ENOENT, value)
      else Done (0, detail_loop m c type 0 (Z.to_nat num_values) value)
  end.

(** ** Writing a control *)

(** The loop of [tinymix_set_byte_ctl] that fills the buffer. *)
Fixpoint fill_bytes (buf : list Z) (hdr i : Z) (values : list string) : outcome (list Z) :=
  match values with
  | [] => Done buf
  | v :: values =>
      let r := strtol v 0 in
      if negb (Nat.eqb (String.length r.(st_end)) 0) then Exited
      else if r.(st_erange) then Exited
      else if (r.(st_value) <? 0) || (r.(st_value) >? 255) then Exited
      else
        let! buf := mem_write buf (i + hdr) [r.(st_value)] in
        fill_bytes buf hdr (i + 1) values
  end.

Definition tinymix_set_byte_ctl (c : Z) (values : list string) : st M unit := fun m =>
  let num_values := zlen values in
  let tlv_header_size := if mixer_ctl_is_access_tlv_rw m c then TLV_HEADER_SIZE else 0 in
  let tlv_size := u32 (num_values + tlv_header_size) in
  if calloc_ok tlv_size then
    let buf := replicate (Z.to_nat tlv_size) 0 in
    let! buf := mem_write buf 0 (le32 0) in
    let! buf := mem_write buf 4 (le32 num_values) in
    let! buf := fill_bytes buf tlv_header_size 0 values in
    let '(ret, m) := mixer_ctl_set_array m c buf in
    if ret <? 0 then Exited else Done (tt, m)
  else Exited.

(** [for (i = 0; i < num_ctl_values; i++)] with one value for all. *)
Fixpoint set_same (c value i : Z) (n : nat) : st M Z := fun m =>
  match n with
  | O => Done (0, m)
  | S n =>
      let '(r, m) := mixer_ctl_set_value m c i value in
      if negb (r =? 0) then Done (EINVAL, m) else set_same c value (i + 1) n m
  end.

(** [for (i = 0; i < num_values; i++)] with one value each. *)
Fixpoint set_each (c i : Z) (values : list string) : st M Z := fun m =>
  match values with
  | [] => Done (0, m)
  | v :: values =>
      let! n := atoi v in
      let '(r, m) := mixer_ctl_set_value m c i n in
      if negb (r =? 0) then Done (EINVAL, m) else set_each c (i + 1) values m
  end.

Definition tinymix_set_value (control : string) (values : list string) : st M Z := fun m =>
  let! ctl := find_control m control in
  match ctl with
  | None => Done (ENOENT, m)
  | Some c =>
      let type := mixer_ctl_get_type m c in
      let num_ctl_values := mixer_ctl_get_num_values m c in
      match values with
      | [] => Undef
      | v0 :: _ =>
          if bool_decide (type = MIXER_CTL_TYPE_BYTE) then
            let! (_, m) := tinymix_set_byte_ctl c values m in Done (ENOENT, m)
          else if isnumber v0 then
            if zlen values =? 1 then
              let! value := atoi v0 in
              set_same c value 0 (Z.to_nat num_ctl_values) m
            else if zlen values >? num_ctl_values then Done (EINVAL, m)
            else set_each c 0 values m
          else if bool_decide (type = MIXER_CTL_TYPE_ENUM) then
            if negb (zlen values =? 1) then Done (EINVAL, m)
            else
              let '(r, m) := mixer_ctl_set_enum_by_string m c v0 in
              Done (if negb (r =? 0) then EINVAL else 0, m)
          else Done (EINVAL, m)
      end
  end.

(** ** The two entry points of the DSP interface *)

Definition dsp_control (control : string) (value : string) : st M Z := fun m =>
  if mixer_open m 0 then tinymix_set_value control [value] m else Done (ENODEV, m).

Definition dsp_get_value (m : M) (control : string) (value : Z) : outcome (Z * Z) :=
  if mixer_open m 0 then tinymix_detail_control m control value else Done (ENODEV, value).

(** ** Lemmas *)

(** No path of these functions produces a negative status. *)
Lemma set_same_status (c v i r : Z) (n : nat) (m m' : M) :
  set_same c v i n m = Done (r, m') -> r = 0 \/ r = EINVAL.
Proof.
  revert i m. induction n as [|n IH]; intros i m; cbn [set_same].
  - intros [= <- <-]. auto.
  - destruct (mixer_ctl_set_value m c i v) as [q m1]. zif; [intros [= <- <-]; auto|apply IH].
Qed.

Lemma set_each_status (c i r : Z) (vs : list string) (m m' : M) :
  set_each c i vs m = Done (r, m') -> r = 0 \/ r = EINVAL.
Proof.
  revert i m. induction vs as [|v vs IH]; intros i m; cbn [set_each].
  - intros [= <- <-]. auto.
  - intros E. obinv E. destruct (mixer_ctl_set_value m c i a) as [q m1].
    revert E. zif; [intros [= <- <-]; auto|apply IH].
Qed.

Lemma tinymix_set_value_status (control : string) (vs : list string) (r : Z) (m m' : M) :
  tinymix_set_value control vs m = Done (r, m') -> r = 0 \/ r = EINVAL \/ r = ENOENT.
Proof.
  unfold tinymix_set_value. intros E. obinv E. destruct a as [c|]; [|injection E as <- <-; auto].
  destruct vs as [|v0 vs]; [done|]. revert E. repeat zif; intros E.
  - obinv E. destruct a. injection E as <- <-. auto.
  - obinv E. apply set_same_status in E. tauto.
  - injection E as <- <-. auto.
  - apply set_each_status in E. tauto.
  - injection E as <- <-. auto.
  - destruct (mixer_ctl_set_enum_by_string m c v0) as [q m1]. injection E as <- <-.
    destruct (q =? 0); auto.
  - injection E as <- <-. auto.
Qed.

Lemma dsp_control_status (control value : string) (r : Z) (m m' : M) :
  dsp_control control value m = Done (r, m') -> 0 <= r.
Proof.
  unfold dsp_control. zif.
  - intros E. apply tinymix_set_value_status in E as [-> | [-> | ->]]; unfold EINVAL, ENOENT; lia.
  - intros [= <- <-]. unfold ENODEV. lia.
Qed.

End Tinymix.

(** ** A control that works *)

Section Works.
Context {M : Type} `{MixerLaws M} `{Alloc}.

(** [control] is the name of control [c] of a card that can be opened, and
    [c] has one or more integer values. *)
Record works (m : M) (control : string) (c : Z) : Prop := {
  wk_open : mixer_open m 0 = true;
  wk_text : isnumber control = false;
  wk_name : mixer_get_ctl_by_name m control = Some c;
  wk_type : mixer_ctl_get_type m c <> MIXER_CTL_TYPE_BYTE;
  wk_num : 1 <= mixer_ctl_get_num_values m c
}.

Definition has_value (m : M) (c : Z) : Prop :=
  mixer_ctl_get_type m c = MIXER_CTL_TYPE_INT \/ mixer_ctl_get_type m c = MIXER_CTL_TYPE_BOOL
  \/ mixer_ctl_get_type m c = MIXER_CTL_TYPE_ENUM.

Lemma works_same (m m' : M) (control : string) (c : Z) :
  same_controls m m' -> works m control c -> works m' control c.
Proof. intros [] []. constructor; congruence. Qed.

Lemma has_value_same (m m' : M) (c : Z) : same_controls m m' -> has_value m c -> has_value m' c.
Proof. intros [] ?. unfold has_value in *. by rewrite !sc_type. Qed.

Lemma find_works (m : M) (control : string) (c : Z) :
  works m control c -> find_control m control = Done (Some c).
Proof. intros []. unfold find_control. by rewrite wk_text0, wk_name0. Qed.

(** [m'] is [m] after [v] was written to every value of control [c]. *)
Record written (m : M) (c v : Z) (m' : M) : Prop := {
  wr_same : same_controls m m';
  wr_except : same_except c m m';
  wr_value : forall i, 0 <= i < mixer_ctl_get_num_values m c -> mixer_ctl_get_value m' c i = v;
  wr_accepts : forall c' w, ctl_accepts m c' w -> ctl_accepts m' c' w
}.

Lemma set_same_ok (c v i : Z) (n : nat) (m : M) :
  ctl_accepts m c v -> 0 <= i -> i + Z.of_nat n <= mixer_ctl_get_num_values m c ->
  exists m', set_same c v i n m = Done (0, m') /\ same_controls m m' /\ same_except c m m'
    /\ (forall j, i <= j < i + Z.of_nat n -> mixer_ctl_get_value m' c j = v)
    /\ (forall j, j < i -> mixer_ctl_get_value m' c j = mixer_ctl_get_value m c j)
    /\ (forall c' w, ctl_accepts m c' w -> ctl_accepts m' c' w).
Proof.
  revert i m. induction n as [|n IH]; intros i m A Hi Hn; cbn [set_same].
  { exists m. split; [done|]. split; [reflexivity|]. split; [reflexivity|]. split; [lia|done]. }
  destruct (accepts_set m c i v A) as (m1 & E1); [lia|]. rewrite E1. cbn [negb Z.eqb].
  destruct (set_value_frame m m1 c i v 0 E1) as [SC SE].
  destruct (IH (i + 1) m1) as (m' & E' & SC' & SE' & G1 & G2 & G3);
    [by eapply accepts_stable|lia|rewrite (sc_num m m1 SC); lia|].
  exists m'. split; [done|]. split; [by etrans|]. split; [by etrans|]. split; [|split].
  - intros j Hj. destruct (decide (j = i)) as [->|]; [|apply G1; lia].
    rewrite G2 by lia. by eapply set_value_get.
  - intros j Hj. rewrite G2 by lia. eapply set_value_other; [done|lia].
  - intros c' w A'. apply G3. by eapply accepts_stable.
Qed.

Lemma isnumber_print_int (v : Z) : is_i32 v -> isnumber (print_int v) = true.
Proof.
  intros I. unfold isnumber. rewrite strtol_print_int by auto. cbn [st_end].
  destruct (String.length (print_int v)) eqn:E; [|done].
  assert (print_int v = EmptyString) as P by (destruct (print_int v); [done|discriminate]).
  unfold print_int in P. revert P. zif; [done|]. intros P.
  destruct (dec_digits_head 10 v EmptyString) as (d & r & E' & _);
    [unfold is_i32, INT32_MAX in I; lia|lia|]. rewrite P in E'. discriminate.
Qed.

(** Writing a number to a control that accepts it stores it in every value
    of the control and touches no other control. *)
Lemma dsp_control_ok (m : M) (control : string) (c v : Z) :
  works m control c -> ctl_accepts m c v -> is_i32 v ->
  exists m', dsp_control control (print_int v) m = Done (0, m') /\ written m c v m'.
Proof.
  intros W A I. unfold dsp_control, tinymix_set_value.
  rewrite (wk_open _ _ _ W), (find_works _ _ _ W). cbn [obind].
  rewrite bool_decide_eq_false_2 by apply (wk_type _ _ _ W).
  rewrite isnumber_print_int, atoi_print_int by done. cbn [obind].
  change (zlen [print_int v] =? 1) with true.
  pose proof (num_values_u32 m c) as [N _].
  destruct (set_same_ok c v 0 (Z.to_nat (mixer_ctl_get_num_values m c)) m A)
    as (m' & E & SC & SE & G & _ & G3); [lia|lia|].
  exists m'. split; [done|]. constructor; [done|done| |done]. intros i Hi. apply G. lia.
Qed.

Lemma detail_loop_last (m : M) (c i : Z) (n : nat) (w : Z) :
  has_value m c ->
  detail_loop m c (mixer_ctl_get_type m c) i (S n) w = mixer_ctl_get_value m c (i + Z.of_nat n).
Proof.
  intros T. revert i w. induction n as [|n IH]; intros i w.
  - cbn. rewrite Z.add_0_r. destruct T as [-> | [-> | ->]]; done.
  - change (detail_loop m c (mixer_ctl_get_type m c) i (S (S n)) w) with
      (detail_loop m c (mixer_ctl_get_type m c) (i + 1) (S n)
         (match mixer_ctl_get_type m c with
          | MIXER_CTL_TYPE_INT | MIXER_CTL_TYPE_BOOL | MIXER_CTL_TYPE_ENUM =>
              mixer_ctl_get_value m c i
          | _ => w
          end)).
    rewrite IH. f_equal. lia.
Qed.

(** ** Cards without byte controls *)

(** A card none of whose controls is a byte array: the branch that writes
    byte arrays is not taken. *)
Definition no_byte (m : M) : Prop := forall c, mixer_ctl_get_type m c <> MIXER_CTL_TYPE_BYTE.

Lemma no_byte_same (m m' : M) : same_controls m m' -> no_byte m -> no_byte m'.
Proof. intros [] N c. rewrite sc_type. apply N. Qed.

Lemma set_same_total (c v i : Z) (n : nat) (m : M) :
  exists r m', set_same c v i n m = Done (r, m') /\ same_controls m m'.
Proof.
  revert i m. induction n as [|n IH]; intros i m; cbn [set_same].
  { exists 0, m. split; [done|reflexivity]. }
  destruct (mixer_ctl_set_value m c i v) as [q m1] eqn:E.
  destruct (set_value_frame m m1 c i v q E) as [SC _]. zif; [eauto|].
  destruct (IH (i + 1) m1) as (r & m' & -> & SC'). exists r, m'. split; [done|by etrans].
Qed.

(** The texts the HAL writes: names, and numbers that [atoi] can read. *)
Definition good_text (value : string) : Prop :=
  isnumber value = false \/ exists v, is_i32 v /\ value = print_int v.

Lemma dsp_control_total (m : M) (control value : string) :
  no_byte m -> isnumber control = false -> good_text value ->
  exists r m', dsp_control control value m = Done (r, m') /\ same_controls m m'.
Proof.
  intros N Hc Ht. unfold dsp_control, tinymix_set_value, find_control. rewrite Hc.
  zif; [|eexists _, m; split; [done|reflexivity]]. cbn [obind].
  destruct (mixer_get_ctl_by_name m control) as [c|];
    [|eexists _, m; split; [done|reflexivity]].
  rewrite bool_decide_eq_false_2 by apply N.
  destruct Ht as [-> | (v & I & ->)].
  - zif; [|eexists _, m; split; [done|reflexivity]].
    change (negb (zlen [value] =? 1)) with false.
    destruct (mixer_ctl_set_enum_by_string m c value) as [q m1] eqn:E.
    destruct (set_enum_frame m m1 c q value E) as [SC _]. eauto.
  - rewrite isnumber_print_int, atoi_print_int by done.
    change (zlen [print_int v] =? 1) with true. apply set_same_total.
Qed.

Lemma good_print (v : Z) : is_i32 v -> good_text (print_int v).
Proof. right. eauto. Qed.

(** Reading a control gives its last value. *)
Lemma dsp_get_value_ok (m : M) (control : string) (c w : Z) :
  works m control c -> has_value m c ->
  dsp_get_value m control w
    = Done (0, mixer_ctl_get_value m c (mixer_ctl_get_num_values m c - 1)).
Proof.
  intros W T. unfold dsp_get_value, tinymix_detail_control.
  rewrite (wk_open _ _ _ W), (find_works _ _ _ W). cbn [obind].
  rewrite bool_decide_eq_false_2 by apply (wk_type _ _ _ W). cbn [andb].
  pose proof (wk_num _ _ _ W) as N.
  destruct (Z.to_nat (mixer_ctl_get_num_values m c)) as [|n] eqn:En; [lia|].
  rewrite detail_loop_last by done. do 3 f_equal. lia.
Qed.

(** What is written is what is read back. *)
Lemma written_read (m m' : M) (control : string) (c v w : Z) :
  works m control c -> has_value m c -> written m c v m' ->
  dsp_get_value m' control w = Done (0, v).
Proof.
  intros W T [SC _ V _]. rewrite (dsp_get_value_ok m' control c w);
    [|by eapply works_same|by eapply has_value_same].
  rewrite (sc_num m m' SC). do 2 f_equal. apply V. pose proof (wk_num _ _ _ W). lia.
Qed.

End Works.
