(* ===== verification/Dsp.v ===== *)
(** * The DSP interface of the vehicle audio HAL

    Models [dsp.c]: the [dspdev_*] functions through which the audio HAL
    selects sources and sets volumes, mutes, equalizers and the diagnosis
    modes of the DSP, and the initialisation from the vehicle configuration.
    [dsp] is the static state of the file together with the sound card.  An
    enumeration of C is an [unsigned int], printed with [%d] through its
    conversion to [int] ([s32]); a [bool] is printed as 0 or 1.  Every
    function is a computation of the state monad; an out parameter is an
    additional result, and an additional argument where the function may
    leave it as it was. *)

From stdpp Require Import base list numbers strings.
From Stdlib Require Import ZArith Lia Ascii.
From S2P Require Import Prelude CString Mixer Tinymix.

#[local] Open Scope Z_scope.

(** ** Constants of [dsp.c] *)

Definition MEDIA_VOL_MAX : Z := 39.
Definition PHONE_VOL_MAX : Z := 39.
Definition NAVI_VOL_MAX : Z := 39.
Definition MEDIA_VOL_INIT : Z := 0.
Definition PHONE_VOL_INIT : Z := 0.
Definition BMT_VALUE_MAX : Z := 20.
Definition GEQ_VALUE_MAX : Z := 14.
Definition tinymix_control_MediaVol : string := "Media_Vol"%string.
Definition tinymix_control_NaviVol : string := "Navi_Vol"%string.
Definition tinymix_control_BeepVol : string := "Beep_Vol"%string.
Definition tinymix_control_TboxVol : string := "Tbox_Vol"%string.
Definition tinymix_control_PhoneVol : string := "Phone_Vol"%string.
Definition tinymix_control_Source_Select : string := "Source_Select"%string.
Definition tinymix_control_Source_Select_Music : string := "Music"%string.
Definition tinymix_control_Source_Select_Tuner : string := "Tuner"%string.
Definition tinymix_control_Source_Select_BT : string := "BT"%string.
Definition tinymix_control_Source_Select_CP_Phone : string := "CP Phone"%string.
Definition tinymix_control_Source_Select_Tbox : string := "Tbox"%string.
Definition tinymix_control_Source_Select_Siri : string := "Siri"%string.
Definition tinymix_control_Source_Select_VR : string := "VR"%string.
Definition tinymix_control_Source_Select_NULL : string := "NULL"%string.
Definition tinymix_control_Mute_On : string := "1"%string.
Definition tinymix_control_Mute_Off : string := "0"%string.
Definition tinymix_control_MicVol : string := "Mic_vol"%string.
Definition tinymix_control_MediaMute : string := "Media_Mute"%string.
Definition tinymix_control_NaviMute : string := "Navi_Mute"%string.
Definition tinymix_control_TboxMute : string := "Tbox_Mute"%string.
Definition tinymix_control_BeepMute : string := "Beep_Mute"%string.
Definition tinymix_control_PhoneMute : string := "Phone_Mute"%string.
Definition tinymix_control_TunerMute : string := "Tuner_Mute"%string.
Definition tinymix_control_MicMute : string := "MIC_Mute"%string.
Definition tinymix_control_Loudness : string := "Loudness_SW"%string.
Definition tinymix_control_Bass : string := "Bass"%string.
Definition tinymix_control_Middle : string := "Middle"%string.
Definition tinymix_control_Treble : string := "Treble"%string.
Definition tinymix_control_Bass_EQ : string := "Sony_Geq1"%string.
Definition tinymix_control_Middle_Bass_EQ : string := "Sony_Geq2"%string.
Definition tinymix_control_Middle_EQ : string := "Sony_Geq3"%string.
Definition tinymix_control_Middle_High_EQ : string := "Sony_Geq4"%string.
Definition tinymix_control_High_EQ : string := "Sony_Geq5"%string.
Definition tinymix_control_Balance : string := "Balance"%string.
Definition tinymix_control_Fader : string := "Fader"%string.
Definition tinymix_control_VCWorkMode : string := "VCWorkMode"%string.
Definition tinymix_control_VCFunc : string := "VCFunc"%string.
Definition tinymix_control_VCVolume : string := "VCVolume"%string.
Definition tinymix_control_DtcsModeSw : string := "DTCS MODE SW"%string.
Definition tinymix_control_DtcsSw : string := "DTCS SW"%string.
Definition tinymix_control_AleSw : string := "ALE A SW"%string.
Definition tinymix_control_BexSw : string := "BEX SW"%string.
Definition tinymix_control_TtsSw : string := "TTS SW"%string.
Definition tinymix_control_PA_pwm_frequency : string := "PA_pwm_frequency"%string.
Definition tinymix_control_PA_spread_spectrum : string := "PA_spread_spectrum"%string.
Definition tinymix_control_PA_phase_staggering_ch1 : string := "PA_phase_staggering_ch1"%string.
Definition tinymix_control_PA_phase_staggering_ch2 : string := "PA_phase_staggering_ch2"%string.
Definition tinymix_control_PA_phase_staggering_ch3 : string := "PA_phase_staggering_ch3"%string.
Definition tinymix_control_PA_phase_staggering_ch4 : string := "PA_phase_staggering_ch4"%string.
Definition tinymix_control_PA_AM_frequency : string := "PA_AM_frequency"%string.
Definition tinymix_control_PA_Mute : string := "PA_Mute"%string.
Definition tinymix_control_PA_caculate_caribration : string := "PA_caculate_caribration"%string.
Definition tinymix_control_PA_set_caribration : string := "PA_set_caribration"%string.
Definition tinymix_control_Sound_Effect : string := "Sound_Mode"%string.
Definition tinymix_control_Sound_Stage : string := "Sound_Stage"%string.
Definition tinymix_control_ExtPaConfig : string := "ExtPa_Config"%string.
Definition tinymix_control_SpeakerNum : string := "Speaker_Num"%string.
Definition tinymix_control_SpeakerType : string := "Speaker_Type"%string.
Definition tinymix_contorl_BalanceSource : string := "Media_Offset"%string.
Definition tinymix_contorl_SoundChannel_Mute : string := "Test_Channel_Mute"%string.
Definition tinymix_control_ExternalPaTest : string := "DIAG_AM8_EXT_ADC"%string.
Definition tinymix_control_DiagMicTest : string := "DIAG_MIC_Test"%string.
Definition tinymix_control_EcnrType : string := "Ecnr_Type"%string.
Definition tinymix_control_DiagPDCVol : string := "DIAG_PDC_Vol"%string.
Definition tinymix_control_DiagPDCChannel : string := "DIAG_PDC_Channel"%string.
Definition tinymix_control_DiagPDCType : string := "DIAG_PDC_Type"%string.
Definition tinymix_control_dsp_firmware_version : string := "Get_Firmware_Version"%string.
Definition tinymix_control_MCU_Reset_DSP : string := "MCU_Reset_DSP"%string.
Definition tinymix_control_DiagSoundEffectOff : string := "DIAG_Sound_Effect_Off"%string.
Definition tinymix_control_secondary_mono_all : string := "Secondary_Mono_All"%string.
Definition tinymix_control_secondary_steoro_all : string := "Secondary_Steoro_All"%string.
Definition tinymix_control_navi_mono_all : string := "Navi_Mono_All"%string.
Definition tinymix_control_phone_mono_all : string := "Phone_Mono_All"%string.

(** ** Enumerators of [audio_dsp_common.h] and [dsp.h] *)

Definition CHANNEL_MEDIA_MUSIC : Z := 0.
Definition CHANNEL_MEDIA_TUNER : Z := 1.
Definition CHANNEL_BT_PHONE : Z := 2.
Definition CHANNEL_CARPLAY_PHONE : Z := 3.
Definition CHANNEL_TBOX : Z := 4.
Definition CHANNEL_SIRI : Z := 5.
Definition CHANNEL_NAVI : Z := 6.
Definition CHANNEL_BEEP : Z := 7.
Definition CHANNEL_VR : Z := 8.
Definition CHANNEL_NULL : Z := 9.

Definition SOUND_EFFECT_NATURAL_ACOUSTIC : Z := 0.
Definition SOUND_EFFECT_REST_MODE : Z := 3.
Definition BMT_BASS : Z := 0.
Definition BMT_MIDDLE : Z := 1.
Definition BMT_TREBLE : Z := 2.
Definition GEQ_BASS : Z := 0.
Definition GEQ_MIDDLE_BASS : Z := 1.
Definition GEQ_MIDDLE : Z := 2.
Definition GEQ_MIDDLE_HIGH : Z := 3.
Definition GEQ_HIGH : Z := 4.
Definition SOUND_STAGE_DRIVER_MODE : Z := 1.
Definition SOUND_STAGE_ALL_PASSENGER_MODE : Z := 2.
Definition AUDIO_BALANCE_MUSIC : Z := 0.
Definition AUDIO_BALANCE_FM : Z := 1.
Definition AUDIO_BALANCE_AM : Z := 2.
Definition SOUND_CHANNEL_RR : Z := 0.
Definition SOUND_CHANNEL_FL : Z := 3.
Definition ECNR_TYPE_VR : Z := 0.
Definition PDC_TYPE_STOP : Z := 0.
Definition PDC_TYPE_SLOW : Z := 1.

Section Dsp.
Context {M : Type} `{MixerOps M} `{Alloc}.

(** ** State *)

(** The file-level statics, the function-level statics [channel_cache] and
    [s_mute_status], and the sound card. *)
Record dsp := {
  mixer : M;
  media_volume_cache : Z;
  phone_volume_cache : Z;
  media_volume_offset_cache : Z;
  phone_volume_offset_cache : Z;
  media_variable_max_volume_cache : Z;
  bmt_value_cache : Z;
  s_media_muted : bool;
  channel_cache : Z;
  s_mute_status : Z
}.

Definition set_mixer (v : M) (s : dsp) : dsp :=
  {| mixer := v;
     media_volume_cache := s.(media_volume_cache);
     phone_volume_cache := s.(phone_volume_cache);
     media_volume_offset_cache := s.(media_volume_offset_cache);
     phone_volume_offset_cache := s.(phone_volume_offset_cache);
     media_variable_max_volume_cache := s.(media_variable_max_volume_cache);
     bmt_value_cache := s.(bmt_value_cache);
     s_media_muted := s.(s_media_muted);
     channel_cache := s.(channel_cache);
     s_mute_status := s.(s_mute_status) |}.

Definition set_media_volume_cache (v : Z) (s : dsp) : dsp :=
  {| mixer := s.(mixer);
     media_volume_cache := v;
     phone_volume_cache := s.(phone_volume_cache);
     media_volume_offset_cache := s.(media_volume_offset_cache);
     phone_volume_offset_cache := s.(phone_volume_offset_cache);
     media_variable_max_volume_cache := s.(media_variable_max_volume_cache);
     bmt_value_cache := s.(bmt_value_cache);
     s_media_muted := s.(s_media_muted);
     channel_cache := s.(channel_cache);
     s_mute_status := s.(s_mute_status) |}.

Definition set_phone_volume_cache (v : Z) (s : dsp) : dsp :=
  {| mixer := s.(mixer);
     media_volume_cache := s.(media_volume_cache);
     phone_volume_cache := v;
     media_volume_offset_cache := s.(media_volume_offset_cache);
     phone_volume_offset_cache := s.(phone_volume_offset_cache);
     media_variable_max_volume_cache := s.(media_variable_max_volume_cache);
     bmt_value_cache := s.(bmt_value_cache);
     s_media_muted := s.(s_media_muted);
     channel_cache := s.(channel_cache);
     s_mute_status := s.(s_mute_status) |}.

Definition set_media_volume_offset_cache (v : Z) (s : dsp) : dsp :=
  {| mixer := s.(mixer);
     media_volume_cache := s.(media_volume_cache);
     phone_volume_cache := s.(phone_volume_cache);
     media_volume_offset_cache := v;
     phone_volume_offset_cache := s.(phone_volume_offset_cache);
     media_variable_max_volume_cache := s.(media_variable_max_volume_cache);
     bmt_value_cache := s.(bmt_value_cache);
     s_media_muted := s.(s_media_muted);
     channel_cache := s.(channel_cache);
     s_mute_status := s.(s_mute_status) |}.

Definition set_phone_volume_offset_cache (v : Z) (s : dsp) : dsp :=
  {| mixer := s.(mixer);
     media_volume_cache := s.(media_volume_cache);
     phone_volume_cache := s.(phone_volume_cache);
     media_volume_offset_cache := s.(media_volume_offset_cache);
     phone_volume_offset_cache := v;
     media_variable_max_volume_cache := s.(media_variable_max_volume_cache);
     bmt_value_cache := s.(bmt_value_cache);
     s_media_muted := s.(s_media_muted);
     channel_cache := s.(channel_cache);
     s_mute_status := s.(s_mute_status) |}.

Definition set_media_variable_max_volume_cache (v : Z) (s : dsp) : dsp :=
  {| mixer := s.(mixer);
     media_volume_cache := s.(media_volume_cache);
     phone_volume_cache := s.(phone_volume_cache);
     media_volume_offset_cache := s.(media_volume_offset_cache);
     phone_volume_offset_cache := s.(phone_volume_offset_cache);
     media_variable_max_volume_cache := v;
     bmt_value_cache := s.(bmt_value_cache);
     s_media_muted := s.(s_media_muted);
     channel_cache := s.(channel_cache);
     s_mute_status := s.(s_mute_status) |}.

Definition set_s_media_muted (v : bool) (s : dsp) : dsp :=
  {| mixer := s.(mixer);
     media_volume_cache := s.(media_volume_cache);
     phone_volume_cache := s.(phone_volume_cache);
     media_volume_offset_cache := s.(media_volume_offset_cache);
     phone_volume_offset_cache := s.(phone_volume_offset_cache);
     media_variable_max_volume_cache := s.(media_variable_max_volume_cache);
     bmt_value_cache := s.(bmt_value_cache);
     s_media_muted := v;
     channel_cache := s.(channel_cache);
     s_mute_status := s.(s_mute_status) |}.

Definition set_channel_cache (v : Z) (s : dsp) : dsp :=
  {| mixer := s.(mixer);
     media_volume_cache := s.(media_volume_cache);
     phone_volume_cache := s.(phone_volume_cache);
     media_volume_offset_cache := s.(media_volume_offset_cache);
     phone_volume_offset_cache := s.(phone_volume_offset_cache);
     media_variable_max_volume_cache := s.(media_variable_max_volume_cache);
     bmt_value_cache := s.(bmt_value_cache);
     s_media_muted := s.(s_media_muted);
     channel_cache := v;
     s_mute_status := s.(s_mute_status) |}.

Definition set_s_mute_status (v : Z) (s : dsp) : dsp :=
  {| mixer := s.(mixer);
     media_volume_cache := s.(media_volume_cache);
     phone_volume_cache := s.(phone_volume_cache);
     media_volume_offset_cache := s.(media_volume_offset_cache);
     phone_volume_offset_cache := s.(phone_volume_offset_cache);
     media_variable_max_volume_cache := s.(media_variable_max_volume_cache);
     bmt_value_cache := s.(bmt_value_cache);
     s_media_muted := s.(s_media_muted);
     channel_cache := s.(channel_cache);
     s_mute_status := v |}.

Definition dsp_static (m : M) : dsp :=
  {| mixer := m; media_volume_cache := MEDIA_VOL_INIT; phone_volume_cache := PHONE_VOL_INIT;
     media_volume_offset_cache := 0; phone_volume_offset_cache := 0;
     media_variable_max_volume_cache := MEDIA_VOL_MAX; bmt_value_cache := BMT_VALUE_MAX;
     s_media_muted := false; channel_cache := -1; s_mute_status := 0 |}.

Definition dspm (A : Type) : Type := st dsp A.

Definition int (z : Z) : dspm Z := slift (i32 z).

Definition sprintf_d (n : Z) : dspm string := slift (sprintf_d4 n).

Definition control (name value : string) : dspm Z := fun s =>
  let! (ret, m) := dsp_control name value s.(mixer) in Done (ret, set_mixer m s).

Definition get_value (name : string) (value : Z) : dspm (Z * Z) := fun s =>
  let! r := dsp_get_value s.(mixer) name value in Done (r, s).

(** ** Source selection *)

Definition dspdev_set_audio_balance (source : Z) : dspm Z :=
  if source >? AUDIO_BALANCE_AM then sret (- EINVAL)
  else
    do! s_audio_balance_source := sprintf_d (s32 source) in
    do! ret := control tinymix_contorl_BalanceSource s_audio_balance_source in
    sret (if ret <? 0 then -1 else 0).

Definition dspdev_set_channel (channel_type : Z) : dspm Z :=
  do! s := sget in
  if u32 s.(channel_cache) =? channel_type then sret 0
  else
    do! ret :=
      (if channel_type =? CHANNEL_MEDIA_MUSIC then
         do! ret := control tinymix_control_Source_Select tinymix_control_Source_Select_Music in
         do! _ := dspdev_set_audio_balance AUDIO_BALANCE_MUSIC in
         sret (Some ret)
       else if channel_type =? CHANNEL_MEDIA_TUNER then
         do! ret := control tinymix_control_Source_Select tinymix_control_Source_Select_Tuner in
         do! _ := dspdev_set_audio_balance AUDIO_BALANCE_FM in
         sret (Some ret)
       else if channel_type =? CHANNEL_BT_PHONE then
         do! ret := control tinymix_control_Source_Select tinymix_control_Source_Select_BT in
         sret (Some ret)
       else if channel_type =? CHANNEL_CARPLAY_PHONE then
         do! ret := control tinymix_control_Source_Select tinymix_control_Source_Select_CP_Phone in
         sret (Some ret)
       else if channel_type =? CHANNEL_TBOX then
         do! ret := control tinymix_control_Source_Select tinymix_control_Source_Select_Tbox in
         sret (Some ret)
       else if channel_type =? CHANNEL_SIRI then
         do! ret := control tinymix_control_Source_Select tinymix_control_Source_Select_Siri in
         sret (Some ret)
       else if channel_type =? CHANNEL_VR then
         do! ret := control tinymix_control_Source_Select tinymix_control_Source_Select_VR in
         sret (Some ret)
       else if channel_type =? CHANNEL_NULL then
         do! ret := control tinymix_control_Source_Select tinymix_control_Source_Select_NULL in
         sret (Some ret)
       else sret None) in
    match ret with
    | None => sret EINVAL
    | Some ret =>
        if ret <? 0 then sret (-1)
        else do! _ := smodify (set_channel_cache (s32 channel_type)) in sret 0
    end.

Definition dspdev_get_channel : dspm (Z * Z) :=
  do! (ret, native_channel) := get_value tinymix_control_Source_Select 0 in
  let channel :=
    if native_channel =? 0 then Some CHANNEL_MEDIA_MUSIC
    else if native_channel =? 1 then Some CHANNEL_MEDIA_TUNER
    else if native_channel =? 2 then Some CHANNEL_BT_PHONE
    else if native_channel =? 3 then Some CHANNEL_CARPLAY_PHONE
    else if native_channel =? 4 then Some CHANNEL_TBOX
    else if native_channel =? 5 then Some CHANNEL_SIRI
    else if native_channel =? 6 then Some CHANNEL_VR
    else None in
  match channel with
  | None => sret (EINVAL, CHANNEL_MEDIA_MUSIC)
  | Some channel => sret (if ret <? 0 then -1 else 0, channel)
  end.

Definition dspdev_set_tuner_mixer (on : bool) : dspm Z := sret 0.

(** ** Volumes *)

Definition dspdev_set_volume (channel_type value : Z) : dspm Z :=
  do! s := sget in
  do! value :=
    (if (channel_type =? CHANNEL_MEDIA_MUSIC) || (channel_type =? CHANNEL_MEDIA_TUNER) then
       do! value := int (value + s.(media_volume_offset_cache)) in
       sret (if value >? s.(media_variable_max_volume_cache)
             then s.(media_variable_max_volume_cache) else value)
     else if channel_type =? CHANNEL_BT_PHONE then
       do! sum := int (value + s.(phone_volume_offset_cache)) in
       sret (if sum >? PHONE_VOL_MAX then PHONE_VOL_MAX
             else if sum <=? 0 then (if value >? 0 then 1 else value)
             else sum)
     else sret value) in
  do! s_vol_value := sprintf_d value in
  do! ret :=
    (if (channel_type =? CHANNEL_MEDIA_MUSIC) || (channel_type =? CHANNEL_MEDIA_TUNER) then
       do! cache := int (value - s.(media_volume_offset_cache)) in
       do! _ := smodify (set_media_volume_cache cache) in
       do! ret := control tinymix_control_MediaVol s_vol_value in sret (Some ret)
     else if channel_type =? CHANNEL_BT_PHONE then
       do! _ := smodify (set_phone_volume_cache value) in
       do! ret := control tinymix_control_PhoneVol s_vol_value in sret (Some ret)
     else if channel_type =? CHANNEL_TBOX then
       do! ret := control tinymix_control_TboxVol s_vol_value in sret (Some ret)
     else if channel_type =? CHANNEL_NAVI then
       do! ret := control tinymix_control_NaviVol s_vol_value in sret (Some ret)
     else if channel_type =? CHANNEL_BEEP then
       do! ret := control tinymix_control_BeepVol s_vol_value in sret (Some ret)
     else sret None) in
  match ret with
  | None => sret (- EINVAL)
  | Some ret => sret (if ret <? 0 then -1 else 0)
  end.

Definition dspdev_get_volume (channel_type value : Z) : dspm (Z * Z) :=
  do! s := sget in
  if (channel_type =? CHANNEL_MEDIA_MUSIC) || (channel_type =? CHANNEL_MEDIA_TUNER) then
    do! (ret, value) := get_value tinymix_control_MediaVol value in
    do! value := int (value - s.(media_volume_offset_cache)) in
    sret (if ret <? 0 then -1 else 0, value)
  else if channel_type =? CHANNEL_BT_PHONE then
    do! (ret, value) := get_value tinymix_control_PhoneVol value in
    do! value := int (value - s.(phone_volume_offset_cache)) in
    sret (if ret <? 0 then -1 else 0, value)
  else if channel_type =? CHANNEL_TBOX then
    do! (ret, value) := get_value tinymix_control_TboxVol value in
    sret (if ret <? 0 then -1 else 0, value)
  else
    do! (_, value) := get_value tinymix_control_MediaVol value in
    do! value := int (value - s.(media_volume_offset_cache)) in
    sret (EINVAL, value).

Definition dspdev_set_volume_offset (channel_type value : Z) : dspm Z :=
  do! s := sget in
  do! ret :=
    (if (channel_type =? CHANNEL_MEDIA_MUSIC) || (channel_type =? CHANNEL_MEDIA_TUNER) then
       do! _ := smodify (set_media_volume_offset_cache value) in
       do! sum := int (s.(media_volume_cache) + value) in
       let current_vol := if sum >? MEDIA_VOL_MAX then MEDIA_VOL_MAX
                          else if sum <? 0 then 0 else sum in
       let current_vol := if current_vol >? s.(media_variable_max_volume_cache)
                          then s.(media_variable_max_volume_cache) else current_vol in
       do! text := sprintf_d current_vol in
       do! ret := control tinymix_control_MediaVol text in sret (Some ret)
     else if channel_type =? CHANNEL_VR then
       do! sum := int (s.(media_volume_cache) + value) in
       let current_vol := if sum >? NAVI_VOL_MAX then NAVI_VOL_MAX
                          else if sum <? 0 then 0 else sum in
       let current_vol := if current_vol >? s.(media_variable_max_volume_cache)
                          then s.(media_variable_max_volume_cache) else current_vol in
       do! text := sprintf_d current_vol in
       do! ret := control tinymix_control_NaviVol text in sret (Some ret)
     else if channel_type =? CHANNEL_BT_PHONE then
       do! _ := smodify (set_phone_volume_offset_cache value) in
       do! sum := int (s.(phone_volume_cache) + value) in
       let current_vol := if sum >? PHONE_VOL_MAX then PHONE_VOL_MAX
                          else if sum <=? 0
                               then (if s.(phone_volume_cache) >? 0 then 1 else s.(phone_volume_cache))
                               else sum in
       do! text := sprintf_d current_vol in
       do! ret := control tinymix_control_PhoneVol text in sret (Some ret)
     else sret None) in
  match ret with
  | None => sret EINVAL
  | Some ret => sret (if ret <? 0 then -1 else 0)
  end.

Definition dspdev_get_volume_offset (type : Z) : dspm (Z * Z) :=
  do! s := sget in sret (0, s.(media_volume_offset_cache)).

Definition dspdev_set_variable_max_volume (channel_type value : Z) : dspm Z :=
  do! _ := smodify (set_media_variable_max_volume_cache value) in sret 0.

Definition dspdev_get_variable_max_volume (type : Z) : dspm (Z * Z) :=
  do! s := sget in sret (0, s.(media_variable_max_volume_cache)).

Definition dspdev_get_max_volume (type : Z) : dspm (Z * Z) := sret (0, MEDIA_VOL_MAX).

(** ** Mutes and switches *)

Definition dspdev_set_music_mute (mute : bool) : dspm Z :=
  do! s := sget in
  if s.(s_media_muted) then sret 0
  else
    do! mute_status := sprintf_d (Z.b2z mute) in
    do! ret := control tinymix_control_MediaMute mute_status in
    sret (if ret <? 0 then -1 else 0).

Definition dspdev_get_music_mute : dspm (Z * bool) :=
  do! (ret, i_mute) := get_value tinymix_control_MediaMute 0 in
  sret (if ret <? 0 then -1 else 0, negb (i_mute =? 0)).

Definition dspdev_set_media_mute (mute : bool) : dspm Z :=
  do! _ := smodify (set_s_media_muted mute) in
  do! mute_status := sprintf_d (Z.b2z mute) in
  do! ret := control tinymix_control_MediaMute mute_status in
  sret (if ret <? 0 then -1 else 0).

Definition dspdev_set_navi_mute (mute : bool) : dspm Z :=
  do! s_navi_mute_status := sprintf_d (Z.b2z mute) in
  do! ret := control tinymix_control_NaviMute s_navi_mute_status in
  sret (if ret <? 0 then -1 else 0).

Definition dspdev_get_navi_mute : dspm (Z * bool) :=
  do! (ret, i_mute) := get_value tinymix_control_NaviMute 0 in
  sret (if ret <? 0 then -1 else 0, negb (i_mute =? 0)).

Definition dspdev_set_tbox_mute (mute : bool) : dspm Z :=
  do! s_tbox_mute_status := sprintf_d (Z.b2z mute) in
  do! ret := control tinymix_control_TboxMute s_tbox_mute_status in
  sret (if ret <? 0 then -1 else 0).

Definition dspdev_get_tbox_mute : dspm (Z * bool) :=
  do! (ret, i_mute) := get_value tinymix_control_TboxMute 0 in
  sret (if ret <? 0 then -1 else 0, negb (i_mute =? 0)).

Definition dspdev_set_beep_mute (mute : bool) : dspm Z :=
  do! s_beep_mute_status := sprintf_d (Z.b2z mute) in
  do! ret := control tinymix_control_BeepMute s_beep_mute_status in
  sret (if ret <? 0 then -1 else 0).

Definition dspdev_get_beep_mute : dspm (Z * bool) :=
  do! (ret, i_mute) := get_value tinymix_control_BeepMute 0 in
  sret (if ret <? 0 then -1 else 0, negb (i_mute =? 0)).

Definition dspdev_set_phone_mute (mute : bool) : dspm Z :=
  do! s_phone_mute_status := sprintf_d (Z.b2z mute) in
  do! ret := control tinymix_control_PhoneMute s_phone_mute_status in
  sret (if ret <? 0 then -1 else 0).

Definition dspdev_get_phone_mute : dspm (Z * bool) :=
  do! (ret, i_mute) := get_value tinymix_control_PhoneMute 0 in
  sret (if ret <? 0 then -1 else 0, negb (i_mute =? 0)).

Definition dspdev_set_tuner_mute (mute : bool) : dspm Z :=
  do! s_tuner_mute_status := sprintf_d (Z.b2z mute) in
  do! ret := control tinymix_control_TunerMute s_tuner_mute_status in
  sret (if ret <? 0 then -1 else 0).

Definition dspdev_get_tuner_mute : dspm (Z * bool) :=
  do! (ret, i_mute) := get_value tinymix_control_TunerMute 0 in
  sret (if ret <? 0 then -1 else 0, negb (i_mute =? 0)).

Definition dspdev_set_mic_mute (mute : bool) : dspm Z :=
  do! s_mic_mute_status := sprintf_d (Z.b2z mute) in
  do! ret := control tinymix_control_MicMute s_mic_mute_status in
  sret (if ret <? 0 then -1 else 0).

Definition dspdev_get_mic_mute : dspm (Z * bool) :=
  do! (ret, i_mute) := get_value tinymix_control_MicMute 0 in
  sret (if ret <? 0 then -1 else 0, negb (i_mute =? 0)).

Definition dspdev_set_amplifier_mute (mute : bool) : dspm Z :=
  do! s_amplifier_mute_status := sprintf_d (Z.b2z mute) in
  do! ret := control tinymix_control_PA_Mute s_amplifier_mute_status in
  sret (if ret <? 0 then -1 else 0).

Definition dspdev_set_mic_volume (value : Z) : dspm Z :=
  do! s_vol_mic_value := sprintf_d value in
  do! ret := control tinymix_control_MicVol s_vol_mic_value in
  sret (if ret <? 0 then -1 else 0).

Definition dspdev_get_mic_volume : dspm (Z * Z) :=
  do! (ret, value) := get_value tinymix_control_MicVol 2 in
  sret (if ret <? 0 then -1 else 0, value).

Definition dspdev_set_mcu_app_mic_test (on_off : bool) : dspm Z :=
  do! s_mcu_mic_value := sprintf_d (Z.b2z on_off) in
  do! ret := control tinymix_control_DiagMicTest s_mcu_mic_value in
  sret (if ret <? 0 then -1 else 0).

Definition dspdev_get_mcu_app_mic_test : dspm (Z * bool) :=
  do! (ret, temp_get_mic_test) := get_value tinymix_control_DiagMicTest 0 in
  sret (if ret <? 0 then -1 else 0, negb (temp_get_mic_test =? 0)).

Definition dspdev_set_loudness (enable : bool) : dspm Z :=
  do! s_loudness_enable := sprintf_d (Z.b2z enable) in
  do! ret := control tinymix_control_Loudness s_loudness_enable in
  sret (if ret <? 0 then -1 else 0).

Definition dspdev_get_loudness : dspm (Z * bool) :=
  do! (ret, i_enable) := get_value tinymix_control_Loudness 0 in
  sret (if ret <? 0 then -1 else 0, negb (i_enable =? 0)).

(** ** Sound effects and equalizers *)

Definition dspdev_set_sound_effect (sound_type : Z) : dspm Z :=
  if sound_type >? SOUND_EFFECT_REST_MODE then sret (- EINVAL)
  else
    do! s_sound_effect := sprintf_d (s32 sound_type) in
    do! ret := control tinymix_control_Sound_Effect s_sound_effect in
    sret (if ret <? 0 then -1 else 0).

Definition dspdev_get_sound_effect : dspm (Z * Z) :=
  do! (ret, value) := get_value tinymix_control_Sound_Effect SOUND_EFFECT_NATURAL_ACOUSTIC in
  sret (if ret <? 0 then -1 else 0, value).

Definition dspdev_set_bass_mid_treble (bmt_type value : Z) : dspm Z :=
  do! s := sget in
  let value := if value >? s.(bmt_value_cache) then s.(bmt_value_cache) else value in
  do! s_bmt_value := sprintf_d value in
  do! ret :=
    (if bmt_type =? BMT_BASS then (do! ret := control tinymix_control_Bass s_bmt_value in sret (Some ret))
    else if bmt_type =? BMT_MIDDLE then (do! ret := control tinymix_control_Middle s_bmt_value in sret (Some ret))
    else if bmt_type =? BMT_TREBLE then (do! ret := control tinymix_control_Treble s_bmt_value in sret (Some ret))
    else sret None) in
  match ret with
  | None => sret EINVAL
  | Some ret => sret (if ret <? 0 then -1 else 0)
  end.

Definition dspdev_get_bass_mid_treble (bmt_type value : Z) : dspm (Z * Z) :=
  let ctl :=
    if bmt_type =? BMT_BASS then Some tinymix_control_Bass
    else if bmt_type =? BMT_MIDDLE then Some tinymix_control_Middle
    else if bmt_type =? BMT_TREBLE then Some tinymix_control_Treble
    else None in
  match ctl with
  | None => sret (- EINVAL, value)
  | Some ctl =>
      do! (ret, value) := get_value ctl value in
      sret (if ret <? 0 then -1 else 0, value)
  end.

Definition dspdev_set_geq (geq_type value : Z) : dspm Z :=
  let value := if value >? GEQ_VALUE_MAX then GEQ_VALUE_MAX else value in
  do! s_geq_value := sprintf_d value in
  do! ret :=
    (if geq_type =? GEQ_BASS then (do! ret := control tinymix_control_Bass_EQ s_geq_value in sret (Some ret))
    else if geq_type =? GEQ_MIDDLE_BASS then (do! ret := control tinymix_control_Middle_Bass_EQ s_geq_value in sret (Some ret))
    else if geq_type =? GEQ_MIDDLE then (do! ret := control tinymix_control_Middle_EQ s_geq_value in sret (Some ret))
    else if geq_type =? GEQ_MIDDLE_HIGH then (do! ret := control tinymix_control_Middle_High_EQ s_geq_value in sret (Some ret))
    else if geq_type =? GEQ_HIGH then (do! ret := control tinymix_control_High_EQ s_geq_value in sret (Some ret))
    else sret None) in
  match ret with
  | None => sret (-1)
  | Some ret => sret (if ret <? 0 then -1 else 0)
  end.

Definition dspdev_get_geq (geq_type value : Z) : dspm (Z * Z) :=
  let ctl :=
    if geq_type =? GEQ_BASS then Some tinymix_control_Bass_EQ
    else if geq_type =? GEQ_MIDDLE_BASS then Some tinymix_control_Middle_Bass_EQ
    else if geq_type =? GEQ_MIDDLE then Some tinymix_control_Middle_EQ
    else if geq_type =? GEQ_MIDDLE_HIGH then Some tinymix_control_Middle_High_EQ
    else if geq_type =? GEQ_HIGH then Some tinymix_control_High_EQ
    else None in
  match ctl with
  | None => sret (-1, value)
  | Some ctl =>
      do! (ret, value) := get_value ctl value in
      sret (if ret <? 0 then -1 else 0, value)
  end.

Definition dspdev_set_sound_field (balance fader : Z) : dspm Z :=
  do! s_sound_balance_value := sprintf_d balance in
  do! s_sound_fader_value := sprintf_d fader in
  do! _ := control tinymix_control_Balance s_sound_balance_value in
  do! ret := control tinymix_control_Fader s_sound_fader_value in
  sret (if ret <? 0 then -1 else 0).

Definition dspdev_get_sound_field (balance fader : Z) : dspm (Z * Z * Z) :=
  do! (_, balance) := get_value tinymix_control_Balance balance in
  do! (ret, fader) := get_value tinymix_control_Fader fader in
  sret (if ret <? 0 then -1 else 0, balance, fader).

Definition dspdev_set_dtcs_mode (mode : Z) : dspm Z :=
  do! s_mode_value := sprintf_d (s32 mode) in
  do! ret := control tinymix_control_DtcsModeSw s_mode_value in
  sret (if ret <? 0 then -1 else 0).

Definition dspdev_get_dtcs_mode (value : Z) : dspm (Z * Z) :=
  do! (ret, value) := get_value tinymix_control_DtcsModeSw value in
  sret (if ret <? 0 then -1 else 0, value).

Definition dspdev_set_dtcs_status (status : bool) : dspm Z :=
  do! s_dtcs_status := sprintf_d (Z.b2z status) in
  do! ret := control tinymix_control_DtcsSw s_dtcs_status in
  sret (if ret <? 0 then -1 else 0).

Definition dspdev_get_dtcs_status : dspm (Z * bool) :=
  do! (ret, i_status) := get_value tinymix_control_DtcsSw 0 in
  sret (if ret <? 0 then -1 else 0, negb (i_status =? 0)).

Definition dspdev_set_ale_status (status : bool) : dspm Z :=
  do! s_ale_status := sprintf_d (Z.b2z status) in
  do! ret := control tinymix_control_AleSw s_ale_status in
  sret (if ret <? 0 then -1 else 0).

Definition dspdev_get_ale_status : dspm (Z * bool) :=
  do! (ret, i_status) := get_value tinymix_control_AleSw 0 in
  sret (if ret <? 0 then -1 else 0, negb (i_status =? 0)).

Definition dspdev_set_bex_status (status : Z) : dspm Z :=
  do! s_status_value := sprintf_d (s32 status) in
  do! ret := control tinymix_control_BexSw s_status_value in
  sret (if ret <? 0 then -1 else 0).

Definition dspdev_get_bex_status (value : Z) : dspm (Z * Z) :=
  do! (ret, value) := get_value tinymix_control_BexSw value in
  sret (if ret <? 0 then -1 else 0, value).

Definition dspdev_set_tts_status (status : Z) : dspm Z :=
  do! s_status_value := sprintf_d (s32 status) in
  do! ret := control tinymix_control_TtsSw s_status_value in
  sret (if ret <? 0 then -1 else 0).

Definition dspdev_get_tts_status (value : Z) : dspm (Z * Z) :=
  do! (ret, value) := get_value tinymix_control_TtsSw value in
  sret (if ret <? 0 then -1 else 0, value).

Definition dspdev_set_vcworkmode (workmode : Z) : dspm Z :=
  do! s_mode_value := sprintf_d (s32 workmode) in
  do! ret := control tinymix_control_VCWorkMode s_mode_value in
  sret (if ret <? 0 then -1 else 0).

Definition dspdev_get_vcworkmode (value : Z) : dspm (Z * Z) :=
  do! (ret, value) := get_value tinymix_control_VCWorkMode value in
  sret (if ret <? 0 then -1 else 0, value).

Definition dspdev_set_vcfunc (func : Z) : dspm Z :=
  do! s_vcfunc_value := sprintf_d (s32 func) in
  do! ret := control tinymix_control_VCFunc s_vcfunc_value in
  sret (if ret <? 0 then -1 else 0).

Definition dspdev_get_vcfunc (value : Z) : dspm (Z * Z) :=
  do! (ret, value) := get_value tinymix_control_VCFunc value in
  sret (if ret <? 0 then -1 else 0, value).

Definition dspdev_set_vcvolume (value : Z) : dspm Z :=
  do! s_vcvolume_value := sprintf_d value in
  do! ret := control tinymix_control_VCVolume s_vcvolume_value in
  sret (if ret <? 0 then -1 else 0).

Definition dspdev_get_vcvolume (value : Z) : dspm (Z * Z) :=
  do! (ret, value) := get_value tinymix_control_VCVolume value in
  sret (if ret <? 0 then -1 else 0, value).

(** ** Power amplifier *)

Definition dspdev_set_pa_pwm_frequency (frequency : Z) : dspm Z :=
  do! s_pa_pwm_frequency_value := sprintf_d (s32 frequency) in
  do! ret := control tinymix_control_PA_pwm_frequency s_pa_pwm_frequency_value in
  sret (if ret <? 0 then -1 else 0).

Definition dspdev_get_pa_pwm_frequency (value : Z) : dspm (Z * Z) :=
  do! (ret, value) := get_value tinymix_control_PA_pwm_frequency value in
  sret (if ret <? 0 then -1 else 0, value).

Definition dspdev_set_pa_spread_spectrum (spread_spectrum : Z) : dspm Z :=
  do! s_pa_spread_spectrum_value := sprintf_d (s32 spread_spectrum) in
  do! ret := control tinymix_control_PA_spread_spectrum s_pa_spread_spectrum_value in
  sret (if ret <? 0 then -1 else 0).

Definition dspdev_get_pa_spread_spectrum (value : Z) : dspm (Z * Z) :=
  do! (ret, value) := get_value tinymix_control_PA_spread_spectrum value in
  sret (if ret <? 0 then -1 else 0, value).

Definition dspdev_set_pa_phase_staggering_ch (index phase_staggering : Z) : dspm Z :=
  do! text := sprintf_d (s32 phase_staggering) in
  do! ret :=
    (if index =? 0 then (do! ret := control tinymix_control_PA_phase_staggering_ch1 text in sret (Some ret))
     else if index =? 1 then (do! ret := control tinymix_control_PA_phase_staggering_ch2 text in sret (Some ret))
     else if index =? 2 then (do! ret := control tinymix_control_PA_phase_staggering_ch3 text in sret (Some ret))
     else if index =? 3 then (do! ret := control tinymix_control_PA_phase_staggering_ch4 text in sret (Some ret))
     else sret None) in
  match ret with
  | None => sret EINVAL
  | Some ret => sret (if ret <? 0 then -1 else 0)
  end.

Definition dspdev_get_pa_phase_staggering_ch (index value : Z) : dspm (Z * Z) :=
  let ctl :=
    if index =? 0 then Some tinymix_control_PA_phase_staggering_ch1
    else if index =? 1 then Some tinymix_control_PA_phase_staggering_ch2
    else if index =? 2 then Some tinymix_control_PA_phase_staggering_ch3
    else if index =? 3 then Some tinymix_control_PA_phase_staggering_ch4
    else None in
  match ctl with
  | None => sret (EINVAL, value)
  | Some ctl =>
      do! (ret, value) := get_value ctl value in
      sret (if ret <? 0 then -1 else 0, value)
  end.

Definition dspdev_set_pa_am_frequency (frequency : Z) : dspm Z :=
  do! s_pa_am_frequency_value := sprintf_d (s32 frequency) in
  do! ret := control tinymix_control_PA_AM_frequency s_pa_am_frequency_value in
  sret (if ret <? 0 then -1 else 0).

Definition dspdev_get_pa_am_frequency (value : Z) : dspm (Z * Z) :=
  do! (ret, value) := get_value tinymix_control_PA_AM_frequency value in
  sret (if ret <? 0 then -1 else 0, value).

Definition dspdev_set_sound_stage (stage : Z) : dspm Z :=
  if stage >? SOUND_STAGE_ALL_PASSENGER_MODE then sret (- EINVAL)
  else
    do! s_sound_stage_value := sprintf_d (s32 stage) in
    do! ret := control tinymix_control_Sound_Stage s_sound_stage_value in
    sret (if ret <? 0 then -1 else 0).

Definition dspdev_get_sound_stage : dspm (Z * Z) :=
  do! (ret, value) := get_value tinymix_control_Sound_Stage SOUND_STAGE_DRIVER_MODE in
  sret (if ret <? 0 then -1 else 0, value).

(** ** Channel test, ECNR and diagnosis *)

Definition dspdev_set_sound_channel_mute (sound_channel : Z) (mute : bool) : dspm Z :=
  if (sound_channel <? SOUND_CHANNEL_RR) || (sound_channel >? SOUND_CHANNEL_FL)
  then sret (- EINVAL)
  else
    do! s := sget in
    let status :=
      if mute then Z.lor s.(s_mute_status) (Z.land (Z.shiftl 1 sound_channel) 15)
      else Z.land s.(s_mute_status) (Z.lxor (Z.shiftl 1 sound_channel) 15) in
    do! _ := smodify (set_s_mute_status status) in
    do! s_sound_channel_mute := sprintf_d status in
    do! ret := control tinymix_contorl_SoundChannel_Mute s_sound_channel_mute in
    sret (if ret <? 0 then -1 else 0).

Definition dspdev_set_ecnr_type (type : Z) : dspm Z :=
  do! s_ecnr_type := sprintf_d (s32 type) in
  do! ret := control tinymix_control_EcnrType s_ecnr_type in
  sret (if ret <? 0 then -1 else 0).

Definition dspdev_get_ecnr_type : dspm (Z * Z) :=
  do! (ret, value) := get_value tinymix_control_EcnrType ECNR_TYPE_VR in
  sret (if ret <? 0 then -1 else 0, value).

Definition dspdev_set_mcu_app_speaker_test (channel : Z) (on_off : bool) : dspm Z :=
  do! s_channel_value := sprintf_d (s32 channel) in
  do! _ := control tinymix_control_DiagPDCVol "42"%string in
  do! _ := control tinymix_control_DiagPDCChannel s_channel_value in
  do! s_on_off_value := sprintf_d (if on_off then PDC_TYPE_SLOW else PDC_TYPE_STOP) in
  do! ret := control tinymix_control_DiagPDCType s_on_off_value in
  sret (if ret <? 0 then -1 else 0).

Definition dspdev_get_mcu_app_speaker_test : dspm (Z * bool) :=
  do! (ret, temp_get_speaker_test) := get_value tinymix_control_DiagPDCType 0 in
  sret (if ret <? 0 then -1 else 0, negb (temp_get_speaker_test =? 0)).

Definition dspdev_get_dsp_firmware_version (value : Z) : dspm (Z * Z) :=
  do! (ret, value) := get_value tinymix_control_dsp_firmware_version value in
  sret (if ret <? 0 then -1 else 0, value).

Definition dspdev_open_external_amp_test (on : bool) : dspm Z :=
  do! s_test_status := sprintf_d (Z.b2z on) in
  do! ret := control tinymix_control_ExternalPaTest s_test_status in
  sret (if ret <? 0 then -1 else 0).

Definition dspdev_set_mcu_reset_dsp (on : bool) : dspm Z :=
  do! s_on_status := sprintf_d (Z.b2z on) in
  do! ret := control tinymix_control_MCU_Reset_DSP s_on_status in
  sret (if ret <? 0 then -1 else 0).

Definition dspdev_set_diag_sound_effect_off (on : bool) : dspm Z :=
  do! s_on_status := sprintf_d (Z.b2z on) in
  do! ret := control tinymix_control_DiagSoundEffectOff s_on_status in
  sret (if ret <? 0 then -1 else 0).

Definition dspdev_set_secondary_mono_all (all : bool) : dspm Z :=
  do! speaker_status := sprintf_d (Z.b2z all) in
  do! ret := control tinymix_control_secondary_mono_all speaker_status in
  sret (if ret <? 0 then -1 else 0).

Definition dspdev_get_secondary_mono_all : dspm (Z * bool) :=
  do! (ret, i_mute) := get_value tinymix_control_secondary_mono_all 0 in
  sret (if ret <? 0 then -1 else 0, negb (i_mute =? 0)).

Definition dspdev_set_secondary_steoro_all (all : bool) : dspm Z :=
  do! speaker_status := sprintf_d (Z.b2z all) in
  do! ret := control tinymix_control_secondary_steoro_all speaker_status in
  sret (if ret <? 0 then -1 else 0).

Definition dspdev_get_secondary_steoro_all : dspm (Z * bool) :=
  do! (ret, i_mute) := get_value tinymix_control_secondary_steoro_all 0 in
  sret (if ret <? 0 then -1 else 0, negb (i_mute =? 0)).

Definition dspdev_set_navi_mono_all (all : bool) : dspm Z :=
  do! speaker_status := sprintf_d (Z.b2z all) in
  do! ret := control tinymix_control_navi_mono_all speaker_status in
  sret (if ret <? 0 then -1 else 0).

Definition dspdev_get_navi_mono_all : dspm (Z * bool) :=
  do! (ret, i_mute) := get_value tinymix_control_navi_mono_all 0 in
  sret (if ret <? 0 then -1 else 0, negb (i_mute =? 0)).

Definition dspdev_set_phone_mono_all (all : bool) : dspm Z :=
  do! speaker_status := sprintf_d (Z.b2z all) in
  do! ret := control tinymix_control_phone_mono_all speaker_status in
  sret (if ret <? 0 then -1 else 0).

Definition dspdev_get_phone_mono_all : dspm (Z * bool) :=
  do! (ret, i_mute) := get_value tinymix_control_phone_mono_all 0 in
  sret (if ret <? 0 then -1 else 0, negb (i_mute =? 0)).

(** ** Vehicle configuration *)

(** The build flavour that selects the preprocessor branch. *)
Inductive platform :=
| PLATFORM_CHERY_COMMERCIAL
| PLATFORM_CHERY_AUTOMOBILE
| PLATFORM_GAC_TRUMPCHI
| PLATFORM_NONE.

Section Downline.
(** [property_get n key] is the value of the system property when it is read
    in the [n]-th iteration; the two names come from the build. *)
Variable property_get : nat -> string -> string.
Variable CAR_PART_NUMBER CAR_DOWNLINE_CONFIG_TWO : string.

Definition CAR_DOWNLINE_CONFIG : string := ""%string.

(** [buf[i]] of a string that is long enough. *)
Definition char_at (s : string) (i : nat) : outcome ascii :=
  match String.get i s with Some c => Done c | None => Undef end.

(** [strtol (data, NULL, base) << k]; shifting a negative value is undefined. *)
Definition shl_strtol (data : string) (base k : Z) : outcome Z :=
  let v := (strtol data base).(st_value) in
  if v <? 0 then Undef else Done (Z.shiftl v k).

(** One iteration of the [while (1)] loop: the value to return, or [None] to
    sleep and retry. *)
Definition downline_attempt (p : platform) (n : nat) : outcome (option Z) :=
  let buf := property_get n CAR_DOWNLINE_CONFIG in
  match p with
  | PLATFORM_CHERY_COMMERCIAL =>
      if Nat.leb 13 (String.length buf) then
        Done (Some (if String.eqb buf CAR_PART_NUMBER then 0 else Z.shiftl 1 7))
      else Done None
  | PLATFORM_CHERY_AUTOMOBILE =>
      if Nat.ltb 7 (String.length buf) then
        let! c6 := char_at buf 6 in
        let! c7 := char_at buf 7 in
        let! byte7 := shl_strtol (String c6 (String c7 EmptyString)) 16 3 in
        let byte7 := s32 byte7 in
        let buf := property_get n CAR_DOWNLINE_CONFIG_TWO in
        if Nat.ltb 0 (String.length buf) then
          let! c0 := char_at buf 0 in
          let! v := shl_strtol (String c0 EmptyString) 8 3 in
          Done (Some (Z.lor byte7 (Z.land v 112)))
        else Done (Some byte7)
      else Done None
  | PLATFORM_GAC_TRUMPCHI =>
      if Nat.ltb 16 (String.length buf) then
        let! c14 := char_at buf 14 in
        let! c15 := char_at buf 15 in
        Done (Some (s32 (strtol (String c14 (String c15 EmptyString)) 16).(st_value)))
      else Done None
  | PLATFORM_NONE => Done (Some (-1))
  end.

(** The loop: [retry_times] counts the failed attempts; [fuel] bounds the
    iterations, and running out of it is the endless loop. *)
Fixpoint downline_loop (fuel : nat) (p : platform) (retry_times : nat) : outcome Z :=
  match fuel with
  | O => Blocked
  | S fuel =>
      let! r := downline_attempt p retry_times in
      match r with
      | Some byte7 => Done byte7
      | None =>
          if Nat.ltb 4 (S retry_times) then Done (-1) else downline_loop fuel p (S retry_times)
      end
  end.

Definition get_downline_config (p : platform) : outcome Z := downline_loop 5 p 0.

Definition dsp_init (p : platform) : dspm Z :=
  do! downline_config := slift (get_downline_config p) in
  let '(external_pa, speaker_num, speaker_type) :=
    if downline_config =? -1 then (0, 0, 0)
    else (Z.land (Z.shiftr downline_config 7) 1, Z.land (Z.shiftr downline_config 4) 7,
          Z.land downline_config 15) in
  do! s_external_pa := sprintf_d external_pa in
  do! s_speaker_num := sprintf_d speaker_num in
  do! s_speaker_type := sprintf_d speaker_type in
  do! _ := control tinymix_control_ExtPaConfig s_external_pa in
  do! _ := control tinymix_control_SpeakerNum s_speaker_num in
  do! _ := control tinymix_control_SpeakerType s_speaker_type in
  do! _ := control tinymix_control_MediaMute tinymix_control_Mute_Off in
  match p with
  | PLATFORM_CHERY_COMMERCIAL | PLATFORM_CHERY_AUTOMOBILE =>
      (* [play_sound] in between goes to the PCM devices, not to the mixer *)
      do! _ := control tinymix_control_NaviVol "0"%string in
      do! _ := control tinymix_control_BeepVol "0"%string in
      do! _ := control tinymix_control_NaviVol "120"%string in
      do! _ := control tinymix_control_BeepVol "36"%string in
      sret 0
  | _ => sret 0
  end.
End Downline.
End Dsp.

(** ** Playing a sound at start-up *)

(** The loop of [play_sound]: [frame_size] bytes per write, the rest in the
    last one; the result lists the blocks given to each of the two devices.
    Write errors are only logged. *)
Fixpoint play_loop (fuel : nat) (buffer : list Z) (off sound_size frame_size sub_size : Z)
  : outcome (list (list Z)) :=
  if sound_size >? 0 then
    match fuel with
    | O => Blocked
    | S fuel =>
        let frame_size := if sound_size <? frame_size then sound_size else frame_size in
        let! blk := mem_read buffer off frame_size in
        let! rest := i32 (sound_size - sub_size) in
        let! l := play_loop fuel buffer (off + frame_size) rest frame_size sub_size in
        Done (blk :: l)
    end
  else Done [].

(** [open1], [open2]: whether the devices open; [frame_size]: the size of
    the first device's buffer in bytes. *)
Definition play_sound (fuel : nat) (open1 open2 : bool) (frame_size : Z)
    (sound_array : list Z) (size : Z) : outcome (Z * list (list Z)) :=
  if negb open1 then Done (-1, [])
  else if negb open2 then Done (-1, [])
  else
    let! l := play_loop fuel sound_array 0 size frame_size frame_size in
    Done (0, l).
