(* ===== verification/DspProofs.v ===== *)
(** * Theorems on the DSP interface

    [dsp_cmd] lists every operation of [dsp.c] that changes state, and
    [exec] runs it, so that a theorem on [exec] is a theorem on all of
    them. *)

From stdpp Require Import base list numbers strings.
From Stdlib Require Import ZArith Lia ZifyBool.
From S2P Require Import Prelude CString Mixer Tinymix Dsp.

#[local] Open Scope Z_scope.

(** ** Commands *)

(** The on/off controls that are written without further state. *)
Inductive switch :=
| NaviMute | TboxMute | BeepMute | PhoneMute | TunerMute | MicMute | AmplifierMute
| McuMicTest | Loudness | DtcsStatus | AleStatus | ExternalAmpTest | McuResetDsp
| DiagSoundEffectOff | SecondaryMonoAll | SecondarySteoroAll | NaviMonoAll | PhoneMonoAll.

(** The controls that take a number as it is given. *)
Inductive level :=
| MicVolume | DtcsMode | BexStatus | TtsStatus | VcWorkMode | VcFunc | VcVolume
| PaPwmFrequency | PaSpreadSpectrum | PaAmFrequency | EcnrType.

Inductive dsp_cmd :=
| SetChannel (channel_type : Z)
| SetAudioBalance (source : Z)
| SetTunerMixer (on : bool)
| SetVolume (channel_type value : Z)
| SetVolumeOffset (channel_type value : Z)
| SetVariableMaxVolume (channel_type value : Z)
| SetMusicMute (mute : bool)
| SetMediaMute (mute : bool)
| SetSwitch (sw : switch) (on : bool)
| SetLevel (l : level) (value : Z)
| SetSoundEffect (sound_type : Z)
| SetBassMidTreble (bmt_type value : Z)
| SetGeq (geq_type value : Z)
| SetSoundField (balance fader : Z)
| SetPaPhaseStaggering (index value : Z)
| SetSoundStage (stage : Z)
| SetSoundChannelMute (sound_channel : Z) (mute : bool)
| SetSpeakerTest (channel : Z) (on_off : bool).

Section Exec.
Context {M : Type} `{MixerOps M} `{Alloc}.
#[local] Abbreviation dspm := (@Dsp.dspm M).

Definition set_switch (sw : switch) : bool -> dspm Z :=
  match sw with
  | NaviMute => dspdev_set_navi_mute
  | TboxMute => dspdev_set_tbox_mute
  | BeepMute => dspdev_set_beep_mute
  | PhoneMute => dspdev_set_phone_mute
  | TunerMute => dspdev_set_tuner_mute
  | MicMute => dspdev_set_mic_mute
  | AmplifierMute => dspdev_set_amplifier_mute
  | McuMicTest => dspdev_set_mcu_app_mic_test
  | Loudness => dspdev_set_loudness
  | DtcsStatus => dspdev_set_dtcs_status
  | AleStatus => dspdev_set_ale_status
  | ExternalAmpTest => dspdev_open_external_amp_test
  | McuResetDsp => dspdev_set_mcu_reset_dsp
  | DiagSoundEffectOff => dspdev_set_diag_sound_effect_off
  | SecondaryMonoAll => dspdev_set_secondary_mono_all
  | SecondarySteoroAll => dspdev_set_secondary_steoro_all
  | NaviMonoAll => dspdev_set_navi_mono_all
  | PhoneMonoAll => dspdev_set_phone_mono_all
  end.

(** The getter of a switch, for those that have one. *)
Definition get_switch (sw : switch) : option (dspm (Z * bool)) :=
  match sw with
  | NaviMute => Some dspdev_get_navi_mute
  | TboxMute => Some dspdev_get_tbox_mute
  | BeepMute => Some dspdev_get_beep_mute
  | PhoneMute => Some dspdev_get_phone_mute
  | TunerMute => Some dspdev_get_tuner_mute
  | MicMute => Some dspdev_get_mic_mute
  | McuMicTest => Some dspdev_get_mcu_app_mic_test
  | Loudness => Some dspdev_get_loudness
  | DtcsStatus => Some dspdev_get_dtcs_status
  | AleStatus => Some dspdev_get_ale_status
  | SecondaryMonoAll => Some dspdev_get_secondary_mono_all
  | SecondarySteoroAll => Some dspdev_get_secondary_steoro_all
  | NaviMonoAll => Some dspdev_get_navi_mono_all
  | PhoneMonoAll => Some dspdev_get_phone_mono_all
  | AmplifierMute | ExternalAmpTest | McuResetDsp | DiagSoundEffectOff => None
  end.

Definition set_level (l : level) : Z -> dspm Z :=
  match l with
  | MicVolume => dspdev_set_mic_volume
  | DtcsMode => dspdev_set_dtcs_mode
  | BexStatus => dspdev_set_bex_status
  | TtsStatus => dspdev_set_tts_status
  | VcWorkMode => dspdev_set_vcworkmode
  | VcFunc => dspdev_set_vcfunc
  | VcVolume => dspdev_set_vcvolume
  | PaPwmFrequency => dspdev_set_pa_pwm_frequency
  | PaSpreadSpectrum => dspdev_set_pa_spread_spectrum
  | PaAmFrequency => dspdev_set_pa_am_frequency
  | EcnrType => dspdev_set_ecnr_type
  end.

(** The getter; [v] is what the out parameter held. *)
Definition get_level (l : level) (v : Z) : dspm (Z * Z) :=
  match l with
  | MicVolume => dspdev_get_mic_volume
  | DtcsMode => dspdev_get_dtcs_mode v
  | BexStatus => dspdev_get_bex_status v
  | TtsStatus => dspdev_get_tts_status v
  | VcWorkMode => dspdev_get_vcworkmode v
  | VcFunc => dspdev_get_vcfunc v
  | VcVolume => dspdev_get_vcvolume v
  | PaPwmFrequency => dspdev_get_pa_pwm_frequency v
  | PaSpreadSpectrum => dspdev_get_pa_spread_spectrum v
  | PaAmFrequency => dspdev_get_pa_am_frequency v
  | EcnrType => dspdev_get_ecnr_type
  end.

(** The [int] levels are printed as they are, the enumerations through their
    conversion. *)
Definition level_arg (l : level) (v : Z) : Z :=
  match l with MicVolume | VcVolume => v | _ => s32 v end.

Definition exec (cmd : dsp_cmd) : dspm Z :=
  match cmd with
  | SetChannel c => dspdev_set_channel c
  | SetAudioBalance b => dspdev_set_audio_balance b
  | SetTunerMixer on => dspdev_set_tuner_mixer on
  | SetVolume c v => dspdev_set_volume c v
  | SetVolumeOffset c v => dspdev_set_volume_offset c v
  | SetVariableMaxVolume c v => dspdev_set_variable_max_volume c v
  | SetMusicMute b => dspdev_set_music_mute b
  | SetMediaMute b => dspdev_set_media_mute b
  | SetSwitch sw b => set_switch sw b
  | SetLevel l v => set_level l v
  | SetSoundEffect t => dspdev_set_sound_effect t
  | SetBassMidTreble t v => dspdev_set_bass_mid_treble t v
  | SetGeq t v => dspdev_set_geq t v
  | SetSoundField b f => dspdev_set_sound_field b f
  | SetPaPhaseStaggering i v => dspdev_set_pa_phase_staggering_ch i v
  | SetSoundStage t => dspdev_set_sound_stage t
  | SetSoundChannelMute c b => dspdev_set_sound_channel_mute c b
  | SetSpeakerTest c b => dspdev_set_mcu_app_speaker_test c b
  end.

Fixpoint exec_all (cmds : list dsp_cmd) : dspm (list Z) :=
  match cmds with
  | [] => sret []
  | cmd :: cmds =>
      do! r := exec cmd in
      do! rs := exec_all cmds in
      sret (r :: rs)
  end.
End Exec.

(** The name of the control behind a switch or a level. *)
Definition switch_name (sw : switch) : string :=
  match sw with
  | NaviMute => tinymix_control_NaviMute
  | TboxMute => tinymix_control_TboxMute
  | BeepMute => tinymix_control_BeepMute
  | PhoneMute => tinymix_control_PhoneMute
  | TunerMute => tinymix_control_TunerMute
  | MicMute => tinymix_control_MicMute
  | AmplifierMute => tinymix_control_PA_Mute
  | McuMicTest => tinymix_control_DiagMicTest
  | Loudness => tinymix_control_Loudness
  | DtcsStatus => tinymix_control_DtcsSw
  | AleStatus => tinymix_control_AleSw
  | ExternalAmpTest => tinymix_control_ExternalPaTest
  | McuResetDsp => tinymix_control_MCU_Reset_DSP
  | DiagSoundEffectOff => tinymix_control_DiagSoundEffectOff
  | SecondaryMonoAll => tinymix_control_secondary_mono_all
  | SecondarySteoroAll => tinymix_control_secondary_steoro_all
  | NaviMonoAll => tinymix_control_navi_mono_all
  | PhoneMonoAll => tinymix_control_phone_mono_all
  end.

Definition level_name (l : level) : string :=
  match l with
  | MicVolume => tinymix_control_MicVol
  | DtcsMode => tinymix_control_DtcsModeSw
  | BexStatus => tinymix_control_BexSw
  | TtsStatus => tinymix_control_TtsSw
  | VcWorkMode => tinymix_control_VCWorkMode
  | VcFunc => tinymix_control_VCFunc
  | VcVolume => tinymix_control_VCVolume
  | PaPwmFrequency => tinymix_control_PA_pwm_frequency
  | PaSpreadSpectrum => tinymix_control_PA_spread_spectrum
  | PaAmFrequency => tinymix_control_PA_AM_frequency
  | EcnrType => tinymix_control_EcnrType
  end.

(** ** What a status says *)

Section Status.
Context {M : Type} `{MixerOps M} `{Alloc}.

Definition one_of (c : Z) (l : list Z) : bool := existsb (Z.eqb c) l.

(** The status that the arguments alone determine. *)
Definition arg_status (cmd : dsp_cmd) (s : @dsp M) : Z :=
  match cmd with
  | SetChannel c =>
      if u32 s.(channel_cache) =? c then 0
      else if one_of c [CHANNEL_MEDIA_MUSIC; CHANNEL_MEDIA_TUNER; CHANNEL_BT_PHONE;
                                CHANNEL_CARPLAY_PHONE; CHANNEL_TBOX; CHANNEL_SIRI; CHANNEL_VR;
                                CHANNEL_NULL] then 0 else EINVAL
  | SetAudioBalance b => if b >? AUDIO_BALANCE_AM then - EINVAL else 0
  | SetVolume c _ =>
      if one_of c [CHANNEL_MEDIA_MUSIC; CHANNEL_MEDIA_TUNER; CHANNEL_BT_PHONE;
                           CHANNEL_TBOX; CHANNEL_NAVI; CHANNEL_BEEP] then 0 else - EINVAL
  | SetVolumeOffset c _ =>
      if one_of c [CHANNEL_MEDIA_MUSIC; CHANNEL_MEDIA_TUNER; CHANNEL_VR;
                           CHANNEL_BT_PHONE] then 0 else EINVAL
  | SetSoundEffect t => if t >? SOUND_EFFECT_REST_MODE then - EINVAL else 0
  | SetBassMidTreble t _ => if one_of t [BMT_BASS; BMT_MIDDLE; BMT_TREBLE] then 0 else EINVAL
  | SetGeq t _ =>
      if one_of t [GEQ_BASS; GEQ_MIDDLE_BASS; GEQ_MIDDLE; GEQ_MIDDLE_HIGH; GEQ_HIGH]
      then 0 else -1
  | SetPaPhaseStaggering i _ => if one_of i [0; 1; 2; 3] then 0 else EINVAL
  | SetSoundStage t => if t >? SOUND_STAGE_ALL_PASSENGER_MODE then - EINVAL else 0
  | SetSoundChannelMute c _ =>
      if (c <? SOUND_CHANNEL_RR) || (c >? SOUND_CHANNEL_FL) then - EINVAL else 0
  | _ => 0
  end.

Lemma control_wlp (name value : string) (Q : Z -> dsp -> Prop) (s : dsp) :
  (forall r m, 0 <= r -> Q r (set_mixer m s)) -> run_spec True (control name value) Q s.
Proof.
  intros HQ. unfold run_spec, control.
  destruct (dsp_control name value (mixer s)) as [[r m]| | |] eqn:E; simpl; [|done..].
  apply HQ. by eapply dsp_control_status.
Qed.
End Status.

(** Symbolic execution of a [dspdev_*] function, for partial correctness. *)
Ltac dsp_wlp :=
  repeat first
    [ run_step
    | apply control_wlp; intros ?r ?m ?
    | progress unfold int, sprintf_d, dspdev_set_audio_balance
    | match goal with
      | |- match ?x with Done _ => _ | Blocked => _ | Exited => _ | Undef => _ end =>
          destruct x eqn:?; [|done..]
      end ].

(** Unfolds the function at the head of a specification. *)
Ltac unfold_dsp :=
  lazymatch goal with
  | |- wlp ?f _ _ => unfold wlp; unfold_head f
  | |- wp ?f _ _ => unfold wp; unfold_head f
  end
with unfold_head f :=
  lazymatch f with
  | ?g _ => unfold_head g
  | ?g => unfold g
  end.

(** Evaluates the conditions of [arg_status] from the branch taken. *)
Ltac solve_status :=
  cbn [arg_status one_of existsb] in *; unfold one_of, existsb in *;
  repeat match goal with
  | H : (_ || _) = false |- _ => apply orb_false_iff in H as [? ?]
  | H : (_ || _) = true |- _ => apply orb_true_iff in H as [? | ?]
  | H : 0 <= ?r, E : (?r <? 0) = true |- _ => apply Z.ltb_lt in E; lia
  | H : 0 <= ?r |- context [?r <? 0] => rewrite (proj2 (Z.ltb_ge r 0) H)
  | H : ?x = ?b |- context [?x] =>
      lazymatch type of x with bool => rewrite H end
  end; rewrite ?orb_true_r; cbn [orb];
  try reflexivity.

Section StatusTheorem.
Context {M : Type} `{MixerOps M} `{Alloc}.

Lemma exec_status (cmd : dsp_cmd) (s : dsp) :
  wlp (exec cmd) (fun r _ => r = arg_status cmd s) s.
Proof.
  destruct cmd as [c|b|b|c v|c v|c v|b|b|[] b|[] v|t|t v|t v|b f|i v|t|c b|c b];
    cbn [exec set_switch set_level]; try (unfold_dsp; dsp_wlp; solve_status).
Qed.
End StatusTheorem.

(** ** No undefined behaviour, and the invariant of the caches *)

Section Safety.
Context {M : Type} `{MixerLaws M} `{Alloc}.

(** The arguments a caller may pass: user volumes from 0 to the maximum,
    offsets of at most the maximum either way, and numbers that fit the text
    buffer of the function. *)
Definition valid_cmd (cmd : dsp_cmd) : Prop :=
  match cmd with
  | SetVolume c v => fits4 v /\ (c <= CHANNEL_BT_PHONE -> 0 <= v <= MEDIA_VOL_MAX)
  | SetVolumeOffset _ v => - MEDIA_VOL_MAX <= v <= MEDIA_VOL_MAX
  | SetVariableMaxVolume _ v => 0 <= v <= MEDIA_VOL_MAX
  | SetLevel l v => fits4 (level_arg l v)
  | SetAudioBalance v | SetSoundEffect v | SetSoundStage v => 0 <= v
  | SetBassMidTreble _ v | SetGeq _ v => -99 <= v
  | SetSoundField b f => fits4 b /\ fits4 f
  | SetPaPhaseStaggering _ v => fits4 (s32 v)
  | SetSpeakerTest c _ => fits4 (s32 c)
  | _ => True
  end.

Record dsp_inv (s : @dsp M) : Prop := {
  inv_card : no_byte s.(mixer);
  inv_media : - (2 * MEDIA_VOL_MAX) <= s.(media_volume_cache) <= 2 * MEDIA_VOL_MAX;
  inv_media_off : - MEDIA_VOL_MAX <= s.(media_volume_offset_cache) <= MEDIA_VOL_MAX;
  inv_max : 0 <= s.(media_variable_max_volume_cache) <= MEDIA_VOL_MAX;
  inv_phone : 0 <= s.(phone_volume_cache) <= PHONE_VOL_MAX;
  inv_phone_off : - MEDIA_VOL_MAX <= s.(phone_volume_offset_cache) <= MEDIA_VOL_MAX;
  inv_bmt : s.(bmt_value_cache) = BMT_VALUE_MAX;
  inv_mute : 0 <= s.(s_mute_status) <= 15
}.

Lemma inv_set_mixer (s : dsp) (m : M) :
  dsp_inv s -> same_controls s.(mixer) m -> dsp_inv (set_mixer m s).
Proof. intros [] SC. constructor; try done. cbn. by eapply no_byte_same. Qed.

Lemma control_wp (name value : string) (Q : Z -> dsp -> Prop) (s : dsp) :
  no_byte s.(mixer) -> isnumber name = false -> good_text value ->
  (forall r m, 0 <= r -> same_controls s.(mixer) m -> Q r (set_mixer m s)) ->
  run_spec False (control name value) Q s.
Proof.
  intros N Hn Ht HQ. unfold run_spec, control.
  destruct (dsp_control_total s.(mixer) name value N Hn Ht) as (r & m & E & SC).
  rewrite E. simpl. apply HQ; [|done]. by eapply dsp_control_status.
Qed.

Lemma sprintf_wp (n : Z) (Q : string -> dsp -> Prop) (s : @dsp M) :
  fits4 n -> Q (print_int n) s -> run_spec False (sprintf_d n) Q s.
Proof. intros F HQ. unfold sprintf_d. apply run_lift. by rewrite sprintf_d4_done. Qed.

Lemma int_wp (z : Z) (Q : Z -> dsp -> Prop) (s : @dsp M) :
  is_i32 z -> Q z s -> run_spec False (int z) Q s.
Proof. intros F HQ. unfold int. apply run_lift. by rewrite i32_done. Qed.

(** Writing a number or a name keeps an invariant that does not mention the
    values on the card. *)
Lemma control_inv_wp (name value : string) (Q : Z -> dsp -> Prop) (s : dsp) :
  dsp_inv s -> isnumber name = false -> good_text value ->
  (forall r s', 0 <= r -> dsp_inv s' -> Q r s') ->
  run_spec False (control name value) Q s.
Proof.
  intros I Hn Ht HQ. apply control_wp; [apply I|done|done|].
  intros r m Hr SC. apply HQ; [done|by apply inv_set_mixer].
Qed.
End Safety.

Lemma nibble_land (x : Z) : 0 <= x <= 15 <-> Z.land x 15 = x.
Proof.
  change 15 with (Z.ones 4) at 2. rewrite Z.land_ones by lia. change (2 ^ 4) with 16.
  split; [intros; apply Z.mod_small; lia|].
  intros E. pose proof (Z.mod_pos_bound x 16). lia.
Qed.

Lemma nibble_lor (x y : Z) : 0 <= x <= 15 -> 0 <= Z.lor x (Z.land y 15) <= 15.
Proof.
  intros H%nibble_land. apply nibble_land. rewrite Z.land_lor_distr_l, H.
  by rewrite <- Z.land_assoc.
Qed.

Lemma nibble_and (x y : Z) : 0 <= x <= 15 -> 0 <= Z.land x y <= 15.
Proof.
  intros H%nibble_land. apply nibble_land.
  by rewrite <- Z.land_assoc, (Z.land_comm y), Z.land_assoc, H.
Qed.

Lemma fits4_nibble (x : Z) : 0 <= x <= 15 -> fits4 x.
Proof. unfold fits4. lia. Qed.

Lemma s32_small_fits4 (x : Z) : 0 <= x <= 999 -> fits4 (s32 x).
Proof. intros. rewrite s32_small; unfold fits4, INT32_MAX; lia. Qed.

Lemma good_42 : good_text "42".
Proof. right. exists 42. split; [unfold is_i32, INT32_MIN, INT32_MAX; lia|reflexivity]. Qed.

Create HintDb dsp.
#[export] Hint Resolve nibble_lor nibble_and fits4_nibble good_print fits4_i32 : dsp.

(** Side conditions of the safety proof: ranges of the caches. *)
Ltac dsp_consts :=
  unfold MEDIA_VOL_MAX, PHONE_VOL_MAX, NAVI_VOL_MAX, BMT_VALUE_MAX, GEQ_VALUE_MAX,
    CHANNEL_MEDIA_MUSIC, CHANNEL_MEDIA_TUNER, CHANNEL_BT_PHONE, CHANNEL_VR, AUDIO_BALANCE_AM,
    AUDIO_BALANCE_MUSIC, AUDIO_BALANCE_FM, SOUND_EFFECT_REST_MODE,
    SOUND_STAGE_ALL_PASSENGER_MODE, PDC_TYPE_SLOW, PDC_TYPE_STOP in *.

Ltac dsp_side :=
  solve [ eauto 3 with dsp
        | apply s32_small_fits4; dsp_consts; lia
        | dsp_consts; unfold fits4, is_i32, INT32_MIN, INT32_MAX in *; repeat zif; lia ].

Ltac dsp_inv_side :=
  solve [ assumption
        | match goal with J : dsp_inv ?t |- dsp_inv (set_channel_cache _ ?t) =>
            destruct J; constructor; assumption end
        | constructor; cbn in *; solve [assumption | dsp_side | dsp_consts; repeat zif; lia] ].

(** Symbolic execution for total correctness. *)
Ltac dsp_wp :=
  repeat first
    [ run_step
    | apply int_wp; [dsp_side|]
    | apply sprintf_wp; [dsp_side|]
    | apply control_inv_wp;
        [dsp_inv_side|reflexivity
        |solve [left; reflexivity | exact good_42 | apply good_print, fits4_i32; dsp_side]|intros ?r ?s ? ?]
    | progress unfold dspdev_set_audio_balance
    | dsp_inv_side ].

Section SafetyTheorem.
Context {M : Type} `{MixerLaws M} `{Alloc}.

Lemma exec_safe (cmd : dsp_cmd) (s : dsp) :
  dsp_inv s -> valid_cmd cmd -> wp (exec cmd) (fun _ s' => dsp_inv s') s.
Proof.
  intros I V. pose proof I as [I1 I2 I3 I4 I5 I6 I7 I8].
  destruct cmd as [c|b|b|c v|c v|c v|b|b|[] b|[] v|t|t v|t v|b f|i v|t|c b|c b];
    cbn [exec set_switch set_level valid_cmd level_arg] in *; unfold_dsp; try (destruct b); dsp_wp.
Qed.
End SafetyTheorem.

(** ** Properties: status and safety *)

(** Status codes: whatever the sound card does, a [dspdev_*] setter
    returns the code its arguments determine.  In particular a card that
    cannot be opened, a missing control and a refused value are all reported
    as success. *)
Theorem dsp_status_from_arguments {M} `{MixerOps M} `{Alloc}
    (cmd : dsp_cmd) (s s' : dsp) (r : Z) :
  exec cmd s = Done (r, s') -> r = arg_status cmd s.
Proof. intros E. exact (wlp_elim _ _ _ _ _ (exec_status cmd s) E). Qed.

(** An allocator that never fails, and cards for the witnesses. *)
#[local] Instance alloc_always : Alloc := {| calloc_ok := fun _ => true |}.

Definition int_ctl (name : string) (lo hi : Z) : snd_ctl :=
  {| c_name := name; c_type := MIXER_CTL_TYPE_INT; c_values := [0]; c_min := lo; c_max := hi;
     c_enums := [] |}.

Definition demo_card (open : bool) : card :=
  {| card_open := open;
     card_ctls := [int_ctl tinymix_control_MediaVol 0 120; int_ctl tinymix_control_PhoneVol 0 66;
                   int_ctl tinymix_control_MicVol 0 10; int_ctl tinymix_control_NaviMute 0 1;
                   int_ctl tinymix_contorl_SoundChannel_Mute 0 15] |}.

Lemma dsp_status_from_arguments_witness :
  exec (SetLevel MicVolume 5) (dsp_static (demo_card false))
    = Done (0, dsp_static (demo_card false)) /\ 0 = 0.
Proof.
  split; [vm_compute; reflexivity|].
  apply (dsp_status_from_arguments (SetLevel MicVolume 5) (dsp_static (demo_card false))
           (dsp_static (demo_card false)) 0).
  vm_compute. reflexivity.
Defined.

Lemma exec_all_safe {M} `{MixerLaws M} `{Alloc} (cmds : list dsp_cmd) (s : dsp) :
  dsp_inv s -> Forall valid_cmd cmds ->
  wp (exec_all cmds) (fun rs s' => dsp_inv s' /\ length rs = length cmds) s.
Proof.
  revert s. induction cmds as [|cmd cmds IH]; intros s I V; cbn [exec_all].
  { by apply run_ret. }
  apply Forall_cons_1 in V as [V1 V2]. apply run_bind.
  eapply run_mono; [by apply exec_safe|]. intros r s1 I1. apply run_bind.
  eapply run_mono; [by apply IH|]. intros rs s2 [I2 L]. apply run_ret. cbn. auto.
Qed.

Lemma static_inv {M} `{MixerOps M} (m : M) : no_byte m -> dsp_inv (dsp_static m).
Proof.
  intros N. constructor; cbn; try done;
    unfold MEDIA_VOL_INIT, PHONE_VOL_INIT, MEDIA_VOL_MAX, PHONE_VOL_MAX; lia.
Qed.


Lemma card_no_byte (m : card) :
  Forall (fun ct => ct.(c_type) <> MIXER_CTL_TYPE_BYTE) m.(card_ctls) -> no_byte m.
Proof.
  intros F c. cbn. destruct (get_control m c) as [ct|] eqn:G; [|done].
  unfold get_control in G. destruct (0 <=? c); [|done].
  by apply (Forall_lookup_1 _ _ _ _ F G).
Qed.

Lemma demo_no_byte (open : bool) : no_byte (demo_card open).
Proof. apply card_no_byte. repeat constructor; done. Qed.


(** ** Properties: what is set is what is read *)

Section Hardware.
Context {M : Type} `{MixerLaws M} `{Alloc}.

(** A write to a control that works, as a step of [dspdev_*] code. *)
Lemma control_run (F : Prop) (name : string) (c v : Z) (Q : Z -> dsp -> Prop) (s : dsp) :
  works s.(mixer) name c -> ctl_accepts s.(mixer) c v -> is_i32 v ->
  (forall m', written s.(mixer) c v m' -> Q 0 (set_mixer m' s)) ->
  run_spec F (control name (print_int v)) Q s.
Proof.
  intros W A I HQ. destruct (dsp_control_ok s.(mixer) name c v W A I) as (m' & E & R).
  unfold run_spec, control. rewrite E. simpl. by apply HQ.
Qed.

Lemma sprintf_run (F : Prop) (n : Z) (Q : string -> dsp -> Prop) (s : @dsp M) :
  fits4 n -> Q (print_int n) s -> run_spec F (sprintf_d n) Q s.
Proof. intros Hf HQ. unfold sprintf_d. apply run_lift. by rewrite sprintf_d4_done. Qed.

Lemma set_switch_shape (sw : switch) (b : bool) :
  @set_switch M _ _ sw b =
    (do! text := sprintf_d (Z.b2z b) in
     do! ret := control (switch_name sw) text in
     sret (if ret <? 0 then -1 else 0)).
Proof. by destruct sw. Qed.

Lemma get_switch_shape (sw : switch) (g : @dspm M (Z * bool)) :
  get_switch sw = Some g ->
  g = (do! (ret, v) := get_value (switch_name sw) 0 in
       sret (if ret <? 0 then -1 else 0, negb (v =? 0))).
Proof. by destruct sw; intros [= <-]. Qed.

Lemma set_level_shape (l : level) (v : Z) :
  @set_level M _ _ l v =
    (do! text := sprintf_d (level_arg l v) in
     do! ret := control (level_name l) text in
     sret (if ret <? 0 then -1 else 0)).
Proof. by destruct l. Qed.

Lemma get_level_shape (l : level) (w : Z) :
  exists w', @get_level M _ _ l w =
    (do! (ret, v) := get_value (level_name l) w' in
     sret (if ret <? 0 then -1 else 0, v)).
Proof. destruct l; eexists; reflexivity. Qed.

(** The common core of the round trips: print, write, read back. *)
Lemma write_number_run (name : string) (c n : Z) (s : dsp) :
  works s.(mixer) name c -> ctl_accepts s.(mixer) c n -> fits4 n ->
  exists m',
    (do! text := sprintf_d n in
     do! ret := control name text in
     sret (if ret <? 0 then -1 else 0)) s = Done (0, set_mixer m' s)
    /\ written s.(mixer) c n m'.
Proof.
  intros W A F.
  enough (wp (do! text := sprintf_d n in
              do! ret := control name text in
              sret (if ret <? 0 then -1 else 0))
            (fun r s' => r = 0 /\ exists m', s' = set_mixer m' s /\ written s.(mixer) c n m') s) as E.
  { apply wp_elim in E as (r & s' & -> & -> & m' & -> & R). eauto. }
  apply run_bind, sprintf_run; [done|]. apply run_bind.
  apply (control_run _ _ c); [done|done|by apply fits4_i32|].
  intros m' R. apply run_ret. eauto.
Qed.
End Hardware.

(** Round trip of the switches: on a card where the control exists and
    accepts 0 and 1, setting any of the on/off controls and reading it with
    its getter gives the value that was set, with status 0, and no other
    control of the card changes. *)
Theorem dsp_switch_roundtrip {M} `{MixerLaws M} `{Alloc}
    (sw : switch) (g : dspm (Z * bool)) (b : bool) (s : dsp) (c : Z) :
  get_switch sw = Some g -> works s.(mixer) (switch_name sw) c -> has_value s.(mixer) c ->
  ctl_accepts s.(mixer) c (Z.b2z b) ->
  exists s', set_switch sw b s = Done (0, s') /\ g s' = Done ((0, b), s')
             /\ same_except c s.(mixer) s'.(mixer).
Proof.
  intros G W T A. rewrite set_switch_shape, (get_switch_shape sw g G).
  destruct (write_number_run (switch_name sw) c (Z.b2z b) s W A) as (m' & E & R).
  { unfold fits4. destruct b; cbn; lia. }
  exists (set_mixer m' s). split; [done|]. split; [|apply R].
  unfold sbind at 1, get_value. cbn [mixer set_mixer].
  rewrite (written_read _ _ _ _ _ 0 W T R). cbn. by destruct b.
Qed.

Lemma demo_works (name : string) (c : Z) (ct : snd_ctl) :
  isnumber name = false -> name_index name 0 (card_ctls (demo_card true)) = Some c ->
  get_control (demo_card true) c = Some ct -> c_type ct = MIXER_CTL_TYPE_INT ->
  c_values ct = [0] ->
  works (demo_card true) name c /\ has_value (demo_card true) c.
Proof.
  intros I N G T V. split.
  - constructor; cbn; [done|done|done| |].
    + rewrite G, T. done.
    + unfold card_num_values. rewrite G, V. change (1 <= 1). lia.
  - left. cbn. by rewrite G, T.
Qed.

Lemma dsp_switch_roundtrip_witness :
  exists s', set_switch NaviMute true (dsp_static (demo_card true)) = Done (0, s')
             /\ dspdev_get_navi_mute s' = Done ((0, true), s').
Proof.
  destruct (demo_works tinymix_control_NaviMute 3 (int_ctl tinymix_control_NaviMute 0 1))
    as [W T]; [reflexivity..|].
  destruct (dsp_switch_roundtrip NaviMute dspdev_get_navi_mute true (dsp_static (demo_card true)) 3)
    as (s' & E1 & E2 & _); [reflexivity|exact W|exact T| |].
  - exists (int_ctl tinymix_control_NaviMute 0 1). split; [reflexivity|cbn; lia].
  - exists s'. split; [exact E1|exact E2].
Defined.

(** Levels: a number of at most three characters is written and read
    back unchanged; any other number overruns the [char[4]] of the function
    before anything is written. *)
Theorem dsp_level_roundtrip_or_overrun {M} `{MixerLaws M} `{Alloc}
    (l : level) (v w c : Z) (s : dsp) :
  works s.(mixer) (level_name l) c -> has_value s.(mixer) c ->
  ctl_accepts s.(mixer) c (level_arg l v) ->
  (fits4 (level_arg l v) ->
     exists s', set_level l v s = Done (0, s') /\ get_level l w s' = Done ((0, level_arg l v), s'))
  /\ (~ fits4 (level_arg l v) -> set_level l v s = Undef).
Proof.
  intros W T A. rewrite set_level_shape. destruct (get_level_shape (M:=M) l w) as (w' & ->). split.
  - intros F. destruct (write_number_run (level_name l) c _ s W A F) as (m' & E & R).
    exists (set_mixer m' s). split; [done|].
    unfold sbind, get_value. cbn [mixer set_mixer].
    by rewrite (written_read _ _ _ _ _ w' W T R).
  - intros F. unfold sbind, sprintf_d, slift. by rewrite sprintf_d4_undef.
Qed.

Lemma dsp_level_roundtrip_or_overrun_witness :
  (fits4 7 ->
     exists s', set_level MicVolume 7 (dsp_static (demo_card true)) = Done (0, s')
                /\ get_level MicVolume 0 s' = Done ((0, 7), s'))
  /\ (~ fits4 7 -> set_level MicVolume 7 (dsp_static (demo_card true)) = Undef).
Proof.
  destruct (demo_works tinymix_control_MicVol 2 (int_ctl tinymix_control_MicVol 0 10))
    as [W T]; [reflexivity..|].
  apply (dsp_level_roundtrip_or_overrun MicVolume 7 0 2 (dsp_static (demo_card true)) W T).
  exists (int_ctl tinymix_control_MicVol 0 10). split; [reflexivity|cbn; lia].
Defined.

(** ** Properties: volumes and offsets *)

Definition is_media (c : Z) : bool := (c =? CHANNEL_MEDIA_MUSIC) || (c =? CHANNEL_MEDIA_TUNER).

Section Volumes.
Context {M : Type} `{MixerLaws M} `{Alloc}.

Lemma int_run (F : Prop) (z : Z) (Q : Z -> dsp -> Prop) (s : @dsp M) :
  is_i32 z -> Q z s -> run_spec F (int z) Q s.
Proof. intros I HQ. unfold int. apply run_lift. by rewrite i32_done. Qed.

(** What [dspdev_set_volume] does for the media channels. *)
Lemma set_volume_media (ch v c : Z) (s : dsp) :
  let hw := Z.min (v + s.(media_volume_offset_cache)) s.(media_variable_max_volume_cache) in
  dsp_inv s -> is_media ch = true -> 0 <= v <= MEDIA_VOL_MAX ->
  works s.(mixer) tinymix_control_MediaVol c -> ctl_accepts s.(mixer) c hw ->
  exists m', dspdev_set_volume ch v s
               = Done (0, set_mixer m' (set_media_volume_cache (hw - s.(media_volume_offset_cache)) s))
             /\ written s.(mixer) c hw m'.
Proof.
  intros hw I Hch Hv W A. pose proof I as [I1 I2 I3 I4 I5 I6 I7 I8].
  enough (wp (dspdev_set_volume ch v) (fun r s' => r = 0 /\ exists m',
            s' = set_mixer m' (set_media_volume_cache (hw - s.(media_volume_offset_cache)) s)
            /\ written s.(mixer) c hw m') s) as E.
  { apply wp_elim in E as (r & s' & -> & -> & m' & -> & R). eauto. }
  unfold_dsp. unfold is_media in Hch. apply run_bind, run_get. cbv beta.
  rewrite Hch. apply run_bind, run_bind, int_run; [dsp_side|]. apply run_ret, run_bind.
  assert ((if v + media_volume_offset_cache s >? media_variable_max_volume_cache s
           then media_variable_max_volume_cache s else v + media_volume_offset_cache s) = hw) as ->.
  { subst hw. zif; lia. }
  assert (fits4 hw) as F by (subst hw; unfold fits4; dsp_consts; lia).
  apply sprintf_run; [done|]. do 2 apply run_bind. apply int_run; [dsp_side|].
  apply run_bind, run_modify, run_bind. apply (control_run _ _ c); [done|done|by apply fits4_i32|].
  intros m' R. do 2 apply run_ret. split; [done|]. exists m'. split; [done|exact R].
Qed.

(** What [dspdev_set_volume_offset] does for the media channels. *)
Lemma set_offset_media (ch off c : Z) (s : dsp) :
  let hw := Z.min (Z.max 0 (Z.min MEDIA_VOL_MAX (s.(media_volume_cache) + off)))
                  s.(media_variable_max_volume_cache) in
  dsp_inv s -> is_media ch = true -> - MEDIA_VOL_MAX <= off <= MEDIA_VOL_MAX ->
  works s.(mixer) tinymix_control_MediaVol c -> ctl_accepts s.(mixer) c hw ->
  exists m', dspdev_set_volume_offset ch off s
               = Done (0, set_mixer m' (set_media_volume_offset_cache off s))
             /\ written s.(mixer) c hw m'.
Proof.
  intros hw I Hch Hv W A. pose proof I as [I1 I2 I3 I4 I5 I6 I7 I8].
  enough (wp (dspdev_set_volume_offset ch off) (fun r s' => r = 0 /\ exists m',
            s' = set_mixer m' (set_media_volume_offset_cache off s)
            /\ written s.(mixer) c hw m') s) as E.
  { apply wp_elim in E as (r & s' & -> & -> & m' & -> & R). eauto. }
  unfold_dsp. unfold is_media in Hch. apply run_bind, run_get. cbv beta.
  rewrite Hch. apply run_bind, run_bind, run_modify, run_bind, int_run; [dsp_side|].
  cbv zeta. apply run_bind.
  match goal with |- run_spec _ (sprintf_d ?x) _ _ => assert (x = hw) as -> end.
  { subst hw. dsp_consts. destruct (_ >? 39) eqn:?; [|destruct (_ <? 0) eqn:?]; zbool; zif; lia. }
  assert (fits4 hw) as F by (subst hw; unfold fits4; dsp_consts; lia).
  apply sprintf_run; [done|]. apply run_bind. apply (control_run _ _ c); [done|done|by apply fits4_i32|].
  intros m' R. do 2 apply run_ret. split; [done|]. exists m'. split; [done|exact R].
Qed.
End Volumes.

(** The card value of control [c], all of its values being [v]. *)
Definition shows {M} `{MixerOps M} (m : M) (c v : Z) : Prop :=
  forall i, 0 <= i < mixer_ctl_get_num_values m c -> mixer_ctl_get_value m c i = v.

Lemma written_shows {M} `{MixerLaws M} (m m' : M) (c v : Z) : written m c v m' -> shows m' c v.
Proof. intros [SC _ V _] i Hi. apply V. by rewrite <- (sc_num m m' SC). Qed.

Lemma exec_inv {M} `{MixerLaws M} `{Alloc} (cmd : dsp_cmd) (s s' : dsp) (r : Z) :
  dsp_inv s -> valid_cmd cmd -> exec cmd s = Done (r, s') -> dsp_inv s'.
Proof.
  intros I V E. destruct (wp_elim _ _ _ (exec_safe cmd s I V)) as (r' & s1 & E1 & I1). congruence.
Qed.

(** Media volume: [dspdev_set_volume] puts the user volume plus the
    offset, capped by the variable maximum, on the card; the getter subtracts
    the offset again and agrees with the cached user volume; a later change
    of the offset moves the card to the same user volume plus the new
    offset, clamped to 0..39 and the maximum. *)
Theorem dsp_media_volume_tracks_offset {M} `{MixerLaws M} `{Alloc}
    (ch v off' w c : Z) (s : dsp) :
  let off := s.(media_volume_offset_cache) in
  let top := s.(media_variable_max_volume_cache) in
  let user := Z.min (v + off) top - off in
  dsp_inv s -> is_media ch = true -> 0 <= v <= MEDIA_VOL_MAX ->
  - MEDIA_VOL_MAX <= off' <= MEDIA_VOL_MAX ->
  works s.(mixer) tinymix_control_MediaVol c -> has_value s.(mixer) c ->
  (forall n, Z.min 0 (v + off) <= n <= MEDIA_VOL_MAX -> ctl_accepts s.(mixer) c n) ->
  exists s1 s2,
    dspdev_set_volume ch v s = Done (0, s1) /\ shows s1.(mixer) c (user + off)
    /\ s1.(media_volume_cache) = user
    /\ dspdev_get_volume ch w s1 = Done ((0, user), s1)
    /\ dspdev_set_volume_offset ch off' s1 = Done (0, s2)
    /\ shows s2.(mixer) c (Z.min (Z.max 0 (Z.min MEDIA_VOL_MAX (user + off'))) top).
Proof.
  intros off top user I Hch Hv Ho W T A. pose proof I as [I1 I2 I3 I4 I5 I6 I7 I8].
  destruct (set_volume_media ch v c s I Hch Hv W) as (m1 & E1 & R1);
    [apply A; fold off top; dsp_consts; lia|]. fold off top in E1, R1.
  assert (valid_cmd (SetVolume ch v)) as V1 by (cbn; unfold fits4; dsp_consts; lia).
  pose proof (exec_inv (SetVolume ch v) s _ 0 I V1 E1) as J.
  set (s1 := set_mixer m1 _) in *.
  assert (works (mixer s1) tinymix_control_MediaVol c) as W1 by (eapply works_same; [apply R1|done]).
  destruct (set_offset_media ch off' c s1 J Hch Ho W1) as (m2 & E2 & R2).
  { apply R1. apply A. pose proof J as [_ _ _ J4 _ _ _ _]. dsp_consts. lia. }
  eexists s1, _. split; [exact E1|]. split; [|split; [done|split; [|split; [exact E2|]]]].
  - replace (user + off) with (Z.min (v + off) top) by (unfold user; lia). by eapply written_shows.
  - unfold dspdev_get_volume, sbind, sget. cbn [obind]. unfold is_media in Hch. rewrite Hch.
    unfold get_value. rewrite (written_read _ _ _ _ _ w W T R1). cbn [obind].
    unfold int, slift. rewrite i32_done; [done|].
    change (media_volume_offset_cache s1) with off. dsp_side.
  - cbn [mixer set_mixer]. by eapply written_shows.
Qed.

Lemma demo_media_works :
  works (demo_card true) tinymix_control_MediaVol 0 /\ has_value (demo_card true) 0.
Proof. by apply (demo_works _ 0 (int_ctl tinymix_control_MediaVol 0 120)). Qed.

Lemma dsp_media_volume_tracks_offset_witness :
  exists s1 s2,
    dspdev_set_volume CHANNEL_MEDIA_MUSIC 12 (dsp_static (demo_card true)) = Done (0, s1)
    /\ dspdev_get_volume CHANNEL_MEDIA_MUSIC 99 s1 = Done ((0, 12), s1)
    /\ dspdev_set_volume_offset CHANNEL_MEDIA_MUSIC 7 s1 = Done (0, s2)
    /\ shows s2.(mixer) 0 19.
Proof.
  destruct demo_media_works as [W T].
  destruct (dsp_media_volume_tracks_offset CHANNEL_MEDIA_MUSIC 12 7 99 0 (dsp_static (demo_card true))
              (static_inv _ (demo_no_byte true))) as (s1 & s2 & E1 & _ & _ & E2 & E3 & E4);
    [reflexivity|unfold MEDIA_VOL_MAX; lia|unfold MEDIA_VOL_MAX; lia|exact W|exact T| |].
  - intros n Hn. exists (int_ctl tinymix_control_MediaVol 0 120). split; [reflexivity|].
    cbn in *. unfold MEDIA_VOL_MAX in *. lia.
  - exists s1, s2. split; [exact E1|]. split; [exact E2|]. split; [exact E3|exact E4].
Defined.

Section Phone.
Context {M : Type} `{MixerLaws M} `{Alloc}.

(** What [dspdev_set_volume] does for the Bluetooth phone when no limit is
    reached. *)
Lemma set_volume_phone (v c : Z) (s : dsp) :
  let off := s.(phone_volume_offset_cache) in
  dsp_inv s -> 0 < v + off <= PHONE_VOL_MAX -> 0 <= v <= PHONE_VOL_MAX ->
  works s.(mixer) tinymix_control_PhoneVol c -> ctl_accepts s.(mixer) c (v + off) ->
  exists m', dspdev_set_volume CHANNEL_BT_PHONE v s
               = Done (0, set_mixer m' (set_phone_volume_cache (v + off) s))
             /\ written s.(mixer) c (v + off) m'.
Proof.
  intros off I Hs Hv W A. pose proof I as [I1 I2 I3 I4 I5 I6 I7 I8].
  enough (wp (dspdev_set_volume CHANNEL_BT_PHONE v) (fun r s' => r = 0 /\ exists m',
            s' = set_mixer m' (set_phone_volume_cache (v + off) s)
            /\ written s.(mixer) c (v + off) m') s) as E.
  { apply wp_elim in E as (r & s' & -> & -> & m' & -> & R). eauto. }
  unfold_dsp. apply run_bind, run_get. cbv beta. cbn [Z.eqb CHANNEL_BT_PHONE
    CHANNEL_MEDIA_MUSIC CHANNEL_MEDIA_TUNER orb]. fold off in I6 |- *.
  apply run_bind, run_bind, int_run; [dsp_side|]. apply run_ret, run_bind.
  destruct (v + off >? PHONE_VOL_MAX) eqn:B1; [lia|]. destruct (v + off <=? 0) eqn:B2; [lia|].
  assert (fits4 (v + off)) as F by (unfold fits4; dsp_consts; lia).
  apply sprintf_run; [done|]. do 2 apply run_bind. apply run_modify, run_bind.
  apply (control_run _ _ c); [done|done|by apply fits4_i32|].
  intros m' R. do 2 apply run_ret. split; [done|]. exists m'. split; [done|exact R].
Qed.

Lemma set_offset_phone (off c : Z) (s : dsp) :
  dsp_inv s -> 0 < s.(phone_volume_cache) + off <= PHONE_VOL_MAX ->
  - MEDIA_VOL_MAX <= off <= MEDIA_VOL_MAX ->
  works s.(mixer) tinymix_control_PhoneVol c ->
  ctl_accepts s.(mixer) c (s.(phone_volume_cache) + off) ->
  exists m', dspdev_set_volume_offset CHANNEL_BT_PHONE off s
               = Done (0, set_mixer m' (set_phone_volume_offset_cache off s))
             /\ written s.(mixer) c (s.(phone_volume_cache) + off) m'.
Proof.
  intros I Hs Ho W A. pose proof I as [I1 I2 I3 I4 I5 I6 I7 I8].
  enough (wp (dspdev_set_volume_offset CHANNEL_BT_PHONE off) (fun r s' => r = 0 /\ exists m',
            s' = set_mixer m' (set_phone_volume_offset_cache off s)
            /\ written s.(mixer) c (s.(phone_volume_cache) + off) m') s) as E.
  { apply wp_elim in E as (r & s' & -> & -> & m' & -> & R). eauto. }
  unfold_dsp. apply run_bind, run_get. cbv beta. cbn [Z.eqb CHANNEL_BT_PHONE
    CHANNEL_MEDIA_MUSIC CHANNEL_MEDIA_TUNER CHANNEL_VR orb].
  apply run_bind, run_bind, run_modify, run_bind, int_run; [dsp_side|]. cbv zeta.
  destruct (_ >? PHONE_VOL_MAX) eqn:B1; [lia|]. destruct (_ <=? 0) eqn:B2; [lia|].
  assert (fits4 (s.(phone_volume_cache) + off)) as F by (unfold fits4; dsp_consts; lia).
  apply run_bind, sprintf_run; [done|]. apply run_bind.
  apply (control_run _ _ c); [done|done|by apply fits4_i32|].
  intros m' R. do 2 apply run_ret. split; [done|]. exists m'. split; [done|exact R].
Qed.
End Phone.

(** Phone volume: the cached Bluetooth volume already contains the
    offset, so announcing the offset that is in force once more moves the
    card from [v + off] to [v + 2 * off]; on the media channels the same
    sequence leaves the card where it is. *)
Theorem dsp_phone_offset_applied_twice {M} `{MixerLaws M} `{Alloc} (v c : Z) (s : dsp) :
  let off := s.(phone_volume_offset_cache) in
  dsp_inv s -> 0 <= v <= PHONE_VOL_MAX -> 0 < v + off <= PHONE_VOL_MAX ->
  0 < v + 2 * off <= PHONE_VOL_MAX ->
  works s.(mixer) tinymix_control_PhoneVol c ->
  ctl_accepts s.(mixer) c (v + off) -> ctl_accepts s.(mixer) c (v + 2 * off) ->
  exists s1 s2,
    dspdev_set_volume CHANNEL_BT_PHONE v s = Done (0, s1)
    /\ shows s1.(mixer) c (v + off)
    /\ dspdev_set_volume_offset CHANNEL_BT_PHONE off s1 = Done (0, s2)
    /\ shows s2.(mixer) c (v + 2 * off).
Proof.
  intros off I Hv H1' H2' W A1 A2. pose proof I as [I1 I2 I3 I4 I5 I6 I7 I8].
  destruct (set_volume_phone v c s I H1' Hv W A1) as (m1 & E1 & R1). fold off in E1, R1.
  assert (valid_cmd (SetVolume CHANNEL_BT_PHONE v)) as V1 by (cbn; unfold fits4; dsp_consts; lia).
  pose proof (exec_inv (SetVolume CHANNEL_BT_PHONE v) s _ 0 I V1 E1) as J.
  set (s1 := set_mixer m1 _) in *.
  assert (works (mixer s1) tinymix_control_PhoneVol c) as W1 by (eapply works_same; [apply R1|done]).
  assert (phone_volume_cache s1 + off = v + 2 * off) as Es by (cbn; lia).
  destruct (set_offset_phone off c s1 J) as (m2 & E2 & R2); rewrite ?Es in *; try done; [by apply R1|].
  eexists s1, _. split; [exact E1|]. split; [by eapply written_shows|]. split; [exact E2|].
  by eapply written_shows.
Qed.

Lemma dsp_phone_offset_applied_twice_witness :
  let s := set_phone_volume_offset_cache 5 (dsp_static (demo_card true)) in
  exists s1 s2,
    dspdev_set_volume CHANNEL_BT_PHONE 10 s = Done (0, s1) /\ shows s1.(mixer) 1 15
    /\ dspdev_set_volume_offset CHANNEL_BT_PHONE 5 s1 = Done (0, s2) /\ shows s2.(mixer) 1 20.
Proof.
  intros s.
  destruct (demo_works tinymix_control_PhoneVol 1 (int_ctl tinymix_control_PhoneVol 0 66))
    as [W T]; [reflexivity..|].
  apply (dsp_phone_offset_applied_twice 10 1 s).
  - destruct (static_inv _ (demo_no_byte true)). by constructor.
  - unfold PHONE_VOL_MAX. lia.
  - cbn. unfold PHONE_VOL_MAX. lia.
  - cbn. unfold PHONE_VOL_MAX. lia.
  - exact W.
  - exists (int_ctl tinymix_control_PhoneVol 0 66). split; [reflexivity|cbn; lia].
  - exists (int_ctl tinymix_control_PhoneVol 0 66). split; [reflexivity|cbn; lia].
Defined.

(** ** Properties: source selection *)

Definition known_channels : list Z :=
  [CHANNEL_MEDIA_MUSIC; CHANNEL_MEDIA_TUNER; CHANNEL_BT_PHONE; CHANNEL_CARPLAY_PHONE;
   CHANNEL_TBOX; CHANNEL_SIRI; CHANNEL_VR; CHANNEL_NULL].

Section Channel.
Context {M : Type} `{MixerOps M} `{Alloc}.

Lemma control_closed (F : Prop) (name value : string) (Q : Z -> dsp -> Prop) (s : dsp) :
  mixer_open s.(mixer) 0 = false -> Q ENODEV s -> run_spec F (control name value) Q s.
Proof.
  intros C HQ. unfold run_spec, control, dsp_control. rewrite C. simpl. by destruct s.
Qed.

Lemma set_channel_closed (c : Z) (s : dsp) :
  mixer_open s.(mixer) 0 = false -> c ∈ known_channels -> u32 s.(channel_cache) <> c ->
  dspdev_set_channel c s = Done (0, set_channel_cache c s).
Proof.
  intros C K N.
  enough (wp (dspdev_set_channel c) (fun r s' => r = 0 /\ s' = set_channel_cache c s) s) as E.
  { by apply wp_elim in E as (r & s' & -> & -> & ->). }
  unfold_dsp. apply run_bind, run_get. cbv beta. rewrite (proj2 (Z.eqb_neq _ _) N). clear N.
  unfold known_channels in K.
  repeat (apply elem_of_cons in K as [-> | K];
    [by repeat first [ run_step; try discriminate | apply control_closed; [done|]
                     | apply sprintf_run; [by apply s32_small_fits4|]
                     | progress unfold dspdev_set_audio_balance ]|]).
  by apply elem_of_nil in K.
Qed.

Lemma set_channel_again (c : Z) (s : dsp) :
  u32 s.(channel_cache) = c -> dspdev_set_channel c s = Done (0, s).
Proof.
  intros E. unfold dspdev_set_channel, sbind, sget. cbn [obind].
  by rewrite (proj2 (Z.eqb_eq _ _) E).
Qed.
End Channel.

(** Source selection is cached even when it failed: if the mixer cannot
    be opened, [dspdev_set_channel] reports success and remembers the
    channel, and the same request made when the mixer works again is
    answered from the cache without touching the card. *)
Theorem dsp_channel_failure_is_sticky {M} `{MixerOps M} `{Alloc} (c : Z) (m m' : M) :
  mixer_open m 0 = false -> c ∈ known_channels ->
  let s1 := set_channel_cache c (dsp_static m) in
  dspdev_set_channel c (dsp_static m) = Done (0, s1)
  /\ dspdev_set_channel c (set_mixer m' s1) = Done (0, set_mixer m' s1).
Proof.
  intros C K s1. split.
  - apply set_channel_closed; [done|done|]. intros <-. vm_compute in K.
    repeat (apply elem_of_cons in K as [K | K]; [discriminate|]). by apply elem_of_nil in K.
  - apply set_channel_again. cbn. unfold known_channels in K.
    repeat (apply elem_of_cons in K as [-> | K]; [reflexivity|]). by apply elem_of_nil in K.
Qed.

Lemma dsp_channel_failure_is_sticky_witness :
  let s1 := set_channel_cache CHANNEL_BT_PHONE (dsp_static (demo_card false)) in
  dspdev_set_channel CHANNEL_BT_PHONE (dsp_static (demo_card false)) = Done (0, s1)
  /\ dspdev_set_channel CHANNEL_BT_PHONE (set_mixer (demo_card true) s1)
     = Done (0, set_mixer (demo_card true) s1).
Proof.
  apply (dsp_channel_failure_is_sticky CHANNEL_BT_PHONE (demo_card false) (demo_card true));
    [reflexivity|].
  apply elem_of_cons; right. apply elem_of_cons; right. apply elem_of_cons; left. reflexivity.
Defined.

(** ** Properties: the mute bits of the sound channels *)

Definition mute_cmds (l : list (Z * bool)) : list dsp_cmd :=
  map (fun '(c, b) => SetSoundChannelMute c b) l.

(** The last request for channel [c], or [b0] if there is none. *)
Definition last_mute (c : Z) (b0 : bool) (l : list (Z * bool)) : bool :=
  fold_left (fun b '(c', b') => if c' =? c then b' else b) l b0.

(** The status byte after one request. *)
Definition mute_byte (st : Z) (c : Z) (b : bool) : Z :=
  if b then Z.lor st (Z.land (Z.shiftl 1 c) 15) else Z.land st (Z.lxor (Z.shiftl 1 c) 15).

Lemma testbit_nibble_mask (i : Z) : 0 <= i < 4 -> Z.testbit 15 i = true.
Proof. intros. assert (i = 0 \/ i = 1 \/ i = 2 \/ i = 3) as [-> | [-> | [-> | ->]]] by lia; done. Qed.

Lemma mute_byte_bit (st c i : Z) (b : bool) :
  0 <= c < 4 -> 0 <= i < 4 ->
  Z.testbit (mute_byte st c b) i = if c =? i then b else Z.testbit st i.
Proof.
  intros Hc Hi. unfold mute_byte.
  assert (Z.testbit (Z.shiftl 1 c) i = (c =? i)) as Eb.
  { rewrite Z.shiftl_1_l, Z.pow2_bits_eqb by lia. done. }
  destruct b.
  - rewrite Z.lor_spec, Z.land_spec, Eb, testbit_nibble_mask by done.
    destruct (c =? i); [by rewrite orb_true_r|by rewrite andb_false_l, orb_false_r].
  - rewrite Z.land_spec, Z.lxor_spec, Eb, testbit_nibble_mask by done.
    destruct (c =? i); [by rewrite andb_false_r|by rewrite andb_true_r].
Qed.

Section Mute.
Context {M : Type} `{MixerLaws M} `{Alloc}.

(** The mute control works and takes every mask. *)
Definition mute_control (s : @dsp M) (k : Z) : Prop :=
  works s.(mixer) tinymix_contorl_SoundChannel_Mute k
  /\ forall n, 0 <= n <= 15 -> ctl_accepts s.(mixer) k n.

Lemma mute_byte_range (st c : Z) (b : bool) : 0 <= st <= 15 -> 0 <= mute_byte st c b <= 15.
Proof. intros. unfold mute_byte. destruct b; auto using nibble_lor, nibble_and. Qed.

Lemma mute_step (c k : Z) (b : bool) (s : dsp) :
  0 <= c <= 3 -> 0 <= s.(s_mute_status) <= 15 -> mute_control s k ->
  exists s', dspdev_set_sound_channel_mute c b s = Done (0, s')
    /\ s'.(s_mute_status) = mute_byte s.(s_mute_status) c b
    /\ mute_control s' k /\ shows s'.(mixer) k s'.(s_mute_status).
Proof.
  intros Hc Hs [W A]. pose proof (mute_byte_range _ c b Hs) as Hr.
  enough (wp (dspdev_set_sound_channel_mute c b) (fun r s' => r = 0 /\ exists m',
            s' = set_mixer m' (set_s_mute_status (mute_byte s.(s_mute_status) c b) s)
            /\ written s.(mixer) k (mute_byte s.(s_mute_status) c b) m') s) as E.
  { apply wp_elim in E as (r & s' & -> & -> & m' & -> & R). eexists. split; [done|].
    split; [done|]. split; [split|].
    - eapply works_same; [apply R|done].
    - intros n Hn. by apply R, A.
    - cbn. by eapply written_shows. }
  unfold_dsp. destruct (_ || _) eqn:B;
    [unfold SOUND_CHANNEL_RR, SOUND_CHANNEL_FL in B; lia|].
  apply run_bind, run_get. cbv beta zeta. fold (mute_byte s.(s_mute_status) c b).
  apply run_bind, run_modify, run_bind, sprintf_run; [by apply fits4_nibble|]. apply run_bind.
  apply (control_run _ _ k); [done|by apply A|apply fits4_i32; by apply fits4_nibble|].
  intros m' R. apply run_ret. split; [done|]. exists m'. split; [done|exact R].
Qed.

Lemma mute_run (l : list (Z * bool)) (k : Z) (s : dsp) :
  Forall (fun '(c, _) => 0 <= c <= 3) l -> 0 <= s.(s_mute_status) <= 15 -> mute_control s k ->
  exists rs s', exec_all (mute_cmds l) s = Done (rs, s')
    /\ Forall (eq 0) rs
    /\ (forall c, 0 <= c < 4 ->
          Z.testbit s'.(s_mute_status) c = last_mute c (Z.testbit s.(s_mute_status) c) l)
    /\ 0 <= s'.(s_mute_status) <= 15
    /\ (l <> [] -> shows s'.(mixer) k s'.(s_mute_status)).
Proof.
  revert s. induction l as [|[c b] l IH]; intros s Hl Hs W.
  { exists [], s. done. }
  apply Forall_cons_1 in Hl as [Hc Hl].
  destruct (mute_step c k b s Hc Hs W) as (s1 & E1 & S1 & W1 & Sh1).
  destruct (IH s1 Hl) as (rs & s2 & E2 & F2 & B2 & R2 & Sh2);
    [rewrite S1; by apply mute_byte_range|done|].
  exists (0 :: rs), s2. split; [|split; [|split; [|split]]].
  - cbn [mute_cmds map exec_all exec]. unfold sbind. rewrite E1. cbn [obind].
    change (map _ l) with (mute_cmds l). rewrite E2. done.
  - by constructor.
  - intros i Hi. rewrite B2, S1, mute_byte_bit by lia. done.
  - done.
  - intros _. destruct l as [|x l]; [|by apply Sh2].
    cbn in E2. injection E2 as <- <-. done.
Qed.
End Mute.

(** Mute bits: after any sequence of mute requests for the four sound
    channels, all succeed, the bit of each channel is its last request
    (unmuted if there was none), no other bit is set, and the mask on the
    card is the cached one. *)
Theorem dsp_sound_channel_mute_bits {M} `{MixerLaws M} `{Alloc}
    (l : list (Z * bool)) (k : Z) (m : M) :
  Forall (fun '(c, _) => 0 <= c <= 3) l -> mute_control (dsp_static m) k ->
  exists rs s', exec_all (mute_cmds l) (dsp_static m) = Done (rs, s')
    /\ Forall (eq 0) rs
    /\ (forall c, 0 <= c < 4 -> Z.testbit s'.(s_mute_status) c = last_mute c false l)
    /\ 0 <= s'.(s_mute_status) <= 15
    /\ (l <> [] -> shows s'.(mixer) k s'.(s_mute_status)).
Proof.
  intros Hl W. destruct (mute_run l k (dsp_static m) Hl) as (rs & s' & E & F & B & R & Sh);
    [cbn; lia|done|].
  exists rs, s'. split; [done|]. split; [done|]. split; [|done].
  intros c Hc. rewrite B by done. cbn [s_mute_status dsp_static]. by rewrite Z.bits_0.
Qed.

Lemma dsp_sound_channel_mute_bits_witness :
  exists rs s', exec_all (mute_cmds [(2, true); (0, true); (2, false)]) (dsp_static (demo_card true))
                = Done (rs, s')
    /\ Z.testbit s'.(s_mute_status) 0 = true /\ Z.testbit s'.(s_mute_status) 2 = false
    /\ shows s'.(mixer) 4 s'.(s_mute_status).
Proof.
  destruct (demo_works tinymix_contorl_SoundChannel_Mute 4
              (int_ctl tinymix_contorl_SoundChannel_Mute 0 15)) as [W T]; [reflexivity..|].
  destruct (dsp_sound_channel_mute_bits [(2, true); (0, true); (2, false)] 4 (demo_card true))
    as (rs & s' & E & _ & B & _ & Sh).
  - repeat constructor; lia.
  - split; [exact W|]. intros n Hn. exists (int_ctl tinymix_contorl_SoundChannel_Mute 0 15).
    split; [reflexivity|exact Hn].
  - exists rs, s'. split; [exact E|]. split; [apply (B 0); lia|]. split; [apply (B 2); lia|].
    apply Sh. discriminate.
Defined.

(** ** Properties: start-up *)

Section DownlineLoop.
Context (property_get : nat -> string -> string) (part two : string) (p : platform).

Lemma downline_loop_spec (fuel r : nat) :
  (fuel + r = 5)%nat -> (0 < fuel)%nat ->
  let att := downline_attempt property_get part two p in
  (forall k v, (r <= k < 5)%nat -> (forall j, (r <= j < k)%nat -> att j = Done None) ->
     att k = Done (Some v) -> downline_loop property_get part two fuel p r = Done v)
  /\ ((forall j, (r <= j < 5)%nat -> att j = Done None) ->
      downline_loop property_get part two fuel p r = Done (-1))
  /\ downline_loop property_get part two fuel p r <> Blocked.
Proof.
  revert r. induction fuel as [|fuel IH]; intros r Hr Hf att; [lia|].
  assert (forall n, att n <> Blocked) as NB.
  { intros n. unfold att, downline_attempt, shl_strtol, char_at.
    destruct p; repeat (zif || case_match || cbn [obind]); try discriminate;
      repeat (destruct (String.get _ _); cbn [obind]; try discriminate);
      repeat (zif; cbn [obind]; try discriminate). }
  cbn [downline_loop]. fold (att r). split; [|split].
  - intros k v Hk Hn Hv. destruct (decide (k = r)) as [->|]; [by rewrite Hv|].
    rewrite (Hn r) by lia. cbn [obind].
    destruct (Nat.ltb 4 (S r)) eqn:E; [apply Nat.ltb_lt in E; lia|].
    apply (proj1 (IH (S r) ltac:(lia) ltac:(lia)) k v); [lia| |done]. intros; apply Hn; lia.
  - intros Hn. rewrite (Hn r) by lia. cbn [obind].
    destruct (Nat.ltb 4 (S r)) eqn:E; [done|]. apply Nat.ltb_ge in E.
    apply (proj2 (IH (S r) ltac:(lia) ltac:(lia))). intros; apply Hn; lia.
  - specialize (NB r). destruct (att r) as [[v|]| | |]; cbn [obind]; try done.
    destruct (Nat.ltb 4 (S r)) eqn:E; [done|]. apply Nat.ltb_ge in E.
    apply (proj2 (IH (S r) ltac:(lia) ltac:(lia))).
Qed.
End DownlineLoop.

(** The vehicle configuration is read at most five times: the loop
    always ends, it returns the first configuration that is long enough, and
    -1 when five attempts found none. *)
Theorem downline_config_first_of_five
    (property_get : nat -> string -> string) (part two : string) (p : platform) :
  let att := downline_attempt property_get part two p in
  let config := get_downline_config property_get part two p in
  (forall k v, (k < 5)%nat -> (forall j, (j < k)%nat -> att j = Done None) ->
     att k = Done (Some v) -> config = Done v)
  /\ ((forall j, (j < 5)%nat -> att j = Done None) -> config = Done (-1))
  /\ config <> Blocked.
Proof.
  destruct (downline_loop_spec property_get part two p 5 0) as (A & B & C); [lia|lia|].
  split; [|split; [|exact C]].
  - intros k v Hk Hn Hv. apply (A k v); [lia| |done]. intros j Hj. apply Hn. lia.
  - intros Hn. apply B. intros j Hj. apply Hn. lia.
Qed.

Lemma play_loop_spec (fuel : nat) (buf : list Z) (off ss sub : Z) :
  0 < sub <= INT32_MAX -> 0 <= off -> ss <= INT32_MAX -> ss <= Z.of_nat fuel * sub ->
  (0 < ss -> off + ss = zlen buf) -> - INT32_MAX <= ss ->
  exists l, play_loop fuel buf off ss sub sub = Done l
    /\ concat l = (if 0 <? ss then drop (Z.to_nat off) buf else [])
    /\ Forall (fun b => zlen b <= sub) l.
Proof.
  revert off ss. induction fuel as [|fuel IH]; intros off ss Hsub Hoff Hss Hf Hb Hlo; cbn [play_loop].
  - zif; [lia|]. exists []. zif; [lia|]. done.
  - destruct (ss >? 0) eqn:E; zbool; [|exists []; zif; [lia|done]].
    specialize (Hb ltac:(lia)). destruct (0 <? ss) eqn:E'; zbool; [clear E'|lia].
    destruct (ss <? sub) eqn:E2; zbool.
    + rewrite mem_read_done by lia. cbn [obind].
      rewrite i32_done by (unfold is_i32, INT32_MIN, INT32_MAX in *; lia). cbn [obind].
      assert (forall f o s a b, s <= 0 -> play_loop f buf o s a b = Done []) as Hend.
      { intros [|f] o s a b Hs; cbn [play_loop]; zif; [lia|done|lia|done]. }
      rewrite Hend by lia. cbn [obind]. eexists. split; [done|]. split.
      * cbn. rewrite app_nil_r. unfold zslice. apply take_ge. rewrite length_drop.
        unfold zlen in Hb. lia.
      * constructor; [|done]. rewrite zlen_zslice by lia. lia.
    + rewrite mem_read_done by lia. cbn [obind].
      rewrite i32_done by (unfold is_i32, INT32_MIN, INT32_MAX in *; lia). cbn [obind].
      destruct (IH (off + sub) (ss - sub)) as (l & -> & C & F); [lia..|].
      eexists. split; [done|]. split; [|constructor; [rewrite zlen_zslice by lia; lia|done]].
      cbn. rewrite C. unfold zslice. destruct (0 <? ss - sub) eqn:E3; zbool.
      * rewrite Z2Nat.inj_add, <- drop_drop by lia. apply take_drop.
      * rewrite app_nil_r. apply take_ge. rewrite length_drop. unfold zlen in Hb. lia.
Qed.

(** C40. The start-up sound reaches both devices completely: for every
    positive device buffer, the blocks written have at most the size of the
    buffer and add up to the whole sound, in order, after at most
    [size / frame_size + 1] iterations. *)
Theorem play_sound_complete (frame_size : Z) (sound : list Z) :
  0 < frame_size <= INT32_MAX -> zlen sound <= INT32_MAX ->
  exists l,
    play_sound (S (Z.to_nat (zlen sound / frame_size))) true true frame_size sound (zlen sound)
      = Done (0, l)
    /\ concat l = sound /\ Forall (fun b => zlen b <= frame_size) l.
Proof.
  intros Hf Hs. pose proof (zlen_nonneg sound) as Hz.
  destruct (play_loop_spec (S (Z.to_nat (zlen sound / frame_size))) sound 0 (zlen sound) frame_size)
    as (l & E & C & F); [done|lia|done| |lia|unfold INT32_MAX; lia|].
  - pose proof (Z.div_mod (zlen sound) frame_size ltac:(lia)).
    pose proof (Z.mod_pos_bound (zlen sound) frame_size ltac:(lia)).
    pose proof (Z.div_pos (zlen sound) frame_size ltac:(lia) ltac:(lia)). nia.
  - exists l. unfold play_sound. cbn [negb]. rewrite E. cbn [obind]. split; [done|].
    split; [|done]. rewrite C. zif; [done|]. unfold zlen in *. by destruct sound; [|cbn in *; lia].
Qed.

Lemma play_sound_complete_witness :
  exists l, play_sound 3 true true 2 [1; 2; 3; 4; 5] 5 = Done (0, l) /\ concat l = [1; 2; 3; 4; 5].
Proof.
  destruct (play_sound_complete 2 [1; 2; 3; 4; 5]) as (l & E & C & _);
    [unfold INT32_MAX; lia|vm_compute; discriminate|]. exists l. split; [exact E|exact C].
Defined.
