(* ===== verification/BusVolume.v ===== *)
(** * Volumes and output slots of the audio buses

    Models the bus status of the HAL: [struct audio_bus_status] and its
    initialisation, [set_bus_volume] with ducking, muting and chimes, the
    setters of the framework ([audio_hw.c]), the callbacks that tell the HAL
    which buses have the focus ([audio_hal_bridge.cpp]), and the assignment
    of output slots to buses when a stream is opened or closed
    ([audio_extra/hal_streamer.c]).  The volumes reach the card through the
    DSP interface.  Each critical section on the per-bus mutexes is one
    step. *)

From stdpp Require Import base list numbers strings.
From Stdlib Require Import ZArith Lia.
From S2P Require Import Prelude CString Mixer Tinymix Dsp DspProofs.

#[local] Open Scope Z_scope.

(** ** Data *)

Definition MAX_BUS_NUM : Z := 16.
Definition BUS1 : Z := 1.
Definition BUS2 : Z := 2.
Definition BUS3 : Z := 3.
Definition BUS6 : Z := 6.

(** Sixteen buses, four slots; the numbers are [uint8_t]. *)
Record audio_bus_status := {
  is_ducked : list bool;
  is_muted : list bool;
  in_zoneId : list Z;
  volume : list Z;
  bus_active : list Z;
  slot_index : list Z;
  slot_in_use : list Z;
  is_chime_on : bool;
  focus_bus : list Z
}.

Definition set_is_ducked (l : list bool) (s : audio_bus_status) : audio_bus_status :=
  {| is_ducked := l; is_muted := s.(is_muted); in_zoneId := s.(in_zoneId); volume := s.(volume);
     bus_active := s.(bus_active); slot_index := s.(slot_index); slot_in_use := s.(slot_in_use);
     is_chime_on := s.(is_chime_on); focus_bus := s.(focus_bus) |}.
Definition set_is_muted (l : list bool) (s : audio_bus_status) : audio_bus_status :=
  {| is_ducked := s.(is_ducked); is_muted := l; in_zoneId := s.(in_zoneId); volume := s.(volume);
     bus_active := s.(bus_active); slot_index := s.(slot_index); slot_in_use := s.(slot_in_use);
     is_chime_on := s.(is_chime_on); focus_bus := s.(focus_bus) |}.
Definition set_volume (l : list Z) (s : audio_bus_status) : audio_bus_status :=
  {| is_ducked := s.(is_ducked); is_muted := s.(is_muted); in_zoneId := s.(in_zoneId); volume := l;
     bus_active := s.(bus_active); slot_index := s.(slot_index); slot_in_use := s.(slot_in_use);
     is_chime_on := s.(is_chime_on); focus_bus := s.(focus_bus) |}.
Definition set_bus_active (l : list Z) (s : audio_bus_status) : audio_bus_status :=
  {| is_ducked := s.(is_ducked); is_muted := s.(is_muted); in_zoneId := s.(in_zoneId);
     volume := s.(volume); bus_active := l; slot_index := s.(slot_index);
     slot_in_use := s.(slot_in_use); is_chime_on := s.(is_chime_on); focus_bus := s.(focus_bus) |}.
Definition set_slots (index in_use : list Z) (s : audio_bus_status) : audio_bus_status :=
  {| is_ducked := s.(is_ducked); is_muted := s.(is_muted); in_zoneId := s.(in_zoneId);
     volume := s.(volume); bus_active := s.(bus_active); slot_index := index;
     slot_in_use := in_use; is_chime_on := s.(is_chime_on); focus_bus := s.(focus_bus) |}.
Definition set_chime (b : bool) (s : audio_bus_status) : audio_bus_status :=
  {| is_ducked := s.(is_ducked); is_muted := s.(is_muted); in_zoneId := s.(in_zoneId);
     volume := s.(volume); bus_active := s.(bus_active); slot_index := s.(slot_index);
     slot_in_use := s.(slot_in_use); is_chime_on := b; focus_bus := s.(focus_bus) |}.

Definition set_focus_bus (l : list Z) (s : audio_bus_status) : audio_bus_status :=
  {| is_ducked := s.(is_ducked); is_muted := s.(is_muted); in_zoneId := s.(in_zoneId);
     volume := s.(volume); bus_active := s.(bus_active); slot_index := s.(slot_index);
     slot_in_use := s.(slot_in_use); is_chime_on := s.(is_chime_on); focus_bus := l |}.

(** The loop of [adev_open]; [slots] are the first slots of the output maps
    of the platform.  The statics start as zero. *)
Definition bus_status_init (slots : list Z) : audio_bus_status :=
  {| is_ducked := replicate 16 false; is_muted := replicate 16 false;
     in_zoneId := replicate 16 15; volume := replicate 16 0; bus_active := replicate 16 0;
     slot_index := slots; slot_in_use := replicate 4 0; is_chime_on := false;
     focus_bus := replicate 4 255 |}.

Section Bus.
Context {M : Type} `{MixerOps M} `{Alloc}.

(** The bus status and the DSP interface below it. *)
Record bus_hal := { bus : audio_bus_status; card_dsp : @dsp M }.

Definition busm (A : Type) : Type := st bus_hal A.

Definition on_dsp {A} (m : dspm A) : busm A := fun h =>
  let! (a, d) := m h.(card_dsp) in Done (a, {| bus := h.(bus); card_dsp := d |}).

Definition on_bus (f : audio_bus_status -> outcome audio_bus_status) : busm unit := fun h =>
  let! b := f h.(bus) in Done (tt, {| bus := b; card_dsp := h.(card_dsp) |}).

Definition read_bus {A} (f : audio_bus_status -> outcome A) : busm A := fun h =>
  let! a := f h.(bus) in Done (a, h).

(** ** The volume of a bus *)

(** The switch that ends every branch of [set_bus_volume]. *)
Definition slot_volume (slot bus_volume : Z) : @dspm M Z :=
  if slot =? 0 then dspdev_set_volume CHANNEL_MEDIA_MUSIC bus_volume
  else if slot =? 2 then dspdev_set_volume CHANNEL_BEEP bus_volume
  else if slot =? 4 then dspdev_set_volume CHANNEL_BT_PHONE bus_volume
  else if slot =? 6 then dspdev_set_volume CHANNEL_NAVI bus_volume
  else sret 0.

(** The largest volume of the buses that have the focus. *)
Fixpoint focus_volume (volumes focus : list Z) (bus_volume : Z) : outcome Z :=
  match focus with
  | [] => Done bus_volume
  | f :: focus =>
      if f =? 255 then focus_volume volumes focus bus_volume
      else
        let! v := array_get volumes f in
        focus_volume volumes focus (if v >=? bus_volume then v else bus_volume)
  end.

(** The number [set_bus_volume] computes; [v * 0.8] converted to [uint8_t]
    is [v * 4 / 5] for every [uint8_t]. *)
Definition bus_level (s : audio_bus_status) (which_bus : Z) : outcome Z :=
  let! is_ducked := array_get s.(is_ducked) which_bus in
  let! is_muted := array_get s.(is_muted) which_bus in
  let! v := array_get s.(volume) which_bus in
  if s.(is_chime_on) then Done (if is_muted then 0 else if v >? 8 then 8 else v)
  else if is_muted then Done 0
  else if is_ducked then
    let! f := focus_volume s.(volume) s.(focus_bus) 0 in
    Done (if f - v >? 12 then v else v * 4 / 5)
  else Done v.

Definition set_bus_volume (which_bus : Z) : busm Z :=
  do! level := read_bus (fun s => bus_level s which_bus) in
  do! slot := read_bus (fun s => array_get s.(slot_index) which_bus) in
  on_dsp (slot_volume slot level).

Definition set_device_address_is_ducked (bus_id : Z) (b : bool) : busm unit :=
  do! _ := on_bus (fun s => let! l := array_set s.(is_ducked) bus_id b in
                            Done (set_is_ducked l s)) in
  do! active := read_bus (fun s => array_get s.(bus_active) bus_id) in
  if active =? 1 then do! _ := set_bus_volume bus_id in sret tt else sret tt.

Definition set_device_address_is_muted (bus_id : Z) (b : bool) : busm unit :=
  do! _ := on_bus (fun s => let! l := array_set s.(is_muted) bus_id b in
                            Done (set_is_muted l s)) in
  do! _ := set_bus_volume bus_id in sret tt.

(** The end of [adev_set_audio_port_config], for a stream on [bus_num]. *)
Definition set_bus_gain (bus_num gainIndex : Z) : busm unit :=
  do! _ := on_bus (fun s => let! l := array_set s.(volume) bus_num (gainIndex mod 256) in
                            Done (set_volume l s)) in
  do! active := read_bus (fun s => array_get s.(bus_active) bus_num) in
  if active =? 1 then do! _ := set_bus_volume bus_num in sret tt else sret tt.

(** ** Output slots *)

(** The loop over the slots 1 to 3: it goes on after a slot was taken. *)
Fixpoint take_slots (l : list Z) (bus_num : Z) (index in_use : list Z) : outcome (list Z * list Z) :=
  match l with
  | [] => Done (index, in_use)
  | i :: l =>
      let! u := array_get in_use i in
      if u =? 1 then take_slots l bus_num index in_use
      else
        let! in_use := array_set in_use i 1 in
        let! index := array_set index bus_num (2 * i) in
        take_slots l bus_num index in_use
  end.

Definition assign_slot (bus_num : Z) (s : audio_bus_status) : outcome audio_bus_status :=
  let! slot := array_get s.(slot_index) bus_num in
  let! u := array_get s.(slot_in_use) (slot / 2) in
  if u =? 1 then
    let! (index, in_use) := take_slots [1; 2; 3] bus_num s.(slot_index) s.(slot_in_use) in
    Done (set_slots index in_use s)
  else
    let! in_use := array_set s.(slot_in_use) (slot / 2) 1 in
    Done (set_slots s.(slot_index) in_use s).

(** The mono switches of the slot a bus has got. *)
Definition slot_mono (slot : Z) (mono : bool) : @dspm M Z :=
  if slot =? 2 then dspdev_set_secondary_mono_all mono
  else if slot =? 4 then dspdev_set_phone_mono_all mono
  else if slot =? 6 then dspdev_set_navi_mono_all mono
  else sret 0.

Definition bus_mono (bus_num slot : Z) : @dspm M Z :=
  if (bus_num =? BUS1) || (bus_num =? BUS6) then slot_mono slot true
  else if (bus_num =? BUS2) || (bus_num =? BUS3) then slot_mono slot false
  else sret 0.

(** The part of [hal_streamer_open] for a playback stream that prepares its
    bus. *)
Definition open_bus (bus_num : Z) : busm unit :=
  do! _ := on_bus (assign_slot bus_num) in
  do! _ := set_bus_volume bus_num in
  do! slot := read_bus (fun s => array_get s.(slot_index) bus_num) in
  do! _ := on_dsp (bus_mono bus_num slot) in
  on_bus (fun s => let! l := array_set s.(bus_active) bus_num 1 in Done (set_bus_active l s)).

(** The part of [hal_streamer_close] that gives the slot back; [slot0] is
    the first slot of the bus in the output map of the platform. *)
Definition close_bus (bus_num slot0 : Z) : busm unit :=
  on_bus (fun s =>
    let! slot := array_get s.(slot_index) bus_num in
    let! in_use := array_set s.(slot_in_use) (slot / 2) 0 in
    let! active := array_set s.(bus_active) bus_num 0 in
    let! index := array_set s.(slot_index) bus_num (slot0 mod 256) in
    Done (set_slots index in_use (set_bus_active active s))).

(** ** Changes of the audio focus

    The callbacks of [audio_hal_bridge.cpp].  The array they get has one
    element, the information of one zone. *)

Definition audio_device_address_is_valid (addr : Z) : bool :=
  ((0 <=? addr) && (addr <=? 3)) || (addr =? BUS6).

(** The bus an address names; [None] when it names no bus of the device. *)
Definition address_bus (addr : string) : outcome (option Z) :=
  if String.prefix "bus" addr then
    let! n := atoi (String.substring 3 (String.length addr) addr) in
    Done (if audio_device_address_is_valid n then Some n else None)
  else Done None.

Fixpoint unduck_focus (js : list Z) (addrs : list string) (focus : list Z) : outcome (list Z) :=
  match js with
  | [] => Done focus
  | j :: js =>
      let! addr := array_get addrs j in
      let! o := address_bus addr in
      let! focus := match o with Some n => array_set focus j n | None => Done focus end in
      unduck_focus js addrs focus
  end.

(** Every address of the list is handed to [f]; the result says whether
    there was one. *)
Fixpoint each_address (f : Z -> busm unit) (addrs : list string) (has : bool) : busm bool :=
  match addrs with
  | [] => sret has
  | addr :: addrs =>
      do! o := slift (address_bus addr) in
      match o with
      | Some n => do! _ := f n in each_address f addrs true
      | None => each_address f addrs has
      end
  end.

Fixpoint unduck_each (js : list Z) : busm unit :=
  match js with
  | [] => sret tt
  | j :: js =>
      do! f := read_bus (fun s => array_get s.(focus_bus) j) in
      do! _ := (if f =? 255 then sret tt else set_device_address_is_ducked f false) in
      unduck_each js
  end.

(** The loop over [usagesHoldingFocus] only looks addresses up. *)
Definition onDevicesToDuckChange (zoneId : Z) (toUnduck toDuck : list string) : busm unit :=
  if negb (zoneId =? 0) then sret tt else
  do! _ := on_bus (fun s =>
    let! focus := unduck_focus [0; 1; 2; 3] toUnduck (replicate 4 255) in
    Done (set_focus_bus focus s)) in
  do! hasDuckBus := each_address (fun n => set_device_address_is_ducked n true) toDuck false in
  if hasDuckBus then sret tt else unduck_each [0; 1; 2; 3].

Definition onDevicesToMuteChange (zoneId : Z) (toMute toUnmute : list string) : busm unit :=
  if negb (zoneId =? 0) then sret tt else
  do! _ := each_address (fun n => set_device_address_is_muted n true) toMute false in
  do! _ := each_address (fun n => set_device_address_is_muted n false) toUnmute false in
  sret tt.
End Bus.
Arguments bus_hal M : clear implicits.

(** ** Requests *)

Inductive bus_cmd :=
| BusDuck (bus_id : Z) (b : bool)
| BusMute (bus_id : Z) (b : bool)
| BusGain (bus_id gainIndex : Z)
| BusChime (on : bool)
| BusOpen (bus_id : Z)
| BusClose (bus_id slot0 : Z)
| BusDuckingInfo (zoneId : Z) (toUnduck toDuck : list string)
| BusMutingInfo (zoneId : Z) (toMute toUnmute : list string).

Section Requests.
Context {M : Type} `{MixerOps M} `{Alloc}.

Definition exec_bus (c : bus_cmd) : @busm M unit :=
  match c with
  | BusDuck b v => set_device_address_is_ducked b v
  | BusMute b v => set_device_address_is_muted b v
  | BusGain b g => set_bus_gain b g
  | BusChime on => on_bus (fun s => Done (set_chime on s))
  | BusOpen b => open_bus b
  | BusClose b s0 => close_bus b s0
  | BusDuckingInfo z u d => onDevicesToDuckChange z u d
  | BusMutingInfo z m u => onDevicesToMuteChange z m u
  end.

Fixpoint exec_buses (l : list bus_cmd) : @busm M unit :=
  match l with
  | [] => sret tt
  | c :: l => do! _ := exec_bus c in exec_buses l
  end.
End Requests.

(** An address whose number, if it has one, is an [int]. *)
Definition readable_address (addr : string) : Prop := exists o, address_bus addr = Done o.

(** The buses and slots of the platform, and the volumes of the DSP; the
    ducking information has four addresses to unduck. *)
Definition valid_bus_cmd (c : bus_cmd) : Prop :=
  match c with
  | BusDuck b _ | BusMute b _ | BusOpen b => 0 <= b < MAX_BUS_NUM
  | BusGain b g => 0 <= b < MAX_BUS_NUM /\ 0 <= g <= MEDIA_VOL_MAX
  | BusChime _ => True
  | BusClose b s0 => 0 <= b < MAX_BUS_NUM /\ 0 <= s0 <= 7
  | BusDuckingInfo _ u d => 4 <= zlen u /\ Forall readable_address u /\ Forall readable_address d
  | BusMutingInfo _ m u => Forall readable_address m /\ Forall readable_address u
  end.

(** ** Invariant *)

(** An array of sixteen buses whose elements satisfy [P]. *)
Definition per_bus {A} (P : A -> Prop) (l : list A) : Prop := length l = 16%nat /\ Forall P l.

Record bus_ok (s : audio_bus_status) : Prop := {
  bo_ducked : per_bus (fun _ => True) s.(is_ducked);
  bo_muted : per_bus (fun _ => True) s.(is_muted);
  bo_volume : per_bus (fun v => 0 <= v <= MEDIA_VOL_MAX) s.(volume);
  bo_active : per_bus (fun _ => True) s.(bus_active);
  bo_index : per_bus (fun i => 0 <= i <= 7) s.(slot_index);
  bo_use : length s.(slot_in_use) = 4%nat;
  bo_focus : length s.(focus_bus) = 4%nat
             /\ Forall (fun f => f = 255 \/ 0 <= f < MAX_BUS_NUM) s.(focus_bus)
}.

Lemma per_bus_get {A} (P : A -> Prop) (l : list A) (b : Z) :
  per_bus P l -> 0 <= b < MAX_BUS_NUM -> exists a, array_get l b = Done a /\ l !! Z.to_nat b = Some a /\ P a.
Proof.
  intros [L F] B. unfold MAX_BUS_NUM in B. destruct (lookup_lt_is_Some_2 l (Z.to_nat b)) as [a E]; [lia|].
  exists a. unfold array_get. rewrite (proj2 (Z.leb_le 0 b)), E by lia. split; [done|].
  split; [done|]. by apply (Forall_lookup_1 _ _ _ _ F E).
Qed.

Lemma per_bus_set {A} (P : A -> Prop) (l : list A) (b : Z) (a : A) :
  per_bus P l -> P a -> 0 <= b < MAX_BUS_NUM ->
  array_set l b a = Done (<[Z.to_nat b := a]> l) /\ per_bus P (<[Z.to_nat b := a]> l).
Proof.
  intros [L F] Pa B. unfold MAX_BUS_NUM in B. split; [apply array_set_done; unfold zlen; lia|].
  split; [by rewrite length_insert|by apply Forall_insert].
Qed.

Lemma slot_get (l : list Z) (i : Z) :
  length l = 4%nat -> 0 <= i < 4 -> exists a, array_get l i = Done a /\ l !! Z.to_nat i = Some a.
Proof.
  intros L B. destruct (lookup_lt_is_Some_2 l (Z.to_nat i)) as [a E]; [lia|].
  exists a. unfold array_get. by rewrite (proj2 (Z.leb_le 0 i)), E by lia.
Qed.

Lemma slot_set (l : list Z) (i a : Z) :
  length l = 4%nat -> 0 <= i < 4 ->
  array_set l i a = Done (<[Z.to_nat i := a]> l) /\ length (<[Z.to_nat i := a]> l) = 4%nat.
Proof.
  intros L B. split; [apply array_set_done; unfold zlen; lia|by rewrite length_insert].
Qed.

(** ** The level of a bus *)

Lemma focus_volume_ok (volumes focus : list Z) (bv : Z) :
  per_bus (fun v => 0 <= v <= MEDIA_VOL_MAX) volumes ->
  Forall (fun f => f = 255 \/ 0 <= f < MAX_BUS_NUM) focus ->
  exists v, focus_volume volumes focus bv = Done v.
Proof.
  intros V. revert bv. induction focus as [|f focus IH]; intros bv F; cbn; [eauto|].
  apply Forall_cons_1 in F as [F1 F2]. destruct (f =? 255) eqn:E; [by apply IH|]. zbool.
  destruct F1 as [F1 | F1]; [done|].
  destruct (per_bus_get _ _ f V F1) as (v & -> & _). cbn [obind]. by apply IH.
Qed.

(** The level lies between 0 and the volume set for the bus, is 0 for a
    muted bus and at most 8 during a chime. *)
Lemma bus_level_ok (s : audio_bus_status) (b : Z) :
  bus_ok s -> 0 <= b < MAX_BUS_NUM ->
  exists level v muted, bus_level s b = Done level
    /\ s.(volume) !! Z.to_nat b = Some v /\ s.(is_muted) !! Z.to_nat b = Some muted
    /\ 0 <= level <= v /\ v <= MEDIA_VOL_MAX
    /\ (muted = true -> level = 0) /\ (s.(is_chime_on) = true -> level <= 8).
Proof.
  intros [O1 O2 O3 O4 O5 O6 O7] B.
  destruct (per_bus_get _ _ b O1 B) as (dk & E1 & _).
  destruct (per_bus_get _ _ b O2 B) as (mt & E2 & L2 & _).
  destruct (per_bus_get _ _ b O3 B) as (v & E3 & L3 & V).
  destruct (focus_volume_ok s.(volume) s.(focus_bus) 0 O3 (proj2 O7)) as (f & E4).
  unfold bus_level. rewrite E1, E2, E3. cbn [obind].
  assert (0 <= v * 4 / 5 <= v) as D
    by (split; [apply Z.div_pos; lia|apply Z.div_le_upper_bound; lia]).
  destruct s.(is_chime_on), mt, dk; rewrite ?E4; cbn [obind];
    (eexists _, v, _; split; [reflexivity|]); repeat (split; [done || (repeat zif; lia)|]);
    repeat split; intros; try done; repeat zif; lia.
Qed.

(** ** Safety *)

Section BusSafety.
Context {M : Type} `{MixerLaws M} `{Alloc}.

Definition hal_inv (h : bus_hal M) : Prop := bus_ok h.(bus) /\ dsp_inv h.(card_dsp).

Lemma on_bus_safe (f : audio_bus_status -> outcome audio_bus_status) (h : bus_hal M) :
  hal_inv h -> (exists s, f h.(bus) = Done s /\ bus_ok s) -> wp (on_bus f) (fun _ => hal_inv) h.
Proof.
  intros [_ I] (s & E & O). unfold wp, run_spec, on_bus. rewrite E. by split.
Qed.

Lemma read_bus_safe {A} (f : audio_bus_status -> outcome A) (Q : A -> Prop) (h : bus_hal M) :
  hal_inv h -> (exists a, f h.(bus) = Done a /\ Q a) ->
  wp (read_bus f) (fun a h' => Q a /\ h' = h) h.
Proof. intros _ (a & E & O). unfold wp, run_spec, read_bus. rewrite E. by split. Qed.

Lemma on_dsp_safe (c : dsp_cmd) (h : bus_hal M) :
  hal_inv h -> valid_cmd c -> wp (on_dsp (exec c)) (fun _ => hal_inv) h.
Proof.
  intros [O I] V. destruct (wp_elim _ _ _ (exec_safe c _ I V)) as (r & d & E & I').
  unfold wp, run_spec, on_dsp. rewrite E. by split.
Qed.

Lemma on_dsp_none (a : Z) (h : bus_hal M) : hal_inv h -> wp (on_dsp (sret a)) (fun _ => hal_inv) h.
Proof. by destruct h. Qed.

Lemma slot_volume_safe (slot v : Z) (h : bus_hal M) :
  hal_inv h -> 0 <= v <= MEDIA_VOL_MAX -> wp (on_dsp (slot_volume slot v)) (fun _ => hal_inv) h.
Proof.
  intros I V.
  assert (forall c, valid_cmd (SetVolume c v)) as VC
    by (intros c; cbn; unfold fits4, MEDIA_VOL_MAX in *; lia).
  unfold slot_volume.
  destruct (slot =? 0); [apply (on_dsp_safe (SetVolume _ v)); auto|].
  destruct (slot =? 2); [apply (on_dsp_safe (SetVolume _ v)); auto|].
  destruct (slot =? 4); [apply (on_dsp_safe (SetVolume _ v)); auto|].
  destruct (slot =? 6); [apply (on_dsp_safe (SetVolume _ v)); auto|].
  by apply on_dsp_none.
Qed.

Lemma bus_mono_safe (b slot : Z) (h : bus_hal M) :
  hal_inv h -> wp (on_dsp (bus_mono b slot)) (fun _ => hal_inv) h.
Proof.
  intros I. unfold bus_mono, slot_mono. repeat zif;
    first [ apply (on_dsp_safe (SetSwitch SecondaryMonoAll _)); done
          | apply (on_dsp_safe (SetSwitch PhoneMonoAll _)); done
          | apply (on_dsp_safe (SetSwitch NaviMonoAll _)); done
          | by apply on_dsp_none ].
Qed.

Lemma set_bus_volume_safe (b : Z) (h : bus_hal M) :
  hal_inv h -> 0 <= b < MAX_BUS_NUM -> wp (set_bus_volume b) (fun _ => hal_inv) h.
Proof.
  intros I B. pose proof I as [O D]. unfold set_bus_volume. apply run_bind.
  destruct (bus_level_ok h.(bus) b O B) as (level & v & mt & E & _ & _ & V & V' & _).
  destruct (per_bus_get _ _ b (bo_index _ O) B) as (slot & Es & _).
  eapply run_mono; [eapply (read_bus_safe _ (fun a => a = level)); eauto|].
  intros a h' [-> ->]. apply run_bind.
  eapply run_mono; [eapply (read_bus_safe _ (fun a => a = slot)); eauto|].
  intros a h' [-> ->]. apply slot_volume_safe; [done|lia].
Qed.

(** Reading the active flag of a bus and setting its volume if it is on. *)
Lemma active_volume_safe (b : Z) (h : bus_hal M) :
  hal_inv h -> 0 <= b < MAX_BUS_NUM ->
  wp (do! active := read_bus (fun s => array_get s.(bus_active) b) in
      if active =? 1 then do! _ := set_bus_volume b in sret tt else sret tt) (fun _ => hal_inv) h.
Proof.
  intros I B. apply run_bind. destruct (per_bus_get _ _ b (bo_active _ (proj1 I)) B) as (a & E & _).
  eapply run_mono; [eapply (read_bus_safe _ (fun _ => True)); eauto|]. intros a' h' [_ ->].
  destruct (a' =? 1); [|by apply run_ret]. apply run_bind.
  eapply run_mono; [by apply set_bus_volume_safe|]. intros r h' I'. by apply run_ret.
Qed.

Lemma take_slots_ok (l : list Z) (b : Z) (index in_use : list Z) :
  Forall (fun i => 0 <= i < 4) l -> 0 <= b < MAX_BUS_NUM ->
  per_bus (fun i => 0 <= i <= 7) index -> length in_use = 4%nat ->
  exists index' in_use', take_slots l b index in_use = Done (index', in_use')
    /\ per_bus (fun i => 0 <= i <= 7) index' /\ length in_use' = 4%nat.
Proof.
  revert index in_use. induction l as [|i l IH]; intros index in_use F B P L; cbn [take_slots]; [eauto|].
  apply Forall_cons_1 in F as [F1 F2].
  destruct (slot_get in_use i L F1) as (u & -> & _). cbn [obind].
  destruct (u =? 1); [by apply IH|]. destruct (slot_set in_use i 1 L F1) as [-> L']. cbn [obind].
  destruct (per_bus_set (fun i => 0 <= i <= 7) index b (2 * i) P ltac:(cbv beta; lia) B) as [-> P']. cbn [obind]. by apply IH.
Qed.

Lemma assign_slot_ok (b : Z) (s : audio_bus_status) :
  bus_ok s -> 0 <= b < MAX_BUS_NUM -> exists s', assign_slot b s = Done s' /\ bus_ok s'.
Proof.
  intros O B. pose proof O as [O1 O2 O3 O4 O5 O6 O7]. unfold assign_slot.
  destruct (per_bus_get _ _ b O5 B) as (slot & -> & _ & S). cbn [obind].
  assert (0 <= slot / 2 < 4) as S2 by (split; [apply Z.div_pos; lia|apply Z.div_lt_upper_bound; lia]).
  destruct (slot_get _ (slot / 2) O6 S2) as (u & -> & _). cbn [obind]. destruct (u =? 1).
  - destruct (take_slots_ok [1; 2; 3] b s.(slot_index) s.(slot_in_use)) as (i & k & -> & P & L);
      [repeat constructor; lia|done|done|done|]. cbn [obind]. eexists. split; [reflexivity|].
    by constructor.
  - destruct (slot_set _ (slot / 2) 1 O6 S2) as [-> L]. cbn [obind]. eexists. split; [reflexivity|].
    by constructor.
Qed.

Lemma open_bus_safe (b : Z) (h : bus_hal M) :
  hal_inv h -> 0 <= b < MAX_BUS_NUM -> wp (open_bus b) (fun _ => hal_inv) h.
Proof.
  intros I B. unfold open_bus. apply run_bind.
  eapply run_mono; [apply on_bus_safe; [done|apply assign_slot_ok; [apply I|done]]|].
  intros u1 h1 I1. apply run_bind.
  eapply run_mono; [by apply set_bus_volume_safe|]. intros u2 h2 I2. apply run_bind.
  destruct (per_bus_get _ _ b (bo_index _ (proj1 I2)) B) as (slot & E & _).
  eapply run_mono; [eapply (read_bus_safe _ (fun _ => True)); eauto|]. intros slot' h' [_ ->].
  apply run_bind. eapply run_mono; [by apply bus_mono_safe|]. intros u3 h3 I3.
  apply on_bus_safe; [done|]. destruct I3 as [O3 _]. pose proof O3 as [O1 O2 O4 O5 O6 O7 O8].
  destruct (per_bus_set _ _ b 1 O5 Logic.I B) as [-> P]. cbn [obind].
  eexists. split; [reflexivity|]. by constructor.
Qed.

Lemma close_bus_safe (b s0 : Z) (h : bus_hal M) :
  hal_inv h -> 0 <= b < MAX_BUS_NUM -> 0 <= s0 <= 7 -> wp (close_bus b s0) (fun _ => hal_inv) h.
Proof.
  intros I B S0. apply on_bus_safe; [done|]. destruct I as [[O1 O2 O3 O4 O5 O6 O7] _].
  destruct (per_bus_get _ _ b O5 B) as (slot & -> & _ & S). cbn [obind].
  assert (0 <= slot / 2 < 4) as S2 by (split; [apply Z.div_pos; lia|apply Z.div_lt_upper_bound; lia]).
  destruct (slot_set _ (slot / 2) 0 O6 S2) as [-> L]. cbn [obind].
  destruct (per_bus_set _ _ b 0 O4 Logic.I B) as [-> P]. cbn [obind].
  rewrite (Z.mod_small s0) by lia.
  destruct (per_bus_set _ _ b s0 O5 S0 B) as [-> P']. cbn [obind].
  eexists. split; [reflexivity|]. by constructor.
Qed.

Lemma valid_address_bus (addr : string) (n : Z) :
  address_bus addr = Done (Some n) -> 0 <= n < MAX_BUS_NUM.
Proof.
  unfold address_bus, audio_device_address_is_valid, MAX_BUS_NUM, BUS6. intros E.
  destruct (String.prefix _ _); [|done]. obinv E. injection E as E.
  destruct (_ || _) eqn:V; [|done]. injection E as ->.
  apply orb_true_iff in V as [V | V]; [apply andb_true_iff in V as [V1 V2]|]; zbool; lia.
Qed.

Lemma ducked_safe (b : Z) (v : bool) (h : bus_hal M) :
  hal_inv h -> 0 <= b < MAX_BUS_NUM -> wp (set_device_address_is_ducked b v) (fun _ => hal_inv) h.
Proof.
  intros I V. pose proof I as [[O1 O2 O3 O4 O5 O6 O7] _].
  apply run_bind. eapply run_mono; [apply on_bus_safe; [done|]|intros u1 h' I'; by apply active_volume_safe].
  destruct (per_bus_set _ _ b v O1 Logic.I V) as [-> P]. eexists. split; [reflexivity|]. by constructor.
Qed.

Lemma muted_safe (b : Z) (v : bool) (h : bus_hal M) :
  hal_inv h -> 0 <= b < MAX_BUS_NUM -> wp (set_device_address_is_muted b v) (fun _ => hal_inv) h.
Proof.
  intros I V. pose proof I as [[O1 O2 O3 O4 O5 O6 O7] _].
  apply run_bind. eapply run_mono; [apply on_bus_safe; [done|]|].
  - destruct (per_bus_set _ _ b v O2 Logic.I V) as [-> P]. eexists. split; [reflexivity|]. by constructor.
  - intros u1 h' I'. apply run_bind. eapply run_mono; [by apply set_bus_volume_safe|].
    intros u2 h2 I2. by apply run_ret.
Qed.

Lemma each_address_safe (f : Z -> @busm M unit) (addrs : list string) (has : bool) (h : bus_hal M) :
  (forall n h, hal_inv h -> 0 <= n < MAX_BUS_NUM -> wp (f n) (fun _ => hal_inv) h) ->
  hal_inv h -> Forall readable_address addrs -> wp (each_address f addrs has) (fun _ => hal_inv) h.
Proof.
  intros Hf. revert has h. induction addrs as [|addr addrs IH]; intros has h I V;
    cbn [each_address]; [by apply run_ret|].
  apply Forall_cons_1 in V as [[o E] V]. apply run_bind. unfold run_spec at 1, slift. rewrite E. cbn [obind].
  destruct o as [n|]; [|by apply IH]. apply run_bind.
  eapply run_mono; [apply Hf; [done|by apply (valid_address_bus addr)]|]. intros u1 h1 I1. by apply IH.
Qed.

Definition focus_ok (focus : list Z) : Prop :=
  length focus = 4%nat /\ Forall (fun f => f = 255 \/ 0 <= f < MAX_BUS_NUM) focus.

Lemma unduck_focus_ok (js : list Z) (addrs : list string) (focus : list Z) :
  Forall (fun j => 0 <= j < 4) js -> 4 <= zlen addrs -> Forall readable_address addrs -> focus_ok focus ->
  exists focus', unduck_focus js addrs focus = Done focus' /\ focus_ok focus'.
Proof.
  intros J L V. revert focus. induction J as [|j js Hj J IH]; intros focus F; cbn [unduck_focus]; [eauto|].
  destruct (lookup_lt_is_Some_2 addrs (Z.to_nat j)) as [addr Ea]; [unfold zlen in L; lia|].
  rewrite (array_get_lookup _ j addr) by (done || lia). cbn [obind].
  destruct (Forall_lookup_1 _ _ _ _ V Ea) as [o E]. rewrite E. cbn [obind].
  destruct o as [n|]; cbn [obind]; [|by apply IH]. destruct F as [F1 F2].
  rewrite array_set_done by (unfold zlen; lia). cbn [obind]. apply IH.
  split; [by rewrite length_insert|]. apply Forall_insert; [done|]. right. by apply (valid_address_bus addr).
Qed.

Lemma unduck_each_safe (js : list Z) (h : bus_hal M) :
  Forall (fun j => 0 <= j < 4) js -> hal_inv h -> wp (unduck_each js) (fun _ => hal_inv) h.
Proof.
  intros J. revert h. induction J as [|j js Hj J IH]; intros h I; cbn [unduck_each]; [by apply run_ret|].
  apply run_bind. pose proof (bo_focus _ (proj1 I)) as [L F].
  destruct (slot_get _ j L Hj) as (f & Ef & El). pose proof (Forall_lookup_1 _ _ _ _ F El) as Hf. cbn in Hf.
  eapply run_mono; [eapply (read_bus_safe _ (fun a => a = f)); eauto|]. intros a h' [-> ->].
  apply run_bind. destruct (f =? 255) eqn:E; zbool.
  - by apply run_ret, IH.
  - destruct Hf as [Hf | Hf]; [done|]. eapply run_mono; [by apply ducked_safe|]. intros u1 h1 I1. by apply IH.
Qed.

Lemma duck_change_safe (z : Z) (toUnduck toDuck : list string) (h : bus_hal M) :
  hal_inv h -> 4 <= zlen toUnduck -> Forall readable_address toUnduck -> Forall readable_address toDuck ->
  wp (onDevicesToDuckChange z toUnduck toDuck) (fun _ => hal_inv) h.
Proof.
  intros I L U D. unfold onDevicesToDuckChange. destruct (negb _); [by apply run_ret|].
  assert (Forall (fun j => 0 <= j < 4) [0; 1; 2; 3]) as J by (repeat constructor; lia).
  apply run_bind. eapply run_mono; [apply on_bus_safe; [done|]|].
  - destruct (unduck_focus_ok [0; 1; 2; 3] toUnduck (replicate 4 255) J L U) as (f & -> & F);
      [split; [done|repeat constructor]|].
    eexists. split; [reflexivity|]. destruct I as [[O1 O2 O3 O4 O5 O6 O7] _]. by constructor.
  - intros u1 h1 I1. apply run_bind.
    eapply run_mono; [apply each_address_safe; [intros; by apply ducked_safe|done|done]|].
    intros [] h2 I2; [by apply run_ret|by apply unduck_each_safe].
Qed.

Lemma mute_change_safe (z : Z) (toMute toUnmute : list string) (h : bus_hal M) :
  hal_inv h -> Forall readable_address toMute -> Forall readable_address toUnmute ->
  wp (onDevicesToMuteChange z toMute toUnmute) (fun _ => hal_inv) h.
Proof.
  intros I Ms U. unfold onDevicesToMuteChange. destruct (negb _); [by apply run_ret|].
  apply run_bind. eapply run_mono; [apply each_address_safe; [intros; by apply muted_safe|done|done]|].
  intros u1 h1 I1. apply run_bind.
  eapply run_mono; [apply each_address_safe; [intros; by apply muted_safe|done|done]|].
  intros u2 h2 I2. by apply run_ret.
Qed.

Lemma exec_bus_safe (c : bus_cmd) (h : bus_hal M) :
  hal_inv h -> valid_bus_cmd c -> wp (exec_bus c) (fun _ => hal_inv) h.
Proof.
  intros I V. pose proof I as [[O1 O2 O3 O4 O5 O6 O7] _].
  destruct c as [b v|b v|b g|on|b|b s0|z u d|z m u]; cbn [exec_bus valid_bus_cmd] in *.
  - by apply ducked_safe.
  - by apply muted_safe.
  - destruct V as [B G]. apply run_bind.
    eapply run_mono; [apply on_bus_safe; [done|]|intros u1 h' I'; by apply active_volume_safe].
    rewrite Z.mod_small by (unfold MEDIA_VOL_MAX in G; lia).
    destruct (per_bus_set _ _ b g O3 G B) as [-> P]. eexists. split; [reflexivity|]. by constructor.
  - apply on_bus_safe; [done|]. eexists. split; [reflexivity|]. by constructor.
  - by apply open_bus_safe.
  - destruct V as [B S]. by apply close_bus_safe.
  - destruct V as (L & U & D). by apply duck_change_safe.
  - destruct V as [Ms U]. by apply mute_change_safe.
Qed.

Lemma exec_buses_safe (l : list bus_cmd) (h : bus_hal M) :
  hal_inv h -> Forall valid_bus_cmd l -> wp (exec_buses l) (fun _ => hal_inv) h.
Proof.
  revert h. induction l as [|c l IH]; intros h I V; cbn [exec_buses]; [by apply run_ret|].
  apply Forall_cons_1 in V as [V1 V2]. apply run_bind.
  eapply run_mono; [by apply exec_bus_safe|]. intros u1 h1 I1. by apply IH.
Qed.
End BusSafety.

Lemma init_ok (slots : list Z) :
  per_bus (fun i => 0 <= i <= 7) slots -> bus_ok (bus_status_init slots).
Proof.
  intros S. constructor; try done; repeat constructor; cbn; unfold MEDIA_VOL_MAX; lia.
Qed.

Lemma all_slot_0 : per_bus (fun i => 0 <= i <= 7) (replicate 16 0).
Proof. split; [done|]. repeat constructor; lia. Qed.

(** C16. Safety of the bus status: from the state after start-up, with output
    maps that name slots 0 to 7 and a card without byte controls, every
    sequence of ducking, muting, volume and chime requests, of ducking and
    muting informations of the framework (with four addresses to unduck and
    bus numbers that fit an [int]), and of openings and closings of buses
    completes: no array index and no text buffer leaves its bounds, and volumes and slots stay in
    their ranges. *)
Theorem bus_session_safe {M} `{MixerLaws M} `{Alloc} (m : M) (slots : list Z) (l : list bus_cmd) :
  no_byte m -> per_bus (fun i => 0 <= i <= 7) slots -> Forall valid_bus_cmd l ->
  exists h, exec_buses l {| bus := bus_status_init slots; card_dsp := dsp_static m |} = Done (tt, h)
            /\ bus_ok h.(bus) /\ dsp_inv h.(card_dsp).
Proof.
  intros N S V.
  destruct (wp_elim _ _ _ (exec_buses_safe l {| bus := bus_status_init slots; card_dsp := dsp_static m |}
              (conj (init_ok slots S) (static_inv m N)) V)) as ([] & h & E & I). eauto.
Qed.

#[local] Existing Instance alloc_always.

Lemma bus_session_safe_witness :
  exists h, exec_buses [BusGain 0 20; BusOpen 0; BusOpen 1; BusMute 0 true;
               BusDuckingInfo 0 ["bus1"; "bus6"; "none"; "none"]%string ["bus0_media"]%string; BusClose 1 0]
              {| bus := bus_status_init (replicate 16 0); card_dsp := dsp_static (demo_card true) |}
            = Done (tt, h)
            /\ bus_ok h.(bus) /\ dsp_inv h.(card_dsp).
Proof.
  apply (bus_session_safe (demo_card true) (replicate 16 0)
           [BusGain 0 20; BusOpen 0; BusOpen 1; BusMute 0 true;
               BusDuckingInfo 0 ["bus1"; "bus6"; "none"; "none"]%string ["bus0_media"]%string; BusClose 1 0]).
  - apply demo_no_byte.
  - exact all_slot_0.
  - repeat apply Forall_cons_2; try apply Forall_nil_2; cbn; unfold MEDIA_VOL_MAX, zlen; cbn;
      split_and?; try lia; repeat apply Forall_cons_2; try apply Forall_nil_2; eexists; reflexivity.
Defined.

(** ** Slots *)

(** The highest of the slots 1 to 3 that is not in use. *)
Definition highest_free (in_use : list Z) : option Z :=
  List.find (fun i => negb (in_use !!! Z.to_nat i =? 1)) [3; 2; 1].

Lemma take_slots_cons (i : Z) (l : list Z) (b : Z) (index in_use : list Z) :
  length in_use = 4%nat -> 0 <= i < 4 -> length index = 16%nat -> 0 <= b < MAX_BUS_NUM ->
  take_slots (i :: l) b index in_use =
    if in_use !!! Z.to_nat i =? 1 then take_slots l b index in_use
    else take_slots l b (<[Z.to_nat b := 2 * i]> index) (<[Z.to_nat i := 1]> in_use).
Proof.
  intros L I L' B. unfold MAX_BUS_NUM in B. cbn [take_slots].
  rewrite array_get_done by (unfold zlen; lia). cbn [obind]. zif; [done|].
  rewrite array_set_done by (unfold zlen; lia). cbn [obind].
  rewrite array_set_done by (unfold zlen; lia). done.
Qed.

Lemma take_slots_all (b u0 u1 u2 u3 : Z) (index : list Z) :
  length index = 16%nat -> 0 <= b < MAX_BUS_NUM ->
  take_slots [1; 2; 3] b index [u0; u1; u2; u3] =
    Done (match highest_free [u0; u1; u2; u3] with
          | Some k => <[Z.to_nat b := 2 * k]> index
          | None => index
          end, [u0; 1; 1; 1]).
Proof.
  intros L B. unfold highest_free, List.find.
  change (Z.to_nat 1) with 1%nat. change (Z.to_nat 2) with 2%nat. change (Z.to_nat 3) with 3%nat.
  cbn [lookup_total list_lookup_total].
  rewrite take_slots_cons by (done || lia). change (Z.to_nat 1) with 1%nat.
  cbn [lookup_total list_lookup_total insert list_insert].
  destruct (u1 =? 1) eqn:E1;
    (rewrite take_slots_cons by (done || lia || by rewrite length_insert));
    change (Z.to_nat 2) with 2%nat; cbn [lookup_total list_lookup_total insert list_insert];
    destruct (u2 =? 1) eqn:E2;
    (rewrite take_slots_cons by (done || lia || by rewrite !length_insert));
    change (Z.to_nat 3) with 3%nat; cbn [lookup_total list_lookup_total insert list_insert];
    destruct (u3 =? 1) eqn:E3; zbool; subst; cbn [negb take_slots];
    rewrite ?list_insert_insert_eq; done.
Qed.

Section Slots.
Context {M : Type} `{MixerLaws M} `{Alloc}.

Lemma on_dsp_bus {A} (m : dspm A) (h h' : bus_hal M) (a : A) :
  on_dsp m h = Done (a, h') -> bus h' = bus h.
Proof. unfold on_dsp. intros E. obinv E. destruct a0. by injection E as _ <-. Qed.

Lemma read_bus_inv {A} (f : audio_bus_status -> outcome A) (h h' : bus_hal M) (a : A) :
  read_bus f h = Done (a, h') -> h' = h.
Proof. unfold read_bus. intros E. obinv E. by injection E as _ <-. Qed.

Lemma set_bus_volume_bus (b r : Z) (h h' : bus_hal M) :
  set_bus_volume b h = Done (r, h') -> bus h' = bus h.
Proof.
  unfold set_bus_volume, sbind. intros E. obinv E. destruct a as [lv h1]. obinv E. destruct a as [sl h2].
  apply on_dsp_bus in E. apply read_bus_inv in E0 as ->. by apply read_bus_inv in E1 as ->.
Qed.

(** The effect of opening a bus on the bus status. *)
Lemma open_bus_status (b : Z) (h h1 : bus_hal M) :
  open_bus b h = Done (tt, h1) ->
  exists s1 l, assign_slot b (bus h) = Done s1 /\ array_set (bus_active s1) b 1 = Done l
               /\ bus h1 = set_bus_active l s1.
Proof.
  unfold open_bus, sbind. intros E.
  obinv E. destruct a as [u1 h2]. obinv E. destruct a as [u2 h3]. obinv E. destruct a as [u3 h4].
  obinv E. destruct a as [u4 h5].
  unfold on_bus in E0. obinv E0. injection E0 as _ <-. apply set_bus_volume_bus in E1.
  apply read_bus_inv in E2 as ->. apply on_dsp_bus in E3. cbn in E1. rewrite E1 in E3.
  unfold on_bus in E. obinv E. injection E as <-. obinv E0. injection E0 as <-.
  exists a, a1. rewrite E3 in E |- *. done.
Qed.

(** A bus whose slot is taken. *)
Lemma assign_slot_taken (s : audio_bus_status) (b slot k : Z) :
  length (slot_index s) = 16%nat -> length (slot_in_use s) = 4%nat -> 0 <= b < MAX_BUS_NUM ->
  slot_index s !! Z.to_nat b = Some slot -> 0 <= slot / 2 < 4 ->
  slot_in_use s !!! Z.to_nat (slot / 2) = 1 -> highest_free (slot_in_use s) = Some k ->
  assign_slot b s = Done (set_slots (<[Z.to_nat b := 2 * k]> (slot_index s))
                                    [slot_in_use s !!! 0%nat; 1; 1; 1] s).
Proof.
  intros L5 L6 B Es S2 Eu Ek. unfold assign_slot.
  rewrite (array_get_lookup _ b slot) by (done || lia). cbn [obind].
  rewrite array_get_done, Eu by (unfold zlen; lia). cbn [obind Z.eqb Pos.eqb].
  destruct (slot_in_use s) as [|u0 [|u1 [|u2 [|u3 [|]]]]]; try discriminate L6.
  by rewrite take_slots_all, Ek by done.
Qed.

(** The effect of closing a bus on the slots. *)
Lemma close_bus_slots (b slot0 slot : Z) (h h' : bus_hal M) :
  close_bus b slot0 h = Done (tt, h') -> 0 <= b ->
  slot_index (bus h) !! Z.to_nat b = Some slot ->
  0 <= slot / 2 < 4 -> length (slot_in_use (bus h)) = 4%nat ->
  slot_in_use (bus h') = <[Z.to_nat (slot / 2) := 0]> (slot_in_use (bus h)).
Proof.
  unfold close_bus, on_bus. intros E B Es S2 L. apply obind_done in E as (s2 & E0 & E). injection E as <-.
  rewrite (array_get_lookup _ b slot) in E0 by done. cbn [obind] in E0.
  rewrite array_set_done in E0 by (unfold zlen; lia). cbn [obind] in E0.
  obinv E0. obinv E0. by injection E0 as <-.
Qed.

(** Slots are lost: when a bus is opened whose slot is taken, the loop
    over the other slots does not stop at the first free one.  All three are
    marked as in use, the bus gets the highest that was free, and closing the
    bus gives back only that one: every lower free slot stays marked although
    no bus has it. *)
Theorem slot_open_close_leaks (h : bus_hal M) (b slot0 slot k : Z) :
  hal_inv h -> 0 <= b < MAX_BUS_NUM -> 0 <= slot0 <= 7 ->
  slot_index (bus h) !! Z.to_nat b = Some slot ->
  slot_in_use (bus h) !!! Z.to_nat (slot / 2) = 1 ->
  highest_free (slot_in_use (bus h)) = Some k ->
  exists h1 h2,
    open_bus b h = Done (tt, h1) /\ close_bus b slot0 h1 = Done (tt, h2)
    /\ slot_index (bus h1) !! Z.to_nat b = Some (2 * k)
    /\ (forall i, 1 <= i <= 3 -> slot_in_use (bus h1) !! Z.to_nat i = Some 1)
    /\ (forall i, 1 <= i <= 3 ->
          slot_in_use (bus h2) !! Z.to_nat i = Some (if i =? k then 0 else 1)).
Proof.
  intros I B S0 Es Eu Ek. pose proof I as [[_ _ _ _ [L5 F5] O6 _] _].
  destruct (wp_elim _ _ _ (open_bus_safe b h I B)) as ([] & h1 & E1 & I1).
  destruct (wp_elim _ _ _ (close_bus_safe b slot0 h1 I1 B S0)) as ([] & h2 & E2 & _).
  exists h1, h2. split; [done|]. split; [done|].
  assert (1 <= k <= 3) as K by (apply List.find_some in Ek as [Ek _]; cbn in Ek; lia).
  assert (0 <= slot / 2 < 4) as S2.
  { pose proof (Forall_lookup_1 _ _ _ _ F5 Es). cbn in *.
    split; [apply Z.div_pos; lia|apply Z.div_lt_upper_bound; lia]. }
  destruct (open_bus_status b h h1 E1) as (s1 & l & A & _ & Eb).
  rewrite (assign_slot_taken _ b slot k) in A by done. injection A as <-.
  assert (slot_index (bus h1) !! Z.to_nat b = Some (2 * k)) as Eix
    by (rewrite Eb; apply list_lookup_insert_eq; unfold MAX_BUS_NUM in B; lia).
  assert (2 * k / 2 = k) as Kk by (rewrite Z.mul_comm, Z.div_mul; lia).
  rewrite (close_bus_slots b slot0 (2 * k) h1 h2 E2 (proj1 B) Eix), Kk; [|lia|by rewrite Eb].
  rewrite Eb in Eix |- *. cbn [slot_in_use set_bus_active set_slots].
  split; [done|]. split; intros i Hi;
    assert (k = 1 \/ k = 2 \/ k = 3) as [-> | [-> | ->]] by lia;
    assert (i = 1 \/ i = 2 \/ i = 3) as [-> | [-> | ->]] by lia; done.
Qed.
End Slots.

(** Bus 0 plays on slot 0 and bus 1 is opened with the same slot. *)
Lemma slot_open_close_leaks_witness :
  exists h0 h1 h2,
    exec_buses [BusOpen 0] {| bus := bus_status_init (replicate 16 0);
                              card_dsp := dsp_static (demo_card true) |} = Done (tt, h0)
    /\ open_bus 1 h0 = Done (tt, h1) /\ close_bus 1 0 h1 = Done (tt, h2)
    /\ slot_in_use (bus h2) !! 1%nat = Some 1 /\ slot_in_use (bus h2) !! 3%nat = Some 0.
Proof.
  destruct (wp_elim _ _ _ (exec_buses_safe [BusOpen 0]
    {| bus := bus_status_init (replicate 16 0); card_dsp := dsp_static (demo_card true) |}
    (conj (init_ok _ all_slot_0) (static_inv _ (demo_no_byte true)))
    ltac:(repeat constructor; lia))) as ([] & h0 & E & I).
  assert (bus h0 = set_bus_active (1 :: replicate 15 0)
                     (set_slots (replicate 16 0) [1; 0; 0; 0] (bus_status_init (replicate 16 0)))) as Eb.
  { unfold exec_buses, exec_bus, sbind in E. obinv E. destruct a as [[] h]. injection E as <-.
    destruct (open_bus_status _ _ _ E0) as (s1 & l & A & A' & ->).
    vm_compute in A. injection A as <-. vm_compute in A'. injection A' as <-. done. }
  destruct (slot_open_close_leaks h0 1 0 0 3 I) as (h1 & h2 & E1 & E2 & _ & _ & K);
    [unfold MAX_BUS_NUM; lia|lia|by rewrite Eb|by rewrite Eb|by rewrite Eb|].
  exists h0, h1, h2. split; [exact E|]. split; [exact E1|]. split; [exact E2|].
  split; [exact (K 1 ltac:(lia))|exact (K 3 ltac:(lia))].
Defined.

(** ** What the card shows *)

(** The control and the number behind a slot. *)
Definition slot_ctl (slot : Z) : string :=
  if slot =? 0 then tinymix_control_MediaVol
  else if slot =? 2 then tinymix_control_BeepVol
  else if slot =? 4 then tinymix_control_PhoneVol
  else tinymix_control_NaviVol.

Definition slot_shown {M} (d : @dsp M) (slot level : Z) : Z :=
  if slot =? 0 then Z.min (level + d.(media_volume_offset_cache)) d.(media_variable_max_volume_cache)
  else if slot =? 4 then
    if level =? 0 then Z.max 0 (Z.min PHONE_VOL_MAX d.(phone_volume_offset_cache))
    else Z.max 1 (Z.min PHONE_VOL_MAX (level + d.(phone_volume_offset_cache)))
  else level.

(** The level a bus has to play at, from the status of the buses: a muted bus
    is silent; during a chime a bus plays at most at 8; a ducked bus plays at
    four fifths of its volume, unless the loudest bus with the focus is more
    than 12 above it; every other bus plays at its volume. *)
Definition focus_loudest (s : audio_bus_status) : Z :=
  foldr Z.max 0 (map (fun f => s.(volume) !!! Z.to_nat f) (filter (fun f => f <> 255) s.(focus_bus))).

Definition expected_level (s : audio_bus_status) (b : Z) : Z :=
  let v : Z := s.(volume) !!! Z.to_nat b in
  let muted : bool := s.(is_muted) !!! Z.to_nat b in
  let ducked : bool := s.(is_ducked) !!! Z.to_nat b in
  if muted then 0
  else if s.(is_chime_on) then Z.min 8 v
  else if ducked && (focus_loudest s - v <=? 12) then 4 * v / 5
  else v.

Lemma focus_volume_max (volumes focus : list Z) (bv : Z) :
  per_bus (fun v => 0 <= v <= MEDIA_VOL_MAX) volumes ->
  Forall (fun f => f = 255 \/ 0 <= f < MAX_BUS_NUM) focus -> 0 <= bv ->
  focus_volume volumes focus bv
  = Done (Z.max bv (foldr Z.max 0 (map (fun f => volumes !!! Z.to_nat f) (filter (fun f => f <> 255) focus)))).
Proof.
  intros V. revert bv. induction focus as [|f focus IH]; intros bv F Hb; cbn [focus_volume].
  { cbn. f_equal. lia. }
  apply Forall_cons_1 in F as [F1 F2]. destruct (f =? 255) eqn:E; zbool.
  - rewrite filter_cons_False by (intros X; by apply X). by apply IH.
  - destruct F1 as [F1 | F1]; [done|]. rewrite filter_cons_True by done. cbn [map foldr].
    destruct (per_bus_get _ _ f V F1) as (v & -> & Ev & Pv). cbn [obind].
    rewrite (list_lookup_total_correct _ _ _ Ev), IH by (done || (zif; lia)). f_equal. zif; lia.
Qed.

Lemma bus_level_expected (s : audio_bus_status) (b : Z) :
  bus_ok s -> 0 <= b < MAX_BUS_NUM -> bus_level s b = Done (expected_level s b).
Proof.
  intros [O1 O2 O3 O4 O5 O6 [_ O7]] B.
  destruct (per_bus_get _ _ b O1 B) as (dk & E1 & L1 & _).
  destruct (per_bus_get _ _ b O2 B) as (mt & E2 & L2 & _).
  destruct (per_bus_get _ _ b O3 B) as (v & E3 & L3 & V).
  unfold bus_level, expected_level. rewrite E1, E2, E3. cbn [obind].
  rewrite (list_lookup_total_correct _ _ _ L1), (list_lookup_total_correct _ _ _ L2),
    (list_lookup_total_correct _ _ _ L3), (focus_volume_max _ _ 0 O3 O7) by lia.
  fold (focus_loudest s). rewrite (Z.mul_comm 4 v).
  assert (0 <= focus_loudest s) as P.
  { unfold focus_loudest. induction (filter _ (focus_bus s)) as [|x l IH]; cbn; lia. }
  rewrite Z.max_r by done. cbn [obind].
  destruct mt, s.(is_chime_on), dk; cbn [andb]; f_equal; repeat zif; lia.
Qed.

Section Shown.
Context {M : Type} `{MixerLaws M} `{Alloc}.

(** The number a volume becomes on a channel, and its control. *)
Lemma slot_volume_shown (slot v c : Z) (d : dsp) :
  let hw := slot_shown d slot v in
  In slot [0; 2; 4; 6] -> dsp_inv d -> 0 <= v <= MEDIA_VOL_MAX ->
  works d.(mixer) (slot_ctl slot) c -> ctl_accepts d.(mixer) c hw ->
  exists d', slot_volume slot v d = Done (0, d') /\ written d.(mixer) c hw d'.(mixer).
Proof.
  intros hw Hs I Hv W A. pose proof I as [I1 I2 I3 I4 I5 I6 I7 I8].
  enough (wp (slot_volume slot v) (fun r d' => r = 0 /\ written d.(mixer) c hw d'.(mixer)) d) as E.
  { apply wp_elim in E as (r & d' & E & -> & R). eauto. }
  assert (fits4 hw) as F by (subst hw; unfold slot_shown, fits4; repeat zif; dsp_consts; lia).
  cbn in Hs. destruct Hs as [<- | [<- | [<- | [<- | []]]]]; unfold slot_volume; cbn [Z.eqb Pos.eqb].
  - destruct (set_volume_media CHANNEL_MEDIA_MUSIC v c d I eq_refl Hv W A) as (m' & E & R).
    unfold wp, run_spec. by rewrite E.
  - unfold_dsp. apply run_bind, run_get. cbv beta. apply run_bind, run_ret, run_bind.
    apply sprintf_run; [done|]. do 2 apply run_bind.
    apply (control_run _ _ c); [done|done|by apply fits4_i32|].
    intros m' R. do 2 apply run_ret. done.
  - unfold_dsp. apply run_bind, run_get. cbv beta.
    apply run_bind, run_bind, int_run; [dsp_side|]. apply run_ret, run_bind.
    match goal with |- run_spec _ (sprintf_d ?x) _ _ => assert (x = hw) as -> end.
    { subst hw. unfold slot_shown. cbn [Z.eqb Pos.eqb]. repeat zif; dsp_consts; lia. }
    apply sprintf_run; [done|]. do 2 apply run_bind. apply run_modify, run_bind.
    apply (control_run _ _ c); [done|done|by apply fits4_i32|].
    intros m' R. do 2 apply run_ret. done.
  - unfold_dsp. apply run_bind, run_get. cbv beta. apply run_bind, run_ret, run_bind.
    apply sprintf_run; [done|]. do 2 apply run_bind.
    apply (control_run _ _ c); [done|done|by apply fits4_i32|].
    intros m' R. do 2 apply run_ret. done.
Qed.
End Shown.

(** C17. The volume of a bus reaches the card: setting the volume of a bus on
    one of the four slots succeeds and changes one control, that of the slot,
    to exactly [slot_shown] of [expected_level]: the level the bus has after
    muting, chime and ducking, with the offset of the channel applied within
    its limits.  Since the offset is added to the level, a muted bus on the
    media slot still plays at the offset.  The card has the control, takes
    the number and does not fail. *)
Theorem bus_volume_reaches_card {M} `{MixerLaws M} `{Alloc} (h : bus_hal M) (b slot c : Z) :
  let d := card_dsp h in
  hal_inv h -> 0 <= b < MAX_BUS_NUM ->
  slot_index (bus h) !! Z.to_nat b = Some slot -> In slot [0; 2; 4; 6] ->
  works (mixer d) (slot_ctl slot) c ->
  (forall n, - MEDIA_VOL_MAX <= n <= MEDIA_VOL_MAX -> ctl_accepts (mixer d) c n) ->
  exists h',
    set_bus_volume b h = Done (0, h') /\ bus h' = bus h
    /\ shows (mixer (card_dsp h')) c (slot_shown d slot (expected_level (bus h) b))
    /\ same_except c (mixer d) (mixer (card_dsp h'))
    /\ (is_muted (bus h) !! Z.to_nat b = Some true -> slot = 0 ->
        shows (mixer (card_dsp h')) c
          (Z.min (media_volume_offset_cache d) (media_variable_max_volume_cache d))).
Proof.
  intros d I B Es Hs W A. pose proof I as [O J]. pose proof J as [_ _ J3 J4 _ J6 _ _].
  destruct (bus_level_ok (bus h) b O B) as (level & v & mt & El & Ev & Em & R1 & R2 & R3 & R4).
  pose proof (bus_level_expected (bus h) b O B) as Ex. rewrite El in Ex. injection Ex as <-.
  destruct (slot_volume_shown slot level c d Hs J ltac:(lia) W) as (d' & E & Wr).
  { apply A. fold d in J3, J4, J6. unfold slot_shown. repeat zif; dsp_consts; lia. }
  assert (set_bus_volume b h = Done (0, {| bus := bus h; card_dsp := d' |})) as E'.
  { unfold set_bus_volume, sbind, read_bus. rewrite El. cbn [obind].
    rewrite (array_get_lookup _ b slot) by (done || lia). cbn [obind]. unfold on_dsp. fold d.
    by rewrite E. }
  pose proof (written_shows _ _ _ _ Wr) as Sh.
  exists {| bus := bus h; card_dsp := d' |}. cbn [bus card_dsp].
  split; [done|]. split; [done|]. split; [exact Sh|]. split; [apply Wr|].
  intros M0 ->. rewrite Em in M0. injection M0 as ->. rewrite (R3 eq_refl) in Sh. exact Sh.
Qed.

Definition wide_card : card :=
  {| card_open := true; card_ctls := [int_ctl tinymix_control_MediaVol (-64) 64] |}.

(** Bus 0 with volume 20, ducked by bus 1 with volume 25 that has the focus,
    on the media slot with offset 5; and the same bus, muted. *)
Definition ducked_hal (muted : bool) : bus_hal card :=
  {| bus := set_focus_bus [1; 255; 255; 255] (set_is_ducked (true :: replicate 15 false)
              (set_is_muted (muted :: replicate 15 false)
                (set_volume (20 :: 25 :: replicate 14 0) (bus_status_init (replicate 16 0)))));
     card_dsp := set_media_volume_offset_cache 5 (dsp_static wide_card) |}.

Lemma bus_volume_reaches_card_witness :
  (exists h', set_bus_volume 0 (ducked_hal false) = Done (0, h') /\ shows (mixer (card_dsp h')) 0 21)
  /\ (exists h', set_bus_volume 0 (ducked_hal true) = Done (0, h') /\ shows (mixer (card_dsp h')) 0 5).
Proof.
  assert (forall muted, hal_inv (ducked_hal muted)) as I.
  { intros muted. split.
    - constructor; try reflexivity; try (split; [reflexivity|]); cbn; unfold MEDIA_VOL_MAX, MAX_BUS_NUM;
        repeat constructor; lia.
    - constructor; try reflexivity; try (cbn; unfold MEDIA_VOL_INIT, PHONE_VOL_INIT, MEDIA_VOL_MAX, PHONE_VOL_MAX; lia).
      apply card_no_byte. by repeat constructor. }
  assert (works (mixer (card_dsp (ducked_hal true))) (slot_ctl 0) 0) as Wk
    by (constructor; try reflexivity; discriminate).
  assert (forall n, - MEDIA_VOL_MAX <= n <= MEDIA_VOL_MAX ->
          ctl_accepts (mixer (card_dsp (ducked_hal true))) 0 n) as A.
  { intros n Hn. exists (int_ctl tinymix_control_MediaVol (-64) 64). split; [reflexivity|].
    cbn in *. unfold MEDIA_VOL_MAX in *. lia. }
  assert (0 <= 0 < MAX_BUS_NUM) as B by (unfold MAX_BUS_NUM; lia).
  assert (In 0 [0; 2; 4; 6]) as Hs by (cbn; tauto).
  split.
  - destruct (bus_volume_reaches_card (ducked_hal false) 0 0 0 (I false) B eq_refl Hs Wk A)
      as (h' & E & _ & K & _). exists h'. split; [exact E|exact K].
  - destruct (bus_volume_reaches_card (ducked_hal true) 0 0 0 (I true) B eq_refl Hs Wk A)
      as (h' & E & _ & _ & _ & K). exists h'. split; [exact E|exact (K eq_refl eq_refl)].
Defined.
