(* ===== verification/Mix.v ===== *)
(** * Mixing the playback buses

    Models the mixing half of [audio_extra/hal_streamer.c]: the playback
    thread takes one period from the ring buffer of every active bus and adds
    it to the slots of the output period that the bus has got.  An output
    period is a list of 16-bit samples; the ring buffers hold bytes, which
    the code reads as little-endian samples. *)

From stdpp Require Import base list numbers.
From Stdlib Require Import ZArith Lia.
From S2P Require Import Prelude CircleBuf.

#[local] Open Scope Z_scope.

(** ** Samples *)

(** Conversion of an [int] to [int16_t]. *)
Definition s16 (z : Z) : Z :=
  let w := z mod 65536 in if w <? 32768 then w else w - 65536.

Definition INT16_MAX : Z := 32767.
Definition INT16_MIN : Z := -32768.

(** The bytes of a buffer read through an [int16_t *]. *)
Fixpoint samples (l : list Z) : list Z :=
  match l with
  | lo :: hi :: l => s16 (lo + 256 * hi) :: samples l
  | _ => []
  end.

(** ** Mixing one channel *)

(** The loop of [pcm_16_areas_mix], [n] rounds from index [i]; the pointers
    are offsets [doff] and [soff] into the two buffers.  The sum is stored in
    an [int16_t] before it is compared with the limits. *)
Fixpoint mix_loop (n : nat) (i : Z) (dst : list Z) (doff : Z) (src : list Z) (soff src_ch dst_ch : Z)
  : outcome (list Z) :=
  match n with
  | O => Done dst
  | S n =>
      let dst_inx := doff + i * dst_ch in
      let src_inx := soff + i * src_ch in
      let! a := array_get dst dst_inx in
      let! b := array_get src src_inx in
      let mixed := s16 (a + b) in
      let! dst := array_set dst dst_inx
                    (if mixed >? INT16_MAX then INT16_MAX
                     else if mixed <? INT16_MIN then INT16_MIN else mixed) in
      mix_loop n (i + 1) dst doff src soff src_ch dst_ch
  end.

Definition pcm_16_areas_mix (frames : Z) (dst : list Z) (doff : Z) (src : list Z)
    (soff src_ch dst_ch : Z) : outcome (list Z) :=
  if src_ch =? 0 then Undef
  else mix_loop (Z.to_nat (frames / src_ch)) 0 dst doff src soff src_ch dst_ch.

(** ** One bus *)

(** The loop of [slot_map_process_buf] over the channels of the bus. *)
Fixpoint slot_loop (n : nat) (i : Z) (out : list Z) (out_oft : Z) (in_ : list Z)
    (in_frames ch dst_ch : Z) : outcome (list Z) :=
  match n with
  | O => Done out
  | S n =>
      let! out := pcm_16_areas_mix in_frames out (out_oft + i) in_ i ch dst_ch in
      slot_loop n (i + 1) out out_oft in_ in_frames ch dst_ch
  end.

(** The fields of [hal_streamer_t] that the mixer uses, and the slots of the
    bus status. *)
Record mix_state := {
  bus_rbuf : list (option circlebuf_s);
  bus_buf_sz : list Z;
  bus_state : Z;
  pcm_channels : Z;
  slot_index : list Z
}.

Definition set_rbuf (l : list (option circlebuf_s)) (m : mix_state) : mix_state :=
  {| bus_rbuf := l; bus_buf_sz := m.(bus_buf_sz); bus_state := m.(bus_state);
     pcm_channels := m.(pcm_channels); slot_index := m.(slot_index) |}.

(** Both branches of the comparison with the output map of the platform end
    with the slot of the bus status. *)
Definition slot_map_process_buf (m : mix_state) (out in_ : list Z) (in_frames bus : Z)
  : outcome (list Z) :=
  let! rb := array_get m.(bus_rbuf) bus in
  let ch := u32 (audio_circlebuf_get_ch rb) in
  let! out_oft := array_get m.(slot_index) bus in
  slot_loop (Z.to_nat ch) 0 out out_oft in_ in_frames ch m.(pcm_channels).

(** ** All buses *)

Definition MAX_CLIENT_NUM : Z := 16.
Definition PCM_DATA_DEFAULT_BYTES : Z := 16 * 1024.
Definition BUS2 : Z := 2.

Definition get_bit (dat i : Z) : bool := negb (Z.land dat (Z.shiftl 1 i) =? 0).

(** One round of the loop of [do_channel_map]; [in_tmp] is the array on the
    stack. *)
Definition map_bus (active_bus : Z) (m : mix_state) (out in_tmp : list Z)
  : outcome (mix_state * list Z * list Z) :=
  if get_bit m.(bus_state) active_bus then
    if active_bus =? BUS2 then Done (m, out, in_tmp)
    else
      let! rb := array_get m.(bus_rbuf) active_bus in
      let! buf_size := array_get m.(bus_buf_sz) active_bus in
      let! in_tmp := if 0 <=? buf_size
                     then mem_write in_tmp 0 (replicate (Z.to_nat buf_size) 0) else Undef in
      let! used := match rb with Some rb => Done (audio_circlebuf_used rb) | None => Undef end in
      if used >=? buf_size then
        let! (_, rb, in_tmp) := audio_circlebuf_read rb in_tmp 0 buf_size in
        let! l := array_set m.(bus_rbuf) active_bus rb in
        let m := set_rbuf l m in
        let! out := slot_map_process_buf m out (samples in_tmp) (Z.quot buf_size 2) active_bus in
        Done (m, out, in_tmp)
      else Done (m, out, in_tmp)
  else Done (m, out, in_tmp).

Fixpoint map_buses (n : nat) (active_bus : Z) (m : mix_state) (out in_tmp : list Z)
  : outcome (mix_state * list Z * list Z) :=
  match n with
  | O => Done (m, out, in_tmp)
  | S n =>
      let! (m, out, in_tmp) := map_bus active_bus m out in_tmp in
      map_buses n (active_bus + 1) m out in_tmp
  end.

Definition do_channel_map (m : mix_state) (out in_tmp : list Z) : outcome (mix_state * list Z) :=
  let! (m, out, _) := map_buses (Z.to_nat MAX_CLIENT_NUM) 0 m out in_tmp in
  Done (m, out).

(** ** Lemmas on samples *)

(** Element [j] of a buffer. *)
Definition at_ (l : list Z) (j : Z) : Z := l !!! Z.to_nat j.

Definition is_s16 (z : Z) : Prop := INT16_MIN <= z <= INT16_MAX.

Lemma s16_range (z : Z) : is_s16 (s16 z).
Proof.
  unfold is_s16, s16, INT16_MIN, INT16_MAX. pose proof (Z.mod_pos_bound z 65536 ltac:(lia)). zif; lia.
Qed.

Lemma s16_mod (z : Z) : s16 z mod 65536 = z mod 65536.
Proof.
  unfold s16. zif; [by rewrite Z.mod_mod|].
  replace (z mod 65536 - 65536) with (z mod 65536 + (-1) * 65536) by lia.
  by rewrite Z.mod_add, Z.mod_mod.
Qed.

Lemma s16_add_l (a b : Z) : s16 (s16 a + b) = s16 (a + b).
Proof.
  unfold s16 at 1 3. rewrite <-Z.add_mod_idemp_l, s16_mod, Z.add_mod_idemp_l by lia. done.
Qed.

Lemma s16_id (z : Z) : is_s16 z -> s16 z = z.
Proof.
  unfold is_s16, s16, INT16_MIN, INT16_MAX. intros R.
  destruct (decide (0 <= z)).
  - rewrite Z.mod_small by lia. zif; lia.
  - replace (z mod 65536) with (z + 65536); [zif; lia|].
    apply (Z.mod_unique z 65536 (-1)); lia.
Qed.

Lemma at_s16 (l : list Z) (j : Z) : Forall is_s16 l -> 0 <= j < zlen l -> is_s16 (at_ l j).
Proof.
  intros F B. unfold zlen in B. destruct (lookup_lt_is_Some_2 l (Z.to_nat j)) as [x E]; [lia|].
  unfold at_. rewrite (list_lookup_total_correct _ _ _ E). by apply (Forall_lookup_1 _ _ _ _ F E).
Qed.

Lemma at_splice (l bs : list Z) (off j : Z) :
  0 <= off -> 0 <= j -> off + zlen bs <= zlen l ->
  at_ (splice l (Z.to_nat off) bs) j
  = if (off <=? j) && (j <? off + zlen bs) then at_ bs (j - off) else at_ l j.
Proof.
  intros O J L. unfold at_, zlen in *. rewrite !list_lookup_total_alt, lookup_splice by lia.
  destruct (off <=? j) eqn:E1; destruct (j <? off + Z.of_nat (length bs)) eqn:E2; zbool; cbn [andb];
    first [rewrite decide_True by lia | rewrite decide_False by lia]; try done.
  all: do 2 f_equal; lia.
Qed.

Lemma at_zslice (l : list Z) (off n j : Z) :
  0 <= off -> 0 <= j < n -> at_ (zslice l off n) j = at_ l (off + j).
Proof.
  intros O J. unfold at_. rewrite !list_lookup_total_alt, lookup_zslice by lia. do 2 f_equal. lia.
Qed.

(** [memcpy] inside its bounds, element by element. *)
Lemma memcpy_at (dst : list Z) (doff : Z) (src : list Z) (soff n : Z) :
  0 <= doff -> 0 <= soff -> 0 <= n -> soff + n <= zlen src -> doff + n <= zlen dst ->
  exists dst', memcpy dst doff src soff n = Done dst' /\ zlen dst' = zlen dst
    /\ (forall i, 0 <= i < n -> at_ dst' (doff + i) = at_ src (soff + i))
    /\ (forall j, 0 <= j -> j < doff \/ doff + n <= j -> at_ dst' j = at_ dst j).
Proof.
  intros D S N B1 B2. rewrite memcpy_done by done. eexists. split; [reflexivity|].
  pose proof (zlen_zslice src soff n S N B1) as Lz.
  split; [apply zlen_splice; lia|]. split.
  - intros i I. rewrite at_splice by lia. rewrite Lz.
    rewrite (proj2 (Z.leb_le doff (doff + i))), (proj2 (Z.ltb_lt (doff + i) (doff + n))) by lia. cbn [andb].
    rewrite at_zslice by lia. f_equal. lia.
  - intros j J K. rewrite at_splice, Lz by lia.
    destruct (doff <=? j) eqn:E1; destruct (j <? doff + n) eqn:E2; zbool; cbn [andb]; try done. lia.
Qed.

(** ** The channels, index by index *)

Lemma mix_loop_at (n : nat) (i : Z) (dst : list Z) (doff : Z) (src : list Z) (soff src_ch dst_ch : Z) :
  0 < dst_ch -> 0 < src_ch -> 0 <= i -> 0 <= doff -> 0 <= soff ->
  (forall k, i <= k < i + Z.of_nat n ->
     doff + k * dst_ch < zlen dst /\ soff + k * src_ch < zlen src) ->
  exists dst', mix_loop n i dst doff src soff src_ch dst_ch = Done dst' /\ zlen dst' = zlen dst
    /\ (forall k, i <= k < i + Z.of_nat n ->
          at_ dst' (doff + k * dst_ch) = s16 (at_ dst (doff + k * dst_ch) + at_ src (soff + k * src_ch)))
    /\ (forall j, 0 <= j -> (forall k, i <= k < i + Z.of_nat n -> j <> doff + k * dst_ch) ->
          at_ dst' j = at_ dst j).
Proof.
  intros Hd Hs Hi Ho Hso. revert i Hi dst.
  induction n as [|n IH]; intros i Hi dst B; cbn [mix_loop].
  { exists dst. split; [done|]. split; [done|]. split; [intros; lia|done]. }
  destruct (B i ltac:(lia)) as [B1 B2].
  assert (0 <= doff + i * dst_ch) as P1 by nia. assert (0 <= soff + i * src_ch) as P2 by nia.
  rewrite array_get_done by lia. cbn [obind]. rewrite array_get_done by lia. cbn [obind].
  fold (at_ dst (doff + i * dst_ch)). fold (at_ src (soff + i * src_ch)).
  set (x := s16 (at_ dst _ + _)). pose proof (s16_range (at_ dst (doff + i * dst_ch) + at_ src (soff + i * src_ch))) as R.
  fold x in R. unfold is_s16 in R.
  replace (if x >? INT16_MAX then INT16_MAX else if x <? INT16_MIN then INT16_MIN else x) with x
    by (repeat zif; lia).
  rewrite array_set_done by lia. cbn [obind].
  set (dst1 := <[Z.to_nat (doff + i * dst_ch) := x]> dst).
  assert (zlen dst1 = zlen dst) as L1 by (unfold zlen, dst1; by rewrite length_insert).
  destruct (IH (i + 1) ltac:(lia) dst1) as (dst' & E & L & V & U).
  { intros k Hk. rewrite L1. apply B. lia. }
  exists dst'. rewrite E. split; [done|]. split; [by rewrite L|]. split.
  - intros k Hk. destruct (Z.eq_dec k i) as [-> | N].
    + rewrite U by (intros; nia). unfold at_ at 1, dst1.
      by rewrite list_lookup_total_insert_eq by (unfold zlen in *; lia).
    + rewrite V by lia. do 2 f_equal. unfold at_ at 1, dst1.
      rewrite list_lookup_total_insert_ne by nia. done.
  - intros j Hj N. rewrite U by (try done; intros; apply N; lia). unfold at_, dst1.
    rewrite list_lookup_total_insert_ne; [done|]. specialize (N i ltac:(lia)). lia.
Qed.

(** Frame and channel of an index of the output, seen from the slot of the
    bus. *)
Definition frame_of (C oft j : Z) : Z := (j - oft) / C.
Definition chan_of (C oft j : Z) : Z := (j - oft) mod C.

Lemma index_split (C oft c k j : Z) :
  0 <= c < C -> (j = oft + c + k * C <-> chan_of C oft j = c /\ frame_of C oft j = k).
Proof.
  intros Hc. unfold chan_of, frame_of. pose proof (Z.div_mod (j - oft) C ltac:(lia)) as D. split.
  - intros ->. replace (oft + c + k * C - oft) with (c + k * C) by lia.
    rewrite Z.mod_add, Z.div_add, Z.mod_small, Z.div_small by lia. lia.
  - intros [<- <-]. lia.
Qed.

(** What the bus adds at index [j], channels [i] to [i + n - 1] only. *)
Definition contrib (C oft ch N i n : Z) (src : list Z) (j : Z) : Z :=
  let c := chan_of C oft j in
  let k := frame_of C oft j in
  if (i <=? c) && (c <? i + n) && (0 <=? k) && (k <? N) then at_ src (k * ch + c) else 0.

Lemma contrib_in (C oft ch N i n : Z) (src : list Z) (j : Z) :
  i <= chan_of C oft j < i + n -> 0 <= frame_of C oft j < N ->
  contrib C oft ch N i n src j = at_ src (frame_of C oft j * ch + chan_of C oft j).
Proof.
  intros [H1 H2] [H3 H4]. unfold contrib.
  by rewrite (proj2 (Z.leb_le _ _) H1), (proj2 (Z.ltb_lt _ _) H2), (proj2 (Z.leb_le _ _) H3),
    (proj2 (Z.ltb_lt _ _) H4).
Qed.

Lemma contrib_out (C oft ch N i n : Z) (src : list Z) (j : Z) :
  ~ (i <= chan_of C oft j < i + n /\ 0 <= frame_of C oft j < N) ->
  contrib C oft ch N i n src j = 0.
Proof.
  intros X. unfold contrib. destruct (_ && _) eqn:E; [|done].
  rewrite !andb_true_iff in E. destruct E as [[[E1 E2] E3] E4]. zbool. exfalso. auto.
Qed.

Lemma all_s16 (l l' : list Z) (f : Z -> Z) :
  zlen l' = zlen l -> (forall j, 0 <= j < zlen l -> at_ l' j = s16 (f j)) -> Forall is_s16 l'.
Proof.
  intros L A. apply Forall_lookup_2. intros k x E. pose proof (lookup_lt_Some _ _ _ E) as B.
  specialize (A (Z.of_nat k) ltac:(unfold zlen in *; lia)). unfold at_ in A.
  rewrite Nat2Z.id, (list_lookup_total_correct _ _ _ E) in A. rewrite A. apply s16_range.
Qed.

Section Bus.
Context (C oft ch in_frames : Z) (src : list Z).
Context (HC : 0 < C) (Hch : 0 < ch) (Hoft : 0 <= oft) (Hfit : oft + ch <= C)
        (Hin : 0 <= in_frames <= zlen src).
#[local] Abbreviation N := (in_frames / ch).

Lemma frames_fit : 0 <= N /\ N * ch <= in_frames.
Proof using Hch Hin. split; [apply Z.div_pos; lia|]. pose proof (Z.mul_div_le in_frames ch Hch). lia. Qed.

(** One channel of the bus. *)
Lemma mix_channel (c : Z) (dst : list Z) :
  0 <= c < ch -> N * C <= zlen dst -> Forall is_s16 dst ->
  exists dst', pcm_16_areas_mix in_frames dst (oft + c) src c ch C = Done dst' /\ zlen dst' = zlen dst
    /\ (forall j, 0 <= j < zlen dst -> at_ dst' j = s16 (at_ dst j + contrib C oft ch N c 1 src j)).
Proof using HC Hch Hoft Hfit Hin.
  intros Hc Hd F. destruct frames_fit as [N0 N1]. unfold pcm_16_areas_mix.
  rewrite (proj2 (Z.eqb_neq ch 0)) by lia.
  destruct (mix_loop_at (Z.to_nat N) 0 dst (oft + c) src c ch C) as (dst' & E & L & V & U);
    try lia.
  { intros k Hk. rewrite Z2Nat.id in Hk by lia. split; nia. }
  exists dst'. split; [done|]. split; [done|]. intros j Hj.
  rewrite Z2Nat.id in V, U by lia.
  destruct (decide (c <= chan_of C oft j < c + 1 /\ 0 <= frame_of C oft j < N)) as [[D1 D2] | D].
  - rewrite contrib_in by done. assert (chan_of C oft j = c) as Ec by lia. rewrite Ec.
    assert (j = oft + c + frame_of C oft j * C) as Ej by (apply index_split; [lia|done]).
    rewrite Ej at 1 2. rewrite V by lia. do 2 f_equal. f_equal. lia.
  - rewrite contrib_out, Z.add_0_r by done. rewrite s16_id.
    + apply U; [lia|]. intros k Hk Ej. apply D.
      apply index_split in Ej as [-> ->]; lia.
    + by apply at_s16.
Qed.

(** The channels from [i] on. *)
Lemma slot_loop_at (n : nat) (i : Z) (dst : list Z) :
  0 <= i -> i + Z.of_nat n <= ch -> N * C <= zlen dst -> Forall is_s16 dst ->
  exists dst', slot_loop n i dst oft src in_frames ch C = Done dst' /\ zlen dst' = zlen dst
    /\ Forall is_s16 dst'
    /\ (forall j, 0 <= j < zlen dst ->
          at_ dst' j = s16 (at_ dst j + contrib C oft ch N i (Z.of_nat n) src j)).
Proof using HC Hch Hoft Hfit Hin.
  revert i dst. induction n as [|n IH]; intros i dst Hi Hn Hd F; cbn [slot_loop].
  { exists dst. split; [done|]. split; [done|]. split; [done|]. intros j Hj.
    rewrite contrib_out, Z.add_0_r by lia. rewrite s16_id; [done|]. by apply at_s16. }
  destruct (mix_channel i dst ltac:(lia) Hd F) as (d1 & E1 & L1 & A1).
  rewrite E1. cbn [obind].
  destruct (IH (i + 1) d1) as (d2 & E2 & L2 & F2 & A2); [lia|lia|lia|exact (all_s16 dst d1 _ L1 A1)|].
  exists d2. rewrite E2. split; [done|]. split; [lia|]. split; [done|]. intros j Hj.
  rewrite A2, A1, s16_add_l by lia. f_equal. rewrite <-Z.add_assoc. f_equal.
  destruct (decide (0 <= frame_of C oft j < N)) as [K | K].
  - destruct (decide (chan_of C oft j = i)) as [Ec | Ec].
    + rewrite contrib_in, contrib_out, contrib_in by lia. lia.
    + rewrite (contrib_out _ _ _ _ i 1) by lia.
      destruct (decide (i + 1 <= chan_of C oft j < i + 1 + Z.of_nat n)).
      * rewrite !contrib_in by lia. lia.
      * rewrite !contrib_out by lia. lia.
  - rewrite !contrib_out by tauto. lia.
Qed.
End Bus.

(** ** One period of one bus *)

Lemma samples_at (l : list Z) (k : nat) :
  (2 * k + 1 < length l)%nat ->
  samples l !! k = Some (s16 (l !!! (2 * k)%nat + 256 * l !!! (2 * k + 1)%nat)).
Proof.
  revert l. induction k as [|k IH]; intros l L.
  - destruct l as [|a [|b l]]; cbn in L; [lia|lia|]. done.
  - destruct l as [|a [|b l]]; cbn in L; [lia|lia|]. cbn [samples]. cbn [lookup list_lookup].
    rewrite IH by lia. replace (2 * S k)%nat with (S (S (2 * k))) by lia.
    replace (S (S (2 * k)) + 1)%nat with (S (S (2 * k + 1))) by lia. done.
Qed.

Lemma length_samples (l : list Z) : (length l <= 2 * length (samples l) + 1)%nat.
Proof.
  assert (forall n l, (length l <= n)%nat -> (length l <= 2 * length (samples l) + 1)%nat) as H.
  { intros n. induction n as [|n IH]; intros [|a [|b k]] L; cbn in *; try lia.
    specialize (IH k). lia. }
  by apply (H (length l)).
Qed.

(** The samples at the start of a buffer are those of the bytes put there. *)
Lemma samples_prefix (bs rest : list Z) (k : Z) :
  0 <= k -> 2 * k + 1 < zlen bs -> at_ (samples (bs ++ rest)) k = at_ (samples bs) k.
Proof.
  intros K B. unfold at_, zlen in *.
  pose proof (samples_at (bs ++ rest) (Z.to_nat k) ltac:(rewrite length_app; lia)) as E1.
  pose proof (samples_at bs (Z.to_nat k) ltac:(lia)) as E2.
  rewrite (list_lookup_total_correct _ _ _ E1), (list_lookup_total_correct _ _ _ E2).
  rewrite !list_lookup_total_alt, !lookup_app_l by lia. done.
Qed.

(** What bus [b] adds at index [j] of the output, if it has a full period. *)
Definition ready (m : mix_state) (b : Z) : option (circlebuf_s * Z * Z) :=
  if get_bit m.(bus_state) b && negb (b =? BUS2) then
    match m.(bus_rbuf) !! Z.to_nat b, m.(bus_buf_sz) !! Z.to_nat b, m.(slot_index) !! Z.to_nat b with
    | Some (Some rb), Some sz, Some oft => if rb.(used) >=? sz then Some (rb, sz, oft) else None
    | _, _, _ => None
    end
  else None.

Definition bus_adds (m : mix_state) (b j : Z) : Z :=
  match ready m b with
  | Some (rb, sz, oft) =>
      contrib m.(pcm_channels) oft rb.(chann) (sz / 2 / rb.(chann)) 0 rb.(chann)
              (samples (take (Z.to_nat sz) (contents rb))) j
  | None => 0
  end.

(** The ring buffer of an active bus fits the output period. *)
Record bus_fits (m : mix_state) (out_len : Z) (rb : circlebuf_s) (sz oft : Z) : Prop := {
  bf_wf : wf rb;
  bf_unlocked : unlocked rb;
  bf_size : 0 <= sz <= PCM_DATA_DEFAULT_BYTES;
  bf_ch : 0 < rb.(chann) <= UINT32_MAX;
  bf_oft : 0 <= oft;
  bf_slots : oft + rb.(chann) <= m.(pcm_channels);
  bf_out : sz / 2 / rb.(chann) * m.(pcm_channels) <= out_len
}.

Record mix_ok (m : mix_state) (out_len : Z) : Prop := {
  mo_rbuf : length m.(bus_rbuf) = 16%nat;
  mo_size : length m.(bus_buf_sz) = 16%nat;
  mo_slot : length m.(slot_index) = 16%nat;
  mo_bus : forall b, 0 <= b < 16 -> get_bit m.(bus_state) b = true -> b <> BUS2 ->
    exists rb sz oft, m.(bus_rbuf) !! Z.to_nat b = Some (Some rb)
      /\ m.(bus_buf_sz) !! Z.to_nat b = Some sz /\ m.(slot_index) !! Z.to_nat b = Some oft
      /\ bus_fits m out_len rb sz oft
}.

(** The ring buffer of a bus after the period. *)
Definition drained (m : mix_state) (b : Z) (r r' : option circlebuf_s) : Prop :=
  match ready m b with
  | Some (rb, sz, _) =>
      exists rb', r = Some rb /\ r' = Some rb' /\ wf rb' /\ unlocked rb' /\ same_shape rb rb'
                  /\ contents rb' = drop (Z.to_nat sz) (contents rb)
  | None => r' = r
  end.

Lemma contrib_ext (C oft ch N : Z) (src src' : list Z) (j : Z) :
  0 < C -> 0 < ch -> (forall i, 0 <= i < N * ch -> at_ src i = at_ src' i) ->
  contrib C oft ch N 0 ch src j = contrib C oft ch N 0 ch src' j.
Proof.
  intros HC Hch E. destruct (decide (0 <= chan_of C oft j < 0 + ch /\ 0 <= frame_of C oft j < N)) as [D | D].
  - rewrite !contrib_in by lia. apply E. nia.
  - by rewrite !contrib_out.
Qed.

(** A bus with a full period. *)
Lemma map_ready (b : Z) (m : mix_state) (out t : list Z) (rb : circlebuf_s) (sz oft : Z) :
  0 <= b < 16 -> length m.(bus_rbuf) = 16%nat -> m.(slot_index) !! Z.to_nat b = Some oft ->
  bus_fits m (zlen out) rb sz oft -> sz <= rb.(used) ->
  zlen t = PCM_DATA_DEFAULT_BYTES -> Forall is_s16 out ->
  exists rb' t' out',
    audio_circlebuf_read (Some rb) t 0 sz = Done (sz, Some rb', t')
    /\ (wf rb' /\ unlocked rb' /\ same_shape rb rb' /\ contents rb' = drop (Z.to_nat sz) (contents rb))
    /\ zlen t' = PCM_DATA_DEFAULT_BYTES
    /\ slot_map_process_buf (set_rbuf (<[Z.to_nat b := Some rb']> m.(bus_rbuf)) m) out (samples t')
         (Z.quot sz 2) b = Done out'
    /\ zlen out' = zlen out /\ Forall is_s16 out'
    /\ (forall j, 0 <= j < zlen out ->
          at_ out' j = s16 (at_ out j
            + contrib m.(pcm_channels) oft rb.(chann) (sz / 2 / rb.(chann)) 0 rb.(chann)
                (samples (take (Z.to_nat sz) (contents rb))) j)).
Proof.
  intros B L Eo [W U S CH O SL OUT] Hu Lt F. unfold PCM_DATA_DEFAULT_BYTES in *.
  destruct (read_correct rb t 0 sz W U) as (rb' & E & W' & U' & SH & Ct); [lia|lia|lia|].
  rewrite (Z.min_l sz (used rb)) in E by lia.
  set (bs := take (Z.to_nat sz) (contents rb)) in *.
  assert (zlen bs = sz) as Lb.
  { pose proof (zlen_contents rb W). subst bs. unfold zlen in *. rewrite length_take. lia. }
  set (t' := splice t (Z.to_nat 0) bs) in *.
  assert (t' = bs ++ drop (length bs) t) as Et by done.
  assert (zlen t' = 16 * 1024) as Lt' by (unfold t'; rewrite zlen_splice; lia).
  exists rb', t'. assert (Z.quot sz 2 = sz / 2) as Q by (apply Z.quot_div_nonneg; lia).
  pose proof (Z.mul_div_le sz 2 ltac:(lia)) as Hs2.
  assert (0 <= sz / 2) as Hs0 by (apply Z.div_pos; lia).
  destruct (slot_loop_at m.(pcm_channels) oft rb.(chann) (sz / 2) (samples t')) with (i := 0)
    (n := Z.to_nat rb.(chann)) (dst := out) as (out' & E' & Lo & F' & A); try (done || lia).
  { split; [done|]. pose proof (length_samples t'). unfold zlen in *. lia. }
  exists out'. split; [done|]. split; [done|]. split; [done|]. split; [|split; [done|split; [done|]]].
  - unfold slot_map_process_buf. cbn [bus_rbuf slot_index pcm_channels set_rbuf].
    rewrite (array_get_lookup _ b (Some rb')), (array_get_lookup _ b oft)
      by (lia || done || (apply list_lookup_insert_eq; lia)).
    cbn [obind audio_circlebuf_get_ch]. destruct SH as (_ & _ & -> & _).
    by rewrite u32_small, Q by (unfold is_u32; lia).
  - intros j Hj. rewrite A by done. rewrite Z2Nat.id by lia. do 2 f_equal.
    apply contrib_ext; [lia|lia|]. intros i Hi. rewrite Et. apply samples_prefix; [lia|].
    pose proof (Z.mul_div_le (sz / 2) (chann rb) ltac:(lia)). lia.
Qed.

Lemma map_bus_at (b : Z) (m : mix_state) (out in_tmp : list Z) :
  0 <= b < 16 -> mix_ok m (zlen out) -> zlen in_tmp = PCM_DATA_DEFAULT_BYTES -> Forall is_s16 out ->
  exists r' out' in_tmp',
    map_bus b m out in_tmp = Done (set_rbuf (<[Z.to_nat b := r']> m.(bus_rbuf)) m, out', in_tmp')
    /\ (exists r, m.(bus_rbuf) !! Z.to_nat b = Some r /\ drained m b r r')
    /\ zlen in_tmp' = PCM_DATA_DEFAULT_BYTES /\ zlen out' = zlen out /\ Forall is_s16 out'
    /\ (forall j, 0 <= j < zlen out -> at_ out' j = s16 (at_ out j + bus_adds m b j)).
Proof.
  intros B [M1 M2 M3 M4] Li F. unfold map_bus, drained, bus_adds, ready.
  destruct (lookup_lt_is_Some_2 m.(bus_rbuf) (Z.to_nat b)) as [r Er]; [lia|].
  assert (m = set_rbuf (<[Z.to_nat b := r]> m.(bus_rbuf)) m) as Em
    by (rewrite list_insert_id by done; by destruct m).
  assert (forall j, 0 <= j < zlen out -> at_ out j = s16 (at_ out j + 0)) as A0
    by (intros j Hj; rewrite Z.add_0_r, s16_id; [done|by apply at_s16]).
  destruct (get_bit (bus_state m) b) eqn:G; cbn [andb];
    [|by exists r, out, in_tmp; rewrite <-Em; eauto 10].
  destruct (b =? BUS2) eqn:E2; cbn [negb]; zbool; [by exists r, out, in_tmp; rewrite <-Em; eauto 10|].
  destruct (M4 b B G E2) as (rb & sz & oft & Er' & Es & Eo & [W U S CH O SL OUT]).
  rewrite Er' in Er. injection Er as <-. rewrite Er', Es, Eo.
  rewrite (array_get_lookup _ b (Some rb)), (array_get_lookup _ b sz) by (done || lia). cbn [obind].
  rewrite (proj2 (Z.leb_le 0 sz)) by lia.
  assert (zlen (replicate (Z.to_nat sz) 0) = sz) as Lz by (unfold zlen; rewrite length_replicate; lia).
  rewrite mem_write_done by lia. cbn [obind]. unfold audio_circlebuf_used.
  set (t1 := splice in_tmp (Z.to_nat 0) (replicate (Z.to_nat sz) 0)).
  assert (zlen t1 = PCM_DATA_DEFAULT_BYTES) as L1 by (unfold t1; rewrite zlen_splice; lia).
  destruct (used rb >=? sz) eqn:EU; zbool;
    [|by exists (Some rb), out, t1; rewrite <-Em; eauto 10].
  destruct (map_ready b m out t1 rb sz oft B M1 Eo) as (rb' & t2 & out' & Erd & Dr & L2 & Esl & Lo & F' & A);
    [by constructor|lia|done|done|].
  rewrite Erd. cbn [obind]. rewrite array_set_done by (unfold zlen; lia). cbn [obind].
  rewrite Esl. cbn [obind]. exists (Some rb'), out', t2. split; [done|].
  split; [exists (Some rb); split; [done|]; eauto 10|]. done.
Qed.

(** ** One period of all buses *)

(** What [n] buses from [b] on add at index [j]. *)
Fixpoint buses_add (n : nat) (b : Z) (m : mix_state) (j : Z) : Z :=
  match n with
  | O => 0
  | S n => bus_adds m b j + buses_add n (b + 1) m j
  end.

Lemma ready_other (m : mix_state) (b b' : Z) (r : option circlebuf_s) :
  0 <= b -> 0 <= b' -> b' <> b ->
  ready (set_rbuf (<[Z.to_nat b := r]> m.(bus_rbuf)) m) b' = ready m b'.
Proof.
  intros B B' N. unfold ready. cbn [bus_state bus_rbuf bus_buf_sz slot_index set_rbuf].
  by rewrite list_lookup_insert_ne by lia.
Qed.

Lemma mix_ok_step (m : mix_state) (len b : Z) (r r' : option circlebuf_s) :
  0 <= b < 16 -> mix_ok m len -> m.(bus_rbuf) !! Z.to_nat b = Some r -> drained m b r r' ->
  mix_ok (set_rbuf (<[Z.to_nat b := r']> m.(bus_rbuf)) m) len.
Proof.
  intros B [M1 M2 M3 M4] Er D. constructor; cbn [bus_rbuf bus_buf_sz slot_index bus_state set_rbuf];
    [by rewrite length_insert|done|done|].
  intros b' B' G N. destruct (M4 b' B' G N) as (rb & sz & oft & E1 & E2 & E3 & K).
  destruct (Z.eq_dec b' b) as [-> | Nb].
  - rewrite E1 in Er. injection Er as <-. rewrite list_lookup_insert_eq by lia.
    unfold drained, ready in D. rewrite G, E1, E2, E3, (proj2 (Z.eqb_neq b BUS2) N) in D. cbn [andb negb] in D.
    destruct (used rb >=? sz).
    + destruct D as (rb' & _ & -> & W & U & (S1 & S2 & S3 & S4) & _).
      exists rb', sz, oft. split; [done|]. split; [done|]. split; [done|].
      destruct K. by constructor; rewrite ?S3.
    + rewrite D. exists rb, sz, oft. destruct K. split_and!; [done..|by constructor].
  - rewrite list_lookup_insert_ne by lia. exists rb, sz, oft. destruct K. split_and!; [done..|by constructor].
Qed.

Lemma buses_add_other (n : nat) (b b0 : Z) (m : mix_state) (r : option circlebuf_s) (j : Z) :
  0 <= b0 < b -> buses_add n b (set_rbuf (<[Z.to_nat b0 := r]> m.(bus_rbuf)) m) j = buses_add n b m j.
Proof.
  revert b. induction n as [|n IH]; intros b B; cbn [buses_add]; [done|].
  rewrite IH by lia. unfold bus_adds. by rewrite ready_other by lia.
Qed.

Lemma map_buses_at (n : nat) (b : Z) (m : mix_state) (out t : list Z) :
  0 <= b -> b + Z.of_nat n <= 16 -> mix_ok m (zlen out) -> zlen t = PCM_DATA_DEFAULT_BYTES ->
  Forall is_s16 out ->
  exists l out' t',
    map_buses n b m out t = Done (set_rbuf l m, out', t') /\ length l = 16%nat
    /\ (forall b', 0 <= b' < 16 -> exists r r', m.(bus_rbuf) !! Z.to_nat b' = Some r
          /\ l !! Z.to_nat b' = Some r'
          /\ if decide (b <= b' < b + Z.of_nat n) then drained m b' r r' else r' = r)
    /\ zlen out' = zlen out
    /\ (forall j, 0 <= j < zlen out -> at_ out' j = s16 (at_ out j + buses_add n b m j)).
Proof.
  revert b m out t. induction n as [|n IH]; intros b m out t B Bn M Lt F; cbn [map_buses buses_add].
  { exists m.(bus_rbuf), out, t. split; [by destruct m|]. split; [apply M|]. split; [|split; [done|]].
    - intros b' B'. destruct (lookup_lt_is_Some_2 m.(bus_rbuf) (Z.to_nat b')) as [r Er].
      { rewrite (mo_rbuf _ _ M). lia. }
      exists r, r. rewrite decide_False by lia. done.
    - intros j Hj. rewrite Z.add_0_r, s16_id; [done|by apply at_s16]. }
  destruct (map_bus_at b m out t ltac:(lia) M Lt F) as (r' & o1 & t1 & E1 & (r & Er & D) & Lt1 & Lo1 & F1 & A1).
  rewrite E1. cbn [obind]. set (m1 := set_rbuf _ m) in *.
  destruct (IH (b + 1) m1 o1 t1) as (l & o2 & t2 & E2 & Ll & Dl & Lo2 & A2);
    [lia|lia|by rewrite Lo1; eapply mix_ok_step; eauto; lia|done|done|].
  exists l, o2, t2. split; [by rewrite E2|]. split; [done|]. split; [|split; [lia|]].
  - intros b' B'. destruct (Dl b' B') as (s & s' & Es & Es' & K). cbn [bus_rbuf set_rbuf m1] in Es.
    destruct (Z.eq_dec b' b) as [-> | N].
    + rewrite list_lookup_insert_eq in Es by (rewrite (mo_rbuf _ _ M); lia). injection Es as <-.
      exists r, s'. rewrite decide_False in K by lia. subst s'. by rewrite decide_True by lia.
    + rewrite list_lookup_insert_ne in Es by lia. exists s, s'. split; [done|]. split; [done|].
      unfold drained in *. unfold m1 in K. rewrite (ready_other m b b' r') in K by lia.
      destruct (decide (b + 1 <= b' < b + 1 + Z.of_nat n)).
      * by rewrite decide_True by lia.
      * by rewrite decide_False by lia.
  - intros j Hj. rewrite A2, A1, s16_add_l by lia. unfold m1. rewrite buses_add_other by lia.
    f_equal. lia.
Qed.

(** C2. One playback period: for any set of active buses whose slots lie in
    the output frame, mixing completes within the bounds of every buffer;
    each sample of the output becomes its old value plus the samples of all
    buses that have a full period queued, in 16-bit arithmetic that wraps
    around and never saturates; each of these buses is advanced by exactly
    the bytes of its period, and every other ring buffer is left alone. *)
Theorem playback_period_mixed (m : mix_state) (out in_tmp : list Z) :
  mix_ok m (zlen out) -> zlen in_tmp = PCM_DATA_DEFAULT_BYTES -> Forall is_s16 out ->
  exists l out',
    do_channel_map m out in_tmp = Done (set_rbuf l m, out') /\ zlen out' = zlen out
    /\ (forall j, 0 <= j < zlen out -> at_ out' j = s16 (at_ out j + buses_add 16 0 m j))
    /\ (forall b, 0 <= b < 16 -> exists r r', m.(bus_rbuf) !! Z.to_nat b = Some r
          /\ l !! Z.to_nat b = Some r' /\ drained m b r r').
Proof.
  intros M L F.
  destruct (map_buses_at 16 0 m out in_tmp ltac:(lia) ltac:(lia) M L F)
    as (l & out' & t' & E & Ll & D & Lo & A).
  exists l, out'. unfold do_channel_map. change (Z.to_nat MAX_CLIENT_NUM) with 16%nat.
  rewrite E. split; [done|]. split; [done|]. split; [done|].
  intros b B. destruct (D b B) as (r & r' & E1 & E2 & K). rewrite decide_True in K by lia. eauto.
Qed.

(** Two buses on the same slot, each with one stereo frame of two loud
    samples: the sum wraps around to a negative number. *)
Definition loud_rb : circlebuf_s :=
  {| data := [48; 117; 48; 117; 0; 0; 0; 0]; size := 8; used := 4; read_offset := 0;
     write_offset := 4; over_write := false; chann := 2; fmt := 0; rate := 48000; lock := false |}.

Definition loud_mix : mix_state :=
  {| bus_rbuf := Some loud_rb :: Some loud_rb :: replicate 14 None;
     bus_buf_sz := replicate 16 4; bus_state := 3; pcm_channels := 4;
     slot_index := replicate 16 0 |}.

Lemma loud_ok : mix_ok loud_mix (zlen [0; 0; 0; 0]).
Proof.
  constructor; [done|done|done|]. intros b B G N.
  assert (b = 0 \/ b = 1) as Hb.
  { destruct (decide (b < 2)); [lia|]. exfalso.
    assert (exists k, b = Z.of_nat k /\ (k < 16)%nat) as (k & -> & Hk) by (exists (Z.to_nat b); lia).
    do 16 (destruct k as [|k]; [vm_compute in G; congruence || lia|]). lia. }
  assert (bus_fits loud_mix (zlen [0; 0; 0; 0]) loud_rb 4 0) as K.
  { constructor; try done; try (vm_compute; split; discriminate || reflexivity).
    constructor; cbn; unfold INT32_MAX; lia || done || (left; lia). }
  exists loud_rb, 4, 0. destruct Hb as [-> | ->]; done.
Qed.

Lemma playback_period_mixed_witness :
  exists l out', do_channel_map loud_mix [0; 0; 0; 0] (replicate (Z.to_nat PCM_DATA_DEFAULT_BYTES) 0)
                 = Done (set_rbuf l loud_mix, out')
    /\ at_ out' 0 = -5536 /\ at_ out' 2 = 0.
Proof.
  destruct (playback_period_mixed loud_mix [0; 0; 0; 0] (replicate (Z.to_nat PCM_DATA_DEFAULT_BYTES) 0)
              loud_ok) as (l & out' & E & _ & A & _).
  - unfold zlen. rewrite length_replicate. reflexivity.
  - repeat constructor; discriminate.
  - exists l, out'. split; [exact E|].
    split; (rewrite A by (split; reflexivity || discriminate)); vm_compute; reflexivity.
Defined.
