(* ===== verification/MicArray.v ===== *)
(** * The microphone array HAL

    Models [hardware/modules/mic_array/mic_array.c]: the device that records
    from the USB sound card in blocks of [frame_cnt] bytes and serves reads of
    any size from a cache.  The PCM device of tinyalsa is the interface
    [PcmIn]; [PcmInLaws] states that a successful read delivers the next
    bytes of the recording. *)

From stdpp Require Import base list numbers strings.
From Stdlib Require Import ZArith Lia Ascii.
From S2P Require Import Prelude CString Mixer Tinymix.

#[local] Open Scope Z_scope.

(** ** The PCM device *)

(** [pcm_read d n]: the status, the bytes stored at the caller's pointer and
    the device afterwards. *)
Class PcmIn (D : Type) := {
  pcm_read : D -> Z -> Z * list Z * D;
  pcm_open : Z -> option (D * bool)
}.

(** [tape d k] is the next [k] bytes of the recording. *)
Class PcmInLaws (D : Type) `{PcmIn D} := {
  tape : D -> nat -> list Z;
  healthy : D -> Prop;
  read_len (d d' : D) (n r : Z) (bs : list Z) :
    0 < n -> pcm_read d n = (r, bs, d') -> zlen bs <= n;
  read_tape (d d' : D) (n : Z) (bs : list Z) :
    0 < n -> pcm_read d n = (0, bs, d') ->
    zlen bs = n /\ forall k, tape d (Z.to_nat n + k) = bs ++ tape d' k;
  healthy_read (d : D) (n : Z) :
    0 < n -> healthy d -> exists bs d', pcm_read d n = (0, bs, d') /\ healthy d'
}.

(** ** State and constants *)

Definition MIC_SAMPLE_RATE : Z := 48000.
Definition MIC_CHANNEL : Z := 8.
Definition FRAME_COUNT : Z := 15360.
Definition PCM_CARD : Z := 0.

(** [pcm_format_to_bits (PCM_FORMAT_S32_LE)] *)
Definition PCM_BITS_S32 : Z := 32.

(** [mic_array_device_ex] with the fields of [mic_array_device_t] that the
    code uses; a [buffer] of [None] is the null pointer. *)
Record mic_array_device_ex {D : Type} := {
  frame_cnt : Z;
  channels : Z;
  sample_rate : Z;
  bit : Z;
  pcm : option D;
  pts : Z;
  buffer : option (list Z)
}.
Arguments mic_array_device_ex : clear implicits.

Section Device.
Context {D : Type} `{PcmIn D}.
#[local] Abbreviation device := (mic_array_device_ex D).

Definition set_pcm (p : option D) (d : device) : device :=
  {| frame_cnt := d.(frame_cnt); channels := d.(channels); sample_rate := d.(sample_rate);
     bit := d.(bit); pcm := p; pts := d.(pts); buffer := d.(buffer) |}.

Definition set_pts (n : Z) (d : device) : device :=
  {| frame_cnt := d.(frame_cnt); channels := d.(channels); sample_rate := d.(sample_rate);
     bit := d.(bit); pcm := d.(pcm); pts := n; buffer := d.(buffer) |}.

Definition set_buffer (b : list Z) (d : device) : device :=
  {| frame_cnt := d.(frame_cnt); channels := d.(channels); sample_rate := d.(sample_rate);
     bit := d.(bit); pcm := d.(pcm); pts := d.(pts); buffer := Some b |}.

(** ** Finding the sound card *)

(** The characters before the first NUL. *)
Fixpoint c_str (s : string) : string :=
  match s with
  | EmptyString => EmptyString
  | String c r => if code c =? 0 then EmptyString else String c (c_str r)
  end.

(** [strchr (b, '\n')]: the text before and after the first newline. *)
Fixpoint split_newline (s : string) : option (string * string) :=
  match s with
  | EmptyString => None
  | String c r =>
      if code c =? 10 then Some (EmptyString, r)
      else match split_newline r with
           | Some (a, b) => Some (String c a, b)
           | None => None
           end
  end.

(** The [while] loop of [find_snd]; every round consumes a newline, so the
    length of the text is enough fuel. *)
Fixpoint find_line (fuel : nat) (snd b : string) : outcome Z :=
  match fuel with
  | O => Blocked
  | S fuel =>
      match split_newline b with
      | None => Done (-1)
      | Some (line, rest) => if contains snd line then atoi line else find_line fuel snd rest
      end
  end.

(** [cards] is the text of [/proc/asound/cards], or the [errno] of [fopen];
    at most 4095 bytes are read, and the last byte read is overwritten. *)
Definition find_snd (cards : string + Z) (snd : string) : outcome Z :=
  match cards with
  | inr errno => Done errno
  | inl text =>
      let buf := String.substring 0 4095 text in
      let len := Z.of_nat (String.length buf) in
      if len =? 0 then Undef
      else
        let b := c_str (String.substring 0 (Z.to_nat (len - 1)) buf) in
        find_line (S (String.length b)) snd b
  end.

Definition mic_array_device_find_card (cards : string + Z) (snd : option string) : outcome Z :=
  match snd with
  | None => Done (-1)
  | Some snd => find_snd cards snd
  end.

(** ** Opening, starting and stopping *)

(** [alloc]: whether the device structure and the buffer can be allocated;
    the result is the status and the device. *)
Definition mic_array_device_open (alloc_dev : bool) (alloc_buf : option (list Z))
  : Z * option device :=
  if alloc_dev then
    (0, Some {| frame_cnt := FRAME_COUNT; channels := MIC_CHANNEL; sample_rate := MIC_SAMPLE_RATE;
                bit := PCM_BITS_S32; pcm := None; pts := 0; buffer := alloc_buf |})
  else (-1, None).

Definition resetBuffer (dev : device) : device := set_pts 0 dev.

(** [pcm_open] gives a handle and whether it is ready. *)
Definition mic_array_device_start_stream (cards : string + Z) (dev : device)
  : outcome (Z * device) :=
  let! card := find_snd cards "USB-Audio" in
  let card := if card <? 0 then PCM_CARD else card in
  match pcm_open card with
  | Some (d, true) => Done (0, set_pcm (Some d) dev)
  | _ => Done (-1, dev)
  end.

Definition mic_array_device_stop_stream (dev : device) : Z * device :=
  match dev.(pcm) with
  | Some _ => (0, set_pcm None dev)
  | None => (0, dev)
  end.

Definition mic_array_device_finish_stream (dev : device) : Z := -1.
Definition mic_array_device_resume_stream (dev : device) : Z := -1.
Definition mic_array_device_config_stream (dev : device) (cmd : Z) : Z := -1.
Definition mic_array_device_get_stream_buff_size (dev : device) : Z := dev.(frame_cnt).

(** ** Reading *)

(** [pcm_read (pcm, buffer + off, n)]: the whole destination has to lie in
    the object; the null handle is dereferenced. *)
Definition read_frame (dev : device) (dst : list Z) (off : Z) : outcome (Z * list Z * device) :=
  match dev.(pcm) with
  | None => Undef
  | Some d =>
      if (0 <=? off) && (off + dev.(frame_cnt) <=? zlen dst) then
        let '(r, bs, d) := pcm_read d dev.(frame_cnt) in
        let! dst := mem_write dst off bs in
        Done (r, dst, set_pcm (Some d) dev)
      else Undef
  end.

Definition deref (b : option (list Z)) : outcome (list Z) :=
  match b with Some l => Done l | None => Undef end.

Section Read.
(** Whether the C library's [memcpy] copies overlapping blocks correctly,
    which the C standard leaves undefined. *)
Variable overlap_ok : bool.

(** [memcpy (l, l + off, n)] inside one object. *)
Definition memcpy_down (l : list Z) (off n : Z) : outcome (list Z) :=
  if negb overlap_ok && (0 <? n) && (off <? n) then Undef else memcpy l 0 l off n.

Definition read_left_frame (dev : device) (buff : list Z) (toff left : Z)
  : outcome (Z * list Z * device) :=
  let! b := deref dev.(buffer) in
  if dev.(pts) =? 0 then
    let! (ret, b, dev) := read_frame dev b 0 in
    let dev := set_buffer b dev in
    if negb (ret =? 0) then Done (ret, buff, resetBuffer dev)
    else
      let! buff := memcpy buff toff b 0 left in
      let! b := memcpy_down b left (u32 (dev.(frame_cnt) - left)) in
      Done (0, buff, set_pts (s32 (dev.(frame_cnt) - left)) (set_buffer b dev))
  else if dev.(pts) >=? left then
    let! buff := memcpy buff toff b 0 left in
    let! rest := i32 (dev.(pts) - left) in
    if negb (rest =? 0) then
      let! b := memcpy_down b left rest in
      Done (0, buff, set_pts rest (set_buffer b dev))
    else Done (0, buff, set_pts rest dev)
  else
    let! buff := memcpy buff toff b 0 dev.(pts) in
    let! left := i32 (left - dev.(pts)) in
    let! (ret, b, dev) := read_frame dev b 0 in
    let dev := set_buffer b dev in
    if negb (ret =? 0) then Done (ret, buff, resetBuffer dev)
    else
      let! buff := memcpy buff (toff + dev.(pts)) b 0 left in
      let! b := memcpy_down b left (u32 (dev.(frame_cnt) - left)) in
      Done (0, buff, set_pts (s32 (dev.(frame_cnt) - left)) (set_buffer b dev)).

(** [for (i = 0; i < cnt; i++)]: whole blocks straight into the caller's
    buffer; the first failure stops the loop. *)
Fixpoint read_frames (n : nat) (i size : Z) (dev : device) (buff : list Z)
  : outcome (Z * list Z * device) :=
  match n with
  | O => Done (0, buff, dev)
  | S n =>
      let! o := i32 (i * size) in
      let! (ret, buff, dev) := read_frame dev buff (dev.(pts) + o) in
      if negb (ret =? 0) then Done (ret, buff, resetBuffer dev)
      else read_frames n (i + 1) size dev buff
  end.

Definition mic_array_device_read_stream (dev : device) (buff : option (list Z)) (frame_cnt_ : Z)
  : outcome (Z * option (list Z) * device) :=
  let size := s32 dev.(frame_cnt) in
  if size <=? 0 then Done (-1, buff, dev)
  else
    match buff with
    | None => Done (-1, None, dev)
    | Some buff =>
        let finish (dev : device) (buff : list Z) (target left : Z) :=
          let! (ret, buff, dev) := read_left_frame dev buff target left in
          if negb (ret =? 0) then Done (ret, Some buff, resetBuffer dev)
          else Done (ret, Some buff, dev) in
        if frame_cnt_ >=? size then
          let cnt := s32 (frame_cnt_ / size) in
          let left := s32 (frame_cnt_ mod size) in
          let! cnt := (if dev.(pts) >? left then i32 (cnt - 1) else Done cnt) in
          let! buff :=
            (if dev.(pts) >? 0 then
               let! b := deref dev.(buffer) in memcpy buff 0 b 0 dev.(pts)
             else Done buff) in
          let! (ret, buff, dev) := read_frames (Z.to_nat cnt) 0 size dev buff in
          if negb (ret =? 0) then Done (ret, Some buff, dev)
          else
            let! prod := i32 (cnt * size) in
            let! done_ := i32 (dev.(pts) + prod) in
            if u32 (frame_cnt_ - done_) =? 0 then Done (ret, Some buff, set_pts 0 dev)
            else finish (set_pts 0 dev) buff done_ (s32 (frame_cnt_ - done_))
        else finish dev buff 0 (s32 frame_cnt_)
    end.
End Read.

(** ** The unused mixer helper of the module *)

Definition isdigit (c : ascii) : bool := (48 <=? code c) && (code c <=? 57).

Definition starts_with_digit (s : string) : bool :=
  match s with String c _ => isdigit c | EmptyString => false end.

Definition tinymix_set_value {M : Type} `{MixerOps M} (control : string) (values : list string)
  : st M unit := fun m =>
  let! ctl := (if starts_with_digit control then
                 let! n := atoi control in Done (mixer_get_ctl m (u32 n))
               else Done (mixer_get_ctl_by_name m control)) in
  match ctl with
  | None => Done (tt, m)
  | Some c =>
      let type := mixer_ctl_get_type m c in
      let num_ctl_values := mixer_ctl_get_num_values m c in
      match values with
      | [] => Undef
      | v0 :: _ =>
          if starts_with_digit v0 then
            if zlen values =? 1 then
              let! value := atoi v0 in
              let! (_, m) := set_same c value 0 (Z.to_nat num_ctl_values) m in Done (tt, m)
            else if zlen values >? num_ctl_values then Done (tt, m)
            else let! (_, m) := set_each c 0 values m in Done (tt, m)
          else if bool_decide (type = MIXER_CTL_TYPE_ENUM) then
            if negb (zlen values =? 1) then Done (tt, m)
            else let '(_, m) := mixer_ctl_set_enum_by_string m c v0 in Done (tt, m)
          else Done (tt, m)
      end
  end.
End Device.

(** ** Lemmas on reading *)

(** The samples that are recorded but not yet delivered. *)
Definition cached {D} (dev : mic_array_device_ex D) : list Z :=
  match dev.(buffer) with Some b => take (Z.to_nat dev.(pts)) b | None => [] end.

(** A started device on PCM handle [d]. *)
Record ready {D} (dev : mic_array_device_ex D) (d : D) : Prop := {
  rd_pcm : dev.(pcm) = Some d;
  rd_cnt : 0 < dev.(frame_cnt) <= INT32_MAX;
  rd_pts : 0 <= dev.(pts) <= dev.(frame_cnt);
  rd_buf : exists b, dev.(buffer) = Some b /\ zlen b = dev.(frame_cnt)
}.

Section ReadLemmas.
Context {D : Type} `{PcmInLaws D}.
#[local] Abbreviation device := (mic_array_device_ex D).

Lemma read_frame_ok (dev : device) (d : D) (dst : list Z) (off : Z) :
  ready dev d -> healthy d -> 0 <= off -> off + dev.(frame_cnt) <= zlen dst ->
  exists bs d', read_frame dev dst off = Done (0, splice dst (Z.to_nat off) bs, set_pcm (Some d') dev)
    /\ zlen bs = dev.(frame_cnt) /\ healthy d'
    /\ forall k, tape d (Z.to_nat dev.(frame_cnt) + k) = bs ++ tape d' k.
Proof.
  intros [P C T B] Hd Ho Hb. unfold read_frame. rewrite P.
  destruct (0 <=? off) eqn:E1; zbool; [|lia].
  destruct (off + frame_cnt dev <=? zlen dst) eqn:E2; zbool; [|lia]. cbn [andb].
  destruct (healthy_read d dev.(frame_cnt)) as (bs & d' & E & Hd'); [lia|done|]. rewrite E.
  destruct (read_tape d d' dev.(frame_cnt) bs ltac:(lia) E) as [L Ht].
  rewrite mem_write_done by lia. cbn [obind]. exists bs, d'. done.
Qed.

Lemma memcpy_down_ok (l : list Z) (off n : Z) :
  0 <= off -> 0 <= n -> off + n <= zlen l ->
  memcpy_down true l off n = Done (splice l 0 (zslice l off n)).
Proof. intros. unfold memcpy_down. cbn [negb andb]. by rewrite memcpy_done by lia. Qed.

(** The two ways to refill the cache end alike: the head of the fresh block
    is delivered and the rest is moved to the front. *)
Lemma refill (bs : list Z) (fc left : Z) :
  zlen bs = fc -> 0 <= left <= fc ->
  take (Z.to_nat (fc - left)) (splice bs 0 (zslice bs left (fc - left))) = drop (Z.to_nat left) bs.
Proof.
  intros L Hl. rewrite take_splice_0 by (rewrite length_zslice; lia).
  unfold zslice. apply take_ge. rewrite length_drop. unfold zlen in L. lia.
Qed.

(** The move that ends a [read_left_frame] of [left] bytes, with blocks of [fc]
    bytes and [p] bytes cached: from which offset of the buffer how many bytes
    go to its front.  They are what is cached afterwards. *)
Definition left_move (fc p left : Z) : Z * Z :=
  if p =? 0 then (left, fc - left)
  else if left <=? p then (left, p - left)
  else (left - p, fc - (left - p)).

(** The two ranges of a move do not overlap. *)
Definition apart (mv : Z * Z) : bool := negb ((0 <? mv.2) && (mv.1 <? mv.2)).

Lemma memcpy_down_strict (l : list Z) (off n : Z) :
  memcpy_down false l off n = if apart (off, n) then memcpy_down true l off n else Undef.
Proof. unfold memcpy_down, apart. cbn [fst snd negb andb]. by destruct ((0 <? n) && (off <? n)). Qed.

(** What one call of [read_left_frame] has to achieve: [left] bytes at
    [toff], and no byte of the recording lost or repeated. *)
Definition left_spec (dev : device) (d : D) (buff : list Z) (toff left : Z) : Prop :=
  exists bs dev' d' k,
    read_left_frame true dev buff toff left = Done (0, splice buff (Z.to_nat toff) bs, dev')
    /\ zlen bs = left /\ ready dev' d' /\ healthy d' /\ dev'.(frame_cnt) = dev.(frame_cnt)
    /\ dev'.(pts) = (left_move dev.(frame_cnt) dev.(pts) left).2
    /\ forall j, bs ++ cached dev' ++ tape d' j = cached dev ++ tape d (k + j).

Section Left.
Context (dev : device) (d : D) (buff : list Z) (toff left : Z).
Context (R : ready dev d) (Hd : healthy d) (Hl : 0 <= left <= dev.(frame_cnt)) (Ht : 0 <= toff)
        (Hb : toff + left <= zlen buff).

Lemma ready_refilled (d' : D) (bs : list Z) (n : Z) :
  zlen bs = dev.(frame_cnt) -> 0 <= n <= dev.(frame_cnt) ->
  ready (set_pts (dev.(frame_cnt) - n)
           (set_buffer (splice bs 0 (zslice bs n (dev.(frame_cnt) - n)))
              (set_buffer bs (set_pcm (Some d') dev)))) d'.
Proof.
  intros L Hn. pose proof R as [P C T _]. constructor; cbn; [done|done|lia|].
  eexists. split; [done|]. change 0%nat with (Z.to_nat 0). zlens. done.
Qed.

(** The cache is empty. *)
Lemma read_left_empty : dev.(pts) = 0 -> left_spec dev d buff toff left.
Proof.
  intros E0. pose proof R as [P C T (b & B & Lb)]. unfold left_spec, read_left_frame, cached at 2.
  rewrite B, E0. cbn [deref obind Z.eqb].
  destruct (read_frame_ok dev d b 0 R Hd) as (bs & d' & E & L & Hd' & Tp); [lia|lia|].
  rewrite E. cbn [obind]. rewrite splice_all by (unfold zlen in *; lia). cbn [negb Z.eqb].
  rewrite memcpy_done by lia. cbn [obind frame_cnt set_buffer set_pcm].
  rewrite u32_small by (unfold is_u32, UINT32_MAX, INT32_MAX in *; lia).
  rewrite s32_small by lia. rewrite memcpy_down_ok by lia. cbn [obind].
  eexists _, _, d', (Z.to_nat (frame_cnt dev)). split; [done|]. split; [by rewrite zlen_zslice by lia|].
  split; [by apply ready_refilled|]. split; [done|]. split; [done|].
  split; [done|].
  intros j. unfold cached. cbn. rewrite (refill bs (frame_cnt dev)) by lia.
  rewrite Tp, app_assoc. unfold zslice. cbn. by rewrite take_drop.
Qed.

Lemma hit_move : dev.(pts) <> 0 -> left <= dev.(pts) ->
  dev.(pts) - left = (left_move dev.(frame_cnt) dev.(pts) left).2.
Proof using. intros E0 E1. unfold left_move. repeat zif; try lia. done. Qed.

(** The cache holds enough. *)
Lemma read_left_hit : dev.(pts) <> 0 -> left <= dev.(pts) -> left_spec dev d buff toff left.
Proof.
  intros E0 E1. pose proof R as [P C T (b & B & Lb)]. unfold left_spec, read_left_frame, cached at 2.
  rewrite B. cbn [deref obind]. destruct (pts dev =? 0) eqn:Z0; zbool; [lia|].
  destruct (pts dev >=? left) eqn:Z1; zbool; [|lia]. rewrite memcpy_done by lia. cbn [obind].
  rewrite i32_done by (unfold is_i32, INT32_MIN, INT32_MAX in *; lia). cbn [obind].
  exists (zslice b 0 left). destruct (pts dev - left =? 0) eqn:Z2; zbool; cbn [negb].
  - eexists _, d, 0%nat. split; [done|]. split; [by rewrite zlen_zslice by lia|].
    split; [constructor; cbn; [done|done|lia|eauto]|]. split; [done|]. split; [done|].
    split; [apply hit_move; lia|].
    intros j. unfold cached. cbn. rewrite B, Z2. cbn. f_equal. unfold zslice. cbn.
    by replace left with (pts dev) by lia.
  - rewrite memcpy_down_ok by lia. cbn [obind]. eexists _, d, 0%nat. split; [done|].
    split; [by rewrite zlen_zslice by lia|].
    split; [|split; [done|split; [done|split; [apply hit_move; lia|]]]].
    + constructor; cbn; [done|done|lia|]. eexists. split; [done|].
      change 0%nat with (Z.to_nat 0). zlens. done.
    + intros j. unfold cached. cbn. rewrite take_splice_0 by (rewrite length_zslice; lia).
      rewrite app_assoc. f_equal. unfold zslice. cbn.
      replace (Z.to_nat (pts dev)) with (Z.to_nat left + Z.to_nat (pts dev - left))%nat by lia.
      by rewrite take_take_drop.
Qed.

(** The cache holds some, and a fresh block the rest. *)
Lemma read_left_partial : dev.(pts) <> 0 -> dev.(pts) < left -> left_spec dev d buff toff left.
Proof.
  intros E0 E1. pose proof R as [P C T (b & B & Lb)]. unfold left_spec, read_left_frame, cached at 2.
  rewrite B. cbn [deref obind]. destruct (pts dev =? 0) eqn:Z0; zbool; [lia|].
  destruct (pts dev >=? left) eqn:Z1; zbool; [lia|]. rewrite memcpy_done by lia. cbn [obind].
  rewrite i32_done by (unfold is_i32, INT32_MIN, INT32_MAX in *; lia). cbn [obind].
  destruct (read_frame_ok dev d b 0 R Hd) as (bs & d' & E & L & Hd' & Tp); [lia|lia|].
  rewrite E. cbn [obind]. rewrite splice_all by (unfold zlen in *; lia).
  cbn [negb Z.eqb frame_cnt pts set_buffer set_pcm].
  rewrite memcpy_done by (rewrite ?zlen_splice by (rewrite ?zlen_zslice by lia; lia); lia).
  cbn [obind]. rewrite u32_small by (unfold is_u32, UINT32_MAX, INT32_MAX in *; lia).
  rewrite s32_small by lia. rewrite memcpy_down_ok by lia. cbn [obind].
  assert (Z.to_nat (toff + pts dev) = Z.to_nat toff + length (zslice b 0 (pts dev)))%nat as ->
    by (rewrite length_zslice; lia).
  rewrite splice_splice by (rewrite !length_zslice by lia; unfold zlen in *; lia).
  eexists _, _, d', (Z.to_nat (frame_cnt dev)). split; [done|].
  split; [unfold zlen; rewrite length_app, !length_zslice by lia; lia|].
  split; [apply ready_refilled; lia|]. split; [done|]. split; [done|].
  split; [unfold left_move; repeat zif; [lia..|done]|].
  intros j. unfold cached. cbn. rewrite (refill bs (frame_cnt dev)) by lia.
  rewrite Tp, <- app_assoc. unfold zslice. cbn. f_equal. rewrite app_assoc. f_equal.
  apply take_drop.
Qed.

Lemma read_left_ok : left_spec dev d buff toff left.
Proof.
  destruct (decide (dev.(pts) = 0)); [by apply read_left_empty|].
  destruct (decide (left <= dev.(pts))); [by apply read_left_hit|apply read_left_partial; lia].
Qed.

(** Where [memcpy] between overlapping ranges is undefined, the call is
    undefined exactly when its move overlaps. *)
Lemma read_left_strict :
  read_left_frame false dev buff toff left
  = if apart (left_move dev.(frame_cnt) dev.(pts) left) then read_left_frame true dev buff toff left
    else Undef.
Proof.
  pose proof R as [P C T (b & B & Lb)]. unfold read_left_frame, left_move. rewrite B. cbn [deref obind].
  destruct (read_frame_ok dev d b 0 R Hd) as (bs & d' & E & L & Hd' & Tp); [lia|lia|].
  rewrite E. cbn [obind negb Z.eqb]. rewrite splice_all by (unfold zlen in *; lia).
  destruct (pts dev =? 0) eqn:Z0; zbool.
  - rewrite memcpy_done by lia. cbn [obind frame_cnt set_buffer set_pcm].
    rewrite u32_small by (unfold is_u32, UINT32_MAX, INT32_MAX in *; lia).
    rewrite memcpy_down_strict. by destruct (apart _).
  - rewrite Z.geb_leb. destruct (left <=? pts dev) eqn:Z1; zbool.
    + rewrite memcpy_done by lia. cbn [obind].
      rewrite i32_done by (unfold is_i32, INT32_MIN, INT32_MAX in *; lia). cbn [obind].
      destruct (pts dev - left =? 0) eqn:Z2; zbool; cbn [negb].
      * unfold apart. cbn [fst snd]. by rewrite Z2.
      * rewrite memcpy_down_strict. by destruct (apart _).
    + rewrite memcpy_done by lia. cbn [obind].
      rewrite i32_done by (unfold is_i32, INT32_MIN, INT32_MAX in *; lia). cbn [obind frame_cnt pts set_buffer set_pcm].
      rewrite memcpy_done by (rewrite ?zlen_splice by (rewrite ?zlen_zslice by lia; lia); lia). cbn [obind].
      rewrite u32_small by (unfold is_u32, UINT32_MAX, INT32_MAX in *; lia).
      rewrite memcpy_down_strict. by destruct (apart _).
Qed.
End Left.

(** Whole blocks straight into the caller's buffer. *)
Lemma read_frames_ok (n : nat) (i : Z) (dev : device) (d : D) (buff : list Z) :
  ready dev d -> healthy d -> 0 <= i ->
  dev.(pts) + (i + Z.of_nat n) * dev.(frame_cnt) <= zlen buff ->
  (i + Z.of_nat n) * dev.(frame_cnt) <= INT32_MAX ->
  exists bs d', read_frames n i dev.(frame_cnt) dev buff
      = Done (0, splice buff (Z.to_nat (dev.(pts) + i * dev.(frame_cnt))) bs, set_pcm (Some d') dev)
    /\ zlen bs = Z.of_nat n * dev.(frame_cnt) /\ healthy d'
    /\ forall k, tape d (Z.to_nat (Z.of_nat n * dev.(frame_cnt)) + k) = bs ++ tape d' k.
Proof.
  revert i dev d buff. induction n as [|n IH]; intros i dev d buff R Hd Hi Hb Hm; cbn [read_frames].
  { pose proof R as [P _ _ _]. exists [], d. rewrite splice_nil.
    split; [|done]. do 2 f_equal. destruct dev. cbn in *. by subst. }
  pose proof R as [P C T (b & B & Lb)].
  assert (0 <= i * frame_cnt dev) by nia.
  rewrite i32_done by (unfold is_i32, INT32_MIN, INT32_MAX in *; nia). cbn [obind].
  destruct (read_frame_ok dev d buff (pts dev + i * frame_cnt dev) R Hd)
    as (bs & d1 & E & L & Hd1 & Tp); [lia|nia|].
  rewrite E. cbn [obind negb Z.eqb].
  destruct (IH (i + 1) (set_pcm (Some d1) dev) d1
              (splice buff (Z.to_nat (pts dev + i * frame_cnt dev)) bs)) as (bs' & d' & E' & L' & Hd' & Tp').
  { constructor; cbn; eauto. }
  { done. }
  { lia. }
  { cbn. rewrite zlen_splice by nia. nia. }
  { cbn. nia. }
  cbn [frame_cnt pts set_pcm] in *. rewrite E'. exists (bs ++ bs'), d'.
  split; [|split; [|split; [done|]]].
  - do 3 f_equal.
    replace (Z.to_nat (pts dev + (i + 1) * frame_cnt dev))
      with (Z.to_nat (pts dev + i * frame_cnt dev) + length bs)%nat by (unfold zlen in L; nia).
    apply splice_splice. unfold zlen in *. nia.
  - unfold zlen in *. rewrite length_app. lia.
  - intros k. rewrite <- app_assoc, <- Tp', <- Tp. f_equal. nia.
Qed.

(** The move that ends a read of [n] bytes: a read of a block or more empties
    the cache and takes whole blocks first. *)
Definition tail_move (fc p n : Z) : Z * Z :=
  if n >=? fc then
    let left := (n - p) mod fc in if left =? 0 then (0, 0) else left_move fc 0 left
  else left_move fc p n.

(** What one call of the device's [read_stream] has to achieve. *)
Definition stream_spec (dev : device) (d : D) (out : list Z) (n : Z) : Prop :=
  exists bs dev' d' k,
    mic_array_device_read_stream true dev (Some out) n = Done (0, Some (splice out 0 bs), dev')
    /\ zlen bs = n /\ ready dev' d' /\ healthy d' /\ dev'.(frame_cnt) = dev.(frame_cnt)
    /\ dev'.(pts) = (tail_move dev.(frame_cnt) dev.(pts) n).2
    /\ forall j, bs ++ cached dev' ++ tape d' j = cached dev ++ tape d (k + j).

(** The end of [read_stream], behind the whole blocks. *)
Definition stream_finish (ov : bool) (dev : device) (buff : list Z) (target left : Z)
  : outcome (Z * option (list Z) * device) :=
  let! (ret, buff, dev) := read_left_frame ov dev buff target left in
  if negb (ret =? 0) then Done (ret, Some buff, resetBuffer dev) else Done (ret, Some buff, dev).

Lemma stream_finish_strict (dev : device) (d : D) (buff : list Z) (toff left : Z) :
  ready dev d -> healthy d -> 0 <= left <= dev.(frame_cnt) -> 0 <= toff -> toff + left <= zlen buff ->
  stream_finish false dev buff toff left
  = if apart (left_move dev.(frame_cnt) dev.(pts) left) then stream_finish true dev buff toff left
    else Undef.
Proof.
  intros. unfold stream_finish. rewrite (read_left_strict dev d) by done. by destruct (apart _).
Qed.

Lemma ready_emptied (dev : device) (d d' : D) :
  ready dev d -> ready (set_pts 0 (set_pcm (Some d') dev)) d'.
Proof. intros [P C T B]. constructor; cbn; [done|done|lia|done]. Qed.

(** The number of whole blocks, and what is left after them. *)
Lemma block_count (n size p : Z) :
  0 < size -> 0 <= p <= size -> size <= n ->
  let cnt := if p >? n mod size then n / size - 1 else n / size in
  0 <= cnt /\ 0 <= n - (p + cnt * size) < size /\ cnt * size <= n.
Proof.
  intros Hs Hp Hn cnt. pose proof (Z.div_mod n size ltac:(lia)) as Hd.
  pose proof (Z.mod_pos_bound n size ltac:(lia)) as Hm.
  assert (1 <= n / size) by (apply Z.div_le_lower_bound; lia).
  subst cnt. zif; nia.
Qed.

Lemma cached_copied (dev : device) (b out : list Z) :
  buffer dev = Some b -> 0 <= pts dev <= zlen b -> pts dev <= zlen out ->
  (if pts dev >? 0 then
     let! b := deref (buffer dev) in memcpy out 0 b 0 (pts dev)
   else Done out) = Done (splice out 0 (cached dev)).
Proof.
  intros B Hp Ho. unfold cached. rewrite B. zif.
  - cbn [deref obind]. rewrite memcpy_done by lia. done.
  - replace (pts dev) with 0 by lia. change (take (Z.to_nat 0) b) with (@nil Z).
    by rewrite splice_nil.
Qed.

(** A read of less than a block, and one of a block or more: the cache and the
    whole blocks [x] first, then the rest. *)
Lemma read_stream_small (ov : bool) (dev : device) (d : D) (out : list Z) (n : Z) :
  ready dev d -> 0 <= n < dev.(frame_cnt) ->
  mic_array_device_read_stream ov dev (Some out) n = stream_finish ov dev out 0 n.
Proof.
  intros [P C T _] Hn. unfold mic_array_device_read_stream. rewrite (s32_small (frame_cnt dev)) by lia.
  destruct (frame_cnt dev <=? 0) eqn:Z0; zbool; [lia|]. destruct (n >=? frame_cnt dev) eqn:Z1; zbool; [lia|].
  by rewrite s32_small by lia.
Qed.

Lemma read_stream_blocks (dev : device) (d : D) (out : list Z) (n : Z) :
  ready dev d -> healthy d -> dev.(frame_cnt) <= n <= INT32_MAX -> n <= zlen out ->
  let left := (n - dev.(pts)) mod dev.(frame_cnt) in
  exists x d1 k, zlen x = n - left /\ healthy d1
    /\ (forall j, x ++ tape d1 j = cached dev ++ tape d (k + j))
    /\ forall ov, mic_array_device_read_stream ov dev (Some out) n
       = if left =? 0 then Done (0, Some (splice out 0 x), set_pts 0 (set_pcm (Some d1) dev))
         else stream_finish ov (set_pts 0 (set_pcm (Some d1) dev)) (splice out 0 x) (n - left) left.
Proof.
  intros R Hd Hn Ho. pose proof R as [P C T (b & B & Lb)]. set (size := frame_cnt dev) in *.
  assert (zlen (cached dev) = pts dev) as Lc.
  { unfold cached. rewrite B. unfold zlen in *. rewrite length_take. lia. }
  assert (n / size <= n) by (apply Z.div_le_upper_bound; nia).
  pose proof (Z.div_pos n size ltac:(lia) ltac:(lia)).
  pose proof (Z.mod_pos_bound n size ltac:(lia)).
  destruct (block_count n size (pts dev)) as (K1 & K2 & K3); [lia..|].
  set (cnt := if pts dev >? n mod size then n / size - 1 else n / size) in *.
  intros left. assert (left = n - (pts dev + cnt * size)) as El.
  { symmetry. apply (Z.mod_unique_pos _ _ cnt); lia. }
  clearbody left. destruct (read_frames_ok (Z.to_nat cnt) 0 dev d (splice out 0 (cached dev)) R Hd)
    as (bs & d1 & E & L & Hd1 & Tp); fold size;
    [lia|rewrite (zlen_splice _ 0) by lia; nia|nia|]. fold size in E, L, Tp.
  rewrite Z.mul_0_l, Z.add_0_r in E. rewrite Z2Nat.id in L, Tp by lia.
  exists (cached dev ++ bs), d1, (Z.to_nat (cnt * size)). split; [unfold zlen in *; rewrite length_app; lia|].
  split; [done|]. split; [intros; by rewrite Tp, app_assoc|]. intros ov.
  unfold mic_array_device_read_stream. fold size. rewrite (s32_small size) by lia.
  destruct (size <=? 0) eqn:Z0; zbool; [lia|]. destruct (n >=? size) eqn:Z1; zbool; [|lia].
  rewrite (s32_small (n / size)), (s32_small (n mod size)) by lia.
  assert ((if pts dev >? n mod size then i32 (n / size - 1) else Done (n / size)) = Done cnt) as ->.
  { subst cnt. zif; [|done]. apply i32_done. unfold is_i32, INT32_MIN, INT32_MAX in *. lia. }
  cbn [obind]. rewrite (cached_copied dev b) by (done || lia). cbn [obind].
  rewrite E. cbn [obind negb Z.eqb].
  replace (Z.to_nat (pts dev)) with (0 + length (cached dev))%nat by (unfold zlen in Lc; lia).
  rewrite splice_splice by (unfold zlen in *; nia).
  rewrite i32_done by (unfold is_i32, INT32_MIN, INT32_MAX in *; nia). cbn [obind pts set_pcm].
  rewrite i32_done by (unfold is_i32, INT32_MIN, INT32_MAX in *; nia). cbn [obind].
  rewrite u32_small, s32_small by (unfold is_u32, UINT32_MAX, INT32_MAX in *; nia).
  rewrite <- El. replace (pts dev + cnt * size) with (n - left) by lia. done.
Qed.

(** Where [memcpy] between overlapping ranges is undefined, a read is
    undefined exactly when its move overlaps. *)
Lemma read_stream_strict (dev : device) (d : D) (out : list Z) (n : Z) :
  ready dev d -> healthy d -> 0 <= n <= INT32_MAX -> n <= zlen out ->
  mic_array_device_read_stream false dev (Some out) n
  = if apart (tail_move dev.(frame_cnt) dev.(pts) n) then mic_array_device_read_stream true dev (Some out) n
    else Undef.
Proof.
  intros R Hd Hn Ho. pose proof R as [P C T _]. unfold tail_move. destruct (n >=? frame_cnt dev) eqn:Z1; zbool.
  - destruct (read_stream_blocks dev d out n R Hd) as (x & d1 & k & Lx & Hd1 & Tx & E); [lia|lia|].
    rewrite !E. pose proof (Z.mod_pos_bound (n - pts dev) (frame_cnt dev) ltac:(lia)).
    set (left := (n - pts dev) mod frame_cnt dev) in *. destruct (left =? 0) eqn:Z2; zbool; [done|].
    assert (left <= n) by (subst left; lia).
    rewrite (stream_finish_strict _ d1); [done|by apply (ready_emptied _ d)|done|cbn; lia|lia|].
    rewrite (zlen_splice _ 0) by lia. lia.
  - rewrite !(read_stream_small _ dev d) by (done || lia).
    rewrite (stream_finish_strict _ d) by (done || lia). done.
Qed.

Lemma read_stream_ok (dev : device) (d : D) (out : list Z) (n : Z) :
  ready dev d -> healthy d -> 0 <= n <= INT32_MAX -> n <= zlen out -> stream_spec dev d out n.
Proof.
  intros R Hd Hn Ho. pose proof R as [P C T (b & B & Lb)]. unfold stream_spec, tail_move.
  destruct (n >=? frame_cnt dev) eqn:Z1; zbool.
  - destruct (read_stream_blocks dev d out n R Hd) as (x & d1 & k & Lx & Hd1 & Tx & E); [lia|lia|].
    rewrite E. pose proof (Z.mod_pos_bound (n - pts dev) (frame_cnt dev) ltac:(lia)).
    set (left := (n - pts dev) mod frame_cnt dev) in *. clearbody left.
    pose proof (ready_emptied dev d d1 R) as R1. destruct (left =? 0) eqn:Z2; zbool.
    + exists x, (set_pts 0 (set_pcm (Some d1) dev)), d1, k.
      split; [done|]. split; [lia|]. split_and!; try done.
      intros j. rewrite <- Tx. unfold cached at 1. cbn. rewrite B. done.
    + destruct (read_left_ok (set_pts 0 (set_pcm (Some d1) dev)) d1 (splice out 0 x) (n - left) left)
        as (bs2 & dev2 & d2 & k2 & E2 & L2 & R2 & Hd2 & F2 & M2 & Tp2);
        [done|done|cbn; lia|lia|rewrite (zlen_splice _ 0) by lia; lia|].
      unfold stream_finish. rewrite E2. cbn [obind negb Z.eqb].
      rewrite <- Lx. replace (Z.to_nat (zlen x)) with (0 + length x)%nat by (unfold zlen; lia).
      rewrite splice_splice by (unfold zlen in *; lia).
      exists (x ++ bs2), dev2, d2, (k + k2)%nat.
      split; [done|]. split; [unfold zlen in *; rewrite length_app; lia|].
      split_and!; [done..|]. intros j. rewrite <- app_assoc, Tp2. unfold cached at 1.
      cbn [buffer pts set_pts set_pcm]. rewrite B. change (take (Z.to_nat 0) b) with (@nil Z).
      by rewrite app_nil_l, Tx, Nat.add_assoc.
  - rewrite (read_stream_small _ dev d) by (done || lia). unfold stream_finish.
    destruct (read_left_ok dev d out 0 n) as (bs & dev2 & d2 & k2 & E2 & L2 & R2 & Hd2 & F2 & M2 & Tp2);
      [done|done|lia|lia|lia|].
    rewrite E2. cbn [obind negb Z.eqb]. eexists bs, dev2, d2, k2. split_and!; done.
Qed.
End ReadLemmas.

(** ** Sessions *)

Section Sessions.
Context {D : Type} `{PcmIn D}.
#[local] Abbreviation device := (mic_array_device_ex D).

(** A client that makes one request after the other, each with a buffer of
    its own; the status and the buffer of each request. *)
Fixpoint read_all (overlap_ok : bool) (dev : device) (ns : list Z)
  : outcome (list (Z * list Z) * device) :=
  match ns with
  | [] => Done ([], dev)
  | n :: ns =>
      let! (ret, out, dev) :=
        mic_array_device_read_stream overlap_ok dev (Some (replicate (Z.to_nat n) 0)) n in
      let! (rest, dev) := read_all overlap_ok dev ns in
      Done ((ret, default [] out) :: rest, dev)
  end.
End Sessions.

(** A recording device that counts bytes, for the witnesses. *)
Definition count_bytes (p k : nat) : list Z := map (fun i => Z.of_nat i mod 256) (seq p k).

#[local] Instance count_pcm : PcmIn nat := {|
  pcm_read p n := (0, count_bytes p (Z.to_nat n), (p + Z.to_nat n)%nat);
  pcm_open c := if c =? 0 then Some (0%nat, true) else None
|}.

Lemma length_count_bytes (p k : nat) : length (count_bytes p k) = k.
Proof. unfold count_bytes. by rewrite length_map, length_seq. Qed.

#[local, refine] Instance count_pcm_laws : PcmInLaws nat := {|
  tape := count_bytes;
  healthy _ := True
|}.
Proof.
  - intros d d' n r bs Hn [= <- <- <-]. unfold zlen. rewrite length_count_bytes. lia.
  - intros d d' n bs Hn [= <- <-]. unfold zlen. rewrite length_count_bytes. split; [lia|].
    intros k. unfold count_bytes. by rewrite seq_app, map_app.
  - intros d n Hn _. eauto.
Defined.

Definition count_dev (p : Z) : mic_array_device_ex nat :=
  {| frame_cnt := 4; channels := MIC_CHANNEL; sample_rate := MIC_SAMPLE_RATE; bit := PCM_BITS_S32;
     pcm := Some 0%nat; pts := p; buffer := Some [7; 8; 9; 10] |}.

Lemma count_dev_ready (p : Z) : 0 <= p <= 4 -> ready (count_dev p) 0%nat.
Proof. intros. constructor; cbn; [done|unfold INT32_MAX; lia|done|eauto]. Qed.

(** ** Properties *)

(** The moves of a sequence of reads are free of overlaps, with blocks of [fc]
    bytes and [p] bytes cached at the start. *)
Fixpoint moves_apart (fc p : Z) (ns : list Z) : bool :=
  match ns with
  | [] => true
  | n :: ns => apart (tail_move fc p n) && moves_apart fc (tail_move fc p n).2 ns
  end.

(** C36. Continuity of the recording.  After each read the bytes that stay
    cached are moved to the front of the buffer with [memcpy].  As long as
    the PCM device delivers and no such move overlaps itself ([moves_apart],
    which the sizes of the requests and of the block decide), every read of
    the sequence succeeds and returns exactly the bytes asked for, and what
    all of them return together with what is still cached is the recording
    without a gap or a repetition.  When a move overlaps, the sequence is
    undefined by the C standard; with a [memcpy] that copies such ranges
    correctly ([overlap_ok]) the recording is continuous for all requests. *)
Theorem mic_stream_continuous {D} `{PcmInLaws D} (overlap_ok : bool) (dev : mic_array_device_ex D)
    (d : D) (ns : list Z) :
  ready dev d -> healthy d -> Forall (fun n => 0 <= n <= INT32_MAX) ns ->
  if overlap_ok || moves_apart dev.(frame_cnt) dev.(pts) ns then
    exists outs dev' d' k,
      read_all overlap_ok dev ns = Done (map (pair 0) outs, dev') /\ map zlen outs = ns
      /\ ready dev' d'
      /\ forall j, concat outs ++ cached dev' ++ tape d' j = cached dev ++ tape d (k + j)
  else read_all overlap_ok dev ns = Undef.
Proof.
  revert dev d. induction ns as [|n ns IH]; intros dev d R Hd Hn.
  { cbn [moves_apart]. rewrite orb_true_r. by exists [], dev, d, 0%nat. }
  apply Forall_cons_1 in Hn as [Hn1 Hn2]. cbn [read_all moves_apart].
  assert (n <= zlen (replicate (Z.to_nat n) 0)) as Lr by (unfold zlen; rewrite length_replicate; lia).
  destruct (read_stream_ok dev d (replicate (Z.to_nat n) 0) n R Hd Hn1 Lr)
    as (bs & dev1 & d1 & k1 & E1 & L1 & R1 & Hd1 & F1 & M1 & T1).
  specialize (IH dev1 d1 R1 Hd1 Hn2). rewrite F1, M1 in IH.
  assert (mic_array_device_read_stream overlap_ok dev (Some (replicate (Z.to_nat n) 0)) n
          = if overlap_ok || apart (tail_move (frame_cnt dev) (pts dev) n)
            then Done (0, Some bs, dev1) else Undef) as ->.
  { rewrite splice_all in E1 by (rewrite length_replicate; unfold zlen in L1; lia).
    destruct overlap_ok; [done|]. rewrite (read_stream_strict dev d) by done. by rewrite E1. }
  rewrite orb_andb_distrib_r.
  destruct (overlap_ok || apart (tail_move (frame_cnt dev) (pts dev) n)); cbn [andb obind]; [|done].
  destruct (overlap_ok || moves_apart _ _ ns); [|by rewrite IH].
  destruct IH as (outs & dev2 & d2 & k2 & E2 & L2 & R2 & T2).
  rewrite E2. cbn [obind default]. exists (bs :: outs), dev2, d2, (k1 + k2)%nat.
  split; [done|]. split; [cbn; by rewrite L1, L2|]. split; [done|].
  intros j. cbn [concat]. by rewrite <- app_assoc, T2, T1, Nat.add_assoc.
Qed.

(** With blocks of four bytes: reads whose moves do not overlap, and a small
    read whose move does. *)
Lemma mic_stream_continuous_witness :
  (exists outs dev' d' k,
    read_all false (count_dev 2) [1; 3; 4; 8; 2; 3] = Done (map (pair 0) outs, dev')
    /\ map zlen outs = [1; 3; 4; 8; 2; 3] /\ ready dev' d'
    /\ forall j, concat outs ++ cached dev' ++ tape d' j = [7; 8] ++ tape 0%nat (k + j))
  /\ read_all false (count_dev 0) [4; 1; 3] = Undef.
Proof.
  split.
  - apply (mic_stream_continuous false (count_dev 2) 0%nat [1; 3; 4; 8; 2; 3]).
    + apply count_dev_ready. lia.
    + exact I.
    + repeat constructor; unfold INT32_MAX; lia.
  - apply (mic_stream_continuous false (count_dev 0) 0%nat [4; 1; 3]).
    + apply count_dev_ready. lia.
    + exact I.
    + repeat constructor; unfold INT32_MAX; lia.
Defined.

(** Errors: a read that fails on a started device with valid arguments
    empties the cache, so the samples that were cached are dropped and the
    next read starts with a fresh block. *)
Theorem mic_read_error_resets {D} `{PcmIn D}
    (overlap_ok : bool) (dev dev' : mic_array_device_ex D) (out : list Z)
    (o : option (list Z)) (n r : Z) :
  0 < s32 dev.(frame_cnt) ->
  mic_array_device_read_stream overlap_ok dev (Some out) n = Done (r, o, dev') ->
  r <> 0 -> dev'.(pts) = 0.
Proof.
  intros Hs E Hr. unfold mic_array_device_read_stream in E.
  destruct (s32 (frame_cnt dev) <=? 0) eqn:Z0; zbool; [lia|].
  assert (forall dv bf t l,
            (let! (ret, buff, dv) := read_left_frame overlap_ok dv bf t l in
             if negb (ret =? 0) then Done (ret, Some buff, resetBuffer dv)
             else Done (ret, Some buff, dv)) = Done (r, o, dev') -> pts dev' = 0) as Hfin.
  { intros dv bf t l E1. obinv E1. destruct a as [[q bf'] dv'].
    destruct (q =? 0) eqn:Zq; cbn [negb] in E1; injection E1 as <- <- <-; [zbool; lia|done]. }
  assert (forall k i dv bf q bf' dv',
            read_frames k i (s32 (frame_cnt dev)) dv bf = Done (q, bf', dv') -> q <> 0 ->
            pts dv' = 0) as Hloop.
  { induction k as [|k IH]; intros i dv bf q bf' dv' E1 Hq; cbn [read_frames] in E1.
    - injection E1 as <- <- <-. lia.
    - obinv E1. obinv E1. destruct a0 as [[q1 bf1] dv1].
      destruct (q1 =? 0) eqn:Zq; cbn [negb] in E1; [by eapply IH|by injection E1 as <- <- <-]. }
  destruct (n >=? s32 (frame_cnt dev)); [|by eapply Hfin].
  obinv E. obinv E. obinv E. destruct a1 as [[q bf] dv].
  destruct (q =? 0) eqn:Zq; cbn [negb] in E; zbool.
  - obinv E. obinv E. destruct (u32 _ =? 0); [injection E as <- <- <-; lia|by eapply Hfin].
  - injection E as <- <- <-. by eapply Hloop.
Qed.

(** A device whose reads fail, for the witness. *)
#[local] Instance broken_pcm : PcmIn unit := {|
  pcm_read _ _ := (-1, [], tt);
  pcm_open _ := None
|}.

Lemma mic_read_error_resets_witness :
  let dev := {| frame_cnt := 4; channels := 8; sample_rate := 48000; bit := 32; pcm := Some tt;
                pts := 1; buffer := Some [7; 8; 9; 10] |} in
  exists dev', mic_array_device_read_stream true dev (Some [0; 0; 0]) 3
               = Done (-1, Some [7; 0; 0], dev') /\ dev'.(pts) = 0.
Proof.
  eexists. split; [vm_compute; reflexivity|].
  eapply (mic_read_error_resets true
            {| frame_cnt := 4; channels := 8; sample_rate := 48000; bit := 32; pcm := Some tt;
               pts := 1; buffer := Some [7; 8; 9; 10] |} _ [0; 0; 0] _ 3 (-1));
    [vm_compute; reflexivity|vm_compute; reflexivity|lia].
Defined.

(** Overlapping copies: under the C standard, where [memcpy] between
    overlapping blocks is undefined, a read of less than half a block from an
    empty cache is undefined behaviour: the rest of the block is moved to the
    front with [memcpy]. *)
Theorem mic_small_read_overlaps {D} `{PcmInLaws D}
    (dev : mic_array_device_ex D) (d : D) (out : list Z) (n : Z) :
  ready dev d -> healthy d -> dev.(pts) = 0 -> 0 < n -> 2 * n < dev.(frame_cnt) ->
  n <= zlen out ->
  mic_array_device_read_stream false dev (Some out) n = Undef.
Proof.
  intros R Hd P0 Hn H2 Ho. pose proof R as [P C T (b & B & Lb)].
  unfold mic_array_device_read_stream. rewrite s32_small by lia.
  destruct (frame_cnt dev <=? 0) eqn:Z0; zbool; [lia|].
  destruct (n >=? frame_cnt dev) eqn:Z1; zbool; [lia|].
  rewrite s32_small by lia. unfold read_left_frame. rewrite B, P0. cbn [deref obind Z.eqb].
  destruct (read_frame_ok dev d b 0 R Hd) as (bs & d' & E & L & Hd' & Tp); [lia|lia|].
  rewrite E. cbn [obind]. rewrite splice_all by (unfold zlen in *; lia). cbn [negb Z.eqb].
  rewrite memcpy_done by lia. cbn [obind frame_cnt set_buffer set_pcm].
  rewrite u32_small by (unfold is_u32, UINT32_MAX, INT32_MAX in *; lia).
  unfold memcpy_down. cbn [negb andb].
  destruct (0 <? frame_cnt dev - n) eqn:Z2; zbool; [|lia].
  destruct (n <? frame_cnt dev - n) eqn:Z3; zbool; [|lia]. done.
Qed.

Lemma mic_small_read_overlaps_witness :
  mic_array_device_read_stream false (count_dev 0) (Some [0; 0]) 1 = Undef.
Proof.
  apply (mic_small_read_overlaps (count_dev 0) 0%nat [0; 0] 1);
    [apply count_dev_ready; lia|exact I|done|lia|cbn; lia|vm_compute; discriminate].
Defined.

(** Restart: stopping and starting the stream keeps the cache, so a
    read that the cache can serve returns samples of the earlier session and
    does not touch the new PCM handle. *)
Theorem mic_restart_serves_stale {D} `{PcmInLaws D}
    (cards : string + Z) (dev dev1 : mic_array_device_ex D) (d : D) (out : list Z) (n : Z) :
  ready dev d -> 0 < n <= dev.(pts) -> n < dev.(frame_cnt) -> n <= zlen out ->
  mic_array_device_start_stream cards (snd (mic_array_device_stop_stream dev)) = Done (0, dev1) ->
  exists dev2,
    mic_array_device_read_stream true dev1 (Some out) n
      = Done (0, Some (splice out 0 (take (Z.to_nat n) (cached dev))), dev2)
    /\ dev2.(pcm) = dev1.(pcm).
Proof.
  intros [P C T (b & B & Lb)] Hn Hn2 Ho E.
  unfold mic_array_device_stop_stream in E. rewrite P in E. cbn [snd] in E.
  unfold mic_array_device_start_stream in E. obinv E.
  destruct (pcm_open _) as [[d1 []]|]; try discriminate. injection E as <-.
  unfold mic_array_device_read_stream. cbn [frame_cnt set_pcm]. rewrite s32_small by lia.
  destruct (frame_cnt dev <=? 0) eqn:Z0; zbool; [lia|].
  destruct (n >=? frame_cnt dev) eqn:Z1; zbool; [lia|]. rewrite s32_small by lia.
  unfold read_left_frame. cbn [buffer pts set_pcm]. rewrite B. cbn [deref obind].
  destruct (pts dev =? 0) eqn:Z2; zbool; [lia|].
  destruct (pts dev >=? n) eqn:Z3; zbool; [|lia]. rewrite memcpy_done by lia. cbn [obind].
  rewrite i32_done by (unfold is_i32, INT32_MIN, INT32_MAX in *; lia). cbn [obind].
  assert (zslice b 0 n = take (Z.to_nat n) (cached dev)) as ->.
  { unfold cached, zslice. rewrite B, take_take. cbn. f_equal. lia. }
  destruct (pts dev - n =? 0) eqn:Z4; cbn [negb].
  - eexists. split; reflexivity.
  - rewrite memcpy_down_ok by (zbool; lia). cbn [obind negb Z.eqb]. eexists. split; reflexivity.
Qed.

Lemma mic_restart_serves_stale_witness :
  exists dev1 dev2,
    mic_array_device_start_stream (inr (-1)) (snd (mic_array_device_stop_stream (count_dev 3)))
      = Done (0, dev1)
    /\ mic_array_device_read_stream true dev1 (Some [0; 0]) 2 = Done (0, Some [7; 8], dev2).
Proof.
  eexists. edestruct (mic_restart_serves_stale (inr (-1)) (count_dev 3)) with (d := 0%nat)
    (out := [0; 0]) (n := 2) as (dev2 & E & _);
    [apply count_dev_ready; lia|cbn; lia|cbn; lia|vm_compute; discriminate|reflexivity|].
  exists dev2. split; [reflexivity|exact E].
Defined.

(** ** Finding the sound card *)

Definition newline : ascii := "010"%char.

(** Every character of [s] satisfies [p]. *)
Fixpoint all_chars (p : ascii -> bool) (s : string) : bool :=
  match s with EmptyString => true | String c r => p c && all_chars p r end.

(** A line: no newline and no NUL. *)
Definition is_line (s : string) : bool :=
  all_chars (fun c => negb (code c =? 10) && negb (code c =? 0)) s.

(** The text of a file with these lines. *)
Fixpoint file_text (ls : list string) : string :=
  match ls with
  | [] => EmptyString
  | l :: ls => (l +:+ String newline (file_text ls))%string
  end.

Lemma substring_whole (s : string) (n : nat) :
  (String.length s <= n)%nat -> String.substring 0 n s = s.
Proof.
  revert n. induction s as [|c s IH]; intros n Hn; destruct n; cbn in *; try done; [lia|].
  f_equal. apply IH. lia.
Qed.

Lemma append_cons (c : ascii) (s t : string) :
  (String c s +:+ t)%string = String c (s +:+ t)%string.
Proof. done. Qed.

Lemma append_nil (s : string) : (s +:+ EmptyString)%string = s.
Proof. induction s as [|c s IH]; [done|]. by rewrite append_cons, IH. Qed.

(** The text without its last newline. *)
Fixpoint file_body (ls : list string) : string :=
  match ls with
  | [] => EmptyString
  | [l] => l
  | l :: ls => (l +:+ String newline (file_body ls))%string
  end.

Lemma length_file_text (ls : list string) :
  ls <> [] -> String.length (file_text ls) = S (String.length (file_body ls)).
Proof.
  induction ls as [|l ls IH]; [done|]. intros _. destruct ls as [|l' ls].
  - cbn [file_text file_body]. rewrite length_append. cbn. lia.
  - cbn [file_text file_body] in *. rewrite !length_append. cbn [String.length].
    rewrite IH by done. lia.
Qed.

Lemma substring_append (s t : string) (n : nat) :
  String.substring 0 (String.length s + n) (s +:+ t) = (s +:+ String.substring 0 n t)%string.
Proof.
  induction s as [|c s IH]; [done|]. rewrite !append_cons. cbn. by rewrite IH.
Qed.

Lemma substring_body (ls : list string) :
  ls <> [] -> String.substring 0 (String.length (file_body ls)) (file_text ls) = file_body ls.
Proof.
  induction ls as [|l ls IH]; [done|]. intros _. destruct ls as [|l' ls].
  - cbn [file_body file_text]. rewrite <- (Nat.add_0_r (String.length l)), substring_append. cbn.
    apply append_nil.
  - cbn [file_body file_text]. rewrite length_append, substring_append. cbn. do 2 f_equal.
    exact (IH ltac:(done)).
Qed.

Lemma c_str_no_nul (s : string) : all_chars (fun c => negb (code c =? 0)) s = true -> c_str s = s.
Proof.
  induction s as [|c s IH]; [done|]. cbn. intros [Hc Hs]%andb_prop.
  destruct (code c =? 0); [done|]. by rewrite IH.
Qed.

Lemma all_chars_app (p : ascii -> bool) (s t : string) :
  all_chars p (s +:+ t)%string = all_chars p s && all_chars p t.
Proof.
  induction s as [|c s IH]; [done|]. rewrite append_cons. cbn. by rewrite IH, andb_assoc.
Qed.

Lemma is_line_no_nul (s : string) :
  is_line s = true -> all_chars (fun c => negb (code c =? 0)) s = true.
Proof.
  induction s as [|c s IH]; [done|]. cbn. intros [[_ Hc]%andb_prop Hs]%andb_prop.
  rewrite Hc. by apply IH.
Qed.

Lemma body_no_nul (ls : list string) :
  Forall (fun l => is_line l = true) ls ->
  all_chars (fun c => negb (code c =? 0)) (file_body ls) = true.
Proof.
  induction ls as [|l ls IH]; [done|]. intros [Hl Hls]%Forall_cons_1.
  apply is_line_no_nul in Hl. destruct ls as [|l' ls]; [done|].
  cbn [file_body]. rewrite all_chars_app, Hl. cbn. by apply IH.
Qed.

Lemma split_line (l r : string) :
  is_line l = true -> split_newline (l +:+ String newline r)%string = Some (l, r).
Proof.
  induction l as [|c l IH]; [done|]. rewrite append_cons. cbn.
  intros [[Hc _]%andb_prop Hl]%andb_prop. destruct (code c =? 10); [done|]. by rewrite IH.
Qed.

Lemma split_last (l : string) : is_line l = true -> split_newline l = None.
Proof.
  induction l as [|c l IH]; [done|]. cbn. intros [[Hc _]%andb_prop Hl]%andb_prop.
  destruct (code c =? 10); [done|]. by rewrite IH.
Qed.

(** The first line that names the card. *)
Definition first_match (snd : string) (ls : list string) : outcome Z :=
  match List.find (contains snd) ls with Some l => atoi l | None => Done (-1) end.

Lemma find_line_body (snd : string) (ls : list string) (fuel : nat) :
  ls <> [] -> Forall (fun l => is_line l = true) ls ->
  (String.length (file_body ls) < fuel)%nat ->
  find_line fuel snd (file_body ls) = first_match snd (removelast ls).
Proof.
  revert fuel. induction ls as [|l ls IH]; [done|]. intros fuel _ [Hl Hls]%Forall_cons_1 Hf.
  destruct fuel as [|fuel]; [lia|]. destruct ls as [|l' ls].
  - cbn. by rewrite split_last.
  - cbn [find_line]. change (file_body (l :: l' :: ls))
      with (l +:+ String newline (file_body (l' :: ls)))%string in *.
    rewrite split_line by done. cbn [removelast]. unfold first_match. cbn [List.find].
    destruct (contains snd l); [done|]. apply IH; [done|done|].
    rewrite length_append in Hf. cbn [String.length] in Hf. lia.
Qed.

(** [find_snd] on a listing of at most 4095 bytes returns the number at
    the start of the first line that names the driver, and -1 when none
    does; the last line of the listing is never considered, because its
    newline is overwritten by the terminator. *)
Theorem find_snd_first_match (snd : string) (ls : list string) :
  ls <> [] -> Forall (fun l => is_line l = true) ls ->
  (String.length (file_text ls) <= 4095)%nat ->
  find_snd (inl (file_text ls)) snd = first_match snd (removelast ls).
Proof.
  intros Hne Hls Hlen. unfold find_snd. rewrite substring_whole by done.
  rewrite length_file_text by done. destruct (_ =? 0) eqn:E; zbool; [lia|].
  replace (Z.to_nat (Z.of_nat (S (String.length (file_body ls))) - 1))
    with (String.length (file_body ls)) by lia.
  rewrite substring_body, c_str_no_nul by (done || by apply body_no_nul).
  apply find_line_body; [done|done|lia].
Qed.

Lemma find_snd_first_match_witness :
  find_snd (inl (file_text [" 0 [PCH]: HDA-Intel"; "   at irq 32"; " 1 [Mic]: USB-Audio";
                            "   at usb-1"]%string)) "USB-Audio" = Done 1.
Proof.
  rewrite (find_snd_first_match "USB-Audio"
             [" 0 [PCH]: HDA-Intel"; "   at irq 32"; " 1 [Mic]: USB-Audio"; "   at usb-1"]%string);
    [reflexivity|discriminate|repeat constructor|vm_compute; lia].
Defined.
