(* ===== verification/PcmParams.v ===== *)
(** * Hardware parameters of PCM plugins

    Models the parameter half of [plugin/pcm_plugin.c]: the masks and
    intervals of [struct snd_pcm_hw_params], the constraints of a plugin, the
    refinement of a request against them and the selection of one
    configuration.  Unsigned arithmetic wraps at 32 bits. *)

From stdpp Require Import base list numbers.
From Stdlib Require Import ZArith Lia.
From S2P Require Import Prelude.

#[local] Open Scope Z_scope.

(** ** The ALSA parameter numbers *)

Definition SNDRV_PCM_HW_PARAM_ACCESS : Z := 0.
Definition SNDRV_PCM_HW_PARAM_FORMAT : Z := 1.
Definition SNDRV_PCM_HW_PARAM_SUBFORMAT : Z := 2.
Definition SNDRV_PCM_HW_PARAM_FIRST_MASK : Z := 0.
Definition SNDRV_PCM_HW_PARAM_LAST_MASK : Z := 2.
Definition SNDRV_PCM_HW_PARAM_SAMPLE_BITS : Z := 8.
Definition SNDRV_PCM_HW_PARAM_FRAME_BITS : Z := 9.
Definition SNDRV_PCM_HW_PARAM_CHANNELS : Z := 10.
Definition SNDRV_PCM_HW_PARAM_RATE : Z := 11.
Definition SNDRV_PCM_HW_PARAM_PERIOD_SIZE : Z := 13.
Definition SNDRV_PCM_HW_PARAM_PERIOD_BYTES : Z := 14.
Definition SNDRV_PCM_HW_PARAM_PERIODS : Z := 15.
Definition SNDRV_PCM_HW_PARAM_BUFFER_SIZE : Z := 17.
Definition SNDRV_PCM_HW_PARAM_BUFFER_BYTES : Z := 18.
Definition SNDRV_PCM_HW_PARAM_FIRST_INTERVAL : Z := 8.
Definition SNDRV_PCM_HW_PARAM_LAST_INTERVAL : Z := 19.
Definition SNDRV_PCM_SUBFORMAT_STD : Z := 0.

(** ** Data *)

(** The two words of [struct snd_mask] the code uses ([PCM_MASK_SIZE]). *)
Record snd_mask := { bits0 : Z; bits1 : Z }.

Record snd_interval := {
  i_min : Z;
  i_max : Z;
  openmin : bool;
  openmax : bool;
  integer : bool
}.

(** Three masks and twelve intervals. *)
Record snd_pcm_hw_params := {
  masks : list snd_mask;
  intervals : list snd_interval;
  rmask : Z;
  cmask : Z
}.

Record pcm_plugin_min_max := { mm_min : Z; mm_max : Z }.

Record pcm_plugin_hw_constraints := {
  access : Z;
  format : Z;
  bit_width : pcm_plugin_min_max;
  hc_channels : pcm_plugin_min_max;
  hc_rate : pcm_plugin_min_max;
  periods : pcm_plugin_min_max;
  period_bytes : pcm_plugin_min_max
}.

#[global] Instance snd_mask_eq_dec : EqDecision snd_mask.
Proof. solve_decision. Defined.

#[global] Instance snd_mask_inhabited : Inhabited snd_mask := populate {| bits0 := 0; bits1 := 0 |}.

Definition zero_interval : snd_interval :=
  {| i_min := 0; i_max := 0; openmin := false; openmax := false; integer := false |}.

#[global] Instance snd_interval_inhabited : Inhabited snd_interval := populate zero_interval.

Definition set_masks (l : list snd_mask) (p : snd_pcm_hw_params) : snd_pcm_hw_params :=
  {| masks := l; intervals := p.(intervals); rmask := p.(rmask); cmask := p.(cmask) |}.

Definition set_intervals (l : list snd_interval) (p : snd_pcm_hw_params) : snd_pcm_hw_params :=
  {| masks := p.(masks); intervals := l; rmask := p.(rmask); cmask := p.(cmask) |}.

Definition set_rmask (m : Z) (p : snd_pcm_hw_params) : snd_pcm_hw_params :=
  {| masks := p.(masks); intervals := p.(intervals); rmask := m; cmask := p.(cmask) |}.

Definition set_cmask (m : Z) (p : snd_pcm_hw_params) : snd_pcm_hw_params :=
  {| masks := p.(masks); intervals := p.(intervals); rmask := p.(rmask); cmask := m |}.

(** [memset (&params, 0, sizeof params)] *)
Definition zero_params : snd_pcm_hw_params :=
  {| masks := replicate 3 {| bits0 := 0; bits1 := 0 |};
     intervals := replicate 12 zero_interval; rmask := 0; cmask := 0 |}.

(** [&params->intervals[p - FIRST_INTERVAL]] *)
Definition interval_at (p : snd_pcm_hw_params) (n : Z) : snd_interval :=
  p.(intervals) !!! Z.to_nat (n - SNDRV_PCM_HW_PARAM_FIRST_INTERVAL).

Definition put_interval (n : Z) (i : snd_interval) (p : snd_pcm_hw_params) : snd_pcm_hw_params :=
  set_intervals (<[Z.to_nat (n - SNDRV_PCM_HW_PARAM_FIRST_INTERVAL) := i]> p.(intervals)) p.

(** ** Constraints of a plugin *)

Definition pcm_plug_set_mask (n v : Z) (p : snd_pcm_hw_params) : snd_pcm_hw_params :=
  let k := Z.to_nat (n - SNDRV_PCM_HW_PARAM_FIRST_MASK) in
  let mask := p.(masks) !!! k in
  set_masks (<[k := {| bits0 := Z.lor mask.(bits0) (Z.land v 4294967295);
                       bits1 := Z.lor mask.(bits1) (Z.land (Z.shiftr v 32) 4294967295) |}]>
               p.(masks)) p.

Definition pcm_plug_set_interval (n : Z) (v : pcm_plugin_min_max) (is_integer : bool)
    (p : snd_pcm_hw_params) : snd_pcm_hw_params :=
  let i := interval_at p n in
  put_interval n {| i_min := v.(mm_min); i_max := v.(mm_max); openmin := i.(openmin);
                    openmax := i.(openmax); integer := is_integer || i.(integer) |} p.

(** The result is an [int] that every caller stores in an [unsigned int]. *)
Definition pcm_plug_frames_to_bytes (frames frame_bits : Z) : Z := u32 (frames * (frame_bits / 8)).

Definition pcm_plug_bytes_to_frames (size frame_bits : Z) : outcome Z :=
  if frame_bits =? 0 then Undef else Done (u32 (size * 8) / frame_bits).

Definition pcm_plug_get_params (c : pcm_plugin_hw_constraints) (params : snd_pcm_hw_params)
  : outcome snd_pcm_hw_params :=
  let params := pcm_plug_set_mask SNDRV_PCM_HW_PARAM_ACCESS c.(access) params in
  let params := pcm_plug_set_mask SNDRV_PCM_HW_PARAM_FORMAT c.(format) params in
  let params := pcm_plug_set_mask SNDRV_PCM_HW_PARAM_SUBFORMAT SNDRV_PCM_SUBFORMAT_STD params in
  let params := pcm_plug_set_interval SNDRV_PCM_HW_PARAM_SAMPLE_BITS c.(bit_width) true params in
  let params := pcm_plug_set_interval SNDRV_PCM_HW_PARAM_CHANNELS c.(hc_channels) true params in
  let params := pcm_plug_set_interval SNDRV_PCM_HW_PARAM_RATE c.(hc_rate) true params in
  let params := pcm_plug_set_interval SNDRV_PCM_HW_PARAM_PERIOD_BYTES c.(period_bytes) false params in
  let params := pcm_plug_set_interval SNDRV_PCM_HW_PARAM_PERIODS c.(periods) true params in
  let bw := c.(bit_width) in
  let ch := c.(hc_channels) in
  let pb := c.(period_bytes) in
  let periods := c.(periods) in
  let frame_bits := {| mm_min := u32 (bw.(mm_min) * ch.(mm_min));
                       mm_max := u32 (bw.(mm_max) * ch.(mm_max)) |} in
  let params := pcm_plug_set_interval SNDRV_PCM_HW_PARAM_FRAME_BITS frame_bits true params in
  let! vmin := pcm_plug_bytes_to_frames pb.(mm_min) frame_bits.(mm_min) in
  let! vmax := pcm_plug_bytes_to_frames pb.(mm_max) frame_bits.(mm_min) in
  let params := pcm_plug_set_interval SNDRV_PCM_HW_PARAM_PERIOD_SIZE
                  {| mm_min := vmin; mm_max := vmax |} true params in
  let buffer_bytes := {| mm_min := u32 (pb.(mm_min) * periods.(mm_min));
                         mm_max := u32 (pb.(mm_max) * periods.(mm_max)) |} in
  let params := pcm_plug_set_interval SNDRV_PCM_HW_PARAM_BUFFER_BYTES buffer_bytes true params in
  let! vmin := pcm_plug_bytes_to_frames buffer_bytes.(mm_min) frame_bits.(mm_min) in
  let! vmax := pcm_plug_bytes_to_frames buffer_bytes.(mm_max) frame_bits.(mm_min) in
  Done (pcm_plug_set_interval SNDRV_PCM_HW_PARAM_BUFFER_SIZE
          {| mm_min := vmin; mm_max := vmax |} true params).

(** ** Refinement *)

Definition mask_and (a b : snd_mask) : snd_mask :=
  {| bits0 := Z.land a.(bits0) b.(bits0); bits1 := Z.land a.(bits1) b.(bits1) |}.

(** The loop over the masks, from index [idx] on: the refined masks and the
    changed mask. *)
Fixpoint masks_loop (rm cm idx : Z) (req con : list snd_mask) : list snd_mask * Z :=
  match req, con with
  | r :: req, c :: con =>
      let bit := Z.shiftl 1 (idx + SNDRV_PCM_HW_PARAM_FIRST_MASK) in
      if Z.land rm bit =? 0 then
        let '(l, cm) := masks_loop rm cm (idx + 1) req con in (r :: l, cm)
      else
        let cm := if bool_decide (r = c) then cm else Z.lor cm bit in
        let '(l, cm) := masks_loop rm cm (idx + 1) req con in (mask_and r c :: l, cm)
  | _, _ => (req, cm)
  end.

Definition pcm_plug_masks_refine (p c : snd_pcm_hw_params) : Z * snd_pcm_hw_params :=
  let '(l, cm) := masks_loop p.(rmask) p.(cmask) 0 p.(masks) c.(masks) in
  (0, set_cmask cm (set_masks l p)).

(** The body of the interval loop: the new interval, and whether [changed]
    was set. *)
Definition refine_one (ri ci : snd_interval) : snd_interval * bool :=
  let '(mn, omn, ch1) :=
    if ri.(i_min) <? ci.(i_min) then (ci.(i_min), ci.(openmin), true)
    else if (ri.(i_min) =? ci.(i_min)) && negb ri.(openmin) && ci.(openmin)
         then (ri.(i_min), true, true)
    else (ri.(i_min), ri.(openmin), false) in
  let '(mx, omx, ch2) :=
    if ri.(i_max) >? ci.(i_max) then (ci.(i_max), ci.(openmax), true)
    else if (ri.(i_max) =? ci.(i_max)) && negb ri.(openmax) && ci.(openmax)
         then (ri.(i_max), true, true)
    else (ri.(i_max), ri.(openmax), false) in
  let '(int, ch3) :=
    if negb ri.(integer) && ci.(integer) then (true, true) else (ri.(integer), false) in
  let changed := ch1 || ch2 || ch3 in
  if int then
    ({| i_min := if omn then u32 (mn + 1) else mn;
        i_max := if omx then u32 (mx - 1) else mx;
        openmin := false; openmax := false; integer := true |}, changed)
  else
    ({| i_min := mn; i_max := mx; openmin := omn; openmax := omx;
        integer := negb omn && negb omx && (mn =? mx) |}, changed).

(** The loop over the intervals; [changed] is never reset. *)
Fixpoint intervals_loop (rm cm idx : Z) (changed : bool) (req con : list snd_interval)
  : list snd_interval * Z :=
  match req, con with
  | r :: req, c :: con =>
      let bit := Z.shiftl 1 (idx + SNDRV_PCM_HW_PARAM_FIRST_INTERVAL) in
      if Z.land rm bit =? 0 then
        let '(l, cm) := intervals_loop rm cm (idx + 1) changed req con in (r :: l, cm)
      else
        let '(r, ch) := refine_one r c in
        let changed := changed || ch in
        let cm := if changed then Z.lor cm bit else cm in
        let '(l, cm) := intervals_loop rm cm (idx + 1) changed req con in (r :: l, cm)
  | _, _ => (req, cm)
  end.

Definition pcm_plug_interval_refine (p c : snd_pcm_hw_params) : Z * snd_pcm_hw_params :=
  let '(l, cm) := intervals_loop p.(rmask) p.(cmask) 0 false p.(intervals) c.(intervals) in
  (0, set_cmask cm (set_intervals l p)).

Definition pcm_plug_hw_params_refine (p c : snd_pcm_hw_params) : Z * snd_pcm_hw_params :=
  let '(rc, p) := pcm_plug_masks_refine p c in
  if negb (rc =? 0) then (rc, p)
  else
    let '(rc, p) := pcm_plug_interval_refine p c in
    if negb (rc =? 0) then (rc, p) else (rc, set_rmask 0 p).

(** [__pcm_plug_hrefine] and [pcm_plug_hrefine], given the constraints. *)
Definition pcm_plug_hrefine (c : pcm_plugin_hw_constraints) (params : snd_pcm_hw_params)
  : outcome (Z * snd_pcm_hw_params) :=
  let! plug_params := pcm_plug_get_params c zero_params in
  Done (pcm_plug_hw_params_refine params plug_params).

(** ** Selection of one configuration *)

Inductive hw_param_select :=
| PCM_PLUG_HW_PARAM_SELECT_MIN
| PCM_PLUG_HW_PARAM_SELECT_MAX
| PCM_PLUG_HW_PARAM_SELECT_VAL.

Definition with_range (mn mx : Z) (i : snd_interval) : snd_interval :=
  {| i_min := mn; i_max := mx; openmin := i.(openmin); openmax := i.(openmax);
     integer := i.(integer) |}.

Definition pcm_plug_interval_select (param : Z) (select : hw_param_select) (val : Z)
    (p : snd_pcm_hw_params) : Z * snd_pcm_hw_params :=
  if (param <? SNDRV_PCM_HW_PARAM_FIRST_INTERVAL) || (param >? SNDRV_PCM_HW_PARAM_LAST_INTERVAL)
  then (- EINVAL, p)
  else
    let i := interval_at p param in
    if i.(i_min) =? 0 then (- EINVAL, p)
    else
      match select with
      | PCM_PLUG_HW_PARAM_SELECT_MIN => (0, put_interval param (with_range i.(i_min) i.(i_min) i) p)
      | PCM_PLUG_HW_PARAM_SELECT_MAX => (0, put_interval param (with_range i.(i_max) i.(i_max) i) p)
      | PCM_PLUG_HW_PARAM_SELECT_VAL => (0, put_interval param (with_range val val i) p)
      end.

Definition param_list : list Z :=
  [SNDRV_PCM_HW_PARAM_SAMPLE_BITS; SNDRV_PCM_HW_PARAM_CHANNELS; SNDRV_PCM_HW_PARAM_RATE;
   SNDRV_PCM_HW_PARAM_PERIOD_SIZE; SNDRV_PCM_HW_PARAM_PERIODS].

(** The statuses of the selections are ignored. *)
Definition pcm_plug_hw_params_set (p : snd_pcm_hw_params) : snd_pcm_hw_params :=
  let p := fold_left (fun p n => snd (pcm_plug_interval_select n PCM_PLUG_HW_PARAM_SELECT_MIN 0 p))
             param_list p in
  let bw := (interval_at p SNDRV_PCM_HW_PARAM_SAMPLE_BITS).(i_min) in
  let ch := (interval_at p SNDRV_PCM_HW_PARAM_CHANNELS).(i_min) in
  let period_sz := (interval_at p SNDRV_PCM_HW_PARAM_PERIOD_SIZE).(i_min) in
  let periods := (interval_at p SNDRV_PCM_HW_PARAM_PERIODS).(i_min) in
  let val n v p := snd (pcm_plug_interval_select n PCM_PLUG_HW_PARAM_SELECT_VAL v p) in
  let val1 := u32 (bw * ch) in
  let p := val SNDRV_PCM_HW_PARAM_FRAME_BITS val1 p in
  let p := val SNDRV_PCM_HW_PARAM_PERIOD_BYTES (pcm_plug_frames_to_bytes period_sz val1) p in
  let p := val SNDRV_PCM_HW_PARAM_BUFFER_SIZE (u32 (period_sz * periods)) p in
  val SNDRV_PCM_HW_PARAM_BUFFER_BYTES
      (pcm_plug_frames_to_bytes (u32 (period_sz * periods)) val1) p.

(** ** Intervals as sets of numbers *)

Definition member (x : Z) (i : snd_interval) : Prop :=
  (if i.(openmin) then i.(i_min) < x else i.(i_min) <= x)
  /\ (if i.(openmax) then x < i.(i_max) else x <= i.(i_max)).

(** Bounds of the C type; an open bound can be moved inwards by one. *)
Record interval_ok (i : snd_interval) : Prop := {
  ok_min : is_u32 i.(i_min);
  ok_max : is_u32 i.(i_max);
  ok_openmin : i.(openmin) = true -> i.(i_min) < UINT32_MAX;
  ok_openmax : i.(openmax) = true -> 0 < i.(i_max)
}.

Lemma refine_one_member (r c : snd_interval) (x : Z) :
  interval_ok r -> interval_ok c ->
  member x (fst (refine_one r c)) <-> member x r /\ member x c.
Proof.
  intros [R1 R2 R3 R4] [C1 C2 C3 C4]. unfold is_u32 in *.
  destruct r as [rmn rmx romn romx ri], c as [cmn cmx comn comx ci]. cbn in *.
  unfold refine_one, member. cbn.
  destruct (rmn <? cmn) eqn:E1; [|destruct (rmn =? cmn) eqn:E2]; zbool;
  (destruct (rmx >? cmx) eqn:E3; [|destruct (rmx =? cmx) eqn:E4]); zbool;
  destruct romn, comn, romx, comx; cbn; destruct ri, ci; cbn;
  rewrite ?u32_small by (unfold is_u32; intuition lia); intuition lia.
Qed.

(** ** The loops, index by index *)

(** Bit [k] of the request: the parameter is to be refined. *)
Definition requested (rm k : Z) : bool := negb (Z.land rm (Z.shiftl 1 k) =? 0).

Lemma requested_testbit (rm k : Z) : 0 <= k -> requested rm k = Z.testbit rm k.
Proof.
  intros Hk. unfold requested. rewrite Z.shiftl_1_l. destruct (Z.testbit rm k) eqn:E.
  - assert (Z.land rm (2 ^ k) <> 0) as N.
    { intros N. assert (Z.testbit (Z.land rm (2 ^ k)) k = true) as T
        by (rewrite Z.land_spec, E, Z.pow2_bits_true by lia; done).
      rewrite N, Z.bits_0 in T. done. }
    destruct (_ =? 0) eqn:E0; zbool; [done|done].
  - assert (Z.land rm (2 ^ k) = 0) as ->; [|done].
    apply Z.bits_inj'. intros n Hn. rewrite Z.land_spec, Z.bits_0.
    destruct (Z.eq_dec n k) as [-> | N]; [by rewrite E|].
    rewrite Z.pow2_bits_false by lia. apply andb_false_r.
Qed.

Lemma masks_loop_lookup (rm cm idx : Z) (req con : list snd_mask) (k : nat) :
  length req = length con ->
  fst (masks_loop rm cm idx req con) !! k =
    match req !! k, con !! k with
    | Some r, Some c =>
        Some (if requested rm (idx + Z.of_nat k + SNDRV_PCM_HW_PARAM_FIRST_MASK)
              then mask_and r c else r)
    | _, _ => None
    end.
Proof.
  revert cm idx con k. induction req as [|r req IH]; intros cm idx [|c con] k L; try done.
  cbn in L. injection L as L. cbn [masks_loop]. unfold requested.
  destruct (Z.land rm _ =? 0) eqn:E.
  - specialize (fun k => IH cm (idx + 1) con k L).
    destruct (masks_loop rm cm (idx + 1) req con) as [l cm']. cbn [fst] in *.
    destruct k as [|k]; cbn [lookup list_lookup].
    + replace (idx + Z.of_nat 0) with idx by lia. rewrite E. done.
    + rewrite IH. destruct (req !! k), (con !! k); try done.
      replace (idx + 1 + Z.of_nat k) with (idx + Z.of_nat (S k)) by lia. done.
  - set (cm1 := if bool_decide (r = c) then cm else _). clearbody cm1.
    specialize (fun k => IH cm1 (idx + 1) con k L).
    destruct (masks_loop rm cm1 (idx + 1) req con) as [l cm']. cbn [fst] in *.
    destruct k as [|k]; cbn [lookup list_lookup].
    + replace (idx + Z.of_nat 0) with idx by lia. rewrite E. done.
    + rewrite IH. destruct (req !! k), (con !! k); try done.
      replace (idx + 1 + Z.of_nat k) with (idx + Z.of_nat (S k)) by lia. done.
Qed.

Lemma intervals_loop_lookup (rm cm idx : Z) (ch : bool) (req con : list snd_interval) (k : nat) :
  length req = length con ->
  fst (intervals_loop rm cm idx ch req con) !! k =
    match req !! k, con !! k with
    | Some r, Some c =>
        Some (if requested rm (idx + Z.of_nat k + SNDRV_PCM_HW_PARAM_FIRST_INTERVAL)
              then fst (refine_one r c) else r)
    | _, _ => None
    end.
Proof.
  revert cm idx ch con k. induction req as [|r req IH]; intros cm idx ch [|c con] k L; try done.
  cbn in L. injection L as L. cbn [intervals_loop]. unfold requested.
  destruct (Z.land rm _ =? 0) eqn:E.
  - specialize (fun k => IH cm (idx + 1) ch con k L).
    destruct (intervals_loop rm cm (idx + 1) ch req con) as [l cm']. cbn [fst] in *.
    destruct k as [|k]; cbn [lookup list_lookup].
    + replace (idx + Z.of_nat 0) with idx by lia. rewrite E. done.
    + rewrite IH. destruct (req !! k), (con !! k); try done.
      replace (idx + 1 + Z.of_nat k) with (idx + Z.of_nat (S k)) by lia. done.
  - destruct (refine_one r c) as [r1 ch1] eqn:Er.
    set (cm1 := if ch || ch1 then _ else cm). clearbody cm1.
    specialize (fun k => IH cm1 (idx + 1) (ch || ch1) con k L).
    destruct (intervals_loop rm cm1 (idx + 1) (ch || ch1) req con) as [l cm']. cbn [fst] in *.
    destruct k as [|k]; cbn [lookup list_lookup].
    + replace (idx + Z.of_nat 0) with idx by lia. rewrite E, Er. done.
    + rewrite IH. destruct (req !! k), (con !! k); try done.
      replace (idx + 1 + Z.of_nat k) with (idx + Z.of_nat (S k)) by lia. done.
Qed.

(** ** Well-formed parameters *)

Record params_ok (p : snd_pcm_hw_params) : Prop := {
  po_masks : length p.(masks) = 3%nat;
  po_intervals : length p.(intervals) = 12%nat;
  po_ok : Forall interval_ok p.(intervals)
}.

Definition mm_ok (m : pcm_plugin_min_max) : Prop := is_u32 m.(mm_min) /\ is_u32 m.(mm_max).

Record constraints_ok (c : pcm_plugin_hw_constraints) : Prop := {
  co_bw : mm_ok c.(bit_width);
  co_ch : mm_ok c.(hc_channels);
  co_rate : mm_ok c.(hc_rate);
  co_periods : mm_ok c.(periods);
  co_pb : mm_ok c.(period_bytes)
}.

Lemma set_mask_ok (n v : Z) (p : snd_pcm_hw_params) :
  params_ok p -> params_ok (pcm_plug_set_mask n v p).
Proof. intros [L1 L2 F]. constructor; cbn; [by rewrite length_insert|done|done]. Qed.

(** Every interval of the parameters is closed, as in a plugin's. *)
Definition all_closed (p : snd_pcm_hw_params) : Prop :=
  Forall (fun i => openmin i = false /\ openmax i = false) p.(intervals).

Lemma closed_at (p : snd_pcm_hw_params) (n : Z) :
  all_closed p -> openmin (interval_at p n) = false /\ openmax (interval_at p n) = false.
Proof.
  intros C. unfold interval_at. set (k := Z.to_nat _).
  destruct (intervals p !! k) as [i|] eqn:E.
  - rewrite (list_lookup_total_correct _ _ _ E). by apply (Forall_lookup_1 _ _ _ _ C E).
  - rewrite list_lookup_total_alt, E. done.
Qed.

Lemma set_interval_ok (n : Z) (v : pcm_plugin_min_max) (b : bool) (p : snd_pcm_hw_params) :
  params_ok p -> all_closed p -> mm_ok v ->
  params_ok (pcm_plug_set_interval n v b p) /\ all_closed (pcm_plug_set_interval n v b p).
Proof.
  intros [L1 L2 F] C [V1 V2]. destruct (closed_at p n C) as [O1 O2]. split.
  - constructor; cbn; [done|by rewrite length_insert|].
    apply Forall_insert; [done|]. constructor; cbn; [done|done| |]; by rewrite ?O1, ?O2.
  - unfold all_closed. cbn. by apply Forall_insert.
Qed.

Lemma zero_params_ok : params_ok zero_params /\ all_closed zero_params.
Proof.
  split; [constructor; cbn; [done|done|]|unfold all_closed; cbn; repeat constructor].
  assert (interval_ok zero_interval) by (constructor; cbn; unfold is_u32, UINT32_MAX; done || lia).
  repeat constructor; done.
Qed.

Lemma mm_u32 (a b : Z) : mm_ok {| mm_min := u32 a; mm_max := u32 b |}.
Proof. split; apply u32_range. Qed.

Lemma bytes_to_frames_u32 (s f v : Z) :
  is_u32 f -> pcm_plug_bytes_to_frames s f = Done v -> is_u32 v.
Proof.
  unfold pcm_plug_bytes_to_frames. intros [F1 F2]. destruct (f =? 0) eqn:E; [done|]. zbool.
  intros [= <-]. pose proof (u32_range (s * 8)) as [U1 U2]. split.
  - apply Z.div_pos; lia.
  - etransitivity; [|exact U2]. apply Z.div_le_upper_bound; [lia|]. nia.
Qed.

Lemma get_params_ok (c : pcm_plugin_hw_constraints) (q : snd_pcm_hw_params) :
  constraints_ok c -> pcm_plug_get_params c zero_params = Done q -> params_ok q.
Proof.
  intros [C1 C2 C3 C4 C5] E. unfold pcm_plug_get_params in E.
  assert (params_ok (pcm_plug_set_mask SNDRV_PCM_HW_PARAM_SUBFORMAT SNDRV_PCM_SUBFORMAT_STD
            (pcm_plug_set_mask SNDRV_PCM_HW_PARAM_FORMAT (format c)
               (pcm_plug_set_mask SNDRV_PCM_HW_PARAM_ACCESS (access c) zero_params)))
          /\ all_closed (pcm_plug_set_mask SNDRV_PCM_HW_PARAM_SUBFORMAT SNDRV_PCM_SUBFORMAT_STD
            (pcm_plug_set_mask SNDRV_PCM_HW_PARAM_FORMAT (format c)
               (pcm_plug_set_mask SNDRV_PCM_HW_PARAM_ACCESS (access c) zero_params)))) as [K K'].
  { split; [|apply zero_params_ok]. do 3 apply set_mask_ok. apply zero_params_ok. }
  set (p0 := pcm_plug_set_mask SNDRV_PCM_HW_PARAM_SUBFORMAT _ _) in E, K, K'. clearbody p0.
  obinv E. obinv E. obinv E. obinv E. injection E as <-.
  pose proof (bytes_to_frames_u32 _ _ _ (u32_range _) E0).
  pose proof (bytes_to_frames_u32 _ _ _ (u32_range _) E1).
  pose proof (bytes_to_frames_u32 _ _ _ (u32_range _) E2).
  pose proof (bytes_to_frames_u32 _ _ _ (u32_range _) E3).
  repeat match goal with
  | |- params_ok (pcm_plug_set_interval ?n ?v ?b ?p) =>
      apply (set_interval_ok n v b p); [| |first [done | apply mm_u32 | by split]]
  | |- all_closed (pcm_plug_set_interval ?n ?v ?b ?p) =>
      apply (set_interval_ok n v b p); [| |first [done | apply mm_u32 | by split]]
  end; done.
Qed.

(** The refinement returns whenever the plugin's smallest frame is not empty. *)
Lemma hrefine_done (c : pcm_plugin_hw_constraints) (p : snd_pcm_hw_params) :
  u32 (mm_min (bit_width c) * mm_min (hc_channels c)) <> 0 ->
  exists p', pcm_plug_hrefine c p = Done (0, p').
Proof.
  intros N. unfold pcm_plug_hrefine, pcm_plug_get_params, pcm_plug_bytes_to_frames. cbn [mm_min].
  apply Z.eqb_neq in N. rewrite N. cbn [obind].
  unfold pcm_plug_hw_params_refine, pcm_plug_masks_refine, pcm_plug_interval_refine.
  destruct (masks_loop _ _ _ _ _). cbn [negb Z.eqb].
  destruct (intervals_loop _ _ _ _ _ _). cbn [negb Z.eqb]. eauto.
Qed.

(** The parameters of a plugin: twelve closed intervals. *)
Definition plain (p : snd_pcm_hw_params) : Prop :=
  length p.(masks) = 3%nat /\ length p.(intervals) = 12%nat /\ all_closed p.

Lemma set_interval_plain (n : Z) (v : pcm_plugin_min_max) (b : bool) (p : snd_pcm_hw_params) :
  plain p -> plain (pcm_plug_set_interval n v b p).
Proof.
  intros (L1 & L2 & C). split; [done|]. split; [cbn; by rewrite length_insert|].
  unfold all_closed. cbn. apply Forall_insert; [done|]. by apply closed_at.
Qed.

Lemma set_mask_plain (n v : Z) (p : snd_pcm_hw_params) : plain p -> plain (pcm_plug_set_mask n v p).
Proof. intros (L1 & L2 & C). split; [cbn; by rewrite length_insert|done]. Qed.

Lemma get_params_plain (c : pcm_plugin_hw_constraints) (q : snd_pcm_hw_params) :
  pcm_plug_get_params c zero_params = Done q -> plain q.
Proof.
  intros E. unfold pcm_plug_get_params in E. obinv E. obinv E. obinv E. obinv E. injection E as <-.
  repeat apply set_interval_plain. repeat apply set_mask_plain.
  split; [done|]. split; [done|]. apply zero_params_ok.
Qed.

(** Refining a closed interval by a closed one: the larger minimum, the
    smaller maximum. *)
Lemma refine_one_closed (r c : snd_interval) :
  openmin r = false -> openmax r = false -> openmin c = false -> openmax c = false ->
  let i := fst (refine_one r c) in
  i_min i = Z.max (i_min r) (i_min c) /\ i_max i = Z.min (i_max r) (i_max c).
Proof.
  destruct r as [rmn rmx ? ? ri], c as [cmn cmx ? ? ci]. cbn. intros -> -> -> ->.
  unfold refine_one. cbn. rewrite !andb_false_r, ?andb_true_r.
  destruct (rmn <? cmn) eqn:E1, (rmx >? cmx) eqn:E2; zbool; cbn;
    destruct ri, ci; cbn; split; lia.
Qed.

(** A full request against a plugin whose parameters are [q]. *)
Lemma hrefine_closed (c : pcm_plugin_hw_constraints) (p p' q : snd_pcm_hw_params) (n : Z) :
  pcm_plug_get_params c zero_params = Done q -> plain p -> rmask p = UINT32_MAX ->
  pcm_plug_hrefine c p = Done (0, p') -> 8 <= n <= 19 ->
  length (intervals p') = 12%nat
  /\ i_min (interval_at p' n) = Z.max (i_min (interval_at p n)) (i_min (interval_at q n))
  /\ i_max (interval_at p' n) = Z.min (i_max (interval_at p n)) (i_max (interval_at q n)).
Proof.
  intros E (L1 & L2 & C) R H Hn. destruct (get_params_plain c q E) as (M1 & M2 & D).
  unfold pcm_plug_hrefine in H. rewrite E in H. cbn [obind] in H.
  unfold pcm_plug_hw_params_refine, pcm_plug_masks_refine, pcm_plug_interval_refine in H.
  destruct (masks_loop _ _ _ _ _) as [lm cm]. cbn [negb Z.eqb rmask cmask intervals set_cmask set_masks] in H.
  pose proof (fun k => intervals_loop_lookup (rmask p) cm 0 false (intervals p) (intervals q) k
                         ltac:(congruence)) as HI.
  destruct (intervals_loop _ _ _ _ _ _) as [li cm']. cbn [fst negb Z.eqb] in *.
  injection H as <-. cbn [intervals set_rmask set_cmask set_intervals].
  assert (forall k, (k < 12)%nat -> exists r s, intervals p !! k = Some r /\ intervals q !! k = Some s
            /\ li !! k = Some (fst (refine_one r s))) as HK.
  { intros k Hk. destruct (lookup_lt_is_Some_2 (intervals p) k) as [r Er]; [lia|].
    destruct (lookup_lt_is_Some_2 (intervals q) k) as [s Es]; [lia|].
    exists r, s. specialize (HI k). rewrite Er, Es in HI. rewrite HI, R.
    rewrite requested_testbit by (unfold SNDRV_PCM_HW_PARAM_FIRST_INTERVAL; lia).
    replace (Z.testbit _ _) with true; [done|]. symmetry.
    apply (Z.ones_spec_low 32). unfold SNDRV_PCM_HW_PARAM_FIRST_INTERVAL. lia. }
  split.
  - apply Nat.le_antisymm; [|].
    + apply Nat.nlt_ge. intros B. specialize (HI 12%nat).
      rewrite (lookup_ge_None_2 (intervals p) 12) in HI by lia.
      apply lookup_ge_None_1 in HI. lia.
    + destruct (HK 11%nat ltac:(lia)) as (? & ? & _ & _ & K). apply lookup_lt_Some in K. lia.
  - unfold interval_at, SNDRV_PCM_HW_PARAM_FIRST_INTERVAL.
    destruct (HK (Z.to_nat (n - 8)) ltac:(lia)) as (r & s & Er & Es & El).
    cbn [intervals set_intervals].
    rewrite (list_lookup_total_correct _ _ _ Er), (list_lookup_total_correct _ _ _ Es),
      (list_lookup_total_correct _ _ _ El).
    destruct (Forall_lookup_1 _ _ _ _ C Er) as [C1 C2].
    destruct (Forall_lookup_1 _ _ _ _ D Es) as [D1 D2]. by apply refine_one_closed.
Qed.

(** C39. Refinement: for every request in range and every plugin whose
    constraints give parameters [q], the refinement succeeds and computes
    the intersection: a requested mask is the conjunction with the plugin's,
    a number is in a requested interval afterwards exactly when it was before
    and is in the plugin's interval, what is not requested is unchanged, and
    the request is marked as served. *)
Theorem pcm_refine_is_intersection
    (c : pcm_plugin_hw_constraints) (p q : snd_pcm_hw_params) :
  params_ok p -> constraints_ok c -> pcm_plug_get_params c zero_params = Done q ->
  exists p', pcm_plug_hrefine c p = Done (0, p') /\ rmask p' = 0
    /\ (forall k, (k < 3)%nat ->
          masks p' !!! k = if Z.testbit (rmask p) (Z.of_nat k)
                           then mask_and (masks p !!! k) (masks q !!! k) else masks p !!! k)
    /\ (forall k x, (k < 12)%nat ->
          member x (intervals p' !!! k) <->
          member x (intervals p !!! k)
          /\ (Z.testbit (rmask p) (Z.of_nat k + 8) = true -> member x (intervals q !!! k))).
Proof.
  intros [L1 L2 F] Hc E. destruct (get_params_ok c q Hc E) as [Q1 Q2 QF].
  unfold pcm_plug_hrefine. rewrite E. cbn [obind].
  unfold pcm_plug_hw_params_refine, pcm_plug_masks_refine, pcm_plug_interval_refine.
  pose proof (fun k => masks_loop_lookup (rmask p) (cmask p) 0 (masks p) (masks q) k
                         ltac:(congruence)) as HM.
  destruct (masks_loop _ _ _ _ _) as [lm cm]. cbn [fst snd negb Z.eqb] in *.
  cbn [rmask cmask intervals set_cmask set_masks].
  pose proof (fun k => intervals_loop_lookup (rmask p) cm 0 false (intervals p) (intervals q) k
                         ltac:(congruence)) as HI.
  destruct (intervals_loop _ _ _ _ _ _) as [li cm']. cbn [fst snd negb Z.eqb] in *.
  eexists. split; [reflexivity|]. split; [done|]. cbn [masks intervals set_rmask set_cmask set_intervals].
  split.
  - intros k Hk. specialize (HM k).
    destruct (lookup_lt_is_Some_2 (masks p) k) as [r Er]; [lia|].
    destruct (lookup_lt_is_Some_2 (masks q) k) as [s Es]; [lia|].
    rewrite Er, Es in HM. rewrite !(list_lookup_total_correct _ _ _ Er),
      (list_lookup_total_correct _ _ _ Es), (list_lookup_total_correct _ _ _ HM).
    rewrite requested_testbit by (unfold SNDRV_PCM_HW_PARAM_FIRST_MASK; lia).
    replace (0 + Z.of_nat k + SNDRV_PCM_HW_PARAM_FIRST_MASK) with (Z.of_nat k)
      by (unfold SNDRV_PCM_HW_PARAM_FIRST_MASK; lia). done.
  - intros k x Hk. specialize (HI k).
    destruct (lookup_lt_is_Some_2 (intervals p) k) as [r Er]; [lia|].
    destruct (lookup_lt_is_Some_2 (intervals q) k) as [s Es]; [lia|].
    rewrite Er, Es in HI. rewrite (list_lookup_total_correct _ _ _ Er),
      (list_lookup_total_correct _ _ _ Es), (list_lookup_total_correct _ _ _ HI).
    rewrite requested_testbit by (unfold SNDRV_PCM_HW_PARAM_FIRST_INTERVAL; lia).
    replace (0 + Z.of_nat k + SNDRV_PCM_HW_PARAM_FIRST_INTERVAL) with (Z.of_nat k + 8)
      by (unfold SNDRV_PCM_HW_PARAM_FIRST_INTERVAL; lia).
    destruct (Z.testbit (rmask p) (Z.of_nat k + 8)); [|intuition discriminate].
    rewrite refine_one_member; [intuition|apply (Forall_lookup_1 _ _ _ _ F Er)|apply (Forall_lookup_1 _ _ _ _ QF Es)].
Qed.

(** A plugin for stereo 16-bit PCM at 48 kHz, and the request of a client
    that leaves everything open. *)
Definition demo_constraints : pcm_plugin_hw_constraints :=
  {| access := 8; format := 4;
     bit_width := {| mm_min := 16; mm_max := 16 |};
     hc_channels := {| mm_min := 1; mm_max := 2 |};
     hc_rate := {| mm_min := 8000; mm_max := 48000 |};
     periods := {| mm_min := 2; mm_max := 8 |};
     period_bytes := {| mm_min := 512; mm_max := 8192 |} |}.

Definition any_interval : snd_interval :=
  {| i_min := 0; i_max := UINT32_MAX; openmin := false; openmax := false; integer := false |}.

Definition any_params : snd_pcm_hw_params :=
  {| masks := replicate 3 {| bits0 := UINT32_MAX; bits1 := UINT32_MAX |};
     intervals := replicate 12 any_interval; rmask := UINT32_MAX; cmask := 0 |}.

Lemma any_params_ok : params_ok any_params.
Proof.
  constructor; cbn; [done|done|].
  assert (interval_ok any_interval) by (constructor; cbn; unfold is_u32, UINT32_MAX; done || lia).
  repeat constructor; done.
Qed.

Lemma demo_constraints_ok : constraints_ok demo_constraints.
Proof. constructor; split; cbn; unfold is_u32, UINT32_MAX; lia. Qed.

Lemma pcm_refine_is_intersection_witness :
  exists p', pcm_plug_hrefine demo_constraints any_params = Done (0, p') /\ rmask p' = 0
    /\ (member 44100 (intervals p' !!! 3%nat) <->
          member 44100 any_interval
          /\ (true = true -> member 44100 {| i_min := 8000; i_max := 48000; openmin := false;
                                              openmax := false; integer := true |})).
Proof.
  destruct (pcm_plug_get_params demo_constraints zero_params) as [q| | |] eqn:E;
    [|vm_compute in E; discriminate..].
  destruct (pcm_refine_is_intersection demo_constraints any_params q any_params_ok
              demo_constraints_ok E) as (p' & E' & R & _ & I).
  exists p'. split; [exact E'|]. split; [exact R|].
  specialize (I 3%nat 44100 ltac:(lia)). vm_compute in E. injection E as <-. exact I.
Defined.

(** ** The changed mask *)

(** Some requested interval with an index from 0 to [k] was changed. *)
Fixpoint any_changed (rm idx : Z) (req con : list snd_interval) (k : nat) : bool :=
  match req, con with
  | r :: req, c :: con =>
      (requested rm (idx + SNDRV_PCM_HW_PARAM_FIRST_INTERVAL) && snd (refine_one r c))
      || match k with O => false | S k => any_changed rm (idx + 1) req con k end
  | _, _ => false
  end.

Lemma testbit_set (cm n m : Z) :
  0 <= n -> 0 <= m -> Z.testbit (Z.lor cm (Z.shiftl 1 n)) m = Z.testbit cm m || (n =? m).
Proof. intros. rewrite Z.lor_spec, Z.shiftl_1_l, Z.pow2_bits_eqb by lia. done. Qed.

Lemma intervals_loop_low (rm cm idx m : Z) (ch : bool) (req con : list snd_interval) :
  0 <= idx -> 0 <= m < idx + 8 ->
  Z.testbit (snd (intervals_loop rm cm idx ch req con)) m = Z.testbit cm m.
Proof.
  revert cm idx ch con. induction req as [|r req IH]; intros cm idx ch [|c con] Hi Hm; try done.
  cbn [intervals_loop]. unfold SNDRV_PCM_HW_PARAM_FIRST_INTERVAL. destruct (Z.land rm _ =? 0).
  - specialize (IH cm (idx + 1) ch con ltac:(lia) ltac:(lia)).
    by destruct (intervals_loop rm cm (idx + 1) ch req con).
  - destruct (refine_one r c) as [r1 ch1].
    set (cm1 := if ch || ch1 then _ else cm).
    specialize (IH cm1 (idx + 1) (ch || ch1) con ltac:(lia) ltac:(lia)).
    destruct (intervals_loop rm cm1 (idx + 1) (ch || ch1) req con). cbn [snd] in *.
    rewrite IH. subst cm1. destruct (ch || ch1); [|done].
    rewrite testbit_set by lia. destruct (idx + 8 =? m) eqn:E; zbool; [lia|apply orb_false_r].
Qed.

Lemma intervals_loop_cmask (rm cm idx : Z) (ch : bool) (req con : list snd_interval) (k : nat) :
  0 <= idx -> (k < length req)%nat -> length req = length con ->
  Z.testbit (snd (intervals_loop rm cm idx ch req con)) (idx + Z.of_nat k + 8)
  = Z.testbit cm (idx + Z.of_nat k + 8)
    || (requested rm (idx + Z.of_nat k + 8) && (ch || any_changed rm idx req con k)).
Proof.
  revert cm idx ch con k. induction req as [|r req IH]; intros cm idx ch [|c con] k Hi Hk L;
    cbn in Hk, L; try lia. injection L as L.
  cbn [intervals_loop any_changed]. unfold SNDRV_PCM_HW_PARAM_FIRST_INTERVAL.
  fold (requested rm (idx + 8)). unfold requested at 2.
  destruct (Z.land rm (Z.shiftl 1 (idx + 8)) =? 0) eqn:E; cbn [negb andb orb].
  - specialize (IH cm (idx + 1) ch con). pose proof (intervals_loop_low rm cm (idx + 1) (idx + 8) ch req con) as LOW.
    destruct (intervals_loop rm cm (idx + 1) ch req con) as [l cm']. cbn [snd] in *.
    destruct k as [|k].
    + replace (idx + Z.of_nat 0 + 8) with (idx + 8) by lia. rewrite LOW by lia.
      unfold requested. rewrite E. cbn. by rewrite orb_false_r.
    + specialize (IH k ltac:(lia) ltac:(lia) L).
      replace (idx + 1 + Z.of_nat k) with (idx + Z.of_nat (S k)) in IH by lia. exact IH.
  - destruct (refine_one r c) as [r1 ch1]. cbn [snd].
    set (cm1 := if ch || ch1 then _ else cm).
    specialize (IH cm1 (idx + 1) (ch || ch1) con).
    pose proof (intervals_loop_low rm cm1 (idx + 1) (idx + 8) (ch || ch1) req con) as LOW.
    destruct (intervals_loop rm cm1 (idx + 1) (ch || ch1) req con) as [l cm']. cbn [snd] in *.
    destruct k as [|k].
    + replace (idx + Z.of_nat 0 + 8) with (idx + 8) by lia. rewrite LOW by lia.
      unfold requested. rewrite E. cbn. subst cm1. rewrite orb_false_r.
      destruct (ch || ch1); [|by rewrite orb_false_r]. by rewrite testbit_set, Z.eqb_refl by lia.
    + specialize (IH k ltac:(lia) ltac:(lia) L).
      replace (idx + 1 + Z.of_nat k) with (idx + Z.of_nat (S k)) in IH by lia. rewrite IH.
      assert (Z.testbit cm1 (idx + Z.of_nat (S k) + 8) = Z.testbit cm (idx + Z.of_nat (S k) + 8)) as ->.
      { subst cm1. destruct (ch || ch1); [|done]. rewrite testbit_set by lia.
        destruct (idx + 8 =? _) eqn:E2; zbool; [lia|apply orb_false_r]. }
      by rewrite orb_assoc.
Qed.

(** The changed mask: after the interval refinement, the bit of an
    interval is newly set exactly when the interval was requested and some
    requested interval up to and including it was changed.  Every change is
    reported, and so is every requested interval after the first change,
    changed or not. *)
Theorem pcm_interval_cmask (p c : snd_pcm_hw_params) (k : nat) :
  params_ok p -> params_ok c -> (k < 12)%nat ->
  Z.testbit (cmask (snd (pcm_plug_interval_refine p c))) (Z.of_nat k + 8)
  = Z.testbit (cmask p) (Z.of_nat k + 8)
    || (Z.testbit (rmask p) (Z.of_nat k + 8)
        && any_changed (rmask p) 0 (intervals p) (intervals c) k).
Proof.
  intros [_ L _] [_ L' _] Hk. unfold pcm_plug_interval_refine.
  pose proof (intervals_loop_cmask (rmask p) (cmask p) 0 false (intervals p) (intervals c) k) as HC.
  destruct (intervals_loop _ _ _ _ _ _) as [l cm]. cbn [snd cmask set_cmask] in *.
  rewrite Z.add_0_l in HC. rewrite HC by lia. rewrite requested_testbit by lia. done.
Qed.

Lemma pcm_interval_cmask_witness :
  exists q, pcm_plug_get_params demo_constraints zero_params = Done q /\
  Z.testbit (cmask (snd (pcm_plug_interval_refine any_params q))) (Z.of_nat 4 + 8) = true.
Proof.
  destruct (pcm_plug_get_params demo_constraints zero_params) as [q| | |] eqn:E;
    [|vm_compute in E; discriminate..].
  exists q. split; [reflexivity|].
  rewrite (pcm_interval_cmask any_params q 4 any_params_ok
             (get_params_ok demo_constraints q demo_constraints_ok E) ltac:(lia)).
  vm_compute in E. injection E as <-. reflexivity.
Defined.

(** ** The selected configuration *)

Lemma put_get_eq (p : snd_pcm_hw_params) (n : Z) (i : snd_interval) :
  length (intervals p) = 12%nat -> 8 <= n <= 19 -> interval_at (put_interval n i p) n = i.
Proof.
  intros L Hn. unfold interval_at, put_interval, SNDRV_PCM_HW_PARAM_FIRST_INTERVAL. cbn.
  apply list_lookup_total_insert_eq. lia.
Qed.

Lemma put_get_ne (p : snd_pcm_hw_params) (n m : Z) (i : snd_interval) :
  8 <= n -> 8 <= m -> n <> m -> interval_at (put_interval n i p) m = interval_at p m.
Proof.
  intros Hn Hm N. unfold interval_at, put_interval, SNDRV_PCM_HW_PARAM_FIRST_INTERVAL. cbn.
  apply list_lookup_total_insert_ne. lia.
Qed.

Lemma length_put (p : snd_pcm_hw_params) (n : Z) (i : snd_interval) :
  length (intervals (put_interval n i p)) = length (intervals p).
Proof. apply length_insert. Qed.

(** A selection on a parameter whose minimum is not 0. *)
Lemma select_put (p : snd_pcm_hw_params) (n val : Z) (s : hw_param_select) :
  8 <= n <= 19 -> (interval_at p n).(i_min) <> 0 ->
  let i := interval_at p n in
  let v := match s with
           | PCM_PLUG_HW_PARAM_SELECT_MIN => i.(i_min)
           | PCM_PLUG_HW_PARAM_SELECT_MAX => i.(i_max)
           | PCM_PLUG_HW_PARAM_SELECT_VAL => val
           end in
  snd (pcm_plug_interval_select n s val p) = put_interval n (with_range v v i) p.
Proof.
  intros Hn H0. unfold pcm_plug_interval_select.
  destruct (_ || _) eqn:B.
  { apply orb_true_iff in B as [B | B]; zbool;
      unfold SNDRV_PCM_HW_PARAM_FIRST_INTERVAL, SNDRV_PCM_HW_PARAM_LAST_INTERVAL in B; lia. }
  destruct (_ =? 0) eqn:E; zbool; [done|]. by destruct s.
Qed.

(** The parameters that get a value. *)
Definition selected_params : list Z :=
  param_list ++ [SNDRV_PCM_HW_PARAM_FRAME_BITS; SNDRV_PCM_HW_PARAM_PERIOD_BYTES;
                 SNDRV_PCM_HW_PARAM_BUFFER_SIZE; SNDRV_PCM_HW_PARAM_BUFFER_BYTES].

Definition fixed_to (p : snd_pcm_hw_params) (n v : Z) : Prop :=
  (interval_at p n).(i_min) = v /\ (interval_at p n).(i_max) = v.

Lemma u32_mul_l (a b : Z) : u32 (u32 a * b) = u32 (a * b).
Proof. unfold u32. apply Zmult_mod_idemp_l. Qed.

(** Fixing parameter [n] to [v]. *)
Definition fix_to (n v : Z) (p : snd_pcm_hw_params) : snd_pcm_hw_params :=
  put_interval n (with_range v v (interval_at p n)) p.

Lemma fix_to_same (n v : Z) (p : snd_pcm_hw_params) :
  length (intervals p) = 12%nat -> 8 <= n <= 19 -> fixed_to (fix_to n v p) n v.
Proof. intros L Hn. unfold fixed_to, fix_to. by rewrite put_get_eq. Qed.

Lemma fix_to_other (n m v : Z) (p : snd_pcm_hw_params) :
  8 <= n -> 8 <= m -> n <> m -> interval_at (fix_to n v p) m = interval_at p m.
Proof. intros. by apply put_get_ne. Qed.

Lemma length_fix (n v : Z) (p : snd_pcm_hw_params) :
  length (intervals (fix_to n v p)) = length (intervals p).
Proof. apply length_put. Qed.

Lemma select_min (p : snd_pcm_hw_params) (n v : Z) :
  8 <= n <= 19 -> (interval_at p n).(i_min) = v -> v <> 0 ->
  snd (pcm_plug_interval_select n PCM_PLUG_HW_PARAM_SELECT_MIN 0 p) = fix_to n v p.
Proof. intros Hn <- H0. by apply select_put. Qed.

Lemma select_val (p : snd_pcm_hw_params) (n v : Z) :
  8 <= n <= 19 -> (interval_at p n).(i_min) <> 0 ->
  snd (pcm_plug_interval_select n PCM_PLUG_HW_PARAM_SELECT_VAL v p) = fix_to n v p.
Proof. intros Hn H0. by apply select_put. Qed.

(** Looks up a parameter in a chain of [fix_to]. *)
Ltac fix_lookup :=
  repeat rewrite fix_to_other by discriminate.

Section Selection.
Context (p : snd_pcm_hw_params) (L : length (intervals p) = 12%nat)
        (H0 : Forall (fun n => (interval_at p n).(i_min) <> 0) selected_params).
Let min n := (interval_at p n).(i_min).

Lemma min_nonzero (n : Z) : In n selected_params -> (interval_at p n).(i_min) <> 0.
Proof. rewrite List.Forall_forall in H0. apply H0. Qed.

Definition minima : snd_pcm_hw_params :=
  fix_to SNDRV_PCM_HW_PARAM_PERIODS (min SNDRV_PCM_HW_PARAM_PERIODS)
   (fix_to SNDRV_PCM_HW_PARAM_PERIOD_SIZE (min SNDRV_PCM_HW_PARAM_PERIOD_SIZE)
    (fix_to SNDRV_PCM_HW_PARAM_RATE (min SNDRV_PCM_HW_PARAM_RATE)
     (fix_to SNDRV_PCM_HW_PARAM_CHANNELS (min SNDRV_PCM_HW_PARAM_CHANNELS)
      (fix_to SNDRV_PCM_HW_PARAM_SAMPLE_BITS (min SNDRV_PCM_HW_PARAM_SAMPLE_BITS) p)))).

(** Side conditions of the selections. *)
Ltac select_side :=
  first [ split; discriminate | fix_lookup; reflexivity | apply min_nonzero; cbn; tauto ].
Ltac val_side :=
  first [ split; discriminate
        | unfold minima; fix_lookup; apply min_nonzero; cbn; tauto ].

Lemma select_minima :
  fold_left (fun p n => snd (pcm_plug_interval_select n PCM_PLUG_HW_PARAM_SELECT_MIN 0 p))
    param_list p = minima.
Proof.
  unfold param_list, minima. cbn [fold_left].
  rewrite (select_min _ SNDRV_PCM_HW_PARAM_SAMPLE_BITS (min SNDRV_PCM_HW_PARAM_SAMPLE_BITS)) by select_side.
  rewrite (select_min _ SNDRV_PCM_HW_PARAM_CHANNELS (min SNDRV_PCM_HW_PARAM_CHANNELS)) by select_side.
  rewrite (select_min _ SNDRV_PCM_HW_PARAM_RATE (min SNDRV_PCM_HW_PARAM_RATE)) by select_side.
  rewrite (select_min _ SNDRV_PCM_HW_PARAM_PERIOD_SIZE (min SNDRV_PCM_HW_PARAM_PERIOD_SIZE)) by select_side.
  rewrite (select_min _ SNDRV_PCM_HW_PARAM_PERIODS (min SNDRV_PCM_HW_PARAM_PERIODS)) by select_side.
  reflexivity.
Qed.

(** The parameters after the whole selection. *)
Definition chosen : snd_pcm_hw_params :=
  let fb := u32 (min SNDRV_PCM_HW_PARAM_SAMPLE_BITS * min SNDRV_PCM_HW_PARAM_CHANNELS) in
  let ps := min SNDRV_PCM_HW_PARAM_PERIOD_SIZE in
  let bs := u32 (ps * min SNDRV_PCM_HW_PARAM_PERIODS) in
  fix_to SNDRV_PCM_HW_PARAM_BUFFER_BYTES (u32 (bs * (fb / 8)))
   (fix_to SNDRV_PCM_HW_PARAM_BUFFER_SIZE bs
    (fix_to SNDRV_PCM_HW_PARAM_PERIOD_BYTES (u32 (ps * (fb / 8)))
     (fix_to SNDRV_PCM_HW_PARAM_FRAME_BITS fb minima))).

Lemma length_minima : length (intervals minima) = 12%nat.
Proof. unfold minima. by rewrite !length_fix. Qed.

(** The five minima, as the code reads them back. *)
Lemma minima_at (n : Z) : In n param_list -> fixed_to minima n (min n).
Proof.
  unfold minima, fixed_to, fix_to. cbn. intros [<- | [<- | [<- | [<- | [<- | []]]]]];
    repeat rewrite put_get_ne by discriminate;
    rewrite put_get_eq by (rewrite ?length_put; done || (split; discriminate)); done.
Qed.

Lemma hw_params_set_chosen : pcm_plug_hw_params_set p = chosen.
Proof.
  unfold pcm_plug_hw_params_set, pcm_plug_frames_to_bytes. rewrite select_minima.
  rewrite (proj1 (minima_at SNDRV_PCM_HW_PARAM_SAMPLE_BITS ltac:(cbn; tauto))),
    (proj1 (minima_at SNDRV_PCM_HW_PARAM_CHANNELS ltac:(cbn; tauto))),
    (proj1 (minima_at SNDRV_PCM_HW_PARAM_PERIOD_SIZE ltac:(cbn; tauto))),
    (proj1 (minima_at SNDRV_PCM_HW_PARAM_PERIODS ltac:(cbn; tauto))).
  cbv zeta. unfold chosen. cbv zeta.
  rewrite (select_val _ SNDRV_PCM_HW_PARAM_FRAME_BITS) by val_side.
  rewrite (select_val _ SNDRV_PCM_HW_PARAM_PERIOD_BYTES) by val_side.
  rewrite (select_val _ SNDRV_PCM_HW_PARAM_BUFFER_SIZE) by val_side.
  rewrite (select_val _ SNDRV_PCM_HW_PARAM_BUFFER_BYTES) by val_side.
  reflexivity.
Qed.

(** The nine parameters of the chosen configuration. *)
Ltac derived :=
  unfold chosen, fixed_to; cbv zeta; fix_lookup;
  apply fix_to_same; [by rewrite ?length_fix, length_minima|split; discriminate].

Lemma chosen_min (n : Z) : In n param_list -> fixed_to chosen n (min n).
Proof.
  intros Hn. pose proof (minima_at n Hn) as F. unfold fixed_to in *.
  assert (interval_at chosen n = interval_at minima n) as ->; [|done].
  unfold chosen. cbv zeta. cbn in Hn.
  destruct Hn as [<- | [<- | [<- | [<- | [<- | []]]]]]; fix_lookup; done.
Qed.

Lemma chosen_frame_bits :
  fixed_to chosen SNDRV_PCM_HW_PARAM_FRAME_BITS
    (u32 (min SNDRV_PCM_HW_PARAM_SAMPLE_BITS * min SNDRV_PCM_HW_PARAM_CHANNELS)).
Proof. derived. Qed.

Lemma chosen_period_bytes :
  fixed_to chosen SNDRV_PCM_HW_PARAM_PERIOD_BYTES
    (u32 (min SNDRV_PCM_HW_PARAM_PERIOD_SIZE
          * (u32 (min SNDRV_PCM_HW_PARAM_SAMPLE_BITS * min SNDRV_PCM_HW_PARAM_CHANNELS) / 8))).
Proof. derived. Qed.

Lemma chosen_buffer_size :
  fixed_to chosen SNDRV_PCM_HW_PARAM_BUFFER_SIZE
    (u32 (min SNDRV_PCM_HW_PARAM_PERIOD_SIZE * min SNDRV_PCM_HW_PARAM_PERIODS)).
Proof. derived. Qed.

Lemma chosen_buffer_bytes :
  fixed_to chosen SNDRV_PCM_HW_PARAM_BUFFER_BYTES
    (u32 (u32 (min SNDRV_PCM_HW_PARAM_PERIOD_SIZE * min SNDRV_PCM_HW_PARAM_PERIODS)
          * (u32 (min SNDRV_PCM_HW_PARAM_SAMPLE_BITS * min SNDRV_PCM_HW_PARAM_CHANNELS) / 8))).
Proof. derived. Qed.
End Selection.

(** One configuration: when none of the nine parameters has minimum 0,
    the selection fixes each of them to one number, sample size, channels,
    rate, period size and period count to their minima, and the derived
    numbers belong together: a frame is sample size times channels, a period
    of bytes is its frames times the bytes of a frame, and the buffer is the
    period times the number of periods, in frames and in bytes (modulo the
    width of the type). *)
Theorem pcm_selection_consistent (p : snd_pcm_hw_params) :
  params_ok p -> Forall (fun n => (interval_at p n).(i_min) <> 0) selected_params ->
  let p' := pcm_plug_hw_params_set p in
  let min n := (interval_at p n).(i_min) in
  let value n := (interval_at p' n).(i_min) in
  Forall (fun n => fixed_to p' n (min n)) param_list
  /\ Forall (fun n => fixed_to p' n (value n)) selected_params
  /\ value SNDRV_PCM_HW_PARAM_FRAME_BITS
     = u32 (value SNDRV_PCM_HW_PARAM_SAMPLE_BITS * value SNDRV_PCM_HW_PARAM_CHANNELS)
  /\ value SNDRV_PCM_HW_PARAM_PERIOD_BYTES
     = u32 (value SNDRV_PCM_HW_PARAM_PERIOD_SIZE * (value SNDRV_PCM_HW_PARAM_FRAME_BITS / 8))
  /\ value SNDRV_PCM_HW_PARAM_BUFFER_SIZE
     = u32 (value SNDRV_PCM_HW_PARAM_PERIOD_SIZE * value SNDRV_PCM_HW_PARAM_PERIODS)
  /\ value SNDRV_PCM_HW_PARAM_BUFFER_BYTES
     = u32 (value SNDRV_PCM_HW_PARAM_PERIOD_BYTES * value SNDRV_PCM_HW_PARAM_PERIODS).
Proof.
  intros [_ L _] H0. rewrite (hw_params_set_chosen p L H0). intros p' min value.
  pose proof (chosen_min p L) as Hmin. pose proof (chosen_frame_bits p L) as F1.
  pose proof (chosen_period_bytes p L) as F2. pose proof (chosen_buffer_size p L) as F3.
  pose proof (chosen_buffer_bytes p L) as F4. cbv beta zeta in Hmin, F1, F2, F3, F4. fold p' in Hmin, F1, F2, F3, F4.
  assert (forall n v, fixed_to p' n v -> value n = v) as Hv by (by intros n v []).
  split; [by apply List.Forall_forall|]. split.
  { apply List.Forall_forall. unfold selected_params. intros n [Hn | Hn]%in_app_iff.
    - rewrite (Hv n (min n)) by auto. auto.
    - cbn in Hn. destruct Hn as [<- | [<- | [<- | [<- | []]]]];
        [rewrite (Hv _ _ F1)|rewrite (Hv _ _ F2)|rewrite (Hv _ _ F3)|rewrite (Hv _ _ F4)]; done. }
  rewrite (Hv _ _ F1), (Hv _ _ F2), (Hv _ _ F3), (Hv _ _ F4).
  rewrite !(fun n H => Hv n (min n) (Hmin n H)) by (cbn; tauto).
  split; [done|]. split; [done|]. split; [done|]. rewrite !u32_mul_l. unfold min. apply (f_equal u32). ring.
Qed.

Lemma pcm_selection_consistent_witness :
  exists p', pcm_plug_hrefine demo_constraints any_params = Done (0, p')
    /\ fixed_to (pcm_plug_hw_params_set p') SNDRV_PCM_HW_PARAM_RATE 8000
    /\ (interval_at (pcm_plug_hw_params_set p') SNDRV_PCM_HW_PARAM_BUFFER_BYTES).(i_min)
       = u32 ((interval_at (pcm_plug_hw_params_set p') SNDRV_PCM_HW_PARAM_PERIOD_BYTES).(i_min)
              * (interval_at (pcm_plug_hw_params_set p') SNDRV_PCM_HW_PARAM_PERIODS).(i_min)).
Proof.
  destruct (pcm_plug_hrefine demo_constraints any_params) as [[r p']| | |] eqn:E;
    [|vm_compute in E; discriminate..].
  vm_compute in E. injection E as <- <-. eexists. split; [reflexivity|].
  match goal with |- fixed_to (pcm_plug_hw_params_set ?q) _ _ /\ _ =>
    destruct (pcm_selection_consistent q) as (F & _ & _ & _ & _ & B) end.
  - constructor; cbn; [done|done|].
    repeat constructor; cbn; unfold is_u32, UINT32_MAX; (lia || done).
  - repeat constructor; vm_compute; discriminate.
  - split; [|exact B]. rewrite List.Forall_forall in F. apply (F SNDRV_PCM_HW_PARAM_RATE).
    cbn. tauto.
Defined.
