(* ===== verification/PcmPlugin.v ===== *)
(** * PCM plugins: the life cycle behind the PCM interface

    Models the other half of [plugin/pcm_plugin.c] (opening a plugin, the
    [ioctl] dispatcher with its state machine, [mmap], [munmap] and [poll]).
    A plugin is a table of function pointers, each of which may be null, over
    a private state; a callback changes that state and its argument. *)

From stdpp Require Import base list numbers.
From Stdlib Require Import ZArith Lia.
From S2P Require Import Prelude PcmParams.

#[local] Open Scope Z_scope.

(** ** Data *)

Inductive plug_state :=
| PCM_PLUG_STATE_OPEN
| PCM_PLUG_STATE_SETUP
| PCM_PLUG_STATE_PREPARED
| PCM_PLUG_STATE_RUNNING.

#[global] Instance plug_state_eq_dec : EqDecision plug_state.
Proof. solve_decision. Defined.

Definition state_num (s : plug_state) : Z :=
  match s with
  | PCM_PLUG_STATE_OPEN => 0
  | PCM_PLUG_STATE_SETUP => 1
  | PCM_PLUG_STATE_PREPARED => 2
  | PCM_PLUG_STATE_RUNNING => 3
  end.

Inductive pcm_state := PCM_STATE_OPEN | PCM_STATE_SETUP | PCM_STATE_PREPARED | PCM_STATE_RUNNING.

Definition convert_plugin_to_pcm_state (s : plug_state) : pcm_state :=
  match s with
  | PCM_PLUG_STATE_SETUP => PCM_STATE_SETUP
  | PCM_PLUG_STATE_RUNNING => PCM_STATE_RUNNING
  | PCM_PLUG_STATE_PREPARED => PCM_STATE_PREPARED
  | PCM_PLUG_STATE_OPEN => PCM_STATE_OPEN
  end.

(** [struct snd_xferi] *)
Record snd_xferi := { x_buf : list Z; x_frames : Z; x_result : Z }.

(** [struct pcm_config] *)
Record pcm_config := {
  channels : Z;
  rate : Z;
  period_size : Z;
  period_count : Z;
  cfg_format : Z;
  start_threshold : Z;
  stop_threshold : Z;
  silence_threshold : Z;
  silence_size : Z
}.

(** [calloc] *)
Definition zero_config : pcm_config :=
  {| channels := 0; rate := 0; period_size := 0; period_count := 0; cfg_format := 0;
     start_threshold := 0; stop_threshold := 0; silence_threshold := 0; silence_size := 0 |}.

(** The function pointers of [struct pcm_plugin_ops] that are called after
    [open]; [None] is the null pointer. *)
Record pcm_plugin_ops (P : Type) := {
  op_close : option (P -> outcome Z);
  op_hw_params : option (P -> snd_pcm_hw_params -> outcome (Z * P * snd_pcm_hw_params));
  op_sw_params : option (P -> outcome (Z * P));
  op_sync_ptr : option (P -> outcome (Z * P));
  op_writei_frames : option (P -> snd_xferi -> outcome (Z * P * snd_xferi));
  op_readi_frames : option (P -> snd_xferi -> outcome (Z * P * snd_xferi));
  op_ttstamp : option (P -> outcome (Z * P));
  op_prepare : option (P -> outcome (Z * P));
  op_start : option (P -> outcome (Z * P));
  op_drop : option (P -> outcome (Z * P));
  op_ioctl : option (P -> Z -> outcome (Z * P));
  op_mmap : option (P -> outcome (option Z * P));
  op_munmap : option (P -> outcome (Z * P));
  op_poll : option (P -> outcome (Z * P))
}.
Arguments op_close {P}. Arguments op_hw_params {P}. Arguments op_sw_params {P}.
Arguments op_sync_ptr {P}. Arguments op_writei_frames {P}. Arguments op_readi_frames {P}.
Arguments op_ttstamp {P}. Arguments op_prepare {P}. Arguments op_start {P}.
Arguments op_drop {P}. Arguments op_ioctl {P}. Arguments op_mmap {P}.
Arguments op_munmap {P}. Arguments op_poll {P}.

(** [struct pcm_plug_data] and the [struct pcm_plugin] it points to. *)
Record pcm_plug_data (P : Type) := {
  ops : pcm_plugin_ops P;
  state : plug_state;
  constraints : pcm_plugin_hw_constraints;
  priv : P
}.
Arguments ops {P}. Arguments state {P}. Arguments constraints {P}. Arguments priv {P}.
Arguments Build_pcm_plug_data {P}.

(** The requests of [pcm_plug_ioctl] with what their argument points to;
    the same type carries the argument back. *)
Inductive request :=
| SNDRV_PCM_IOCTL_INFO
| SNDRV_PCM_IOCTL_TTSTAMP
| SNDRV_PCM_IOCTL_HW_REFINE (p : snd_pcm_hw_params)
| SNDRV_PCM_IOCTL_HW_PARAMS (p : snd_pcm_hw_params)
| SNDRV_PCM_IOCTL_SW_PARAMS
| SNDRV_PCM_IOCTL_SYNC_PTR (s : option pcm_state)
| SNDRV_PCM_IOCTL_PREPARE
| SNDRV_PCM_IOCTL_START
| SNDRV_PCM_IOCTL_DROP
| SNDRV_PCM_IOCTL_WRITEI_FRAMES (x : snd_xferi)
| SNDRV_PCM_IOCTL_READI_FRAMES (x : snd_xferi)
| OTHER_IOCTL (cmd : Z).

Section Plugin.
Context {P : Type}.
#[local] Abbreviation plug := (pcm_plug_data P).

Definition set_state (s : plug_state) (d : plug) : plug :=
  {| ops := d.(ops); state := s; constraints := d.(constraints); priv := d.(priv) |}.

Definition set_priv (x : P) (d : plug) : plug :=
  {| ops := d.(ops); state := d.(state); constraints := d.(constraints); priv := x |}.

(** A call through a function pointer of the table. *)
Definition fptr {A} (f : option A) : outcome A :=
  match f with Some f => Done f | None => Undef end.

(** ** The operations *)

(** [name] is a local pointer that is never assigned, and the three calls of
    [strncpy] read through it: the call has undefined behaviour whatever the
    plugin is. *)
Definition pcm_plug_info (d : plug) : outcome (Z * plug) := Undef.

Definition pcm_plug_hparams (d : plug) (params : snd_pcm_hw_params)
  : outcome (Z * snd_pcm_hw_params * plug) :=
  if bool_decide (d.(state) = PCM_PLUG_STATE_OPEN) then
    let params := set_rmask UINT32_MAX params in
    let! (rc, params) := pcm_plug_hrefine d.(constraints) params in
    if negb (rc =? 0) then Done (rc, params, d)
    else
      let params := pcm_plug_hw_params_set params in
      let! hw_params := fptr d.(ops).(op_hw_params) in
      let! (rc, x, params) := hw_params d.(priv) params in
      let d := set_priv x d in
      Done (rc, params, if rc =? 0 then set_state PCM_PLUG_STATE_SETUP d else d)
  else Done (- EBADFD, params, d).

Definition pcm_plug_sparams (d : plug) : outcome (Z * plug) :=
  if bool_decide (d.(state) = PCM_PLUG_STATE_SETUP) then
    let! f := fptr d.(ops).(op_sw_params) in
    let! (rc, x) := f d.(priv) in Done (rc, set_priv x d)
  else Done (- EBADFD, d).

Definition pcm_plug_sync_ptr (d : plug) (s : option pcm_state)
  : outcome (Z * option pcm_state * plug) :=
  if state_num d.(state) >=? state_num PCM_PLUG_STATE_SETUP then
    let! f := fptr d.(ops).(op_sync_ptr) in
    let! (rc, x) := f d.(priv) in
    Done (rc, if rc =? 0 then Some (convert_plugin_to_pcm_state d.(state)) else s, set_priv x d)
  else Done (- EBADFD, s, d).

Definition pcm_plug_writei_frames (d : plug) (x : snd_xferi) : outcome (Z * snd_xferi * plug) :=
  if negb (bool_decide (d.(state) = PCM_PLUG_STATE_PREPARED))
     && negb (bool_decide (d.(state) = PCM_PLUG_STATE_RUNNING))
  then Done (- EBADFD, x, d)
  else
    let! f := fptr d.(ops).(op_writei_frames) in
    let! (rc, y, x) := f d.(priv) x in Done (rc, x, set_priv y d).

Definition pcm_plug_readi_frames (d : plug) (x : snd_xferi) : outcome (Z * snd_xferi * plug) :=
  if bool_decide (d.(state) = PCM_PLUG_STATE_RUNNING) then
    let! f := fptr d.(ops).(op_readi_frames) in
    let! (rc, y, x) := f d.(priv) x in Done (rc, x, set_priv y d)
  else Done (- EBADFD, x, d).

Definition pcm_plug_ttstamp (d : plug) : outcome (Z * plug) :=
  if state_num d.(state) <? state_num PCM_PLUG_STATE_SETUP then Done (- EBADFD, d)
  else
    let! f := fptr d.(ops).(op_ttstamp) in
    let! (rc, x) := f d.(priv) in Done (rc, set_priv x d).

Definition pcm_plug_prepare (d : plug) : outcome (Z * plug) :=
  if bool_decide (d.(state) = PCM_PLUG_STATE_SETUP) then
    let! f := fptr d.(ops).(op_prepare) in
    let! (rc, x) := f d.(priv) in
    let d := set_priv x d in
    Done (rc, if rc =? 0 then set_state PCM_PLUG_STATE_PREPARED d else d)
  else Done (- EBADFD, d).

Definition pcm_plug_start (d : plug) : outcome (Z * plug) :=
  if bool_decide (d.(state) = PCM_PLUG_STATE_PREPARED) then
    let! f := fptr d.(ops).(op_start) in
    let! (rc, x) := f d.(priv) in
    let d := set_priv x d in
    Done (rc, if rc =? 0 then set_state PCM_PLUG_STATE_RUNNING d else d)
  else Done (- EBADFD, d).

Definition pcm_plug_drop (d : plug) : outcome (Z * plug) :=
  let! f := fptr d.(ops).(op_drop) in
  let! (rc, x) := f d.(priv) in
  let d := set_priv x d in
  Done (rc, if rc =? 0 then set_state PCM_PLUG_STATE_SETUP d else d).

Definition pcm_plug_ioctl (d : plug) (req : request) : outcome (Z * request * plug) :=
  match req with
  | SNDRV_PCM_IOCTL_INFO =>
      let! (ret, d) := pcm_plug_info d in Done (ret, req, d)
  | SNDRV_PCM_IOCTL_TTSTAMP =>
      let! (ret, d) := pcm_plug_ttstamp d in Done (ret, req, d)
  | SNDRV_PCM_IOCTL_HW_REFINE p =>
      let! (ret, p) := pcm_plug_hrefine d.(constraints) p in
      Done (ret, SNDRV_PCM_IOCTL_HW_REFINE p, d)
  | SNDRV_PCM_IOCTL_HW_PARAMS p =>
      let! (ret, p, d) := pcm_plug_hparams d p in
      Done (ret, SNDRV_PCM_IOCTL_HW_PARAMS p, d)
  | SNDRV_PCM_IOCTL_SW_PARAMS =>
      let! (ret, d) := pcm_plug_sparams d in Done (ret, req, d)
  | SNDRV_PCM_IOCTL_SYNC_PTR s =>
      let! (ret, s, d) := pcm_plug_sync_ptr d s in
      Done (ret, SNDRV_PCM_IOCTL_SYNC_PTR s, d)
  | SNDRV_PCM_IOCTL_PREPARE =>
      let! (ret, d) := pcm_plug_prepare d in Done (ret, req, d)
  | SNDRV_PCM_IOCTL_START =>
      let! (ret, d) := pcm_plug_start d in Done (ret, req, d)
  | SNDRV_PCM_IOCTL_DROP =>
      let! (ret, d) := pcm_plug_drop d in Done (ret, req, d)
  | SNDRV_PCM_IOCTL_WRITEI_FRAMES x =>
      let! (ret, x, d) := pcm_plug_writei_frames d x in
      Done (ret, SNDRV_PCM_IOCTL_WRITEI_FRAMES x, d)
  | SNDRV_PCM_IOCTL_READI_FRAMES x =>
      let! (ret, x, d) := pcm_plug_readi_frames d x in
      Done (ret, SNDRV_PCM_IOCTL_READI_FRAMES x, d)
  | OTHER_IOCTL cmd =>
      let! f := fptr d.(ops).(op_ioctl) in
      let! (ret, x) := f d.(priv) cmd in Done (ret, req, set_priv x d)
  end.

Definition pcm_plug_poll (d : plug) : outcome (Z * plug) :=
  let! f := fptr d.(ops).(op_poll) in
  let! (ret, x) := f d.(priv) in Done (ret, set_priv x d).

Definition pcm_plug_mmap (d : plug) : outcome (option Z * plug) :=
  if bool_decide (d.(state) = PCM_PLUG_STATE_SETUP) then
    let! f := fptr d.(ops).(op_mmap) in
    let! (ret, x) := f d.(priv) in Done (ret, set_priv x d)
  else Done (None, d).

Definition pcm_plug_munmap (d : plug) : outcome (Z * plug) :=
  if bool_decide (d.(state) = PCM_PLUG_STATE_SETUP) then
    let! f := fptr d.(ops).(op_munmap) in
    let! (ret, x) := f d.(priv) in Done (ret, set_priv x d)
  else Done (- EBADFD, d).

Definition pcm_plug_close (d : plug) : outcome unit :=
  let! f := fptr d.(ops).(op_close) in
  let! _ := f d.(priv) in Done tt.

(** What the dynamic linker finds: the library, and in it the table with its
    [open] function, whose result is a status and, on success, the
    constraints and the private state. *)
Record plugin_library := {
  lib_ops : option (pcm_plugin_ops P);
  lib_open : Z * option (pcm_plugin_hw_constraints * P)
}.

(** The status and [*data]; [None] is data that was not set. *)
Definition pcm_plug_open (calloc_ok : bool) (lib : option plugin_library) : outcome (Z * option plug) :=
  if negb calloc_ok then Done (- ENOMEM, None)
  else
    let rc := 0 in
    match lib with
    | None => Done (rc, None)
    | Some lib =>
        match lib.(lib_ops) with
        | None => Done (rc, None)
        | Some o =>
            let '(rc, pl) := lib.(lib_open) in
            if negb (rc =? 0) then Done (rc, None)
            else
              match pl with
              | None => Undef
              | Some (c, x) =>
                  Done (0, Some {| ops := o; state := PCM_PLUG_STATE_OPEN; constraints := c;
                                   priv := x |})
              end
        end
    end.

(** A sequence of requests: the statuses and the final state. *)
Fixpoint session (d : plug) (reqs : list request) : outcome (list Z * plug) :=
  match reqs with
  | [] => Done ([], d)
  | r :: reqs =>
      let! (ret, _, d) := pcm_plug_ioctl d r in
      let! (rets, d) := session d reqs in
      Done (ret :: rets, d)
  end.
End Plugin.
Arguments plugin_library : clear implicits.

(** ** The abstract state machine *)

(** The requests a state accepts. *)
Definition allowed (s : plug_state) (req : request) : bool :=
  match req with
  | SNDRV_PCM_IOCTL_HW_PARAMS _ => bool_decide (s = PCM_PLUG_STATE_OPEN)
  | SNDRV_PCM_IOCTL_SW_PARAMS | SNDRV_PCM_IOCTL_PREPARE => bool_decide (s = PCM_PLUG_STATE_SETUP)
  | SNDRV_PCM_IOCTL_START => bool_decide (s = PCM_PLUG_STATE_PREPARED)
  | SNDRV_PCM_IOCTL_TTSTAMP | SNDRV_PCM_IOCTL_SYNC_PTR _ => bool_decide (s <> PCM_PLUG_STATE_OPEN)
  | SNDRV_PCM_IOCTL_WRITEI_FRAMES _ =>
      bool_decide (s = PCM_PLUG_STATE_PREPARED) || bool_decide (s = PCM_PLUG_STATE_RUNNING)
  | SNDRV_PCM_IOCTL_READI_FRAMES _ => bool_decide (s = PCM_PLUG_STATE_RUNNING)
  | _ => true
  end.

(** The requests that move the machine when they succeed. *)
Definition target (req : request) : option plug_state :=
  match req with
  | SNDRV_PCM_IOCTL_HW_PARAMS _ | SNDRV_PCM_IOCTL_DROP => Some PCM_PLUG_STATE_SETUP
  | SNDRV_PCM_IOCTL_PREPARE => Some PCM_PLUG_STATE_PREPARED
  | SNDRV_PCM_IOCTL_START => Some PCM_PLUG_STATE_RUNNING
  | _ => None
  end.

Definition next (s : plug_state) (req : request) (ret : Z) : plug_state :=
  if ret =? 0 then default s (target req) else s.

Section Automaton.
Context {P : Type}.
#[local] Abbreviation plug := (pcm_plug_data P).

(** Only the state and the private data of a plugin change. *)
Definition same_plugin (d d' : plug) : Prop := ops d' = ops d /\ constraints d' = constraints d.

Lemma ioctl_refused (d : plug) (req : request) :
  allowed (state d) req = false -> pcm_plug_ioctl d req = Done (- EBADFD, req, d).
Proof.
  destruct req; cbn; try discriminate; unfold pcm_plug_ttstamp, pcm_plug_hparams, pcm_plug_sparams,
    pcm_plug_sync_ptr, pcm_plug_prepare, pcm_plug_start, pcm_plug_writei_frames, pcm_plug_readi_frames;
    destruct (state d) eqn:E; cbn; repeat case_bool_decide; cbn; congruence.
Qed.

(** Case analysis of everything that returned. *)
Ltac ioctl_cases :=
  repeat match goal with
  | H : Done _ = Done _ |- _ => injection H as ?; subst
  | H : obind _ _ = Done _ |- _ => obinv H
  | H : (let '(_, _) := ?x in _) = Done _ |- _ => destruct x
  | H : (if ?b then _ else _) = Done _ |- _ => destruct b eqn:?
  | H : Undef = Done _ |- _ => discriminate H
  end.

Lemma ioctl_next (d d' : plug) (req req' : request) (ret : Z) :
  pcm_plug_ioctl d req = Done (ret, req', d') ->
  state d' = next (state d) req ret /\ same_plugin d d'.
Proof.
  unfold next, same_plugin. intros H.
  destruct req; cbn [pcm_plug_ioctl target default] in *;
    unfold pcm_plug_info, pcm_plug_ttstamp, pcm_plug_hparams, pcm_plug_sparams, pcm_plug_sync_ptr,
      pcm_plug_prepare, pcm_plug_start, pcm_plug_drop, pcm_plug_writei_frames,
      pcm_plug_readi_frames in H;
    ioctl_cases; cbn; repeat zif; zbool; try done; try (unfold EBADFD in *; lia); try congruence.
Qed.

(** ** Sessions *)

(** The successful moves of a session. *)
Fixpoint history (reqs : list request) (rets : list Z) : list request :=
  match reqs, rets with
  | r :: reqs, ret :: rets =>
      match target r with
      | Some _ => if ret =? 0 then r :: history reqs rets else history reqs rets
      | None => history reqs rets
      end
  | _, _ => []
  end.

Definition configures (r : request) : Prop := target r = Some PCM_PLUG_STATE_SETUP.

(** What a history tells about the state. *)
Definition explains (h : list request) (s : plug_state) : Prop :=
  match s with
  | PCM_PLUG_STATE_OPEN => h = []
  | PCM_PLUG_STATE_SETUP => exists h' c, configures c /\ h = h' ++ [c]
  | PCM_PLUG_STATE_PREPARED =>
      exists h' c, configures c /\ h = h' ++ [c; SNDRV_PCM_IOCTL_PREPARE]
  | PCM_PLUG_STATE_RUNNING =>
      exists h' c, configures c /\ h = h' ++ [c; SNDRV_PCM_IOCTL_PREPARE; SNDRV_PCM_IOCTL_START]
  end.

Lemma explains_next (h : list request) (s : plug_state) (r : request) (ret : Z) :
  explains h s -> (ret = 0 -> allowed s r = true) ->
  explains (h ++ history [r] [ret]) (next s r ret).
Proof.
  intros Hs Ha. unfold next. cbn [history]. destruct (ret =? 0) eqn:E; zbool;
    [|destruct (target r); cbn; by rewrite app_nil_r].
  specialize (Ha E).
  destruct (target r) as [t|] eqn:T; cbn; [|by rewrite app_nil_r].
  destruct r; cbn in T; try discriminate; injection T as <-; cbn in Ha |- *;
    try (apply bool_decide_eq_true in Ha; subst s; cbn in Hs).
  - exists h, (SNDRV_PCM_IOCTL_HW_PARAMS p). done.
  - destruct Hs as (h' & c & Hc & ->). exists h', c. by rewrite <-app_assoc.
  - destruct Hs as (h' & c & Hc & ->). exists h', c. by rewrite <-app_assoc.
  - exists h, SNDRV_PCM_IOCTL_DROP. done.
Qed.

Lemma ioctl_success_allowed (d d' : plug) (req req' : request) (ret : Z) :
  pcm_plug_ioctl d req = Done (ret, req', d') -> ret <> - EBADFD -> allowed (state d) req = true.
Proof.
  intros H N. destruct (allowed (state d) req) eqn:E; [done|].
  rewrite (ioctl_refused d req E) in H. injection H as <- _ _. done.
Qed.

Lemma session_explains (reqs : list request) (d d' : plug) (rets : list Z) (h : list request) :
  session d reqs = Done (rets, d') -> explains h (state d) ->
  explains (h ++ history reqs rets) (state d') /\ length rets = length reqs
  /\ same_plugin d d'.
Proof.
  revert d rets h. induction reqs as [|r reqs IH]; intros d rets h E Hd; cbn in E.
  { injection E as <- <-. cbn. by rewrite app_nil_r. }
  obinv E. destruct a as [[ret r'] d1]. obinv E. destruct a as [rets1 d2].
  injection E as <- <-.
  destruct (ioctl_next _ _ _ _ _ E0) as [Hn [S1 S2]].
  assert (explains (h ++ history [r] [ret]) (state d1)) as H1.
  { rewrite Hn. apply explains_next; [done|]. intros ->.
    by apply (ioctl_success_allowed _ _ _ _ _ E0). }
  destruct (IH d1 rets1 _ E1 H1) as (K & L & [S3 S4]).
  split; [|split; [cbn; congruence|split; congruence]].
  rewrite <-app_assoc in K. cbn [history] in K |- *. destruct (target r), (ret =? 0); exact K.
Qed.

(** C37. The life cycle is the four-state machine: a request that the state
    does not accept is answered with EBADFD and changes neither the plugin
    nor the argument, and after any request that returns the state is the one
    the machine prescribes, moved by a successful HW_PARAMS, PREPARE, START
    or DROP only; the operations and the constraints never change. *)
Theorem plugin_ioctl_follows_automaton (d : plug) (req : request) :
  (allowed (state d) req = false -> pcm_plug_ioctl d req = Done (- EBADFD, req, d))
  /\ (forall ret req' d', pcm_plug_ioctl d req = Done (ret, req', d') ->
        state d' = next (state d) req ret /\ same_plugin d d').
Proof. split; [apply ioctl_refused|intros ret req' d'; apply ioctl_next]. Qed.

(** Protocol of the transfers: after any session on a freshly opened
    plugin, frames are taken ([WRITEI_FRAMES] not refused with EBADFD) only
    when the successful moves of the session end with a configuration
    (HW_PARAMS or DROP) followed by PREPARE, or by PREPARE and START, and
    frames are delivered ([READI_FRAMES]) only in the second case. *)
Theorem plugin_transfer_protocol
    (d d' d'' : plug) (reqs : list request) (rets : list Z) (ret : Z) (x : snd_xferi)
    (req' : request) (playback : bool) :
  state d = PCM_PLUG_STATE_OPEN ->
  session d reqs = Done (rets, d') ->
  pcm_plug_ioctl d' (if playback then SNDRV_PCM_IOCTL_WRITEI_FRAMES x
                     else SNDRV_PCM_IOCTL_READI_FRAMES x) = Done (ret, req', d'') ->
  ret <> - EBADFD ->
  exists h c, configures c /\
    (history reqs rets = h ++ [c; SNDRV_PCM_IOCTL_PREPARE; SNDRV_PCM_IOCTL_START]
     \/ (playback = true /\ history reqs rets = h ++ [c; SNDRV_PCM_IOCTL_PREPARE])).
Proof.
  intros Hd Hs Hx Hr.
  destruct (session_explains reqs d d' rets [] Hs) as (K & _); [by rewrite Hd|]. cbn [app] in K.
  pose proof (ioctl_success_allowed _ _ _ _ _ Hx Hr) as A.
  destruct playback; cbn in A; unfold explains in K; destruct (state d'); cbn in A;
    try (repeat case_bool_decide; cbn in A; congruence);
    destruct K as (h & c & Hc & ->); exists h, c; eauto.
Qed.

(** ** Bringing a plugin up *)

(** What the PCM interface expects from the callbacks of a plugin: they are
    there, they return, and they report success. *)
Class Cooperative (o : pcm_plugin_ops P) : Prop := {
  coop_hw_params : exists f, op_hw_params o = Some f
    /\ forall x p, exists x' p', f x p = Done (0, x', p');
  coop_prepare : exists f, op_prepare o = Some f /\ forall x, exists x', f x = Done (0, x');
  coop_start : exists f, op_start o = Some f /\ forall x, exists x', f x = Done (0, x')
}.

Lemma hparams_up (d : plug) (p : snd_pcm_hw_params) :
  Cooperative (ops d) -> state d = PCM_PLUG_STATE_OPEN ->
  u32 (mm_min (bit_width (constraints d)) * mm_min (hc_channels (constraints d))) <> 0 ->
  exists p' x, pcm_plug_hparams d p = Done (0, p', set_state PCM_PLUG_STATE_SETUP (set_priv x d)).
Proof.
  intros [(f & O & F) _ _] Hd N0.
  destruct (hrefine_done (constraints d) (set_rmask UINT32_MAX p) N0) as (p1 & E1).
  destruct (F (priv d) (pcm_plug_hw_params_set p1)) as (x & p2 & E2).
  exists p2, x. unfold pcm_plug_hparams. by rewrite bool_decide_eq_true_2, E1, O; cbn; rewrite ?E2.
Qed.

Lemma prepare_up (d : plug) :
  Cooperative (ops d) -> state d = PCM_PLUG_STATE_SETUP ->
  exists x, pcm_plug_prepare d = Done (0, set_state PCM_PLUG_STATE_PREPARED (set_priv x d)).
Proof.
  intros [_ (f & O & F) _] Hd. destruct (F (priv d)) as (x & E). exists x.
  unfold pcm_plug_prepare. by rewrite bool_decide_eq_true_2, O; cbn; rewrite ?E.
Qed.

Lemma start_up (d : plug) :
  Cooperative (ops d) -> state d = PCM_PLUG_STATE_PREPARED ->
  exists x, pcm_plug_start d = Done (0, set_state PCM_PLUG_STATE_RUNNING (set_priv x d)).
Proof.
  intros [_ _ (f & O & F)] Hd. destruct (F (priv d)) as (x & E). exists x.
  unfold pcm_plug_start. by rewrite bool_decide_eq_true_2, O; cbn; rewrite ?E.
Qed.

(** A cooperative plugin comes up: for every request of parameters and
    every plugin whose frames are not empty, HW_PARAMS, PREPARE and START
    succeed one after the other from the open state, the machine is running
    afterwards, and SYNC_PTR then reports a running stream whenever the
    plugin's own callback succeeds. *)
Theorem plugin_bring_up (d : plug) (p : snd_pcm_hw_params) :
  Cooperative (ops d) ->
  state d = PCM_PLUG_STATE_OPEN ->
  u32 (mm_min (bit_width (constraints d)) * mm_min (hc_channels (constraints d))) <> 0 ->
  exists d', session d [SNDRV_PCM_IOCTL_HW_PARAMS p; SNDRV_PCM_IOCTL_PREPARE;
                        SNDRV_PCM_IOCTL_START] = Done ([0; 0; 0], d')
    /\ state d' = PCM_PLUG_STATE_RUNNING /\ same_plugin d d'
    /\ (forall s s' d'', pcm_plug_sync_ptr d' s = Done (0, s', d'') -> s' = Some PCM_STATE_RUNNING).
Proof.
  intros C Hd N0.
  destruct (hparams_up d p C Hd N0) as (p1 & x1 & E1).
  destruct (prepare_up (set_state PCM_PLUG_STATE_SETUP (set_priv x1 d)) C eq_refl) as (x2 & E2).
  destruct (start_up (set_state PCM_PLUG_STATE_PREPARED
              (set_priv x2 (set_state PCM_PLUG_STATE_SETUP (set_priv x1 d)))) C eq_refl) as (x3 & E3).
  cbn [session pcm_plug_ioctl]. rewrite E1. cbn [obind]. rewrite E2. cbn [obind]. rewrite E3.
  cbn [obind]. eexists. split; [reflexivity|]. split; [done|]. split; [done|].
  intros st st' d''. unfold pcm_plug_sync_ptr. cbn. intros H. ioctl_cases. done.
Qed.
End Automaton.

(** ** A plugin for the witnesses *)

(** A plugin that counts the frames it is given. *)
Definition counting_ops : pcm_plugin_ops Z :=
  {| op_close := Some (fun _ => Done 0);
     op_hw_params := Some (fun n p => Done (0, n, p));
     op_sw_params := None; op_sync_ptr := None;
     op_writei_frames := Some (fun n x =>
       Done (0, n + x.(x_frames),
             {| x_buf := x.(x_buf); x_frames := x.(x_frames); x_result := x.(x_frames) |}));
     op_readi_frames := None; op_ttstamp := None;
     op_prepare := Some (fun n => Done (0, n));
     op_start := Some (fun n => Done (0, n));
     op_drop := Some (fun n => Done (0, n));
     op_ioctl := None; op_mmap := None; op_munmap := None; op_poll := None |}.

#[global] Instance counting_cooperative : Cooperative counting_ops.
Proof. constructor; eexists; (split; [reflexivity|]); cbn; eauto. Qed.

Definition counting_plug : pcm_plug_data Z :=
  {| ops := counting_ops; state := PCM_PLUG_STATE_OPEN; constraints := demo_constraints; priv := 0 |}.

Definition demo_xferi : snd_xferi := {| x_buf := [1; 2; 3; 4]; x_frames := 1; x_result := 0 |}.

Lemma plugin_transfer_protocol_witness :
  exists h c, configures c /\
    (history [SNDRV_PCM_IOCTL_DROP; SNDRV_PCM_IOCTL_PREPARE] [0; 0]
       = h ++ [c; SNDRV_PCM_IOCTL_PREPARE; SNDRV_PCM_IOCTL_START]
     \/ (true = true /\ history [SNDRV_PCM_IOCTL_DROP; SNDRV_PCM_IOCTL_PREPARE] [0; 0]
                        = h ++ [c; SNDRV_PCM_IOCTL_PREPARE])).
Proof.
  eapply (plugin_transfer_protocol counting_plug _ _ _ [0; 0] 0 demo_xferi _ true);
    [reflexivity|vm_compute; reflexivity|vm_compute; reflexivity|discriminate].
Defined.

Lemma plugin_bring_up_witness :
  exists d', session counting_plug [SNDRV_PCM_IOCTL_HW_PARAMS any_params; SNDRV_PCM_IOCTL_PREPARE;
                        SNDRV_PCM_IOCTL_START] = Done ([0; 0; 0], d')
    /\ state d' = PCM_PLUG_STATE_RUNNING.
Proof.
  destruct (plugin_bring_up counting_plug any_params counting_cooperative eq_refl)
    as (d' & E & S & _); [vm_compute; discriminate|]. exists d'. split; [exact E|exact S].
Defined.

(** [DROP] is not guarded: it takes an open plugin straight to the
    configured state, and frames are accepted with no hardware parameters. *)
Lemma drop_skips_hw_params :
  exists d, session counting_plug [SNDRV_PCM_IOCTL_DROP; SNDRV_PCM_IOCTL_PREPARE;
                                   SNDRV_PCM_IOCTL_WRITEI_FRAMES demo_xferi] = Done ([0; 0; 0], d).
Proof. eexists. vm_compute. reflexivity. Qed.

(** A missing library, or a library without a table, is reported as success,
    and the data pointer is left unset. *)
Lemma open_failure_reported_as_success {P} (lib : option (plugin_library P)) :
  match lib with Some l => lib_ops l = None | None => True end ->
  pcm_plug_open true lib = Done (0, None).
Proof. destruct lib as [l|]; cbn; [intros ->|]; done. Qed.
