(* ===== verification/SamplePlugin.v ===== *)
(** * The sample PCM plugin

    Models [plugin/adds/pcm_sample_plugin.c]: a plugin that dumps what is
    played to a file and injects recorded sound from another one.  Files are
    their bytes; the two static variables of [dump_out_data] are threaded
    with the private data. *)

From stdpp Require Import base list numbers.
From Stdlib Require Import ZArith Lia.
From S2P Require Import Prelude PcmParams PcmPlugin.

#[local] Open Scope Z_scope.

(** ** Data *)

(** An open [FILE] read from position [pos]. *)
Record inject_file := { content : list Z; pos : Z }.

(** A [FILE *]: null, open, or closed and still pointing to the stream. *)
Inductive file_ptr := F_NULL | F_OPEN | F_CLOSED.

(** The static variables of [dump_out_data] and the bytes in the file. *)
Record dump_state := { fd : file_ptr; offset : Z; dumped : list Z }.

(** The value of the statics when the library is loaded. *)
Definition initial_dump : dump_state := {| fd := F_NULL; offset := 0; dumped := [] |}.

Record sample_plug := {
  sound_index : Z;
  config : pcm_config;
  inject_fp : option inject_file;
  dump : dump_state
}.

Definition set_config (c : pcm_config) (p : sample_plug) : sample_plug :=
  {| sound_index := p.(sound_index); config := c; inject_fp := p.(inject_fp); dump := p.(dump) |}.
Definition set_inject (f : option inject_file) (p : sample_plug) : sample_plug :=
  {| sound_index := p.(sound_index); config := p.(config); inject_fp := f; dump := p.(dump) |}.
Definition set_dump (d : dump_state) (p : sample_plug) : sample_plug :=
  {| sound_index := p.(sound_index); config := p.(config); inject_fp := p.(inject_fp); dump := d |}.

Definition set_result (r : Z) (x : snd_xferi) : snd_xferi :=
  {| x_buf := x.(x_buf); x_frames := x.(x_frames); x_result := r |}.

(** Conversion to a 64-bit [size_t]. *)
Definition size_t (z : Z) : Z := z mod 18446744073709551616.

Definition DUMP_LIMIT : Z := 100 * 1024 * 1024.

(** [calloc] of the constraints. *)
Definition zero_constraints : pcm_plugin_hw_constraints :=
  let z := {| mm_min := 0; mm_max := 0 |} in
  {| access := 0; format := 0; bit_width := z; hc_channels := z; hc_rate := z; periods := z;
     period_bytes := z |}.

(** ** Opening and closing *)

(** [mem1], [mem2], [mem3]: the three allocations succeed; [file]: what
    [fopen] of the injected file gives. *)
Definition plug_open (mem1 mem2 mem3 : bool) (file : option (list Z)) (statics : dump_state)
  : Z * option (pcm_plugin_hw_constraints * sample_plug) :=
  if negb mem1 then (- ENOMEM, None)
  else if negb mem2 then (- ENOMEM, None)
  else if negb mem3 then (- ENOMEM, None)
  else (0, Some (zero_constraints,
                 {| sound_index := 0; config := zero_config;
                    inject_fp := match file with
                                 | Some b => Some {| content := b; pos := 0 |}
                                 | None => None
                                 end;
                    dump := statics |})).

(** The plugin and its private data are freed; the handle is not null. *)
Definition plug_close (p : sample_plug) : outcome Z := Done 0.

(** ** Transfers *)

Section Transfers.
(** [pcm_format_to_bits] of tinyalsa, and whether the dump file can be
    created. *)
Context (pcm_format_to_bits : Z -> Z) (fopen_ok : bool).

Definition dump_out_data (buffer : list Z) (bytes : Z) (d : dump_state) : outcome dump_state :=
  let write (d : dump_state) : outcome dump_state :=
    let! b := mem_read buffer 0 bytes in
    let off := s32 (d.(offset) + bytes) in
    let out := d.(dumped) ++ b in
    if off >=? DUMP_LIMIT then Done {| fd := F_CLOSED; offset := 0; dumped := out |}
    else Done {| fd := F_OPEN; offset := off; dumped := out |} in
  match d.(fd) with
  | F_NULL =>
      if fopen_ok then write {| fd := F_OPEN; offset := d.(offset); dumped := [] |}
      else Done {| fd := F_NULL; offset := 0; dumped := d.(dumped) |}
  | F_OPEN => write d
  | F_CLOSED => Undef
  end.

(** The size of a transfer, as the [int32_t] the code computes. *)
Definition transfer_bytes (c : pcm_config) (frames : Z) : Z :=
  s32 (pcm_format_to_bits c.(cfg_format) / 8 * frames * c.(channels)).

Definition plug_writei_frames (p : sample_plug) (x : snd_xferi)
  : outcome (Z * sample_plug * snd_xferi) :=
  let period_bytes := transfer_bytes p.(config) x.(x_frames) in
  let! d := dump_out_data x.(x_buf) (size_t period_bytes) p.(dump) in
  Done (0, set_dump d p, set_result x.(x_frames) x).

(** [fread (buf, 1, n, fp)]: the bytes read and the file after it. *)
Definition fread (n : Z) (f : inject_file) : list Z * inject_file :=
  let b := zslice f.(content) f.(pos) (Z.min n (zlen f.(content) - f.(pos))) in
  (b, {| content := f.(content); pos := f.(pos) + zlen b |}).

Definition rewind (f : inject_file) : inject_file := {| content := f.(content); pos := 0 |}.

Definition plug_readi_frames (p : sample_plug) (x : snd_xferi)
  : outcome (Z * sample_plug * snd_xferi) :=
  let period_bytes := transfer_bytes p.(config) x.(x_frames) in
  match p.(inject_fp) with
  | None => Done (0, p, set_result x.(x_frames) x)
  | Some f =>
      let '(b, f) := fread (size_t period_bytes) f in
      let! buf := mem_write x.(x_buf) 0 b in
      let ret := s32 (zlen b) in
      let f := if ret <? period_bytes then rewind f else f in
      let sample := pcm_format_to_bits p.(config).(cfg_format) / 8 in
      if (sample =? 0) || (p.(config).(channels) =? 0) then Undef
      else
        Done (0, set_inject (Some f) p,
              {| x_buf := buf; x_frames := x.(x_frames);
                 x_result := u32 ret / sample / p.(config).(channels) |})
  end.

(** ** Configuration *)

Definition plug_prepare (p : sample_plug) : outcome (Z * sample_plug) := Done (0, p).

Definition plug_start (p : sample_plug) : outcome (Z * sample_plug) := Done (0, p).

Definition hw_param_mask (p : snd_pcm_hw_params) (var : Z) : snd_mask :=
  p.(masks) !!! Z.to_nat (var - SNDRV_PCM_HW_PARAM_FIRST_MASK).

Definition param_is_interval (n : Z) : bool :=
  (SNDRV_PCM_HW_PARAM_FIRST_INTERVAL <=? n) && (n <=? SNDRV_PCM_HW_PARAM_LAST_INTERVAL).

Definition param_get_min (p : snd_pcm_hw_params) (n : Z) : Z :=
  if param_is_interval n then (interval_at p n).(i_min) else 0.

Definition param_get_int (p : snd_pcm_hw_params) (n : Z) : Z :=
  if param_is_interval n then
    if (interval_at p n).(integer) then (interval_at p n).(i_max) else 0
  else 0.

Definition plug_hw_params (p : sample_plug) (params : snd_pcm_hw_params)
  : outcome (Z * sample_plug * snd_pcm_hw_params) :=
  let c := p.(config) in
  let fmt := hw_param_mask params SNDRV_PCM_HW_PARAM_FORMAT in
  let c := {| channels := param_get_int params SNDRV_PCM_HW_PARAM_CHANNELS;
              rate := param_get_int params SNDRV_PCM_HW_PARAM_RATE;
              period_size := param_get_min params SNDRV_PCM_HW_PARAM_PERIOD_SIZE;
              period_count := c.(period_count);
              cfg_format := fmt.(bits0);
              start_threshold := c.(start_threshold); stop_threshold := c.(stop_threshold);
              silence_threshold := c.(silence_threshold); silence_size := c.(silence_size) |} in
  Done (0, set_config c p, params).

(** The exported table; the other pointers are null. *)
Definition sample_ops : pcm_plugin_ops sample_plug :=
  {| op_close := Some plug_close;
     op_hw_params := Some plug_hw_params;
     op_sw_params := None; op_sync_ptr := None;
     op_writei_frames := Some plug_writei_frames;
     op_readi_frames := Some plug_readi_frames;
     op_ttstamp := None;
     op_prepare := Some plug_prepare;
     op_start := Some plug_start;
     op_drop := None; op_ioctl := None; op_mmap := None; op_munmap := None; op_poll := None |}.

(** The library the dynamic linker loads. *)
Definition sample_library (mem1 mem2 mem3 : bool) (file : option (list Z)) (statics : dump_state)
  : plugin_library sample_plug :=
  {| lib_ops := Some sample_ops; lib_open := plug_open mem1 mem2 mem3 file statics |}.

#[global] Instance sample_cooperative : Cooperative sample_ops.
Proof. constructor; eexists; (split; [reflexivity|]); cbn; unfold plug_hw_params; eauto. Qed.
End Transfers.

(** ** The plugin behind the PCM interface *)

Section Session.
Context (pcm_format_to_bits : Z -> Z) (fopen_ok : bool).

(** A plugin in the state in which [pcm_plug_open] leaves it. *)
Definition fresh (d : pcm_plug_data sample_plug) : Prop :=
  ops d = sample_ops pcm_format_to_bits fopen_ok
  /\ state d = PCM_PLUG_STATE_OPEN /\ constraints d = zero_constraints.

Lemma fresh_ioctl (d : pcm_plug_data sample_plug) (req : request) :
  fresh d -> pcm_plug_ioctl d req = Undef \/ pcm_plug_ioctl d req = Done (- EBADFD, req, d).
Proof.
  intros (Ho & Hs & Hc). destruct (allowed (state d) req) eqn:A;
    [left|right; by apply ioctl_refused].
  destruct d as [o s c x]. cbn in *. subst o s c.
  destruct req; cbn in A; try (vm_compute in A; discriminate A); reflexivity.
Qed.

(** Behind the PCM interface, the sample plugin can be opened but never
    configured: its constraints are all zero, so HW_PARAMS and HW_REFINE
    divide by zero, and in every session that has no undefined behaviour each
    request is refused with EBADFD and changes nothing. *)
Theorem sample_plugin_never_configured
    (file : option (list Z)) (statics : dump_state) :
  exists d,
    pcm_plug_open true (Some (sample_library pcm_format_to_bits fopen_ok true true true file statics))
      = Done (0, Some d)
    /\ (forall p, pcm_plug_ioctl d (SNDRV_PCM_IOCTL_HW_PARAMS p) = Undef
                  /\ pcm_plug_ioctl d (SNDRV_PCM_IOCTL_HW_REFINE p) = Undef)
    /\ (forall reqs, session d reqs = Undef
                     \/ session d reqs = Done (replicate (length reqs) (- EBADFD), d)).
Proof.
  eexists. split; [reflexivity|]. split; [done|]. intros reqs.
  set (d := Build_pcm_plug_data _ _ _ _). assert (fresh d) as F by done. clearbody d.
  induction reqs as [|r reqs IH]; [by right|]. cbn [session].
  destruct (fresh_ioctl d r F) as [E | E]; rewrite E; cbn [obind]; [by left|].
  destruct IH as [E' | E']; rewrite E'; [by left|by right].
Qed.
End Session.

(** ** The dump file *)

Section Dump.
Context (pcm_format_to_bits : Z -> Z).
#[local] Abbreviation write := (plug_writei_frames pcm_format_to_bits true).

(** A sequence of writes. *)
Fixpoint write_all (p : sample_plug) (l : list snd_xferi) : outcome sample_plug :=
  match l with
  | [] => Done p
  | x :: l => let! (_, p, _) := write p x in write_all p l
  end.

(** A buffer of the size the configuration gives for its frames. *)
Definition sized (c : pcm_config) (x : snd_xferi) : Prop :=
  zlen x.(x_buf) = transfer_bytes pcm_format_to_bits c x.(x_frames)
  /\ zlen x.(x_buf) <= INT32_MAX - DUMP_LIMIT.

Definition total (l : list snd_xferi) : Z := zlen (mjoin (x_buf <$> l)).

(** What was dumped so far, with the file open. *)
Definition dumping (p : sample_plug) (b : list Z) : Prop :=
  match fd (dump p) with
  | F_NULL => b = []
  | F_OPEN => True
  | F_CLOSED => False
  end /\ dumped (dump p) = b /\ offset (dump p) = zlen b /\ zlen b < DUMP_LIMIT.

Lemma write_sized (p : sample_plug) (x : snd_xferi) (b : list Z) :
  dumping p b -> sized (config p) x ->
  exists d, write p x = Done (0, set_dump d p, set_result (x_frames x) x)
    /\ dumped d = b ++ x_buf x
    /\ (zlen (b ++ x_buf x) < DUMP_LIMIT -> dumping (set_dump d p) (b ++ x_buf x))
    /\ (DUMP_LIMIT <= zlen (b ++ x_buf x) -> fd d = F_CLOSED).
Proof.
  intros (D & Db & Do & B) [S1 S2]. unfold plug_writei_frames. rewrite <-S1.
  pose proof (zlen_nonneg (x_buf x)). pose proof (zlen_nonneg b).
  unfold DUMP_LIMIT, INT32_MAX in *.
  assert (size_t (zlen (x_buf x)) = zlen (x_buf x)) as -> by (apply Z.mod_small; lia).
  pose proof (zlen_app b (x_buf x)) as Lb.
  unfold dump_out_data, dumping.
  destruct (fd (dump p)); [subst b|clear D|done];
    cbn [obind offset dumped fd];
    rewrite mem_read_done, zslice_all by lia; cbn [obind];
    rewrite Do, s32_small by (unfold INT32_MAX; lia);
    destruct (_ >=? _) eqn:E; zbool; unfold DUMP_LIMIT in E; cbn [obind];
    (eexists; split; [reflexivity|]); cbn [dumped fd dump set_dump offset]; rewrite ?Lb, ?Db in *;
    repeat split; intros; done || lia.
Qed.

Lemma write_all_dumping (l : list snd_xferi) (p : sample_plug) (b : list Z) :
  dumping p b -> Forall (sized (config p)) l -> zlen b + total l < DUMP_LIMIT ->
  exists d, write_all p l = Done (set_dump d p) /\ dumping (set_dump d p) (b ++ mjoin (x_buf <$> l)).
Proof.
  revert p b. induction l as [|x l IH]; intros p b D F T.
  - exists (dump p). cbn. rewrite app_nil_r. by destruct p.
  - apply Forall_cons_1 in F as [Fx Fl]. cbn [write_all].
    destruct (write_sized p x b D Fx) as (d & E & _ & K & _). rewrite E. cbn [obind].
    assert (total (x :: l) = zlen (x_buf x) + total l) as HT by apply zlen_app.
    pose proof (zlen_app b (x_buf x)) as Lb.
    pose proof (zlen_nonneg (mjoin (x_buf <$> l))) as N. fold (total l) in N.
    destruct (IH (set_dump d p) (b ++ x_buf x)) as (d' & E' & D'); [apply K; lia|done|lia|].
    exists d'. rewrite E'. split; [done|]. cbn. by rewrite app_assoc.
Qed.

Lemma write_all_app (l1 l2 : list snd_xferi) (p : sample_plug) :
  write_all p (l1 ++ l2) = let! p := write_all p l1 in write_all p l2.
Proof.
  revert p. induction l1 as [|x l1 IH]; intros p; cbn [app write_all]; [done|].
  destruct (write p x) as [[[r q] y]| | |]; cbn [obind]; [apply IH|done..].
Qed.

(** The dump of the played sound: writes whose buffers have the size of
    their frames are stored in the dump file one after the other, as long as
    they stay under 100 MiB together; the write that reaches the limit is
    stored too and ends the dump, and the write after it uses the closed
    file. *)
Theorem sample_dump_until_limit (p : sample_plug) (l : list snd_xferi) (x y : snd_xferi) :
  dump p = initial_dump ->
  Forall (sized (config p)) (l ++ [x; y]) -> total l < DUMP_LIMIT ->
  (exists d, write_all p l = Done (set_dump d p)
     /\ dumped d = mjoin (x_buf <$> l))
  /\ (DUMP_LIMIT <= total (l ++ [x]) ->
      (exists d, write_all p (l ++ [x]) = Done (set_dump d p)
         /\ dumped d = mjoin (x_buf <$> (l ++ [x])))
      /\ write_all p (l ++ [x; y]) = Undef).
Proof.
  intros I F T. apply Forall_app in F as [Fl F2].
  apply Forall_cons_1 in F2 as [Fx Fy]. apply Forall_cons_1 in Fy as [Fy _].
  destruct (write_all_dumping l p []) as (d & E & D);
    [|done|by change (zlen (@nil Z)) with 0|].
  { unfold dumping. rewrite I. repeat split. }
  cbn [app] in D. split.
  - exists d. split; [done|]. apply D.
  - intros L. rewrite !write_all_app, E. cbn [obind write_all].
    destruct (write_sized (set_dump d p) x _ D Fx) as (d2 & E2 & Dd & _ & K). rewrite E2.
    cbn [obind].
    unfold total in L. rewrite fmap_app, join_app in L |- *. cbn in L |- *. rewrite app_nil_r in L |- *.
    split; [exists d2; done|].
    unfold plug_writei_frames, dump_out_data. cbn. by rewrite K.
Qed.
End Dump.

(** tinyalsa's sizes of the formats, for the witnesses. *)
Definition tiny_bits (f : Z) : Z := if f =? 1 then 32 else if f =? 4 then 24 else 16.

Definition stereo : pcm_config :=
  {| channels := 2; rate := 48000; period_size := 2; period_count := 4; cfg_format := 0;
     start_threshold := 0; stop_threshold := 0; silence_threshold := 0; silence_size := 0 |}.

Definition demo_sample (file : option inject_file) : sample_plug :=
  {| sound_index := 0; config := stereo; inject_fp := file; dump := initial_dump |}.

Lemma sample_dump_until_limit_witness :
  exists d, write_all tiny_bits (demo_sample None) [demo_xferi; demo_xferi]
              = Done (set_dump d (demo_sample None))
    /\ dumped d = [1; 2; 3; 4; 1; 2; 3; 4].
Proof.
  destruct (sample_dump_until_limit tiny_bits (demo_sample None) [demo_xferi; demo_xferi]
              demo_xferi demo_xferi eq_refl) as [H _].
  - repeat constructor; vm_compute; discriminate || reflexivity.
  - vm_compute. reflexivity.
  - exact H.
Defined.

(** ** The injected file *)

Section Inject.
Context (pcm_format_to_bits : Z -> Z).

(** Injected sound: with a configuration whose frames are not empty and
    a buffer that holds the frames asked for, a read succeeds, puts the next
    bytes of the file at the start of the buffer and leaves the rest of the
    buffer alone, reports as many whole frames as were read, never more than
    asked for, and goes back to the start of the file exactly when the file
    ran short. *)
Theorem sample_inject_loops (p : sample_plug) (f : inject_file) (x : snd_xferi) :
  let sample := pcm_format_to_bits (cfg_format (config p)) / 8 in
  let frame := sample * channels (config p) in
  let want := sample * x_frames x * channels (config p) in
  let n := Z.min want (zlen (content f) - pos f) in
  inject_fp p = Some f -> 0 <= pos f <= zlen (content f) ->
  0 < sample -> 0 < channels (config p) -> 0 <= x_frames x ->
  want <= INT32_MAX -> want <= zlen (x_buf x) ->
  plug_readi_frames pcm_format_to_bits p x =
    Done (0, set_inject (Some {| content := content f;
                                 pos := if n <? want then 0 else pos f + want |}) p,
          {| x_buf := splice (x_buf x) 0 (zslice (content f) (pos f) n);
             x_frames := x_frames x; x_result := n / frame |})
  /\ 0 <= n / frame <= x_frames x.
Proof.
  intros sample frame want n Hf Hp Hs Hc Hx Hw Hb.
  assert (0 <= want) as W by (subst want; nia).
  assert (0 <= n <= want) as N by (subst n; lia).
  assert (zlen (zslice (content f) (pos f) n) = n) as Ln by (apply zlen_zslice; subst n; lia).
  split.
  - unfold plug_readi_frames, transfer_bytes. rewrite Hf. fold sample. fold want.
    rewrite (s32_small want) by lia. unfold fread, size_t.
    rewrite (Z.mod_small want) by (unfold INT32_MAX in *; lia). fold n. cbn [content pos].
    rewrite mem_write_done by lia. cbn [obind]. rewrite Ln, s32_small by lia.
    rewrite (proj2 (Z.eqb_neq sample 0)), (proj2 (Z.eqb_neq (channels (config p)) 0)) by lia.
    cbn [orb]. rewrite u32_small by (unfold is_u32, UINT32_MAX, INT32_MAX in *; lia).
    rewrite Z.div_div by lia. fold frame. unfold rewind. cbn [content].
    destruct (n <? want) eqn:E; zbool; [done|]. replace n with want by lia. done.
  - assert (0 < frame) by (subst frame; nia).
    split; [apply Z.div_pos; lia|]. apply Z.div_le_upper_bound; [lia|]. subst frame want. nia.
Qed.
End Inject.

Lemma sample_inject_loops_witness :
  let f := {| content := [5; 6; 7; 8; 9]; pos := 4 |} in
  plug_readi_frames tiny_bits (demo_sample (Some f)) demo_xferi =
    Done (0, demo_sample (Some {| content := [5; 6; 7; 8; 9]; pos := 0 |}),
          {| x_buf := [9; 2; 3; 4]; x_frames := 1; x_result := 0 |}).
Proof.
  intros f.
  destruct (sample_inject_loops tiny_bits (demo_sample (Some f)) f demo_xferi eq_refl) as [H _];
    [vm_compute; split; discriminate|reflexivity|reflexivity|discriminate|discriminate|discriminate|].
  exact H.
Defined.
