(* ===== verification/PcmWrapper.v ===== *)
(** * The PCM wrapper

    Models [plugin/pcm_wrapper.c], the handle through which the HAL records
    and plays: every transfer goes to the ALSA device and, when the property
    [config.pcm.plug.enable] is set, to a PCM plugin.  The tinyalsa library
    and the plugin library are parameters. *)

From Stdlib Require Import String ZArith Lia.
From stdpp Require Import base list numbers.
From S2P Require Import Prelude PcmParams PcmPlugin.

#[local] Open Scope Z_scope.

(** ** Constants and data *)

(** Values of the tinyalsa and ALSA headers. *)
Definition PCM_IN : Z := 268435456.
Definition PCM_FORMAT_S16_LE : Z := 0.
Definition PCM_FORMAT_S32_LE : Z := 1.
Definition PCM_FORMAT_S8 : Z := 2.
Definition PCM_FORMAT_S24_LE : Z := 3.
Definition PCM_FORMAT_S24_3LE : Z := 4.
Definition SNDRV_PCM_FORMAT_S8 : Z := 0.
Definition SNDRV_PCM_FORMAT_S16_LE : Z := 2.
Definition SNDRV_PCM_FORMAT_S24_LE : Z := 6.
Definition SNDRV_PCM_FORMAT_S32_LE : Z := 10.
Definition SNDRV_PCM_FORMAT_S24_3LE : Z := 32.
Definition SNDRV_MASK_MAX : Z := 256.

(** The tinyalsa functions the wrapper calls, over the [struct pcm]
    objects [H]; a null [struct pcm *] is [None]. *)
Record tinyalsa (H : Type) := {
  pcm_format_to_bits : Z -> Z;
  pcm_open : Z -> Z -> Z -> option pcm_config -> option H;
  pcm_write : H -> list Z -> Z -> Z * H;
  pcm_read : H -> list Z -> Z -> Z * list Z * H;
  pcm_close : H -> Z
}.
Arguments pcm_format_to_bits {H}. Arguments pcm_open {H}. Arguments pcm_write {H}.
Arguments pcm_read {H}. Arguments pcm_close {H}.

(** [struct pcm_wrapper]: [w_ops] tells whether [ops] points to the table
    of the plugin interface (it is null otherwise). *)
Record pcm_wrapper (H P : Type) := {
  alsa_pcm : option H;
  w_ops : bool;
  data : option (pcm_plug_data P);
  w_fd : Z;
  flags : Z;
  xruns : Z;
  buffer_size : Z;
  w_config : pcm_config
}.
Arguments alsa_pcm {H P}. Arguments w_ops {H P}. Arguments data {H P}. Arguments w_fd {H P}.
Arguments flags {H P}. Arguments xruns {H P}. Arguments buffer_size {H P}. Arguments w_config {H P}.

(** ** Parameters *)

Definition param_is_interval (n : Z) : bool :=
  (SNDRV_PCM_HW_PARAM_FIRST_INTERVAL <=? n) && (n <=? SNDRV_PCM_HW_PARAM_LAST_INTERVAL).

Definition param_is_mask (n : Z) : bool :=
  (SNDRV_PCM_HW_PARAM_FIRST_MASK <=? n) && (n <=? SNDRV_PCM_HW_PARAM_LAST_MASK).

(** The first two words are cleared and the word of [bit] gets its bit. *)
Definition param_set_mask (n bit : Z) (p : snd_pcm_hw_params) : snd_pcm_hw_params :=
  if bit >=? SNDRV_MASK_MAX then p
  else if param_is_mask n then
    let k := Z.to_nat (n - SNDRV_PCM_HW_PARAM_FIRST_MASK) in
    let b := u32 (Z.shiftl 1 (Z.land bit 31)) in
    let w := Z.shiftr bit 5 in
    set_masks (<[k := {| bits0 := if w =? 0 then b else 0; bits1 := if w =? 1 then b else 0 |}]>
                 p.(masks)) p
  else p.

Definition param_set_min (n val : Z) (p : snd_pcm_hw_params) : snd_pcm_hw_params :=
  if param_is_interval n then
    let i := interval_at p n in
    put_interval n {| i_min := val; i_max := i.(i_max); openmin := i.(openmin);
                      openmax := i.(openmax); integer := i.(integer) |} p
  else p.

Definition param_set_int (n val : Z) (p : snd_pcm_hw_params) : snd_pcm_hw_params :=
  if param_is_interval n then
    let i := interval_at p n in
    put_interval n {| i_min := val; i_max := val; openmin := i.(openmin);
                      openmax := i.(openmax); integer := true |} p
  else p.

(** The loops run over all masks and over all intervals. *)
Definition param_init : snd_pcm_hw_params :=
  let p := zero_params in
  let p := set_masks ((fun _ => {| bits0 := UINT32_MAX; bits1 := UINT32_MAX |}) <$> p.(masks)) p in
  let p := set_intervals ((fun i => {| i_min := 0; i_max := UINT32_MAX; openmin := i.(openmin);
                                       openmax := i.(openmax); integer := i.(integer) |})
                            <$> p.(intervals)) p in
  set_cmask 0 (set_rmask UINT32_MAX p).

Definition pcm_format_to_alsa (f : Z) : Z :=
  if f =? PCM_FORMAT_S8 then SNDRV_PCM_FORMAT_S8
  else if f =? PCM_FORMAT_S24_LE then SNDRV_PCM_FORMAT_S24_LE
  else if f =? PCM_FORMAT_S24_3LE then SNDRV_PCM_FORMAT_S24_3LE
  else if f =? PCM_FORMAT_S32_LE then SNDRV_PCM_FORMAT_S32_LE
  else SNDRV_PCM_FORMAT_S16_LE.

(** The request that [pcm_wrapper_set_config] builds from a configuration. *)
Definition config_params (c : pcm_config) : snd_pcm_hw_params :=
  let p := param_init in
  let p := param_set_mask SNDRV_PCM_HW_PARAM_FORMAT (pcm_format_to_alsa c.(cfg_format)) p in
  let p := param_set_min SNDRV_PCM_HW_PARAM_PERIOD_SIZE c.(period_size) p in
  let p := param_set_int SNDRV_PCM_HW_PARAM_CHANNELS c.(channels) p in
  let p := param_set_int SNDRV_PCM_HW_PARAM_PERIODS c.(period_count) p in
  param_set_int SNDRV_PCM_HW_PARAM_RATE c.(rate) p.

(** What [config == NULL] stands for; the thresholds are
    [period_count * period_size]. *)
Definition default_config : pcm_config :=
  {| channels := 2; rate := 48000; period_size := 1024; period_count := 4;
     cfg_format := PCM_FORMAT_S16_LE; start_threshold := u32 (4 * 1024);
     stop_threshold := u32 (4 * 1024); silence_threshold := 0; silence_size := 0 |}.

Section Wrapper.
Context {H P : Type} (alsa : tinyalsa H).
#[local] Abbreviation wrapper := (pcm_wrapper H P).

Definition set_data (d : pcm_plug_data P) (w : wrapper) : wrapper :=
  {| alsa_pcm := w.(alsa_pcm); w_ops := w.(w_ops); data := Some d; w_fd := w.(w_fd);
     flags := w.(flags); xruns := w.(xruns); buffer_size := w.(buffer_size);
     w_config := w.(w_config) |}.
Definition set_alsa (h : option H) (w : wrapper) : wrapper :=
  {| alsa_pcm := h; w_ops := w.(w_ops); data := w.(data); w_fd := w.(w_fd);
     flags := w.(flags); xruns := w.(xruns); buffer_size := w.(buffer_size);
     w_config := w.(w_config) |}.
Definition set_wconfig (c : pcm_config) (w : wrapper) : wrapper :=
  {| alsa_pcm := w.(alsa_pcm); w_ops := w.(w_ops); data := w.(data); w_fd := w.(w_fd);
     flags := w.(flags); xruns := w.(xruns); buffer_size := w.(buffer_size); w_config := c |}.
Definition set_xruns (n : Z) (w : wrapper) : wrapper :=
  {| alsa_pcm := w.(alsa_pcm); w_ops := w.(w_ops); data := w.(data); w_fd := w.(w_fd);
     flags := w.(flags); xruns := n; buffer_size := w.(buffer_size); w_config := w.(w_config) |}.
Definition set_plugin (fd : Z) (d : option (pcm_plug_data P)) (w : wrapper) : wrapper :=
  {| alsa_pcm := w.(alsa_pcm); w_ops := true; data := d; w_fd := fd;
     flags := w.(flags); xruns := w.(xruns); buffer_size := w.(buffer_size);
     w_config := w.(w_config) |}.

(** [pcm->ops->ioctl (pcm->data, ...)]: null pointers are dereferenced. *)
Definition ops_ioctl (w : wrapper) (req : request) : outcome (Z * request * wrapper) :=
  if w.(w_ops) then
    match w.(data) with
    | Some d => let! (ret, req, d) := pcm_plug_ioctl d req in Done (ret, req, set_data d w)
    | None => Undef
    end
  else Undef.

Definition pcm_ioctl_all (w : wrapper) (req : request) : outcome (Z * wrapper) :=
  if negb w.(w_ops) then Done (0, w)
  else let! (result, _, w) := ops_ioctl w req in Done (result, w).

(** The status, the buffer and the handle. *)
Definition pcm_rw_transfer (w : wrapper) (buf : list Z) (frames : Z)
  : outcome (Z * list Z * wrapper) :=
  let is_playback := Z.land w.(flags) PCM_IN =? 0 in
  let transfer := {| x_buf := buf; x_frames := frames; x_result := 0 |} in
  let! (res, req, w) := ops_ioctl w (if is_playback then SNDRV_PCM_IOCTL_WRITEI_FRAMES transfer
                                     else SNDRV_PCM_IOCTL_READI_FRAMES transfer) in
  match req with
  | SNDRV_PCM_IOCTL_WRITEI_FRAMES x | SNDRV_PCM_IOCTL_READI_FRAMES x =>
      Done (if res =? 0 then s32 x.(x_result) else -1, x.(x_buf), w)
  | _ => Undef
  end.

(** [errno]: its value after the transfer. *)
Definition pcm_generic_transfer (w : wrapper) (buf : list Z) (frames errno : Z)
  : outcome (Z * list Z * wrapper) :=
  let! (res, buf, w) := pcm_rw_transfer w buf frames in
  if (res <? 0) && (errno =? EPIPE) then
    let! n := i32 (w.(xruns) + 1) in Done (res, buf, set_xruns n w)
  else Done (res, buf, w).

Definition pcm_wrapper_writei (w : wrapper) (buf : list Z) (frame_count errno : Z)
  : outcome (Z * list Z * wrapper) :=
  pcm_generic_transfer w buf frame_count errno.

(** [count / channels / (bits / 8)] in unsigned arithmetic. *)
Definition requested_frames (w : wrapper) (count : Z) : outcome Z :=
  let c := w.(w_config) in
  let sample := alsa.(pcm_format_to_bits) c.(cfg_format) / 8 in
  if (c.(channels) =? 0) || (sample =? 0) then Undef else Done (count / c.(channels) / sample).

(** The device's own status is dropped. *)
Definition pcm_wrapper_write (w : wrapper) (buf : list Z) (count errno : Z)
  : outcome (Z * wrapper) :=
  let! requested := requested_frames w count in
  let! h := match w.(alsa_pcm) with Some h => Done h | None => Undef end in
  let '(_, h) := alsa.(pcm_write) h buf count in
  let w := set_alsa (Some h) w in
  let! (ret, w) := if w.(w_ops) then
                     let! (ret, _, w) := pcm_wrapper_writei w buf requested errno in Done (ret, w)
                   else Done (0, w) in
  if ret <? 0 then Done (ret, w)
  else Done (if u32 ret =? requested then 0 else - EIO, w).

Definition pcm_wrapper_start (w : wrapper) : outcome (Z * wrapper) :=
  pcm_ioctl_all w SNDRV_PCM_IOCTL_START.

Definition pcm_wrapper_readi (w : wrapper) (buf : list Z) (frame_count errno : Z)
  : outcome (Z * list Z * wrapper) :=
  if Z.land w.(flags) PCM_IN =? 0 then Done (- EINVAL, buf, w)
  else pcm_generic_transfer w buf frame_count errno.

Definition pcm_wrapper_read (w : wrapper) (buf : list Z) (count errno : Z)
  : outcome (Z * list Z * wrapper) :=
  let! requested := requested_frames w count in
  let! h := match w.(alsa_pcm) with Some h => Done h | None => Undef end in
  let '(ret, buf, h) := alsa.(pcm_read) h buf count in
  let w := set_alsa (Some h) w in
  if ret <? 0 then Done (ret, buf, w)
  else
    let! (ret, buf, w) := if w.(w_ops) then pcm_wrapper_readi w buf requested errno
                          else Done (ret, buf, w) in
    Done (if u32 ret =? requested then 0 else - EIO, buf, w).

(** ** Life cycle *)

(** [pcm_wrapper_set_config] on a handle; [None] is the null configuration. *)
Definition wrapper_configure (w : wrapper) (config : option pcm_config) : outcome (Z * wrapper) :=
  let c := default default_config config in
  let w := set_wconfig c w in
  let! (ret, w) := pcm_ioctl_all w (SNDRV_PCM_IOCTL_HW_PARAMS (config_params c)) in
  Done (if ret <? 0 then ret else 0, w).

(** [None] is the null handle. *)
Definition pcm_wrapper_set_config (w : option wrapper) (config : option pcm_config)
  : outcome (Z * option wrapper) :=
  match w with
  | None => Done (- EFAULT, None)
  | Some w => let! (ret, w) := wrapper_configure w config in Done (ret, Some w)
  end.

Definition plug_enabled (prop : option string) : bool :=
  String.eqb (default "false"%string prop) "true".

(** [mem]: the handle can be allocated; [prop]: the property, when it is
    set; [mem'] and [lib]: what the plugin interface finds. *)
Definition pcm_wrapper_open (mem : bool) (prop : option string) (mem' : bool)
    (lib : option (plugin_library P)) (card device flg : Z) (config : option pcm_config)
  : outcome (option wrapper) :=
  if negb mem then Done None
  else
    let w := {| alsa_pcm := None; w_ops := false; data := None; w_fd := 0; flags := flg;
                xruns := 0; buffer_size := 0; w_config := zero_config |} in
    let! w := if plug_enabled prop then
                let! (fd, d) := pcm_plug_open mem' lib in
                let! (_, w) := wrapper_configure (set_plugin fd d w) config in Done w
              else Done w in
    Done (Some (set_alsa (alsa.(pcm_open) card device flg config) w)).

Definition pcm_wrapper_prepare (w : wrapper) : outcome (Z * wrapper) :=
  let! (ret, w) := pcm_ioctl_all w SNDRV_PCM_IOCTL_PREPARE in
  Done (if ret <? 0 then -1 else 0, w).

(** The status; the handle is freed. *)
Definition pcm_wrapper_close (w : wrapper) : outcome Z :=
  let! _ := if w.(w_ops) then
              match w.(data) with Some d => pcm_plug_close d | None => Undef end
            else Done tt in
  match w.(alsa_pcm) with
  | Some h => Done (alsa.(pcm_close) h)
  | None => Done (-1)
  end.

Definition pcm_wrapper_get_handler (w : option wrapper) : option H :=
  match w with Some w => w.(alsa_pcm) | None => None end.
End Wrapper.

(** ** The request of the wrapper *)

Lemma put_interval_plain (n : Z) (i : snd_interval) (p : snd_pcm_hw_params) :
  plain p -> openmin i = openmin (interval_at p n) -> openmax i = openmax (interval_at p n) ->
  plain (put_interval n i p).
Proof.
  intros (L1 & L2 & C) O1 O2. split; [done|]. split; [by rewrite length_put|].
  unfold all_closed. cbn. apply Forall_insert; [done|]. rewrite O1, O2. by apply closed_at.
Qed.

Lemma config_params_plain (c : pcm_config) :
  plain (config_params c) /\ rmask (config_params c) = UINT32_MAX.
Proof.
  unfold config_params, param_set_mask. destruct (_ >=? SNDRV_MASK_MAX); cbn [param_is_mask];
    unfold param_set_int, param_set_min; cbn [param_is_interval andb]; split; try done;
    repeat (apply put_interval_plain; [|done|done]); by repeat constructor.
Qed.

(** The minima of the request. *)
Definition config_min (c : pcm_config) (n : Z) : Z :=
  if n =? SNDRV_PCM_HW_PARAM_CHANNELS then channels c
  else if n =? SNDRV_PCM_HW_PARAM_RATE then rate c
  else if n =? SNDRV_PCM_HW_PARAM_PERIODS then period_count c
  else if n =? SNDRV_PCM_HW_PARAM_PERIOD_SIZE then period_size c
  else 0.

Lemma config_params_min (c : pcm_config) (n : Z) :
  In n param_list -> i_min (interval_at (config_params c) n) = config_min c n.
Proof.
  intros Hn. unfold config_params, param_set_mask. cbn in Hn.
  destruct (_ >=? SNDRV_MASK_MAX); destruct Hn as [<- | [<- | [<- | [<- | [<- | []]]]]]; reflexivity.
Qed.

Lemma selected_range (n : Z) : In n selected_params -> 8 <= n <= 19.
Proof. cbn. intros Hn. repeat (destruct Hn as [<- | Hn]; [split; discriminate|]). done. Qed.

Section WrapperConfig.
Context {H P : Type}.

(** The configuration reaches the plugin: configuring a wrapper over an
    open plugin whose smallest parameters are not zero calls the plugin's
    hw_params once, with the sample size, channels, rate, period size and
    number of periods each fixed to one number, the larger of the requested
    one and the plugin's minimum, and stores the configuration; the plugin is
    set up if and only if its hw_params returns 0.  A number outside the
    plugin's range is replaced, not refused. *)
Theorem wrapper_config_reaches_plugin
    (w : pcm_wrapper H P) (d : pcm_plug_data P) (c : pcm_config) (q : snd_pcm_hw_params)
    (f : P -> snd_pcm_hw_params -> outcome (Z * P * snd_pcm_hw_params)) :
  w_ops w = true -> data w = Some d -> state d = PCM_PLUG_STATE_OPEN ->
  op_hw_params (ops d) = Some f ->
  pcm_plug_get_params (constraints d) zero_params = Done q ->
  Forall (fun n => 0 < (interval_at q n).(i_min)) selected_params ->
  exists p,
    Forall (fun n => fixed_to p n (Z.max (config_min c n) (interval_at q n).(i_min))) param_list
    /\ wrapper_configure w (Some c) =
         let! (ret, x, _) := f (priv d) p in
         Done (if ret <? 0 then ret else 0,
               set_data (if ret =? 0 then set_state PCM_PLUG_STATE_SETUP (set_priv x d)
                         else set_priv x d) (set_wconfig c w)).
Proof.
  intros Ho Hd Hs Hf Hq Hmin. destruct (config_params_plain c) as [Pl Rm].
  destruct (hrefine_done (constraints d) (config_params c)) as (p1 & E1).
  { unfold pcm_plug_get_params, pcm_plug_bytes_to_frames in Hq. cbn [mm_min] in Hq.
    intros Z0. rewrite Z0 in Hq. discriminate. }
  pose proof (fun n => hrefine_closed (constraints d) (config_params c) p1 q n Hq Pl Rm E1) as HR.
  assert (length (intervals p1) = 12%nat) as L by (apply (HR 8); lia).
  assert (Forall (fun n => (interval_at p1 n).(i_min) <> 0) selected_params) as N0.
  { apply List.Forall_forall. intros n Hn. rewrite List.Forall_forall in Hmin. specialize (Hmin n Hn).
    destruct (HR n (selected_range n Hn)) as (_ & -> & _). lia. }
  exists (pcm_plug_hw_params_set p1). split.
  - rewrite (hw_params_set_chosen p1 L N0). apply List.Forall_forall. intros n Hn.
    rewrite <-(config_params_min c n Hn).
    pose proof (selected_range n (in_or_app _ _ _ (or_introl Hn))) as B. destruct (HR n B) as (_ & <- & _). by apply (chosen_min p1 L).
  - unfold wrapper_configure, pcm_ioctl_all, ops_ioctl. change (default default_config (Some c)) with c.
    cbn [w_ops data set_wconfig].
    rewrite Ho, Hd. cbn [negb pcm_plug_ioctl]. unfold pcm_plug_hparams.
    rewrite bool_decide_eq_true_2 by done.
    assert (set_rmask UINT32_MAX (config_params c) = config_params c) as ->
      by (unfold set_rmask; rewrite <-Rm; by destruct (config_params c)).
    rewrite E1. cbn [obind Z.eqb negb]. rewrite Hf. cbn [fptr obind].
    destruct (f (priv d) (pcm_plug_hw_params_set p1)) as [[[ret x] p2]| | |]; done.
Qed.
End WrapperConfig.

(** ** Transfers *)

Section WrapperTransfers.
Context {H P : Type} (alsa : tinyalsa H).
#[local] Abbreviation wrapper := (pcm_wrapper H P).

(** A wrapper is usable only with an enabled and installed plugin: when
    the property is not "true" the handle is returned with an empty
    configuration, so that every write and every read divides by zero
    channels; when the property is "true" and the plugin library is missing
    or has no table, opening follows the unset data pointer. *)
Theorem wrapper_needs_plugin
    (prop : option string) (mem' : bool) (lib : option (plugin_library P))
    (card device flg : Z) (config : option pcm_config) :
  (plug_enabled prop = false ->
     exists w, pcm_wrapper_open alsa true prop mem' lib card device flg config = Done (Some w)
       /\ forall buf count errno, pcm_wrapper_write alsa w buf count errno = Undef
                                  /\ pcm_wrapper_read alsa w buf count errno = Undef)
  /\ (plug_enabled prop = true -> match lib with Some l => lib_ops l = None | None => True end ->
      pcm_wrapper_open alsa true prop true lib card device flg config = Undef).
Proof.
  unfold pcm_wrapper_open. cbn [negb]. split.
  - intros ->. cbn [obind]. eexists. split; [reflexivity|]. done.
  - intros -> Hl. rewrite (open_failure_reported_as_success lib Hl). done.
Qed.

(** A call of the plugin through the transfer functions. *)
Lemma rw_transfer_write (w : wrapper) (d : pcm_plug_data P) (buf : list Z) (frames ret : Z)
    (f : P -> snd_xferi -> outcome (Z * P * snd_xferi)) (x : P) (y : snd_xferi) :
  w_ops w = true -> data w = Some d -> Z.land (flags w) PCM_IN = 0 ->
  (state d = PCM_PLUG_STATE_PREPARED \/ state d = PCM_PLUG_STATE_RUNNING) ->
  op_writei_frames (ops d) = Some f ->
  f (priv d) {| x_buf := buf; x_frames := frames; x_result := 0 |} = Done (ret, x, y) ->
  pcm_rw_transfer w buf frames
  = Done (if ret =? 0 then s32 (x_result y) else -1, x_buf y, set_data (set_priv x d) w).
Proof.
  intros Ho Hd Hf Hs Hop E. unfold pcm_rw_transfer, ops_ioctl. rewrite Ho, Hd, Hf. cbn [Z.eqb].
  cbn [pcm_plug_ioctl]. unfold pcm_plug_writei_frames.
  replace (negb _ && negb _) with false by (by destruct Hs as [-> | ->]).
  rewrite Hop. cbn [fptr obind]. by rewrite E.
Qed.

Lemma rw_transfer_read (w : wrapper) (d : pcm_plug_data P) (buf : list Z) (frames ret : Z)
    (f : P -> snd_xferi -> outcome (Z * P * snd_xferi)) (x : P) (y : snd_xferi) :
  w_ops w = true -> data w = Some d -> Z.land (flags w) PCM_IN <> 0 ->
  state d = PCM_PLUG_STATE_RUNNING -> op_readi_frames (ops d) = Some f ->
  f (priv d) {| x_buf := buf; x_frames := frames; x_result := 0 |} = Done (ret, x, y) ->
  pcm_rw_transfer w buf frames
  = Done (if ret =? 0 then s32 (x_result y) else -1, x_buf y, set_data (set_priv x d) w).
Proof.
  intros Ho Hd Hf Hs Hop E. unfold pcm_rw_transfer, ops_ioctl.
  rewrite Ho, Hd, (proj2 (Z.eqb_neq _ _) Hf).
  cbn [pcm_plug_ioctl]. unfold pcm_plug_readi_frames. rewrite bool_decide_eq_true_2 by done.
  rewrite Hop. cbn [fptr obind]. by rewrite E.
Qed.

Lemma requested_frames_done (w : wrapper) (count : Z) :
  0 < channels (w_config w) -> 8 <= pcm_format_to_bits alsa (cfg_format (w_config w)) ->
  requested_frames alsa w count
  = Done (count / channels (w_config w) / (pcm_format_to_bits alsa (cfg_format (w_config w)) / 8)).
Proof.
  intros Hc Hb. unfold requested_frames.
  assert (1 <= pcm_format_to_bits alsa (cfg_format (w_config w)) / 8)
    by (apply Z.div_le_lower_bound; lia).
  rewrite (proj2 (Z.eqb_neq _ 0)), (proj2 (Z.eqb_neq _ 0)) by lia. done.
Qed.

(** Recording through a running plugin: a failure of the device is
    returned as it is and the plugin is not called; otherwise the plugin gets
    the buffer the device has filled and the number of whole frames in it,
    and the status is 0 exactly when the plugin succeeds and delivers that
    number of frames, and -EIO in every other case. *)
Theorem wrapper_read_status
    (w : wrapper) (d : pcm_plug_data P) (h h' : H) (buf buf' : list Z) (count errno r : Z)
    (f : P -> snd_xferi -> outcome (Z * P * snd_xferi)) (ret : Z) (x : P) (y : snd_xferi) :
  let sample := pcm_format_to_bits alsa (cfg_format (w_config w)) / 8 in
  let frames := count / channels (w_config w) / sample in
  0 < channels (w_config w) -> 8 <= pcm_format_to_bits alsa (cfg_format (w_config w)) ->
  0 <= frames <= INT32_MAX ->
  alsa_pcm w = Some h -> pcm_read alsa h buf count = (r, buf', h') ->
  w_ops w = true -> data w = Some d -> Z.land (flags w) PCM_IN <> 0 ->
  state d = PCM_PLUG_STATE_RUNNING -> op_readi_frames (ops d) = Some f ->
  f (priv d) {| x_buf := buf'; x_frames := frames; x_result := 0 |} = Done (ret, x, y) ->
  0 <= x_result y <= INT32_MAX -> errno <> EPIPE ->
  pcm_wrapper_read alsa w buf count errno =
    if r <? 0 then Done (r, buf', set_alsa (Some h') w)
    else Done (if (ret =? 0) && (x_result y =? frames) then 0 else - EIO, x_buf y,
               set_data (set_priv x d) (set_alsa (Some h') w)).
Proof.
  intros sample frames Hc Hb Hn Hh Hr Ho Hd Hi Hs Hf E Hy He.
  unfold pcm_wrapper_read. rewrite requested_frames_done by done. fold sample frames.
  cbn [obind]. rewrite Hh. cbn [obind]. rewrite Hr. destruct (r <? 0); [done|].
  cbn [w_ops set_alsa]. rewrite Ho. unfold pcm_wrapper_readi. cbn [flags set_alsa].
  rewrite (proj2 (Z.eqb_neq _ 0) Hi). unfold pcm_generic_transfer.
  rewrite (rw_transfer_read (set_alsa (Some h') w) d buf' frames ret f x y) by done.
  cbn [obind]. rewrite (proj2 (Z.eqb_neq _ _) He), andb_false_r. cbn [obind].
  destruct (ret =? 0); cbn [andb].
  - rewrite s32_small, u32_small by (unfold is_u32, UINT32_MAX, INT32_MAX in *; lia). done.
  - replace (u32 (-1) =? frames) with false; [done|]. symmetry. apply Z.eqb_neq.
    change (u32 (-1)) with 4294967295. unfold INT32_MAX in *. lia.
Qed.

(** ** A playback session *)

Fixpoint wrapper_writes (w : wrapper) (l : list (list Z * Z)) (errno : Z) : outcome (list Z * wrapper) :=
  match l with
  | [] => Done ([], w)
  | (buf, count) :: l =>
      let! (ret, w) := pcm_wrapper_write alsa w buf count errno in
      let! (rets, w) := wrapper_writes w l errno in Done (ret :: rets, w)
  end.

(** A plugin that takes every frame it is offered; [take_frames] is what it
    does with them. *)
Class Sink (o : pcm_plugin_ops P) (take_frames : P -> list Z -> Z -> P) : Prop := {
  sink_cooperative :: Cooperative o;
  sink_writei : exists f, op_writei_frames o = Some f /\
    forall p x, f p x = Done (0, take_frames p (x_buf x) (x_frames x),
                              {| x_buf := x_buf x; x_frames := x_frames x; x_result := x_frames x |})
}.

(** A wrapper that plays through such a plugin. *)
Definition playing (o : pcm_plugin_ops P) (c : pcm_config) (w : wrapper) (x : P) : Prop :=
  w_ops w = true /\ Z.land (flags w) PCM_IN = 0 /\ w_config w = c /\ is_Some (alsa_pcm w)
  /\ exists d, data w = Some d /\ ops d = o /\ state d = PCM_PLUG_STATE_PREPARED /\ priv d = x.

Definition frames_of (c : pcm_config) (count : Z) : Z :=
  count / channels c / (pcm_format_to_bits alsa (cfg_format c) / 8).

Section Playback.
Context (o : pcm_plugin_ops P) (take_frames : P -> list Z -> Z -> P) `{!Sink o take_frames}
        (c : pcm_config) (Hc : 0 < channels c) (Hb : 8 <= pcm_format_to_bits alsa (cfg_format c)).

Lemma playing_write (w : wrapper) (x : P) (buf : list Z) (count errno : Z) :
  playing o c w x -> 0 <= frames_of c count <= INT32_MAX ->
  exists w', pcm_wrapper_write alsa w buf count errno = Done (0, w')
    /\ playing o c w' (take_frames x buf (frames_of c count)).
Proof using All.
  intros (Ho & Hi & Hw & [h Hh] & d & Hd & Hops & Hs & Hx) Hn.
  destruct (sink_writei (o := o) (take_frames := take_frames)) as (f & Hf & F).
  unfold pcm_wrapper_write. rewrite requested_frames_done by (rewrite Hw; done). rewrite Hw.
  fold (frames_of c count). cbn [obind]. rewrite Hh. cbn [obind].
  destruct (pcm_write alsa h buf count) as [r h']. cbn [w_ops set_alsa]. rewrite Ho.
  unfold pcm_wrapper_writei, pcm_generic_transfer.
  rewrite (rw_transfer_write (set_alsa (Some h') w) d buf (frames_of c count) 0 f _ _
             Ho Hd Hi (or_introl Hs) ltac:(by rewrite Hops) (F _ _)).
  cbn [obind x_result x_buf x_frames Z.eqb].
  rewrite s32_small by lia. destruct (frames_of c count <? 0) eqn:E; zbool; [lia|].
  cbn [andb obind]. rewrite (proj2 (Z.ltb_ge _ _) E).
  rewrite u32_small, Z.eqb_refl by (unfold is_u32, UINT32_MAX, INT32_MAX in *; lia).
  eexists. split; [reflexivity|]. repeat split; try done.
  eexists. split; [reflexivity|]. cbn. rewrite Hx. done.
Qed.

Lemma playing_writes (l : list (list Z * Z)) (w : wrapper) (x : P) (errno : Z) :
  playing o c w x -> Forall (fun '(_, count) => 0 <= frames_of c count <= INT32_MAX) l ->
  exists w', wrapper_writes w l errno = Done (replicate (length l) 0, w')
    /\ playing o c w' (fold_left (fun x '(buf, count) => take_frames x buf (frames_of c count)) l x).
Proof using All.
  revert w x. induction l as [|[buf count] l IH]; intros w x Hp F; [by exists w|].
  apply Forall_cons_1 in F as [F1 F2].
  destruct (playing_write w x buf count errno Hp F1) as (w1 & E1 & P1).
  destruct (IH w1 _ P1 F2) as (w2 & E2 & P2).
  exists w2. cbn [wrapper_writes]. rewrite E1. cbn [obind]. rewrite E2. done.
Qed.
End Playback.
End WrapperTransfers.

Lemma open_prepare {H P : Type} (alsa : tinyalsa H)
    (o : pcm_plugin_ops P) (prop : option string) (k : pcm_plugin_hw_constraints) (x : P)
    (card device flg : Z) (config : option pcm_config) :
  let lib := {| lib_ops := Some o; lib_open := (0, Some (k, x)) |} in
  Cooperative o -> plug_enabled prop = true ->
  u32 (mm_min (bit_width k) * mm_min (hc_channels k)) <> 0 ->
  Z.land flg PCM_IN = 0 -> is_Some (pcm_open alsa card device flg config) ->
  exists w1 w2 x2,
    pcm_wrapper_open alsa true prop true (Some lib) card device flg config = Done (Some w1)
    /\ pcm_wrapper_prepare w1 = Done (0, w2) /\ playing o (default default_config config) w2 x2.
Proof.
  intros lib C He N0 Hi Ha. set (c := default default_config config).
  set (d := {| ops := o; state := PCM_PLUG_STATE_OPEN; constraints := k; priv := x |}).
  destruct (hparams_up d (config_params c) C eq_refl N0) as (p1 & x1 & E1).
  destruct (prepare_up (set_state PCM_PLUG_STATE_SETUP (set_priv x1 d)) C eq_refl) as (x2 & E2).
  unfold pcm_wrapper_open. rewrite He. cbn [negb obind pcm_plug_open lib_ops lib_open lib Z.eqb].
  fold d. unfold wrapper_configure. fold c. unfold pcm_ioctl_all, ops_ioctl.
  cbn [w_ops data set_wconfig set_plugin negb pcm_plug_ioctl]. rewrite E1. cbn [obind].
  eexists _, _, x2. split; [reflexivity|].
  unfold pcm_wrapper_prepare, pcm_ioctl_all, ops_ioctl.
  cbn [w_ops data set_data set_alsa negb pcm_plug_ioctl]. rewrite E2. cbn [obind].
  split; [reflexivity|]. repeat split; try done. eexists. split; [reflexivity|]. done.
Qed.

(** C38. A playback session: with the plugin enabled and a library whose
    plugin takes every frame it is offered, opening a playback handle,
    preparing it and writing any number of buffers succeeds at every step,
    whatever the ALSA device answers, and the plugin has taken the buffers in
    order, each with its number of whole frames. *)
Theorem wrapper_playback_session {H P : Type} (alsa : tinyalsa H)
    (o : pcm_plugin_ops P) (take_frames : P -> list Z -> Z -> P)
    (prop : option string) (k : pcm_plugin_hw_constraints) (x : P)
    (card device flg errno : Z) (config : option pcm_config) (l : list (list Z * Z)) :
  let c := default default_config config in
  let lib := {| lib_ops := Some o; lib_open := (0, Some (k, x)) |} in
  Sink o take_frames -> plug_enabled prop = true ->
  u32 (mm_min (bit_width k) * mm_min (hc_channels k)) <> 0 ->
  Z.land flg PCM_IN = 0 -> is_Some (pcm_open alsa card device flg config) ->
  0 < channels c -> 8 <= pcm_format_to_bits alsa (cfg_format c) ->
  Forall (fun '(_, count) => 0 <= frames_of alsa c count <= INT32_MAX) l ->
  exists w1 w2 w3 x2,
    pcm_wrapper_open alsa true prop true (Some lib) card device flg config = Done (Some w1)
    /\ pcm_wrapper_prepare w1 = Done (0, w2)
    /\ wrapper_writes alsa w2 l errno = Done (replicate (length l) 0, w3)
    /\ playing o c w2 x2
    /\ playing o c w3 (fold_left (fun x '(buf, count) => take_frames x buf (frames_of alsa c count)) l x2).
Proof.
  intros c lib S He N0 Hi Ha Hc Hb F.
  destruct (open_prepare alsa o prop k x card device flg config
              (sink_cooperative (take_frames := take_frames)) He N0 Hi Ha)
    as (w1 & w2 & x2 & E1 & E2 & Hp).
  destruct (playing_writes alsa o take_frames c Hc Hb l w2 x2 errno Hp F) as (w3 & E3 & P3).
  exists w1, w2, w3, x2. done.
Qed.

(** ** Witnesses *)

(** A device that accepts every buffer and records silence. *)
Definition demo_alsa : tinyalsa unit :=
  {| pcm_format_to_bits := fun f => if f =? PCM_FORMAT_S32_LE then 32 else 16;
     pcm_open := fun _ _ _ _ => Some tt;
     pcm_write := fun h _ _ => (0, h);
     pcm_read := fun h buf _ => (0, replicate (length buf) 0, h);
     pcm_close := fun _ => 0 |}.

#[global] Instance counting_sink : Sink counting_ops (fun n _ k => n + k).
Proof. constructor; [apply _|]. eexists. split; [reflexivity|]. done. Qed.

Lemma wrapper_config_reaches_plugin_witness :
  exists p,
    Forall (fun n => exists v, fixed_to p n v) param_list
    /\ wrapper_configure {| alsa_pcm := Some tt; w_ops := true; data := Some counting_plug; w_fd := 0;
                            flags := 0; xruns := 0; buffer_size := 0; w_config := zero_config |}
         (Some default_config)
       = Done (0, {| alsa_pcm := Some tt; w_ops := true;
                     data := Some (set_state PCM_PLUG_STATE_SETUP counting_plug); w_fd := 0;
                     flags := 0; xruns := 0; buffer_size := 0; w_config := default_config |}).
Proof.
  destruct (pcm_plug_get_params demo_constraints zero_params) as [q| | |] eqn:E;
    [|vm_compute in E; discriminate..].
  destruct (wrapper_config_reaches_plugin
              {| alsa_pcm := Some tt; w_ops := true; data := Some counting_plug; w_fd := 0;
                 flags := 0; xruns := 0; buffer_size := 0; w_config := zero_config |}
              counting_plug default_config q (fun n p => Done (0, n, p))
              eq_refl eq_refl eq_refl eq_refl E) as (p & F & K).
  - vm_compute in E. injection E as <-. repeat constructor.
  - exists p. split; [|exact K]. eapply List.Forall_impl; [|exact F]. cbn. intros n Hn. eauto.
Defined.

(** A plugin that records ones, started. *)
Definition ones_ops : pcm_plugin_ops unit :=
  {| op_close := None; op_hw_params := None; op_sw_params := None; op_sync_ptr := None;
     op_writei_frames := None;
     op_readi_frames := Some (fun p x =>
       Done (0, p, {| x_buf := replicate (length x.(x_buf)) 1; x_frames := x.(x_frames);
                      x_result := x.(x_frames) |}));
     op_ttstamp := None; op_prepare := None; op_start := None; op_drop := None; op_ioctl := None;
     op_mmap := None; op_munmap := None; op_poll := None |}.

Lemma wrapper_read_status_witness :
  let d := {| ops := ones_ops; state := PCM_PLUG_STATE_RUNNING; constraints := demo_constraints;
              priv := tt |} in
  let w := {| alsa_pcm := Some tt; w_ops := true; data := Some d; w_fd := 0; flags := PCM_IN;
              xruns := 0; buffer_size := 0; w_config := default_config |} in
  pcm_wrapper_read demo_alsa w [7; 7; 7; 7] 4 0 = Done (0, [1; 1; 1; 1], w).
Proof.
  intros d w.
  rewrite (wrapper_read_status demo_alsa w d tt tt [7; 7; 7; 7] [0; 0; 0; 0] 4 0 0
             (fun p x => Done (0, p, {| x_buf := replicate (length x.(x_buf)) 1;
                                        x_frames := x.(x_frames); x_result := x.(x_frames) |}))
             0 tt {| x_buf := [1; 1; 1; 1]; x_frames := 1; x_result := 1 |});
    try reflexivity; vm_compute; try split; discriminate.
Defined.

Lemma wrapper_playback_session_witness :
  exists w1 w2 w3 x2,
    pcm_wrapper_open demo_alsa true (Some "true"%string) true
      (Some {| lib_ops := Some counting_ops; lib_open := (0, Some (demo_constraints, 0)) |}) 0 0 0 None
      = Done (Some w1)
    /\ pcm_wrapper_prepare w1 = Done (0, w2)
    /\ wrapper_writes demo_alsa w2 [([1; 2; 3; 4], 4); ([5; 6; 7; 8; 9; 10; 11; 12], 8)] 0
       = Done ([0; 0], w3)
    /\ playing counting_ops default_config w2 x2
    /\ playing counting_ops default_config w3 (x2 + 1 + 2).
Proof.
  apply (wrapper_playback_session demo_alsa counting_ops (fun n _ k => n + k) (Some "true"%string)
           demo_constraints 0 0 0 0 0 None [([1; 2; 3; 4], 4); ([5; 6; 7; 8; 9; 10; 11; 12], 8)]
           counting_sink);
    [reflexivity|discriminate|reflexivity|by eexists|reflexivity|discriminate|].
  repeat constructor; discriminate.
Defined.
