(* ===== verification/PcmDevice.v ===== *)
(** * PCM devices of the sound system

    The part of tinyalsa that the streams of the HAL use, as the class
    [PcmSystem] over the state [W] of the sound system, what is relied on as
    the class [PcmSystemLaws], and [pcm_open_prepare_helper] of [audio_hw.c],
    which opens a device with retries.  A handle is a number; [opened] lists
    the handles that were opened and not closed. *)

From stdpp Require Import base list numbers.
From Stdlib Require Import ZArith Lia.
From S2P Require Import Prelude PcmPlugin.

#[local] Open Scope Z_scope.

(** ** Interface *)

Class PcmSystem (W : Type) := {
  pcm_format_to_bits : Z -> Z;
  pcm_open : Z -> Z -> Z -> pcm_config -> W -> option Z * W;
  pcm_is_ready : Z -> W -> bool;
  pcm_prepare : Z -> W -> Z * W;
  (** the status, and for [pcm_read] the bytes that were stored *)
  pcm_write : Z -> list Z -> W -> Z * W;
  pcm_read : Z -> Z -> W -> Z * list Z * W;
  pcm_close : Z -> W -> Z * W;
  opened : W -> list Z
}.

Class PcmSystemLaws (W : Type) `{PcmSystem W} := {
  open_some (card dev flags h : Z) (cfg : pcm_config) (w w' : W) :
    pcm_open card dev flags cfg w = (Some h, w') -> opened w' ≡ₚ h :: opened w;
  open_none (card dev flags : Z) (cfg : pcm_config) (w w' : W) :
    pcm_open card dev flags cfg w = (None, w') -> opened w' ≡ₚ opened w;
  prepare_opened (h : Z) (w : W) : opened (pcm_prepare h w).2 ≡ₚ opened w;
  write_opened (h : Z) (bs : list Z) (w : W) : opened (pcm_write h bs w).2 ≡ₚ opened w;
  read_opened (h n : Z) (w : W) : opened (pcm_read h n w).2 ≡ₚ opened w;
  read_fits (h n : Z) (w : W) : 0 <= n -> zlen (pcm_read h n w).1.2 <= n;
  close_opened (h : Z) (w : W) (l : list Z) :
    opened w ≡ₚ h :: l -> opened (pcm_close h w).2 ≡ₚ l
}.

Definition PCM_OUT : Z := 0.
Definition PCM_IN : Z := 268435456.
Definition PCM_FORMAT_S16_LE : Z := 0.
Definition PROXY_OPEN_RETRY_COUNT : Z := 100.

(** ** Opening with retries *)

Section Helper.
Context {W : Type} `{PcmSystem W}.

(** The loop of [pcm_open_prepare_helper] that opens the device; [retries]
    is [pcm_open_retry_count].  [None] is a null pointer from [pcm_open]; the
    loop hands it to [pcm_get_error] of the library for its message, which is
    taken to return. *)
Fixpoint pcm_open_retry (retries : nat) (card dev flags : Z) (cfg : pcm_config) (w : W)
  : option Z * W :=
  let '(p, w) := pcm_open card dev flags cfg w in
  match p with
  | Some h =>
      if pcm_is_ready h w then (Some h, w)
      else
        let '(_, w) := pcm_close h w in
        match retries with
        | O => (None, w)
        | S retries => pcm_open_retry retries card dev flags cfg w
        end
  | None =>
      match retries with
      | O => (None, w)
      | S retries => pcm_open_retry retries card dev flags cfg w
      end
  end.

Definition pcm_open_prepare_helper (card dev flags retry_count : Z) (cfg : pcm_config) (w : W)
  : option Z * W :=
  let '(p, w) := pcm_open_retry (Z.to_nat retry_count) card dev flags cfg w in
  match p with
  | None => (None, w)
  | Some h =>
      if pcm_is_ready h w then
        let '(ret, w) := pcm_prepare h w in
        if ret <? 0 then let '(_, w) := pcm_close h w in (None, w)
        else (Some h, w)
      else (Some h, w)
  end.
End Helper.

(** ** Devices are not leaked *)

Section HelperLaws.
Context {W : Type} `{PcmSystemLaws W}.

(** The devices that are open after the result [p] of an opening. *)
Definition opened_after (p : option Z) (w w' : W) : Prop :=
  match p with
  | Some h => opened w' ≡ₚ h :: opened w
  | None => opened w' ≡ₚ opened w
  end.

Lemma close_after (h : Z) (w0 w : W) :
  opened w ≡ₚ h :: opened w0 -> opened (pcm_close h w).2 ≡ₚ opened w0.
Proof. apply close_opened. Qed.

Lemma open_retry_opened (retries : nat) (card dev flags : Z) (cfg : pcm_config) (w : W) :
  let r := pcm_open_retry retries card dev flags cfg w in opened_after r.1 w r.2.
Proof.
  cbv zeta. revert w. induction retries as [|n IH]; intros w; cbn [pcm_open_retry];
    destruct (pcm_open card dev flags cfg w) as [[h|] w1] eqn:E.
  - apply open_some in E. destruct (pcm_is_ready h w1); [exact E|].
    pose proof (close_after h w w1 E). by destruct (pcm_close h w1).
  - by apply open_none in E.
  - apply open_some in E. destruct (pcm_is_ready h w1); [exact E|].
    pose proof (close_after h w w1 E) as C. destruct (pcm_close h w1) as [? w2]. cbn in C.
    specialize (IH w2). unfold opened_after in *. destruct (_ : option Z * W).1; by rewrite <-C.
  - apply open_none in E. specialize (IH w1). unfold opened_after in *.
    destruct (_ : option Z * W).1; by rewrite <-E.
Qed.

Lemma open_helper_opened (card dev flags n : Z) (cfg : pcm_config) (w : W) :
  let r := pcm_open_prepare_helper card dev flags n cfg w in opened_after r.1 w r.2.
Proof.
  cbv zeta. unfold pcm_open_prepare_helper.
  pose proof (open_retry_opened (Z.to_nat n) card dev flags cfg w) as R. cbv zeta in R.
  destruct (pcm_open_retry _ _ _ _ _ w) as [[h|] w1]; cbn in R; [|exact R].
  destruct (pcm_is_ready h w1); [|exact R].
  pose proof (prepare_opened h w1) as P. destruct (pcm_prepare h w1) as [ret w2]. cbn in P.
  rewrite <-P in R. destruct (ret <? 0); [|exact R].
  pose proof (close_after h w w2 R). by destruct (pcm_close h w2).
Qed.
End HelperLaws.

(** ** A concrete sound system *)

(** Opening number [i] succeeds when the [i]-th element of [sc_answers] says
    so (and after the end of the list); a recording is a counter. *)
Record sound_card := {
  sc_answers : list bool;
  sc_next : Z;
  sc_open : list Z;
  sc_played : list (list Z);
  sc_clock : Z
}.

Fixpoint sc_remove (h : Z) (l : list Z) : list Z :=
  match l with
  | [] => []
  | x :: l => if x =? h then l else x :: sc_remove h l
  end.

Definition sc_start (answers : list bool) : sound_card :=
  {| sc_answers := answers; sc_next := 1; sc_open := []; sc_played := []; sc_clock := 0 |}.

Definition sc_pcm_open (card dev flags : Z) (cfg : pcm_config) (c : sound_card)
  : option Z * sound_card :=
  let rest a n l := {| sc_answers := a; sc_next := n; sc_open := l;
                       sc_played := c.(sc_played); sc_clock := c.(sc_clock) |} in
  match c.(sc_answers) with
  | false :: a => (None, rest a c.(sc_next) c.(sc_open))
  | a => (Some c.(sc_next), rest (drop 1 a) (c.(sc_next) + 1) (c.(sc_next) :: c.(sc_open)))
  end.

(** The recording counts samples. *)
Definition sc_pcm_read (h n : Z) (c : sound_card) : Z * list Z * sound_card :=
  (0, map (fun i => (c.(sc_clock) + Z.of_nat i) mod 256) (seq 0 (Z.to_nat n)),
   {| sc_answers := c.(sc_answers); sc_next := c.(sc_next); sc_open := c.(sc_open);
      sc_played := c.(sc_played); sc_clock := c.(sc_clock) + n |}).

#[export] Instance sound_card_pcm : PcmSystem sound_card := {
  pcm_format_to_bits _ := 16;
  pcm_open := sc_pcm_open;
  pcm_is_ready _ _ := true;
  pcm_prepare _ c := (0, c);
  pcm_write h bs c :=
    (0, {| sc_answers := c.(sc_answers); sc_next := c.(sc_next); sc_open := c.(sc_open);
           sc_played := c.(sc_played) ++ [bs]; sc_clock := c.(sc_clock) |});
  pcm_read := sc_pcm_read;
  pcm_close h c :=
    (0, {| sc_answers := c.(sc_answers); sc_next := c.(sc_next);
           sc_open := sc_remove h c.(sc_open); sc_played := c.(sc_played);
           sc_clock := c.(sc_clock) |});
  opened := sc_open
}.

Lemma sc_remove_perm (h : Z) (l k : list Z) : l ≡ₚ h :: k -> sc_remove h l ≡ₚ k.
Proof.
  intros P. apply (Permutation_cons_inv (a := h)). rewrite <-P.
  assert (h ∈ l) as I by (rewrite P; left). clear P k.
  induction l as [|x l IH]; [by apply elem_of_nil in I|]. cbn [sc_remove].
  destruct (x =? h) eqn:E; zbool; [by subst|].
  apply elem_of_cons in I as [-> | I]; [done|]. rewrite <-(IH I) at 2. apply Permutation_swap.
Qed.

#[export] Instance sound_card_laws : PcmSystemLaws sound_card.
Proof.
  split; try done.
  - intros card dev flags h cfg w w'. cbn. unfold sc_pcm_open.
    by destruct w.(sc_answers) as [|[] a]; intros [= <- <-].
  - intros card dev flags cfg w w'. cbn. unfold sc_pcm_open.
    by destruct w.(sc_answers) as [|[] a]; intros [= <-].
  - intros h n w N. cbn. unfold zlen. rewrite length_map, length_seq. lia.
  - intros h w l P. cbn in *. by apply sc_remove_perm.
Qed.
