(* ===== verification/Streamer.v ===== *)
(** * The streamer: handles, threads, reading and writing

    Models [audio_extra/hal_streamer.c] around the mixer of [Mix]: the table
    of handles and the binding of buses to them, opening and closing of
    streams with reference counts, one round of the capture and of the
    playback thread, the blocking write, the direct write of the phone bus
    and the read with its time limit.  Sound devices are those of
    [PcmDevice]; opening and closing a playback stream goes through the bus
    status of [BusVolume].

    A handle is an index of [g_out_stream] or [g_in_stream].  Each critical
    section on the mutex of a handle is one step.  [th_live] counts the
    threads of a handle that have been created and have not left their loop. *)

From Stdlib Require Import ZArith Lia Ascii String.
From stdpp Require Import base list numbers.
From S2P Require Import Prelude CString CircleBuf Mixer Dsp BusVolume Mix PcmPlugin PcmDevice.

#[local] Open Scope Z_scope.

(** ** Data *)

Definition MAX_STREAMERS : Z := 8.
Definition BUS_RBUF_LEN : Z := 5.
Definition MAX_AUDIO_DEVICES : Z := 16.
Definition READ_TIMEOUT_LIMITS : nat := 10.
Definition IN_PERIOD_MS : Z := 20.

Inductive stream_direction := PLAYBACK_STREAM | CAPTURE_STREAM.

(** [enum cap_dst_e] *)
Definition FOUR_MIC_CAP : Z := 0.
Definition BUILD_IN_MIC_CAP : Z := 2.
Definition EXT_MIC_CAP : Z := 3.

(** The threads of one kind of a handle, the flag that asks them to leave and
    the semaphore they post when they leave. *)
Record thread := { th_live : Z; th_exit : bool; th_sem : Z }.

Record hal_streamer := {
  h_name : list ascii;
  h_card : Z;
  h_port : Z;
  h_ref_cnt : Z;
  h_allocated : bool;
  h_bind_bus : list Z;
  h_bind_bus_len : Z;
  h_pcm : option Z;
  h_pcm_cfg : pcm_config;
  h_plbk : thread;
  h_plbk_hold : bool;
  h_cap : thread;
  h_bus_rbuf : list (option circlebuf_s);
  h_cap_rbuf : list (option circlebuf_s);
  h_bus_state : Z;
  h_cap_state : Z;
  h_dir : stream_direction;
  h_bus_buf_sz : list Z
}.

Definition set_named (s : list ascii) (b : bool) (h : hal_streamer) : hal_streamer :=
  {| h_name := s; h_card := h.(h_card); h_port := h.(h_port); h_ref_cnt := h.(h_ref_cnt);
     h_allocated := b; h_bind_bus := h.(h_bind_bus); h_bind_bus_len := h.(h_bind_bus_len); h_pcm
     := h.(h_pcm); h_pcm_cfg := h.(h_pcm_cfg); h_plbk := h.(h_plbk); h_plbk_hold :=
     h.(h_plbk_hold); h_cap := h.(h_cap); h_bus_rbuf := h.(h_bus_rbuf); h_cap_rbuf :=
     h.(h_cap_rbuf); h_bus_state := h.(h_bus_state); h_cap_state := h.(h_cap_state); h_dir :=
     h.(h_dir); h_bus_buf_sz := h.(h_bus_buf_sz) |}.
Definition set_bind (l : list Z) (n : Z) (h : hal_streamer) : hal_streamer :=
  {| h_name := h.(h_name); h_card := h.(h_card); h_port := h.(h_port); h_ref_cnt :=
     h.(h_ref_cnt); h_allocated := h.(h_allocated); h_bind_bus := l; h_bind_bus_len := n; h_pcm
     := h.(h_pcm); h_pcm_cfg := h.(h_pcm_cfg); h_plbk := h.(h_plbk); h_plbk_hold :=
     h.(h_plbk_hold); h_cap := h.(h_cap); h_bus_rbuf := h.(h_bus_rbuf); h_cap_rbuf :=
     h.(h_cap_rbuf); h_bus_state := h.(h_bus_state); h_cap_state := h.(h_cap_state); h_dir :=
     h.(h_dir); h_bus_buf_sz := h.(h_bus_buf_sz) |}.
Definition set_dir (x : stream_direction) (h : hal_streamer) : hal_streamer :=
  {| h_name := h.(h_name); h_card := h.(h_card); h_port := h.(h_port); h_ref_cnt :=
     h.(h_ref_cnt); h_allocated := h.(h_allocated); h_bind_bus := h.(h_bind_bus); h_bind_bus_len
     := h.(h_bind_bus_len); h_pcm := h.(h_pcm); h_pcm_cfg := h.(h_pcm_cfg); h_plbk :=
     h.(h_plbk); h_plbk_hold := h.(h_plbk_hold); h_cap := h.(h_cap); h_bus_rbuf :=
     h.(h_bus_rbuf); h_cap_rbuf := h.(h_cap_rbuf); h_bus_state := h.(h_bus_state); h_cap_state
     := h.(h_cap_state); h_dir := x; h_bus_buf_sz := h.(h_bus_buf_sz) |}.
Definition set_buf_sz (l : list Z) (h : hal_streamer) : hal_streamer :=
  {| h_name := h.(h_name); h_card := h.(h_card); h_port := h.(h_port); h_ref_cnt :=
     h.(h_ref_cnt); h_allocated := h.(h_allocated); h_bind_bus := h.(h_bind_bus); h_bind_bus_len
     := h.(h_bind_bus_len); h_pcm := h.(h_pcm); h_pcm_cfg := h.(h_pcm_cfg); h_plbk :=
     h.(h_plbk); h_plbk_hold := h.(h_plbk_hold); h_cap := h.(h_cap); h_bus_rbuf :=
     h.(h_bus_rbuf); h_cap_rbuf := h.(h_cap_rbuf); h_bus_state := h.(h_bus_state); h_cap_state
     := h.(h_cap_state); h_dir := h.(h_dir); h_bus_buf_sz := l |}.
Definition set_device (c : Z) (p : Z) (cfg : pcm_config) (x : option Z) (h : hal_streamer) : hal_streamer :=
  {| h_name := h.(h_name); h_card := c; h_port := p; h_ref_cnt := h.(h_ref_cnt); h_allocated :=
     h.(h_allocated); h_bind_bus := h.(h_bind_bus); h_bind_bus_len := h.(h_bind_bus_len); h_pcm
     := x; h_pcm_cfg := cfg; h_plbk := h.(h_plbk); h_plbk_hold := h.(h_plbk_hold); h_cap :=
     h.(h_cap); h_bus_rbuf := h.(h_bus_rbuf); h_cap_rbuf := h.(h_cap_rbuf); h_bus_state :=
     h.(h_bus_state); h_cap_state := h.(h_cap_state); h_dir := h.(h_dir); h_bus_buf_sz :=
     h.(h_bus_buf_sz) |}.
Definition set_pcm (x : option Z) (h : hal_streamer) : hal_streamer :=
  {| h_name := h.(h_name); h_card := h.(h_card); h_port := h.(h_port); h_ref_cnt :=
     h.(h_ref_cnt); h_allocated := h.(h_allocated); h_bind_bus := h.(h_bind_bus); h_bind_bus_len
     := h.(h_bind_bus_len); h_pcm := x; h_pcm_cfg := h.(h_pcm_cfg); h_plbk := h.(h_plbk);
     h_plbk_hold := h.(h_plbk_hold); h_cap := h.(h_cap); h_bus_rbuf := h.(h_bus_rbuf);
     h_cap_rbuf := h.(h_cap_rbuf); h_bus_state := h.(h_bus_state); h_cap_state :=
     h.(h_cap_state); h_dir := h.(h_dir); h_bus_buf_sz := h.(h_bus_buf_sz) |}.
Definition set_bus_rbuf (l : list (option circlebuf_s)) (h : hal_streamer) : hal_streamer :=
  {| h_name := h.(h_name); h_card := h.(h_card); h_port := h.(h_port); h_ref_cnt :=
     h.(h_ref_cnt); h_allocated := h.(h_allocated); h_bind_bus := h.(h_bind_bus); h_bind_bus_len
     := h.(h_bind_bus_len); h_pcm := h.(h_pcm); h_pcm_cfg := h.(h_pcm_cfg); h_plbk :=
     h.(h_plbk); h_plbk_hold := h.(h_plbk_hold); h_cap := h.(h_cap); h_bus_rbuf := l; h_cap_rbuf
     := h.(h_cap_rbuf); h_bus_state := h.(h_bus_state); h_cap_state := h.(h_cap_state); h_dir :=
     h.(h_dir); h_bus_buf_sz := h.(h_bus_buf_sz) |}.
Definition set_cap_rbuf (l : list (option circlebuf_s)) (h : hal_streamer) : hal_streamer :=
  {| h_name := h.(h_name); h_card := h.(h_card); h_port := h.(h_port); h_ref_cnt :=
     h.(h_ref_cnt); h_allocated := h.(h_allocated); h_bind_bus := h.(h_bind_bus); h_bind_bus_len
     := h.(h_bind_bus_len); h_pcm := h.(h_pcm); h_pcm_cfg := h.(h_pcm_cfg); h_plbk :=
     h.(h_plbk); h_plbk_hold := h.(h_plbk_hold); h_cap := h.(h_cap); h_bus_rbuf :=
     h.(h_bus_rbuf); h_cap_rbuf := l; h_bus_state := h.(h_bus_state); h_cap_state :=
     h.(h_cap_state); h_dir := h.(h_dir); h_bus_buf_sz := h.(h_bus_buf_sz) |}.
Definition set_bus_state (x : Z) (h : hal_streamer) : hal_streamer :=
  {| h_name := h.(h_name); h_card := h.(h_card); h_port := h.(h_port); h_ref_cnt :=
     h.(h_ref_cnt); h_allocated := h.(h_allocated); h_bind_bus := h.(h_bind_bus); h_bind_bus_len
     := h.(h_bind_bus_len); h_pcm := h.(h_pcm); h_pcm_cfg := h.(h_pcm_cfg); h_plbk :=
     h.(h_plbk); h_plbk_hold := h.(h_plbk_hold); h_cap := h.(h_cap); h_bus_rbuf :=
     h.(h_bus_rbuf); h_cap_rbuf := h.(h_cap_rbuf); h_bus_state := x; h_cap_state :=
     h.(h_cap_state); h_dir := h.(h_dir); h_bus_buf_sz := h.(h_bus_buf_sz) |}.
Definition set_cap_state (x : Z) (h : hal_streamer) : hal_streamer :=
  {| h_name := h.(h_name); h_card := h.(h_card); h_port := h.(h_port); h_ref_cnt :=
     h.(h_ref_cnt); h_allocated := h.(h_allocated); h_bind_bus := h.(h_bind_bus); h_bind_bus_len
     := h.(h_bind_bus_len); h_pcm := h.(h_pcm); h_pcm_cfg := h.(h_pcm_cfg); h_plbk :=
     h.(h_plbk); h_plbk_hold := h.(h_plbk_hold); h_cap := h.(h_cap); h_bus_rbuf :=
     h.(h_bus_rbuf); h_cap_rbuf := h.(h_cap_rbuf); h_bus_state := h.(h_bus_state); h_cap_state
     := x; h_dir := h.(h_dir); h_bus_buf_sz := h.(h_bus_buf_sz) |}.
Definition set_ref_cnt (x : Z) (h : hal_streamer) : hal_streamer :=
  {| h_name := h.(h_name); h_card := h.(h_card); h_port := h.(h_port); h_ref_cnt := x;
     h_allocated := h.(h_allocated); h_bind_bus := h.(h_bind_bus); h_bind_bus_len :=
     h.(h_bind_bus_len); h_pcm := h.(h_pcm); h_pcm_cfg := h.(h_pcm_cfg); h_plbk := h.(h_plbk);
     h_plbk_hold := h.(h_plbk_hold); h_cap := h.(h_cap); h_bus_rbuf := h.(h_bus_rbuf);
     h_cap_rbuf := h.(h_cap_rbuf); h_bus_state := h.(h_bus_state); h_cap_state :=
     h.(h_cap_state); h_dir := h.(h_dir); h_bus_buf_sz := h.(h_bus_buf_sz) |}.
Definition set_plbk (t : thread) (b : bool) (h : hal_streamer) : hal_streamer :=
  {| h_name := h.(h_name); h_card := h.(h_card); h_port := h.(h_port); h_ref_cnt :=
     h.(h_ref_cnt); h_allocated := h.(h_allocated); h_bind_bus := h.(h_bind_bus); h_bind_bus_len
     := h.(h_bind_bus_len); h_pcm := h.(h_pcm); h_pcm_cfg := h.(h_pcm_cfg); h_plbk := t;
     h_plbk_hold := b; h_cap := h.(h_cap); h_bus_rbuf := h.(h_bus_rbuf); h_cap_rbuf :=
     h.(h_cap_rbuf); h_bus_state := h.(h_bus_state); h_cap_state := h.(h_cap_state); h_dir :=
     h.(h_dir); h_bus_buf_sz := h.(h_bus_buf_sz) |}.
Definition set_cap (t : thread) (h : hal_streamer) : hal_streamer :=
  {| h_name := h.(h_name); h_card := h.(h_card); h_port := h.(h_port); h_ref_cnt :=
     h.(h_ref_cnt); h_allocated := h.(h_allocated); h_bind_bus := h.(h_bind_bus); h_bind_bus_len
     := h.(h_bind_bus_len); h_pcm := h.(h_pcm); h_pcm_cfg := h.(h_pcm_cfg); h_plbk :=
     h.(h_plbk); h_plbk_hold := h.(h_plbk_hold); h_cap := t; h_bus_rbuf := h.(h_bus_rbuf);
     h_cap_rbuf := h.(h_cap_rbuf); h_bus_state := h.(h_bus_state); h_cap_state :=
     h.(h_cap_state); h_dir := h.(h_dir); h_bus_buf_sz := h.(h_bus_buf_sz) |}.

(** Audio devices of the framework, by their bits. *)
Definition AUDIO_DEVICE_IN_BUILTIN_MIC : Z := 2147483652.
Definition AUDIO_DEVICE_IN_TELEPHONY_RX : Z := 2147483712.

(** The fields of [struct alsa_stream_out] and [struct alsa_stream_in] that
    the streamer uses; [o_pcm] tells whether [pcm] is not null. *)
Record alsa_stream_out := {
  o_bus_num : Z;
  o_bus_address : string;
  o_config : pcm_config;
  o_pcm : bool;
  o_pcm_hdl : option nat;
  o_standby : bool
}.

Record alsa_stream_in := {
  i_devices : Z;
  i_config : pcm_config;
  i_pcm : bool;
  i_pcm_hdl : option nat;
  i_standby : bool
}.

Definition set_o_pcm (b : bool) (o : alsa_stream_out) : alsa_stream_out :=
  {| o_bus_num := o.(o_bus_num); o_bus_address := o.(o_bus_address); o_config := o.(o_config);
     o_pcm := b; o_pcm_hdl := o.(o_pcm_hdl); o_standby := o.(o_standby) |}.
Definition set_i_pcm (b : bool) (i : alsa_stream_in) : alsa_stream_in :=
  {| i_devices := i.(i_devices); i_config := i.(i_config);
     i_pcm := b; i_pcm_hdl := i.(i_pcm_hdl); i_standby := i.(i_standby) |}.

(** A handle of the zero-initialised tables. *)
Definition idle : thread := {| th_live := 0; th_exit := false; th_sem := 0 |}.

Definition zero_handle : hal_streamer :=
  {| h_name := replicate 128 "000"%char; h_card := 0; h_port := 0; h_ref_cnt := 0;
     h_allocated := false; h_bind_bus := replicate 16 0; h_bind_bus_len := 0; h_pcm := None;
     h_pcm_cfg := zero_config; h_plbk := idle; h_plbk_hold := false; h_cap := idle;
     h_bus_rbuf := replicate 16 None; h_cap_rbuf := replicate 16 None; h_bus_state := 0;
     h_cap_state := 0; h_dir := PLAYBACK_STREAM; h_bus_buf_sz := replicate 16 0 |}.

Definition streamers_init : list hal_streamer := replicate (Z.to_nat MAX_STREAMERS) zero_handle.

(** ** Binding and probing *)

(** The first loop of [hal_streamer_bind_bus]. *)
Fixpoint find_named (l : list hal_streamer) (i : nat) (name : string) : outcome (option nat) :=
  match l with
  | [] => Done None
  | h :: l =>
      if h.(h_allocated) then
        let! eq := strcmp_eq h.(h_name) name in
        if eq then Done (Some i) else find_named l (S i) name
      else find_named l (S i) name
  end.

(** The second loop goes on after a free handle was found. *)
Fixpoint find_free (l : list hal_streamer) (i : nat) (hdl : option nat) : option nat :=
  match l with
  | [] => hdl
  | h :: l => find_free l (S i) (if h.(h_allocated) then hdl else Some i)
  end.

(** The part after the label [find]. *)
Definition append_bus (h : hal_streamer) (bind_bus : Z) : outcome hal_streamer :=
  let! l := array_set h.(h_bind_bus) h.(h_bind_bus_len) bind_bus in
  let! n := i32 (h.(h_bind_bus_len) + 1) in
  Done (set_bind l n h).

Definition hal_streamer_bind_bus (name : string) (len bind_bus : Z) (g : list hal_streamer)
  : outcome (Z * list hal_streamer) :=
  let! found := find_named g 0 name in
  match found with
  | Some k =>
      let! h := array_get g (Z.of_nat k) in
      let! h := append_bus h bind_bus in
      Done (0, <[k := h]> g)
  | None =>
      match find_free g 0 None with
      | None => Done (- ENOMEM, g)
      | Some k =>
          let! h := array_get g (Z.of_nat k) in
          let! n := strncpy h.(h_name) name len in
          let! h := append_bus (set_named n true h) bind_bus in
          Done (0, <[k := h]> g)
      end
  end.

(** Nothing ever allocates a handle of [g_in_stream]. *)
Fixpoint probe_in_from (l : list hal_streamer) (i : nat) : option nat :=
  match l with
  | [] => None
  | h :: l => if h.(h_allocated) then probe_in_from l (S i) else Some i
  end.

Definition probe_in (g : list hal_streamer) : option nat * list hal_streamer :=
  match probe_in_from g 0 with
  | Some k => (Some k, alter (set_dir CAPTURE_STREAM) k g)
  | None => (None, g)
  end.

(** The inner loop of [probe_out], [n] rounds from index [k]. *)
Fixpoint bus_bound (n : nat) (k : Z) (bound : list Z) (bus_num : Z) : outcome bool :=
  match n with
  | O => Done false
  | S n =>
      let! b := array_get bound k in
      if bus_num =? b then Done true else bus_bound n (k + 1) bound bus_num
  end.

(** [hdl] keeps the last allocated handle when no bus matches. *)
Fixpoint probe_out_from (l : list hal_streamer) (i : nat) (bus_num : Z) (hdl : option nat)
  : outcome (option nat) :=
  match l with
  | [] => Done hdl
  | h :: l =>
      if h.(h_allocated) then
        let! b := bus_bound (Z.to_nat h.(h_bind_bus_len)) 0 h.(h_bind_bus) bus_num in
        if b then Done (Some i) else probe_out_from l (S i) bus_num (Some i)
      else probe_out_from l (S i) bus_num hdl
  end.

Definition probe_out (bus_num : Z) (g : list hal_streamer)
  : outcome (option nat * list hal_streamer) :=
  let! hdl := probe_out_from g 0 bus_num None in
  match hdl with
  | Some k => Done (Some k, alter (set_dir PLAYBACK_STREAM) k g)
  | None => Done (None, g)
  end.

(** ** Copying samples *)

(** The loop of [pcm_16_areas_copy], [n] rounds from index [i]; the buffers
    are seen as samples, of which [src_ch * 2] bytes are [src_ch]. *)
Fixpoint areas_copy_loop (n : nat) (i : Z) (src : list Z) (src_ch : Z) (dst : list Z)
    (dst_ch dst_offset : Z) : outcome (list Z) :=
  match n with
  | O => Done dst
  | S n =>
      let! dst := memcpy dst (i * dst_ch + dst_offset * src_ch) src (i * src_ch) src_ch in
      areas_copy_loop n (i + 1) src src_ch dst dst_ch dst_offset
  end.

(** [frames] counts samples; indices stay below the size of the buffers. *)
Definition pcm_16_areas_copy (frames : Z) (src : option (list Z)) (src_ch : Z)
    (dst : option (list Z)) (dst_ch dst_offset : Z) : outcome (Z * option (list Z)) :=
  match src, dst with
  | Some src, Some d =>
      if src_ch =? 0 then Undef
      else
        let! d := areas_copy_loop (Z.to_nat (frames / src_ch)) 0 src src_ch d dst_ch dst_offset in
        Done (0, Some d)
  | _, _ => Done (- EINVAL, dst)
  end.

(** [select_cap_slot_s16], on bytes; the destination pointer is sample [c] of
    its buffer. *)
Fixpoint select_loop (n : nat) (i : Z) (dst : list Z) (c dst_ch : Z) (src : list Z) (src_ch : Z)
  : outcome (list Z) :=
  match n with
  | O => Done dst
  | S n =>
      let! dst := memcpy dst (2 * (c + i * dst_ch)) src (2 * (i * src_ch)) 2 in
      select_loop n (i + 1) dst c dst_ch src src_ch
  end.

Definition select_cap_slot_s16 (dst : list Z) (c dst_ch : Z) (src : list Z) (src_ch src_frames : Z)
  : outcome (Z * list Z) :=
  if src_ch =? 0 then Undef
  else
    let n := Z.to_nat (Z.quot src_frames src_ch) in
    let! dst := select_loop n 0 dst c dst_ch src src_ch in
    Done (Z.of_nat n, dst).

(** The bytes of a buffer of samples. *)
Definition sample_bytes (l : list Z) : list Z :=
  concat (map (fun s => [s mod 256; (s / 256) mod 256]) l).

(** ** One round of the threads *)

Section Streamer.
Context {W : Type} `{PcmSystem W}.

(** The macros [CALCULATE_BYTES] and [CAP_THRESHOLD_BYTES_BY_RATE], which
    have the same body, and [MIX_THRESHOLD_FRAMES], [AUDIO_FMT_2_BYTES]. *)
Definition AUDIO_FMT_2_BYTES (format : Z) : Z := Z.shiftr (pcm_format_to_bits format) 3.

Definition CALCULATE_BYTES (ch format rate period_ms : Z) : Z :=
  u32 (u32 (ch * AUDIO_FMT_2_BYTES format) * u32 (rate * period_ms)) / 1000.

Definition MIX_THRESHOLD_FRAMES (buf_size format : Z) : outcome Z :=
  if AUDIO_FMT_2_BYTES format =? 0 then Undef
  else Done (u32 buf_size / AUDIO_FMT_2_BYTES format).

(** The locals of [capture_thread_loop] that live across rounds. *)
Record cap_locals := { c_pcm_buf : list Z; c_processed_buf : list Z; c_dst_frames : Z }.

(** Which ring buffer the capture thread fills. *)
Definition cap_target (cap_state : Z) : Z :=
  if get_bit cap_state BUILD_IN_MIC_CAP then BUILD_IN_MIC_CAP
  else if get_bit cap_state EXT_MIC_CAP then EXT_MIC_CAP
  else FOUR_MIC_CAP.

(** The loop over the channels of the client. *)
Fixpoint select_channels (n : nat) (c : Z) (proc : list Z) (dst_ch : Z) (src : list Z)
    (src_ch src_frames frames : Z) : outcome (Z * list Z) :=
  match n with
  | O => Done (frames, proc)
  | S n =>
      let! (frames, proc) := select_cap_slot_s16 proc c dst_ch src src_ch src_frames in
      select_channels n (c + 1) proc dst_ch src src_ch src_frames frames
  end.

(** One round of [capture_thread_loop] while [cap_exit] is false. *)
Definition capture_round (hl : hal_streamer) (l : cap_locals) (w : W)
  : outcome (hal_streamer * cap_locals * W) :=
  let cfg := hl.(h_pcm_cfg) in
  let src_bytes := s32 (CALCULATE_BYTES cfg.(channels) cfg.(cfg_format) cfg.(rate) IN_PERIOD_MS) in
  let! src_frames := MIX_THRESHOLD_FRAMES src_bytes cfg.(cfg_format) in
  let t := cap_target hl.(h_cap_state) in
  let! target := array_get hl.(h_cap_rbuf) t in
  let device_channels := audio_circlebuf_get_ch target in
  let device_fmt := audio_circlebuf_get_fmt target in
  match hl.(h_pcm) with
  | None => Undef
  | Some p =>
      let '(_, bs, w) := pcm_read p src_bytes w in
      let! pcm_buf := mem_write l.(c_pcm_buf) 0 bs in
      if negb (cfg.(channels) =? u32 device_channels) then
        let! (frames, proc) :=
          select_channels (Z.to_nat device_channels) 0 l.(c_processed_buf) device_channels pcm_buf
            (s32 cfg.(channels)) (s32 src_frames) l.(c_dst_frames) in
        let! fc := i32 (frames * device_channels) in
        let dst_bytes := s32 (fc * AUDIO_FMT_2_BYTES device_fmt) in
        let! (_, rb) := audio_circlebuf_write target (Some proc) dst_bytes in
        let! r := array_set hl.(h_cap_rbuf) t rb in
        Done (set_cap_rbuf r hl,
              {| c_pcm_buf := pcm_buf; c_processed_buf := proc; c_dst_frames := frames |}, w)
      else
        let! (_, rb) := audio_circlebuf_write target (Some pcm_buf) src_bytes in
        let! r := array_set hl.(h_cap_rbuf) t rb in
        Done (set_cap_rbuf r hl,
              {| c_pcm_buf := pcm_buf; c_processed_buf := l.(c_processed_buf);
                 c_dst_frames := l.(c_dst_frames) |}, w)
  end.

(** The mixer's view of a handle. *)
Definition mix_of (hl : hal_streamer) (s : audio_bus_status) : mix_state :=
  {| bus_rbuf := hl.(h_bus_rbuf); bus_buf_sz := hl.(h_bus_buf_sz); bus_state := hl.(h_bus_state);
     pcm_channels := hl.(h_pcm_cfg).(channels); slot_index := s.(BusVolume.slot_index) |}.

(** [do_channel_map] on a handle; [in_tmp] is the array on its stack. *)
Definition map_channels (hl : hal_streamer) (s : audio_bus_status) (out in_tmp : list Z)
  : outcome (hal_streamer * list Z) :=
  let! (m, out) := do_channel_map (mix_of hl s) out in_tmp in
  Done (set_bus_rbuf m.(bus_rbuf) hl, out).

(** One round of [playback_thread_loop] while [plbk_exit] is false; [out_tmp]
    is the array on its stack. *)
Definition playback_round (hl : hal_streamer) (s : audio_bus_status) (out_tmp in_tmp : list Z) (w : W)
  : outcome (hal_streamer * list Z * W) :=
  if hl.(h_plbk_hold) then Done (hl, out_tmp, w)
  else
    match hl.(h_pcm) with
    | None => Done (hl, out_tmp, w)
    | Some p =>
        let buf_size := s32 (CALCULATE_BYTES hl.(h_pcm_cfg).(channels) PCM_FORMAT_S16_LE 48000 20) in
        let! out_tmp := if 0 <=? buf_size
                        then mem_write out_tmp 0 (replicate (Z.to_nat buf_size) 0) else Undef in
        let! (hl, out) := map_channels hl s (samples out_tmp) in_tmp in
        let out_tmp := sample_bytes out in
        let! bs := mem_read out_tmp 0 buf_size in
        let '(_, w) := pcm_write p bs w in
        Done (hl, out_tmp, w)
    end.

(** A thread that finds its exit flag set leaves its loop and posts. *)
Definition thread_leave (t : thread) : thread :=
  if t.(th_exit) && (0 <? t.(th_live))
  then {| th_live := t.(th_live) - 1; th_exit := true; th_sem := t.(th_sem) + 1 |} else t.

(** [stream_capture_prepare] and [stream_playback_prepare]; [created] is the
    success of [pthread_create]. *)
Definition thread_start (created : bool) (t : thread) : thread :=
  {| th_live := if created then t.(th_live) + 1 else t.(th_live); th_exit := false; th_sem := 0 |}.

Definition stream_capture_prepare (created : bool) (hl : hal_streamer) : hal_streamer :=
  set_cap (thread_start created hl.(h_cap)) hl.

Definition stream_playback_prepare (created : bool) (hl : hal_streamer) : hal_streamer :=
  set_plbk (thread_start created hl.(h_plbk)) false hl.
End Streamer.

(** ** The whole streamer *)

Section Api.
Context {M : Type} `{MixerOps M} `{Alloc} {W : Type} `{PcmSystem W}.
(** The allocator of ring buffers. *)
Context (cb_calloc : bool) (cb_malloc : Z -> option (list Z)).

Record hal := {
  out_streams : list hal_streamer;
  in_streams : list hal_streamer;
  buses : bus_hal M;
  world : W
}.

Definition set_outs (l : list hal_streamer) (s : hal) : hal :=
  {| out_streams := l; in_streams := s.(in_streams); buses := s.(buses); world := s.(world) |}.
Definition set_ins (l : list hal_streamer) (s : hal) : hal :=
  {| out_streams := s.(out_streams); in_streams := l; buses := s.(buses); world := s.(world) |}.
Definition set_buses (b : bus_hal M) (s : hal) : hal :=
  {| out_streams := s.(out_streams); in_streams := s.(in_streams); buses := b; world := s.(world) |}.
Definition set_world (w : W) (s : hal) : hal :=
  {| out_streams := s.(out_streams); in_streams := s.(in_streams); buses := s.(buses); world := w |}.

Definition halm (A : Type) : Type := st hal A.

Definition on_buses {A} (m : @busm M A) : halm A := fun s =>
  let! (a, b) := m s.(buses) in Done (a, set_buses b s).

(** [set_bit] and [clear_bit] on a [uint16_t]. *)
Definition set_bit (dat i : Z) : Z := Z.lor dat (Z.shiftl 1 i) mod 65536.
Definition clear_bit (dat i : Z) : Z := Z.land dat (Z.lnot (Z.shiftl 1 i)) mod 65536.

(** [prepare_rbuf]; the ring buffer that was there is not released.  An
    input device other than the two microphones leaves the new buffer
    without an owner. *)
Definition prepare_rbuf_out (hl : hal_streamer) (o : alsa_stream_out) : outcome hal_streamer :=
  let! l := array_set hl.(h_bus_rbuf) o.(o_bus_num)
              (audio_circlebuf_create_pcm cb_calloc cb_malloc pcm_format_to_bits
                 o.(o_config).(channels) o.(o_config).(cfg_format) hl.(h_pcm_cfg).(rate)
                 BUS_RBUF_LEN) in
  Done (set_bus_rbuf l hl).

Definition prepare_rbuf_in (hl : hal_streamer) (i : alsa_stream_in) : outcome hal_streamer :=
  let c := i.(i_config) in
  let rb := audio_circlebuf_create_pcm cb_calloc cb_malloc pcm_format_to_bits
              c.(channels) c.(cfg_format) c.(rate) BUS_RBUF_LEN in
  if i.(i_devices) =? AUDIO_DEVICE_IN_BUILTIN_MIC then
    let! l := array_set hl.(h_cap_rbuf) BUILD_IN_MIC_CAP rb in Done (set_cap_rbuf l hl)
  else if i.(i_devices) =? AUDIO_DEVICE_IN_TELEPHONY_RX then
    let! l := array_set hl.(h_cap_rbuf) EXT_MIC_CAP rb in Done (set_cap_rbuf l hl)
  else Done hl.

(** The device of a handle that no stream uses yet. *)
Definition open_device (card port flag : Z) (cfg : pcm_config) (hl : hal_streamer) (w : W)
  : hal_streamer * W :=
  let old := hl.(h_pcm_cfg) in
  let new := {| channels := cfg.(channels); rate := cfg.(rate);
                period_size := old.(period_size); period_count := old.(period_count);
                cfg_format := cfg.(cfg_format); start_threshold := old.(start_threshold);
                stop_threshold := old.(stop_threshold);
                silence_threshold := old.(silence_threshold);
                silence_size := old.(silence_size) |} in
  let '(p, w) := pcm_open_prepare_helper card port flag PROXY_OPEN_RETRY_COUNT cfg w in
  (set_device card port new p hl, w).

(** The critical section of [hal_streamer_open] for a playback stream: the
    handle, the stream, and whether the label [error_open] was reached. *)
Definition open_out_handle (created : bool) (card port : Z) (cfg : pcm_config)
    (hl : hal_streamer) (o : alsa_stream_out) (w : W)
  : outcome (bool * hal_streamer * alsa_stream_out * W) :=
  let finish hl w :=
    let! n := i32 (hl.(h_ref_cnt) + 1) in
    Done (true, set_ref_cnt n (set_bus_state (set_bit hl.(h_bus_state) o.(o_bus_num)) hl),
          set_o_pcm (match hl.(h_pcm) with Some _ => true | None => false end) o, w) in
  if hl.(h_ref_cnt) =? 0 then
    let '(hl, w) := open_device card port PCM_OUT cfg hl w in
    let! hl := prepare_rbuf_out hl o in
    match hl.(h_pcm) with
    | None => Done (false, hl, set_o_pcm false o, w)
    | Some _ =>
        let hl := stream_playback_prepare created hl in
        if created then finish hl w else Done (false, hl, set_o_pcm false o, w)
    end
  else
    let! hl := prepare_rbuf_out hl o in finish hl w.

(** For a capture stream the label [error_open] writes through the variable
    [out], which was never assigned. *)
Definition open_in_handle (created : bool) (card port : Z) (cfg : pcm_config)
    (hl : hal_streamer) (i : alsa_stream_in) (w : W) : outcome (hal_streamer * W) :=
  let finish hl w :=
    let hl := if i.(i_devices) =? AUDIO_DEVICE_IN_BUILTIN_MIC
              then set_cap_state (set_bit hl.(h_cap_state) BUILD_IN_MIC_CAP) hl
              else if i.(i_devices) =? AUDIO_DEVICE_IN_TELEPHONY_RX
              then set_cap_state (set_bit hl.(h_cap_state) EXT_MIC_CAP) hl
              else hl in
    let! n := i32 (hl.(h_ref_cnt) + 1) in
    Done (set_ref_cnt n hl, w) in
  if hl.(h_ref_cnt) =? 0 then
    let '(hl, w) := open_device card port PCM_IN cfg hl w in
    let! hl := prepare_rbuf_in hl i in
    match hl.(h_pcm) with
    | None => Undef
    | Some _ => if created then finish (stream_capture_prepare true hl) w else Undef
    end
  else
    let! hl := prepare_rbuf_in hl i in finish hl w.

(** [hal_streamer_open] with [PCM_OUT]: the result is the handle.  Without an
    allocated handle the null pointer of [probe_out] is used. *)
Definition hal_streamer_open_out (created : bool) (o : alsa_stream_out) (card port : Z)
    (cfg : pcm_config) : halm (option nat * alsa_stream_out) :=
  do! s := sget in
  do! (hdl, g) := slift (probe_out o.(o_bus_num) s.(out_streams)) in
  match hdl with
  | None => slift Undef
  | Some k =>
      do! hl := slift (array_get g (Z.of_nat k)) in
      do! sz := slift (array_set hl.(h_bus_buf_sz) o.(o_bus_num)
                         (s32 (CALCULATE_BYTES o.(o_config).(channels) o.(o_config).(cfg_format)
                                 cfg.(rate) 20))) in
      do! _ := smodify (set_outs (<[k := set_buf_sz sz hl]> g)) in
      do! _ := on_buses (open_bus o.(o_bus_num)) in
      do! s := sget in
      do! hl := slift (array_get s.(out_streams) (Z.of_nat k)) in
      do! (ok, hl, o, w) := slift (open_out_handle created card port cfg hl o s.(world)) in
      do! _ := smodify (fun s => set_world w (set_outs (<[k := hl]> s.(out_streams)) s)) in
      sret (if ok then Some k else None, o)
  end.

(** [hal_streamer_open] with [PCM_IN]. *)
Definition hal_streamer_open_in (created : bool) (i : alsa_stream_in) (card port : Z)
    (cfg : pcm_config) : halm (option nat) :=
  do! s := sget in
  match probe_in s.(in_streams) with
  | (None, g) => do! _ := smodify (set_ins g) in sret None
  | (Some k, g) =>
      do! hl := slift (array_get g (Z.of_nat k)) in
      do! (hl, w) := slift (open_in_handle created card port cfg hl i s.(world)) in
      do! _ := smodify (fun s => set_world w (set_ins (<[k := hl]> g) s)) in
      sret (Some k)
  end.

(** ** Closing *)

(** Asking the thread to leave and waiting for its semaphore for 315 ms;
    [exits] tells whether it leaves in this time. *)
Definition stop_thread (exits : bool) (t : thread) : thread :=
  let t := {| th_live := t.(th_live); th_exit := true; th_sem := t.(th_sem) |} in
  let t := if exits then thread_leave t else t in
  if 0 <? t.(th_sem)
  then {| th_live := t.(th_live); th_exit := t.(th_exit); th_sem := t.(th_sem) - 1 |} else t.

Definition close_pcm (hl : hal_streamer) (w : W) : bool * hal_streamer * W :=
  match hl.(h_pcm) with
  | Some p => let '(_, w) := pcm_close p w in (true, set_pcm None hl, w)
  | None => (false, hl, w)
  end.

Definition BT_CALL_BUS_NAME : string := "bus2_phone_out".

Definition is_low_latency_bus (o : alsa_stream_out) : bool :=
  contains BT_CALL_BUS_NAME o.(o_bus_address).

(** The critical section of [hal_streamer_close] for a playback stream. *)
Definition close_out_handle (exits : bool) (hl : hal_streamer) (o : alsa_stream_out) (w : W)
  : outcome (hal_streamer * alsa_stream_out * W) :=
  let! n := i32 (hl.(h_ref_cnt) - 1) in
  let hl := set_ref_cnt n hl in
  if n =? 0 then
    let hl := set_plbk (stop_thread exits hl.(h_plbk)) hl.(h_plbk_hold) hl in
    let '(closed, hl, w) := close_pcm hl w in
    Done (hl, if closed then set_o_pcm false o else o, w)
  else
    Done (if is_low_latency_bus o then set_plbk hl.(h_plbk) false hl else hl, o, w).

(** [hal_streamer_close] with [PCM_OUT]; [slot0] is the first slot of the bus
    in the output map of the platform.  The bit of the bus in [bus_state]
    stays. *)
Definition hal_streamer_close_out (exits : bool) (o : alsa_stream_out) (slot0 : Z)
  : halm (Z * alsa_stream_out) :=
  do! _ := on_buses (close_bus o.(o_bus_num) slot0) in
  match o.(o_pcm_hdl) with
  | None => sret (- EINVAL, o)
  | Some k =>
      do! s := sget in
      do! hl := slift (array_get s.(out_streams) (Z.of_nat k)) in
      do! (hl, o, w) := slift (close_out_handle exits hl o s.(world)) in
      do! _ := smodify (fun s => set_world w (set_outs (<[k := hl]> s.(out_streams)) s)) in
      sret (0, o)
  end.

(** The same for a capture stream. *)
Definition close_in_handle (exits : bool) (hl : hal_streamer) (i : alsa_stream_in) (w : W)
  : outcome (hal_streamer * alsa_stream_in * W) :=
  let! n := i32 (hl.(h_ref_cnt) - 1) in
  let hl := set_ref_cnt n hl in
  if n =? 0 then
    let hl := set_cap (stop_thread exits hl.(h_cap)) hl in
    let hl := if i.(i_devices) =? AUDIO_DEVICE_IN_BUILTIN_MIC
              then set_cap_state (clear_bit hl.(h_cap_state) BUILD_IN_MIC_CAP) hl
              else if i.(i_devices) =? AUDIO_DEVICE_IN_TELEPHONY_RX
              then set_cap_state (clear_bit hl.(h_cap_state) EXT_MIC_CAP) hl
              else hl in
    let '(closed, hl, w) := close_pcm hl w in
    Done (hl, if closed then set_i_pcm false i else i, w)
  else Done (hl, i, w).

(** [hal_streamer_close] with [PCM_IN]. *)
Definition hal_streamer_close_in (exits : bool) (i : alsa_stream_in) : halm (Z * alsa_stream_in) :=
  match i.(i_pcm_hdl) with
  | None => sret (- EINVAL, i)
  | Some k =>
      do! s := sget in
      do! hl := slift (array_get s.(in_streams) (Z.of_nat k)) in
      do! (hl, i, w) := slift (close_in_handle exits hl i s.(world)) in
      do! _ := smodify (fun s => set_world w (set_ins (<[k := hl]> s.(in_streams)) s)) in
      sret (0, i)
  end.

(** ** Writing *)

Definition FULL_SLOT_FRAMES : Z := 48000 / 1000 * 8 * OUT_PERIOD_MS.
Definition BT_CHANNEL_CNT : Z := 2.

(** The slot pair that the phone bus has got. *)
Definition phone_offset (bus_num : Z) (st : audio_bus_status) : outcome Z :=
  if bus_num =? 2 then
    let! i := array_get st.(BusVolume.slot_index) bus_num in
    Done (if i =? 2 then 1 else if i =? 4 then 2 else if i =? 6 then 3 else 2)
  else Done 0.

(** [direct_write_pcm]; [in_tmp] is the array of [do_channel_map]. *)
Definition direct_write_pcm (k : nat) (o : alsa_stream_out) (data : list Z) (count : Z)
    (in_tmp : list Z) : halm Z :=
  do! s := sget in
  do! hl := slift (array_get s.(out_streams) (Z.of_nat k)) in
  let out_tmp := replicate (Z.to_nat FULL_SLOT_FRAMES) 0 in
  let buf_size := s32 (CALCULATE_BYTES 8 PCM_FORMAT_S16_LE 48000 20) in
  let hl := set_plbk hl.(h_plbk) true hl in
  let bytes := pcm_format_to_bits o.(o_config).(cfg_format) / 8 in
  if bytes =? 0 then slift Undef
  else
    let frame_count := count / bytes in
    do! dst_offset := slift (phone_offset o.(o_bus_num) s.(buses).(bus)) in
    do! (_, out) := slift (pcm_16_areas_copy frame_count (Some (samples data)) BT_CHANNEL_CNT
                             (Some out_tmp) hl.(h_pcm_cfg).(channels) dst_offset) in
    match out with
    | None => slift Undef
    | Some out_tmp =>
        do! (hl, out_tmp) := slift (map_channels hl s.(buses).(bus) out_tmp in_tmp) in
        do! bs := slift (mem_read (sample_bytes out_tmp) 0 buf_size) in
        match hl.(h_pcm) with
        | None => slift Undef
        | Some p =>
            let '(r, w) := pcm_write p bs s.(world) in
            do! _ := smodify (fun s => set_world w (set_outs (<[k := hl]> s.(out_streams)) s)) in
            sret r
        end
    end.

Section Wait.
(** What the other threads do while this one sleeps for the [n]-th time.  No
    stream of the same bus is opened or closed then, so the ring buffer of a
    bus or microphone stays the same object. *)
Context (others : nat -> halm unit).

(** The loop of [hal_streamer_write]: false when there is no ring buffer. *)
Fixpoint write_wait (fuel n : nat) (k : nat) (bus count : Z) : halm bool :=
  match fuel with
  | O => slift Blocked
  | S fuel =>
      do! s := sget in
      do! hl := slift (array_get s.(out_streams) (Z.of_nat k)) in
      do! rb := slift (array_get hl.(h_bus_rbuf) bus) in
      match rb with
      | None => sret false
      | Some rb =>
          do! avail := slift (audio_circlebuf_available rb) in
          if u32 avail >=? count then sret true
          else do! _ := others n in write_wait fuel (S n) k bus count
      end
  end.

(** The write itself. *)
Definition put_bus (k : nat) (bus : Z) (data : list Z) (count : Z) : halm unit :=
  do! s := sget in
  do! hl := slift (array_get s.(out_streams) (Z.of_nat k)) in
  do! rb := slift (array_get hl.(h_bus_rbuf) bus) in
  do! (_, rb) := slift (audio_circlebuf_write rb (Some data) (s32 count)) in
  do! l := slift (array_set hl.(h_bus_rbuf) bus rb) in
  smodify (set_outs (<[k := set_bus_rbuf l hl]> s.(out_streams))).

Definition hal_streamer_write (fuel : nat) (out : option alsa_stream_out) (data : option (list Z))
    (count : Z) (in_tmp : list Z) : halm Z :=
  match out, data with
  | Some o, Some data =>
      if o.(o_pcm) then
        match o.(o_pcm_hdl) with
        | None => sret (- EINVAL)
        | Some k =>
            if is_low_latency_bus o then direct_write_pcm k o data count in_tmp
            else
              do! ok := write_wait fuel 0 k o.(o_bus_num) count in
              if ok then do! _ := put_bus k o.(o_bus_num) data count in sret 0
              else sret 0
        end
      else sret (- EINVAL)
  | _, _ => sret (- EINVAL)
  end.

(** ** Reading *)

Definition read_policy (devices : Z) : Z :=
  if devices =? AUDIO_DEVICE_IN_BUILTIN_MIC then BUILD_IN_MIC_CAP
  else if devices =? AUDIO_DEVICE_IN_TELEPHONY_RX then EXT_MIC_CAP
  else 0.

(** The loop of [hal_streamer_read] with [limit] left: one poll more than
    sleeps that do not end it. *)
Fixpoint read_wait (limit n : nat) (k : nat) (policy : Z) (data : list Z) (count : Z)
  : halm (Z * list Z) :=
  do! s := sget in
  do! hl := slift (array_get s.(in_streams) (Z.of_nat k)) in
  do! rb := slift (array_get hl.(h_cap_rbuf) policy) in
  match rb with
  | None => slift Undef
  | Some b =>
      if u32 (audio_circlebuf_used b) >=? count then
        do! (ret, rb, data) := slift (audio_circlebuf_read rb data 0 (s32 count)) in
        do! l := slift (array_set hl.(h_cap_rbuf) policy rb) in
        do! _ := smodify (set_ins (<[k := set_cap_rbuf l hl]> s.(in_streams))) in
        sret (ret, data)
      else
        do! _ := others n in
        match limit with
        | O => sret (0, data)
        | S limit => read_wait limit (S n) k policy data count
        end
  end.

Definition hal_streamer_read (i : alsa_stream_in) (data : list Z) (count : Z)
  : halm (Z * list Z) :=
  match i.(i_pcm_hdl) with
  | None => sret (- EINVAL, data)
  | Some k =>
      do! (ret, data) := read_wait READ_TIMEOUT_LIMITS 0 k (read_policy i.(i_devices)) data count in
      sret (if ret >? 0 then 0 else ret, data)
  end.
End Wait.
End Api.
Arguments hal M W : clear implicits.
