(* ===== verification/StreamerProofs.v ===== *)
(** * The streamer: theorems

    Reference counts, devices and threads over sessions of opening and
    closing; binding of buses; the periods that the threads move; the
    blocking write and the read with its time limit. *)

From Stdlib Require Import ZArith Lia Ascii String.
From stdpp Require Import base list numbers.
From S2P Require Import Prelude CString CircleBuf Mixer Dsp DspProofs BusVolume Mix PcmPlugin.
From S2P Require Import PcmDevice Streamer.

#[local] Open Scope Z_scope.

(** ** Counting *)

Fixpoint count {A} (f : A -> bool) (l : list A) : Z :=
  match l with
  | [] => 0
  | a :: l => (if f a then 1 else 0) + count f l
  end.

Lemma count_insert {A} (f : A -> bool) (l : list A) (i : nat) (a b : A) :
  l !! i = Some a ->
  count f (<[i := b]> l) = count f l - (if f a then 1 else 0) + (if f b then 1 else 0).
Proof.
  revert i. induction l as [|x l IH]; intros [|i] E; [done|done| |].
  - injection E as ->. cbn. lia.
  - change (<[S i := b]> (x :: l)) with (x :: <[i := b]> l). cbn [count]. rewrite (IH i E). lia.
Qed.

Lemma count_bound {A} (f : A -> bool) (l : list A) : 0 <= count f l <= zlen l.
Proof. unfold zlen. induction l as [|a l IH]; cbn; [lia|]. destruct (f a); lia. Qed.

Lemma count_pos {A} (f : A -> bool) (l : list A) (i : nat) (a : A) :
  l !! i = Some a -> f a = true -> 0 < count f l.
Proof.
  revert i. induction l as [|x l IH]; intros [|i] E F; cbn in *; [done|done| |].
  - injection E as ->. rewrite F. pose proof (count_bound f l). lia.
  - specialize (IH i E F). destruct (f x); lia.
Qed.

Lemma count_room {A} (f : A -> bool) (l : list A) (i : nat) (a : A) :
  l !! i = Some a -> f a = false -> count f l < zlen l.
Proof.
  unfold zlen. revert i. induction l as [|x l IH]; intros [|i] E F; cbn in *; [done|done| |].
  - injection E as ->. rewrite F. pose proof (count_bound f l). unfold zlen in *. lia.
  - specialize (IH i E F). destruct (f x); lia.
Qed.

Lemma count_none {A} (f : A -> bool) (l : list A) :
  (forall i a, l !! i = Some a -> f a = false) -> count f l = 0.
Proof.
  induction l as [|x l IH]; intros N; [done|]. cbn. rewrite (N 0%nat x eq_refl).
  rewrite IH; [done|]. intros i a E. by apply (N (S i) a).
Qed.

(** Replacing an element of a list exchanges what it contributes to
    [omap]. *)
Lemma omap_insert_perm {A B} (f : A -> option B) (l : list A) (k : nat) (a b : A) :
  l !! k = Some a ->
  option_list (f a) ++ omap f (<[k := b]> l) ≡ₚ option_list (f b) ++ omap f l.
Proof.
  revert k. induction l as [|x l IH]; intros [|k] E; [done|done| |].
  - injection E as ->. cbn. destruct (f a), (f b); cbn; try done. apply Permutation_swap.
  - change (<[S k := b]> (x :: l)) with (x :: <[k := b]> l). specialize (IH k E). cbn [omap list_omap].
    destruct (f x); [|done]. rewrite <-!Permutation_middle. by rewrite IH.
Qed.

(** ** Invariant of the handles *)

(** Opening of capture devices that does not fail. *)
Class ReliableCapture (W : Type) `{PcmSystem W} := {
  reliable : W -> Prop;
  reliable_in (card port : Z) (cfg : pcm_config) (w : W) :
    reliable w -> is_Some (pcm_open_prepare_helper card port PCM_IN PROXY_OPEN_RETRY_COUNT cfg w).1;
  reliable_open (card port flags : Z) (cfg : pcm_config) (w : W) :
    reliable w -> reliable (pcm_open_prepare_helper card port flags PROXY_OPEN_RETRY_COUNT cfg w).2;
  reliable_close (h : Z) (w : W) : reliable w -> reliable (pcm_close h w).2
}.

(** A handle with [n] users whose thread is [t]. *)
Record handle_ok (t : thread) (hl : hal_streamer) (n : Z) : Prop := {
  ho_bind : length hl.(h_bind_bus) = 16%nat;
  ho_len : 0 <= hl.(h_bind_bus_len) <= 16;
  ho_bus : length hl.(h_bus_rbuf) = 16%nat;
  ho_cap : length hl.(h_cap_rbuf) = 16%nat;
  ho_sz : length hl.(h_bus_buf_sz) = 16%nat;
  ho_ref : hl.(h_ref_cnt) = n;
  ho_pcm : is_Some hl.(h_pcm) <-> 0 < n;
  ho_live : t.(th_live) = (if 0 <? n then 1 else 0);
  ho_sem : 0 <= t.(th_sem)
}.

Lemma array_set_16 {A} (l : list A) (b : Z) (a : A) :
  length l = 16%nat -> 0 <= b < 16 ->
  array_set l b a = Done (<[Z.to_nat b := a]> l) /\ length (<[Z.to_nat b := a]> l) = 16%nat.
Proof. intros L B. split; [apply array_set_done; unfold zlen; lia|by rewrite length_insert]. Qed.

(** What a step on a handle does to the open devices. *)
Definition devices_kept {W} `{PcmSystem W} (hl hl' : hal_streamer) (w w' : W) : Prop :=
  option_list hl.(h_pcm) ++ opened w' ≡ₚ option_list hl'.(h_pcm) ++ opened w.

(** Proves [handle_ok] of a handle that was built from one with the fields
    [O7], [O8] of its invariant. *)
Ltac handle O7 O8 :=
  split; cbn;
  first [done | lia | rewrite O7; lia | split; [lia|by eauto] | split; [by intros []|lia]
        | rewrite O8; repeat zif; lia].

(** A stream keeps its bus and its client's fields. *)
Definition same_out (o o' : alsa_stream_out) : Prop :=
  o'.(o_bus_num) = o.(o_bus_num) /\ o'.(o_pcm_hdl) = o.(o_pcm_hdl) /\ o'.(o_standby) = o.(o_standby).

Section Handles.
Context {W : Type} `{PcmSystemLaws W} `{!ReliableCapture W}.
Context (cb_calloc : bool) (cb_malloc : Z -> option (list Z)).

Lemma open_device_spec (card port flag : Z) (cfg : pcm_config) (hl : hal_streamer) (w : W) :
  reliable w -> hl.(h_pcm) = None ->
  exists cfg' p w', open_device card port flag cfg hl w = (set_device card port cfg' p hl, w')
    /\ opened_after p w w' /\ reliable w' /\ (flag = PCM_IN -> is_Some p)
    /\ p = (pcm_open_prepare_helper card port flag PROXY_OPEN_RETRY_COUNT cfg w).1.
Proof using - (cb_calloc cb_malloc).
  intros R N. unfold open_device.
  pose proof (open_helper_opened card port flag PROXY_OPEN_RETRY_COUNT cfg w) as O.
  pose proof (reliable_open card port flag cfg w R) as R'.
  pose proof (reliable_in card port cfg w R) as RI. cbv zeta in O.
  destruct (pcm_open_prepare_helper card port flag PROXY_OPEN_RETRY_COUNT cfg w) as [p w'] eqn:E.
  cbn in O, R'. eexists _, p, w'. split; [reflexivity|]. split; [done|]. split; [done|].
  split; [|done]. intros ->. by rewrite E in RI.
Qed.

Lemma opened_after_kept (p : option Z) (hl hl' : hal_streamer) (w w' : W) :
  hl.(h_pcm) = None -> hl'.(h_pcm) = p -> opened_after p w w' -> devices_kept hl hl' w w'.
Proof using - (cb_calloc cb_malloc). unfold devices_kept. intros -> -> O. cbn. destruct p; exact O. Qed.

Lemma pcm_none (t : thread) (hl : hal_streamer) : handle_ok t hl 0 -> hl.(h_pcm) = None.
Proof. intros [_ _ _ _ _ _ [P _] _ _]. destruct hl.(h_pcm); [|done]. specialize (P ltac:(eauto)). lia. Qed.

Lemma open_out_handle_ok (card port : Z) (cfg : pcm_config) (hl : hal_streamer)
    (o : alsa_stream_out) (n : Z) (w : W) :
  handle_ok hl.(h_plbk) hl n -> 0 <= o.(o_bus_num) < 16 -> 0 <= n < INT32_MAX -> reliable w ->
  exists ok hl' o' w',
    open_out_handle cb_calloc cb_malloc true card port cfg hl o w = Done (ok, hl', o', w')
    /\ handle_ok hl'.(h_plbk) hl' (if ok then n + 1 else n)
    /\ hl'.(h_allocated) = hl.(h_allocated)
    /\ devices_kept hl hl' w w' /\ same_out o o' /\ reliable w'
    /\ (ok = true \/ (pcm_open_prepare_helper card port PCM_OUT PROXY_OPEN_RETRY_COUNT cfg w).1 = None)
    /\ (n = 0 -> (pcm_open_prepare_helper card port PCM_OUT PROXY_OPEN_RETRY_COUNT cfg w).1 = None -> ok = false).
Proof using All.
  intros HO B N R. pose proof HO as [O1 O2 O3 O4 O5 O6 O7 O8 O9]. unfold open_out_handle.
  destruct (hl.(h_ref_cnt) =? 0) eqn:E; zbool.
  - assert (n = 0) as -> by congruence. pose proof (pcm_none _ _ HO) as PN.
    destruct (open_device_spec card port PCM_OUT cfg hl w R PN) as (cfg' & p & w' & -> & OA & R' & _ & Ep).
    unfold prepare_rbuf_out. cbn [h_bus_rbuf set_device].
    destruct (array_set_16 hl.(h_bus_rbuf) o.(o_bus_num)
      (audio_circlebuf_create_pcm cb_calloc cb_malloc pcm_format_to_bits o.(o_config).(channels)
         o.(o_config).(cfg_format) (h_pcm_cfg (set_device card port cfg' p hl)).(rate) BUS_RBUF_LEN)
      O3 B) as [-> L]. cbn.
    destruct p as [p|]; cbn.
    + rewrite E. cbn. eexists _, _, _, _. split; [reflexivity|].
      split; [handle O7 O8|].
      split; [done|].
      split; [by apply (opened_after_kept (Some p))|]. repeat split; try done; [by left|congruence].
    + eexists _, _, _, _. split; [reflexivity|].
      split; [handle O7 O8|].
      split; [done|].
      split; [by apply (opened_after_kept None)|]. repeat split; try done. by right.
  - unfold prepare_rbuf_out. destruct (array_set_16 hl.(h_bus_rbuf) o.(o_bus_num)
      (audio_circlebuf_create_pcm cb_calloc cb_malloc pcm_format_to_bits o.(o_config).(channels)
         o.(o_config).(cfg_format) hl.(h_pcm_cfg).(rate) BUS_RBUF_LEN) O3 B) as [-> L].
    cbn. rewrite i32_done by (unfold is_i32, INT32_MIN in *; lia). cbn.
    eexists _, _, _, _. split; [reflexivity|].
    split; [handle O7 O8|].
    split; [done|]. split; [by unfold devices_kept|]. repeat split; try done; [by left|congruence].
Qed.

Lemma prepare_rbuf_in_ok (hl : hal_streamer) (i : alsa_stream_in) :
  length hl.(h_cap_rbuf) = 16%nat ->
  exists l, prepare_rbuf_in cb_calloc cb_malloc hl i = Done (set_cap_rbuf l hl) /\ length l = 16%nat.
Proof.
  intros L. unfold prepare_rbuf_in. set (rb := audio_circlebuf_create_pcm _ _ _ _ _ _ _).
  destruct (array_set_16 hl.(h_cap_rbuf) BUILD_IN_MIC_CAP rb L ltac:(done)) as [E1 L1].
  destruct (array_set_16 hl.(h_cap_rbuf) EXT_MIC_CAP rb L ltac:(done)) as [E2 L2].
  rewrite E1, E2. cbn [obind]. repeat zif; try (by eexists; split).
  exists hl.(h_cap_rbuf). split; [|done]. by destruct hl.
Qed.

Lemma open_in_handle_ok (card port : Z) (cfg : pcm_config) (hl : hal_streamer)
    (i : alsa_stream_in) (n : Z) (w : W) :
  handle_ok hl.(h_cap) hl n -> 0 <= n < INT32_MAX -> reliable w ->
  exists hl' w',
    open_in_handle cb_calloc cb_malloc true card port cfg hl i w = Done (hl', w')
    /\ handle_ok hl'.(h_cap) hl' (n + 1) /\ hl'.(h_allocated) = hl.(h_allocated)
    /\ devices_kept hl hl' w w' /\ reliable w'.
Proof using All.
  intros HO N R. pose proof HO as [O1 O2 O3 O4 O5 O6 O7 O8 O9]. unfold open_in_handle.
  destruct (hl.(h_ref_cnt) =? 0) eqn:E; zbool.
  - assert (n = 0) as -> by congruence. pose proof (pcm_none _ _ HO) as PN.
    destruct (open_device_spec card port PCM_IN cfg hl w R PN) as (cfg' & p & w' & -> & OA & R' & S & _).
    destruct (S eq_refl) as [h ->].
    destruct (prepare_rbuf_in_ok (set_device card port cfg' (Some h) hl) i O4) as (l & -> & L).
    cbn. repeat zif; cbn; rewrite E; cbn; eexists _, _; (split; [reflexivity|]);
      (split; [handle O7 O8|]);
      (split; [done|]); (split; [by apply (opened_after_kept (Some h))|done]).
  - destruct (prepare_rbuf_in_ok hl i O4) as (l & -> & L). cbn.
    repeat zif; cbn; rewrite i32_done by (unfold is_i32, INT32_MIN in *; lia); cbn;
      eexists _, _; (split; [reflexivity|]);
      (split; [handle O7 O8|]);
      (split; [done|]); (split; [by unfold devices_kept|done]).
Qed.

Lemma stop_thread_live (t : thread) :
  t.(th_live) = 1 -> 0 <= t.(th_sem) ->
  (stop_thread true t).(th_live) = 0 /\ 0 <= (stop_thread true t).(th_sem).
Proof. intros L S. unfold stop_thread, thread_leave. cbn. rewrite L. cbn. zif; cbn; lia. Qed.

(** Closing the device of the last user. *)
Lemma close_pcm_ok (t : thread) (hl : hal_streamer) (w : W) (l : list Z) :
  length hl.(h_bind_bus) = 16%nat -> 0 <= hl.(h_bind_bus_len) <= 16 ->
  length hl.(h_bus_rbuf) = 16%nat -> length hl.(h_cap_rbuf) = 16%nat ->
  length hl.(h_bus_buf_sz) = 16%nat -> hl.(h_ref_cnt) = 0 ->
  t.(th_live) = 0 -> 0 <= t.(th_sem) -> reliable w -> is_Some hl.(h_pcm) ->
  opened w ≡ₚ option_list hl.(h_pcm) ++ l ->
  exists w', close_pcm hl w = (true, set_pcm None hl, w')
    /\ handle_ok t (set_pcm None hl) 0 /\ opened w' ≡ₚ l /\ reliable w'.
Proof using - (cb_calloc cb_malloc).
  intros B1 B2 B3 B4 B5 B6 B7 B8 R [p P] O. unfold close_pcm. rewrite P in *.
  pose proof (close_opened p w l O) as C. pose proof (reliable_close p w R) as R'.
  destruct (pcm_close p w) as [r w']. exists w'. split; [done|].
  split; [handle P P|]. by split.
Qed.

Lemma close_out_handle_ok (hl : hal_streamer) (o : alsa_stream_out) (n : Z) (w : W) (l : list Z) :
  handle_ok hl.(h_plbk) hl n -> 0 < n <= INT32_MAX -> reliable w ->
  opened w ≡ₚ option_list hl.(h_pcm) ++ l ->
  exists hl' o' w',
    close_out_handle true hl o w = Done (hl', o', w')
    /\ handle_ok hl'.(h_plbk) hl' (n - 1) /\ hl'.(h_allocated) = hl.(h_allocated)
    /\ opened w' ≡ₚ option_list hl'.(h_pcm) ++ l /\ same_out o o' /\ reliable w'.
Proof using - (cb_calloc cb_malloc).
  intros [O1 O2 O3 O4 O5 O6 O7 O8 O9] N R P. unfold close_out_handle. rewrite O6.
  rewrite i32_done by (unfold is_i32, INT32_MIN in *; lia). cbn [obind].
  rewrite (proj2 (Z.ltb_lt 0 n)) in O8 by lia. destruct (n - 1 =? 0) eqn:E; zbool.
  - rewrite E. destruct (stop_thread_live hl.(h_plbk) O8 O9) as [S1 S2].
    edestruct (close_pcm_ok (stop_thread true hl.(h_plbk))
      (set_plbk (stop_thread true hl.(h_plbk)) hl.(h_plbk_hold) (set_ref_cnt 0 hl)) w l)
      as (w' & E' & HO & C & R'); try done; [apply O7; lia|].
    cbn [h_plbk h_plbk_hold set_ref_cnt]. rewrite E'. eexists _, _, _. split; [reflexivity|].
    split; [exact HO|]. by repeat split.
  - destruct (is_low_latency_bus o); eexists _, _, _; (split; [reflexivity|]);
      (split; [handle O7 O8|]); by repeat split.
Qed.

Lemma close_in_handle_ok (hl : hal_streamer) (i : alsa_stream_in) (n : Z) (w : W) (l : list Z) :
  handle_ok hl.(h_cap) hl n -> 0 < n <= INT32_MAX -> reliable w ->
  opened w ≡ₚ option_list hl.(h_pcm) ++ l ->
  exists hl' i' w',
    close_in_handle true hl i w = Done (hl', i', w')
    /\ handle_ok hl'.(h_cap) hl' (n - 1) /\ hl'.(h_allocated) = hl.(h_allocated)
    /\ opened w' ≡ₚ option_list hl'.(h_pcm) ++ l
    /\ i'.(i_pcm_hdl) = i.(i_pcm_hdl) /\ i'.(i_standby) = i.(i_standby) /\ reliable w'.
Proof using - (cb_calloc cb_malloc).
  intros [O1 O2 O3 O4 O5 O6 O7 O8 O9] N R P. unfold close_in_handle. rewrite O6.
  rewrite i32_done by (unfold is_i32, INT32_MIN in *; lia). cbn [obind].
  rewrite (proj2 (Z.ltb_lt 0 n)) in O8 by lia. destruct (n - 1 =? 0) eqn:E; zbool.
  - rewrite E. destruct (stop_thread_live hl.(h_cap) O8 O9) as [S1 S2].
    cbv zeta. match goal with |- context [close_pcm ?x w] => set (h1 := x) end.
    edestruct (close_pcm_ok (stop_thread true hl.(h_cap)) h1 w l)
      as (w' & E' & HO & C & R'); try done;
      try (subst h1; repeat zif; done); try (subst h1; repeat zif; apply O7; lia).
    rewrite E'. eexists _, _, _. split; [reflexivity|].
    split; [replace (h_cap (set_pcm None h1)) with (stop_thread true hl.(h_cap))
              by (subst h1; by repeat zif); exact HO|].
    split; [subst h1; by repeat zif|]. by repeat split.
  - eexists _, _, _; (split; [reflexivity|]); (split; [handle O7 O8|]); by repeat split.
Qed.
End Handles.

(** ** Probing *)

Lemma bus_bound_done (n : nat) (k : Z) (l : list Z) (b : Z) :
  0 <= k -> k + Z.of_nat n <= zlen l -> exists r, bus_bound n k l b = Done r.
Proof.
  revert k. induction n as [|n IH]; intros k K L; cbn [bus_bound]; [eauto|].
  rewrite array_get_done by lia. cbn [obind]. zif; [eauto|]. apply IH; lia.
Qed.

(** A table in which every handle has its arrays in order. *)
Definition arrays_ok (g : list hal_streamer) : Prop :=
  forall k hl, g !! k = Some hl ->
    length hl.(h_bind_bus) = 16%nat /\ 0 <= hl.(h_bind_bus_len) <= 16.

Lemma probe_out_from_done (g : list hal_streamer) (i : nat) (b : Z) (hdl : option nat) :
  arrays_ok g ->
  exists r, probe_out_from g i b hdl = Done r
    /\ (match r with Some k => (i <= k < i + length g)%nat \/ r = hdl | None => r = hdl end)
    /\ ((exists k hl, g !! k = Some hl /\ hl.(h_allocated) = true) \/ is_Some hdl -> is_Some r).
Proof.
  revert i hdl. induction g as [|hl g IH]; intros i hdl A; cbn [probe_out_from].
  { exists hdl. split; [done|]. split; [by destruct hdl; [right|]|].
    intros [(k & hl & E & _) | S]; [by rewrite lookup_nil in E|done]. }
  assert (arrays_ok g) as A' by (intros k x E; apply (A (S k) x E)).
  destruct (A 0%nat hl eq_refl) as [L1 L2].
  destruct (hl.(h_allocated)) eqn:Al.
  - destruct (bus_bound_done (Z.to_nat hl.(h_bind_bus_len)) 0 hl.(h_bind_bus) b) as [r ->];
      [lia|unfold zlen; lia|]. cbn [obind]. destruct r.
    { exists (Some i). cbn. split; [done|]. split; [left; lia|]. intros _. eauto. }
    destruct (IH (S i) (Some i) A') as (r & -> & R1 & R2). exists r. split; [done|].
    split; [|intros _; apply R2; right; eauto].
    destruct r as [k|]; [|done]. cbn. left. destruct R1 as [R1 | [= ->]]; lia.
  - destruct (IH (S i) hdl A') as (r & -> & R1 & R2). exists r. split; [done|].
    split; [destruct r as [k|]; [|done]; cbn; destruct R1; [left; lia|by right]|].
    intros [(k & x & E & Ax) | S]; apply R2; [left|by right].
    destruct k as [|k]; [cbn in E; congruence|]. eauto.
Qed.

Lemma probe_out_done (g : list hal_streamer) (b : Z) :
  arrays_ok g -> (exists k hl, g !! k = Some hl /\ hl.(h_allocated) = true) ->
  exists k hl, probe_out b g = Done (Some k, alter (set_dir PLAYBACK_STREAM) k g) /\ g !! k = Some hl.
Proof.
  intros A X. unfold probe_out.
  destruct (probe_out_from_done g 0 b None A) as (r & -> & R1 & R2). cbn [obind].
  destruct (R2 (or_introl X)) as [k ->]. destruct R1 as [R1 | R1]; [|done].
  destruct (lookup_lt_is_Some_2 g k) as [hl E]; [lia|]. exists k, hl. done.
Qed.

Lemma insert_alter {A} (f : A -> A) (l : list A) (k : nat) (a : A) : <[k := a]> (alter f k l) = <[k := a]> l.
Proof.
  revert k. induction l as [|x l IH]; intros [|k]; [done..|]. cbn. f_equal. apply IH.
Qed.

(** ** Sessions *)

(** The clients of the streamer and what they ask for: a stream in standby is
    started, a stream that plays or records goes to standby. *)
Record session (M W : Type) := {
  ss_hal : hal M W;
  ss_outs : list alsa_stream_out;
  ss_ins : list alsa_stream_in
}.
Arguments ss_hal {M W}. Arguments ss_outs {M W}. Arguments ss_ins {M W}.

Inductive stream_cmd :=
| StartOut (i : nat) (card port : Z) (cfg : pcm_config)
| StandbyOut (i : nat) (slot0 : Z)
| StartIn (i : nat) (card port : Z) (cfg : pcm_config)
| StandbyIn (i : nat).

Definition set_o_client (hdl : option nat) (standby : bool) (o : alsa_stream_out) : alsa_stream_out :=
  {| o_bus_num := o.(o_bus_num); o_bus_address := o.(o_bus_address); o_config := o.(o_config);
     o_pcm := o.(o_pcm); o_pcm_hdl := hdl; o_standby := standby |}.
Definition set_i_client (hdl : option nat) (standby : bool) (i : alsa_stream_in) : alsa_stream_in :=
  {| i_devices := i.(i_devices); i_config := i.(i_config);
     i_pcm := i.(i_pcm); i_pcm_hdl := hdl; i_standby := standby |}.

Definition is_none {A} (o : option A) : bool := match o with None => true | Some _ => false end.

Section Exec.
Context {M : Type} `{MixerOps M} `{Alloc} {W : Type} `{PcmSystem W}.
Context (cb_calloc : bool) (cb_malloc : Z -> option (list Z)).

Definition exec_stream (c : stream_cmd) (s : session M W) : outcome (session M W) :=
  match c with
  | StartOut i card port cfg =>
      match s.(ss_outs) !! i with
      | Some o =>
          if o.(o_standby) then
            let! (r, h) := hal_streamer_open_out cb_calloc cb_malloc true o card port cfg s.(ss_hal) in
            let '(hdl, o) := r in
            Done {| ss_hal := h; ss_ins := s.(ss_ins);
                    ss_outs := <[i := set_o_client hdl (is_none hdl) o]> s.(ss_outs) |}
          else Done s
      | None => Done s
      end
  | StandbyOut i slot0 =>
      match s.(ss_outs) !! i with
      | Some o =>
          if o.(o_standby) then Done s
          else
            let! (r, h) := hal_streamer_close_out true o slot0 s.(ss_hal) in
            let '(_, o) := r in
            Done {| ss_hal := h; ss_ins := s.(ss_ins);
                    ss_outs := <[i := set_o_client o.(o_pcm_hdl) true o]> s.(ss_outs) |}
      | None => Done s
      end
  | StartIn i card port cfg =>
      match s.(ss_ins) !! i with
      | Some x =>
          if x.(i_standby) then
            let! (hdl, h) := hal_streamer_open_in cb_calloc cb_malloc true x card port cfg s.(ss_hal) in
            Done {| ss_hal := h; ss_outs := s.(ss_outs);
                    ss_ins := <[i := set_i_client hdl (is_none hdl) x]> s.(ss_ins) |}
          else Done s
      | None => Done s
      end
  | StandbyIn i =>
      match s.(ss_ins) !! i with
      | Some x =>
          if x.(i_standby) then Done s
          else
            let! (r, h) := hal_streamer_close_in true x s.(ss_hal) in
            let '(_, x) := r in
            Done {| ss_hal := h; ss_outs := s.(ss_outs);
                    ss_ins := <[i := set_i_client None true x]> s.(ss_ins) |}
      | None => Done s
      end
  end.

Fixpoint exec_streams (l : list stream_cmd) (s : session M W) : outcome (session M W) :=
  match l with
  | [] => Done s
  | c :: l => let! s := exec_stream c s in exec_streams l s
  end.
End Exec.

Definition valid_stream_cmd (c : stream_cmd) : Prop :=
  match c with StandbyOut _ slot0 => 0 <= slot0 <= 7 | _ => True end.

(** A stream that uses handle [k]. *)
Definition uses (k : nat) (standby : bool) (hdl : option nat) : bool :=
  negb standby && bool_decide (hdl = Some k).
#[local] Arguments uses : simpl never.
Definition uses_out (k : nat) (o : alsa_stream_out) : bool := uses k o.(o_standby) o.(o_pcm_hdl).
Definition uses_in (k : nat) (x : alsa_stream_in) : bool := uses k x.(i_standby) x.(i_pcm_hdl).

Lemma uses_this (k : nat) : uses k false (Some k) = true.
Proof. unfold uses. by rewrite bool_decide_eq_true_2. Qed.

Lemma uses_other (j k : nat) : j <> k -> uses j false (Some k) = false.
Proof. intros N. unfold uses. rewrite bool_decide_eq_false_2; [done|]. by intros [= ->]. Qed.

(** The elements of a list that was updated at one place. *)
Lemma lookup_insert_cases {A} (P : A -> Prop) (l : list A) (i j : nat) (a x : A) :
  <[i := a]> l !! j = Some x -> P a -> (l !! j = Some x -> P x) -> P x.
Proof. intros E Pa Pl. apply list_lookup_insert_Some in E as [(-> & <- & _) | [_ E]]; auto. Qed.

Lemma insert_is_Some {A} (l : list A) (i j : nat) (a : A) :
  is_Some (l !! j) -> is_Some (<[i := a]> l !! j).
Proof. rewrite !lookup_lt_is_Some. by rewrite length_insert. Qed.

(** ** The invariant of a session *)

Section Sessions.
Context {M : Type} `{MixerLaws M} `{Alloc} {W : Type} `{PcmSystemLaws W} `{!ReliableCapture W}.
Context (cb_calloc : bool) (cb_malloc : Z -> option (list Z)).

(** Every handle counts the streams that use it, has a device and a thread
    exactly while there are any, and no other device is open. *)
Record sess_ok (s : session M W) : Prop := {
  so_out : forall k hl, s.(ss_hal).(out_streams) !! k = Some hl ->
             handle_ok hl.(h_plbk) hl (count (uses_out k) s.(ss_outs));
  so_in : forall k hl, s.(ss_hal).(in_streams) !! k = Some hl ->
            handle_ok hl.(h_cap) hl (count (uses_in k) s.(ss_ins));
  so_alloc : exists k hl, s.(ss_hal).(out_streams) !! k = Some hl /\ hl.(h_allocated) = true;
  so_free : exists hl l, s.(ss_hal).(in_streams) = hl :: l /\ hl.(h_allocated) = false;
  so_hdl_out : forall i o, s.(ss_outs) !! i = Some o -> o.(o_standby) = false ->
                 exists k, o.(o_pcm_hdl) = Some k /\ is_Some (s.(ss_hal).(out_streams) !! k);
  so_hdl_in : forall i x, s.(ss_ins) !! i = Some x -> x.(i_standby) = false ->
                exists k, x.(i_pcm_hdl) = Some k /\ is_Some (s.(ss_hal).(in_streams) !! k);
  so_num : forall i o, s.(ss_outs) !! i = Some o -> 0 <= o.(o_bus_num) < 16;
  so_dev : opened s.(ss_hal).(world)
           ≡ₚ omap h_pcm s.(ss_hal).(out_streams) ++ omap h_pcm s.(ss_hal).(in_streams);
  so_bus : hal_inv s.(ss_hal).(buses);
  so_rel : reliable s.(ss_hal).(world);
  so_few : zlen s.(ss_outs) <= INT32_MAX /\ zlen s.(ss_ins) <= INT32_MAX
}.

Lemma handles_insert {A} (f : nat -> A -> bool) (t : hal_streamer -> thread)
    (g : list hal_streamer) (l : list A) (k0 i : nat) (a b : A) (hl' : hal_streamer) :
  (forall k hl, g !! k = Some hl -> handle_ok (t hl) hl (count (f k) l)) ->
  l !! i = Some a -> (forall k, k <> k0 -> f k a = f k b) ->
  handle_ok (t hl') hl' (count (f k0) l - (if f k0 a then 1 else 0) + (if f k0 b then 1 else 0)) ->
  forall k hl, <[k0 := hl']> g !! k = Some hl -> handle_ok (t hl) hl (count (f k) (<[i := b]> l)).
Proof using.
  intros G E Ne Hk k hl L. rewrite (count_insert _ _ _ _ _ E).
  destruct (decide (k = k0)) as [-> | N].
  - rewrite list_lookup_insert_Some in L. destruct L as [(_ & -> & _) | [N _]]; [done|by destruct N].
  - rewrite list_lookup_insert_ne in L by done. specialize (G k hl L). rewrite (Ne k N).
    by replace (count (f k) l - (if f k b then 1 else 0) + (if f k b then 1 else 0))
      with (count (f k) l) by lia.
Qed.

Lemma kept_opened (g : list hal_streamer) (k : nat) (hl hl' : hal_streamer) (w w' : W) (R : list Z) :
  g !! k = Some hl -> devices_kept hl hl' w w' -> opened w ≡ₚ omap h_pcm g ++ R ->
  opened w' ≡ₚ omap h_pcm (<[k := hl']> g) ++ R.
Proof using.
  intros E D O. unfold devices_kept in D. apply (Permutation_app_inv_l (option_list hl.(h_pcm))).
  rewrite D, O, !app_assoc. by rewrite (omap_insert_perm h_pcm g k hl hl' E).
Qed.

Lemma split_opened (g : list hal_streamer) (k : nat) (hl hl' : hal_streamer) :
  g !! k = Some hl ->
  omap h_pcm g ≡ₚ option_list hl.(h_pcm) ++ omap h_pcm (<[k := set_pcm None hl]> g)
  /\ option_list hl'.(h_pcm) ++ omap h_pcm (<[k := set_pcm None hl]> g) ≡ₚ omap h_pcm (<[k := hl']> g).
Proof using.
  intros E. split; [by rewrite (omap_insert_perm h_pcm g k hl (set_pcm None hl) E)|].
  pose proof (lookup_lt_Some _ _ _ E).
  rewrite <-(omap_insert_perm h_pcm (<[k := set_pcm None hl]> g) k (set_pcm None hl) hl')
    by (by rewrite list_lookup_insert_eq).
  by rewrite list_insert_insert_eq.
Qed.

(** *** Opening a playback stream *)

Lemma open_out_run (s : hal M W) (o : alsa_stream_out) (card port : Z) (cfg : pcm_config) (n : nat -> Z) :
  (forall k hl, s.(out_streams) !! k = Some hl -> handle_ok hl.(h_plbk) hl (n k) /\ 0 <= n k < INT32_MAX) ->
  (exists k hl, s.(out_streams) !! k = Some hl /\ hl.(h_allocated) = true) ->
  0 <= o.(o_bus_num) < 16 -> hal_inv s.(buses) -> reliable s.(world) ->
  exists k hl hl' ok o' b' w',
    hal_streamer_open_out cb_calloc cb_malloc true o card port cfg s
      = Done (((if ok : bool then Some k else None), o'),
              set_world w' (set_outs (<[k := hl']> s.(out_streams)) (set_buses b' s)))
    /\ s.(out_streams) !! k = Some hl /\ handle_ok hl'.(h_plbk) hl' (if ok then n k + 1 else n k)
    /\ hl'.(h_allocated) = hl.(h_allocated) /\ devices_kept hl hl' s.(world) w'
    /\ same_out o o' /\ hal_inv b' /\ reliable w'
    /\ (ok = true
        \/ (pcm_open_prepare_helper card port PCM_OUT PROXY_OPEN_RETRY_COUNT cfg s.(world)).1 = None)
    /\ (n k = 0 -> (pcm_open_prepare_helper card port PCM_OUT PROXY_OPEN_RETRY_COUNT cfg s.(world)).1 = None -> ok = false).
Proof using All.
  intros G X B I R. unfold hal_streamer_open_out, sbind, sget, slift. cbn [obind].
  destruct (probe_out_done s.(out_streams) o.(o_bus_num)) as (k & hl & -> & E); [|done|].
  { intros k hl E. destruct (G k hl E) as [[] _]. done. }
  cbn [obind]. destruct (G k hl E) as [HO N].
  rewrite (array_get_lookup _ _ (set_dir PLAYBACK_STREAM hl)); [|lia|].
  2:{ by rewrite Nat2Z.id, list_lookup_alter_eq, E. }
  cbn [obind]. pose proof HO as [O1 O2 O3 O4 O5 O6 O7 O8 O9].
  destruct (array_set_16 (h_bus_buf_sz (set_dir PLAYBACK_STREAM hl)) o.(o_bus_num)
    (s32 (CALCULATE_BYTES o.(o_config).(channels) o.(o_config).(cfg_format) cfg.(rate) 20)) O5 B)
    as [-> L]. cbn [obind smodify].
  destruct (wp_elim _ _ _ (open_bus_safe o.(o_bus_num) s.(buses) I B)) as ([] & b' & Eb & I').
  unfold on_buses. cbn [buses set_outs]. rewrite Eb. cbn [obind out_streams set_buses set_outs].
  rewrite insert_alter.
  set (hl1 := set_buf_sz _ _).
  assert (handle_ok hl1.(h_plbk) hl1 (n k)) as HO1 by (by split).
  rewrite (array_get_lookup _ _ hl1); [|lia|].
  2:{ rewrite Nat2Z.id, list_lookup_insert_eq; [done|]. by apply lookup_lt_Some in E. }
  cbn [obind world set_outs set_buses].
  destruct (open_out_handle_ok cb_calloc cb_malloc card port cfg hl1 o (n k) s.(world) HO1 B N R)
    as (ok & hl' & o' & w' & -> & HO' & Al & D & SO & R' & Op).
  cbn [obind sret smodify out_streams set_outs set_buses set_world].
  rewrite list_insert_insert_eq.
  exists k, hl, hl', ok, o', b', w'. split; [done|]. done.
Qed.

(** A handle of the table stays allocated. *)
Lemma alloc_insert (g : list hal_streamer) (k : nat) (hl hl' : hal_streamer) :
  g !! k = Some hl -> hl'.(h_allocated) = hl.(h_allocated) ->
  (exists k hl, g !! k = Some hl /\ hl.(h_allocated) = true) ->
  exists j x, <[k := hl']> g !! j = Some x /\ x.(h_allocated) = true.
Proof using.
  intros E A (k1 & h1 & E1 & A1). destruct (decide (k = k1)) as [<- | N].
  - exists k, hl'. rewrite list_lookup_insert_eq by (by apply lookup_lt_Some in E). split; [done|congruence].
  - exists k1, h1. by rewrite list_lookup_insert_ne.
Qed.

Lemma step_start_out (s : session M W) (i : nat) (card port : Z) (cfg : pcm_config) :
  sess_ok s -> exists s', exec_stream cb_calloc cb_malloc (StartOut i card port cfg) s = Done s' /\ sess_ok s'.
Proof using All.
  intros I. pose proof I as [S1 S2 S3 S4 S5 S6 S7 S8 S9 S10 S11]. cbn [exec_stream].
  destruct (ss_outs s !! i) as [o|] eqn:E; [|eauto]. destruct o.(o_standby) eqn:Sb; [|eauto].
  assert (forall k, uses_out k o = false) as U by (intros; unfold uses_out; by rewrite Sb).
  destruct (open_out_run s.(ss_hal) o card port cfg (fun k => count (uses_out k) s.(ss_outs)))
    as (k & hl & hl' & ok & o' & b' & w' & -> & Ek & HO & Al & D & (SO1 & SO2 & SO3) & I' & R' & _);
    try done; [|by apply (S7 i)|].
  { intros k hl Ek. split; [by apply S1|]. pose proof (count_bound (uses_out k) s.(ss_outs)).
    pose proof (count_room _ _ _ _ E (U k)). lia. }
  cbn [obind]. eexists. split; [reflexivity|].
  split; cbn [ss_hal ss_outs ss_ins out_streams in_streams buses world set_world set_outs set_buses]; try done.
  - apply (handles_insert uses_out h_plbk _ _ _ _ o); [done|done| |].
    + intros j N. rewrite U. destruct ok; [symmetry; by apply uses_other|done].
    + rewrite U, Z.sub_0_r. unfold uses_out. destruct ok; cbn; [by rewrite uses_this|by rewrite Z.add_0_r].
  - by apply (alloc_insert _ k hl).
  - intros j x Ex. apply (lookup_insert_cases (fun x => x.(o_standby) = false -> _) _ _ _ _ _ Ex).
    + destruct ok; [|done]. intros _. exists k. split; [done|]. apply insert_is_Some. eauto.
    + intros Ex' Sx. destruct (S5 j x Ex' Sx) as (k2 & E2 & X2). exists k2. split; [done|].
      by apply insert_is_Some.
  - intros j x Ex. apply (lookup_insert_cases (fun x => 0 <= x.(o_bus_num) < 16) _ _ _ _ _ Ex); [|by apply S7].
    cbn. rewrite SO1. by apply (S7 i).
  - by apply (kept_opened _ _ hl hl' s.(ss_hal).(world)).
  - unfold zlen in *. by rewrite length_insert.
Qed.

(** *** Closing a playback stream *)

Lemma close_out_run (s : hal M W) (o : alsa_stream_out) (slot0 n : Z) (k : nat) (hl : hal_streamer)
    (R : list Z) :
  s.(out_streams) !! k = Some hl -> o.(o_pcm_hdl) = Some k ->
  handle_ok hl.(h_plbk) hl n -> 0 < n <= INT32_MAX -> 0 <= o.(o_bus_num) < 16 -> 0 <= slot0 <= 7 ->
  hal_inv s.(buses) -> reliable s.(world) -> opened s.(world) ≡ₚ omap h_pcm s.(out_streams) ++ R ->
  exists hl' o' b' w',
    hal_streamer_close_out true o slot0 s
      = Done ((0, o'), set_world w' (set_outs (<[k := hl']> s.(out_streams)) (set_buses b' s)))
    /\ handle_ok hl'.(h_plbk) hl' (n - 1) /\ hl'.(h_allocated) = hl.(h_allocated)
    /\ opened w' ≡ₚ omap h_pcm (<[k := hl']> s.(out_streams)) ++ R
    /\ same_out o o' /\ hal_inv b' /\ reliable w'.
Proof using - (cb_calloc cb_malloc).
  intros E Ek HO N B S0 I Rl O. unfold hal_streamer_close_out, sbind, sget, slift, on_buses.
  destruct (wp_elim _ _ _ (close_bus_safe o.(o_bus_num) slot0 s.(buses) I B S0)) as ([] & b' & -> & I').
  cbn [obind]. rewrite Ek. cbn [obind out_streams set_buses].
  rewrite (array_get_lookup _ _ hl); [|lia|by rewrite Nat2Z.id].
  cbn [obind world set_buses].
  destruct (close_out_handle_ok hl o n s.(world) (omap h_pcm (<[k := set_pcm None hl]> s.(out_streams)) ++ R))
    as (hl' & o' & w' & -> & HO' & Al & C & SO & R'); try done.
  { rewrite app_assoc. by rewrite <-(proj1 (split_opened _ _ _ hl E)). }
  rewrite app_assoc, (proj2 (split_opened _ _ _ hl' E)) in C.
  cbn [obind sret smodify out_streams set_outs set_buses set_world].
  exists hl', o', b', w'. done.
Qed.

Lemma step_standby_out (s : session M W) (i : nat) (slot0 : Z) :
  sess_ok s -> 0 <= slot0 <= 7 ->
  exists s', exec_stream cb_calloc cb_malloc (StandbyOut i slot0) s = Done s' /\ sess_ok s'.
Proof using All.
  intros I S0. pose proof I as [S1 S2 S3 S4 S5 S6 S7 S8 S9 S10 S11]. cbn [exec_stream].
  destruct (ss_outs s !! i) as [o|] eqn:E; [|eauto]. destruct o.(o_standby) eqn:Sb; [eauto|].
  destruct (S5 i o E Sb) as (k & Ek & hl & L).
  assert (uses_out k o = true) as U by (unfold uses_out; rewrite Sb, Ek; apply uses_this).
  destruct (close_out_run s.(ss_hal) o slot0 (count (uses_out k) s.(ss_outs)) k hl
              (omap h_pcm s.(ss_hal).(in_streams)))
    as (hl' & o' & b' & w' & -> & HO & Al & C & (SO1 & SO2 & SO3) & I' & R'); try done;
    [by apply S1| |by apply (S7 i)|].
  { pose proof (count_pos _ _ _ _ E U). pose proof (count_bound (uses_out k) s.(ss_outs)). lia. }
  cbn [obind]. eexists. split; [reflexivity|].
  split; cbn [ss_hal ss_outs ss_ins out_streams in_streams buses world set_world set_outs set_buses]; try done.
  - apply (handles_insert uses_out h_plbk _ _ _ _ o); [done|done| |].
    + intros j N. unfold uses_out. rewrite Sb, Ek. by apply uses_other.
    + rewrite U. by rewrite Z.add_0_r.
  - by apply (alloc_insert _ k hl).
  - intros j x Ex. apply (lookup_insert_cases (fun x => x.(o_standby) = false -> _) _ _ _ _ _ Ex); [done|].
    intros Ex' Sx. destruct (S5 j x Ex' Sx) as (k2 & E2 & X2). exists k2. split; [done|].
    by apply insert_is_Some.
  - intros j x Ex. apply (lookup_insert_cases (fun x => 0 <= x.(o_bus_num) < 16) _ _ _ _ _ Ex); [|by apply S7].
    cbn. rewrite SO1. by apply (S7 i).
  - unfold zlen in *. by rewrite length_insert.
Qed.

(** *** Capture streams *)

Lemma open_in_run (s : hal M W) (x : alsa_stream_in) (card port : Z) (cfg : pcm_config) (n : Z)
    (hl : hal_streamer) (l : list hal_streamer) :
  s.(in_streams) = hl :: l -> hl.(h_allocated) = false -> handle_ok hl.(h_cap) hl n ->
  0 <= n < INT32_MAX -> reliable s.(world) ->
  exists hl' w',
    hal_streamer_open_in cb_calloc cb_malloc true x card port cfg s
      = Done (Some 0%nat, set_world w' (set_ins (<[0%nat := hl']> s.(in_streams)) s))
    /\ handle_ok hl'.(h_cap) hl' (n + 1) /\ hl'.(h_allocated) = hl.(h_allocated)
    /\ devices_kept hl hl' s.(world) w' /\ reliable w'.
Proof using All.
  intros El A HO N R. unfold hal_streamer_open_in, sbind, sget, slift. cbn [obind].
  unfold probe_in. rewrite El. cbn [probe_in_from]. rewrite A. cbn [alter list_alter].
  rewrite (array_get_lookup (_ :: l) _ (set_dir CAPTURE_STREAM hl)) by done. cbn [obind].
  destruct (open_in_handle_ok cb_calloc cb_malloc card port cfg (set_dir CAPTURE_STREAM hl) x n s.(world))
    as (hl' & w' & -> & HO' & Al & D & R'); [by destruct HO|lia|done|].
  cbn [obind sret smodify]. exists hl', w'. by rewrite <-A.
Qed.

Lemma close_in_run (s : hal M W) (x : alsa_stream_in) (n : Z) (k : nat) (hl : hal_streamer) (Rl : list Z) :
  s.(in_streams) !! k = Some hl -> x.(i_pcm_hdl) = Some k -> handle_ok hl.(h_cap) hl n ->
  0 < n <= INT32_MAX -> reliable s.(world) -> opened s.(world) ≡ₚ omap h_pcm s.(in_streams) ++ Rl ->
  exists hl' x' w',
    hal_streamer_close_in true x s
      = Done ((0, x'), set_world w' (set_ins (<[k := hl']> s.(in_streams)) s))
    /\ handle_ok hl'.(h_cap) hl' (n - 1) /\ hl'.(h_allocated) = hl.(h_allocated)
    /\ opened w' ≡ₚ omap h_pcm (<[k := hl']> s.(in_streams)) ++ Rl /\ reliable w'.
Proof using - (cb_calloc cb_malloc).
  intros L Ek HO N R O. unfold hal_streamer_close_in, sbind, sget, slift. rewrite Ek. cbn [obind].
  rewrite (array_get_lookup _ _ hl); [|lia|by rewrite Nat2Z.id]. cbn [obind].
  destruct (close_in_handle_ok hl x n s.(world) (omap h_pcm (<[k := set_pcm None hl]> s.(in_streams)) ++ Rl))
    as (hl' & x' & w' & -> & HO' & Al & C & X1 & X2 & R'); [done|lia|done| |].
  { rewrite app_assoc. by rewrite <-(proj1 (split_opened _ _ _ hl L)). }
  rewrite app_assoc, (proj2 (split_opened _ _ _ hl' L)) in C.
  cbn [obind sret smodify]. exists hl', x', w'. done.
Qed.

Lemma step_start_in (s : session M W) (i : nat) (card port : Z) (cfg : pcm_config) :
  sess_ok s -> exists s', exec_stream cb_calloc cb_malloc (StartIn i card port cfg) s = Done s' /\ sess_ok s'.
Proof using All.
  intros I. pose proof I as [S1 S2 S3 S4 S5 S6 S7 S8 S9 S10 S11]. cbn [exec_stream].
  destruct (ss_ins s !! i) as [x|] eqn:E; [|eauto]. destruct x.(i_standby) eqn:Sb; [|eauto].
  assert (forall k, uses_in k x = false) as U by (intros; unfold uses_in; by rewrite Sb).
  destruct S4 as (hl & l & El & A).
  assert (in_streams (ss_hal s) !! 0%nat = Some hl) as L0 by (by rewrite El).
  pose proof (S2 0%nat hl L0) as HO. pose proof (count_bound (uses_in 0) s.(ss_ins)).
  pose proof (count_room _ _ _ _ E (U 0%nat)).
  destruct (open_in_run s.(ss_hal) x card port cfg (count (uses_in 0) s.(ss_ins)) hl l)
    as (hl' & w' & -> & HO' & Al & D & R'); [done|done|done|lia|done|].
  cbn [obind]. eexists. split; [reflexivity|].
  split; cbn [ss_hal ss_outs ss_ins out_streams in_streams buses world set_world set_ins]; try done.
  - apply (handles_insert uses_in h_cap _ _ _ _ x); [done|done| |].
    + intros j N. rewrite U. symmetry. by apply uses_other.
    + rewrite U, Z.sub_0_r. unfold uses_in. cbn. by rewrite uses_this.
  - exists hl', l. split; [by rewrite El|]. by rewrite Al.
  - intros j y Ey. apply (lookup_insert_cases (fun x => x.(i_standby) = false -> _) _ _ _ _ _ Ey).
    + intros _. exists 0%nat. split; [done|]. apply insert_is_Some. eauto.
    + intros Ey' Sy. destruct (S6 j y Ey' Sy) as (k2 & E2 & X2). exists k2. split; [done|].
      by apply insert_is_Some.
  - rewrite Permutation_app_comm. apply (kept_opened _ _ hl hl' s.(ss_hal).(world)); [done|done|].
    by rewrite Permutation_app_comm.
  - unfold zlen in *. by rewrite length_insert.
Qed.

Lemma step_standby_in (s : session M W) (i : nat) :
  sess_ok s -> exists s', exec_stream cb_calloc cb_malloc (StandbyIn i) s = Done s' /\ sess_ok s'.
Proof using All.
  intros I. pose proof I as [S1 S2 S3 S4 S5 S6 S7 S8 S9 S10 S11]. cbn [exec_stream].
  destruct (ss_ins s !! i) as [x|] eqn:E; [|eauto]. destruct x.(i_standby) eqn:Sb; [eauto|].
  destruct (S6 i x E Sb) as (k & Ek & hl & L).
  assert (uses_in k x = true) as U by (unfold uses_in; rewrite Sb, Ek; apply uses_this).
  pose proof (count_pos _ _ _ _ E U). pose proof (count_bound (uses_in k) s.(ss_ins)).
  destruct (close_in_run s.(ss_hal) x (count (uses_in k) s.(ss_ins)) k hl (omap h_pcm s.(ss_hal).(out_streams)))
    as (hl' & x' & w' & -> & HO' & Al & C & R'); [done|done|by apply S2|lia|done| |].
  { by rewrite Permutation_app_comm. }
  cbn [obind]. eexists. split; [reflexivity|].
  split; cbn [ss_hal ss_outs ss_ins out_streams in_streams buses world set_world set_ins]; try done.
  - apply (handles_insert uses_in h_cap _ _ _ _ x); [done|done| |].
    + intros j N. unfold uses_in. rewrite Sb, Ek. by apply uses_other.
    + rewrite U. by rewrite Z.add_0_r.
  - destruct S4 as (h0 & l & El & A). rewrite El in *. destruct k as [|k].
    + exists hl', l. split; [done|]. cbn in L. congruence.
    + exists h0, (<[k := hl']> l). done.
  - intros j y Ey. apply (lookup_insert_cases (fun x => x.(i_standby) = false -> _) _ _ _ _ _ Ey); [done|].
    intros Ey' Sy. destruct (S6 j y Ey' Sy) as (k2 & E2 & X3). exists k2. split; [done|].
    by apply insert_is_Some.
  - by rewrite Permutation_app_comm.
  - unfold zlen in *. by rewrite length_insert.
Qed.

Lemma exec_stream_ok (c : stream_cmd) (s : session M W) :
  sess_ok s -> valid_stream_cmd c ->
  exists s', exec_stream cb_calloc cb_malloc c s = Done s' /\ sess_ok s'.
Proof using All.
  destruct c; intros I V;
    [by apply step_start_out|by apply step_standby_out|by apply step_start_in|by apply step_standby_in].
Qed.

Lemma exec_streams_ok (l : list stream_cmd) (s : session M W) :
  sess_ok s -> Forall valid_stream_cmd l ->
  exists s', exec_streams cb_calloc cb_malloc l s = Done s' /\ sess_ok s'.
Proof using All.
  revert s. induction l as [|c l IH]; intros s I V; [eauto|]. apply Forall_cons_1 in V as [V1 V2].
  cbn [exec_streams]. destruct (exec_stream_ok c s I V1) as (s' & -> & I'). cbn [obind]. by apply IH.
Qed.
End Sessions.

(** ** Binding refines a list of cards *)

(** A C string that fits a [char[128]] with its NUL. *)
Definition c_name (s : string) : Prop :=
  (String.length s < 128)%nat /\ ~ In "000"%char (list_ascii_of_string s).

Definition name128 (s : string) : list ascii :=
  list_ascii_of_string s ++ replicate (128 - String.length s) "000"%char.

(** The cards that have a handle, the latest first, with their buses. *)
Definition handle_of (c : string * list Z) : hal_streamer :=
  set_bind (c.2 ++ replicate (16 - length c.2) 0) (zlen c.2) (set_named (name128 c.1) true zero_handle).

Definition table_of (cards : list (string * list Z)) : list hal_streamer :=
  replicate (8 - length cards) zero_handle ++ map handle_of cards.

Fixpoint add_bus (name : string) (b : Z) (cards : list (string * list Z))
  : option (outcome (list (string * list Z))) :=
  match cards with
  | [] => None
  | c :: r =>
      if (c.1 =? name)%string
      then Some (if zlen c.2 <? 16 then Done ((c.1, c.2 ++ [b]) :: r) else Undef)
      else option_map (fun m => let! r := m in Done (c :: r)) (add_bus name b r)
  end.

Definition spec_bind (name : string) (b : Z) (cards : list (string * list Z))
  : outcome (Z * list (string * list Z)) :=
  match add_bus name b cards with
  | Some m => let! cards := m in Done (0, cards)
  | None => if (length cards <? 8)%nat then Done (0, (name, [b]) :: cards) else Done (- ENOMEM, cards)
  end.

(** The latest card that has the bus, or else the earliest card. *)
Fixpoint spec_probe (i : nat) (b : Z) (cards : list (string * list Z)) (hdl : option nat) : option nat :=
  match cards with
  | [] => hdl
  | c :: r => if bool_decide (b ∈ c.2) then Some i else spec_probe (S i) b r (Some i)
  end.

(** All bindings of a platform description, as [platform_set_bind_bus] asks
    for them. *)
Fixpoint bind_all (l : list (string * Z)) (g : list hal_streamer)
  : outcome (list Z * list hal_streamer) :=
  match l with
  | [] => Done ([], g)
  | (name, b) :: l =>
      let! (r, g) := hal_streamer_bind_bus name (Z.of_nat (String.length name)) b g in
      let! (rs, g) := bind_all l g in
      Done (r :: rs, g)
  end.

Fixpoint spec_bind_all (l : list (string * Z)) (cards : list (string * list Z))
  : outcome (list Z * list (string * list Z)) :=
  match l with
  | [] => Done ([], cards)
  | (name, b) :: l =>
      let! (r, cards) := spec_bind name b cards in
      let! (rs, cards) := spec_bind_all l cards in
      Done (r :: rs, cards)
  end.

Lemma length_ascii (s : string) : length (list_ascii_of_string s) = String.length s.
Proof. induction s; cbn; congruence. Qed.

Lemma strcmp_pad (nm s : string) (n : nat) :
  (0 < n)%nat -> ~ In "000"%char (list_ascii_of_string nm) -> ~ In "000"%char (list_ascii_of_string s) ->
  strcmp_eq (list_ascii_of_string nm ++ replicate n "000"%char) s = Done (nm =? s)%string.
Proof.
  intros N. revert s. induction nm as [|c nm IH]; intros s N1 N2; cbn in N1.
  - destruct n as [|n]; [lia|]. destruct s as [|d s]; [done|]. cbn in *.
    destruct d as [[] [] [] [] [] [] [] []]; try done. tauto.
  - destruct s as [|d s]; cbn in *.
    + destruct c as [[] [] [] [] [] [] [] []]; try done. tauto.
    + destruct (Ascii.eqb_spec c d) as [-> | Ne]; [|done]. apply IH; tauto.
Qed.

Lemma strcmp_name (nm s : string) : c_name nm -> c_name s -> strcmp_eq (name128 nm) s = Done (nm =? s)%string.
Proof. intros [L N1] [_ N2]. apply strcmp_pad; [lia|done|done]. Qed.

Lemma strncpy_name (s : string) :
  c_name s -> strncpy (replicate 128 "000"%char) s (Z.of_nat (String.length s)) = Done (name128 s).
Proof.
  intros [L _]. unfold strncpy. rewrite (proj2 (Z.leb_le 0 _)) by lia. rewrite Nat2Z.id, length_ascii.
  rewrite <-(length_ascii s) at 1. rewrite firstn_all, Nat.sub_diag.
  change (replicate 0 "000"%char) with (@nil ascii). rewrite app_nil_r.
  rewrite mem_write_done by (unfold zlen; rewrite ?length_replicate, ?length_ascii; lia).
  unfold splice, name128. cbn [Z.to_nat take]. rewrite firstn_O. cbn [app]. do 2 f_equal.
  rewrite length_ascii. apply drop_replicate.
Qed.

Lemma find_named_free (m : nat) (l : list hal_streamer) (i : nat) (s : string) :
  find_named (replicate m zero_handle ++ l) i s = find_named l (i + m) s.
Proof.
  revert i. induction m as [|m IH]; intros i; cbn; [f_equal; lia|].
  rewrite IH. f_equal. lia.
Qed.

Lemma find_named_cards (cards : list (string * list Z)) (i : nat) (s : string) :
  Forall (fun c => c_name c.1) cards -> c_name s ->
  match add_bus s 0 cards with
  | None => find_named (map handle_of cards) i s = Done None
  | Some _ => exists k c, find_named (map handle_of cards) i s = Done (Some (i + k)%nat)
      /\ cards !! k = Some c
      /\ forall b, add_bus s b cards
           = Some (if zlen c.2 <? 16 then Done (<[k := (c.1, c.2 ++ [b])]> cards) else Undef)
  end.
Proof.
  intros F S. revert i. induction cards as [|c r IH]; intros i; [done|].
  apply Forall_cons_1 in F as [F1 F2]. cbn [add_bus map find_named handle_of].
  change (h_allocated (handle_of c)) with true. change (h_name (handle_of c)) with (name128 c.1).
  cbv iota. rewrite strcmp_name by done. cbn [obind].
  destruct (c.1 =? s)%string eqn:E.
  - exists 0%nat, c. split; [do 2 f_equal; lia|]. done.
  - specialize (IH F2 (Datatypes.S i)). destruct (add_bus s 0 r); cbn [option_map].
    + destruct IH as (k & x & -> & Ek & A). exists (Datatypes.S k), x. split; [do 2 f_equal; lia|].
      split; [done|]. intros b. rewrite A. cbn. f_equal. by destruct (_ <? _).
    + done.
Qed.

Lemma find_free_cards (cards : list (string * list Z)) (i : nat) (hdl : option nat) :
  find_free (map handle_of cards) i hdl = hdl.
Proof. revert i. induction cards as [|c r IH]; intros i; [done|]. apply IH. Qed.

Lemma find_free_table (m : nat) (cards : list (string * list Z)) (i : nat) (hdl : option nat) :
  find_free (replicate m zero_handle ++ map handle_of cards) i hdl
  = match m with O => hdl | S m => Some (i + m)%nat end.
Proof.
  revert i hdl. induction m as [|m IH]; intros i hdl; cbn; [apply find_free_cards|].
  rewrite IH. destruct m; f_equal; lia.
Qed.

(** The cards fit their tables. *)
Definition cards_ok (cards : list (string * list Z)) : Prop :=
  (length cards <= 8)%nat /\ Forall (fun c => c_name c.1 /\ (length c.2 <= 16)%nat) cards.

Lemma handle_append (nm : string) (bs : list Z) (b : Z) :
  (length bs <= 16)%nat ->
  append_bus (handle_of (nm, bs)) b = if zlen bs <? 16 then Done (handle_of (nm, bs ++ [b])) else Undef.
Proof.
  intros L. unfold append_bus, handle_of. cbn [h_bind_bus h_bind_bus_len set_bind fst snd].
  unfold array_set. rewrite (proj2 (Z.leb_le 0 _)) by apply zlen_nonneg. cbn [andb].
  replace (zlen (bs ++ replicate (16 - length bs) 0)) with 16
    by (unfold zlen; rewrite length_app, length_replicate; lia).
  destruct (zlen bs <? 16) eqn:E; [|done]. zbool. cbn [obind]. unfold zlen in *.
  rewrite i32_done by (unfold is_i32, INT32_MIN, INT32_MAX; lia). cbn [obind].
  unfold handle_of, set_bind. cbn. do 2 f_equal.
  - rewrite Nat2Z.id, length_app. cbn [length].
    rewrite insert_app_r_alt by lia. rewrite Nat.sub_diag, <-app_assoc. f_equal.
    replace (16 - length bs)%nat with (S (16 - (length bs + 1))) by lia. done.
  - rewrite length_app. cbn. lia.
Qed.

Lemma table_lookup (cards : list (string * list Z)) (k : nat) (c : string * list Z) :
  cards !! k = Some c -> table_of cards !! (8 - length cards + k)%nat = Some (handle_of c).
Proof.
  intros E. unfold table_of. rewrite lookup_app_r by (rewrite length_replicate; lia).
  rewrite length_replicate. replace (8 - length cards + k - (8 - length cards))%nat with k by lia.
  rewrite list_lookup_fmap, E. done.
Qed.

Lemma table_insert (cards : list (string * list Z)) (k : nat) (c : string * list Z) :
  <[(8 - length cards + k)%nat := handle_of c]> (table_of cards) = table_of (<[k := c]> cards).
Proof.
  unfold table_of. rewrite insert_app_r_alt by (rewrite length_replicate; lia).
  rewrite length_replicate, length_insert, list_fmap_insert. do 2 f_equal; lia.
Qed.

Lemma table_length (cards : list (string * list Z)) :
  (length cards <= 8)%nat -> length (table_of cards) = 8%nat.
Proof. intros L. unfold table_of. rewrite length_app, length_replicate, length_map. lia. Qed.

(** One binding. *)
Lemma bind_bus_refines (cards : list (string * list Z)) (s : string) (b : Z) :
  cards_ok cards -> c_name s ->
  hal_streamer_bind_bus s (Z.of_nat (String.length s)) b (table_of cards)
    = (let! (r, cards') := spec_bind s b cards in Done (r, table_of cards'))
  /\ forall r cards', spec_bind s b cards = Done (r, cards') -> cards_ok cards'.
Proof.
  intros [L F] S. unfold hal_streamer_bind_bus, spec_bind.
  assert (Forall (fun c => c_name c.1) cards) as F' by (eapply Forall_impl; [|exact F]; by intros ? []).
  pose proof (find_named_cards cards (8 - length cards) s F' S) as N.
  unfold table_of at 1. rewrite find_named_free. cbn [Nat.add].
  destruct (add_bus s 0 cards) as [x|] eqn:A0.
  - destruct N as (k & [nm bs] & -> & Ek & A). rewrite A. cbn [obind fst snd].
    rewrite (array_get_lookup _ _ (handle_of (nm, bs))) by (rewrite ?Nat2Z.id; lia || by apply table_lookup).
    cbn [obind]. destruct (Forall_lookup_1 _ _ _ _ F Ek) as [F1 F2].
    rewrite handle_append by done. destruct (zlen bs <? 16) eqn:E; [|done]. zbool. cbn [obind].
    rewrite table_insert. split; [done|]. intros r cards' [= <- <-].
    split; [by rewrite length_insert|]. apply Forall_insert; [done|]. cbn. split; [done|].
    rewrite length_app. unfold zlen in E. cbn. lia.
  - assert (add_bus s b cards = None) as ->.
    { clear -A0. induction cards as [|c r IH]; [done|]. cbn in *. destruct (_ =? _)%string; [done|].
      destruct (add_bus s 0 r); [done|]. by rewrite IH. }
    rewrite N. cbn [obind]. unfold table_of at 1. rewrite find_free_table.
    destruct (length cards <? 8)%nat eqn:E; [apply Nat.ltb_lt in E|apply Nat.ltb_ge in E].
    + replace (8 - length cards)%nat with (Datatypes.S (7 - length cards)) by lia. cbn [Nat.add].
      assert (table_of cards !! (7 - length cards)%nat = Some zero_handle) as Z0.
      { unfold table_of. rewrite lookup_app_l by (rewrite length_replicate; lia).
        apply lookup_replicate_2. lia. }
      rewrite (array_get_lookup _ _ zero_handle) by (rewrite ?Nat2Z.id; lia || done). cbn [obind].
      change (h_name zero_handle) with (replicate 128 "000"%char).
      rewrite strncpy_name by done. cbn [obind].
      change (set_named (name128 s) true zero_handle) with (handle_of (s, [])).
      rewrite handle_append by (cbn; lia). change (zlen (@nil Z) <? 16) with true.
      cbn [obind app].
      split.
      * f_equal. f_equal. unfold table_of. cbn [length map].
        replace (8 - length cards)%nat with (7 - length cards + 1)%nat by lia.
        rewrite replicate_add, <-app_assoc.
        rewrite insert_app_r_alt by (rewrite length_replicate; lia).
        rewrite length_replicate, Nat.sub_diag. f_equal.
      * intros r cards' [= <- <-]. split; [cbn; lia|]. constructor; [|done]. cbn. split; [done|lia].
    + replace (8 - length cards)%nat with 0%nat by lia. split; [done|].
      intros r cards' [= <- <-]. by split.
Qed.

Lemma bind_all_refines (l : list (string * Z)) (cards : list (string * list Z)) :
  cards_ok cards -> Forall (fun e => c_name e.1) l ->
  bind_all l (table_of cards) = (let! (rs, cards') := spec_bind_all l cards in Done (rs, table_of cards'))
  /\ forall rs cards', spec_bind_all l cards = Done (rs, cards') -> cards_ok cards'.
Proof.
  revert cards. induction l as [|[s b] l IH]; intros cards C N; cbn [bind_all spec_bind_all].
  { split; [done|]. by intros rs cards' [= <- <-]. }
  apply Forall_cons_1 in N as [N1 N2]. cbn in N1.
  destruct (bind_bus_refines cards s b C N1) as [-> K].
  destruct (spec_bind s b cards) as [[r cards1]| | |]; cbn [obind]; try (split; [done|done]).
  destruct (IH cards1 (K _ _ eq_refl) N2) as [-> K']. split.
  - destruct (spec_bind_all l cards1) as [[rs c2]| | |]; done.
  - intros rs cards' E. obinv E. destruct a as [rs' c2]. injection E as _ <-. by apply (K' rs').
Qed.

Lemma bus_bound_spec (pre bs post : list Z) (b : Z) :
  bus_bound (length bs) (zlen pre) (pre ++ bs ++ post) b = Done (bool_decide (b ∈ bs)).
Proof.
  revert pre. induction bs as [|x bs IH]; intros pre; cbn [length bus_bound].
  { by rewrite bool_decide_eq_false_2 by apply not_elem_of_nil. }
  rewrite (array_get_lookup _ _ x); [|apply zlen_nonneg|].
  2:{ unfold zlen. rewrite Nat2Z.id, lookup_app_r, Nat.sub_diag by lia. done. }
  cbn [obind]. destruct (b =? x) eqn:E; zbool.
  { subst. by rewrite bool_decide_eq_true_2 by left. }
  specialize (IH (pre ++ [x])). rewrite <-app_assoc, zlen_app in IH.
  change (zlen [x]) with 1 in IH. cbn [app] in IH. cbn [app]. rewrite IH. f_equal.
  apply bool_decide_ext. rewrite elem_of_cons. tauto.
Qed.

Lemma probe_free (m : nat) (l : list hal_streamer) (i : nat) (b : Z) (hdl : option nat) :
  probe_out_from (replicate m zero_handle ++ l) i b hdl = probe_out_from l (i + m) b hdl.
Proof.
  revert i. induction m as [|m IH]; intros i; cbn; [f_equal; lia|]. rewrite IH. f_equal. lia.
Qed.

Lemma probe_cards (cards : list (string * list Z)) (i : nat) (b : Z) (hdl : option nat) :
  probe_out_from (map handle_of cards) i b hdl = Done (spec_probe i b cards hdl).
Proof.
  revert i hdl. induction cards as [|c r IH]; intros i hdl; [done|].
  cbn [map probe_out_from spec_probe]. change (h_allocated (handle_of c)) with true.
  change (h_bind_bus_len (handle_of c)) with (zlen c.2).
  change (h_bind_bus (handle_of c)) with ([] ++ c.2 ++ replicate (16 - length c.2) 0).
  cbv iota. unfold zlen at 1. rewrite Nat2Z.id.
  change 0 with (zlen (@nil Z)) at 1. rewrite bus_bound_spec. cbn [obind].
  destruct (bool_decide (b ∈ c.2)); [done|]. apply IH.
Qed.

(** C18. Binding the buses of a platform description to its cards, and probing
    for the handle of a bus, implement a list of cards with their buses:
    every binding goes to the card of its name, which gets a handle when it
    is named for the first time; a ninth card is refused with [-ENOMEM]; the
    seventeenth bus of a card is written outside its array (and nothing
    else is undefined).  A bus is found at the latest card that has it; a bus
    that no card has is given the earliest card. *)
Theorem streamer_binding_refines (l : list (string * Z)) :
  Forall (fun e => c_name e.1) l ->
  bind_all l streamers_init
    = (let! (rs, cards) := spec_bind_all l [] in Done (rs, table_of cards))
  /\ (forall rs cards b, spec_bind_all l [] = Done (rs, cards) ->
        probe_out b (table_of cards)
        = Done (let k := spec_probe (8 - length cards) b cards None in
                (k, match k with
                    | Some k => alter (set_dir PLAYBACK_STREAM) k (table_of cards)
                    | None => table_of cards
                    end))).
Proof.
  intros N. destruct (bind_all_refines l []) as [E C]; [split; [cbn; lia|constructor]|done|].
  split; [exact E|]. intros rs cards b _. unfold probe_out, table_of at 1.
  rewrite probe_free, probe_cards. cbn [obind Nat.add]. by destruct (spec_probe _ _ _ _).
Qed.

Lemma streamer_binding_refines_witness :
  exists g, bind_all [("main"%string, 0); ("rear"%string, 1); ("main"%string, 2)] streamers_init
            = Done ([0; 0; 0], g)
    /\ probe_out 2 g = Done (Some 7%nat, alter (set_dir PLAYBACK_STREAM) 7%nat g)
    /\ probe_out 1 g = Done (Some 6%nat, alter (set_dir PLAYBACK_STREAM) 6%nat g)
    /\ probe_out 9 g = Done (Some 7%nat, alter (set_dir PLAYBACK_STREAM) 7%nat g).
Proof.
  destruct (streamer_binding_refines [("main"%string, 0); ("rear"%string, 1); ("main"%string, 2)])
    as [E P].
  - repeat constructor; cbn; intuition discriminate.
  - rewrite E. eexists. split; [vm_compute; reflexivity|].
    split; [|split]; rewrite (P _ _ _ eq_refl); vm_compute; reflexivity.
Defined.

(** ** Devices and threads of a session *)

Section SessionTheorem.
Context {M : Type} `{MixerLaws M} `{Alloc} {W : Type} `{PcmSystemLaws W} `{!ReliableCapture W}.

(** The HAL after the platform description was read, with all streams in
    standby. *)
Definition session_start (cards : list (string * list Z)) (b : bus_hal M) (w : W)
    (outs : list alsa_stream_out) (ins : list alsa_stream_in) : session M W :=
  {| ss_hal := {| out_streams := table_of cards; in_streams := streamers_init; buses := b; world := w |};
     ss_outs := outs; ss_ins := ins |}.

Lemma zero_handle_ok : handle_ok idle zero_handle 0.
Proof. split; cbn; first [done | lia | split; [by intros []|lia]]. Qed.

Lemma handle_of_ok (c : string * list Z) : (length c.2 <= 16)%nat -> handle_ok idle (handle_of c) 0.
Proof.
  intros L. split; cbn; unfold zlen; rewrite ?length_app, ?length_replicate;
    first [done | lia | split; [by intros []|lia]].
Qed.

Lemma session_start_ok (cards : list (string * list Z)) (b : bus_hal M) (w : W)
    (outs : list alsa_stream_out) (ins : list alsa_stream_in) :
  cards_ok cards -> cards <> [] -> hal_inv b -> reliable w -> opened w = [] ->
  Forall (fun o => o.(o_standby) = true /\ 0 <= o.(o_bus_num) < 16) outs ->
  Forall (fun i => i.(i_standby) = true) ins ->
  zlen outs <= INT32_MAX -> zlen ins <= INT32_MAX ->
  sess_ok (session_start cards b w outs ins).
Proof using All.
  intros [L F] NE B R O Fo Fi Lo Li.
  assert (forall k, count (uses_out k) outs = 0) as Co.
  { intros k. apply count_none. intros i o E. unfold uses_out.
    by rewrite (proj1 (Forall_lookup_1 _ _ _ _ Fo E)). }
  assert (forall k, count (uses_in k) ins = 0) as Ci.
  { intros k. apply count_none. intros i x E. unfold uses_in. by rewrite (Forall_lookup_1 _ _ _ _ Fi E). }
  split; cbn [ss_hal ss_outs ss_ins out_streams in_streams buses world session_start]; try done.
  - intros k hl E. rewrite Co. unfold table_of in E. apply lookup_app_Some in E as [E | [_ E]].
    + apply lookup_replicate in E as [-> _]. apply zero_handle_ok.
    + rewrite list_lookup_fmap in E. apply fmap_Some in E as (c & E & ->).
      apply handle_of_ok. apply (Forall_lookup_1 _ _ _ _ F E).
  - intros k hl E. rewrite Ci. apply lookup_replicate in E as [-> _]. apply zero_handle_ok.
  - destruct cards as [|c r]; [done|]. eexists _, (handle_of c). split; [|done].
    apply (table_lookup (c :: r) 0 c eq_refl).
  - by eexists zero_handle, _.
  - intros i o E. rewrite (proj1 (Forall_lookup_1 _ _ _ _ Fo E)). done.
  - intros i x E. rewrite (Forall_lookup_1 _ _ _ _ Fi E). done.
  - intros i o E. apply (Forall_lookup_1 _ _ _ _ Fo E).
  - rewrite O. unfold table_of. rewrite omap_app.
    assert (forall n, omap h_pcm (replicate n zero_handle) = []) as -> by (induction n; done).
    assert (omap h_pcm (map handle_of cards) = []) as -> by (clear; induction cards; done). done.
Qed.

Lemma no_users (g : list hal_streamer) (t : hal_streamer -> thread) :
  (forall k hl, g !! k = Some hl -> handle_ok (t hl) hl 0) ->
  omap h_pcm g = [] /\ forall hl, hl ∈ g -> (t hl).(th_live) = 0.
Proof using.
  induction g as [|hl g IH]; intros G; [split; [done|by intros ? ?%elem_of_nil]|].
  destruct IH as [I1 I2]; [by intros k; apply (G (S k))|]. pose proof (G 0%nat hl eq_refl) as H0'.
  split.
  - cbn. by rewrite (pcm_none _ _ H0').
  - intros x [-> | X]%elem_of_cons; [|by apply I2]. by destruct H0'.
Qed.

(** C5. From the tables that the platform description leaves, with all streams
    in standby and no device open, and as long as (1) the devices of capture
    streams open, (2) threads can be created and (3) threads leave within the
    timeout of their stop: every sequence of starts and standbys of playback
    and capture streams runs without undefined behaviour.  Playback devices
    may fail to open.  After each of them every handle counts exactly the
    streams that use it, has an open device and one thread exactly while
    there are such streams, and no device is open that does not belong to a
    handle ([sess_ok]); when all streams are in standby again, no device is
    open and no thread is left.  Condition (1) is [reliable], (2) and (3) are
    the arguments [true] of the calls in [exec_stream]; without them devices
    and threads are lost. *)
Theorem streamer_sessions_counted (cb_calloc : bool) (cb_malloc : Z -> option (list Z))
    (cards : list (string * list Z)) (b : bus_hal M) (w : W)
    (outs : list alsa_stream_out) (ins : list alsa_stream_in) (l : list stream_cmd) :
  cards_ok cards -> cards <> [] -> hal_inv b -> reliable w -> opened w = [] ->
  Forall (fun o => o.(o_standby) = true /\ 0 <= o.(o_bus_num) < 16) outs ->
  Forall (fun i => i.(i_standby) = true) ins ->
  zlen outs <= INT32_MAX -> zlen ins <= INT32_MAX -> Forall valid_stream_cmd l ->
  exists s, exec_streams cb_calloc cb_malloc l (session_start cards b w outs ins) = Done s
    /\ sess_ok s
    /\ (Forall (fun o => o.(o_standby) = true) s.(ss_outs) ->
        Forall (fun i => i.(i_standby) = true) s.(ss_ins) ->
        opened s.(ss_hal).(world) = []
        /\ (forall hl, hl ∈ s.(ss_hal).(out_streams) -> hl.(h_plbk).(th_live) = 0)
        /\ (forall hl, hl ∈ s.(ss_hal).(in_streams) -> hl.(h_cap).(th_live) = 0)).
Proof using All.
  intros C NE B R O Fo Fi Lo Li V.
  destruct (exec_streams_ok cb_calloc cb_malloc l (session_start cards b w outs ins)) as (s & E & K);
    [by apply session_start_ok|done|].
  exists s. split; [exact E|]. split; [exact K|]. intros Ao Ai.
  destruct (no_users s.(ss_hal).(out_streams) h_plbk) as [P1 T1].
  { intros k hl L. pose proof (so_out s K k hl L) as HO. rewrite count_none in HO; [done|].
    intros i o Ei. unfold uses_out. by rewrite (Forall_lookup_1 _ _ _ _ Ao Ei). }
  destruct (no_users s.(ss_hal).(in_streams) h_cap) as [P2 T2].
  { intros k hl L. pose proof (so_in s K k hl L) as HO. rewrite count_none in HO; [done|].
    intros i x Ei. unfold uses_in. by rewrite (Forall_lookup_1 _ _ _ _ Ai Ei). }
  split; [|by split]. pose proof (so_dev s K) as D. rewrite P1, P2 in D. by apply Permutation_nil_r in D.
Qed.
End SessionTheorem.

(** The sound system of [PcmDevice], when no opening fails. *)
Lemma sc_opens (n : nat) (card port flags : Z) (cfg : pcm_config) (c : sound_card) :
  Forall (fun a => a = true) c.(sc_answers) ->
  exists h c', pcm_open_retry n card port flags cfg c = (Some h, c')
               /\ Forall (fun a => a = true) c'.(sc_answers).
Proof.
  intros F. destruct n; cbn; unfold sc_pcm_open; destruct F as [|a l -> F]; by eexists _, _.
Qed.

#[export] Instance sound_card_reliable : ReliableCapture sound_card.
Proof.
  refine {| reliable c := Forall (fun a => a = true) c.(sc_answers) |}.
  - intros card port cfg w R. unfold pcm_open_prepare_helper.
    destruct (sc_opens (Z.to_nat PROXY_OPEN_RETRY_COUNT) card port PCM_IN cfg w R) as (h & c' & -> & _).
    cbn. eauto.
  - intros card port flags cfg w R. unfold pcm_open_prepare_helper.
    destruct (sc_opens (Z.to_nat PROXY_OPEN_RETRY_COUNT) card port flags cfg w R) as (h & c' & -> & F).
    exact F.
  - done.
Defined.

#[local] Existing Instance alloc_always.

Definition stereo48 : pcm_config :=
  {| channels := 2; rate := 48000; period_size := 960; period_count := 4; cfg_format := 0;
     start_threshold := 0; stop_threshold := 0; silence_threshold := 0; silence_size := 0 |}.
Definition media_stream (bus : Z) : alsa_stream_out :=
  {| o_bus_num := bus; o_bus_address := "bus0_media_out"; o_config := stereo48; o_pcm := false;
     o_pcm_hdl := None; o_standby := true |}.
Definition mic_stream : alsa_stream_in :=
  {| i_devices := AUDIO_DEVICE_IN_BUILTIN_MIC; i_config := stereo48; i_pcm := false;
     i_pcm_hdl := None; i_standby := true |}.

(** Two playback streams on one card and a capture stream: started, and put
    to standby. *)
Lemma streamer_sessions_counted_witness :
  exists s, exec_streams true malloc_zero
      [StartOut 0 0 0 stereo48; StartIn 0 0 0 stereo48; StartOut 1 0 0 stereo48;
       StandbyOut 0 0; StandbyIn 0; StandbyOut 1 0]
      (session_start [("main"%string, [0; 1])]
         {| bus := bus_status_init (replicate 16 0); card_dsp := dsp_static (demo_card true) |}
         (sc_start []) [media_stream 0; media_stream 1] [mic_stream]) = Done s
    /\ sess_ok s.
Proof.
  edestruct (streamer_sessions_counted true malloc_zero [("main"%string, [0; 1])]
    {| bus := bus_status_init (replicate 16 0); card_dsp := dsp_static (demo_card true) |}
    (sc_start []) [media_stream 0; media_stream 1] [mic_stream]
    [StartOut 0 0 0 stereo48; StartIn 0 0 0 stereo48; StartOut 1 0 0 stereo48;
     StandbyOut 0 0; StandbyIn 0; StandbyOut 1 0]) as (s & E & K & _).
  - split; [cbn; lia|]. constructor; [|constructor].
    split; [split; [cbn; lia|cbn; intuition discriminate]|cbn; lia].
  - discriminate.
  - split; [apply init_ok, all_slot_0|apply static_inv, demo_no_byte].
  - constructor.
  - reflexivity.
  - repeat constructor; discriminate || reflexivity.
  - repeat constructor.
  - discriminate.
  - discriminate.
  - repeat constructor; discriminate.
  - exists s. split; [exact E|exact K].
Defined.
