(* ===== verification/StreamerData.v ===== *)
(** * The streamer: the data it moves

    What one round of the playback thread writes to the sound card, that the
    blocking write returns and delivers its bytes, what one round of the
    capture thread appends for its client, and what the read with a time
    limit returns. *)

From Stdlib Require Import ZArith Lia Ascii String.
From stdpp Require Import base list numbers.
From S2P Require Import Prelude CString CircleBuf Mixer Dsp DspProofs BusVolume Mix PcmPlugin.
From S2P Require Import PcmDevice Streamer.

#[local] Open Scope Z_scope.

(** ** Buffers of samples *)

Lemma samples_s16 (l : list Z) : Forall is_s16 (samples l).
Proof.
  assert (forall n l, (length l <= n)%nat -> Forall is_s16 (samples l)) as H.
  { induction n as [|n IH]; intros [|a [|b r]] L; cbn in *; try constructor; try lia.
    - apply s16_range.
    - apply IH. lia. }
  by apply (H (length l)).
Qed.

Lemma samples_even (l : list Z) (n : nat) : length l = (2 * n)%nat -> length (samples l) = n.
Proof.
  revert l. induction n as [|n IH]; intros [|a [|b r]] L; cbn in *; try lia.
  rewrite (IH r); lia.
Qed.

Lemma length_sample_bytes (l : list Z) : length (sample_bytes l) = (2 * length l)%nat.
Proof. induction l as [|a l IH]; [done|]. unfold sample_bytes in *. cbn. lia. Qed.

(** Samples survive being stored as bytes. *)
Lemma sample_bytes_samples (l : list Z) : Forall is_s16 l -> samples (sample_bytes l) = l.
Proof.
  induction l as [|a l IH]; intros F; [done|]. apply Forall_cons_1 in F as [Fa F].
  change (sample_bytes (a :: l)) with ([a mod 256; (a / 256) mod 256] ++ sample_bytes l).
  cbn [app samples]. rewrite IH by done. f_equal.
  rewrite <-(s16_id a Fa) at 3. unfold s16. f_equal.
  enough ((a mod 256 + 256 * (a / 256 mod 256)) mod 65536 = a mod 65536) as -> by done.
  replace 65536 with (256 * 256) at 2 by lia. rewrite Z.rem_mul_r by lia.
  rewrite Z.mod_small; [done|].
  pose proof (Z.mod_pos_bound a 256 ltac:(lia)). pose proof (Z.mod_pos_bound (a / 256) 256 ltac:(lia)). lia.
Qed.

Lemma samples_zeros (n : nat) (l : list Z) (j : Z) :
  0 <= j < Z.of_nat n -> (2 * n <= length l)%nat -> at_ (samples (splice l 0 (replicate (2 * n) 0))) j = 0.
Proof.
  intros J L. unfold at_. rewrite (list_lookup_total_correct _ _ 0); [done|].
  rewrite samples_at.
  - rewrite !list_lookup_total_alt, !lookup_splice by (rewrite length_replicate; lia).
    rewrite length_replicate, !decide_True by lia. by rewrite !lookup_replicate_2 by lia.
  - rewrite length_splice by (rewrite length_replicate; lia). lia.
Qed.

(** ** A round of the playback thread *)

Section Play.
Context {M : Type} `{MixerOps M} `{Alloc} {W : Type} `{PcmSystem W}.

(** The bytes of an output period of a handle. *)
Definition period_bytes (hl : hal_streamer) : Z :=
  s32 (CALCULATE_BYTES hl.(h_pcm_cfg).(channels) PCM_FORMAT_S16_LE 48000 20).

(** A handle whose thread plays to device [p]. *)
Record playing (hl : hal_streamer) (st : audio_bus_status) (p : Z) : Prop := {
  pl_pcm : hl.(h_pcm) = Some p;
  pl_hold : hl.(h_plbk_hold) = false;
  pl_size : exists n, Z.of_nat n <= 8192 /\ period_bytes hl = 2 * Z.of_nat n;
  pl_mix : mix_ok (mix_of hl st) 8192
}.

Lemma mix_of_rbuf (l : list (option circlebuf_s)) (hl : hal_streamer) (st : audio_bus_status) :
  mix_of (set_bus_rbuf l hl) st = set_rbuf l (mix_of hl st).
Proof. done. Qed.

(** The mixed period reaches the device and one period leaves every ring
    buffer that has one. *)
Lemma playback_round_at (hl : hal_streamer) (st : audio_bus_status) (p : Z) (out_tmp in_tmp : list Z) (w : W) :
  playing hl st p -> zlen out_tmp = PCM_DATA_DEFAULT_BYTES -> zlen in_tmp = PCM_DATA_DEFAULT_BYTES ->
  exists l out' bs,
    playback_round hl st out_tmp in_tmp w
      = Done (set_bus_rbuf l hl, out', (pcm_write p bs w).2)
    /\ length l = 16%nat
    /\ (forall b, 0 <= b < 16 -> exists r r', hl.(h_bus_rbuf) !! Z.to_nat b = Some r
          /\ l !! Z.to_nat b = Some r' /\ drained (mix_of hl st) b r r')
    /\ zlen bs = period_bytes hl
    /\ (forall j, 0 <= j < period_bytes hl / 2 ->
          at_ (samples bs) j = s16 (buses_add 16 0 (mix_of hl st) j)).
Proof.
  intros [P Ho (n & Hn & Sz) Mx] Lo Li. unfold playback_round. rewrite Ho, P. fold (period_bytes hl).
  rewrite Sz, (proj2 (Z.leb_le 0 (2 * Z.of_nat n))) by lia. unfold PCM_DATA_DEFAULT_BYTES in *.
  replace (Z.to_nat (2 * Z.of_nat n)) with (2 * n)%nat by lia.
  rewrite mem_write_done by (unfold zlen in *; rewrite ?length_replicate; lia). cbn [obind].
  set (o1 := splice out_tmp (Z.to_nat 0) (replicate (2 * n) 0)).
  assert (length o1 = (2 * Z.to_nat 8192)%nat) as L1.
  { unfold o1, zlen in *. rewrite length_splice by (rewrite length_replicate; lia). lia. }
  pose proof (samples_even _ _ L1) as Ls.
  destruct (map_buses_at 16 0 (mix_of hl st) (samples o1) in_tmp) as (l & out' & t' & E & Ll & D & Lz & A);
    [lia|lia|unfold zlen; by rewrite Ls|done|apply samples_s16|].
  unfold map_channels, do_channel_map. change (Z.to_nat MAX_CLIENT_NUM) with 16%nat.
  rewrite E. cbn [obind bus_rbuf set_rbuf].
  assert (length out' = Z.to_nat 8192) as Lo' by (unfold zlen in Lz; lia).
  rewrite mem_read_done by (unfold zlen; rewrite ?length_sample_bytes; lia). cbn [obind].
  set (bs := zslice (sample_bytes out') 0 (2 * Z.of_nat n)).
  exists l, (sample_bytes out'), bs. split; [by destruct (pcm_write p bs w)|].
  split; [done|]. split; [|split].
  - intros b B. destruct (D b B) as (r & r' & E1 & E2 & K). rewrite decide_True in K by lia. eauto.
  - unfold bs. rewrite zlen_zslice; [done|lia|lia|unfold zlen; rewrite length_sample_bytes; lia].
  - intros j J. rewrite Z.mul_comm, Z.div_mul in J by lia.
    assert (Forall is_s16 out') as F' by exact (all_s16 (samples o1) out' _ Lz A).
    assert (samples bs = take n out') as ->.
    { unfold bs, zslice. rewrite drop_0. replace (Z.to_nat (2 * Z.of_nat n)) with (2 * n)%nat by lia.
      rewrite <-(take_drop n out') at 1. unfold sample_bytes at 1. rewrite map_app, concat_app.
      fold (sample_bytes (take n out')). fold (sample_bytes (drop n out')).
      rewrite take_app_length' by (rewrite length_sample_bytes, length_take; lia).
      apply sample_bytes_samples. by apply Forall_take. }
    replace (at_ (take n out') j) with (at_ out' j).
    + rewrite A by (unfold zlen; lia). unfold o1. change (Z.to_nat 0) with 0%nat.
      rewrite samples_zeros; [done|lia|unfold zlen in *; lia].
    + unfold at_. rewrite !list_lookup_total_alt, lookup_take_lt by lia. done.
Qed.

(** The handle goes on playing. *)
Lemma playing_drained (hl : hal_streamer) (st : audio_bus_status) (p : Z) (l : list (option circlebuf_s)) :
  playing hl st p -> length l = 16%nat ->
  (forall b, 0 <= b < 16 -> exists r r', hl.(h_bus_rbuf) !! Z.to_nat b = Some r
     /\ l !! Z.to_nat b = Some r' /\ drained (mix_of hl st) b r r') ->
  playing (set_bus_rbuf l hl) st p.
Proof.
  intros [P Ho Sz [M1 M2 M3 M4]] L D. constructor; try done. rewrite mix_of_rbuf.
  constructor; try done. cbn [bus_rbuf bus_buf_sz slot_index bus_state set_rbuf].
  intros b B G N. destruct (M4 b B G N) as (rb & sz & oft & E1 & E2 & E3 & K).
  destruct (D b B) as (r & r' & Er & Er' & Dr).
  cbn [bus_rbuf mix_of] in E1. rewrite E1 in Er. injection Er as <-.
  unfold drained, ready in Dr. cbn [bus_rbuf bus_buf_sz slot_index bus_state mix_of] in Dr, G, E2, E3.
  rewrite G, E1, E2, E3, (proj2 (Z.eqb_neq b BUS2) N) in Dr. cbn [andb negb] in Dr.
  destruct (used rb >=? sz).
  - destruct Dr as (rb' & _ & -> & Wf & U & (S1 & S2 & S3 & S4) & _).
    exists rb', sz, oft. split_and!; [done..|]. destruct K. by constructor; rewrite ?S3.
  - subst r'. exists rb, sz, oft. split_and!; [done..|]. destruct K. by constructor.
Qed.
End Play.

(** ** The blocking write *)

Section Write.
Context {M : Type} `{MixerOps M} `{Alloc} {W : Type} `{PcmSystem W}.
(** The handle, the bus, the device, and what is on the stack of the playback
    thread in each round. *)
Context (k : nat) (b p : Z) (tmp : nat -> list Z * list Z).
Context (Hb : 0 <= b < 16) (Hb2 : b <> BUS2).
Context (Htmp : forall n, zlen (tmp n).1 = PCM_DATA_DEFAULT_BYTES /\ zlen (tmp n).2 = PCM_DATA_DEFAULT_BYTES).

(** A round of the playback thread of the handle. *)
Definition play_turn (n : nat) : @halm M W unit :=
  do! s := sget in
  do! hl := slift (array_get s.(out_streams) (Z.of_nat k)) in
  do! (hl, _, w) := slift (playback_round hl s.(buses).(bus) (tmp n).1 (tmp n).2 s.(world)) in
  smodify (fun s => set_world w (set_outs (<[k := hl]> s.(out_streams)) s)).

(** The bus plays through ring buffer [rb] in periods of [sz] bytes. *)
Record bus_plays (s : hal M W) (hl : hal_streamer) (rb : circlebuf_s) (sz : Z) : Prop := {
  bp_look : s.(out_streams) !! k = Some hl;
  bp_play : playing hl s.(buses).(bus) p;
  bp_bit : get_bit hl.(h_bus_state) b = true;
  bp_rb : hl.(h_bus_rbuf) !! Z.to_nat b = Some (Some rb);
  bp_sz : hl.(h_bus_buf_sz) !! Z.to_nat b = Some sz
}.

Lemma bus_plays_rb (s : hal M W) (hl : hal_streamer) (rb : circlebuf_s) (sz : Z) :
  bus_plays s hl rb sz -> wf rb /\ unlocked rb /\ 0 <= sz
    /\ exists oft, ready (mix_of hl s.(buses).(bus)) b
         = if rb.(used) >=? sz then Some (rb, sz, oft) else None.
Proof using Hb Hb2.
  intros [L [P Ho Sz [M1 M2 M3 M4]] G R S].
  destruct (M4 b Hb G Hb2) as (rb1 & sz1 & oft & E1 & E2 & E3 & K).
  cbn [bus_rbuf bus_buf_sz mix_of] in E1, E2. rewrite E1 in R. injection R as ->.
  rewrite E2 in S. injection S as ->. destruct K. split_and!; [done|done|lia|].
  exists oft. unfold ready. cbn [bus_rbuf bus_buf_sz bus_state mix_of]. rewrite G, E1, E2.
  rewrite (proj2 (Z.eqb_neq b BUS2) Hb2). cbn [andb negb]. by rewrite E3.
Qed.

(** The step of the thread on the bus. *)
Lemma play_turn_at (n : nat) (s : hal M W) (hl : hal_streamer) (rb : circlebuf_s) (sz : Z) :
  bus_plays s hl rb sz ->
  exists s' hl' rb', play_turn n s = Done (tt, s') /\ bus_plays s' hl' rb' sz /\ same_shape rb rb'
    /\ contents rb' = if rb.(used) >=? sz then drop (Z.to_nat sz) (contents rb) else contents rb.
Proof using Hb Hb2 Htmp.
  intros BP. destruct (bus_plays_rb s hl rb sz BP) as (Wf & U & S0 & oft & Rd).
  destruct BP as [L P G R S]. unfold play_turn, sbind, sget, slift. cbn [obind].
  rewrite (array_get_lookup _ _ hl); [|lia|by rewrite Nat2Z.id]. cbn [obind].
  destruct (playback_round_at hl s.(buses).(bus) p (tmp n).1 (tmp n).2 s.(world) P)
    as (l & out' & bs & -> & Ll & D & _ & _); [apply Htmp|apply Htmp|]. cbn [obind].
  destruct (D b Hb) as (r & r' & Er & Er' & Dr). rewrite R in Er. injection Er as <-.
  unfold drained in Dr. rewrite Rd in Dr.
  assert (exists rb', r' = Some rb' /\ same_shape rb rb'
    /\ contents rb' = if used rb >=? sz then drop (Z.to_nat sz) (contents rb) else contents rb)
    as (rb' & -> & SH & C).
  { destruct (used rb >=? sz).
    - destruct Dr as (rb' & _ & -> & _ & _ & SH & C). eauto.
    - subst r'. exists rb. split_and!; [done|apply same_shape_refl|done]. }
  eexists _, (set_bus_rbuf l hl), rb'. split; [reflexivity|]. split; [|done].
  split; cbn [out_streams buses set_world set_outs]; try done.
  - apply list_lookup_insert_eq. by apply lookup_lt_Some in L.
  - by apply playing_drained.
Qed.

(** A poll of the wait, and the round of the thread that follows a poll that
    finds too little room. *)
Lemma write_wait_poll (fuel n : nat) (s : hal M W) (hl : hal_streamer) (rb : circlebuf_s) (sz count : Z) :
  bus_plays s hl rb sz ->
  write_wait play_turn (S fuel) n k b count s
  = if rb.(size) - rb.(used) >=? count then Done (true, s)
    else sbind (play_turn n) (fun _ => write_wait play_turn fuel (S n) k b count) s.
Proof using Hb Hb2.
  intros BP. destruct (bus_plays_rb s hl rb sz BP) as (Wf & U & _ & _). pose proof Wf as [W1 W2 W3 W4 W5 W6].
  cbn [write_wait]. unfold sbind at 1, sget. cbn [obind].
  unfold sbind at 1, slift at 1. rewrite (array_get_lookup _ _ hl); [|lia|rewrite Nat2Z.id; apply BP]. cbn [obind].
  unfold sbind at 1, slift at 1. rewrite (array_get_lookup _ _ (Some rb)); [|lia|apply BP]. cbn [obind].
  unfold sbind at 1, slift at 1. unfold audio_circlebuf_available.
  rewrite i32_done by (unfold is_i32, INT32_MIN, INT32_MAX in *; lia). cbn [obind].
  rewrite u32_small by (unfold is_u32, UINT32_MAX, INT32_MAX in *; lia). by destruct (_ >=? _).
Qed.

(** A round takes a whole period, if one is queued. *)
Lemma play_turn_used (n : nat) (s : hal M W) (hl : hal_streamer) (rb : circlebuf_s) (sz : Z) :
  bus_plays s hl rb sz ->
  exists s' hl' rb', play_turn n s = Done (tt, s') /\ bus_plays s' hl' rb' sz /\ same_shape rb rb'
    /\ rb'.(used) = (if rb.(used) >=? sz then rb.(used) - sz else rb.(used))
    /\ contents rb' = if rb.(used) >=? sz then drop (Z.to_nat sz) (contents rb) else contents rb.
Proof using Hb Hb2 Htmp.
  intros BP. destruct (bus_plays_rb s hl rb sz BP) as (Wf & _ & S0 & _).
  destruct (play_turn_at n s hl rb sz BP) as (s1 & hl1 & rb1 & E1 & BP1 & SH1 & C).
  destruct (bus_plays_rb s1 hl1 rb1 sz BP1) as (Wf1 & _).
  exists s1, hl1, rb1. split_and!; try done.
  rewrite <-(zlen_contents rb1 Wf1), <-(zlen_contents rb Wf), C. unfold zlen.
  pose proof (zlen_contents rb Wf) as L. unfold zlen in L. rewrite L.
  destruct (_ >=? _) eqn:E; zbool; [rewrite length_drop; lia|done].
Qed.

Lemma mod_period (u sz : Z) : 0 < sz -> (u - sz) mod sz = u mod sz.
Proof. intros. replace (u - sz) with (u + (-1) * sz) by lia. apply Z.mod_add. lia. Qed.

(** The wait ends when the block fits beside the bytes that stay queued when
    all whole periods have been played: every poll that fails is followed by
    a period leaving the buffer. *)
Lemma write_wait_ends (fuel n : nat) (s : hal M W) (hl : hal_streamer) (rb : circlebuf_s) (sz count : Z) :
  bus_plays s hl rb sz -> 0 < sz -> count + rb.(used) mod sz <= rb.(size) ->
  rb.(used) < Z.of_nat fuel * sz ->
  exists s' hl' rb' (m : nat),
    write_wait play_turn fuel n k b count s = Done (true, s')
    /\ bus_plays s' hl' rb' sz /\ same_shape rb rb'
    /\ contents rb' = drop (m * Z.to_nat sz) (contents rb)
    /\ count <= rb'.(size) - rb'.(used)
    /\ count <= rb.(size) - rb.(used) + Z.of_nat m * sz
    /\ ((0 < m)%nat -> rb.(size) - rb.(used) + (Z.of_nat m - 1) * sz < count).
Proof using Hb Hb2 Htmp.
  intros BP S0 C1. revert n s hl rb BP C1. induction fuel as [|fuel IH]; intros n s hl rb BP C1 F;
    destruct (bus_plays_rb s hl rb sz BP) as (Wf & U & _ & _); pose proof Wf as [W1 W2 W3 W4 W5 W6]; [lia|].
  rewrite (write_wait_poll _ _ _ _ _ _ _ BP). destruct (_ >=? _) eqn:E; zbool.
  - exists s, hl, rb, 0%nat. split_and!; first [done | apply same_shape_refl | lia].
  - destruct (play_turn_used n s hl rb sz BP) as (s1 & hl1 & rb1 & E1 & BP1 & SH1 & Ur & C).
    unfold sbind. rewrite E1. cbn [obind].
    assert (sz <= used rb) as Eu.
    { apply Z.nlt_ge. intros N. rewrite Z.mod_small in C1 by lia. lia. }
    rewrite (proj2 (Z.geb_le _ _) Eu) in Ur, C. destruct SH1 as (Es & SH1).
    destruct (IH (S n) s1 hl1 rb1 BP1) as (s' & hl' & rb' & m & Ew & BP' & SH' & C' & A & A1 & A2);
      [rewrite Es, Ur, mod_period by done; done|lia|].
    exists s', hl', rb', (S m). split; [exact Ew|]. split; [done|].
    split; [by apply (same_shape_trans _ rb1)|]. split; [by rewrite C', C, drop_drop|]. split; [done|].
    rewrite Es, Ur in A1, A2. split; [lia|]. intros _. destruct m; [lia|]. specialize (A2 ltac:(lia)). lia.
Qed.

(** It never ends when the block does not fit beside these bytes. *)
Lemma write_wait_stuck (fuel n : nat) (s : hal M W) (hl : hal_streamer) (rb : circlebuf_s) (sz count : Z) :
  bus_plays s hl rb sz -> 0 < sz -> rb.(size) < count + rb.(used) mod sz ->
  write_wait play_turn fuel n k b count s = Blocked.
Proof using Hb Hb2 Htmp.
  intros BP S0 C1. revert n s hl rb BP C1. induction fuel as [|fuel IH]; intros n s hl rb BP C1; [done|].
  destruct (bus_plays_rb s hl rb sz BP) as (Wf & U & _ & _); pose proof Wf as [W1 W2 W3 W4 W5 W6].
  rewrite (write_wait_poll _ _ _ _ _ _ _ BP).
  assert (used rb mod sz <= used rb) by (apply Z.mod_le; lia).
  destruct (_ >=? _) eqn:E; zbool; [lia|].
  destruct (play_turn_used n s hl rb sz BP) as (s1 & hl1 & rb1 & E1 & BP1 & SH1 & Ur & C).
  unfold sbind. rewrite E1. cbn [obind]. apply (IH (S n) s1 hl1 rb1 BP1).
  destruct SH1 as (Es & _). rewrite Es, Ur. destruct (_ >=? _); [by rewrite mod_period|done].
Qed.

(** The write itself keeps the bus playing. *)
Lemma put_bus_at (s : hal M W) (hl : hal_streamer) (rb : circlebuf_s) (sz count : Z) (data : list Z) :
  bus_plays s hl rb sz -> 0 <= count <= zlen data -> count <= rb.(size) - rb.(used) ->
  exists s' hl' rb', put_bus k b data count s = Done (tt, s')
    /\ bus_plays s' hl' rb' sz /\ contents rb' = contents rb ++ take (Z.to_nat count) data.
Proof using Hb Hb2.
  intros BP C0 C1. destruct (bus_plays_rb s hl rb sz BP) as (Wf & U & _).
  pose proof Wf as [W1 W2 W3 W4 W5 W6]. destruct BP as [L P G R S].
  unfold put_bus, sbind, sget, slift. cbn [obind].
  rewrite (array_get_lookup _ _ hl); [|lia|by rewrite Nat2Z.id]. cbn [obind].
  rewrite (array_get_lookup _ _ (Some rb)); [|lia|done]. cbn [obind].
  rewrite s32_small by lia.
  destruct (write_fits rb data count Wf U) as (rb' & -> & Wf' & U' & SH & C); [lia|by right|]. cbn [obind].
  rewrite array_set_done by (apply lookup_lt_Some in R; unfold zlen; lia). cbn [obind].
  rewrite Z.min_l in C by lia.
  eexists _, (set_bus_rbuf _ hl), rb'. split; [reflexivity|]. split; [|done].
  split; cbn [out_streams buses set_outs]; try done.
  - apply list_lookup_insert_eq. by apply lookup_lt_Some in L.
  - destruct P as [P1 P2 P3 [M1 M2 M3 M4]]. constructor; try done. constructor; try done.
    { cbn. by rewrite length_insert. }
    cbn [bus_rbuf bus_buf_sz slot_index bus_state mix_of set_bus_rbuf h_bus_rbuf h_bus_buf_sz h_bus_state].
    intros b' B' G' N'. destruct (M4 b' B' G' N') as (rb1 & sz1 & oft & E1 & E2 & E3 & K).
    cbn [bus_rbuf mix_of] in E1. destruct (Z.eq_dec b' b) as [-> | Nb].
    + rewrite R in E1. injection E1 as <-. exists rb', sz1, oft.
      rewrite list_lookup_insert_eq by (by apply lookup_lt_Some in R). split_and!; [done..|].
      destruct SH as (S1 & S2 & S3 & S4). destruct K. by constructor; rewrite ?S3.
    + exists rb1, sz1, oft. rewrite list_lookup_insert_ne by lia. split_and!; [done..|]. destruct K. by constructor.
  - cbn. apply list_lookup_insert_eq. by apply lookup_lt_Some in R.
Qed.

(** C19. When a blocking write to a bus whose playback thread runs returns.
    The thread takes whole periods of [sz] bytes, so [used mod sz] bytes stay
    queued whatever it plays.  If the block fits the ring buffer beside them,
    the write returns 0 after finitely many sleeps (the fuel is one poll more
    than the periods that are queued): it has let [m] periods be played, the
    fewest that make room, and appended exactly the block to what is left.
    If the block does not fit beside them, the write polls for ever. *)
Theorem streamer_write_returns (s : hal M W) (hl : hal_streamer) (rb : circlebuf_s)
    (sz count : Z) (o : alsa_stream_out) (data in_tmp : list Z) :
  bus_plays s hl rb sz -> 0 < sz -> 0 <= count <= zlen data ->
  o.(o_pcm) = true -> o.(o_pcm_hdl) = Some k -> o.(o_bus_num) = b -> is_low_latency_bus o = false ->
  (count + rb.(used) mod sz <= rb.(size) ->
   forall fuel : nat, rb.(used) < Z.of_nat fuel * sz ->
   exists s' hl' rb' (m : nat),
     hal_streamer_write play_turn fuel (Some o) (Some data) count in_tmp s = Done (0, s')
     /\ bus_plays s' hl' rb' sz
     /\ contents rb' = drop (m * Z.to_nat sz) (contents rb) ++ take (Z.to_nat count) data
     /\ count <= rb.(size) - rb.(used) + Z.of_nat m * sz
     /\ ((0 < m)%nat -> rb.(size) - rb.(used) + (Z.of_nat m - 1) * sz < count))
  /\ (rb.(size) < count + rb.(used) mod sz ->
      forall fuel : nat,
      hal_streamer_write play_turn fuel (Some o) (Some data) count in_tmp s = Blocked).
Proof using Hb Hb2 Htmp.
  intros BP S0 C0 Op Oh Ob Ol. unfold hal_streamer_write. rewrite Op, Oh, Ol, Ob. split.
  - intros C1 fuel F. destruct (write_wait_ends fuel 0 s hl rb sz count BP S0 C1 F)
      as (s1 & hl1 & rb1 & m & E1 & BP1 & _ & K1 & A & Am).
    destruct (put_bus_at s1 hl1 rb1 sz count data BP1 C0 A) as (s2 & hl2 & rb2 & E2 & BP2 & K2).
    unfold sbind. rewrite E1. cbn [obind]. rewrite E2. cbn [obind].
    exists s2, hl2, rb2, m. split; [done|]. split; [done|]. split; [by rewrite K2, K1|done].
  - intros C1 fuel. unfold sbind. by rewrite (write_wait_stuck fuel 0 s hl rb sz count BP S0 C1).
Qed.
End Write.

(** A bus of two channels with a full ring buffer of five tiny periods. *)
Definition full_rb : circlebuf_s :=
  {| data := map Z.of_nat (seq 0 20); size := 20; used := 20; read_offset := 0; write_offset := 20;
     over_write := false; chann := 2; fmt := 0; CircleBuf.rate := 48000; lock := false |}.

Definition demo_cfg : pcm_config :=
  {| channels := 2; rate := 48000; period_size := 960; period_count := 4; cfg_format := 0;
     start_threshold := 0; stop_threshold := 0; silence_threshold := 0; silence_size := 0 |}.

Definition demo_handle : hal_streamer :=
  {| h_name := h_name zero_handle; h_card := 0; h_port := 0; h_ref_cnt := 1; h_allocated := true;
     h_bind_bus := replicate 16 0; h_bind_bus_len := 1; h_pcm := Some 1; h_pcm_cfg := demo_cfg;
     h_plbk := {| th_live := 1; th_exit := false; th_sem := 0 |}; h_plbk_hold := false; h_cap := idle;
     h_bus_rbuf := Some full_rb :: replicate 15 None; h_cap_rbuf := replicate 16 None;
     h_bus_state := 1; h_cap_state := 0; h_dir := PLAYBACK_STREAM; h_bus_buf_sz := replicate 16 4 |}.

Definition demo_hal : hal card sound_card :=
  {| out_streams := [demo_handle]; in_streams := streamers_init;
     buses := {| bus := bus_status_init (replicate 16 0); card_dsp := dsp_static (demo_card true) |};
     world := sc_start [] |}.

Definition demo_stream : alsa_stream_out :=
  {| o_bus_num := 0; o_bus_address := "bus0_media_out"; o_config := demo_cfg; o_pcm := true;
     o_pcm_hdl := Some 0%nat; o_standby := false |}.

Lemma full_rb_wf : wf full_rb.
Proof. constructor; cbn; unfold INT32_MAX; lia || done. Qed.

Lemma demo_plays : bus_plays 0 0 1 demo_hal demo_handle full_rb 4.
Proof.
  split; try done. split; try done.
  - exists (Z.to_nat 1920). split; [lia|]. vm_compute. done.
  - split; try done. intros b B G N.
    assert (b = 0) as ->.
    { cbn in B. assert (b = 0 \/ b = 1 \/ b = 2 \/ b = 3 \/ b = 4 \/ b = 5 \/ b = 6 \/ b = 7 \/ b = 8
        \/ b = 9 \/ b = 10 \/ b = 11 \/ b = 12 \/ b = 13 \/ b = 14 \/ b = 15) as D by lia.
      repeat (destruct D as [-> | D]; [done|]). by subst. }
    exists full_rb, 4, 0. split_and!; try done.
    constructor; first [exact full_rb_wf | done].
Qed.

(** The full buffer and a block of five bytes; a block of 21 bytes. *)
Lemma streamer_write_returns_witness :
  let turn := play_turn 0 (fun _ => (replicate (Z.to_nat 16384) 0, replicate (Z.to_nat 16384) 0)) in
  (exists s' hl' rb',
    hal_streamer_write turn 6 (Some demo_stream) (Some [1; 2; 3; 4; 5]) 5 [] demo_hal = Done (0, s')
    /\ bus_plays 0 0 1 s' hl' rb' 4
    /\ contents rb' = drop 8 (contents full_rb) ++ [1; 2; 3; 4; 5])
  /\ (forall fuel,
      hal_streamer_write turn fuel (Some demo_stream) (Some (replicate 21 0)) 21 [] demo_hal = Blocked).
Proof.
  assert (forall n : nat, zlen (replicate (Z.to_nat 16384) 0, replicate (Z.to_nat 16384) 0).1 = PCM_DATA_DEFAULT_BYTES
    /\ zlen (replicate (Z.to_nat 16384) 0, replicate (Z.to_nat 16384) 0).2 = PCM_DATA_DEFAULT_BYTES) as T
    by (intros n; cbn [fst snd]; unfold zlen; rewrite length_replicate; split; reflexivity).
  split.
  - destruct (proj1 (streamer_write_returns (M := card) (W := sound_card) 0 0 1
      (fun _ => (replicate (Z.to_nat 16384) 0, replicate (Z.to_nat 16384) 0))
      ltac:(split; [discriminate|reflexivity]) ltac:(discriminate) T demo_hal demo_handle full_rb 4 5
      demo_stream [1; 2; 3; 4; 5] (@nil Z) demo_plays ltac:(reflexivity) ltac:(split; discriminate)
      eq_refl eq_refl eq_refl eq_refl) ltac:(discriminate) 6%nat ltac:(reflexivity))
      as (s' & hl' & rb' & m & E & BP & C & M1 & M2).
    exists s', hl', rb'. split; [exact E|]. split; [exact BP|].
    cbn [size used full_rb] in M1, M2. assert (m = 2%nat) as -> by (destruct m; lia). exact C.
  - apply (proj2 (streamer_write_returns (M := card) (W := sound_card) 0 0 1
      (fun _ => (replicate (Z.to_nat 16384) 0, replicate (Z.to_nat 16384) 0))
      ltac:(split; [discriminate|reflexivity]) ltac:(discriminate) T demo_hal demo_handle full_rb 4 21
      demo_stream (replicate 21 0) (@nil Z) demo_plays ltac:(reflexivity) ltac:(split; discriminate)
      eq_refl eq_refl eq_refl eq_refl)). reflexivity.
Defined.

(** ** A round of the capture thread *)

Lemma select_loop_at (n : nat) (i : Z) (dst : list Z) (c D : Z) (src : list Z) (C : Z) :
  0 < D -> 0 < C -> 0 <= i -> 0 <= c < D ->
  (forall k, i <= k < i + Z.of_nat n -> 2 * (c + k * D) + 2 <= zlen dst /\ 2 * (k * C) + 2 <= zlen src) ->
  exists dst', select_loop n i dst c D src C = Done dst' /\ zlen dst' = zlen dst
    /\ (forall k e, i <= k < i + Z.of_nat n -> 0 <= e < 2 ->
          at_ dst' (2 * (c + k * D) + e) = at_ src (2 * (k * C) + e))
    /\ (forall k c' e, 0 <= k -> 0 <= c' < D -> 0 <= e < 2 -> c' <> c \/ ~ (i <= k < i + Z.of_nat n) ->
          at_ dst' (2 * (c' + k * D) + e) = at_ dst (2 * (c' + k * D) + e)).
Proof.
  intros HD HC Hi Hc. revert i Hi dst. induction n as [|n IH]; intros i Hi dst B; cbn [select_loop].
  { exists dst. split_and!; try done. intros; lia. }
  destruct (B i ltac:(lia)) as [B1 B2].
  destruct (memcpy_at dst (2 * (c + i * D)) src (2 * (i * C)) 2) as (d1 & -> & L1 & V1 & U1); try nia.
  cbn [obind]. destruct (IH (i + 1) ltac:(lia) d1) as (d2 & E & L2 & V2 & U2).
  { intros k K. rewrite L1. apply B. lia. }
  exists d2. rewrite E. split; [done|]. split; [lia|]. split.
  - intros k e K He. destruct (Z.eq_dec k i) as [-> | N]; [|apply V2; lia].
    rewrite U2 by lia. by apply V1.
  - intros k c' e K Hc' He N. rewrite U2 by lia. apply U1; [nia|].
    destruct (Z.eq_dec k i) as [-> | Nk]; [lia|].
    assert (k <= i - 1 \/ i + 1 <= k) as [X | X] by lia; nia.
Qed.

Lemma select_channels_at (m : nat) (c : Z) (proc : list Z) (D : Z) (src : list Z) (C n f0 : Z) :
  0 < D -> 0 < C -> 0 <= n -> 0 <= c -> c + Z.of_nat m = D ->
  2 * (n * D) <= zlen proc -> 2 * (n * C) <= zlen src -> (m = 0%nat -> f0 = n) ->
  exists proc', select_channels m c proc D src C (n * C) f0 = Done (n, proc') /\ zlen proc' = zlen proc
    /\ (forall k c' e, 0 <= k < n -> c <= c' < D -> 0 <= e < 2 ->
          at_ proc' (2 * (c' + k * D) + e) = at_ src (2 * (k * C) + e))
    /\ (forall k c' e, 0 <= k < n -> 0 <= c' < c -> 0 <= e < 2 ->
          at_ proc' (2 * (c' + k * D) + e) = at_ proc (2 * (c' + k * D) + e)).
Proof.
  intros HD HC Hn. revert c proc f0. induction m as [|m IH]; intros c proc f0 Hc Em B1 B2 F0;
    cbn [select_channels].
  { exists proc. rewrite F0 by done. split_and!; try done. intros; lia. }
  unfold select_cap_slot_s16. rewrite (proj2 (Z.eqb_neq C 0)) by lia.
  rewrite Z.quot_mul by lia.
  destruct (select_loop_at (Z.to_nat n) 0 proc c D src C) as (p1 & -> & L1 & V1 & U1);
    [done|done|lia|lia|intros k K; split; nia|].
  rewrite Z2Nat.id in * by lia. cbn [obind].
  destruct (IH (c + 1) p1 n) as (p2 & E & L2 & V2 & U2); [lia|lia|lia|done|done|].
  exists p2. rewrite E. split; [done|]. split; [lia|]. split.
  - intros k c' e K Hc' He. destruct (Z.eq_dec c' c) as [-> | N]; [|apply V2; lia].
    rewrite U2 by lia. apply V1; lia.
  - intros k c' e K Hc' He. rewrite U2 by lia. apply U1; lia.
Qed.

Lemma cap_target_pos (cs : Z) : 0 <= cap_target cs.
Proof. unfold cap_target, BUILD_IN_MIC_CAP, EXT_MIC_CAP, FOUR_MIC_CAP. repeat zif; lia. Qed.

Section Capture.
Context {W : Type} `{PcmSystem W}.
(** A recording in frames of [C] samples, [n] frames per period, for a client
    with [D] channels, 16 bits each. *)
Context (hl : hal_streamer) (p C D n : Z) (rb : circlebuf_s).
Context (Hpcm : hl.(h_pcm) = Some p) (HC : hl.(h_pcm_cfg).(channels) = C) (HC1 : 0 < C <= INT32_MAX)
        (Hfmt : AUDIO_FMT_2_BYTES hl.(h_pcm_cfg).(cfg_format) = 2)
        (Hbytes : s32 (CALCULATE_BYTES C hl.(h_pcm_cfg).(cfg_format) hl.(h_pcm_cfg).(rate) IN_PERIOD_MS)
                  = 2 * (n * C))
        (Hn : 0 <= n) (Hsrc : 2 * (n * C) <= PCM_DATA_DEFAULT_BYTES)
        (Hrb : hl.(h_cap_rbuf) !! Z.to_nat (cap_target hl.(h_cap_state)) = Some (Some rb))
        (Hwf : wf rb) (Hun : unlocked rb) (Hov : rb.(over_write) = false)
        (HD : rb.(chann) = D) (HD1 : 0 < D <= INT32_MAX) (Hdf : AUDIO_FMT_2_BYTES rb.(fmt) = 2)
        (Hdst : 2 * (n * D) <= PCM_DATA_DEFAULT_BYTES).

(** Appending a period to the ring buffer of the client. *)
Lemma cap_append (out : list Z) (sz : Z) :
  0 <= sz <= zlen out ->
  exists rb', audio_circlebuf_write (Some rb) (Some out) sz
              = Done (Z.min sz (rb.(size) - rb.(used)), Some rb')
    /\ wf rb' /\ unlocked rb' /\ same_shape rb rb'
    /\ contents rb' = contents rb ++ take (Z.to_nat (Z.min sz (rb.(size) - rb.(used)))) out.
Proof using Hwf Hun Hov. intros S. apply write_fits; [done|done|done|by left]. Qed.

(** C20. One round of the capture thread, when the device delivers a full
    period: the client's ring buffer gets, as far as there is room, one frame
    per recorded frame, in which every channel is the first sample of the
    recorded frame; if the client has as many channels as the device, it gets
    the period as it is.  All copies stay inside the buffers on the stack. *)
Theorem capture_round_appends (l : cap_locals) (w w' : W) (r : Z) (bs : list Z) :
  zlen l.(c_pcm_buf) = PCM_DATA_DEFAULT_BYTES -> zlen l.(c_processed_buf) = PCM_DATA_DEFAULT_BYTES ->
  pcm_read p (2 * (n * C)) w = (r, bs, w') -> zlen bs = 2 * (n * C) ->
  exists l' rb' out,
    capture_round hl l w
      = Done (set_cap_rbuf (<[Z.to_nat (cap_target hl.(h_cap_state)) := Some rb']> hl.(h_cap_rbuf)) hl, l', w')
    /\ wf rb' /\ unlocked rb' /\ same_shape rb rb'
    /\ contents rb' = contents rb ++ take (Z.to_nat (Z.min (2 * (n * D)) (rb.(size) - rb.(used)))) out
    /\ 2 * (n * D) <= zlen out
    /\ forall k c e, 0 <= k < n -> 0 <= c < D -> 0 <= e < 2 ->
         at_ out (2 * (c + k * D) + e)
         = at_ bs (if C =? D then 2 * (c + k * C) + e else 2 * (k * C) + e).
Proof using All.
  intros L1 L2 Er Lb. unfold capture_round. rewrite HC, Hbytes. unfold MIX_THRESHOLD_FRAMES. rewrite Hfmt.
  assert (0 <= n * C) as NC by nia. assert (0 <= n * D) as ND by nia.
  unfold PCM_DATA_DEFAULT_BYTES in *.
  change (2 =? 0) with false. rewrite u32_small by (unfold is_u32, UINT32_MAX; lia). cbn [obind].
  rewrite (array_get_lookup _ _ (Some rb)); [|apply cap_target_pos|done]. cbn [obind].
  cbn [audio_circlebuf_get_ch audio_circlebuf_get_fmt]. rewrite HD, Hpcm, Er, Hdf.
  rewrite mem_write_done by lia. cbn [obind].
  set (pb := splice l.(c_pcm_buf) (Z.to_nat 0) bs).
  assert (zlen pb = 16 * 1024) as Lp by (unfold pb; rewrite zlen_splice; lia).
  assert (forall j, 0 <= j < 2 * (n * C) -> at_ pb j = at_ bs j) as Ap.
  { intros j J. unfold pb. rewrite at_splice by lia.
    rewrite (proj2 (Z.leb_le 0 j)), (proj2 (Z.ltb_lt j (0 + zlen bs))) by lia. cbn [andb]. f_equal. lia. }
  assert (zlen hl.(h_cap_rbuf) > Z.of_nat (Z.to_nat (cap_target (h_cap_state hl)))) as Lt
    by (apply lookup_lt_Some in Hrb; unfold zlen; lia).
  pose proof (cap_target_pos (h_cap_state hl)) as T0.
  rewrite (u32_small D) by (unfold is_u32, UINT32_MAX, INT32_MAX in *; lia).
  destruct (C =? D) eqn:E; cbn [negb]; zbool.
  - destruct (cap_append pb (2 * (n * C))) as (rb' & -> & W1 & U1 & S1 & K1); [lia|]. cbn [obind].
    rewrite array_set_done by lia. cbn [obind]. eexists _, rb', pb. split; [reflexivity|].
    split; [done|]. split; [done|]. split; [done|]. rewrite <-E. split; [done|]. split; [lia|].
    intros k c e K Hc He. apply Ap. rewrite E in *. nia.
  - replace (2 * (n * C) / 2) with (n * C) by (rewrite (Z.mul_comm 2), Z.div_mul; lia).
    rewrite (s32_small C), (s32_small (n * C)) by (unfold INT32_MAX in *; lia).
    destruct (select_channels_at (Z.to_nat D) 0 l.(c_processed_buf) D pb C n l.(c_dst_frames))
      as (proc & -> & Lpr & V & _); try lia.
    cbn [obind]. rewrite i32_done by (unfold is_i32, INT32_MIN, INT32_MAX; lia). cbn [obind].
    rewrite s32_small by (unfold INT32_MAX; lia). replace (n * D * 2) with (2 * (n * D)) by lia.
    destruct (cap_append proc (2 * (n * D))) as (rb' & -> & W1 & U1 & S1 & K1); [lia|]. cbn [obind].
    rewrite array_set_done by lia. cbn [obind]. eexists _, rb', proc. split; [reflexivity|].
    split; [done|]. split; [done|]. split; [done|]. split; [done|]. split; [lia|].
    intros k c e K Hc He. rewrite V by lia. apply Ap. nia.
Qed.
End Capture.

(** A device of four channels recorded for a client of two, two frames per
    period. *)
Definition cap_rb : circlebuf_s :=
  {| data := replicate 20 0; size := 20; used := 0; read_offset := 0; write_offset := 0;
     over_write := false; chann := 2; fmt := 0; CircleBuf.rate := 100; lock := false |}.

Definition cap_handle : hal_streamer :=
  set_cap_state 4 (set_cap_rbuf (None :: None :: Some cap_rb :: replicate 13 None)
    (set_device 0 0 {| channels := 4; rate := 100; period_size := 0; period_count := 0; cfg_format := 0;
                       start_threshold := 0; stop_threshold := 0; silence_threshold := 0;
                       silence_size := 0 |} (Some 1) zero_handle)).

Definition cap_bufs : cap_locals :=
  {| c_pcm_buf := replicate (Z.to_nat 16384) 7; c_processed_buf := replicate (Z.to_nat 16384) 7;
     c_dst_frames := 0 |}.

Lemma cap_rb_wf : wf cap_rb.
Proof. constructor; cbn; unfold INT32_MAX; lia || done. Qed.

Lemma capture_round_appends_witness :
  exists l' rb' out w',
    capture_round cap_handle cap_bufs (sc_start [])
      = Done (set_cap_rbuf (<[2%nat := Some rb']> (h_cap_rbuf cap_handle)) cap_handle, l', w')
    /\ contents rb' = take 8 out /\ at_ out 6 = 8 /\ at_ out 7 = 9.
Proof.
  destruct (capture_round_appends cap_handle 1 4 2 2 cap_rb) with (l := cap_bufs) (w := sc_start [])
    (w' := (pcm_read 1 16 (sc_start [])).2) (r := 0) (bs := map Z.of_nat (seq 0 16))
    as (l' & rb' & out & E & _ & _ & _ & C & _ & A);
    try reflexivity; try (split; [reflexivity|discriminate]); try discriminate; try exact cap_rb_wf.
  - exists l', rb', out, (pcm_read 1 16 (sc_start [])).2. split; [exact E|]. split; [exact C|].
    split; [apply (A 1 1 0)|apply (A 1 1 1)]; (split; [discriminate|reflexivity]).
Defined.

(** ** Reading with a time limit *)

Section Read.
Context {M : Type} `{MixerOps M} `{Alloc} {W : Type} `{PcmSystem W}.
(** The states that a reader of handle [k] sees: [sigma (S n)] is what the
    other threads make of [sigma n] during the [n]-th sleep. *)
Context (others : nat -> @halm M W unit) (sigma : nat -> hal M W).
Context (k : nat) (policy : Z) (hl : nat -> hal_streamer) (rb : nat -> circlebuf_s).
Context (Hrun : forall n, others n (sigma n) = Done (tt, sigma (S n))).
Context (Hhl : forall n, (sigma n).(in_streams) !! k = Some (hl n)).
Context (Hrb : forall n, (hl n).(h_cap_rbuf) !! Z.to_nat policy = Some (Some (rb n))).
Context (Hpol : 0 <= policy) (Hwf : forall n, wf (rb n)) (Hun : forall n, unlocked (rb n)).

(** Taking [count] bytes at poll [n]. *)
Definition taken (n : nat) (count : Z) (s' : hal M W) : Prop :=
  exists rb', s' = set_ins (<[k := set_cap_rbuf (<[Z.to_nat policy := Some rb']> (hl n).(h_cap_rbuf)) (hl n)]>
                              (sigma n).(in_streams)) (sigma n)
    /\ wf rb' /\ unlocked rb' /\ contents rb' = drop (Z.to_nat count) (contents (rb n)).

(** One poll. *)
Lemma read_poll (limit n : nat) (data : list Z) (count : Z) :
  0 <= count <= zlen data -> count <= INT32_MAX ->
  if (rb n).(used) >=? count
  then exists s', read_wait others limit n k policy data count (sigma n)
                  = Done ((count, splice data 0 (take (Z.to_nat count) (contents (rb n)))), s')
                  /\ taken n count s'
  else read_wait others limit n k policy data count (sigma n)
       = match limit with
         | O => Done ((0, data), sigma (S n))
         | S limit => read_wait others limit (S n) k policy data count (sigma (S n))
         end.
Proof using Hrun Hhl Hrb Hpol Hwf Hun.
  intros C0 C1. pose proof (Hwf n) as [W1 W2 W3 W4 W5 W6].
  assert (u32 (audio_circlebuf_used (rb n)) = (rb n).(used)) as Eu
    by (apply u32_small; unfold is_u32, UINT32_MAX, INT32_MAX in *; lia).
  destruct (used (rb n) >=? count) eqn:E; zbool.
  - destruct (read_correct (rb n) data 0 count (Hwf n) (Hun n)) as (rb' & Er & Wf & U & _ & C);
      [lia|lia|lia|].
    rewrite Z.min_l in Er by lia.
    eexists. split; [|by exists rb'].
    destruct limit; cbn [read_wait]; unfold sbind, sget, slift; cbn [obind];
      (rewrite (array_get_lookup _ _ (hl n)); [|lia|by rewrite Nat2Z.id]); cbn [obind];
      (rewrite (array_get_lookup _ _ (Some (rb n))); [|lia|done]); cbn [obind];
      rewrite Eu, (proj2 (Z.geb_le _ _) E), s32_small, Er by lia; cbn [obind];
      rewrite array_set_done by (pose proof (lookup_lt_Some _ _ _ (Hrb n)); unfold zlen; lia); done.
  - assert ((used (rb n) >=? count) = false) as E' by (rewrite Z.geb_leb; apply Z.leb_gt; lia).
    destruct limit; cbn [read_wait]; unfold sbind, sget, slift; cbn [obind];
      (rewrite (array_get_lookup _ _ (hl n)); [|lia|by rewrite Nat2Z.id]); cbn [obind];
      (rewrite (array_get_lookup _ _ (Some (rb n))); [|lia|done]); cbn [obind];
      rewrite Eu, E', Hrun; done.
Qed.

Lemma read_wait_cases (limit n : nat) (data : list Z) (count : Z) :
  0 <= count <= zlen data -> count <= INT32_MAX ->
  (exists m s', (n <= m <= n + limit)%nat /\ count <= (rb m).(used)
     /\ (forall j, (n <= j < m)%nat -> (rb j).(used) < count)
     /\ read_wait others limit n k policy data count (sigma n)
        = Done ((count, splice data 0 (take (Z.to_nat count) (contents (rb m)))), s')
     /\ taken m count s')
  \/ ((forall j, (n <= j <= n + limit)%nat -> (rb j).(used) < count)
      /\ read_wait others limit n k policy data count (sigma n) = Done ((0, data), sigma (S (n + limit)))).
Proof using Hrun Hhl Hrb Hpol Hwf Hun.
  intros C0 C1. revert n. induction limit as [|limit IH]; intros n;
    [pose proof (read_poll 0 n data count C0 C1) as P|pose proof (read_poll (S limit) n data count C0 C1) as P];
    (destruct (used (rb n) >=? count) eqn:E; zbool;
     [destruct P as (s' & P & T); left; exists n, s'; split; [lia|]; split; [lia|];
      split; [intros; lia|]; done|]); rewrite P.
  - right. replace (n + 0)%nat with n by lia. split; [|done]. intros j J. by replace j with n by lia.
  - destruct (IH (S n)) as [(m & s' & B & U & A & R & T) | [A R]].
    + left. exists m, s'. split; [lia|]. split; [done|]. split; [|done].
      intros j J. destruct (decide (j = n)) as [-> | N]; [done|]. apply A. lia.
    + right. split; [|by rewrite R; do 2 f_equal; f_equal; lia].
      intros j J. destruct (decide (j = n)) as [-> | N]; [done|]. apply A. lia.
Qed.

(** C21. A read polls the ring buffer of its microphone at most eleven times.
    At the first poll that finds enough bytes it takes exactly the bytes it
    asked for, in order, and leaves the rest queued.  If no poll finds enough,
    it stores nothing.  Both end with the status 0, so the caller can not see
    whether there are data in its buffer. *)
Theorem streamer_read_outcomes (i : alsa_stream_in) (data : list Z) (count : Z) :
  i.(i_pcm_hdl) = Some k -> read_policy i.(i_devices) = policy ->
  0 <= count <= zlen data -> count <= INT32_MAX ->
  (exists m s', (m <= 10)%nat /\ count <= (rb m).(used)
     /\ (forall j, (j < m)%nat -> (rb j).(used) < count)
     /\ hal_streamer_read others i data count (sigma 0)
        = Done ((0, splice data 0 (take (Z.to_nat count) (contents (rb m)))), s')
     /\ taken m count s')
  \/ ((forall j, (j <= 10)%nat -> (rb j).(used) < count)
      /\ hal_streamer_read others i data count (sigma 0) = Done ((0, data), sigma 11)).
Proof using Hrun Hhl Hrb Hpol Hwf Hun.
  intros Ek Ep C0 C1. unfold hal_streamer_read. rewrite Ek, Ep. unfold sbind.
  destruct (read_wait_cases READ_TIMEOUT_LIMITS 0 data count C0 C1)
    as [(m & s' & B & U & A & -> & T) | [A ->]]; cbn [obind sret].
  - left. exists m, s'. unfold READ_TIMEOUT_LIMITS in B. split; [lia|]. split; [done|].
    split; [intros; apply A; lia|]. split; [|done]. destruct (count >? 0) eqn:E; [done|]. zbool.
    by replace count with 0 by lia.
  - right. split; [intros; apply A; unfold READ_TIMEOUT_LIMITS; lia|]. done.
Qed.
End Read.

(** A microphone whose device has stalled: the other threads do nothing. *)
Definition stalled_hal : hal card sound_card :=
  set_ins [set_cap_rbuf (None :: None :: Some cap_rb :: replicate 13 None) zero_handle] demo_hal.

Definition demo_mic : alsa_stream_in :=
  {| i_devices := AUDIO_DEVICE_IN_BUILTIN_MIC; i_config := demo_cfg; i_pcm := false;
     i_pcm_hdl := Some 0%nat; i_standby := false |}.

Lemma streamer_read_outcomes_witness :
  hal_streamer_read (fun _ => sret tt) demo_mic [9; 9] 2 stalled_hal = Done ((0, [9; 9]), stalled_hal).
Proof.
  destruct (streamer_read_outcomes (fun _ => sret tt) (fun _ => stalled_hal) 0 2
    (fun _ => set_cap_rbuf (None :: None :: Some cap_rb :: replicate 13 None) zero_handle)
    (fun _ => cap_rb)) with (i := demo_mic) (data := [9; 9]) (count := 2)
    as [(m & s' & _ & U & _) | [_ E]]; [reflexivity|reflexivity|reflexivity|discriminate|..].
  - intros _. exact cap_rb_wf.
  - reflexivity.
  - reflexivity.
  - reflexivity.
  - split; discriminate.
  - discriminate.
  - destruct (U eq_refl).
  - exact E.
Defined.
