(* ===== verification/AudioExtra.v ===== *)
(** * Audio extras: names, waiting, slots and gain

    Models [audio_extra/audio_extra.c]: the tables of format and channel
    names, the split of a sound card name, the search for a configuration
    file, the wait on a semaphore with a time limit, the dump of played
    audio, the selection of slots and the software gain.

    A [float] is a record [f32] of mantissa and exponent with an unbounded
    exponent: products are rounded to 24 bits, to nearest with ties to even.
    The range of exponents of the type makes no difference here, because a
    product is only compared with the limits of [int16_t] and truncated. *)

From Stdlib Require Import ZArith Lia Ascii String.
From stdpp Require Import base list numbers.
From S2P Require Import Prelude CString Mix PcmPlugin SamplePlugin PcmDevice Streamer.

#[local] Open Scope Z_scope.

(** ** Names *)

Record string_to_enum := { se_name : string; se_value : Z }.

Definition channels_name_to_enum_table : list string_to_enum :=
  [{| se_name := "AUDIO_CHANNEL_OUT_STEREO"; se_value := 3 |};
   {| se_name := "AUDIO_CHANNEL_OUT_5POINT1"; se_value := 63 |};
   {| se_name := "AUDIO_CHANNEL_OUT_7POINT1"; se_value := 1599 |};
   {| se_name := "AUDIO_CHANNEL_IN_MONO"; se_value := 16 |};
   {| se_name := "AUDIO_CHANNEL_IN_STEREO"; se_value := 12 |};
   {| se_name := "AUDIO_CHANNEL_IN_FRONT_BACK"; se_value := 48 |};
   {| se_name := "AUDIO_CHANNEL_INDEX_MASK_1"; se_value := 2147483649 |};
   {| se_name := "AUDIO_CHANNEL_INDEX_MASK_2"; se_value := 2147483651 |};
   {| se_name := "AUDIO_CHANNEL_INDEX_MASK_3"; se_value := 2147483655 |};
   {| se_name := "AUDIO_CHANNEL_INDEX_MASK_4"; se_value := 2147483663 |};
   {| se_name := "AUDIO_CHANNEL_INDEX_MASK_5"; se_value := 2147483679 |};
   {| se_name := "AUDIO_CHANNEL_INDEX_MASK_6"; se_value := 2147483711 |};
   {| se_name := "AUDIO_CHANNEL_INDEX_MASK_7"; se_value := 2147483775 |};
   {| se_name := "AUDIO_CHANNEL_INDEX_MASK_8"; se_value := 2147483903 |}].

Definition android_format_name_to_enum_table : list string_to_enum :=
  [{| se_name := "AUDIO_FORMAT_PCM_16_BIT"; se_value := 1 |};
   {| se_name := "AUDIO_FORMAT_PCM_24_BIT_PACKED"; se_value := 6 |};
   {| se_name := "AUDIO_FORMAT_PCM_8_24_BIT"; se_value := 4 |};
   {| se_name := "AUDIO_FORMAT_PCM_32_BIT"; se_value := 3 |}].

Definition alsa_format_name_to_enum_table : list string_to_enum :=
  [{| se_name := "PCM_FORMAT_S16_LE"; se_value := 0 |};
   {| se_name := "PCM_FORMAT_S24_3LE"; se_value := 4 |};
   {| se_name := "PCM_FORMAT_S24_LE"; se_value := 3 |};
   {| se_name := "PCM_FORMAT_S32_LE"; se_value := 1 |}].

Fixpoint get_format_name (table : list string_to_enum) (format : Z) : option string :=
  match table with
  | [] => None
  | e :: table => if e.(se_value) =? format then Some e.(se_name) else get_format_name table format
  end.

Definition audio_extra_get_android_format_name (format : Z) : option string :=
  get_format_name android_format_name_to_enum_table format.
Definition audio_extra_get_alsa_format_name (format : Z) : option string :=
  get_format_name alsa_format_name_to_enum_table format.
Definition audio_extra_get_channel_name (mask : Z) : option string :=
  get_format_name channels_name_to_enum_table mask.

(** ** The split of a sound card name *)

Definition HW_INFO_ARRAY_MAX_SIZE : nat := 32.

Record snd_card_split := { chip : string; codec : string; board : string }.

(** [strlcpy (dst, src, HW_INFO_ARRAY_MAX_SIZE)]: the string that is stored. *)
Definition strlcpy_info (s : string) : string := String.substring 0 (HW_INFO_ARRAY_MAX_SIZE - 1) s.

(** [strdup] of the name is called before the name is tested, so a null
    pointer is used.  Parts that are missing keep what they were. *)
Definition audio_extra_set_snd_card_split (name : option string) (cur : snd_card_split)
  : outcome snd_card_split :=
  match name with
  | None => Undef
  | Some name =>
      match strtok "-" name with
      | None => Done cur
      | Some (c, rest) =>
          let cur := {| chip := strlcpy_info c; codec := cur.(codec); board := cur.(board) |} in
          match strtok "-" rest with
          | None => Done cur
          | Some (b, rest) =>
              let cur := {| chip := cur.(chip); codec := cur.(codec); board := strlcpy_info b |} in
              match strtok "-" rest with
              | None => Done cur
              | Some (d, _) => Done {| chip := cur.(chip); codec := strlcpy_info d; board := cur.(board) |}
              end
          end
      end
  end.

(** ** Configuration files *)

Definition MIXER_PATH_MAX_LENGTH : nat := 128.
Definition kConfigLocationList : list string := ["/odm/etc"; "/vendor/etc"; "/system/etc"]%string.

(** [access p] tells whether the file [p] exists.  The array that holds the
    file name has 128 bytes, as the full path has. *)
Fixpoint resolve_in (dirs : list string) (access : string -> bool) (file_name : string)
  : option string :=
  match dirs with
  | [] => None
  | d :: dirs =>
      let path := String.substring 0 (MIXER_PATH_MAX_LENGTH - 1) (d ++ "/" ++ file_name)%string in
      if access path then Some path else resolve_in dirs access file_name
  end.

Definition audio_extra_utils_resolve_config_file (access : string -> bool) (file_name : string)
  : bool * string :=
  match resolve_in kConfigLocationList access file_name with
  | Some path => (true, path)
  | None => (false, file_name)
  end.

(** ** Cards and routes *)

(** The number of entries of the device table that exist; [None] is a null
    device. *)
Definition audio_extra_utils_get_snd_card_num (flag_exist : option (list bool)) : Z :=
  match flag_exist with
  | None => -1
  | Some l => Z.of_nat (length (filter (fun b => b = true) (take 16 l)))
  end.

(** [audio_route_list] as pairs of a card and its route. *)
Fixpoint audio_extra_get_audio_route {A} (routes : list (Z * A)) (card_id : Z) : option A :=
  match routes with
  | [] => None
  | (c, r) :: routes => if card_id =? c then Some r else audio_extra_get_audio_route routes card_id
  end.

(** ** Waiting with a time limit *)

Definition OS_SYNC_RELEASED : Z := 0.
Definition OS_SYNC_TIMEOUT : Z := 1.
Definition OS_SYNC_FAILED : Z := 4294967295.

Definition ONE_SEC_IN_NS : Z := 1000000000.

(** The absolute time [now] plus [timeout_ms]. *)
Definition deadline (now : Z * Z) (timeout_ms : Z) : Z * Z :=
  let sec := now.1 + timeout_ms / 1000 in
  let nsec := now.2 + u32 (timeout_ms mod 1000 * 1000000) in
  if nsec >=? ONE_SEC_IN_NS then (sec + 1, nsec - ONE_SEC_IN_NS) else (sec, nsec).

(** What [sem_timedwait] answers. *)
Inductive timedwait := Posted | Interrupted | TimedOut | WaitError.

(** The loop over the answers of [sem_timedwait], all with the same deadline;
    it waits for ever when they end. *)
Fixpoint semwait_loop (answers : list timedwait) : outcome Z :=
  match answers with
  | [] => Blocked
  | Posted :: _ => Done OS_SYNC_RELEASED
  | Interrupted :: answers => semwait_loop answers
  | TimedOut :: _ => Done OS_SYNC_TIMEOUT
  | WaitError :: _ => Done OS_SYNC_FAILED
  end.

(** [wait t] are the answers for the deadline [t]. *)
Definition audio_extra_semwait (now : Z * Z) (wait : Z * Z -> list timedwait) (timeout_ms : Z)
  : outcome Z := semwait_loop (wait (deadline now timeout_ms)).

(** ** Dump of played audio *)

(** The body of [dump_out_data] is the one of the sample plugin, with its own
    statics. *)
Definition extra_dump_out_data (fopen_ok : bool) (buffer : list Z) (bytes : Z) (d : dump_state)
  : outcome dump_state := SamplePlugin.dump_out_data fopen_ok buffer bytes d.

(** ** Slots *)

(** The loop of [audio_extra_select_slot_16], on samples. *)
Fixpoint select_slot_loop (n : nat) (i : Z) (dst : list Z) (dst_ch : Z) (src : list Z) (src_ch : Z)
  : outcome (list Z) :=
  match n with
  | O => Done dst
  | S n =>
      let! dst := memcpy dst (i * dst_ch) src (i * src_ch) dst_ch in
      select_slot_loop n (i + 1) dst dst_ch src src_ch
  end.

Definition audio_extra_select_slot_16 (dst : list Z) (dst_ch : Z) (src : list Z) (src_ch src_frames : Z)
  : outcome (Z * list Z) :=
  if src_ch =? 0 then Undef
  else
    let n := Z.to_nat (Z.quot src_frames src_ch) in
    let! dst := select_slot_loop n 0 dst dst_ch src src_ch in
    let! r := i32 (Z.of_nat n * dst_ch) in
    Done (r, dst).

(** ** Software gain *)

Record f32 := { f_m : Z; f_e : Z }.

Definition f32_one : f32 := {| f_m := 1; f_e := 0 |}.

(** A mantissa rounded to 24 bits. *)
Definition f32_round (m e : Z) : f32 :=
  let n := Z.log2 (Z.abs m) + 1 - 24 in
  if n <=? 0 then {| f_m := m; f_e := e |}
  else
    let q := Z.abs m / 2 ^ n in
    let r := Z.abs m mod 2 ^ n in
    let h := 2 ^ (n - 1) in
    let q := if (r >? h) || ((r =? h) && Z.odd q) then q + 1 else q in
    {| f_m := Z.sgn m * q; f_e := e + n |}.

(** A sample times a [float]. *)
Definition f32_mul (s : Z) (f : f32) : f32 := f32_round (s * f.(f_m)) f.(f_e).

Definition f32_gtb (f : f32) (k : Z) : bool :=
  if 0 <=? f.(f_e) then f.(f_m) * 2 ^ f.(f_e) >? k else f.(f_m) >? k * 2 ^ (- f.(f_e)).
Definition f32_ltb (f : f32) (k : Z) : bool :=
  if 0 <=? f.(f_e) then f.(f_m) * 2 ^ f.(f_e) <? k else f.(f_m) <? k * 2 ^ (- f.(f_e)).
(** Conversion to an integer drops the fraction. *)
Definition f32_trunc (f : f32) : Z :=
  if 0 <=? f.(f_e) then f.(f_m) * 2 ^ f.(f_e) else Z.quot f.(f_m) (2 ^ (- f.(f_e))).

(** [CAL_SW_GAIN_16] *)
Definition CAL_SW_GAIN_16 (ratio : f32) (s : Z) : Z :=
  let multiplied := f32_mul s ratio in
  if f32_gtb multiplied INT16_MAX then INT16_MAX
  else if f32_ltb multiplied INT16_MIN then INT16_MIN
  else s16 (f32_trunc multiplied).

(** The loops of the two functions over the samples of the buffer from index
    [i] on; [n] samples are left to process. *)
Fixpoint slot_gain_loop (n : nat) (i slots slots_mask : Z) (amplitude_ratio : f32) (buf : list Z)
  : outcome (list Z) :=
  match n with
  | O => Done buf
  | S n =>
      let j := Z.rem i slots in
      if 32 <=? j then Undef
      else
        let ratio := if Z.testbit slots_mask j then amplitude_ratio else f32_one in
        let! s := array_get buf i in
        let! buf := array_set buf i (CAL_SW_GAIN_16 ratio s) in
        slot_gain_loop n (i + 1) slots slots_mask amplitude_ratio buf
  end.

Definition audio_extra_sw_slot_gain_16 (slots slots_mask : Z) (amplitude_ratio : f32)
    (buf : list Z) (bytes : Z) : outcome (list Z) :=
  if amplitude_ratio.(f_m) <? 0 then Done buf
  else if slots <=? 0 then Done buf
  else slot_gain_loop (Z.to_nat (bytes / 2)) 0 slots slots_mask amplitude_ratio buf.

Fixpoint gain_loop (n : nat) (i : Z) (amplitude_ratio : f32) (buf : list Z) : outcome (list Z) :=
  match n with
  | O => Done buf
  | S n =>
      let! s := array_get buf i in
      let! buf := array_set buf i (CAL_SW_GAIN_16 amplitude_ratio s) in
      gain_loop n (i + 1) amplitude_ratio buf
  end.

Definition audio_extra_sw_gain_16 (amplitude_ratio : f32) (buf : list Z) (bytes : Z)
  : outcome (list Z) :=
  if amplitude_ratio.(f_m) <? 0 then Done buf
  else gain_loop (Z.to_nat (bytes / 2)) 0 amplitude_ratio buf.

(** ** Strided copies *)

(** [n] blocks of [w] samples, every [sstep] samples of the source to every
    [dstep] samples of the destination. *)
Fixpoint stride_copy (n : nat) (i : Z) (dst : list Z) (doff dstep : Z) (src : list Z) (sstep w : Z)
  : outcome (list Z) :=
  match n with
  | O => Done dst
  | S n =>
      let! dst := memcpy dst (i * dstep + doff) src (i * sstep) w in
      stride_copy n (i + 1) dst doff dstep src sstep w
  end.

Lemma areas_copy_stride (n : nat) (i : Z) (src : list Z) (src_ch : Z) (dst : list Z) (dst_ch off : Z) :
  areas_copy_loop n i src src_ch dst dst_ch off
  = stride_copy n i dst (off * src_ch) dst_ch src src_ch src_ch.
Proof.
  revert i dst. induction n as [|n IH]; intros i dst; [done|]. cbn [areas_copy_loop stride_copy].
  destruct (memcpy _ _ _ _ _); cbn [obind]; [apply IH|done..].
Qed.

Lemma select_slot_stride (n : nat) (i : Z) (dst : list Z) (dst_ch : Z) (src : list Z) (src_ch : Z) :
  select_slot_loop n i dst dst_ch src src_ch = stride_copy n i dst 0 dst_ch src src_ch dst_ch.
Proof.
  revert i dst. induction n as [|n IH]; intros i dst; [done|]. cbn [select_slot_loop stride_copy].
  rewrite Z.add_0_r. destruct (memcpy _ _ _ _ _); cbn [obind]; [apply IH|done..].
Qed.

Lemma stride_copy_at (n : nat) (i : Z) (dst : list Z) (doff dstep : Z) (src : list Z) (sstep w : Z) :
  0 <= i -> 0 <= doff -> 0 <= w <= dstep -> 0 <= sstep ->
  (forall k, i <= k < i + Z.of_nat n -> k * dstep + doff + w <= zlen dst /\ k * sstep + w <= zlen src) ->
  exists dst', stride_copy n i dst doff dstep src sstep w = Done dst' /\ zlen dst' = zlen dst
    /\ (forall k c, i <= k < i + Z.of_nat n -> 0 <= c < w ->
          at_ dst' (k * dstep + doff + c) = at_ src (k * sstep + c))
    /\ (forall j, 0 <= j < i * dstep + doff -> at_ dst' j = at_ dst j).
Proof.
  intros Hi Hd Hw Hs. revert i Hi dst. induction n as [|n IH]; intros i Hi dst B; cbn [stride_copy].
  { exists dst. split_and!; try done. intros; lia. }
  destruct (B i ltac:(lia)) as [B1 B2].
  destruct (memcpy_at dst (i * dstep + doff) src (i * sstep) w) as (d1 & -> & L1 & V1 & U1); try nia.
  cbn [obind]. destruct (IH (i + 1) ltac:(lia) d1) as (d2 & E & L2 & V2 & U2).
  { intros k K. rewrite L1. apply B. lia. }
  exists d2. rewrite E. split; [done|]. split; [lia|]. split.
  - intros k c K Hc. destruct (Z.eq_dec k i) as [-> | N]; [|apply V2; lia].
    rewrite U2 by nia. by apply V1.
  - intros j J. rewrite U2 by nia. apply U1; lia.
Qed.

Lemma at_ext (l l' : list Z) (n : Z) :
  n <= zlen l -> n <= zlen l' -> (forall j, 0 <= j < n -> at_ l j = at_ l' j) ->
  take (Z.to_nat n) l = take (Z.to_nat n) l'.
Proof.
  intros B1 B2 A. unfold zlen in *. apply list_eq. intros i.
  destruct (decide (i < Z.to_nat n)%nat).
  - rewrite !lookup_take_lt by done. specialize (A (Z.of_nat i) ltac:(lia)). unfold at_ in A.
    rewrite Nat2Z.id in A. destruct (lookup_lt_is_Some_2 l i) as [x Ex]; [lia|].
    destruct (lookup_lt_is_Some_2 l' i) as [y Ey]; [lia|].
    rewrite (list_lookup_total_correct _ _ _ Ex), (list_lookup_total_correct _ _ _ Ey) in A. congruence.
  - rewrite !lookup_take_ge by lia. done.
Qed.

(** Widening frames of [ch] samples to frames of [C] and selecting the
    first [ch] slots again gives back the samples, for any contents of the
    two buffers: what the mirror threads do with [pcm_16_areas_copy] is undone
    by [audio_extra_select_slot_16]. *)
Theorem slots_widen_select_roundtrip (F ch C : Z) (src buf dst : list Z) :
  0 <= F -> 0 < ch <= C -> F * C <= zlen buf -> F * ch <= zlen src -> F * ch <= zlen dst ->
  F * C <= INT32_MAX ->
  exists wide out,
    pcm_16_areas_copy (F * ch) (Some src) ch (Some buf) C 0 = Done (0, Some wide)
    /\ audio_extra_select_slot_16 dst ch wide C (F * C) = Done (F * ch, out)
    /\ take (Z.to_nat (F * ch)) out = take (Z.to_nat (F * ch)) src.
Proof.
  intros HF Hch B1 B2 B3 B4. unfold pcm_16_areas_copy, audio_extra_select_slot_16.
  rewrite (proj2 (Z.eqb_neq ch 0)), (proj2 (Z.eqb_neq C 0)) by lia.
  rewrite Z.div_mul, Z.quot_mul by lia. rewrite areas_copy_stride.
  destruct (stride_copy_at (Z.to_nat F) 0 buf (0 * ch) C src ch ch) as (wide & -> & Lw & V & _);
    [lia|lia|lia|lia|intros k K; split; nia|]. cbn [obind].
  destruct (stride_copy_at (Z.to_nat F) 0 dst 0 ch wide C ch) as (out & Eo & Lo & V' & _);
    [lia|lia|lia|lia|intros k K; split; nia|].
  exists wide, out. split; [done|]. rewrite select_slot_stride, Eo. cbn [obind].
  rewrite Z2Nat.id, i32_done by (unfold is_i32, INT32_MIN; nia). split; [done|].
  rewrite Z2Nat.id in V, V' by lia.
  apply at_ext; [nia|nia|]. intros j J.
  pose proof (Z.div_mod j ch ltac:(lia)) as D. pose proof (Z.mod_pos_bound j ch ltac:(lia)) as Bm.
  assert (0 <= j / ch < F) as Bd by (split; [apply Z.div_pos; lia|apply Z.div_lt_upper_bound; lia]).
  replace j with (j / ch * ch + 0 + j mod ch) at 1 by lia. rewrite V' by lia.
  replace (j / ch * C + j mod ch) with (j / ch * C + 0 * ch + j mod ch) by lia. rewrite V by lia.
  f_equal. lia.
Qed.

Lemma slots_widen_select_roundtrip_witness :
  exists wide out,
    pcm_16_areas_copy 4 (Some [1; 2; 3; 4]) 2 (Some (replicate 8 9)) 4 0 = Done (0, Some wide)
    /\ audio_extra_select_slot_16 (replicate 4 7) 2 wide 4 8 = Done (4, out)
    /\ take 4 out = [1; 2; 3; 4].
Proof.
  apply (slots_widen_select_roundtrip 2 2 4 [1; 2; 3; 4] (replicate 8 9) (replicate 4 7));
    try discriminate. split; [reflexivity|discriminate].
Defined.

(** ** Gain, sample by sample *)

(** The buffer with [f j] applied to the samples of the indices from [i] to
    [i + n]. *)
Definition map_range (f : Z -> Z -> Z) (i n : Z) (buf : list Z) : list Z :=
  imap (fun k s => let j := Z.of_nat k in if (i <=? j) && (j <? i + n) then f j s else s) buf.

Lemma map_range_nil (f : Z -> Z -> Z) (i : Z) (buf : list Z) : map_range f i 0 buf = buf.
Proof.
  apply list_eq. intros k. unfold map_range. rewrite list_lookup_imap.
  destruct (buf !! k) as [s|]; [|done]. cbn. zif; [lia|done].
Qed.

Lemma map_range_step (f : Z -> Z -> Z) (i n : Z) (buf : list Z) (s : Z) :
  0 <= i -> 0 <= n -> buf !! Z.to_nat i = Some s ->
  map_range f (i + 1) n (<[Z.to_nat i := f i s]> buf) = map_range f i (n + 1) buf.
Proof.
  intros I N E. apply list_eq. intros k. unfold map_range. rewrite !list_lookup_imap.
  destruct (decide (k = Z.to_nat i)) as [-> | D].
  - rewrite list_lookup_insert_eq by (by eapply lookup_lt_Some). rewrite E. cbn.
    rewrite Z2Nat.id by lia. repeat zif; first [done|lia].
  - rewrite list_lookup_insert_ne by done. destruct (buf !! k) as [t|]; [|done]. cbn.
    repeat zif; first [done|lia].
Qed.

(** What the loop does to the sample of index [j]. *)
Definition slot_gain (slots mask : Z) (ratio : f32) (j s : Z) : Z :=
  CAL_SW_GAIN_16 (if Z.testbit mask (j mod slots) then ratio else f32_one) s.

(** Both loops are instances of one loop over the samples. *)
Lemma slot_gain_loop_map (n : nat) (i slots mask : Z) (ratio : f32) (buf : list Z) :
  0 <= i -> 0 < slots <= 32 -> i + Z.of_nat n <= zlen buf ->
  slot_gain_loop n i slots mask ratio buf
  = Done (map_range (slot_gain slots mask ratio) i (Z.of_nat n) buf).
Proof.
  revert i buf. induction n as [|n IH]; intros i buf I S B; cbn [slot_gain_loop].
  { by rewrite map_range_nil. }
  rewrite Z.rem_mod_nonneg by lia. pose proof (Z.mod_pos_bound i slots ltac:(lia)) as M.
  rewrite (proj2 (Z.leb_gt 32 (i mod slots))) by lia.
  destruct (lookup_lt_is_Some_2 buf (Z.to_nat i)) as [s E]; [unfold zlen in B; lia|].
  rewrite (array_get_lookup _ _ _ I E). cbn [obind].
  rewrite array_set_done by lia. cbn [obind]. rewrite IH.
  - rewrite Nat2Z.inj_succ, <- Z.add_1_r.
    by rewrite <- (map_range_step (slot_gain slots mask ratio) i (Z.of_nat n) buf s) by (done || lia).
  - lia.
  - done.
  - unfold zlen in *. rewrite length_insert. lia.
Qed.

Lemma gain_loop_map (n : nat) (i : Z) (ratio : f32) (buf : list Z) :
  0 <= i -> i + Z.of_nat n <= zlen buf ->
  gain_loop n i ratio buf = Done (map_range (fun _ => CAL_SW_GAIN_16 ratio) i (Z.of_nat n) buf).
Proof.
  revert i buf. induction n as [|n IH]; intros i buf I B; cbn [gain_loop].
  { by rewrite map_range_nil. }
  destruct (lookup_lt_is_Some_2 buf (Z.to_nat i)) as [s E]; [unfold zlen in B; lia|].
  rewrite (array_get_lookup _ _ _ I E). cbn [obind].
  rewrite array_set_done by lia. cbn [obind]. rewrite IH.
  - by rewrite Nat2Z.inj_succ, <- Z.add_1_r,
      <- (map_range_step (fun _ => CAL_SW_GAIN_16 ratio) i (Z.of_nat n) buf s) by (done || lia).
  - lia.
  - unfold zlen in *. rewrite length_insert. lia.
Qed.

(** A ratio of one leaves a sample as it is. *)
Lemma gain_one (s : Z) : is_s16 s -> CAL_SW_GAIN_16 f32_one s = s.
Proof.
  intros R. pose proof R as R'. unfold is_s16, INT16_MIN, INT16_MAX in R'.
  assert (Z.log2 (Z.abs s) < 24).
  { destruct (Z.eq_dec s 0) as [-> | N]; [done|].
    apply Z.log2_lt_pow2; lia. }
  unfold CAL_SW_GAIN_16, f32_mul, f32_round, f32_one. cbn [f_m f_e]. rewrite Z.mul_1_r.
  rewrite (proj2 (Z.leb_le _ 0)) by lia.
  unfold f32_gtb, f32_ltb, f32_trunc. cbn [f_m f_e]. rewrite Z.leb_refl, Z.pow_0_r, Z.mul_1_r.
  unfold INT16_MAX, INT16_MIN. repeat zif; try lia. by apply s16_id.
Qed.

Lemma gain_s16 (ratio : f32) (s : Z) : is_s16 (CAL_SW_GAIN_16 ratio s).
Proof.
  unfold CAL_SW_GAIN_16. repeat case_match; [done|done|apply s16_range].
Qed.

(** The value of a [float] against the limits: a result that is not clamped
    is the truncated product. *)
Lemma gain_trunc (ratio : f32) (s : Z) :
  let p := f32_mul s ratio in
  CAL_SW_GAIN_16 ratio s
  = if f32_gtb p INT16_MAX then INT16_MAX else if f32_ltb p INT16_MIN then INT16_MIN else f32_trunc p.
Proof.
  cbn zeta. unfold CAL_SW_GAIN_16. destruct (f32_gtb _ _) eqn:G; [done|].
  destruct (f32_ltb _ _) eqn:L; [done|]. apply s16_id.
  unfold f32_gtb, f32_ltb, f32_trunc in *. destruct (f32_mul s ratio) as [m e]. cbn [f_m f_e] in *.
  unfold is_s16. destruct (0 <=? e) eqn:E; [lia|].
  assert (0 < 2 ^ (- e)) by (apply Z.pow_pos_nonneg; lia). split.
  - apply Z.quot_le_lower_bound; [done|]. lia.
  - apply Z.quot_le_upper_bound; [done|]. lia.
Qed.

(** The sample that the gain should give: the product rounded to a [float],
    without its fraction, held between the limits of the sample. *)
Definition scaled (ratio : f32) (s : Z) : Z :=
  let p := f32_mul s ratio in
  if f32_gtb p INT16_MAX then INT16_MAX else if f32_ltb p INT16_MIN then INT16_MIN else f32_trunc p.

Lemma map_range_ext (f g : Z -> Z -> Z) (i n : Z) (buf : list Z) :
  (forall j s, i <= j < i + n -> s ∈ buf -> f j s = g j s) -> map_range f i n buf = map_range g i n buf.
Proof.
  intros H. apply list_eq. intros k. unfold map_range. rewrite !list_lookup_imap.
  destruct (buf !! k) as [s|] eqn:E; [|done]. cbn. zif; [|done].
  f_equal. apply H; [lia|]. by eapply list_elem_of_lookup_2.
Qed.

(** C26. For up to 32 slots the gain of chosen slots is the map that scales the
    samples of the slots in the mask, with saturation, and leaves every other
    sample and the rest of the buffer as they were; when the mask holds all the
    slots it is what the gain of the whole buffer does. *)
Theorem slot_gain_equals_reference (slots mask : Z) (ratio : f32) (buf : list Z) (bytes : Z) :
  0 < slots <= 32 -> 0 <= ratio.(f_m) -> 0 <= bytes -> bytes / 2 <= zlen buf -> Forall is_s16 buf ->
  audio_extra_sw_slot_gain_16 slots mask ratio buf bytes
  = Done (map_range (fun j s => if Z.testbit mask (j mod slots) then scaled ratio s else s) 0 (bytes / 2) buf)
  /\ ((forall j, 0 <= j < slots -> Z.testbit mask j = true) ->
      audio_extra_sw_gain_16 ratio buf bytes = audio_extra_sw_slot_gain_16 slots mask ratio buf bytes).
Proof.
  intros S R B L F. rewrite list.Forall_forall in F. pose proof (Z.div_pos bytes 2 B ltac:(lia)) as P.
  unfold audio_extra_sw_slot_gain_16, audio_extra_sw_gain_16.
  rewrite (proj2 (Z.ltb_ge _ _) R), (proj2 (Z.leb_gt _ _)) by lia.
  rewrite slot_gain_loop_map, gain_loop_map by lia. rewrite Z2Nat.id by lia. split.
  - f_equal. apply map_range_ext. intros j s J E. unfold slot_gain.
    destruct (Z.testbit mask _); [apply gain_trunc|apply gain_one, F, E].
  - intros A. f_equal. apply map_range_ext. intros j s J E. unfold slot_gain.
    by rewrite A by (apply Z.mod_pos_bound; lia).
Qed.

Lemma slot_gain_equals_reference_witness :
  audio_extra_sw_slot_gain_16 2 2 {| f_m := 3; f_e := -1 |} [100; 101; -7; 30000; 5] 8
  = Done [100; 151; -7; 32767; 5].
Proof.
  rewrite (proj1 (slot_gain_equals_reference 2 2 {| f_m := 3; f_e := -1 |} [100; 101; -7; 30000; 5] 8
     ltac:(lia) ltac:(done) ltac:(done) ltac:(done)
     ltac:(repeat constructor; unfold INT16_MIN, INT16_MAX; lia))).
  reflexivity.
Defined.

(** ** The deadline of a wait *)

Lemma semwait_loop_app (k : nat) (answers : list timedwait) :
  semwait_loop (replicate k Interrupted ++ answers) = semwait_loop answers.
Proof. induction k; [done|]. cbn. done. Qed.

(** The result that an answer stands for. *)
Definition wait_result (a : timedwait) : Z :=
  match a with
  | TimedOut => OS_SYNC_TIMEOUT
  | WaitError => OS_SYNC_FAILED
  | Posted | Interrupted => OS_SYNC_RELEASED
  end.

(** Nanoseconds since the epoch. *)
Definition in_ns (t : Z * Z) : Z := t.1 * ONE_SEC_IN_NS + t.2.

Lemma deadline_exact (now : Z * Z) (ms : Z) :
  0 <= now.2 < ONE_SEC_IN_NS -> is_u32 ms ->
  in_ns (deadline now ms) = in_ns now + ms * 1000000 /\ 0 <= (deadline now ms).2 < ONE_SEC_IN_NS.
Proof.
  intros N M. pose proof (Z.div_mod ms 1000 ltac:(lia)) as D.
  pose proof (Z.mod_pos_bound ms 1000 ltac:(lia)) as B. unfold deadline, in_ns, ONE_SEC_IN_NS in *.
  rewrite u32_small by (unfold is_u32, UINT32_MAX; lia). zif; cbn [fst snd]; lia.
Qed.

(** A wait is given the moment that lies exactly [timeout_ms] after now, as
    a time whose nanoseconds are in range; interruptions by signals do not
    change it, and the result is the one of the first answer that is not an
    interruption, however many come before it. *)
Theorem semwait_waits_until_deadline (now : Z * Z) (wait : Z * Z -> list timedwait) (ms : Z)
    (k : nat) (a : timedwait) (rest : list timedwait) :
  0 <= now.2 < ONE_SEC_IN_NS -> is_u32 ms ->
  (forall t, in_ns t = in_ns now + ms * 1000000 -> 0 <= t.2 < ONE_SEC_IN_NS ->
     wait t = replicate k Interrupted ++ a :: rest) ->
  a <> Interrupted ->
  audio_extra_semwait now wait ms = Done (wait_result a).
Proof.
  intros N M W A. unfold audio_extra_semwait. destruct (deadline_exact now ms N M) as [E B].
  rewrite (W _ E B), semwait_loop_app. by destruct a.
Qed.

Lemma semwait_waits_until_deadline_witness :
  audio_extra_semwait (10, 999999999)
    (fun t => if (in_ns t =? 12499999999) && (t.1 =? 12) then [Interrupted; TimedOut; Posted] else [])
    1500 = Done OS_SYNC_TIMEOUT.
Proof.
  apply (semwait_waits_until_deadline (10, 999999999) _ 1500 1 TimedOut [Posted]).
  - cbn. unfold ONE_SEC_IN_NS. lia.
  - unfold is_u32, UINT32_MAX. lia.
  - intros [s n] E B. unfold in_ns, ONE_SEC_IN_NS in *. cbn [fst snd] in *.
    assert (s = 12 /\ n = 499999999) as [-> ->] by lia. reflexivity.
  - discriminate.
Defined.
