(* ===== verification/Remote.v ===== *)
(** * Commands to the remote audio service

    Models [remote.c] and the packets of [remote.h]: the socket to the audio
    service of the safety processor, the commands that start and stop audio
    paths and set their volume, and the thread that receives the messages of
    the service.  The socket layer of the kernel is the class [Rpmsg]; the
    requests for audio focus, which a C++ component carries out, are logged in
    the state. *)

From Stdlib Require Import ZArith Lia Ascii String.
From stdpp Require Import base list numbers.
From S2P Require Import Prelude CString BusVolume.

#[local] Open Scope Z_scope.

(** ** Packets *)

Definition IPCC_LEN_MAX : nat := 64.
Definition AUDIO_SERVICE_EPT : Z := 128.
Definition DP_CR5_SAF : Z := 0.
Definition DP_CR5_MPC : Z := 2.

(** [AM_OPCODE_TYPE] *)
Definition OP_HANDSHAKE : Z := 0.
Definition OP_START : Z := 1.
Definition OP_STOP : Z := 2.
Definition OP_SETVOL : Z := 5.
Definition OP_SWITCH : Z := 6.
Definition OP_CHIME_ON : Z := 17.
Definition OP_CHIME_OFF : Z := 18.

Record ipcc_data := {
  data : list Z;
  data_len : Z;
  data1 : list Z;
  data1_len : Z;
  cmd : Z;
  param : Z;
  reserved0 : Z;
  reserved1 : Z
}.

(** An [int32_t] in memory. *)
Definition le32 (z : Z) : list Z :=
  let w := u32 z in [w mod 256; w / 256 mod 256; w / 65536 mod 256; w / 16777216].
Definition of_le32 (l : list Z) : Z :=
  match l with
  | [a; b; c; d] => s32 (a + 256 * b + 65536 * c + 16777216 * d)
  | _ => 0
  end.

(** The bytes of a packet, as [write] sends them. *)
Definition ipcc_bytes (p : ipcc_data) : list Z :=
  p.(data) ++ le32 p.(data_len) ++ p.(data1) ++ le32 p.(data1_len)
  ++ [p.(cmd); p.(param); p.(reserved0); p.(reserved1)].

Definition sizeof_ipcc_data : Z := 140.
Definition sizeof_ipcc_ret : Z := 8.

(** [memcpy (&ipcc_read, data, sizeof (struct ipcc_data))] *)
Definition ipcc_of_bytes (l : list Z) : outcome ipcc_data :=
  let! l := mem_read l 0 sizeof_ipcc_data in
  match drop 136 l with
  | [c; p; r0; r1] =>
      Done {| data := take 64 l; data_len := of_le32 (take 4 (drop 64 l));
              data1 := take 64 (drop 68 l); data1_len := of_le32 (take 4 (drop 132 l));
              cmd := c; param := p; reserved0 := r0; reserved1 := r1 |}
  | _ => Undef
  end.

(** [IPCC_PACKED_PARAM]: the other members are zero; [param] is a [uint8_t]. *)
Definition IPCC_PACKED_PARAM (c p : Z) : ipcc_data :=
  {| data := replicate IPCC_LEN_MAX 0; data_len := 0; data1 := replicate IPCC_LEN_MAX 0;
     data1_len := 0; cmd := c; param := p mod 256; reserved0 := 0; reserved1 := 0 |}.

(** [IPCC_PACKED_PATH]: at most 64 characters, and no terminating NUL. *)
Definition path_bytes (path : string) : list Z := map code (list_ascii_of_string path).
Definition IPCC_PACKED_PATH (buf : list Z) (path : string) : list Z :=
  splice buf 0 (take IPCC_LEN_MAX (path_bytes path)).

Definition with_data (l : list Z) (p : ipcc_data) : ipcc_data :=
  {| data := l; data_len := p.(data_len); data1 := p.(data1); data1_len := p.(data1_len);
     cmd := p.(cmd); param := p.(param); reserved0 := p.(reserved0); reserved1 := p.(reserved1) |}.
Definition with_data1 (l : list Z) (p : ipcc_data) : ipcc_data :=
  {| data := p.(data); data_len := p.(data_len); data1 := l; data1_len := p.(data1_len);
     cmd := p.(cmd); param := p.(param); reserved0 := p.(reserved0); reserved1 := p.(reserved1) |}.

(** ** Sockets *)

Class Rpmsg (N : Type) := {
  rp_socket : N -> Z * N;
  (** [connect] to a processor and an endpoint *)
  rp_connect : Z -> Z -> Z -> N -> Z * N;
  rp_write : Z -> list Z -> N -> Z * N;
  (** the status, and the bytes that were stored *)
  rp_read : Z -> Z -> N -> Z * list Z * N;
  (** the packets that were handed over *)
  sent : N -> list (list Z)
}.

(** Opening does not send.  [write] fails with -1 and hands nothing over, or
    hands over as many bytes of the packet, from its start, as it returns. *)
Class RpmsgLaws (N : Type) `{Rpmsg N} := {
  socket_sent (n : N) : sent (rp_socket n).2 = sent n;
  connect_sent (fd cpu ept : Z) (n : N) : sent (rp_connect fd cpu ept n).2 = sent n;
  write_result (fd : Z) (bs : list Z) (n : N) : -1 <= (rp_write fd bs n).1 <= zlen bs;
  write_sent (fd : Z) (bs : list Z) (n : N) :
    sent (rp_write fd bs n).2
    = sent n ++ if 0 <? (rp_write fd bs n).1 then [take (Z.to_nat (rp_write fd bs n).1) bs] else []
}.

(** ** The service *)

Inductive focus_call := RequestFocus | AbandonFocus.

Section Remote.
Context {N : Type} `{Rpmsg N}.
(** Whether [IPCC_RPC_RPROC_MP] is defined. *)
Context (rproc_mp : bool).

(** [platform->remote], the threads that were started, the calls for audio
    focus, the bus status with its chime flag and the kernel. *)
Record remote := {
  fd : Z;
  threads : Z;
  focus : list focus_call;
  status : audio_bus_status;
  net : N
}.

Definition set_fd (x : Z) (s : remote) : remote :=
  {| fd := x; threads := s.(threads); focus := s.(focus); status := s.(status); net := s.(net) |}.
Definition set_net (n : N) (s : remote) : remote :=
  {| fd := s.(fd); threads := s.(threads); focus := s.(focus); status := s.(status); net := n |}.

(** A socket that can not be connected is not closed. *)
Definition ipcc_init (s : remote) : Z * remote :=
  let '(sock, n) := rp_socket s.(net) in
  let s := set_fd sock (set_net n s) in
  if sock <? 0 then (-1, s)
  else
    let '(ret, n) := rp_connect sock (if rproc_mp then DP_CR5_MPC else DP_CR5_SAF)
                       AUDIO_SERVICE_EPT s.(net) in
    let s := set_net n s in
    if ret <? 0 then (-1, set_fd (-1) s) else (0, s).

(** Without a socket the packet is dropped and the connection is opened. *)
Definition ipcc_ctrl (p : ipcc_data) (s : remote) : Z * remote :=
  if 0 <? s.(fd) then
    let '(ret, n) := rp_write s.(fd) (ipcc_bytes p) s.(net) in (ret, set_net n s)
  else let '(_, s) := ipcc_init s in (-1, s).

(** [created] is the result of [pthread_create]. *)
Definition audio_remote_init (created : Z) (s : remote) : Z * remote :=
  let '(ret, s) := ipcc_init s in
  if ret =? 0 then
    (created,
     {| fd := s.(fd); threads := if created =? 0 then s.(threads) + 1 else s.(threads);
        focus := s.(focus); status := s.(status); net := s.(net) |})
  else (ret, s).

(** ** Commands *)

Definition audio_remote_handshake (param : Z) : remote -> Z * remote :=
  ipcc_ctrl (IPCC_PACKED_PARAM OP_HANDSHAKE param).

Definition audio_remote_start (path : string) (param : Z) : remote -> Z * remote :=
  let pack := IPCC_PACKED_PARAM OP_START param in
  ipcc_ctrl (with_data (IPCC_PACKED_PATH pack.(data) path) pack).

(** The command is [OP_START] too. *)
Definition audio_remote_switch_path (src dst : string) (param : Z) : remote -> Z * remote :=
  let pack := IPCC_PACKED_PARAM OP_START param in
  let pack := with_data (IPCC_PACKED_PATH pack.(data) src) pack in
  ipcc_ctrl (with_data1 (IPCC_PACKED_PATH pack.(data1) dst) pack).

Definition audio_remote_stop (path : string) (s : remote) : Z * remote :=
  let pack := IPCC_PACKED_PARAM OP_STOP 0 in
  let '(_, s) := ipcc_ctrl (with_data (IPCC_PACKED_PATH pack.(data) path) pack) s in (0, s).

Definition audio_remote_set_volume (path : string) (param : Z) : remote -> Z * remote :=
  let pack := IPCC_PACKED_PARAM OP_SETVOL param in
  ipcc_ctrl (with_data (IPCC_PACKED_PATH pack.(data) path) pack).

(** ** Messages *)

(** What the thread does with a message of [ret] bytes in [buf]. *)
Definition ipcc_message (ret : Z) (buf : list Z) (s : remote) : outcome remote :=
  let chime b f :=
    {| fd := s.(fd); threads := s.(threads); focus := s.(focus) ++ [f];
       status := set_chime b s.(status); net := s.(net) |} in
  if ret <=? 0 then Done s
  else if ret =? sizeof_ipcc_data then
    let! p := ipcc_of_bytes buf in
    if p.(cmd) =? OP_CHIME_ON then Done (chime true RequestFocus)
    else if p.(cmd) =? OP_CHIME_OFF then Done (chime false AbandonFocus)
    else Done s
  else if ret =? sizeof_ipcc_ret then let! _ := mem_read buf 0 sizeof_ipcc_ret in Done s
  else Done s.

(** One round of [audio_ipcc_thread_loop], with its array [buf]; the thread
    starts with a handshake. *)
Definition ipcc_thread_round (buf : list Z) (s : remote) : outcome (list Z * remote) :=
  if 0 <? s.(fd) then
    let '(ret, bs, n) := rp_read s.(fd) 160 s.(net) in
    let! buf := mem_write buf 0 bs in
    let! s := ipcc_message ret buf (set_net n s) in
    Done (buf, s)
  else let '(_, s) := ipcc_init s in Done (buf, s).

Definition ipcc_thread_start (s : remote) : remote := (audio_remote_handshake 1 s).2.
End Remote.
Arguments remote N : clear implicits.

(** ** Packets in memory *)

Lemma of_le32_le32 (z : Z) : is_i32 z -> of_le32 (le32 z) = z.
Proof.
  intros R. unfold le32, of_le32.
  replace (u32 z mod 256 + 256 * (u32 z / 256 mod 256) + 65536 * (u32 z / 65536 mod 256)
           + 16777216 * (u32 z / 16777216)) with (u32 z).
  - unfold is_i32, INT32_MIN, INT32_MAX, s32, u32 in *. rewrite Zmod_mod.
    destruct (Z_lt_le_dec z 0).
    + rewrite <- (Z.mod_unique z 4294967296 (-1) (z + 4294967296)) by lia.
      unfold INT32_MAX. zif; lia.
    + rewrite Z.mod_small by lia. unfold INT32_MAX. zif; lia.
  - change 65536 with (256 * 256). change 16777216 with (256 * (256 * 256)).
    rewrite <- !Z.div_div by lia.
    pose proof (Z.div_mod (u32 z) 256 ltac:(lia)). pose proof (Z.div_mod (u32 z / 256) 256 ltac:(lia)).
    pose proof (Z.div_mod (u32 z / 256 / 256) 256 ltac:(lia)). lia.
Qed.

(** The members have their sizes. *)
Definition packet_ok (p : ipcc_data) : Prop :=
  length p.(data) = 64%nat /\ length p.(data1) = 64%nat /\ is_i32 p.(data_len) /\ is_i32 p.(data1_len).

Lemma length_ipcc_bytes (p : ipcc_data) : packet_ok p -> zlen (ipcc_bytes p) = sizeof_ipcc_data.
Proof.
  intros (L & L1 & _). unfold ipcc_bytes, zlen, sizeof_ipcc_data. rewrite !length_app, L, L1. done.
Qed.

(** The members of a structure that was laid out in memory. *)
Lemma layout (d a d1 b e : list Z) :
  length d = 64%nat -> length a = 4%nat -> length d1 = 64%nat -> length b = 4%nat ->
  let l := d ++ a ++ d1 ++ b ++ e in
  take 64 l = d /\ take 4 (drop 64 l) = a /\ take 64 (drop 68 l) = d1
  /\ take 4 (drop 132 l) = b /\ drop 136 l = e.
Proof.
  intros L0 La L1 Lb l. unfold l. clear l.
  assert (forall n r, drop (64 + n) (d ++ r) = drop n r) as D0
    by (intros; rewrite drop_app_ge, L0 by lia; f_equal; lia).
  assert (forall n r, drop (4 + n) (a ++ r) = drop n r) as Da
    by (intros; rewrite drop_app_ge, La by lia; f_equal; lia).
  assert (forall n r, drop (64 + n) (d1 ++ r) = drop n r) as D1
    by (intros; rewrite drop_app_ge, L1 by lia; f_equal; lia).
  split_and!.
  - by apply take_app_length'.
  - rewrite (D0 0%nat), drop_0. by apply take_app_length'.
  - rewrite (D0 4%nat), (Da 0%nat), drop_0. by apply take_app_length'.
  - rewrite (D0 68%nat), (Da 64%nat), (D1 0%nat), drop_0. by apply take_app_length'.
  - rewrite (D0 72%nat), (Da 68%nat), (D1 4%nat). by apply drop_app_length'.
Qed.

(** What was sent is what a receiver of the same structure sees. *)
Lemma ipcc_bytes_roundtrip (p : ipcc_data) (rest : list Z) :
  packet_ok p -> ipcc_of_bytes (ipcc_bytes p ++ rest) = Done p.
Proof.
  intros P. pose proof (length_ipcc_bytes p P) as L. destruct P as (L0 & L1 & R0 & R1).
  unfold ipcc_of_bytes. unfold zlen, sizeof_ipcc_data in *.
  rewrite mem_read_done by (unfold zlen; rewrite ?length_app; lia). cbn [obind].
  unfold zslice. rewrite drop_0, take_app_length' by lia.
  destruct p as [d dl d1 dl1 c pa r0 r1]. unfold ipcc_bytes.
  cbn [data data_len data1 data1_len cmd param reserved0 reserved1] in *.
  destruct (layout d (le32 dl) d1 (le32 dl1) [c; pa; r0; r1]) as (-> & -> & -> & -> & ->); try done.
  by rewrite !of_le32_le32.
Qed.

(** ** A session of commands *)

Inductive command :=
| Handshake (param : Z)
| Start (path : string) (param : Z)
| Switch (src dst : string) (param : Z)
| Stop (path : string)
| SetVolume (path : string) (param : Z).

(** The path as it arrives: cut or padded to 64 bytes. *)
Definition path_field (path : string) : list Z :=
  take 64 (path_bytes path) ++ replicate (64 - length (path_bytes path)) 0.

Definition no_path : list Z := replicate 64 0.

(** What the service should see of a command. *)
Definition packet_of (c : command) : ipcc_data :=
  let mk op p d d1 := {| data := d; data_len := 0; data1 := d1; data1_len := 0; cmd := op;
                         param := p mod 256; reserved0 := 0; reserved1 := 0 |} in
  match c with
  | Handshake p => mk OP_HANDSHAKE p no_path no_path
  | Start path p => mk OP_START p (path_field path) no_path
  | Switch src dst p => mk OP_START p (path_field src) (path_field dst)
  | Stop path => mk OP_STOP 0 (path_field path) no_path
  | SetVolume path p => mk OP_SETVOL p (path_field path) no_path
  end.

(** What a command returns when its packet's [write] returned [w], or -1 when
    there was no socket: a stop does not report it. *)
Definition command_status (c : command) (w : Z) : Z :=
  match c with Stop _ => 0 | _ => w end.

(** The message the service gets of a command whose [write] returned [w]. *)
Definition handed (c : command) (w : Z) : list (list Z) :=
  if 0 <? w then [take (Z.to_nat w) (ipcc_bytes (packet_of c))] else [].

Lemma packed_path_field (path : string) : IPCC_PACKED_PATH (replicate 64 0) path = path_field path.
Proof.
  unfold IPCC_PACKED_PATH, path_field, splice. rewrite take_0, drop_replicate. cbn [app].
  do 2 f_equal. rewrite length_take. unfold IPCC_LEN_MAX. lia.
Qed.

Lemma length_path_field (path : string) : length (path_field path) = 64%nat.
Proof. unfold path_field. rewrite length_app, length_take, length_replicate. lia. Qed.

Lemma packet_of_ok (c : command) : packet_ok (packet_of c).
Proof. destruct c; split_and!; try done; apply length_path_field. Qed.

Section Session.
Context {N : Type} `{RpmsgLaws N} (rproc_mp : bool).

Definition run_command (c : command) (s : remote N) : Z * remote N :=
  match c with
  | Handshake p => audio_remote_handshake rproc_mp p s
  | Start path p => audio_remote_start rproc_mp path p s
  | Switch src dst p => audio_remote_switch_path rproc_mp src dst p s
  | Stop path => audio_remote_stop rproc_mp path s
  | SetVolume path p => audio_remote_set_volume rproc_mp path p s
  end.

Fixpoint run_commands (cs : list command) (s : remote N) : list Z * remote N :=
  match cs with
  | [] => ([], s)
  | c :: cs =>
      let '(r, s) := run_command c s in
      let '(rs, s) := run_commands cs s in (r :: rs, s)
  end.

(** Every command hands its packet to [ipcc_ctrl]. *)
Lemma run_command_ctrl (c : command) (s : remote N) :
  run_command c s
  = let '(r, s) := ipcc_ctrl rproc_mp (packet_of c) s in
    (match c with Stop _ => 0 | _ => r end, s).
Proof.
  destruct c; cbn [run_command];
    unfold audio_remote_handshake, audio_remote_start, audio_remote_switch_path, audio_remote_stop,
      audio_remote_set_volume, IPCC_PACKED_PARAM, with_data, with_data1;
    cbn [data data1 data_len data1_len cmd param reserved0 reserved1];
    rewrite ?packed_path_field; by destruct (ipcc_ctrl _ _ s).
Qed.

Lemma ipcc_init_sent (s : remote N) : sent (ipcc_init rproc_mp s).2.(net) = sent s.(net).
Proof.
  unfold ipcc_init. pose proof (socket_sent s.(net)) as E1. destruct (rp_socket s.(net)) as [sock n].
  cbn in E1. destruct (sock <? 0); [done|]. cbn [net set_fd set_net].
  pose proof (connect_sent sock (if rproc_mp then DP_CR5_MPC else DP_CR5_SAF) AUDIO_SERVICE_EPT n) as E2.
  destruct (rp_connect _ _ _ n) as [ret n']. cbn in E2. destruct (ret <? 0); cbn; congruence.
Qed.

(** The packets of commands written one after the other on an open socket:
    what each [write] returned, and the kernel afterwards. *)
Fixpoint write_packets (sock : Z) (cs : list command) (n : N) : list Z * N :=
  match cs with
  | [] => ([], n)
  | c :: cs =>
      let '(w, n) := rp_write sock (ipcc_bytes (packet_of c)) n in
      let '(ws, n) := write_packets sock cs n in (w :: ws, n)
  end.

Lemma run_command_connected (c : command) (s : remote N) :
  0 < s.(fd) ->
  run_command c s
  = let '(w, n) := rp_write s.(fd) (ipcc_bytes (packet_of c)) s.(net) in (command_status c w, set_net n s).
Proof.
  intros C. rewrite run_command_ctrl. unfold ipcc_ctrl. rewrite (proj2 (Z.ltb_lt _ _) C).
  destruct (rp_write _ _ _). by destruct c.
Qed.

Lemma run_command_lost (c : command) (s : remote N) :
  s.(fd) <= 0 -> run_command c s = (command_status c (-1), (ipcc_init rproc_mp s).2).
Proof.
  intros C. rewrite run_command_ctrl. unfold ipcc_ctrl. rewrite (proj2 (Z.ltb_ge _ _) C).
  destruct (ipcc_init rproc_mp s). by destruct c.
Qed.

Lemma run_commands_connected (cs : list command) (s : remote N) :
  0 < s.(fd) ->
  run_commands cs s
  = let '(ws, n) := write_packets s.(fd) cs s.(net) in (zip_with command_status cs ws, set_net n s).
Proof.
  revert s. induction cs as [|c cs IH]; intros s C; cbn [run_commands write_packets]; [by destruct s|].
  rewrite run_command_connected by done. destruct (rp_write _ _ _) as [w n].
  rewrite IH by done. cbn [fd net set_net]. by destruct (write_packets _ _ _).
Qed.

Lemma write_packets_sent (sock : Z) (cs : list command) (n : N) :
  let '(ws, n') := write_packets sock cs n in
  length ws = length cs /\ Forall (fun w => -1 <= w <= sizeof_ipcc_data) ws
  /\ sent n' = sent n ++ concat (zip_with handed cs ws).
Proof.
  revert n. induction cs as [|c cs IH]; intros n; cbn [write_packets].
  { cbn. by rewrite app_nil_r. }
  pose proof (write_result sock (ipcc_bytes (packet_of c)) n) as R.
  pose proof (write_sent sock (ipcc_bytes (packet_of c)) n) as S.
  rewrite length_ipcc_bytes in R by apply packet_of_ok.
  destruct (rp_write sock _ n) as [w n1]. cbn [fst snd] in R, S. specialize (IH n1).
  destruct (write_packets sock cs n1) as [ws n2]. destruct IH as (L & F & E).
  split_and!; [cbn; by rewrite L|by constructor|]. cbn [zip_with concat]. by rewrite E, S, <- app_assoc.
Qed.

(** The connection is opened again by every command that finds none. *)
Definition reconnect (k : nat) (s : remote N) : remote N :=
  Nat.iter k (fun s => (ipcc_init rproc_mp s).2) s.

Lemma reconnect_S (k : nat) (s : remote N) :
  reconnect (S k) s = reconnect k (ipcc_init rproc_mp s).2.
Proof. unfold reconnect. by rewrite Nat.iter_succ_r. Qed.

Lemma reconnect_sent (k : nat) (s : remote N) : sent (reconnect k s).(net) = sent s.(net).
Proof.
  revert s. induction k as [|k IH]; intros s; [done|]. rewrite reconnect_S, IH. apply ipcc_init_sent.
Qed.

(** The commands that find no socket, and the state at the first that does. *)
Lemma run_commands_split (cs : list command) (s : remote N) :
  exists k, (k <= length cs)%nat
    /\ (forall j, (j < k)%nat -> (reconnect j s).(fd) <= 0)
    /\ (drop k cs = [] \/ 0 < (reconnect k s).(fd))
    /\ run_commands cs s
       = let '(ws, n) := write_packets (reconnect k s).(fd) (drop k cs) (reconnect k s).(net) in
         (map (fun c => command_status c (-1)) (take k cs) ++ zip_with command_status (drop k cs) ws,
          set_net n (reconnect k s)).
Proof.
  revert s. induction cs as [|c cs IH]; intros s.
  { exists 0%nat. split_and!; [done|lia|by left|]. by destruct s. }
  destruct (Z_lt_le_dec 0 s.(fd)) as [C | C].
  - exists 0%nat. split_and!; [lia|lia|by right|]. rewrite run_commands_connected by done.
    cbn [reconnect Nat.iter drop take map app]. by destruct (write_packets _ _ _).
  - destruct (IH (ipcc_init rproc_mp s).2) as (k & K0 & K1 & K2 & K3). exists (S k). split_and!.
    + cbn. lia.
    + intros [|j] J; [done|]. rewrite reconnect_S. apply K1. lia.
    + cbn [drop]. by rewrite reconnect_S.
    + cbn [run_commands]. rewrite run_command_lost by done. rewrite K3, reconnect_S. cbn [drop take map app].
      by destruct (write_packets _ _ _).
Qed.

(** C23. A session of commands.  The first [k] commands are those that find no
    socket: each is lost, opens the connection again and reports -1, but 0 if
    it is a stop.  From the first command that finds the socket open on, none
    when it is open at the start, each hands its packet to one [write], in
    order, and returns what the [write] returned, but a stop returns 0
    whatever it was; the socket is not closed by a [write] that fails.  The
    service has then got one message for each [write] that did not fail, cut
    to the bytes that were taken, and a message that was taken whole decodes
    to the operation, the paths cut to 64 bytes and the parameter modulo
    256. *)
Theorem remote_session_delivers (cs : list command) (s : remote N) :
  exists (k : nat) (ws : list Z) (n : N),
    (forall j, (j < k)%nat -> (reconnect j s).(fd) <= 0)
    /\ (drop k cs = [] \/ 0 < (reconnect k s).(fd))
    /\ write_packets (reconnect k s).(fd) (drop k cs) (reconnect k s).(net) = (ws, n)
    /\ run_commands cs s
       = (map (fun c => command_status c (-1)) (take k cs) ++ zip_with command_status (drop k cs) ws,
          set_net n (reconnect k s))
    /\ length ws = length (drop k cs) /\ Forall (fun w => -1 <= w <= sizeof_ipcc_data) ws
    /\ sent n = sent s.(net) ++ concat (zip_with handed (drop k cs) ws)
    /\ (forall c, map ipcc_of_bytes (handed c sizeof_ipcc_data) = [Done (packet_of c)]).
Proof.
  destruct (run_commands_split cs s) as (k & K0 & K1 & K2 & K3).
  pose proof (write_packets_sent (reconnect k s).(fd) (drop k cs) (reconnect k s).(net)) as W.
  destruct (write_packets _ _ _) as [ws n] eqn:E. destruct W as (W1 & W2 & W3).
  exists k, ws, n. rewrite reconnect_sent in W3. split_and!; try done.
  intros c. cbn [handed]. unfold handed. change (0 <? sizeof_ipcc_data) with true. cbn [map]. f_equal.
  rewrite take_ge by (pose proof (length_ipcc_bytes _ (packet_of_ok c)); unfold zlen in *; lia).
  rewrite <- (app_nil_r (ipcc_bytes _)). apply ipcc_bytes_roundtrip, packet_of_ok.
Qed.
End Session.

(** A connection whose first attempt to connect fails, as does every second
    write. *)
Record wire := { attempts : Z; writes : Z; packets : list (list Z) }.

Definition wire_write (bs : list Z) (n : wire) : Z * wire :=
  let ok := Z.even n.(writes) && negb (zlen bs =? 0) in
  (if ok then zlen bs else -1,
   {| attempts := n.(attempts); writes := n.(writes) + 1;
      packets := if ok then n.(packets) ++ [bs] else n.(packets) |}).

#[global] Instance wire_rpmsg : Rpmsg wire := {|
  rp_socket n := (5, n);
  rp_connect _ _ _ n := (if n.(attempts) =? 0 then -1 else 0,
                         {| attempts := n.(attempts) + 1; writes := n.(writes); packets := n.(packets) |});
  rp_write _ := wire_write;
  rp_read _ _ n := (-1, [], n);
  sent := packets
|}.

#[global] Instance wire_laws : RpmsgLaws wire.
Proof.
  split; try done; intros fd bs n; pose proof (zlen_nonneg bs); unfold rp_write, wire_rpmsg, wire_write;
    destruct (Z.even _), (zlen bs =? 0) eqn:E; zbool; cbn [andb negb fst snd]; try lia;
    cbn [sent packets]; try (by rewrite app_nil_r).
  rewrite (proj2 (Z.ltb_lt _ _)) by lia. rewrite take_ge by (unfold zlen; lia). done.
Qed.

Definition wire_start : remote wire :=
  {| fd := -1; threads := 0; focus := []; status := bus_status_init [];
     net := {| attempts := 0; writes := 0; packets := [] |} |}.

(** Two commands find no socket, the first of them not a stop; of the others
    two are sent and two fail, the last of them a stop, which reports 0. *)
Definition demo_session : list command :=
  [Start "P" 1; Stop "P"; SetVolume "P" 300; Handshake 1; Start "Q" 2; Stop "Q"]%string.

Lemma remote_session_delivers_witness :
  (run_commands false demo_session wire_start).1 = [-1; 0; 140; -1; 140; 0]
  /\ exists m1 m2, sent (run_commands false demo_session wire_start).2.(net) = [m1; m2]
     /\ ipcc_of_bytes m1 = Done (packet_of (SetVolume "P" 300))
     /\ ipcc_of_bytes m2 = Done (packet_of (Start "Q" 2)).
Proof.
  destruct (remote_session_delivers false demo_session wire_start)
    as (k & ws & n & K1 & K2 & K3 & E & _ & _ & S & D).
  assert (k = 2%nat) as ->.
  { destruct k as [|[|[|k]]]; [..|specialize (K1 2%nat ltac:(lia)); vm_compute in K1; congruence];
      try done; (destruct K2 as [K2 | K2]; [discriminate K2|vm_compute in K2; discriminate K2]). }
  assert (ws = [140; -1; 140; -1]) as -> by (vm_compute in K3; by injection K3 as <- _).
  rewrite E. split; [reflexivity|]. cbn [snd net set_net].
  assert (forall c, ipcc_of_bytes (take (Z.to_nat sizeof_ipcc_data) (ipcc_bytes (packet_of c)))
                    = Done (packet_of c)) as D'
    by (intros c; exact (f_equal (fun l => List.hd Undef l) (D c))).
  exists (take (Z.to_nat sizeof_ipcc_data) (ipcc_bytes (packet_of (SetVolume "P" 300)))),
         (take (Z.to_nat sizeof_ipcc_data) (ipcc_bytes (packet_of (Start "Q" 2)))).
  split; [exact S|]. split; apply D'.
Defined.

(** ** Messages of the service *)

Section Messages.
Context {N : Type}.

Fixpoint run_messages (ms : list ipcc_data) (s : remote N) : outcome (remote N) :=
  match ms with
  | [] => Done s
  | p :: ms =>
      let! s := ipcc_message sizeof_ipcc_data (ipcc_bytes p ++ replicate 20 0) s in run_messages ms s
  end.

Definition chime_op (p : ipcc_data) : option bool :=
  if p.(cmd) =? OP_CHIME_ON then Some true
  else if p.(cmd) =? OP_CHIME_OFF then Some false else None.

Definition focus_of (b : bool) : focus_call := if b then RequestFocus else AbandonFocus.

(** After any packets of the service the chime flag of the buses is the one
    of the last chime packet, and audio focus was requested or given up once
    for each of them, in their order; nothing else of the state changes. *)
Theorem chime_follows_messages (ms : list ipcc_data) (s : remote N) :
  Forall packet_ok ms ->
  let ops : list bool := omap chime_op ms in
  run_messages ms s
  = Done {| fd := s.(fd); threads := s.(threads); focus := s.(focus) ++ map focus_of ops;
            status := default s.(status) (option_map (fun b => set_chime b s.(status)) (list.last ops));
            net := s.(net) |}.
Proof.
  intros F. cbv zeta. revert s. induction F as [|p ms P F IH]; intros s; cbn [run_messages].
  { cbn. rewrite app_nil_r. by destruct s. }
  unfold ipcc_message. rewrite ipcc_bytes_roundtrip by done. cbn [obind].
  change (sizeof_ipcc_data <=? 0) with false. rewrite Z.eqb_refl.
  assert (omap chime_op (p :: ms) = match chime_op p with Some b => [b] | None => [] end
                                    ++ omap chime_op ms) as -> by (cbn; by destruct (chime_op p)).
  unfold chime_op at 1 3. destruct (p.(cmd) =? OP_CHIME_ON); [|destruct (p.(cmd) =? OP_CHIME_OFF)];
    cbn [obind]; rewrite IH; [..|done]; cbn [fd threads focus status net app map focus_of];
    rewrite <- app_assoc; cbn [app]; do 2 f_equal;
    rewrite last_cons; by destruct (list.last (omap chime_op ms)).
Qed.
End Messages.

Definition chime_packet (op : Z) : ipcc_data := IPCC_PACKED_PARAM op 0.

Lemma chime_follows_messages_witness :
  exists s, run_messages [chime_packet OP_CHIME_ON; chime_packet OP_SETVOL; chime_packet OP_CHIME_OFF;
                          chime_packet OP_CHIME_ON] wire_start = Done s
    /\ s.(status).(is_chime_on) = true
    /\ s.(focus) = [RequestFocus; AbandonFocus; RequestFocus].
Proof.
  rewrite (chime_follows_messages [chime_packet OP_CHIME_ON; chime_packet OP_SETVOL;
    chime_packet OP_CHIME_OFF; chime_packet OP_CHIME_ON] wire_start ltac:(repeat constructor; done)).
  eexists. split; [reflexivity|]. split; reflexivity.
Defined.
