(* ===== verification/OutputPath.v ===== *)
(** * Output paths of the remote audio service

    Models [open_output_path] and [close_output_path] of [audio_hw.c]: the
    streams that share a path of the remote service ([Remote]) count their
    users, and the path is started and stopped through commands. *)

From Stdlib Require Import ZArith Lia Ascii String.
From stdpp Require Import base list numbers.
From S2P Require Import Prelude CString BusVolume Remote.

#[local] Open Scope Z_scope.

Definition HIFI_PLAYBACK_TO_MAIN_SPK_48K : string := "PATH_HIFI_PLAYBACK_TO_MAIN_SPK_48K".
Definition NAV_PLAYBACK_TO_MAIN_SPK_48K : string := "PATH_NAV_PLAYBACK_TO_MAIN_SPK_48K".
Definition HIFI_PATH_FIXED_VOL : Z := 100.

Record path_state := { path_name : string; path_ref : Z }.

Definition paths : list path_state :=
  [{| path_name := HIFI_PLAYBACK_TO_MAIN_SPK_48K; path_ref := 0 |}].

(** The path of a bus, and the value of [apply] before the table is searched. *)
Definition select_path (bus_num : Z) : option (string * bool) :=
  if (bus_num =? 0) || (bus_num =? 5) || (bus_num =? 9)
  then Some (HIFI_PLAYBACK_TO_MAIN_SPK_48K, false)
  else if bus_num =? 3 then Some (NAV_PLAYBACK_TO_MAIN_SPK_48K, true)
  else None.

(** The loops over the table: the table and [apply] after them. *)
Fixpoint path_open (l : list path_state) (name : string) (apply : bool)
  : outcome (bool * list path_state) :=
  match l with
  | [] => Done (apply, [])
  | p :: l =>
      if (p.(path_name) =? name)%string then
        let! n := i32 (p.(path_ref) + 1) in
        Done (n >? 0, {| path_name := p.(path_name); path_ref := n |} :: l)
      else let! (apply, l) := path_open l name apply in Done (apply, p :: l)
  end.

Fixpoint path_close (l : list path_state) (name : string) (apply : bool)
  : outcome (bool * list path_state) :=
  match l with
  | [] => Done (apply, [])
  | p :: l =>
      if (p.(path_name) =? name)%string then
        let! n := i32 (p.(path_ref) - 1) in
        Done (n =? 0, {| path_name := p.(path_name); path_ref := if n <? 0 then 0 else n |} :: l)
      else let! (apply, l) := path_close l name apply in Done (apply, p :: l)
  end.

Section Paths.
Context {N : Type} `{Rpmsg N} (rproc_mp : bool).

(** The table and the remote service. *)
Record path_hal := { path_table : list path_state; path_remote : remote N }.

Definition open_output_path (bus_num : Z) (s : path_hal) : outcome path_hal :=
  match select_path bus_num with
  | None => Done s
  | Some (name, apply) =>
      let! (apply, t) := path_open s.(path_table) name apply in
      let r := if apply then (audio_remote_start rproc_mp name HIFI_PATH_FIXED_VOL s.(path_remote)).2
               else s.(path_remote) in
      Done {| path_table := t; path_remote := r |}
  end.

Definition close_output_path (bus_num : Z) (s : path_hal) : outcome path_hal :=
  match select_path bus_num with
  | None => Done s
  | Some (name, apply) =>
      let! (apply, t) := path_close s.(path_table) name apply in
      let r := if apply then (audio_remote_stop rproc_mp name s.(path_remote)).2
               else s.(path_remote) in
      Done {| path_table := t; path_remote := r |}
  end.

(** ** Sequences of openings and closings *)

Inductive path_op := PathOpen (bus_num : Z) | PathClose (bus_num : Z).

Definition run_path_op (o : path_op) (s : path_hal) : outcome path_hal :=
  match o with PathOpen b => open_output_path b s | PathClose b => close_output_path b s end.

Fixpoint run_path_ops (l : list path_op) (s : path_hal) : outcome path_hal :=
  match l with
  | [] => Done s
  | o :: l => let! s := run_path_op o s in run_path_ops l s
  end.

(** The commands that an operation should send when the main path has [n]
    users, and the users after it. *)
Definition spec_path_op (o : path_op) (n : nat) : list command * nat :=
  match o with
  | PathOpen b =>
      match select_path b with
      | Some (name, false) => ([Start name HIFI_PATH_FIXED_VOL], S n)
      | Some (name, true) => ([Start name HIFI_PATH_FIXED_VOL], n)
      | None => ([], n)
      end
  | PathClose b =>
      match select_path b with
      | Some (name, false) => (if Nat.eqb n 1 then [Stop name] else [], Nat.pred n)
      | Some (name, true) => ([Stop name], n)
      | None => ([], n)
      end
  end.

Fixpoint spec_path_ops (l : list path_op) (n : nat) : list command * nat :=
  match l with
  | [] => ([], n)
  | o :: l =>
      let '(c, n) := spec_path_op o n in
      let '(cs, n) := spec_path_ops l n in (c ++ cs, n)
  end.

Definition users (n : nat) : list path_state :=
  [{| path_name := HIFI_PLAYBACK_TO_MAIN_SPK_48K; path_ref := Z.of_nat n |}].

Lemma spec_path_op_grows (o : path_op) (n : nat) : ((spec_path_op o n).2 <= S n)%nat.
Proof. unfold spec_path_op. repeat case_match; cbn; lia. Qed.
End Paths.

Section PathProofs.
Context {N : Type} `{RpmsgLaws N} (rproc_mp : bool).

Lemma run_path_op_spec (o : path_op) (n : nat) (r : remote N) :
  Z.of_nat n < INT32_MAX ->
  let '(cs, n') := spec_path_op o n in
  run_path_op rproc_mp o {| path_table := users n; path_remote := r |}
  = Done {| path_table := users n'; path_remote := (run_commands rproc_mp cs r).2 |}.
Proof.
  intros B. unfold INT32_MAX in B. destruct o as [b|b]; cbn [spec_path_op run_path_op];
    unfold open_output_path, close_output_path, select_path;
    destruct ((b =? 0) || (b =? 5) || (b =? 9)); [|destruct (b =? 3)| |destruct (b =? 3)];
    cbn [path_table path_remote]; try reflexivity.
  - unfold users at 1. cbn [path_open path_name path_ref]. rewrite String.eqb_refl.
    rewrite i32_done by (unfold is_i32, INT32_MIN, INT32_MAX; lia). cbn [obind].
    rewrite Z.gtb_ltb, (proj2 (Z.ltb_lt _ _)) by lia. unfold users. do 3 f_equal.
    + do 2 f_equal. lia.
    + cbn [run_commands run_command]. by destruct (audio_remote_start _ _ _ _).
  - unfold users at 1. cbn [path_open path_name path_ref].
    change (HIFI_PLAYBACK_TO_MAIN_SPK_48K =? NAV_PLAYBACK_TO_MAIN_SPK_48K)%string with false.
    cbn [obind]. cbn [run_commands run_command]. by destruct (audio_remote_start _ _ _ _).
  - unfold users at 1. cbn [path_close path_name path_ref]. rewrite String.eqb_refl.
    rewrite i32_done by (unfold is_i32, INT32_MIN, INT32_MAX; lia). cbn [obind].
    destruct n as [|[|n]]; [reflexivity|..].
    + cbn [run_commands run_command]. cbn. by destruct (audio_remote_stop _ _ _).
    + rewrite (proj2 (Z.eqb_neq _ _)), (proj2 (Z.ltb_ge _ _)) by lia. unfold users. cbn [Nat.eqb Nat.pred].
      cbn. do 4 f_equal. lia.
  - unfold users at 1. cbn [path_close path_name path_ref].
    change (HIFI_PLAYBACK_TO_MAIN_SPK_48K =? NAV_PLAYBACK_TO_MAIN_SPK_48K)%string with false.
    cbn [obind]. cbn [run_commands run_command]. by destruct (audio_remote_stop _ _ _).
Qed.

Lemma run_commands_app (c1 c2 : list command) (r : remote N) :
  (run_commands rproc_mp (c1 ++ c2) r).2 = (run_commands rproc_mp c2 (run_commands rproc_mp c1 r).2).2.
Proof.
  revert r. induction c1 as [|c c1 IH]; intros r; cbn [app run_commands]; [done|].
  destruct (run_command rproc_mp c r) as [x r1]. specialize (IH r1).
  destruct (run_commands rproc_mp (c1 ++ c2) r1) as [l1 r2].
  destruct (run_commands rproc_mp c1 r1) as [l2 r3]. done.
Qed.

(** For every sequence of openings and closings of streams the remote
    service gets a start command for each opening and a stop command exactly
    when the last user of the main path leaves; closings without an opening
    are ignored, and the path of the navigation is started and stopped every
    time. *)
Theorem output_path_counted (l : list path_op) (r : remote N) :
  zlen l < INT32_MAX ->
  run_path_ops rproc_mp l {| path_table := paths; path_remote := r |}
  = Done {| path_table := users (spec_path_ops l 0).2;
            path_remote := (run_commands rproc_mp (spec_path_ops l 0).1 r).2 |}.
Proof.
  intros B. change paths with (users 0).
  assert (forall n, Z.of_nat n + zlen l < INT32_MAX -> forall r,
            run_path_ops rproc_mp l {| path_table := users n; path_remote := r |}
            = Done {| path_table := users (spec_path_ops l n).2;
                      path_remote := (run_commands rproc_mp (spec_path_ops l n).1 r).2 |}) as G;
    [|apply G; lia].
  clear r B. induction l as [|o l IH]; intros n B r; cbn [run_path_ops spec_path_ops]; [done|].
  unfold zlen in *. cbn [length] in B.
  pose proof (run_path_op_spec o n r ltac:(lia)) as E. pose proof (spec_path_op_grows o n) as Gr.
  destruct (spec_path_op o n) as [c n1]. cbn in Gr. rewrite E. cbn [obind]. rewrite IH by lia.
  destruct (spec_path_ops l n1) as [cs n2]. cbn [fst snd]. by rewrite run_commands_app.
Qed.
End PathProofs.

Lemma output_path_counted_witness :
  run_path_ops false [PathOpen 0; PathOpen 9; PathClose 0; PathClose 9; PathClose 0]
    {| path_table := paths; path_remote := wire_start |}
  = Done {| path_table := users 0;
            path_remote := (run_commands false
              [Start HIFI_PLAYBACK_TO_MAIN_SPK_48K 100; Start HIFI_PLAYBACK_TO_MAIN_SPK_48K 100;
               Stop HIFI_PLAYBACK_TO_MAIN_SPK_48K] wire_start).2 |}.
Proof.
  apply (output_path_counted false [PathOpen 0; PathOpen 9; PathClose 0; PathClose 9; PathClose 0]
           wire_start).
  reflexivity.
Defined.
