(* ===== verification/Platform.v ===== *)
(** * The platform: sound cards and their configuration

    Models [x9serial/platform.c]: the table of sound cards with its scan of
    the system and hot plugging, the names by which the HAL knows the cards,
    the look-ups by name and address, the head set jacks, the microphones and
    the checks of stream parameters.  [PlatformInfo] fills the configuration
    part from the XML description.

    What the code reads of the system is an argument: the entries of
    [/sys/class/sound] as a function from card numbers, the pins of
    [/sys/class/gpio] as a function from their numbers. *)

From Stdlib Require Import ZArith Lia Ascii String.
From stdpp Require Import base list numbers.
From S2P Require Import Prelude CString PcmPlugin PcmDevice Streamer AudioExtra.

#[local] Open Scope Z_scope.

(** ** Data *)

Definition CARD_NAME_LENGTH : nat := 32.
Definition AUDIO_IN : Z := 1.
Definition AUDIO_OUT : Z := 2.
Definition SSB_JACK_REAR2_GPIO : Z := 61.
Definition SSB_JACK_REAR3_GPIO : Z := 127.
Definition AUDIO_HAL_PLAYBACK : Z := 0.
Definition AUDIO_HAL_CAPTURE : Z := 1.
Definition REAR_SEAT2_HS_STATUS : Z := 2.
Definition REAR_SEAT3_HS_STATUS : Z := 4.
Definition ENOSYS : Z := 38.
Definition ENOEXEC : Z := 8.

Definition AUDIO_NAME_PRIMARY : string := "AUDIO_PRIMARY".
Definition AUDIO_NAME_CAPTURE : string := "AUDIO_CAPTURE".
Definition AUDIO_NAME_REAR1 : string := "AUDIO_REAR1".
Definition AUDIO_NAME_REAR2 : string := AUDIO_NAME_REAR1.
Definition AUDIO_NAME_REAR3 : string := "AUDIO_REAR3".
Definition AUDIO_NAME_USB : string := "AUDIO_USB".
Definition AUDIO_NAME_BT : string := "AUDIO_BT".

(** The names are shorter than their arrays of [CARD_NAME_LENGTH]. *)
Record audio_device_manager := {
  android_name : string;
  linux_name : string;
  dm_card : Z;
  dm_device : Z;
  flag_in : Z;
  flag_in_active : Z;
  flag_out : Z;
  flag_out_active : Z;
  flag_exist : bool;
  out_pcm_cfg : pcm_config;
  in_pcm_cfg : pcm_config
}.

(** [memset] *)
Definition zero_device : audio_device_manager :=
  {| android_name := EmptyString; linux_name := EmptyString; dm_card := 0; dm_device := 0; flag_in := 0;
     flag_in_active := 0; flag_out := 0; flag_out_active := 0; flag_exist := false;
     out_pcm_cfg := zero_config; in_pcm_cfg := zero_config |}.

Definition default_output_config : pcm_config :=
  {| channels := 8; rate := 48000; period_size := 960; period_count := 6;
     cfg_format := PCM_FORMAT_S16_LE; start_threshold := 0; stop_threshold := 0;
     silence_threshold := 0; silence_size := 0 |}.

Record name_map := { name_linux : string; name_android : string }.

Definition no_name : name_map := {| name_linux := EmptyString; name_android := EmptyString |}.

(** The static table; the last three entries are free. *)
Definition audio_name_map : list name_map :=
  [{| name_linux := "x9refak7738"; name_android := AUDIO_NAME_PRIMARY |};
   {| name_linux := "x9ref04ak7738"; name_android := AUDIO_NAME_PRIMARY |};
   {| name_linux := "x9refmach"; name_android := AUDIO_NAME_PRIMARY |};
   {| name_linux := "x9msmach"; name_android := AUDIO_NAME_PRIMARY |};
   {| name_linux := "d9refes7144"; name_android := AUDIO_NAME_PRIMARY |};
   {| name_linux := "d9refes7243e"; name_android := AUDIO_NAME_CAPTURE |};
   {| name_linux := "x9icl02ak7738"; name_android := AUDIO_NAME_PRIMARY |};
   {| name_linux := "x9core01ak7738"; name_android := AUDIO_NAME_PRIMARY |};
   {| name_linux := "x9refak4556"; name_android := AUDIO_NAME_REAR1 |};
   {| name_linux := "x9reftlv320aic2"; name_android := AUDIO_NAME_REAR1 |};
   {| name_linux := "x9reftlv320aic3"; name_android := AUDIO_NAME_REAR1 |};
   {| name_linux := "x9umsb1tlv320ai"; name_android := AUDIO_NAME_REAR3 |};
   {| name_linux := "x9msmach"; name_android := AUDIO_NAME_BT |};
   no_name; no_name; no_name].

(** ** The scan of the system *)

(** The loop of [find_name_map]: the table and the Android name after it.  A
    name that is not known takes the first free entry; when there is none the
    Android name stays as it was. *)
Fixpoint find_name_map (names : list name_map) (index : Z) (linux android : string)
  : list name_map * string :=
  match names with
  | [] => ([], android)
  | e :: names =>
      if (e.(name_linux) =? EmptyString)%string then
        let a := ("AUDIO_USB_" ++ print_int index)%string in
        ({| name_linux := linux; name_android := a |} :: names, a)
      else if (linux =? e.(name_linux))%string then (e :: names, e.(name_android))
      else
        let '(names, a) := find_name_map names (index + 1) linux android in (e :: names, a)
  end.

(** The file [id] of a card: it can not be opened, nothing can be read, or its
    text, which ends with a line feed. *)
Inductive id_node := IdAbsent | IdEmpty | IdText (s : string).

(** The directory of a card, and whether it has the two PCM nodes. *)
Record card_node := { n_id : id_node; n_playback : bool; n_capture : bool }.

(** The name that is stored: the last byte that was read becomes NUL. *)
Definition id_name (id : id_node) (old : string) : string :=
  match id with
  | IdText s =>
      let n := Nat.min CARD_NAME_LENGTH (String.length s) in
      if Nat.eqb n 0 then old else String.substring 0 (n - 1) s
  | _ => old
  end.

(** [do_init_audio_card] on the entry [d] of the card. *)
Definition do_init_audio_card (node : option card_node) (card : Z) (names : list name_map)
    (d : audio_device_manager) : Z * list name_map * audio_device_manager :=
  match node with
  | None => (-1, names, d)
  | Some node =>
      match node.(n_id) with
      | IdAbsent => (-1, names, d)
      | id =>
          let linux := id_name id d.(linux_name) in
          let '(names, android) := find_name_map names 0 linux d.(android_name) in
          (0, names,
           {| android_name := android; linux_name := linux; dm_card := card; dm_device := 0;
              flag_in := if node.(n_capture) then AUDIO_IN else d.(flag_in);
              flag_in_active := if node.(n_capture) then 0 else d.(flag_in_active);
              flag_out := if node.(n_playback) then AUDIO_OUT else d.(flag_out);
              flag_out_active := if node.(n_playback) then 0 else d.(flag_out_active);
              flag_exist := true;
              out_pcm_cfg := if node.(n_playback) && (android =? AUDIO_NAME_PRIMARY)%string
                             then default_output_config else d.(out_pcm_cfg);
              in_pcm_cfg := d.(in_pcm_cfg) |})
      end
  end.

Section Scan.
(** [/sys/class/sound]. *)
Context (sysfs : Z -> option card_node).

(** The loop of [sd_platform_init_audio_devices], over the entries from
    number [card] on. *)
Fixpoint init_cards (devs : list audio_device_manager) (card : Z) (names : list name_map)
  : list audio_device_manager * list name_map :=
  match devs with
  | [] => ([], names)
  | d :: devs =>
      let '(_, names, d) := do_init_audio_card (sysfs card) card names d in
      let '(devs, names) := init_cards devs (card + 1) names in (d :: devs, names)
  end.

Definition sd_platform_init_audio_devices (names : list name_map)
  : list audio_device_manager * list name_map :=
  init_cards (replicate (Z.to_nat MAX_AUDIO_DEVICES) zero_device) 0 names.

(** A card that is gone keeps its names and its number. *)
Definition unplug (d : audio_device_manager) : audio_device_manager :=
  {| android_name := d.(android_name); linux_name := d.(linux_name); dm_card := d.(dm_card);
     dm_device := d.(dm_device); flag_in := 0; flag_in_active := d.(flag_in_active); flag_out := 0;
     flag_out_active := d.(flag_out_active); flag_exist := false;
     out_pcm_cfg := d.(out_pcm_cfg); in_pcm_cfg := d.(in_pcm_cfg) |}.

Fixpoint sd_platform_update_audio_devices (devs : list audio_device_manager) (card : Z)
    (names : list name_map) : list audio_device_manager * list name_map :=
  match devs with
  | [] => ([], names)
  | d :: devs =>
      let '(d, names) :=
        match sysfs card with
        | Some node =>
            if d.(flag_exist) then (d, names)
            else let '(_, names, d) := do_init_audio_card (Some node) card names d in (d, names)
        | None => (if d.(flag_exist) then unplug d else d, names)
        end in
      let '(devs, names) := sd_platform_update_audio_devices devs (card + 1) names in
      (d :: devs, names)
  end.
End Scan.

(** ** Look-ups *)

(** Whether the entry [d] is meant by [name]: every USB card by the prefix. *)
Definition names_card (d : audio_device_manager) (name : string) : bool :=
  if (name =? AUDIO_NAME_USB)%string then String.prefix AUDIO_NAME_USB d.(android_name)
  else (d.(android_name) =? name)%string.

Fixpoint sd_platform_get_card_id (devs : list audio_device_manager) (name : string) : Z :=
  match devs with
  | [] => -1
  | d :: devs => if names_card d name then d.(dm_card) else sd_platform_get_card_id devs name
  end.

(** The card and, when there is one, the name that is copied. *)
Fixpoint sd_platform_get_card_name (devs : list audio_device_manager) (name : string)
  : Z * option string :=
  match devs with
  | [] => (-1, None)
  | d :: devs =>
      if (d.(android_name) =? name)%string then (d.(dm_card), Some d.(linux_name))
      else sd_platform_get_card_name devs name
  end.

Fixpoint sd_platform_get_card_pcm_config (devs : list audio_device_manager) (name : string)
    (direct : Z) (cfg : pcm_config) : Z * pcm_config :=
  match devs with
  | [] => (- EPIPE, cfg)
  | d :: devs =>
      if (d.(android_name) =? name)%string then
        (0, if direct =? AUDIO_HAL_PLAYBACK then
              let o := d.(out_pcm_cfg) in
              {| channels := o.(channels); rate := o.(rate); period_size := o.(period_size);
                 period_count := o.(period_count); cfg_format := o.(cfg_format);
                 start_threshold := cfg.(start_threshold); stop_threshold := cfg.(stop_threshold);
                 silence_threshold := cfg.(silence_threshold); silence_size := cfg.(silence_size) |}
            else cfg)
      else sd_platform_get_card_pcm_config devs name direct cfg
  end.

(** ** Head sets *)

(** What reading the value of a pin gives. *)
Inductive gpio_node := NoNode | NoOpen | NoRead | Value (s : string).

Definition get_headset_status (gpio : Z -> gpio_node) (android_name : string) : outcome Z :=
  let read pin :=
    match gpio pin with
    | Value s => atoi s
    | _ => Done (-1)
    end in
  if negb (android_name =? AUDIO_NAME_REAR2)%string then read SSB_JACK_REAR2_GPIO
  else if negb (android_name =? AUDIO_NAME_REAR3)%string then read SSB_JACK_REAR3_GPIO
  else Done (-1).

Definition get_hs_connect_status (gpio : Z -> gpio_node) : outcome Z :=
  let! r2 := get_headset_status gpio AUDIO_NAME_REAR2 in
  let s := if r2 >? 0 then Z.lor 0 REAR_SEAT2_HS_STATUS
           else Z.land 0 (Z.lnot REAR_SEAT2_HS_STATUS) in
  let! r3 := get_headset_status gpio AUDIO_NAME_REAR3 in
  Done (if r3 >? 0 then Z.lor s REAR_SEAT3_HS_STATUS
        else Z.land s (Z.lnot REAR_SEAT3_HS_STATUS)).

(** [hs_device] is the device the user chose. *)
Definition get_active_hs_device (gpio : Z -> gpio_node) (hs_device : Z) : outcome Z :=
  let! status := get_hs_connect_status gpio in
  let seat2 := negb (Z.land status REAR_SEAT2_HS_STATUS =? 0) in
  let seat3 := negb (Z.land status REAR_SEAT3_HS_STATUS =? 0) in
  Done (if (hs_device =? REAR_SEAT3_HS_STATUS) && seat3 then REAR_SEAT3_HS_STATUS
        else if seat2 then REAR_SEAT2_HS_STATUS
        else if seat3 then REAR_SEAT3_HS_STATUS
        else 0).

(** ** Microphones *)

Section Mics.
(** [struct audio_microphone_characteristic_t]. *)
Context {mic : Type} (unknown_mic : mic).

Definition AUDIO_MICROPHONE_MAX_COUNT : Z := 32.

(** The microphones that were declared, and their number. *)
Definition sd_platform_set_microphone_characteristic (m : mic) (mics : list mic) (count : Z)
  : outcome (bool * list mic * Z) :=
  if count >=? AUDIO_MICROPHONE_MAX_COUNT then Done (false, mics, count)
  else let! mics := array_set mics count m in Done (true, mics, count + 1).

(** [malloc_ok] is the success of the allocation, which is never released. *)
Definition process_microphone_characteristic (malloc_ok : bool) (mics : list mic) (count : Z)
  : outcome (list mic * Z) :=
  if malloc_ok then
    let! (_, mics, count) := sd_platform_set_microphone_characteristic unknown_mic mics count in
    Done (mics, count)
  else Done (mics, count).

Definition sd_platform_get_active_microphones : Z := - ENOSYS.

(** The loop that copies; [n] rounds from index [i]. *)
Fixpoint copy_mics (n : nat) (i : Z) (mics dst : list mic) : outcome (list mic) :=
  match n with
  | O => Done dst
  | S n =>
      let! m := array_get mics i in
      let! dst := array_set dst i m in
      copy_mics n (i + 1) mics dst
  end.

(** The status, the array and the count; [None] is a null pointer. *)
Definition sd_platform_get_microphones (mics : list mic) (mic_array : option (list mic))
    (mic_count : option Z) : outcome (Z * option (list mic) * option Z) :=
  match mic_count, mic_array with
  | Some count, Some a =>
      if count =? 0 then Done (0, Some a, Some 1)
      else
        let n := Z.min count 2 in
        let! a := copy_mics (Z.to_nat n) 0 mics a in
        Done (0, Some a, Some n)
  | _, _ => Done (- EINVAL, mic_array, mic_count)
  end.
End Mics.

(** ** Parameters of streams *)

Record audio_config := { sample_rate : Z; channel_mask : Z; ac_format : Z }.

Definition AUDIO_FORMAT_PCM_16_BIT : Z := 1.
Definition AUDIO_CHANNEL_IN_STEREO : Z := 12.
Definition AUDIO_CHANNEL_IN_2POINT0POINT2 : Z := 6291468.
Definition AUDIO_CHANNEL_IN_MONO : Z := 16.
Definition AUDIO_CHANNEL_IN_FRONT_BACK : Z := 48.
Definition AUDIO_CHANNEL_INDEX_MASK_8 : Z := 2147483903.
Definition AUDIO_CHANNEL_OUT_MONO : Z := 1.
Definition AUDIO_CHANNEL_OUT_STEREO : Z := 3.
Definition AUDIO_CHANNEL_OUT_7POINT1 : Z := 1599.
Definition AUDIO_CHANNEL_OUT_2POINT0POINT2 : Z := 786435.

Definition sd_platform_check_input (c : audio_config) : bool :=
  if negb (existsb (Z.eqb c.(sample_rate)) [8000; 11025; 16000; 22050; 24000; 32000; 44100; 48000])
  then false
  else if negb (c.(ac_format) =? AUDIO_FORMAT_PCM_16_BIT) then false
  else existsb (Z.eqb c.(channel_mask))
         [AUDIO_CHANNEL_IN_STEREO; AUDIO_CHANNEL_IN_2POINT0POINT2; AUDIO_CHANNEL_IN_MONO;
          AUDIO_CHANNEL_IN_FRONT_BACK; AUDIO_CHANNEL_INDEX_MASK_8].

Definition sd_platform_check_output (c : audio_config) : bool :=
  (c.(ac_format) =? AUDIO_FORMAT_PCM_16_BIT)
  && ((c.(channel_mask) =? AUDIO_CHANNEL_OUT_MONO) || (c.(channel_mask) =? AUDIO_CHANNEL_OUT_STEREO)
      || (c.(channel_mask) =? AUDIO_CHANNEL_OUT_7POINT1)
      || (c.(channel_mask) =? AUDIO_CHANNEL_OUT_2POINT0POINT2)).

(** ** The configuration *)

Definition MAX_NAME_LEN : nat := 64.

Record card_info_t := {
  ci_name : list ascii;
  ci_pcm_cfg : pcm_config;
  ci_card : Z;
  ci_device : Z;
  ci_bus_id : Z;
  ci_address : list ascii
}.

Record slot_map_t := { map_bus_num : Z; map_len : Z; map_slots : list Z; map_overlay : bool }.

Record misc_feature := {
  audio_route : bool;
  sw_in_src : bool;
  sw_out_src : bool;
  sw_ecnr : bool;
  sw_gain : bool;
  btcall : bool;
  ahub_en : bool
}.

Inductive bt_chip_connect_e := BT_CONNECT_WITH_DSP | BT_CONNECT_WITH_SOC.

(** [au_platform_info_t] and the members of [struct platform_data] that the
    description sets; [cards] is the array of [MAX_CARDS] entries. *)
Record platform := {
  dev_manager : list audio_device_manager;
  cards : list card_info_t;
  info_card_num : Z;
  misc : misc_feature;
  output_maps : list slot_map_t;
  bt_type : bt_chip_connect_e
}.

Definition set_dev_manager (l : list audio_device_manager) (p : platform) : platform :=
  {| dev_manager := l; cards := p.(cards); info_card_num := p.(info_card_num); misc := p.(misc);
     output_maps := p.(output_maps); bt_type := p.(bt_type) |}.
Definition set_cards (l : list card_info_t) (n : Z) (p : platform) : platform :=
  {| dev_manager := p.(dev_manager); cards := l; info_card_num := n; misc := p.(misc);
     output_maps := p.(output_maps); bt_type := p.(bt_type) |}.

(** The loop of [sd_platform_get_card_info] over the described cards: the
    rate, the format and the channels of the configuration are set. *)
Fixpoint get_card_info_loop (n : nat) (i : Z) (cards : list card_info_t) (addr : string)
    (cfg : pcm_config) : outcome (Z * option (Z * Z) * pcm_config) :=
  match n with
  | O => Done (-1, None, cfg)
  | S n =>
      let! c := array_get cards i in
      let! eq := strcmp_eq c.(ci_address) addr in
      if eq then
        let k := c.(ci_pcm_cfg) in
        Done (0, Some (c.(ci_card), c.(ci_device)),
              {| channels := k.(channels); rate := k.(rate); period_size := cfg.(period_size);
                 period_count := cfg.(period_count); cfg_format := k.(cfg_format);
                 start_threshold := cfg.(start_threshold); stop_threshold := cfg.(stop_threshold);
                 silence_threshold := cfg.(silence_threshold); silence_size := cfg.(silence_size) |})
      else get_card_info_loop n (i + 1) cards addr cfg
  end.

Definition sd_platform_get_card_info (p : platform) (addr : string) (cfg : pcm_config)
  : outcome (Z * option (Z * Z) * pcm_config) :=
  get_card_info_loop (Z.to_nat p.(info_card_num)) 0 p.(cards) addr cfg.

(** The loop of [platform_set_card_info] over the devices. *)
Fixpoint set_device_config (devs : list audio_device_manager) (info : card_info_t) (direct : Z)
  : outcome (list audio_device_manager) :=
  match devs with
  | [] => Done []
  | d :: devs =>
      let! eq := strcmp_eq info.(ci_name) d.(linux_name) in
      let d' :=
        if eq then
          {| android_name := d.(android_name); linux_name := d.(linux_name); dm_card := d.(dm_card);
             dm_device := d.(dm_device); flag_in := d.(flag_in);
             flag_in_active := d.(flag_in_active); flag_out := d.(flag_out);
             flag_out_active := d.(flag_out_active); flag_exist := d.(flag_exist);
             out_pcm_cfg := if direct =? AUDIO_HAL_PLAYBACK then info.(ci_pcm_cfg) else d.(out_pcm_cfg);
             in_pcm_cfg := if direct =? AUDIO_HAL_CAPTURE then info.(ci_pcm_cfg) else d.(in_pcm_cfg) |}
        else d in
      let! devs := set_device_config devs info direct in
      Done (d' :: devs)
  end.

Definition platform_set_card_info (info : card_info_t) (direct : Z) (p : platform)
  : outcome platform :=
  let! devs := set_device_config p.(dev_manager) info direct in
  let! l := array_set p.(cards) p.(info_card_num) info in
  let! n := i32 (p.(info_card_num) + 1) in
  Done (set_cards l n (set_dev_manager devs p)).

Definition platform_set_misc_config (f : misc_feature) (p : platform) : platform :=
  {| dev_manager := p.(dev_manager); cards := p.(cards); info_card_num := p.(info_card_num);
     misc := f; output_maps := p.(output_maps); bt_type := p.(bt_type) |}.

Definition platform_set_bt_connect (c : bt_chip_connect_e) (p : platform) : platform :=
  {| dev_manager := p.(dev_manager); cards := p.(cards); info_card_num := p.(info_card_num);
     misc := p.(misc); output_maps := p.(output_maps); bt_type := c |}.

(** [bus_id] is not compared with [MAX_BUS_NUM]. *)
Definition platform_set_slotmap_config (bus_id : Z) (m : slot_map_t) (p : platform)
  : outcome platform :=
  let! l := array_set p.(output_maps) (u32 bus_id) m in
  Done {| dev_manager := p.(dev_manager); cards := p.(cards); info_card_num := p.(info_card_num);
          misc := p.(misc); output_maps := l; bt_type := p.(bt_type) |}.

(** The handles of the streamer are static. *)
Definition platform_set_bind_bus (card_name : string) (bind_bus : Z) (g : list hal_streamer)
  : outcome (list hal_streamer) :=
  let! (_, g) := hal_streamer_bind_bus card_name (Z.of_nat (String.length card_name)) bind_bus g in
  Done g.

(** ** Starting and stopping the platform *)

Definition CODEC_NUM : Z := 2.
Definition MIXER_XML_NAME : string := "mixer_paths".

(** What the start builds: the split of the last card name, the cards that
    have a route, the mixers of the device, the mixers that are open and the
    number of starts of the remote service. *)
Record start_state := {
  sn_split : snd_card_split;
  routes : list Z;
  mixers : list (option Z);
  open_mixers : list Z;
  remote_starts : Z
}.

(** The name of the mixer description of a card. *)
Definition mixer_file (s : snd_card_split) : string :=
  String.substring 0 (MIXER_PATH_MAX_LENGTH - 1)
    (MIXER_XML_NAME ++ "_" ++ s.(chip) ++ "_" ++ s.(board) ++ "_" ++ s.(codec) ++ ".xml")%string.

Section Start.
(** The files that exist, the mixer of a card by its name, and whether the
    routes of a card can be loaded from a file. *)
Context (access : string -> bool) (mixer_open : Z -> option (option string))
  (audio_route_init : Z -> string -> bool).

(** Cards that get no mixer. *)
Definition skips_mixer (d : audio_device_manager) : bool :=
  String.prefix "d9" d.(linux_name) || String.prefix AUDIO_NAME_USB d.(android_name)
  || contains "mach" d.(linux_name).

Definition is_remote_card (d : audio_device_manager) : bool :=
  negb (String.prefix "d9" d.(linux_name)) && negb (String.prefix AUDIO_NAME_USB d.(android_name))
  && contains "mach" d.(linux_name).

(** The loop over the first [n] cards from number [i]; [Some m] is the jump to
    [init_failed] with the open mixer [m]. *)
Fixpoint start_cards (n : nat) (i : Z) (devs : list audio_device_manager) (f : misc_feature)
    (s : start_state) : outcome (option Z * start_state) :=
  match n with
  | O => Done (None, s)
  | S n =>
      let! d := array_get devs i in
      if skips_mixer d then
        start_cards n (i + 1) devs f
          {| sn_split := s.(sn_split); routes := s.(routes); mixers := s.(mixers);
             open_mixers := s.(open_mixers);
             remote_starts := if is_remote_card d && negb f.(ahub_en)
                              then s.(remote_starts) + 1 else s.(remote_starts) |}
      else
        match (if f.(audio_route) then mixer_open i else None) with
        | None => start_cards n (i + 1) devs f s
        | Some name =>
            let! split := audio_extra_set_snd_card_split name s.(sn_split) in
            let '(_, file) := audio_extra_utils_resolve_config_file access (mixer_file split) in
            if audio_route_init i file then
              let! m := if i <? CODEC_NUM then array_set s.(mixers) i (Some i) else Done s.(mixers) in
              start_cards n (i + 1) devs f
                {| sn_split := split; routes := s.(routes) ++ [i]; mixers := m;
                   open_mixers := i :: s.(open_mixers); remote_starts := s.(remote_starts) |}
            else
              Done (Some i,
                    {| sn_split := split; routes := s.(routes); mixers := s.(mixers);
                       open_mixers := i :: s.(open_mixers); remote_starts := s.(remote_starts) |})
        end
  end.

(** [sd_platform_init] after the description was read.  A failure closes the
    mixer of the card at hand and frees every route. *)
Definition sd_platform_start (p : platform) (s : start_state) : outcome (Z * start_state) :=
  let num := audio_extra_utils_get_snd_card_num (Some (map flag_exist p.(dev_manager))) in
  let! (failed, s) := start_cards (Z.to_nat num) 0 p.(dev_manager) p.(misc) s in
  match failed with
  | None => Done (0, s)
  | Some m =>
      Done (- ENOEXEC,
            {| sn_split := s.(sn_split); routes := []; mixers := s.(mixers);
               open_mixers := remove Z.eq_dec m s.(open_mixers);
               remote_starts := s.(remote_starts) |})
  end.
End Start.

(** [None] is a null device; a device without a platform is used all the same.
    The result holds the socket that is closed. *)
Definition sd_platform_deinit (adev : option (option Z)) : outcome (Z * option (option Z) * option Z) :=
  match adev with
  | None => Done (- EINVAL, None, None)
  | Some None => Undef
  | Some (Some remote) =>
      if remote =? 0 then Done (0, adev, None) else Done (0, Some (Some (-1)), Some remote)
  end.

(** ** Effects *)

Inductive sd_effect_direction := STREAM_OUT_EFFECT | STREAM_IN_EFFECT.

(** The two pointers of an output stream; libraries and descriptions are
    numbers. *)
Record effect := { effect_hdl : option Z; effect_desc : option Z }.

(** [dlopen] and [dlsym] give a library and its description; the result holds
    the library that is closed again, and the stream keeps pointing to it. *)
Definition sd_effect_init (direction : sd_effect_direction) (dlopen dlsym : option Z) (out : effect)
  : Z * effect * option Z :=
  let is_out := match direction with STREAM_OUT_EFFECT => true | STREAM_IN_EFFECT => false end in
  let ret := if is_out then 0 else - EINVAL in
  let keep e := if is_out then e else out in
  match dlopen with
  | None => (- ENOSYS, keep {| effect_hdl := None; effect_desc := None |}, None)
  | Some h =>
      match dlsym with
      | None => (- ENOSYS, keep {| effect_hdl := Some h; effect_desc := None |}, Some h)
      | Some d => (ret, keep {| effect_hdl := Some h; effect_desc := Some d |}, None)
      end
  end.

(** ** The table of cards *)

Definition usb_name (a : string) : Prop := String.prefix "AUDIO_USB_" a = true.

(** The names that the scan gives; [AUDIO_NAME_BT] is not one of them. *)
Definition known_name (a : string) : Prop :=
  a = EmptyString \/ a = AUDIO_NAME_PRIMARY \/ a = AUDIO_NAME_CAPTURE \/ a = AUDIO_NAME_REAR1
  \/ a = AUDIO_NAME_REAR3 \/ usb_name a.

(** The entries of the name table after the fixed ones. *)
Definition free_entry (e : name_map) : Prop := e.(name_linux) = EmptyString \/ usb_name e.(name_android).

Record names_ok (names : list name_map) : Prop := {
  names_fixed : take 13 names = take 13 audio_name_map;
  names_free : Forall free_entry (drop 13 names)
}.

Lemma names_ok_init : names_ok audio_name_map.
Proof. split; [done|]. repeat constructor. Qed.

Lemma usb_name_print (i : Z) : usb_name ("AUDIO_USB_" ++ print_int i).
Proof. unfold usb_name. cbn. by destruct (print_int i). Qed.

Lemma find_free_names (names : list name_map) (i : Z) (linux android : string) :
  Forall free_entry names ->
  Forall free_entry (find_name_map names i linux android).1
  /\ ((find_name_map names i linux android).2 = android
      \/ usb_name (find_name_map names i linux android).2).
Proof.
  intros F. revert i. induction F as [|e names E F IH]; intros i; cbn [find_name_map]; [by auto|].
  destruct (String.eqb_spec e.(name_linux) EmptyString) as [Z | Z].
  { pose proof (usb_name_print i). cbn. split; [constructor; [by right|done]|by right]. }
  destruct (String.eqb_spec linux e.(name_linux)).
  { cbn. destruct E; [done|]. split; [constructor; [by right|done]|by right]. }
  specialize (IH (i + 1)). destruct (find_name_map names (i + 1) linux android) as [names' a].
  cbn in *. destruct IH. split; [by constructor|done].
Qed.

(** A loop over fixed entries that do not match goes on behind them. *)
Lemma find_fixed_names (fixed names : list name_map) (i : Z) (linux android : string) :
  Forall (fun e => e.(name_linux) <> EmptyString) fixed ->
  find_name_map (fixed ++ names) i linux android
  = match find (fun e => (linux =? e.(name_linux))%string) fixed with
    | Some e => (fixed ++ names, e.(name_android))
    | None => let '(n, a) := find_name_map names (i + zlen fixed) linux android in (fixed ++ n, a)
    end.
Proof.
  intros F. revert i. induction F as [|e fixed E F IH]; intros i; cbn [app find_name_map find].
  { rewrite Z.add_0_r. by destruct (find_name_map names i linux android). }
  destruct (String.eqb_spec e.(name_linux) EmptyString); [done|].
  destruct (linux =? e.(name_linux))%string; [done|]. rewrite IH.
  destruct (find _ fixed); [done|].
  replace (i + 1 + zlen fixed) with (i + zlen (e :: fixed)) by (unfold zlen; cbn [length]; lia).
  by destruct (find_name_map names _ linux android).
Qed.

Lemma find_fixed_known (linux : string) (e : name_map) :
  find (fun e => (linux =? e.(name_linux))%string) (take 13 audio_name_map) = Some e ->
  known_name e.(name_android).
Proof.
  unfold audio_name_map, known_name. cbn [take find name_linux name_android].
  intros E.
  repeat match type of E with
         | context [(linux =? ?x)%string] =>
             destruct (String.eqb linux x); [injection E as <-; cbn; tauto|]
         end.
  discriminate E.
Qed.

Lemma find_name_map_ok (names : list name_map) (linux android : string) :
  names_ok names -> known_name android ->
  names_ok (find_name_map names 0 linux android).1
  /\ known_name (find_name_map names 0 linux android).2.
Proof.
  intros [T D] K. rewrite <- (take_drop 13 names), T.
  rewrite find_fixed_names by (repeat constructor; discriminate).
  destruct (find _ _) as [e|] eqn:E.
  - split; [|by apply (find_fixed_known linux)]. cbn [fst].
    split; [by rewrite take_app_length'|]. by rewrite drop_app_length'.
  - destruct (find_free_names (drop 13 names) (0 + zlen (take 13 audio_name_map)) linux android D)
      as [F U].
    destruct (find_name_map (drop 13 names) _ linux android) as [n a]. cbn [fst snd] in *. split.
    + split; [by rewrite take_app_length'|]. by rewrite drop_app_length'.
    + destruct U as [-> | U]; [done|]. unfold known_name. auto 10.
Qed.

(** An entry of the table of cards with the number [i]. *)
Definition entry_ok (i : Z) (d : audio_device_manager) : Prop :=
  known_name d.(android_name)
  /\ (d.(flag_exist) = true \/ d.(android_name) <> EmptyString -> d.(dm_card) = i).

Lemma init_card_ok (node : option card_node) (card : Z) (names : list name_map)
    (d : audio_device_manager) :
  names_ok names -> entry_ok card d ->
  let '(_, names', d') := do_init_audio_card node card names d in
  names_ok names' /\ entry_ok card d'
  /\ (forall n, node = Some n -> n.(n_id) <> IdAbsent -> d'.(flag_exist) = true)
  /\ (node = None -> d' = d).
Proof.
  intros N [K C]. unfold do_init_audio_card. destruct node as [node|]; [|done].
  destruct node.(n_id) eqn:E;
    [split_and!; [done|done|intros n [= <-] X; by destruct X|discriminate]|..];
    match goal with |- context [find_name_map names 0 ?l _] =>
      destruct (find_name_map_ok names l d.(android_name) N K) as [N' K'];
      destruct (find_name_map names 0 l d.(android_name)) as [n a]
    end; cbn [fst snd] in *; split_and!; try done.
Qed.

(** The entries of a table whose first one has the number [c]. *)
Definition table_ok (c : Z) (devs : list audio_device_manager) : Prop :=
  forall (k : nat) d, devs !! k = Some d -> entry_ok (c + Z.of_nat k) d.

Lemma table_ok_cons (c : Z) (d : audio_device_manager) (devs : list audio_device_manager) :
  table_ok c (d :: devs) <-> entry_ok c d /\ table_ok (c + 1) devs.
Proof.
  split.
  - intros T. split; [specialize (T 0%nat d eq_refl); by rewrite Z.add_0_r in T|].
    intros k d' E. replace (c + 1 + Z.of_nat k) with (c + Z.of_nat (S k)) by lia. by apply T.
  - intros [E T] [|k] d' L; [injection L as <-; by rewrite Z.add_0_r|].
    replace (c + Z.of_nat (S k)) with (c + 1 + Z.of_nat k) by lia. by apply T.
Qed.

Section ScanProofs.
Context (sysfs : Z -> option card_node).

Lemma init_cards_ok (devs : list audio_device_manager) (c : Z) (names : list name_map) :
  names_ok names -> table_ok c devs ->
  let '(devs', names') := init_cards sysfs devs c names in
  names_ok names' /\ table_ok c devs' /\ length devs' = length devs.
Proof.
  revert c names. induction devs as [|d devs IH]; intros c names N T; cbn [init_cards]; [done|].
  apply table_ok_cons in T as [E T].
  pose proof (init_card_ok (sysfs c) c names d N E) as I.
  destruct (do_init_audio_card _ c names d) as [[r n1] d1]. destruct I as (N1 & E1 & _).
  specialize (IH (c + 1) n1 N1 T). destruct (init_cards sysfs devs (c + 1) n1) as [devs' n2].
  destruct IH as (N2 & T2 & L). rewrite table_ok_cons. cbn. auto.
Qed.

(** The cards that are there, as far as their files can be read. *)
Definition readable : Prop := forall c n, sysfs c = Some n -> n.(n_id) <> IdAbsent.
Definition present (c : Z) : bool := match sysfs c with Some _ => true | None => false end.

Lemma update_ok (devs : list audio_device_manager) (c : Z) (names : list name_map) :
  names_ok names -> table_ok c devs ->
  let '(devs', names') := sd_platform_update_audio_devices sysfs devs c names in
  names_ok names' /\ table_ok c devs' /\ length devs' = length devs
  /\ (readable -> forall k d, devs' !! k = Some d -> d.(flag_exist) = present (c + Z.of_nat k)).
Proof.
  revert c names. induction devs as [|d devs IH]; intros c names N T;
    cbn [sd_platform_update_audio_devices]; [done|].
  apply table_ok_cons in T as [E T].
  assert (let '(d', n') :=
            match sysfs c with
            | Some node =>
                if d.(flag_exist) then (d, names)
                else let '(_, names, d) := do_init_audio_card (Some node) c names d in (d, names)
            | None => (if d.(flag_exist) then unplug d else d, names)
            end in
          names_ok n' /\ entry_ok c d' /\ (readable -> d'.(flag_exist) = present c)) as H.
  { unfold readable, present. destruct (sysfs c) as [node|] eqn:S.
    - destruct d.(flag_exist) eqn:X; [done|].
      pose proof (init_card_ok (Some node) c names d N E) as I.
      destruct (do_init_audio_card _ c names d) as [[r n1] d1]. destruct I as (N1 & E1 & P & _).
      split_and!; [done..|]. intros R. eapply P; [done|]. by eapply R.
    - destruct d.(flag_exist) eqn:X; [|done]. destruct E as [K C]. split_and!; try done.
      split; [done|]. intros _. apply C. by left. }
  destruct (match sysfs c with Some _ => _ | None => _ end) as [d' n']. destruct H as (N1 & E1 & P).
  specialize (IH (c + 1) n' N1 T).
  destruct (sd_platform_update_audio_devices sysfs devs (c + 1) n') as [devs' n2].
  destruct IH as (N2 & T2 & L & P2). rewrite table_ok_cons. cbn [length]. split_and!; [done..|auto|].
  intros R [|k] d2 Ek; [injection Ek as <-; rewrite Z.add_0_r; by apply P|].
  replace (c + Z.of_nat (S k)) with (c + 1 + Z.of_nat k) by lia. by apply P2.
Qed.
End ScanProofs.

(** The tables that the scan at the start and any number of updates lead to. *)
Inductive scanned : list audio_device_manager -> list name_map -> Prop :=
| scanned_init (sysfs : Z -> option card_node) (devs : list audio_device_manager) (names : list name_map) :
    sd_platform_init_audio_devices sysfs audio_name_map = (devs, names) -> scanned devs names
| scanned_update (sysfs : Z -> option card_node) (devs devs' : list audio_device_manager)
    (names names' : list name_map) :
    scanned devs names ->
    sd_platform_update_audio_devices sysfs devs 0 names = (devs', names') -> scanned devs' names'.

Lemma scanned_ok (devs : list audio_device_manager) (names : list name_map) :
  scanned devs names -> names_ok names /\ table_ok 0 devs /\ length devs = 16%nat.
Proof.
  induction 1 as [sysfs devs names E | sysfs devs devs' names names' _ (N & T & L) E].
  - pose proof (init_cards_ok sysfs (replicate 16 zero_device) 0 audio_name_map names_ok_init) as I.
    unfold sd_platform_init_audio_devices in E. change (Z.to_nat MAX_AUDIO_DEVICES) with 16%nat in E.
    rewrite E in I. rewrite length_replicate in I. apply I.
    intros k d [-> _]%lookup_replicate. split; [by left|]. cbn. intuition congruence.
  - pose proof (update_ok sysfs devs 0 names N T) as U. rewrite E in U. intuition congruence.
Qed.

(** The first position of an entry that [name] means. *)
Fixpoint first_named (devs : list audio_device_manager) (i : Z) (name : string) : option Z :=
  match devs with
  | [] => None
  | d :: devs => if names_card d name then Some i else first_named devs (i + 1) name
  end.

Lemma card_id_first (devs : list audio_device_manager) (c : Z) (name : string) :
  table_ok c devs -> name <> EmptyString ->
  sd_platform_get_card_id devs name = default (-1) (first_named devs c name).
Proof.
  revert c. induction devs as [|d devs IH]; intros c T Nm; cbn; [done|].
  apply table_ok_cons in T as [[K C] T]. destruct (names_card d name) eqn:E; [|by apply IH].
  apply C. right. intros Z. unfold names_card in E. rewrite Z in E.
  destruct (name =? AUDIO_NAME_USB)%string; [done|].
  destruct (String.eqb_spec EmptyString name); congruence.
Qed.

Lemma first_named_none (devs : list audio_device_manager) (c : Z) (name : string) :
  Forall (fun d => names_card d name = false) devs -> first_named devs c name = None.
Proof.
  intros F. revert c. induction F as [|d devs E F IH]; intros c; cbn; [done|]. by rewrite E.
Qed.

Lemma known_not_bt (a : string) : known_name a -> (a =? AUDIO_NAME_BT)%string = false.
Proof.
  intros [->|[->|[->|[->|[->|U]]]]]; try reflexivity.
  destruct (String.eqb_spec a AUDIO_NAME_BT) as [-> | ]; [discriminate U|done].
Qed.

(** A card that is gone keeps its name. *)
Lemma card_id_unplugged (sysfs : Z -> option card_node) (devs : list audio_device_manager) (c : Z)
    (names : list name_map) (name : string) :
  (forall c, sysfs c = None) ->
  sd_platform_get_card_id (sd_platform_update_audio_devices sysfs devs c names).1 name
  = sd_platform_get_card_id devs name.
Proof.
  intros A. revert c. induction devs as [|d devs IH]; intros c;
    cbn [sd_platform_update_audio_devices]; [done|].
  rewrite A. specialize (IH (c + 1)).
  destruct (sd_platform_update_audio_devices sysfs devs (c + 1) names) as [devs' n'].
  cbn in *. rewrite IH. by destruct d.(flag_exist).
Qed.

(** C25. After the scan and any hot plugging, a card is found by its Android
    name as the first table position with that name, the number of the entry is
    its position, and the position exists exactly when the system has the card
    at the last update; no card is ever known as the Bluetooth card, and when
    all cards are gone every name is still found as before. *)
Theorem card_table_follows_system (sysfs : Z -> option card_node)
    (devs devs' : list audio_device_manager) (names names' : list name_map) :
  scanned devs names -> readable sysfs ->
  sd_platform_update_audio_devices sysfs devs 0 names = (devs', names') ->
  (forall name, name <> EmptyString ->
     sd_platform_get_card_id devs' name = default (-1) (first_named devs' 0 name))
  /\ (forall c d, 0 <= c -> devs' !! Z.to_nat c = Some d ->
        d.(flag_exist) = present sysfs c /\ (d.(flag_exist) = true -> d.(dm_card) = c))
  /\ sd_platform_get_card_id devs' AUDIO_NAME_BT = -1
  /\ ((forall c, sysfs c = None) ->
      forall name, sd_platform_get_card_id devs' name = sd_platform_get_card_id devs name).
Proof.
  intros S R E. destruct (scanned_ok devs names S) as (N & T & L).
  pose proof (update_ok sysfs devs 0 names N T) as U. rewrite E in U.
  destruct U as (N' & T' & L' & P). split_and!.
  - intros name Nm. by apply card_id_first.
  - intros c d C Ed. specialize (P R _ _ Ed). destruct (T' _ _ Ed) as [_ X].
    rewrite Z2Nat.id in * by lia. rewrite Z.add_0_l in *. auto.
  - rewrite (card_id_first devs' 0) by done. rewrite first_named_none; [done|].
    apply list.Forall_forall. intros d [k Ek]%list_elem_of_lookup. unfold names_card.
    change (AUDIO_NAME_BT =? AUDIO_NAME_USB)%string with false. cbn match.
    apply known_not_bt, (T' _ _ Ek).
  - intros A name. replace devs' with (sd_platform_update_audio_devices sysfs devs 0 names).1
      by (by rewrite E). by apply card_id_unplugged.
Qed.

Definition two_cards (c : Z) : option card_node :=
  if c =? 0 then Some {| n_id := IdText ("x9msmach" ++ String "010" EmptyString);
                         n_playback := true; n_capture := true |}
  else if c =? 3 then Some {| n_id := IdText ("phone" ++ String "010" EmptyString);
                              n_playback := true; n_capture := false |}
  else None.

Lemma card_table_follows_system_witness :
  let '(devs, names) := sd_platform_init_audio_devices (fun _ => None) audio_name_map in
  let '(devs', _) := sd_platform_update_audio_devices two_cards devs 0 names in
  sd_platform_get_card_id devs' AUDIO_NAME_USB = 3 /\ sd_platform_get_card_id devs' AUDIO_NAME_BT = -1.
Proof.
  destruct (sd_platform_init_audio_devices (fun _ => None) audio_name_map) as [devs names] eqn:E.
  destruct (sd_platform_update_audio_devices two_cards devs 0 names) as [devs' names'] eqn:U.
  assert (readable two_cards) as R.
  { intros c n. unfold two_cards. destruct (c =? 0); [intros [= <-]; done|].
    destruct (c =? 3); [intros [= <-]; done|done]. }
  destruct (card_table_follows_system two_cards devs devs' names names'
              (scanned_init _ _ _ E) R U) as (_ & _ & B & _).
  split; [|exact B]. injection E as <- <-. injection U as <- <-. reflexivity.
Defined.

(** ** Head sets and their pins *)

(** Whether the pin reads as a positive number. *)
Definition plugged (gpio : Z -> gpio_node) (pin : Z) : outcome bool :=
  match gpio pin with
  | Value s => let! v := atoi s in Done (v >? 0)
  | _ => Done false
  end.

(** The bit of a rear seat is set exactly when the jack of the other rear
    seat is plugged, because the names are compared the wrong way round, and
    the device that is used follows these bits: the chosen seat 3 first, then
    seat 2, then seat 3. *)
Theorem headset_pins_crossed (gpio : Z -> gpio_node) (hs_device : Z) (b2 b3 : bool) :
  plugged gpio SSB_JACK_REAR2_GPIO = Done b2 -> plugged gpio SSB_JACK_REAR3_GPIO = Done b3 ->
  get_hs_connect_status gpio
  = Done ((if b3 then REAR_SEAT2_HS_STATUS else 0) + (if b2 then REAR_SEAT3_HS_STATUS else 0))
  /\ get_active_hs_device gpio hs_device
     = Done (if b2 && ((hs_device =? REAR_SEAT3_HS_STATUS) || negb b3) then REAR_SEAT3_HS_STATUS
             else if b3 then REAR_SEAT2_HS_STATUS else 0).
Proof.
  intros E2 E3.
  assert (get_hs_connect_status gpio
          = Done ((if b3 then REAR_SEAT2_HS_STATUS else 0) + (if b2 then REAR_SEAT3_HS_STATUS else 0)))
    as S.
  { unfold get_hs_connect_status, get_headset_status, plugged in *.
    change (AUDIO_NAME_REAR2 =? AUDIO_NAME_REAR2)%string with true.
    change (AUDIO_NAME_REAR2 =? AUDIO_NAME_REAR3)%string with false.
    change (AUDIO_NAME_REAR3 =? AUDIO_NAME_REAR2)%string with false. cbn [negb].
    destruct (gpio SSB_JACK_REAR3_GPIO); cbn [obind] in *;
      destruct (gpio SSB_JACK_REAR2_GPIO); cbn [obind] in *;
      repeat match goal with H : obind (atoi ?s) _ = Done _ |- _ =>
               destruct (atoi s); try discriminate H end;
      cbn [obind] in *; injection E2 as <-; injection E3 as <-;
      repeat (zif; try lia); reflexivity. }
  split; [exact S|]. unfold get_active_hs_device. rewrite S. cbn [obind].
  destruct b2, b3; cbn; destruct (hs_device =? REAR_SEAT3_HS_STATUS); reflexivity.
Qed.

Lemma headset_pins_crossed_witness :
  get_hs_connect_status (fun pin => if pin =? 61 then Value "1" else NoNode)
  = Done REAR_SEAT3_HS_STATUS.
Proof.
  exact (proj1 (headset_pins_crossed (fun pin => if pin =? 61 then Value "1" else NoNode) 0 true false
    eq_refl eq_refl)).
Defined.

(** ** Routes at the start *)

Section StartProofs.
Context (access : string -> bool) (mixer_open : Z -> option (option string))
  (audio_route_init : Z -> string -> bool).
Context (mixers_open : forall i, exists name, mixer_open i = Some (Some name))
  (routes_load : forall i file, audio_route_init i file = true).

(** The cards that get a route, of the entries with the numbers from [i]. *)
Fixpoint routed (devs : list audio_device_manager) (i : Z) : list Z :=
  match devs with
  | [] => []
  | d :: devs => if skips_mixer d then routed devs (i + 1) else i :: routed devs (i + 1)
  end.

Lemma split_named (name : string) (cur : snd_card_split) :
  exists s, audio_extra_set_snd_card_split (Some name) cur = Done s.
Proof. unfold audio_extra_set_snd_card_split. repeat case_match; eauto. Qed.

Lemma start_cards_routes (n : nat) (i : Z) (devs : list audio_device_manager) (f : misc_feature)
    (s : start_state) :
  0 <= i -> i + Z.of_nat n <= zlen devs -> zlen s.(mixers) = CODEC_NUM -> f.(audio_route) = true ->
  exists s', start_cards access mixer_open audio_route_init n i devs f s = Done (None, s')
    /\ s'.(routes) = s.(routes) ++ routed (take n (drop (Z.to_nat i) devs)) i.
Proof using mixers_open routes_load.
  revert i s. induction n as [|n IH]; intros i s I B M A; cbn [start_cards].
  { exists s. by rewrite take_0, app_nil_r. }
  destruct (lookup_lt_is_Some_2 devs (Z.to_nat i)) as [d Ed]; [unfold zlen in B; lia|].
  rewrite (array_get_lookup _ _ _ I Ed). cbn [obind]. rewrite (drop_S _ _ _ Ed). cbn [take routed].
  replace (S (Z.to_nat i)) with (Z.to_nat (i + 1)) by lia.
  destruct (skips_mixer d).
  { match goal with |- context [start_cards _ _ _ n (i + 1) devs f ?x] =>
      destruct (IH (i + 1) x) as (s' & E & R); [lia|lia|done|done|exists s'; by rewrite E, R] end. }
  rewrite A. destruct (mixers_open i) as [name ->].
  destruct (split_named name s.(sn_split)) as [sp ->]. cbn [obind].
  destruct (audio_extra_utils_resolve_config_file access (mixer_file sp)) as [b file].
  rewrite routes_load.
  assert (exists m, (if i <? CODEC_NUM then array_set s.(mixers) i (Some i) else Done s.(mixers)) = Done m
            /\ zlen m = CODEC_NUM) as (m & -> & Lm).
  { zif; [|eauto]. rewrite array_set_done by lia. eexists. split; [done|].
    unfold zlen in *. by rewrite length_insert. }
  cbn [obind].
  match goal with |- context [start_cards _ _ _ n (i + 1) devs f ?x] =>
    destruct (IH (i + 1) x) as (s' & E & R); [lia|lia|done|done|] end.
  exists s'. rewrite E, R. cbn [routes]. by rewrite <- app_assoc.
Qed.
End StartProofs.

(** When the mixers and routes of the cards can be loaded, the start gives
    a route to the cards with a mixer of their own among the first card
    numbers, as many numbers as there are cards: a card whose number is not
    below the number of cards is left without a route. *)
Theorem platform_start_routes (access : string -> bool) (mixer_open : Z -> option (option string))
    (audio_route_init : Z -> string -> bool) (p : platform) (s : start_state) :
  (forall i, exists name, mixer_open i = Some (Some name)) ->
  (forall i file, audio_route_init i file = true) ->
  length p.(dev_manager) = 16%nat -> zlen s.(mixers) = CODEC_NUM -> p.(misc).(audio_route) = true ->
  exists s', sd_platform_start access mixer_open audio_route_init p s = Done (0, s')
    /\ s'.(routes)
       = s.(routes) ++ routed (take (length (base.filter (fun d => d.(flag_exist) = true) p.(dev_manager)))
                                 p.(dev_manager)) 0.
Proof.
  intros MO RL L M A. unfold sd_platform_start, audio_extra_utils_get_snd_card_num.
  rewrite take_ge by (rewrite length_map; lia). rewrite Nat2Z.id.
  assert (forall l : list audio_device_manager,
            length (base.filter (fun b => b = true) (map flag_exist l))
            = length (base.filter (fun d => d.(flag_exist) = true) l)) as F.
  { induction l as [|d l IH]; [done|]. cbn [map]. rewrite !filter_cons.
    destruct (decide (d.(flag_exist) = true)); cbn [length]; congruence. }
  rewrite F. set (n := length (base.filter _ p.(dev_manager))).
  assert (n <= 16)%nat by (unfold n; rewrite <- L; apply length_filter).
  destruct (start_cards_routes access mixer_open audio_route_init MO RL n 0 p.(dev_manager) p.(misc) s)
    as (s' & -> & E); [lia|unfold zlen; lia|done|done|].
  cbn [obind]. exists s'. by rewrite E, drop_0.
Qed.

(** A card that exists and one that does not. *)
Definition plain_card (e : bool) (c : Z) (name : string) : audio_device_manager :=
  {| android_name := name; linux_name := name; dm_card := c; dm_device := 0; flag_in := 0;
     flag_in_active := 0; flag_out := 0; flag_out_active := 0; flag_exist := e;
     out_pcm_cfg := zero_config; in_pcm_cfg := zero_config |}.

Definition no_features : misc_feature :=
  {| audio_route := false; sw_in_src := false; sw_out_src := false; sw_ecnr := false;
     sw_gain := false; btcall := false; ahub_en := false |}.

(** The cards 0 and 2: card 1 is missing, and card 2 gets no route. *)
Lemma platform_start_routes_witness :
  exists s', sd_platform_start (fun _ => true) (fun _ => Some (Some "a-b-c"%string)) (fun _ _ => true)
      {| dev_manager := plain_card true 0 "x9refak7738" :: plain_card false 0 "x9refak4556"
                        :: plain_card true 2 "x9reftlv320aic2" :: replicate 13 zero_device;
         cards := []; info_card_num := 0;
         misc := {| audio_route := true; sw_in_src := false; sw_out_src := false; sw_ecnr := false;
                    sw_gain := false; btcall := false; ahub_en := false |};
         output_maps := []; bt_type := BT_CONNECT_WITH_DSP |}
      {| sn_split := {| chip := EmptyString; codec := EmptyString; board := EmptyString |};
         routes := []; mixers := [None; None]; open_mixers := []; remote_starts := 0 |} = Done (0, s')
    /\ s'.(routes) = [0; 1].
Proof.
  apply platform_start_routes; [|reflexivity..]. intros i. by eexists.
Defined.
