(* ===== verification/PlatformInfo.v ===== *)
(** * The description of the platform

    Models [platform_info.c]: the handlers of the XML description of the cards,
    their buses, the slots of the buses and the features, and [sd_platform_init]
    of [x9serial/platform.c], which reads it.

    The XML parser (expat) is a library: the elements it reports are the
    arguments.  Attributes are pairs of name and value; the end of the list is
    the null pointer that ends the array [attr], and code that passes it to
    [strcmp] or [atoi] is undefined.  Local structures that the code does not
    initialise start with contents that are an argument, [junk_info] and
    [junk_misc]. *)

From Stdlib Require Import ZArith Lia Ascii String.
From stdpp Require Import base list numbers.
From S2P Require Import Prelude CString PcmPlugin PcmDevice Streamer StreamerProofs AudioExtra Platform.

#[local] Open Scope Z_scope.

(** ** Data *)

Definition MAX_TDM_SLOT_NUM : nat := 16.
Definition PCM_FORMAT_INVALID : Z := -1.

Definition attrs : Type := list (string * string).

Inductive xml_event := StartTag (name : string) (a : attrs) | EndTag (name : string).

(** The statics of the file, the platform and the handles of the streamer.
    [parse_bus_mix] is never set. *)
Record parser := {
  parse_bus_slotmap : bool;
  card_num : Z;
  card_names : list string;
  g_platform : platform;
  handles : list hal_streamer
}.

Definition set_slotmap_on (s : parser) : parser :=
  {| parse_bus_slotmap := true; card_num := s.(card_num); card_names := s.(card_names);
     g_platform := s.(g_platform); handles := s.(handles) |}.
Definition set_card_num (n : Z) (s : parser) : parser :=
  {| parse_bus_slotmap := s.(parse_bus_slotmap); card_num := n; card_names := s.(card_names);
     g_platform := s.(g_platform); handles := s.(handles) |}.
Definition set_card_names (l : list string) (s : parser) : parser :=
  {| parse_bus_slotmap := s.(parse_bus_slotmap); card_num := s.(card_num); card_names := l;
     g_platform := s.(g_platform); handles := s.(handles) |}.
Definition set_platform (p : platform) (s : parser) : parser :=
  {| parse_bus_slotmap := s.(parse_bus_slotmap); card_num := s.(card_num);
     card_names := s.(card_names); g_platform := p; handles := s.(handles) |}.
Definition set_handles (g : list hal_streamer) (s : parser) : parser :=
  {| parse_bus_slotmap := s.(parse_bus_slotmap); card_num := s.(card_num);
     card_names := s.(card_names); g_platform := s.(g_platform); handles := g |}.

(** ** Slots *)

(** The tokens that repeated calls of [strtok] with a comma give; each call
    uses up at least one character. *)
Fixpoint tokens_from (fuel : nat) (s : string) : list string :=
  match fuel with
  | O => []
  | S fuel =>
      match strtok "," s with
      | None => []
      | Some (t, r) => t :: tokens_from fuel r
      end
  end.
Definition tokens (s : string) : list string := tokens_from (S (String.length s)) s.

(** The stores of [parse_slots] from index [cnt]; a plain [char] is unsigned
    on the processors of the platform. *)
Fixpoint store_slots (l : list string) (cnt : Z) (slots : list Z) : outcome (Z * list Z) :=
  match l with
  | [] => Done (cnt, slots)
  | t :: l =>
      let! v := atoi t in
      let! slots := array_set slots cnt (v mod 256) in
      store_slots l (cnt + 1) slots
  end.

(** The first token is used without a test. *)
Definition parse_slots (str : string) (m : slot_map_t) : outcome slot_map_t :=
  match tokens str with
  | [] => Undef
  | l =>
      let! (cnt, slots) := store_slots l 0 m.(map_slots) in
      Done {| map_bus_num := m.(map_bus_num); map_len := cnt; map_slots := slots;
              map_overlay := m.(map_overlay) |}
  end.

Definition zero_map : slot_map_t :=
  {| map_bus_num := 0; map_len := 0; map_slots := replicate MAX_TDM_SLOT_NUM 0;
     map_overlay := false |}.

(** [atoi (s + 3)] *)
Definition atoi_from3 (s : string) : outcome Z :=
  if (3 <=? String.length s)%nat then atoi (String.substring 3 (String.length s) s) else Undef.

Definition process_bus_slot_map_config (a : attrs) (s : parser) : outcome parser :=
  match a with
  | [] => Done s
  | (name, value) :: rest =>
      let! m := parse_slots value zero_map in
      match rest with
      | [] => Undef
      | (n2, v2) :: _ =>
          let m := {| map_bus_num := m.(map_bus_num); map_len := m.(map_len);
                      map_slots := m.(map_slots);
                      map_overlay := (n2 =? "type")%string && (v2 =? "overlay")%string |} in
          let! id := atoi_from3 name in
          let! p := platform_set_slotmap_config id m s.(g_platform) in
          Done (set_platform p s)
      end
  end.

(** ** Cards *)

(** Binding the buses of the list to the card that is being described. *)
Fixpoint bind_tokens (l : list string) (s : parser) : outcome parser :=
  match l with
  | [] => Done s
  | t :: l =>
      let! name := array_get s.(card_names) s.(card_num) in
      let! b := atoi t in
      let! g := platform_set_bind_bus name b s.(handles) in
      bind_tokens l (set_handles g s)
  end.

Definition set_format (f : Z) (c : pcm_config) : pcm_config :=
  {| channels := c.(channels); rate := c.(rate); period_size := c.(period_size);
     period_count := c.(period_count); cfg_format := f; start_threshold := c.(start_threshold);
     stop_threshold := c.(stop_threshold); silence_threshold := c.(silence_threshold);
     silence_size := c.(silence_size) |}.
Definition set_rate (r : Z) (c : pcm_config) : pcm_config :=
  {| channels := c.(channels); rate := r; period_size := c.(period_size);
     period_count := c.(period_count); cfg_format := c.(cfg_format);
     start_threshold := c.(start_threshold); stop_threshold := c.(stop_threshold);
     silence_threshold := c.(silence_threshold); silence_size := c.(silence_size) |}.
Definition set_channels (n : Z) (c : pcm_config) : pcm_config :=
  {| channels := n; rate := c.(rate); period_size := c.(period_size);
     period_count := c.(period_count); cfg_format := c.(cfg_format);
     start_threshold := c.(start_threshold); stop_threshold := c.(stop_threshold);
     silence_threshold := c.(silence_threshold); silence_size := c.(silence_size) |}.

Definition set_cfg (c : pcm_config) (i : card_info_t) : card_info_t :=
  {| ci_name := i.(ci_name); ci_pcm_cfg := c; ci_card := i.(ci_card); ci_device := i.(ci_device);
     ci_bus_id := i.(ci_bus_id); ci_address := i.(ci_address) |}.
Definition set_numbers (card device bus : Z) (i : card_info_t) : card_info_t :=
  {| ci_name := i.(ci_name); ci_pcm_cfg := i.(ci_pcm_cfg); ci_card := card; ci_device := device;
     ci_bus_id := bus; ci_address := i.(ci_address) |}.
Definition set_address (l : list ascii) (i : card_info_t) : card_info_t :=
  {| ci_name := i.(ci_name); ci_pcm_cfg := i.(ci_pcm_cfg); ci_card := i.(ci_card);
     ci_device := i.(ci_device); ci_bus_id := i.(ci_bus_id); ci_address := l |}.

(** One attribute of a card; the copy of the address has no terminating NUL. *)
Definition card_attr (name value : string) (i : card_info_t) (s : parser)
  : outcome (card_info_t * parser) :=
  if (name =? "bit_width")%string then
    let! w := atoi value in
    Done (set_cfg (set_format (if w =? 16 then PCM_FORMAT_S16_LE else PCM_FORMAT_INVALID)
                     i.(ci_pcm_cfg)) i, s)
  else if String.prefix "rate" name then
    let! r := atoi value in Done (set_cfg (set_rate (u32 r) i.(ci_pcm_cfg)) i, s)
  else if String.prefix "channels" name then
    let! n := atoi value in Done (set_cfg (set_channels (u32 n) i.(ci_pcm_cfg)) i, s)
  else if String.prefix "address" name then
    let! l := strncpy i.(ci_address) value
                (Z.min (Z.of_nat (String.length value)) (Z.of_nat MAX_NAME_LEN)) in
    Done (set_address l i, s)
  else if (name =? "bind_bus_id")%string then
    let l := tokens value in
    let! s := bind_tokens l s in
    match l with
    | [] => Done (i, s)
    | t :: _ => let! b := atoi t in Done (set_numbers i.(ci_card) i.(ci_device) b i, s)
    end
  else if String.prefix "card" name then
    let! c := atoi value in Done (set_numbers c i.(ci_device) i.(ci_bus_id) i, s)
  else if String.prefix "device" name then
    let! d := atoi value in Done (set_numbers i.(ci_card) d i.(ci_bus_id) i, s)
  else Done (i, s).

Fixpoint card_attrs (a : attrs) (i : card_info_t) (s : parser) : outcome (card_info_t * parser) :=
  match a with
  | [] => Done (i, s)
  | (name, value) :: a => let! (i, s) := card_attr name value i s in card_attrs a i s
  end.

(** The name of the card is not stored in [card_info]. *)
Definition process_card_config (junk_info : card_info_t) (a : attrs) (direct : Z) (s : parser)
  : outcome parser :=
  let! (i, s) := card_attrs a (set_cfg default_output_config junk_info) s in
  let! p := platform_set_card_info i direct s.(g_platform) in
  Done (set_platform p s).

(** ** Features *)

(** [STR_BOOL] *)
Definition STR_BOOL (str : string) (old : bool) : bool :=
  if (str =? "false")%string then false else if (str =? "true")%string then true else old.

Definition misc_attr (name value : string) (f : misc_feature) : misc_feature :=
  let mk a b c d e g h := {| audio_route := a; sw_in_src := b; sw_out_src := c; sw_ecnr := d;
                             sw_gain := e; btcall := g; ahub_en := h |} in
  let '(a, b, c, d, e, g, h) := (f.(audio_route), f.(sw_in_src), f.(sw_out_src), f.(sw_ecnr),
                                 f.(sw_gain), f.(btcall), f.(ahub_en)) in
  if String.prefix "audio_route_en" name then mk (STR_BOOL value a) b c d e g h
  else if String.prefix "in_src_en" name then mk a (STR_BOOL value b) c d e g h
  else if String.prefix "out_src_en" name then mk a b (STR_BOOL value c) d e g h
  else if String.prefix "sw_ecnr_en" name then mk a b c (STR_BOOL value d) e g h
  else if String.prefix "sw_gain_en" name then mk a b c d (STR_BOOL value e) g h
  else if String.prefix "btcall_en" name then mk a b c d e (STR_BOOL value g) h
  else if String.prefix "ahub_en" name then mk a b c d e g (STR_BOOL value h)
  else f.

Fixpoint process_misc_attrs (a : attrs) (f : misc_feature) : misc_feature :=
  match a with
  | [] => f
  | (name, value) :: a => process_misc_attrs a (misc_attr name value f)
  end.

Definition process_misc_config (junk_misc : misc_feature) (a : attrs) (s : parser) : parser :=
  set_platform (platform_set_misc_config (process_misc_attrs a junk_misc) s.(g_platform)) s.

Definition process_bt_connect_config (a : attrs) (s : parser) : outcome parser :=
  match a with
  | [] => Undef
  | (name, value) :: _ =>
      if negb (String.prefix "sink" name) then Done s
      else if (value =? "soc")%string
      then Done (set_platform (platform_set_bt_connect BT_CONNECT_WITH_SOC s.(g_platform)) s)
      else if (value =? "dsp")%string
      then Done (set_platform (platform_set_bt_connect BT_CONNECT_WITH_DSP s.(g_platform)) s)
      else Done s
  end.

(** ** Elements *)

(** Whether the first attribute is [name]; a missing one is a null pointer. *)
Definition first_is (a : attrs) (name : string) : outcome bool :=
  match a with
  | [] => Undef
  | (n, _) :: _ => Done (n =? name)%string
  end.

(** [strcpy (card[card_num], name)] *)
Definition store_card_name (name : string) (s : parser) : outcome parser :=
  if (String.length name <? 128)%nat then
    let! l := array_set s.(card_names) s.(card_num) name in Done (set_card_names l s)
  else Undef.

Section Elements.
Context (junk_info : card_info_t) (junk_misc : misc_feature).

(** The branches behind the one of a named card. *)
Definition start_other (tag_name : string) (a : attrs) (s : parser) : outcome parser :=
  if (tag_name =? "playback")%string then process_card_config junk_info a AUDIO_HAL_PLAYBACK s
  else if (tag_name =? "capture")%string then process_card_config junk_info a AUDIO_HAL_CAPTURE s
  else if (tag_name =? "misc")%string then Done (process_misc_config junk_misc a s)
  else if (tag_name =? "bt_connection")%string then process_bt_connect_config a s
  else if (tag_name =? "slot_map")%string then
    match a with
    | [] => Undef
    | (n, v) :: _ =>
        Done (if (n =? "enable")%string && (v =? "true")%string then set_slotmap_on s else s)
    end
  else if s.(parse_bus_slotmap) && (tag_name =? "out")%string then process_bus_slot_map_config a s
  else Done s.

Definition start_tag (tag_name : string) (a : attrs) (s : parser) : outcome parser :=
  if (tag_name =? "card")%string then
    let! named := first_is a "name" in
    match a with
    | (_, v) :: _ => if named then store_card_name v s else start_other tag_name a s
    | [] => Undef
    end
  else start_other tag_name a s.

Definition end_tag (tag_name : string) (s : parser) : outcome parser :=
  if (tag_name =? "card")%string then
    let! n := i32 (s.(card_num) + 1) in Done (set_card_num n s)
  else Done s.

Fixpoint parse_events (l : list xml_event) (s : parser) : outcome parser :=
  match l with
  | [] => Done s
  | StartTag n a :: l => let! s := start_tag n a s in parse_events l s
  | EndTag n :: l => let! s := end_tag n s in parse_events l s
  end.

(** One round of the loop of [platform_info_init]: whether a buffer was given,
    the elements that the parser reported, whether it found no error, and
    whether the end of the file was reached. *)
Record feed := { f_buffer : bool; f_events : list xml_event; f_ok : bool; f_last : bool }.

Fixpoint parse_file (l : list feed) (s : parser) : outcome (Z * parser) :=
  match l with
  | [] => Blocked
  | f :: l =>
      if negb f.(f_buffer) then Done (- ENOMEM, s)
      else
        let! s := parse_events f.(f_events) s in
        if negb f.(f_ok) then Done (- EINVAL, s)
        else if f.(f_last) then Done (0, s)
        else parse_file l s
  end.

(** [fopen_ok] and [parser_ok]: the file and the parser could be opened. *)
Definition platform_info_init (fopen_ok parser_ok : bool) (l : list feed) (s : parser)
  : outcome (Z * parser) :=
  if negb fopen_ok then Done (- ENODEV, s)
  else if negb parser_ok then Done (- ENODEV, s)
  else parse_file l s.
End Elements.

(** ** The start of the platform *)

Definition zero_info : card_info_t :=
  {| ci_name := replicate MAX_NAME_LEN "000"%char; ci_pcm_cfg := zero_config; ci_card := 0;
     ci_device := 0; ci_bus_id := 0; ci_address := replicate MAX_NAME_LEN "000"%char |}.

Definition zero_platform (devs : list audio_device_manager) : platform :=
  {| dev_manager := devs; cards := replicate 16 zero_info; info_card_num := 0;
     misc := no_features; output_maps := replicate 16 zero_map; bt_type := BT_CONNECT_WITH_DSP |}.

(** The statics of [platform_info.c] before the start. *)
Definition parser_init (p : platform) (g : list hal_streamer) : parser :=
  {| parse_bus_slotmap := false; card_num := 0; card_names := replicate 8 EmptyString;
     g_platform := p; handles := g |}.

Section Start.
Context {mic : Type} (unknown_mic zero_mic : mic).
Context (access : string -> bool) (mixer_open : Z -> option (option string))
  (audio_route_init : Z -> string -> bool) (sysfs : Z -> option card_node)
  (junk_info : card_info_t) (junk_misc : misc_feature).

(** What the start leaves: the description, the table of names, the
    microphones and the routes. *)
Record started := {
  st_parser : parser;
  st_names : list name_map;
  st_mics : list mic;
  st_mic_count : Z;
  st_start : start_state
}.

(** The status is 0 when [calloc] fails.  The status of the description is
    not looked at. *)
Definition sd_platform_init (calloc_ok malloc_ok fopen_ok parser_ok : bool) (l : list feed)
    (names : list name_map) (g : list hal_streamer) (s : start_state)
  : outcome (Z * option started) :=
  if negb calloc_ok then Done (0, None)
  else
    let! (mics, count) :=
      process_microphone_characteristic unknown_mic malloc_ok
        (replicate (Z.to_nat AUDIO_MICROPHONE_MAX_COUNT) zero_mic) 0 in
    let '(devs, names) := sd_platform_init_audio_devices sysfs names in
    let! (_, ps) := platform_info_init junk_info junk_misc fopen_ok parser_ok l
                      (parser_init (zero_platform devs) g) in
    let! (ret, s) := sd_platform_start access mixer_open audio_route_init ps.(g_platform) s in
    if ret <? 0 then Done (ret, None)
    else Done (ret, Some {| st_parser := ps; st_names := names; st_mics := mics;
                            st_mic_count := count; st_start := s |}).
End Start.

(** ** Lists of numbers in attributes *)

(** Numbers with commas between them. *)
Fixpoint join (l : list Z) : string :=
  match l with
  | [] => EmptyString
  | [n] => print_int n
  | n :: l => (print_int n ++ String "," (join l))%string
  end.

Lemma length_join (n : Z) (l : list Z) :
  String.length (join (n :: l)) = (String.length (print_int n) + match l with [] => 0 | _ => S (String.length (join l)) end)%nat.
Proof.
  destruct l as [|m l]; cbn [join]; [lia|].
  apply length_append.
Qed.

(** [strtok] finds the numbers again. *)
Lemma tokens_join (l : list Z) (fuel : nat) :
  Forall (fun n => 0 <= n < 10 ^ 10) l -> (length l < fuel)%nat ->
  tokens_from fuel (join l) = map print_int l.
Proof.
  intros F. revert fuel. induction F as [|n l B F IH]; intros [|fuel] L; try (cbn in L; lia).
  { done. }
  destruct (print_int_word "," n eq_refl B) as [Ne Fr]. destruct l as [|m l]; cbn [tokens_from].
  - cbn [join]. destruct (strtok_word "," (print_int n) EmptyString Ne Fr) as [_ ->].
    destruct fuel; [cbn in L; lia|]. done.
  - change (join (n :: m :: l)) with (print_int n ++ String "," (join (m :: l)))%string.
    destruct (strtok_word "," (print_int n) (join (m :: l)) Ne Fr) as [-> _].
    rewrite IH by (cbn in *; lia). done.
Qed.

Lemma length_join_ge (l : list Z) :
  Forall (fun n => 0 <= n < 10 ^ 10) l -> (length l <= S (String.length (join l)))%nat.
Proof.
  induction 1 as [|n l B F IH]; [cbn; lia|]. rewrite length_join.
  destruct (print_int_word "," n eq_refl B) as [Ne _]. destruct (print_int n); [done|].
  destruct l; cbn [length String.length] in *; lia.
Qed.

Lemma tokens_numbers (l : list Z) :
  Forall (fun n => 0 <= n < 10 ^ 10) l -> tokens (join l) = map print_int l.
Proof.
  intros F. unfold tokens. destruct l as [|n l]; [done|].
  apply tokens_join; [done|]. inversion F as [|? ? B F']; subst.
  pose proof (length_join_ge l F'). rewrite length_join. destruct (print_int_word "," n eq_refl B) as [Ne _].
  destruct (print_int n); [done|]. destruct l; cbn [length String.length] in *; lia.
Qed.

Definition is_id (n : Z) : Prop := 0 <= n <= INT32_MAX.

Lemma is_id_digits (l : list Z) : Forall is_id l -> Forall (fun n => 0 <= n < 10 ^ 10) l.
Proof. apply Forall_impl. unfold is_id, INT32_MAX. lia. Qed.

Lemma atoi_id (n : Z) : is_id n -> atoi (print_int n) = Done n.
Proof. intros B. apply atoi_print_int. unfold is_id, is_i32, INT32_MIN, INT32_MAX in *. lia. Qed.

(** ** Slots of a bus *)

Lemma substring_all (s : string) (n : nat) : (String.length s <= n)%nat -> String.substring 0 n s = s.
Proof.
  revert n. induction s as [|c s IH]; intros [|n] L; cbn in *; try done; [lia|]. by rewrite IH by lia.
Qed.

Lemma atoi_from3_bus (b : Z) : is_id b -> atoi_from3 ("bus" ++ print_int b) = Done b.
Proof.
  intros B. unfold atoi_from3. rewrite length_append. cbn [String.length].
  rewrite (proj2 (Nat.leb_le _ _)) by lia.
  change (String.substring 3 ?n ("bus" ++ print_int b)) with (String.substring 0 n (print_int b)).
  rewrite substring_all by lia. by apply atoi_id.
Qed.

Lemma store_slots_numbers (l pre tl : list Z) :
  Forall (fun v => 0 <= v < 256) l -> (length l <= length tl)%nat ->
  store_slots (map print_int l) (zlen pre) (pre ++ tl)
  = Done (zlen pre + zlen l, pre ++ l ++ drop (length l) tl).
Proof.
  intros F. revert pre tl. induction F as [|v l B F IH]; intros pre tl L; cbn [map store_slots].
  { rewrite Z.add_0_r. done. }
  destruct tl as [|x tl]; [cbn in L; lia|].
  rewrite atoi_id by (unfold is_id, INT32_MAX; lia). cbn [obind].
  rewrite array_set_done by (unfold zlen; rewrite length_app; cbn [length]; lia). cbn [obind].
  rewrite Z.mod_small by lia. replace (Z.to_nat (zlen pre)) with (length pre + 0)%nat by (unfold zlen; lia).
  rewrite insert_app_r. cbn [list_insert].
  specialize (IH (pre ++ [v]) tl ltac:(cbn in L; lia)).
  replace (zlen (pre ++ [v])) with (zlen pre + 1) in IH by (unfold zlen; rewrite length_app; cbn; lia).
  rewrite <- app_assoc in IH. cbn [app] in IH.
  change (<[0%nat := v]> (x :: tl)) with (v :: tl). rewrite IH. do 2 f_equal.
  - unfold zlen. cbn [length]. lia.
  - by rewrite <- app_assoc.
Qed.

(** The state with the map of one bus replaced. *)
Definition with_map (b : Z) (m : slot_map_t) (s : parser) : parser :=
  let p := s.(g_platform) in
  set_platform {| dev_manager := p.(dev_manager); cards := p.(cards);
                  info_card_num := p.(info_card_num); misc := p.(misc);
                  output_maps := <[Z.to_nat b := m]> p.(output_maps); bt_type := p.(bt_type) |} s.

(** The element that lists the slots of a bus as numbers with commas gives
    the bus exactly these slots, in their order, and whether they overlay, for
    up to 16 slots; nothing else changes. *)
Theorem slot_map_roundtrip (junk_info : card_info_t) (junk_misc : misc_feature) (b : Z)
    (slots : list Z) (kind : string) (s : parser) :
  0 <= b < zlen s.(g_platform).(output_maps) -> b <= INT32_MAX ->
  (0 < length slots <= 16)%nat -> Forall (fun v => 0 <= v < 256) slots ->
  s.(parse_bus_slotmap) = true ->
  start_tag junk_info junk_misc "out" [("bus" ++ print_int b, join slots); ("type", kind)]%string s
  = Done (with_map b {| map_bus_num := 0; map_len := zlen slots;
                        map_slots := slots ++ replicate (16 - length slots) 0;
                        map_overlay := (kind =? "overlay")%string |} s).
Proof.
  intros B B' L F P. unfold start_tag.
  change ("out" =? "card")%string with false. cbn match. unfold start_other.
  change ("out" =? "playback")%string with false. change ("out" =? "capture")%string with false.
  change ("out" =? "misc")%string with false. change ("out" =? "bt_connection")%string with false.
  change ("out" =? "slot_map")%string with false. rewrite P.
  change (true && ("out" =? "out")%string) with true. cbn match.
  unfold process_bus_slot_map_config, parse_slots.
  rewrite tokens_numbers by (revert F; apply Forall_impl; lia).
  destruct (map print_int slots) as [|t ts] eqn:E; [destruct slots; cbn in *; [lia|done]|].
  rewrite <- E. clear E t ts.
  pose proof (store_slots_numbers slots [] (replicate 16 0) F ltac:(rewrite length_replicate; lia)) as St.
  cbn [app] in St. change (zlen (@nil Z)) with 0 in St. rewrite Z.add_0_l in St.
  unfold zero_map, MAX_TDM_SLOT_NUM. cbn [map_slots]. rewrite St. cbn [obind].
  rewrite atoi_from3_bus by (unfold is_id; lia). cbn [obind].
  unfold platform_set_slotmap_config.
  rewrite u32_small by (unfold is_u32, UINT32_MAX, INT32_MAX in *; lia).
  rewrite array_set_done by lia. cbn [obind]. rewrite drop_replicate. done.
Qed.

Lemma slot_map_roundtrip_witness :
  start_tag zero_info no_features "out" [("bus2", "4,5"); ("type", "overlay")]%string
    (set_slotmap_on (parser_init (zero_platform []) []))
  = Done (with_map 2 {| map_bus_num := 0; map_len := 2; map_slots := [4; 5] ++ replicate 14 0;
                        map_overlay := true |}
            (set_slotmap_on (parser_init (zero_platform []) []))).
Proof.
  apply (slot_map_roundtrip zero_info no_features 2 [4; 5] "overlay"); try reflexivity; try discriminate.
  - split; reflexivity || discriminate.
  - cbn. lia.
  - repeat constructor; lia || discriminate.
Defined.

(** ** Cards and their buses *)

(** A card as the description gives it. *)
Record described := { ds_name : string; ds_rate : Z; ds_channels : Z; ds_buses : list Z }.

(** Its elements. *)
Definition describe (d : described) : list xml_event :=
  [StartTag "card" [("name", d.(ds_name))];
   StartTag "playback" [("bit_width", "16"); ("rate", print_int d.(ds_rate));
                        ("channels", print_int d.(ds_channels)); ("bind_bus_id", join d.(ds_buses))];
   EndTag "playback"; EndTag "card"]%string.

Record described_ok (d : described) : Prop := {
  do_name : c_name d.(ds_name);
  do_rate : is_id d.(ds_rate);
  do_channels : is_id d.(ds_channels);
  do_buses : Forall is_id d.(ds_buses);
  do_bus : d.(ds_buses) <> []
}.

Definition bindings (d : described) : list (string * Z) := map (fun b => (d.(ds_name), b)) d.(ds_buses).

Lemma bind_all_app (l1 l2 : list (string * Z)) (g : list hal_streamer) :
  bind_all (l1 ++ l2) g
  = (let! (rs1, g) := bind_all l1 g in let! (rs2, g) := bind_all l2 g in Done (rs1 ++ rs2, g)).
Proof.
  revert g. induction l1 as [|[n b] l1 IH]; intros g; cbn [app bind_all obind].
  { by destruct (bind_all l2 g) as [[rs g']| | |]. }
  destruct (hal_streamer_bind_bus _ _ _ _) as [[r g1]| | |]; cbn [obind]; [|done..]. rewrite IH.
  destruct (bind_all l1 g1) as [[rs1 g2]| | |]; cbn [obind]; [|done..].
  by destruct (bind_all l2 g2) as [[rs2 g3]| | |].
Qed.

Lemma bind_tokens_all (name : string) (bs : list Z) (s : parser) (rs : list Z) (g : list hal_streamer) :
  array_get s.(card_names) s.(card_num) = Done name -> Forall is_id bs ->
  bind_all (map (fun b => (name, b)) bs) s.(handles) = Done (rs, g) ->
  bind_tokens (map print_int bs) s = Done (set_handles g s).
Proof.
  intros E F. revert s rs E. induction F as [|b bs B F IH]; intros s rs E H; cbn [map bind_tokens bind_all] in *.
  { injection H as <- <-. by destruct s. }
  rewrite E. cbn [obind]. rewrite atoi_id by done. cbn [obind]. unfold platform_set_bind_bus.
  destruct (hal_streamer_bind_bus _ _ _ _) as [[r g1]| | |]; cbn [obind] in *; try discriminate H.
  destruct (bind_all _ g1) as [[rs1 g2]| | |] eqn:E2; cbn [obind] in H; try discriminate H.
  injection H as <- <-. by rewrite (IH (set_handles g1 s) rs1 E E2).
Qed.

(** What a card becomes: the name is the one of the memory. *)
Definition info_of (junk_info : card_info_t) (d : described) (i : card_info_t) : Prop :=
  i.(ci_name) = junk_info.(ci_name)
  /\ i.(ci_pcm_cfg) = set_channels d.(ds_channels) (set_rate d.(ds_rate) default_output_config)
  /\ Some i.(ci_bus_id) = head d.(ds_buses).

(** Comparing with an array that holds a NUL is defined. *)
Lemma strcmp_nul (arr : list ascii) (s : string) :
  In "000"%char arr -> ~ In "000"%char (list_ascii_of_string s) ->
  exists b, strcmp_eq arr s = Done b.
Proof.
  revert s. induction arr as [|c arr IH]; intros s I N; cbn [strcmp_eq]; [done|].
  destruct s as [|d s]; [eauto|]. destruct (Ascii.eqb_spec c d) as [-> | D]; [|eauto].
  cbn in N. destruct I as [-> | I]; [tauto|]. apply IH; tauto.
Qed.

Definition names_plain (devs : list audio_device_manager) : Prop :=
  Forall (fun d => ~ In "000"%char (list_ascii_of_string d.(linux_name))) devs.

Lemma set_device_config_done (devs : list audio_device_manager) (i : card_info_t) (direct : Z) :
  In "000"%char i.(ci_name) -> names_plain devs ->
  exists devs', set_device_config devs i direct = Done devs' /\ names_plain devs'.
Proof.
  intros I F. induction F as [|d devs N F (devs' & E & F')]; cbn [set_device_config];
    [exists []; split; [done|constructor]|].
  destruct (strcmp_nul i.(ci_name) d.(linux_name) I N) as [b ->]. cbn [obind]. rewrite E. cbn [obind].
  eexists. split; [done|]. constructor; [by destruct b|done].
Qed.

(** The state after the first [n] cards, with the table of handles [g]. *)
Record parsed (junk_info : card_info_t) (ds : list described) (g : list hal_streamer) (s : parser) : Prop := {
  ps_num : s.(card_num) = zlen ds;
  ps_names : length s.(card_names) = 8%nat;
  ps_handles : s.(handles) = g;
  ps_devs : names_plain s.(g_platform).(dev_manager);
  ps_cards : length s.(g_platform).(cards) = 16%nat;
  ps_count : s.(g_platform).(info_card_num) = zlen ds;
  ps_infos : forall k d, ds !! k = Some d ->
      exists i, s.(g_platform).(cards) !! k = Some i /\ info_of junk_info d i
}.

(** The attributes of a playback element. *)
Definition playback_attrs (d : described) : attrs :=
  [("bit_width", "16"); ("rate", print_int d.(ds_rate)); ("channels", print_int d.(ds_channels));
   ("bind_bus_id", join d.(ds_buses))]%string.

Lemma card_attrs_described (junk_info : card_info_t) (d : described) (g' : list hal_streamer)
    (rs : list Z) (s : parser) :
  described_ok d -> array_get s.(card_names) s.(card_num) = Done d.(ds_name) ->
  bind_all (bindings d) s.(handles) = Done (rs, g') ->
  exists i, card_attrs (playback_attrs d) (set_cfg default_output_config junk_info) s
            = Done (i, set_handles g' s) /\ info_of junk_info d i.
Proof.
  intros [N R C F Nb] Hn Hb. unfold playback_attrs. cbn [card_attrs].
  change (card_attr "bit_width" "16" (set_cfg default_output_config junk_info) s)
    with (Done (set_cfg default_output_config junk_info, s)). cbn [obind].
  change (card_attr "rate" ?v ?i s)
    with (let! r := atoi v in Done (set_cfg (set_rate (u32 r) i.(ci_pcm_cfg)) i, s)).
  rewrite atoi_id by done. cbn [obind].
  change (card_attr "channels" ?v ?i s)
    with (let! n := atoi v in Done (set_cfg (set_channels (u32 n) i.(ci_pcm_cfg)) i, s)).
  rewrite atoi_id by done. cbn [obind].
  rewrite !u32_small by (unfold is_id, is_u32, UINT32_MAX, INT32_MAX in *; lia).
  change (card_attr "bind_bus_id" ?v ?i s)
    with (let! s := bind_tokens (tokens v) s in
          match tokens v with
          | [] => Done (i, s)
          | t :: _ => let! b := atoi t in Done (set_numbers i.(ci_card) i.(ci_device) b i, s)
          end).
  rewrite tokens_numbers by (by apply is_id_digits).
  rewrite (bind_tokens_all (ds_name d) d.(ds_buses) s rs g' Hn F Hb).
  cbn [obind]. unfold info_of. destruct d.(ds_buses) as [|b bs]; [done|]. cbn [map].
  rewrite atoi_id by (by apply Forall_cons_1 in F as [? _]). cbn [obind]. eauto.
Qed.

Lemma describe_parsed (junk_info : card_info_t) (junk_misc : misc_feature) (ds : list described)
    (d : described) (g g' : list hal_streamer) (rs : list Z) (s : parser) :
  parsed junk_info ds g s -> (length ds < 8)%nat -> described_ok d ->
  In "000"%char junk_info.(ci_name) -> bind_all (bindings d) g = Done (rs, g') ->
  exists s', parse_events junk_info junk_misc (describe d) s = Done s'
             /\ parsed junk_info (ds ++ [d]) g' s'.
Proof.
  intros [P1 P2 P3 P4 P5 P6 P7] L D J Hb. pose proof (do_name d D) as [N1 N2].
  unfold describe. cbn [parse_events].
  change (start_tag junk_info junk_misc "card" [("name"%string, ds_name d)] s)
    with (store_card_name (ds_name d) s).
  unfold store_card_name. rewrite (proj2 (Nat.ltb_lt _ _) N1).
  rewrite array_set_done by (rewrite P1; unfold zlen; lia). cbn [obind].
  set (s1 := set_card_names _ s).
  assert (array_get s1.(card_names) s1.(card_num) = Done (ds_name d)) as Hn.
  { apply array_get_lookup; cbn [card_num card_names s1 set_card_names]; rewrite P1; [unfold zlen; lia|].
    apply list_lookup_insert_eq. unfold zlen. lia. }
  fold (playback_attrs d).
  change (start_tag junk_info junk_misc "playback" ?a s1)
    with (process_card_config junk_info a AUDIO_HAL_PLAYBACK s1).
  unfold process_card_config. rewrite <- P3 in Hb.
  destruct (card_attrs_described junk_info d g' rs s1 D Hn Hb) as (i & -> & I). cbn [obind].
  unfold platform_set_card_info. pose proof I as (I1 & _).
  destruct (set_device_config_done s.(g_platform).(dev_manager) i AUDIO_HAL_PLAYBACK)
    as (devs' & Ed & Pd); [by rewrite I1|done|].
  change (g_platform (set_handles g' s1)) with s.(g_platform). rewrite Ed. cbn [obind].
  rewrite P6. rewrite array_set_done by (unfold zlen; lia). cbn [obind].
  rewrite i32_done by (unfold is_i32, INT32_MIN, INT32_MAX, zlen; lia). cbn [obind].
  change (end_tag "playback" ?x) with (Done x). cbn [obind].
  change (end_tag "card" ?x) with (let! n := i32 (x.(card_num) + 1) in Done (set_card_num n x)).
  cbn [card_num set_platform set_handles set_card_names s1].
  rewrite P1, i32_done by (unfold is_i32, INT32_MIN, INT32_MAX, zlen; lia). cbn [obind].
  eexists. split; [reflexivity|]. unfold zlen. rewrite Nat2Z.id.
  split; cbn; rewrite ?length_app, ?length_insert; try done; try (unfold zlen; rewrite ?length_app; cbn; lia).
  intros k d' [E | [Gk E]]%lookup_app_Some.
  - destruct (P7 k d' E) as (i' & Ei & Ii). exists i'. split; [|done].
    rewrite list_lookup_insert_ne; [done|]. apply lookup_lt_Some in E. lia.
  - apply list_lookup_singleton_Some in E as [E <-]. replace k with (length ds) by lia.
    exists i. split; [|done]. apply list_lookup_insert_eq. lia.
Qed.

Lemma parse_events_app (junk_info : card_info_t) (junk_misc : misc_feature) (l1 l2 : list xml_event)
    (s : parser) :
  parse_events junk_info junk_misc (l1 ++ l2) s
  = (let! s := parse_events junk_info junk_misc l1 s in parse_events junk_info junk_misc l2 s).
Proof.
  revert s. induction l1 as [|[n a|n] l1 IH]; intros s; cbn [app parse_events obind]; [done|..].
  - destruct (start_tag _ _ n a s); cbn [obind]; [apply IH|done..].
  - destruct (end_tag n s); cbn [obind]; [apply IH|done..].
Qed.

Lemma describe_all_parsed (junk_info : card_info_t) (junk_misc : misc_feature)
    (ds done : list described) (g g' : list hal_streamer) (rs : list Z) (s : parser) :
  parsed junk_info done g s -> (length done + length ds <= 8)%nat -> Forall described_ok ds ->
  In "000"%char junk_info.(ci_name) -> bind_all (concat (map bindings ds)) g = Done (rs, g') ->
  exists s', parse_events junk_info junk_misc (concat (map describe ds)) s = Done s'
             /\ parsed junk_info (done ++ ds) g' s'.
Proof.
  intros P L F J. revert done g rs s P L. induction F as [|d ds D F IH]; intros done g rs s P L Hb;
    cbn [map concat] in *.
  { injection Hb as <- <-. exists s. by rewrite app_nil_r. }
  rewrite bind_all_app in Hb.
  destruct (bind_all (bindings d) g) as [[rs1 g1]| | |] eqn:E1; cbn [obind] in Hb; try discriminate Hb.
  destruct (bind_all (concat _) g1) as [[rs2 g2]| | |] eqn:E2; cbn [obind] in Hb; try discriminate Hb.
  injection Hb as _ <-. cbn [length] in L.
  destruct (describe_parsed junk_info junk_misc done d g g1 rs1 s P) as (s1 & Es & P1);
    [lia|done|done|done|].
  rewrite parse_events_app, Es. cbn [obind].
  destruct (IH (done ++ [d]) g1 rs2 s1 P1) as (s2 & E & P2); [rewrite length_app; cbn; lia|done|].
  exists s2. rewrite <- app_assoc in P2. by split.
Qed.

(** C22. Reading the description of up to eight cards gives the streamer the
    table of cards with their buses that the abstract binding gives, in the
    order of the description, and stores for each card its rate, channels and
    first bus; the name stored with a card is whatever the memory held, not
    the name of the card. *)
Theorem description_binds_buses (junk_info : card_info_t) (junk_misc : misc_feature)
    (devs : list audio_device_manager) (ds : list described) (rs : list Z)
    (cs : list (string * list Z)) :
  (length ds <= 8)%nat -> Forall described_ok ds -> In "000"%char junk_info.(ci_name) ->
  names_plain devs ->
  spec_bind_all (concat (map bindings ds)) [] = Done (rs, cs) ->
  exists s, parse_events junk_info junk_misc (concat (map describe ds))
              (parser_init (zero_platform devs) streamers_init) = Done s
    /\ s.(handles) = table_of cs
    /\ s.(g_platform).(info_card_num) = zlen ds
    /\ forall k d, ds !! k = Some d ->
         exists i, s.(g_platform).(cards) !! k = Some i /\ info_of junk_info d i.
Proof.
  intros L F J Pd Sp.
  assert (bind_all (concat (map bindings ds)) (table_of []) = Done (rs, table_of cs)) as Hb.
  { destruct (bind_all_refines (concat (map bindings ds)) []) as [E _].
    - split; [cbn; lia|constructor].
    - clear -F. induction F as [|d ds D F IH]; cbn [map concat]; [constructor|].
      apply Forall_app. split; [|done]. unfold bindings. apply Forall_map.
      apply list.Forall_forall. intros b _. apply D.
    - by rewrite E, Sp. }
  destruct (describe_all_parsed junk_info junk_misc ds [] (table_of []) (table_of cs) rs
              (parser_init (zero_platform devs) streamers_init)) as (s & E & [P1 P2 P3 P4 P5 P6 P7]);
    try done.
  eauto 10.
Qed.

Definition two_described : list described :=
  [{| ds_name := "main"; ds_rate := 48000; ds_channels := 8; ds_buses := [0; 1; 2] |};
   {| ds_name := "rear"; ds_rate := 48000; ds_channels := 2; ds_buses := [9] |}].

Lemma description_binds_buses_witness :
  exists s, parse_events zero_info no_features (concat (map describe two_described))
              (parser_init (zero_platform []) streamers_init) = Done s
    /\ s.(handles) = table_of [("rear"%string, [9]); ("main"%string, [0; 1; 2])].
Proof.
  destruct (description_binds_buses zero_info no_features [] two_described [0; 0; 0; 0]
              [("rear"%string, [9]); ("main"%string, [0; 1; 2])]) as (s & E & Hh & _).
  - cbn. lia.
  - repeat constructor; try (unfold INT32_MAX; lia); try discriminate; cbn; try lia;
      intuition discriminate.
  - by left.
  - constructor.
  - reflexivity.
  - eauto.
Defined.
