(* ===== verification/Sharing.v ===== *)
(** * Sharing: mirroring a stream to another seat

    Models [audio_sharing.c]: the table of sources (streams) and of
    destinations (cards of other seats), the start and stop of a mirror with
    its count of users, the copy of the played data with the volume of the
    other seat into the ring buffer of the destination or to the virtual
    sound device, and the threads that play the ring buffers, as their phases:
    woken up, one round, leaving.

    Sources and destinations are indices of the tables of [g_sharing]; the
    enumeration [au_shr_addr] is the index of a destination.  The table of
    cards is the one of [Platform]; [amplitude] stands for the map from bus
    addresses to streams with their gain, which the Android layer fills. *)

From Stdlib Require Import ZArith Lia Ascii String.
From stdpp Require Import base list numbers.
From S2P Require Import Prelude CString CircleBuf Mixer Dsp BusVolume Mix PcmPlugin PcmDevice Streamer.
From S2P Require Import AudioExtra Remote OutputPath Platform.

#[local] Open Scope Z_scope.

(** ** Data *)

Inductive mirror_direct :=
| MIRROR_CLOSE | MIRROR_PRI2SEC | MIRROR_SEC2PRI | MIRROR_PRI2VDEV | MIRROR_SEC2VDEV.

#[global] Instance mirror_direct_eq_dec : EqDecision mirror_direct.
Proof. solve_decision. Defined.

Definition SSA_SRC_PRI_EP : Z := 0.
Definition SSA_SRC_SEC_EP : Z := 1.
Definition SSB_SRC_PRI_EP : Z := 2.
Definition SSB_SRC_SEC_EP : Z := 3.
Definition ADDR_MAX : Z := 4.
Definition AUDIO_SHARING_NE : Z := 0.
Definition AUDIO_SHARING_FE : Z := 1.
Definition CODEC_DEV : Z := 2.
Definition REFA_VI2S_DEV : Z := 1.
Definition REFB_VI2S_DEV : Z := 1.
Definition HIFI_SAMPLING_RATE : Z := 48000.

Record au_shr_dst := {
  d_rbuf : option circlebuf_s;
  d_sem : Z;
  d_pcm_hdl : option nat;
  d_vi2s : option Z;
  d_pcm : option Z;
  d_hold : bool;
  d_ref_cnt : Z;
  d_first_done : bool
}.

Record au_shr_src := {
  s_bus_num : Z;
  s_channels : Z;
  s_dup_sink : Z;
  s_duplicate : bool;
  s_allocated : bool
}.

Definition set_rbuf (x : option circlebuf_s) (d : au_shr_dst) : au_shr_dst :=
  {| d_rbuf := x; d_sem := d.(d_sem); d_pcm_hdl := d.(d_pcm_hdl); d_vi2s := d.(d_vi2s);
     d_pcm := d.(d_pcm); d_hold := d.(d_hold); d_ref_cnt := d.(d_ref_cnt);
     d_first_done := d.(d_first_done) |}.
Definition set_sem (x : Z) (d : au_shr_dst) : au_shr_dst :=
  {| d_rbuf := d.(d_rbuf); d_sem := x; d_pcm_hdl := d.(d_pcm_hdl); d_vi2s := d.(d_vi2s);
     d_pcm := d.(d_pcm); d_hold := d.(d_hold); d_ref_cnt := d.(d_ref_cnt);
     d_first_done := d.(d_first_done) |}.
Definition set_hdl (x : option nat) (d : au_shr_dst) : au_shr_dst :=
  {| d_rbuf := d.(d_rbuf); d_sem := d.(d_sem); d_pcm_hdl := x; d_vi2s := d.(d_vi2s);
     d_pcm := d.(d_pcm); d_hold := d.(d_hold); d_ref_cnt := d.(d_ref_cnt);
     d_first_done := d.(d_first_done) |}.
Definition set_vi2s (x : option Z) (d : au_shr_dst) : au_shr_dst :=
  {| d_rbuf := d.(d_rbuf); d_sem := d.(d_sem); d_pcm_hdl := d.(d_pcm_hdl); d_vi2s := x;
     d_pcm := d.(d_pcm); d_hold := d.(d_hold); d_ref_cnt := d.(d_ref_cnt);
     d_first_done := d.(d_first_done) |}.
Definition set_d_pcm (x : option Z) (d : au_shr_dst) : au_shr_dst :=
  {| d_rbuf := d.(d_rbuf); d_sem := d.(d_sem); d_pcm_hdl := d.(d_pcm_hdl); d_vi2s := d.(d_vi2s);
     d_pcm := x; d_hold := d.(d_hold); d_ref_cnt := d.(d_ref_cnt);
     d_first_done := d.(d_first_done) |}.
Definition set_count (n : Z) (h : bool) (d : au_shr_dst) : au_shr_dst :=
  {| d_rbuf := d.(d_rbuf); d_sem := d.(d_sem); d_pcm_hdl := d.(d_pcm_hdl); d_vi2s := d.(d_vi2s);
     d_pcm := d.(d_pcm); d_hold := h; d_ref_cnt := n; d_first_done := d.(d_first_done) |}.
Definition set_first_done (b : bool) (d : au_shr_dst) : au_shr_dst :=
  {| d_rbuf := d.(d_rbuf); d_sem := d.(d_sem); d_pcm_hdl := d.(d_pcm_hdl); d_vi2s := d.(d_vi2s);
     d_pcm := d.(d_pcm); d_hold := d.(d_hold); d_ref_cnt := d.(d_ref_cnt); d_first_done := b |}.

Definition set_duplicate (b : bool) (sink : Z) (s : au_shr_src) : au_shr_src :=
  {| s_bus_num := s.(s_bus_num); s_channels := s.(s_channels); s_dup_sink := sink;
     s_duplicate := b; s_allocated := s.(s_allocated) |}.

(** The two configurations of [audio_hw.c], which are equal. *)
Definition rear_100_cap_cfg_ref : pcm_config :=
  {| channels := 2; rate := HIFI_SAMPLING_RATE; period_size := 960; period_count := 6;
     cfg_format := PCM_FORMAT_S16_LE; start_threshold := 0; stop_threshold := 0;
     silence_threshold := 0; silence_size := 0 |}.
Definition main_config_ref_virtual : pcm_config := rear_100_cap_cfg_ref.

(** The static stream [out] of the file. *)
Definition shared_stream : alsa_stream_out :=
  {| o_bus_num := 9; o_bus_address := "bus9_media_out";
     o_config := {| channels := 4; rate := 48000; period_size := 960; period_count := 0;
                    cfg_format := PCM_FORMAT_S16_LE; start_threshold := 0; stop_threshold := 0;
                    silence_threshold := 0; silence_size := 0 |};
     o_pcm := false; o_pcm_hdl := None; o_standby := false |}.

(** [mute_period] *)
Definition mute_period : Z := 100 / OUT_PERIOD_MS.

(** [period_bytes] of the loops, for a number of channels. *)
Definition period_bytes (ch : Z) : Z := ch * 2 * OUT_PERIOD_MS * HIFI_SAMPLING_RATE / 1000.

(** ** The table of sources and destinations *)

Section Sharing.
Context {W : Type} `{PcmSystem W}.
(** [ref_a] and [ref_b] tell for which board the HAL is built. *)
Context (devs : list audio_device_manager) (ref_a ref_b : bool) (amplitude : string -> option f32).

Record share := { dsts : list au_shr_dst; srcs : list au_shr_src; share_world : W }.

Definition set_dsts (l : list au_shr_dst) (s : share) : share :=
  {| dsts := l; srcs := s.(srcs); share_world := s.(share_world) |}.
Definition set_srcs (l : list au_shr_src) (s : share) : share :=
  {| dsts := s.(dsts); srcs := l; share_world := s.(share_world) |}.
Definition set_share_world (w : W) (s : share) : share :=
  {| dsts := s.(dsts); srcs := s.(srcs); share_world := w |}.

(** [dsts_init]; [create] is [audio_circlebuf_create_pcm] for a number of
    channels, with three periods. *)
Definition dst_init (create : Z -> option circlebuf_s) (i : Z) : au_shr_dst :=
  {| d_rbuf := if (i =? SSA_SRC_SEC_EP) || (i =? SSA_SRC_PRI_EP) then create 4 else create 2;
     d_sem := 0; d_pcm_hdl := None; d_vi2s := None; d_pcm := None; d_hold := true;
     d_ref_cnt := 0; d_first_done := false |}.

Definition dsts_init (create : Z -> option circlebuf_s) (s : share) : share :=
  {| dsts := map (dst_init create) [SSA_SRC_PRI_EP; SSA_SRC_SEC_EP; SSB_SRC_PRI_EP; SSB_SRC_SEC_EP];
     srcs := map (fun x => {| s_bus_num := x.(s_bus_num); s_channels := x.(s_channels);
                              s_dup_sink := x.(s_dup_sink); s_duplicate := x.(s_duplicate);
                              s_allocated := false |}) s.(srcs);
     share_world := s.(share_world) |}.

Definition au_sharing_init (cb_calloc : bool) (cb_malloc : Z -> option (list Z)) (s : share) : share :=
  dsts_init (fun ch => audio_circlebuf_create_pcm cb_calloc cb_malloc pcm_format_to_bits ch
                         PCM_FORMAT_S16_LE HIFI_SAMPLING_RATE 3) s.

(** The loop of [au_sharing_get_src] goes on after a free source was found. *)
Fixpoint free_src (l : list au_shr_src) (i : nat) (found : option nat) : option nat :=
  match l with
  | [] => found
  | s :: l => free_src l (S i) (if s.(s_allocated) then found else Some i)
  end.

Definition au_sharing_get_src (bus_num channels : Z) (s : share) : option nat * share :=
  match free_src s.(srcs) 0 None with
  | None => (None, s)
  | Some k =>
      (Some k,
       set_srcs (alter (fun x => {| s_bus_num := bus_num; s_channels := channels;
                                    s_dup_sink := x.(s_dup_sink); s_duplicate := false;
                                    s_allocated := true |}) k s.(srcs)) s)
  end.

Definition au_sharing_close_dst (src : au_shr_src) (s : share) : outcome share :=
  if src.(s_duplicate) then
    let! d := array_get s.(dsts) src.(s_dup_sink) in
    if d.(d_hold) then Done s
    else
      let! n := i32 (d.(d_ref_cnt) - 1) in
      let! l := array_set s.(dsts) src.(s_dup_sink) (set_count n (n =? 0) d) in
      Done (set_dsts l s)
  else Done s.

(** [duplicate] stays set. *)
Definition au_sharing_release_src (k : Z) (s : share) : outcome share :=
  let! x := array_get s.(srcs) k in
  let x := {| s_bus_num := x.(s_bus_num); s_channels := x.(s_channels);
              s_dup_sink := x.(s_dup_sink); s_duplicate := x.(s_duplicate);
              s_allocated := false |} in
  let! l := array_set s.(srcs) k x in
  au_sharing_close_dst x (set_srcs l s).

(** ** The virtual sound device *)

Definition start_ne_sharing_stream (d : au_shr_dst) (w : W) : Z * au_shr_dst * W :=
  let '(card, port) :=
    if ref_b then (sd_platform_get_card_id devs AUDIO_NAME_REAR2, REFB_VI2S_DEV)
    else if ref_a then (sd_platform_get_card_id devs AUDIO_NAME_REAR1, REFA_VI2S_DEV)
    else (0, 0) in
  if card <? 0 then (-1, d, w)
  else
    let '(p, w) := pcm_open card port PCM_OUT main_config_ref_virtual w in
    match p with
    | Some h => let '(_, w) := pcm_prepare h w in (0, set_vi2s (Some h) d, w)
    | None => (0, set_vi2s None d, w)
    end.

Definition stop_ne_sharing_stream (d : au_shr_dst) (w : W) : au_shr_dst * W :=
  match d.(d_vi2s) with
  | Some h => let '(_, w) := pcm_close h w in (set_vi2s None d, w)
  | None => (d, w)
  end.

(** The device is used also when it could not be opened. *)
Definition virtual_i2s_sync_write (t : Z) (data : list Z) (count : Z) (s : share) : outcome share :=
  let! d := array_get s.(dsts) t in
  let '(d, w) :=
    match d.(d_vi2s) with
    | Some _ => (d, s.(share_world))
    | None => let '(_, d, w) := start_ne_sharing_stream d s.(share_world) in (d, w)
    end in
  match d.(d_vi2s) with
  | None => Undef
  | Some h =>
      let! bs := mem_read data 0 count in
      let '(_, w) := pcm_write h bs w in
      let! l := array_set s.(dsts) t d in
      Done (set_share_world w (set_dsts l s))
  end.

(** ** Starting and stopping a mirror *)

(** Whether a stream of the bus takes part in a mirror with its own thread. *)
Definition mirrors_bus (direct : mirror_direct) (bus_num : Z) : bool :=
  match direct with
  | MIRROR_PRI2SEC => (bus_num =? 0) || (bus_num =? 101)
  | MIRROR_SEC2PRI | MIRROR_SEC2VDEV => (bus_num =? 100) || (bus_num =? 102)
  | _ => false
  end.

Definition au_sharing_duplicate_update (k target : Z) (direct : mirror_direct) (enable : bool)
    (s : share) : outcome share :=
  let! x := array_get s.(srcs) k in
  if negb enable && x.(s_duplicate) then
    let! l := array_set s.(srcs) k (set_duplicate false x.(s_dup_sink) x) in
    let s := set_srcs l s in
    let! d := array_get s.(dsts) x.(s_dup_sink) in
    match d.(d_vi2s) with
    | Some _ =>
        let '(d, w) := stop_ne_sharing_stream d s.(share_world) in
        let! l := array_set s.(dsts) x.(s_dup_sink) d in
        Done (set_share_world w (set_dsts l s))
    | None =>
        let! n := i32 (d.(d_ref_cnt) - 1) in
        let! l := array_set s.(dsts) x.(s_dup_sink) (set_count n true d) in
        Done (set_dsts l s)
    end
  else if enable && negb x.(s_duplicate) then
    if mirrors_bus direct x.(s_bus_num) then
      let! d := array_get s.(dsts) target in
      let! n := i32 (d.(d_ref_cnt) + 1) in
      let d := if n =? 1 then set_sem (d.(d_sem) + 1) (set_count n false d)
               else set_count n d.(d_hold) d in
      let! l := array_set s.(dsts) target d in
      let! l' := array_set s.(srcs) k (set_duplicate true target x) in
      Done (set_srcs l' (set_dsts l s))
    else if bool_decide (direct = MIRROR_PRI2VDEV) then
      let! l' := array_set s.(srcs) k (set_duplicate true target x) in Done (set_srcs l' s)
    else Done s
  else Done s.

(** ** Copying the data *)

Definition STACK_BUF : Z := 16 * 1024.

(** The copy of [len] bytes of [source] in [write_buf], with the gain of the
    stream of [bus_address]; a stream that is not there is a null pointer. *)
Definition copy_buf_and_apply_volume (write_buf source : list Z) (len : Z) (bus_address : string)
  : outcome (list Z) :=
  match amplitude bus_address with
  | None => Undef
  | Some ratio =>
      let! b := memcpy write_buf 0 source 0 len in
      let! l := audio_extra_sw_gain_16 ratio (samples b) len in
      Done (sample_bytes l)
  end.

(** [rbuf_write_async] *)
Definition rbuf_write_async (t : Z) (data : list Z) (count : Z) (s : share) : outcome share :=
  let! d := array_get s.(dsts) t in
  let! (_, rb) := audio_circlebuf_write d.(d_rbuf) (Some data) (s32 count) in
  let! l := array_set s.(dsts) t (set_rbuf rb d) in
  Done (set_dsts l s).

(** [write_buf] is the array on the stack. *)
Definition mirror_write (write_buf buf : list Z) (len : Z) (sink : Z) (bus_address : string) (s : share)
  : outcome share :=
  let! b := copy_buf_and_apply_volume write_buf buf len bus_address in
  rbuf_write_async sink b len s.

Definition au_sharing_duplicate (write_buf : list Z) (k : Z) (buf : list Z) (len location : Z)
    (direct : mirror_direct) (s : share) : outcome share :=
  let! s := au_sharing_duplicate_update k location direct
              (negb (bool_decide (direct = MIRROR_CLOSE))) s in
  let! x := array_get s.(srcs) k in
  let sink := x.(s_dup_sink) in
  if x.(s_duplicate) then
    if location =? SSA_SRC_SEC_EP then
      match direct with
      | MIRROR_SEC2PRI => mirror_write write_buf buf len sink "bus0_media_out" s
      | MIRROR_SEC2VDEV => virtual_i2s_sync_write sink buf len s
      | _ => Done s
      end
    else if location =? SSA_SRC_PRI_EP then
      match direct with
      | MIRROR_PRI2SEC => mirror_write write_buf buf len sink "bus100_rear_seat1" s
      | MIRROR_PRI2VDEV =>
          let! (frames, out) :=
            audio_extra_select_slot_16 (samples write_buf) rear_100_cap_cfg_ref.(channels)
              (samples buf) 4 (len / 2) in
          virtual_i2s_sync_write sink (sample_bytes out) (u32 (frames * 2)) s
      | _ => Done s
      end
    else if location =? SSB_SRC_SEC_EP then
      match direct with
      | MIRROR_SEC2PRI => mirror_write write_buf buf len sink "bus101_rear_seat" s
      | MIRROR_PRI2VDEV => virtual_i2s_sync_write sink buf len s
      | _ => Done s
      end
    else if location =? SSB_SRC_PRI_EP then
      match direct with
      | MIRROR_PRI2SEC => mirror_write write_buf buf len sink "bus102_rear_seat" s
      | MIRROR_PRI2VDEV => virtual_i2s_sync_write sink buf len s
      | _ => Done s
      end
    else Done s
  else Done s.

(** ** State of the mirrors *)

(** [audio_sharing_ne] and [audio_sharing_fe] of the device. *)
Definition au_sharing_enable (endpoint : Z) : bool * bool :=
  (endpoint =? AUDIO_SHARING_NE, (negb (endpoint =? AUDIO_SHARING_NE)) && (endpoint =? AUDIO_SHARING_FE)).

Definition au_sharing_disable (endpoint : Z) (flags : bool * bool) : bool * bool :=
  if endpoint =? AUDIO_SHARING_NE then (false, flags.2)
  else if endpoint =? AUDIO_SHARING_FE then (flags.1, false)
  else flags.

Definition au_sharing_get_state (bus_addr : string) (s : share) : outcome bool :=
  let hold t := let! d := array_get s.(dsts) t in Done d.(d_hold) in
  if (bus_addr =? "bus100_rear_seat1")%string then hold SSA_SRC_PRI_EP
  else if (bus_addr =? "bus101_rear_seat")%string then hold SSB_SRC_SEC_EP
  else if (bus_addr =? "bus102_rear_seat")%string then hold SSB_SRC_PRI_EP
  else Done true.
End Sharing.
Arguments share W : clear implicits.

(** ** The threads of the destinations *)

Section Threads.
Context {W : Type} `{PcmSystem W}.
Context (devs : list audio_device_manager).

(** The locals of the loops; [write_buf] is seen as samples. *)
Record mirror_locals := {
  periods : Z;
  tmp : list Z;
  write_buf : list Z;
  card : Z
}.

Definition set_tmp (t : list Z) (l : mirror_locals) : mirror_locals :=
  {| periods := l.(periods); tmp := t; write_buf := l.(write_buf); card := l.(card) |}.
Definition set_write_buf (b : list Z) (l : mirror_locals) : mirror_locals :=
  {| periods := l.(periods); tmp := l.(tmp); write_buf := b; card := l.(card) |}.

(** [pcm_open] with [check_pcm_open]; a null pointer is passed on to
    [pcm_get_error] and [pcm_close]. *)
Definition open_dst_pcm (card : Z) (d : au_shr_dst) (w : W) : outcome (au_shr_dst * W) :=
  let '(p, w) := pcm_open card CODEC_DEV PCM_OUT rear_100_cap_cfg_ref w in
  match p with
  | None => Undef
  | Some h =>
      if pcm_is_ready h w then Done (set_d_pcm (Some h) d, w)
      else let '(_, w) := pcm_close h w in Done (set_d_pcm None d, w)
  end.

(** The part of the loops before the inner loop, for the card [name]:
    [AUDIO_NAME_REAR1] in [ssa_rear_loop], [AUDIO_NAME_REAR3] in
    [ssb_rear_loop] and [AUDIO_NAME_REAR2] in [ssb_main_loop]. *)
Definition mirror_wake (name : string) (d : au_shr_dst) (l : mirror_locals) (w : W)
  : outcome (au_shr_dst * mirror_locals * W) :=
  if 0 <? d.(d_sem) then
    let d := set_sem (d.(d_sem) - 1) d in
    let start d c w :=
      Done (set_first_done false d,
            {| periods := 0; tmp := l.(tmp); write_buf := l.(write_buf); card := c |}, w) in
    match d.(d_pcm) with
    | Some _ => start d l.(card) w
    | None =>
        let c := u32 (sd_platform_get_card_id devs name) in
        let! (d, w) := open_dst_pcm c d w in start d c w
    end
  else Blocked.

(** Reading a period, and silencing it while [periods] is below
    [mute_period]. *)
Definition take_period (bytes : Z) (d : au_shr_dst) (l : mirror_locals)
  : outcome (Z * bool * au_shr_dst * mirror_locals) :=
  let! (read_sz, rb, t) := audio_circlebuf_read d.(d_rbuf) l.(tmp) 0 (s32 bytes) in
  let d := set_rbuf rb d in
  if l.(periods) <? mute_period then
    let! t := mem_write t 0 (replicate (Z.to_nat bytes) 0) in
    Done (read_sz, true, d,
          {| periods := l.(periods) + 1; tmp := t; write_buf := l.(write_buf); card := l.(card) |})
  else Done (read_sz, false, d, set_tmp t l).

(** The end of a round: whether the loop is left. *)
Definition end_round (d : au_shr_dst) : bool * au_shr_dst :=
  if d.(d_hold) then (true, set_rbuf (option_map audio_circlebuf_clear d.(d_rbuf)) d) else (false, d).

(** One round of the inner loop of [ssb_rear_loop] and of [ssb_main_loop]. *)
Definition ssb_round (d : au_shr_dst) (l : mirror_locals) (w : W)
  : outcome (bool * au_shr_dst * mirror_locals * W) :=
  let bytes := period_bytes 2 in
  let! (read_sz, _, d, l) := take_period bytes d l in
  let! (d, w) :=
    match d.(d_pcm) with
    | Some p =>
        if u32 read_sz =? bytes then
          let! bs := mem_read l.(tmp) 0 (u32 read_sz) in
          let '(_, w) := pcm_write p bs w in Done (set_first_done true d, w)
        else Done (d, w)
    | None => open_dst_pcm l.(card) d w
    end in
  let '(b, d) := end_round d in Done (b, d, l, w).

(** One round of the inner loop of [ssa_rear_loop]; a silenced period is
    neither played, nor is [hold] looked at. *)
Definition ssa_rear_round (d : au_shr_dst) (l : mirror_locals) (w : W)
  : outcome (bool * au_shr_dst * mirror_locals * W) :=
  let bytes := period_bytes 4 in
  let! (read_sz, muted, d, l) := take_period bytes d l in
  if muted then Done (false, d, l, w)
  else
    let! (frames, out) := audio_extra_select_slot_16 l.(write_buf) rear_100_cap_cfg_ref.(channels)
                            (samples l.(tmp)) 4 (bytes / 2) in
    let l := set_write_buf out l in
    let! (d, w) :=
      match d.(d_pcm) with
      | Some p =>
          if u32 read_sz =? bytes then
            let! bs := mem_read (sample_bytes out) 0 (frames * 2) in
            let '(_, w) := pcm_write p bs w in Done (set_first_done true d, w)
          else Done (d, w)
      | None => open_dst_pcm l.(card) d w
      end in
    let '(b, d) := end_round d in Done (b, d, l, w).

(** After the inner loop. *)
Definition mirror_leave (d : au_shr_dst) (w : W) : au_shr_dst * W :=
  if d.(d_hold) then
    match d.(d_pcm) with
    | Some p =>
        let '(_, w) := pcm_close p w in
        (set_rbuf (option_map audio_circlebuf_clear d.(d_rbuf)) (set_d_pcm None d), w)
    | None => (d, w)
    end
  else (d, w).
End Threads.

(** ** The thread that plays on the main card *)

Section MainThread.
Context {M : Type} `{MixerOps M} `{Alloc} {W : Type} `{PcmSystem W} {N : Type} `{Rpmsg N}.
Context (cb_calloc : bool) (cb_malloc : Z -> option (list Z)) (rproc_mp : bool).
Context (devs : list audio_device_manager).

(** The streamer, the paths of the remote service and the static stream. *)
Record main_hal := { mh_hal : hal M W; mh_paths : path_hal (N := N); mh_stream : alsa_stream_out }.

Definition set_stream_hdl (k : option nat) (o : alsa_stream_out) : alsa_stream_out :=
  {| o_bus_num := o.(o_bus_num); o_bus_address := o.(o_bus_address); o_config := o.(o_config);
     o_pcm := o.(o_pcm); o_pcm_hdl := k; o_standby := o.(o_standby) |}.

(** The locals of [ssa_main_loop] at its start. *)
Definition main_locals (tmp write_buf : list Z) : mirror_locals :=
  {| periods := 0; tmp := tmp; write_buf := write_buf;
     card := u32 (sd_platform_get_card_id devs AUDIO_NAME_PRIMARY) |}.

(** The part of [ssa_main_loop] before the inner loop. *)
Definition main_wake (created : bool) (d : au_shr_dst) (l : mirror_locals) (s : main_hal)
  : outcome (au_shr_dst * mirror_locals * main_hal) :=
  if 0 <? d.(d_sem) then
    let d := set_sem (d.(d_sem) - 1) d in
    let l := {| periods := 0; tmp := l.(tmp); write_buf := l.(write_buf); card := l.(card) |} in
    match d.(d_pcm_hdl) with
    | Some _ => Done (set_first_done false d, l, s)
    | None =>
        let! p := open_output_path rproc_mp s.(mh_stream).(o_bus_num) s.(mh_paths) in
        let! (k, o, h) := hal_streamer_open_out cb_calloc cb_malloc created s.(mh_stream)
                            l.(card) CODEC_DEV default_output_config s.(mh_hal) in
        Done (set_first_done false (set_hdl k d), l,
              {| mh_hal := h; mh_paths := p; mh_stream := set_stream_hdl k o |})
    end
  else Blocked.

(** One round of its inner loop; [others] and [fuel] are those of
    [hal_streamer_write], [in_tmp] the array of the mixer. *)
Definition main_round (others : nat -> halm unit) (fuel : nat) (in_tmp : list Z) (d : au_shr_dst)
    (l : mirror_locals) (s : main_hal) : outcome (bool * au_shr_dst * mirror_locals * main_hal) :=
  let bytes := period_bytes 2 in
  let! (read_sz, _, d, l) := take_period bytes d l in
  let! (_, out) := pcm_16_areas_copy (bytes / 2) (Some (samples l.(tmp))) 2 (Some l.(write_buf)) 4 0 in
  match out with
  | None => Undef
  | Some out =>
      let l := set_write_buf out l in
      let! (d, h) :=
        match d.(d_pcm_hdl) with
        | Some _ =>
            if u32 read_sz =? bytes then
              let! (_, h) := hal_streamer_write others fuel (Some s.(mh_stream))
                               (Some (sample_bytes out)) (bytes * 2) in_tmp s.(mh_hal) in
              Done (set_first_done true d, h)
            else Done (d, s.(mh_hal))
        | None => Done (d, s.(mh_hal))
        end in
      let '(b, d) := end_round d in
      Done (b, d, l, {| mh_hal := h; mh_paths := s.(mh_paths); mh_stream := s.(mh_stream) |})
  end.

(** After its inner loop; [exits] and [slot0] are those of
    [hal_streamer_close_out]. *)
Definition main_leave (exits : bool) (slot0 : Z) (d : au_shr_dst) (s : main_hal)
  : outcome (au_shr_dst * main_hal) :=
  if d.(d_hold) then
    match d.(d_pcm_hdl) with
    | Some _ =>
        let! (_, o, h) := hal_streamer_close_out exits s.(mh_stream) slot0 s.(mh_hal) in
        let! p := close_output_path rproc_mp o.(o_bus_num) s.(mh_paths) in
        Done (set_rbuf (option_map audio_circlebuf_clear d.(d_rbuf)) (set_hdl None d),
              {| mh_hal := h; mh_paths := p; mh_stream := o |})
    | None => Done (d, s)
    end
  else Done (d, s).
End MainThread.
