(* ===== verification/SharingProofs.v ===== *)
(** * Sharing: what the mirrors do

    Properties of [Sharing]: the users of a destination are counted, a
    mirrored block reaches the ring buffer of the destination with the gain
    of the other seat, and a round of the thread plays one period. *)

From Stdlib Require Import ZArith Lia Ascii String.
From stdpp Require Import base list numbers.
From S2P Require Import Prelude CString CircleBuf Mix PcmPlugin PcmDevice Streamer StreamerData.
From S2P Require Import AudioExtra Platform Sharing.

#[local] Open Scope Z_scope.

(** ** Users of a destination *)

Definition uses (t : Z) (x : au_shr_src) : Prop := x.(s_duplicate) = true /\ x.(s_dup_sink) = t.

#[global] Instance uses_dec (t : Z) (x : au_shr_src) : Decision (uses t x).
Proof. unfold uses. apply _. Defined.

Definition users (t : Z) (l : list au_shr_src) : Z := zlen (base.filter (uses t) l).

Definition b2z (P : Prop) `{Decision P} : Z := if decide P then 1 else 0.

Lemma users_insert (t : Z) (l : list au_shr_src) (k : nat) (x y : au_shr_src) :
  l !! k = Some x -> users t (<[k := y]> l) = users t l - b2z (uses t x) + b2z (uses t y).
Proof.
  unfold users, zlen, b2z. revert k. induction l as [|z l IH]; intros [|k] E; try discriminate E.
  - injection E as ->. cbn [insert list_insert]. rewrite !filter_cons.
    repeat case_decide; cbn [length]; lia.
  - change (<[S k := y]> (z :: l)) with (z :: <[k := y]> l). rewrite !filter_cons.
    specialize (IH k E). repeat case_decide; cbn [length] in *; lia.
Qed.

Lemma users_bound (t : Z) (l : list au_shr_src) : 0 <= users t l <= zlen l.
Proof. unfold users, zlen. pose proof (length_filter (uses t) l). lia. Qed.

Lemma users_pos (t : Z) (l : list au_shr_src) (k : nat) (x : au_shr_src) :
  l !! k = Some x -> uses t x -> 0 < users t l.
Proof.
  intros E U. pose proof (users_insert t l k x (set_duplicate false 0 x) E) as I.
  pose proof (users_bound t (<[k := set_duplicate false 0 x]> l)) as B.
  unfold b2z in I. rewrite decide_True in I by done.
  rewrite decide_False in I by (unfold uses; cbn; intuition discriminate). lia.
Qed.

Section Counts.
Context {W : Type} `{PcmSystem W}.

(** The table while only mirrors with their own thread are used. *)
Record counted (s : share W) : Prop := {
  ct_dsts : length s.(dsts) = 4%nat;
  ct_srcs : zlen s.(srcs) < INT32_MAX;
  ct_sink : forall k x, s.(srcs) !! k = Some x -> x.(s_duplicate) = true -> 0 <= x.(s_dup_sink) < 4;
  ct_dst : forall t d, s.(dsts) !! t = Some d ->
      d.(d_vi2s) = None /\ d.(d_ref_cnt) = users (Z.of_nat t) s.(srcs)
      /\ (d.(d_ref_cnt) = 0 -> d.(d_hold) = true)
}.

(** A call of [au_sharing_duplicate] for a source and a destination. *)
Record mirror_op := { mo_src : Z; mo_target : Z; mo_direct : mirror_direct }.

Definition run_mirror (o : mirror_op) (s : share W) : outcome (share W) :=
  au_sharing_duplicate_update o.(mo_src) o.(mo_target) o.(mo_direct)
    (negb (bool_decide (o.(mo_direct) = MIRROR_CLOSE))) s.

Fixpoint run_mirrors (l : list mirror_op) (s : share W) : outcome (share W) :=
  match l with
  | [] => Done s
  | o :: l => let! s := run_mirror o s in run_mirrors l s
  end.

(** The sources exist, and the virtual device is not used. *)
Definition mirror_ok (n : nat) (o : mirror_op) : Prop :=
  0 <= o.(mo_src) < Z.of_nat n /\ 0 <= o.(mo_target) < 4
  /\ (o.(mo_direct) = MIRROR_CLOSE \/ o.(mo_direct) = MIRROR_PRI2SEC \/ o.(mo_direct) = MIRROR_SEC2PRI).

(** Replacing a source and a destination. *)
Definition update (k : nat) (x : au_shr_src) (t : nat) (d : au_shr_dst) (s : share W) : share W :=
  set_srcs (<[k := x]> s.(srcs)) (set_dsts (<[t := d]> s.(dsts)) s).

Lemma update_counted (s : share W) (k t : nat) (x y : au_shr_src) (d d' : au_shr_dst) :
  counted s -> s.(srcs) !! k = Some x -> s.(dsts) !! t = Some d ->
  (x.(s_duplicate) = true -> x.(s_dup_sink) = Z.of_nat t) ->
  (y.(s_duplicate) = true -> y.(s_dup_sink) = Z.of_nat t) ->
  d'.(d_vi2s) = None ->
  d'.(d_ref_cnt) = d.(d_ref_cnt) - b2z (uses (Z.of_nat t) x) + b2z (uses (Z.of_nat t) y) ->
  (d'.(d_ref_cnt) = 0 -> d'.(d_hold) = true) ->
  counted (update k y t d' s).
Proof.
  intros [C1 C2 C3 C4] Ex Ed Sx Sy V R Ho.
  assert (t < 4)%nat by (apply lookup_lt_Some in Ed; lia).
  constructor; cbn [update dsts srcs set_srcs set_dsts].
  - by rewrite length_insert.
  - unfold zlen. by rewrite length_insert.
  - intros j z Ez Dz. destruct (decide (j = k)) as [-> | Nj].
    + rewrite list_lookup_insert_eq in Ez by (by eapply lookup_lt_Some). injection Ez as <-.
      rewrite Sy by done. lia.
    + rewrite list_lookup_insert_ne in Ez by done. by eapply C3.
  - intros j e Ee. rewrite (users_insert _ _ _ _ _ Ex). destruct (decide (j = t)) as [-> | Nj].
    + rewrite list_lookup_insert_eq in Ee by (by eapply lookup_lt_Some). injection Ee as <-.
      destruct (C4 t d Ed) as (_ & E & _). split_and!; [done|lia|done].
    + rewrite list_lookup_insert_ne in Ee by done. destruct (C4 j e Ee) as (V' & E & Ho').
      split_and!; [done| |done]. unfold b2z.
      rewrite !decide_False; [lia| |]; unfold uses; intros [D S];
        [specialize (Sy D)|specialize (Sx D)]; lia.
Qed.
End Counts.

Section Mirrors.
Context {W : Type} `{PcmSystem W}.

(** Closing a mirror puts its destination on hold, whoever else uses it. *)
Lemma close_mirror (s : share W) (k : nat) (x : au_shr_src) (target : Z) :
  counted s -> s.(srcs) !! k = Some x -> x.(s_duplicate) = true ->
  exists d, s.(dsts) !! Z.to_nat x.(s_dup_sink) = Some d
    /\ run_mirror {| mo_src := Z.of_nat k; mo_target := target; mo_direct := MIRROR_CLOSE |} s
       = Done (update k (set_duplicate false x.(s_dup_sink) x) (Z.to_nat x.(s_dup_sink))
                 (set_count (d.(d_ref_cnt) - 1) true d) s).
Proof.
  intros C Ex Dx. pose proof (ct_sink s C k x Ex Dx) as B. pose proof (ct_dsts s C) as L.
  destruct (lookup_lt_is_Some_2 s.(dsts) (Z.to_nat x.(s_dup_sink))) as [d Ed]; [lia|].
  exists d. split; [done|]. destruct (ct_dst s C _ d Ed) as (V & R & _).
  pose proof (users_bound (Z.of_nat (Z.to_nat x.(s_dup_sink))) s.(srcs)) as Bu.
  pose proof (ct_srcs s C) as Bs. pose proof (lookup_lt_Some _ _ _ Ex) as Lk.
  unfold run_mirror, au_sharing_duplicate_update. cbn [mo_src mo_target mo_direct].
  rewrite (array_get_lookup _ _ x) by (first [lia|by rewrite Nat2Z.id]). cbn [obind].
  rewrite bool_decide_eq_true_2 by done. cbn [negb]. rewrite Dx. cbn [andb].
  rewrite array_set_done by (unfold zlen; lia). cbn [obind dsts set_srcs].
  rewrite (array_get_lookup _ _ d) by (first [lia|done]). cbn [obind]. rewrite V.
  rewrite i32_done by (unfold is_i32, INT32_MIN, INT32_MAX in *; lia). cbn [obind].
  rewrite array_set_done by (unfold zlen; lia). cbn [obind]. by rewrite Nat2Z.id.
Qed.

(** Starting a mirror that is not there yet. *)
Lemma open_mirror (s : share W) (k : nat) (x : au_shr_src) (t : Z) (dir : mirror_direct) :
  counted s -> s.(srcs) !! k = Some x -> x.(s_duplicate) = false -> 0 <= t < 4 ->
  dir = MIRROR_PRI2SEC \/ dir = MIRROR_SEC2PRI ->
  exists d, s.(dsts) !! Z.to_nat t = Some d
    /\ run_mirror {| mo_src := Z.of_nat k; mo_target := t; mo_direct := dir |} s
       = Done (if mirrors_bus dir x.(s_bus_num) then
                 update k (set_duplicate true t x) (Z.to_nat t)
                   (if d.(d_ref_cnt) =? 0
                    then set_sem (d.(d_sem) + 1) (set_count 1 false d)
                    else set_count (d.(d_ref_cnt) + 1) d.(d_hold) d) s
               else s).
Proof.
  intros C Ex Dx B Dir. pose proof (ct_dsts s C) as L.
  destruct (lookup_lt_is_Some_2 s.(dsts) (Z.to_nat t)) as [d Ed]; [lia|].
  exists d. split; [done|]. destruct (ct_dst s C _ d Ed) as (V & R & _).
  pose proof (users_bound (Z.of_nat (Z.to_nat t)) s.(srcs)) as Bu.
  pose proof (ct_srcs s C) as Bs. pose proof (lookup_lt_Some _ _ _ Ex) as Lk.
  unfold run_mirror, au_sharing_duplicate_update. cbn [mo_src mo_target mo_direct].
  rewrite (array_get_lookup _ _ x) by (first [lia|by rewrite Nat2Z.id]). cbn [obind].
  rewrite bool_decide_eq_false_2 by (destruct Dir as [-> | ->]; discriminate). cbn [negb andb]. rewrite Dx.
  cbn [negb]. rewrite (bool_decide_eq_false_2 (dir = MIRROR_PRI2VDEV))
    by (destruct Dir as [-> | ->]; discriminate).
  destruct (mirrors_bus dir x.(s_bus_num)); [|done].
  rewrite (array_get_lookup _ _ d) by (first [lia|done]). cbn [obind].
  rewrite i32_done by (unfold is_i32, INT32_MIN, INT32_MAX in *; lia). cbn [obind].
  replace (d.(d_ref_cnt) + 1 =? 1) with (d.(d_ref_cnt) =? 0)
    by (destruct (d.(d_ref_cnt) =? 0) eqn:E; symmetry; [apply Z.eqb_eq|apply Z.eqb_neq]; zbool; lia).
  rewrite !array_set_done by (unfold zlen; lia). cbn [obind]. unfold update. rewrite Nat2Z.id.
  destruct (d.(d_ref_cnt) =? 0) eqn:E; zbool; [|done]. by rewrite E.
Qed.

Lemma run_mirror_counted (o : mirror_op) (s : share W) :
  counted s -> mirror_ok (length s.(srcs)) o ->
  exists s', run_mirror o s = Done s' /\ counted s' /\ length s'.(srcs) = length s.(srcs).
Proof.
  intros C ([K1 K2] & T & Dir). destruct o as [k t dir]. cbn [mo_src mo_target mo_direct] in *.
  destruct (lookup_lt_is_Some_2 s.(srcs) (Z.to_nat k)) as [x Ex]; [lia|].
  rewrite <- (Z2Nat.id k) by lia. destruct x.(s_duplicate) eqn:Dx.
  - destruct (decide (dir = MIRROR_CLOSE)) as [-> | Nd].
    + destruct (close_mirror s (Z.to_nat k) x t C Ex Dx) as (d & Ed & ->).
      pose proof (ct_sink s C _ x Ex Dx) as B. eexists. split; [done|]. split; [|apply length_insert].
      eapply (update_counted s _ _ x _ d); try done; cbn.
      * intros _. lia.
      * destruct (ct_dst s C _ d Ed) as (V & _ & _). exact V.
      * unfold b2z. rewrite decide_True by (split; [done|lia]).
        rewrite decide_False by (intros [? _]; done). lia.
    + exists s. split; [|done]. unfold run_mirror, au_sharing_duplicate_update.
      cbn [mo_src mo_target mo_direct].
      rewrite (array_get_lookup _ _ x) by (first [lia|by rewrite Nat2Z.id]). cbn [obind].
      rewrite bool_decide_eq_false_2 by done. by rewrite Dx.
  - destruct Dir as [-> | Dir].
    + exists s. split; [|done]. unfold run_mirror, au_sharing_duplicate_update.
      cbn [mo_src mo_target mo_direct].
      rewrite (array_get_lookup _ _ x) by (first [lia|by rewrite Nat2Z.id]). cbn [obind].
      rewrite bool_decide_eq_true_2 by done. by rewrite Dx.
    + destruct (open_mirror s (Z.to_nat k) x t dir C Ex Dx T Dir) as (d & Ed & ->).
      eexists. split; [done|]. destruct (mirrors_bus dir _); [|done]. split; [|apply length_insert].
      destruct (ct_dst s C _ d Ed) as (V & R & Ho).
      pose proof (users_bound (Z.of_nat (Z.to_nat t)) s.(srcs)) as Bu.
      eapply (update_counted s _ _ x _ d); try done; cbn.
      * by rewrite Dx.
      * intros _. lia.
      * by destruct (d.(d_ref_cnt) =? 0).
      * unfold b2z. rewrite decide_False by (intros [? _]; congruence).
        rewrite decide_True by (split; cbn; [done|lia]).
        destruct (d.(d_ref_cnt) =? 0) eqn:E; zbool; cbn; lia.
      * destruct (d.(d_ref_cnt) =? 0) eqn:E; zbool; cbn; lia.
Qed.

(** C24. Over every sequence of calls of [au_sharing_duplicate_update] that
    start mirrors between the primary and the secondary seats
    ([MIRROR_PRI2SEC], [MIRROR_SEC2PRI]) and stop them ([MIRROR_CLOSE]), on
    sources that are not released meanwhile and destinations without a
    virtual device: the count of a destination is the number of streams that
    are mirrored to it, and a destination without any is on hold.  Stopping
    one mirror puts the destination on hold also while the count stays
    positive, so that the other streams are no longer played there.  (The
    mirrors to the virtual device are not counted in this way.) *)
Theorem mirror_users_counted (l : list mirror_op) (s : share W) :
  counted s -> Forall (mirror_ok (length s.(srcs))) l ->
  exists s', run_mirrors l s = Done s'
    /\ (forall t d, s'.(dsts) !! t = Some d ->
          d.(d_ref_cnt) = users (Z.of_nat t) s'.(srcs) /\ (d.(d_ref_cnt) = 0 -> d.(d_hold) = true))
    /\ (forall k x target, s'.(srcs) !! k = Some x -> x.(s_duplicate) = true ->
          exists s'' d, run_mirror {| mo_src := Z.of_nat k; mo_target := target;
                                      mo_direct := MIRROR_CLOSE |} s' = Done s''
            /\ s''.(dsts) !! Z.to_nat x.(s_dup_sink) = Some d /\ d.(d_hold) = true
            /\ d.(d_ref_cnt) = users x.(s_dup_sink) s'.(srcs) - 1).
Proof.
  intros C F. assert (exists s', run_mirrors l s = Done s' /\ counted s') as (s' & E & C').
  { revert s C F. induction l as [|o l IH]; intros s C F; [by exists s|].
    apply Forall_cons_1 in F as [Fo F]. cbn [run_mirrors].
    destruct (run_mirror_counted o s C Fo) as (s1 & -> & C1 & L1). cbn [obind]. apply IH; [done|].
    by rewrite L1. }
  exists s'. split; [done|]. split.
  - intros t d Ed. by apply (ct_dst s' C').
  - intros k x target Ex Dx. destruct (close_mirror s' k x target C' Ex Dx) as (d & Ed & ->).
    eexists _, _. split; [done|]. cbn [update dsts set_srcs set_dsts].
    rewrite list_lookup_insert_eq by (by eapply lookup_lt_Some). split; [done|]. split; [done|].
    destruct (ct_dst s' C' _ d Ed) as (_ & R & _). pose proof (ct_sink s' C' k x Ex Dx) as B.
    cbn [d_ref_cnt set_count]. rewrite R. by rewrite Z2Nat.id by lia.
Qed.
End Mirrors.

Definition shared (buses : list Z) : share sound_card :=
  {| dsts := map (dst_init (fun _ => None)) [0; 1; 2; 3];
     srcs := map (fun b => {| s_bus_num := b; s_channels := 2; s_dup_sink := 0;
                              s_duplicate := false; s_allocated := true |}) buses;
     share_world := sc_start [] |}.

Lemma shared_counted (buses : list Z) : zlen buses < INT32_MAX -> counted (shared buses).
Proof.
  intros B. assert (forall t, users t (shared buses).(srcs) = 0) as U.
  { intros t. clear B. induction buses as [|b l IH]; [done|]. exact IH. }
  constructor.
  - done.
  - unfold zlen in *. cbn. by rewrite length_map.
  - cbn. intros k x E. rewrite list_lookup_fmap in E. by destruct (buses !! k); [injection E as <-|].
  - intros t d E. rewrite U. cbn [shared dsts] in E. rewrite list_lookup_fmap in E.
    by destruct ([0; 1; 2; 3] !! t); [injection E as <-|].
Qed.

Lemma mirror_users_counted_witness :
  exists s', run_mirrors [{| mo_src := 0; mo_target := 0; mo_direct := MIRROR_PRI2SEC |};
                          {| mo_src := 1; mo_target := 0; mo_direct := MIRROR_PRI2SEC |}]
               (shared [0; 101]) = Done s'
    /\ (forall t d, s'.(dsts) !! t = Some d -> d.(d_ref_cnt) = users (Z.of_nat t) s'.(srcs))
    /\ users 0 s'.(srcs) = 2.
Proof.
  destruct (mirror_users_counted
              [{| mo_src := 0; mo_target := 0; mo_direct := MIRROR_PRI2SEC |};
               {| mo_src := 1; mo_target := 0; mo_direct := MIRROR_PRI2SEC |}] (shared [0; 101]))
    as (s' & E & A & _).
  - by apply shared_counted.
  - assert (forall k, 0 <= k < 2 -> mirror_ok 2 {| mo_src := k; mo_target := 0;
                                                   mo_direct := MIRROR_PRI2SEC |}) as M
      by (intros k K; split_and!; cbn; first [lia|auto]).
    constructor; [apply M; lia|]. constructor; [apply M; lia|constructor].
  - exists s'. split; [exact E|]. split; [intros t d Ed; by apply A|].
    injection E as <-. reflexivity.
Defined.

(** ** A round of the threads *)

Section Rounds.
Context {W : Type} `{PcmSystem W}.

(** What is left of a period that was read into [tmp]. *)
Definition heard (l : mirror_locals) (bytes : Z) (queued : list Z) : list Z :=
  if l.(periods) <? mute_period then replicate (Z.to_nat bytes) 0 else take (Z.to_nat bytes) queued.

Lemma take_period_done (bytes : Z) (d : au_shr_dst) (l : mirror_locals) (rb : circlebuf_s) :
  d.(d_rbuf) = Some rb -> wf rb -> unlocked rb -> 0 <= bytes <= zlen l.(tmp) ->
  bytes <= INT32_MAX ->
  exists rb' l',
    take_period bytes d l
    = Done (Z.min bytes rb.(used), l.(periods) <? mute_period, set_rbuf (Some rb') d, l')
    /\ wf rb' /\ unlocked rb' /\ contents rb' = drop (Z.to_nat bytes) (contents rb)
    /\ zlen l'.(tmp) = zlen l.(tmp) /\ l'.(card) = l.(card) /\ l'.(write_buf) = l.(write_buf)
    /\ (bytes <= rb.(used) -> zslice l'.(tmp) 0 bytes = heard l bytes (contents rb)).
Proof.
  intros E Wf U B B'. unfold take_period, heard. rewrite E.
  replace (s32 bytes) with bytes by (symmetry; apply s32_small; unfold is_i32, INT32_MIN, INT32_MAX in *; lia).
  destruct (read_correct rb l.(tmp) 0 bytes Wf U) as (rb' & -> & W' & U' & _ & C'); [lia|lia|lia|].
  cbn [obind]. pose proof (zlen_contents rb Wf) as Lc.
  assert (zlen (take (Z.to_nat bytes) (contents rb)) <= bytes) by (unfold zlen; rewrite length_take; lia).
  assert (zlen (splice l.(tmp) (Z.to_nat 0) (take (Z.to_nat bytes) (contents rb))) = zlen l.(tmp)) as Ls
    by (unfold zlen in *; rewrite length_splice; lia).
  destruct (l.(periods) <? mute_period).
  - rewrite mem_write_done by (unfold zlen in *; rewrite ?length_replicate; lia). cbn [obind].
    eexists _, _. split; [done|]. split_and!; try done; cbn [tmp card write_buf].
    + unfold zlen in *. rewrite length_splice; [lia|]. rewrite length_replicate. lia.
    + intros _. unfold zslice. rewrite drop_0. unfold splice. rewrite take_0. cbn [app].
      apply take_app_length'. by rewrite length_replicate.
  - eexists _, _. split; [done|]. split_and!; try done. cbn [tmp set_tmp].
    intros F. unfold zslice. rewrite drop_0. unfold splice. rewrite take_0. cbn [app].
    apply take_app_length'. rewrite length_take. unfold zlen in Lc. lia.
Qed.

(** A round of the thread of the second board, with its device open, plays
    one period: the oldest queued bytes, or silence of the same length in the
    first five rounds, and takes them from the queue.  With less than a period
    queued it plays nothing and what was queued is lost. *)
Theorem mirror_round_plays_period (d : au_shr_dst) (l : mirror_locals) (w : W) (rb : circlebuf_s) (p : Z) :
  d.(d_rbuf) = Some rb -> wf rb -> unlocked rb -> d.(d_pcm) = Some p -> d.(d_hold) = false ->
  period_bytes 2 <= zlen l.(tmp) ->
  exists rb' d' l',
    ssb_round d l w
    = Done (false, d', l',
            if period_bytes 2 <=? rb.(used)
            then (pcm_write p (heard l (period_bytes 2) (contents rb)) w).2 else w)
    /\ d'.(d_rbuf) = Some rb' /\ wf rb' /\ unlocked rb'
    /\ contents rb' = drop (Z.to_nat (period_bytes 2)) (contents rb)
    /\ (rb.(used) < period_bytes 2 -> contents rb' = []).
Proof.
  intros E Wf U Ep Eh B. change (period_bytes 2) with 3840 in *.
  destruct (take_period_done 3840 d l rb E Wf U) as (rb' & l' & Et & W' & U' & C' & Lt & Lk & Lw & S);
    [lia|unfold INT32_MAX; lia|].
  pose proof (zlen_contents rb Wf) as Lc. pose proof (zlen_nonneg (contents rb)) as Nn.
  assert (rb.(used) < 3840 -> contents rb' = []) as D
    by (intros F; rewrite C'; apply drop_ge; unfold zlen in Lc; lia).
  unfold ssb_round. change (period_bytes 2) with 3840. rewrite Et. cbn [obind].
  cbn [d_pcm set_rbuf]. rewrite Ep. rewrite u32_small by (unfold is_u32, UINT32_MAX; lia).
  destruct (3840 <=? rb.(used)) eqn:F; zbool.
  - replace (Z.min 3840 rb.(used) =? 3840) with true by (symmetry; apply Z.eqb_eq; lia).
    rewrite Z.min_l by lia. rewrite mem_read_done by lia. cbn [obind]. rewrite S by done.
    destruct (pcm_write p _ w) as [r w']. cbn [obind].
    unfold end_round. cbn [d_hold set_first_done set_rbuf]. rewrite Eh.
    eexists rb', _, _. split; [done|]. auto.
  - replace (Z.min 3840 rb.(used) =? 3840) with false by (symmetry; apply Z.eqb_neq; lia).
    cbn [obind]. unfold end_round. cbn [d_hold set_rbuf]. rewrite Eh.
    eexists rb', _, _. split; [done|]. auto.
Qed.
End Rounds.

(** A ring buffer of [n] bytes with the bytes [l] queued. *)
Definition ring (n : nat) (l : list Z) : circlebuf_s :=
  {| data := l ++ replicate (n - length l) 0; size := Z.of_nat n; used := zlen l; read_offset := 0;
     write_offset := zlen l; over_write := false; chann := 2; fmt := 0; CircleBuf.rate := 48000;
     lock := false |}.

Lemma ring_wf (n : nat) (l : list Z) :
  (0 < n)%nat -> (length l <= n)%nat -> Z.of_nat n <= INT32_MAX -> wf (ring n l).
Proof.
  intros N L B. constructor; cbn; unfold zlen; rewrite ?length_app, ?length_replicate; lia.
Qed.

Definition playing (rb : circlebuf_s) : au_shr_dst :=
  {| d_rbuf := Some rb; d_sem := 0; d_pcm_hdl := None; d_vi2s := None; d_pcm := Some 1;
     d_hold := false; d_ref_cnt := 1; d_first_done := false |}.

Definition locals (n : Z) : mirror_locals :=
  {| periods := n; tmp := replicate (Z.to_nat 3840) 7; write_buf := []; card := 0 |}.

(** Two bytes that are queued are lost. *)
Lemma mirror_round_plays_period_witness :
  exists rb' d' l', ssb_round (playing (ring 4 [1; 2])) (locals 5) (sc_start [])
                    = Done (false, d', l', sc_start [])
    /\ d'.(d_rbuf) = Some rb' /\ contents rb' = [].
Proof.
  destruct (mirror_round_plays_period (playing (ring 4 [1; 2])) (locals 5) (sc_start []) (ring 4 [1; 2]) 1)
    as (rb' & d' & l' & E & Er & _ & _ & _ & C); try reflexivity; try discriminate.
  - apply ring_wf; cbn; unfold INT32_MAX; lia.
  - exists rb', d', l'. split; [exact E|]. split; [exact Er|]. apply C. reflexivity.
Defined.

(** ** The data of a mirror *)

Lemma samples_app (a b : list Z) (n : nat) :
  length a = (2 * n)%nat -> samples (a ++ b) = samples a ++ samples b.
Proof.
  revert a. induction n as [|n IH]; intros [|x [|y a]] L; cbn in L; try lia; [done|].
  cbn [app samples]. by rewrite IH by lia.
Qed.

Lemma sample_bytes_app (a b : list Z) : sample_bytes (a ++ b) = sample_bytes a ++ sample_bytes b.
Proof. unfold sample_bytes. by rewrite map_app, concat_app. Qed.

Lemma map_range_prefix (f : Z -> Z) (a b : list Z) :
  map_range (fun _ => f) 0 (zlen a) (a ++ b) = map f a ++ b.
Proof.
  apply list_eq. intros k. unfold map_range. rewrite list_lookup_imap.
  destruct (decide (k < length a)%nat) as [L | L].
  - rewrite !lookup_app_l by (rewrite ?length_map; done). rewrite list_lookup_fmap.
    destruct (a !! k); [|done]. cbn. unfold zlen. zif; [done|lia].
  - rewrite !lookup_app_r by (rewrite ?length_map; lia). rewrite length_map.
    destruct (b !! (k - length a)%nat); [|done]. cbn. unfold zlen. zif; [lia|done].
Qed.

Section Data.
Context {W : Type} `{PcmSystem W} (amplitude : string -> option f32).

Lemma copy_buf_done (wb buf : list Z) (n : nat) (addr : string) (ratio : f32) :
  amplitude addr = Some ratio -> 0 <= ratio.(f_m) ->
  (2 * n <= length wb)%nat -> (2 * n <= length buf)%nat ->
  exists rest,
    copy_buf_and_apply_volume amplitude wb buf (2 * Z.of_nat n) addr
    = Done (sample_bytes (map (scaled ratio) (samples (take (2 * n) buf))) ++ rest).
Proof.
  intros A R L1 L2. unfold copy_buf_and_apply_volume. rewrite A.
  rewrite memcpy_done by (unfold zlen; lia). cbn [obind].
  unfold audio_extra_sw_gain_16. rewrite (proj2 (Z.ltb_ge _ _) R).
  set (b := zslice buf 0 (2 * Z.of_nat n)).
  assert (b = take (2 * n) buf) as Eb
    by (unfold b, zslice; rewrite drop_0; f_equal; lia).
  assert (length b = (2 * n)%nat) as Lb by (rewrite Eb, length_take; lia).
  unfold splice. rewrite take_0. cbn [app]. rewrite (samples_app _ _ n Lb).
  pose proof (samples_even b n Lb) as Ls.
  replace (2 * Z.of_nat n / 2) with (Z.of_nat n) by (rewrite Z.mul_comm, Z.div_mul; lia).
  rewrite Nat2Z.id. rewrite gain_loop_map by (unfold zlen; rewrite ?length_app; lia). cbn [obind].
  replace (Z.of_nat n) with (zlen (samples b)) by (unfold zlen; lia).
  rewrite map_range_prefix, sample_bytes_app. eexists. do 3 f_equal. rewrite Eb.
  apply map_ext. intros x. apply gain_trunc.
Qed.

(** A block that is mirrored is queued at the destination as the samples of
    the stream with the gain of the other seat, saturated, as far as the ring
    buffer has room; what was queued before is kept. *)
Theorem mirror_write_scales (wb buf : list Z) (n : nat) (t : Z) (addr : string) (ratio : f32)
    (s : share W) (d : au_shr_dst) (rb : circlebuf_s) :
  amplitude addr = Some ratio -> 0 <= ratio.(f_m) ->
  (2 * n <= length wb)%nat -> (2 * n <= length buf)%nat -> 2 * Z.of_nat n <= INT32_MAX ->
  0 <= t -> s.(dsts) !! Z.to_nat t = Some d -> d.(d_rbuf) = Some rb ->
  wf rb -> unlocked rb -> rb.(over_write) = false ->
  exists s' rb',
    mirror_write amplitude wb buf (2 * Z.of_nat n) t addr s = Done s'
    /\ s'.(dsts) = <[Z.to_nat t := set_rbuf (Some rb') d]> s.(dsts) /\ s'.(srcs) = s.(srcs)
    /\ wf rb' /\ unlocked rb'
    /\ contents rb' = contents rb
         ++ take (Z.to_nat (rb.(size) - rb.(used)))
              (sample_bytes (map (scaled ratio) (samples (take (2 * n) buf)))).
Proof.
  intros A R L1 L2 B T Ed Er Wf U O. unfold mirror_write.
  destruct (copy_buf_done wb buf n addr ratio A R L1 L2) as (rest & ->). cbn [obind].
  set (bs := sample_bytes _).
  assert (length bs = (2 * n)%nat) as Lb.
  { unfold bs. rewrite length_sample_bytes, length_map.
    rewrite (samples_even _ n); [lia|rewrite length_take; lia]. }
  unfold rbuf_write_async. rewrite (array_get_lookup _ _ _ T Ed). cbn [obind]. rewrite Er.
  rewrite s32_small by lia.
  destruct (write_fits rb (bs ++ rest) (2 * Z.of_nat n) Wf U) as (rb' & -> & W' & U' & _ & C);
    [unfold zlen; rewrite length_app; lia|by left|]. cbn [obind].
  rewrite array_set_done by (apply lookup_lt_Some in Ed; unfold zlen; lia). cbn [obind].
  eexists _, rb'. split; [done|]. split_and!; try done. rewrite C. f_equal.
  destruct Wf as [? ? [? ?] ? ? ?].
  destruct (Z_le_gt_dec (2 * Z.of_nat n) (rb.(size) - rb.(used))).
  - rewrite Z.min_l by lia. rewrite take_app_length' by lia. symmetry. apply take_ge. lia.
  - rewrite Z.min_r by lia. apply take_app_le. lia.
Qed.
End Data.

Lemma mirror_write_scales_witness :
  exists s' rb',
    mirror_write (fun _ => Some {| f_m := 1; f_e := -1 |}) (replicate 8 0) [100; 0; 254; 255] 4 0
      "bus100_rear_seat1"
      {| dsts := [playing (ring 8 [1])]; srcs := []; share_world := sc_start [] |} = Done s'
    /\ s'.(dsts) = [set_rbuf (Some rb') (playing (ring 8 [1]))]
    /\ contents rb' = [1; 50; 0; 255; 255].
Proof.
  destruct (mirror_write_scales (W := sound_card) (fun _ => Some {| f_m := 1; f_e := -1 |}) (replicate 8 0)
              [100; 0; 254; 255] 2 0 "bus100_rear_seat1" {| f_m := 1; f_e := -1 |}
              {| dsts := [playing (ring 8 [1])]; srcs := []; share_world := sc_start [] |}
              (playing (ring 8 [1])) (ring 8 [1]))
    as (s' & rb' & E & D & _ & _ & _ & C); try reflexivity; try discriminate; try (cbn; lia).
  - apply ring_wf; cbn; unfold INT32_MAX; lia.
  - exists s', rb'. split; [exact E|]. split; [exact D|]. rewrite C. reflexivity.
Defined.
