(* ===== verification/Hfp.v ===== *)
(** * Hands-free calls

    Models [audio_extra/hfp.c]: start and stop of a hands-free call on the
    sound card or through the remote service, its volume and the mute of the
    microphone.

    The volume index is computed in [double] with the rounding of IEEE 754 as
    [SpecFloat] defines it.  [powf], the routes of the card
    ([audio_route_apply_and_update_path]) and [pcm_start] are parameters; the
    routes that were asked for are kept in the state. *)

From Stdlib Require Import ZArith Lia Ascii String SpecFloat.
From stdpp Require Import base list numbers.
From S2P Require Import Prelude CString Mixer BusVolume PcmPlugin PcmDevice Streamer AudioExtra.
From S2P Require Import Remote OutputPath Platform.

#[local] Open Scope Z_scope.

(** ** Volumes *)

Definition HFP_VOLUME_MIN_mDB : Z := -2800.
Definition HFP_VOLUME_MAX_mDB : Z := 200.

(** [double] numbers. *)
Definition f64_of_Z (z : Z) : spec_float := binary_normalize 53 1024 z 0 false.
Definition f64_mul (a b : spec_float) : spec_float := SFmul 53 1024 a b.
Definition f64_div (a b : spec_float) : spec_float := SFdiv 53 1024 a b.
Definition f64_sub (a b : spec_float) : spec_float := SFsub 53 1024 a b.

(** Conversion to [int32_t]: the fraction is dropped, and a number that is
    not an [int] is undefined. *)
Definition f64_to_int (f : spec_float) : outcome Z :=
  match f with
  | S754_zero _ => Done 0
  | S754_finite s m e =>
      let v := if 0 <=? e then Zpos m * 2 ^ e else Zpos m / 2 ^ (- e) in
      i32 (if s then - v else v)
  | _ => Undef
  end.

(** [VOL_PRECENT]; the difference is an [int]. *)
Definition VOL_PRECENT (vol_mdb : Z) : outcome spec_float :=
  let! d := i32 (vol_mdb - HFP_VOLUME_MIN_mDB) in
  Done (f64_mul (f64_div (f64_mul (f64_of_Z d) (f64_of_Z 1))
                   (f64_of_Z (HFP_VOLUME_MAX_mDB - HFP_VOLUME_MIN_mDB)))
          (f64_of_Z 100)).

(** [(volume / 100.0 - MIN_HFP_VOLUME_DB) / HFP_VOLUME_SLOPE]; the two
    constants are -115.5 and 0.5, which a [double] holds exactly. *)
Definition MIN_HFP_VOLUME_DB : spec_float := f64_div (f64_of_Z (-231)) (f64_of_Z 2).
Definition HFP_VOLUME_SLOPE : spec_float := f64_div (f64_of_Z 1) (f64_of_Z 2).
Definition local_volume (volume : Z) : spec_float :=
  f64_div (f64_sub (f64_div (f64_of_Z volume) (f64_of_Z 100)) MIN_HFP_VOLUME_DB) HFP_VOLUME_SLOPE.

(** [g_btcall_sw_gain] *)
Record audio_gain := { min_value : Z; max_value : Z; step_value : Z }.
Definition g_btcall_sw_gain : audio_gain := {| min_value := -4800; max_value := 600; step_value := 300 |}.

(** ** State *)

Inductive volume_hook :=
| ref_board | ms_board
| remote_dsp | remote_soc.

Definition HFP_ENABLE_MIXER_PATH : string := "hfp".
Definition HFP_MIC_MUTE_MIXER_PATH : string := "hfp-mic-mute".
Definition CTRL_DSP1_HFP_VOL : string := "DSP1 HFP VOL".
Definition BT_PLAYBACK_TO_MAIN_SPK_16K : string := "PATH_BT_PLAYBACK_TO_MAIN_SPK_16K".
Definition BT_CAPTURE_FROM_MAIN_MIC_16K : string := "PATH_BT_CAPTURE_FROM_MAIN_MIC_16K".

(** The four volume controls of the board with the codec AK7738. *)
Definition dac_volumes : list string :=
  ["DAC1 Digital Volume L"; "DAC1 Digital Volume R"; "DAC2 Digital Volume L"; "DAC2 Digital Volume R"]%string.

Definition pcm_config_hfp (rt : Z) : pcm_config :=
  {| channels := 1; rate := rt; period_size := 192; period_count := 4;
     cfg_format := PCM_FORMAT_S16_LE; start_threshold := 0; stop_threshold := 0;
     silence_threshold := 0; silence_size := 0 |}.

Section Hfp.
Context {M : Type} `{MixerOps M} {W : Type} `{PcmSystem W} {N : Type} `{Rpmsg N} {F : Type}.
Context (powf10 : Z -> Z -> Z -> Z -> F) (pcm_start : Z -> W -> Z * W)
  (route_update : Z -> string -> bool -> Z).
(** The cards of the platform, how the Bluetooth chip is connected, the sample
    rate of the call, and [IPCC_RPC_RPROC_MP]. *)
Context (devs : list audio_device_manager) (bt : bt_chip_connect_e) (hfp_sample_rate : Z)
  (rproc_mp : bool).

(** [hfpmod] and the members of the device that the file uses; [wb] is always
    true.  [restores] tells whether [restore_ms_hfp_volume] is set.
    [mixer0] is the first mixer, and [route_calls] the paths that were applied
    (true) or reset. *)
Record hfp_hal := {
  rx : option Z;
  tx : option Z;
  hfp_volume : Z;
  amplitude_ratio : F;
  is_hfp_running : bool;
  hook : volume_hook;
  restores : bool;
  vol_tmp : list Z;
  enable_hfp : bool;
  mixer0 : M;
  pcms : W;
  rem : remote N;
  route_calls : list (Z * string * bool)
}.

Definition set_rx (x : option Z) (s : hfp_hal) : hfp_hal :=
  {| rx := x; tx := s.(tx); hfp_volume := s.(hfp_volume); amplitude_ratio :=
     s.(amplitude_ratio); is_hfp_running := s.(is_hfp_running); hook := s.(hook); restores
     := s.(restores); vol_tmp := s.(vol_tmp); enable_hfp := s.(enable_hfp); mixer0 :=
     s.(mixer0); pcms := s.(pcms); rem := s.(rem); route_calls := s.(route_calls) |}.
Definition set_tx (x : option Z) (s : hfp_hal) : hfp_hal :=
  {| rx := s.(rx); tx := x; hfp_volume := s.(hfp_volume); amplitude_ratio :=
     s.(amplitude_ratio); is_hfp_running := s.(is_hfp_running); hook := s.(hook); restores
     := s.(restores); vol_tmp := s.(vol_tmp); enable_hfp := s.(enable_hfp); mixer0 :=
     s.(mixer0); pcms := s.(pcms); rem := s.(rem); route_calls := s.(route_calls) |}.
Definition set_hfp_volume (x : Z) (s : hfp_hal) : hfp_hal :=
  {| rx := s.(rx); tx := s.(tx); hfp_volume := x; amplitude_ratio := s.(amplitude_ratio);
     is_hfp_running := s.(is_hfp_running); hook := s.(hook); restores := s.(restores);
     vol_tmp := s.(vol_tmp); enable_hfp := s.(enable_hfp); mixer0 := s.(mixer0); pcms :=
     s.(pcms); rem := s.(rem); route_calls := s.(route_calls) |}.
Definition set_amplitude_ratio (x : F) (s : hfp_hal) : hfp_hal :=
  {| rx := s.(rx); tx := s.(tx); hfp_volume := s.(hfp_volume); amplitude_ratio := x;
     is_hfp_running := s.(is_hfp_running); hook := s.(hook); restores := s.(restores);
     vol_tmp := s.(vol_tmp); enable_hfp := s.(enable_hfp); mixer0 := s.(mixer0); pcms :=
     s.(pcms); rem := s.(rem); route_calls := s.(route_calls) |}.
Definition set_running (x : bool) (s : hfp_hal) : hfp_hal :=
  {| rx := s.(rx); tx := s.(tx); hfp_volume := s.(hfp_volume); amplitude_ratio :=
     s.(amplitude_ratio); is_hfp_running := x; hook := s.(hook); restores := s.(restores);
     vol_tmp := s.(vol_tmp); enable_hfp := s.(enable_hfp); mixer0 := s.(mixer0); pcms :=
     s.(pcms); rem := s.(rem); route_calls := s.(route_calls) |}.
Definition set_hook (x : volume_hook) (r : bool) (s : hfp_hal) : hfp_hal :=
  {| rx := s.(rx); tx := s.(tx); hfp_volume := s.(hfp_volume); amplitude_ratio :=
     s.(amplitude_ratio); is_hfp_running := s.(is_hfp_running); hook := x; restores := r;
     vol_tmp := s.(vol_tmp); enable_hfp := s.(enable_hfp); mixer0 := s.(mixer0); pcms :=
     s.(pcms); rem := s.(rem); route_calls := s.(route_calls) |}.
Definition set_vol_tmp (x : list Z) (s : hfp_hal) : hfp_hal :=
  {| rx := s.(rx); tx := s.(tx); hfp_volume := s.(hfp_volume); amplitude_ratio :=
     s.(amplitude_ratio); is_hfp_running := s.(is_hfp_running); hook := s.(hook); restores
     := s.(restores); vol_tmp := x; enable_hfp := s.(enable_hfp); mixer0 := s.(mixer0); pcms
     := s.(pcms); rem := s.(rem); route_calls := s.(route_calls) |}.
Definition set_enable_hfp (x : bool) (s : hfp_hal) : hfp_hal :=
  {| rx := s.(rx); tx := s.(tx); hfp_volume := s.(hfp_volume); amplitude_ratio :=
     s.(amplitude_ratio); is_hfp_running := s.(is_hfp_running); hook := s.(hook); restores
     := s.(restores); vol_tmp := s.(vol_tmp); enable_hfp := x; mixer0 := s.(mixer0); pcms :=
     s.(pcms); rem := s.(rem); route_calls := s.(route_calls) |}.
Definition set_mixer0 (x : M) (s : hfp_hal) : hfp_hal :=
  {| rx := s.(rx); tx := s.(tx); hfp_volume := s.(hfp_volume); amplitude_ratio :=
     s.(amplitude_ratio); is_hfp_running := s.(is_hfp_running); hook := s.(hook); restores
     := s.(restores); vol_tmp := s.(vol_tmp); enable_hfp := s.(enable_hfp); mixer0 := x;
     pcms := s.(pcms); rem := s.(rem); route_calls := s.(route_calls) |}.
Definition set_pcms (x : W) (s : hfp_hal) : hfp_hal :=
  {| rx := s.(rx); tx := s.(tx); hfp_volume := s.(hfp_volume); amplitude_ratio :=
     s.(amplitude_ratio); is_hfp_running := s.(is_hfp_running); hook := s.(hook); restores
     := s.(restores); vol_tmp := s.(vol_tmp); enable_hfp := s.(enable_hfp); mixer0 :=
     s.(mixer0); pcms := x; rem := s.(rem); route_calls := s.(route_calls) |}.
Definition set_rem (x : remote N) (s : hfp_hal) : hfp_hal :=
  {| rx := s.(rx); tx := s.(tx); hfp_volume := s.(hfp_volume); amplitude_ratio :=
     s.(amplitude_ratio); is_hfp_running := s.(is_hfp_running); hook := s.(hook); restores
     := s.(restores); vol_tmp := s.(vol_tmp); enable_hfp := s.(enable_hfp); mixer0 :=
     s.(mixer0); pcms := s.(pcms); rem := x; route_calls := s.(route_calls) |}.
Definition set_route_calls (x : list (Z * string * bool)) (s : hfp_hal) : hfp_hal :=
  {| rx := s.(rx); tx := s.(tx); hfp_volume := s.(hfp_volume); amplitude_ratio :=
     s.(amplitude_ratio); is_hfp_running := s.(is_hfp_running); hook := s.(hook); restores
     := s.(restores); vol_tmp := s.(vol_tmp); enable_hfp := s.(enable_hfp); mixer0 :=
     s.(mixer0); pcms := s.(pcms); rem := s.(rem); route_calls := x |}.

(** Running a command of the remote service. *)
Definition on_remote {A} (f : remote N -> A * remote N) (s : hfp_hal) : A * hfp_hal :=
  let '(a, r) := f s.(rem) in (a, set_rem r s).

(** ** Mixer controls *)

(** A control that is not there is a null pointer, which tinyalsa refuses. *)
Definition ctl_get (m : M) (name : string) : Z :=
  match mixer_get_ctl_by_name m name with
  | Some c => mixer_ctl_get_value m c 0
  | None => - EINVAL
  end.
Definition ctl_set (m : M) (name : string) (v : Z) : Z * M :=
  match mixer_get_ctl_by_name m name with
  | Some c => mixer_ctl_set_value m c 0 v
  | None => (- EINVAL, m)
  end.

Definition store_hfp_volume (s : hfp_hal) : hfp_hal :=
  set_vol_tmp (map (ctl_get s.(mixer0)) dac_volumes) s.

(** Setting the controls to the values of the list, in order: the status of
    the last one. *)
Fixpoint set_ctls (names : list string) (vs : list Z) (ret : Z) (m : M) : Z * M :=
  match names, vs with
  | n :: names, v :: vs => let '(r, m) := ctl_set m n v in set_ctls names vs r m
  | _, _ => (ret, m)
  end.

Definition restore_hfp_volume (s : hfp_hal) : hfp_hal :=
  set_mixer0 (set_ctls dac_volumes s.(vol_tmp) 0 s.(mixer0)).2 s.

(** ** Start of the module *)

Definition init_hfp (s : hfp_hal) : Z * hfp_hal :=
  let name := match (sd_platform_get_card_name devs AUDIO_NAME_PRIMARY).2 with
              | Some n => n | None => EmptyString end in
  let s := if (name =? "x9core01ak7738")%string
           then set_hook ms_board true (store_hfp_volume s) else s in
  let s := if contains "mach" name then
             set_hook (match bt with
                       | BT_CONNECT_WITH_DSP => remote_dsp
                       | BT_CONNECT_WITH_SOC => remote_soc
                       end) s.(restores) (store_hfp_volume s)
           else s in
  (0, s).

(** ** Volume *)

(** The float that [hfp_mdb_2_ratio] gives is ten to the power of a quotient
    that the four integers determine.  The first division is unsigned, as
    [step_value] is. *)
Definition hfp_mdb_2_ratio (gain : Z) : outcome F :=
  let g := g_btcall_sw_gain in
  let! d := i32 (gain - g.(min_value)) in
  Done (powf10 (s32 (u32 d / g.(step_value)))
          (Z.quot (g.(max_value) - g.(min_value)) g.(step_value))
          (Z.quot g.(min_value) 100) (Z.quot g.(max_value) 100)).

Definition hfp_set_volume_ms_board (vol_index : Z) (s : hfp_hal) : Z * hfp_hal :=
  let '(r, m) := set_ctls dac_volumes (replicate 4 vol_index) 0 s.(mixer0) in (r, set_mixer0 m s).

Definition hfp_set_volume_ref_board (vol_index : Z) (s : hfp_hal) : Z * hfp_hal :=
  let '(r, m) := ctl_set s.(mixer0) CTRL_DSP1_HFP_VOL vol_index in (r, set_mixer0 m s).

(** The index is sent; the level computed from it is not used. *)
Definition set_remote_hfp_volume_dsp (volume : Z) (s : hfp_hal) : outcome (Z * hfp_hal) :=
  let! _ := i32 (2800 + volume) in
  Done (0, (on_remote (audio_remote_set_volume rproc_mp BT_PLAYBACK_TO_MAIN_SPK_16K volume) s).2).

Definition set_remote_hfp_volume_soc (s : hfp_hal) : outcome (Z * hfp_hal) :=
  let! f := hfp_mdb_2_ratio s.(hfp_volume) in Done (0, set_amplitude_ratio f s).

(** The call through [hfp_set_volume_hook]. *)
Definition run_hook (vol_index : Z) (s : hfp_hal) : outcome (Z * hfp_hal) :=
  match s.(hook) with
  | ms_board => Done (hfp_set_volume_ms_board vol_index s)
  | ref_board => Done (hfp_set_volume_ref_board vol_index s)
  | remote_dsp => set_remote_hfp_volume_dsp vol_index s
  | remote_soc => set_remote_hfp_volume_soc s
  end.

Definition is_remote (s : hfp_hal) : bool := 0 <? s.(rem).(fd).

Definition hfp_set_volume (volume : Z) (s : hfp_hal) : outcome (Z * hfp_hal) :=
  let! f := if is_remote s then VOL_PRECENT volume else Done (local_volume volume) in
  let! idx := f64_to_int f in
  run_hook idx (set_hfp_volume volume s).

Definition hfp_get_volume_idx (s : hfp_hal) : outcome Z :=
  if is_remote s then let! f := VOL_PRECENT s.(hfp_volume) in f64_to_int f else Done (-1).

Definition hfp_get_amplitude_ratio (s : hfp_hal) : F := s.(amplitude_ratio).

(** ** Microphone *)

Definition set_remote_mic_mute (mute : bool) (s : hfp_hal) : Z * hfp_hal :=
  (0, if mute then (on_remote (audio_remote_stop rproc_mp BT_CAPTURE_FROM_MAIN_MIC_16K) s).2
      else (on_remote (audio_remote_start rproc_mp BT_CAPTURE_FROM_MAIN_MIC_16K 100) s).2).

(** A path of the card is applied or reset. *)
Definition update_route (card : Z) (path : string) (apply : bool) (s : hfp_hal) : Z * hfp_hal :=
  (route_update card path apply, set_route_calls (s.(route_calls) ++ [(card, path, apply)]) s).

Definition hfp_set_mic_mute (state : bool) (s : hfp_hal) : Z * hfp_hal :=
  if negb s.(is_hfp_running) then (- EPIPE, s)
  else if is_remote s then set_remote_mic_mute state s
  else
    let card := sd_platform_get_card_id devs AUDIO_NAME_PRIMARY in
    if card <? 0 then (- EINVAL, s) else update_route card HFP_MIC_MUTE_MIXER_PATH state s.

Definition enable_remote_hfp (enable : bool) (s : hfp_hal) : Z * hfp_hal :=
  let '(_, s) := set_remote_mic_mute (negb enable) s in
  (0, if enable then (on_remote (audio_remote_start rproc_mp BT_PLAYBACK_TO_MAIN_SPK_16K 0) s).2
      else (on_remote (audio_remote_stop rproc_mp BT_PLAYBACK_TO_MAIN_SPK_16K) s).2).

Definition hfp_ctrl_enable (enable : bool) (s : hfp_hal) : Z * hfp_hal :=
  let card := sd_platform_get_card_id devs AUDIO_NAME_PRIMARY in
  if card <? 0 then (-1, s) else update_route card HFP_ENABLE_MIXER_PATH enable s.

(** ** Calls *)

Definition close_opt (p : option Z) (w : W) : W :=
  match p with Some h => (pcm_close h w).2 | None => w end.

Definition finish_stop (s : hfp_hal) : hfp_hal := if s.(restores) then restore_hfp_volume s else s.

Definition stop_hfp (s : hfp_hal) : Z * hfp_hal :=
  if negb s.(is_hfp_running) then (0, finish_stop s)
  else
    let s := set_running false s in
    if is_remote s then enable_remote_hfp false (set_enable_hfp false s)
    else
      let s := set_rx None (set_pcms (close_opt s.(rx) s.(pcms)) s) in
      let s := set_tx None (set_pcms (close_opt s.(tx) s.(pcms)) s) in
      let '(_, s) := hfp_ctrl_enable false s in
      (0, finish_stop (set_enable_hfp false s)).

(** The message of a device that failed is taken from [hfp_sco_tx], which may
    be a null pointer. *)
Definition start_hfp (s : hfp_hal) : outcome (Z * hfp_hal) :=
  let card := sd_platform_get_card_id devs AUDIO_NAME_PRIMARY in
  let failed s := let '(_, s) := stop_hfp s in Done (- EIO, s) in
  if card <? 0 then Done (-1, s)
  else if s.(enable_hfp) then Done (0, s)
  else
    let s := set_enable_hfp true s in
    if is_remote s then
      let '(ret, s) := enable_remote_hfp true (set_running true s) in
      let! (_, s) := hfp_set_volume s.(hfp_volume) s in
      Done (ret, s)
    else
      let '(_, s) := hfp_ctrl_enable true s in
      let cfg := pcm_config_hfp hfp_sample_rate in
      let '(p, w) := pcm_open card 1 PCM_OUT cfg s.(pcms) in
      let s := set_rx p (set_pcms w s) in
      let rx_ok := match p with Some h => pcm_is_ready h w | None => false end in
      if negb rx_ok then match s.(tx) with Some _ => failed s | None => Undef end
      else
        let '(p, w) := pcm_open card 1 PCM_IN cfg s.(pcms) in
        let s := set_tx p (set_pcms w s) in
        match s.(rx), p with
        | Some r, Some t =>
            if pcm_is_ready t w then
              let '(_, w) := pcm_start r w in
              let '(_, w) := pcm_start t w in
              let s := set_running true (set_pcms w s) in
              let! (_, s) := hfp_set_volume s.(hfp_volume) s in
              Done (0, s)
            else failed s
        | _, _ => Undef
        end.
End Hfp.

(** ** Volume indices *)

(** The index of a volume through the remote service. *)
Definition remote_index (v : Z) : outcome Z := let! f := VOL_PRECENT v in f64_to_int f.

(** The percentage of the range, rounded down; at three volumes, which are
    whole percentages, the [double] result is just below the number. *)
Definition percentage (v : Z) : Z :=
  let p := (v + 2800) / 30 in
  if (v =? -1930) || (v =? -1090) || (v =? -1060) then p - 1 else p.

Definition outcome_eqb (a b : outcome Z) : bool :=
  match a, b with Done x, Done y => x =? y | _, _ => false end.

Lemma remote_index_checked :
  forallb (fun v => outcome_eqb (remote_index v) (Done (percentage v))) (seqZ (-2800) 3001) = true.
Proof. vm_compute. reflexivity. Qed.

Lemma remote_index_percentage (v : Z) : -2800 <= v <= 200 -> remote_index v = Done (percentage v).
Proof.
  intros B. pose proof (proj1 (forallb_forall _ _) remote_index_checked v) as E.
  rewrite <- list_elem_of_In in E. specialize (E ltac:(apply elem_of_seqZ; lia)).
  unfold outcome_eqb in E. destruct (remote_index v); try discriminate E. zbool. by subst.
Qed.

Lemma percentage_bounds (v : Z) : -2800 <= v <= 200 ->
  0 <= percentage v <= 100 /\ (v + 2800) / 30 - 1 <= percentage v <= (v + 2800) / 30.
Proof.
  intros B. unfold percentage.
  destruct ((v =? -1930) || (v =? -1090) || (v =? -1060)) eqn:E.
  - rewrite !orb_true_iff in E. zbool. destruct E as [[E | E] | E]; zbool; subst v; by compute.
  - Z.to_euclidean_division_equations. lia.
Qed.

(** ** Calls on the sound card *)

Section Calls.
Context {M : Type} `{MixerOps M} {W : Type} `{HL : PcmSystemLaws W} {N : Type} `{Rpmsg N} {F : Type}.
Context (powf10 : Z -> Z -> Z -> Z -> F) (pcm_start : Z -> W -> Z * W)
  (route_update : Z -> string -> bool -> Z).
Context (devs : list audio_device_manager) (bt : bt_chip_connect_e) (hfp_sample_rate : Z)
  (rproc_mp : bool).
(** Starting a device opens and closes none, and there is a main card. *)
Context (start_opened : forall h w, opened (pcm_start h w).2 ≡ₚ opened w)
  (has_card : 0 <= sd_platform_get_card_id devs AUDIO_NAME_PRIMARY).

Abbreviation hstate := (hfp_hal (M := M) (W := W) (N := N) (F := F)).
Abbreviation hfp_start := (start_hfp powf10 pcm_start route_update devs hfp_sample_rate rproc_mp).
Abbreviation hfp_stop := (stop_hfp (M := M) (W := W) (N := N) (F := F) route_update devs rproc_mp).

(** What the steps below do not touch: the devices, the flags, the remote
    service and the volume. *)
Definition same_call (s s' : hstate) : Prop :=
  s'.(rx) = s.(rx) /\ s'.(tx) = s.(tx) /\ s'.(is_hfp_running) = s.(is_hfp_running)
  /\ s'.(enable_hfp) = s.(enable_hfp) /\ s'.(pcms) = s.(pcms) /\ s'.(rem).(fd) = s.(rem).(fd)
  /\ s'.(hfp_volume) = s.(hfp_volume).

Lemma finish_same (s : hstate) : same_call s (finish_stop s).
Proof. unfold finish_stop. by destruct s.(restores). Qed.

Lemma route_same (card : Z) (path : string) (b : bool) (s : hstate) :
  same_call s (update_route route_update card path b s).2.
Proof. done. Qed.

Lemma command_fd (p : ipcc_data) (r : remote N) :
  0 < r.(fd) -> (ipcc_ctrl rproc_mp p r).2.(fd) = r.(fd).
Proof.
  intros C. unfold ipcc_ctrl. rewrite (proj2 (Z.ltb_lt _ _) C).
  by destruct (rp_write r.(fd) (ipcc_bytes p) r.(net)).
Qed.

(** On the sound card the hook of a board changes the mixer only. *)
Definition board_hook (h : volume_hook) : Prop :=
  h = ref_board \/ h = ms_board.

Lemma hook_same (idx : Z) (s : hstate) :
  board_hook s.(hook) ->
  exists r s', run_hook powf10 rproc_mp idx s = Done (r, s') /\ same_call s s' /\ s'.(hook) = s.(hook).
Proof.
  unfold run_hook, hfp_set_volume_ref_board, hfp_set_volume_ms_board.
  intros [E | E]; rewrite E.
  - destruct (ctl_set s.(mixer0) CTRL_DSP1_HFP_VOL idx). by eexists _, _.
  - destruct (set_ctls dac_volumes (replicate 4 idx) 0 s.(mixer0)). by eexists _, _.
Qed.

(** A volume whose index is an [int]. *)
Definition valid_volume (v : Z) : Prop := exists i, f64_to_int (local_volume v) = Done i.

Lemma set_volume_done (v : Z) (s : hstate) :
  is_remote s = false -> board_hook s.(hook) -> valid_volume v ->
  exists r s', hfp_set_volume powf10 rproc_mp v s = Done (r, s')
    /\ same_call (set_hfp_volume v s) s' /\ s'.(hook) = s.(hook).
Proof.
  intros R B [i E]. unfold hfp_set_volume. rewrite R. cbn [obind]. rewrite E. cbn [obind].
  exact (hook_same i (set_hfp_volume v s) B).
Qed.

(** The requests of a session. *)
Inductive hfp_op := StartCall | StopCall | SetVolume (v : Z) | MuteMic (b : bool).

Definition run_hfp (o : hfp_op) (s : hstate) : outcome (Z * hstate) :=
  match o with
  | StartCall => hfp_start s
  | StopCall => Done (hfp_stop s)
  | SetVolume v => hfp_set_volume powf10 rproc_mp v s
  | MuteMic b => Done (hfp_set_mic_mute route_update devs rproc_mp b s)
  end.

Fixpoint run_hfps (l : list hfp_op) (s : hstate) : outcome hstate :=
  match l with
  | [] => Done s
  | o :: l => let! (_, s) := run_hfp o s in run_hfps l s
  end.

(** The state between requests, with the devices [base] of others open. *)
Record call_ok (base : list Z) (s : hstate) : Prop := {
  co_local : is_remote s = false;
  co_hook : board_hook s.(hook);
  co_volume : valid_volume s.(hfp_volume);
  co_flag : s.(enable_hfp) = s.(is_hfp_running);
  co_devices : if s.(is_hfp_running)
               then exists r t, s.(rx) = Some r /\ s.(tx) = Some t /\ opened s.(pcms) ≡ₚ t :: r :: base
               else s.(rx) = None /\ s.(tx) = None /\ opened s.(pcms) ≡ₚ base
}.

Lemma call_ok_same (base : list Z) (s s' : hstate) :
  call_ok base s -> same_call s s' -> s'.(hook) = s.(hook) -> call_ok base s'.
Proof.
  intros [C1 C2 C3 C4 C5] (E1 & E2 & E3 & E4 & E5 & E6 & E7) K. unfold is_remote in *.
  constructor; [unfold is_remote| | | |]; rewrite ?E1, ?E2, ?E3, ?E4, ?E5, ?E6, ?E7, ?K; done.
Qed.

(** Some opening fails: it gives no device, or one that is not ready. *)
Definition open_fails : Prop := exists card dev flags cfg (w w' : W),
  pcm_open card dev flags cfg w = (None, w')
  \/ exists h, pcm_open card dev flags cfg w = (Some h, w') /\ pcm_is_ready h w' = false.

(** After a start that failed: the call counts as enabled, does not run, and
    its two devices stay open. *)
Record call_stuck (base : list Z) (s : hstate) : Prop := {
  cs_local : is_remote s = false;
  cs_hook : board_hook s.(hook);
  cs_enabled : s.(enable_hfp) = true;
  cs_stopped : s.(is_hfp_running) = false;
  cs_devices : exists r t, s.(rx) = Some r /\ s.(tx) = Some t /\ opened s.(pcms) ≡ₚ t :: r :: base
}.

Lemma call_stuck_same (base : list Z) (s s' : hstate) :
  call_stuck base s -> same_call s s' -> s'.(hook) = s.(hook) -> call_stuck base s'.
Proof.
  intros [C1 C2 C3 C4 C5] (E1 & E2 & E3 & E4 & E5 & E6 & E7) K. unfold is_remote in *.
  constructor; [unfold is_remote| | | |]; rewrite ?E1, ?E2, ?E3, ?E4, ?E5, ?E6, ?E7, ?K; done.
Qed.

Definition start_fails (base : list Z) (s : hstate) : Prop :=
  open_fails /\ (hfp_start s = Undef \/ exists s', hfp_start s = Done (- EIO, s') /\ call_stuck base s').

Lemma start_cases (base : list Z) (s : hstate) :
  call_ok base s ->
  (exists s', hfp_start s = Done (0, s') /\ call_ok base s') \/ start_fails base s.
Proof using HL has_card start_opened.
  intros C. unfold start_fails, start_hfp. rewrite (proj2 (Z.ltb_ge _ _) has_card).
  destruct s.(enable_hfp) eqn:En; [left; by exists s|]. pose proof C as [C1 C2 C3 C4 C5].
  change (is_remote (set_enable_hfp true s)) with (is_remote s). rewrite C1.
  rewrite En in C4. rewrite <- C4 in C5. destruct C5 as (Er & Et & P0).
  unfold hfp_ctrl_enable. rewrite (proj2 (Z.ltb_ge _ _) has_card). cbn [update_route fst snd].
  set (card := sd_platform_get_card_id devs AUDIO_NAME_PRIMARY) in *.
  set (cfg := pcm_config_hfp hfp_sample_rate).
  change (pcms (set_route_calls _ (set_enable_hfp true s))) with s.(pcms).
  destruct (pcm_open card 1 PCM_OUT cfg s.(pcms)) as [[r|] w1] eqn:O1; cbn [negb].
  2: { right. split; [unfold open_fails; eauto 10|]. left. cbn [tx set_rx set_pcms set_route_calls set_enable_hfp].
       by rewrite Et. }
  destruct (pcm_is_ready r w1) eqn:Rr; cbn [negb].
  2: { right. split; [unfold open_fails; eauto 12|]. left. cbn [tx set_rx set_pcms set_route_calls set_enable_hfp].
       by rewrite Et. }
  change (pcms (set_rx (Some r) (set_pcms w1 _))) with w1.
  destruct (pcm_open card 1 PCM_IN cfg w1) as [[t|] w2] eqn:O2; cbn [rx set_tx set_rx set_pcms].
  2: { right. split; [unfold open_fails; eauto 10|]. by left. }
  destruct (pcm_is_ready t w2) eqn:Rt.
  2: { right. split; [unfold open_fails; eauto 12|]. right. unfold stop_hfp.
       cbn [is_hfp_running set_tx set_rx set_pcms set_route_calls set_enable_hfp]. rewrite <- C4. cbn [negb].
       eexists. split; [reflexivity|]. apply open_some in O1, O2.
       match goal with |- call_stuck _ (finish_stop ?x) =>
         apply (call_stuck_same base x); [|apply finish_same|unfold finish_stop; by destruct (restores x)] end.
       constructor; try done. eexists _, _. split_and!; [done..|]. cbn. by rewrite O2, O1, P0. }
  left. apply open_some in O1, O2.
  pose proof (start_opened r w2) as S1. destruct (pcm_start r w2) as [? w3]. cbn in S1.
  pose proof (start_opened t w3) as S2. destruct (pcm_start t w3) as [? w4]. cbn in S2.
  set (s1 := set_running true _).
  destruct (set_volume_done s1.(hfp_volume) s1) as (? & s2 & -> & (E1 & E2 & E3 & E4 & E5 & E6 & E7) & K);
    [exact C1|exact C2|exact C3|]. cbn [obind]. exists s2. split; [done|].
  constructor.
  - unfold is_remote. rewrite E6. exact C1.
  - rewrite K. exact C2.
  - rewrite E7. exact C3.
  - by rewrite E3, E4.
  - rewrite E1, E2, E3, E5. cbn. exists r, t. split_and!; [done..|]. by rewrite S2, S1, O2, O1, P0.
Qed.

Lemma stop_ok (base : list Z) (s : hstate) : call_ok base s -> call_ok base (hfp_stop s).2.
Proof using HL has_card.
  intros C. unfold stop_hfp. destruct s.(is_hfp_running) eqn:Run; cbn [negb].
  - pose proof C as [C1 C2 C3 C4 C5]. rewrite Run in C5. destruct C5 as (r & t & Er & Et & P).
    change (is_remote (set_running false s)) with (is_remote s). rewrite C1.
    unfold hfp_ctrl_enable. rewrite (proj2 (Z.ltb_ge _ _) has_card). cbn [update_route fst snd].
    cbn [snd]. match goal with |- call_ok _ (finish_stop ?x) =>
      apply (call_ok_same base x); [|apply finish_same|unfold finish_stop; by destruct (restores x)] end.
    constructor; cbn; try done. split; [done|]. split; [done|]. rewrite Er, Et. cbn [close_opt].
    apply close_opened. apply close_opened. rewrite P. apply Permutation_swap.
  - cbn [snd]. apply (call_ok_same base s); [done|apply finish_same|].
    unfold finish_stop. by destruct s.(restores).
Qed.

(** A call that is stuck stays so. *)
Lemma stuck_step (base : list Z) (o : hfp_op) (s : hstate) :
  call_stuck base s -> match o with SetVolume v => valid_volume v | _ => True end ->
  exists r s', run_hfp o s = Done (r, s') /\ call_stuck base s'.
Proof using has_card.
  intros C V. pose proof C as [C1 C2 C3 C4 C5]. destruct o as [| |v|b]; cbn [run_hfp].
  - unfold start_hfp. rewrite (proj2 (Z.ltb_ge _ _) has_card), C3. eauto.
  - unfold stop_hfp. rewrite C4. cbn [negb]. eexists _, _. split; [reflexivity|].
    apply (call_stuck_same base s); [done|apply finish_same|]. unfold finish_stop. by destruct (restores s).
  - destruct (set_volume_done v s C1 C2 V) as (r & s1 & -> & S & K). eexists _, _. split; [reflexivity|].
    eapply call_stuck_same; [|exact S|exact K]. by constructor.
  - unfold hfp_set_mic_mute. rewrite C1, (proj2 (Z.ltb_ge _ _) has_card), C4. cbn [negb]. eauto.
Qed.

Lemma stuck_session (base : list Z) (l : list hfp_op) (s : hstate) :
  call_stuck base s -> Forall (fun o => match o with SetVolume v => valid_volume v | _ => True end) l ->
  exists s', run_hfps l s = Done s' /\ call_stuck base s'.
Proof using has_card.
  intros C Fl. revert s C. induction Fl as [|o l V Fl IH]; intros s C; cbn [run_hfps]; [eauto|].
  destruct (stuck_step base o s C V) as (r & s1 & -> & C1). cbn [obind]. by apply IH.
Qed.


(** A call whose recording device is not ready fails with [-EIO], but stays
    marked as active with both devices open: every later start reports
    success without doing anything, and no stop closes the devices. *)
Theorem hfp_failed_start_sticks (s : hstate) (r t : Z) (w1 w2 : W) (l : list hfp_op) :
  is_remote s = false -> s.(enable_hfp) = false -> s.(is_hfp_running) = false ->
  pcm_open (sd_platform_get_card_id devs AUDIO_NAME_PRIMARY) 1 PCM_OUT
    (pcm_config_hfp hfp_sample_rate) s.(pcms) = (Some r, w1) -> pcm_is_ready r w1 = true ->
  pcm_open (sd_platform_get_card_id devs AUDIO_NAME_PRIMARY) 1 PCM_IN
    (pcm_config_hfp hfp_sample_rate) w1 = (Some t, w2) -> pcm_is_ready t w2 = false ->
  Forall (fun o => o = StartCall \/ o = StopCall) l ->
  exists s1 s2, hfp_start s = Done (- EIO, s1) /\ run_hfps l s1 = Done s2
    /\ hfp_start s2 = Done (0, s2)
    /\ s2.(is_hfp_running) = false /\ s2.(rx) = Some r /\ s2.(tx) = Some t
    /\ opened s2.(pcms) ≡ₚ t :: r :: opened s.(pcms).
Proof using HL has_card.
  intros Rm En Ru O1 R1 O2 R2 Fl.
  assert (exists s1, hfp_start s = Done (- EIO, s1) /\ s1.(enable_hfp) = true
            /\ s1.(is_hfp_running) = false /\ s1.(rx) = Some r /\ s1.(tx) = Some t /\ s1.(pcms) = w2)
    as (s1 & E1 & A1 & A2 & A3 & A4 & A5).
  { unfold start_hfp. rewrite (proj2 (Z.ltb_ge _ _) has_card), En.
    change (is_remote (set_enable_hfp true s)) with (is_remote s). rewrite Rm.
    unfold hfp_ctrl_enable. rewrite (proj2 (Z.ltb_ge _ _) has_card). cbn [update_route].
    change (pcms (set_route_calls _ (set_enable_hfp true s))) with s.(pcms). rewrite O1, R1. cbn [negb].
    change (pcms (set_rx (Some r) (set_pcms w1 _))) with w1. rewrite O2, R2.
    cbn [rx set_tx set_rx set_pcms]. unfold stop_hfp.
    cbn [is_hfp_running set_tx set_rx set_pcms set_route_calls set_enable_hfp]. rewrite Ru. cbn [negb].
    eexists. split; [reflexivity|]. unfold finish_stop.
    match goal with |- context [restores ?x] => by destruct (restores x) end. }
  apply open_some in O1, O2. exists s1.
  assert (exists s2, run_hfps l s1 = Done s2 /\ same_call s1 s2) as (s2 & E2 & (B1 & B2 & B3 & B4 & B5 & _)).
  { clear E1 A3 A4 A5. revert s1 A1 A2. induction Fl as [|o l V Fl IH]; intros s1 A1 A2; cbn [run_hfps].
    { by exists s1. }
    destruct V as [-> | ->]; cbn [run_hfp].
    - unfold start_hfp. rewrite (proj2 (Z.ltb_ge _ _) has_card), A1. cbn [obind]. by apply IH.
    - unfold stop_hfp. rewrite A2. cbn [negb obind]. pose proof (finish_same s1) as S.
      destruct (IH (finish_stop s1)) as (s2 & E & S2);
        [by rewrite <- A1; apply S|by rewrite <- A2; apply S|].
      exists s2. split; [done|]. unfold same_call in *. intuition congruence. }
  exists s2. split; [done|]. split; [done|].
  split; [unfold start_hfp; by rewrite (proj2 (Z.ltb_ge _ _) has_card), B4, A1|].
  split_and!; [congruence..|]. rewrite B5, A5, O2, O1. done.
Qed.
End Calls.

(** ** Volume through the remote service *)

Section RemoteVolume.
Context {M : Type} `{MixerOps M} {W : Type} `{PcmSystem W} {N : Type} `{Rpmsg N} {F : Type}.
Context (powf10 : Z -> Z -> Z -> Z -> F) (rproc_mp : bool).

Lemma hook_remote (idx : Z) (s : hfp_hal (M := M) (W := W) (N := N) (F := F)) :
  is_remote s = true -> -2800 <= s.(hfp_volume) <= 200 -> 0 <= idx <= 100 ->
  exists ret s', run_hook powf10 rproc_mp idx s = Done (ret, s')
    /\ is_remote s' = true /\ s'.(hfp_volume) = s.(hfp_volume).
Proof.
  intros R B I. unfold run_hook, hfp_set_volume_ref_board, hfp_set_volume_ms_board.
  destruct s.(hook).
  - destruct (ctl_set s.(mixer0) CTRL_DSP1_HFP_VOL idx). by eexists _, _.
  - destruct (set_ctls dac_volumes (replicate 4 idx) 0 s.(mixer0)). by eexists _, _.
  - unfold set_remote_hfp_volume_dsp. rewrite i32_done by (unfold is_i32, INT32_MIN, INT32_MAX; lia).
    eexists _, _. split; [reflexivity|]. unfold on_remote, audio_remote_set_volume. cbn [snd].
    match goal with |- context [ipcc_ctrl rproc_mp ?p s.(rem)] =>
      pose proof (command_fd rproc_mp p s.(rem) (proj1 (Z.ltb_lt _ _) R)) as E;
      destruct (ipcc_ctrl rproc_mp p s.(rem)) as [? r'] end.
    cbn in *. unfold is_remote in *. cbn. by rewrite E.
  - unfold set_remote_hfp_volume_soc, hfp_mdb_2_ratio. rewrite i32_done by (unfold is_i32, INT32_MIN, INT32_MAX; cbn; lia). by eexists _, _.
Qed.

(** Through the remote service every volume of the range gives an index
    between 0 and 100, which is the percentage of the range rounded down or,
    because of the rounding of the quotient, one less; the hook of the board
    gets this index and the volume query reports it. *)
Theorem hfp_remote_volume (v : Z) (s : hfp_hal (M := M) (W := W) (N := N) (F := F)) :
  is_remote s = true -> HFP_VOLUME_MIN_mDB <= v <= HFP_VOLUME_MAX_mDB ->
  exists idx ret s', hfp_set_volume powf10 rproc_mp v s = Done (ret, s')
    /\ run_hook powf10 rproc_mp idx (set_hfp_volume v s) = Done (ret, s')
    /\ hfp_get_volume_idx s' = Done idx
    /\ 0 <= idx <= 100 /\ (v + 2800) / 30 - 1 <= idx <= (v + 2800) / 30.
Proof.
  intros R B. exists (percentage v). unfold HFP_VOLUME_MIN_mDB, HFP_VOLUME_MAX_mDB in B.
  pose proof (remote_index_percentage v B) as E. unfold remote_index in E.
  destruct (hook_remote (percentage v) (set_hfp_volume v s) R B (proj1 (percentage_bounds v B))) as (ret & s' & K & R' & V').
  exists ret, s'. cbn in V'. unfold hfp_set_volume, hfp_get_volume_idx. rewrite R, R', V', <- K.
  destruct (VOL_PRECENT v); try discriminate E. cbn [obind] in *. rewrite E. cbn [obind].
  pose proof (percentage_bounds v B). split_and!; by try lia.
Qed.
End RemoteVolume.

(** ** Examples *)

(** A sound system that opens every device; the device with the handle [bad]
    is not ready. *)
Record busy_card (bad : option Z) := Busy { bc_next : Z; bc_open : list Z }.
Arguments Busy {bad}.
Arguments bc_next {bad}.
Arguments bc_open {bad}.

#[local] Instance busy_card_pcm (bad : option Z) : PcmSystem (busy_card bad) := {
  pcm_format_to_bits _ := 16;
  pcm_open _ _ _ _ c := (Some c.(bc_next), Busy (c.(bc_next) + 1) (c.(bc_next) :: c.(bc_open)));
  pcm_is_ready h _ := match bad with Some b => negb (h =? b) | None => true end;
  pcm_prepare _ c := (0, c);
  pcm_write _ _ c := (0, c);
  pcm_read _ _ c := (0, [], c);
  pcm_close h c := (0, Busy c.(bc_next) (sc_remove h c.(bc_open)));
  opened := bc_open
}.

#[local] Instance busy_card_laws (bad : option Z) : PcmSystemLaws (busy_card bad).
Proof.
  split; try done.
  - by intros card dev flags h cfg w w' [= <- <-].
  - intros h w l P. cbn in *. by apply sc_remove_perm.
Qed.

Definition idle_call (remote_fd : Z) (bad : option Z)
  : hfp_hal (M := card) (W := busy_card bad) (N := wire) (F := Z) :=
  {| rx := None; tx := None; hfp_volume := 0; amplitude_ratio := 0; is_hfp_running := false;
     hook := ref_board; restores := false; vol_tmp := [0; 0; 0; 0];
     enable_hfp := false; mixer0 := {| card_open := true; card_ctls := [] |};
     pcms := Busy 1 [];
     rem := {| fd := remote_fd; threads := 0; focus := []; status := bus_status_init [];
               net := {| attempts := 0; writes := 0; packets := [] |} |};
     route_calls := [] |}.


Lemma hfp_failed_start_sticks_witness :
  exists s1 s2,
    start_hfp (fun _ _ _ _ => 0) (fun _ w => (0, w)) (fun _ _ _ => 0)
      [plain_card true 0 AUDIO_NAME_PRIMARY] 16000 false (idle_call (-1) (Some 2)) = Done (- EIO, s1)
    /\ run_hfps (fun _ _ _ _ => 0) (fun _ w => (0, w)) (fun _ _ _ => 0)
         [plain_card true 0 AUDIO_NAME_PRIMARY] 16000 false [StopCall; StartCall; StopCall] s1 = Done s2
    /\ s2.(is_hfp_running) = false /\ opened s2.(pcms) ≡ₚ [2; 1].
Proof.
  destruct (hfp_failed_start_sticks (M := card) (W := busy_card (Some 2)) (N := wire)
              (fun _ _ _ _ => 0) (fun _ w => (0, w)) (fun _ _ _ => 0)
              [plain_card true 0 AUDIO_NAME_PRIMARY] 16000 false
              ltac:(by vm_compute) (idle_call (-1) (Some 2)) 1 2 (Busy 2 [1]) (Busy 3 [2; 1])
              [StopCall; StartCall; StopCall]) as (s1 & s2 & E1 & E2 & _ & R & _ & _ & P);
    try done.
  - repeat (apply Forall_cons_2; [auto|]). constructor.
  - by exists s1, s2.
Defined.

Lemma hfp_remote_volume_witness :
  exists idx ret s',
    hfp_set_volume (fun _ _ _ _ => 0) false (-1930) (idle_call 5 None) = Done (ret, s')
    /\ hfp_get_volume_idx s' = Done idx /\ 28 <= idx <= 29.
Proof.
  destruct (hfp_remote_volume (M := card) (W := busy_card None) (N := wire) (fun _ _ _ _ => 0) false
              (-1930) (idle_call 5 None)) as (idx & ret & s' & E & _ & G & _ & B); [done|done|].
  exists idx, ret, s'. split; [exact E|]. split; [exact G|]. exact B.
Defined.
