(* ===== verification/BtCall.v ===== *)
(** * Calls over Bluetooth

    Models [audio_bt_call.c], and [set_btcall_status] of [audio_hw.c]: a call
    copies what the Bluetooth chip records to the codec and what the codec
    records to the Bluetooth chip, with one thread for each way.  The streams
    of the codec go through [Streamer].

    The resampler of the framework ([create_resampler]) is a parameter, and so
    are the sizes of the sample formats.  The echo canceller sees copies
    of the data and is modelled in [Ecnr]; the files of the recorded data are
    left out.  While a call is started or ended, what
    the two threads do is only seen in the flags [is_running_rx] and
    [is_running_tx]. *)

From Stdlib Require Import ZArith Lia Ascii String.
From stdpp Require Import base list numbers.
From S2P Require Import Prelude CircleBuf CString Mixer Dsp BusVolume Mix PcmPlugin PcmDevice Streamer.
From S2P Require Import AudioExtra Remote OutputPath Platform Sharing StreamerProofs.

#[local] Open Scope Z_scope.

Definition CHANNEL_STEREO : Z := 2.
Definition SAMPLING_RATE_16K : Z := 16000.
Definition PLAYBACK_PERIOD_COUNT : Z := 6.
Definition PLAYBACK_PERIOD_START_THRESHOLD : Z := 4.
Definition PLAYBACK_PERIOD_STOP_THRESHOLD : Z := PLAYBACK_PERIOD_COUNT.
Definition PHONE_PATH_FIXED_VOL : Z := 100.
Definition PORT_CODEC : Z := 2.
Definition PORT_CODEC_IN : Z := 0.
Definition PORT_BT : Z := 1.
Definition BT_CALL_HFP_OUT_NAME : string := "hfp_out".
Definition BT_CALL_HFP_IN_NAME : string := "hfp_in".
Definition PHONE_PLAYBACK_TO_MAIN_SPK_48K : string := "PATH_PHONE_PLAYBACK_TO_MAIN_SPK_48K".
Definition PHONE_CAPTURE_FROM_MAIN_MIC_48K : string := "PATH_PHONE_CAPTURE_FROM_MAIN_MIC_48K".

(** ** Configurations *)

(** The configurations that a direction can point to; [cfg_main] and
    [cfg_main_cap] are behind [pcm_main_config] and [pcm_main_cap_config]. *)
Inductive cfg_name :=
| pcm_config_bt_in | pcm_config_bt_out | pcm_config_codec_out | pcm_config_codec_in
| pcm_main_cap_codec_in | cfg_main | cfg_main_cap.

#[global] Instance cfg_name_dec : EqDecision cfg_name.
Proof. solve_decision. Defined.

Definition call_config (ch rt ms : Z) : pcm_config :=
  {| channels := ch; rate := rt; period_size := rt * ms / 1000;
     period_count := PLAYBACK_PERIOD_COUNT; cfg_format := PCM_FORMAT_S16_LE; start_threshold := 0;
     stop_threshold := 0; silence_threshold := 0; silence_size := 0 |}.

(** Their values at the start. *)
Definition call_configs (n : cfg_name) : pcm_config :=
  match n with
  | pcm_config_bt_in | pcm_config_codec_in => call_config CHANNEL_STEREO SAMPLING_RATE_16K IN_PERIOD_MS
  | pcm_config_bt_out | pcm_config_codec_out => call_config CHANNEL_STEREO SAMPLING_RATE_16K OUT_PERIOD_MS
  | pcm_main_cap_codec_in => call_config CHANNEL_STEREO HIFI_SAMPLING_RATE OUT_PERIOD_MS
  | cfg_main | cfg_main_cap => call_config 8 HIFI_SAMPLING_RATE OUT_PERIOD_MS
  end.

(** ** State *)

Inductive btcall_rt := BTCALL_BT_INPUT | BTCALL_BT_OUTPUT | BTCALL_CODEC_INPUT | BTCALL_CODEC_OUTPUT.

Definition rt_index (r : btcall_rt) : nat :=
  match r with
  | BTCALL_BT_INPUT => 0 | BTCALL_BT_OUTPUT => 1 | BTCALL_CODEC_INPUT => 2 | BTCALL_CODEC_OUTPUT => 3
  end.
Definition BTCALL_RT_MAX : nat := 4.

(** What the member [pcm] points to: a device, or a handle of the streamer. *)
Inductive bt_dev := Device (h : Z) | Streamed (k : nat).

Section State.
Context {R : Type}.

(** [struct btcall_data].  When [bt_out->pcm] is used, it is the device that
    [pcm] points to. *)
Record btcall_data := {
  d_card : Z;
  d_port : Z;
  d_pcm : option bt_dev;
  d_in : option alsa_stream_in;
  d_config : option cfg_name;
  d_out : option alsa_stream_out;
  d_bt_out : option alsa_stream_out;
  d_resampler : option R;
  d_buffer : option (list Z);
  d_frames_in : Z;
  d_rsp_in_rate : Z;
  d_rsp_out_rate : Z;
  d_read_status : Z
}.

Definition set_d_config (c : cfg_name) (d : btcall_data) : btcall_data :=
  {| d_card := d.(d_card); d_port := d.(d_port); d_pcm := d.(d_pcm); d_in := d.(d_in); d_config
     := Some c; d_out := d.(d_out); d_bt_out := d.(d_bt_out); d_resampler := d.(d_resampler);
     d_buffer := d.(d_buffer); d_frames_in := d.(d_frames_in); d_rsp_in_rate :=
     d.(d_rsp_in_rate); d_rsp_out_rate := d.(d_rsp_out_rate); d_read_status := d.(d_read_status)
     |}.
Definition set_d_place (c p : Z) (d : btcall_data) : btcall_data :=
  {| d_card := c; d_port := p; d_pcm := d.(d_pcm); d_in := d.(d_in); d_config := d.(d_config);
     d_out := d.(d_out); d_bt_out := d.(d_bt_out); d_resampler := d.(d_resampler); d_buffer :=
     d.(d_buffer); d_frames_in := d.(d_frames_in); d_rsp_in_rate := d.(d_rsp_in_rate);
     d_rsp_out_rate := d.(d_rsp_out_rate); d_read_status := d.(d_read_status) |}.
Definition set_d_pcm (x : option bt_dev) (d : btcall_data) : btcall_data :=
  {| d_card := d.(d_card); d_port := d.(d_port); d_pcm := x; d_in := d.(d_in); d_config :=
     d.(d_config); d_out := d.(d_out); d_bt_out := d.(d_bt_out); d_resampler := d.(d_resampler);
     d_buffer := d.(d_buffer); d_frames_in := d.(d_frames_in); d_rsp_in_rate :=
     d.(d_rsp_in_rate); d_rsp_out_rate := d.(d_rsp_out_rate); d_read_status := d.(d_read_status)
     |}.
Definition set_d_in (x : option alsa_stream_in) (d : btcall_data) : btcall_data :=
  {| d_card := d.(d_card); d_port := d.(d_port); d_pcm := d.(d_pcm); d_in := x; d_config :=
     d.(d_config); d_out := d.(d_out); d_bt_out := d.(d_bt_out); d_resampler := d.(d_resampler);
     d_buffer := d.(d_buffer); d_frames_in := d.(d_frames_in); d_rsp_in_rate :=
     d.(d_rsp_in_rate); d_rsp_out_rate := d.(d_rsp_out_rate); d_read_status := d.(d_read_status)
     |}.
Definition set_d_out (x : option alsa_stream_out) (d : btcall_data) : btcall_data :=
  {| d_card := d.(d_card); d_port := d.(d_port); d_pcm := d.(d_pcm); d_in := d.(d_in); d_config
     := d.(d_config); d_out := x; d_bt_out := d.(d_bt_out); d_resampler := d.(d_resampler);
     d_buffer := d.(d_buffer); d_frames_in := d.(d_frames_in); d_rsp_in_rate :=
     d.(d_rsp_in_rate); d_rsp_out_rate := d.(d_rsp_out_rate); d_read_status := d.(d_read_status)
     |}.
Definition set_d_bt_out (x : option alsa_stream_out) (d : btcall_data) : btcall_data :=
  {| d_card := d.(d_card); d_port := d.(d_port); d_pcm := d.(d_pcm); d_in := d.(d_in); d_config
     := d.(d_config); d_out := d.(d_out); d_bt_out := x; d_resampler := d.(d_resampler);
     d_buffer := d.(d_buffer); d_frames_in := d.(d_frames_in); d_rsp_in_rate :=
     d.(d_rsp_in_rate); d_rsp_out_rate := d.(d_rsp_out_rate); d_read_status := d.(d_read_status)
     |}.
Definition set_d_resampler (x : option R) (d : btcall_data) : btcall_data :=
  {| d_card := d.(d_card); d_port := d.(d_port); d_pcm := d.(d_pcm); d_in := d.(d_in); d_config
     := d.(d_config); d_out := d.(d_out); d_bt_out := d.(d_bt_out); d_resampler := x; d_buffer
     := d.(d_buffer); d_frames_in := d.(d_frames_in); d_rsp_in_rate := d.(d_rsp_in_rate);
     d_rsp_out_rate := d.(d_rsp_out_rate); d_read_status := d.(d_read_status) |}.
Definition set_d_buffer (x : option (list Z)) (d : btcall_data) : btcall_data :=
  {| d_card := d.(d_card); d_port := d.(d_port); d_pcm := d.(d_pcm); d_in := d.(d_in); d_config
     := d.(d_config); d_out := d.(d_out); d_bt_out := d.(d_bt_out); d_resampler :=
     d.(d_resampler); d_buffer := x; d_frames_in := d.(d_frames_in); d_rsp_in_rate :=
     d.(d_rsp_in_rate); d_rsp_out_rate := d.(d_rsp_out_rate); d_read_status := d.(d_read_status)
     |}.
Definition set_d_frames_in (x : Z) (d : btcall_data) : btcall_data :=
  {| d_card := d.(d_card); d_port := d.(d_port); d_pcm := d.(d_pcm); d_in := d.(d_in); d_config
     := d.(d_config); d_out := d.(d_out); d_bt_out := d.(d_bt_out); d_resampler :=
     d.(d_resampler); d_buffer := d.(d_buffer); d_frames_in := x; d_rsp_in_rate :=
     d.(d_rsp_in_rate); d_rsp_out_rate := d.(d_rsp_out_rate); d_read_status := d.(d_read_status)
     |}.
Definition set_d_rates (i o : Z) (d : btcall_data) : btcall_data :=
  {| d_card := d.(d_card); d_port := d.(d_port); d_pcm := d.(d_pcm); d_in := d.(d_in); d_config
     := d.(d_config); d_out := d.(d_out); d_bt_out := d.(d_bt_out); d_resampler :=
     d.(d_resampler); d_buffer := d.(d_buffer); d_frames_in := d.(d_frames_in); d_rsp_in_rate :=
     i; d_rsp_out_rate := o; d_read_status := d.(d_read_status) |}.
Definition set_d_read_status (x : Z) (d : btcall_data) : btcall_data :=
  {| d_card := d.(d_card); d_port := d.(d_port); d_pcm := d.(d_pcm); d_in := d.(d_in); d_config
     := d.(d_config); d_out := d.(d_out); d_bt_out := d.(d_bt_out); d_resampler :=
     d.(d_resampler); d_buffer := d.(d_buffer); d_frames_in := d.(d_frames_in); d_rsp_in_rate :=
     d.(d_rsp_in_rate); d_rsp_out_rate := d.(d_rsp_out_rate); d_read_status := x |}.

Definition zero_bt_data : btcall_data :=
  {| d_card := 0; d_port := 0; d_pcm := None; d_in := None; d_config := None; d_out := None;
     d_bt_out := None; d_resampler := None; d_buffer := None; d_frames_in := 0;
     d_rsp_in_rate := 0; d_rsp_out_rate := 0; d_read_status := 0 |}.

Record btcall_thread_data := {
  start_work_rx : bool;
  exit_work_rx : bool;
  start_work_tx : bool;
  exit_work_tx : bool;
  is_running_tx : bool;
  is_running_rx : bool;
  rsp_out_buffer_tx : option (list Z);
  rsp_out_buffer_rx : option (list Z);
  buffer_tx : option (list Z);
  buffer_rx : option (list Z);
  buffer_txsize : Z;
  buffer_rxsize : Z
}.

Definition set_work_rx (start exit : bool) (t : btcall_thread_data) : btcall_thread_data :=
  {| start_work_rx := start; exit_work_rx := exit; start_work_tx := t.(start_work_tx);
     exit_work_tx := t.(exit_work_tx); is_running_tx := t.(is_running_tx); is_running_rx :=
     t.(is_running_rx); rsp_out_buffer_tx := t.(rsp_out_buffer_tx); rsp_out_buffer_rx :=
     t.(rsp_out_buffer_rx); buffer_tx := t.(buffer_tx); buffer_rx := t.(buffer_rx);
     buffer_txsize := t.(buffer_txsize); buffer_rxsize := t.(buffer_rxsize) |}.
Definition set_work_tx (start exit : bool) (t : btcall_thread_data) : btcall_thread_data :=
  {| start_work_rx := t.(start_work_rx); exit_work_rx := t.(exit_work_rx); start_work_tx :=
     start; exit_work_tx := exit; is_running_tx := t.(is_running_tx); is_running_rx :=
     t.(is_running_rx); rsp_out_buffer_tx := t.(rsp_out_buffer_tx); rsp_out_buffer_rx :=
     t.(rsp_out_buffer_rx); buffer_tx := t.(buffer_tx); buffer_rx := t.(buffer_rx);
     buffer_txsize := t.(buffer_txsize); buffer_rxsize := t.(buffer_rxsize) |}.
Definition set_running_rx (b : bool) (t : btcall_thread_data) : btcall_thread_data :=
  {| start_work_rx := t.(start_work_rx); exit_work_rx := t.(exit_work_rx); start_work_tx :=
     t.(start_work_tx); exit_work_tx := t.(exit_work_tx); is_running_tx := t.(is_running_tx);
     is_running_rx := b; rsp_out_buffer_tx := t.(rsp_out_buffer_tx); rsp_out_buffer_rx :=
     t.(rsp_out_buffer_rx); buffer_tx := t.(buffer_tx); buffer_rx := t.(buffer_rx);
     buffer_txsize := t.(buffer_txsize); buffer_rxsize := t.(buffer_rxsize) |}.
Definition set_running_tx (b : bool) (t : btcall_thread_data) : btcall_thread_data :=
  {| start_work_rx := t.(start_work_rx); exit_work_rx := t.(exit_work_rx); start_work_tx :=
     t.(start_work_tx); exit_work_tx := t.(exit_work_tx); is_running_tx := b; is_running_rx :=
     t.(is_running_rx); rsp_out_buffer_tx := t.(rsp_out_buffer_tx); rsp_out_buffer_rx :=
     t.(rsp_out_buffer_rx); buffer_tx := t.(buffer_tx); buffer_rx := t.(buffer_rx);
     buffer_txsize := t.(buffer_txsize); buffer_rxsize := t.(buffer_rxsize) |}.
Definition set_buffer_rx (x : option (list Z)) (n : Z) (t : btcall_thread_data) : btcall_thread_data :=
  {| start_work_rx := t.(start_work_rx); exit_work_rx := t.(exit_work_rx); start_work_tx :=
     t.(start_work_tx); exit_work_tx := t.(exit_work_tx); is_running_tx := t.(is_running_tx);
     is_running_rx := t.(is_running_rx); rsp_out_buffer_tx := t.(rsp_out_buffer_tx);
     rsp_out_buffer_rx := t.(rsp_out_buffer_rx); buffer_tx := t.(buffer_tx); buffer_rx := x;
     buffer_txsize := t.(buffer_txsize); buffer_rxsize := n |}.
Definition set_buffer_tx (x : option (list Z)) (n : Z) (t : btcall_thread_data) : btcall_thread_data :=
  {| start_work_rx := t.(start_work_rx); exit_work_rx := t.(exit_work_rx); start_work_tx :=
     t.(start_work_tx); exit_work_tx := t.(exit_work_tx); is_running_tx := t.(is_running_tx);
     is_running_rx := t.(is_running_rx); rsp_out_buffer_tx := t.(rsp_out_buffer_tx);
     rsp_out_buffer_rx := t.(rsp_out_buffer_rx); buffer_tx := x; buffer_rx := t.(buffer_rx);
     buffer_txsize := n; buffer_rxsize := t.(buffer_rxsize) |}.
Definition set_rsp_out_rx (x : option (list Z)) (t : btcall_thread_data) : btcall_thread_data :=
  {| start_work_rx := t.(start_work_rx); exit_work_rx := t.(exit_work_rx); start_work_tx :=
     t.(start_work_tx); exit_work_tx := t.(exit_work_tx); is_running_tx := t.(is_running_tx);
     is_running_rx := t.(is_running_rx); rsp_out_buffer_tx := t.(rsp_out_buffer_tx);
     rsp_out_buffer_rx := x; buffer_tx := t.(buffer_tx); buffer_rx := t.(buffer_rx);
     buffer_txsize := t.(buffer_txsize); buffer_rxsize := t.(buffer_rxsize) |}.
Definition set_rsp_out_tx (x : option (list Z)) (t : btcall_thread_data) : btcall_thread_data :=
  {| start_work_rx := t.(start_work_rx); exit_work_rx := t.(exit_work_rx); start_work_tx :=
     t.(start_work_tx); exit_work_tx := t.(exit_work_tx); is_running_tx := t.(is_running_tx);
     is_running_rx := t.(is_running_rx); rsp_out_buffer_tx := x; rsp_out_buffer_rx :=
     t.(rsp_out_buffer_rx); buffer_tx := t.(buffer_tx); buffer_rx := t.(buffer_rx);
     buffer_txsize := t.(buffer_txsize); buffer_rxsize := t.(buffer_rxsize) |}.

Definition zero_thread_data : btcall_thread_data :=
  {| start_work_rx := false; exit_work_rx := false; start_work_tx := false; exit_work_tx := false;
     is_running_tx := false; is_running_rx := false; rsp_out_buffer_tx := None;
     rsp_out_buffer_rx := None; buffer_tx := None; buffer_rx := None; buffer_txsize := 0;
     buffer_rxsize := 0 |}.

(** The device, as far as the calls use it. *)
Context {M W N : Type}.
Record call_hal := {
  bt_data : list (option btcall_data);
  bt_thread_data : option btcall_thread_data;
  cfgs : cfg_name -> pcm_config;
  base : hal M W;
  rem : remote N;
  in_call : Z;
  mic_mute : bool
}.

Definition set_bt_data (l : list (option btcall_data)) (s : call_hal) : call_hal :=
  {| bt_data := l; bt_thread_data := s.(bt_thread_data); cfgs := s.(cfgs); base := s.(base); rem
     := s.(rem); in_call := s.(in_call); mic_mute := s.(mic_mute) |}.
Definition set_bt_thread (t : option btcall_thread_data) (s : call_hal) : call_hal :=
  {| bt_data := s.(bt_data); bt_thread_data := t; cfgs := s.(cfgs); base := s.(base); rem :=
     s.(rem); in_call := s.(in_call); mic_mute := s.(mic_mute) |}.
Definition set_cfgs (f : cfg_name -> pcm_config) (s : call_hal) : call_hal :=
  {| bt_data := s.(bt_data); bt_thread_data := s.(bt_thread_data); cfgs := f; base := s.(base);
     rem := s.(rem); in_call := s.(in_call); mic_mute := s.(mic_mute) |}.
Definition set_base (h : hal M W) (s : call_hal) : call_hal :=
  {| bt_data := s.(bt_data); bt_thread_data := s.(bt_thread_data); cfgs := s.(cfgs); base := h;
     rem := s.(rem); in_call := s.(in_call); mic_mute := s.(mic_mute) |}.
Definition set_call_rem (r : remote N) (s : call_hal) : call_hal :=
  {| bt_data := s.(bt_data); bt_thread_data := s.(bt_thread_data); cfgs := s.(cfgs); base :=
     s.(base); rem := r; in_call := s.(in_call); mic_mute := s.(mic_mute) |}.
Definition set_in_call (x : Z) (s : call_hal) : call_hal :=
  {| bt_data := s.(bt_data); bt_thread_data := s.(bt_thread_data); cfgs := s.(cfgs); base :=
     s.(base); rem := s.(rem); in_call := x; mic_mute := s.(mic_mute) |}.
End State.
Arguments btcall_data : clear implicits.
Arguments call_hal : clear implicits.

(** ** Operations *)

Section BtCall.
Context {M : Type} `{MixerOps M} `{Alloc} {W : Type} `{PcmSystem W} {N : Type} `{Rpmsg N} {R : Type}.
Context (cb_calloc : bool) (cb_malloc : Z -> option (list Z)).
(** The platform, [IPCC_RPC_RPROC_MP], the bytes of a sample by its format
    (none for a format without fixed frames), the resampler with [reset], and
    the allocator. *)
Context (p : platform) (rproc_mp : bool) (sample_size : Z -> option Z)
  (create_resampler : Z -> Z -> Z -> Z * option R) (rs_reset : R -> R)
  (malloc : Z -> option (list Z)).

Abbreviation bt_state := (call_hal R M W N).

Definition callm (A : Type) : Type := st bt_state A.

(** An element of [adev->bt_data], which may be a null pointer. *)
Definition bt_get (r : btcall_rt) : callm (btcall_data R) :=
  do! s := sget in
  match s.(bt_data) !! rt_index r with
  | Some (Some d) => sret d
  | _ => slift Undef
  end.
Definition bt_put (r : btcall_rt) (d : btcall_data R) : callm unit :=
  smodify (fun s => set_bt_data (<[rt_index r := Some d]> s.(bt_data)) s).
Definition bt_upd (r : btcall_rt) (f : btcall_data R -> btcall_data R) : callm unit :=
  do! d := bt_get r in bt_put r (f d).

Definition th_get : callm btcall_thread_data :=
  do! s := sget in match s.(bt_thread_data) with Some t => sret t | None => slift Undef end.
Definition th_upd (f : btcall_thread_data -> btcall_thread_data) : callm unit :=
  do! t := th_get in smodify (set_bt_thread (Some (f t))).

(** The configuration that a direction points to. *)
Definition bt_config (d : btcall_data R) : callm pcm_config :=
  match d.(d_config) with
  | Some n => do! s := sget in sret (s.(cfgs) n)
  | None => slift Undef
  end.

Definition on_base {A} (m : @halm M W A) : callm A := fun s =>
  let! (a, h) := m s.(base) in Done (a, set_base h s).
Definition on_devices {A} (f : W -> A * W) : callm A := fun s =>
  let '(a, w) := f s.(base).(world) in Done (a, set_base (set_world w s.(base)) s).
Definition on_phone {A} (f : remote N -> A * remote N) : callm unit :=
  smodify (fun s => set_call_rem (f s.(rem)).2 s).

(** *** Frames *)

(** [size_t] *)
Definition u64 (z : Z) : Z := z mod 2 ^ 64.

Definition frame_size (cfg : pcm_config) : Z :=
  match sample_size cfg.(cfg_format) with Some b => cfg.(channels) * b | None => 1 end.

Definition get_input_frame_size (d : btcall_data R) : callm Z :=
  do! cfg := bt_config d in sret (frame_size cfg).

(** Filling the buffer of a direction with one period. *)
Definition fill_buffer (others : nat -> @halm M W unit) (r : btcall_rt) (sz : Z) : callm unit :=
  do! d := bt_get r in
  match d.(d_pcm) with
  | Some (Device h) =>
      match d.(d_buffer) with
      | None => slift Undef
      | Some buf =>
          do! (ret, bs) := on_devices (pcm_read h sz) in
          do! buf := slift (mem_write buf 0 bs) in
          bt_put r (set_d_read_status ret (set_d_buffer (Some buf) d))
      end
  | Some (Streamed _) => slift Undef
  | None =>
      match d.(d_in), d.(d_buffer) with
      | None, _ => slift Undef
      | Some i, buf =>
          match i.(i_pcm_hdl), buf with
          | None, _ => sret tt
          | Some _, None => slift Undef
          | Some _, Some buf =>
              do! (ret, buf) := on_base (hal_streamer_read others i buf sz) in
              bt_put r (set_d_read_status ret (set_d_buffer (Some buf) d))
          end
      end
  end.

(** [get_next_buffer] for at most [frame_count] frames: the status, the frames
    that are offered, and where they are in the buffer of the direction.  The
    call of [ecnr_recv_in] in between, which only reads the buffer, is
    [call_ecnr_recv] of [Ecnr]. *)
Definition get_next_buffer (others : nat -> @halm M W unit) (r : btcall_rt) (frame_count : Z)
  : callm (Z * Z * option Z) :=
  do! d := bt_get r in
  do! cfg := bt_config d in
  let sz := s32 (cfg.(period_size) * frame_size cfg) in
  do! failed :=
    (if d.(d_frames_in) =? 0 then
       do! _ := fill_buffer others r sz in
       do! d := bt_get r in
       if d.(d_read_status) =? 0 then
         do! _ := bt_put r (set_d_frames_in cfg.(period_size) d) in sret false
       else sret true
     else sret false) in
  do! d := bt_get r in
  if failed : bool then sret (d.(d_read_status), 0, None)
  else
    sret (d.(d_read_status), Z.min frame_count d.(d_frames_in),
          Some (2 * (u64 (cfg.(period_size) - d.(d_frames_in)) * cfg.(channels)))).

Definition release_buffer (r : btcall_rt) (frame_count : Z) : callm unit :=
  bt_upd r (fun d => set_d_frames_in (u64 (d.(d_frames_in) - frame_count)) d).

(** [resample] is [resample_from_provider]: it gets frames from the two
    functions above and stores bytes; the frames that it stored are the new
    value of the count. *)
Context (resample : R -> (Z -> callm (Z * Z * option Z)) -> (Z -> callm unit) -> Z ->
                    callm (Z * list Z)).

(** [read_frames] into [buf]. *)
Fixpoint read_frames (fuel : nat) (others : nat -> @halm M W unit) (r : btcall_rt) (buf : list Z)
    (frames_wr frames : Z) : callm (Z * list Z) :=
  if frames_wr <? frames then
    match fuel with
    | O => slift Blocked
    | S fuel =>
        do! d := bt_get r in
        do! fs := get_input_frame_size d in
        let want := frames - frames_wr in
        do! (rd, buf) :=
          (match d.(d_resampler) with
           | Some rs =>
               do! (rd, bs) := resample rs (get_next_buffer others r) (release_buffer r) want in
               do! buf := slift (mem_write buf (frames_wr * fs) bs) in
               sret (rd, buf)
           | None =>
               do! (_, cnt, off) := get_next_buffer others r want in
               do! (rd, buf) :=
                 (match off with
                  | Some off =>
                      do! d := bt_get r in
                      match d.(d_buffer) with
                      | None => slift Undef
                      | Some src =>
                          do! buf := slift (memcpy buf (frames_wr * fs) src off (cnt * fs)) in
                          sret (cnt, buf)
                      end
                  | None => sret (want, buf)
                  end) in
               do! _ := release_buffer r cnt in
               sret (rd, buf)
           end) in
        do! d := bt_get r in
        if d.(d_read_status) =? 0 then read_frames fuel others r buf (frames_wr + rd) frames
        else sret (d.(d_read_status), buf)
    end
  else sret (frames_wr, buf).

Definition btcall_create_resampler (r : btcall_rt) : callm Z :=
  do! d := bt_get r in
  if d.(d_rsp_in_rate) =? d.(d_rsp_out_rate) then sret 0
  else
    let '(ret, rs) := create_resampler d.(d_rsp_in_rate) d.(d_rsp_out_rate) BT_CHANNEL_CNT in
    if negb (ret =? 0) then sret ret
    else
      do! _ := bt_put r (match rs with
                         | Some rs => set_d_frames_in 0 (set_d_resampler (Some (rs_reset rs)) d)
                         | None => set_d_resampler None d
                         end) in
      sret ret.

(** *** Start of the module *)

(** The loop that allocates the directions; [answers] is what [calloc] gives. *)
Fixpoint alloc_directions (n i : nat) (answers : nat -> bool) : callm Z :=
  match n with
  | O => sret 0
  | S n =>
      if answers i then
        do! _ := smodify (fun s => set_bt_data (<[i := Some zero_bt_data]> s.(bt_data)) s) in
        alloc_directions n (S i) answers
      else sret (- ENOMEM)
  end.

(** [thread_calloc] is the allocation of the thread data, and [setup] whether
    mutex, condition and thread could be made. *)
Definition btcall_init_rx (answers : nat -> bool) (thread_calloc setup : bool) : callm Z :=
  do! ret := alloc_directions BTCALL_RT_MAX 0 answers in
  if negb (ret =? 0) then sret ret
  else if negb thread_calloc then sret (- ENOMEM)
  else
    do! _ := smodify (set_bt_thread (Some zero_thread_data)) in
    sret (if setup then 0 else - EINVAL).

Definition btcall_init_tx (setup : bool) : callm Z :=
  do! s := sget in
  match s.(bt_thread_data) with
  | None => sret (- ENOMEM)
  | Some _ => sret (if setup then 0 else - EINVAL)
  end.

(** *** Opening and closing *)

Definition main_card : Z := sd_platform_get_card_id p.(dev_manager) AUDIO_NAME_PRIMARY.

(** [sd_platform_get_card_info] for a direction: card, port and configuration
    are those of the description, if it has an entry. *)
Definition apply_card_info (r : btcall_rt) (addr : string) : callm unit :=
  do! d := bt_get r in
  match d.(d_config) with
  | None => slift Undef
  | Some n =>
      do! s := sget in
      do! (_, place, cfg) := slift (sd_platform_get_card_info p addr (s.(cfgs) n)) in
      match place with
      | Some (c, q) =>
          do! _ := bt_put r (set_d_place c q d) in
          smodify (fun s => set_cfgs (fun m => if decide (m = n) then cfg else s.(cfgs) m) s)
      | None => sret tt
      end
  end.

(** Opening the device of a direction.  A null pointer is given to
    [pcm_is_ready]. *)
Definition open_bt_device (r : btcall_rt) (flags : Z) : callm Z :=
  do! d := bt_get r in
  match d.(d_pcm) with
  | Some _ => sret 0
  | None =>
      do! cfg := bt_config d in
      do! h := on_devices (pcm_open_prepare_helper d.(d_card) d.(d_port) flags PROXY_OPEN_RETRY_COUNT cfg) in
      match h with
      | None => slift Undef
      | Some h =>
          do! s := sget in
          if pcm_is_ready h s.(base).(world)
          then do! _ := bt_put r (set_d_pcm (Some (Device h)) d) in sret 0
          else sret (- ENOMEM)
      end
  end.

Definition open_bt_inpcm : callm Z :=
  do! _ := bt_upd BTCALL_BT_INPUT (set_d_config pcm_config_bt_in) in
  do! _ := bt_upd BTCALL_BT_INPUT (fun d => set_d_place main_card d.(d_port) d) in
  if main_card <? 0 then sret (- EINVAL)
  else
    do! _ := bt_upd BTCALL_BT_INPUT (set_d_place main_card PORT_BT) in
    do! _ := apply_card_info BTCALL_BT_INPUT BT_CALL_HFP_IN_NAME in
    do! ret := open_bt_device BTCALL_BT_INPUT PCM_IN in
    if negb (ret =? 0) then sret ret
    else
      do! d := bt_get BTCALL_BT_INPUT in
      do! cfg := bt_config d in
      do! _ := bt_put BTCALL_BT_INPUT (set_d_rates cfg.(rate) HIFI_SAMPLING_RATE d) in
      if p.(misc).(ahub_en) then sret 0
      else
        do! ret := btcall_create_resampler BTCALL_BT_INPUT in
        sret (if ret =? 0 then 0 else - EINVAL).

Definition close_bt_device (r : btcall_rt) : callm unit :=
  do! d := bt_get r in
  match d.(d_pcm) with
  | None => sret tt
  | Some (Streamed _) => slift Undef
  | Some (Device h) =>
      do! _ := on_devices (pcm_close h) in bt_upd r (set_d_pcm None)
  end.

Definition release_resampler (r : btcall_rt) : callm unit := bt_upd r (set_d_resampler None).

Definition close_bt_inpcm : callm unit :=
  do! s := sget in
  match s.(bt_data) !! rt_index BTCALL_BT_INPUT with
  | Some (Some _) =>
      do! _ := release_resampler BTCALL_BT_INPUT in close_bt_device BTCALL_BT_INPUT
  | _ => sret tt
  end.

(** The private stream of the call: a copy of the stream of the phone bus. *)
Definition private_out (o : alsa_stream_out) : outcome alsa_stream_out :=
  let addr := BT_CALL_BUS_NAME in
  let! n := atoi (substring 3 (String.length addr) addr) in
  Done {| o_bus_num := n; o_bus_address := addr; o_config := o.(o_config); o_pcm := o.(o_pcm);
          o_pcm_hdl := o.(o_pcm_hdl); o_standby := o.(o_standby) |}.

(** [stream_calloc] is the allocation of the private stream; [created] tells
    whether the streamer can create its thread. *)
Definition open_codec_outpcm (stream_calloc created : bool) : callm Z :=
  let r := BTCALL_CODEC_OUTPUT in
  do! _ :=
    (if p.(misc).(ahub_en) then
       do! _ := bt_upd r (set_d_config pcm_config_codec_out) in
       smodify (fun s =>
         let c := s.(cfgs) pcm_config_codec_out in
         let c' := {| channels := c.(channels); rate := c.(rate); period_size := c.(period_size);
                      period_count := c.(period_count); cfg_format := c.(cfg_format);
                      start_threshold := u32 (PLAYBACK_PERIOD_START_THRESHOLD * c.(period_size));
                      stop_threshold := u32 (PLAYBACK_PERIOD_STOP_THRESHOLD * c.(period_size));
                      silence_threshold := c.(silence_threshold);
                      silence_size := c.(silence_size) |} in
         set_cfgs (fun m => if decide (m = pcm_config_codec_out) then c' else s.(cfgs) m) s)
     else bt_upd r (set_d_config cfg_main)) in
  do! _ := bt_upd r (fun d => set_d_place main_card d.(d_port) d) in
  if main_card <? 0 then sret (- EINVAL)
  else
    do! _ := bt_upd r (set_d_place main_card PORT_CODEC) in
    do! d := bt_get r in
    match d.(d_pcm) with
    | Some _ => sret 0
    | None =>
        match d.(d_bt_out), stream_calloc with
        | None, false => sret (-1)
        | _, _ =>
            match d.(d_out) with
            | None => slift Undef
            | Some o =>
                do! o := slift (private_out o) in
                do! _ := bt_put r (set_d_bt_out (Some o) d) in
                if p.(misc).(ahub_en) then
                  do! _ := apply_card_info r o.(o_bus_address) in
                  do! d := bt_get r in
                  do! cfg := bt_config d in
                  do! h := on_devices (pcm_open_prepare_helper d.(d_card) d.(d_port) PCM_OUT
                                         PROXY_OPEN_RETRY_COUNT cfg) in
                  do! _ := bt_put r (set_d_bt_out (Some (set_o_pcm (negb (is_none h)) o))
                                       (set_d_pcm (Device <$> h) d)) in
                  sret 0
                else
                  do! d := bt_get r in
                  do! cfg := bt_config d in
                  do! (k, o) := on_base (hal_streamer_open_out cb_calloc cb_malloc created o
                                           d.(d_card) d.(d_port) cfg) in
                  match k with
                  | None => do! _ := bt_put r (set_d_bt_out (Some o) d) in sret (-1)
                  | Some k =>
                      do! _ := bt_put r (set_d_bt_out (Some (set_o_client (Some k) o.(o_standby) o))
                                           (set_d_pcm (Some (Streamed k)) d)) in
                      sret 0
                  end
            end
        end
    end.

(** [exits] tells whether the thread of the streamer leaves in time, and
    [slot0] is the first slot of the phone bus in the output map. *)
Definition close_codec_outpcm (exits : bool) (slot0 : Z) : callm unit :=
  let r := BTCALL_CODEC_OUTPUT in
  do! s := sget in
  match s.(bt_data) !! rt_index r with
  | Some (Some _) =>
      do! _ := release_resampler r in
      do! d := bt_get r in
      match d.(d_bt_out) with
      | None => slift Undef
      | Some o =>
          match o.(o_pcm_hdl) with
          | Some _ =>
              do! _ := on_base (hal_streamer_close_out exits o slot0) in
              bt_upd r (fun d => set_d_bt_out None (set_d_pcm None d))
          | None =>
              if o.(o_pcm) then
                match d.(d_pcm) with
                | Some (Device h) =>
                    do! _ := on_devices (pcm_close h) in
                    bt_upd r (fun d => set_d_bt_out None (set_d_pcm None d))
                | _ => slift Undef
                end
              else sret tt
          end
      end
  | _ => sret tt
  end.

(** The stream of the microphone. *)
Definition private_in : alsa_stream_in :=
  {| i_devices := AUDIO_DEVICE_IN_BUILTIN_MIC;
     i_config := {| channels := CHANNEL_STEREO; rate := SAMPLING_RATE_16K; period_size := 0;
                    period_count := 0; cfg_format := PCM_FORMAT_S16_LE; start_threshold := 0;
                    stop_threshold := 0; silence_threshold := 0; silence_size := 0 |};
     i_pcm := false; i_pcm_hdl := None; i_standby := false |}.

Definition open_codec_inpcm (stream_calloc created : bool) : callm Z :=
  let r := BTCALL_CODEC_INPUT in
  do! _ := bt_upd r (set_d_config (if p.(misc).(ahub_en) then pcm_config_codec_in
                                   else pcm_main_cap_codec_in)) in
  do! _ := bt_upd r (fun d => set_d_place main_card d.(d_port) d) in
  if main_card <? 0 then sret (- EINVAL)
  else
    do! _ := bt_upd r (set_d_place main_card PORT_CODEC_IN) in
    do! d := bt_get r in
    do! ret :=
      (match d.(d_in), stream_calloc with
       | Some _, _ => sret 0
       | None, false => sret (- ENOMEM)
       | None, true =>
           do! s := sget in
           do! k := on_base (hal_streamer_open_in cb_calloc cb_malloc created private_in
                               d.(d_card) d.(d_port) (s.(cfgs) cfg_main_cap)) in
           do! _ := bt_put r (set_d_in (Some (set_i_client k private_in.(i_standby) private_in)) d) in
           sret (if is_none k then - ENOMEM else 0)
       end) in
    if negb (ret =? 0) then sret ret
    else
      do! d := bt_get r in
      do! cfg := bt_config d in
      do! s := sget in
      do! _ := bt_put r (set_d_rates cfg.(rate) (s.(cfgs) pcm_config_bt_out).(rate) d) in
      if p.(misc).(ahub_en) then sret 0
      else
        do! ret := btcall_create_resampler r in
        sret (if ret =? 0 then 0 else - EINVAL).

Definition close_codec_inpcm (exits : bool) : callm unit :=
  let r := BTCALL_CODEC_INPUT in
  do! s := sget in
  match s.(bt_data) !! rt_index r with
  | Some (Some _) =>
      do! _ := release_resampler r in
      do! _ := close_bt_device r in
      do! d := bt_get r in
      match d.(d_in) with
      | None => slift Undef
      | Some i =>
          match i.(i_pcm_hdl) with
          | None => sret tt
          | Some _ =>
              do! _ := on_base (hal_streamer_close_in exits i) in
              bt_upd r (set_d_in None)
          end
      end
  | _ => sret tt
  end.

Definition open_bt_outpcm : callm Z :=
  let r := BTCALL_BT_OUTPUT in
  do! _ := bt_upd r (fun d => set_d_place main_card d.(d_port) (set_d_config pcm_config_bt_out d)) in
  if main_card <? 0 then sret (- EINVAL)
  else
    do! _ := bt_upd r (set_d_place main_card PORT_BT) in
    do! _ := apply_card_info r BT_CALL_HFP_OUT_NAME in
    open_bt_device r PCM_OUT.

Definition close_bt_outpcm : callm unit :=
  do! s := sget in
  match s.(bt_data) !! rt_index BTCALL_BT_OUTPUT with
  | Some (Some _) =>
      do! _ := release_resampler BTCALL_BT_OUTPUT in close_bt_device BTCALL_BT_OUTPUT
  | _ => sret tt
  end.

(** *** The call *)

(** What the system answers while a call is opened: the allocations of the
    two private streams and the threads of the streamer. *)
Record open_env := { out_calloc : bool; out_thread : bool; in_calloc : bool; in_thread : bool }.

(** [open] unless the direction has a device. *)
Definition ensure_open (r : btcall_rt) (open : callm Z) : callm Z :=
  do! d := bt_get r in
  match d.(d_pcm) with Some _ => sret 0 | None => open end.

(** Allocating a buffer of the thread data that is not there yet. *)
Definition ensure_buffer (has : btcall_thread_data -> option (list Z)) (size : callm Z)
    (store : option (list Z) -> callm unit) : callm Z :=
  do! t := th_get in
  match has t with
  | Some _ => sret 0
  | None =>
      do! n := size in
      match malloc n with
      | None => sret (- ENOMEM)
      | Some b => do! _ := store (Some b) in sret 0
      end
  end.

(** The bytes of a period, rounded up to sixteen frames. *)
Definition period_bytes16 (r : btcall_rt) : callm Z :=
  do! d := bt_get r in
  do! cfg := bt_config d in
  sret (s32 (u32 (u32 (cfg.(period_size) + 15) / 16 * 16) * frame_size cfg)).

(** [rsp_out_rate / rsp_in_rate] of the Bluetooth input. *)
Definition rx_multiple : callm Z :=
  do! d := bt_get BTCALL_BT_INPUT in
  if d.(d_rsp_in_rate) =? 0 then slift Undef else sret (d.(d_rsp_out_rate) / d.(d_rsp_in_rate)).

(** The period buffers of the directions. *)
Fixpoint ensure_period_buffers (l : list btcall_rt) : callm Z :=
  match l with
  | [] => sret 0
  | r :: l =>
      do! d := bt_get r in
      match d.(d_buffer) with
      | Some _ => ensure_period_buffers l
      | None =>
          do! cfg := bt_config d in
          match malloc (cfg.(period_size) * frame_size cfg * 8) with
          | None => sret (- ENOMEM)
          | Some b => do! _ := bt_put r (set_d_buffer (Some b) d) in ensure_period_buffers l
          end
      end
  end.

Definition directions : list btcall_rt :=
  [BTCALL_BT_INPUT; BTCALL_BT_OUTPUT; BTCALL_CODEC_INPUT; BTCALL_CODEC_OUTPUT].

(** A step that ends the function when it gives another status than 0. *)
Definition or_return (step : callm Z) (fail : Z -> Z) (rest : callm Z) : callm Z :=
  do! ret := step in if ret =? 0 then rest else sret (fail ret).

Definition alloc_buffers : callm Z :=
  let same ret := ret in
  or_return
    (ensure_buffer buffer_rx
       (do! n := period_bytes16 BTCALL_BT_INPUT in
        do! m := rx_multiple in
        slift (i32 (n * m)))
       (fun b => do! n := period_bytes16 BTCALL_BT_INPUT in th_upd (set_buffer_rx b n))) same
  (or_return
    (ensure_buffer buffer_tx (period_bytes16 BTCALL_CODEC_INPUT)
       (fun b => do! n := period_bytes16 BTCALL_CODEC_INPUT in th_upd (set_buffer_tx b n))) same
  (or_return
    (ensure_buffer rsp_out_buffer_tx (do! t := th_get in slift (i32 (t.(buffer_txsize) * 8)))
       (fun b => th_upd (set_rsp_out_tx (map (fun _ => 0) <$> b)))) same
  (or_return
    (ensure_buffer rsp_out_buffer_rx (do! t := th_get in slift (i32 (t.(buffer_rxsize) * 8)))
       (fun b => th_upd (set_rsp_out_rx (map (fun _ => 0) <$> b)))) same
  (ensure_period_buffers directions)))).

Definition btcall_open (e : open_env) : callm Z :=
  let einval _ := - EINVAL in
  or_return (ensure_open BTCALL_BT_INPUT open_bt_inpcm) einval
  (or_return (ensure_open BTCALL_CODEC_OUTPUT (open_codec_outpcm e.(out_calloc) e.(out_thread))) einval
  (or_return (ensure_open BTCALL_CODEC_INPUT (open_codec_inpcm e.(in_calloc) e.(in_thread))) einval
  (or_return (ensure_open BTCALL_BT_OUTPUT open_bt_outpcm) einval
  alloc_buffers))).

Definition when_open (r : btcall_rt) (close : callm unit) : callm unit :=
  do! d := bt_get r in
  match d.(d_pcm) with Some _ => close | None => sret tt end.

Fixpoint drop_period_buffers (l : list btcall_rt) : callm unit :=
  match l with
  | [] => sret tt
  | r :: l => do! _ := bt_upd r (set_d_buffer None) in drop_period_buffers l
  end.

(** The buffers of the thread data are released. *)
Definition free_thread_buffers : callm unit :=
  do! t := th_get in
  do! _ := (match t.(buffer_rx) with Some _ => th_upd (set_buffer_rx None 0) | None => sret tt end) in
  do! _ := (match t.(buffer_tx) with Some _ => th_upd (set_buffer_tx None 0) | None => sret tt end) in
  th_upd (fun t => set_rsp_out_rx None (set_rsp_out_tx None t)).

Definition btcall_close (exits : bool) (slot0 : Z) : callm Z :=
  do! _ := when_open BTCALL_BT_INPUT close_bt_inpcm in
  do! _ := when_open BTCALL_CODEC_OUTPUT (close_codec_outpcm exits slot0) in
  do! d := bt_get BTCALL_CODEC_INPUT in
  match d.(d_in) with
  | None => slift Undef
  | Some i =>
      do! _ :=
        (match i.(i_pcm_hdl) with
         | Some _ =>
             do! _ := close_codec_inpcm exits in bt_upd BTCALL_CODEC_INPUT (set_d_in None)
         | None => sret tt
         end) in
      do! _ := when_open BTCALL_BT_OUTPUT close_bt_outpcm in
      do! _ :=
        (if p.(misc).(ahub_en) then sret tt
         else
           do! _ := on_phone (audio_remote_stop rproc_mp PHONE_CAPTURE_FROM_MAIN_MIC_48K) in
           on_phone (audio_remote_stop rproc_mp PHONE_PLAYBACK_TO_MAIN_SPK_48K)) in
      do! _ := free_thread_buffers in
      do! _ := drop_period_buffers directions in
      sret 0
  end.

(** Polling until both threads wait, at most [n] times; [seen] is what the
    flags [is_running_rx] and [is_running_tx] are at a poll. *)
Fixpoint wait_stopped (n i : nat) (seen : nat -> bool * bool) : callm unit :=
  match n with
  | O => sret tt
  | S n =>
      do! _ := th_upd (fun t => set_running_tx (seen i).2 (set_running_rx (seen i).1 t)) in
      if negb (seen i).2 && negb (seen i).1 then sret tt else wait_stopped n (S i) seen
  end.

(** [set_btcall_status] of [audio_hw.c]; [restarted] tells whether another
    call has been started while this one waits for the threads. *)
Definition set_btcall_status (e : open_env) (exits restarted : bool) (slot0 : Z)
    (seen : nat -> bool * bool) : callm unit :=
  do! s := sget in
  if negb (forallb (fun r => match s.(bt_data) !! rt_index r with Some (Some _) => true | _ => false end)
             directions) then sret tt
  else
    match s.(bt_thread_data) with
    | None => sret tt
    | Some _ =>
        if s.(in_call) =? 1 then
          do! _ := wait_stopped 300 0 seen in
          do! ret := btcall_open e in
          if negb (ret =? 0) then do! _ := btcall_close exits slot0 in sret tt
          else
            do! _ := th_upd (set_work_rx true false) in
            th_upd (set_work_tx true false)
        else if s.(in_call) =? 0 then
          do! _ := th_upd (set_work_rx false false) in
          do! _ := th_upd (set_work_tx false false) in
          do! _ := wait_stopped 300 0 seen in
          if restarted then sret tt
          else do! _ := btcall_close exits slot0 in sret tt
        else sret tt
    end.

(** *** The threads *)

(** A thread that was woken up. *)
Definition rx_wake : callm Z :=
  do! _ := (if p.(misc).(ahub_en) then sret tt
            else on_phone (audio_remote_start rproc_mp PHONE_PLAYBACK_TO_MAIN_SPK_48K PHONE_PATH_FIXED_VOL)) in
  do! m := rx_multiple in
  do! _ := th_upd (set_running_rx true) in
  sret m.

Definition tx_wake : callm unit :=
  do! _ := (if p.(misc).(ahub_en) then sret tt
            else on_phone (audio_remote_start rproc_mp PHONE_CAPTURE_FROM_MAIN_MIC_48K PHONE_PATH_FIXED_VOL)) in
  th_upd (set_running_tx true).

(** The block that a round of [btcall_thread_tx] writes to the Bluetooth
    device. *)
Definition tx_block (fuel : nat) (others : nat -> @halm M W unit) : callm (option (list Z)) :=
  do! t := th_get in
  do! d := bt_get BTCALL_CODEC_INPUT in
  do! o := bt_get BTCALL_BT_OUTPUT in
  match d.(d_in) with
  | None => slift Undef
  | Some i =>
      match i.(i_pcm_hdl), o.(d_pcm), t.(buffer_tx) with
      | Some _, Some _, Some buf =>
          do! fs := get_input_frame_size d in
          if fs =? 0 then slift Undef
          else
            do! (_, buf) :=
              (match d.(d_resampler) with
               | Some _ => read_frames fuel others BTCALL_CODEC_INPUT buf 0 (t.(buffer_txsize) / fs)
               | None => on_base (hal_streamer_read others i buf t.(buffer_txsize))
               end) in
            do! s := sget in
            do! buf := slift (if s.(mic_mute)
                              then mem_write buf 0 (replicate (Z.to_nat t.(buffer_txsize)) 0)
                              else Done buf) in
            do! _ := th_upd (fun t => set_buffer_tx (Some buf) t.(buffer_txsize) t) in
            do! bs := slift (mem_read buf 0 t.(buffer_txsize)) in
            sret (Some bs)
      | _, _, _ => sret None
      end
  end.

Definition tx_round (fuel : nat) (others : nat -> @halm M W unit) : callm unit :=
  do! block := tx_block fuel others in
  match block with
  | None => sret tt
  | Some bs =>
      do! o := bt_get BTCALL_BT_OUTPUT in
      match o.(d_pcm) with
      | Some (Device h) => do! _ := on_devices (pcm_write h bs) in sret tt
      | Some (Streamed _) => slift Undef
      | None => sret tt
      end
  end.

(** What a round of [btcall_thread_rx] reads, in the critical section: the
    bytes, or none when the round is skipped. *)
Definition rx_block (fuel : nat) (others : nat -> @halm M W unit) (multiple : Z)
  : callm (option (list Z)) :=
  do! t := th_get in
  do! d := bt_get BTCALL_BT_INPUT in
  match t.(buffer_rx) with
  | None => sret None
  | Some buf =>
      do! fs := get_input_frame_size d in
      if fs =? 0 then slift Undef
      else
        let in_frames := t.(buffer_rxsize) / fs in
        do! (buf, n) :=
          (match d.(d_resampler), d.(d_pcm) with
           | Some _, _ =>
               (* without an increase of the rate the buffer pointer is not set *)
               if d.(d_rsp_out_rate) >? d.(d_rsp_in_rate) then
                 do! (_, buf) := read_frames fuel others BTCALL_BT_INPUT buf 0 (in_frames * multiple) in
                 sret (buf, s32 (in_frames * multiple * fs))
               else slift Undef
           | None, Some (Device h) =>
               do! (_, bs) := on_devices (pcm_read h t.(buffer_rxsize)) in
               do! buf := slift (mem_write buf 0 bs) in
               sret (buf, t.(buffer_rxsize))
           | None, _ => slift Undef
           end) in
        do! _ := th_upd (fun t => set_buffer_rx (Some buf) t.(buffer_rxsize) t) in
        do! bs := slift (mem_read buf 0 n) in
        sret (Some bs)
  end.

(** The rest of the round; [in_tmp] is the array of [do_channel_map].  When a
    round is skipped, the mutex stays locked, and the next one waits for it
    for ever. *)
Definition rx_round (fuel : nat) (others : nat -> @halm M W unit) (multiple : Z) (in_tmp : list Z)
  : callm unit :=
  do! block := rx_block fuel others multiple in
  match block with
  | None => slift Blocked
  | Some bs =>
      do! d := bt_get BTCALL_CODEC_OUTPUT in
      match d.(d_bt_out) with
      | None => slift Undef
      | Some o =>
          match o.(o_pcm_hdl), o.(o_pcm), d.(d_pcm) with
          | Some _, _, _ =>
              do! _ := on_base (hal_streamer_write others fuel (Some o) (Some bs) (zlen bs) in_tmp) in sret tt
          | None, true, Some (Device h) => do! _ := on_devices (pcm_write h bs) in sret tt
          | None, true, _ => slift Undef
          | None, false, _ => sret tt
          end
      end
  end.
End BtCall.
