(* ===== verification/BtCallProofs.v ===== *)
(** * Theorems on calls over Bluetooth *)

From Stdlib Require Import ZArith Lia Ascii String.
From stdpp Require Import base list numbers.
From S2P Require Import Prelude CircleBuf CString Mixer Dsp DspProofs BusVolume Mix PcmPlugin PcmDevice Streamer.
From S2P Require Import AudioExtra Remote OutputPath Platform Sharing StreamerProofs BtCall.

#[local] Open Scope Z_scope.

(** ** The streamer under a call *)

(** A count changed at one handle. *)
Definition add_at (k : nat) (z : Z) (n : nat -> Z) : nat -> Z :=
  fun j => if decide (j = k) then n j + z else n j.

Lemma add_at_this (k : nat) (z : Z) (n : nat -> Z) : add_at k z n k = n k + z.
Proof. unfold add_at. by rewrite decide_True. Qed.

Lemma add_at_back (k j : nat) (n : nat -> Z) : add_at k (-1) (add_at k 1 n) j = n j.
Proof. unfold add_at. case_decide; lia. Qed.

Section Base.
Context {M : Type} `{HM : MixerLaws M} `{HA : Alloc} {W : Type} `{HW : PcmSystemLaws W} `{HR : !ReliableCapture W}.
Context (cb_calloc : bool) (cb_malloc : Z -> option (list Z)).

(** The handles with their numbers [n] and [m] of users; the devices [x] of
    others are open. *)
Record base_ok (n m : nat -> Z) (x : list Z) (h : hal M W) : Prop := {
  bo_out : forall k hl, h.(out_streams) !! k = Some hl -> handle_ok hl.(h_plbk) hl (n k);
  bo_in : forall k hl, h.(in_streams) !! k = Some hl -> handle_ok hl.(h_cap) hl (m k);
  bo_alloc : exists k hl, h.(out_streams) !! k = Some hl /\ hl.(h_allocated) = true;
  bo_free : exists hl l, h.(in_streams) = hl :: l /\ hl.(h_allocated) = false;
  bo_dev : opened h.(world) ≡ₚ omap h_pcm h.(out_streams) ++ omap h_pcm h.(in_streams) ++ x;
  bo_bus : hal_inv h.(buses);
  bo_rel : reliable h.(world)
}.

Lemma base_ok_ext (n m n' m' : nat -> Z) (x x' : list Z) (h : hal M W) :
  base_ok n m x h -> (forall k, n k = n' k) -> (forall k, m k = m' k) -> x ≡ₚ x' -> base_ok n' m' x' h.
Proof using.
  intros [B1 B2 B3 B4 B5 B6 B7] En Em Ex. split; try done.
  - intros k hl E. rewrite <-En. by apply B1.
  - intros k hl E. rewrite <-Em. by apply B2.
  - by rewrite <-Ex.
Qed.

(** The handles of a table after a change of one. *)
Lemma handles_at (t : hal_streamer -> thread) (n : nat -> Z) (z : Z) (g : list hal_streamer) (k : nat)
    (hl' : hal_streamer) :
  (forall j hl, g !! j = Some hl -> handle_ok (t hl) hl (n j)) -> handle_ok (t hl') hl' (n k + z) ->
  forall j hl, <[k := hl']> g !! j = Some hl -> handle_ok (t hl) hl (add_at k z n j).
Proof using.
  intros G K j hl E. unfold add_at. apply list_lookup_insert_Some in E as [(-> & <- & _) | [Ne E]].
  - by rewrite decide_True.
  - rewrite decide_False by done. by apply G.
Qed.

Lemma base_open_out (n m : nat -> Z) (x : list Z) (h : hal M W) (o : alsa_stream_out) (card port : Z)
    (cfg : pcm_config) :
  base_ok n m x h -> (forall k, 0 <= n k < INT32_MAX) -> 0 <= o.(o_bus_num) < 16 ->
  is_Some (pcm_open_prepare_helper card port PCM_OUT PROXY_OPEN_RETRY_COUNT cfg h.(world)).1 ->
  exists k o' h', hal_streamer_open_out cb_calloc cb_malloc true o card port cfg h = Done ((Some k, o'), h')
    /\ same_out o o' /\ is_Some (h'.(out_streams) !! k) /\ base_ok (add_at k 1 n) m x h'
    /\ length h'.(out_streams) = length h.(out_streams).
Proof using All.
  intros [B1 B2 B3 B4 B5 B6 B7] N B [d Ed].
  destruct (open_out_run cb_calloc cb_malloc h o card port cfg n)
    as (k & hl & hl' & ok & o' & b' & w' & E & Ek & HO & Al & D & SO & I' & R' & Ok); try done.
  { intros k hl E. split; [by apply B1|apply N]. }
  destruct Ok as [[-> | Ok] _]; [|congruence]. eexists k, o', _. split; [exact E|]. split; [done|].
  split; [cbn; apply insert_is_Some; eauto|].
  split; [|cbn; by rewrite length_insert].
  split; cbn [out_streams in_streams buses world set_world set_outs set_buses]; try done.
  - by apply handles_at.
  - by apply (alloc_insert _ k hl).
  - by apply (kept_opened _ _ hl hl' h.(world)).
Qed.

(** A device that does not open for the first user of a handle. *)
Lemma base_open_refused (n m : nat -> Z) (x : list Z) (h : hal M W) (o : alsa_stream_out) (card port : Z)
    (cfg : pcm_config) :
  base_ok n m x h -> (forall k, n k = 0) -> 0 <= o.(o_bus_num) < 16 ->
  (pcm_open_prepare_helper card port PCM_OUT PROXY_OPEN_RETRY_COUNT cfg h.(world)).1 = None ->
  exists o' h', hal_streamer_open_out cb_calloc cb_malloc true o card port cfg h = Done ((None, o'), h')
    /\ base_ok n m x h'.
Proof using All.
  intros [B1 B2 B3 B4 B5 B6 B7] N B Ed.
  destruct (open_out_run cb_calloc cb_malloc h o card port cfg n)
    as (k & hl & hl' & ok & o' & b' & w' & E & Ek & HO & Al & D & SO & I' & R' & _ & Ok); try done.
  { intros k hl E. rewrite N. split; [rewrite <-(N k); by apply B1|unfold INT32_MAX; lia]. }
  rewrite (Ok (N k) Ed) in E, HO. eexists o', _. split; [exact E|].
  split; cbn [out_streams in_streams buses world set_world set_outs set_buses]; try done.
  - intros j y. pose proof (handles_at h_plbk n 0 h.(out_streams) k hl' B1) as Ha. rewrite Z.add_0_r in Ha.
    intros Ey. specialize (Ha HO j y Ey). unfold add_at in Ha. by case_decide; rewrite ?Z.add_0_r in Ha.
  - by apply (alloc_insert _ k hl).
  - by apply (kept_opened _ _ hl hl' h.(world)).
Qed.

Lemma base_close_out (n m : nat -> Z) (x : list Z) (h : hal M W) (o : alsa_stream_out) (k : nat) (slot0 : Z) :
  base_ok n m x h -> o.(o_pcm_hdl) = Some k -> is_Some (h.(out_streams) !! k) -> 0 < n k <= INT32_MAX ->
  0 <= o.(o_bus_num) < 16 -> 0 <= slot0 <= 7 ->
  exists r h', hal_streamer_close_out true o slot0 h = Done (r, h') /\ base_ok (add_at k (-1) n) m x h'
    /\ length h'.(out_streams) = length h.(out_streams).
Proof using - (cb_calloc cb_malloc).
  intros [B1 B2 B3 B4 B5 B6 B7] Ek [hl L] N B S.
  destruct (close_out_run h o slot0 (n k) k hl (omap h_pcm h.(in_streams) ++ x))
    as (hl' & o' & b' & w' & E & HO & Al & C & _ & I' & R'); try done; [by apply B1|].
  eexists _, _. split; [exact E|]. split; [|cbn; by rewrite length_insert].
  split; cbn [out_streams in_streams buses world set_world set_outs set_buses]; try done.
  - by apply handles_at.
  - by apply (alloc_insert _ k hl).
Qed.

Lemma base_open_in (n m : nat -> Z) (x : list Z) (h : hal M W) (i : alsa_stream_in) (card port : Z)
    (cfg : pcm_config) :
  base_ok n m x h -> 0 <= m 0%nat < INT32_MAX ->
  exists h', hal_streamer_open_in cb_calloc cb_malloc true i card port cfg h = Done (Some 0%nat, h')
    /\ h'.(out_streams) = h.(out_streams) /\ base_ok n (add_at 0 1 m) x h'.
Proof using All.
  intros [B1 B2 B3 B4 B5 B6 B7] N. destruct B4 as (hl & l & El & A).
  assert (h.(in_streams) !! 0%nat = Some hl) as L by (by rewrite El).
  destruct (open_in_run cb_calloc cb_malloc h i card port cfg (m 0%nat) hl l)
    as (hl' & w' & E & HO & Al & D & R'); try done; [by apply B2|].
  eexists. split; [exact E|]. split; [done|].
  split; cbn [out_streams in_streams buses world set_world set_ins]; try done.
  - by apply handles_at.
  - exists hl', l. split; [by rewrite El|]. by rewrite Al.
  - rewrite Permutation_app_swap_app. apply (kept_opened _ _ hl hl' h.(world)); [done|done|].
    by rewrite Permutation_app_swap_app.
Qed.

Lemma base_close_in (n m : nat -> Z) (x : list Z) (h : hal M W) (i : alsa_stream_in) :
  base_ok n m x h -> i.(i_pcm_hdl) = Some 0%nat -> 0 < m 0%nat <= INT32_MAX ->
  exists r h', hal_streamer_close_in true i h = Done (r, h')
    /\ h'.(out_streams) = h.(out_streams) /\ base_ok n (add_at 0 (-1) m) x h'.
Proof using - (cb_calloc cb_malloc).
  intros [B1 B2 B3 B4 B5 B6 B7] Ek N. destruct B4 as (hl & l & El & A).
  assert (h.(in_streams) !! 0%nat = Some hl) as L by (by rewrite El).
  destruct (close_in_run h i (m 0%nat) 0 hl (omap h_pcm h.(out_streams) ++ x))
    as (hl' & x' & w' & E & HO & Al & C & R'); try done; [by apply B2| |].
  { by rewrite Permutation_app_swap_app. }
  eexists _, _. split; [exact E|]. split; [done|].
  split; cbn [out_streams in_streams buses world set_world set_ins]; try done.
  - by apply handles_at.
  - exists hl', l. split; [by rewrite El|]. congruence.
  - by rewrite Permutation_app_swap_app.
Qed.

(** The devices of a call beside the streamer. *)
Lemma base_open_device (n m : nat -> Z) (x : list Z) (h : hal M W) (card port flags d : Z) (cfg : pcm_config)
    (w : W) :
  base_ok n m x h ->
  pcm_open_prepare_helper card port flags PROXY_OPEN_RETRY_COUNT cfg h.(world) = (Some d, w) ->
  base_ok n m (d :: x) (set_world w h).
Proof using - (cb_calloc cb_malloc).
  intros [B1 B2 B3 B4 B5 B6 B7] E. split; try done; cbn [world set_world out_streams in_streams].
  - pose proof (open_helper_opened card port flags PROXY_OPEN_RETRY_COUNT cfg h.(world)) as O.
    cbv zeta in O. rewrite E in O. cbn in O. rewrite O, B5. rewrite !app_assoc. apply Permutation_middle.
  - pose proof (reliable_open card port flags cfg h.(world) B7) as O. by rewrite E in O.
Qed.

Lemma base_close_device (n m : nat -> Z) (x : list Z) (h : hal M W) (d : Z) :
  base_ok n m (d :: x) h -> base_ok n m x (set_world (pcm_close d h.(world)).2 h).
Proof using - (cb_calloc cb_malloc).
  intros [B1 B2 B3 B4 B5 B6 B7]. split; try done; cbn [world set_world out_streams in_streams].
  - apply close_opened. rewrite B5, !app_assoc. symmetry. apply Permutation_middle.
  - by apply reliable_close.
Qed.
End Base.

(** ** A call is opened and closed *)

Lemma sbind_done {S A B} (m : st S A) (k : A -> st S B) (s s' : S) (a : A) :
  m s = Done (a, s') -> sbind m k s = k a s'.
Proof. unfold sbind. by intros ->. Qed.

Lemma sbind_undef {S A B} (m : st S A) (k : A -> st S B) (s : S) : m s = Undef -> sbind m k s = Undef.
Proof. unfold sbind. by intros ->. Qed.

(** A configuration that the sizes of the buffers are made for. *)
Record good_cfg (c : pcm_config) : Prop := {
  gc_rate : 8000 <= c.(rate) <= 192000;
  gc_period : 0 <= c.(period_size) <= 9600;
  gc_channels : 0 <= c.(channels) <= 16
}.

Section Cycle.
Context {M : Type} `{HM : MixerLaws M} `{HA : Alloc} {W : Type} `{HW : PcmSystemLaws W} `{HR : !ReliableCapture W}
  {N : Type} `{Rpmsg N} {R : Type}.
Context (cb_calloc : bool) (cb_malloc : Z -> option (list Z)) (p : platform) (rproc_mp : bool)
  (sample_size : Z -> option Z) (create_resampler : Z -> Z -> Z -> Z * option R) (rs_reset : R -> R)
  (malloc : Z -> option (list Z)).

(** There is a main card, the audio hub is not used, the description keeps
    configurations good, devices open, resamplers and memory can be had. *)
Context (card_there : 0 <= main_card p) (no_ahub : p.(misc).(ahub_en) = false)
  (info_good : forall addr cfg, good_cfg cfg -> exists ret place cfg',
     sd_platform_get_card_info p addr cfg = Done (ret, place, cfg') /\ good_cfg cfg')
  (opens : forall card port flags cfg (w : W), reliable w -> exists h w',
     pcm_open_prepare_helper card port flags PROXY_OPEN_RETRY_COUNT cfg w = (Some h, w')
     /\ pcm_is_ready h w' = true)
  (resampled : forall i o c, (create_resampler i o c).1 = 0)
  (memory : forall n, is_Some (malloc n))
  (samples_small : forall f b, sample_size f = Some b -> 0 <= b <= 4).

Abbreviation bstate := (call_hal R M W N).
Abbreviation bdata := (btcall_data R).

(** The state with its four directions. *)
Definition mk (ic : Z) (mm : bool) (a b c d : bdata) (t : btcall_thread_data) (f : cfg_name -> pcm_config)
    (h : hal M W) (r : remote N) : bstate :=
  {| bt_data := [Some a; Some b; Some c; Some d]; bt_thread_data := Some t; cfgs := f; base := h;
     rem := r; in_call := ic; mic_mute := mm |}.

Definition good_cfgs (f : cfg_name -> pcm_config) : Prop := forall n, good_cfg (f n).

Lemma good_update (f : cfg_name -> pcm_config) (n : cfg_name) (c : pcm_config) :
  good_cfgs f -> good_cfg c -> good_cfgs (fun m => if decide (m = n) then c else f m).
Proof using. intros G C m. case_decide; auto. Qed.

Lemma card_not_negative : (main_card p <? 0) = false.
Proof using card_there. by apply Z.ltb_ge. Qed.

Abbreviation put r e s := (set_bt_data (<[rt_index r := Some e]> s.(bt_data)) s).

Lemma get_run (r : btcall_rt) (e : bdata) (s : bstate) :
  s.(bt_data) !! rt_index r = Some (Some e) -> bt_get r s = Done (e, s).
Proof using. intros E. unfold bt_get, sbind, sget. cbn [obind]. by rewrite E. Qed.

Lemma on_base_run {A} (op : @halm M W A) (s : bstate) (a : A) (h : hal M W) :
  op s.(base) = Done (a, h) -> on_base op s = Done (a, set_base h s).
Proof using. unfold on_base. by intros ->. Qed.

(** The description changes where a direction is, and the configurations. *)
Lemma card_info_run (r : btcall_rt) (addr : string) (s : bstate) (e : bdata) (n : cfg_name) :
  s.(bt_data) !! rt_index r = Some (Some e) -> e.(d_config) = Some n -> good_cfgs s.(cfgs) ->
  exists cd pt f', apply_card_info p r addr s = Done (tt, set_cfgs f' (put r (set_d_place cd pt e) s))
    /\ good_cfgs f'.
Proof using info_good.
  intros E C G. unfold apply_card_info. rewrite (sbind_done _ _ _ _ _ (get_run r e s E)), C.
  unfold sbind, sget, slift. cbn [obind].
  destruct (info_good addr (s.(cfgs) n) (G n)) as (ret & place & cfg' & -> & G'). cbn [obind].
  destruct place as [[cd pt]|].
  - exists cd, pt. eexists. split; [reflexivity|]. by apply good_update.
  - exists e.(d_card), e.(d_port), s.(cfgs). split; [|done]. unfold sret.
    replace (set_d_place e.(d_card) e.(d_port) e) with e by (by destruct e).
    rewrite list_insert_id by done. by destruct s.
Qed.

(** The device of a direction opens. *)
Lemma open_device_run (r : btcall_rt) (flags : Z) (s : bstate) (e : bdata) (n m : nat -> Z) (x : list Z)
    (cn : cfg_name) :
  s.(bt_data) !! rt_index r = Some (Some e) -> e.(d_pcm) = None -> e.(d_config) = Some cn ->
  base_ok n m x s.(base) ->
  exists dv h', open_bt_device r flags s
                = Done (0, put r (set_d_pcm (Some (Device dv)) e) (set_base h' s))
    /\ h'.(out_streams) = s.(base).(out_streams) /\ base_ok n m (dv :: x) h'.
Proof using HM HA HW HR opens.
  intros E P C B. unfold open_bt_device. rewrite (sbind_done _ _ _ _ _ (get_run r e s E)), P.
  unfold bt_config. rewrite C. unfold sbind, sget, sret. cbn [obind].
  destruct (opens e.(d_card) e.(d_port) flags (s.(cfgs) cn) s.(base).(world) (bo_rel _ _ _ _ B))
    as (dv & w' & O & Rd).
  unfold on_devices. rewrite O. cbn [obind base set_base world set_world]. rewrite Rd.
  exists dv, (set_world w' s.(base)). split; [reflexivity|]. split; [done|].
  by eapply base_open_device.
Qed.

Lemma resampler_run (r : btcall_rt) (s : bstate) (e : bdata) :
  s.(bt_data) !! rt_index r = Some (Some e) ->
  exists e', btcall_create_resampler create_resampler rs_reset r s = Done (0, put r e' s)
    /\ exists rs fi, e' = set_d_frames_in fi (set_d_resampler rs e).
Proof using resampled.
  intros E. unfold btcall_create_resampler. rewrite (sbind_done _ _ _ _ _ (get_run r e s E)).
  destruct (d_rsp_in_rate e =? d_rsp_out_rate e).
  - exists e. split; [|by exists e.(d_resampler), e.(d_frames_in); destruct e].
    unfold sret. rewrite list_insert_id by done. by destruct s.
  - pose proof (resampled (d_rsp_in_rate e) (d_rsp_out_rate e) BT_CHANNEL_CNT) as Z0.
    destruct (create_resampler _ _ _) as [ret rs]. cbn in Z0. subst ret. cbn [negb Z.eqb].
    eexists. split; [reflexivity|]. destruct rs as [rs|].
    + by exists (Some (rs_reset rs)), 0.
    + exists None, e.(d_frames_in). by destruct e.
Qed.

(** *** Buffers *)

Lemma frame_size_bounds (c : pcm_config) : good_cfg c -> 0 <= frame_size sample_size c <= 64.
Proof using All.
  intros [_ _ C]. unfold frame_size. destruct (sample_size c.(cfg_format)) as [b|] eqn:E; [|lia].
  pose proof (samples_small _ _ E). nia.
Qed.

Lemma period_bytes_run (r : btcall_rt) (s : bstate) (e : bdata) (cn : cfg_name) :
  s.(bt_data) !! rt_index r = Some (Some e) -> e.(d_config) = Some cn -> good_cfgs s.(cfgs) ->
  exists z, period_bytes16 sample_size r s = Done (z, s) /\ 0 <= z <= 1000000.
Proof using All.
  intros E C G. unfold period_bytes16. rewrite (sbind_done _ _ _ _ _ (get_run r e s E)).
  unfold bt_config. rewrite C. erewrite sbind_done by reflexivity. eexists. split; [reflexivity|].
  destruct (G cn) as [_ [P1 P2] _]. pose proof (frame_size_bounds _ (G cn)) as F.
  assert (0 <= (period_size (s.(cfgs) cn) + 15) / 16 <= 601) as D
    by (split; [apply Z.div_pos; lia|apply Z.div_le_upper_bound; lia]).
  rewrite (u32_small (_ + 15)) by (unfold is_u32, UINT32_MAX; lia). rewrite u32_small by (unfold is_u32, UINT32_MAX; lia).
  set (y := _ / 16) in *. set (q := frame_size _ _) in *.
  assert (0 <= y * 16 * q <= 9616 * 64) by (split; [nia|apply Z.mul_le_mono_nonneg; lia]).
  rewrite s32_small; unfold INT32_MAX; lia.
Qed.

Definition thread_ok (t : btcall_thread_data) : Prop :=
  0 <= t.(buffer_rxsize) <= 1000000 /\ 0 <= t.(buffer_txsize) <= 1000000.

(** A buffer of the thread data: it is there, or it is allocated and
    stored. *)
Lemma ensure_buffer_run (has : btcall_thread_data -> option (list Z)) (size : callm (R := R) Z)
    (store : option (list Z) -> callm (R := R) unit) (s : bstate) (t : btcall_thread_data) (z : Z)
    (f : option (list Z) -> btcall_thread_data) :
  s.(bt_thread_data) = Some t -> thread_ok t -> size s = Done (z, s) ->
  (forall b, store b s = Done (tt, set_bt_thread (Some (f b)) s) /\ thread_ok (f b)) ->
  exists t', ensure_buffer malloc has size store s = Done (0, set_bt_thread (Some t') s) /\ thread_ok t'.
Proof using All.
  intros T Tk Z0 S. unfold ensure_buffer, th_get. unfold sbind at 1, sbind at 1, sget. cbn [obind].
  rewrite T. cbn [obind sret]. destruct (has t) as [x|].
  - exists t. split; [|done]. unfold sret. do 2 f_equal. rewrite <-T. by destruct s.
  - rewrite (sbind_done _ _ _ _ _ Z0). destruct (memory z) as [b ->].
    destruct (S (Some b)) as [E K]. rewrite (sbind_done _ _ _ _ _ E). by exists (f (Some b)).
Qed.

Lemma period_buffer_run (r : btcall_rt) (l : list btcall_rt) (s : bstate) (e : bdata) (cn : cfg_name) :
  s.(bt_data) !! rt_index r = Some (Some e) -> e.(d_config) = Some cn ->
  exists bf, ensure_period_buffers sample_size malloc (r :: l) s
             = ensure_period_buffers sample_size malloc l (put r (set_d_buffer bf e) s).
Proof using All.
  intros E C. cbn [ensure_period_buffers]. rewrite (sbind_done _ _ _ _ _ (get_run r e s E)).
  destruct e.(d_buffer) as [x|] eqn:B.
  - exists (Some x). replace (set_d_buffer (Some x) e) with e by (destruct e; cbn in B; by subst).
    rewrite list_insert_id by done. by destruct s.
  - unfold bt_config. rewrite C. erewrite sbind_done by reflexivity.
    match goal with |- context [malloc ?z] => destruct (memory z) as [b ->] end.
    unfold bt_put. erewrite sbind_done by reflexivity. by exists (Some b).
Qed.

Section Steps.
Context (ic : Z) (mm : bool) (t : btcall_thread_data) (rm : remote N).

(** What stays the same in a direction that is opened. *)
Definition keeps (e e' : bdata) : Prop :=
  e'.(d_in) = e.(d_in) /\ e'.(d_out) = e.(d_out) /\ e'.(d_bt_out) = e.(d_bt_out).

Lemma open_bt_in_run (a b c d : bdata) (f : cfg_name -> pcm_config) (h : hal M W) (n m : nat -> Z)
    (x : list Z) :
  a.(d_pcm) = None -> good_cfgs f -> base_ok n m x h ->
  exists a' f' h' dv,
    open_bt_inpcm p create_resampler rs_reset (mk ic mm a b c d t f h rm)
      = Done (0, mk ic mm a' b c d t f' h' rm)
    /\ a'.(d_pcm) = Some (Device dv) /\ a'.(d_config) = Some pcm_config_bt_in
    /\ 8000 <= a'.(d_rsp_in_rate) /\ a'.(d_rsp_out_rate) = HIFI_SAMPLING_RATE
    /\ good_cfgs f' /\ base_ok n m (dv :: x) h'.
Proof using All.
  intros P G B. unfold open_bt_inpcm. unfold bt_upd at 1, bt_put at 1.
  erewrite sbind_done by reflexivity. unfold bt_upd at 1, bt_put at 1.
  erewrite sbind_done by reflexivity. rewrite card_not_negative. unfold bt_upd at 1, bt_put at 1.
  erewrite sbind_done by reflexivity. cbn [bt_data set_bt_data rt_index insert list_insert].
  match goal with |- context [sbind _ _ ?s0] => set (s := s0) end.
  destruct (card_info_run BTCALL_BT_INPUT BT_CALL_HFP_IN_NAME s _ pcm_config_bt_in eq_refl eq_refl G)
    as (cd & pt & f' & E1 & G').
  rewrite (sbind_done _ _ _ _ _ E1). clear E1. set (s1 := set_cfgs f' _).
  destruct (open_device_run BTCALL_BT_INPUT PCM_IN s1 _ n m x pcm_config_bt_in eq_refl P eq_refl B)
    as (dv & h' & E2 & _ & B').
  rewrite (sbind_done _ _ _ _ _ E2). clear E2. cbn [negb Z.eqb].
  unfold bt_put at 1, bt_config. erewrite sbind_done by reflexivity. cbn [d_config set_d_pcm set_d_place set_d_config].
  erewrite sbind_done by reflexivity. erewrite sbind_done by reflexivity. rewrite no_ahub.
  match goal with |- context [sbind _ _ ?s0] => set (s2 := s0) end.
  edestruct (resampler_run BTCALL_BT_INPUT s2) as (e' & E3 & rs & fi & ->); [reflexivity|].
  rewrite (sbind_done _ _ _ _ _ E3). cbn [Z.eqb].
  eexists _, f', h', dv. split; [reflexivity|]. cbn. split_and!; try done. apply (gc_rate _ (G' _)).
Qed.

Lemma private_out_done (o : alsa_stream_out) : exists o', private_out o = Done o' /\ o'.(o_bus_num) = 2.
Proof using. eexists. split; reflexivity. Qed.

Lemma open_codec_out_run (a b c d : bdata) (f : cfg_name -> pcm_config) (h : hal M W) (n m : nat -> Z)
    (x : list Z) (o0 : alsa_stream_out) :
  d.(d_pcm) = None -> d.(d_out) = Some o0 -> base_ok n m x h -> (forall k, 0 <= n k < INT32_MAX) ->
  exists d' h' k o',
    open_codec_outpcm cb_calloc cb_malloc p true true (mk ic mm a b c d t f h rm)
      = Done (0, mk ic mm a b c d' t f h' rm)
    /\ d'.(d_pcm) = Some (Streamed k) /\ d'.(d_config) = Some cfg_main /\ d'.(d_out) = Some o0
    /\ d'.(d_bt_out) = Some o' /\ o'.(o_pcm_hdl) = Some k /\ o'.(o_bus_num) = 2
    /\ is_Some (h'.(out_streams) !! k) /\ base_ok (add_at k 1 n) m x h'.
Proof using All.
  intros P O B Nn. unfold open_codec_outpcm. rewrite no_ahub, card_not_negative.
  do 3 (unfold bt_upd at 1, bt_put at 1; erewrite sbind_done by reflexivity).
  cbn [bt_data set_bt_data rt_index insert list_insert]. erewrite sbind_done by reflexivity.
  cbn [d_pcm d_bt_out d_out set_d_place set_d_config]. rewrite P, O.
  destruct (private_out_done o0) as (op & Ep & En).
  assert (forall X : callm (R := R) (M := M) (W := W) (N := N) Z,
            match d.(d_bt_out) with Some _ => X | None => X end = X) as -> by (by destruct d.(d_bt_out)).
  unfold slift. rewrite Ep. cbn [obind]. erewrite sbind_done by reflexivity.
  unfold bt_put at 1. erewrite sbind_done by reflexivity. erewrite sbind_done by reflexivity.
  unfold bt_config. cbn [d_config set_d_bt_out set_d_place set_d_config]. erewrite sbind_done by reflexivity.
  destruct (opens (main_card p) PORT_CODEC PCM_OUT (f cfg_main) h.(world) (bo_rel _ _ _ _ B))
    as (dv & w' & Op & _).
  destruct (base_open_out cb_calloc cb_malloc n m x h op (main_card p) PORT_CODEC (f cfg_main) B Nn)
    as (k & o' & h' & E & (S1 & S2 & S3) & L & B' & _); [lia|by rewrite Op|].
  erewrite sbind_done; [|apply on_base_run; exact E].
  eexists _, h', k, _. split; [reflexivity|]. cbn. split_and!; try done. cbn. congruence.
Qed.

Lemma open_codec_in_run (a b c d : bdata) (f : cfg_name -> pcm_config) (h : hal M W) (n m : nat -> Z)
    (x : list Z) :
  c.(d_in) = None -> base_ok n m x h -> 0 <= m 0%nat < INT32_MAX ->
  exists c' h' i,
    open_codec_inpcm cb_calloc cb_malloc p create_resampler rs_reset true true (mk ic mm a b c d t f h rm)
      = Done (0, mk ic mm a b c' d t f h' rm)
    /\ c'.(d_pcm) = c.(d_pcm) /\ c'.(d_config) = Some pcm_main_cap_codec_in
    /\ c'.(d_in) = Some i /\ i.(i_pcm_hdl) = Some 0%nat
    /\ h'.(out_streams) = h.(out_streams) /\ base_ok n (add_at 0 1 m) x h'.
Proof using All.
  intros I B Nn. unfold open_codec_inpcm. rewrite no_ahub, card_not_negative.
  do 3 (unfold bt_upd at 1, bt_put at 1; erewrite sbind_done by reflexivity).
  cbn [bt_data set_bt_data rt_index insert list_insert]. erewrite sbind_done by reflexivity.
  cbn [d_in set_d_place set_d_config]. rewrite I.
  destruct (base_open_in cb_calloc cb_malloc n m x h private_in (main_card p) PORT_CODEC_IN (f cfg_main_cap) B Nn)
    as (h' & E & Eo & B').
  erewrite sbind_done; cycle 1.
  { erewrite sbind_done by reflexivity. erewrite sbind_done; [|apply on_base_run; exact E].
    unfold bt_put. erewrite sbind_done by reflexivity. reflexivity. }
  cbn [is_none negb Z.eqb]. erewrite sbind_done by reflexivity. unfold bt_config at 1.
  cbn [d_config set_d_in set_d_place set_d_config]. erewrite sbind_done by reflexivity.
  erewrite sbind_done by reflexivity. unfold bt_put at 1. erewrite sbind_done by reflexivity.
  match goal with |- context [sbind _ _ ?s0] => set (s2 := s0) end.
  edestruct (resampler_run BTCALL_CODEC_INPUT s2) as (e' & E3 & rs & fi & ->); [reflexivity|].
  rewrite (sbind_done _ _ _ _ _ E3). cbn [Z.eqb].
  eexists _, h', _. split; [reflexivity|]. cbn. by split_and!.
Qed.

Lemma open_bt_out_run (a b c d : bdata) (f : cfg_name -> pcm_config) (h : hal M W) (n m : nat -> Z)
    (x : list Z) :
  b.(d_pcm) = None -> good_cfgs f -> base_ok n m x h ->
  exists b' f' h' dv,
    open_bt_outpcm p (mk ic mm a b c d t f h rm) = Done (0, mk ic mm a b' c d t f' h' rm)
    /\ b'.(d_pcm) = Some (Device dv) /\ b'.(d_config) = Some pcm_config_bt_out
    /\ h'.(out_streams) = h.(out_streams) /\ good_cfgs f' /\ base_ok n m (dv :: x) h'.
Proof using All.
  intros P G B. unfold open_bt_outpcm. rewrite card_not_negative.
  do 2 (unfold bt_upd at 1, bt_put at 1; erewrite sbind_done by reflexivity).
  cbn [bt_data set_bt_data rt_index insert list_insert].
  match goal with |- context [sbind _ _ ?s0] => set (s := s0) end.
  destruct (card_info_run BTCALL_BT_OUTPUT BT_CALL_HFP_OUT_NAME s _ pcm_config_bt_out eq_refl eq_refl G)
    as (cd & pt & f' & E1 & G').
  rewrite (sbind_done _ _ _ _ _ E1). clear E1. set (s1 := set_cfgs f' _).
  destruct (open_device_run BTCALL_BT_OUTPUT PCM_OUT s1 _ n m x pcm_config_bt_out eq_refl P eq_refl B)
    as (dv & h' & E2 & Eo & B').
  rewrite E2. eexists _, f', h', dv. split; [reflexivity|]. cbn. by split_and!.
Qed.
End Steps.

Lemma or_return_done (step : callm (R := R) (M := M) (W := W) (N := N) Z) (fail : Z -> Z) (rest : callm Z)
    (s s' : bstate) :
  step s = Done (0, s') -> or_return step fail rest s = rest s'.
Proof using. intros E. unfold or_return. by rewrite (sbind_done _ _ _ _ _ E). Qed.

Lemma i32_size (z : Z) (s : bstate) : 0 <= z <= 100000000 -> slift (i32 z) s = Done (z, s).
Proof using All. intros B. unfold slift. by rewrite i32_done by (unfold is_i32, INT32_MIN, INT32_MAX; lia). Qed.

(** Only buffers change. *)
Definition same_dir (e e' : bdata) : Prop := exists bf, e' = set_d_buffer bf e.

Lemma period_buffers_run (ic : Z) (mm : bool) (a b c d : bdata) (t : btcall_thread_data)
    (f : cfg_name -> pcm_config) (h : hal M W) (rm : remote N) :
  is_Some a.(d_config) -> is_Some b.(d_config) -> is_Some c.(d_config) -> is_Some d.(d_config) ->
  exists a' b' c' d',
    ensure_period_buffers sample_size malloc directions (mk ic mm a b c d t f h rm)
      = Done (0, mk ic mm a' b' c' d' t f h rm)
    /\ same_dir a a' /\ same_dir b b' /\ same_dir c c' /\ same_dir d d'.
Proof using All.
  intros [na Ca] [nb Cb] [nc Cc] [nd Cd].
  unfold directions.
  destruct (period_buffer_run BTCALL_BT_INPUT [BTCALL_BT_OUTPUT; BTCALL_CODEC_INPUT; BTCALL_CODEC_OUTPUT]
    (mk ic mm a b c d t f h rm) a na eq_refl Ca) as [ba ->].
  destruct (period_buffer_run BTCALL_BT_OUTPUT [BTCALL_CODEC_INPUT; BTCALL_CODEC_OUTPUT]
    (mk ic mm (set_d_buffer ba a) b c d t f h rm) b nb eq_refl Cb) as [bb Eb].
  destruct (period_buffer_run BTCALL_CODEC_INPUT [BTCALL_CODEC_OUTPUT]
    (mk ic mm (set_d_buffer ba a) (set_d_buffer bb b) c d t f h rm) c nc eq_refl Cc) as [bc Ec].
  destruct (period_buffer_run BTCALL_CODEC_OUTPUT []
    (mk ic mm (set_d_buffer ba a) (set_d_buffer bb b) (set_d_buffer bc c) d t f h rm) d nd eq_refl Cd) as [bd Ed].
  exists (set_d_buffer ba a), (set_d_buffer bb b), (set_d_buffer bc c), (set_d_buffer bd d).
  split; [exact (eq_trans Eb (eq_trans Ec Ed))|]. by split_and!; try eexists.
Qed.

Lemma alloc_buffers_run (ic : Z) (mm : bool) (a b c d : bdata) (t : btcall_thread_data)
    (f : cfg_name -> pcm_config) (h : hal M W) (rm : remote N) :
  good_cfgs f -> thread_ok t -> is_Some a.(d_config) -> is_Some b.(d_config) -> is_Some c.(d_config) ->
  is_Some d.(d_config) -> 8000 <= a.(d_rsp_in_rate) -> a.(d_rsp_out_rate) = HIFI_SAMPLING_RATE ->
  exists a' b' c' d' t',
    alloc_buffers sample_size malloc (mk ic mm a b c d t f h rm) = Done (0, mk ic mm a' b' c' d' t' f h rm)
    /\ same_dir a a' /\ same_dir b b' /\ same_dir c c' /\ same_dir d d' /\ thread_ok t'.
Proof using All.
  intros G T [na Ca] [nb Cb] [nc Cc] [nd Cd] Ri Ro. unfold alloc_buffers.
  destruct (period_bytes_run BTCALL_BT_INPUT (mk ic mm a b c d t f h rm) a na eq_refl Ca G) as (z & Ez & Bz).
  destruct (ensure_buffer_run buffer_rx
     (do! n := period_bytes16 sample_size BTCALL_BT_INPUT in do! m := rx_multiple in slift (i32 (n * m)))
     (fun b => do! n := period_bytes16 sample_size BTCALL_BT_INPUT in th_upd (set_buffer_rx b n))
     (mk ic mm a b c d t f h rm) t (z * (HIFI_SAMPLING_RATE / a.(d_rsp_in_rate)))
     (fun b => set_buffer_rx b z t)) as (t1 & E1 & T1); [done|done| | |].
  { rewrite (sbind_done _ _ _ _ _ Ez). unfold rx_multiple. erewrite sbind_done; cycle 1.
    { erewrite sbind_done by reflexivity. rewrite (proj2 (Z.eqb_neq _ 0)) by lia. reflexivity. }
    rewrite Ro. apply i32_size. unfold HIFI_SAMPLING_RATE.
    assert (0 <= 48000 / a.(d_rsp_in_rate) <= 6)
      by (split; [apply Z.div_pos; lia|apply Z.div_le_upper_bound; lia]). nia. }
  { intros bf. rewrite (sbind_done _ _ _ _ _ Ez). destruct T as [T1 T2]. split; [reflexivity|]. by split. }
  rewrite (or_return_done _ _ _ _ _ E1). clear E1. change (set_bt_thread _ _) with (mk ic mm a b c d t1 f h rm).
  destruct (period_bytes_run BTCALL_CODEC_INPUT (mk ic mm a b c d t1 f h rm) c nc eq_refl Cc G) as (y & Ey & By).
  destruct (ensure_buffer_run buffer_tx (period_bytes16 sample_size BTCALL_CODEC_INPUT)
     (fun b => do! n := period_bytes16 sample_size BTCALL_CODEC_INPUT in th_upd (set_buffer_tx b n))
     (mk ic mm a b c d t1 f h rm) t1 y (fun b => set_buffer_tx b y t1)) as (t2 & E2 & T2); [done|done|done| |].
  { intros bf. rewrite (sbind_done _ _ _ _ _ Ey). destruct T1 as [T1 T2]. split; [reflexivity|]. by split. }
  rewrite (or_return_done _ _ _ _ _ E2). clear E2. change (set_bt_thread _ _) with (mk ic mm a b c d t2 f h rm).
  destruct (ensure_buffer_run rsp_out_buffer_tx (do! t := th_get in slift (i32 (t.(buffer_txsize) * 8)))
     (fun b => th_upd (set_rsp_out_tx (map (fun _ => 0) <$> b)))
     (mk ic mm a b c d t2 f h rm) t2 (t2.(buffer_txsize) * 8)
     (fun b => set_rsp_out_tx (map (fun _ => 0) <$> b) t2)) as (t3 & E3 & T3); [done|done| |done|].
  { erewrite sbind_done by reflexivity. apply i32_size. destruct T2. lia. }
  rewrite (or_return_done _ _ _ _ _ E3). clear E3. change (set_bt_thread _ _) with (mk ic mm a b c d t3 f h rm).
  destruct (ensure_buffer_run rsp_out_buffer_rx (do! t := th_get in slift (i32 (t.(buffer_rxsize) * 8)))
     (fun b => th_upd (set_rsp_out_rx (map (fun _ => 0) <$> b)))
     (mk ic mm a b c d t3 f h rm) t3 (t3.(buffer_rxsize) * 8)
     (fun b => set_rsp_out_rx (map (fun _ => 0) <$> b) t3)) as (t4 & E4 & T4); [done|done| |done|].
  { erewrite sbind_done by reflexivity. apply i32_size. destruct T3. lia. }
  rewrite (or_return_done _ _ _ _ _ E4). clear E4. change (set_bt_thread _ _) with (mk ic mm a b c d t4 f h rm).
  destruct (period_buffers_run ic mm a b c d t4 f h rm) as (a' & b' & c' & d' & E & Sa & Sb & Sc & Sd);
    [by eexists..|].
  exists a', b', c', d', t4. by split_and!.
Qed.

(** *** The whole call *)

(** No call, and the stream of the phone bus is known. *)
Record call_idle (o0 : alsa_stream_out) (a b c d : bdata) : Prop := {
  ci_in : a.(d_pcm) = None;
  ci_out : b.(d_pcm) = None;
  ci_mic : c.(d_pcm) = None /\ c.(d_in) = None;
  ci_codec : d.(d_pcm) = None;
  ci_bus : d.(d_out) = Some o0
}.

(** A call with the devices [r] and [v] of the Bluetooth chip, and the handle
    [k] of the streamer. *)
Record call_active (o0 : alsa_stream_out) (a b c d : bdata) (r v : Z) (k : nat) : Prop := {
  ca_in : a.(d_pcm) = Some (Device r);
  ca_out : b.(d_pcm) = Some (Device v);
  ca_mic : c.(d_pcm) = None /\ exists i, c.(d_in) = Some i /\ i.(i_pcm_hdl) = Some 0%nat;
  ca_codec : d.(d_pcm) = Some (Streamed k);
  ca_private : exists o, d.(d_bt_out) = Some o /\ o.(o_pcm_hdl) = Some k /\ o.(o_bus_num) = 2;
  ca_bus : d.(d_out) = Some o0
}.

Definition all_there : open_env :=
  {| out_calloc := true; out_thread := true; in_calloc := true; in_thread := true |}.

Lemma ensure_open_none (r : btcall_rt) (op : callm (R := R) (M := M) (W := W) (N := N) Z) (s : bstate) (e : bdata) :
  s.(bt_data) !! rt_index r = Some (Some e) -> e.(d_pcm) = None -> ensure_open r op s = op s.
Proof using. intros E P. unfold ensure_open. by rewrite (sbind_done _ _ _ _ _ (get_run r e s E)), P. Qed.

Lemma open_run (ic : Z) (mm : bool) (a b c d : bdata) (t : btcall_thread_data) (f : cfg_name -> pcm_config)
    (h : hal M W) (rm : remote N) (o0 : alsa_stream_out) (n m : nat -> Z) (x : list Z) :
  call_idle o0 a b c d -> good_cfgs f -> thread_ok t -> base_ok n m x h ->
  (forall k, 0 <= n k < INT32_MAX) -> 0 <= m 0%nat < INT32_MAX ->
  exists a' b' c' d' t' f' h' r v k,
    btcall_open cb_calloc cb_malloc p sample_size create_resampler rs_reset malloc all_there
      (mk ic mm a b c d t f h rm) = Done (0, mk ic mm a' b' c' d' t' f' h' rm)
    /\ call_active o0 a' b' c' d' r v k /\ good_cfgs f' /\ thread_ok t'
    /\ is_Some (h'.(out_streams) !! k) /\ base_ok (add_at k 1 n) (add_at 0 1 m) (v :: r :: x) h'.
Proof using All.
  intros [I1 I2 [I3 I3'] I4 I5] G T B Nn Nm. unfold btcall_open.
  destruct (open_bt_in_run ic mm t rm a b c d f h n m x I1 G B)
    as (a1 & f1 & h1 & r & E1 & A1 & A2 & A3 & A4 & G1 & B1).
  rewrite <-(ensure_open_none BTCALL_BT_INPUT _ (mk ic mm a b c d t f h rm) a eq_refl I1) in E1.
  rewrite (or_return_done _ _ _ _ _ E1). clear E1.
  destruct (open_codec_out_run ic mm t rm a1 b c d f1 h1 n m (r :: x) o0 I4 I5 B1 Nn)
    as (d2 & h2 & k & o' & E2 & D1 & D2 & D3 & D4 & D5 & D6 & L2 & B2).
  rewrite <-(ensure_open_none BTCALL_CODEC_OUTPUT _ (mk ic mm a1 b c d t f1 h1 rm) d eq_refl I4) in E2.
  rewrite (or_return_done _ _ _ _ _ E2). clear E2.
  destruct (open_codec_in_run ic mm t rm a1 b c d2 f1 h2 _ m (r :: x) I3' B2 Nm)
    as (c3 & h3 & i & E3 & C1 & C2 & C3 & C4 & L3 & B3).
  rewrite <-(ensure_open_none BTCALL_CODEC_INPUT _ (mk ic mm a1 b c d2 t f1 h2 rm) c eq_refl I3) in E3.
  rewrite (or_return_done _ _ _ _ _ E3). clear E3.
  destruct (open_bt_out_run ic mm t rm a1 b c3 d2 f1 h3 _ _ (r :: x) I2 G1 B3)
    as (b4 & f4 & h4 & v & E4 & V1 & V2 & L4 & G4 & B4).
  rewrite <-(ensure_open_none BTCALL_BT_OUTPUT _ (mk ic mm a1 b c3 d2 t f1 h3 rm) b eq_refl I2) in E4.
  rewrite (or_return_done _ _ _ _ _ E4). clear E4.
  destruct (alloc_buffers_run ic mm a1 b4 c3 d2 t f4 h4 rm)
    as (a5 & b5 & c5 & d5 & t5 & E5 & [? ->] & [? ->] & [? ->] & [? ->] & T5); try done.
  eexists _, _, _, _, t5, f4, h4, r, v, k. split; [exact E5|].
  split; [split; cbn; eauto; split; [congruence|eauto]|]. split_and!; try done. by rewrite L4, L3.
Qed.

Lemma devices_run {A} (g : W -> A * W) (s : bstate) :
  on_devices g s = Done ((g s.(base).(world)).1, set_base (set_world (g s.(base).(world)).2 s.(base)) s).
Proof using. unfold on_devices. by destruct (g _). Qed.

Lemma close_device_run (r : btcall_rt) (s : bstate) (e : bdata) (dv : Z) :
  s.(bt_data) !! rt_index r = Some (Some e) -> e.(d_pcm) = Some (Device dv) ->
  close_bt_device r s
  = Done (tt, put r (set_d_pcm None e) (set_base (set_world (pcm_close dv s.(base).(world)).2 s.(base)) s)).
Proof using.
  intros E P. unfold close_bt_device. rewrite (sbind_done _ _ _ _ _ (get_run r e s E)), P.
  rewrite (sbind_done _ _ _ _ _ (devices_run _ _)). unfold bt_upd.
  by erewrite sbind_done by (apply get_run; exact E).
Qed.

Lemma when_open_some (r : btcall_rt) (cl : callm (R := R) (M := M) (W := W) (N := N) unit) (s : bstate)
    (e : bdata) (dv : bt_dev) :
  s.(bt_data) !! rt_index r = Some (Some e) -> e.(d_pcm) = Some dv -> when_open r cl s = cl s.
Proof using. intros E P. unfold when_open. by rewrite (sbind_done _ _ _ _ _ (get_run r e s E)), P. Qed.

Section CloseSteps.
Context (ic : Z) (mm : bool) (t : btcall_thread_data) (f : cfg_name -> pcm_config) (rm : remote N).

Lemma close_bt_in_run (a b c d : bdata) (h : hal M W) (n m : nat -> Z) (x : list Z) (r : Z) :
  a.(d_pcm) = Some (Device r) -> base_ok n m (r :: x) h ->
  exists h', when_open BTCALL_BT_INPUT close_bt_inpcm (mk ic mm a b c d t f h rm)
      = Done (tt, mk ic mm (set_d_pcm None (set_d_resampler None a)) b c d t f h' rm)
    /\ h'.(out_streams) = h.(out_streams) /\ base_ok n m x h'.
Proof using All.
  intros P B. erewrite when_open_some; [|reflexivity|exact P]. unfold close_bt_inpcm.
  erewrite sbind_done by reflexivity. cbn [mk bt_data rt_index lookup list_lookup].
  unfold release_resampler, bt_upd, bt_put. erewrite sbind_done by reflexivity.
  erewrite close_device_run; [|reflexivity|exact P]. eexists. split; [reflexivity|]. split; [done|].
  by apply base_close_device.
Qed.

Lemma close_bt_out_run (a b c d : bdata) (h : hal M W) (n m : nat -> Z) (x : list Z) (v : Z) :
  b.(d_pcm) = Some (Device v) -> base_ok n m (v :: x) h ->
  exists h', when_open BTCALL_BT_OUTPUT close_bt_outpcm (mk ic mm a b c d t f h rm)
      = Done (tt, mk ic mm a (set_d_pcm None (set_d_resampler None b)) c d t f h' rm)
    /\ base_ok n m x h'.
Proof using All.
  intros P B. erewrite when_open_some; [|reflexivity|exact P]. unfold close_bt_outpcm.
  erewrite sbind_done by reflexivity. cbn [mk bt_data rt_index lookup list_lookup].
  unfold release_resampler, bt_upd, bt_put. erewrite sbind_done by reflexivity.
  erewrite close_device_run; [|reflexivity|exact P]. eexists. split; [reflexivity|].
  by apply base_close_device.
Qed.

Lemma close_codec_out_run (a b c d : bdata) (h : hal M W) (n m : nat -> Z) (x : list Z) (k : nat) (slot0 : Z) :
  d.(d_pcm) = Some (Streamed k) ->
  (exists o, d.(d_bt_out) = Some o /\ o.(o_pcm_hdl) = Some k /\ o.(o_bus_num) = 2) ->
  is_Some (h.(out_streams) !! k) -> 0 < n k <= INT32_MAX -> 0 <= slot0 <= 7 -> base_ok n m x h ->
  exists h', when_open BTCALL_CODEC_OUTPUT (close_codec_outpcm true slot0) (mk ic mm a b c d t f h rm)
      = Done (tt, mk ic mm a b c (set_d_bt_out None (set_d_pcm None (set_d_resampler None d))) t f h' rm)
    /\ base_ok (add_at k (-1) n) m x h'.
Proof using All.
  intros P (o & Po & Pk & Pb) L Nk S B. erewrite when_open_some; [|reflexivity|exact P].
  destruct (base_close_out n m x h o k slot0 B Pk L Nk ltac:(lia) S) as (rr & h' & E & B' & _).
  unfold close_codec_outpcm. erewrite sbind_done by reflexivity. cbn [mk bt_data rt_index lookup list_lookup].
  unfold release_resampler, bt_upd, bt_put. erewrite sbind_done by reflexivity.
  erewrite sbind_done by reflexivity. cbn [d_bt_out set_d_resampler]. rewrite Po, Pk.
  erewrite sbind_done; [|apply on_base_run; exact E]. erewrite sbind_done by reflexivity.
  eexists. split; [reflexivity|]. done.
Qed.

Lemma close_codec_in_run (a b c d : bdata) (h : hal M W) (n m : nat -> Z) (x : list Z) (i : alsa_stream_in) :
  c.(d_pcm) = None -> c.(d_in) = Some i -> i.(i_pcm_hdl) = Some 0%nat -> 0 < m 0%nat <= INT32_MAX ->
  base_ok n m x h ->
  exists h', close_codec_inpcm true (mk ic mm a b c d t f h rm)
      = Done (tt, mk ic mm a b (set_d_in None (set_d_resampler None c)) d t f h' rm)
    /\ base_ok n (add_at 0 (-1) m) x h'.
Proof using All.
  intros P Pi Ph Nm B. destruct (base_close_in n m x h i B Ph Nm) as (rr & h' & E & _ & B').
  unfold close_codec_inpcm. erewrite sbind_done by reflexivity. cbn [mk bt_data rt_index lookup list_lookup].
  unfold release_resampler, close_bt_device, bt_upd, bt_put. erewrite sbind_done by reflexivity.
  erewrite sbind_done; cycle 1.
  { erewrite sbind_done by reflexivity. cbn [d_pcm set_d_resampler]. rewrite P. reflexivity. }
  erewrite sbind_done by reflexivity. cbn [d_in set_d_resampler]. rewrite Pi, Ph.
  erewrite sbind_done; [|apply on_base_run; exact E]. erewrite sbind_done by reflexivity.
  eexists. split; [reflexivity|]. done.
Qed.
End CloseSteps.

Lemma drop_buffers_run (ic : Z) (mm : bool) (a b c d : bdata) (t : btcall_thread_data)
    (f : cfg_name -> pcm_config) (h : hal M W) (rm : remote N) :
  drop_period_buffers directions (mk ic mm a b c d t f h rm)
  = Done (tt, mk ic mm (set_d_buffer None a) (set_d_buffer None b) (set_d_buffer None c) (set_d_buffer None d)
                t f h rm).
Proof using. reflexivity. Qed.

Lemma free_buffers_run (ic : Z) (mm : bool) (a b c d : bdata) (t : btcall_thread_data)
    (f : cfg_name -> pcm_config) (h : hal M W) (rm : remote N) :
  thread_ok t ->
  exists t', free_thread_buffers (mk ic mm a b c d t f h rm) = Done (tt, mk ic mm a b c d t' f h rm) /\ thread_ok t'.
Proof using.
  intros [T1 T2]. unfold free_thread_buffers. erewrite sbind_done by reflexivity.
  destruct t.(buffer_rx), t.(buffer_tx); (eexists; split; [reflexivity|by split]).
Qed.

Lemma close_run (ic : Z) (mm : bool) (a b c d : bdata) (t : btcall_thread_data) (f : cfg_name -> pcm_config)
    (h : hal M W) (rm : remote N) (o0 : alsa_stream_out) (n m : nat -> Z) (x : list Z) (r v : Z) (k : nat)
    (slot0 : Z) :
  call_active o0 a b c d r v k -> thread_ok t -> is_Some (h.(out_streams) !! k) ->
  (forall j, 0 <= n j < INT32_MAX) -> 0 <= m 0%nat < INT32_MAX -> 0 <= slot0 <= 7 ->
  base_ok (add_at k 1 n) (add_at 0 1 m) (v :: r :: x) h ->
  exists a' b' c' d' t' h' rm',
    btcall_close p rproc_mp true slot0 (mk ic mm a b c d t f h rm) = Done (0, mk ic mm a' b' c' d' t' f h' rm')
    /\ call_idle o0 a' b' c' d' /\ thread_ok t' /\ base_ok n m x h'.
Proof using All.
  intros [A1 A2 [A3 (i & A4 & A5)] A6 A7 A8] T L Nn Nm S B. unfold btcall_close.
  apply (base_ok_ext _ _ (add_at k 1 n) (add_at 0 1 m) _ (r :: v :: x)) in B; [|done|done|constructor].
  destruct (close_bt_in_run ic mm t f rm a b c d h _ _ _ r A1 B) as (h1 & E1 & L1 & B1).
  rewrite (sbind_done _ _ _ _ _ E1). clear E1.
  assert (0 < add_at k 1 n k <= INT32_MAX) as Nk.
  { rewrite add_at_this. pose proof (Nn k). lia. }
  destruct (close_codec_out_run ic mm t f rm (set_d_pcm None (set_d_resampler None a)) b c d h1 _ _ _ k slot0
              A6 A7 ltac:(by rewrite L1) Nk S B1) as (h2 & E2 & B2).
  rewrite (sbind_done _ _ _ _ _ E2). clear E2. erewrite sbind_done by reflexivity. rewrite A4, A5.
  destruct (close_codec_in_run ic mm t f rm (set_d_pcm None (set_d_resampler None a)) b c
              (set_d_bt_out None (set_d_pcm None (set_d_resampler None d))) h2 _ (add_at 0 1 m) _ i A3 A4 A5
              ltac:(rewrite add_at_this; lia) B2) as (h3 & E3 & B3).
  erewrite sbind_done; [|rewrite (sbind_done _ _ _ _ _ E3); unfold bt_upd, bt_put;
                         erewrite sbind_done by reflexivity; reflexivity]. clear E3.
  cbn [mk bt_data set_bt_data rt_index insert list_insert].
  destruct (close_bt_out_run ic mm t f rm (set_d_pcm None (set_d_resampler None a)) b
              (set_d_in None (set_d_in None (set_d_resampler None c)))
              (set_d_bt_out None (set_d_pcm None (set_d_resampler None d))) h3 _ _ _ v A2 B3) as (h4 & E4 & B4).
  erewrite sbind_done; [|exact E4]. clear E4. rewrite no_ahub.
  erewrite sbind_done; [|unfold on_phone; erewrite sbind_done by reflexivity; reflexivity].
  destruct (free_buffers_run ic mm (set_d_pcm None (set_d_resampler None a))
     (set_d_pcm None (set_d_resampler None b)) (set_d_in None (set_d_in None (set_d_resampler None c)))
     (set_d_bt_out None (set_d_pcm None (set_d_resampler None d))) t f h4
     (audio_remote_stop rproc_mp PHONE_PLAYBACK_TO_MAIN_SPK_48K
        (audio_remote_stop rproc_mp PHONE_CAPTURE_FROM_MAIN_MIC_48K rm).2).2 T) as (t' & E5 & T').
  erewrite sbind_done; [|exact E5]. erewrite sbind_done by apply drop_buffers_run.
  eexists _, _, _, _, t', h4, _. split; [reflexivity|]. split; [by split|]. split; [done|].
  eapply base_ok_ext; [exact B4|intros j; apply add_at_back|intros j; apply add_at_back|done].
Qed.

(** *** Start and end *)

Lemma wait_run (l i : nat) (seen : nat -> bool * bool) (ic : Z) (mm : bool) (a b c d : bdata)
    (t : btcall_thread_data) (f : cfg_name -> pcm_config) (h : hal M W) (rm : remote N) :
  thread_ok t ->
  exists t', wait_stopped l i seen (mk ic mm a b c d t f h rm) = Done (tt, mk ic mm a b c d t' f h rm)
    /\ thread_ok t' /\ t'.(start_work_rx) = t.(start_work_rx) /\ t'.(start_work_tx) = t.(start_work_tx).
Proof using.
  revert i t. induction l as [|l IH]; intros i t [T1 T2]; cbn [wait_stopped]; [by exists t|].
  erewrite sbind_done by reflexivity. destruct (negb (seen i).2 && negb (seen i).1).
  - eexists. split; [reflexivity|]. split; [by split|done].
  - apply (IH (S i) (set_running_tx (seen i).2 (set_running_rx (seen i).1 t))). by split.
Qed.

Abbreviation status slot0 := (set_btcall_status cb_calloc cb_malloc p rproc_mp sample_size create_resampler rs_reset
                                malloc all_there true false slot0).

(** A call begins. *)
Lemma call_begins (mm : bool) (a b c d : bdata) (t : btcall_thread_data) (f : cfg_name -> pcm_config)
    (h : hal M W) (rm : remote N) (o0 : alsa_stream_out) (n m : nat -> Z) (x : list Z) (slot0 : Z)
    (seen : nat -> bool * bool) :
  call_idle o0 a b c d -> good_cfgs f -> thread_ok t -> base_ok n m x h ->
  (forall k, 0 <= n k < INT32_MAX) -> 0 <= m 0%nat < INT32_MAX ->
  exists a1 b1 c1 d1 t1 f1 h1 r v k,
    status slot0 seen (mk 1 mm a b c d t f h rm) = Done (tt, mk 1 mm a1 b1 c1 d1 t1 f1 h1 rm)
    /\ call_active o0 a1 b1 c1 d1 r v k /\ good_cfgs f1 /\ thread_ok t1
    /\ t1.(start_work_rx) = true /\ t1.(start_work_tx) = true /\ is_Some (h1.(out_streams) !! k)
    /\ base_ok (add_at k 1 n) (add_at 0 1 m) (v :: r :: x) h1.
Proof using All.
  intros I G T B Nn Nm.
  destruct (wait_run 300 0 seen 1 mm a b c d t f h rm T) as (t0 & E0 & T0 & _).
  destruct (open_run 1 mm a b c d t0 f h rm o0 n m x I G T0 B Nn Nm)
    as (a1 & b1 & c1 & d1 & t1 & f1 & h1 & r & v & k & E1 & A1 & G1 & T1 & L1 & B1).
  exists a1, b1, c1, d1, (set_work_tx true false (set_work_rx true false t1)), f1, h1, r, v, k.
  split.
  { unfold set_btcall_status. erewrite sbind_done by reflexivity. cbn [mk bt_data bt_thread_data in_call].
    change (negb (forallb _ directions)) with false. cbn [Z.eqb Pos.eqb].
    erewrite sbind_done; [|exact E0]. erewrite sbind_done; [|exact E1]. cbn [negb Z.eqb].
    erewrite sbind_done by reflexivity. reflexivity. }
  by split_and!.
Qed.

(** A call ends. *)
Lemma call_ends (mm : bool) (a b c d : bdata) (t : btcall_thread_data) (f : cfg_name -> pcm_config)
    (h : hal M W) (rm : remote N) (o0 : alsa_stream_out) (n m : nat -> Z) (x : list Z) (slot0 r v : Z) (k : nat)
    (seen : nat -> bool * bool) :
  call_active o0 a b c d r v k -> thread_ok t -> is_Some (h.(out_streams) !! k) ->
  (forall k, 0 <= n k < INT32_MAX) -> 0 <= m 0%nat < INT32_MAX -> 0 <= slot0 <= 7 ->
  base_ok (add_at k 1 n) (add_at 0 1 m) (v :: r :: x) h ->
  exists a2 b2 c2 d2 t2 h2 rm2,
    status slot0 seen (mk 0 mm a b c d t f h rm) = Done (tt, mk 0 mm a2 b2 c2 d2 t2 f h2 rm2)
    /\ call_idle o0 a2 b2 c2 d2 /\ thread_ok t2 /\ base_ok n m x h2.
Proof using All.
  intros A T L Nn Nm S0 B.
  assert (thread_ok (set_work_tx false false (set_work_rx false false t))) as Tw by (by destruct T).
  destruct (wait_run 300 0 seen 0 mm a b c d _ f h rm Tw) as (t2 & E2 & T2 & _).
  destruct (close_run 0 mm a b c d t2 f h rm o0 n m x r v k slot0 A T2 L Nn Nm S0 B)
    as (a3 & b3 & c3 & d3 & t3 & h3 & rm3 & E3 & I3 & T3 & B3).
  exists a3, b3, c3, d3, t3, h3, rm3. split; [|by split_and!].
  unfold set_btcall_status. erewrite sbind_done by reflexivity. cbn [mk bt_data bt_thread_data in_call].
  change (negb (forallb _ directions)) with false. cbn [Z.eqb].
  erewrite sbind_done by reflexivity. erewrite sbind_done by reflexivity.
  erewrite sbind_done; [|exact E2]. by erewrite sbind_done; [|exact E3].
Qed.

(** From a state without a call, the start of a call opens the two devices
    of the Bluetooth chip and one more playback and one more capture stream of
    the streamer, and lets both threads work; its end closes exactly these,
    whatever other streams are using the cards. *)
Theorem bt_call_balanced (mm : bool) (a b c d : bdata) (t : btcall_thread_data) (f : cfg_name -> pcm_config)
    (h : hal M W) (rm : remote N) (o0 : alsa_stream_out) (n m : nat -> Z) (x : list Z) (slot0 : Z)
    (seen seen' : nat -> bool * bool) :
  call_idle o0 a b c d -> good_cfgs f -> thread_ok t -> base_ok n m x h ->
  (forall k, 0 <= n k < INT32_MAX) -> 0 <= m 0%nat < INT32_MAX -> 0 <= slot0 <= 7 ->
  exists a1 b1 c1 d1 t1 f1 h1 r v k,
    status slot0 seen (mk 1 mm a b c d t f h rm) = Done (tt, mk 1 mm a1 b1 c1 d1 t1 f1 h1 rm)
    /\ call_active o0 a1 b1 c1 d1 r v k /\ t1.(start_work_rx) = true /\ t1.(start_work_tx) = true
    /\ base_ok (add_at k 1 n) (add_at 0 1 m) (v :: r :: x) h1
    /\ exists a2 b2 c2 d2 t2 h2 rm2,
        status slot0 seen' (mk 0 mm a1 b1 c1 d1 t1 f1 h1 rm) = Done (tt, mk 0 mm a2 b2 c2 d2 t2 f1 h2 rm2)
        /\ call_idle o0 a2 b2 c2 d2 /\ good_cfgs f1 /\ thread_ok t2 /\ base_ok n m x h2.
Proof using All.
  intros I G T B Nn Nm S0.
  destruct (call_begins mm a b c d t f h rm o0 n m x slot0 seen I G T B Nn Nm)
    as (a1 & b1 & c1 & d1 & t1 & f1 & h1 & r & v & k & E1 & A1 & G1 & T1 & W1 & W2 & L1 & B1).
  destruct (call_ends mm a1 b1 c1 d1 t1 f1 h1 rm o0 n m x slot0 r v k seen' A1 T1 L1 Nn Nm S0 B1)
    as (a2 & b2 & c2 & d2 & t2 & h2 & rm2 & E2 & I2 & T2 & B2).
  exists a1, b1, c1, d1, t1, f1, h1, r, v, k. split_and!; try done.
  exists a2, b2, c2, d2, t2, h2, rm2. by split_and!.
Qed.
End Cycle.

(** ** A call that can not be opened *)

Section Failure.
Context {M : Type} `{MixerOps M} `{Alloc} {W : Type} `{PcmSystem W} {N : Type} `{Rpmsg N} {R : Type}.
Context (cb_calloc : bool) (cb_malloc : Z -> option (list Z)) (p : platform) (rproc_mp : bool)
  (sample_size : Z -> option Z) (create_resampler : Z -> Z -> Z -> Z * option R) (rs_reset : R -> R)
  (malloc : Z -> option (list Z)).

(** When the main card is missing, the start of a call dereferences a
    null pointer: the call is closed again although its microphone was never
    opened, and the same happens at the end of a call that did not start. *)
Theorem bt_call_without_card_crashes (ic : Z) (mm : bool) (a b c d : btcall_data R) (t : btcall_thread_data)
    (f : cfg_name -> pcm_config) (h : hal M W) (rm : remote N) (o0 : alsa_stream_out) (e : open_env)
    (exits : bool) (slot0 : Z) (seen : nat -> bool * bool) :
  main_card p < 0 -> call_idle o0 a b c d -> ic = 0 \/ ic = 1 ->
  set_btcall_status cb_calloc cb_malloc p rproc_mp sample_size create_resampler rs_reset malloc
    e exits false slot0 seen (mk ic mm a b c d t f h rm) = Undef.
Proof.
  intros C [I1 I2 [I3 I3'] I4 I5] V. apply Z.ltb_lt in C.
  assert (W1 : forall l i t, exists t', wait_stopped l i seen (mk ic mm a b c d t f h rm)
                                       = Done (tt, mk ic mm a b c d t' f h rm)).
  { clear. induction l as [|l IH]; intros i t; cbn [wait_stopped]; [by exists t|].
    erewrite sbind_done by reflexivity. destruct (negb (seen i).2 && negb (seen i).1); [by eexists|apply IH]. }
  assert (Cl : forall a t, a.(d_pcm) = None ->
                 btcall_close p rproc_mp exits slot0 (mk ic mm a b c d t f h rm) = Undef).
  { intros a' t' P. unfold btcall_close, when_open.
    erewrite sbind_done; [|erewrite sbind_done by reflexivity; rewrite P; reflexivity].
    erewrite sbind_done; [|erewrite sbind_done by reflexivity; rewrite I4; reflexivity].
    erewrite sbind_done by reflexivity. by rewrite I3'. }
  unfold set_btcall_status. erewrite sbind_done by reflexivity. cbn [mk bt_data bt_thread_data in_call].
  change (negb (forallb _ directions)) with false. destruct V as [-> | ->]; cbn [Z.eqb Pos.eqb].
  - erewrite sbind_done by reflexivity. erewrite sbind_done by reflexivity.
    edestruct (W1 300%nat 0%nat) as [t' E]. erewrite sbind_done; [|exact E].
    apply sbind_undef. exact (Cl a t' I1).
  - edestruct (W1 300%nat 0%nat) as [t' E]. erewrite sbind_done; [|exact E].
    erewrite sbind_done; cycle 1.
    { unfold btcall_open, or_return. erewrite sbind_done; cycle 1.
      { erewrite ensure_open_none; [|reflexivity|exact I1]. unfold open_bt_inpcm.
        do 2 (unfold bt_upd at 1, bt_put at 1; erewrite sbind_done by reflexivity). rewrite C. reflexivity. }
      reflexivity. }
    cbn [negb Z.eqb]. apply sbind_undef.
    exact (Cl (set_d_place (main_card p) a.(d_port) (set_d_config pcm_config_bt_in a)) t' I1).
Qed.
End Failure.

(** ** What the resampler gets *)

Section Provider.
Context {M : Type} `{MixerOps M} `{Alloc} {W : Type} `{PcmSystem W} {N : Type} `{Rpmsg N} {R : Type}.
Context (sample_size : Z -> option Z) (others : nat -> @halm M W unit) (r : btcall_rt).
(** A direction with 16-bit samples on the device [h], whose reads succeed. *)
Context (h : Z) (cn : cfg_name) (cfg : pcm_config).
Context (samples_16 : sample_size cfg.(cfg_format) = Some 2) (some_channels : 0 < cfg.(channels))
  (some_frames : 0 < cfg.(period_size))
  (small_period : cfg.(period_size) * (cfg.(channels) * 2) <= INT32_MAX).

Definition period_sz : Z := cfg.(period_size) * (cfg.(channels) * 2).

Context (steady : forall w, (pcm_read h period_sz w).1.1 = 0 /\ zlen (pcm_read h period_sz w).1.2 = period_sz).

Abbreviation pstate := (call_hal R M W N).

(** One round of a reader: it asks for [want] frames and uses at most [take]
    of what it is offered. *)
Definition pull (want take : Z) : callm (R := R) (M := M) (W := W) (N := N) (list Z) :=
  do! (_, cnt, off) := get_next_buffer sample_size others r want in
  match off with
  | None => sret []
  | Some off =>
      do! d := bt_get r in
      match d.(d_buffer) with
      | None => slift Undef
      | Some buf =>
          let used := Z.min take cnt in
          do! bs := slift (mem_read buf off (used * (cfg.(channels) * 2))) in
          do! _ := release_buffer r used in
          sret bs
      end
  end.

Fixpoint pulls (l : list (Z * Z)) : callm (R := R) (M := M) (W := W) (N := N) (list Z) :=
  match l with
  | [] => sret []
  | (want, take) :: l => do! bs := pull want take in do! rest := pulls l in sret (bs ++ rest)
  end.

(** The next [k] periods of the device. *)
Fixpoint periods (k : nat) (w : W) : list Z * W :=
  match k with
  | O => ([], w)
  | S k => let '(_, bs, w) := pcm_read h period_sz w in
           let '(l, w) := periods k w in (bs ++ l, w)
  end.

(** The direction in [s], with the bytes [left] not yet taken from its
    buffer. *)
Definition provides (s : pstate) (left : list Z) : Prop :=
  exists e buf, s.(bt_data) !! rt_index r = Some (Some e) /\ e.(d_pcm) = Some (Device h)
    /\ e.(d_config) = Some cn /\ s.(cfgs) cn = cfg /\ e.(d_buffer) = Some buf
    /\ 0 <= e.(d_frames_in) <= cfg.(period_size) /\ period_sz <= zlen buf
    /\ left = zslice buf ((cfg.(period_size) - e.(d_frames_in)) * (cfg.(channels) * 2))
                (e.(d_frames_in) * (cfg.(channels) * 2)).

Lemma u64_small (z : Z) : 0 <= z <= INT32_MAX -> u64 z = z.
Proof using. intros B. unfold u64, INT32_MAX in *. apply Z.mod_small. lia. Qed.

Lemma sz_value : s32 (cfg.(period_size) * frame_size sample_size cfg) = period_sz.
Proof using All. unfold frame_size. rewrite samples_16. apply s32_small. unfold period_sz in *. nia. Qed.

(** An empty buffer is filled with the next period. *)
Lemma fill_run (s : pstate) (e : btcall_data R) (buf : list Z) :
  s.(bt_data) !! rt_index r = Some (Some e) -> e.(d_pcm) = Some (Device h) -> e.(d_buffer) = Some buf ->
  period_sz <= zlen buf ->
  exists bs w', pcm_read h period_sz s.(base).(world) = (0, bs, w') /\ zlen bs = period_sz
    /\ fill_buffer others r period_sz s
       = Done (tt, set_bt_data (<[rt_index r := Some (set_d_read_status 0
                                    (set_d_buffer (Some (splice buf 0 bs)) e))]> s.(bt_data))
                     (set_base (set_world w' s.(base)) s)).
Proof using All.
  intros E P B L. destruct (steady s.(base).(world)) as [S1 S2].
  destruct (pcm_read h period_sz s.(base).(world)) as [[ret bs] w'] eqn:Rd. cbn in S1, S2. subst ret.
  exists bs, w'. split; [done|]. split; [done|].
  unfold fill_buffer. rewrite (sbind_done _ _ _ _ _ (get_run r e s E)), P, B.
  rewrite (sbind_done _ _ _ _ _ (devices_run _ _)). rewrite Rd. cbn [fst snd].
  unfold slift. rewrite mem_write_done by lia. by erewrite sbind_done by reflexivity.
Qed.

(** The frames that are offered. *)
Lemma next_run (want : Z) (s : pstate) (left : list Z) :
  provides s left -> 0 <= want ->
  exists k st cnt s' e buf,
    get_next_buffer sample_size others r want s
      = Done ((st, cnt, Some ((cfg.(period_size) - e.(d_frames_in)) * (cfg.(channels) * 2))), s')
    /\ s'.(bt_data) !! rt_index r = Some (Some e) /\ e.(d_buffer) = Some buf
    /\ cnt = Z.min want e.(d_frames_in)
    /\ provides s' (left ++ (periods k s.(base).(world)).1)
    /\ s'.(base).(world) = (periods k s.(base).(world)).2.
Proof using All.
  intros (e & buf & E & P & C & Cf & B & F & L & ->) Wt. unfold get_next_buffer.
  rewrite (sbind_done _ _ _ _ _ (get_run r e s E)). unfold bt_config. rewrite C.
  erewrite sbind_done by reflexivity. rewrite Cf, sz_value.
  destruct (d_frames_in e =? 0) eqn:Z0; zbool.
  - destruct (fill_run s e buf E P B L) as (bs & w' & Rd & S2 & Fl).
    set (e1 := set_d_read_status 0 _) in Fl. set (s1 := set_bt_data _ _) in Fl.
    pose proof (lookup_lt_Some _ _ _ E) as Lt.
    assert (s1.(bt_data) !! rt_index r = Some (Some e1)) as E1 by (by apply list_lookup_insert_eq).
    erewrite sbind_done; cycle 1.
    { rewrite (sbind_done _ _ _ _ _ Fl), (sbind_done _ _ _ _ _ (get_run r e1 s1 E1)).
      change (d_read_status e1 =? 0) with true.
      unfold bt_put. erewrite sbind_done by reflexivity. reflexivity. }
    set (e2 := set_d_frames_in cfg.(period_size) e1). set (s2 := set_bt_data _ s1).
    assert (s2.(bt_data) !! rt_index r = Some (Some e2)) as E2.
    { cbn. apply list_lookup_insert_eq. by rewrite length_insert. }
    rewrite (sbind_done _ _ _ _ _ (get_run r e2 s2 E2)).
    exists 1%nat, 0, (Z.min want cfg.(period_size)), s2, e2, (splice buf 0 bs).
    split. { unfold sret. rewrite u64_small by (cbn; lia). do 4 f_equal. cbn. lia. }
    split; [done|]. split; [done|]. split; [done|]. cbn [periods]. rewrite Rd, Z0. cbn [fst snd].
    split; [|done]. exists e2, (splice buf 0 bs). split_and!; try done; cbn; try lia.
    + rewrite (zlen_splice buf 0) by lia. done.
    + rewrite Z.sub_diag, app_nil_r. unfold zslice at 1. cbn. unfold zslice. rewrite drop_0.
      change (cfg.(period_size) * (cfg.(channels) * 2)) with period_sz. rewrite <-S2.
      unfold zlen. rewrite Nat2Z.id. symmetry. by apply take_splice_0.
  - erewrite sbind_done by reflexivity. rewrite (sbind_done _ _ _ _ _ (get_run r e s E)).
    exists 0%nat, e.(d_read_status), (Z.min want e.(d_frames_in)), s, e, buf.
    split. { unfold sret. rewrite u64_small by (unfold period_sz in *; nia). do 4 f_equal. lia. }
    split_and!; try done. cbn [periods fst]. rewrite app_nil_r. exists e, buf. by do 7 (split; [done|]).
Qed.

(** One round takes bytes from the front of what is left and of the
    periods that were read. *)
Lemma pull_run (want take : Z) (s : pstate) (left : list Z) :
  provides s left -> 0 <= want -> 0 <= take ->
  exists k out left' s', pull want take s = Done (out, s') /\ provides s' left'
    /\ out ++ left' = left ++ (periods k s.(base).(world)).1
    /\ s'.(base).(world) = (periods k s.(base).(world)).2.
Proof using All.
  intros Pr Wt Tk. destruct (next_run want s left Pr Wt) as (k & st & cnt & s1 & e & buf & E & E1 & B1 & -> & Pr1 & Ew).
  destruct Pr1 as (e' & buf' & E1' & P & C & Cf & B & F & L & Lf).
  assert (e' = e) as -> by congruence. assert (buf' = buf) as -> by congruence.
  unfold pull. rewrite (sbind_done _ _ _ _ _ E), (sbind_done _ _ _ _ _ (get_run r e s1 E1)), B1.
  set (used := Z.min take (Z.min want e.(d_frames_in))). set (fs := cfg.(channels) * 2) in *.
  assert (0 <= used <= e.(d_frames_in)) as U by (subst used; lia).
  assert (0 < fs) as Fs by (subst fs; lia).
  unfold period_sz in L. fold fs in L.
  unfold slift. rewrite mem_read_done by nia. erewrite sbind_done by reflexivity.
  unfold release_buffer, bt_upd, bt_put. erewrite sbind_done; cycle 1.
  { rewrite (sbind_done _ _ _ _ _ (get_run r e s1 E1)). reflexivity. }
  exists k. eexists _, _, _. split; [reflexivity|]. split; [|split; [|exact Ew]].
  - eexists _, buf. split; [cbn; apply list_lookup_insert_eq; by eapply lookup_lt_Some|].
    assert (u64 (e.(d_frames_in) - used) = e.(d_frames_in) - used) as Eu by (apply u64_small; nia).
    cbn. rewrite Eu. split_and!; try done; lia.
  - rewrite Lf. fold fs. unfold zslice.
    replace (Z.to_nat ((period_size cfg - (d_frames_in e - used)) * fs))
      with (Z.to_nat ((period_size cfg - d_frames_in e) * fs) + Z.to_nat (used * fs))%nat by nia.
    rewrite <-drop_drop. replace (Z.to_nat (d_frames_in e * fs))
      with (Z.to_nat (used * fs) + Z.to_nat ((d_frames_in e - used) * fs))%nat by nia.
    by rewrite take_take_drop.
Qed.

Lemma periods_add (j k : nat) (w : W) :
  periods (j + k) w = ((periods j w).1 ++ (periods k (periods j w).2).1, (periods k (periods j w).2).2).
Proof using.
  revert w. induction j as [|j IH]; intros w; cbn [periods Nat.add fst snd]; [by destruct (periods k w)|].
  destruct (pcm_read h period_sz w) as [[ret bs] w']. rewrite IH.
  destruct (periods j w') as [l w1]. cbn. by rewrite app_assoc.
Qed.

(** C28. Whatever a resampler asks for and uses, round by round, it gets the
    recording of the device without gap or repetition: what it used, followed
    by what is left in the buffer, is what was left at first, followed by the
    periods that were read. *)
Theorem bt_provider_continuous (l : list (Z * Z)) (s : pstate) (left : list Z) :
  provides s left -> Forall (fun q => 0 <= q.1 /\ 0 <= q.2) l ->
  exists k out left' s', pulls l s = Done (out, s') /\ provides s' left'
    /\ out ++ left' = left ++ (periods k s.(base).(world)).1
    /\ s'.(base).(world) = (periods k s.(base).(world)).2.
Proof using All.
  intros Pr F. revert s left Pr. induction F as [|[want take] l [F1 F2] F IH]; intros s left Pr; cbn [pulls].
  - exists 0%nat, [], left, s. split_and!; try done. cbn. by rewrite app_nil_r.
  - destruct (pull_run want take s left Pr F1 F2) as (k1 & o1 & l1 & s1 & E1 & P1 & A1 & W1).
    destruct (IH s1 l1 P1) as (k2 & o2 & l2 & s2 & E2 & P2 & A2 & W2).
    rewrite (sbind_done _ _ _ _ _ E1), (sbind_done _ _ _ _ _ E2).
    exists (k1 + k2)%nat, (o1 ++ o2), l2, s2. rewrite periods_add. cbn [fst snd]. rewrite <-W1.
    split; [done|]. split; [done|]. split; [|exact W2].
    rewrite <-app_assoc, A2, !app_assoc. by rewrite A1.
Qed.
End Provider.

(** ** Examples *)

#[local] Existing Instance alloc_always.

Definition bt_platform (there : bool) : platform :=
  {| dev_manager := if there then [plain_card true 0 AUDIO_NAME_PRIMARY] else []; cards := [];
     info_card_num := 0; misc := no_features; output_maps := []; bt_type := BT_CONNECT_WITH_SOC |}.

Lemma sc_opens_ready (card port flags : Z) (cfg : pcm_config) (w : sound_card) :
  reliable w -> exists h w',
    pcm_open_prepare_helper card port flags PROXY_OPEN_RETRY_COUNT cfg w = (Some h, w')
    /\ pcm_is_ready h w' = true.
Proof.
  intros Rl. unfold pcm_open_prepare_helper.
  destruct (sc_opens (Z.to_nat PROXY_OPEN_RETRY_COUNT) card port flags cfg w Rl) as (h & w' & -> & _).
  by exists h, w'.
Qed.

Definition start_hal : hal Mixer.card sound_card :=
  ss_hal (session_start [("main"%string, [0; 1; 2])]
    {| bus := bus_status_init (replicate 16 0); card_dsp := dsp_static (demo_card true) |} (sc_start []) [] []).

Lemma start_base : base_ok (fun _ => 0) (fun _ => 0) [] start_hal.
Proof.
  edestruct (session_start_ok [("main"%string, [0; 1; 2])]
    {| bus := bus_status_init (replicate 16 0); card_dsp := dsp_static (demo_card true) |} (sc_start []) [] [])
    as [S1 S2 S3 S4 _ _ _ S8 S9 S10 _]; try done.
  - split; [cbn; lia|]. constructor; [|constructor].
    split; [split; [cbn; lia|cbn; intuition discriminate]|cbn; lia].
  - split; [apply init_ok, all_slot_0|apply static_inv, demo_no_byte].
  - constructor.
Qed.

Lemma start_cfgs : good_cfgs call_configs.
Proof. intros []; split; vm_compute; split; discriminate. Qed.

Definition phone_dir : btcall_data unit := set_d_out (Some (media_stream 2)) zero_bt_data.

Lemma bt_call_balanced_witness :
  exists a b c d t f h r v k,
    set_btcall_status true malloc_zero (bt_platform true) false (fun _ => Some 2)
      (fun _ _ _ => (0, Some tt)) id (fun n => Some (replicate (Z.to_nat n) 0)) all_there true false 0
      (fun _ => (false, false))
      (mk 1 false zero_bt_data zero_bt_data zero_bt_data phone_dir zero_thread_data call_configs start_hal
         wire_start)
      = Done (tt, mk 1 false a b c d t f h wire_start)
    /\ a.(d_pcm) = Some (Device r) /\ b.(d_pcm) = Some (Device v) /\ d.(d_pcm) = Some (Streamed k).
Proof.
  destruct (bt_call_balanced (M := Mixer.card) (W := sound_card) (N := wire) true malloc_zero (bt_platform true)
    false (fun _ => Some 2) (fun _ _ _ => (0, Some tt)) id (fun n => Some (replicate (Z.to_nat n) 0))
    ltac:(by vm_compute) eq_refl
    ltac:(intros addr cfg G; exists (-1), None, cfg; by split) sc_opens_ready (fun _ _ _ => eq_refl)
    ltac:(intros n; by eexists) ltac:(intros f b [= <-]; lia)
    false zero_bt_data zero_bt_data zero_bt_data phone_dir zero_thread_data call_configs start_hal wire_start
    (media_stream 2) (fun _ => 0) (fun _ => 0) [] 0 (fun _ => (false, false)) (fun _ => (false, false)))
    as (a & b & c & d & t & f & h & r & v & k & E & [A1 A2 _ A4 _ _] & _).
  - by split.
  - exact start_cfgs.
  - split; cbn; lia.
  - exact start_base.
  - intros k. unfold INT32_MAX. lia.
  - unfold INT32_MAX. lia.
  - lia.
  - exists a, b, c, d, t, f, h, r, v, k. split; [exact E|]. by split_and!.
Defined.

Lemma bt_call_without_card_crashes_witness :
  main_card (bt_platform false) < 0
  /\ set_btcall_status true malloc_zero (bt_platform false) false (fun _ => Some 2)
       (fun _ _ _ => (0, Some tt)) id (fun n => Some (replicate (Z.to_nat n) 0)) all_there true false 0
       (fun _ => (false, false))
       (mk 1 false zero_bt_data zero_bt_data zero_bt_data phone_dir zero_thread_data call_configs start_hal
          wire_start) = Undef.
Proof.
  split; [by vm_compute|].
  apply (bt_call_without_card_crashes true malloc_zero (bt_platform false) false (fun _ => Some 2)
           (fun _ _ _ => (0, Some tt)) id (fun n => Some (replicate (Z.to_nat n) 0))
           1 false zero_bt_data zero_bt_data zero_bt_data phone_dir zero_thread_data call_configs start_hal
           wire_start (media_stream 2)); [by vm_compute|by split|by right].
Defined.

(** A direction with periods of two frames: it is asked for three frames and
    then for one. *)
Definition small_period : pcm_config :=
  {| channels := 2; rate := 16000; period_size := 2; period_count := 6; cfg_format := 0;
     start_threshold := 0; stop_threshold := 0; silence_threshold := 0; silence_size := 0 |}.

Definition small_dir : btcall_data unit :=
  set_d_buffer (Some (replicate 16 0))
    (set_d_pcm (Some (Device 1)) (set_d_config pcm_config_bt_in zero_bt_data)).

Lemma bt_provider_continuous_witness :
  exists k out left s',
    pulls (R := unit) (N := wire) (fun _ => Some 2) (fun _ => sret tt) BTCALL_BT_INPUT small_period
      [(3, 1); (3, 5); (1, 1)]
      (mk 1 false small_dir zero_bt_data zero_bt_data phone_dir zero_thread_data (fun _ => small_period)
         start_hal wire_start) = Done (out, s')
    /\ out ++ left = (periods (W := sound_card) 1 small_period k (sc_start [])).1.
Proof.
  destruct (bt_provider_continuous (R := unit) (N := wire) (M := Mixer.card) (fun _ => Some 2)
    (fun _ => sret tt) BTCALL_BT_INPUT 1 pcm_config_bt_in small_period eq_refl ltac:(done) ltac:(done)
    ltac:(done) ltac:(intros w; split; [done|by vm_compute]) [(3, 1); (3, 5); (1, 1)]
    (mk 1 false small_dir zero_bt_data zero_bt_data phone_dir zero_thread_data (fun _ => small_period)
       start_hal wire_start) []) as (k & out & left & s' & E & _ & A & _).
  - exists small_dir, (replicate 16 0). split_and!; try done.
  - repeat constructor; cbn; lia.
  - exists k, out, left, s'. split; [exact E|exact A].
Defined.
