(* ===== verification/StreamInfo.v ===== *)
(** * What a stream tells about itself

    Models the parts of [audio_hw.c] that need no device: the bus addresses
    of the seats, the lists of supported values, the hash of bus addresses,
    the sizes of buffers and the answers to parameter queries.

    The framework is a parameter: channel masks and formats are the class
    [AudioSystem], key-value texts ([str_parms] of libcutils) the class
    [StrParms]. *)

From Stdlib Require Import ZArith Lia Ascii String.
From stdpp Require Import base list numbers sets.
From S2P Require Import Prelude CString PcmPlugin PcmDevice Streamer AudioExtra Platform Sharing BtCall.

#[local] Open Scope Z_scope.

(** ** The framework *)

Class AudioSystem := {
  audio_channel_out_mask_from_count : Z -> Z;
  audio_channel_count_from_out_mask : Z -> Z;
  audio_channel_in_mask_from_count : Z -> Z;
  audio_channel_count_from_in_mask : Z -> Z;
  audio_format_from_pcm_format : Z -> Z;
  pcm_format_from_audio_format : Z -> Z;
  (** the bytes of a sample of a format whose frames have a fixed size *)
  bytes_per_sample : Z -> option Z;
  (** the frame size of a playback and of a recording stream with a mask and a
      format *)
  out_frame_bytes : Z -> Z -> Z;
  in_frame_bytes : Z -> Z -> Z
}.

(** Masks of up to eight channels, and the 16-bit format, are understood both
    ways. *)
Class AudioSystemLaws `{AudioSystem} := {
  out_mask_count (n : Z) :
    1 <= n <= 8 -> audio_channel_count_from_out_mask (audio_channel_out_mask_from_count n) = n;
  in_mask_count (n : Z) :
    1 <= n <= 8 -> audio_channel_count_from_in_mask (audio_channel_in_mask_from_count n) = n;
  out_mask_channels (m : Z) :
    In m [AUDIO_CHANNEL_OUT_MONO; AUDIO_CHANNEL_OUT_STEREO; AUDIO_CHANNEL_OUT_7POINT1;
          AUDIO_CHANNEL_OUT_2POINT0POINT2] ->
    1 <= audio_channel_count_from_out_mask m <= 8;
  format_s16 : audio_format_from_pcm_format PCM_FORMAT_S16_LE = AUDIO_FORMAT_PCM_16_BIT;
  format_pcm16 : pcm_format_from_audio_format AUDIO_FORMAT_PCM_16_BIT = PCM_FORMAT_S16_LE;
  bytes_s16 : bytes_per_sample AUDIO_FORMAT_PCM_16_BIT = Some 2;
  out_frame_pcm16 (m : Z) :
    out_frame_bytes m AUDIO_FORMAT_PCM_16_BIT = 2 * audio_channel_count_from_out_mask m;
  in_frame_pcm16 (m : Z) :
    in_frame_bytes m AUDIO_FORMAT_PCM_16_BIT = 2 * audio_channel_count_from_in_mask m
}.

(** Key-value texts; a key that is not there is [None]. *)
Class StrParms (P : Type) := {
  str_parms_create : P;
  str_parms_create_str : string -> P;
  str_parms_get : P -> string -> option string;
  str_parms_add_str : P -> string -> string -> P;
  str_parms_to_str : P -> string
}.

Class StrParmsLaws (P : Type) `{StrParms P} := {
  parms_create (k : string) : str_parms_get str_parms_create k = None;
  parms_add (p : P) (k v k' : string) :
    str_parms_get (str_parms_add_str p k v) k' = if String.eqb k' k then Some v else str_parms_get p k'
}.

Definition AUDIO_PARAMETER_STREAM_SUP_CHANNELS : string := "sup_channels".
Definition AUDIO_PARAMETER_STREAM_SUP_FORMATS : string := "sup_formats".
Definition AUDIO_PARAMETER_STREAM_SUP_SAMPLING_RATES : string := "sup_sampling_rates".

(** ** Bus addresses *)

Definition strncmp_eq (address p : string) : bool := String.prefix p address.

Definition out_is_rear_seat_or_sharing_addr (address : string) : bool :=
  strncmp_eq address "bus100_" || strncmp_eq address "bus101_" || strncmp_eq address "bus102_"
  || strncmp_eq address "bus103_" || strncmp_eq address "bus9_".

Definition out_is_rear_seat_addr (address : string) : bool :=
  strncmp_eq address "bus100" || strncmp_eq address "bus101" || strncmp_eq address "bus102".

Definition out_is_main_seat_addr (address : string) : bool := strncmp_eq address "bus101".

Definition out_is_ssa_sharing_bus (address : string) : bool := strncmp_eq address "bus9_".
Definition out_is_ssb_sharing_bus (address : string) : bool := strncmp_eq address "bus103_".

Definition filter_bus (address : string) : bool := negb (contains "phone" address).

(** ** Lists of supported values *)

Definition MAX_SUPPORTED_CHANNEL_MASKS : nat := 16.
Definition MAX_SUPPORTED_FORMATS : nat := 15.
Definition MAX_SUPPORTED_SAMPLE_RATES : nat := 7.

(** The loop of [register_uint], [n] rounds from index [i]. *)
Fixpoint register_loop (n : nat) (i : Z) (value : Z) (list : list Z) : outcome (bool * Datatypes.list Z) :=
  match n with
  | O => Done (false, list)
  | S n =>
      let! x := array_get list i in
      if x =? value then Done (true, list)
      else if x =? 0 then let! list := array_set list i value in Done (true, list)
      else register_loop n (i + 1) value list
  end.

Definition register_uint (value : Z) (list : list Z) (list_length : nat)
  : outcome (bool * Datatypes.list Z) :=
  register_loop list_length 0 value list.

(** A value that does not fit is only logged. *)
Definition register_channel_mask (channel_mask : Z) (l : list Z) : outcome (list Z) :=
  let! (_, l) := register_uint channel_mask l MAX_SUPPORTED_CHANNEL_MASKS in Done l.
Definition register_format (format : Z) (l : list Z) : outcome (list Z) :=
  let! (_, l) := register_uint format l MAX_SUPPORTED_FORMATS in Done l.
Definition register_sample_rate (sample_rate : Z) (l : list Z) : outcome (list Z) :=
  let! (_, l) := register_uint sample_rate l MAX_SUPPORTED_SAMPLE_RATES in Done l.

(** ** Hash of a bus address *)

Definition str_eq (a b : string) : bool := String.eqb a b.

(** [char] is signed or not, by the machine. *)
Definition char_value (char_signed : bool) (c : ascii) : Z :=
  if char_signed && (128 <=? code c) then code c - 256 else code c.

Fixpoint hash_loop (char_signed : bool) (s : string) (hash : Z) : Z :=
  match s with
  | EmptyString => hash
  | String c s => hash_loop char_signed s (u32 (u32 (u32 (Z.shiftl hash 5) + hash) + char_value char_signed c))
  end.

Definition str_hash_fn (char_signed : bool) (s : string) : Z := s32 (hash_loop char_signed s 5381).

(** ** Sizes *)

Section Sizes.
Context `{AudioSystem}.

(** The getters of a playback stream with the configuration [c]. *)
Definition out_get_sample_rate (c : pcm_config) : Z := c.(rate).
Definition out_get_channels (c : pcm_config) : Z := audio_channel_out_mask_from_count c.(channels).
Definition out_get_format (c : pcm_config) : Z := audio_format_from_pcm_format c.(cfg_format).

Definition audio_stream_out_frame_size (c : pcm_config) : Z := out_frame_bytes (out_get_channels c) (out_get_format c).

(** [size_t] arithmetic from the product on; [period_size] is unsigned. *)
Definition out_get_buffer_size (c : pcm_config) : Z :=
  u64 (u32 (u32 (c.(period_size) + 15) / 16 * 16) * audio_stream_out_frame_size c).

Definition out_get_latency (pcm_main_config : pcm_config) : outcome Z :=
  if pcm_main_config.(rate) =? 0 then Undef
  else Done (u32 (u32 (pcm_main_config.(period_size) * PLAYBACK_PERIOD_COUNT) * 1000)
             / pcm_main_config.(rate)).

(** The getters of a recording stream. *)
Definition in_get_sample_rate (sw_in_src : bool) (requested_rate : Z) (c : pcm_config) : Z :=
  if sw_in_src then requested_rate else c.(rate).
Definition in_get_channels (c : pcm_config) : Z := audio_channel_in_mask_from_count c.(channels).
Definition in_get_format (c : pcm_config) : Z := audio_format_from_pcm_format c.(cfg_format).

Definition audio_stream_in_frame_size (c : pcm_config) : Z := in_frame_bytes (in_get_channels c) (in_get_format c).

Definition get_input_buffer_size (sample_rate channels : Z) : Z :=
  let size := u32 (sample_rate * IN_PERIOD_MS) / 1000 in
  let size := (size + 15) / 16 * 16 in
  u64 (size * (2 * channels)).

Definition in_get_buffer_size (c : pcm_config) : Z :=
  u64 (u32 (u32 (c.(period_size) + 15) / 16 * 16) * audio_stream_in_frame_size c).

Definition adev_get_input_buffer_size (config : audio_config) : Z :=
  get_input_buffer_size config.(sample_rate) (audio_channel_count_from_in_mask config.(channel_mask)).
End Sizes.

(** ** Parameter queries *)

(** [strcat] to a [char] array of [n] bytes. *)
Definition strcat (n : nat) (s t : string) : outcome string :=
  if Nat.ltb (String.length (s ++ t)) n then Done (s ++ t)%string else Undef.

(** The loop of [stream_get_parameter_channels] over the rest of the array;
    the array ends with a zero. *)
Fixpoint channels_text (masks : list Z) (first : bool) (value : string) : outcome string :=
  match masks with
  | [] => Undef
  | m :: masks =>
      if m =? 0 then Done value
      else
        match audio_extra_get_channel_name m with
        | Some str =>
            let! value := if first then Done value else strcat 256 value "|" in
            let! value := strcat 256 value str in
            channels_text masks false value
        | None => channels_text masks first value
        end
  end.

Definition formats_text (formats : list Z) : outcome string :=
  let! f := array_get formats 0 in
  Done (if f =? AUDIO_FORMAT_PCM_16_BIT then "AUDIO_FORMAT_PCM_16_BIT"%string else EmptyString).

(** The loop of [stream_get_parameter_rates]: [cursor] is the length of the
    text; a rate that does not fit ends the loop. *)
Fixpoint rates_text (rates : list Z) (value : string) : outcome string :=
  match rates with
  | [] => Undef
  | r :: rates =>
      if r =? 0 then Done value
      else
        let item := ((if Nat.ltb 0 (String.length value) then "|" else EmptyString)
                     ++ print_int (s32 r))%string in
        if Nat.leb (256 - String.length value) (String.length item) then Done value
        else rates_text rates (value ++ item)%string
  end.

Section Query.
Context {P : Type} `{StrParms P}.

Definition str_parms_has_key (p : P) (k : string) : bool := negb (StreamerProofs.is_none (str_parms_get p k)).

(** One kind of value: whether it was asked for, and the reply. *)
Definition stream_get_parameter (key : string) (text : outcome string) (query reply : P)
  : outcome (bool * P) :=
  if str_parms_has_key query key then
    let! value := text in Done (true, str_parms_add_str reply key value)
  else Done (false, reply).

Definition stream_get_parameter_channels (query reply : P) (supported : list Z) : outcome (bool * P) :=
  stream_get_parameter AUDIO_PARAMETER_STREAM_SUP_CHANNELS (channels_text supported true EmptyString)
    query reply.
Definition stream_get_parameter_formats (query reply : P) (supported : list Z) : outcome (bool * P) :=
  stream_get_parameter AUDIO_PARAMETER_STREAM_SUP_FORMATS (formats_text supported) query reply.
Definition stream_get_parameter_rates (query reply : P) (supported : list Z) : outcome (bool * P) :=
  stream_get_parameter AUDIO_PARAMETER_STREAM_SUP_SAMPLING_RATES (rates_text supported EmptyString)
    query reply.

(** The three lists of a stream. *)
Record supported := { sup_channels : list Z; sup_formats : list Z; sup_rates : list Z }.

(** The same for playback and recording. *)
Definition out_get_parameters (s : supported) (keys : string) : outcome string :=
  let query := str_parms_create_str keys in
  let! (r1, reply) := stream_get_parameter_channels query str_parms_create s.(sup_channels) in
  let! (r2, reply) := stream_get_parameter_formats query reply s.(sup_formats) in
  let! (r3, reply) := stream_get_parameter_rates query reply s.(sup_rates) in
  Done (if r1 || r2 || r3 then str_parms_to_str reply else EmptyString).

Definition in_get_parameters : supported -> string -> outcome string := out_get_parameters.
End Query.

Definition no_supported : supported :=
  {| sup_channels := replicate (S MAX_SUPPORTED_CHANNEL_MASKS) 0;
     sup_formats := replicate (S MAX_SUPPORTED_FORMATS) 0;
     sup_rates := replicate (S MAX_SUPPORTED_SAMPLE_RATES) 0 |}.

(** The three calls at the end of the opening of a stream. *)
Definition register_all (format channel_mask sample_rate : Z) (s : supported) : outcome supported :=
  let! f := register_format format s.(sup_formats) in
  let! c := register_channel_mask channel_mask s.(sup_channels) in
  let! r := register_sample_rate sample_rate s.(sup_rates) in
  Done {| sup_channels := c; sup_formats := f; sup_rates := r |}.

(** * Theorems *)

(** ** Supported values *)

(** An array of [n] usable entries and a terminator that holds the values
    [vs], in the order in which they were registered. *)
Record holds (n : nat) (vs l : list Z) : Prop := {
  ho_array : l = vs ++ replicate (S n - length vs) 0;
  ho_room : (length vs <= n)%nat;
  ho_values : Forall (fun v => v <> 0) vs;
  ho_distinct : NoDup vs
}.

(** What registering a value should do. *)
Definition spec_register (n : nat) (v : Z) (vs : list Z) : bool * list Z :=
  if decide (v ∈ vs) then (true, vs)
  else if Nat.ltb (length vs) n then (true, vs ++ [v]) else (false, vs).

Lemma register_loop_at (n k : nat) (v : Z) (pre vs : list Z) :
  v <> 0 -> v ∉ pre -> Forall (fun x => x <> 0) vs ->
  (length vs <= n)%nat -> (k = n)%nat ->
  register_loop k (zlen pre) v (pre ++ vs ++ replicate (S n - length vs) 0)
  = Done (if decide (v ∈ vs) then (true, pre ++ vs ++ replicate (S n - length vs) 0)
          else if Nat.ltb (length vs) n
          then (true, pre ++ (vs ++ [v]) ++ replicate (n - length vs) 0)
          else (false, pre ++ vs ++ replicate (S n - length vs) 0)).
Proof.
  intros V Np. revert n k pre Np. induction vs as [|x vs IH]; intros n k pre Np Nz Le ->.
  - destruct n as [|n]; [cbn; by rewrite decide_False by apply not_elem_of_nil|].
    cbn [register_loop length app Nat.ltb Nat.leb Nat.sub]. rewrite decide_False by apply not_elem_of_nil.
    rewrite (array_get_lookup _ _ 0); cycle 1.
    { unfold zlen; lia. }
    { unfold zlen. rewrite Nat2Z.id, lookup_app_r, Nat.sub_diag by lia. done. }
    cbn [obind]. rewrite (proj2 (Z.eqb_neq 0 v)) by lia. cbn [Z.eqb].
    rewrite array_set_done by (unfold zlen; rewrite length_app; cbn [replicate length]; lia).
    cbn [obind]. unfold zlen. rewrite Nat2Z.id, insert_app_r_alt, Nat.sub_diag by lia. done.
  - apply list.Forall_cons in Nz as [Nx Nz]. cbn [length] in Le. destruct n as [|n]; [lia|].
    cbn [register_loop app length Nat.sub]. rewrite (array_get_lookup _ _ x); cycle 1.
    { unfold zlen; lia. }
    { unfold zlen. rewrite Nat2Z.id, lookup_app_r, Nat.sub_diag by lia. done. }
    cbn [obind]. destruct (Z.eqb_spec x v) as [->|Ne].
    { rewrite decide_True by (by apply elem_of_cons; left). done. }
    rewrite (proj2 (Z.eqb_neq x 0)) by done.
    pose proof (IH n n (pre ++ [x])) as I.
    rewrite <-!app_assoc in I. cbn [app] in I. rewrite zlen_app in I. unfold zlen at 2 in I. cbn [length] in I.
    replace (zlen pre + 1) with (zlen pre + Z.of_nat 1) by lia. rewrite I; try done; try lia.
    + destruct (decide (v ∈ vs)) as [D|D].
      * rewrite decide_True by (by apply elem_of_cons; right). done.
      * rewrite decide_False by (rewrite elem_of_cons; intros [?|?]; [congruence|contradiction]).
        change (Nat.ltb (S (length vs)) (S n)) with (Nat.ltb (length vs) n).
        rewrite <-(app_assoc vs). by destruct (Nat.ltb _ n).
    + rewrite elem_of_app, list_elem_of_singleton. intros [?|?]; [contradiction|congruence].
Qed.

Lemma register_uint_refines (n : nat) (v : Z) (vs l : list Z) :
  v <> 0 -> holds n vs l ->
  exists l', register_uint v l n = Done ((spec_register n v vs).1, l')
    /\ holds n (spec_register n v vs).2 l'.
Proof.
  intros V [-> Ro Va Di]. unfold register_uint, spec_register.
  pose proof (register_loop_at n n v [] vs V (not_elem_of_nil _) Va Ro eq_refl) as E.
  change (zlen []) with 0 in E. cbn [app] in E. rewrite E. destruct (decide (v ∈ vs)) as [D|D]; [by eexists|].
  destruct (Nat.ltb_spec (length vs) n) as [Lt|Ge]; [|by eexists].
  eexists. split; [reflexivity|]. cbn [snd]. split.
  - rewrite length_app. cbn [length]. do 2 f_equal. lia.
  - rewrite length_app. cbn [length]. lia.
  - apply list.Forall_app. split; [done|]. by apply list.Forall_cons.
  - apply NoDup_app. split; [done|]. split; [set_solver|apply NoDup_singleton].
Qed.

(** The values that are kept when [vs] are registered one after the other. *)
Fixpoint spec_registers (n : nat) (reqs vs : list Z) : list Z :=
  match reqs with
  | [] => vs
  | v :: reqs => spec_registers n reqs (spec_register n v vs).2
  end.

Fixpoint register_uints (n : nat) (reqs l : list Z) : outcome (list Z) :=
  match reqs with
  | [] => Done l
  | v :: reqs => let! (_, l) := register_uint v l n in register_uints n reqs l
  end.

Lemma spec_registers_elem (n : nat) (reqs vs : list Z) (x : Z) :
  (length vs + length reqs <= n)%nat -> x ∈ spec_registers n reqs vs <-> x ∈ vs \/ x ∈ reqs.
Proof.
  revert vs. induction reqs as [|v reqs IH]; intros vs L; cbn [spec_registers]; [set_solver|].
  cbn [length] in L. unfold spec_register. destruct (decide (v ∈ vs)) as [D|D]; cbn [snd].
  - rewrite IH by lia. set_solver.
  - rewrite (proj2 (Nat.ltb_lt (length vs) n)) by lia. cbn [snd].
    rewrite IH by (rewrite length_app; cbn [length]; lia). set_solver.
Qed.

(** C34. For every sequence of registrations in a list of supported values, the
    array stays of the same type: distinct values that are not zero, in the
    order of their first registration, followed by zeros up to and including
    the last entry, so that the loops that read it to the first zero stay in
    it; while there is room the values are exactly those that were
    registered. *)
Theorem registered_values_typed (n : nat) (reqs : list Z) :
  Forall (fun v => v <> 0) reqs ->
  exists l vs, register_uints n reqs (replicate (S n) 0) = Done l
    /\ holds n vs l /\ list.last l = Some 0 /\ length l = S n
    /\ vs = spec_registers n reqs []
    /\ ((length reqs <= n)%nat -> forall v, v ∈ vs <-> v ∈ reqs).
Proof.
  intros Nz.
  assert (forall vs l, holds n vs l -> exists l', register_uints n reqs l = Done l'
            /\ holds n (spec_registers n reqs vs) l') as G.
  { induction Nz as [|v reqs V Nz IH]; intros vs l Ho; [by exists l|]. cbn [register_uints spec_registers].
    destruct (register_uint_refines n v vs l V Ho) as (l1 & -> & Ho1). by apply IH. }
  destruct (G [] (replicate (S n) 0)) as (l & E & Ho).
  { split; [done|cbn; lia|done|apply NoDup_nil_2]. }
  exists l, (spec_registers n reqs []). split; [done|]. split; [done|].
  destruct Ho as [-> Ro _ _]. set (vs := spec_registers n reqs []) in *.
  replace (S n - length vs)%nat with (S (n - length vs)) by lia. split_and!; try done.
  - rewrite replicate_S_end, app_assoc. apply list.last_snoc.
  - rewrite length_app, length_replicate. lia.
  - intros L v. unfold vs. rewrite spec_registers_elem by (cbn; lia). set_solver.
Qed.

Lemma registered_values_typed_witness :
  exists l vs, register_uints 7 [48000; 44100; 48000] (replicate 8 0) = Done l
    /\ holds 7 vs l /\ list.last l = Some 0 /\ length l = 8%nat
    /\ vs = spec_registers 7 [48000; 44100; 48000] []
    /\ ((length [48000; 44100; 48000]%Z <= 7)%nat -> forall v, v ∈ vs <-> v ∈ [48000; 44100; 48000]).
Proof. apply (registered_values_typed 7 [48000; 44100; 48000]). by repeat constructor. Defined.

(** ** The reply with the sample rates *)

(** The numbers of a list, each behind a bar. *)
Fixpoint behind_bars (l : list Z) : string :=
  match l with
  | [] => EmptyString
  | v :: l => (String "|" (print_int v ++ behind_bars l))%string
  end.

Definition with_bars (l : list Z) : string :=
  match l with [] => EmptyString | v :: l => (print_int v ++ behind_bars l)%string end.

Definition is_rate (v : Z) : Prop := 0 < v <= INT32_MAX.

Lemma append_nil_r (s : string) : (s ++ EmptyString)%string = s.
Proof. induction s as [|c s IH]; [done|]. exact (f_equal (String c) IH). Qed.

Lemma append_assoc (s t u : string) : ((s ++ t) ++ u)%string = (s ++ (t ++ u))%string.
Proof. induction s as [|c s IH]; [done|]. exact (f_equal (String c) IH). Qed.

Lemma rates_tail (vs z : list Z) (value : string) :
  Forall is_rate vs -> value <> EmptyString -> (String.length value + 11 * length vs < 256)%nat ->
  rates_text (vs ++ 0 :: z) value = Done (value ++ behind_bars vs)%string.
Proof.
  intros F. revert value. induction F as [|v vs V F IH]; intros value Ne L; cbn [app rates_text behind_bars].
  - by rewrite append_nil_r.
  - unfold is_rate in V. rewrite (proj2 (Z.eqb_neq v 0)) by lia.
    assert (Nat.ltb 0 (String.length value) = true) as -> by (destruct value; [done|reflexivity]).
    rewrite s32_small by lia. change ("|" ++ print_int v)%string with (String "|" (print_int v)).
    pose proof (length_print_int v ltac:(lia)) as Lp. cbn [length] in L.
    rewrite (proj2 (Nat.leb_gt _ _)) by (cbn [String.length]; lia).
    rewrite IH; [by rewrite append_assoc| |].
    + by destruct value.
    + rewrite length_append. cbn [String.length]. lia.
Qed.

Lemma rates_text_bars (vs l : list Z) :
  holds MAX_SUPPORTED_SAMPLE_RATES vs l -> Forall is_rate vs ->
  rates_text l EmptyString = Done (with_bars vs).
Proof.
  intros [-> Ro _ _] F. unfold MAX_SUPPORTED_SAMPLE_RATES in *.
  replace (8 - length vs)%nat with (S (7 - length vs)) by lia. cbn [replicate].
  destruct F as [|v vs V F]; [done|]. cbn [app rates_text with_bars]. unfold is_rate in V.
  rewrite (proj2 (Z.eqb_neq v 0)) by lia. cbn [String.length Nat.ltb Nat.leb].
  rewrite s32_small by lia. change (EmptyString ++ print_int v)%string with (print_int v). pose proof (length_print_int v ltac:(lia)) as Lp. cbn [length] in Ro.
  rewrite (proj2 (Nat.leb_gt _ _)) by lia. apply rates_tail; [done| |lia].
  apply (print_int_word "|"); [done|]. unfold INT32_MAX in V. lia.
Qed.

Lemma fields_bars (v : Z) (vs : list Z) :
  is_rate v -> Forall is_rate vs -> fields "|" (with_bars (v :: vs)) = map print_int (v :: vs).
Proof.
  intros V F. revert v V. induction F as [|w vs W F IH]; intros v V;
    (assert (free_of "|" (print_int v)) as Fr
       by (apply print_int_word; [done|]; unfold is_rate, INT32_MAX in V; lia)).
  - cbn [with_bars behind_bars map]. rewrite append_nil_r. apply (fields_word "|" _ EmptyString Fr).
  - cbn [with_bars behind_bars map].
    rewrite (proj2 (fields_word "|" (print_int v) (print_int w ++ behind_bars vs) Fr)).
    f_equal. by apply (IH w).
Qed.

(** When the sample rates of a stream are asked for, the reply holds them
    as text that reads back, field by field, as exactly the registered rates
    in their order: the text of seven rates always fits, and the other keys of
    the reply are kept; when they are not asked for, the reply is not
    changed. *)
Theorem rates_reply_roundtrip {P} `{StrParmsLaws P} (query reply : P) (vs l : list Z) :
  holds MAX_SUPPORTED_SAMPLE_RATES vs l -> Forall is_rate vs ->
  let key := AUDIO_PARAMETER_STREAM_SUP_SAMPLING_RATES in
  exists reply', stream_get_parameter_rates query reply l = Done (str_parms_has_key query key, reply')
    /\ (forall k, k <> key -> str_parms_get reply' k = str_parms_get reply k)
    /\ if str_parms_has_key query key then
         exists text, str_parms_get reply' key = Some text
           /\ (vs <> [] -> map atoi (fields "|" text) = map Done vs)
       else reply' = reply.
Proof.
  intros Ho F key. unfold stream_get_parameter_rates, stream_get_parameter.
  rewrite (rates_text_bars vs l Ho F). fold key. destruct (str_parms_has_key query key); cbn [obind].
  - eexists. split; [reflexivity|]. split.
    + intros k Ne. rewrite parms_add. by rewrite (proj2 (String.eqb_neq k key)).
    + exists (with_bars vs). rewrite parms_add, String.eqb_refl. split; [done|].
      intros Ne. destruct F as [|v vs V F]; [done|]. rewrite fields_bars by done. rewrite map_map.
      apply map_ext_in. intros w I. apply atoi_print_int.
      assert (is_rate w) as Rw by (destruct I as [<-|I]; [done|by apply (proj1 (List.Forall_forall _ _) F)]).
      unfold is_rate, is_i32, INT32_MIN in *. lia.
  - by exists reply.
Qed.

(** ** A concrete framework *)

(** Key-value texts as lists of pairs, the newest first. *)
Definition pairs := list (string * string).

Fixpoint pairs_get (p : pairs) (k : string) : option string :=
  match p with
  | [] => None
  | (k', v) :: p => if String.eqb k k' then Some v else pairs_get p k
  end.

Definition read_pair (s : string) : list (string * string) :=
  match fields "=" s with
  | [EmptyString] => []
  | [k] => [(k, EmptyString)]
  | k :: v :: _ => [(k, v)]
  | [] => []
  end.

#[global] Instance pairs_parms : StrParms pairs := {|
  str_parms_create := [];
  str_parms_create_str := fun s => rev (concat (map read_pair (fields ";" s)));
  str_parms_get := pairs_get;
  str_parms_add_str := fun p k v => (k, v) :: p;
  str_parms_to_str := fun p => String.concat ";" (map (fun '(k, v) => (k ++ "=" ++ v)%string) (rev p))
|}.

#[global] Instance pairs_laws : StrParmsLaws pairs.
Proof. split; done. Qed.

Fixpoint popcount (n : nat) (m : Z) : Z :=
  match n with
  | O => 0
  | S n => (if Z.odd m then 1 else 0) + popcount n (m / 2)
  end.

(** The masks of the framework, of which the top bit tells the kind. *)
Definition mask_count (m : Z) : Z := popcount 31 m.

#[global] Instance android : AudioSystem := {|
  audio_channel_out_mask_from_count := fun n => if n =? 1 then 1 else if n =? 2 then 3 else 2 ^ 31 + 2 ^ n - 1;
  audio_channel_count_from_out_mask := mask_count;
  audio_channel_in_mask_from_count := fun n => if n =? 1 then 16 else if n =? 2 then 12 else 2 ^ 31 + 2 ^ n - 1;
  audio_channel_count_from_in_mask := mask_count;
  audio_format_from_pcm_format := fun f => if f =? 0 then 1 else if f =? 1 then 3 else 0;
  pcm_format_from_audio_format := fun f => if f =? 1 then 0 else if f =? 3 then 1 else -1;
  bytes_per_sample := fun f => if f =? 1 then Some 2 else if f =? 3 then Some 4 else None;
  out_frame_bytes := fun m f => (if f =? 1 then 2 else if f =? 3 then 4 else 1) * mask_count m;
  in_frame_bytes := fun m f => (if f =? 1 then 2 else if f =? 3 then 4 else 1) * mask_count m
|}.

Lemma one_to_eight (P : Z -> Prop) : (forall i, In i [1; 2; 3; 4; 5; 6; 7; 8] -> P i) -> forall n, 1 <= n <= 8 -> P n.
Proof.
  intros A n B. apply A.
  assert (n = 1 \/ n = 2 \/ n = 3 \/ n = 4 \/ n = 5 \/ n = 6 \/ n = 7 \/ n = 8) as C by lia.
  cbn. intuition congruence.
Qed.

#[global] Instance android_laws : AudioSystemLaws.
Proof.
  split; try done.
  - apply one_to_eight. intros i I. repeat (destruct I as [<-|I]; [reflexivity|]). destruct I.
  - apply one_to_eight. intros i I. repeat (destruct I as [<-|I]; [reflexivity|]). destruct I.
  - intros m I. repeat (destruct I as [<-|I]; [by split|]). destruct I.
Qed.

Lemma rates_reply_roundtrip_witness :
  let query := str_parms_create_str (P := pairs) "sup_channels=;sup_sampling_rates=" in
  exists reply', stream_get_parameter_rates query [] [48000; 16000; 0; 0; 0; 0; 0; 0] = Done (true, reply')
    /\ (forall k, k <> AUDIO_PARAMETER_STREAM_SUP_SAMPLING_RATES -> str_parms_get reply' k = None)
    /\ exists text, str_parms_get reply' AUDIO_PARAMETER_STREAM_SUP_SAMPLING_RATES = Some text
         /\ ([48000; 16000] <> [] -> map atoi (fields "|" text) = map Done [48000; 16000]).
Proof.
  refine (rates_reply_roundtrip (str_parms_create_str (P := pairs) "sup_channels=;sup_sampling_rates=") []
            [48000; 16000] [48000; 16000; 0; 0; 0; 0; 0; 0] _ _).
  - split; [reflexivity|unfold MAX_SUPPORTED_SAMPLE_RATES; cbn; lia|by repeat constructor|]. apply NoDup_cons_2; [|apply NoDup_singleton].
    rewrite list_elem_of_singleton. discriminate.
  - repeat constructor; discriminate.
Defined.
