(* ===== verification/AudioHw.v ===== *)
(** * The streams of the audio HAL

    Models the playback and recording streams of [audio_hw.c]: opening,
    starting, writing, reading, standby and closing, over the streamer
    ([Streamer]), the devices ([PcmDevice]), the recording wrapper
    ([PcmWrapper]), the paths of the remote service ([OutputPath]) and the
    sharing of streams ([Sharing]).  The operations of the device that owns
    the streams are in [AudioDevice].

    A stream is the index of its structure in the memory of the HAL; a
    structure that was freed is [None], and its use is undefined.  A device
    that is not open is not a valid pointer either.  The resampler and the
    effect library of the framework are parameters.  The two mutexes of a
    stream and of the device are held during a whole operation and are not
    modelled; [usleep] is left out, but its argument is computed. *)

From Stdlib Require Import ZArith Lia Ascii String.
From stdpp Require Import base list numbers.
From S2P Require Import Prelude CircleBuf CString Mixer Dsp BusVolume Mix PcmPlugin PcmWrapper PcmDevice Streamer.
From S2P Require Import AudioExtra Remote OutputPath Platform Sharing StreamerProofs Hfp BtCall StreamInfo.

#[local] Open Scope Z_scope.

Definition AUDIO_MODE_IN_CALL : Z := 2.
Definition AUDIO_DEVICE_IN_WIRED_HEADSET : Z := 2147483664.
Definition CARD_DEFAULT : Z := 0.
Definition CODEC_DEV_IN : Z := 0.
Definition CAPTURE_PERIOD_COUNT : Z := 4.
Definition RESAMPLER_BUFFER_SIZE : Z := 8 * (32 * 32).
Definition STR_VIRT_I2S_SWITCH : string := "Virt-i2s Switch".
Definition HIFI_CAPTURE_FROM_MAIN_MIC_48K : string := "PATH_HIFI_CAPTURE_FROM_MAIN_MIC_48K".
Definition AUDIO_PARAMETER_STREAM_ROUTING : string := "routing".

Definition default_input_config : pcm_config := default_output_config.

(** ** The effect library of the framework *)

Inductive effect_cmd :=
| EFFECT_CMD_SET_CONFIG (samplingRate channels format frameCount : Z)
| EFFECT_CMD_SET_PARAM (param value : Z)
| EFFECT_CMD_ENABLE.

Definition LOUDNESS_ENHANCER_PARAM_TARGET_GAIN_MB : Z := 0.

(** [ef_live] lists the effects that exist.  A command gives its status and
    the reply; an effect turns a block into the bytes that it stores. *)
Class EffectLib (E : Type) := {
  ef_create : Z -> E -> Z * option Z * E;
  ef_command : Z -> effect_cmd -> E -> Z * Z * E;
  ef_process : Z -> list Z -> Z -> E -> list Z * E;
  ef_release : Z -> E -> E;
  ef_live : E -> list Z
}.

(** ** State *)

Section State.
Context {R M W N E P : Type}.

(** [struct alsa_stream_out] *)
Record stream_out := {
  so_config : pcm_config;
  so_pcm : option Z;
  so_pcm_hdl : option nat;
  so_standby : bool;
  so_written : Z;
  so_bus_address : option string;
  so_bus_num : Z;
  so_gain_stage : audio_gain;
  so_amplitude_ratio : f32;
  so_effect : effect;
  so_processed_buf : option (list Z);
  so_processed_buf_len : Z;
  so_target_gain_mb : Z;
  so_resampler : option R;
  so_rsp_out_buffer : list Z;
  so_supported : supported;
  so_repeater_src : option nat
}.

Definition set_so_config (x : pcm_config) (o : stream_out) : stream_out :=
  {| so_config := x; so_pcm := o.(so_pcm); so_pcm_hdl := o.(so_pcm_hdl); so_standby :=
     o.(so_standby); so_written := o.(so_written); so_bus_address := o.(so_bus_address);
     so_bus_num := o.(so_bus_num); so_gain_stage := o.(so_gain_stage); so_amplitude_ratio :=
     o.(so_amplitude_ratio); so_effect := o.(so_effect); so_processed_buf := o.(so_processed_buf);
     so_processed_buf_len := o.(so_processed_buf_len); so_target_gain_mb := o.(so_target_gain_mb);
     so_resampler := o.(so_resampler); so_rsp_out_buffer := o.(so_rsp_out_buffer); so_supported :=
     o.(so_supported); so_repeater_src := o.(so_repeater_src) |}.
Definition set_so_pcm (x : option Z) (o : stream_out) : stream_out :=
  {| so_config := o.(so_config); so_pcm := x; so_pcm_hdl := o.(so_pcm_hdl); so_standby :=
     o.(so_standby); so_written := o.(so_written); so_bus_address := o.(so_bus_address);
     so_bus_num := o.(so_bus_num); so_gain_stage := o.(so_gain_stage); so_amplitude_ratio :=
     o.(so_amplitude_ratio); so_effect := o.(so_effect); so_processed_buf := o.(so_processed_buf);
     so_processed_buf_len := o.(so_processed_buf_len); so_target_gain_mb := o.(so_target_gain_mb);
     so_resampler := o.(so_resampler); so_rsp_out_buffer := o.(so_rsp_out_buffer); so_supported :=
     o.(so_supported); so_repeater_src := o.(so_repeater_src) |}.
Definition set_so_pcm_hdl (x : option nat) (o : stream_out) : stream_out :=
  {| so_config := o.(so_config); so_pcm := o.(so_pcm); so_pcm_hdl := x; so_standby :=
     o.(so_standby); so_written := o.(so_written); so_bus_address := o.(so_bus_address);
     so_bus_num := o.(so_bus_num); so_gain_stage := o.(so_gain_stage); so_amplitude_ratio :=
     o.(so_amplitude_ratio); so_effect := o.(so_effect); so_processed_buf := o.(so_processed_buf);
     so_processed_buf_len := o.(so_processed_buf_len); so_target_gain_mb := o.(so_target_gain_mb);
     so_resampler := o.(so_resampler); so_rsp_out_buffer := o.(so_rsp_out_buffer); so_supported :=
     o.(so_supported); so_repeater_src := o.(so_repeater_src) |}.
Definition set_so_standby (x : bool) (o : stream_out) : stream_out :=
  {| so_config := o.(so_config); so_pcm := o.(so_pcm); so_pcm_hdl := o.(so_pcm_hdl); so_standby :=
     x; so_written := o.(so_written); so_bus_address := o.(so_bus_address); so_bus_num :=
     o.(so_bus_num); so_gain_stage := o.(so_gain_stage); so_amplitude_ratio :=
     o.(so_amplitude_ratio); so_effect := o.(so_effect); so_processed_buf := o.(so_processed_buf);
     so_processed_buf_len := o.(so_processed_buf_len); so_target_gain_mb := o.(so_target_gain_mb);
     so_resampler := o.(so_resampler); so_rsp_out_buffer := o.(so_rsp_out_buffer); so_supported :=
     o.(so_supported); so_repeater_src := o.(so_repeater_src) |}.
Definition set_so_written (x : Z) (o : stream_out) : stream_out :=
  {| so_config := o.(so_config); so_pcm := o.(so_pcm); so_pcm_hdl := o.(so_pcm_hdl); so_standby :=
     o.(so_standby); so_written := x; so_bus_address := o.(so_bus_address); so_bus_num :=
     o.(so_bus_num); so_gain_stage := o.(so_gain_stage); so_amplitude_ratio :=
     o.(so_amplitude_ratio); so_effect := o.(so_effect); so_processed_buf := o.(so_processed_buf);
     so_processed_buf_len := o.(so_processed_buf_len); so_target_gain_mb := o.(so_target_gain_mb);
     so_resampler := o.(so_resampler); so_rsp_out_buffer := o.(so_rsp_out_buffer); so_supported :=
     o.(so_supported); so_repeater_src := o.(so_repeater_src) |}.
Definition set_so_amplitude_ratio (x : f32) (o : stream_out) : stream_out :=
  {| so_config := o.(so_config); so_pcm := o.(so_pcm); so_pcm_hdl := o.(so_pcm_hdl); so_standby :=
     o.(so_standby); so_written := o.(so_written); so_bus_address := o.(so_bus_address);
     so_bus_num := o.(so_bus_num); so_gain_stage := o.(so_gain_stage); so_amplitude_ratio := x;
     so_effect := o.(so_effect); so_processed_buf := o.(so_processed_buf); so_processed_buf_len :=
     o.(so_processed_buf_len); so_target_gain_mb := o.(so_target_gain_mb); so_resampler :=
     o.(so_resampler); so_rsp_out_buffer := o.(so_rsp_out_buffer); so_supported :=
     o.(so_supported); so_repeater_src := o.(so_repeater_src) |}.
Definition set_so_effect (x : effect) (o : stream_out) : stream_out :=
  {| so_config := o.(so_config); so_pcm := o.(so_pcm); so_pcm_hdl := o.(so_pcm_hdl); so_standby :=
     o.(so_standby); so_written := o.(so_written); so_bus_address := o.(so_bus_address);
     so_bus_num := o.(so_bus_num); so_gain_stage := o.(so_gain_stage); so_amplitude_ratio :=
     o.(so_amplitude_ratio); so_effect := x; so_processed_buf := o.(so_processed_buf);
     so_processed_buf_len := o.(so_processed_buf_len); so_target_gain_mb := o.(so_target_gain_mb);
     so_resampler := o.(so_resampler); so_rsp_out_buffer := o.(so_rsp_out_buffer); so_supported :=
     o.(so_supported); so_repeater_src := o.(so_repeater_src) |}.
Definition set_so_processed_buf (x : option (list Z)) (o : stream_out) : stream_out :=
  {| so_config := o.(so_config); so_pcm := o.(so_pcm); so_pcm_hdl := o.(so_pcm_hdl); so_standby :=
     o.(so_standby); so_written := o.(so_written); so_bus_address := o.(so_bus_address);
     so_bus_num := o.(so_bus_num); so_gain_stage := o.(so_gain_stage); so_amplitude_ratio :=
     o.(so_amplitude_ratio); so_effect := o.(so_effect); so_processed_buf := x;
     so_processed_buf_len := o.(so_processed_buf_len); so_target_gain_mb := o.(so_target_gain_mb);
     so_resampler := o.(so_resampler); so_rsp_out_buffer := o.(so_rsp_out_buffer); so_supported :=
     o.(so_supported); so_repeater_src := o.(so_repeater_src) |}.
Definition set_so_target_gain_mb (x : Z) (o : stream_out) : stream_out :=
  {| so_config := o.(so_config); so_pcm := o.(so_pcm); so_pcm_hdl := o.(so_pcm_hdl); so_standby :=
     o.(so_standby); so_written := o.(so_written); so_bus_address := o.(so_bus_address);
     so_bus_num := o.(so_bus_num); so_gain_stage := o.(so_gain_stage); so_amplitude_ratio :=
     o.(so_amplitude_ratio); so_effect := o.(so_effect); so_processed_buf := o.(so_processed_buf);
     so_processed_buf_len := o.(so_processed_buf_len); so_target_gain_mb := x; so_resampler :=
     o.(so_resampler); so_rsp_out_buffer := o.(so_rsp_out_buffer); so_supported :=
     o.(so_supported); so_repeater_src := o.(so_repeater_src) |}.
Definition set_so_resampler (x : option R) (o : stream_out) : stream_out :=
  {| so_config := o.(so_config); so_pcm := o.(so_pcm); so_pcm_hdl := o.(so_pcm_hdl); so_standby :=
     o.(so_standby); so_written := o.(so_written); so_bus_address := o.(so_bus_address);
     so_bus_num := o.(so_bus_num); so_gain_stage := o.(so_gain_stage); so_amplitude_ratio :=
     o.(so_amplitude_ratio); so_effect := o.(so_effect); so_processed_buf := o.(so_processed_buf);
     so_processed_buf_len := o.(so_processed_buf_len); so_target_gain_mb := o.(so_target_gain_mb);
     so_resampler := x; so_rsp_out_buffer := o.(so_rsp_out_buffer); so_supported :=
     o.(so_supported); so_repeater_src := o.(so_repeater_src) |}.
Definition set_so_rsp_out_buffer (x : list Z) (o : stream_out) : stream_out :=
  {| so_config := o.(so_config); so_pcm := o.(so_pcm); so_pcm_hdl := o.(so_pcm_hdl); so_standby :=
     o.(so_standby); so_written := o.(so_written); so_bus_address := o.(so_bus_address);
     so_bus_num := o.(so_bus_num); so_gain_stage := o.(so_gain_stage); so_amplitude_ratio :=
     o.(so_amplitude_ratio); so_effect := o.(so_effect); so_processed_buf := o.(so_processed_buf);
     so_processed_buf_len := o.(so_processed_buf_len); so_target_gain_mb := o.(so_target_gain_mb);
     so_resampler := o.(so_resampler); so_rsp_out_buffer := x; so_supported := o.(so_supported);
     so_repeater_src := o.(so_repeater_src) |}.
Definition set_so_repeater_src (x : option nat) (o : stream_out) : stream_out :=
  {| so_config := o.(so_config); so_pcm := o.(so_pcm); so_pcm_hdl := o.(so_pcm_hdl); so_standby :=
     o.(so_standby); so_written := o.(so_written); so_bus_address := o.(so_bus_address);
     so_bus_num := o.(so_bus_num); so_gain_stage := o.(so_gain_stage); so_amplitude_ratio :=
     o.(so_amplitude_ratio); so_effect := o.(so_effect); so_processed_buf := o.(so_processed_buf);
     so_processed_buf_len := o.(so_processed_buf_len); so_target_gain_mb := o.(so_target_gain_mb);
     so_resampler := o.(so_resampler); so_rsp_out_buffer := o.(so_rsp_out_buffer); so_supported :=
     o.(so_supported); so_repeater_src := x |}.

(** [struct alsa_stream_in] *)
Record stream_in := {
  si_config : pcm_config;
  si_pcm : option Z;
  si_devices : Z;
  si_standby : bool;
  si_supported : supported;
  si_pcm_wrapper : option (pcm_wrapper Z P);
  si_resampler : option R;
  si_buffer : option (list Z);
  si_requested_rate : Z;
  si_frames_in : Z;
  si_read_status : Z;
  si_pcm_hdl : option nat;
  si_reset_node : bool;
  si_sharing_node : bool
}.

Definition set_si_pcm (x : option Z) (i : stream_in) : stream_in :=
  {| si_config := i.(si_config); si_pcm := x; si_devices := i.(si_devices); si_standby :=
     i.(si_standby); si_supported := i.(si_supported); si_pcm_wrapper := i.(si_pcm_wrapper);
     si_resampler := i.(si_resampler); si_buffer := i.(si_buffer); si_requested_rate :=
     i.(si_requested_rate); si_frames_in := i.(si_frames_in); si_read_status :=
     i.(si_read_status); si_pcm_hdl := i.(si_pcm_hdl); si_reset_node := i.(si_reset_node);
     si_sharing_node := i.(si_sharing_node) |}.
Definition set_si_standby (x : bool) (i : stream_in) : stream_in :=
  {| si_config := i.(si_config); si_pcm := i.(si_pcm); si_devices := i.(si_devices); si_standby :=
     x; si_supported := i.(si_supported); si_pcm_wrapper := i.(si_pcm_wrapper); si_resampler :=
     i.(si_resampler); si_buffer := i.(si_buffer); si_requested_rate := i.(si_requested_rate);
     si_frames_in := i.(si_frames_in); si_read_status := i.(si_read_status); si_pcm_hdl :=
     i.(si_pcm_hdl); si_reset_node := i.(si_reset_node); si_sharing_node := i.(si_sharing_node)
     |}.
Definition set_si_pcm_wrapper (x : option (pcm_wrapper Z P)) (i : stream_in) : stream_in :=
  {| si_config := i.(si_config); si_pcm := i.(si_pcm); si_devices := i.(si_devices); si_standby :=
     i.(si_standby); si_supported := i.(si_supported); si_pcm_wrapper := x; si_resampler :=
     i.(si_resampler); si_buffer := i.(si_buffer); si_requested_rate := i.(si_requested_rate);
     si_frames_in := i.(si_frames_in); si_read_status := i.(si_read_status); si_pcm_hdl :=
     i.(si_pcm_hdl); si_reset_node := i.(si_reset_node); si_sharing_node := i.(si_sharing_node)
     |}.
Definition set_si_resampler (x : option R) (i : stream_in) : stream_in :=
  {| si_config := i.(si_config); si_pcm := i.(si_pcm); si_devices := i.(si_devices); si_standby :=
     i.(si_standby); si_supported := i.(si_supported); si_pcm_wrapper := i.(si_pcm_wrapper);
     si_resampler := x; si_buffer := i.(si_buffer); si_requested_rate := i.(si_requested_rate);
     si_frames_in := i.(si_frames_in); si_read_status := i.(si_read_status); si_pcm_hdl :=
     i.(si_pcm_hdl); si_reset_node := i.(si_reset_node); si_sharing_node := i.(si_sharing_node)
     |}.
Definition set_si_buffer (x : option (list Z)) (i : stream_in) : stream_in :=
  {| si_config := i.(si_config); si_pcm := i.(si_pcm); si_devices := i.(si_devices); si_standby :=
     i.(si_standby); si_supported := i.(si_supported); si_pcm_wrapper := i.(si_pcm_wrapper);
     si_resampler := i.(si_resampler); si_buffer := x; si_requested_rate := i.(si_requested_rate);
     si_frames_in := i.(si_frames_in); si_read_status := i.(si_read_status); si_pcm_hdl :=
     i.(si_pcm_hdl); si_reset_node := i.(si_reset_node); si_sharing_node := i.(si_sharing_node)
     |}.
Definition set_si_frames_in (x : Z) (i : stream_in) : stream_in :=
  {| si_config := i.(si_config); si_pcm := i.(si_pcm); si_devices := i.(si_devices); si_standby :=
     i.(si_standby); si_supported := i.(si_supported); si_pcm_wrapper := i.(si_pcm_wrapper);
     si_resampler := i.(si_resampler); si_buffer := i.(si_buffer); si_requested_rate :=
     i.(si_requested_rate); si_frames_in := x; si_read_status := i.(si_read_status); si_pcm_hdl :=
     i.(si_pcm_hdl); si_reset_node := i.(si_reset_node); si_sharing_node := i.(si_sharing_node)
     |}.
Definition set_si_read_status (x : Z) (i : stream_in) : stream_in :=
  {| si_config := i.(si_config); si_pcm := i.(si_pcm); si_devices := i.(si_devices); si_standby :=
     i.(si_standby); si_supported := i.(si_supported); si_pcm_wrapper := i.(si_pcm_wrapper);
     si_resampler := i.(si_resampler); si_buffer := i.(si_buffer); si_requested_rate :=
     i.(si_requested_rate); si_frames_in := i.(si_frames_in); si_read_status := x; si_pcm_hdl :=
     i.(si_pcm_hdl); si_reset_node := i.(si_reset_node); si_sharing_node := i.(si_sharing_node)
     |}.
Definition set_si_pcm_hdl (x : option nat) (i : stream_in) : stream_in :=
  {| si_config := i.(si_config); si_pcm := i.(si_pcm); si_devices := i.(si_devices); si_standby :=
     i.(si_standby); si_supported := i.(si_supported); si_pcm_wrapper := i.(si_pcm_wrapper);
     si_resampler := i.(si_resampler); si_buffer := i.(si_buffer); si_requested_rate :=
     i.(si_requested_rate); si_frames_in := i.(si_frames_in); si_read_status :=
     i.(si_read_status); si_pcm_hdl := x; si_reset_node := i.(si_reset_node); si_sharing_node :=
     i.(si_sharing_node) |}.
Definition set_si_reset_node (x : bool) (i : stream_in) : stream_in :=
  {| si_config := i.(si_config); si_pcm := i.(si_pcm); si_devices := i.(si_devices); si_standby :=
     i.(si_standby); si_supported := i.(si_supported); si_pcm_wrapper := i.(si_pcm_wrapper);
     si_resampler := i.(si_resampler); si_buffer := i.(si_buffer); si_requested_rate :=
     i.(si_requested_rate); si_frames_in := i.(si_frames_in); si_read_status :=
     i.(si_read_status); si_pcm_hdl := i.(si_pcm_hdl); si_reset_node := x; si_sharing_node :=
     i.(si_sharing_node) |}.
Definition set_si_sharing_node (x : bool) (i : stream_in) : stream_in :=
  {| si_config := i.(si_config); si_pcm := i.(si_pcm); si_devices := i.(si_devices); si_standby :=
     i.(si_standby); si_supported := i.(si_supported); si_pcm_wrapper := i.(si_pcm_wrapper);
     si_resampler := i.(si_resampler); si_buffer := i.(si_buffer); si_requested_rate :=
     i.(si_requested_rate); si_frames_in := i.(si_frames_in); si_read_status :=
     i.(si_read_status); si_pcm_hdl := i.(si_pcm_hdl); si_reset_node := i.(si_reset_node);
     si_sharing_node := x |}.

(** The members of [struct alsa_audio_device] that are plain values. *)
Record adev_fields := {
  devices : Z;
  adev_mode : Z;
  adev_in_call : Z;
  adev_mic_mute : bool;
  is_usb_exist : bool;
  usb_card_id : Z;
  usb_port_id : Z;
  last_patch_id : Z;
  hfp_sample_rate : Z;
  adev_hfp_volume : Z;
  hs_device : Z;
  direct : mirror_direct;
  audio_sharing_ne : bool;
  audio_sharing_fe : bool
}.

Definition set_devices (x : Z) (d : adev_fields) : adev_fields :=
  {| devices := x; adev_mode := d.(adev_mode); adev_in_call := d.(adev_in_call); adev_mic_mute :=
     d.(adev_mic_mute); is_usb_exist := d.(is_usb_exist); usb_card_id := d.(usb_card_id);
     usb_port_id := d.(usb_port_id); last_patch_id := d.(last_patch_id); hfp_sample_rate :=
     d.(hfp_sample_rate); adev_hfp_volume := d.(adev_hfp_volume); hs_device := d.(hs_device);
     direct := d.(direct); audio_sharing_ne := d.(audio_sharing_ne); audio_sharing_fe :=
     d.(audio_sharing_fe) |}.
Definition set_adev_mode (x : Z) (d : adev_fields) : adev_fields :=
  {| devices := d.(devices); adev_mode := x; adev_in_call := d.(adev_in_call); adev_mic_mute :=
     d.(adev_mic_mute); is_usb_exist := d.(is_usb_exist); usb_card_id := d.(usb_card_id);
     usb_port_id := d.(usb_port_id); last_patch_id := d.(last_patch_id); hfp_sample_rate :=
     d.(hfp_sample_rate); adev_hfp_volume := d.(adev_hfp_volume); hs_device := d.(hs_device);
     direct := d.(direct); audio_sharing_ne := d.(audio_sharing_ne); audio_sharing_fe :=
     d.(audio_sharing_fe) |}.
Definition set_adev_in_call (x : Z) (d : adev_fields) : adev_fields :=
  {| devices := d.(devices); adev_mode := d.(adev_mode); adev_in_call := x; adev_mic_mute :=
     d.(adev_mic_mute); is_usb_exist := d.(is_usb_exist); usb_card_id := d.(usb_card_id);
     usb_port_id := d.(usb_port_id); last_patch_id := d.(last_patch_id); hfp_sample_rate :=
     d.(hfp_sample_rate); adev_hfp_volume := d.(adev_hfp_volume); hs_device := d.(hs_device);
     direct := d.(direct); audio_sharing_ne := d.(audio_sharing_ne); audio_sharing_fe :=
     d.(audio_sharing_fe) |}.
Definition set_adev_mic_mute (x : bool) (d : adev_fields) : adev_fields :=
  {| devices := d.(devices); adev_mode := d.(adev_mode); adev_in_call := d.(adev_in_call);
     adev_mic_mute := x; is_usb_exist := d.(is_usb_exist); usb_card_id := d.(usb_card_id);
     usb_port_id := d.(usb_port_id); last_patch_id := d.(last_patch_id); hfp_sample_rate :=
     d.(hfp_sample_rate); adev_hfp_volume := d.(adev_hfp_volume); hs_device := d.(hs_device);
     direct := d.(direct); audio_sharing_ne := d.(audio_sharing_ne); audio_sharing_fe :=
     d.(audio_sharing_fe) |}.
Definition set_last_patch_id (x : Z) (d : adev_fields) : adev_fields :=
  {| devices := d.(devices); adev_mode := d.(adev_mode); adev_in_call := d.(adev_in_call);
     adev_mic_mute := d.(adev_mic_mute); is_usb_exist := d.(is_usb_exist); usb_card_id :=
     d.(usb_card_id); usb_port_id := d.(usb_port_id); last_patch_id := x; hfp_sample_rate :=
     d.(hfp_sample_rate); adev_hfp_volume := d.(adev_hfp_volume); hs_device := d.(hs_device);
     direct := d.(direct); audio_sharing_ne := d.(audio_sharing_ne); audio_sharing_fe :=
     d.(audio_sharing_fe) |}.
Definition set_hfp_sample_rate (x : Z) (d : adev_fields) : adev_fields :=
  {| devices := d.(devices); adev_mode := d.(adev_mode); adev_in_call := d.(adev_in_call);
     adev_mic_mute := d.(adev_mic_mute); is_usb_exist := d.(is_usb_exist); usb_card_id :=
     d.(usb_card_id); usb_port_id := d.(usb_port_id); last_patch_id := d.(last_patch_id);
     hfp_sample_rate := x; adev_hfp_volume := d.(adev_hfp_volume); hs_device := d.(hs_device);
     direct := d.(direct); audio_sharing_ne := d.(audio_sharing_ne); audio_sharing_fe :=
     d.(audio_sharing_fe) |}.
Definition set_adev_hfp_volume (x : Z) (d : adev_fields) : adev_fields :=
  {| devices := d.(devices); adev_mode := d.(adev_mode); adev_in_call := d.(adev_in_call);
     adev_mic_mute := d.(adev_mic_mute); is_usb_exist := d.(is_usb_exist); usb_card_id :=
     d.(usb_card_id); usb_port_id := d.(usb_port_id); last_patch_id := d.(last_patch_id);
     hfp_sample_rate := d.(hfp_sample_rate); adev_hfp_volume := x; hs_device := d.(hs_device);
     direct := d.(direct); audio_sharing_ne := d.(audio_sharing_ne); audio_sharing_fe :=
     d.(audio_sharing_fe) |}.
Definition set_hs_device (x : Z) (d : adev_fields) : adev_fields :=
  {| devices := d.(devices); adev_mode := d.(adev_mode); adev_in_call := d.(adev_in_call);
     adev_mic_mute := d.(adev_mic_mute); is_usb_exist := d.(is_usb_exist); usb_card_id :=
     d.(usb_card_id); usb_port_id := d.(usb_port_id); last_patch_id := d.(last_patch_id);
     hfp_sample_rate := d.(hfp_sample_rate); adev_hfp_volume := d.(adev_hfp_volume); hs_device :=
     x; direct := d.(direct); audio_sharing_ne := d.(audio_sharing_ne); audio_sharing_fe :=
     d.(audio_sharing_fe) |}.
Definition set_direct (x : mirror_direct) (d : adev_fields) : adev_fields :=
  {| devices := d.(devices); adev_mode := d.(adev_mode); adev_in_call := d.(adev_in_call);
     adev_mic_mute := d.(adev_mic_mute); is_usb_exist := d.(is_usb_exist); usb_card_id :=
     d.(usb_card_id); usb_port_id := d.(usb_port_id); last_patch_id := d.(last_patch_id);
     hfp_sample_rate := d.(hfp_sample_rate); adev_hfp_volume := d.(adev_hfp_volume); hs_device :=
     d.(hs_device); direct := x; audio_sharing_ne := d.(audio_sharing_ne); audio_sharing_fe :=
     d.(audio_sharing_fe) |}.
Definition set_sharing (ne fe : bool) (d : adev_fields) : adev_fields :=
  {| devices := d.(devices); adev_mode := d.(adev_mode); adev_in_call := d.(adev_in_call);
     adev_mic_mute := d.(adev_mic_mute); is_usb_exist := d.(is_usb_exist); usb_card_id :=
     d.(usb_card_id); usb_port_id := d.(usb_port_id); last_patch_id := d.(last_patch_id);
     hfp_sample_rate := d.(hfp_sample_rate); adev_hfp_volume := d.(adev_hfp_volume); hs_device :=
     d.(hs_device); direct := d.(direct); audio_sharing_ne := ne; audio_sharing_fe := fe |}.

(** The HAL: the streamer with the sound system and the status of the buses,
    the paths of the remote service, the sharing tables, the mixers of the
    cards, the memory of the streams, the map from bus addresses to streams,
    and the rest of the device.  [perf_calls] lists the calls that acquire
    (true) and release the performance lock, the newest first.
    [hw_bt_stream] is the stream that the playback side of a call copies. *)
Record hw := {
  hw_hal : hal M W;
  hw_paths : path_hal (N := N);
  hw_dsts : list au_shr_dst;
  hw_srcs : list au_shr_src;
  hw_mixers : Z -> option M;
  hw_effects : E;
  hw_outs : list (option stream_out);
  hw_ins : list (option stream_in);
  hw_bus_map : list (string * nat);
  active_input : option nat;
  active_output : option nat;
  perf_calls : list bool;
  adev : adev_fields;
  hw_bt_data : list (option (btcall_data R));
  hw_bt_thread : option btcall_thread_data;
  hw_cfgs : cfg_name -> pcm_config;
  hw_bt_stream : option nat;
  hw_hfp : hfp_hal (M := M) (W := W) (N := N) (F := f32)
}.

Definition set_hw_hal (x : hal M W) (s : hw) : hw :=
  {| hw_hal := x; hw_paths := s.(hw_paths); hw_dsts := s.(hw_dsts); hw_srcs := s.(hw_srcs);
     hw_mixers := s.(hw_mixers); hw_effects := s.(hw_effects); hw_outs := s.(hw_outs); hw_ins :=
     s.(hw_ins); hw_bus_map := s.(hw_bus_map); active_input := s.(active_input); active_output :=
     s.(active_output); perf_calls := s.(perf_calls); adev := s.(adev); hw_bt_data :=
     s.(hw_bt_data); hw_bt_thread := s.(hw_bt_thread); hw_cfgs := s.(hw_cfgs); hw_bt_stream :=
     s.(hw_bt_stream); hw_hfp := s.(hw_hfp) |}.
Definition set_hw_paths (x : path_hal (N := N)) (s : hw) : hw :=
  {| hw_hal := s.(hw_hal); hw_paths := x; hw_dsts := s.(hw_dsts); hw_srcs := s.(hw_srcs);
     hw_mixers := s.(hw_mixers); hw_effects := s.(hw_effects); hw_outs := s.(hw_outs); hw_ins :=
     s.(hw_ins); hw_bus_map := s.(hw_bus_map); active_input := s.(active_input); active_output :=
     s.(active_output); perf_calls := s.(perf_calls); adev := s.(adev); hw_bt_data :=
     s.(hw_bt_data); hw_bt_thread := s.(hw_bt_thread); hw_cfgs := s.(hw_cfgs); hw_bt_stream :=
     s.(hw_bt_stream); hw_hfp := s.(hw_hfp) |}.
Definition set_hw_mixers (x : Z -> option M) (s : hw) : hw :=
  {| hw_hal := s.(hw_hal); hw_paths := s.(hw_paths); hw_dsts := s.(hw_dsts); hw_srcs :=
     s.(hw_srcs); hw_mixers := x; hw_effects := s.(hw_effects); hw_outs := s.(hw_outs); hw_ins :=
     s.(hw_ins); hw_bus_map := s.(hw_bus_map); active_input := s.(active_input); active_output :=
     s.(active_output); perf_calls := s.(perf_calls); adev := s.(adev); hw_bt_data :=
     s.(hw_bt_data); hw_bt_thread := s.(hw_bt_thread); hw_cfgs := s.(hw_cfgs); hw_bt_stream :=
     s.(hw_bt_stream); hw_hfp := s.(hw_hfp) |}.
Definition set_hw_effects (x : E) (s : hw) : hw :=
  {| hw_hal := s.(hw_hal); hw_paths := s.(hw_paths); hw_dsts := s.(hw_dsts); hw_srcs :=
     s.(hw_srcs); hw_mixers := s.(hw_mixers); hw_effects := x; hw_outs := s.(hw_outs); hw_ins :=
     s.(hw_ins); hw_bus_map := s.(hw_bus_map); active_input := s.(active_input); active_output :=
     s.(active_output); perf_calls := s.(perf_calls); adev := s.(adev); hw_bt_data :=
     s.(hw_bt_data); hw_bt_thread := s.(hw_bt_thread); hw_cfgs := s.(hw_cfgs); hw_bt_stream :=
     s.(hw_bt_stream); hw_hfp := s.(hw_hfp) |}.
Definition set_hw_outs (x : list (option stream_out)) (s : hw) : hw :=
  {| hw_hal := s.(hw_hal); hw_paths := s.(hw_paths); hw_dsts := s.(hw_dsts); hw_srcs :=
     s.(hw_srcs); hw_mixers := s.(hw_mixers); hw_effects := s.(hw_effects); hw_outs := x; hw_ins
     := s.(hw_ins); hw_bus_map := s.(hw_bus_map); active_input := s.(active_input); active_output
     := s.(active_output); perf_calls := s.(perf_calls); adev := s.(adev); hw_bt_data :=
     s.(hw_bt_data); hw_bt_thread := s.(hw_bt_thread); hw_cfgs := s.(hw_cfgs); hw_bt_stream :=
     s.(hw_bt_stream); hw_hfp := s.(hw_hfp) |}.
Definition set_hw_ins (x : list (option stream_in)) (s : hw) : hw :=
  {| hw_hal := s.(hw_hal); hw_paths := s.(hw_paths); hw_dsts := s.(hw_dsts); hw_srcs :=
     s.(hw_srcs); hw_mixers := s.(hw_mixers); hw_effects := s.(hw_effects); hw_outs :=
     s.(hw_outs); hw_ins := x; hw_bus_map := s.(hw_bus_map); active_input := s.(active_input);
     active_output := s.(active_output); perf_calls := s.(perf_calls); adev := s.(adev);
     hw_bt_data := s.(hw_bt_data); hw_bt_thread := s.(hw_bt_thread); hw_cfgs := s.(hw_cfgs);
     hw_bt_stream := s.(hw_bt_stream); hw_hfp := s.(hw_hfp) |}.
Definition set_hw_bus_map (x : list (string * nat)) (s : hw) : hw :=
  {| hw_hal := s.(hw_hal); hw_paths := s.(hw_paths); hw_dsts := s.(hw_dsts); hw_srcs :=
     s.(hw_srcs); hw_mixers := s.(hw_mixers); hw_effects := s.(hw_effects); hw_outs :=
     s.(hw_outs); hw_ins := s.(hw_ins); hw_bus_map := x; active_input := s.(active_input);
     active_output := s.(active_output); perf_calls := s.(perf_calls); adev := s.(adev);
     hw_bt_data := s.(hw_bt_data); hw_bt_thread := s.(hw_bt_thread); hw_cfgs := s.(hw_cfgs);
     hw_bt_stream := s.(hw_bt_stream); hw_hfp := s.(hw_hfp) |}.
Definition set_active_input (x : option nat) (s : hw) : hw :=
  {| hw_hal := s.(hw_hal); hw_paths := s.(hw_paths); hw_dsts := s.(hw_dsts); hw_srcs :=
     s.(hw_srcs); hw_mixers := s.(hw_mixers); hw_effects := s.(hw_effects); hw_outs :=
     s.(hw_outs); hw_ins := s.(hw_ins); hw_bus_map := s.(hw_bus_map); active_input := x;
     active_output := s.(active_output); perf_calls := s.(perf_calls); adev := s.(adev);
     hw_bt_data := s.(hw_bt_data); hw_bt_thread := s.(hw_bt_thread); hw_cfgs := s.(hw_cfgs);
     hw_bt_stream := s.(hw_bt_stream); hw_hfp := s.(hw_hfp) |}.
Definition set_active_output (x : option nat) (s : hw) : hw :=
  {| hw_hal := s.(hw_hal); hw_paths := s.(hw_paths); hw_dsts := s.(hw_dsts); hw_srcs :=
     s.(hw_srcs); hw_mixers := s.(hw_mixers); hw_effects := s.(hw_effects); hw_outs :=
     s.(hw_outs); hw_ins := s.(hw_ins); hw_bus_map := s.(hw_bus_map); active_input :=
     s.(active_input); active_output := x; perf_calls := s.(perf_calls); adev := s.(adev);
     hw_bt_data := s.(hw_bt_data); hw_bt_thread := s.(hw_bt_thread); hw_cfgs := s.(hw_cfgs);
     hw_bt_stream := s.(hw_bt_stream); hw_hfp := s.(hw_hfp) |}.
Definition set_perf_calls (x : list bool) (s : hw) : hw :=
  {| hw_hal := s.(hw_hal); hw_paths := s.(hw_paths); hw_dsts := s.(hw_dsts); hw_srcs :=
     s.(hw_srcs); hw_mixers := s.(hw_mixers); hw_effects := s.(hw_effects); hw_outs :=
     s.(hw_outs); hw_ins := s.(hw_ins); hw_bus_map := s.(hw_bus_map); active_input :=
     s.(active_input); active_output := s.(active_output); perf_calls := x; adev := s.(adev);
     hw_bt_data := s.(hw_bt_data); hw_bt_thread := s.(hw_bt_thread); hw_cfgs := s.(hw_cfgs);
     hw_bt_stream := s.(hw_bt_stream); hw_hfp := s.(hw_hfp) |}.
Definition set_adev (x : adev_fields) (s : hw) : hw :=
  {| hw_hal := s.(hw_hal); hw_paths := s.(hw_paths); hw_dsts := s.(hw_dsts); hw_srcs :=
     s.(hw_srcs); hw_mixers := s.(hw_mixers); hw_effects := s.(hw_effects); hw_outs :=
     s.(hw_outs); hw_ins := s.(hw_ins); hw_bus_map := s.(hw_bus_map); active_input :=
     s.(active_input); active_output := s.(active_output); perf_calls := s.(perf_calls); adev :=
     x; hw_bt_data := s.(hw_bt_data); hw_bt_thread := s.(hw_bt_thread); hw_cfgs := s.(hw_cfgs);
     hw_bt_stream := s.(hw_bt_stream); hw_hfp := s.(hw_hfp) |}.
Definition set_hw_bt_stream (x : option nat) (s : hw) : hw :=
  {| hw_hal := s.(hw_hal); hw_paths := s.(hw_paths); hw_dsts := s.(hw_dsts); hw_srcs :=
     s.(hw_srcs); hw_mixers := s.(hw_mixers); hw_effects := s.(hw_effects); hw_outs :=
     s.(hw_outs); hw_ins := s.(hw_ins); hw_bus_map := s.(hw_bus_map); active_input :=
     s.(active_input); active_output := s.(active_output); perf_calls := s.(perf_calls); adev :=
     s.(adev); hw_bt_data := s.(hw_bt_data); hw_bt_thread := s.(hw_bt_thread); hw_cfgs :=
     s.(hw_cfgs); hw_bt_stream := x; hw_hfp := s.(hw_hfp) |}.
Definition set_hw_hfp (x : hfp_hal (M := M) (W := W) (N := N) (F := f32)) (s : hw) : hw :=
  {| hw_hal := s.(hw_hal); hw_paths := s.(hw_paths); hw_dsts := s.(hw_dsts); hw_srcs :=
     s.(hw_srcs); hw_mixers := s.(hw_mixers); hw_effects := s.(hw_effects); hw_outs :=
     s.(hw_outs); hw_ins := s.(hw_ins); hw_bus_map := s.(hw_bus_map); active_input :=
     s.(active_input); active_output := s.(active_output); perf_calls := s.(perf_calls); adev :=
     s.(adev); hw_bt_data := s.(hw_bt_data); hw_bt_thread := s.(hw_bt_thread); hw_cfgs :=
     s.(hw_cfgs); hw_bt_stream := s.(hw_bt_stream); hw_hfp := x |}.
Definition set_hw_share (d : list au_shr_dst) (l : list au_shr_src) (h : hal M W) (s : hw) : hw :=
  {| hw_hal := h; hw_paths := s.(hw_paths); hw_dsts := d; hw_srcs := l; hw_mixers :=
     s.(hw_mixers); hw_effects := s.(hw_effects); hw_outs := s.(hw_outs); hw_ins := s.(hw_ins);
     hw_bus_map := s.(hw_bus_map); active_input := s.(active_input); active_output :=
     s.(active_output); perf_calls := s.(perf_calls); adev := s.(adev); hw_bt_data :=
     s.(hw_bt_data); hw_bt_thread := s.(hw_bt_thread); hw_cfgs := s.(hw_cfgs); hw_bt_stream :=
     s.(hw_bt_stream); hw_hfp := s.(hw_hfp) |}.
Definition set_hw_call (l : list (option (btcall_data R))) (t : option btcall_thread_data) (f : cfg_name -> pcm_config) (s : hw) : hw :=
  {| hw_hal := s.(hw_hal); hw_paths := s.(hw_paths); hw_dsts := s.(hw_dsts); hw_srcs :=
     s.(hw_srcs); hw_mixers := s.(hw_mixers); hw_effects := s.(hw_effects); hw_outs :=
     s.(hw_outs); hw_ins := s.(hw_ins); hw_bus_map := s.(hw_bus_map); active_input :=
     s.(active_input); active_output := s.(active_output); perf_calls := s.(perf_calls); adev :=
     s.(adev); hw_bt_data := l; hw_bt_thread := t; hw_cfgs := f; hw_bt_stream := s.(hw_bt_stream);
     hw_hfp := s.(hw_hfp) |}.
End State.
Arguments stream_out : clear implicits.
Arguments stream_in : clear implicits.
Arguments hw : clear implicits.

(** What the outside answers during an operation: whether a thread can be
    created and leaves in time, the other threads while this one sleeps, the
    arrays on the stack of the mixer and of the sharing, the pins of the head
    sets, the memory, the property and the library of the recording plugin,
    and [errno]. *)
Record hw_env (M W P : Type) := {
  e_created : bool;
  e_exits : bool;
  e_others : nat -> @halm M W unit;
  e_fuel : nat;
  e_in_tmp : list Z;
  e_write_buf : list Z;
  e_gpio : Z -> gpio_node;
  e_wrapper_mem : bool;
  e_plug_prop : option string;
  e_plug_mem : bool;
  e_plug_lib : option (plugin_library P);
  e_errno : Z
}.
Arguments e_created {M W P}. Arguments e_exits {M W P}. Arguments e_others {M W P}.
Arguments e_fuel {M W P}. Arguments e_in_tmp {M W P}. Arguments e_write_buf {M W P}.
Arguments e_gpio {M W P}. Arguments e_wrapper_mem {M W P}. Arguments e_plug_prop {M W P}.
Arguments e_plug_mem {M W P}. Arguments e_plug_lib {M W P}. Arguments e_errno {M W P}.

(** ** Operations *)

Section Streams.
Context {M : Type} `{MixerOps M} `{Alloc} {W : Type} `{PcmSystem W} {N : Type} `{Rpmsg N}
  {E : Type} `{EffectLib E} {R P : Type} `{AudioSystem}.
Context (cb_calloc : bool) (cb_malloc : Z -> option (list Z)) (rproc_mp : bool).
(** The platform, the board the HAL is built for, [ENABLE_AUDIO_SHAREING],
    whether [pcm_get_error] accepts a null pointer, and the resampler: its
    creation, its step from an input block (the resampler, the frames that it
    stored, their bytes). *)
Context (p : platform) (ref_a ref_b sharing_en error_null : bool)
  (create_resampler : Z -> Z -> Z -> Z * option R)
  (resample_from_input : R -> list Z -> Z -> Z -> R * Z * list Z) (rs_reset : R -> R)
  (pcm_get_htimestamp : Z -> W -> option Z).

Abbreviation state := (hw R M W N E P).
Abbreviation sout := (stream_out R).
Abbreviation sin := (stream_in R P).
Abbreviation env := (hw_env M W P).

Definition hwm (A : Type) : Type := st state A.

(** A stream by its index. *)
Definition get_out (i : nat) : hwm sout :=
  do! s := sget in
  match s.(hw_outs) !! i with Some (Some o) => sret o | _ => slift Undef end.
Definition put_out (i : nat) (o : sout) : hwm unit :=
  smodify (fun s => set_hw_outs (<[i := Some o]> s.(hw_outs)) s).
Definition upd_out (i : nat) (f : sout -> sout) : hwm unit := do! o := get_out i in put_out i (f o).
Definition get_in (i : nat) : hwm sin :=
  do! s := sget in
  match s.(hw_ins) !! i with Some (Some x) => sret x | _ => slift Undef end.
Definition put_in (i : nat) (x : sin) : hwm unit :=
  smodify (fun s => set_hw_ins (<[i := Some x]> s.(hw_ins)) s).
Definition upd_in (i : nat) (f : sin -> sin) : hwm unit := do! x := get_in i in put_in i (f x).

(** The address of a bus, which may be a null pointer. *)
Definition out_addr (o : sout) : hwm string :=
  match o.(so_bus_address) with Some a => sret a | None => slift Undef end.

(** The streamer's view of a stream. *)
Definition view_out (o : sout) : alsa_stream_out :=
  {| o_bus_num := o.(so_bus_num); o_bus_address := default EmptyString o.(so_bus_address);
     o_config := o.(so_config); o_pcm := negb (is_none o.(so_pcm)); o_pcm_hdl := o.(so_pcm_hdl);
     o_standby := o.(so_standby) |}.
Definition view_in (x : sin) : alsa_stream_in :=
  {| i_devices := x.(si_devices); i_config := x.(si_config); i_pcm := negb (is_none x.(si_pcm));
     i_pcm_hdl := x.(si_pcm_hdl); i_standby := x.(si_standby) |}.

(** Running the components. *)
Definition on_hal {A} (m : @halm M W A) : hwm A := fun s =>
  let! (a, h) := m s.(hw_hal) in Done (a, set_hw_hal h s).
Definition on_world {A} (f : W -> A * W) : hwm A := fun s =>
  let '(a, w) := f s.(hw_hal).(world) in Done (a, set_hw_hal (set_world w s.(hw_hal)) s).
Definition on_paths (f : path_hal -> outcome path_hal) : hwm unit := fun s =>
  let! x := f s.(hw_paths) in Done (tt, set_hw_paths x s).
Definition on_remote_path {A} (f : remote N -> A * remote N) : hwm unit :=
  smodify (fun s => set_hw_paths {| path_table := s.(hw_paths).(path_table);
                                    path_remote := (f s.(hw_paths).(path_remote)).2 |} s).
Definition on_share {A} (f : share W -> outcome (A * share W)) : hwm A := fun s =>
  let! (a, x) := f {| dsts := s.(hw_dsts); srcs := s.(hw_srcs); share_world := s.(hw_hal).(world) |} in
  Done (a, set_hw_share x.(dsts) x.(srcs) (set_world x.(share_world) s.(hw_hal)) s).
Definition on_effects {A} (f : E -> A * E) : hwm A := fun s =>
  let '(a, e) := f s.(hw_effects) in Done (a, set_hw_effects e s).

(** A pointer to a device is valid while the device is open. *)
Definition live (h : Z) : hwm unit :=
  do! s := sget in if decide (h ∈ opened s.(hw_hal).(world)) then sret tt else slift Undef.
Definition dev_close (h : Z) : hwm Z := do! _ := live h in on_world (pcm_close h).
Definition dev_write (pcm : option Z) (bs : list Z) : hwm Z :=
  match pcm with
  | None => slift Undef
  | Some h => do! _ := live h in on_world (pcm_write h bs)
  end.

(** The lock is taken and released when the other direction is idle. *)
Definition perf_call (acquire : bool) : hwm unit :=
  smodify (fun s => set_perf_calls (acquire :: s.(perf_calls)) s).
Definition perf_for_output (acquire : bool) : hwm unit :=
  do! s := sget in if is_none s.(active_input) then perf_call acquire else sret tt.
Definition perf_for_input (acquire : bool) : hwm unit :=
  do! s := sget in if is_none s.(active_output) then perf_call acquire else sret tt.

Definition card_id (name : string) : Z := sd_platform_get_card_id p.(dev_manager) name.

(** The first slot of a bus in the output map. *)
Definition first_slot (bus_num : Z) : outcome Z :=
  let! m := array_get p.(output_maps) bus_num in array_get m.(map_slots) 0.

(** The mixer is never closed.  A null mixer is passed on; the result of the
    C function, of type [bool], is never used. *)
Definition sd_virtual_i2s_switch (card : Z) (enable : bool) : hwm unit :=
  do! s := sget in
  match s.(hw_mixers) card with
  | None => slift Undef
  | Some m =>
      match mixer_get_ctl_by_name m STR_VIRT_I2S_SWITCH with
      | None => sret tt
      | Some c =>
          let m' := (mixer_ctl_set_value m c 0 (if enable then 1 else 0)).2 in
          smodify (set_hw_mixers (fun k => if k =? card then Some m' else s.(hw_mixers) k))
      end
  end.

(** *** Effects *)

(** A handle that is no effect (a null pointer, the library) is used. *)
Definition effect_command (o : sout) (c : effect_cmd) : hwm (Z * Z) :=
  match o.(so_effect).(effect_hdl) with
  | None => slift Undef
  | Some h =>
      do! s := sget in
      if decide (h ∈ ef_live s.(hw_effects)) then on_effects (ef_command h c) else slift Undef
  end.

Definition create_effect (i : nat) : hwm Z :=
  do! o := get_out i in
  match o.(so_effect).(effect_desc) with
  | None => sret (- EINVAL)
  | Some d =>
      do! (ret, h) := on_effects (ef_create d) in
      do! _ := put_out i (match h with
                          | Some h => set_so_effect {| effect_hdl := Some h; effect_desc := Some d |} o
                          | None => o
                          end) in
      sret ret
  end.

Definition out_effect_config (o : sout) (frames : Z) : hwm Z :=
  match o.(so_processed_buf) with
  | None => sret (- EINVAL)
  | Some _ =>
      do! _ := effect_command o (EFFECT_CMD_SET_CONFIG o.(so_config).(rate) o.(so_config).(channels)
                                   AUDIO_FORMAT_PCM_16_BIT frames) in
      sret 0
  end.

Definition out_effect_set_param (o : sout) : hwm Z :=
  do! (_, reply) := effect_command o (EFFECT_CMD_SET_PARAM LOUDNESS_ENHANCER_PARAM_TARGET_GAIN_MB
                                        o.(so_target_gain_mb)) in
  sret reply.

Definition out_effect_enable (o : sout) : hwm Z :=
  match o.(so_effect).(effect_hdl) with
  | None => sret (- EINVAL)
  | Some _ => do! (ret, _) := effect_command o EFFECT_CMD_ENABLE in sret ret
  end.

Definition start_sw_effect (i : nat) (bytes out_frames : Z) : hwm Z :=
  do! o := get_out i in
  if (bytes <=? o.(so_processed_buf_len)) && negb (is_none o.(so_effect).(effect_desc)) then
    do! ret := create_effect i in
    do! o := get_out i in
    do! _ := out_effect_enable o in
    do! _ := out_effect_config o out_frames in
    do! _ := out_effect_set_param o in
    sret ret
  else sret 0.

(** *** Starting a playback stream *)

(** The card and the port of a seat, and of the buses that are shared. *)
Definition seat_place (addr : string) : hwm (Z * Z) :=
  do! s := sget in
  if s.(adev).(is_usb_exist) then sret (s.(adev).(usb_card_id), s.(adev).(usb_port_id))
  else if strncmp_eq addr "bus100" then sret (card_id AUDIO_NAME_REAR1, CODEC_DEV)
  else if strncmp_eq addr "bus101" then sret (card_id AUDIO_NAME_REAR2, CODEC_DEV)
  else if strncmp_eq addr "bus102" then sret (card_id AUDIO_NAME_REAR3, CODEC_DEV)
  else if sharing_en && out_is_ssb_sharing_bus addr then
    do! _ := sd_virtual_i2s_switch (card_id AUDIO_NAME_REAR2) true in
    sret (card_id AUDIO_NAME_REAR2, REFB_VI2S_DEV)
  else if sharing_en && out_is_ssa_sharing_bus addr then
    do! _ := sd_virtual_i2s_switch (card_id AUDIO_NAME_REAR1) true in
    sret (card_id AUDIO_NAME_REAR1, REFA_VI2S_DEV)
  else sret (0, 0).

(** Opening the own device of a stream: whether it is ready.  The message of
    the failure is asked from the null pointer. *)
Definition open_own_pcm (i : nat) (card port : Z) : hwm bool :=
  do! o := get_out i in
  do! h := on_world (pcm_open_prepare_helper card port PCM_OUT PROXY_OPEN_RETRY_COUNT o.(so_config)) in
  do! _ := put_out i (set_so_pcm h o) in
  match h with
  | None => if error_null then sret false else slift Undef
  | Some h => do! s := sget in sret (pcm_is_ready h s.(hw_hal).(world))
  end.

Definition open_seat (i : nat) (addr : string) : hwm bool :=
  do! (card, port) := seat_place addr in
  if card <? 0 then sret false else open_own_pcm i card port.

(** An address that the description does not know is played on device 0 of
    card 0. *)
Definition open_ahub (i : nat) (addr : string) : hwm bool :=
  do! o := get_out i in
  do! (_, place, c) := slift (sd_platform_get_card_info p addr o.(so_config)) in
  let '(card, port) := default (0, 0) place in
  let c := {| channels := c.(channels); rate := c.(rate); period_size := c.(period_size);
              period_count := c.(period_count); cfg_format := c.(cfg_format);
              start_threshold := u32 (PLAYBACK_PERIOD_START_THRESHOLD * c.(period_size));
              stop_threshold := u32 (PLAYBACK_PERIOD_STOP_THRESHOLD * c.(period_size));
              silence_threshold := c.(silence_threshold); silence_size := c.(silence_size) |} in
  do! _ := put_out i (set_so_config c o) in
  open_own_pcm i card port.

(** The device that a handle of the streamer has opened. *)
Definition handle_pcm (k : nat) : hwm (option Z) :=
  do! s := sget in sret (match s.(hw_hal).(out_streams) !! k with Some hl => hl.(h_pcm) | None => None end).

(** The path stays counted when the streamer fails. *)
Definition open_main (e : env) (i : nat) : hwm bool :=
  let card := card_id AUDIO_NAME_PRIMARY in
  if card <? 0 then sret false
  else
    do! o := get_out i in
    do! _ := on_paths (open_output_path rproc_mp o.(so_bus_num)) in
    let config := (sd_platform_get_card_pcm_config p.(dev_manager) AUDIO_NAME_PRIMARY
                     AUDIO_HAL_PLAYBACK zero_config).2 in
    do! (k, _) := on_hal (hal_streamer_open_out cb_calloc cb_malloc e.(e_created) (view_out o)
                            card CODEC_DEV config) in
    match k with
    | None => do! _ := put_out i (set_so_pcm_hdl None (set_so_pcm None o)) in sret false
    | Some k =>
        do! h := handle_pcm k in
        do! _ := put_out i (set_so_pcm_hdl (Some k) (set_so_pcm h o)) in
        sret true
    end.

(** A resampler that can not be had ends the start with everything open. *)
Definition out_resampler (i : nat) : hwm Z :=
  do! o := get_out i in
  if p.(misc).(sw_out_src) && negb (HIFI_SAMPLING_RATE =? o.(so_config).(rate)) then
    let '(ret, rs) := create_resampler o.(so_config).(rate) HIFI_SAMPLING_RATE o.(so_config).(channels) in
    if negb (ret =? 0) then sret ret
    else do! _ := put_out i (set_so_resampler rs o) in sret 0
  else sret 0.

Definition start_output_stream (e : env) (i : nat) : hwm Z :=
  do! o := get_out i in
  do! addr := out_addr o in
  do! _ := perf_for_output true in
  do! _ := smodify (set_active_output (Some i)) in
  do! ok := (if out_is_rear_seat_or_sharing_addr addr then open_seat i addr
             else if p.(misc).(ahub_en) then open_ahub i addr
             else open_main e i) in
  if ok : bool then out_resampler i
  else
    do! _ := smodify (set_active_output None) in
    do! _ := perf_for_output false in
    sret (- ENODEV).

(** *** Standby *)

(** Closing the own device: a device that does not close is kept. *)
Definition close_own_pcm (i : nat) (h : Z) : hwm unit :=
  do! ret := dev_close h in
  if ret =? 0 then upd_out i (set_so_pcm None) else sret tt.

Definition release_seat (addr : string) : hwm unit :=
  if sharing_en then
    if out_is_ssb_sharing_bus addr then sd_virtual_i2s_switch (card_id AUDIO_NAME_REAR2) false
    else if out_is_ssa_sharing_bus addr then sd_virtual_i2s_switch (card_id AUDIO_NAME_REAR1) false
    else sret tt
  else sret tt.

Definition release_streamer (e : env) (i : nat) (o : sout) : hwm unit :=
  do! slot0 := slift (first_slot o.(so_bus_num)) in
  do! (_, v) := on_hal (hal_streamer_close_out e.(e_exits) (view_out o) slot0) in
  do! _ := put_out i (if v.(o_pcm) then o else set_so_pcm None o) in
  on_paths (close_output_path rproc_mp o.(so_bus_num)).

Definition release_devices (e : env) (i : nat) (addr : string) : hwm unit :=
  do! o := get_out i in
  match o.(so_pcm), o.(so_pcm_hdl) with
  | Some h, hdl =>
      if out_is_rear_seat_or_sharing_addr addr then
        do! _ := close_own_pcm i h in release_seat addr
      else
        match hdl with
        | Some _ => release_streamer e i o
        | None => close_own_pcm i h
        end
  | None, Some _ => release_streamer e i o
  | None, None => sret tt
  end.

Definition release_effect (o : sout) : hwm unit :=
  match o.(so_effect).(effect_desc), o.(so_effect).(effect_hdl) with
  | None, _ => sret tt
  | Some _, None => slift Undef
  | Some _, Some h =>
      do! s := sget in
      if decide (h ∈ ef_live s.(hw_effects)) then on_effects (fun x => (tt, ef_release h x)) else slift Undef
  end.

Definition release_repeater (i : nat) : hwm unit :=
  do! o := get_out i in
  match o.(so_repeater_src) with
  | Some k =>
      if sharing_en then
        do! _ := on_share (fun x => let! x := au_sharing_release_src (Z.of_nat k) x in Done (tt, x)) in
        put_out i (set_so_repeater_src None o)
      else sret tt
  | None => sret tt
  end.

Definition do_output_standby (e : env) (i : nat) : hwm Z :=
  do! o := get_out i in
  if o.(so_standby) then sret 0
  else
    do! addr := out_addr o in
    do! _ := release_devices e i addr in
    do! _ := upd_out i (set_so_resampler None) in
    do! _ := smodify (set_active_output None) in
    do! _ := release_repeater i in
    do! o := get_out i in
    do! _ := release_effect o in
    do! _ := upd_out i (set_so_standby true) in
    do! _ := perf_for_output false in
    sret 0.

Definition out_standby (e : env) (i : nat) : hwm Z := do_output_standby e i.

(** *** Parameters of a playback stream *)

(** The value of a key in an array of [n] bytes, and the status of the look-up:
    the length of the whole value. *)
Definition parms_value {X} `{StrParms X} (n : nat) (q : X) (key : string) : option (string * Z) :=
  match str_parms_get q key with
  | Some v => Some (String.substring 0 (n - 1) v, Z.of_nat (String.length v))
  | None => None
  end.

(** [out_all] is [AUDIO_DEVICE_OUT_ALL]. *)
Definition out_set_parameters {X} `{StrParms X} (out_all : Z) (kvpairs : string) : hwm Z :=
  if (kvpairs =? EmptyString)%string then sret 0
  else
    match parms_value 32 (str_parms_create_str (P := X) kvpairs) AUDIO_PARAMETER_STREAM_ROUTING with
    | None => sret (- ENOSYS)
    | Some (value, ret) =>
        do! val := slift (atoi value) in
        do! s := sget in
        let d := s.(adev).(devices) in
        do! _ :=
          (if negb (Z.land d out_all =? val) && negb (val =? 0)
           then smodify (set_adev (set_devices (Z.lor (Z.land d (Z.lnot out_all)) val) s.(adev)))
           else sret tt) in
        sret ret
    end.

(** *** Writing *)

(** Where the data of a write is after its processing. *)
Inductive place := InCaller | InResampled | InProcessed.

(** The frames, and where they are. *)
Definition sw_resample_process (i : nat) (data : list Z) (out_frames rsp_out_frames : Z)
  : hwm (place * list Z * Z) :=
  do! o := get_out i in
  match o.(so_resampler) with
  | Some rs =>
      let '(rs, n, bs) := resample_from_input rs data out_frames rsp_out_frames in
      do! buf := slift (mem_write o.(so_rsp_out_buffer) 0 bs) in
      do! _ := put_out i (set_so_rsp_out_buffer buf (set_so_resampler (Some rs) o)) in
      sret (InResampled, buf, n)
  | None => sret (InCaller, data, out_frames)
  end.

(** The buffer of the effect is cleared and filled. *)
Definition sw_effect_process (i : nat) (w : place) (buf : list Z) (out_frames : Z)
  : hwm (place * list Z) :=
  do! o := get_out i in
  match o.(so_effect).(effect_desc) with
  | None => sret (w, buf)
  | Some _ =>
      do! _ := out_effect_set_param o in
      match o.(so_effect).(effect_hdl) with
      | None => slift Undef
      | Some h =>
          let zeros := replicate (Z.to_nat o.(so_processed_buf_len)) 0 in
          do! mem := slift (match o.(so_processed_buf) with
                            | Some mem => mem_write mem 0 zeros
                            | None => if o.(so_processed_buf_len) =? 0 then Done [] else Undef
                            end) in
          do! bs := on_effects (ef_process h buf out_frames) in
          do! mem := slift (mem_write mem 0 bs) in
          do! _ := put_out i (set_so_processed_buf (Some mem) o) in
          sret (InProcessed, mem)
      end
  end.

(** The gain is applied in place, in the caller's buffer too. *)
Definition sw_gain_process (i : nat) (buf : list Z) (bytes : Z) : hwm (list Z) :=
  do! o := get_out i in
  if p.(misc).(sw_gain) then
    do! _ := slift (mem_read buf 0 bytes) in
    do! l := slift (audio_extra_sw_gain_16 o.(so_amplitude_ratio)
                      (samples (take (Z.to_nat (bytes / 2 * 2)) buf)) bytes) in
    sret (splice buf 0 (sample_bytes l))
  else sret buf.

Definition pcm_write_helper (e : env) (i : nat) (buf : list Z) (bytes : Z) : hwm (Z * list Z) :=
  do! buf := sw_gain_process i buf bytes in
  do! o := get_out i in
  do! addr := out_addr o in
  do! bs := slift (mem_read buf 0 bytes) in
  do! ret :=
    (if out_is_rear_seat_or_sharing_addr addr then dev_write o.(so_pcm) bs
     else
       match o.(so_pcm_hdl) with
       | Some _ => on_hal (hal_streamer_write e.(e_others) e.(e_fuel) (Some (view_out o)) (Some bs) bytes
                             e.(e_in_tmp))
       | None => dev_write o.(so_pcm) bs
       end) in
  sret (ret, buf).

(** The gain of the stream that plays on a bus. *)
Fixpoint map_find (l : list (string * nat)) (k : string) : option nat :=
  match l with
  | [] => None
  | (k', i) :: l => if String.eqb k k' then Some i else map_find l k
  end.

Definition bus_amplitude (s : state) (addr : string) : option f32 :=
  match map_find s.(hw_bus_map) addr with
  | Some i => match s.(hw_outs) !! i with Some (Some o) => Some o.(so_amplitude_ratio) | _ => None end
  | None => None
  end.

(** Mirroring the data to another seat. *)
Definition share_block (e : env) (i : nat) (buf : list Z) (bytes location : Z) : hwm unit :=
  do! o := get_out i in
  match o.(so_repeater_src) with
  | None => slift Undef
  | Some k =>
      do! s := sget in
      on_share (fun x =>
        let! x := au_sharing_duplicate p.(dev_manager) ref_a ref_b (bus_amplitude s) e.(e_write_buf)
                    (Z.of_nat k) buf (u32 bytes) location s.(adev).(direct) x in
        Done (tt, x))
  end.

Definition share_write (e : env) (i : nat) (addr : string) (buf : list Z) (bytes : Z) : hwm unit :=
  if negb sharing_en then sret tt
  else if out_is_ssa_sharing_bus addr then sret tt
  else if out_is_ssb_sharing_bus addr then sret tt
  else if out_is_rear_seat_addr addr then
    if ref_a then share_block e i buf bytes SSA_SRC_SEC_EP
    else if ref_b then
      share_block e i buf bytes (if out_is_main_seat_addr addr then SSB_SRC_PRI_EP else SSB_SRC_SEC_EP)
    else sret tt
  else if ref_a then share_block e i buf bytes SSA_SRC_PRI_EP
  else sret tt.

(** A stream in standby is started by a write: the status. *)
Definition wake_output (e : env) (i : nat) (bytes frame_size : Z) : hwm Z :=
  do! o := get_out i in
  if negb o.(so_standby) then sret 0
  else
    do! ret := start_output_stream e i in
    if negb (ret =? 0) then sret ret
    else
      do! _ := start_sw_effect i bytes frame_size in
      do! o := get_out i in
      do! _ :=
        (if sharing_en && is_none o.(so_repeater_src) then
           do! k := on_share (fun x => Done (au_sharing_get_src o.(so_bus_num) o.(so_config).(channels) x)) in
           put_out i (set_so_repeater_src k o)
         else sret tt) in
      do! _ := upd_out i (set_so_standby false) in
      sret 0.

(** The block on its way to the device: the caller's buffer afterwards. *)
Definition play_block (e : env) (i : nat) (addr : string) (data : list Z) (out_frames frame_size : Z)
  : hwm (list Z) :=
  do! (w, buf, out_frames) := sw_resample_process i data out_frames (RESAMPLER_BUFFER_SIZE / frame_size) in
  do! (w, buf) := sw_effect_process i w buf out_frames in
  do! _ := share_write e i addr buf (out_frames * frame_size) in
  do! (_, buf) := pcm_write_helper e i buf (out_frames * frame_size) in
  do! _ := upd_out i (fun o =>
             let o := match w with
                      | InCaller => o
                      | InResampled => set_so_rsp_out_buffer buf o
                      | InProcessed => set_so_processed_buf (Some buf) o
                      end in
             set_so_written (u64 (o.(so_written) + out_frames)) o) in
  sret (match w with InCaller => buf | _ => data end).

(** Whether another seat plays on the device of this stream. *)
Definition seat_taken (addr : string) : hwm bool :=
  if sharing_en then
    do! free := on_share (fun x => let! b := au_sharing_get_state addr x in Done (b, x)) in
    sret (negb free)
  else sret false.

(** The result, and the caller's buffer afterwards.  Every path ends with the
    number of bytes. *)
Definition _out_write (e : env) (i : nat) (data : list Z) : hwm (Z * list Z) :=
  do! o := get_out i in
  let bytes := zlen data in
  let frame_size := audio_stream_out_frame_size o.(so_config) in
  if frame_size =? 0 then slift Undef
  else
    do! addr := out_addr o in
    do! taken := seat_taken addr in
    if taken : bool then
      do! _ := (if o.(so_standby) then sret 0 else out_standby e i) in
      sret (bytes, data)
    else
      do! ret := wake_output e i bytes frame_size in
      if negb (ret =? 0) then
        do! o := get_out i in
        if out_get_sample_rate o.(so_config) =? 0 then slift Undef else sret (bytes, data)
      else
        do! data := play_block e i addr data (bytes / frame_size) frame_size in
        sret (bytes, data).

(** The status and, when it is 0, the position.  The position is unsigned, so
    that the test of its sign is always true. *)
Definition out_get_presentation_position (i : nat) : hwm (Z * option Z) :=
  do! o := get_out i in
  match o.(so_pcm), o.(so_standby) with
  | Some h, false =>
      do! _ := live h in
      do! s := sget in
      match pcm_get_htimestamp h s.(hw_hal).(world) with
      | Some avail =>
          let kernel_buffer_size := u32 (o.(so_config).(period_size) * o.(so_config).(period_count)) in
          let signed_frames := u64 (o.(so_written) - kernel_buffer_size + avail) in
          sret (if 0 <=? signed_frames then (0, Some signed_frames) else (-1, None))
      | None => sret (-1, None)
      end
  | _, _ => sret (-1, None)
  end.

Definition out_get_render_position : Z * Z := (- ENOSYS, 0).

(** *** The recording wrapper *)

(** The functions of tinyalsa that the wrapper calls, in the state [w] of the
    sound system.  Each of [pcm_wrapper_open], [pcm_wrapper_read] and
    [pcm_wrapper_close] calls one of them once. *)
Definition alsa_at (w : W) : tinyalsa Z :=
  {| PcmWrapper.pcm_format_to_bits := pcm_format_to_bits;
     PcmWrapper.pcm_open := fun card dev flg cfg =>
       match cfg with Some cfg => (pcm_open card dev flg cfg w).1 | None => None end;
     PcmWrapper.pcm_write := fun h buf n => ((pcm_write h buf w).1, h);
     PcmWrapper.pcm_read := fun h buf n => let '(r, bs, _) := pcm_read h n w in (r, splice buf 0 bs, h);
     PcmWrapper.pcm_close := fun h => (pcm_close h w).1 |}.

Definition wrapper_open (e : env) (card port : Z) (cfg : pcm_config) : hwm (option (pcm_wrapper Z P)) :=
  do! s := sget in
  let w := s.(hw_hal).(world) in
  do! x := slift (pcm_wrapper_open (alsa_at w) e.(e_wrapper_mem) e.(e_plug_prop) e.(e_plug_mem)
                    e.(e_plug_lib) card port PCM_IN (Some cfg)) in
  do! _ := (if e.(e_wrapper_mem) then do! _ := on_world (pcm_open card port PCM_IN cfg) in sret tt
            else sret tt) in
  sret x.

Definition wrapper_read (e : env) (x : pcm_wrapper Z P) (buf : list Z) (n : Z)
  : hwm (Z * list Z * pcm_wrapper Z P) :=
  do! s := sget in
  match x.(alsa_pcm) with
  | None => slift Undef
  | Some h =>
      do! _ := live h in
      do! r := slift (pcm_wrapper_read (alsa_at s.(hw_hal).(world)) x buf n e.(e_errno)) in
      do! (_, bs) := on_world (pcm_read h n) in
      do! _ := slift (mem_write buf 0 bs) in
      sret r
  end.

Definition wrapper_close (x : pcm_wrapper Z P) : hwm Z :=
  do! s := sget in
  do! ret := slift (pcm_wrapper_close (alsa_at s.(hw_hal).(world)) x) in
  match x.(alsa_pcm) with
  | None => sret ret
  | Some h => do! _ := dev_close h in sret ret
  end.

(** *** Standby of a recording stream *)

Definition has_remote (s : state) : bool := 0 <? s.(hw_paths).(path_remote).(fd).

(** A wrapper that can not be closed is kept, although it was freed. *)
Definition do_in_standby (e : env) (i : nat) : hwm Z :=
  do! x := get_in i in
  if x.(si_standby) then sret 0
  else
    do! ok :=
      (match x.(si_pcm_wrapper) with
       | Some wr =>
           do! ret := wrapper_close wr in
           if ret =? 0 then
             do! _ := put_in i (set_si_pcm None (set_si_pcm_wrapper None x)) in sret true
           else sret false
       | None =>
           match x.(si_pcm_hdl) with
           | Some _ =>
               do! (_, v) := on_hal (hal_streamer_close_in e.(e_exits) (view_in x)) in
               do! _ := put_in i (set_si_pcm_hdl None (if v.(i_pcm) then x else set_si_pcm None x)) in
               do! s := sget in
               do! _ := (if has_remote s
                         then on_remote_path (audio_remote_stop rproc_mp HIFI_CAPTURE_FROM_MAIN_MIC_48K)
                         else sret tt) in
               sret true
           | None => sret true
           end
       end) in
    if ok : bool then
      do! _ := upd_in i (set_si_resampler None) in
      do! _ := smodify (set_active_input None) in
      do! _ := upd_in i (set_si_standby true) in
      sret 0
    else sret (-1).

Definition in_standby (e : env) (i : nat) : hwm Z := do_in_standby e i.

(** *** Starting a recording stream *)

(** The card, and the configuration when it is not the default one. *)
Definition input_place (e : env) (x : sin) : hwm (option (Z * pcm_config)) :=
  do! s := sget in
  let place name := if 0 <=? card_id name then Some (card_id name, rear_100_cap_cfg_ref) else None in
  if ref_b then
    do! a := slift (get_active_hs_device e.(e_gpio) s.(adev).(hs_device)) in
    sret (place (if Z.land a REAR_SEAT3_HS_STATUS =? 0 then AUDIO_NAME_REAR2 else AUDIO_NAME_REAR3))
  else if AUDIO_DEVICE_IN_WIRED_HEADSET =? x.(si_devices) then sret (place AUDIO_NAME_REAR1)
  else sret (if card_id AUDIO_NAME_PRIMARY <? 0 then None
             else Some (card_id AUDIO_NAME_PRIMARY, default_input_config)).

(** The far end of a sharing records from the virtual device. *)
Definition sharing_place (i : nat) (card : Z) (cfg : pcm_config) : hwm (option (Z * Z * pcm_config)) :=
  if negb sharing_en then sret (Some (card, CODEC_DEV_IN, cfg))
  else
    do! _ := upd_in i (set_si_sharing_node false) in
    do! s := sget in
    if s.(adev).(audio_sharing_fe) then
      let '(name, port) := if ref_b then (AUDIO_NAME_REAR2, REFB_VI2S_DEV) else (AUDIO_NAME_REAR1, REFA_VI2S_DEV) in
      if card_id name <? 0 then sret None
      else
        do! _ := upd_in i (set_si_sharing_node true) in
        sret (Some (card_id name, port, main_config_ref_virtual))
    else sret (Some (card, CODEC_DEV_IN, cfg)).

(** A start that fails after the device was chosen. *)
Definition input_failed : hwm Z :=
  do! _ := smodify (set_active_input None) in
  do! _ := perf_for_input false in
  sret (- ENODEV).

(** A wrapper whose device is not ready stays open. *)
Definition start_wrapper (e : env) (i : nat) (card port : Z) (cfg : pcm_config) : hwm Z :=
  do! wr := wrapper_open e card port cfg in
  do! wr :=
    (match wr with
     | Some wr =>
         do! (_, wr) := slift (pcm_wrapper_prepare wr) in
         do! (_, wr) := slift (pcm_wrapper_start wr) in
         sret (Some wr)
     | None => sret None
     end) in
  let pcm := pcm_wrapper_get_handler wr in
  do! _ := upd_in i (fun x => set_si_pcm pcm (set_si_pcm_wrapper wr x)) in
  do! s := sget in
  match pcm with
  | Some h => if pcm_is_ready h s.(hw_hal).(world) then sret 0 else input_failed
  | None => input_failed
  end.

Definition start_main_input (e : env) (i : nat) (card port : Z) (cfg : pcm_config) : hwm Z :=
  do! s := sget in
  do! _ := (if has_remote s
            then on_remote_path (audio_remote_start rproc_mp HIFI_CAPTURE_FROM_MAIN_MIC_48K 100)
            else sret tt) in
  do! x := get_in i in
  let r := x.(si_config).(rate) in
  let c := if p.(misc).(ahub_en) then
             {| channels := cfg.(channels); rate := r; period_size := u32 (r * IN_PERIOD_MS) / 1000;
                period_count := cfg.(period_count); cfg_format := cfg.(cfg_format);
                start_threshold := cfg.(start_threshold); stop_threshold := cfg.(stop_threshold);
                silence_threshold := cfg.(silence_threshold); silence_size := cfg.(silence_size) |}
           else default_input_config in
  do! k := on_hal (hal_streamer_open_in cb_calloc cb_malloc e.(e_created) (view_in x) card port c) in
  do! _ := put_in i (set_si_pcm_hdl k x) in
  match k with Some _ => sret 0 | None => input_failed end.

Definition in_resampler (i : nat) : hwm Z :=
  do! x := get_in i in
  if p.(misc).(sw_in_src) then
    do! ret :=
      (if negb (x.(si_requested_rate) =? x.(si_config).(rate)) then
         let '(ret, rs) := create_resampler x.(si_config).(rate) x.(si_requested_rate) x.(si_config).(channels) in
         if negb (ret =? 0) then sret (- EINVAL)
         else do! _ := put_in i (set_si_resampler rs x) in sret 0
       else sret 0) in
    if negb (ret =? 0) then sret ret
    else
      do! x := get_in i in
      match x.(si_resampler) with
      | Some rs => do! _ := put_in i (set_si_frames_in 0 (set_si_resampler (Some (rs_reset rs)) x)) in sret 0
      | None => sret 0
      end
  else sret 0.

(** The two ends without a card keep [active_input]. *)
Definition start_input_stream (e : env) (i : nat) : hwm Z :=
  do! x := get_in i in
  do! s := sget in
  if s.(adev).(adev_mode) =? AUDIO_MODE_IN_CALL then sret 0
  else
    do! _ := perf_for_input true in
    do! _ := smodify (set_active_input (Some i)) in
    do! place := input_place e x in
    match place with
    | None => sret (- ENODEV)
    | Some (card, cfg) =>
        do! place := sharing_place i card cfg in
        match place with
        | None => sret (- ENODEV)
        | Some (card, port, cfg) =>
            do! ret :=
              (if (AUDIO_DEVICE_IN_WIRED_HEADSET =? x.(si_devices))
                  || (sharing_en && s.(adev).(audio_sharing_fe)) || ref_b
               then start_wrapper e i card port cfg
               else start_main_input e i card port cfg) in
            if negb (ret =? 0) then sret ret else in_resampler i
        end
    end.

(** *** Reading *)

Definition pcm_read_hw (e : env) (i : nat) (buf : list Z) (bytes : Z) : hwm (Z * list Z) :=
  do! x := get_in i in
  match x.(si_pcm_wrapper) with
  | Some wr =>
      do! (ret, buf, wr) := wrapper_read e wr buf bytes in
      do! _ := put_in i (set_si_pcm_wrapper (Some wr) x) in
      sret (ret, buf)
  | None =>
      match x.(si_pcm_hdl) with
      | Some _ => on_hal (hal_streamer_read e.(e_others) (view_in x) buf bytes)
      | None => sret (- EINVAL, buf)
      end
  end.

(** [get_next_buffer] for at most [frame_count] frames: the status, the frames
    that are offered, and where they are in the buffer of the stream. *)
Definition in_get_next_buffer (e : env) (i : nat) (frame_count : Z) : hwm (Z * Z * option Z) :=
  do! x := get_in i in
  let period := x.(si_config).(period_size) in
  do! failed :=
    (if x.(si_frames_in) =? 0 then
       match x.(si_buffer) with
       | None => slift Undef
       | Some buf =>
           do! (ret, buf) := pcm_read_hw e i buf (period * audio_stream_in_frame_size x.(si_config)) in
           do! _ := upd_in i (fun x => set_si_read_status ret (set_si_buffer (Some buf) x)) in
           if negb (ret =? 0) then sret true
           else do! _ := upd_in i (set_si_frames_in period) in sret false
       end
     else sret false) in
  do! x := get_in i in
  if failed : bool then sret (x.(si_read_status), 0, None)
  else
    sret (x.(si_read_status), Z.min frame_count x.(si_frames_in),
          Some (2 * (u64 (period - x.(si_frames_in)) * x.(si_config).(channels)))).

Definition in_release_buffer (i : nat) (frame_count : Z) : hwm unit :=
  upd_in i (fun x => set_si_frames_in (u64 (x.(si_frames_in) - frame_count)) x).

(** [resample_from_provider] gets frames through the two functions above: the
    frames that it stored, and their bytes. *)
Context (resample : R -> (Z -> hwm (Z * Z * option Z)) -> (Z -> hwm unit) -> Z -> hwm (Z * list Z)).

(** One round of [read_frames] without a resampler. *)
Definition copy_frames (e : env) (i : nat) (buf : list Z) (off want fs : Z) : hwm (Z * list Z) :=
  do! (_, cnt, src) := in_get_next_buffer e i want in
  do! (rd, buf) :=
    (match src with
     | Some src =>
         do! x := get_in i in
         match x.(si_buffer) with
         | None => slift Undef
         | Some mem => do! buf := slift (memcpy buf off mem src (cnt * fs)) in sret (cnt, buf)
         end
     | None => sret (want, buf)
     end) in
  do! _ := in_release_buffer i cnt in
  sret (rd, buf).

Fixpoint in_read_frames (fuel : nat) (e : env) (i : nat) (buf : list Z) (frames_wr frames : Z)
  : hwm (Z * list Z) :=
  if frames_wr <? frames then
    match fuel with
    | O => slift Blocked
    | S fuel =>
        do! x := get_in i in
        let fs := audio_stream_in_frame_size x.(si_config) in
        let want := frames - frames_wr in
        do! (rd, buf) :=
          (match x.(si_resampler) with
           | Some rs =>
               do! (rd, bs) := resample rs (in_get_next_buffer e i) (in_release_buffer i) want in
               do! buf := slift (mem_write buf (frames_wr * fs) bs) in
               sret (rd, buf)
           | None => copy_frames e i buf (frames_wr * fs) want fs
           end) in
        do! x := get_in i in
        if x.(si_read_status) =? 0 then in_read_frames fuel e i buf (frames_wr + rd) frames
        else sret (x.(si_read_status), buf)
    end
  else sret (frames_wr, buf).

(** The part of [in_read] under the lock of the stream. *)
Definition read_locked (e : env) (i : nat) (buf : list Z) (bytes : Z) : hwm (Z * list Z) :=
  do! x := get_in i in
  do! ret :=
    (if x.(si_standby) then
       do! ret := start_input_stream e i in
       if negb (ret =? 0) then sret ret else do! _ := upd_in i (set_si_standby false) in sret 0
     else sret 0) in
  if negb (ret =? 0) then sret (ret, buf)
  else
    do! x := get_in i in
    let fs := audio_stream_in_frame_size x.(si_config) in
    if fs =? 0 then slift Undef
    else
      do! (ret, buf) :=
        (match x.(si_resampler) with
         | Some _ => in_read_frames e.(e_fuel) e i buf 0 (bytes / fs)
         | None => pcm_read_hw e i buf bytes
         end) in
      sret (ret, buf).

(** The result, and the buffer of the caller, of [bytes] bytes. *)
Definition in_read (e : env) (i : nat) (buf : list Z) : hwm (Z * list Z) :=
  let bytes := zlen buf in
  do! s := sget in
  if s.(adev).(adev_mode) =? AUDIO_MODE_IN_CALL then sret (1, buf)
  else
    do! (ret, buf) := read_locked e i buf bytes in
    do! x := get_in i in
    do! _ :=
      (if sharing_en && x.(si_reset_node) then
         do! _ := in_standby e i in upd_in i (set_si_reset_node false)
       else sret tt) in
    if ret <? 0 then
      do! _ := in_standby e i in
      do! x := get_in i in
      let fs := audio_stream_in_frame_size x.(si_config) in
      if (fs =? 0) || (in_get_sample_rate p.(misc).(sw_in_src) x.(si_requested_rate) x.(si_config) =? 0)
      then slift Undef
      else sret (bytes, map (fun _ => 0) buf)
    else sret (bytes, buf).

(** The device is closed behind the back of the wrapper. *)
Definition in_stop (i : nat) : hwm Z :=
  do! x := get_in i in
  match x.(si_pcm) with
  | Some h =>
      do! _ := dev_close h in
      do! _ := upd_in i (set_si_pcm None) in
      sret (- ENOSYS)
  | None => sret (- ENOSYS)
  end.

Definition in_start (e : env) (i : nat) : hwm Z :=
  do! x := get_in i in
  match x.(si_pcm), x.(si_standby) with
  | Some _, false => start_input_stream e i
  | _, _ => sret (-1)
  end.
End Streams.
