(* ===== verification/AudioDevice.v ===== *)
(** * The device of the audio HAL

    Models the [adev_*] functions of [audio_hw.c]: opening and closing of
    streams, the mode of calls, parameters, gains, patches, and the start and
    the end of the device.  It composes [AudioHw] with the Bluetooth calls
    ([BtCall]), the hands-free calls ([Hfp]), the sharing ([Sharing]) and the
    status of the buses ([BusVolume]). *)

From Stdlib Require Import ZArith Lia Ascii String.
From stdpp Require Import base list numbers.
From S2P Require Import Prelude CircleBuf CString Mixer Dsp BusVolume Mix PcmPlugin PcmWrapper PcmDevice Streamer.
From S2P Require Import AudioExtra Remote OutputPath Platform Sharing StreamerProofs Hfp BtCall StreamInfo AudioHw.

#[local] Open Scope Z_scope.

Definition AUDIO_MODE_INVALID : Z := -2.
Definition AUDIO_MODE_NORMAL : Z := 0.
Definition AUDIO_MODE_IN_COMMUNICATION : Z := 3.
Definition AUDIO_HARDWARE_INTERFACE : string := "audio_hw_if".
Definition OUT_MAX_PROCESSED_BUF_PERIOD : Z := OUT_PERIOD_MS * 3.
Definition MAX_DSP_INIT_COUNT : nat := 3.

Definition STR_DEV_BUS1_ADDR : string := "bus0_media_out".
Definition STR_DEV_BUS2_ADDR : string := "bus1_voice_command_out".
Definition STR_DEV_BUS3_ADDR : string := "bus2_phone_out".
Definition STR_DEV_BUS4_ADDR : string := "bus3_navi_out".
Definition STR_DEV_BUS5_ADDR : string := "bus4_call_ring_out".
Definition STR_DEV_BUS7_ADDR : string := "bus6_notification_out".
Definition STR_DEV_BUS100_ADDR : string := "bus100_rear_seat1".

Definition AUDIO_PARAMETER_KEY_HFP_SET_SAMPLING_RATE : string := "hfp_set_sampling_rate".
Definition AUDIO_PARAMETER_KEY_HFP_ENABLE : string := "hfp_enable".
Definition AUDIO_PARAMETER_KEY_HFP_VOLUME : string := "hfp_volume".
Definition AUDIO_PARAMETER_DEVICE_CONNECT : string := "connect".
Definition AUDIO_PARAMETER_DEVICE_DISCONNECT : string := "disconnect".
Definition AUDIO_PARAMETER_STREAM_HW_AV_SYNC : string := "hw_av_sync".
Definition AUDIO_PARAMETER_AUDIO_SHARING_NE : string := "audio_sharing_nearend".
Definition AUDIO_PARAMETER_AUDIO_SHARING_FE : string := "audio_sharing_farend".
Definition AUDIO_PARAMETER_AUDIO_SHARING_PRI_SHARING : string := "pri_sharing".
Definition AUDIO_PARAMETER_AUDIO_SHARING_SEC_SHARING : string := "sec_sharing".
Definition AUDIO_PARAMETER_AUDIO_SHARING_PRI_TO_SEC : string := "pri_to_sec".
Definition AUDIO_PARAMETER_AUDIO_SHARING_SEC_TO_PRI : string := "sec_to_pri".

(** [strtoul (s, NULL, 10)] converted to 32 bits. *)
Definition strtoul10 (s : string) : Z :=
  let '(neg, r) := sign_prefix (skip_space s) in
  let n := (take_digits 10 0 r).1 in
  u32 (if n >? 2 ^ 64 - 1 then 2 ^ 64 - 1 else if neg then - n else n).

(** What the outside answers when a stream is opened: the two allocations, the
    memory of the effect, its library and description, and whether the card
    tells its parameters. *)
Record open_out_env := {
  oe_calloc : bool;
  oe_rsp_malloc : bool;
  oe_malloc : Z -> option (list Z);
  oe_dlopen : option Z;
  oe_dlsym : option Z;
  oe_params : bool
}.

(** The same during a change of the mode: the answers to [set_btcall_status]. *)
Record call_env := {
  ce_open : open_env;
  ce_malloc : Z -> option (list Z);
  ce_restarted : bool;
  ce_seen : nat -> bool * bool
}.

Section Device.
Context {M : Type} `{MixerOps M} `{Alloc} {W : Type} `{PcmSystem W} {N : Type} `{Rpmsg N}
  {E : Type} `{EffectLib E} {R P : Type} `{AudioSystem} {X : Type} `{StrParms X}.
Context (cb_calloc : bool) (cb_malloc : Z -> option (list Z)) (rproc_mp : bool).
Context (p : platform) (ref_b sharing_en : bool)
  (create_resampler : Z -> Z -> Z -> Z * option R) (rs_reset : R -> R).
(** The power of ten of the two volume curves, [pcm_start], and the routes of
    a card. *)
Context (pow10 powf10 : Z -> Z -> Z -> Z -> f32) (pcm_start : Z -> W -> Z * W)
  (route_update : Z -> string -> bool -> Z).

Abbreviation state := (hw R M W N E P).
Abbreviation sout := (stream_out R).
Abbreviation sin := (stream_in R P).
Abbreviation env := (hw_env M W P).

Definition devm (A : Type) : Type := st state A.

Definition upd_adev (f : adev_fields -> adev_fields) : devm unit :=
  smodify (fun s => set_adev (f s.(adev)) s).

(** *** Opening and closing of playback streams *)

(** The channels and the rate of a bus; the bus of calls is refused.  An
    unknown bus has no channels. *)
Definition bus_config (bus_num : Z) (config : audio_config) : option (Z * Z) :=
  if (100 <=? bus_num) && (bus_num <=? 103) then Some (CHANNEL_STEREO, HIFI_SAMPLING_RATE)
  else if ((0 <=? bus_num) && (bus_num <=? 7)) || (bus_num =? 9)
  then Some (audio_channel_count_from_out_mask config.(channel_mask), config.(sample_rate))
  else if bus_num =? 8 then None
  else Some (0, config.(sample_rate)).

Definition stream_config (ch rt count ms : Z) (format : Z) : pcm_config :=
  {| channels := ch; rate := rt; period_size := u32 (rt * ms) / 1000; period_count := count;
     cfg_format := format; start_threshold := 0; stop_threshold := 0; silence_threshold := 0;
     silence_size := 0 |}.

Fixpoint map_remove (k : string) (l : list (string * nat)) : list (string * nat) :=
  match l with
  | [] => []
  | (k', i) :: l => if String.eqb k k' then map_remove k l else (k', i) :: map_remove k l
  end.

(** The stream before its effect and its supported values are set. *)
Definition new_out (c : pcm_config) (address : string) (bus_num : Z) : sout :=
  {| so_config := c; so_pcm := None; so_pcm_hdl := None; so_standby := true; so_written := 0;
     so_bus_address := Some address; so_bus_num := bus_num;
     so_gain_stage := {| min_value := -4800; max_value := 6900; step_value := 300 |};
     so_amplitude_ratio := f32_one; so_effect := {| effect_hdl := None; effect_desc := None |};
     so_processed_buf := None; so_processed_buf_len := 0; so_target_gain_mb := 0;
     so_resampler := None; so_rsp_out_buffer := replicate (Z.to_nat RESAMPLER_BUFFER_SIZE) 0;
     so_supported := no_supported; so_repeater_src := None |}.

(** The sample size is asked for the format of tinyalsa, not of the
    framework. *)
Definition processed_len (c : pcm_config) : Z :=
  u32 (default 0 (bytes_per_sample c.(cfg_format)) * c.(channels)
       * (u32 (c.(rate) * OUT_MAX_PROCESSED_BUF_PERIOD) / 1000)).

Definition with_effect (e : open_out_env) (config : audio_config) (o : sout) : outcome sout :=
  let n := processed_len o.(so_config) in
  let! sup := register_all config.(ac_format) config.(channel_mask) o.(so_config).(rate) o.(so_supported) in
  let '(_, ef, _) := sd_effect_init STREAM_OUT_EFFECT e.(oe_dlopen) e.(oe_dlsym) o.(so_effect) in
  Done {| so_config := o.(so_config); so_pcm := o.(so_pcm); so_pcm_hdl := o.(so_pcm_hdl);
          so_standby := o.(so_standby); so_written := o.(so_written);
          so_bus_address := o.(so_bus_address); so_bus_num := o.(so_bus_num);
          so_gain_stage := o.(so_gain_stage); so_amplitude_ratio := o.(so_amplitude_ratio);
          so_effect := ef; so_processed_buf := if n =? 0 then None else e.(oe_malloc) n;
          so_processed_buf_len := n; so_target_gain_mb := o.(so_target_gain_mb);
          so_resampler := o.(so_resampler); so_rsp_out_buffer := o.(so_rsp_out_buffer);
          so_supported := sup; so_repeater_src := o.(so_repeater_src) |}.

(** The status, the configuration that the stream has, and the stream.  The
    number of the bus is read behind the third character.  A seat that does
    not get the configuration asked for is an error, but the stream stays. *)
Definition adev_open_output_stream (e : open_out_env) (config : audio_config) (address : string)
  : devm (Z * audio_config * option nat) :=
  let is_rear_seat := out_is_rear_seat_or_sharing_addr address in
  if negb is_rear_seat && (0 <=? card_id p AUDIO_NAME_PRIMARY) && negb e.(oe_params)
  then sret (- ENOSYS, config, None)
  else if negb (sd_platform_check_output config) then sret (- EINVAL, config, None)
  else if negb e.(oe_calloc) then sret (- ENOMEM, config, None)
  else if negb e.(oe_rsp_malloc) then sret (- ENOMEM, config, None)
  else if Nat.ltb (String.length address) 3 then slift Undef
  else
    do! bus_num := slift (atoi (String.substring 3 (String.length address) address)) in
    match bus_config bus_num config with
    | None => sret (- EINVAL, config, None)
    | Some (ch, rt) =>
        let c := stream_config ch rt PLAYBACK_PERIOD_COUNT OUT_PERIOD_MS
                   (pcm_format_from_audio_format config.(ac_format)) in
        let ret := if is_rear_seat
                      && (negb (rt =? config.(sample_rate))
                          || negb (audio_channel_count_from_out_mask config.(channel_mask) =? CHANNEL_STEREO))
                   then - EINVAL else 0 in
        let config := {| sample_rate := out_get_sample_rate c; channel_mask := out_get_channels c;
                         ac_format := out_get_format c |} in
        do! s := sget in
        let i := List.length s.(hw_outs) in
        let o := new_out c address bus_num in
        let is_voice := (address =? STR_DEV_BUS2_ADDR)%string in
        do! o := slift (if is_voice then Done o else with_effect e config o) in
        do! _ := smodify (set_hw_outs (s.(hw_outs) ++ [Some o])) in
        do! _ := smodify (set_hw_bus_map ((address, i) :: map_remove address s.(hw_bus_map))) in
        do! _ :=
          (match is_voice, s.(hw_bt_data) !! rt_index BTCALL_CODEC_OUTPUT with
           | true, Some (Some _) => smodify (set_hw_bt_stream (Some i))
           | _, _ => sret tt
           end) in
        sret (ret, config, Some i)
    end.

Definition adev_close_output_stream (e : env) (i : nat) : devm unit :=
  do! _ := do_output_standby rproc_mp p sharing_en e i in
  do! o := get_out i in
  do! _ := smodify (fun s =>
             set_hw_bus_map (match o.(so_bus_address) with
                             | Some a => map_remove a s.(hw_bus_map)
                             | None => s.(hw_bus_map)
                             end) s) in
  smodify (fun s => set_hw_outs (<[i := None]> s.(hw_outs)) s).

(** *** Opening and closing of recording streams *)

Definition new_in (c : pcm_config) (devs requested : Z) (buf : list Z) (sup : supported) : sin :=
  {| si_config := c; si_pcm := None; si_devices := devs; si_standby := true; si_supported := sup;
     si_pcm_wrapper := None; si_resampler := None; si_buffer := Some buf;
     si_requested_rate := requested; si_frames_in := 0; si_read_status := 0; si_pcm_hdl := None;
     si_reset_node := false; si_sharing_node := false |}.

Definition adev_open_input_stream (calloc_ok : bool) (malloc : Z -> option (list Z)) (devs : Z)
    (config : audio_config) : devm (Z * option nat) :=
  if negb (sd_platform_check_input config) then sret (- EINVAL, None)
  else if negb calloc_ok then sret (- ENOMEM, None)
  else
    let c := stream_config (audio_channel_count_from_in_mask config.(channel_mask))
               (if p.(misc).(sw_in_src) then HIFI_SAMPLING_RATE else config.(sample_rate))
               CAPTURE_PERIOD_COUNT IN_PERIOD_MS (pcm_format_from_audio_format config.(ac_format)) in
    match malloc (u64 (c.(period_size) * audio_stream_in_frame_size c * 8)) with
    | None => sret (- ENOMEM, None)
    | Some buf =>
        do! sup := slift (register_all config.(ac_format) config.(channel_mask) c.(rate) no_supported) in
        do! s := sget in
        do! _ := smodify (set_hw_ins (s.(hw_ins) ++ [Some (new_in c devs config.(sample_rate) buf sup)])) in
        sret (0, Some (List.length s.(hw_ins)))
    end.

Definition adev_close_input_stream (e : env) (i : nat) : devm unit :=
  do! _ := upd_in i (set_si_buffer None) in
  do! _ := in_standby rproc_mp e i in
  smodify (fun s => set_hw_ins (<[i := None]> s.(hw_ins)) s).

(** *** Calls *)

(** Only the recording is ended. *)
Definition force_all_standby (e : env) : devm unit :=
  do! s := sget in
  match s.(active_input) with
  | Some i => do! _ := do_in_standby rproc_mp e i in sret tt
  | None => sret tt
  end.

(** The part of the device that [BtCall] works on.  The stream that a call
    copies is a pointer: it is seen as it is now, and a stream that was freed
    can not be used. *)
Definition call_view (s : state) : call_hal R M W N :=
  let out := match s.(hw_bt_stream) with
             | Some i => match s.(hw_outs) !! i with Some (Some o) => Some (view_out o) | _ => None end
             | None => None
             end in
  {| bt_data := alter (option_map (set_d_out out)) (rt_index BTCALL_CODEC_OUTPUT) s.(hw_bt_data);
     bt_thread_data := s.(hw_bt_thread); cfgs := s.(hw_cfgs); base := s.(hw_hal);
     BtCall.rem := s.(hw_paths).(path_remote); in_call := s.(adev).(adev_in_call);
     mic_mute := s.(adev).(adev_mic_mute) |}.

Definition on_call {A} (m : callm A) : devm A := fun s =>
  let! (a, c) := m (call_view s) in
  Done (a, set_hw_call c.(bt_data) c.(bt_thread_data) c.(cfgs)
             (set_hw_hal c.(base)
                (set_hw_paths {| path_table := s.(hw_paths).(path_table); path_remote := c.(BtCall.rem) |} s))).

Definition call_status (e : env) (c : call_env) : devm unit :=
  do! slot0 := slift (first_slot p 2) in
  on_call (set_btcall_status cb_calloc cb_malloc p rproc_mp
             (fun f => bytes_per_sample (audio_format_from_pcm_format f)) create_resampler rs_reset
             c.(ce_malloc) c.(ce_open) e.(e_exits) c.(ce_restarted) slot0 c.(ce_seen)).

Definition select_mode (e : env) (c : call_env) : devm unit :=
  do! s := sget in
  if s.(adev).(adev_mode) =? AUDIO_MODE_IN_CALL then
    if s.(adev).(adev_in_call) =? 0 then
      do! _ := force_all_standby e in
      do! _ := upd_adev (set_adev_in_call 1) in
      call_status e c
    else sret tt
  else if negb (s.(adev).(adev_in_call) =? 0) then
    do! _ := upd_adev (set_adev_in_call 0) in
    call_status e c
  else sret tt.

(** Changing the mode, as [adev_set_mode] and the key [hfp_enable] do it. *)
Definition change_mode (e : env) (c : call_env) (mode : Z) : devm unit :=
  do! s := sget in
  if s.(adev).(adev_mode) =? mode then sret tt
  else do! _ := upd_adev (set_adev_mode mode) in select_mode e c.

Definition adev_set_mode (e : env) (c : call_env) (mode : Z) : devm Z :=
  do! s := sget in
  if negb (forallb (fun r => match s.(hw_bt_data) !! rt_index r with Some (Some _) => true | _ => false end)
             directions) then sret 0
  else if is_none s.(hw_bt_thread) then sret 0
  else if (mode >? AUDIO_MODE_IN_COMMUNICATION) || (mode <? AUDIO_MODE_INVALID) then sret (- EINVAL)
  else
    match p.(bt_type) with
    | BT_CONNECT_WITH_SOC => do! _ := change_mode e c mode in sret 0
    | BT_CONNECT_WITH_DSP => sret 0
    end.

(** *** Hands-free calls and head sets *)

(** The hands-free module sees the sound system and the remote service. *)
Definition on_hfp {A} (f : hfp_hal (M := M) (W := W) (N := N) (F := f32) -> outcome (A * hfp_hal)) : devm A :=
  fun s =>
    let! (a, h) := f (set_pcms s.(hw_hal).(world) (set_rem s.(hw_paths).(path_remote) s.(hw_hfp))) in
    Done (a, set_hw_hfp h
               (set_hw_hal (set_world h.(pcms) s.(hw_hal))
                  (set_hw_paths {| path_table := s.(hw_paths).(path_table); path_remote := h.(Hfp.rem) |} s))).

Definition adev_set_mic_mute (b : bool) : devm Z :=
  do! _ := upd_adev (set_adev_mic_mute b) in
  on_hfp (fun h => Done (hfp_set_mic_mute route_update p.(dev_manager) rproc_mp b h)).

Definition adev_get_mic_mute : devm (Z * bool) := do! s := sget in sret (0, s.(adev).(adev_mic_mute)).

Definition HEADSET_PATH : string := "bus100-headset".

Definition adev_handle_connect (e : env) (connect : bool) : devm Z :=
  do! card :=
    (if ref_b then
       do! _ := (if connect then
                   do! st := slift (get_hs_connect_status e.(e_gpio)) in upd_adev (set_hs_device st)
                 else sret tt) in
       do! s := sget in
       let d := s.(adev).(hs_device) in
       sret (if negb (Z.land d REAR_SEAT2_HS_STATUS =? 0) then card_id p AUDIO_NAME_REAR2
             else if negb (Z.land d REAR_SEAT3_HS_STATUS =? 0) then card_id p AUDIO_NAME_REAR3
             else -1)
     else sret (card_id p AUDIO_NAME_REAR1)) in
  if card <? 0 then sret (-1)
  else
    do! _ := (if connect then sret tt else upd_adev (set_hs_device 0)) in
    on_hfp (fun h => Done (update_route route_update card HEADSET_PATH connect h)).

(** *** Parameters of the device *)

(** The handlers of the keys tell whether they answered. *)
Definition set_hfp_rate (value : string) : devm bool :=
  do! r := slift (atoi value) in do! _ := upd_adev (set_hfp_sample_rate r) in sret true.

(** With the Bluetooth chip at the processor, every other text than "true"
    ends the call. *)
Definition set_hfp_enable (e : env) (c : call_env) (value : string) : devm bool :=
  let on := (value =? "true")%string in
  let off := (value =? "false")%string in
  do! _ :=
    (match p.(bt_type) with
     | BT_CONNECT_WITH_DSP =>
         do! s := sget in
         if on then
           do! _ := on_hfp (start_hfp powf10 pcm_start route_update p.(dev_manager)
                              s.(adev).(hfp_sample_rate) rproc_mp) in sret tt
         else if off then
           do! _ := on_hfp (fun h => Done (stop_hfp route_update p.(dev_manager) rproc_mp h)) in sret tt
         else sret tt
     | BT_CONNECT_WITH_SOC => change_mode e c (if on then AUDIO_MODE_IN_CALL else AUDIO_MODE_NORMAL)
     end) in
  sret true.

(** The volume is kept, and nothing reads it. *)
Definition set_hfp_vol (value : string) : devm bool :=
  do! v := slift (atoi value) in do! _ := upd_adev (set_adev_hfp_volume v) in sret true.

Definition set_connect (e : env) (value : string) : devm bool :=
  do! _ := (if strtoul10 value =? AUDIO_DEVICE_IN_WIRED_HEADSET
            then do! _ := adev_handle_connect e true in sret tt else sret tt) in
  sret true.

Definition set_disconnect (e : env) (value : string) : devm bool :=
  if strtoul10 value =? AUDIO_DEVICE_IN_WIRED_HEADSET
  then do! _ := adev_handle_connect e false in sret true else sret false.

Definition sharing_flags (f : bool * bool -> bool * bool) : devm unit :=
  upd_adev (fun d => let '(ne, fe) := f (d.(audio_sharing_ne), d.(audio_sharing_fe)) in set_sharing ne fe d).

Definition set_sharing_ne (value : string) : devm bool :=
  let same t := (value =? t)%string in
  if same "false"%string then
    do! _ := sharing_flags (au_sharing_disable AUDIO_SHARING_NE) in
    do! _ := upd_adev (set_direct MIRROR_CLOSE) in sret true
  else if same AUDIO_PARAMETER_AUDIO_SHARING_PRI_SHARING then
    do! _ := sharing_flags (fun _ => au_sharing_enable AUDIO_SHARING_NE) in
    do! _ := upd_adev (set_direct MIRROR_PRI2VDEV) in sret true
  else if same AUDIO_PARAMETER_AUDIO_SHARING_SEC_SHARING then
    do! _ := sharing_flags (fun _ => au_sharing_enable AUDIO_SHARING_NE) in
    do! _ := upd_adev (set_direct MIRROR_SEC2VDEV) in sret true
  else if same AUDIO_PARAMETER_AUDIO_SHARING_SEC_TO_PRI then
    do! _ := upd_adev (set_direct MIRROR_SEC2PRI) in sret true
  else if same AUDIO_PARAMETER_AUDIO_SHARING_PRI_TO_SEC then
    do! _ := upd_adev (set_direct MIRROR_PRI2SEC) in sret true
  else sret false.

(** The stream that records now, which is used as it is. *)
Definition on_active_input (f : sin -> sin) : devm unit :=
  do! s := sget in
  match s.(active_input) with Some i => upd_in i f | None => sret tt end.

Definition set_sharing_fe (value : string) : devm bool :=
  let same t := (value =? t)%string in
  if same "false"%string then
    do! _ := sharing_flags (au_sharing_disable AUDIO_SHARING_FE) in
    do! _ := upd_adev (set_direct MIRROR_CLOSE) in
    do! _ := on_active_input (set_si_reset_node false) in sret true
  else if same AUDIO_PARAMETER_AUDIO_SHARING_PRI_SHARING || same AUDIO_PARAMETER_AUDIO_SHARING_SEC_SHARING then
    do! _ := sharing_flags (fun _ => au_sharing_enable AUDIO_SHARING_FE) in
    do! _ := on_active_input (fun x => if x.(si_sharing_node) then x else set_si_reset_node true x) in
    sret true
  else sret false.

Definition with_key (q : X) (key : string) (f : string -> devm bool) : devm bool :=
  match parms_value 32 q key with Some (value, _) => f value | None => sret false end.

Definition adev_set_parameters (e : env) (c : call_env) (kvpairs : string) : devm Z :=
  if (kvpairs =? EmptyString)%string then sret 0
  else
    let q := str_parms_create_str kvpairs in
    do! r1 := with_key q AUDIO_PARAMETER_KEY_HFP_SET_SAMPLING_RATE set_hfp_rate in
    do! r2 := with_key q AUDIO_PARAMETER_KEY_HFP_ENABLE (set_hfp_enable e c) in
    do! r3 := with_key q AUDIO_PARAMETER_KEY_HFP_VOLUME set_hfp_vol in
    do! r4 := with_key q AUDIO_PARAMETER_DEVICE_CONNECT (set_connect e) in
    do! r5 := with_key q AUDIO_PARAMETER_DEVICE_DISCONNECT (set_disconnect e) in
    do! r6 := (if sharing_en then with_key q AUDIO_PARAMETER_AUDIO_SHARING_NE set_sharing_ne else sret false) in
    do! r7 := (if sharing_en then with_key q AUDIO_PARAMETER_AUDIO_SHARING_FE set_sharing_fe else sret false) in
    sret (if r1 || r2 || r3 || r4 || r5 || r6 || r7 then 0 else - ENOSYS).

Definition adev_get_parameters (e : env) (keys : string) : devm string :=
  let q := str_parms_create_str keys in
  let str := match parms_value (X := X) 128 q AUDIO_PARAMETER_STREAM_HW_AV_SYNC with
             | Some _ => str_parms_to_str (str_parms_add_str str_parms_create AUDIO_PARAMETER_STREAM_HW_AV_SYNC (print_int 0))
             | None => EmptyString
             end in
  if (keys =? "active_hs_device")%string then
    if ref_b then
      do! s := sget in
      do! d := slift (get_active_hs_device e.(e_gpio) s.(adev).(hs_device)) in
      sret (if d =? REAR_SEAT2_HS_STATUS then "rear_seat2"%string
            else if d =? REAR_SEAT3_HS_STATUS then "rear_seat3"%string
            else EmptyString)
    else sret EmptyString
  else sret str.

(** *** Patches and gains *)

(** The types of the ports; true is a device.  The handle, when there is
    one. *)
Definition adev_create_audio_patch (sources sinks : list bool) : devm (Z * option Z) :=
  match sources, sinks with
  | [true], [true] =>
      do! _ := upd_adev (fun d => set_last_patch_id (u32 (d.(last_patch_id) + 1)) d) in
      do! s := sget in sret (0, Some s.(adev).(last_patch_id))
  | _, _ => sret (0, None)
  end.

(** The buses whose gain can be set; the alarm and the system sounds are not
    among them. *)
Definition gain_addresses : list string :=
  [STR_DEV_BUS1_ADDR; STR_DEV_BUS2_ADDR; STR_DEV_BUS3_ADDR; STR_DEV_BUS4_ADDR; STR_DEV_BUS5_ADDR;
   STR_DEV_BUS7_ADDR; STR_DEV_BUS100_ADDR].

(** The index of a gain and the number of steps; [step_value] is unsigned, so
    the divisions are, and a gain below the minimum gives a huge index. *)
Definition gain_index (g : audio_gain) (value : Z) : outcome (Z * Z) :=
  if g.(step_value) =? 0 then Undef
  else
    let! d := i32 (value - g.(min_value)) in
    let! n := i32 (g.(max_value) - g.(min_value)) in
    Done (s32 (u32 d / g.(step_value)), s32 (u32 n / g.(step_value))).

(** The gain of the stream, and the level of its bus when it plays. *)
Definition adev_set_audio_port_config (address : string) (value : Z) : devm Z :=
  do! s := sget in
  match map_find s.(hw_bus_map) address with
  | None => sret (- EINVAL)
  | Some i =>
      do! o := get_out i in
      do! addr := out_addr o in
      if negb (existsb (String.eqb addr) gain_addresses) then sret (- EINVAL)
      else
        let g := o.(so_gain_stage) in
        do! (idx, total) := slift (gain_index g value) in
        let ratio := pow10 idx total (Z.quot g.(min_value) 100) (Z.quot g.(max_value) 100) in
        do! _ := put_out i (set_so_target_gain_mb value (set_so_amplitude_ratio ratio o)) in
        do! _ := on_hal (on_buses (on_bus (fun b =>
                   let! l := array_set b.(volume) o.(so_bus_num) (idx mod 256) in Done (set_volume l b)))) in
        do! active := on_hal (on_buses (read_bus (fun b => array_get b.(bus_active) o.(so_bus_num)))) in
        if active =? 1 then on_hal (on_buses (set_bus_volume o.(so_bus_num))) else sret 0
  end.

(** *** Start and end of the device *)

Definition boot_dsp (dsp_id : Z) : devm Z :=
  let card := card_id p AUDIO_NAME_PRIMARY in
  if card <? 0 then sret (- EINVAL)
  else on_hfp (fun h => Done (update_route route_update card
                                ("boot-dsp" ++ print_int dsp_id)%string true h)).

Fixpoint sd_dsp_init (dsp_count : nat) : devm unit :=
  match dsp_count with
  | O => sret tt
  | S n => do! _ := boot_dsp (Z.of_nat dsp_count) in sd_dsp_init n
  end.

(** The first slots of the output maps. *)
Fixpoint first_slots (n : nat) (i : Z) : outcome (list Z) :=
  match n with
  | O => Done []
  | S n => let! x := first_slot p i in let! l := first_slots n (i + 1) in Done (x :: l)
  end.

(** [init] is the status of [sd_platform_init], which found the platform.
    [s] holds the components; the device itself starts as zero. *)
Definition adev_open (name : string) (calloc_ok : bool) (gpio : Z -> gpio_node) (init : Z)
    (answers : nat -> bool) (thread_calloc rx_setup tx_setup : bool) : devm Z :=
  if negb (name =? AUDIO_HARDWARE_INTERFACE)%string then sret (- EINVAL)
  else if negb calloc_ok then sret (- ENOMEM)
  else
    do! hs := slift (if ref_b then get_active_hs_device gpio 0 else Done 0) in
    do! _ := upd_adev (fun d =>
               {| devices := 0; adev_mode := AUDIO_MODE_NORMAL; adev_in_call := 0;
                  adev_mic_mute := false; is_usb_exist := false; usb_card_id := 0; usb_port_id := 0;
                  last_patch_id := 0; hfp_sample_rate := 0; adev_hfp_volume := 0; hs_device := hs;
                  direct := MIRROR_CLOSE; audio_sharing_ne := false; audio_sharing_fe := false |}) in
    do! _ := smodify (fun s => set_hw_bus_map [] (set_active_input None (set_active_output None s))) in
    do! _ :=
      (if (init =? 0) && (0 <=? card_id p AUDIO_NAME_PRIMARY) then
         do! _ := sd_dsp_init MAX_DSP_INIT_COUNT in
         do! _ := on_hfp (fun h => Done (init_hfp p.(dev_manager) p.(bt_type) h)) in sret tt
       else sret tt) in
    do! _ := smodify (fun s => set_hw_call (replicate BTCALL_RT_MAX None) None s.(hw_cfgs) s) in
    do! slots := slift (first_slots 16 0) in
    do! _ := on_hal (on_buses (on_bus (fun b =>
               Done (let b' := bus_status_init slots in
                     {| is_ducked := b'.(is_ducked); is_muted := b'.(is_muted); in_zoneId := b'.(in_zoneId);
                        volume := b'.(volume); bus_active := b.(bus_active); BusVolume.slot_index := b'.(BusVolume.slot_index);
                        slot_in_use := b'.(slot_in_use); is_chime_on := b'.(is_chime_on);
                        focus_bus := b'.(focus_bus) |})))) in
    do! _ :=
      (if p.(misc).(btcall) then
         do! r := on_call (btcall_init_rx answers thread_calloc rx_setup) in
         if r =? 0 then do! _ := on_call (btcall_init_tx tx_setup) in sret tt else sret tt
       else sret tt) in
    sret init.

(** The routes are freed, the mixers of the device closed; what else is open
    stays so.  The result holds the socket that is closed. *)
Definition adev_close (st : start_state) (remote : Z) : outcome (Z * start_state * option Z) :=
  let closed := omap (fun m => m) st.(mixers) in
  let! (_, _, sock) := sd_platform_deinit (Some (Some remote)) in
  Done (0, {| sn_split := st.(sn_split); routes := []; mixers := st.(mixers);
              open_mixers := base.filter (fun m => m ∉ closed) st.(open_mixers);
              remote_starts := st.(remote_starts) |}, sock).
End Device.
