(* ===== verification/AudioHwProofs.v ===== *)
(** * Theorems on the streams of the audio HAL *)

From Stdlib Require Import ZArith Lia Ascii String.
From stdpp Require Import base list numbers.
From S2P Require Import Prelude CircleBuf CString Mixer Dsp DspProofs BusVolume Mix PcmPlugin PcmWrapper PcmDevice Streamer.
From S2P Require Import AudioExtra Remote OutputPath Platform Hfp Sharing StreamerProofs BtCall BtCallProofs StreamInfo AudioHw AudioDevice.

#[local] Open Scope Z_scope.

(** ** Running the operations *)

Section Runs.
Context {M : Type} `{MixerOps M} {W : Type} `{PcmSystem W} {N E R P : Type}.
Abbreviation state := (hw R M W N E P).

Lemma get_out_run (i : nat) (o : stream_out R) (s : state) :
  s.(hw_outs) !! i = Some (Some o) -> get_out i s = Done (o, s).
Proof. intros L. unfold get_out, sbind, sget. cbn [obind]. by rewrite L. Qed.

Lemma upd_out_run (i : nat) (f : stream_out R -> stream_out R) (o : stream_out R) (s : state) :
  s.(hw_outs) !! i = Some (Some o) ->
  upd_out i f s = Done (tt, set_hw_outs (<[i := Some (f o)]> s.(hw_outs)) s).
Proof. intros L. unfold upd_out. by rewrite (sbind_done _ _ _ _ _ (get_out_run i o s L)). Qed.

Lemma get_in_run (i : nat) (x : stream_in R P) (s : state) :
  s.(hw_ins) !! i = Some (Some x) -> get_in i s = Done (x, s).
Proof. intros L. unfold get_in, sbind, sget. cbn [obind]. by rewrite L. Qed.

Lemma upd_in_run (i : nat) (f : stream_in R P -> stream_in R P) (x : stream_in R P) (s : state) :
  s.(hw_ins) !! i = Some (Some x) ->
  upd_in i f s = Done (tt, set_hw_ins (<[i := Some (f x)]> s.(hw_ins)) s).
Proof. intros L. unfold upd_in. by rewrite (sbind_done _ _ _ _ _ (get_in_run i x s L)). Qed.

Lemma addr_run (o : stream_out R) (a : string) (s : state) :
  o.(so_bus_address) = Some a -> out_addr o s = Done (a, s).
Proof. intros Ea. unfold out_addr. by rewrite Ea. Qed.

Lemma on_hal_run {A} (op : @halm M W A) (s : state) (a : A) (h : hal M W) :
  op s.(hw_hal) = Done (a, h) -> on_hal op s = Done (a, set_hw_hal h s).
Proof. unfold on_hal. by intros ->. Qed.

Lemma on_world_run {A} (f : W -> A * W) (s : state) (a : A) (w : W) :
  f s.(hw_hal).(world) = (a, w) -> on_world f s = Done (a, set_hw_hal (set_world w s.(hw_hal)) s).
Proof. unfold on_world. by intros ->. Qed.

Lemma live_run (h : Z) (s : state) : h ∈ opened s.(hw_hal).(world) -> live h s = Done (tt, s).
Proof. intros I. unfold live, sbind, sget. cbn [obind]. by rewrite decide_True. Qed.

Lemma perf_run (b : bool) (s : state) :
  exists l, perf_for_output b s = Done (tt, set_perf_calls l s).
Proof.
  unfold perf_for_output, sbind, sget. cbn [obind]. destruct (is_none s.(active_input)).
  - by exists (b :: s.(perf_calls)).
  - exists s.(perf_calls). unfold sret. by destruct s.
Qed.
End Runs.

(** ** The position of a stream *)

(** A running stream always reports a position, and never an error: it is
    the number of frames that left the buffer of the device while that is not
    negative; before the first buffer was played it is a number close to 2^64,
    because the test of the sign is made on an unsigned number. *)
Theorem presentation_position_wraps {M W N E R P : Type} `{PcmSystem W}
    (pcm_get_htimestamp : Z -> W -> option Z) (s : hw R M W N E P) (i : nat) (o : stream_out R) (h avail : Z) :
  s.(hw_outs) !! i = Some (Some o) -> o.(so_pcm) = Some h -> o.(so_standby) = false ->
  h ∈ opened s.(hw_hal).(world) -> pcm_get_htimestamp h s.(hw_hal).(world) = Some avail ->
  let size := o.(so_config).(period_size) * o.(so_config).(period_count) in
  let played := o.(so_written) - size + avail in
  0 <= size <= UINT32_MAX -> 0 <= o.(so_written) -> 0 <= avail -> o.(so_written) + avail < 2 ^ 64 ->
  out_get_presentation_position pcm_get_htimestamp i s
  = Done ((0, Some (if 0 <=? played then played else 2 ^ 64 + played)), s).
Proof.
  intros L Ph Sb Op Ts size played Bs Bw Ba Bt. unfold out_get_presentation_position.
  rewrite (sbind_done _ _ _ _ _ (get_out_run i o s L)), Ph, Sb.
  rewrite (sbind_done _ _ _ _ _ (live_run h s Op)). erewrite sbind_done by reflexivity. rewrite Ts.
  fold size. rewrite (u32_small size) by done.
  assert (u64 (o.(so_written) - size + avail) = if 0 <=? played then played else 2 ^ 64 + played) as ->.
  { unfold u64. fold played. unfold UINT32_MAX in Bs. destruct (Z.leb_spec 0 played).
    - apply Z.mod_small. lia.
    - symmetry. apply Z.mod_unique with (-1); lia. }
  unfold sret. rewrite (proj2 (Z.leb_le 0 _)); [done|]. unfold UINT32_MAX in Bs. zif; lia.
Qed.

(** ** Streams are started and ended in balance *)

Section Balance.
Context {M : Type} `{HM : MixerLaws M} `{HA : Alloc} {W : Type} `{HW : PcmSystemLaws W} `{HR : !ReliableCapture W}
  {N : Type} `{HN : RpmsgLaws N} {E : Type} `{HE : EffectLib E} `{HS : AudioSystem} {R P : Type}.
Context (cb_calloc : bool) (cb_malloc : Z -> option (list Z)) (rproc_mp : bool) (p : platform)
  (sharing_en error_null : bool) (create_resampler : Z -> Z -> Z -> Z * option R).

(** The cards are there, devices open, resamplers can be had, and the
    description is complete. *)
Context (cards_there : forall name, In name [AUDIO_NAME_PRIMARY; AUDIO_NAME_REAR1; AUDIO_NAME_REAR3] ->
                         0 <= card_id p name)
  (opens : forall card port flags cfg (w : W), reliable w -> exists h w',
     pcm_open_prepare_helper card port flags PROXY_OPEN_RETRY_COUNT cfg w = (Some h, w')
     /\ pcm_is_ready h w' = true)
  (resampled : forall i o c, (create_resampler i o c).1 = 0)
  (slots : forall b, 0 <= b < 16 -> exists v, first_slot p b = Done v /\ 0 <= v <= 7)
  (infos : forall addr cfg, exists r, sd_platform_get_card_info p addr cfg = Done r).

Abbreviation state := (hw R M W N E P).
Abbreviation sout := (stream_out R).

(** Every card has a mixer. *)
Definition mixers_there (s : state) : Prop := forall c, is_Some (s.(hw_mixers) c).

(** What starting and ending a stream leaves alone. *)
Record frame (s s' : state) : Prop := {
  fr_adev : s'.(adev) = s.(adev);
  fr_srcs : s'.(hw_srcs) = s.(hw_srcs);
  fr_mixers : mixers_there s -> mixers_there s';
  fr_handles : length s'.(hw_hal).(out_streams) = length s.(hw_hal).(out_streams)
}.

Lemma frame_trans (s1 s2 s3 : state) : frame s1 s2 -> frame s2 s3 -> frame s1 s3.
Proof using. intros [A1 A2 A3 A4] [B1 B2 B3 B4]. split; [congruence|congruence|tauto|congruence]. Qed.

Lemma switch_run (card : Z) (b : bool) (s : state) :
  mixers_there s ->
  exists f, sd_virtual_i2s_switch card b s = Done (tt, set_hw_mixers f s)
    /\ forall c, is_Some (f c).
Proof using.
  intros T. unfold sd_virtual_i2s_switch, sbind, sget. cbn [obind]. destruct (T card) as [mx Em].
  rewrite Em. destruct (mixer_get_ctl_by_name mx STR_VIRT_I2S_SWITCH) as [c|].
  - eexists. split; [reflexivity|]. intros k. cbn. destruct (k =? card); [by eauto|apply T].
  - exists s.(hw_mixers). split; [|done]. unfold sret. by destruct s.
Qed.

Lemma card_there (name : string) :
  In name [AUDIO_NAME_PRIMARY; AUDIO_NAME_REAR1; AUDIO_NAME_REAR3] -> (card_id p name <? 0) = false.
Proof using cards_there. intros I. apply Z.ltb_ge. by apply cards_there. Qed.

Definition usb_there (s : state) : Prop :=
  s.(adev).(is_usb_exist) = true -> 0 <= s.(adev).(usb_card_id).

Lemma seat_place_run (a : string) (s : state) :
  mixers_there s -> usb_there s ->
  exists card port f, seat_place p sharing_en a s = Done ((card, port), set_hw_mixers f s)
    /\ 0 <= card /\ forall c, is_Some (f c).
Proof using cards_there.
  intros T U. unfold seat_place. erewrite sbind_done by reflexivity.
  assert (forall c q : Z, 0 <= c -> exists card port f, sret (c, q) s = Done ((card, port), set_hw_mixers f s)
            /\ 0 <= card /\ forall c, is_Some (f c)) as K.
  { intros c q C. exists c, q, s.(hw_mixers). split; [|done]. unfold sret. by destruct s. }
  destruct s.(adev).(is_usb_exist) eqn:Eu; [by apply K, U|].
  assert (0 <= card_id p AUDIO_NAME_REAR1) as C1 by (apply cards_there; cbn; auto).
  assert (0 <= card_id p AUDIO_NAME_REAR3) as C3 by (apply cards_there; cbn; auto).
  change AUDIO_NAME_REAR2 with AUDIO_NAME_REAR1. repeat (zif; [by apply K|]).
  destruct (switch_run (card_id p AUDIO_NAME_REAR1) true s T) as (f & Ef & Tf).
  zif; [by rewrite (sbind_done _ _ _ _ _ Ef); eexists _, _, f|].
  zif; [by rewrite (sbind_done _ _ _ _ _ Ef); eexists _, _, f|].
  apply K. lia.
Qed.

(** *** The own device of a stream *)

Lemma own_pcm_run (i : nat) (card port : Z) (s : state) (o : sout) (n m : nat -> Z) (x : list Z) :
  s.(hw_outs) !! i = Some (Some o) -> base_ok n m x s.(hw_hal) ->
  exists h s1, open_own_pcm error_null i card port s = Done (true, s1)
    /\ s1.(hw_outs) = <[i := Some (set_so_pcm (Some h) o)]> s.(hw_outs)
    /\ base_ok n m (h :: x) s1.(hw_hal) /\ s1.(hw_paths) = s.(hw_paths) /\ frame s s1.
Proof using HM HA HW HR opens.
  intros L B. unfold open_own_pcm. rewrite (sbind_done _ _ _ _ _ (get_out_run i o s L)).
  destruct (opens card port PCM_OUT o.(so_config) s.(hw_hal).(world) (bo_rel _ _ _ _ B)) as (h & w & Op & Rd).
  erewrite sbind_done by (apply on_world_run; exact Op). unfold put_out.
  erewrite sbind_done by reflexivity. erewrite sbind_done by reflexivity. cbn. rewrite Rd.
  exists h. eexists. split; [reflexivity|]. cbn. split; [done|]. split; [by eapply base_open_device|].
  split; [done|]. by split.
Qed.

Lemma seat_run (i : nat) (a : string) (s : state) (o : sout) (n m : nat -> Z) (x : list Z) :
  s.(hw_outs) !! i = Some (Some o) -> mixers_there s -> usb_there s -> base_ok n m x s.(hw_hal) ->
  exists h s1, open_seat p sharing_en error_null i a s = Done (true, s1)
    /\ s1.(hw_outs) = <[i := Some (set_so_pcm (Some h) o)]> s.(hw_outs)
    /\ base_ok n m (h :: x) s1.(hw_hal) /\ s1.(hw_paths) = s.(hw_paths) /\ frame s s1.
Proof using HM HA HW HR opens cards_there.
  intros L T U B. unfold open_seat. destruct (seat_place_run a s T U) as (card & port & f & Ep & C & Tf).
  rewrite (sbind_done _ _ _ _ _ Ep). rewrite (proj2 (Z.ltb_ge card 0)) by done.
  destruct (own_pcm_run i card port (set_hw_mixers f s) o n m x L B) as (h & s1 & E1 & O1 & B1 & P1 & F1).
  exists h, s1. split; [done|]. split; [done|]. split; [done|]. split; [done|].
  eapply frame_trans; [|exact F1]. by split.
Qed.

Lemma ahub_run (i : nat) (a : string) (s : state) (o : sout) (n m : nat -> Z) (x : list Z) :
  s.(hw_outs) !! i = Some (Some o) -> base_ok n m x s.(hw_hal) ->
  exists h c s1, open_ahub p error_null i a s = Done (true, s1)
    /\ s1.(hw_outs) = <[i := Some (set_so_pcm (Some h) (set_so_config c o))]> s.(hw_outs)
    /\ base_ok n m (h :: x) s1.(hw_hal) /\ s1.(hw_paths) = s.(hw_paths) /\ frame s s1.
Proof using HM HA HW HR opens infos.
  intros L B. unfold open_ahub. rewrite (sbind_done _ _ _ _ _ (get_out_run i o s L)).
  destruct (infos a o.(so_config)) as (((r & place) & c) & Ei).
  erewrite sbind_done by (unfold slift; rewrite Ei; reflexivity). cbv beta iota. destruct (default (0, 0) place) as [card port].
  unfold put_out at 1. erewrite sbind_done by reflexivity. match goal with |- context [set_so_config ?k o] => set (c' := k) end.
  set (s0 := set_hw_outs _ s).
  assert (s0.(hw_outs) !! i = Some (Some (set_so_config c' o))) as L0
    by (cbn; rewrite list_lookup_insert_eq; [done|by apply lookup_lt_Some in L]).
  destruct (own_pcm_run i card port s0 _ n m x L0 B) as (h & s1 & E1 & O1 & B1 & P1 & F1).
  exists h, c', s1. split; [done|]. split; [by rewrite O1; cbn; rewrite list_insert_insert_eq|].
  split; [done|]. split; [done|]. eapply frame_trans; [|exact F1]. by split.
Qed.

(** *** The streamer *)

(** Whether a bus is counted by its path. *)
Definition counted (bus : Z) : bool :=
  match select_path bus with Some (_, false) => true | _ => false end.

Definition b2n (b : bool) : nat := if b then 1 else 0.

Lemma path_opened (bus : Z) (q : nat) (s : state) :
  s.(hw_paths).(path_table) = users q -> Z.of_nat q < INT32_MAX ->
  exists x, on_paths (open_output_path rproc_mp bus) s = Done (tt, set_hw_paths x s)
    /\ x.(path_table) = users (q + b2n (counted bus)).
Proof using HN.
  intros T B. pose proof (run_path_op_spec rproc_mp (PathOpen bus) q s.(hw_paths).(path_remote) B) as S0.
  unfold on_paths. destruct s.(hw_paths) as [t r] eqn:Es. cbn in T, S0 |- *. subst t.
  unfold counted. destruct (select_path bus) as [[nm [|]]|]; cbn in S0; rewrite S0; cbn [obind];
    eexists; (split; [reflexivity|]); cbn; f_equal; lia.
Qed.

Lemma path_closed (bus : Z) (q : nat) (s : state) :
  s.(hw_paths).(path_table) = users q -> Z.of_nat q < INT32_MAX ->
  exists x, on_paths (close_output_path rproc_mp bus) s = Done (tt, set_hw_paths x s)
    /\ x.(path_table) = users (q - b2n (counted bus)).
Proof using HN.
  intros T B. pose proof (run_path_op_spec rproc_mp (PathClose bus) q s.(hw_paths).(path_remote) B) as S0.
  unfold on_paths. destruct s.(hw_paths) as [t r] eqn:Es. cbn in T, S0 |- *. subst t.
  unfold counted. destruct (select_path bus) as [[nm [|]]|]; cbn in S0; rewrite S0; cbn [obind];
    eexists; (split; [reflexivity|]); cbn; f_equal; lia.
Qed.

Context (e : hw_env M W P) (threads : e.(e_created) = true) (leaves : e.(e_exits) = true).

Lemma main_run (i : nat) (s : state) (o : sout) (n m : nat -> Z) (x : list Z) (q : nat) :
  s.(hw_outs) !! i = Some (Some o) -> base_ok n m x s.(hw_hal) -> (forall k, 0 <= n k < INT32_MAX) ->
  0 <= o.(so_bus_num) < 16 -> s.(hw_paths).(path_table) = users q -> Z.of_nat q < INT32_MAX ->
  exists k h s1, open_main cb_calloc cb_malloc rproc_mp p e i s = Done (true, s1)
    /\ s1.(hw_outs) = <[i := Some (set_so_pcm_hdl (Some k) (set_so_pcm h o))]> s.(hw_outs)
    /\ is_Some (s1.(hw_hal).(out_streams) !! k) /\ base_ok (add_at k 1 n) m x s1.(hw_hal)
    /\ s1.(hw_paths).(path_table) = users (q + b2n (counted o.(so_bus_num))) /\ frame s s1.
Proof using All.
  intros L B Nn Bn T Bq. unfold open_main. rewrite card_there by (cbn; auto).
  rewrite (sbind_done _ _ _ _ _ (get_out_run i o s L)).
  destruct (path_opened o.(so_bus_num) q s T Bq) as (x1 & E1 & T1). rewrite (sbind_done _ _ _ _ _ E1).
  set (cfg := (sd_platform_get_card_pcm_config _ _ _ _).2).
  destruct (opens (card_id p AUDIO_NAME_PRIMARY) CODEC_DEV PCM_OUT cfg s.(hw_hal).(world) (bo_rel _ _ _ _ B))
    as (dv & w & Op & _).
  destruct (base_open_out cb_calloc cb_malloc n m x s.(hw_hal) (view_out o) (card_id p AUDIO_NAME_PRIMARY)
              CODEC_DEV cfg B Nn Bn) as (k & o' & h' & E2 & _ & L2 & B2 & Le); [by rewrite Op|].
  rewrite threads. erewrite sbind_done by (apply on_hal_run; exact E2).
  unfold handle_pcm at 1. erewrite sbind_done by reflexivity. unfold put_out. erewrite sbind_done by reflexivity.
  eexists k, _, _. split; [reflexivity|]. cbn. split; [done|]. split; [done|]. split; [done|].
  split; [done|]. by split.
Qed.

(** *** Starting *)

(** What a stream has got: its own device, or a handle and a place on its
    path. *)
Definition own_stream (a : string) : bool := out_is_rear_seat_or_sharing_addr a || p.(misc).(ahub_en).

Record got (a : string) (o o' : sout) (n m : nat -> Z) (x : list Z) (q : nat) (s s' : state) : Prop := {
  got_own : own_stream a = true -> exists h, o'.(so_pcm) = Some h /\ o'.(so_pcm_hdl) = o.(so_pcm_hdl)
              /\ base_ok n m (h :: x) s'.(hw_hal) /\ s'.(hw_paths) = s.(hw_paths);
  got_main : own_stream a = false -> exists k, o'.(so_pcm_hdl) = Some k
               /\ is_Some (s'.(hw_hal).(out_streams) !! k) /\ base_ok (add_at k 1 n) m x s'.(hw_hal)
               /\ s'.(hw_paths).(path_table) = users (q + b2n (counted o.(so_bus_num)));
  got_kept : o'.(so_bus_num) = o.(so_bus_num) /\ o'.(so_bus_address) = o.(so_bus_address)
             /\ o'.(so_effect) = o.(so_effect) /\ o'.(so_repeater_src) = o.(so_repeater_src)
             /\ o'.(so_standby) = o.(so_standby);
  got_frame : frame s s'
}.

Lemma out_resampler_run (i : nat) (s : state) (o : sout) :
  s.(hw_outs) !! i = Some (Some o) ->
  exists rs, out_resampler p create_resampler i s
             = Done (0, set_hw_outs (<[i := Some (set_so_resampler rs o)]> s.(hw_outs)) s).
Proof using resampled.
  intros L. unfold out_resampler. rewrite (sbind_done _ _ _ _ _ (get_out_run i o s L)).
  assert (forall rs, set_so_resampler rs o = o -> sret 0 s
            = Done (0, set_hw_outs (<[i := Some (set_so_resampler rs o)]> s.(hw_outs)) s)) as K.
  { intros rs Er. rewrite Er, list_insert_id by done. unfold sret. by destruct s. }
  zif; [|exists o.(so_resampler); apply K; by destruct o].
  pose proof (resampled o.(so_config).(rate) HIFI_SAMPLING_RATE o.(so_config).(channels)) as Z0.
  destruct (create_resampler _ _ _) as [ret rs]. cbn in Z0. subst ret. by exists rs.
Qed.

Lemma start_run (i : nat) (a : string) (s : state) (o : sout) (n m : nat -> Z) (x : list Z) (q : nat) :
  s.(hw_outs) !! i = Some (Some o) -> o.(so_bus_address) = Some a -> mixers_there s -> usb_there s ->
  base_ok n m x s.(hw_hal) -> (forall k, 0 <= n k < INT32_MAX) ->
  (own_stream a = false -> 0 <= o.(so_bus_num) < 16) ->
  s.(hw_paths).(path_table) = users q -> Z.of_nat q < INT32_MAX ->
  exists o' s', start_output_stream cb_calloc cb_malloc rproc_mp p sharing_en error_null create_resampler e i s
                = Done (0, s')
    /\ s'.(hw_outs) = <[i := Some o']> s.(hw_outs) /\ got a o o' n m x q s s'.
Proof using All.
  intros L Ea T U B Nn Bn Tq Bq. unfold start_output_stream.
  rewrite (sbind_done _ _ _ _ _ (get_out_run i o s L)), (sbind_done _ _ _ _ _ (addr_run o a s Ea)).
  destruct (perf_run true s) as (l & Ep). rewrite (sbind_done _ _ _ _ _ Ep). erewrite sbind_done by reflexivity.
  set (s0 := set_active_output (Some i) _).
  assert (frame s s0) as F0 by (by split).
  assert (exists o1 s1, (if out_is_rear_seat_or_sharing_addr a then open_seat p sharing_en error_null i a
             else if p.(misc).(ahub_en) then open_ahub p error_null i a
             else open_main cb_calloc cb_malloc rproc_mp p e i) s0 = Done (true, s1)
          /\ s1.(hw_outs) = <[i := Some o1]> s.(hw_outs) /\ got a o o1 n m x q s s1) as (o1 & s1 & E1 & O1 & G1).
  { destruct (out_is_rear_seat_or_sharing_addr a) eqn:Er; [|destruct p.(misc).(ahub_en) eqn:Eh].
    - destruct (seat_run i a s0 o n m x L T U B) as (h & s1 & E1 & O1 & B1 & P1 & F1).
      exists (set_so_pcm (Some h) o), s1. split; [done|]. split; [done|].
      split; [eauto| |done|by eapply frame_trans]. unfold own_stream. by rewrite Er.
    - destruct (ahub_run i a s0 o n m x L B) as (h & c & s1 & E1 & O1 & B1 & P1 & F1).
      exists (set_so_pcm (Some h) (set_so_config c o)), s1. split; [done|]. split; [done|].
      split; [eauto| |done|by eapply frame_trans]. unfold own_stream. by rewrite Er, Eh.
    - assert (own_stream a = false) as W0 by (unfold own_stream; by rewrite Er, Eh).
      destruct (main_run i s0 o n m x q L B Nn (Bn W0) Tq Bq) as (k & h & s1 & E1 & O1 & L1 & B1 & P1 & F1).
      exists (set_so_pcm_hdl (Some k) (set_so_pcm h o)), s1. split; [done|]. split; [done|].
      split; [by rewrite W0|eauto|done|by eapply frame_trans]. }
  rewrite (sbind_done _ _ _ _ _ E1).
  assert (s1.(hw_outs) !! i = Some (Some o1)) as L1
    by (rewrite O1, list_lookup_insert_eq; [done|by apply lookup_lt_Some in L]).
  destruct (out_resampler_run i s1 o1 L1) as (rs & Er). rewrite Er.
  exists (set_so_resampler rs o1). eexists. split; [reflexivity|].
  split; [cbn; by rewrite O1, list_insert_insert_eq|]. destruct G1 as [G1 G2 G3 G4]. split; try done.
  eapply frame_trans; [exact G4|by split].
Qed.

(** *** The invariant *)

(** Streams that run, by what they use. *)
Definition runs_on (own : bool) (x : option sout) : bool :=
  match x with
  | Some o => negb o.(so_standby)
              && match o.(so_bus_address) with Some a => Bool.eqb (own_stream a) own | None => false end
  | None => false
  end.

Definition uses_handle (k : nat) (x : option sout) : bool :=
  runs_on false x && match x with Some o => bool_decide (o.(so_pcm_hdl) = Some k) | None => false end.

Definition uses_path (x : option sout) : bool :=
  runs_on false x && match x with Some o => counted o.(so_bus_num) | None => false end.

Definition own_device (x : option sout) : option Z :=
  if runs_on true x then match x with Some o => o.(so_pcm) | None => None end else None.

(** A stream that plays no effect. *)
Record stream_ok (s : state) (o : sout) (a : string) : Prop := {
  st_addr : o.(so_bus_address) = Some a;
  st_effect : o.(so_effect).(effect_desc) = None;
  st_bus : own_stream a = false -> 0 <= o.(so_bus_num) < 16;
  st_main : own_stream a = false -> o.(so_standby) = false ->
            exists k, o.(so_pcm_hdl) = Some k /\ (k < length s.(hw_hal).(out_streams))%nat;
  st_own : own_stream a = true -> o.(so_pcm_hdl) = None /\ (o.(so_standby) = false -> is_Some o.(so_pcm));
  st_src : forall k, o.(so_repeater_src) = Some k ->
           exists x, s.(hw_srcs) !! k = Some x /\ x.(s_duplicate) = false
}.

Section Invariant.
(** The users and the devices beside the streams. *)
Context (n0 m : nat -> Z) (x0 : list Z) (q0 : nat).

Record hw_ok (s : state) : Prop := {
  hk_base : base_ok (fun k => n0 k + count (uses_handle k) s.(hw_outs)) m
              (omap own_device s.(hw_outs) ++ x0) s.(hw_hal);
  hk_streams : forall i o, s.(hw_outs) !! i = Some (Some o) -> exists a, stream_ok s o a;
  hk_path : s.(hw_paths).(path_table) = users (q0 + Z.to_nat (count uses_path s.(hw_outs)));
  hk_mixers : mixers_there s;
  hk_usb : usb_there s;
  hk_users : forall k, 0 <= n0 k /\ n0 k + zlen s.(hw_outs) <= INT32_MAX;
  hk_paths : Z.of_nat q0 + zlen s.(hw_outs) < INT32_MAX
}.

(** Sources that are not mirrored stay so. *)
Definition sources_kept (l l' : list au_shr_src) : Prop :=
  forall k x, l !! k = Some x -> x.(s_duplicate) = false ->
    exists x', l' !! k = Some x' /\ x'.(s_duplicate) = false.

Lemma stream_ok_kept (s s' : state) (o : sout) (a : string) :
  stream_ok s o a -> sources_kept s.(hw_srcs) s'.(hw_srcs) ->
  length s'.(hw_hal).(out_streams) = length s.(hw_hal).(out_streams) -> stream_ok s' o a.
Proof using.
  intros [A1 A2 A3 A4 A5 A6] K Le. split; try done.
  - intros W0 Sb. rewrite Le. by apply A4.
  - intros k Ek. destruct (A6 k Ek) as (x & Ex & Dx). by apply (K k x).
Qed.

(** The invariant after one stream changed. *)
Lemma hw_ok_change (s s' : state) (i : nat) (o o' : sout) (a : string) :
  hw_ok s -> s.(hw_outs) !! i = Some (Some o) -> s'.(hw_outs) = <[i := Some o']> s.(hw_outs) ->
  base_ok (fun k => n0 k + (count (uses_handle k) s.(hw_outs) - (if uses_handle k (Some o) then 1 else 0)
                            + (if uses_handle k (Some o') then 1 else 0))) m
    (omap own_device (<[i := Some o']> s.(hw_outs)) ++ x0) s'.(hw_hal) ->
  s'.(hw_paths).(path_table)
  = users (q0 + Z.to_nat (count uses_path s.(hw_outs) - (if uses_path (Some o) then 1 else 0)
                          + (if uses_path (Some o') then 1 else 0))) ->
  stream_ok s' o' a -> sources_kept s.(hw_srcs) s'.(hw_srcs) ->
  length s'.(hw_hal).(out_streams) = length s.(hw_hal).(out_streams) ->
  s'.(adev) = s.(adev) -> mixers_there s' -> hw_ok s'.
Proof using.
  intros [K1 K2 K3 K4 K5 K6 K7] L O B Pt So Sk Le Ad Mx. split; rewrite ?O; try done.
  - eapply base_ok_ext; [exact B| |done|done]. intros k. cbn. by rewrite (count_insert _ _ _ _ _ L).
  - intros j y Ly. destruct (decide (j = i)) as [-> | Ne].
    + rewrite list_lookup_insert_eq in Ly by (by apply lookup_lt_Some in L). injection Ly as <-. by exists a.
    + rewrite list_lookup_insert_ne in Ly by done. destruct (K2 j y Ly) as [b Sb]. exists b.
      by eapply stream_ok_kept.
  - by rewrite (count_insert _ _ _ _ _ L).
  - unfold usb_there in *. by rewrite Ad.
  - intros k. unfold zlen. rewrite length_insert. apply K6.
  - unfold zlen. by rewrite length_insert.
Qed.

Lemma standby_uses (o : sout) (k : nat) : o.(so_standby) = true ->
  uses_handle k (Some o) = false /\ uses_path (Some o) = false /\ own_device (Some o) = None.
Proof using. intros Sb. unfold uses_handle, uses_path, own_device, runs_on. by rewrite Sb. Qed.

Lemma omap_own (l : list (option sout)) (i : nat) (o o' : option sout) :
  l !! i = Some o ->
  option_list (own_device o) ++ omap own_device (<[i := o']> l) ≡ₚ option_list (own_device o') ++ omap own_device l.
Proof using. intros L. by apply omap_insert_perm. Qed.

(** A source for a stream that starts. *)
Lemma get_src_kept (b ch : Z) (x : share W) (k : option nat) (x' : share W) :
  au_sharing_get_src b ch x = (k, x') ->
  sources_kept x.(srcs) x'.(srcs) /\ x'.(dsts) = x.(dsts) /\ x'.(share_world) = x.(share_world)
  /\ forall j, k = Some j -> exists y, x'.(srcs) !! j = Some y /\ y.(s_duplicate) = false.
Proof using.
  clear threads leaves e. unfold au_sharing_get_src.
  assert (forall l i f j, free_src l i f = Some j -> f = Some j \/ (i <= j < i + length l)%nat) as Fr.
  { induction l as [|y l IH]; intros i f j F; cbn [free_src] in F; [by left|]. cbn [length].
    destruct (IH (S i) _ j F) as [Eq|Lt]; [|right; lia]. destruct y.(s_allocated); [by left|].
    injection Eq as ->. right. lia. }
  destruct (free_src x.(srcs) 0 None) as [j|] eqn:Ef; intros [= <- <-]; cbn.
  - destruct (Fr _ _ _ _ Ef) as [?|Lt]; [done|]. destruct (lookup_lt_is_Some_2 x.(srcs) j) as [y Ey]; [lia|].
    split_and!; try done.
    + intros k z Ez Dz. destruct (decide (k = j)) as [-> | Ne].
      * rewrite list_lookup_alter_eq, Ez. by eexists.
      * rewrite list_lookup_alter_ne by done. by exists z.
    + intros j' [= <-]. rewrite list_lookup_alter_eq, Ey. by eexists.
  - split_and!; try done. intros k z Ez Dz. by exists z.
Qed.

(** The rest of a wake-up: a source of the sharing, and the stream runs. *)
Lemma repeater_run (i : nat) (s : state) (o : sout) :
  s.(hw_outs) !! i = Some (Some o) ->
  exists k s', (if sharing_en && is_none o.(so_repeater_src) then
                  do! k := on_share (fun x => Done (au_sharing_get_src o.(so_bus_num) o.(so_config).(channels) x)) in
                  put_out i (set_so_repeater_src k o)
                else sret tt) s = Done (tt, s')
    /\ s'.(hw_outs) = <[i := Some (set_so_repeater_src k o)]> s.(hw_outs)
    /\ s'.(hw_hal) = s.(hw_hal) /\ s'.(hw_paths) = s.(hw_paths) /\ s'.(adev) = s.(adev)
    /\ s'.(hw_mixers) = s.(hw_mixers) /\ sources_kept s.(hw_srcs) s'.(hw_srcs)
    /\ (k = o.(so_repeater_src) \/ forall j, k = Some j -> exists y, s'.(hw_srcs) !! j = Some y /\ y.(s_duplicate) = false).
Proof using.
  clear threads leaves e. intros L. destruct (sharing_en && is_none o.(so_repeater_src)).
  - destruct (au_sharing_get_src o.(so_bus_num) o.(so_config).(channels)
      {| dsts := s.(hw_dsts); srcs := s.(hw_srcs); share_world := s.(hw_hal).(world) |}) as [k x'] eqn:Eg.
    destruct (get_src_kept _ _ _ _ _ Eg) as (K & D & Wd & J). cbn in K, D, Wd.
    exists k. eexists. unfold on_share. erewrite sbind_done by (rewrite Eg; reflexivity).
    split; [reflexivity|]. cbn. rewrite Wd. split_and!; try done; [by destruct s.(hw_hal)|by right].
  - exists o.(so_repeater_src), s. split; [done|]. split_and!; try done.
    + replace (set_so_repeater_src o.(so_repeater_src) o) with o by (by destruct o). by rewrite list_insert_id.
    + intros k z Ez Dz. by exists z.
    + by left.
Qed.

Lemma runs_now (o : sout) (a : string) (own : bool) :
  o.(so_bus_address) = Some a -> runs_on own (Some (set_so_standby false o)) = Bool.eqb (own_stream a) own.
Proof using. intros Ea. cbn. by rewrite Ea. Qed.

(** A stream that runs after [got]. *)
Lemma woken_ok (s s1 s2 : state) (i : nat) (a : string) (o o1 : sout) (k : option nat) :
  hw_ok s -> s.(hw_outs) !! i = Some (Some o) -> stream_ok s o a -> o.(so_standby) = true ->
  got a o o1 (fun k => n0 k + count (uses_handle k) s.(hw_outs)) m (omap own_device s.(hw_outs) ++ x0)
    (q0 + Z.to_nat (count uses_path s.(hw_outs))) s s1 ->
  s2.(hw_outs) = <[i := Some (set_so_standby false (set_so_repeater_src k o1))]> s.(hw_outs) ->
  s2.(hw_hal) = s1.(hw_hal) -> s2.(hw_paths) = s1.(hw_paths) -> s2.(adev) = s1.(adev) ->
  s2.(hw_mixers) = s1.(hw_mixers) -> sources_kept s1.(hw_srcs) s2.(hw_srcs) ->
  (k = o1.(so_repeater_src) \/ forall j, k = Some j -> exists y, s2.(hw_srcs) !! j = Some y /\ y.(s_duplicate) = false) ->
  hw_ok s2.
Proof using.
  clear threads leaves e opens cards_there resampled slots infos.
  intros K L [A1 A2 A3 A4 A5 A6] Sb [G1 G2 (V1 & V2 & V3 & V4 & V5) [F1 F2 F3 F4]] O2 Eh Ep Ed Em Sk Kk.
  set (o2 := set_so_standby false (set_so_repeater_src k o1)) in *.
  assert (o2.(so_bus_address) = Some a) as Ea by (unfold o2; cbn; congruence).
  assert (forall own, runs_on own (Some o2) = Bool.eqb (own_stream a) own) as Ru
    by (intros own; apply runs_now; cbn; congruence).
  destruct (standby_uses o 0%nat Sb) as (_ & Up & Od).
  assert (forall j, j = o1.(so_repeater_src) \/ (forall l, j = Some l -> exists y, s2.(hw_srcs) !! l = Some y /\ y.(s_duplicate) = false) ->
            forall l, j = Some l -> exists y, s2.(hw_srcs) !! l = Some y /\ y.(s_duplicate) = false) as Src.
  { intros j [-> | J] l El; [|by apply J]. rewrite V4 in El. destruct (A6 l El) as (y & Ey & Dy).
    apply (Sk l y); [by rewrite F2|done]. }
  assert (sources_kept s.(hw_srcs) s2.(hw_srcs)) as Sk' by (intros l y; rewrite <-F2; apply Sk).
  assert (length s2.(hw_hal).(out_streams) = length s.(hw_hal).(out_streams)) as Le by congruence.
  assert (mixers_there s2) as Mx.
  { unfold mixers_there. rewrite Em. apply F3, K. }
  assert (omap own_device (<[i := Some o2]> s.(hw_outs)) ≡ₚ option_list (own_device (Some o2)) ++ omap own_device s.(hw_outs)) as Om
    by (rewrite <-(omap_own _ _ _ _ L), Od; done).
  assert (own_device (Some o2) = if own_stream a then o1.(so_pcm) else None) as Od2
    by (unfold own_device; rewrite (Ru true); by destruct (own_stream a)).
  assert (uses_path (Some o2) = negb (own_stream a) && counted o.(so_bus_num)) as Up2
    by (unfold uses_path; rewrite (Ru false); cbn; rewrite V1; by destruct (own_stream a)).
  assert (forall j, uses_handle j (Some o2) = negb (own_stream a) && bool_decide (o1.(so_pcm_hdl) = Some j)) as Uh2
    by (intros j; unfold uses_handle; rewrite (Ru false); by destruct (own_stream a)).
  assert (s2.(adev) = s.(adev)) as Ad by congruence.
  eapply (hw_ok_change s s2 i o o2 a); try done.
  - rewrite Eh. destruct (own_stream a) eqn:Ow.
    + destruct (G1 eq_refl) as (h & Ph & _ & B1 & _). eapply base_ok_ext; [exact B1| |done|].
      * intros j. cbn. rewrite Uh2, (proj1 (standby_uses o j Sb)). cbn. lia.
      * by rewrite Om, Od2, Ph.
    + destruct (G2 eq_refl) as (kk & Hk & _ & B1 & _). eapply base_ok_ext; [exact B1| |done|].
      * intros j. unfold add_at. rewrite Uh2, (proj1 (standby_uses o j Sb)), Hk. cbn [negb andb].
        case_decide as D; [subst j; rewrite bool_decide_true by done; lia|].
        rewrite bool_decide_false by congruence. lia.
      * by rewrite Om, Od2.
  - rewrite Up, Up2, Ep. pose proof (count_bound uses_path s.(hw_outs)) as Cb. destruct (own_stream a) eqn:Ow.
    + destruct (G1 eq_refl) as (h & _ & _ & _ & ->). rewrite (hk_path _ K). cbn. do 2 f_equal. lia.
    + destruct (G2 eq_refl) as (kk & _ & _ & _ & ->). cbn. unfold b2n. destruct (counted _); f_equal; lia.
  - split; cbn; [congruence|congruence|by rewrite V1|..].
    + intros Ow _. destruct (G2 Ow) as (kk & Hk & L1 & _). exists kk. rewrite Eh. split; [done|].
      by apply lookup_lt_is_Some_1.
    + intros Ow. destruct (G1 Ow) as (h & Ph & Hh & _). rewrite Hh. split; [apply A5, Ow|]. rewrite Ph. by eauto.
    + intros l El. by apply (Src k Kk).
Qed.

Lemma no_effect_run (i : nat) (bytes fs : Z) (s : state) (o : sout) :
  s.(hw_outs) !! i = Some (Some o) -> o.(so_effect).(effect_desc) = None ->
  start_sw_effect i bytes fs s = Done (0, s).
Proof using.
  intros L Ef. unfold start_sw_effect. rewrite (sbind_done _ _ _ _ _ (get_out_run i o s L)), Ef.
  by rewrite andb_false_r.
Qed.

Lemma wake_step (i : nat) (bytes fs : Z) (s : state) (o : sout) :
  hw_ok s -> s.(hw_outs) !! i = Some (Some o) ->
  exists s', wake_output cb_calloc cb_malloc rproc_mp p sharing_en error_null create_resampler e i bytes fs s
             = Done (0, s') /\ hw_ok s'
    /\ exists o', s'.(hw_outs) = <[i := Some o']> s.(hw_outs) /\ o'.(so_standby) = false.
Proof using All.
  intros K L. pose proof K as [K1 K2 K3 K4 K5 K6 K7]. destruct (K2 i o L) as [a So]. pose proof So as [A1 A2 A3 A4 A5 A6].
  unfold wake_output. rewrite (sbind_done _ _ _ _ _ (get_out_run i o s L)).
  destruct o.(so_standby) eqn:Sb; [cbn [negb]|exists s; split_and!; try done; exists o; by rewrite list_insert_id].
  assert (forall k, 0 <= n0 k + count (uses_handle k) s.(hw_outs) < INT32_MAX) as Nn.
  { intros k. pose proof (count_bound (uses_handle k) s.(hw_outs)). destruct (K6 k).
    pose proof (count_room _ _ _ _ L (proj1 (standby_uses o k Sb))). lia. }
  assert (Z.of_nat (q0 + Z.to_nat (count uses_path s.(hw_outs))) < INT32_MAX) as Bq
    by (pose proof (count_bound uses_path s.(hw_outs)); lia).
  destruct (start_run i a s o _ m _ _ L A1 K4 K5 K1 Nn A3 K3 Bq) as (o1 & s1 & E1 & O1 & G1).
  rewrite (sbind_done _ _ _ _ _ E1). cbn [negb Z.eqb].
  assert (s1.(hw_outs) !! i = Some (Some o1)) as L1
    by (rewrite O1, list_lookup_insert_eq; [done|by apply lookup_lt_Some in L]).
  pose proof (got_kept _ _ _ _ _ _ _ _ _ G1) as (V1 & V2 & V3 & V4 & V5).
  rewrite (sbind_done _ _ _ _ _ (no_effect_run i bytes fs s1 o1 L1 ltac:(by rewrite V3))).
  rewrite (sbind_done _ _ _ _ _ (get_out_run i o1 s1 L1)).
  destruct (repeater_run i s1 o1 L1) as (k & s2 & E2 & O2 & H2 & P2 & D2 & M2 & S2 & X2).
  rewrite (sbind_done _ _ _ _ _ E2).
  assert (s2.(hw_outs) !! i = Some (Some (set_so_repeater_src k o1))) as L2
    by (rewrite O2, list_lookup_insert_eq; [done|by apply lookup_lt_Some in L1]).
  rewrite (sbind_done _ _ _ _ _ (upd_out_run i (set_so_standby false) _ s2 L2)).
  set (s3 := set_hw_outs _ s2).
  assert (s3.(hw_outs) = <[i := Some (set_so_standby false (set_so_repeater_src k o1))]> s.(hw_outs)) as O3
    by (cbn; by rewrite O2, O1, !list_insert_insert_eq).
  exists s3. split; [reflexivity|]. split; [by eapply (woken_ok s s1 _ i a o o1 k)|by eexists].
Qed.

(** *** Ending *)

Lemma own_close_run (i : nat) (h : Z) (s : state) (o : sout) (n : nat -> Z) (x : list Z) :
  s.(hw_outs) !! i = Some (Some o) -> base_ok n m (h :: x) s.(hw_hal) ->
  exists pcm s1, close_own_pcm i h s = Done (tt, s1)
    /\ s1.(hw_outs) = <[i := Some (set_so_pcm pcm o)]> s.(hw_outs) /\ base_ok n m x s1.(hw_hal)
    /\ s1.(hw_paths) = s.(hw_paths) /\ frame s s1.
Proof using HM HA HW HR.
  intros L B. unfold close_own_pcm, dev_close.
  assert (h ∈ opened s.(hw_hal).(world)) as Op.
  { rewrite (bo_dev _ _ _ _ B). apply elem_of_app; right. apply elem_of_app; right. by left. }
  pose proof (base_close_device n m x s.(hw_hal) h B) as B1.
  destruct (pcm_close h s.(hw_hal).(world)) as [ret w] eqn:Ec. cbn in B1.
  erewrite sbind_done by (rewrite (sbind_done _ _ _ _ _ (live_run h s Op)); apply on_world_run; exact Ec).
  destruct (ret =? 0).
  - erewrite upd_out_run by exact L. exists None. eexists. split; [reflexivity|]. by split_and!.
  - exists o.(so_pcm). eexists. split; [reflexivity|]. split_and!; try done.
    replace (set_so_pcm o.(so_pcm) o) with o by (by destruct o). cbn. by rewrite list_insert_id.
Qed.

Lemma release_seat_run (a : string) (s : state) :
  mixers_there s -> exists s1, release_seat p sharing_en a s = Done (tt, s1)
    /\ s1.(hw_outs) = s.(hw_outs) /\ s1.(hw_hal) = s.(hw_hal) /\ s1.(hw_paths) = s.(hw_paths) /\ frame s s1.
Proof using.
  intros T. unfold release_seat.
  assert (exists s1, sret tt s = Done (tt, s1) /\ s1.(hw_outs) = s.(hw_outs) /\ s1.(hw_hal) = s.(hw_hal)
            /\ s1.(hw_paths) = s.(hw_paths) /\ frame s s1) as K by (by exists s).
  assert (forall c, exists s1, sd_virtual_i2s_switch c false s = Done (tt, s1) /\ s1.(hw_outs) = s.(hw_outs)
            /\ s1.(hw_hal) = s.(hw_hal) /\ s1.(hw_paths) = s.(hw_paths) /\ frame s s1) as Sw.
  { intros c. destruct (switch_run c false s T) as (f & -> & Tf). eexists. split; [reflexivity|]. by repeat split. }
  repeat case_match; auto.
Qed.

(** What a stream gives back. *)
Record gave (a : string) (o o' : sout) (n : nat -> Z) (x : list Z) (q : nat) (s s' : state) : Prop := {
  gave_own : own_stream a = true -> base_ok n m x s'.(hw_hal) /\ s'.(hw_paths) = s.(hw_paths);
  gave_main : own_stream a = false -> exists k, o.(so_pcm_hdl) = Some k /\ base_ok (add_at k (-1) n) m x s'.(hw_hal)
                /\ s'.(hw_paths).(path_table) = users (q - b2n (counted o.(so_bus_num)));
  gave_kept : exists pcm, o' = set_so_pcm pcm o;
  gave_frame : frame s s'
}.

Lemma release_main_run (i : nat) (a : string) (s : state) (o : sout) (k : nat) (n : nat -> Z) (x : list Z) (q : nat) :
  s.(hw_outs) !! i = Some (Some o) -> own_stream a = false -> o.(so_pcm_hdl) = Some k ->
  (k < length s.(hw_hal).(out_streams))%nat -> base_ok n m x s.(hw_hal) -> 0 < n k <= INT32_MAX ->
  0 <= o.(so_bus_num) < 16 -> s.(hw_paths).(path_table) = users q -> Z.of_nat q < INT32_MAX ->
  exists o' s1, release_streamer rproc_mp p e i o s = Done (tt, s1)
    /\ s1.(hw_outs) = <[i := Some o']> s.(hw_outs) /\ gave a o o' n x q s s1.
Proof using All.
  intros L Ow Ek Lk B Nk Bn T Bq. unfold release_streamer.
  destruct (slots o.(so_bus_num) Bn) as (v & Ev & Bv).
  erewrite sbind_done by (unfold slift; rewrite Ev; reflexivity). rewrite leaves.
  destruct (base_close_out n m x s.(hw_hal) (view_out o) k v B Ek (lookup_lt_is_Some_2 _ _ Lk) Nk Bn Bv)
    as ([r o2] & h' & E2 & B2 & Le).
  erewrite sbind_done by (apply on_hal_run; exact E2). unfold put_out. erewrite sbind_done by reflexivity.
  match goal with |- context [on_paths _ ?s0] => set (s1 := s0) end.
  destruct (path_closed o.(so_bus_num) q s1 T Bq) as (x1 & E1 & T1). rewrite E1.
  set (o' := if o2.(o_pcm) then o else set_so_pcm None o) in *.
  exists o'. eexists. split; [reflexivity|]. split; [done|]. split; cbn.
  - by rewrite Ow.
  - intros _. by exists k.
  - unfold o'. destruct o2.(o_pcm); [exists o.(so_pcm); by destruct o|by exists None].
  - by split.
Qed.

Lemma release_devices_run (i : nat) (a : string) (s : state) (o : sout) (n : nat -> Z) (x : list Z) (q : nat) :
  s.(hw_outs) !! i = Some (Some o) -> stream_ok s o a -> o.(so_standby) = false -> mixers_there s ->
  base_ok n m (option_list (own_device (Some o)) ++ x) s.(hw_hal) ->
  (forall k, o.(so_pcm_hdl) = Some k -> own_stream a = false -> 0 < n k <= INT32_MAX) ->
  s.(hw_paths).(path_table) = users q -> Z.of_nat q < INT32_MAX ->
  exists o' s1, release_devices rproc_mp p sharing_en e i a s = Done (tt, s1)
    /\ s1.(hw_outs) = <[i := Some o']> s.(hw_outs) /\ gave a o o' n x q s s1.
Proof using All.
  intros L [A1 A2 A3 A4 A5 A6] Sb T B Nk Tq Bq. unfold release_devices.
  rewrite (sbind_done _ _ _ _ _ (get_out_run i o s L)).
  assert (own_device (Some o) = if own_stream a then o.(so_pcm) else None) as Od
    by (unfold own_device, runs_on; rewrite Sb, A1; by destruct (own_stream a)).
  rewrite Od in B. destruct (own_stream a) eqn:Ow.
  - destruct (A5 eq_refl) as [Hn Ps]. destruct (Ps Sb) as [h Ph]. rewrite Ph, Hn. rewrite Ph in B.
    destruct (own_close_run i h s o n x L B) as (pcm & s1 & E1 & O1 & B1 & P1 & F1).
    destruct (out_is_rear_seat_or_sharing_addr a).
    + rewrite (sbind_done _ _ _ _ _ E1).
      destruct (release_seat_run a s1 (fr_mixers _ _ F1 T)) as (s2 & E2 & O2 & H2 & P2 & F2). rewrite E2.
      exists (set_so_pcm pcm o), s2. split; [done|]. split; [congruence|].
      split; [intros _; split; congruence|congruence|by exists pcm|by eapply frame_trans].
    + rewrite E1. exists (set_so_pcm pcm o), s1. split; [done|]. split; [done|].
      split; [done|congruence|by exists pcm|done].
  - destruct (A4 eq_refl Sb) as (k & Ek & Lk).
    destruct (release_main_run i a s o k n x q L Ow Ek Lk B (Nk k Ek eq_refl) (A3 eq_refl) Tq Bq)
      as (o' & s1 & E1 & O1 & G1).
    rewrite Ek. exists o', s1. split; [|done]. unfold own_stream in Ow. apply orb_false_iff in Ow as [Or _].
    rewrite Or. by destruct o.(so_pcm).
Qed.

Lemma release_repeater_run (i : nat) (s : state) (o : sout) :
  s.(hw_outs) !! i = Some (Some o) ->
  (forall k, o.(so_repeater_src) = Some k -> exists y, s.(hw_srcs) !! k = Some y /\ y.(s_duplicate) = false) ->
  exists k s', release_repeater sharing_en i s = Done (tt, s')
    /\ s'.(hw_outs) = <[i := Some (set_so_repeater_src k o)]> s.(hw_outs) /\ (k = None \/ k = o.(so_repeater_src))
    /\ s'.(hw_hal) = s.(hw_hal) /\ s'.(hw_paths) = s.(hw_paths) /\ s'.(adev) = s.(adev)
    /\ s'.(hw_mixers) = s.(hw_mixers) /\ sources_kept s.(hw_srcs) s'.(hw_srcs).
Proof using.
  clear threads leaves e opens cards_there resampled slots infos n0 m x0 q0 cb_malloc. intros L Sr. unfold release_repeater. rewrite (sbind_done _ _ _ _ _ (get_out_run i o s L)).
  assert (exists s', sret tt s = Done (tt, s')
    /\ s'.(hw_outs) = <[i := Some (set_so_repeater_src o.(so_repeater_src) o)]> s.(hw_outs)
    /\ s'.(hw_hal) = s.(hw_hal) /\ s'.(hw_paths) = s.(hw_paths) /\ s'.(adev) = s.(adev)
    /\ s'.(hw_mixers) = s.(hw_mixers) /\ sources_kept s.(hw_srcs) s'.(hw_srcs)) as (s0 & K0).
  { exists s. split_and!; try done; [|by intros k y Ey; exists y].
    replace (set_so_repeater_src o.(so_repeater_src) o) with o by (by destruct o). by rewrite list_insert_id. }
  destruct o.(so_repeater_src) as [k|] eqn:Ek; [|by exists None, s0; destruct K0 as (? & ? & ? & ? & ? & ? & ?); split_and!; auto].
  destruct sharing_en; [|by exists (Some k), s0; destruct K0 as (? & ? & ? & ? & ? & ? & ?); split_and!; auto].
  destruct (Sr k eq_refl) as (y & Ey & Dy).
  pose proof (lookup_lt_Some _ _ _ Ey) as Lk. exists None. eexists.
  unfold on_share, au_sharing_release_src, au_sharing_close_dst. erewrite sbind_done.
  2: { cbn [srcs]. rewrite (array_get_lookup _ _ y) by (rewrite ?Nat2Z.id; first [lia|done]). cbn [obind].
       rewrite array_set_done by (unfold zlen; lia). cbn. rewrite Dy. cbn. reflexivity. }
  split; [reflexivity|]. cbn. rewrite Nat2Z.id. split_and!; try done; [by left|by destruct s.(hw_hal)|].
  intros j z Ez Dz. destruct (decide (j = k)) as [-> | Ne].
  - rewrite list_lookup_insert_eq by done. by eexists.
  - rewrite list_lookup_insert_ne by done. by exists z.
Qed.

(** A stream in standby after [gave]. *)
Lemma ended_ok (s s1 s2 : state) (i : nat) (a : string) (o o1 o2 : sout) :
  hw_ok s -> s.(hw_outs) !! i = Some (Some o) -> stream_ok s o a -> o.(so_standby) = false ->
  gave a o o1 (fun k => n0 k + count (uses_handle k) s.(hw_outs))
    (omap own_device (<[i := None]> s.(hw_outs)) ++ x0) (q0 + Z.to_nat (count uses_path s.(hw_outs))) s s1 ->
  s2.(hw_outs) = <[i := Some o2]> s.(hw_outs) -> o2.(so_standby) = true ->
  o2.(so_bus_num) = o1.(so_bus_num) -> o2.(so_bus_address) = o1.(so_bus_address) ->
  o2.(so_effect) = o1.(so_effect) -> o2.(so_pcm_hdl) = o1.(so_pcm_hdl) ->
  (o2.(so_repeater_src) = None \/ o2.(so_repeater_src) = o1.(so_repeater_src)) ->
  s2.(hw_hal) = s1.(hw_hal) -> s2.(hw_paths) = s1.(hw_paths) -> s2.(adev) = s1.(adev) ->
  s2.(hw_mixers) = s1.(hw_mixers) -> sources_kept s1.(hw_srcs) s2.(hw_srcs) -> hw_ok s2.
Proof using.
  clear threads leaves e opens cards_there resampled slots infos cb_malloc.
  intros K L [A1 A2 A3 A4 A5 A6] Sb [G1 G2 (pcm & ->) [F1 F2 F3 F4]] O2 Sb2 V1 V2 V3 V4 V5 Eh Ep Ed Em Sk.
  cbn in V1, V2, V3, V4, V5.
  assert (forall own, runs_on own (Some o) = Bool.eqb (own_stream a) own) as Ru
    by (intros own; cbn; by rewrite Sb, A1).
  assert (forall j, uses_handle j (Some o) = negb (own_stream a) && bool_decide (o.(so_pcm_hdl) = Some j)) as Uh
    by (intros j; unfold uses_handle; rewrite (Ru false); by destruct (own_stream a)).
  assert (uses_path (Some o) = negb (own_stream a) && counted o.(so_bus_num)) as Up0
    by (unfold uses_path; rewrite (Ru false); by destruct (own_stream a)).
  destruct (standby_uses o2 0%nat Sb2) as (_ & Up & Od).
  assert (sources_kept s.(hw_srcs) s2.(hw_srcs)) as Sk' by (intros l y; rewrite <-F2; apply Sk).
  assert (mixers_there s2) as Mx by (unfold mixers_there; rewrite Em; apply F3, K).
  assert (omap own_device (<[i := Some o2]> s.(hw_outs)) ≡ₚ omap own_device (<[i := None]> s.(hw_outs))) as Om.
  { apply (Permutation_app_inv_l (option_list (own_device (Some o)))). rewrite !(omap_own _ _ _ _ L).
    by rewrite Od. }
  eapply (hw_ok_change s s2 i o o2 a); try done; [..|congruence|congruence].
  - rewrite Eh. destruct (own_stream a) eqn:Ow.
    + destruct (G1 eq_refl) as [B1 _]. eapply base_ok_ext; [exact B1| |done|by rewrite Om].
      intros j. cbn. rewrite (proj1 (standby_uses o2 j Sb2)). rewrite Uh. cbn. lia.
    + destruct (G2 eq_refl) as (k & Hk & B1 & _). eapply base_ok_ext; [exact B1| |done|by rewrite Om].
      intros j. unfold add_at. rewrite (proj1 (standby_uses o2 j Sb2)). rewrite Uh, Hk.
      cbn [negb andb]. case_decide as D; [subst j; rewrite bool_decide_true by done; lia|].
      rewrite bool_decide_false by congruence. lia.
  - rewrite Up, Up0, Ep. destruct (own_stream a) eqn:Ow.
    + destruct (G1 eq_refl) as [_ ->]. rewrite (hk_path _ K). cbn. do 2 f_equal. lia.
    + destruct (G2 eq_refl) as (k & _ & _ & ->). cbn [negb andb]. unfold b2n.
      pose proof (count_bound uses_path s.(hw_outs)) as Cb. destruct (counted o.(so_bus_num)) eqn:Ec; [|f_equal; lia].
      assert (0 < count uses_path s.(hw_outs)) as Cp.
      { apply (count_pos _ _ _ _ L). by rewrite Up0. }
      f_equal. lia.
  - split; [congruence|congruence|by rewrite V1|congruence|..].
    + intros Ow. rewrite V4, Sb2. split; [apply A5, Ow|done].
    + intros l El. assert (o.(so_repeater_src) = Some l) as El'. { destruct V5; congruence. }
      destruct (A6 l El') as (y & Ey & Dy). by apply (Sk' l y).
Qed.

Lemma standby_step (i : nat) (s : state) (o : sout) :
  hw_ok s -> s.(hw_outs) !! i = Some (Some o) ->
  exists s', out_standby rproc_mp p sharing_en e i s = Done (0, s') /\ hw_ok s'
    /\ exists o', s'.(hw_outs) = <[i := Some o']> s.(hw_outs) /\ o'.(so_standby) = true.
Proof using All.
  intros K L. pose proof K as [K1 K2 K3 K4 K5 K6 K7]. destruct (K2 i o L) as [a So]. pose proof So as [A1 A2 A3 A4 A5 A6].
  unfold out_standby, do_output_standby. rewrite (sbind_done _ _ _ _ _ (get_out_run i o s L)).
  destruct o.(so_standby) eqn:Sb; [exists s; split_and!; try done; exists o; by rewrite list_insert_id|]. rewrite (sbind_done _ _ _ _ _ (addr_run o a s A1)).
  destruct (release_devices_run i a s o (fun k => n0 k + count (uses_handle k) s.(hw_outs))
              (omap own_device (<[i := None]> s.(hw_outs)) ++ x0) (q0 + Z.to_nat (count uses_path s.(hw_outs))))
    as (o1 & s1 & E1 & O1 & G1); try done.
  { eapply base_ok_ext; [exact K1|done|done|]. rewrite app_assoc, (omap_own _ _ _ _ L). done. }
  { intros k Ek Ow. pose proof (count_bound (uses_handle k) s.(hw_outs)). destruct (K6 k).
    assert (0 < count (uses_handle k) s.(hw_outs)); [|lia]. apply (count_pos _ _ _ _ L).
    unfold uses_handle, runs_on. rewrite Sb, A1, Ow, Ek. by rewrite bool_decide_true. }
  { pose proof (count_bound uses_path s.(hw_outs)). lia. }
  rewrite (sbind_done _ _ _ _ _ E1).
  assert (s1.(hw_outs) !! i = Some (Some o1)) as L1
    by (rewrite O1, list_lookup_insert_eq; [done|by apply lookup_lt_Some in L]).
  rewrite (sbind_done _ _ _ _ _ (upd_out_run i (set_so_resampler None) _ s1 L1)).
  erewrite sbind_done by reflexivity. set (s2 := set_active_output None _). set (o2 := set_so_resampler None o1).
  assert (s2.(hw_outs) !! i = Some (Some o2)) as L2
    by (cbn; rewrite list_lookup_insert_eq; [done|by apply lookup_lt_Some in L1]).
  pose proof (gave_kept _ _ _ _ _ _ _ _ G1) as (pcm & Eo).
  pose proof (gave_frame _ _ _ _ _ _ _ _ G1) as [F1 F2 F3 F4].
  destruct (release_repeater_run i s2 o2 L2) as (k & s3 & E3 & O3 & X3 & H3 & P3 & D3 & M3 & S3).
  { intros j Ej. cbn. rewrite F2. apply A6. by rewrite <-Ej; unfold o2; rewrite Eo. }
  rewrite (sbind_done _ _ _ _ _ E3). set (o3 := set_so_repeater_src k o2) in *.
  assert (s3.(hw_outs) !! i = Some (Some o3)) as L3
    by (rewrite O3, list_lookup_insert_eq; [done|by apply lookup_lt_Some in L2]).
  rewrite (sbind_done _ _ _ _ _ (get_out_run i o3 s3 L3)).
  assert (release_effect o3 s3 = Done (tt, s3)) as Ee
    by (unfold release_effect, o3, o2; rewrite Eo; cbn; by rewrite A2).
  rewrite (sbind_done _ _ _ _ _ Ee), (sbind_done _ _ _ _ _ (upd_out_run i (set_so_standby true) _ s3 L3)).
  destruct (perf_run false (set_hw_outs (<[i := Some (set_so_standby true o3)]> s3.(hw_outs)) s3)) as (l & Ep).
  rewrite (sbind_done _ _ _ _ _ Ep). set (s4 := set_perf_calls _ _).
  assert (s4.(hw_outs) = <[i := Some (set_so_standby true o3)]> s.(hw_outs)) as O4
    by (cbn; rewrite O3; cbn; by rewrite O1, !list_insert_insert_eq).
  exists s4. split; [reflexivity|].
  split; [by eapply (ended_ok s s1 _ i a o o1 (set_so_standby true o3))|by eexists].
Qed.
End Invariant.

(** *** Opening and closing *)

Context (oe : open_out_env).
(** There is memory, the card tells its parameters, and there is no library of
    effects. *)
Context (oe_mem : oe.(oe_calloc) = true /\ oe.(oe_rsp_malloc) = true) (oe_card : oe.(oe_params) = true)
  (oe_plain : oe.(oe_dlopen) = None).

(** The number of the bus of an address. *)
Definition bus_of (address : string) : outcome Z :=
  atoi (String.substring 3 (String.length address) address).

(** Whether a stream is made, and whether it gets what was asked for. *)
Definition makes_stream (config : audio_config) (address : string) : bool :=
  sd_platform_check_output config
  && match bus_of address with Done b => negb (b =? 8) | _ => false end.

Definition gets_config (config : audio_config) (address : string) : bool :=
  negb (out_is_rear_seat_or_sharing_addr address)
  || (audio_channel_count_from_out_mask config.(channel_mask) =? CHANNEL_STEREO)
     && match bus_of address with
        | Done b => negb ((100 <=? b) && (b <=? 103)) || (config.(sample_rate) =? HIFI_SAMPLING_RATE)
        | _ => true
        end.

(** An address with a number; those that are played by the streamer have one
    of its buses. *)
Definition good_address (address : string) : Prop :=
  (3 <= String.length address)%nat
  /\ exists b, bus_of address = Done b /\ (own_stream address = false -> 0 <= b < 16).

Lemma register_all_done (f c r : Z) : exists sup, register_all f c r no_supported = Done sup.
Proof using.
  unfold register_all. cbn. destruct f, c, r; cbn; by eexists.
Qed.

Lemma new_stream_run (is_voice : bool) (config : audio_config) (c : pcm_config) (a : string) (b : Z) :
  exists o : sout, (if is_voice then Done (new_out c a b) else with_effect oe config (new_out c a b)) = Done o
    /\ o.(so_bus_address) = Some a /\ o.(so_bus_num) = b /\ o.(so_effect).(effect_desc) = None
    /\ o.(so_standby) = true /\ o.(so_pcm_hdl) = None /\ o.(so_repeater_src) = None.
Proof using oe_plain.
  destruct is_voice; [by eexists|]. unfold with_effect. cbn [so_config so_supported new_out].
  destruct (register_all_done config.(ac_format) config.(channel_mask) c.(rate)) as (sup & ->). cbn [obind].
  rewrite oe_plain. cbn. by eexists.
Qed.

Lemma bus_config_spec (b : Z) (config : audio_config) :
  exists ch, bus_config b config
  = if b =? 8 then None
    else Some (ch, if (100 <=? b) && (b <=? 103) then HIFI_SAMPLING_RATE else config.(sample_rate)).
Proof using.
  clear. unfold bus_config. destruct (Z.eqb_spec b 8) as [-> | Ne]; [by exists 0|].
  repeat case_match; by eexists.
Qed.

(** The invariant does not see streams in standby. *)
Lemma count_last {A} (f : A -> bool) (l : list A) (a : A) : f a = false -> count f (l ++ [a]) = count f l.
Proof using. clear. intros F. induction l as [|x l IH]; cbn; [by rewrite F|]. by rewrite IH. Qed.

Lemma stream_ok_same (s s' : state) (o : sout) (a : string) :
  stream_ok s o a -> s'.(hw_srcs) = s.(hw_srcs) -> s'.(hw_hal) = s.(hw_hal) -> stream_ok s' o a.
Proof using. intros So Es Eh. eapply stream_ok_kept; [exact So| |by rewrite Eh]. rewrite Es. by intros k x; exists x. Qed.

Lemma opened_ok (n0 m : nat -> Z) (x0 : list Z) (q0 : nat) (s : state) (o : sout) (a : string)
    (bm : list (string * nat)) (bt : option nat) :
  hw_ok n0 m x0 q0 s -> stream_ok s o a -> o.(so_standby) = true ->
  (forall k, n0 k + zlen s.(hw_outs) + 1 <= INT32_MAX) -> Z.of_nat q0 + zlen s.(hw_outs) + 1 < INT32_MAX ->
  hw_ok n0 m x0 q0 (set_hw_bt_stream bt (set_hw_bus_map bm (set_hw_outs (s.(hw_outs) ++ [Some o]) s))).
Proof using.
  clear threads leaves e opens cards_there resampled slots infos oe_mem oe_card oe_plain oe cb_malloc.
  intros [K1 K2 K3 K4 K5 K6 K7] So Sb Rm Rq. destruct (standby_uses o 0%nat Sb) as (_ & Up & Od).
  assert (forall l : list (option sout), zlen (l ++ [Some o]) = zlen l + 1) as Zl
    by (intros l; unfold zlen; rewrite length_app; cbn; lia).
  split; cbn; try done.
  - eapply base_ok_ext; [exact K1| |done|].
    + intros k. cbn. by rewrite (count_last _ _ _ (proj1 (standby_uses o k Sb))).
    + rewrite omap_app. cbn [omap list_omap]. by rewrite Od, app_nil_r.
  - intros i y Ly. apply lookup_app_Some in Ly as [Ly | [_ Ly]].
    { destruct (K2 i y Ly) as [b Hb]. exists b. by eapply stream_ok_same. }
    destruct (i - length s.(hw_outs))%nat; [|done]. injection Ly as <-. exists a. by eapply stream_ok_same.
  - by rewrite (count_last _ _ _ Up).
  - intros k. rewrite Zl. destruct (K6 k). specialize (Rm k). lia.
  - rewrite Zl. lia.
Qed.

Lemma closed_ok (n0 m : nat -> Z) (x0 : list Z) (q0 : nat) (s : state) (i : nat) (o : sout)
    (bm : list (string * nat)) :
  hw_ok n0 m x0 q0 s -> s.(hw_outs) !! i = Some (Some o) -> o.(so_standby) = true ->
  hw_ok n0 m x0 q0 (set_hw_outs (<[i := None]> s.(hw_outs)) (set_hw_bus_map bm s)).
Proof using.
  clear threads leaves e opens cards_there resampled slots infos oe_mem oe_card oe_plain oe cb_malloc.
  intros [K1 K2 K3 K4 K5 K6 K7] L Sb. destruct (standby_uses o 0%nat Sb) as (_ & Up & Od).
  split; cbn; try done.
  - eapply base_ok_ext; [exact K1| |done|].
    + intros k. cbn. rewrite (count_insert _ _ _ _ _ L), (proj1 (standby_uses o k Sb)). cbn. lia.
    + apply Permutation_app_tail. pose proof (omap_own s.(hw_outs) i _ None L) as Om. by rewrite Od in Om.
  - intros j y Ly. destruct (decide (j = i)) as [-> | Ne].
    + rewrite list_lookup_insert_eq in Ly by (by apply lookup_lt_Some in L). done.
    + rewrite list_lookup_insert_ne in Ly by done. destruct (K2 j y Ly) as [b Hb]. exists b. by eapply stream_ok_same.
  - rewrite (count_insert _ _ _ _ _ L), Up. cbn. rewrite K3. do 2 f_equal. lia.
  - intros k. unfold zlen. rewrite length_insert. apply K6.
  - unfold zlen. by rewrite length_insert.
Qed.

Lemma seat_status (b : Z) (config : audio_config) (a : string) :
  bus_of a = Done b ->
  (if out_is_rear_seat_or_sharing_addr a
      && (negb ((if (100 <=? b) && (b <=? 103) then HIFI_SAMPLING_RATE else config.(sample_rate)) =? config.(sample_rate))
          || negb (audio_channel_count_from_out_mask config.(channel_mask) =? CHANNEL_STEREO))
   then - EINVAL else 0) = if gets_config config a then 0 else - EINVAL.
Proof using.
  clear. unfold gets_config. intros ->. destruct (out_is_rear_seat_or_sharing_addr a); [|done].
  destruct ((100 <=? b) && (b <=? 103)); rewrite ?Z.eqb_refl, ?(Z.eqb_sym HIFI_SAMPLING_RATE);
    destruct (audio_channel_count_from_out_mask _ =? _), (config.(sample_rate) =? HIFI_SAMPLING_RATE); done.
Qed.

Lemma open_step (n0 m : nat -> Z) (x0 : list Z) (q0 : nat) (config : audio_config) (a : string) (s : state) :
  hw_ok n0 m x0 q0 s -> good_address a ->
  (forall k, n0 k + zlen s.(hw_outs) + 1 <= INT32_MAX) -> Z.of_nat q0 + zlen s.(hw_outs) + 1 < INT32_MAX ->
  exists cfg st s', adev_open_output_stream p oe config a s
      = Done ((if makes_stream config a && gets_config config a then 0 else - EINVAL, cfg, st), s')
    /\ hw_ok n0 m x0 q0 s'
    /\ (if makes_stream config a
        then exists o, s'.(hw_outs) = s.(hw_outs) ++ [Some o] /\ o.(so_standby) = true else s' = s).
Proof using oe_mem oe_card oe_plain.
  clear threads leaves e opens cards_there resampled slots infos.
  intros K [Le (b & Eb & Bb)] Rm Rq. unfold adev_open_output_stream, makes_stream.
  destruct oe_mem as [M1 M2]. rewrite oe_card, M1, M2, andb_false_r. cbn [negb].
  destruct (sd_platform_check_output config); [cbn [negb andb]|by eexists _, _, s].
  rewrite (proj2 (Nat.ltb_ge _ 3) Le). fold (bus_of a). erewrite sbind_done by (unfold slift; rewrite Eb; reflexivity).
  rewrite Eb. destruct (bus_config_spec b config) as (ch & ->).
  destruct (Z.eqb_spec b 8) as [Eq|Ne]; [by eexists _, _, s|]. cbn [negb andb].
  erewrite sbind_done by reflexivity. set (c := stream_config _ _ _ _ _).
  destruct (new_stream_run (a =? STR_DEV_BUS2_ADDR)%string
              {| sample_rate := out_get_sample_rate c; channel_mask := out_get_channels c; ac_format := out_get_format c |}
              c a b) as (o & Eo & V1 & V2 & V3 & V4 & V5 & V6).
  erewrite sbind_done by (unfold slift; rewrite Eo; reflexivity).
  do 2 (erewrite sbind_done by reflexivity).
  assert (stream_ok s o a) as So.
  { split; try done; [by rewrite V2|by rewrite V4|by rewrite V4, V5|by rewrite V6]. }
  rewrite (seat_status b config a Eb). set (s1 := set_hw_bus_map _ _).
  assert (exists bt, (match (a =? STR_DEV_BUS2_ADDR)%string, s.(hw_bt_data) !! rt_index BTCALL_CODEC_OUTPUT with
                      | true, Some (Some _) => smodify (set_hw_bt_stream (Some (length s.(hw_outs))))
                      | _, _ => sret tt
                      end) s1 = Done (tt, set_hw_bt_stream bt s1)) as (bt & Et).
  { repeat case_match; first [by exists (Some (length s.(hw_outs)))|exists s1.(hw_bt_stream); by destruct s1]. }
  rewrite (sbind_done _ _ _ _ _ Et). eexists _, _, _. split; [reflexivity|].
  split; [by eapply opened_ok|by exists o].
Qed.

(** *** Sequences of operations *)

(** A stream is opened, wakes at a write of some bytes, goes to standby, and is
    closed. *)
Inductive stream_op :=
| Open (config : audio_config) (address : string)
| Wake (i : nat) (bytes : Z)
| Sleep (i : nat)
| Close (i : nat).

Definition run_stream_op (op : stream_op) : hwm Z :=
  match op with
  | Open config address => do! (r, _, _) := adev_open_output_stream p oe config address in sret r
  | Wake i bytes =>
      do! o := get_out i in
      wake_output cb_calloc cb_malloc rproc_mp p sharing_en error_null create_resampler e i bytes
        (audio_stream_out_frame_size o.(so_config))
  | Sleep i => out_standby rproc_mp p sharing_en e i
  | Close i => do! _ := adev_close_output_stream rproc_mp p sharing_en e i in sret 0
  end.

Fixpoint run_stream_ops (l : list stream_op) (s : state) : outcome (list Z * state) :=
  match l with
  | [] => Done ([], s)
  | op :: l =>
      let! (r, s) := run_stream_op op s in
      let! (rs, s) := run_stream_ops l s in
      Done (r :: rs, s)
  end.

(** What the operations promise: the streams that exist, and which of them are
    in standby; and the status of each operation. *)
Definition standby_spec (l : list (option bool)) (op : stream_op) : list (option bool) :=
  match op with
  | Open config a => if makes_stream config a then l ++ [Some true] else l
  | Wake i _ => <[i := Some false]> l
  | Sleep i => <[i := Some true]> l
  | Close i => <[i := None]> l
  end.

Definition status_spec (op : stream_op) : Z :=
  match op with
  | Open config a => if makes_stream config a && gets_config config a then 0 else - EINVAL
  | _ => 0
  end.

Definition standbys (s : state) : list (option bool) := map (option_map so_standby) s.(hw_outs).

(** The operations name streams that exist. *)
Definition op_fits (l : list (option bool)) (op : stream_op) : Prop :=
  match op with
  | Open _ a => good_address a
  | Wake i _ | Sleep i | Close i => exists b, l !! i = Some (Some b)
  end.

Fixpoint ops_fit (l : list (option bool)) (ops : list stream_op) : Prop :=
  match ops with
  | [] => True
  | op :: ops => op_fits l op /\ ops_fit (standby_spec l op) ops
  end.

Lemma standbys_insert (s s' : state) (i : nat) (o : option sout) :
  s'.(hw_outs) = <[i := o]> s.(hw_outs) -> standbys s' = <[i := option_map so_standby o]> (standbys s).
Proof using. intros O. unfold standbys. rewrite O. exact (list_fmap_insert (option_map so_standby) _ i o). Qed.

Lemma standbys_lookup (s : state) (i : nat) (b : bool) :
  standbys s !! i = Some (Some b) -> exists o, s.(hw_outs) !! i = Some (Some o).
Proof using.
  intros L. unfold standbys in L. apply list_lookup_fmap_Some in L as ([o|] & Eo & L); [|done]. by exists o.
Qed.

Lemma close_step (n0 m : nat -> Z) (x0 : list Z) (q0 : nat) (i : nat) (s : state) (o : sout) :
  hw_ok n0 m x0 q0 s -> s.(hw_outs) !! i = Some (Some o) ->
  exists s', adev_close_output_stream rproc_mp p sharing_en e i s = Done (tt, s') /\ hw_ok n0 m x0 q0 s'
    /\ s'.(hw_outs) = <[i := None]> s.(hw_outs).
Proof using All.
  intros K L. destruct (standby_step n0 m x0 q0 i s o K L) as (s1 & E1 & K1 & o1 & O1 & Sb).
  unfold adev_close_output_stream. rewrite (sbind_done _ _ _ _ _ E1).
  assert (s1.(hw_outs) !! i = Some (Some o1)) as L1
    by (rewrite O1, list_lookup_insert_eq; [done|by apply lookup_lt_Some in L]).
  rewrite (sbind_done _ _ _ _ _ (get_out_run i o1 s1 L1)). erewrite sbind_done by reflexivity.
  eexists. split; [reflexivity|]. split; [exact (closed_ok _ _ _ _ s1 i o1 _ K1 L1 Sb)|]. cbn. by rewrite O1, list_insert_insert_eq.
Qed.

Lemma stream_op_run (n0 m : nat -> Z) (x0 : list Z) (q0 : nat) (op : stream_op) (s : state) :
  hw_ok n0 m x0 q0 s -> op_fits (standbys s) op ->
  (forall k, n0 k + zlen s.(hw_outs) + 1 <= INT32_MAX) -> Z.of_nat q0 + zlen s.(hw_outs) + 1 < INT32_MAX ->
  exists s', run_stream_op op s = Done (status_spec op, s') /\ hw_ok n0 m x0 q0 s'
    /\ standbys s' = standby_spec (standbys s) op /\ zlen s'.(hw_outs) <= zlen s.(hw_outs) + 1.
Proof using All.
  intros K F Rm Rq.
  assert (forall (s' : state) i o, s'.(hw_outs) = <[i := o]> s.(hw_outs) -> zlen s'.(hw_outs) <= zlen s.(hw_outs) + 1) as Zl.
  { intros s' i o O. unfold zlen. rewrite O, length_insert. lia. }
  destruct op as [config a|i bytes|i|i]; cbn [op_fits run_stream_op status_spec standby_spec] in F |- *.
  - destruct (open_step n0 m x0 q0 config a s K F Rm Rq) as (cfg & st & s' & E1 & K1 & O1).
    rewrite (sbind_done _ _ _ _ _ E1). exists s'. split; [reflexivity|]. split; [done|].
    destruct (makes_stream config a); [|subst s'; split; [done|lia]].
    destruct O1 as (o & O1 & Sb). unfold standbys, zlen. rewrite O1, map_app, length_app. cbn. rewrite Sb. split; [done|lia].
  - destruct F as [b F]. destruct (standbys_lookup s i b F) as [o L].
    rewrite (sbind_done _ _ _ _ _ (get_out_run i o s L)).
    destruct (wake_step n0 m x0 q0 i bytes (audio_stream_out_frame_size o.(so_config)) s o K L)
      as (s' & E1 & K1 & o1 & O1 & Sb).
    exists s'. split; [done|]. split; [done|]. split; [|by eapply Zl].
    rewrite (standbys_insert _ _ _ _ O1). cbn. by rewrite Sb.
  - destruct F as [b F]. destruct (standbys_lookup s i b F) as [o L].
    destruct (standby_step n0 m x0 q0 i s o K L) as (s' & E1 & K1 & o1 & O1 & Sb).
    exists s'. split; [done|]. split; [done|]. split; [|by eapply Zl].
    rewrite (standbys_insert _ _ _ _ O1). cbn. by rewrite Sb.
  - destruct F as [b F]. destruct (standbys_lookup s i b F) as [o L].
    destruct (close_step n0 m x0 q0 i s o K L) as (s' & E1 & K1 & O1). rewrite (sbind_done _ _ _ _ _ E1).
    exists s'. split; [done|]. split; [done|]. split; [|by eapply Zl]. by rewrite (standbys_insert _ _ _ _ O1).
Qed.

End Balance.

(** ** Examples *)

#[local] Existing Instance alloc_always.

(** An effect library without effects. *)
#[local] Instance no_effects : EffectLib unit := {
  ef_create _ x := (-1, None, x);
  ef_command _ _ x := (0, 0, x);
  ef_process _ bs _ x := (bs, x);
  ef_release _ x := x;
  ef_live _ := []
}.

(** A board with three cards; [features] are those of its description. *)
Definition demo_platform (features : misc_feature) : platform :=
  {| dev_manager := [plain_card true 0 AUDIO_NAME_PRIMARY; plain_card true 1 AUDIO_NAME_REAR1;
                     plain_card true 2 AUDIO_NAME_REAR3];
     cards := []; info_card_num := 0; misc := features;
     output_maps := replicate 16 {| map_bus_num := 0; map_len := 1; map_slots := [0]; map_overlay := false |};
     bt_type := BT_CONNECT_WITH_SOC |}.

Definition demo_fields : adev_fields :=
  {| devices := 0; adev_mode := 0; adev_in_call := 0; adev_mic_mute := false; is_usb_exist := false;
     usb_card_id := -1; usb_port_id := -1; last_patch_id := 0; hfp_sample_rate := 0; adev_hfp_volume := 0;
     hs_device := 0; direct := MIRROR_CLOSE; audio_sharing_ne := false; audio_sharing_fe := false |}.

Definition demo_hfp {W} (w : W) : hfp_hal (M := Mixer.card) (W := W) (N := wire) (F := f32) :=
  {| rx := None; tx := None; hfp_volume := 0; amplitude_ratio := f32_one; is_hfp_running := false;
     hook := ref_board; restores := false; vol_tmp := [0; 0; 0; 0]; enable_hfp := false;
     mixer0 := demo_card true; pcms := w; Hfp.rem := wire_start; route_calls := [] |}.

Definition demo_hw_on {W} (h : hal Mixer.card W) (outs : list (option (stream_out unit)))
    (ins : list (option (stream_in unit unit))) : hw unit Mixer.card W wire unit unit :=
  {| hw_hal := h; hw_paths := {| path_table := paths; path_remote := wire_start |};
     hw_dsts := []; hw_srcs := []; hw_mixers := fun _ => Some (demo_card true); hw_effects := tt;
     hw_outs := outs; hw_ins := ins; hw_bus_map := []; active_input := None; active_output := None;
     perf_calls := []; adev := demo_fields; hw_bt_data := []; hw_bt_thread := None;
     hw_cfgs := call_configs; hw_bt_stream := None; hw_hfp := demo_hfp h.(world) |}.

Definition demo_hw : list (option (stream_out unit)) -> list (option (stream_in unit unit)) ->
  hw unit Mixer.card sound_card wire unit unit := demo_hw_on start_hal.

Definition demo_env {W} : hw_env Mixer.card W unit :=
  {| e_created := true; e_exits := true; e_others := fun _ => sret tt; e_fuel := 10; e_in_tmp := [];
     e_write_buf := []; e_gpio := fun _ => NoNode; e_wrapper_mem := true; e_plug_prop := None; e_plug_mem := true;
     e_plug_lib := None; e_errno := 0 |}.

Lemma demo_slots (f : misc_feature) (b : Z) :
  0 <= b < 16 -> exists v, first_slot (demo_platform f) b = Done v /\ 0 <= v <= 7.
Proof.
  intros B. exists 0. unfold first_slot, demo_platform. cbn [output_maps].
  erewrite array_get_lookup; [|lia|apply lookup_replicate_2; lia]. split; [done|lia].
Qed.

Definition demo_streams : list (option (stream_out unit)) :=
  [Some (new_out default_output_config "bus0_media_out" 0);
   Some (new_out default_output_config STR_DEV_BUS100_ADDR 100);
   Some (new_out default_output_config "bus3_navi_out" 3)].

Lemma demo_hw_ok (f : misc_feature) :
  hw_ok (demo_platform f) (fun _ => 0) (fun _ => 0) [] 0 (demo_hw demo_streams []).
Proof.
  split; try done.
  - eapply base_ok_ext; [exact start_base| |done|done]. intros k. cbn. lia.
  - intros [|[|[|i]]] o [= <-]; eexists; split; try done; intros _; cbn; lia.
  - intros c. by eexists.
Qed.

Definition demo_memory : open_out_env :=
  {| oe_calloc := true; oe_rsp_malloc := true; oe_malloc := fun n => Some (replicate (Z.to_nat n) 0);
     oe_dlopen := None; oe_dlsym := None; oe_params := true |}.

(** Three streams: the first shares its handle with the third.  A fourth is
    opened on the bus of calls, which is refused, and a fifth on bus 4. *)
Definition demo_session : list stream_op :=
  let config := {| sample_rate := 48000; channel_mask := AUDIO_CHANNEL_OUT_STEREO;
                   ac_format := AUDIO_FORMAT_PCM_16_BIT |} in
  [Wake 0 16; Wake 1 16; Wake 2 16; Sleep 0; Open config "bus8_bt"; Open config STR_DEV_BUS5_ADDR;
   Wake 3 8; Close 1; Sleep 2].


(** The device 1 is open; the stream [o] plays on it. *)
Definition playing_hw (o : stream_out unit) : hw unit Mixer.card sound_card wire unit unit :=
  set_hw_hal (set_world (sc_pcm_open 0 0 0 default_output_config (sc_start [])).2 start_hal)
    (demo_hw [Some (set_so_pcm (Some 1) (set_so_standby false o))] []).

(** Nothing has been played: the position is one buffer below 2^64. *)
Lemma presentation_position_wraps_witness :
  out_get_presentation_position (fun _ _ => Some 0) 0
    (playing_hw (new_out default_output_config STR_DEV_BUS100_ADDR 100))
  = Done ((0, Some (2 ^ 64 - 960 * 6)), playing_hw (new_out default_output_config STR_DEV_BUS100_ADDR 100)).
Proof.
  refine (presentation_position_wraps (fun _ _ => Some 0)
            (playing_hw (new_out default_output_config STR_DEV_BUS100_ADDR 100)) 0 _ 1 0 eq_refl eq_refl eq_refl
            _ eq_refl _ _ _ _); [by left|by vm_compute..].
Defined.
