(* ===== verification/AudioDeviceProofs.v ===== *)
(** * Theorems on sessions with the audio HAL

    Composes the operations of [AudioHw] and [AudioDevice] the way a client
    calls them: writes to a stream from its start, recording without a card,
    calls, and gains. *)

From Stdlib Require Import ZArith Lia Ascii String.
From stdpp Require Import base list numbers.
From S2P Require Import Prelude CircleBuf CString Mixer Dsp DspProofs BusVolume Mix PcmPlugin PcmWrapper PcmDevice Streamer.
From S2P Require Import AudioExtra Remote OutputPath Platform Hfp Sharing StreamerProofs StreamerData SharingProofs.
From S2P Require Import BtCall BtCallProofs StreamInfo AudioHw AudioDevice AudioHwProofs.

#[local] Open Scope Z_scope.

Lemma u64_add_mod (a b : Z) : u64 (u64 a + b) = u64 (a + b).
Proof. unfold u64. apply Z.add_mod_idemp_l. lia. Qed.

Lemma u64_idem (a : Z) : u64 (u64 a) = u64 a.
Proof. unfold u64. apply Z.mod_mod. lia. Qed.

(** ** Playing on a seat *)

Section Seat.
Context {M : Type} `{HM : MixerOps M} `{HA : Alloc} {W : Type} `{HW : PcmSystemLaws W}
  {N : Type} `{HN : Rpmsg N} {E : Type} `{HE : EffectLib E} `{HS : AudioSystemLaws} {R P : Type}.
Context (cb_calloc : bool) (cb_malloc : Z -> option (list Z)) (rproc_mp : bool) (p : platform)
  (ref_a ref_b error_null : bool) (create_resampler : Z -> Z -> Z -> Z * option R)
  (resample_from_input : R -> list Z -> Z -> Z -> R * Z * list Z) (e : hw_env M W P).
Context (no_src : p.(misc).(sw_out_src) = false).

Abbreviation state := (hw R M W N E P).
Abbreviation sout := (stream_out R).

(** A board without sharing. *)
Definition write : nat -> list Z -> hwm (Z * list Z) :=
  _out_write cb_calloc cb_malloc rproc_mp p ref_a ref_b false error_null create_resampler resample_from_input e
    (M := M) (W := W) (N := N) (E := E) (P := P).

Fixpoint writes (i : nat) (blocks : list (list Z)) : hwm (list (Z * list Z)) :=
  match blocks with
  | [] => sret []
  | b :: blocks => do! r := write i b in do! rs := writes i blocks in sret (r :: rs)
  end.

(** What the device should get of a block. *)
Definition played (o : sout) (data : list Z) : list Z :=
  if p.(misc).(sw_gain)
  then sample_bytes (map (scaled o.(so_amplitude_ratio)) (samples data)) else data.

(** A seat stream of 16-bit samples without an effect. *)
Record seat (a : string) (o : sout) : Prop := {
  seat_addr : o.(so_bus_address) = Some a;
  seat_own : out_is_rear_seat_or_sharing_addr a = true;
  seat_effect : o.(so_effect).(effect_desc) = None;
  seat_resampler : o.(so_resampler) = None;
  seat_channels : 1 <= o.(so_config).(channels) <= 8;
  seat_gain : 0 <= o.(so_amplitude_ratio).(f_m);
  seat_format : o.(so_config).(cfg_format) = PCM_FORMAT_S16_LE
}.

Definition frame_bytes (o : sout) : Z := 2 * o.(so_config).(channels).

(** A block of whole frames. *)
Definition block_of (o : sout) (data : list Z) : Prop := exists n, 0 <= n /\ zlen data = n * frame_bytes o.

Lemma seat_frame_size (a : string) (o : sout) :
  seat a o -> audio_stream_out_frame_size o.(so_config) = frame_bytes o /\ 0 < frame_bytes o.
Proof.
  intros [_ _ _ _ Ch _ Fm]. unfold audio_stream_out_frame_size, out_get_format, out_get_channels, frame_bytes.
  rewrite Fm, format_s16, out_frame_pcm16, out_mask_count by done. lia.
Qed.

Lemma mem_read_all (l : list Z) : mem_read l 0 (zlen l) = Done l.
Proof.
  pose proof (zlen_nonneg l). unfold mem_read, zslice. rewrite (proj2 (Z.leb_le 0 (zlen l))) by done. cbn [andb Z.leb].
  rewrite (proj2 (Z.leb_le (0 + zlen l) (zlen l))) by lia. rewrite drop_0. f_equal. apply take_ge. unfold zlen. lia.
Qed.

Lemma gain_run (i : nat) (a : string) (o : sout) (s : state) (data : list Z) :
  s.(hw_outs) !! i = Some (Some o) -> seat a o -> block_of o data ->
  sw_gain_process p i data (zlen data) s = Done (played o data, s).
Proof.
  intros L St (n & Nn & Ln). pose proof (zlen_nonneg data) as Zn. unfold sw_gain_process, played.
  rewrite (sbind_done _ _ _ _ _ (get_out_run i o s L)). destruct p.(misc).(sw_gain); [|done].
  erewrite sbind_done by (unfold slift; rewrite (mem_read_all data); reflexivity).
  set (k := Z.to_nat (n * o.(so_config).(channels))).
  assert (length data = 2 * k)%nat as Le by (pose proof (seat_channels _ _ St); unfold zlen, frame_bytes in Ln; unfold k; nia).
  assert (zlen data / 2 = Z.of_nat k) as Ev by (unfold zlen; rewrite Le; symmetry; apply Z.div_unique_exact; lia).
  rewrite Ev. replace (Z.to_nat (Z.of_nat k * 2)) with (length data) by lia. rewrite firstn_all.
  pose proof (samples_even data _ Le) as Ls.
  unfold audio_extra_sw_gain_16. rewrite (proj2 (Z.ltb_ge _ 0) (seat_gain _ _ St)), Ev, Nat2Z.id.
  rewrite gain_loop_map by (unfold zlen; lia).
  replace (Z.of_nat k) with (zlen (samples data)) by (unfold zlen; lia).
  pose proof (map_range_prefix (CAL_SW_GAIN_16 o.(so_amplitude_ratio)) (samples data) []) as Mr.
  rewrite !app_nil_r in Mr. rewrite Mr. erewrite sbind_done by reflexivity. unfold sret, splice.
  rewrite take_0, length_sample_bytes, length_map, Ls. cbn [app Nat.add]. rewrite drop_ge, app_nil_r by lia.
  do 3 f_equal. apply map_ext. intros x. apply gain_trunc.
Qed.

Lemma length_played (a : string) (o : sout) (data : list Z) :
  seat a o -> block_of o data -> zlen (played o data) = zlen data.
Proof.
  intros St (n & Nn & Ln). unfold played. destruct p.(misc).(sw_gain); [|done].
  pose proof (seat_channels _ _ St) as Ch. unfold frame_bytes, zlen in *. rewrite length_sample_bytes, length_map.
  rewrite (samples_even data (Z.to_nat (n * o.(so_config).(channels)))) by nia. nia.
Qed.

(** *** A running stream *)

Record runs (a : string) (h : Z) (i : nat) (o : sout) (s : state) : Prop := {
  runs_at : s.(hw_outs) !! i = Some (Some o);
  runs_seat : seat a o;
  runs_pcm : o.(so_pcm) = Some h;
  runs_live : h ∈ opened s.(hw_hal).(world)
}.

Lemma write_running (a : string) (h : Z) (i : nat) (o : sout) (s : state) (data : list Z) :
  runs a h i o s -> block_of o data ->
  play_block p ref_a ref_b false resample_from_input e i a data (zlen data / frame_bytes o) (frame_bytes o) s
  = Done (played o data,
          set_hw_outs (<[i := Some (set_so_written (u64 (o.(so_written) + zlen data / frame_bytes o)) o)]> s.(hw_outs))
            (set_hw_hal (set_world (pcm_write h (played o data) s.(hw_hal).(world)).2 s.(hw_hal)) s)).
Proof.
  intros [L St Ph Lv] Bl. pose proof St as [S1 S2 S3 S4 S5 S6 S7]. pose proof (seat_frame_size a o St) as [_ Fs].
  unfold play_block, sw_resample_process. erewrite sbind_done.
  2: { rewrite (sbind_done _ _ _ _ _ (get_out_run i o s L)), S4. reflexivity. }
  cbv beta iota.
  unfold sw_effect_process. erewrite sbind_done.
  2: { rewrite (sbind_done _ _ _ _ _ (get_out_run i o s L)), S3. reflexivity. }
  cbv beta iota.   erewrite sbind_done by reflexivity.
  assert (zlen data / frame_bytes o * frame_bytes o = zlen data) as Ez
    by (destruct Bl as (n & _ & ->); rewrite Z.div_mul by lia; lia).
  rewrite Ez. unfold pcm_write_helper. erewrite sbind_done.
  2: { rewrite (sbind_done _ _ _ _ _ (gain_run i a o s data L St Bl)).
       rewrite (sbind_done _ _ _ _ _ (get_out_run i o s L)), (sbind_done _ _ _ _ _ (addr_run o a s S1)).
       assert (zlen (played o data) = zlen data) as Lp by (by eapply length_played).
       erewrite sbind_done by (unfold slift; rewrite <-Lp, mem_read_all; reflexivity). rewrite S2.
       unfold dev_write. rewrite Ph. erewrite sbind_done.
       2: { rewrite (sbind_done _ _ _ _ _ (live_run h s Lv)). apply on_world_run, surjective_pairing. }
       reflexivity. }
  cbv beta iota. erewrite sbind_done by (apply upd_out_run; exact L). reflexivity.
Qed.

Lemma write_step (a : string) (h : Z) (i : nat) (o : sout) (s : state) (data : list Z) :
  runs a h i o s -> o.(so_standby) = false -> block_of o data ->
  exists s', write i data s = Done ((zlen data, played o data), s')
    /\ runs a h i (set_so_written (u64 (o.(so_written) + zlen data / frame_bytes o)) o) s'
    /\ s'.(hw_hal).(world) = (pcm_write h (played o data) s.(hw_hal).(world)).2.
Proof.
  intros Rn Sb Bl. pose proof Rn as [L St Ph Lv]. destruct (seat_frame_size a o St) as [Ef Fs].
  unfold write, _out_write. rewrite (sbind_done _ _ _ _ _ (get_out_run i o s L)), Ef.
  rewrite (proj2 (Z.eqb_neq (frame_bytes o) 0)) by lia.
  rewrite (sbind_done _ _ _ _ _ (addr_run o a s (seat_addr _ _ St))). erewrite sbind_done by reflexivity. cbv beta iota.
  unfold wake_output. erewrite sbind_done.
  2: { rewrite (sbind_done _ _ _ _ _ (get_out_run i o s L)), Sb. reflexivity. }
  cbn [negb Z.eqb]. rewrite (sbind_done _ _ _ _ _ (write_running a h i o s data Rn Bl)).
  eexists. split; [reflexivity|]. split; [|done]. destruct St. split; cbn.
  - rewrite list_lookup_insert_eq; [done|by apply lookup_lt_Some in L].
  - by split.
  - done.
  - by rewrite write_opened.
Qed.

Definition frames_of (o : sout) (blocks : list (list Z)) : Z :=
  foldr (fun b n => zlen b / frame_bytes o + n) 0 blocks.

Lemma writes_run (a : string) (h : Z) (i : nat) (blocks : list (list Z)) (o : sout) (s : state) :
  runs a h i o s -> o.(so_standby) = false -> Forall (block_of o) blocks -> u64 o.(so_written) = o.(so_written) ->
  exists s', writes i blocks s = Done (map (fun b => (zlen b, played o b)) blocks, s')
    /\ s'.(hw_outs) !! i = Some (Some (set_so_written (u64 (o.(so_written) + frames_of o blocks)) o))
    /\ s'.(hw_hal).(world) = fold_left (fun w b => (pcm_write h (played o b) w).2) blocks s.(hw_hal).(world).
Proof.
  revert o s. induction blocks as [|b blocks IH]; intros o s Rn Sb F Wr; cbn [writes map fold_left frames_of foldr].
  - exists s. split; [done|]. split; [|done]. rewrite Z.add_0_r, Wr, (runs_at _ _ _ _ _ Rn). by destruct o.
  - apply Forall_cons_1 in F as [F1 F2].
    destruct (write_step a h i o s b Rn Sb F1) as (s1 & E1 & R1 & W1). rewrite (sbind_done _ _ _ _ _ E1).
    destruct (IH _ s1 R1) as (s2 & E2 & L2 & W2); [done|exact F2|cbn; apply u64_idem|].
    rewrite (sbind_done _ _ _ _ _ E2). exists s2. split; [done|]. split; [|by rewrite W2, W1].
    rewrite L2. cbn [so_written set_so_written]. by rewrite u64_add_mod, <-Z.add_assoc.
Qed.

(** *** From the start *)

(** The device of a seat: a USB card comes before the rear cards. *)
Definition seat_device (d : adev_fields) (a : string) : Z * Z :=
  if d.(is_usb_exist) then (d.(usb_card_id), d.(usb_port_id))
  else if strncmp_eq a "bus100" then (card_id p AUDIO_NAME_REAR1, CODEC_DEV)
  else if strncmp_eq a "bus101" then (card_id p AUDIO_NAME_REAR2, CODEC_DEV)
  else if strncmp_eq a "bus102" then (card_id p AUDIO_NAME_REAR3, CODEC_DEV)
  else (0, 0).

Lemma seat_device_run (a : string) (s : state) : seat_place p false a s = Done (seat_device s.(adev) a, s).
Proof.
  unfold seat_place, seat_device. erewrite sbind_done by reflexivity. cbn [andb]. by repeat case_match.
Qed.

Lemma seat_opened (a : string) (i : nat) (o : sout) (s : state) (card port h : Z) (w : W) :
  s.(hw_outs) !! i = Some (Some o) -> seat_device s.(adev) a = (card, port) -> 0 <= card ->
  pcm_open_prepare_helper card port PCM_OUT PROXY_OPEN_RETRY_COUNT o.(so_config) s.(hw_hal).(world) = (Some h, w) ->
  pcm_is_ready h w = true ->
  open_seat p false error_null i a s
  = Done (true, set_hw_outs (<[i := Some (set_so_pcm (Some h) o)]> s.(hw_outs))
                  (set_hw_hal (set_world w s.(hw_hal)) s)).
Proof.
  intros L Pl C Op Rd. unfold open_seat. rewrite (sbind_done _ _ _ _ _ (seat_device_run a s)), Pl.
  rewrite (proj2 (Z.ltb_ge card 0)) by done. unfold open_own_pcm.
  rewrite (sbind_done _ _ _ _ _ (get_out_run i o s L)). erewrite sbind_done by (apply on_world_run; exact Op).
  unfold put_out. erewrite sbind_done by reflexivity. erewrite sbind_done by reflexivity. cbn. by rewrite Rd.
Qed.

Lemma seat_start (a : string) (i : nat) (bytes : Z) (o : sout) (s : state) (card port h : Z) (w : W) :
  s.(hw_outs) !! i = Some (Some o) -> seat a o -> o.(so_standby) = true ->
  seat_device s.(adev) a = (card, port) -> 0 <= card ->
  pcm_open_prepare_helper card port PCM_OUT PROXY_OPEN_RETRY_COUNT o.(so_config) s.(hw_hal).(world) = (Some h, w) ->
  pcm_is_ready h w = true ->
  exists s', wake_output cb_calloc cb_malloc rproc_mp p false error_null create_resampler e i bytes (frame_bytes o) s
             = Done (0, s')
    /\ runs a h i (set_so_standby false (set_so_pcm (Some h) o)) s' /\ s'.(hw_hal).(world) = w.
Proof.
  intros L St Sb Pl C Op Rd. pose proof St as [S1 S2 S3 S4 S5 S6 S7]. set (o1 := set_so_pcm (Some h) o).
  unfold wake_output. rewrite (sbind_done _ _ _ _ _ (get_out_run i o s L)), Sb. cbn [negb].
  destruct (perf_run true s) as (l & Ep).
  set (s0 := set_active_output (Some i) (set_perf_calls l s)).
  pose proof (seat_opened a i o s0 card port h w L Pl C Op Rd) as E1. set (s1 := set_hw_outs _ _) in E1.
  assert (s1.(hw_outs) !! i = Some (Some o1)) as L1
    by (cbn; rewrite list_lookup_insert_eq; [done|by apply lookup_lt_Some in L]).
  unfold start_output_stream. erewrite sbind_done.
  2: { rewrite (sbind_done _ _ _ _ _ (get_out_run i o s L)), (sbind_done _ _ _ _ _ (addr_run o a s S1)).
       rewrite (sbind_done _ _ _ _ _ Ep). erewrite sbind_done by reflexivity. rewrite S2.
       rewrite (sbind_done _ _ _ _ _ E1). unfold out_resampler.
       rewrite (sbind_done _ _ _ _ _ (get_out_run i o1 s1 L1)), no_src. reflexivity. }
  cbn [negb Z.eqb]. rewrite (sbind_done _ _ _ _ _ (no_effect_run i bytes (frame_bytes o) s1 o1 L1 S3)).
  rewrite (sbind_done _ _ _ _ _ (get_out_run i o1 s1 L1)). erewrite sbind_done by reflexivity.
  rewrite (sbind_done _ _ _ _ _ (upd_out_run i _ o1 s1 L1)). eexists. split; [reflexivity|]. split; [|done].
  split; cbn; [|by split|done|].
  - rewrite list_insert_insert_eq, list_lookup_insert_eq; [done|by apply lookup_lt_Some in L].
  - pose proof (open_helper_opened card port PCM_OUT PROXY_OPEN_RETRY_COUNT o.(so_config) s.(hw_hal).(world)) as Oh.
    cbv zeta in Oh. rewrite Op in Oh. cbn in Oh. rewrite Oh. by left.
Qed.

(** The first write is a write to the stream that it started. *)
Lemma write_wakes (a : string) (h : Z) (i : nat) (o : sout) (s s1 : state) (data : list Z) :
  s.(hw_outs) !! i = Some (Some o) -> seat a o ->
  wake_output cb_calloc cb_malloc rproc_mp p false error_null create_resampler e i (zlen data) (frame_bytes o) s
  = Done (0, s1) ->
  runs a h i (set_so_standby false (set_so_pcm (Some h) o)) s1 -> write i data s = write i data s1.
Proof.
  intros L St Wk [L1 St1 _ _]. destruct (seat_frame_size a o St) as [Ef Fs].
  assert (forall s0 o0, s0.(hw_outs) !! i = Some (Some o0) -> seat a o0 -> o0.(so_config) = o.(so_config) ->
            wake_output cb_calloc cb_malloc rproc_mp p false error_null create_resampler e i (zlen data) (frame_bytes o) s0
            = Done (0, s1) ->
            write i data s0 = (do! d := play_block p ref_a ref_b false resample_from_input e i a data
                                          (zlen data / frame_bytes o) (frame_bytes o) in sret (zlen data, d)) s1) as K.
  { intros s0 o0 L0 St0 Ec W0. unfold write, _out_write. rewrite (sbind_done _ _ _ _ _ (get_out_run i o0 s0 L0)), Ec, Ef.
    rewrite (proj2 (Z.eqb_neq (frame_bytes o) 0)) by lia.
    rewrite (sbind_done _ _ _ _ _ (addr_run o0 a s0 (seat_addr _ _ St0))). erewrite sbind_done by reflexivity.
    cbv beta iota. by rewrite (sbind_done _ _ _ _ _ W0). }
  rewrite (K s o L St eq_refl Wk). symmetry. apply (K s1 _ L1 St1 eq_refl).
  unfold wake_output. by rewrite (sbind_done _ _ _ _ _ (get_out_run i _ s1 L1)).
Qed.

End Seat.

(** ** A device that does not open *)

Section Refused.
Context {M : Type} `{HM : MixerLaws M} `{HA : Alloc} {W : Type} `{HW : PcmSystemLaws W} `{HR : !ReliableCapture W}
  {N : Type} `{HN : RpmsgLaws N} {E : Type} `{HE : EffectLib E} `{HS : AudioSystem} {R P : Type}.
Context (cb_calloc : bool) (cb_malloc : Z -> option (list Z)) (rproc_mp : bool) (p : platform)
  (ref_a ref_b error_null : bool) (create_resampler : Z -> Z -> Z -> Z * option R)
  (resample_from_input : R -> list Z -> Z -> Z -> R * Z * list Z) (e : hw_env M W P).
(** The main card is known, but playback does not open on it. *)
Context (main_there : 0 <= card_id p AUDIO_NAME_PRIMARY) (no_ahub : p.(misc).(ahub_en) = false)
  (threads : e.(e_created) = true)
  (refused : forall cfg (w : W),
     (pcm_open_prepare_helper (card_id p AUDIO_NAME_PRIMARY) CODEC_DEV PCM_OUT PROXY_OPEN_RETRY_COUNT cfg w).1 = None).

Abbreviation state := (hw R M W N E P).
Abbreviation sout := (stream_out R).

(** A stream in standby that the streamer would play, on a bus that its path
    counts. *)
Record waits (a : string) (o : sout) : Prop := {
  wt_addr : o.(so_bus_address) = Some a;
  wt_main : out_is_rear_seat_or_sharing_addr a = false;
  wt_bus : 0 <= o.(so_bus_num) < 16;
  wt_counted : counted o.(so_bus_num) = true;
  wt_standby : o.(so_standby) = true;
  wt_frame : audio_stream_out_frame_size o.(so_config) <> 0;
  wt_rate : o.(so_config).(rate) <> 0
}.

Lemma refused_write (m : nat -> Z) (x : list Z) (q : nat) (a : string) (i : nat) (o : sout) (s : state) (data : list Z) :
  s.(hw_outs) !! i = Some (Some o) -> waits a o -> base_ok (fun _ => 0) m x s.(hw_hal) ->
  s.(hw_paths).(path_table) = OutputPath.users q -> Z.of_nat q < INT32_MAX ->
  exists s', write cb_calloc cb_malloc rproc_mp p ref_a ref_b error_null create_resampler resample_from_input e i data s
             = Done ((zlen data, data), s')
    /\ (exists o', s'.(hw_outs) !! i = Some (Some o') /\ waits a o')
    /\ base_ok (fun _ => 0) m x s'.(hw_hal) /\ s'.(hw_paths).(path_table) = OutputPath.users (S q).
Proof.
  intros L [T1 T2 T3 T4 T5 T6 T7] B Tq Bq. unfold write, _out_write.
  rewrite (sbind_done _ _ _ _ _ (get_out_run i o s L)), (proj2 (Z.eqb_neq _ 0) T6).
  rewrite (sbind_done _ _ _ _ _ (addr_run o a s T1)). erewrite sbind_done by reflexivity. cbv beta iota.
  destruct (perf_run true s) as (l & Ep). set (s0 := set_active_output (Some i) (set_perf_calls l s)).
  destruct (path_opened rproc_mp o.(so_bus_num) q s0 Tq Bq) as (x1 & E1 & Tx). rewrite T4 in Tx.
  set (s1 := set_hw_paths x1 s0) in E1.
  destruct (base_open_refused cb_calloc cb_malloc (fun _ => 0) m x s1.(hw_hal) (view_out o)
    (card_id p AUDIO_NAME_PRIMARY) CODEC_DEV
    (sd_platform_get_card_pcm_config p.(dev_manager) AUDIO_NAME_PRIMARY AUDIO_HAL_PLAYBACK zero_config).2
    B (fun _ => eq_refl) T3 (refused _ _)) as (o' & h' & E2 & B2).
  set (o1 := set_so_pcm_hdl None (set_so_pcm None o)).
  set (s2 := set_active_output None (set_hw_outs (<[i := Some o1]> s.(hw_outs)) (set_hw_hal h' s1))).
  destruct (perf_run false s2) as (l2 & Ep2).
  assert (s2.(hw_outs) !! i = Some (Some o1)) as L2
    by (cbn; rewrite list_lookup_insert_eq; [done|by apply lookup_lt_Some in L]).
  assert (start_output_stream cb_calloc cb_malloc rproc_mp p false error_null create_resampler e i s
          = Done (- ENODEV, set_perf_calls l2 s2)) as Es.
  { unfold start_output_stream.
    rewrite (sbind_done _ _ _ _ _ (get_out_run i o s L)), (sbind_done _ _ _ _ _ (addr_run o a s T1)).
    rewrite (sbind_done _ _ _ _ _ Ep). erewrite sbind_done by reflexivity. fold s0. rewrite T2, no_ahub.
    erewrite sbind_done.
    2: { unfold open_main. rewrite (proj2 (Z.ltb_ge _ 0) main_there).
         rewrite (sbind_done _ _ _ _ _ (get_out_run i o s0 L)), (sbind_done _ _ _ _ _ E1), threads.
         erewrite sbind_done by (apply on_hal_run; exact E2). reflexivity. }
    cbv beta iota. erewrite sbind_done by reflexivity. by rewrite (sbind_done _ _ _ _ _ Ep2). }
  erewrite sbind_done.
  2: { unfold wake_output. rewrite (sbind_done _ _ _ _ _ (get_out_run i o s L)), T5. cbn [negb].
       rewrite (sbind_done _ _ _ _ _ Es). reflexivity. }
  change (- ENODEV =? 0) with false. cbn [negb]. rewrite (sbind_done _ _ _ _ _ (get_out_run i o1 (set_perf_calls l2 s2) L2)).
  unfold out_get_sample_rate. cbn [so_config o1 set_so_pcm set_so_pcm_hdl].
  rewrite (proj2 (Z.eqb_neq o.(so_config).(rate) 0) T7).
  eexists. split; [reflexivity|]. split; [by exists o1|]. split; [done|]. cbn. rewrite Tx. unfold b2n.
  by rewrite Nat.add_1_r.
Qed.

(** While playback does not open on the main card, every write to a media
    stream still claims that all its bytes were played, hands the data back as
    it was, and leaves one user more on the path of the remote service; the
    stream stays in standby, so that closing it takes none of them back. *)
Theorem failed_starts_count_path (m : nat -> Z) (x : list Z) (q : nat) (a : string) (i : nat) (blocks : list (list Z))
    (o : sout) (s : state) :
  s.(hw_outs) !! i = Some (Some o) -> waits a o -> base_ok (fun _ => 0) m x s.(hw_hal) ->
  s.(hw_paths).(path_table) = OutputPath.users q -> Z.of_nat q + zlen blocks <= INT32_MAX ->
  exists s1 s2, writes cb_calloc cb_malloc rproc_mp p ref_a ref_b error_null create_resampler resample_from_input e
                  i blocks s = Done (map (fun b => (zlen b, b)) blocks, s1)
    /\ adev_close_output_stream rproc_mp p false e i s1 = Done (tt, s2)
    /\ s2.(hw_paths).(path_table) = OutputPath.users (q + length blocks).
Proof.
  revert q o s. induction blocks as [|b blocks IH]; intros q o s L Wt B Tq Bq; cbn [writes map length].
  - exists s, (set_hw_outs (<[i := None]> s.(hw_outs))
                 (set_hw_bus_map (map_remove a s.(hw_bus_map)) s)).
    split; [done|]. split; [|cbn; rewrite Nat.add_0_r; exact Tq].
    unfold adev_close_output_stream, do_output_standby. erewrite sbind_done.
    2: { rewrite (sbind_done _ _ _ _ _ (get_out_run i o s L)), (wt_standby _ _ Wt). reflexivity. }
    rewrite (sbind_done _ _ _ _ _ (get_out_run i o s L)). erewrite sbind_done by reflexivity.
    rewrite (wt_addr _ _ Wt). reflexivity.
  - assert (zlen (b :: blocks) = zlen blocks + 1) as Zc by (unfold zlen; cbn [length]; lia).
    pose proof (zlen_nonneg blocks) as Nb.
    destruct (refused_write m x q a i o s b L Wt B Tq) as (s1 & E1 & (o1 & L1 & Wt1) & B1 & T1); [lia|].
    rewrite (sbind_done _ _ _ _ _ E1).
    destruct (IH (S q) o1 s1 L1 Wt1 B1 T1) as (s2 & s3 & E2 & E3 & T3); [lia|].
    rewrite (sbind_done _ _ _ _ _ E2). exists s2, s3. split; [done|]. split; [done|]. rewrite T3. f_equal. lia.
Qed.
End Refused.

(** ** Recording without a card *)

Section Recording.
Context {M : Type} `{HM : MixerOps M} `{HA : Alloc} {W : Type} `{HW : PcmSystem W}
  {N : Type} `{HN : Rpmsg N} {E : Type} `{HS : AudioSystem} {R P : Type}.
Context (cb_calloc : bool) (cb_malloc : Z -> option (list Z)) (rproc_mp : bool) (p : platform)
  (create_resampler : Z -> Z -> Z -> Z * option R) (rs_reset : R -> R).
Abbreviation state := (hw R M W N E P).
Context (resample : R -> (Z -> st state (Z * Z * option Z)) -> (Z -> st state unit) -> Z -> st state (Z * list Z))
  (e : hw_env M W P) (c : call_env).
Context (no_card : card_id p AUDIO_NAME_PRIMARY < 0) (soc : p.(bt_type) = BT_CONNECT_WITH_SOC).

(** A stream of the main microphone that does not record. *)
Record quiet (x : stream_in R P) : Prop := {
  qu_standby : x.(si_standby) = true;
  qu_device : x.(si_devices) <> AUDIO_DEVICE_IN_WIRED_HEADSET;
  qu_frame : audio_stream_in_frame_size x.(si_config) <> 0;
  qu_rate : in_get_sample_rate p.(misc).(sw_in_src) x.(si_requested_rate) x.(si_config) <> 0
}.

Abbreviation read := (in_read cb_calloc cb_malloc rproc_mp p false false create_resampler rs_reset resample e).

Lemma read_without_card (i : nat) (x : stream_in R P) (s : state) (buf : list Z) :
  s.(hw_ins) !! i = Some (Some x) -> quiet x -> s.(adev).(adev_mode) <> AUDIO_MODE_IN_CALL ->
  exists l, read i buf s
    = Done ((zlen buf, map (fun _ => 0) buf), set_active_input (Some i) (set_perf_calls l s)).
Proof.
  intros L [Q1 Q2 Q3 Q4] Md. apply Z.eqb_neq in Md.
  assert (exists l, perf_for_input true s = Done (tt, set_perf_calls l s)) as (l & Ep).
  { unfold perf_for_input, sbind, sget. cbn [obind]. destruct (is_none s.(active_output)).
    - by exists (true :: s.(perf_calls)).
    - exists s.(perf_calls). by destruct s. }
  exists l. unfold in_read. erewrite sbind_done by reflexivity. rewrite Md.
  set (s1 := set_active_input (Some i) (set_perf_calls l s)).
  assert (start_input_stream cb_calloc cb_malloc rproc_mp p false false create_resampler rs_reset e i s
          = Done (- ENODEV, s1)) as Es.
  { unfold start_input_stream. rewrite (sbind_done _ _ _ _ _ (get_in_run i x s L)).
    erewrite sbind_done by reflexivity. rewrite Md, (sbind_done _ _ _ _ _ Ep). erewrite sbind_done by reflexivity.
    unfold input_place. erewrite sbind_done.
    2: { erewrite sbind_done by reflexivity. rewrite (proj2 (Z.eqb_neq AUDIO_DEVICE_IN_WIRED_HEADSET _)) by congruence.
         rewrite (proj2 (Z.ltb_lt _ 0) no_card). reflexivity. }
    reflexivity. }
  assert (read_locked cb_calloc cb_malloc rproc_mp p false false create_resampler rs_reset resample e i buf (zlen buf) s
          = Done ((- ENODEV, buf), s1)) as Er.
  { unfold read_locked. rewrite (sbind_done _ _ _ _ _ (get_in_run i x s L)), Q1. erewrite sbind_done.
    2: { rewrite (sbind_done _ _ _ _ _ Es). reflexivity. }
    reflexivity. }
  rewrite (sbind_done _ _ _ _ _ Er). cbv beta iota. rewrite (sbind_done _ _ _ _ _ (get_in_run i x s1 L)).
  erewrite sbind_done by reflexivity. change (- ENODEV <? 0) with true. cbv iota. erewrite sbind_done.
  2: { unfold in_standby, do_in_standby. rewrite (sbind_done _ _ _ _ _ (get_in_run i x s1 L)), Q1. reflexivity. }
  rewrite (sbind_done _ _ _ _ _ (get_in_run i x s1 L)), (proj2 (Z.eqb_neq _ 0) Q3), (proj2 (Z.eqb_neq _ 0) Q4).
  reflexivity.
Qed.

(** The data of calls is there. *)
Definition calls_ready (s : state) : Prop :=
  forallb (fun r => match s.(hw_bt_data) !! rt_index r with Some (Some _) => true | _ => false end) directions = true
  /\ is_none s.(hw_bt_thread) = false.

(** Without the main card a read gives silence, as many bytes as were
    asked for; but the stream stays the active one, also after it was closed,
    and the next call uses the stream that was freed. *)
Theorem closed_recording_breaks_call (i : nat) (x : stream_in R P) (s : state) (buf : list Z) :
  s.(hw_ins) !! i = Some (Some x) -> quiet x -> s.(adev).(adev_mode) <> AUDIO_MODE_IN_CALL ->
  s.(adev).(adev_in_call) = 0 -> calls_ready s ->
  exists s1 s2, read i buf s = Done ((zlen buf, map (fun _ => 0) buf), s1)
    /\ adev_close_input_stream rproc_mp e i s1 = Done (tt, s2) /\ s2.(hw_ins) !! i = Some None
    /\ adev_set_mode cb_calloc cb_malloc rproc_mp p create_resampler rs_reset e c AUDIO_MODE_IN_CALL s2 = Undef.
Proof.
  intros L Q Md Ic [Bd Bt]. destruct (read_without_card i x s buf L Q Md) as (l & Er).
  eexists _. exists (set_hw_ins (<[i := None]> s.(hw_ins)) (set_active_input (Some i) (set_perf_calls l s))).
  split; [exact Er|]. set (s1 := set_active_input (Some i) (set_perf_calls l s)).
  set (x1 := set_si_buffer None x). set (s1' := set_hw_ins (<[i := Some x1]> s.(hw_ins)) s1).
  assert (s1'.(hw_ins) !! i = Some (Some x1)) as L1
    by (cbn; rewrite list_lookup_insert_eq; [done|by apply lookup_lt_Some in L]).
  split.
  { unfold adev_close_input_stream. rewrite (sbind_done _ _ _ _ _ (upd_in_run i _ x s1 L)). erewrite sbind_done.
    2: { unfold in_standby, do_in_standby. rewrite (sbind_done _ _ _ _ _ (get_in_run i x1 s1' L1)).
         cbn [x1 set_si_buffer si_standby]. rewrite (qu_standby _ Q). reflexivity. }
    unfold smodify. cbn. by rewrite list_insert_insert_eq. }
  split; [cbn; rewrite list_lookup_insert_eq; [done|by apply lookup_lt_Some in L]|].
  set (s2 := set_hw_ins _ s1). assert (calls_ready s2) as [Bd2 Bt2] by exact (conj Bd Bt).
  assert (s2.(adev).(adev_mode) = s.(adev).(adev_mode) /\ s2.(adev).(adev_in_call) = 0) as [Em Ei] by done.
  unfold adev_set_mode. erewrite sbind_done by reflexivity. rewrite Bd2, Bt2, soc. cbn [negb].
  change (_ || _) with false. cbv iota. unfold change_mode, sbind at 1 2. cbn [sget obind].
  rewrite Em, (proj2 (Z.eqb_neq _ _) Md). unfold upd_adev, select_mode, force_all_standby.
  unfold sbind, sget, smodify. cbn [obind adev set_adev set_adev_mode adev_mode adev_in_call]. rewrite Ei. cbn.
  unfold do_in_standby, get_in, sbind, sget. cbn.
  rewrite list_lookup_insert_eq by (by apply lookup_lt_Some in L). reflexivity.
Qed.
End Recording.

(** ** Gains *)

Section Gain.
Context {M : Type} `{HM : MixerLaws M} `{HA : Alloc} {W N E R P : Type} (pow10 : Z -> Z -> Z -> Z -> f32).
Abbreviation state := (hw R M W N E P).

(** The level of a bus is stored, and set in the DSP when the bus plays. *)
Definition store_level (b level : Z) : hwm (M := M) (W := W) (N := N) (E := E) (R := R) (P := P) Z :=
  do! _ := on_hal (on_buses (on_bus (fun x =>
             let! l := array_set x.(volume) b level in Done (set_volume l x)))) in
  do! active := on_hal (on_buses (read_bus (fun x => array_get x.(bus_active) b))) in
  if active =? 1 then on_hal (on_buses (set_bus_volume b)) else sret 0.

Lemma store_level_run (b level : Z) (s : state) :
  hal_inv s.(hw_hal).(buses) -> 0 <= level <= MEDIA_VOL_MAX -> 0 <= b < MAX_BUS_NUM ->
  exists r h, store_level b level s = Done (r, set_hw_hal (set_buses h s.(hw_hal)) s) /\ hal_inv h
    /\ h.(bus).(volume) = <[Z.to_nat b := level]> s.(hw_hal).(buses).(bus).(volume).
Proof.
  intros [O D] Lv B. pose proof O as [O1 O2 O3 O4 O5 O6 O7].
  destruct (per_bus_set _ _ b level O3 Lv B) as [Es Ps]. destruct (per_bus_get _ _ b O4 B) as (act & Eg & _).
  set (h1 := {| bus := set_volume (<[Z.to_nat b := level]> s.(hw_hal).(buses).(bus).(volume)) s.(hw_hal).(buses).(bus);
                card_dsp := s.(hw_hal).(buses).(card_dsp) |}).
  assert (hal_inv h1) as I1 by (split; [by constructor|done]).
  unfold store_level. erewrite sbind_done.
  2: { apply on_hal_run. unfold on_buses, on_bus. rewrite Es. reflexivity. }
  erewrite sbind_done.
  2: { apply on_hal_run. unfold on_buses, read_bus. cbn [hw_hal set_hw_hal buses set_buses]. fold h1.
       change (bus_active (bus h1)) with (bus_active (bus (buses (hw_hal s)))). rewrite Eg. reflexivity. }
  destruct (act =? 1).
  - destruct (wp_elim _ _ _ (set_bus_volume_safe b h1 I1 B)) as (r & h2 & E2 & I2). exists r, h2. split_and!; [|done|].
    + rewrite (on_hal_run _ _ r (set_buses h2 s.(hw_hal))); [by destruct s|].
      unfold on_buses. cbn [hw_hal set_hw_hal buses set_buses]. fold h1. by rewrite E2.
    + by rewrite (set_bus_volume_bus _ _ _ _ E2).
  - exists 0, h1. split_and!; [|done|done]. done.
Qed.

Definition stream_gain : audio_gain := {| min_value := -4800; max_value := 6900; step_value := 300 |}.

Lemma gain_index_spec (value : Z) :
  -4800 <= value <= 6900 ->
  gain_index stream_gain value = Done ((value + 4800) / 300, 39) /\ 0 <= (value + 4800) / 300 <= 39.
Proof.
  intros V. unfold gain_index, stream_gain. cbn [step_value min_value max_value Z.eqb].
  rewrite i32_done by (unfold is_i32, INT32_MIN, INT32_MAX; lia). cbn [obind].
  rewrite i32_done by (unfold is_i32, INT32_MIN, INT32_MAX; lia). cbn [obind].
  replace (value - -4800) with (value + 4800) by lia.
  assert (0 <= (value + 4800) / 300 <= 39)
    by (split; [apply Z.div_pos; lia|apply Z.div_le_upper_bound; lia]).
  rewrite (u32_small (value + 4800)), s32_small by (unfold is_u32, UINT32_MAX, INT32_MAX; lia). done.
Qed.

End Gain.

(** ** Changes of the mode *)

Section Modes.
Context {M : Type} `{HM : MixerLaws M} `{HA : Alloc} {W : Type} `{HW : PcmSystemLaws W} `{HR : !ReliableCapture W}
  {N : Type} `{HN : Rpmsg N} {E : Type} `{HS : AudioSystem} {R P : Type}.
Context (cb_calloc : bool) (cb_malloc : Z -> option (list Z)) (rproc_mp : bool) (p : platform)
  (create_resampler : Z -> Z -> Z -> Z * option R) (rs_reset : R -> R) (e : hw_env M W P) (c : call_env).

(** As for a call of its own: the main card is there, devices open, resamplers
    and memory can be had, the threads answer. *)
Context (main_there : 0 <= main_card p) (no_ahub : p.(misc).(ahub_en) = false)
  (soc : p.(bt_type) = BT_CONNECT_WITH_SOC)
  (info_good : forall addr cfg, good_cfg cfg -> exists ret place cfg',
     sd_platform_get_card_info p addr cfg = Done (ret, place, cfg') /\ good_cfg cfg')
  (opens : forall card port flags cfg (w : W), reliable w -> exists h w',
     pcm_open_prepare_helper card port flags PROXY_OPEN_RETRY_COUNT cfg w = (Some h, w')
     /\ pcm_is_ready h w' = true)
  (resampled : forall i o c, (create_resampler i o c).1 = 0)
  (memory : forall n, is_Some (c.(ce_malloc) n))
  (samples_small : forall f b, bytes_per_sample (audio_format_from_pcm_format f) = Some b -> 0 <= b <= 4)
  (phone_slot : exists v, first_slot p 2 = Done v /\ 0 <= v <= 7)
  (env_ok : c.(ce_open) = all_there /\ c.(ce_restarted) = false /\ e.(e_exits) = true).

Abbreviation state := (hw R M W N E P).

(** The users of the streamer and the devices beside a call. *)
Context (n m : nat -> Z) (x : list Z) (o0 : alsa_stream_out)
  (users_ok : (forall k, 0 <= n k < INT32_MAX) /\ 0 <= m 0%nat < INT32_MAX).

(** What the streamer and the sound system hold in and out of a call. *)
Definition held (in_call : bool) (s : state) : Prop :=
  if in_call then exists r v k, base_ok (add_at k 1 n) (add_at 0 1 m) (v :: r :: x) s.(hw_hal)
  else base_ok n m x s.(hw_hal).

(** The stream that a call copies is there. *)
Definition phone_there (s : state) : Prop :=
  exists i o, s.(hw_bt_stream) = Some i /\ s.(hw_outs) !! i = Some (Some o) /\ view_out o = o0.

(** A board that is ready for calls, in its mode. *)
Record call_ok (s : state) : Prop := {
  co_data : exists a b k d t, s.(hw_bt_data) = [Some a; Some b; Some k; Some d] /\ s.(hw_bt_thread) = Some t
              /\ thread_ok t
              /\ if s.(adev).(adev_mode) =? AUDIO_MODE_IN_CALL
                 then s.(adev).(adev_in_call) = 1 /\ exists r v j, call_active o0 a b k d r v j
                      /\ is_Some (s.(hw_hal).(out_streams) !! j)
                      /\ base_ok (add_at j 1 n) (add_at 0 1 m) (v :: r :: x) s.(hw_hal)
                 else s.(adev).(adev_in_call) = 0 /\ call_idle o0 a b k (set_d_out (Some o0) d)
                      /\ base_ok n m x s.(hw_hal);
  co_cfgs : good_cfgs s.(hw_cfgs);
  co_quiet : s.(active_input) = None;
  co_stream : phone_there s
}.

Definition good_mode (mode : Z) : bool := (AUDIO_MODE_INVALID <=? mode) && (mode <=? AUDIO_MODE_IN_COMMUNICATION).

Abbreviation set_mode := (adev_set_mode cb_calloc cb_malloc rproc_mp p create_resampler rs_reset e c).

Fixpoint set_modes (l : list Z) (s : state) : outcome (list Z * state) :=
  match l with
  | [] => Done ([], s)
  | mode :: l =>
      let! (r, s) := set_mode mode s in
      let! (rs, s) := set_modes l s in
      Done (r :: rs, s)
  end.

(** The status of each change, and the mode after it. *)
Definition mode_status (mode : Z) : Z := if good_mode mode then 0 else - EINVAL.
Definition mode_spec (old mode : Z) : Z := if good_mode mode then mode else old.

Lemma call_view_run (s : state) (a b k d : btcall_data R) (t : btcall_thread_data) :
  phone_there s -> s.(hw_bt_data) = [Some a; Some b; Some k; Some d] -> s.(hw_bt_thread) = Some t ->
  call_view s = mk s.(adev).(adev_in_call) s.(adev).(adev_mic_mute) a b k (set_d_out (Some o0) d) t s.(hw_cfgs)
                  s.(hw_hal) s.(hw_paths).(path_remote).
Proof.
  intros (i & o & Es & Lo & Vo) Ed Et. unfold call_view, mk. by rewrite Es, Lo, Vo, Ed, Et.
Qed.

(** The device after a call began or ended. *)
Definition after_call (a b k d : btcall_data R) (t : btcall_thread_data) (f : cfg_name -> pcm_config) (h : hal M W)
    (rm : remote N) (s : state) : state :=
  set_hw_call [Some a; Some b; Some k; Some d] (Some t) f
    (set_hw_hal h (set_hw_paths {| path_table := s.(hw_paths).(path_table); path_remote := rm |} s)).

Definition with_call (ic mode : Z) (s : state) : state :=
  set_adev (set_adev_in_call ic (set_adev_mode mode s.(adev))) s.

Lemma call_begins_run (mode : Z) (s : state) (a b k d : btcall_data R) (t : btcall_thread_data) :
  phone_there s -> s.(hw_bt_data) = [Some a; Some b; Some k; Some d] -> s.(hw_bt_thread) = Some t ->
  thread_ok t -> good_cfgs s.(hw_cfgs) -> call_idle o0 a b k (set_d_out (Some o0) d) -> base_ok n m x s.(hw_hal) ->
  exists a1 b1 k1 d1 t1 f1 h1 r v j,
    call_status cb_calloc cb_malloc rproc_mp p create_resampler rs_reset e c (with_call 1 mode s)
    = Done (tt, after_call a1 b1 k1 d1 t1 f1 h1 s.(hw_paths).(path_remote) (with_call 1 mode s))
    /\ call_active o0 a1 b1 k1 d1 r v j /\ good_cfgs f1 /\ thread_ok t1 /\ is_Some (h1.(out_streams) !! j)
    /\ base_ok (add_at j 1 n) (add_at 0 1 m) (v :: r :: x) h1.
Proof.
  intros Ph Ed Et T G I B. destruct phone_slot as (v0 & Ev & _). destruct env_ok as (C1 & C2 & C3).
  destruct users_ok as [Un Um].
  destruct (call_begins cb_calloc cb_malloc p rproc_mp (fun f => bytes_per_sample (audio_format_from_pcm_format f))
    create_resampler rs_reset c.(ce_malloc) main_there no_ahub info_good opens resampled memory samples_small
    s.(adev).(adev_mic_mute) a b k (set_d_out (Some o0) d) t s.(hw_cfgs) s.(hw_hal) s.(hw_paths).(path_remote)
    o0 n m x v0 c.(ce_seen) I G T B Un Um)
    as (a1 & b1 & k1 & d1 & t1 & f1 & h1 & r & v & j & E1 & A1 & G1 & T1 & _ & _ & L1 & B1).
  exists a1, b1, k1, d1, t1, f1, h1, r, v, j. split; [|by split_and!].
  unfold call_status. erewrite sbind_done by (unfold slift; rewrite Ev; reflexivity). rewrite C1, C2, C3.
  unfold on_call. rewrite (call_view_run (with_call 1 mode s) a b k d t Ph Ed Et).
  cbn [with_call adev set_adev adev_in_call set_adev_in_call adev_mic_mute set_adev_mode hw_cfgs hw_hal hw_paths].
  rewrite E1. reflexivity.
Qed.

Lemma call_ends_run (mode : Z) (s : state) (a b k d : btcall_data R) (t : btcall_thread_data) (r v : Z) (j : nat) :
  phone_there s -> s.(hw_bt_data) = [Some a; Some b; Some k; Some d] -> s.(hw_bt_thread) = Some t ->
  thread_ok t -> call_active o0 a b k d r v j -> is_Some (s.(hw_hal).(out_streams) !! j) ->
  base_ok (add_at j 1 n) (add_at 0 1 m) (v :: r :: x) s.(hw_hal) ->
  exists a1 b1 k1 d1 t1 h1 rm1,
    call_status cb_calloc cb_malloc rproc_mp p create_resampler rs_reset e c (with_call 0 mode s)
    = Done (tt, after_call a1 b1 k1 d1 t1 s.(hw_cfgs) h1 rm1 (with_call 0 mode s))
    /\ call_idle o0 a1 b1 k1 d1 /\ thread_ok t1 /\ base_ok n m x h1.
Proof.
  intros Ph Ed Et T A L B. destruct phone_slot as (v0 & Ev & Bv). destruct env_ok as (C1 & C2 & C3).
  destruct users_ok as [Un Um].
  assert (set_d_out (Some o0) d = d) as Eo
    by (rewrite <-(ca_bus _ _ _ _ _ _ _ _ A); by destruct d).
  destruct (call_ends cb_calloc cb_malloc p rproc_mp (fun f => bytes_per_sample (audio_format_from_pcm_format f))
    create_resampler rs_reset c.(ce_malloc) main_there no_ahub info_good opens resampled memory samples_small
    s.(adev).(adev_mic_mute) a b k d t s.(hw_cfgs) s.(hw_hal) s.(hw_paths).(path_remote)
    o0 n m x v0 r v j c.(ce_seen) A T L Un Um Bv B)
    as (a1 & b1 & k1 & d1 & t1 & h1 & rm1 & E1 & I1 & T1 & B1).
  exists a1, b1, k1, d1, t1, h1, rm1. split; [|by split_and!].
  unfold call_status. erewrite sbind_done by (unfold slift; rewrite Ev; reflexivity). rewrite C1, C2, C3.
  unfold on_call. rewrite (call_view_run (with_call 0 mode s) a b k d t Ph Ed Et), Eo.
  cbn [with_call adev set_adev adev_in_call set_adev_in_call adev_mic_mute set_adev_mode hw_cfgs hw_hal hw_paths].
  rewrite E1. reflexivity.
Qed.

Lemma set_d_out_idle (a b k d : btcall_data R) :
  call_idle o0 a b k d -> call_idle o0 a b k (set_d_out (Some o0) d).
Proof. intros [I1 I2 I3 I4 I5]. by split. Qed.

(** A change to another mode. *)
Lemma change_run (mode : Z) (s : state) :
  call_ok s -> s.(adev).(adev_mode) <> mode ->
  exists s', change_mode cb_calloc cb_malloc rproc_mp p create_resampler rs_reset e c mode s = Done (tt, s')
    /\ call_ok s' /\ s'.(adev).(adev_mode) = mode.
Proof.
  intros [(a & b & k & d & t & Ed & Et & T & C) G Q Ph] Ne.
  unfold change_mode. erewrite sbind_done by reflexivity. rewrite (proj2 (Z.eqb_neq _ _) Ne).
  erewrite sbind_done by reflexivity. unfold select_mode. erewrite sbind_done by reflexivity.
  cbn [adev set_adev adev_mode set_adev_mode adev_in_call].
  destruct (Z.eqb_spec mode AUDIO_MODE_IN_CALL) as [Em|Em].
  - rewrite (proj2 (Z.eqb_neq _ AUDIO_MODE_IN_CALL)) in C by congruence. destruct C as (Ic & I & B). rewrite Ic. cbn [Z.eqb].
    destruct (call_begins_run mode s a b k d t Ph Ed Et T G I B)
      as (a1 & b1 & k1 & d1 & t1 & f1 & h1 & r & v & j & E1 & A1 & G1 & T1 & L1 & B1).
    unfold force_all_standby. erewrite sbind_done.
    2: { erewrite sbind_done by reflexivity. cbn [active_input set_adev]. rewrite Q. reflexivity. }
    erewrite sbind_done by reflexivity. eexists. split; [exact E1|]. split; [|done]. split; try done.
    exists a1, b1, k1, d1, t1. split_and!; try done. cbn. rewrite Em. cbn. split; [done|]. exists r, v, j. by split_and!.
  - destruct (Z.eqb_spec s.(adev).(adev_mode) AUDIO_MODE_IN_CALL) as [Eo|Eo].
    + destruct C as (Ic & r & v & j & A & L & B). rewrite Ic. cbn [Z.eqb negb].
      destruct (call_ends_run mode s a b k d t r v j Ph Ed Et T A L B)
        as (a1 & b1 & k1 & d1 & t1 & h1 & rm1 & E1 & I1 & T1 & B1).
      erewrite sbind_done by reflexivity. eexists. split; [exact E1|]. split; [|done]. split; try done.
      exists a1, b1, k1, d1, t1. split_and!; try done. cbn. rewrite (proj2 (Z.eqb_neq _ _) Em).
      split; [done|]. split; [by apply set_d_out_idle|done].
    + destruct C as (Ic & I & B). rewrite Ic. cbn [Z.eqb negb]. eexists. split; [reflexivity|]. split; [|done]. split; try done.
      exists a, b, k, d, t. split_and!; try done. cbn. by rewrite (proj2 (Z.eqb_neq _ _) Em).
Qed.

Lemma mode_step (mode : Z) (s : state) :
  call_ok s -> exists s', set_mode mode s = Done (mode_status mode, s') /\ call_ok s'
    /\ s'.(adev).(adev_mode) = mode_spec s.(adev).(adev_mode) mode.
Proof.
  intros K. pose proof K as [(a & b & k & d & t & Ed & Et & _ & _) _ _ _].
  unfold adev_set_mode, mode_status, mode_spec. erewrite sbind_done by reflexivity. rewrite Ed, Et. cbn [is_none].
  change (negb (forallb _ directions)) with false. cbv iota.
  destruct (good_mode mode) eqn:Gm; unfold good_mode in Gm.
  - rewrite soc. assert ((mode >? AUDIO_MODE_IN_COMMUNICATION) || (mode <? AUDIO_MODE_INVALID) = false) as -> by lia.
    destruct (Z.eq_dec s.(adev).(adev_mode) mode) as [Eq|Ne].
    + exists s. split; [|done]. unfold change_mode. erewrite sbind_done; [reflexivity|].
      erewrite sbind_done by reflexivity. by rewrite (proj2 (Z.eqb_eq _ _) Eq).
    + destruct (change_run mode s K Ne) as (s' & E1 & K1 & M1). exists s'. by rewrite (sbind_done _ _ _ _ _ E1).
  - assert ((mode >? AUDIO_MODE_IN_COMMUNICATION) || (mode <? AUDIO_MODE_INVALID) = true) as -> by lia. by exists s.
Qed.

End Modes.

(** ** Examples *)

#[local] Existing Instances alloc_always no_effects.

Definition with_gain : misc_feature :=
  {| audio_route := false; sw_in_src := false; sw_out_src := false; sw_ecnr := false; sw_gain := true;
     btcall := false; ahub_en := false |}.

Definition seat_config : pcm_config := stream_config 2 48000 4 20 PCM_FORMAT_S16_LE.

Definition seat_stream : stream_out unit :=
  set_so_amplitude_ratio {| f_m := 1; f_e := -1 |} (new_out seat_config STR_DEV_BUS100_ADDR 100).


(** The gain of the media bus, and of the first rear seat. *)
Definition gain_hw : hw unit Mixer.card sound_card wire unit unit :=
  set_hw_bus_map [(STR_DEV_BUS1_ADDR, 0%nat); (STR_DEV_BUS100_ADDR, 1%nat)]
    (demo_hw [Some (new_out seat_config STR_DEV_BUS1_ADDR 0); Some seat_stream] []).


(** A board without a card, ready for calls, with a stream of the microphone. *)
Definition mic_in : stream_in unit unit := new_in seat_config 0 48000 [] no_supported.

Definition call_ready_hw : hw unit Mixer.card sound_card wire unit unit :=
  set_hw_call (replicate 4 (Some zero_bt_data)) (Some zero_thread_data) call_configs (demo_hw [] [Some mic_in]).

Definition demo_call : call_env :=
  {| ce_open := all_there; ce_malloc := fun n => Some (replicate (Z.to_nat n) 0); ce_restarted := false;
     ce_seen := fun _ => (false, false) |}.

Lemma closed_recording_breaks_call_witness :
  exists s1 s2, in_read true malloc_zero false (bt_platform false) false false (fun _ _ _ => (0, Some tt)) id
                  (fun _ _ _ n => sret (n, [])) demo_env 0 [1; 2; 3; 4] call_ready_hw
                = Done ((4, [0; 0; 0; 0]), s1)
    /\ adev_close_input_stream false demo_env 0 s1 = Done (tt, s2) /\ s2.(hw_ins) !! 0%nat = Some None
    /\ adev_set_mode true malloc_zero false (bt_platform false) (fun _ _ _ => (0, Some tt)) id demo_env demo_call
         AUDIO_MODE_IN_CALL s2 = Undef.
Proof.
  apply (closed_recording_breaks_call true malloc_zero false (bt_platform false) (fun _ _ _ => (0, Some tt)) id
           (fun _ _ _ n => sret (n, [])) demo_env demo_call ltac:(by vm_compute) eq_refl 0 mic_in call_ready_hw [1; 2; 3; 4]);
    [done|by split|done|done|done].
Defined.

(** A phone call, a mode that does not exist, another call. *)
Definition phone_out : stream_out unit := new_out seat_config STR_DEV_BUS2_ADDR 1.

Definition phone_hw : hw unit Mixer.card sound_card wire unit unit :=
  set_hw_bt_stream (Some 0%nat)
    (set_hw_call (replicate 4 (Some zero_bt_data)) (Some zero_thread_data) call_configs (demo_hw [Some phone_out] [])).


(** A card that records, but does not play. *)
Record mute_card := Mute { mc_next : Z; mc_open : list Z }.

#[local] Instance mute_card_pcm : PcmSystem mute_card := {
  pcm_format_to_bits _ := 16;
  pcm_open _ _ flags _ c :=
    if flags =? PCM_OUT then (None, c)
    else (Some c.(mc_next), Mute (c.(mc_next) + 1) (c.(mc_next) :: c.(mc_open)));
  pcm_is_ready _ _ := true;
  pcm_prepare _ c := (0, c);
  pcm_write _ _ c := (-1, c);
  pcm_read _ _ c := (0, [], c);
  pcm_close h c := (0, Mute c.(mc_next) (sc_remove h c.(mc_open)));
  opened := mc_open
}.

#[local] Instance mute_card_laws : PcmSystemLaws mute_card.
Proof.
  split; try done.
  - intros card dev flags h cfg w w'. cbn. by destruct (flags =? PCM_OUT); [|intros [= <- <-]].
  - intros card dev flags cfg w w'. cbn. by destruct (flags =? PCM_OUT); [intros [= <-]|].
  - intros h w l P. cbn in *. by apply sc_remove_perm.
Qed.

#[local] Instance mute_card_reliable : ReliableCapture mute_card.
Proof. refine {| reliable _ := True |}; [|done..]. intros card port cfg w _. by eexists. Defined.

Lemma mute_refuses (card port : Z) (cfg : pcm_config) (w : mute_card) :
  (pcm_open_prepare_helper card port PCM_OUT PROXY_OPEN_RETRY_COUNT cfg w).1 = None.
Proof.
  unfold pcm_open_prepare_helper. generalize (Z.to_nat PROXY_OPEN_RETRY_COUNT). intros n.
  enough (pcm_open_retry n card port PCM_OUT cfg w = (None, w)) as -> by done.
  induction n as [|n IH]; [done|exact IH].
Qed.

Definition mute_hal : hal Mixer.card mute_card :=
  ss_hal (session_start [("main"%string, [0; 1; 2])]
    {| bus := bus_status_init (replicate 16 0); card_dsp := dsp_static (demo_card true) |} (Mute 1 []) [] []).

Definition media_out : stream_out unit := new_out seat_config STR_DEV_BUS1_ADDR 0.

Lemma failed_starts_count_path_witness :
  exists s1 s2, writes true malloc_zero false (demo_platform with_gain) true false true (fun _ _ _ => (0, Some tt))
                  (fun r _ n _ => (r, n, [])) demo_env 0 [[1; 2; 3; 4]; [5; 6; 7; 8]; [9; 10; 11; 12]]
                  (demo_hw_on mute_hal [Some media_out] [])
                = Done ([(4, [1; 2; 3; 4]); (4, [5; 6; 7; 8]); (4, [9; 10; 11; 12])], s1)
    /\ adev_close_output_stream false (demo_platform with_gain) false demo_env 0 s1 = Done (tt, s2)
    /\ s2.(hw_paths).(path_table) = OutputPath.users 3.
Proof.
  apply (failed_starts_count_path (M := Mixer.card) (W := mute_card) (N := wire) (E := unit) (R := unit) (P := unit)
    true malloc_zero false (demo_platform with_gain) true false true (fun _ _ _ => (0, Some tt))
    (fun r _ n _ => (r, n, [])) demo_env ltac:(by vm_compute) eq_refl eq_refl
    (fun cfg w => mute_refuses _ _ cfg w) (fun _ => 0) [] 0 STR_DEV_BUS1_ADDR 0
    [[1; 2; 3; 4]; [5; 6; 7; 8]; [9; 10; 11; 12]] media_out (demo_hw_on mute_hal [Some media_out] [])).
  - done.
  - split; first [done|by vm_compute|cbn; lia].
  - edestruct (session_start_ok [("main"%string, [0; 1; 2])]
      {| bus := bus_status_init (replicate 16 0); card_dsp := dsp_static (demo_card true) |} (Mute 1 []) [] [])
      as [S1 S2 S3 S4 _ _ _ S8 S9 S10 _]; try done.
    + split; [cbn; lia|]. constructor; [|constructor].
      split; [split; [cbn; lia|cbn; intuition discriminate]|cbn; lia].
    + split; [apply init_ok, all_slot_0|apply static_inv, demo_no_byte].
  - done.
  - by vm_compute.
Defined.
