(* ===== verification/NormalHw.v ===== *)
(** * The plain audio HAL

    Models [audio_hw_normal.c], the HAL of boards without buses: a playback and
    a recording stream with a device of its own each, no streamer, no mixing
    and no routing.  It shares the platform ([Platform]) and the devices
    ([PcmDevice]) with the HAL of the other files.

    A stream is the index of its structure.  The close of a playback stream
    frees its structure ([None]); the close of a recording stream does
    nothing.  The mutexes are held during a whole operation and are not
    modelled; the argument of [usleep] is computed. *)

From Stdlib Require Import ZArith Lia Ascii String.
From stdpp Require Import base list numbers.
From S2P Require Import Prelude CircleBuf CString PcmPlugin PcmDevice Streamer AudioExtra Platform Sharing.
From S2P Require Import StreamerProofs BtCall StreamInfo AudioHw AudioDevice.

#[local] Open Scope Z_scope.

Definition AUDIO_CHANNEL_NONE : Z := 0.
Definition AUDIO_FORMAT_DEFAULT : Z := 0.
Definition HIFI_AUDIO_FORMAT : Z := AUDIO_FORMAT_PCM_16_BIT.
Definition SAMPLING_RATE_8K : Z := 8000.
Definition SAMPLING_RATE_11K : Z := 11025.
Definition SAMPLING_RATE_48K : Z := 48000.

(** ** State *)

Section State.
Context {R W : Type}.

Record plain_out := {
  po_config : pcm_config;
  po_pcm : option Z;
  po_resampler : option R;
  po_standby : bool
}.

Record plain_in := {
  pi_config : pcm_config;
  pi_pcm : option Z;
  pi_resampler : option R;
  pi_standby : bool;
  pi_requested_rate : Z;
  pi_frames_in : Z
}.

Record plain_hal := {
  plain_outs : list (option plain_out);
  plain_ins : list plain_in;
  plain_active_output : option nat;
  plain_active_input : option nat;
  plain_world : W
}.

Definition set_plain_outs (l : list (option plain_out)) (s : plain_hal) : plain_hal :=
  {| plain_outs := l; plain_ins := s.(plain_ins); plain_active_output := s.(plain_active_output);
     plain_active_input := s.(plain_active_input); plain_world := s.(plain_world) |}.
Definition set_plain_ins (l : list plain_in) (s : plain_hal) : plain_hal :=
  {| plain_outs := s.(plain_outs); plain_ins := l; plain_active_output := s.(plain_active_output);
     plain_active_input := s.(plain_active_input); plain_world := s.(plain_world) |}.
Definition set_plain_active_output (x : option nat) (s : plain_hal) : plain_hal :=
  {| plain_outs := s.(plain_outs); plain_ins := s.(plain_ins); plain_active_output := x;
     plain_active_input := s.(plain_active_input); plain_world := s.(plain_world) |}.
Definition set_plain_active_input (x : option nat) (s : plain_hal) : plain_hal :=
  {| plain_outs := s.(plain_outs); plain_ins := s.(plain_ins);
     plain_active_output := s.(plain_active_output); plain_active_input := x;
     plain_world := s.(plain_world) |}.
Definition set_plain_world (w : W) (s : plain_hal) : plain_hal :=
  {| plain_outs := s.(plain_outs); plain_ins := s.(plain_ins);
     plain_active_output := s.(plain_active_output); plain_active_input := s.(plain_active_input);
     plain_world := w |}.

Definition po_with (pcm : option Z) (standby : bool) (o : plain_out) : plain_out :=
  {| po_config := o.(po_config); po_pcm := pcm; po_resampler := o.(po_resampler); po_standby := standby |}.
Definition po_idle (o : plain_out) : plain_out :=
  {| po_config := o.(po_config); po_pcm := None; po_resampler := None; po_standby := true |}.
Definition pi_with (pcm : option Z) (x : plain_in) : plain_in :=
  {| pi_config := x.(pi_config); pi_pcm := pcm; pi_resampler := x.(pi_resampler);
     pi_standby := x.(pi_standby); pi_requested_rate := x.(pi_requested_rate);
     pi_frames_in := x.(pi_frames_in) |}.
Definition pi_resample (r : option R) (x : plain_in) : plain_in :=
  {| pi_config := x.(pi_config); pi_pcm := x.(pi_pcm); pi_resampler := r;
     pi_standby := x.(pi_standby); pi_requested_rate := x.(pi_requested_rate);
     pi_frames_in := x.(pi_frames_in) |}.
Definition pi_set_standby (b : bool) (x : plain_in) : plain_in :=
  {| pi_config := x.(pi_config); pi_pcm := x.(pi_pcm); pi_resampler := x.(pi_resampler);
     pi_standby := b; pi_requested_rate := x.(pi_requested_rate); pi_frames_in := x.(pi_frames_in) |}.
Definition pi_reset_frames (x : plain_in) : plain_in :=
  {| pi_config := x.(pi_config); pi_pcm := x.(pi_pcm); pi_resampler := x.(pi_resampler);
     pi_standby := x.(pi_standby); pi_requested_rate := x.(pi_requested_rate); pi_frames_in := 0 |}.
End State.
Arguments plain_out : clear implicits.
Arguments plain_in : clear implicits.
Arguments plain_hal : clear implicits.

(** ** Sizes *)

(** [size_t] arithmetic. *)
Definition samples_per_milliseconds (milliseconds sample_rate channel_count : Z) : Z :=
  u64 (u64 (milliseconds * sample_rate) * channel_count) / 1000.

(** The rate of the device for a recording: one of the series of 48 kHz.
    [fix_rate] is the build flag [ENABLE_FIX_CAPTURE_SAMPLE_RATE]. *)
Definition capture_rate (fix_rate : bool) (requested_rate : Z) : Z :=
  if fix_rate then HIFI_SAMPLING_RATE
  else if requested_rate mod SAMPLING_RATE_8K =? 0 then requested_rate
  else
    let in_ajust_rate := s32 (u32 (SAMPLING_RATE_8K * (requested_rate / SAMPLING_RATE_11K + 1))) in
    u32 (if in_ajust_rate >? SAMPLING_RATE_48K then SAMPLING_RATE_48K else in_ajust_rate).

Section Plain.
Context {W : Type} `{PcmSystem W} `{AudioSystem} {R : Type}.
(** The platform, the resampler of the framework, and the build flag. *)
Context (p : platform) (create_resampler : Z -> Z -> Z -> Z * option R) (rs_reset : R -> R) (fix_rate : bool).

Abbreviation state := (plain_hal R W).

Definition plainm (A : Type) : Type := st state A.

(** *** Getters *)

Definition normal_out_get_sample_rate (o : plain_out R) : Z := o.(po_config).(rate).

Definition normal_out_get_buffer_size (o : plain_out R) : Z :=
  u64 (samples_per_milliseconds OUT_PERIOD_MS o.(po_config).(rate) o.(po_config).(channels)
       * audio_stream_out_frame_size o.(po_config)).

Definition normal_out_get_channels (o : plain_out R) : Z := audio_channel_out_mask_from_count o.(po_config).(channels).
Definition normal_out_get_format (o : plain_out R) : Z := audio_format_from_pcm_format o.(po_config).(cfg_format).
Definition normal_out_get_latency : Z := OUT_PERIOD_MS.

Definition normal_in_get_sample_rate (x : plain_in R) : Z :=
  if p.(misc).(sw_in_src) then x.(pi_requested_rate) else x.(pi_config).(rate).

Definition normal_in_get_buffer_size (x : plain_in R) : Z :=
  u64 (samples_per_milliseconds IN_PERIOD_MS (normal_in_get_sample_rate x) x.(pi_config).(channels)
       * audio_stream_in_frame_size x.(pi_config)).

Definition normal_in_get_channels (x : plain_in R) : Z := audio_channel_in_mask_from_count x.(pi_config).(channels).
Definition normal_in_get_format (x : plain_in R) : Z := audio_format_from_pcm_format x.(pi_config).(cfg_format).

Definition adev_normal_get_input_buffer_size (config : audio_config) : Z :=
  let size := u32 (u32 (u32 (config.(sample_rate) * IN_PERIOD_MS) / 1000 + 15) / 16 * 16) in
  u64 (size * (2 * audio_channel_count_from_in_mask config.(channel_mask))).

(** *** Streams and devices *)

Definition plain_get_out (i : nat) : plainm (plain_out R) :=
  do! s := sget in
  match s.(plain_outs) !! i with Some (Some o) => sret o | _ => slift Undef end.
Definition plain_put_out (i : nat) (o : plain_out R) : plainm unit :=
  smodify (fun s => set_plain_outs (<[i := Some o]> s.(plain_outs)) s).
Definition plain_get_in (i : nat) : plainm (plain_in R) :=
  do! s := sget in
  match s.(plain_ins) !! i with Some x => sret x | None => slift Undef end.
Definition plain_put_in (i : nat) (x : plain_in R) : plainm unit :=
  smodify (fun s => set_plain_ins (<[i := x]> s.(plain_ins)) s).

Definition on_plain_world {A} (f : W -> A * W) : plainm A := fun s =>
  let '(a, w) := f s.(plain_world) in Done (a, set_plain_world w s).

(** A pointer to a device is valid while the device is open. *)
Definition plain_live (pcm : option Z) : plainm Z :=
  do! s := sget in
  match pcm with
  | Some h => if decide (h ∈ opened s.(plain_world)) then sret h else slift Undef
  | None => slift Undef
  end.
Definition plain_close (pcm : option Z) : plainm Z :=
  do! h := plain_live pcm in on_plain_world (pcm_close h).

(** *** Playback *)

Definition normal_do_output_standby (i : nat) : plainm Z :=
  do! o := plain_get_out i in
  if o.(po_standby) then sret 0
  else
    do! _ := (match o.(po_pcm) with
              | Some h => do! _ := plain_close (Some h) in sret tt
              | None => sret tt
              end) in
    do! _ := smodify (set_plain_active_output None) in
    do! _ := plain_put_out i (po_idle o) in
    sret 0.

Definition normal_out_standby (i : nat) : plainm Z := do! _ := normal_do_output_standby i in sret 0.

(** The null pointer is given to [pcm_is_ready]. *)
Definition normal_start_output_stream (i : nat) : plainm Z :=
  do! o := plain_get_out i in
  let card := sd_platform_get_card_id p.(dev_manager) AUDIO_NAME_PRIMARY in
  if card <? 0 then sret (- ENODEV)
  else
    do! _ := smodify (set_plain_active_output (Some i)) in
    do! pcm := on_plain_world (pcm_open card PORT_CODEC PCM_OUT o.(po_config)) in
    do! h := plain_live pcm in
    do! s := sget in
    if pcm_is_ready h s.(plain_world) then
      do! _ := plain_put_out i (po_with (Some h) o.(po_standby) o) in sret 0
    else
      do! _ := plain_close (Some h) in
      do! _ := plain_put_out i (po_with None o.(po_standby) o) in
      do! _ := smodify (set_plain_active_output None) in
      sret (- ENOMEM).

(** What [usleep] gets, and the divisions in it. *)
Definition sleep_time (bytes frame_size rate : Z) : outcome Z :=
  if (frame_size =? 0) || (rate =? 0) then Undef else Done (bytes * 1000000 / frame_size / rate).

Definition play_out (i : nat) (data : list Z) : plainm Z :=
  do! o := plain_get_out i in
  do! h := plain_live o.(po_pcm) in
  on_plain_world (pcm_write h data).

(** A write that failed waits for the time of its data. *)
Definition out_failed (i : nat) (bytes : Z) : plainm Z :=
  do! _ := normal_out_standby i in
  do! o := plain_get_out i in
  slift (sleep_time bytes (audio_stream_out_frame_size o.(po_config)) (normal_out_get_sample_rate o)).

(** Starting a stream that is in standby. *)
Definition wake_out (i : nat) : plainm Z :=
  do! o := plain_get_out i in
  if o.(po_standby) then
    do! ret := normal_start_output_stream i in
    if ret =? 0 then
      do! o := plain_get_out i in
      do! _ := plain_put_out i (po_with o.(po_pcm) false o) in sret 0
    else sret ret
  else sret 0.

Definition normal_out_write (i : nat) (data : list Z) : plainm Z :=
  let bytes := zlen data in
  do! ret := wake_out i in
  do! ret := (if ret =? 0 then play_out i data else sret ret) in
  do! _ := (if ret =? 0 then sret 0 else out_failed i bytes) in
  sret bytes.

Definition plain_config (ch rt fmt ms count : Z) : pcm_config :=
  {| channels := ch; rate := rt; period_size := u32 (samples_per_milliseconds ms rt ch);
     period_count := count; cfg_format := fmt; start_threshold := 0; stop_threshold := 0;
     silence_threshold := 0; silence_size := 0 |}.

Definition plain_format (fmt : Z) : Z :=
  pcm_format_from_audio_format (if fmt =? AUDIO_FORMAT_DEFAULT then HIFI_AUDIO_FORMAT else fmt).

Definition new_plain_out (config : audio_config) : plain_out R :=
  let rt := if config.(sample_rate) =? 0 then HIFI_SAMPLING_RATE else config.(sample_rate) in
  let ch := if config.(channel_mask) =? AUDIO_CHANNEL_NONE then CHANNEL_STEREO
            else audio_channel_count_from_out_mask config.(channel_mask) in
  {| po_config := plain_config ch rt (plain_format config.(ac_format)) OUT_PERIOD_MS PLAYBACK_PERIOD_COUNT;
     po_pcm := None; po_resampler := None; po_standby := true |}.

(** [mem] tells whether [calloc] has memory.  The status, and the stream. *)
Definition adev_normal_open_output_stream (mem : bool) (config : audio_config) : plainm (Z * option nat) :=
  if negb mem then sret (- ENOMEM, None)
  else
    do! s := sget in
    do! _ := smodify (set_plain_outs (s.(plain_outs) ++ [Some (new_plain_out config)])) in
    sret (0, Some (length s.(plain_outs))).

(** The device of the stream is not closed. *)
Definition adev_normal_close_output_stream (i : nat) : plainm unit :=
  do! _ := plain_get_out i in
  smodify (fun s => set_plain_outs (<[i := None]> s.(plain_outs)) s).

(** *** Recording *)

(** The pointer to the device is kept. *)
Definition normal_do_in_standby (i : nat) : plainm Z :=
  do! x := plain_get_in i in
  if x.(pi_standby) then sret 0
  else
    do! _ := (match x.(pi_pcm) with
              | Some h => do! _ := plain_close (Some h) in sret tt
              | None => sret tt
              end) in
    do! _ := smodify (set_plain_active_input None) in
    do! _ := plain_put_in i (pi_set_standby true (pi_resample None x)) in
    sret 0.

Definition normal_in_standby (i : nat) : plainm Z := do! _ := normal_do_in_standby i in sret 0.

(** The resampler of a stream whose rate is not that of the device; it gets no
    provider. *)
Definition plain_resampler (i : nat) : plainm Z :=
  do! x := plain_get_in i in
  do! ret :=
    (if x.(pi_requested_rate) =? x.(pi_config).(rate) then sret 0
     else
       let '(ret, rs) := create_resampler x.(pi_config).(rate) x.(pi_requested_rate) x.(pi_config).(channels) in
       if ret =? 0 then do! _ := plain_put_in i (pi_resample rs x) in sret 0
       else sret (- EINVAL)) in
  if negb (ret =? 0) then sret ret
  else
    do! x := plain_get_in i in
    do! _ := (match x.(pi_resampler) with
              | Some rs => plain_put_in i (pi_reset_frames (pi_resample (Some (rs_reset rs)) x))
              | None => sret tt
              end) in
    sret 0.

(** The stream is the active one also after a start that failed without a card
    or without a resampler; without a resampler the device stays open. *)
Definition normal_start_input_stream (i : nat) : plainm Z :=
  do! x := plain_get_in i in
  do! _ := smodify (set_plain_active_input (Some i)) in
  let card := sd_platform_get_card_id p.(dev_manager) AUDIO_NAME_CAPTURE in
  if card <? 0 then sret (- ENODEV)
  else
    do! pcm := on_plain_world (pcm_open card PORT_CODEC PCM_IN x.(pi_config)) in
    do! _ := plain_put_in i (pi_with pcm x) in
    do! h := plain_live pcm in
    do! s := sget in
    if pcm_is_ready h s.(plain_world) then
      do! ret := (if p.(misc).(sw_in_src) then plain_resampler i else sret 0) in
      if ret =? 0 then do! _ := smodify (set_plain_active_input (Some i)) in sret 0
      else sret ret
    else
      do! _ := plain_close (Some h) in
      do! _ := smodify (set_plain_active_input None) in
      sret (- ENOMEM).

(** The status after the stream was read into [buf]: with a resampler nothing
    is read, and the status is the one of the start; without a start it was
    never set. *)
Definition plain_read (x : plain_in R) (started : bool) (buf : list Z) (bytes : Z) : plainm (Z * list Z) :=
  match x.(pi_resampler) with
  | Some _ => if started then sret (0, buf) else slift Undef
  | None =>
      do! h := plain_live x.(pi_pcm) in
      do! (ret, bs) := on_plain_world (pcm_read h bytes) in
      do! buf := slift (mem_write buf 0 bs) in
      sret (ret, buf)
  end.

Definition wake_in (i : nat) : plainm Z :=
  do! x := plain_get_in i in
  if x.(pi_standby) then
    do! ret := normal_start_input_stream i in
    if ret =? 0 then
      do! x := plain_get_in i in
      do! _ := plain_put_in i (pi_set_standby false x) in sret 0
    else sret ret
  else sret 0.

(** A read that failed gives silence after the time of its data. *)
Definition in_failed (i : nat) (buf : list Z) (bytes : Z) : plainm (list Z) :=
  do! _ := normal_in_standby i in
  do! buf := slift (mem_write buf 0 (replicate (Z.to_nat bytes) 0)) in
  do! y := plain_get_in i in
  do! _ := slift (sleep_time bytes (audio_stream_in_frame_size y.(pi_config)) (normal_in_get_sample_rate y)) in
  sret buf.

Definition normal_in_read (i : nat) (buf : list Z) (bytes : Z) : plainm (Z * list Z) :=
  do! x := plain_get_in i in
  do! ret := wake_in i in
  do! (ret, buf) :=
    (if ret =? 0 then
       do! y := plain_get_in i in
       if audio_stream_in_frame_size y.(pi_config) =? 0 then slift Undef
       else plain_read y x.(pi_standby) buf bytes
     else sret (ret, buf)) in
  do! buf := (if ret <? 0 then in_failed i buf bytes else sret buf) in
  sret (bytes, buf).

(** The rate 0 is not replaced here. *)
Definition new_plain_in (config : audio_config) : plain_in R :=
  let rt := capture_rate fix_rate config.(sample_rate) in
  let ch := if config.(channel_mask) =? AUDIO_CHANNEL_NONE then CHANNEL_STEREO
            else audio_channel_count_from_in_mask config.(channel_mask) in
  {| pi_config := plain_config ch rt (plain_format config.(ac_format)) IN_PERIOD_MS CAPTURE_PERIOD_COUNT;
     pi_pcm := None; pi_resampler := None; pi_standby := true;
     pi_requested_rate := config.(sample_rate); pi_frames_in := 0 |}.

Definition adev_normal_open_input_stream (mem : bool) (config : audio_config) : plainm (Z * option nat) :=
  if negb mem then sret (- ENOMEM, None)
  else
    do! s := sget in
    do! _ := smodify (set_plain_ins (s.(plain_ins) ++ [new_plain_in config])) in
    sret (0, Some (length s.(plain_ins))).

Definition adev_normal_close_input_stream (i : nat) : plainm unit := sret tt.
End Plain.

(** The status of the device, with the state of a device that was made and what
    the start of the platform left: [init] is the run of [sd_platform_init]
    ([PlatformInfo]), of which the status is not looked at. *)
Definition adev_normal_open {R W T : Type} (init : outcome (Z * T)) (name : string) (mem : bool) (w : W)
  : outcome (Z * option (plain_hal R W * T)) :=
  if negb (String.eqb name AUDIO_HARDWARE_INTERFACE) then Done (- EINVAL, None)
  else if negb mem then Done (- ENOMEM, None)
  else
    let! (_, t) := init in
    Done (0, Some ({| plain_outs := []; plain_ins := []; plain_active_output := None;
                      plain_active_input := None; plain_world := w |}, t)).

(** The structure is freed, and nothing else. *)
Definition adev_normal_close {R W : Type} (s : plain_hal R W) : Z * option (plain_hal R W) := (0, None).

(** * Theorems *)

(** ** Devices and streams *)

Lemma count_cons (h z : Z) (l : list Z) :
  count_occ Z.eq_dec (h :: l) z = ((if Z.eq_dec h z then 1 else 0) + count_occ Z.eq_dec l z)%nat.
Proof. cbn. by destruct (Z.eq_dec h z). Qed.

(** Permutations of lists of numbers, by counting. *)
Ltac perm_count :=
  apply (proj2 (Permutation_count_occ Z.eq_dec _ _));
  let z := fresh "z" in intros z;
  repeat match goal with
  | P : _ ≡ₚ _ |- _ => apply (proj1 (Permutation_count_occ Z.eq_dec _ _)) with (x := z) in P
  end;
  repeat first [rewrite count_occ_app in * | rewrite count_cons in * | rewrite count_occ_nil in *]; lia.

Ltac wp_step := unfold wp, plain_put_out, plain_put_in; run_step.

Section Counted.
Context {W : Type} `{HW : PcmSystemLaws W} `{HA : AudioSystem} {R : Type}.
Context (p : platform) (create_resampler : Z -> Z -> Z -> Z * option R) (rs_reset : R -> R) (fix_rate : bool).
(** tinyalsa gives a pointer also when a device can not be opened, and no
    resampler is used. *)
Context (open_pointer : forall card dev flags cfg (w : W), (pcm_open card dev flags cfg w).1 <> None)
  (no_src : p.(misc).(sw_in_src) = false).

Abbreviation state := (plain_hal R W).

(** The device that a stream holds. *)
Definition dev_out (o : option (plain_out R)) : option Z :=
  match o with Some o => if o.(po_standby) then None else o.(po_pcm) | None => None end.
Definition dev_in (x : plain_in R) : option Z := if x.(pi_standby) then None else x.(pi_pcm).

Definition ok_out (o : option (plain_out R)) : Prop :=
  match o with
  | Some o => o.(po_resampler) = None /\ is_none o.(po_pcm) = o.(po_standby)
              /\ audio_stream_out_frame_size o.(po_config) <> 0 /\ o.(po_config).(rate) <> 0
  | None => True
  end.
Definition ok_in (x : plain_in R) : Prop :=
  x.(pi_resampler) = None /\ (x.(pi_standby) = false -> is_none x.(pi_pcm) = false)
  /\ audio_stream_in_frame_size x.(pi_config) <> 0 /\ x.(pi_config).(rate) <> 0.

(** The open devices are [x] and those of the running streams. *)
Record books (x : list Z) (s : state) : Prop := {
  bk_opened : opened s.(plain_world) ≡ₚ x ++ omap dev_out s.(plain_outs) ++ omap dev_in s.(plain_ins);
  bk_outs : Forall ok_out s.(plain_outs);
  bk_ins : Forall ok_in s.(plain_ins)
}.

Lemma books_out (x x' : list Z) (s s' : state) (i : nat) (o o' : option (plain_out R)) :
  books x s -> s.(plain_outs) !! i = Some o -> s'.(plain_outs) = <[i := o']> s.(plain_outs) ->
  s'.(plain_ins) = s.(plain_ins) -> ok_out o' ->
  opened s'.(plain_world) ++ option_list (dev_out o) ++ x ≡ₚ opened s.(plain_world) ++ option_list (dev_out o') ++ x' ->
  books x' s'.
Proof.
  intros [B1 B2 B3] L Eo Ei K P. split; rewrite ?Eo, ?Ei; [|by apply Forall_insert|done].
  pose proof (omap_insert_perm dev_out _ _ _ o' L) as Q. clear - B1 P Q. perm_count.
Qed.

Lemma books_in (x : list Z) (s s' : state) (i : nat) (y y' : plain_in R) :
  books x s -> s.(plain_ins) !! i = Some y -> s'.(plain_ins) = <[i := y']> s.(plain_ins) ->
  s'.(plain_outs) = s.(plain_outs) -> ok_in y' ->
  opened s'.(plain_world) ++ option_list (dev_in y) ≡ₚ opened s.(plain_world) ++ option_list (dev_in y') ->
  books x s'.
Proof.
  intros [B1 B2 B3] L Ei Eo K P. split; rewrite ?Eo, ?Ei; [|done|by apply Forall_insert].
  pose proof (omap_insert_perm dev_in _ _ _ y' L) as Q. clear - B1 P Q. perm_count.
Qed.

(** A device that a stream holds is open. *)
Lemma books_live_out (x : list Z) (s : state) (i : nat) (o : option (plain_out R)) (h : Z) :
  books x s -> s.(plain_outs) !! i = Some o -> dev_out o = Some h -> h ∈ opened s.(plain_world).
Proof.
  intros [-> _ _] L D. rewrite !elem_of_app, list_elem_of_omap. right. left. exists o. split; [|done].
  by eapply list_elem_of_lookup_2.
Qed.
Lemma books_live_in (x : list Z) (s : state) (i : nat) (y : plain_in R) (h : Z) :
  books x s -> s.(plain_ins) !! i = Some y -> dev_in y = Some h -> h ∈ opened s.(plain_world).
Proof.
  intros [-> _ _] L D. rewrite !elem_of_app, !list_elem_of_omap. right. right. exists y. split; [|done].
  by eapply list_elem_of_lookup_2.
Qed.

(** *** Rules for the steps *)

Lemma get_out_wp (i : nat) (o : plain_out R) (s : state) (Q : plain_out R -> state -> Prop) :
  s.(plain_outs) !! i = Some (Some o) -> Q o s -> wp (plain_get_out i) Q s.
Proof. intros L HQ. unfold plain_get_out. do 2 wp_step. by rewrite L. Qed.

Lemma get_in_wp (i : nat) (y : plain_in R) (s : state) (Q : plain_in R -> state -> Prop) :
  s.(plain_ins) !! i = Some y -> Q y s -> wp (plain_get_in i) Q s.
Proof. intros L HQ. unfold plain_get_in. do 2 wp_step. by rewrite L. Qed.

Lemma live_wp (h : Z) (s : state) (Q : Z -> state -> Prop) :
  h ∈ opened s.(plain_world) -> Q h s -> wp (plain_live (Some h)) Q s.
Proof. intros I HQ. unfold plain_live. do 2 wp_step. by rewrite decide_True. Qed.

Lemma close_wp (h : Z) (l : list Z) (s : state) (Q : Z -> state -> Prop) :
  opened s.(plain_world) ≡ₚ h :: l ->
  (forall r w, opened w ≡ₚ l -> Q r (set_plain_world w s)) -> wp (plain_close (Some h)) Q s.
Proof.
  intros O HQ. unfold plain_close. wp_step. apply live_wp; [rewrite O; left|].
  pose proof (close_opened _ _ _ O) as C. unfold run_spec, on_plain_world. destruct (pcm_close h _) as [r w].
  by apply HQ.
Qed.

Lemma open_wp (card dev flags : Z) (cfg : pcm_config) (s : state) (Q : option Z -> state -> Prop) :
  (forall h w, opened w ≡ₚ h :: opened s.(plain_world) -> Q (Some h) (set_plain_world w s)) ->
  wp (on_plain_world (pcm_open card dev flags cfg)) Q s.
Proof.
  intros HQ. unfold wp, run_spec, on_plain_world. pose proof (open_pointer card dev flags cfg s.(plain_world)) as N.
  destruct (pcm_open _ _ _ _ _) as [[h|] w] eqn:E; [|done]. apply HQ. by eapply open_some.
Qed.

Lemma write_wp (h : Z) (bs : list Z) (s : state) (Q : Z -> state -> Prop) :
  (forall r w, opened w ≡ₚ opened s.(plain_world) -> Q r (set_plain_world w s)) ->
  wp (on_plain_world (pcm_write h bs)) Q s.
Proof.
  intros HQ. unfold wp, run_spec, on_plain_world. pose proof (write_opened h bs s.(plain_world)) as O.
  destruct (pcm_write _ _ _) as [r w]. by apply HQ.
Qed.

Lemma read_wp (h n : Z) (s : state) (Q : Z * list Z -> state -> Prop) :
  0 <= n ->
  (forall r bs w, zlen bs <= n -> opened w ≡ₚ opened s.(plain_world) -> Q (r, bs) (set_plain_world w s)) ->
  wp (on_plain_world (pcm_read h n)) Q s.
Proof.
  intros N HQ. unfold wp, run_spec, on_plain_world. pose proof (read_opened h n s.(plain_world)) as O.
  pose proof (read_fits h n s.(plain_world) N) as F. destruct (pcm_read _ _ _) as [[r bs] w]. by apply HQ.
Qed.

Lemma sleep_done (bytes fs rt : Z) : fs <> 0 -> rt <> 0 -> exists t, sleep_time bytes fs rt = Done t.
Proof.
  intros F T. unfold sleep_time. rewrite (proj2 (Z.eqb_neq _ _) F), (proj2 (Z.eqb_neq _ _) T). eauto.
Qed.

(** *** Playback *)

(** The state after an operation on a stream: nothing else has changed. *)
Definition only_out (i : nat) (o : option (plain_out R)) (s s' : state) : Prop :=
  s'.(plain_outs) = <[i := o]> s.(plain_outs) /\ s'.(plain_ins) = s.(plain_ins).
Definition only_in (i : nat) (y : plain_in R) (s s' : state) : Prop :=
  s'.(plain_ins) = <[i := y]> s.(plain_ins) /\ s'.(plain_outs) = s.(plain_outs).

Lemma out_standby_wp (x : list Z) (i : nat) (o : plain_out R) (s : state) :
  books x s -> s.(plain_outs) !! i = Some (Some o) ->
  wp (normal_out_standby i) (fun r s' => r = 0 /\ books x s' /\ only_out i (Some (po_idle o)) s s') s.
Proof.
  intros B L. pose proof (Forall_lookup_1 _ _ _ _ (bk_outs _ _ B) L) as (K1 & K2 & K3 & K4).
  unfold normal_out_standby, normal_do_output_standby. do 2 wp_step. apply (get_out_wp i o); [done|].
  destruct o.(po_standby) eqn:St.
  { do 2 wp_step. assert (po_idle o = o) as ->.
    { destruct o as [c [h|] r sb]; cbn in *; [done|]. by subst. }
    split_and!; [done|done|]. split; [|done]. by rewrite list_insert_id. }
  destruct o.(po_pcm) as [h|] eqn:P; [|done].
  assert (dev_out (Some o) = Some h) as D by (cbn; by rewrite St).
  pose proof (books_live_out _ _ _ _ _ B L D) as I. apply elem_of_Permutation in I as [l E].
  do 2 wp_step. apply (close_wp h l); [done|]. intros r w Ow. repeat wp_step.
  split_and!; [done| |by split].
  eapply (books_out x x _ _ i (Some o) (Some (po_idle o)) B L); [done|done|cbn; by split_and!|].
  rewrite D. cbn. rewrite E, Ow. perm_count.
Qed.

Lemma start_output_wp (x : list Z) (i : nat) (o : plain_out R) (s : state) :
  books x s -> s.(plain_outs) !! i = Some (Some o) -> o.(po_standby) = true ->
  wp (normal_start_output_stream p i)
    (fun r s' => only_out i (Some o) s s' /\ r <> 0 /\ books x s' \/
                 exists h, r = 0 /\ only_out i (Some (po_with (Some h) true o)) s s'
                           /\ opened s'.(plain_world) ≡ₚ h :: opened s.(plain_world)) s.
Proof.
  intros B L St. pose proof (Forall_lookup_1 _ _ _ _ (bk_outs _ _ B) L) as (K1 & K2 & K3 & K4).
  unfold normal_start_output_stream. wp_step. apply (get_out_wp i o); [done|].
  destruct (_ <? 0).
  { wp_step. left. split_and!; [split; [by rewrite list_insert_id|done]|done|done]. }
  wp_step. wp_step. wp_step. apply open_wp. intros h w Ow. cbn in Ow. wp_step.
  apply live_wp; [cbn; rewrite Ow; left|]. wp_step. wp_step. rewrite St. destruct (pcm_is_ready _ _).
  - do 3 wp_step. right. exists h. split_and!; [done|by split|done].
  - wp_step. apply (close_wp h (opened s.(plain_world))); [done|]. intros r w' Ow'. do 5 wp_step. left.
    assert (po_with None true o = o) as ->.
    { destruct o as [c [h0|] rs sb]; cbn in *; [by rewrite St in K2|]. by subst. }
    split_and!; [by split|done|].
    eapply (books_out x x _ _ i (Some o) (Some o) B L); [done|done|done|]. cbn. by rewrite Ow'.
Qed.

(** The stream after an operation. *)
Lemma only_out_lookup (i : nat) (o : option (plain_out R)) (s s' : state) (o0 : option (plain_out R)) :
  s.(plain_outs) !! i = Some o0 -> only_out i o s s' -> s'.(plain_outs) !! i = Some o.
Proof. intros L [-> _]. apply list_lookup_insert_eq. by eapply lookup_lt_Some. Qed.

Lemma only_out_trans (i : nat) (o o' : option (plain_out R)) (s s1 s2 : state) :
  only_out i o s s1 -> only_out i o' s1 s2 -> only_out i o' s s2.
Proof. intros [E1 F1] [E2 F2]. split; [by rewrite E2, E1, list_insert_insert_eq|congruence]. Qed.

Lemma only_out_refl (i : nat) (o : option (plain_out R)) (s : state) :
  s.(plain_outs) !! i = Some o -> only_out i o s s.
Proof. intros L. split; [by rewrite list_insert_id|done]. Qed.

Lemma out_failed_wp (x : list Z) (i : nat) (o : plain_out R) (n : Z) (s : state) :
  books x s -> s.(plain_outs) !! i = Some (Some o) ->
  wp (out_failed i n) (fun _ s' => books x s' /\ only_out i (Some (po_idle o)) s s') s.
Proof.
  intros B L. unfold out_failed. wp_step. eapply run_mono; [by apply (out_standby_wp x i o)|].
  intros _ s2 (_ & B2 & E2). pose proof (only_out_lookup _ _ _ _ _ L E2) as L2.
  pose proof (Forall_lookup_1 _ _ _ _ (bk_outs _ _ B2) L2) as (_ & _ & F & T).
  wp_step. apply (get_out_wp i _ _ _ L2). wp_step. destruct (sleep_done n _ _ F T) as (t & Et).
  unfold normal_out_get_sample_rate. by rewrite Et.
Qed.

Lemma play_out_wp (x : list Z) (i : nat) (o : plain_out R) (data : list Z) (s : state) :
  books x s -> s.(plain_outs) !! i = Some (Some o) -> o.(po_standby) = false ->
  wp (play_out i data) (fun _ s' => books x s' /\ only_out i (Some o) s s') s.
Proof.
  intros B L St. pose proof (Forall_lookup_1 _ _ _ _ (bk_outs _ _ B) L) as (_ & K & _).
  destruct o.(po_pcm) as [h|] eqn:P; [|by rewrite St in K].
  unfold play_out. wp_step. apply (get_out_wp i _ _ _ L). wp_step. rewrite P. apply live_wp.
  { eapply (books_live_out _ _ _ _ _ B L). cbn. by rewrite St. }
  apply write_wp. intros r w Ow. split; [|split; [by rewrite list_insert_id|done]].
  destruct B as [B1 B2 B3]. split; cbn; [|done|done]. by rewrite Ow.
Qed.

Lemma wake_out_wp (x : list Z) (i : nat) (o : plain_out R) (s : state) :
  books x s -> s.(plain_outs) !! i = Some (Some o) ->
  wp (wake_out p i) (fun r s' => books x s' /\ exists o', only_out i (Some o') s s' /\ (r = 0 -> o'.(po_standby) = false)) s.
Proof.
  intros B L. pose proof (Forall_lookup_1 _ _ _ _ (bk_outs _ _ B) L) as (K1 & K2 & K3 & K4).
  unfold wake_out. wp_step. apply (get_out_wp i _ _ _ L).
  destruct o.(po_standby) eqn:St; [|wp_step; split; [done|]; exists o; split; [by apply only_out_refl|done]].
  wp_step. eapply run_mono; [by apply (start_output_wp x i o)|].
  intros r s1 [(E & Nz & B1) | (h & -> & E & O)].
  - rewrite (proj2 (Z.eqb_neq _ _) Nz). wp_step. split; [done|]. by exists o.
  - cbn [Z.eqb]. wp_step. apply (get_out_wp i _ _ _ (only_out_lookup _ _ _ _ _ L E)). do 3 wp_step.
    set (s2 := set_plain_outs _ _).
    assert (only_out i (Some (po_with (Some h) false o)) s s2) as E2 by (eapply only_out_trans; [exact E|by split]).
    split; [|by exists (po_with (Some h) false o)]. destruct E2 as [E2 E2'].
    eapply (books_out x x s _ i (Some o) (Some (po_with (Some h) false o)) B L E2 E2'); [by split_and!|].
    cbn. rewrite St, O. cbn. perm_count.
Qed.

(** A write claims all its bytes. *)
Lemma out_write_wp (x : list Z) (i : nat) (o : plain_out R) (data : list Z) (s : state) :
  books x s -> s.(plain_outs) !! i = Some (Some o) ->
  wp (normal_out_write p i data)
    (fun r s' => r = zlen data /\ books x s' /\ exists o', only_out i (Some o') s s') s.
Proof.
  intros B L. unfold normal_out_write. wp_step. eapply run_mono; [by apply (wake_out_wp x i o)|].
  intros r s1 (B1 & o1 & E1 & St). pose proof (only_out_lookup _ _ _ _ _ L E1) as L1. wp_step.
  apply (run_mono _ _ (fun _ s' => books x s' /\ only_out i (Some o1) s s')).
  { destruct (r =? 0) eqn:Z; zbool; [|by wp_step].
    eapply run_mono; [apply (play_out_wp x i o1); auto|]. intros _ s2 [B2 E2].
    split; [done|]. by eapply only_out_trans. }
  intros r2 s2 [B2 E2]. pose proof (only_out_lookup _ _ _ _ _ L E2) as L2. wp_step.
  destruct (r2 =? 0); [do 2 wp_step; split_and!; [done|done|]; by exists o1|].
  eapply run_mono; [by apply (out_failed_wp x i o1)|]. intros _ s3 [B3 E3]. wp_step.
  split_and!; [done|done|]. exists (po_idle o1). by eapply only_out_trans.
Qed.

(** *** Recording *)

Lemma only_in_lookup (i : nat) (y y0 : plain_in R) (s s' : state) :
  s.(plain_ins) !! i = Some y0 -> only_in i y s s' -> s'.(plain_ins) !! i = Some y.
Proof. intros L [-> _]. apply list_lookup_insert_eq. by eapply lookup_lt_Some. Qed.

Lemma only_in_trans (i : nat) (y y' : plain_in R) (s s1 s2 : state) :
  only_in i y s s1 -> only_in i y' s1 s2 -> only_in i y' s s2.
Proof. intros [E1 F1] [E2 F2]. split; [by rewrite E2, E1, list_insert_insert_eq|congruence]. Qed.

Lemma only_in_same (i : nat) (y : plain_in R) (s s' : state) :
  s.(plain_ins) !! i = Some y -> s'.(plain_ins) = s.(plain_ins) -> s'.(plain_outs) = s.(plain_outs) -> only_in i y s s'.
Proof. intros L E F. split; [by rewrite E, list_insert_id|done]. Qed.

Lemma in_standby_wp (x : list Z) (i : nat) (y : plain_in R) (s : state) :
  books x s -> s.(plain_ins) !! i = Some y ->
  wp (normal_in_standby i) (fun r s' => r = 0 /\ books x s' /\ exists y', only_in i y' s s') s.
Proof.
  intros B L. pose proof (Forall_lookup_1 _ _ _ _ (bk_ins _ _ B) L) as (K1 & K2 & K3 & K4).
  unfold normal_in_standby, normal_do_in_standby. do 2 wp_step. apply (get_in_wp i y); [done|].
  destruct y.(pi_standby) eqn:St.
  { do 2 wp_step. split_and!; [done|done|]. exists y. by apply only_in_same. }
  specialize (K2 eq_refl). destruct y.(pi_pcm) as [h|] eqn:P; [|done].
  assert (dev_in y = Some h) as D by (unfold dev_in; by rewrite St).
  pose proof (books_live_in _ _ _ _ _ B L D) as I. apply elem_of_Permutation in I as [l E].
  do 2 wp_step. apply (close_wp h l); [done|]. intros r w Ow. repeat wp_step.
  split_and!; [done| |by exists (pi_set_standby true (pi_resample None y))].
  eapply (books_in x _ _ i y (pi_set_standby true (pi_resample None y)) B L); [done|done|by split_and!|].
  rewrite D. cbn. rewrite E, Ow. perm_count.
Qed.

Lemma start_input_wp (x : list Z) (i : nat) (y : plain_in R) (s : state) :
  books x s -> s.(plain_ins) !! i = Some y -> y.(pi_standby) = true ->
  wp (normal_start_input_stream p create_resampler rs_reset i)
    (fun r s' => r < 0 /\ books x s' /\ (exists pcm, only_in i (pi_with pcm y) s s') \/
                 exists h, r = 0 /\ only_in i (pi_with (Some h) y) s s'
                           /\ opened s'.(plain_world) ≡ₚ h :: opened s.(plain_world)) s.
Proof.
  intros B L St. pose proof (Forall_lookup_1 _ _ _ _ (bk_ins _ _ B) L) as (K1 & K2 & K3 & K4).
  unfold normal_start_input_stream. wp_step. apply (get_in_wp i y); [done|]. do 2 wp_step.
  destruct (_ <? 0).
  { wp_step. left. split_and!; [done|by destruct B|]. exists y.(pi_pcm).
    apply only_in_same; [by destruct y|done|done]. }
  wp_step. apply open_wp. intros h w Ow. cbn in Ow. do 3 wp_step.
  apply live_wp; [cbn; rewrite Ow; left|]. do 2 wp_step. destruct (pcm_is_ready _ _).
  - rewrite no_src. do 2 wp_step. cbn [Z.eqb]. do 3 wp_step. right. exists h. by split_and!.
  - wp_step. apply (close_wp h (opened s.(plain_world))); [done|]. intros r w' Ow'. do 3 wp_step. left.
    split_and!; [done| |by exists (Some h)].
    eapply (books_in x _ _ i y (pi_with (Some h) y) B L); [done|done| |].
    + split_and!; [done| |done|done]. cbn. by rewrite St.
    + unfold dev_in. cbn. rewrite St, Ow'. done.
Qed.

Lemma wake_in_wp (x : list Z) (i : nat) (y : plain_in R) (s : state) :
  books x s -> s.(plain_ins) !! i = Some y ->
  wp (wake_in p create_resampler rs_reset i)
    (fun r s' => r <= 0 /\ books x s' /\ exists y', only_in i y' s s' /\ (r = 0 -> y'.(pi_standby) = false)) s.
Proof.
  intros B L. pose proof (Forall_lookup_1 _ _ _ _ (bk_ins _ _ B) L) as (K1 & K2 & K3 & K4).
  unfold wake_in. wp_step. apply (get_in_wp i _ _ _ L).
  destruct y.(pi_standby) eqn:St.
  2: { wp_step. split_and!; [done|done|]. exists y. split; [by apply only_in_same|done]. }
  wp_step. eapply run_mono; [by apply (start_input_wp x i y)|].
  intros r s1 [(Nz & B1 & pcm & E) | (h & -> & E & O)].
  - rewrite (proj2 (Z.eqb_neq r 0)) by lia. wp_step. split_and!; [lia|done|].
    exists (pi_with pcm y). split; [done|lia].
  - cbn [Z.eqb]. wp_step. apply (get_in_wp i _ _ _ (only_in_lookup _ _ _ _ _ L E)). do 3 wp_step.
    set (y' := pi_set_standby false (pi_with (Some h) y)). set (s2 := set_plain_ins _ _).
    assert (only_in i y' s s2) as E2 by (eapply only_in_trans; [exact E|by split]).
    split_and!; [done| |by exists y']. destruct E2 as [E2 E2'].
    eapply (books_in x s _ i y y' B L E2 E2'); [by split_and!|].
    unfold dev_in. cbn. rewrite St, O. cbn. perm_count.
Qed.

Lemma plain_read_wp (x : list Z) (i : nat) (y : plain_in R) (b : bool) (buf : list Z) (s : state) :
  books x s -> s.(plain_ins) !! i = Some y -> y.(pi_standby) = false ->
  wp (plain_read y b buf (zlen buf)) (fun r s' => zlen r.2 = zlen buf /\ books x s' /\ only_in i y s s') s.
Proof.
  intros B L St. pose proof (Forall_lookup_1 _ _ _ _ (bk_ins _ _ B) L) as (K1 & K2 & _). specialize (K2 St).
  destruct y.(pi_pcm) as [h|] eqn:P; [|done].
  unfold plain_read. rewrite K1, P. wp_step. apply live_wp.
  { eapply (books_live_in _ _ _ _ _ B L). unfold dev_in. by rewrite St. }
  wp_step. apply read_wp; [apply zlen_nonneg|]. intros r bs w F Ow. do 2 wp_step.
  rewrite mem_write_done by lia. wp_step. cbn [snd]. rewrite zlen_splice by lia. split_and!; [done| |by apply only_in_same].
  destruct B as [B1 B2 B3]. split; cbn; [|done|done]. by rewrite Ow.
Qed.

Lemma in_failed_wp (x : list Z) (i : nat) (y : plain_in R) (buf : list Z) (n : Z) (s : state) :
  books x s -> s.(plain_ins) !! i = Some y -> zlen buf = n ->
  wp (in_failed p i buf n) (fun b s' => b = replicate (Z.to_nat n) 0 /\ books x s' /\ exists y', only_in i y' s s') s.
Proof.
  intros B L Ln. unfold in_failed. wp_step. eapply run_mono; [by apply (in_standby_wp x i y)|].
  intros _ s2 (_ & B2 & y2 & E2). pose proof (only_in_lookup _ _ _ _ _ L E2) as L2.
  pose proof (Forall_lookup_1 _ _ _ _ (bk_ins _ _ B2) L2) as (_ & _ & F & T).
  do 2 wp_step. rewrite mem_write_done by (unfold zlen in *; rewrite ?length_replicate; lia).
  wp_step. apply (get_in_wp i _ _ _ L2). do 2 wp_step. destruct (sleep_done n _ _ F T) as (t & Et).
  unfold normal_in_get_sample_rate. rewrite no_src, Et. wp_step. split_and!; [|done|by exists y2].
  apply splice_all. rewrite length_replicate. unfold zlen in Ln. lia.
Qed.

(** A read claims all its bytes. *)
Lemma in_read_wp (x : list Z) (i : nat) (y : plain_in R) (buf : list Z) (s : state) :
  books x s -> s.(plain_ins) !! i = Some y ->
  wp (normal_in_read p create_resampler rs_reset i buf (zlen buf))
    (fun r s' => r.1 = zlen buf /\ zlen r.2 = zlen buf /\ books x s' /\ exists y', only_in i y' s s') s.
Proof.
  intros B L. unfold normal_in_read. wp_step. apply (get_in_wp i _ _ _ L). wp_step.
  eapply run_mono; [by apply (wake_in_wp x i y)|].
  intros r s1 (Ne & B1 & y1 & E1 & St). pose proof (only_in_lookup _ _ _ _ _ L E1) as L1. wp_step.
  apply (run_mono _ _ (fun a s' => zlen a.2 = zlen buf /\ books x s' /\ only_in i y1 s s')).
  { destruct (r =? 0) eqn:Z0; zbool; [|by wp_step].
    wp_step. apply (get_in_wp i _ _ _ L1). pose proof (Forall_lookup_1 _ _ _ _ (bk_ins _ _ B1) L1) as (_ & _ & F & _).
    rewrite (proj2 (Z.eqb_neq _ _) F).
    eapply run_mono; [apply (plain_read_wp x i y1); auto|]. intros a s2 (Ln & B2 & E2).
    split_and!; [done|done|]. by eapply only_in_trans. }
  intros [r2 b2] s2 (Ln & B2 & E2). cbn in Ln. pose proof (only_in_lookup _ _ _ _ _ L E2) as L2. wp_step.
  destruct (r2 <? 0); [|do 2 wp_step; split_and!; [done|done|done|]; by exists y1].
  eapply run_mono; [by apply (in_failed_wp x i y1 b2 (zlen buf))|]. intros b s3 (-> & B3 & y3 & E3). wp_step.
  split_and!; [done| |done|]; [cbn; unfold zlen; rewrite length_replicate; lia|].
  exists y3. by eapply only_in_trans.
Qed.

(** *** Sessions *)

Inductive plain_op :=
| POpenOut (c : audio_config) | PWrite (i : nat) (data : list Z) | POutStandby (i : nat) | PCloseOut (i : nat)
| POpenIn (c : audio_config) | PRead (i : nat) (buf : list Z) | PInStandby (i : nat) | PCloseIn (i : nat).

Definition run_plain (op : plain_op) : plainm Z :=
  match op with
  | POpenOut c => do! (r, _) := adev_normal_open_output_stream true c in sret r
  | PWrite i data => normal_out_write p i data
  | POutStandby i => normal_out_standby i
  | PCloseOut i => do! _ := adev_normal_close_output_stream i in sret 0
  | POpenIn c => do! (r, _) := adev_normal_open_input_stream fix_rate true c in sret r
  | PRead i buf => do! (r, _) := normal_in_read p create_resampler rs_reset i buf (zlen buf) in sret r
  | PInStandby i => normal_in_standby i
  | PCloseIn i => do! _ := adev_normal_close_input_stream i in sret 0
  end.

(** The device that is lost: a running playback stream is closed. *)
Definition lost_by (op : plain_op) (s : state) : list Z :=
  match op with
  | PCloseOut i => match s.(plain_outs) !! i with Some o => option_list (dev_out o) | None => [] end
  | _ => []
  end.

(** The statuses of a session, and the devices that were lost. *)
Fixpoint plain_runs (ops : list plain_op) : plainm (list Z * list Z) :=
  match ops with
  | [] => sret ([], [])
  | op :: ops =>
      do! s := sget in
      do! r := run_plain op in
      do! (rs, lost) := plain_runs ops in
      sret (r :: rs, lost_by op s ++ lost)
  end.

Definition plain_status (op : plain_op) : Z :=
  match op with PWrite _ data => zlen data | PRead _ buf => zlen buf | _ => 0 end.

(** A session uses streams that exist, with frames of at least a byte and, for
    recordings, a rate: [outs] tells which playback streams were not closed. *)
Fixpoint plain_uses (outs : list bool) (ins : nat) (ops : list plain_op) : bool :=
  match ops with
  | [] => true
  | POpenOut c :: ops =>
      negb (audio_stream_out_frame_size (new_plain_out (R := R) c).(po_config) =? 0) && plain_uses (outs ++ [true]) ins ops
  | PWrite i _ :: ops | POutStandby i :: ops => default false (outs !! i) && plain_uses outs ins ops
  | PCloseOut i :: ops => default false (outs !! i) && plain_uses (<[i := false]> outs) ins ops
  | POpenIn c :: ops =>
      let cfg := (new_plain_in (R := R) fix_rate c).(pi_config) in
      negb (audio_stream_in_frame_size cfg =? 0) && negb (cfg.(rate) =? 0) && plain_uses outs (S ins) ops
  | PRead i _ :: ops | PInStandby i :: ops => Nat.ltb i ins && plain_uses outs ins ops
  | PCloseIn _ :: ops => plain_uses outs ins ops
  end.

Definition exists_out (o : option (plain_out R)) : bool := negb (is_none o).

Lemma plain_uses_out (s : state) (i : nat) :
  default false ((exists_out <$> s.(plain_outs)) !! i) = true -> exists o, s.(plain_outs) !! i = Some (Some o).
Proof. rewrite list_lookup_fmap. destruct (s.(plain_outs) !! i) as [[o|]|]; [eauto|done..]. Qed.

Lemma only_out_uses (s s' : state) (i : nat) (o o' : plain_out R) :
  s.(plain_outs) !! i = Some (Some o) -> only_out i (Some o') s s' ->
  exists_out <$> s'.(plain_outs) = exists_out <$> s.(plain_outs) /\ length s'.(plain_ins) = length s.(plain_ins).
Proof.
  intros L [-> ->]. split; [|done]. rewrite list_fmap_insert. apply list_insert_id.
  by rewrite list_lookup_fmap, L.
Qed.

Lemma only_in_uses (s s' : state) (i : nat) (y : plain_in R) :
  only_in i y s s' ->
  exists_out <$> s'.(plain_outs) = exists_out <$> s.(plain_outs) /\ length s'.(plain_ins) = length s.(plain_ins).
Proof. intros [-> ->]. split; [done|by rewrite length_insert]. Qed.

(** Each operation keeps the books, up to the device it loses. *)
Lemma run_plain_wp (op : plain_op) (x : list Z) (ops : list plain_op) (s : state) :
  books x s -> plain_uses (exists_out <$> s.(plain_outs)) (length s.(plain_ins)) (op :: ops) = true ->
  wp (run_plain op)
    (fun r s' => r = plain_status op /\ books (x ++ lost_by op s) s'
       /\ plain_uses (exists_out <$> s'.(plain_outs)) (length s'.(plain_ins)) ops = true) s.
Proof.
  intros B U. destruct op; cbn [plain_uses lost_by run_plain plain_status] in *; rewrite ?andb_true_iff in U; rewrite ?app_nil_r.
  - destruct U as [U1 U2]. repeat wp_step. split_and!; [done| |].
    + destruct B as [B1 B2 B3]. split; cbn [plain_outs plain_ins plain_world set_plain_outs]; [|apply Forall_app; split; [done|]|done].
      * rewrite omap_app. cbn. by rewrite app_nil_r.
      * constructor; [|done]. split_and!; [done|done| |].
        -- intros E. by rewrite E in U1.
        -- cbn. destruct (c.(sample_rate) =? 0) eqn:Z0; [done|]. by apply Z.eqb_neq.
    + cbn [plain_outs set_plain_outs plain_ins]. rewrite fmap_app. exact U2.
  - destruct U as [U1 U2]. apply plain_uses_out in U1 as (o & L). eapply run_mono; [by apply (out_write_wp x i o)|].
    intros r s' (-> & B' & o' & E). split_and!; [done|done|]. by destruct (only_out_uses _ _ _ _ _ L E) as [-> ->].
  - destruct U as [U1 U2]. apply plain_uses_out in U1 as (o & L). eapply run_mono; [by apply (out_standby_wp x i o)|].
    intros r s' (-> & B' & E). split_and!; [done|done|]. by destruct (only_out_uses _ _ _ _ _ L E) as [-> ->].
  - destruct U as [U1 U2]. apply plain_uses_out in U1 as (o & L). rewrite L. unfold adev_normal_close_output_stream.
    do 2 wp_step. apply (get_out_wp i o); [done|]. do 2 wp_step. split_and!; [done| |].
    + eapply (books_out x _ _ _ i (Some o) None B L); [done|done|done|]. cbn [plain_world set_plain_outs].
      cbn [dev_out option_list app]. perm_count.
    + cbn [plain_outs set_plain_outs plain_ins]. by rewrite list_fmap_insert.
  - destruct U as [[U1 U1'] U2]. repeat wp_step. split_and!; [done| |].
    + destruct B as [B1 B2 B3]. split; cbn [plain_outs plain_ins plain_world set_plain_ins]; [|done|apply Forall_app; split; [done|]].
      * rewrite omap_app. cbn. by rewrite app_nil_r.
      * constructor; [|done]. split_and!; [done|done| |]; intros E; [by rewrite E in U1|by rewrite E in U1'].
    + cbn [plain_outs set_plain_ins plain_ins]. rewrite length_app. cbn [length]. by rewrite Nat.add_1_r.
  - destruct U as [U1 U2]. apply Nat.ltb_lt, lookup_lt_is_Some_2 in U1 as [y L]. wp_step.
    eapply run_mono; [by apply (in_read_wp x i y)|]. intros [r b] s' (E1 & _ & B' & y' & E). cbn in E1. subst r. wp_step.
    split_and!; [done|done|]. by destruct (only_in_uses _ _ _ _ E) as [-> ->].
  - destruct U as [U1 U2]. apply Nat.ltb_lt, lookup_lt_is_Some_2 in U1 as [y L].
    eapply run_mono; [by apply (in_standby_wp x i y)|]. intros r s' (-> & B' & y' & E).
    split_and!; [done|done|]. by destruct (only_in_uses _ _ _ _ E) as [-> ->].
  - repeat wp_step. by split_and!.
Qed.

(** C35. Sessions of the plain HAL without the resampler of the recordings
    ([sw_in_src] is off), in which [pcm_open] gives a handle, ready or not,
    streams are used between their opening and closing, frames are not empty
    and recordings have a rate: every write and read claims all its bytes,
    whatever the devices answer; the open devices are those of the running
    streams, those of others, and one for each playback stream that was
    closed while it was running, which is never closed.  (With the resampler
    on, the second read is undefined or a device is lost: see
    [plain_resampler_unusable].) *)
Theorem plain_devices_counted {T : Type} (r : Z) (t : T) (ops : list plain_op) (w : W) :
  plain_uses [] 0 ops = true ->
  exists s0 lost s', adev_normal_open (Done (r, t)) AUDIO_HARDWARE_INTERFACE true w = Done (0, Some (s0, t))
    /\ plain_runs ops s0 = Done ((map plain_status ops, lost), s')
    /\ opened s'.(plain_world) ≡ₚ opened w ++ lost ++ omap dev_out s'.(plain_outs) ++ omap dev_in s'.(plain_ins).
Proof.
  intros U. eexists _. cut (forall x (s : state), books x s ->
    plain_uses (exists_out <$> s.(plain_outs)) (length s.(plain_ins)) ops = true ->
    wp (plain_runs ops) (fun r s' => r.1 = map plain_status ops /\ books (x ++ r.2) s') s).
  { intros G. edestruct (wp_elim _ _ _ (G (opened w) {| plain_outs := []; plain_ins := []; plain_active_output := None;
      plain_active_input := None; plain_world := w |} ltac:(split; [by rewrite app_nil_r|done|done]) U))
      as ([rs lost] & s' & E & Er & B). cbn in Er, B. subst rs.
    exists lost, s'. split_and!; [reflexivity|exact E|]. rewrite (bk_opened _ _ B). by rewrite <-app_assoc. }
  clear U w r t. induction ops as [|op ops IH]; intros x s B U; cbn [plain_runs].
  { wp_step. split; [done|]. by rewrite app_nil_r. }
  do 3 wp_step. eapply run_mono; [by apply (run_plain_wp op x ops)|]. intros r s1 (-> & B1 & U1). wp_step.
  eapply run_mono; [by apply (IH (x ++ lost_by op s) s1)|]. intros [rs lost] s2 [E B2]. cbn in E, B2. wp_step. cbn.
  split; [by f_equal|]. by rewrite app_assoc.
Qed.
End Counted.

(** ** Rates and sizes *)

(** The device records at a rate of the series of 48 kHz: the requested one if
    it belongs to the series, and otherwise one of the six up to 48 kHz. *)
Lemma capture_rate_series (r : Z) :
  0 <= r <= INT32_MAX ->
  capture_rate false r mod SAMPLING_RATE_8K = 0
  /\ (r mod SAMPLING_RATE_8K = 0 -> capture_rate false r = r)
  /\ (r mod SAMPLING_RATE_8K <> 0 -> SAMPLING_RATE_8K <= capture_rate false r <= SAMPLING_RATE_48K).
Proof.
  unfold capture_rate, SAMPLING_RATE_8K, SAMPLING_RATE_11K, SAMPLING_RATE_48K, INT32_MAX. intros B.
  destruct (r mod 8000 =? 0) eqn:E; zbool; [split_and!; [done|done|lia]|].
  pose proof (Z.div_pos r 11025 ltac:(lia) ltac:(lia)). assert (r / 11025 < 194784) by (apply Z.div_lt_upper_bound; lia).
  set (q := r / 11025) in *. clearbody q.
  rewrite (u32_small (8000 * _)) by (unfold is_u32, UINT32_MAX; lia). rewrite s32_small by (unfold INT32_MAX; lia).
  destruct (_ >? 48000) eqn:G; zbool; rewrite u32_small by (unfold is_u32, UINT32_MAX; lia);
    (split_and!; [|lia|lia]); [done|]. rewrite Z.mul_comm. by apply Z.mod_mul.
Qed.

(** ** Recording with a resampler *)

Section Resampled.
Context {W : Type} `{PcmSystem W} `{AudioSystem} {R : Type}.
Context (p : platform) (create_resampler : Z -> Z -> Z -> Z * option R) (rs_reset : R -> R).
Context (src : p.(misc).(sw_in_src) = true).

Abbreviation state := (plain_hal R W).

(** A start up to the resampler, with a device that opens. *)
Definition opened_in (i : nat) (x : plain_in R) (h : Z) (w : W) (s : state) : state :=
  set_plain_ins (<[i := pi_with (Some h) x]> s.(plain_ins)) (set_plain_world w (set_plain_active_input (Some i) s)).

Lemma start_ready_wp (i : nat) (x : plain_in R) (s : state) (h : Z) (w : W) (Q : Z -> state -> Prop) :
  let card := sd_platform_get_card_id p.(dev_manager) AUDIO_NAME_CAPTURE in
  s.(plain_ins) !! i = Some x -> 0 <= card ->
  pcm_open card PORT_CODEC PCM_IN x.(pi_config) s.(plain_world) = (Some h, w) ->
  pcm_is_ready h w = true -> h ∈ opened w ->
  wp (plain_resampler create_resampler rs_reset i)
    (fun r s' => Q r (if r =? 0 then set_plain_active_input (Some i) s' else s')) (opened_in i x h w s) ->
  wp (normal_start_input_stream p create_resampler rs_reset i) Q s.
Proof.
  cbv zeta. intros L Cd Eo Rd I HQ. unfold normal_start_input_stream. wp_step. apply (get_in_wp i _ _ _ L).
  do 2 wp_step. rewrite (proj2 (Z.ltb_ge _ _) Cd). wp_step.
  unfold run_spec at 1, on_plain_world. cbn [plain_world set_plain_active_input]. rewrite Eo. do 3 wp_step.
  apply live_wp; [done|]. do 2 wp_step. cbn [plain_world set_plain_ins set_plain_world set_plain_active_input].
  rewrite Rd, src. wp_step. eapply run_mono; [exact HQ|]. intros r s'. cbv beta.
  destruct (r =? 0) eqn:E; intros Hr; [|by wp_step]. zbool. subst r. by repeat wp_step.
Qed.

Lemma resampled_read_undef (i : nat) (y : plain_in R) (s : state) (buf : list Z) (n : Z) :
  s.(plain_ins) !! i = Some y -> y.(pi_standby) = false -> is_none y.(pi_resampler) = false ->
  audio_stream_in_frame_size y.(pi_config) <> 0 ->
  normal_in_read p create_resampler rs_reset i buf n s = Undef.
Proof.
  intros L St Rs Fs. unfold normal_in_read, wake_in, plain_get_in, sbind, sget, sret. cbn [obind]. rewrite L.
  cbn [obind]. rewrite L. cbn [obind]. rewrite St. cbn [obind Z.eqb]. rewrite L. cbn [obind].
  rewrite (proj2 (Z.eqb_neq _ _) Fs). unfold plain_read. by destruct y.(pi_resampler).
Qed.

(** A read of a stream in standby whose rate is not that of the device. *)
Section Read.
Context (i : nat) (x : plain_in R) (s : state) (buf : list Z) (h ret : Z) (w : W) (rs : option R).
Context (L : s.(plain_ins) !! i = Some x) (St : x.(pi_standby) = true)
  (Rt : x.(pi_requested_rate) <> x.(pi_config).(rate)) (R0 : x.(pi_requested_rate) <> 0)
  (Fs : audio_stream_in_frame_size x.(pi_config) <> 0).
Let card := sd_platform_get_card_id p.(dev_manager) AUDIO_NAME_CAPTURE.
Context (Cd : 0 <= card)
  (Eo : pcm_open card PORT_CODEC PCM_IN x.(pi_config) s.(plain_world) = (Some h, w))
  (Rd : pcm_is_ready h w = true) (I : h ∈ opened w)
  (Ec : create_resampler x.(pi_config).(rate) x.(pi_requested_rate) x.(pi_config).(channels) = (ret, rs)).

Abbreviation s0 := (opened_in i x h w s).

Lemma opened_in_lookup : s0.(plain_ins) !! i = Some (pi_with (Some h) x).
Proof. apply list_lookup_insert_eq. by eapply lookup_lt_Some. Qed.

Lemma put_lookup (y y' : plain_in R) (s1 : state) :
  s1.(plain_ins) !! i = Some y -> (set_plain_ins (<[i := y']> s1.(plain_ins)) s1).(plain_ins) !! i = Some y'.
Proof. intros E. apply list_lookup_insert_eq. by eapply lookup_lt_Some. Qed.

(** The wake up with a resampler, and without one. *)
Lemma wake_resampled (Q : Z -> state -> Prop) :
  (if ret =? 0 then
     match rs with
     | Some rs => forall s1, s1.(plain_world) = w ->
         s1.(plain_ins) !! i = Some (pi_set_standby false (pi_reset_frames (pi_resample (Some (rs_reset rs))
                                      (pi_resample (Some rs) (pi_with (Some h) x))))) -> Q 0 s1
     | None => False
     end
   else Q (- EINVAL) s0) ->
  wp (wake_in p create_resampler rs_reset i) Q s.
Proof using L St Rt Cd Eo Rd I Ec src.
  intros HQ. pose proof (proj2 (Z.eqb_neq _ _) Rt) as Rt'. pose proof opened_in_lookup as L0.
  unfold wake_in. wp_step. apply (get_in_wp i _ _ _ L). rewrite St. wp_step. eapply start_ready_wp; [done..|].
  unfold plain_resampler. wp_step. apply (get_in_wp i _ _ _ L0). cbn [pi_requested_rate pi_config pi_with].
  rewrite Rt', Ec. destruct (ret =? 0).
  - destruct rs as [r|]; [|done]. do 4 wp_step. change (negb (0 =? 0)) with false. wp_step.
    eapply get_in_wp; [eapply put_lookup, L0|]. cbn [pi_resampler pi_resample]. do 3 wp_step.
    change (0 =? 0) with true. wp_step. eapply get_in_wp; [cbn [set_plain_active_input plain_ins]; eapply put_lookup, put_lookup, L0|]. do 3 wp_step.
    apply HQ; [done|]. eapply put_lookup. cbn [plain_ins set_plain_active_input]. eapply put_lookup, put_lookup, L0.
  - do 2 wp_step. change (- EINVAL =? 0) with false. cbn [negb]. by do 2 wp_step.
Qed.

Lemma resampled_first_read :
  ret = 0 -> is_none rs = false ->
  exists s1, normal_in_read p create_resampler rs_reset i buf (zlen buf) s = Done ((zlen buf, buf), s1)
    /\ s1.(plain_world) = w
    /\ forall buf' n, normal_in_read p create_resampler rs_reset i buf' n s1 = Undef.
Proof using L St Rt Fs Cd Eo Rd I Ec src.
  intros E0 Rs. assert (exists r, rs = Some r) as [r Er] by (destruct rs; [eauto|done]).
  set (y := pi_set_standby false (pi_reset_frames (pi_resample (Some (rs_reset r)) (pi_resample (Some r) (pi_with (Some h) x))))).
  destruct (wp_elim (normal_in_read p create_resampler rs_reset i buf (zlen buf))
    (fun r s1 => r = (zlen buf, buf) /\ s1.(plain_world) = w /\ s1.(plain_ins) !! i = Some y) s)
    as (r' & s1 & E & -> & Ew & L1).
  2: { exists s1. split_and!; [done|done|]. intros. by eapply resampled_read_undef. }
  unfold normal_in_read. wp_step. apply (get_in_wp i _ _ _ L). wp_step. apply wake_resampled.
  rewrite E0, Er. cbn [Z.eqb]. intros s1 Ew L1. do 2 wp_step. apply (get_in_wp i _ _ _ L1).
  rewrite (proj2 (Z.eqb_neq (audio_stream_in_frame_size _) 0)) by exact Fs. rewrite St. unfold plain_read.
  cbn [pi_resampler pi_set_standby pi_reset_frames pi_resample]. do 2 wp_step.
  change (0 <? 0) with false. by repeat wp_step.
Qed.

Lemma refused_resampler_read :
  ret <> 0 ->
  exists s1, normal_in_read p create_resampler rs_reset i buf (zlen buf) s
             = Done ((zlen buf, replicate (length buf) 0), s1)
    /\ s1.(plain_world) = w /\ s1.(plain_ins) = <[i := pi_with (Some h) x]> s.(plain_ins).
Proof using L St Rt R0 Fs Cd Eo Rd I Ec src.
  intros Nz. pose proof opened_in_lookup as L0.
  destruct (wp_elim (normal_in_read p create_resampler rs_reset i buf (zlen buf))
    (fun r s1 => r = (zlen buf, replicate (length buf) 0) /\ s1 = s0) s) as (r & s1 & E & -> & ->); [|by exists s0].
  unfold normal_in_read. wp_step. apply (get_in_wp i _ _ _ L). wp_step. apply wake_resampled.
  rewrite (proj2 (Z.eqb_neq _ _) Nz). wp_step. change (- EINVAL =? 0) with false. do 2 wp_step.
  change (- EINVAL <? 0) with true. unfold in_failed, normal_in_standby, normal_do_in_standby. do 3 wp_step.
  apply (get_in_wp i _ _ _ L0). cbn [pi_standby pi_with]. rewrite St. do 4 wp_step.
  rewrite mem_write_done by (unfold zlen; rewrite ?length_replicate; lia). wp_step. apply (get_in_wp i _ _ _ L0).
  do 2 wp_step. destruct (sleep_done (zlen buf) _ _ Fs R0) as (t & Et). unfold normal_in_get_sample_rate.
  rewrite src. cbn [pi_requested_rate pi_config pi_with]. rewrite Et. do 2 wp_step. split; [|done]. f_equal.
  rewrite splice_all by (unfold zlen; rewrite length_replicate; lia). unfold zlen. by rewrite Nat2Z.id.
Qed.
End Read.

(** With conversion of rates switched on, a recording whose rate is not
    that of the device can not be used.  When the resampler is made, the first
    read leaves the buffer as it is and claims to have filled it, and the
    second one uses a status that was never set; when it is not made, every
    read gives silence and leaves one more device open, while the stream is
    still in standby. *)
Theorem plain_resampler_unusable (i : nat) (x : plain_in R) (s : state) (buf : list Z) (h ret : Z) (w : W) (rs : option R) :
  s.(plain_ins) !! i = Some x -> x.(pi_standby) = true -> x.(pi_requested_rate) <> x.(pi_config).(rate) ->
  x.(pi_requested_rate) <> 0 -> audio_stream_in_frame_size x.(pi_config) <> 0 ->
  let card := sd_platform_get_card_id p.(dev_manager) AUDIO_NAME_CAPTURE in
  0 <= card -> pcm_open card PORT_CODEC PCM_IN x.(pi_config) s.(plain_world) = (Some h, w) ->
  pcm_is_ready h w = true -> h ∈ opened w ->
  create_resampler x.(pi_config).(rate) x.(pi_requested_rate) x.(pi_config).(channels) = (ret, rs) ->
  let read := normal_in_read p create_resampler rs_reset i in
  (ret = 0 -> is_none rs = false ->
     exists s1, read buf (zlen buf) s = Done ((zlen buf, buf), s1) /\ s1.(plain_world) = w
       /\ forall buf' n, read buf' n s1 = Undef)
  /\ (ret <> 0 ->
     exists s1, read buf (zlen buf) s = Done ((zlen buf, replicate (length buf) 0), s1) /\ s1.(plain_world) = w
       /\ s1.(plain_ins) = <[i := pi_with (Some h) x]> s.(plain_ins)).
Proof.
  intros L St Rt R0 Fs card Cd Eo Rd I Ec read. split.
  - by eapply (resampled_first_read i x s buf h ret w rs).
  - by apply (refused_resampler_read i x s buf h ret w rs).
Qed.
End Resampled.

(** ** Examples *)

(** A sound card of which some devices are not ready: opening number [i]
    gives a device that is ready when the [i]-th answer is not [false]. *)
Record shaky_card := { sk_answers : list bool; sk_next : Z; sk_open : list Z; sk_bad : list Z }.

#[local] Instance shaky_pcm : PcmSystem shaky_card := {
  pcm_format_to_bits _ := 16;
  pcm_open _ _ _ _ c :=
    (Some c.(sk_next),
     {| sk_answers := drop 1 c.(sk_answers); sk_next := c.(sk_next) + 1; sk_open := c.(sk_next) :: c.(sk_open);
        sk_bad := if default true (head c.(sk_answers)) then c.(sk_bad) else c.(sk_next) :: c.(sk_bad) |});
  pcm_is_ready h c := negb (existsb (Z.eqb h) c.(sk_bad));
  pcm_prepare _ c := (0, c);
  pcm_write h bs c := (0, c);
  pcm_read h n c := (0, replicate (Z.to_nat n) 7, c);
  pcm_close h c :=
    (0, {| sk_answers := c.(sk_answers); sk_next := c.(sk_next); sk_open := sc_remove h c.(sk_open);
           sk_bad := c.(sk_bad) |});
  opened := sk_open
}.

#[local] Instance shaky_laws : PcmSystemLaws shaky_card.
Proof.
  split; try done.
  - intros card dev flags h cfg w w'. by intros [= <- <-].
  - intros h n w N. cbn. unfold zlen. rewrite length_replicate. lia.
  - intros h w l P. cbn in *. by apply sc_remove_perm.
Qed.

Definition shaky (answers : list bool) : shaky_card :=
  {| sk_answers := answers; sk_next := 1; sk_open := []; sk_bad := [] |}.

(** A board with a card for playback and one for recording. *)
Definition plain_platform (src : bool) : platform :=
  {| dev_manager := [plain_card true 0 AUDIO_NAME_PRIMARY; plain_card true 1 AUDIO_NAME_CAPTURE]; cards := [];
     info_card_num := 0;
     misc := {| audio_route := false; sw_in_src := src; sw_out_src := false; sw_ecnr := false;
                sw_gain := false; btcall := false; ahub_en := false |};
     output_maps := []; bt_type := BT_CONNECT_WITH_DSP |}.

Definition plain_request (rt : Z) : audio_config := {| sample_rate := rt; channel_mask := 12; ac_format := 1 |}.

(** The first write finds no device; the stream is closed while it plays. *)
Definition plain_session : list plain_op :=
  [POpenOut (plain_request 48000); PWrite 0 [1; 2; 3; 4]; PWrite 0 [1; 2; 3; 4]; PCloseOut 0; POpenIn (plain_request 44100);
   PRead 0 [0; 0; 0; 0]; POpenOut (plain_request 0); PWrite 1 []; POutStandby 1; PCloseIn 0].

Lemma plain_devices_counted_witness :
  exists s0 lost s', adev_normal_open (Done (0, tt)) AUDIO_HARDWARE_INTERFACE true (shaky [false]) = Done (0, Some (s0, tt))
    /\ plain_runs (plain_platform false) (fun _ _ _ => (0, Some tt)) id false plain_session s0
       = Done ((map plain_status plain_session, lost), s')
    /\ opened s'.(plain_world) ≡ₚ [] ++ lost ++ omap dev_out s'.(plain_outs) ++ omap dev_in s'.(plain_ins).
Proof.
  refine (plain_devices_counted (W := shaky_card) (plain_platform false) (fun _ _ _ => (0, Some tt)) id false _ _
            0 tt plain_session (shaky [false]) _); [discriminate|reflexivity|].
  vm_compute. reflexivity.
Defined.

(** The device 2 is lost, and device 3 is the one of the recording. *)
Example plain_session_loses :
  match adev_normal_open (Done (0, tt)) AUDIO_HARDWARE_INTERFACE true (shaky [false]) with
  | Done (_, Some (s0, _)) =>
      match plain_runs (plain_platform false) (fun _ _ _ => (0, Some tt)) id false plain_session s0 with
      | Done ((_, lost), s') => lost = [2] /\ opened s'.(plain_world) = [3; 2]
      | _ => False
      end
  | _ => False
  end.
Proof. by vm_compute. Qed.

(** A recording with 44100 Hz from a device with 40000 Hz. *)
Definition plain_recording : plain_in unit := new_plain_in false (plain_request 44100).
Definition plain_recorder : plain_hal unit shaky_card :=
  {| plain_outs := []; plain_ins := [plain_recording]; plain_active_output := None; plain_active_input := None;
     plain_world := shaky [] |}.

Lemma plain_resampler_unusable_witness :
  let w := (pcm_open 1 PORT_CODEC PCM_IN plain_recording.(pi_config) (shaky [])).2 in
  (exists s1, normal_in_read (plain_platform true) (fun _ _ _ => (0, Some tt)) id 0 [9; 9] 2 plain_recorder
              = Done ((2, [9; 9]), s1) /\ s1.(plain_world) = w
     /\ forall buf' n, normal_in_read (plain_platform true) (fun _ _ _ => (0, Some tt)) id 0 buf' n s1 = Undef)
  /\ (exists s1, normal_in_read (plain_platform true) (fun _ _ _ => (-1, None)) id 0 [9; 9] 2 plain_recorder
              = Done ((2, [0; 0]), s1) /\ s1.(plain_world) = w
     /\ s1.(plain_ins) = [pi_with (Some 1) plain_recording]).
Proof.
  intros w. split.
  - apply (plain_resampler_unusable (plain_platform true) (fun _ _ _ => (0, Some tt)) id eq_refl 0 plain_recording
             plain_recorder [9; 9] 1 0 w (Some tt)); try done; vm_compute; try discriminate; constructor.
  - apply (plain_resampler_unusable (plain_platform true) (fun _ _ _ => (-1, None)) id eq_refl 0 plain_recording
             plain_recorder [9; 9] 1 (-1) w None); try done; vm_compute; try discriminate; constructor.
Defined.
