(* ===== verification/Ecnr.v ===== *)
(** * The echo canceller of calls

    Models [ecnr_fake.c], the stand-in for an echo canceller that is linked into
    the HAL, and the three places that use it: the start of a call and the
    block that was received ([btcall_open] and [get_next_buffer] of
    [audio_bt_call.c]) and the end of a call ([set_btcall_status] of
    [audio_hw.c]).  The canceller sees copies of the data of a call and gives
    nothing back to it, so that [BtCall] does not depend on it.

    A handler is the address of a number that [calloc] gave; the number itself
    is always 0.  Using or freeing a handler that was freed is undefined. *)

From Stdlib Require Import ZArith Lia.
From stdpp Require Import base list numbers sets.
From S2P Require Import Prelude Mix PcmDevice AudioExtra BtCall.

#[local] Open Scope Z_scope.

Record ecnr_config := { ec_rate : Z; ec_ch : Z; ec_fmt : Z }.

Record ecnr_param := {
  recv_in_cfg : ecnr_config;
  recv_out_cfg : ecnr_config;
  ref_in_cfg : ecnr_config;
  mic_in_cfg : ecnr_config;
  mic_out_cfg : ecnr_config
}.

Definition set_ec_ch (ch : Z) (c : ecnr_config) : ecnr_config :=
  {| ec_rate := c.(ec_rate); ec_ch := ch; ec_fmt := c.(ec_fmt) |}.

(** The parameter of the calls. *)
Definition call_param : ecnr_param :=
  let cfg ch := {| ec_rate := 16000; ec_ch := ch; ec_fmt := PCM_FORMAT_S16_LE |} in
  {| recv_in_cfg := cfg 1; recv_out_cfg := cfg 1; ref_in_cfg := cfg 2; mic_in_cfg := cfg 2; mic_out_cfg := cfg 2 |}.

Definition TMP_BUF_SZ : Z := 15360.

(** The static of the library, and the handlers that were not freed. *)
Record ecnr := {
  fake_ecnr_param : ecnr_param;
  ec_live : list Z;
  ec_next : Z
}.

Definition set_fake_param (x : ecnr_param) (e : ecnr) : ecnr :=
  {| fake_ecnr_param := x; ec_live := e.(ec_live); ec_next := e.(ec_next) |}.
Definition set_ec_live (l : list Z) (e : ecnr) : ecnr :=
  {| fake_ecnr_param := e.(fake_ecnr_param); ec_live := l; ec_next := e.(ec_next) |}.

Definition ecnrm (A : Type) : Type := st ecnr A.

(** ** The library *)

Definition fake_dsp_load_config (handle : Z) : Z := 0.
Definition fake_dsp_recv_primary_fmt (handle in_channel in_rate out_channel out_rate : Z) : Z := 0.
Definition fake_dsp_start (handle : Z) : Z := 0.

(** [in_len] bytes are copied; the new length is [in_len]. *)
Definition fake_dsp_recv_primary (SpkIn : list Z) (in_len : Z) (SpkOut : list Z) : outcome (Z * list Z * Z) :=
  let! SpkOut := memcpy SpkOut 0 SpkIn 0 in_len in Done (0, SpkOut, in_len).

Definition fake_dsp_ref : Z := 0.

Definition fake_dsp_ref_fmt (in_channel : Z) : ecnrm Z :=
  do! e := sget in
  let q := e.(fake_ecnr_param) in
  do! _ := smodify (set_fake_param
    {| recv_in_cfg := q.(recv_in_cfg); recv_out_cfg := q.(recv_out_cfg);
       ref_in_cfg := set_ec_ch in_channel q.(ref_in_cfg); mic_in_cfg := q.(mic_in_cfg);
       mic_out_cfg := q.(mic_out_cfg) |}) in
  sret 0.

(** On samples: the first slots of every frame. *)
Definition fake_dsp_send_primary (MicIn : list Z) (in_len : Z) (MicOut : list Z) : ecnrm (Z * list Z * Z) :=
  do! e := sget in
  let q := e.(fake_ecnr_param) in
  do! n := slift (i32 (in_len * q.(mic_in_cfg).(ec_ch))) in
  do! (len, MicOut) := slift (audio_extra_select_slot_16 MicOut q.(mic_out_cfg).(ec_ch) MicIn q.(mic_in_cfg).(ec_ch) n) in
  sret (0, MicOut, len).

Definition fake_dsp_send_primary_fmt (in_channel out_channel : Z) : ecnrm Z :=
  do! e := sget in
  let q := e.(fake_ecnr_param) in
  do! _ := smodify (set_fake_param
    {| recv_in_cfg := q.(recv_in_cfg); recv_out_cfg := q.(recv_out_cfg); ref_in_cfg := q.(ref_in_cfg);
       mic_in_cfg := set_ec_ch in_channel q.(mic_in_cfg);
       mic_out_cfg := set_ec_ch out_channel q.(mic_out_cfg) |}) in
  sret 0.

(** ** The operations *)

Definition calloc_handler : ecnrm Z :=
  do! e := sget in
  do! _ := smodify (fun e => {| fake_ecnr_param := e.(fake_ecnr_param); ec_live := e.(ec_next) :: e.(ec_live);
                                ec_next := e.(ec_next) + 1 |}) in
  sret e.(ec_next).

Definition free_handler (h : Z) : ecnrm unit :=
  do! e := sget in
  if decide (h ∈ e.(ec_live)) then smodify (set_ec_live (sc_remove h e.(ec_live))) else slift Undef.

(** A step of [x9_ecnr_init]: a negative status frees the handler. *)
Definition init_step (h : Z) (step : ecnrm Z) (rest : ecnrm (option Z)) : ecnrm (option Z) :=
  do! ret := step in
  if ret <? 0 then do! _ := free_handler h in sret None else rest.

Definition x9_ecnr_init (mem : bool) (param : ecnr_param) : ecnrm (option Z) :=
  if negb mem then sret None
  else
    do! h := calloc_handler in
    let rt := param.(mic_out_cfg).(ec_rate) in
    if (rt =? 8000) || (rt =? 16000) || (rt =? 24000) || (rt =? 32000) then
      let _ := fake_dsp_load_config 0 in
      init_step h (sret (fake_dsp_recv_primary_fmt 0 param.(recv_in_cfg).(ec_ch) param.(recv_in_cfg).(ec_rate)
                           param.(recv_out_cfg).(ec_ch) param.(recv_out_cfg).(ec_rate)))
      (init_step h (fake_dsp_ref_fmt param.(ref_in_cfg).(ec_ch))
      (init_step h (fake_dsp_send_primary_fmt param.(mic_in_cfg).(ec_ch) param.(mic_out_cfg).(ec_ch))
      (init_step h (sret (fake_dsp_start 0)) (sret (Some h)))))
    else do! _ := free_handler h in sret None.

Definition x9_ecnr_ref_in (ref : list Z) (ref_frames : Z) : Z := fake_dsp_ref.

Definition x9_ecnr_process (input : list Z) (in_frames : Z) (processed : list Z) : ecnrm (Z * list Z * Z) :=
  fake_dsp_send_primary input in_frames processed.

Definition x9_ecnr_recv_in (recv : list Z) (recv_frames : Z) (processed : list Z) : outcome (Z * list Z * Z) :=
  fake_dsp_recv_primary recv recv_frames processed.

Definition x9_ecnr_deinit (hdl : option Z) : ecnrm bool :=
  match hdl with
  | None => sret false
  | Some h => do! _ := free_handler h in sret true
  end.

(** ** Use in calls *)

(** The canceller with the members [ecnr_hdl] and [ecnr_ops] of the device. *)
Record call_ecnr := { lib : ecnr; ecnr_hdl : option Z; ecnr_ops : bool }.

Definition set_ecnr_hdl (h : option Z) (c : call_ecnr) : call_ecnr :=
  {| lib := c.(lib); ecnr_hdl := h; ecnr_ops := c.(ecnr_ops) |}.

Definition on_lib {A} (m : ecnrm A) : st call_ecnr A := fun c =>
  let! (a, e) := m c.(lib) in Done (a, {| lib := e; ecnr_hdl := c.(ecnr_hdl); ecnr_ops := c.(ecnr_ops) |}).

(** The start of a call; [disabled] is what the property says.  A handler of an
    earlier call is overwritten. *)
Definition call_ecnr_open (sw_ecnr disabled mem : bool) : st call_ecnr unit :=
  do! c := sget in
  if sw_ecnr && negb disabled && c.(ecnr_ops) then
    do! h := on_lib (x9_ecnr_init mem call_param) in
    smodify (set_ecnr_hdl h)
  else sret tt.

(** A block of [sz] bytes from the Bluetooth chip: what is in the local array
    [rx_processed] afterwards, and its length. *)
Definition call_ecnr_recv (bits : Z -> Z) (c : call_ecnr) (r : btcall_rt) (buffer rx_processed : list Z) (sz : Z)
  : outcome (list Z * option Z) :=
  match r, c.(ecnr_hdl) with
  | BTCALL_BT_INPUT, Some h =>
      if decide (h ∈ c.(lib).(ec_live)) then
        let frame_sz := bits call_param.(recv_in_cfg).(ec_fmt) / 8 in
        if frame_sz =? 0 then Undef
        else
          let! (_, rx, len) := x9_ecnr_recv_in buffer (Z.quot (Z.quot sz frame_sz) call_param.(recv_in_cfg).(ec_ch)) rx_processed in
          Done (rx, Some len)
      else Undef
  | _, _ => Done (rx_processed, None)
  end.

(** The end of a call; it is skipped when the next call has started. *)
Definition call_ecnr_close : st call_ecnr unit :=
  do! c := sget in
  match c.(ecnr_ops), c.(ecnr_hdl) with
  | true, Some h =>
      do! ok := on_lib (x9_ecnr_deinit (Some h)) in
      if ok : bool then smodify (set_ecnr_hdl None) else sret tt
  | _, _ => sret tt
  end.

(** * Theorems *)

(** ** A session with the canceller *)

(** The rates for which there is a configuration. *)
Definition ecnr_rates : list Z := [8000; 16000; 24000; 32000].

Lemma init_done (q : ecnr_param) (e : ecnr) :
  q.(mic_out_cfg).(ec_rate) ∈ ecnr_rates ->
  exists e1, x9_ecnr_init true q e = Done (Some e.(ec_next), e1)
    /\ e1.(ec_live) = e.(ec_next) :: e.(ec_live)
    /\ e1.(fake_ecnr_param).(mic_in_cfg).(ec_ch) = q.(mic_in_cfg).(ec_ch)
    /\ e1.(fake_ecnr_param).(mic_out_cfg).(ec_ch) = q.(mic_out_cfg).(ec_ch).
Proof.
  intros I. unfold x9_ecnr_init. cbn [negb].
  assert ((q.(mic_out_cfg).(ec_rate) =? 8000) || (q.(mic_out_cfg).(ec_rate) =? 16000)
          || (q.(mic_out_cfg).(ec_rate) =? 24000) || (q.(mic_out_cfg).(ec_rate) =? 32000) = true) as Ok
    by (unfold ecnr_rates in I; rewrite !orb_true_iff, !Z.eqb_eq; set_solver).
  unfold sbind at 1. cbn [calloc_handler sbind sget smodify sret obind]. rewrite Ok. by eexists.
Qed.

(** Only the four rates are accepted; the handler is freed for every other. *)
Lemma init_refused (q : ecnr_param) (e : ecnr) :
  q.(mic_out_cfg).(ec_rate) ∉ ecnr_rates ->
  exists e1, x9_ecnr_init true q e = Done (None, e1) /\ e1.(ec_live) = e.(ec_live).
Proof.
  intros I. unfold x9_ecnr_init. cbn [negb].
  assert ((q.(mic_out_cfg).(ec_rate) =? 8000) || (q.(mic_out_cfg).(ec_rate) =? 16000)
          || (q.(mic_out_cfg).(ec_rate) =? 24000) || (q.(mic_out_cfg).(ec_rate) =? 32000) = false) as No
    by (unfold ecnr_rates in I; rewrite !orb_false_iff, !Z.eqb_neq; set_solver).
  unfold sbind at 1. cbn [calloc_handler sbind sget smodify sret obind]. rewrite No.
  unfold free_handler, sbind, sget, smodify. cbn [obind ec_live]. rewrite decide_True by left.
  cbn [obind sc_remove]. rewrite Z.eqb_refl. by eexists.
Qed.

(** A session with the echo canceller: with a rate it knows, the start gives
    a handler; a block of frames from the microphones is reduced to the first
    channels of every frame, with their number of samples as the length; the
    end frees the handler. *)
Theorem ecnr_session_selects (q : ecnr_param) (e : ecnr) (F : Z) (mic out : list Z) :
  let ci := q.(mic_in_cfg).(ec_ch) in let co := q.(mic_out_cfg).(ec_ch) in
  q.(mic_out_cfg).(ec_rate) ∈ ecnr_rates -> 0 < co <= ci -> 0 <= F ->
  F * ci <= zlen mic -> F * co <= zlen out -> F * ci <= INT32_MAX ->
  exists h e1 out' e2, x9_ecnr_init true q e = Done (Some h, e1)
    /\ x9_ecnr_process mic F out e1 = Done ((0, out', F * co), e1)
    /\ zlen out' = zlen out
    /\ (forall k c, 0 <= k < F -> 0 <= c < co -> at_ out' (k * co + c) = at_ mic (k * ci + c))
    /\ x9_ecnr_deinit (Some h) e1 = Done (true, e2) /\ e2.(ec_live) = e.(ec_live).
Proof.
  intros ci co I Cb Fb B1 B2 B3. destruct (init_done q e I) as (e1 & E1 & Lv & Ci & Co).
  fold ci in Ci. fold co in Co.
  destruct (stride_copy_at (Z.to_nat F) 0 out 0 co mic ci co) as (out' & Eo & Lo & V & _);
    [lia|lia|lia|lia|intros k K; split; nia|].
  exists e.(ec_next), e1, out', (set_ec_live e.(ec_live) e1). split_and!; [done| |done| | |done].
  - unfold x9_ecnr_process, fake_dsp_send_primary, sbind, sget, slift. cbn [obind]. rewrite Ci, Co.
    rewrite i32_done by (unfold is_i32, INT32_MIN; nia). cbn [obind]. unfold audio_extra_select_slot_16.
    rewrite (proj2 (Z.eqb_neq ci 0)) by lia. rewrite Z.quot_mul by lia. rewrite select_slot_stride, Eo. cbn [obind].
    rewrite Z2Nat.id, i32_done by (unfold is_i32, INT32_MIN; nia). done.
  - intros k c K C. rewrite <-V by lia. f_equal. lia.
  - unfold x9_ecnr_deinit, free_handler, sbind, sget, smodify, sret. cbn [obind]. rewrite Lv, decide_True by left.
    cbn [obind sc_remove]. by rewrite Z.eqb_refl.
Qed.

(** Two frames of three microphones. *)
Lemma ecnr_session_selects_witness :
  let q := {| recv_in_cfg := call_param.(recv_in_cfg); recv_out_cfg := call_param.(recv_out_cfg);
              ref_in_cfg := call_param.(ref_in_cfg); mic_in_cfg := set_ec_ch 3 call_param.(mic_in_cfg);
              mic_out_cfg := call_param.(mic_out_cfg) |} in
  let e := {| fake_ecnr_param := call_param; ec_live := []; ec_next := 1 |} in
  exists h e1 out' e2, x9_ecnr_init true q e = Done (Some h, e1)
    /\ x9_ecnr_process [1; 2; 3; 4; 5; 6] 2 [0; 0; 0; 0; 9] e1 = Done ((0, out', 4), e1)
    /\ zlen out' = 5
    /\ (forall k c, 0 <= k < 2 -> 0 <= c < 2 -> at_ out' (k * 2 + c) = at_ [1; 2; 3; 4; 5; 6] (k * 3 + c))
    /\ x9_ecnr_deinit (Some h) e1 = Done (true, e2) /\ e2.(ec_live) = [].
Proof.
  intros q e. apply (ecnr_session_selects q e 2 [1; 2; 3; 4; 5; 6] [0; 0; 0; 0; 9]);
    [cbn; unfold ecnr_rates; set_solver|cbn; lia|lia|done..].
Defined.

(** ** Calls *)

(** A block of [sz] bytes: the canceller gets [sz / 2] frames of one channel,
    but copies [sz / 2] bytes, the first half of the block; a block of more
    than twice the local array leaves the array. *)
Lemma recv_copies_half (c : call_ecnr) (h sz : Z) (buffer rx : list Z) :
  c.(ecnr_hdl) = Some h -> h ∈ c.(lib).(ec_live) -> 0 <= sz <= zlen buffer -> zlen rx = TMP_BUF_SZ ->
  call_ecnr_recv (fun _ => 16) c BTCALL_BT_INPUT buffer rx sz
  = if sz / 2 <=? TMP_BUF_SZ then Done (splice rx 0 (zslice buffer 0 (sz / 2)), Some (sz / 2)) else Undef.
Proof.
  intros E I B L. unfold call_ecnr_recv. rewrite E, decide_True by done. change (16 / 8) with 2. cbn [Z.eqb].
  change (ec_ch (recv_in_cfg call_param)) with 1. rewrite Z.quot_1_r, Z.quot_div_nonneg by lia.
  unfold x9_ecnr_recv_in, fake_dsp_recv_primary, memcpy.
  assert (0 <= sz / 2 <= sz) by (split; [apply Z.div_pos; lia|apply Z.div_le_upper_bound; lia]).
  rewrite mem_read_done by lia. cbn [obind]. unfold mem_write. rewrite zlen_zslice, L by lia.
  rewrite Z.add_0_l. cbn [Z.leb Z.compare andb]. by destruct (_ <=? _).
Qed.

(** What happens to the canceller in a series of calls: a start, and an end
    that may be overtaken by the next start. *)
Inductive ecnr_op := EcnrStart (sw_ecnr disabled mem : bool) | EcnrEnd (overtaken : bool).

Definition run_ecnr (op : ecnr_op) : st call_ecnr unit :=
  match op with
  | EcnrStart a b m => call_ecnr_open a b m
  | EcnrEnd true => sret tt
  | EcnrEnd false => call_ecnr_close
  end.

Fixpoint run_ecnrs (ops : list ecnr_op) : st call_ecnr unit :=
  match ops with [] => sret tt | op :: ops => do! _ := run_ecnr op in run_ecnrs ops end.

Definition handlers (c : call_ecnr) : nat := match c.(ecnr_hdl) with Some _ => 1 | None => 0 end.

(** The starts that overwrite a handler. *)
Fixpoint overwrites (ops : list ecnr_op) (c : bool) : nat :=
  match ops with
  | [] => 0
  | EcnrStart true false m :: ops => (if c then 1 else 0) + overwrites ops m
  | EcnrStart _ _ _ :: ops => overwrites ops c
  | EcnrEnd o :: ops => overwrites ops (o && c)
  end.

Lemma length_sc_remove (h : Z) (l : list Z) : h ∈ l -> length l = S (length (sc_remove h l)).
Proof.
  intros I. apply elem_of_Permutation in I as [k P]. rewrite (sc_remove_perm h l k P), P. done.
Qed.

(** The handlers that exist are the current one and those that a start
    overwrote before the end of the earlier call had freed them. *)
Theorem ecnr_handlers_counted (ops : list ecnr_op) (c : call_ecnr) :
  c.(ecnr_ops) = true -> (forall h, c.(ecnr_hdl) = Some h -> h ∈ c.(lib).(ec_live)) ->
  exists c', run_ecnrs ops c = Done (tt, c')
    /\ (length c'.(lib).(ec_live) + handlers c
        = length c.(lib).(ec_live) + overwrites ops (match c.(ecnr_hdl) with Some _ => true | None => false end) + handlers c')%nat.
Proof.
  revert c. induction ops as [|op ops IH]; intros c O Lv; cbn [run_ecnrs overwrites].
  { exists c. split; [done|lia]. }
  unfold sbind. destruct op as [a b m|[]]; cbn [run_ecnr].
  - destruct a, b; cbn [andb negb]; try (unfold call_ecnr_open, sbind, sget, sret; cbn [obind andb negb]; by apply IH).
    unfold call_ecnr_open, sbind, sget. cbn [obind andb negb]. rewrite O. cbn [andb]. unfold on_lib, smodify. destruct m.
    + destruct (init_done call_param c.(lib)) as (e1 & E1 & L1 & _); [cbn; unfold ecnr_rates; set_solver|].
      rewrite E1. cbn [obind set_ecnr_hdl lib ecnr_ops].
      destruct (IH {| lib := e1; ecnr_hdl := Some (ec_next c.(lib)); ecnr_ops := c.(ecnr_ops) |}) as (c' & E & Eq);
        [done|intros h [= <-]; cbn; rewrite L1; left|].
      exists c'. split; [exact E|]. cbn in Eq. rewrite L1 in Eq. cbn in Eq. unfold handlers in *. destruct c.(ecnr_hdl); cbn in *; lia.
    + cbn. destruct (IH {| lib := c.(lib); ecnr_hdl := None; ecnr_ops := c.(ecnr_ops) |}) as (c' & E & Eq); [done|done|].
      exists c'. split; [exact E|]. unfold handlers in *. cbn in Eq. destruct c.(ecnr_hdl); cbn in *; lia.
  - unfold sret. cbn [obind andb]. by apply IH.
  - unfold call_ecnr_close, sbind, sget. cbn [obind andb]. rewrite O. destruct c.(ecnr_hdl) as [h|] eqn:Hh.
    + specialize (Lv h eq_refl). unfold on_lib, x9_ecnr_deinit, free_handler, sbind, sget, smodify, sret. cbn [obind].
      rewrite decide_True by done. cbn [obind].
      destruct (IH (set_ecnr_hdl None {| lib := set_ec_live (sc_remove h c.(lib).(ec_live)) c.(lib); ecnr_hdl := c.(ecnr_hdl);
        ecnr_ops := c.(ecnr_ops) |})) as (c' & E & Eq); [done|done|].
      exists c'. split; [by rewrite Hh in E|]. cbn in Eq. pose proof (length_sc_remove h _ Lv). unfold handlers in *. rewrite Hh. cbn in *. lia.
    + unfold sret. cbn [obind]. destruct (IH c O) as (c' & E & Eq); [by rewrite Hh|]. exists c'. split; [done|]. by rewrite Hh in Eq.
Qed.
