(* ===== verification/Sscanf.v ===== *)
(** * sscanf

    The kernel's [sscanf] ([vsscanf]) on the conversions that the A2B driver
    uses: white space and literal characters, [%s], [%*s], [%u], [%hhu],
    [%hu] and [%hd].  A format is a list of directives; the result is the
    list of the values that were converted, so its length is the return value
    of the call and a call that stops early has converted a prefix. *)

From Stdlib Require Import ZArith Lia Ascii String.
From stdpp Require Import base list numbers.
From S2P Require Import Prelude CString.

#[local] Open Scope Z_scope.

(** ** Formats *)

Inductive directive :=
| FSpace                      (* white space of the format *)
| FChar (c : ascii)           (* a character that has to match *)
| FStr                        (* %s *)
| FSkip                       (* %*s, with the format up to its next space *)
| FUnsigned (bits : Z)        (* %u, %hu, %hhu *)
| FSigned (bits : Z).         (* %hd *)

Inductive value :=
| VStr (s : string)
| VNum (z : Z).

(** The literal part of a format. *)
Fixpoint lit (s : string) : list directive :=
  match s with
  | EmptyString => []
  | String c r => (if (c =? " ")%char then FSpace else FChar c) :: lit r
  end.

(** The double quote. *)
Definition Q : string := String (ascii_of_nat 34) EmptyString.

(** ** Scanning *)

(** The text up to the next white space, and the rest. *)
Fixpoint word (s : string) : string * string :=
  match s with
  | EmptyString => (EmptyString, EmptyString)
  | String c r => if isspace c then (EmptyString, s) else let '(w, t) := word r in (String c w, t)
  end.

(** Conversion of an integer to a signed type of [bits] bits. *)
Definition to_signed (bits z : Z) : Z :=
  let w := z mod 2 ^ bits in if w <? 2 ^ (bits - 1) then w else w - 2 ^ bits.

(** The number at the start of [s]: a minus sign counts only for a signed
    conversion, and only before a digit. *)
Definition scan_number (signed : bool) (s : string) : option (Z * string) :=
  match s with
  | String "-"%char r =>
      if signed && starts_digit 10 r
      then let '(n, t) := take_digits 10 0 r in Some (- n, t) else None
  | _ => if starts_digit 10 s then Some (take_digits 10 0 s) else None
  end.

Fixpoint sscanf (f : list directive) (s : string) : list value :=
  match f with
  | [] => []
  | FSpace :: f => sscanf f (skip_space s)
  | FChar c :: f =>
      match s with
      | String d r => if (c =? d)%char then sscanf f r else []
      | EmptyString => []
      end
  | FStr :: f =>
      match s with
      | EmptyString => []
      | _ => let '(w, r) := word (skip_space s) in VStr w :: sscanf f r
      end
  | FSkip :: f =>
      match s with
      | EmptyString => []
      | _ => sscanf f (snd (word s))
      end
  | FUnsigned b :: f =>
      match s with
      | EmptyString => []
      | _ =>
          match scan_number false (skip_space s) with
          | Some (n, r) => VNum (n mod 2 ^ b) :: sscanf f r
          | None => []
          end
      end
  | FSigned b :: f =>
      match s with
      | EmptyString => []
      | _ =>
          match scan_number true (skip_space s) with
          | Some (n, r) => VNum (to_signed b n) :: sscanf f r
          | None => []
          end
      end
  end.

(** [strtoul (s, NULL, 16)], cut to a byte: the magnitude saturates at
    [ULONG_MAX] and a minus sign negates it in the unsigned type. *)
Definition ULONG_MAX : Z := 18446744073709551615.

Definition strtoul16_u8 (s : string) : Z :=
  let '(neg, r) := sign_prefix (skip_space s) in
  let '(b, r) := base_prefix 16 r in
  let '(n, _) := take_digits b 0 r in
  if n >? ULONG_MAX then ULONG_MAX mod 256
  else (if neg then - n else n) mod 256.

(** ** Printing and scanning a number *)

(** [n] is printed in at most ten digits. *)
Definition printable (n : Z) : Prop := 0 <= n < 10 ^ 10.

Lemma dec_digits_app (fuel : nat) (n : Z) (acc r : string) :
  (dec_digits fuel n acc ++ r)%string = dec_digits fuel n (acc ++ r).
Proof.
  revert n acc. induction fuel as [|fuel IH]; intros n acc; [done|].
  cbn [dec_digits]. zif; [done|]. by rewrite IH.
Qed.

Lemma digit_char_not_space (d : Z) :
  0 <= d <= 9 -> isspace (digit_char d) = false /\ digit_char d <> "-"%char.
Proof.
  intros H. assert (d = 0 \/ d = 1 \/ d = 2 \/ d = 3 \/ d = 4 \/ d = 5 \/ d = 6 \/ d = 7
                    \/ d = 8 \/ d = 9) as D by lia.
  by repeat (destruct D as [->|D]; [done|]); subst.
Qed.

Lemma scan_number_other (signed : bool) (c : ascii) (r : string) :
  c <> "-"%char ->
  scan_number signed (String c r)
  = if starts_digit 10 (String c r) then Some (take_digits 10 0 (String c r)) else None.
Proof.
  intros H. unfold scan_number.
  destruct c as [[] [] [] [] [] [] [] []]; try reflexivity; by destruct H.
Qed.

Lemma take_digits_stop (n : Z) (r : string) :
  starts_digit 10 r = false -> take_digits 10 n r = (n, r).
Proof. destruct r as [|c r]; [done|]. simpl. by destruct (digit_in 10 c). Qed.

(** The text of a number is scanned back, up to a character that is no digit. *)
Lemma scan_print_int (signed : bool) (n : Z) (r : string) :
  printable n -> starts_digit 10 r = false ->
  (print_int n ++ r)%string <> EmptyString
  /\ skip_space (print_int n ++ r) = (print_int n ++ r)%string
  /\ scan_number signed (print_int n ++ r) = Some (n, r).
Proof.
  intros Hn Hr. unfold printable in Hn.
  unfold print_int. rewrite (proj2 (Z.ltb_ge n 0)) by lia. rewrite dec_digits_app. cbn [String.append].
  destruct (dec_digits_head 10 n r) as (d & t & E & Hd & _); [done|lia|].
  destruct (digit_char_not_space d Hd) as [Hs Hm].
  pose proof (take_dec_digits 10 n r ltac:(done) ltac:(lia)) as T. rewrite E in *.
  split; [done|]. split; [cbn [skip_space]; by rewrite Hs|].
  rewrite scan_number_other by done. rewrite T, take_digits_stop by done.
  cbn [starts_digit]. by rewrite digit_char_in by lia.
Qed.

Lemma sscanf_unsigned (b n : Z) (f : list directive) (r : string) :
  printable n -> starts_digit 10 r = false ->
  sscanf (FUnsigned b :: f) (print_int n ++ r) = VNum (n mod 2 ^ b) :: sscanf f r.
Proof.
  intros Hn Hr. destruct (scan_print_int false n r Hn Hr) as (Hne & Hs & E). cbn [sscanf].
  rewrite Hs, E. by destruct (print_int n ++ r)%string.
Qed.

Lemma sscanf_signed (b n : Z) (f : list directive) (r : string) :
  printable n -> starts_digit 10 r = false ->
  sscanf (FSigned b :: f) (print_int n ++ r) = VNum (to_signed b n) :: sscanf f r.
Proof.
  intros Hn Hr. destruct (scan_print_int true n r Hn Hr) as (Hne & Hs & E). cbn [sscanf].
  rewrite Hs, E. by destruct (print_int n ++ r)%string.
Qed.

(** ** Two hexadecimal digits *)

Definition hex_char (d : Z) : ascii :=
  ascii_of_N (Z.to_N (if d <? 10 then 48 + d else 55 + d)).

Definition hex2 (b : Z) : string :=
  String (hex_char (b / 16)) (String (hex_char (b mod 16)) EmptyString).

Definition is_u8 (b : Z) : Prop := 0 <= b <= 255.

Lemma hex_char_value (d : Z) :
  0 <= d <= 15 ->
  digit_in 16 (hex_char d) = Some d /\ isspace (hex_char d) = false
  /\ ((code (hex_char d) =? 120) || (code (hex_char d) =? 88)) = false
  /\ (forall r, sign_prefix (String (hex_char d) r) = (false, String (hex_char d) r)).
Proof.
  intros H. assert (d = 0 \/ d = 1 \/ d = 2 \/ d = 3 \/ d = 4 \/ d = 5 \/ d = 6 \/ d = 7
    \/ d = 8 \/ d = 9 \/ d = 10 \/ d = 11 \/ d = 12 \/ d = 13 \/ d = 14 \/ d = 15) as D by lia.
  by repeat (destruct D as [->|D]; [repeat split|]); subst; repeat split.
Qed.

Lemma base_prefix_no_x (c x : ascii) (r : string) :
  ((code x =? 120) || (code x =? 88)) = false ->
  base_prefix 16 (String c (String x r)) = (16, String c (String x r)).
Proof.
  intros H. unfold base_prefix. rewrite H.
  by destruct c as [[] [] [] [] [] [] [] []].
Qed.

(** A byte printed in hexadecimal is read back, up to a character that is no
    hexadecimal digit. *)
Lemma strtoul16_hex2 (b : Z) (r : string) :
  is_u8 b -> starts_digit 16 r = false -> strtoul16_u8 (hex2 b ++ r) = b.
Proof.
  intros Hb Hr. unfold is_u8 in Hb.
  assert (0 <= b / 16 <= 15) as H1
    by (split; [apply Z.div_pos; lia|apply Z.lt_succ_r, Z.div_lt_upper_bound; lia]).
  assert (0 <= b mod 16 <= 15) as H2 by (pose proof (Z.mod_pos_bound b 16); lia).
  destruct (hex_char_value _ H1) as (D1 & S1 & _ & P1).
  destruct (hex_char_value _ H2) as (D2 & _ & X2 & _).
  unfold strtoul16_u8, hex2. cbn [String.append]. cbn [skip_space]. rewrite S1, P1.
  rewrite base_prefix_no_x by done. cbn [take_digits]. rewrite D1, D2.
  assert (take_digits 16 ((0 * 16 + b / 16) * 16 + b mod 16) r
          = ((0 * 16 + b / 16) * 16 + b mod 16, r)) as ->.
  { destruct r as [|c r]; [done|]. simpl in *. by destruct (digit_in 16 c). }
  replace ((0 * 16 + b / 16) * 16 + b mod 16) with b by (pose proof (Z.div_mod b 16); lia).
  rewrite Z.gtb_ltb, (proj2 (Z.ltb_ge _ _)) by (unfold ULONG_MAX; lia).
  apply Z.mod_small. lia.
Qed.
