(* ===== verification/A2bConfig.v ===== *)
(** * The command list of the A2B bus driver

    The part of [a2b24xx.c] that reads the command list of the bus: the
    table of actions and the buffer for their data inside [struct a2b24xx],
    [parseAction], [parseXML] and [a2b_pal_File_Read].  The abstract content
    of the table is a list of commands; [document] is the text of a command
    list, and reading it back gives the commands. *)

From Stdlib Require Import ZArith Lia Ascii String.
From stdpp Require Import base list numbers.
From S2P Require Import Prelude CString Sscanf.

#[local] Open Scope Z_scope.

(** ** Data *)

Definition COMMAND_SIZE : Z := 128.
Definition MAX_ACTIONS : Z := 256.
Definition MAX_CONFIG_DATA : Z := 16384.
(** The size of the scratch buffers that the driver allocates. *)
Definition SCRATCH : Z := 6000.

Definition A2B_REG_BECCTL : Z := 30.

Inductive opcode := A2B24XX_WRITE | A2B24XX_READ | A2B24XX_DELAY | A2B24XX_INVALID.
Inductive bus_protocol := I2C | SPI.

(** [paConfigData]: null, a place in [config_buffer], or an array of its own
    as in the table that is built in. *)
Inductive data_ptr := DNull | DBuffer (off : Z) | DTable (bytes : list Z).

Record ADI_A2B_DISCOVERY_CONFIG := {
  nDeviceAddr : Z;
  eOpCode : opcode;
  nAddrWidth : Z;
  nAddr : Z;
  nDataWidth : Z;
  nDataCount : Z;
  paConfigData : data_ptr;
  nSpiCmdWidth : Z;
  nSpiCmd : Z;
  eProtocol : bus_protocol
}.

(** An entry of memory that [kzalloc] has cleared. *)
Definition cleared_config : ADI_A2B_DISCOVERY_CONFIG :=
  {| nDeviceAddr := 0; eOpCode := A2B24XX_WRITE; nAddrWidth := 0; nAddr := 0; nDataWidth := 0;
     nDataCount := 0; paConfigData := DNull; nSpiCmdWidth := 0; nSpiCmd := 0; eProtocol := I2C |}.

(** The members [fileA2BConfig], [num_actions], [config_buffer] and
    [write_offset] of [struct a2b24xx]. *)
Record cfg_store := {
  fileA2BConfig : list ADI_A2B_DISCOVERY_CONFIG;
  num_actions : Z;
  config_buffer : list Z;
  write_offset : Z
}.

Definition zero_store : cfg_store :=
  {| fileA2BConfig := replicate (Z.to_nat MAX_ACTIONS) cleared_config; num_actions := 0;
     config_buffer := replicate (Z.to_nat MAX_CONFIG_DATA) 0; write_offset := 0 |}.

(** ** Reading one action *)

Definition u8 (z : Z) : Z := z mod 256.
Definition u16 (z : Z) : Z := z mod 65536.

(** [%*s] takes the closing quote of [AddrIncr] along; the [%s] of [instr]
    and [Protocol] end at white space, so they take theirs along too. *)
Definition action_format : list directive :=
  lit ("<action instr=" ++ Q) ++ [FStr] ++
  lit (" SpiCmd=" ++ Q) ++ [FUnsigned 32] ++
  lit (Q ++ " SpiCmdWidth=" ++ Q) ++ [FUnsigned 8] ++
  lit (Q ++ " addr_width =" ++ Q) ++ [FUnsigned 8] ++
  lit (Q ++ " data_width=" ++ Q) ++ [FUnsigned 8] ++
  lit (Q ++ " len=" ++ Q) ++ [FUnsigned 16] ++
  lit (Q ++ " addr=" ++ Q) ++ [FUnsigned 32] ++
  lit (Q ++ " i2caddr=" ++ Q) ++ [FUnsigned 8] ++
  lit (Q ++ " AddrIncr=" ++ Q) ++ [FSkip] ++
  lit (" Protocol=" ++ Q) ++ [FStr].

(** Where [sscanf] stores: the two arrays and the members of the entry. *)
Record scan_result := { sc_instr : string; sc_protocol : string; sc_config : ADI_A2B_DISCOVERY_CONFIG }.

Definition put_str (f : string -> scan_result -> scan_result) (v : value) (s : scan_result) : scan_result :=
  match v with VStr w => f w s | VNum _ => s end.

Definition put_num (f : Z -> ADI_A2B_DISCOVERY_CONFIG -> ADI_A2B_DISCOVERY_CONFIG) (v : value)
    (s : scan_result) : scan_result :=
  match v with
  | VNum z => {| sc_instr := sc_instr s; sc_protocol := sc_protocol s; sc_config := f z (sc_config s) |}
  | VStr _ => s
  end.

Definition set_nDeviceAddr (v : Z) (c : ADI_A2B_DISCOVERY_CONFIG) : ADI_A2B_DISCOVERY_CONFIG :=
  {| nDeviceAddr := v; eOpCode := eOpCode c; nAddrWidth := nAddrWidth c; nAddr := nAddr c;
     nDataWidth := nDataWidth c; nDataCount := nDataCount c; paConfigData := paConfigData c;
     nSpiCmdWidth := nSpiCmdWidth c; nSpiCmd := nSpiCmd c; eProtocol := eProtocol c |}.
Definition set_eOpCode (v : opcode) (c : ADI_A2B_DISCOVERY_CONFIG) : ADI_A2B_DISCOVERY_CONFIG :=
  {| nDeviceAddr := nDeviceAddr c; eOpCode := v; nAddrWidth := nAddrWidth c; nAddr := nAddr c;
     nDataWidth := nDataWidth c; nDataCount := nDataCount c; paConfigData := paConfigData c;
     nSpiCmdWidth := nSpiCmdWidth c; nSpiCmd := nSpiCmd c; eProtocol := eProtocol c |}.
Definition set_nAddrWidth (v : Z) (c : ADI_A2B_DISCOVERY_CONFIG) : ADI_A2B_DISCOVERY_CONFIG :=
  {| nDeviceAddr := nDeviceAddr c; eOpCode := eOpCode c; nAddrWidth := v; nAddr := nAddr c;
     nDataWidth := nDataWidth c; nDataCount := nDataCount c; paConfigData := paConfigData c;
     nSpiCmdWidth := nSpiCmdWidth c; nSpiCmd := nSpiCmd c; eProtocol := eProtocol c |}.
Definition set_nAddr (v : Z) (c : ADI_A2B_DISCOVERY_CONFIG) : ADI_A2B_DISCOVERY_CONFIG :=
  {| nDeviceAddr := nDeviceAddr c; eOpCode := eOpCode c; nAddrWidth := nAddrWidth c; nAddr := v;
     nDataWidth := nDataWidth c; nDataCount := nDataCount c; paConfigData := paConfigData c;
     nSpiCmdWidth := nSpiCmdWidth c; nSpiCmd := nSpiCmd c; eProtocol := eProtocol c |}.
Definition set_nDataWidth (v : Z) (c : ADI_A2B_DISCOVERY_CONFIG) : ADI_A2B_DISCOVERY_CONFIG :=
  {| nDeviceAddr := nDeviceAddr c; eOpCode := eOpCode c; nAddrWidth := nAddrWidth c; nAddr :=
     nAddr c; nDataWidth := v; nDataCount := nDataCount c; paConfigData := paConfigData c;
     nSpiCmdWidth := nSpiCmdWidth c; nSpiCmd := nSpiCmd c; eProtocol := eProtocol c |}.
Definition set_nDataCount (v : Z) (c : ADI_A2B_DISCOVERY_CONFIG) : ADI_A2B_DISCOVERY_CONFIG :=
  {| nDeviceAddr := nDeviceAddr c; eOpCode := eOpCode c; nAddrWidth := nAddrWidth c; nAddr :=
     nAddr c; nDataWidth := nDataWidth c; nDataCount := v; paConfigData := paConfigData c;
     nSpiCmdWidth := nSpiCmdWidth c; nSpiCmd := nSpiCmd c; eProtocol := eProtocol c |}.
Definition set_paConfigData (v : data_ptr) (c : ADI_A2B_DISCOVERY_CONFIG) : ADI_A2B_DISCOVERY_CONFIG :=
  {| nDeviceAddr := nDeviceAddr c; eOpCode := eOpCode c; nAddrWidth := nAddrWidth c; nAddr :=
     nAddr c; nDataWidth := nDataWidth c; nDataCount := nDataCount c; paConfigData := v;
     nSpiCmdWidth := nSpiCmdWidth c; nSpiCmd := nSpiCmd c; eProtocol := eProtocol c |}.
Definition set_nSpiCmdWidth (v : Z) (c : ADI_A2B_DISCOVERY_CONFIG) : ADI_A2B_DISCOVERY_CONFIG :=
  {| nDeviceAddr := nDeviceAddr c; eOpCode := eOpCode c; nAddrWidth := nAddrWidth c; nAddr :=
     nAddr c; nDataWidth := nDataWidth c; nDataCount := nDataCount c; paConfigData :=
     paConfigData c; nSpiCmdWidth := v; nSpiCmd := nSpiCmd c; eProtocol := eProtocol c |}.
Definition set_nSpiCmd (v : Z) (c : ADI_A2B_DISCOVERY_CONFIG) : ADI_A2B_DISCOVERY_CONFIG :=
  {| nDeviceAddr := nDeviceAddr c; eOpCode := eOpCode c; nAddrWidth := nAddrWidth c; nAddr :=
     nAddr c; nDataWidth := nDataWidth c; nDataCount := nDataCount c; paConfigData :=
     paConfigData c; nSpiCmdWidth := nSpiCmdWidth c; nSpiCmd := v; eProtocol := eProtocol c |}.
Definition set_eProtocol (v : bus_protocol) (c : ADI_A2B_DISCOVERY_CONFIG) : ADI_A2B_DISCOVERY_CONFIG :=
  {| nDeviceAddr := nDeviceAddr c; eOpCode := eOpCode c; nAddrWidth := nAddrWidth c; nAddr :=
     nAddr c; nDataWidth := nDataWidth c; nDataCount := nDataCount c; paConfigData :=
     paConfigData c; nSpiCmdWidth := nSpiCmdWidth c; nSpiCmd := nSpiCmd c; eProtocol := v |}.

(** The arguments of the call, in order. *)
Definition action_targets : list (value -> scan_result -> scan_result) :=
  [ put_str (fun w s => {| sc_instr := w; sc_protocol := sc_protocol s; sc_config := sc_config s |});
    put_num set_nSpiCmd; put_num set_nSpiCmdWidth; put_num set_nAddrWidth; put_num set_nDataWidth;
    put_num set_nDataCount; put_num set_nAddr; put_num set_nDeviceAddr;
    put_str (fun w s => {| sc_instr := sc_instr s; sc_protocol := w; sc_config := sc_config s |}) ].

(** A conversion that was reached has been stored, also when a later one
    fails. *)
Definition store_values (vs : list value) (s : scan_result) : scan_result :=
  fold_left (fun s '(put, v) => put v s) (zip action_targets vs) s.

(** [char instr[20], protocol[10]]: a longer word overruns the array. *)
Definition scanned_fits (s : scan_result) : bool :=
  Nat.ltb (String.length (sc_instr s)) 20 && Nat.ltb (String.length (sc_protocol s)) 10.

(** The text after the first [c], for [strchr (s, c) + 1]. *)
Fixpoint after_char (c : ascii) (s : string) : option string :=
  match s with
  | EmptyString => None
  | String d r => if (d =? c)%char then Some r else after_char c r
  end.

(** All the tokens that [strsep (&s, " ")] returns. *)
Fixpoint strsep_all (s : string) : list string :=
  match s with
  | EmptyString => [EmptyString]
  | String c r =>
      if (c =? " ")%char then EmptyString :: strsep_all r
      else match strsep_all r with
           | t :: ts => String c t :: ts
           | [] => [String c EmptyString]
           end
  end.

(** [paConfigData[index++] = (uint8_t) strtoul (token, NULL, 16)] for each
    token, from [off] on. *)
Fixpoint store_tokens (buf : list Z) (off : Z) (ts : list string) : outcome (list Z) :=
  match ts with
  | [] => Done buf
  | t :: ts =>
      let! buf := array_set buf off (strtoul16_u8 t) in store_tokens buf (off + 1) ts
  end.

(** The data of a write or a delay.  The loop runs while there are tokens; the
    declared count only decides whether it runs at all, and the guard on the
    buffer compares the declared count. *)
Definition parse_data (st : cfg_store) (action : string) (config : ADI_A2B_DISCOVERY_CONFIG)
  : outcome (ADI_A2B_DISCOVERY_CONFIG * cfg_store) :=
  if MAX_CONFIG_DATA <=? write_offset st + nDataCount config then Done (config, st)
  else
    match after_char ">"%char action with
    | None => Undef
    | Some dataStr =>
        let ts := if nDataCount config =? 0 then [] else strsep_all dataStr in
        let! buf := store_tokens (config_buffer st) (write_offset st) ts in
        Done (set_nDataCount (u16 (zlen ts)) (set_paConfigData (DBuffer (write_offset st)) config),
              {| fileA2BConfig := fileA2BConfig st; num_actions := num_actions st;
                 config_buffer := buf; write_offset := write_offset st + zlen ts |})
    end.

Definition parseAction (st : cfg_store) (action : string) (config : ADI_A2B_DISCOVERY_CONFIG)
  : outcome (ADI_A2B_DISCOVERY_CONFIG * cfg_store) :=
  let vs := sscanf action_format action in
  let sc := store_values vs {| sc_instr := EmptyString; sc_protocol := EmptyString; sc_config := config |} in
  if negb (scanned_fits sc) then Undef
  else
    let config := sc_config sc in
    if zlen vs =? 9 then
      if (nAddr config =? A2B_REG_BECCTL) && (nAddrWidth config =? 1)
      then Done (set_eOpCode A2B24XX_INVALID config, st)
      else
        let op := if contains "writeXbytes" (sc_instr sc) then A2B24XX_WRITE
                  else if contains "read" (sc_instr sc) then A2B24XX_READ
                  else A2B24XX_INVALID in
        let config := set_eOpCode op config in
        let config := set_eProtocol (if contains "SPI" (sc_protocol sc) then SPI else I2C) config in
        let config := set_nDataCount (u16 (nDataCount config - nAddrWidth config)) config in
        match op with
        | A2B24XX_WRITE => parse_data st action config
        | _ => Done (config, st)
        end
    else if contains ("instr=" ++ Q ++ "delay" ++ Q) action then
      parse_data st action (set_nDataCount 1 (set_eOpCode A2B24XX_DELAY config))
    else Done (set_eOpCode A2B24XX_INVALID config, st).

(** ** Reading the command list *)

(** [strstr (s, p)]: the text from the first occurrence on. *)
Fixpoint strstr (s p : string) : option string :=
  if String.prefix p s then Some s
  else match s with EmptyString => None | String _ r => strstr r p end.

Definition nl : ascii := ascii_of_nat 10.

(** The text up to and including the next newline, and the text from the
    newline on. *)
Fixpoint until_nl (s : string) : option (string * string) :=
  match s with
  | EmptyString => None
  | String c r =>
      if (c =? nl)%char then Some (String c EmptyString, s)
      else match until_nl r with Some (l, t) => Some (String c l, t) | None => None end
  end.

(** One entry is filled and counted. *)
Definition add_action (st : cfg_store) (action : string) : outcome cfg_store :=
  let! config := array_get (fileA2BConfig st) (num_actions st) in
  let! (config, st) := parseAction st action config in
  let! cfgs := array_set (fileA2BConfig st) (num_actions st) config in
  Done {| fileA2BConfig := cfgs; num_actions := num_actions st + 1;
          config_buffer := config_buffer st; write_offset := write_offset st |}.

(** A last action without a newline takes the difference with a null pointer.
    [kmalloc_ok]: the scratch buffer was allocated; nothing checks it before
    the action is copied there. *)
Fixpoint parse_loop (kmalloc_ok : bool) (fuel : nat) (st : cfg_store) (actionStart : option string)
  : outcome cfg_store :=
  match actionStart with
  | None => Done st
  | Some text =>
      if num_actions st <? MAX_ACTIONS then
        match fuel with
        | O => Blocked
        | S fuel =>
            match until_nl text with
            | None => Undef
            | Some (action, actionEnd) =>
                if SCRATCH <=? Z.of_nat (String.length action) then Done st
                else if negb kmalloc_ok then Undef
                else
                  let! st := add_action st action in
                  parse_loop kmalloc_ok fuel st (strstr actionEnd "<action")
            end
        end
      else Done st
  end.

Definition parseXML (kmalloc_ok : bool) (st : cfg_store) (xml : string) : outcome cfg_store :=
  parse_loop kmalloc_ok (Z.to_nat MAX_ACTIONS) st (strstr xml "<action").

(** What the file system does for [a2b_pal_File_Read]: whether the file opens,
    its size, whether the buffer is allocated, and the bytes read or an error. *)
Record file_env := {
  fe_open : bool;
  fe_size : Z;
  fe_kmalloc : bool;
  fe_read : option string
}.

(** The text in a buffer ends at its first NUL. *)
Fixpoint c_text (s : string) : string :=
  match s with
  | EmptyString => EmptyString
  | String c r => if (c =? "000")%char then EmptyString else String c (c_text r)
  end.

Definition a2b_pal_File_Read (fe : file_env) : option string :=
  if negb (fe_open fe) then None
  else if fe_size fe =? 0 then None
  else if negb (fe_kmalloc fe) then None
  else option_map c_text (fe_read fe).

(** ** The commands of a table *)

(** What the entries of the table stand for.  The attributes of a write or a
    read are the address of the device, the width and value of the register
    address. *)
Inductive command :=
| CWrite (dev width addr : Z) (data : list Z)
| CRead (dev width addr count : Z)
| CDelay (data : list Z)
| CIgnored.

(** [n] bytes behind a data pointer. *)
Definition data_bytes (buf : list Z) (p : data_ptr) (n : Z) : outcome (list Z) :=
  match p with
  | DNull => if n =? 0 then Done [] else Undef
  | DBuffer off => mem_read buf off n
  | DTable bytes => mem_read bytes 0 n
  end.

Definition command_of (buf : list Z) (c : ADI_A2B_DISCOVERY_CONFIG) : outcome command :=
  match eOpCode c with
  | A2B24XX_WRITE =>
      let! data := data_bytes buf (paConfigData c) (nDataCount c) in
      Done (CWrite (nDeviceAddr c) (nAddrWidth c) (nAddr c) data)
  | A2B24XX_READ => Done (CRead (nDeviceAddr c) (nAddrWidth c) (nAddr c) (nDataCount c))
  | A2B24XX_DELAY => let! data := data_bytes buf (paConfigData c) (nDataCount c) in Done (CDelay data)
  | A2B24XX_INVALID => Done CIgnored
  end.

(** An entry that stands for a command.  A delay and an entry that is not
    carried out name no register, or the one whose accesses are dropped. *)
Definition entry (buf : list Z) (c : ADI_A2B_DISCOVERY_CONFIG) (cmd : command) : Prop :=
  command_of buf c = Done cmd
  /\ match cmd with
     | CDelay _ | CIgnored => nAddr c = 0 \/ nAddr c = A2B_REG_BECCTL
     | _ => True
     end.

(** The table holds the commands [cs]. *)
Definition table_holds (buf : list Z) (cfgs : list ADI_A2B_DISCOVERY_CONFIG) (cs : list command) : Prop :=
  Forall2 (entry buf) cfgs cs.

(** ** The text of a command list *)

(** Each part of the text is given with the text that follows it.  First the
    attributes of a write or a read. *)
Definition attributes (width len addr dev : Z) (rest : string) : string :=
  " SpiCmd=" ++ Q ++ "0" ++ Q ++ " SpiCmdWidth=" ++ Q ++ "0" ++ Q
  ++ " addr_width=" ++ Q ++ print_int width ++ Q ++ " data_width=" ++ Q ++ "1" ++ Q
  ++ " len=" ++ Q ++ print_int len ++ Q ++ " addr=" ++ Q ++ print_int addr ++ Q
  ++ " i2caddr=" ++ Q ++ print_int dev ++ Q ++ " AddrIncr=" ++ Q ++ "0" ++ Q
  ++ " Protocol=" ++ Q ++ "I2C" ++ Q ++ rest.

(** The data in hexadecimal, separated by spaces. *)
Fixpoint hex_data (data : list Z) (rest : string) : string :=
  match data with
  | [] => rest
  | [b] => hex2 b ++ rest
  | b :: data => hex2 b ++ " " ++ hex_data data rest
  end.

Definition open_tag (c : command) (rest : string) : string :=
  match c with
  | CWrite dev width addr data =>
      "<action instr=" ++ Q ++ "writeXbytes" ++ Q
      ++ attributes width (width + zlen data) addr dev (" CellName=" ++ Q ++ "Node" ++ Q ++ rest)
  | CRead dev width addr count =>
      "<action instr=" ++ Q ++ "read" ++ Q ++ attributes width (width + count) addr dev (" /" ++ rest)
  | CDelay data => "<action instr=" ++ Q ++ "delay" ++ Q ++ " CellName=" ++ Q ++ "Node" ++ Q ++ rest
  | CIgnored => "<action instr=" ++ Q ++ "none" ++ Q ++ " /" ++ rest
  end.

Definition tag_body (c : command) (rest : string) : string :=
  match c with
  | CWrite _ _ _ data => hex_data data ("</action>" ++ rest)
  | CDelay data => hex_data data ("</action>" ++ rest)
  | _ => rest
  end.

Definition line (c : command) (rest : string) : string := open_tag c (">" ++ tag_body c rest).

Definition NL : string := String nl EmptyString.

Fixpoint lines (cs : list command) (rest : string) : string :=
  match cs with
  | [] => rest
  | c :: cs => "    " ++ line c (NL ++ lines cs rest)
  end.

Definition document (cs : list command) : string := "<ROM>" ++ NL ++ lines cs ("</ROM>" ++ NL).

(** Accesses to the register of the bit error control are dropped. *)
Definition effective (c : command) : command :=
  match c with
  | CWrite _ width addr _ | CRead _ width addr _ =>
      if (addr =? A2B_REG_BECCTL) && (width =? 1) then CIgnored else c
  | _ => c
  end.

Definition stored_bytes (c : command) : Z :=
  match c with
  | CWrite _ _ _ data | CDelay data => zlen data
  | _ => 0
  end.

Definition wf_command (c : command) : Prop :=
  Z.of_nat (String.length (line c NL)) < SCRATCH /\
  match c with
  | CWrite dev width addr data =>
      is_u8 dev /\ is_u8 width /\ is_u32 addr /\ Forall is_u8 data /\ width + zlen data < 65536
  | CRead dev width addr count =>
      is_u8 dev /\ is_u8 width /\ is_u32 addr /\ 0 <= count /\ width + count < 65536
  | CDelay data => Forall is_u8 data /\ 0 < zlen data
  | CIgnored => True
  end.
