(* ===== verification/A2bConfigProofs.v ===== *)
(** * Reading the command list back

    The proof that [parseXML] on the text of a list of commands fills the
    table with these commands, in order, and that reading ends within its
    fuel on any text. *)

From Stdlib Require Import ZArith Lia Ascii String.
From stdpp Require Import base list numbers.
From S2P Require Import Prelude CString Sscanf A2bConfig.

#[local] Open Scope Z_scope.

(** ** Searching behind a prefix *)

Lemma free_of_app (c : ascii) (a b : string) : free_of c a -> free_of c b -> free_of c (a ++ b).
Proof. unfold free_of. induction a as [|d a IH]; cbn; intros Fa Fb; [done|]. intros [E | I]; [tauto|]. by apply IH; [tauto|..]. Qed.

Lemma after_char_app (c : ascii) (w r : string) :
  free_of c w -> after_char c (w ++ r) = after_char c r.
Proof.
  unfold free_of. induction w as [|d w IH]; intros F; [done|]. cbn in F |- *.
  destruct (Ascii.eqb_spec d c) as [-> | N]; [tauto|]. apply IH. tauto.
Qed.

Lemma until_nl_app (w r : string) :
  free_of nl w ->
  until_nl (w ++ r) = match until_nl r with Some (l, t) => Some ((w ++ l)%string, t) | None => None end.
Proof.
  unfold free_of. induction w as [|d w IH]; intros F.
  - cbn. by destruct (until_nl r) as [[]|].
  - cbn in F |- *. destruct (Ascii.eqb_spec d nl) as [-> | N]; [tauto|].
    rewrite IH by tauto. by destruct (until_nl r) as [[]|].
Qed.

Lemma hex_char_free (c : ascii) (d : Z) : digit_in 16 c = None -> 0 <= d <= 15 -> hex_char d <> c.
Proof. intros N H E. destruct (hex_char_value d H) as [D _]. rewrite E in D. congruence. Qed.

Lemma hex2_free (c : ascii) (b : Z) : digit_in 16 c = None -> is_u8 b -> free_of c (hex2 b).
Proof.
  intros N H. unfold is_u8 in H. unfold free_of, hex2. cbn.
  assert (0 <= b / 16 <= 15)
    by (split; [apply Z.div_pos; lia|apply Z.lt_succ_r, Z.div_lt_upper_bound; lia]).
  assert (0 <= b mod 16 <= 15) by (pose proof (Z.mod_pos_bound b 16); lia).
  intros [E | [E | []]]; by apply hex_char_free in E.
Qed.

(** The fixed texts and the numbers of a line hold neither a newline nor a
    closing bracket. *)
Ltac text_free :=
  lazymatch goal with
  | |- free_of _ (print_int _) =>
      apply print_int_word; [reflexivity|unfold is_u8, is_u32, UINT32_MAX in *; lia]
  | |- free_of _ (hex2 _) => apply hex2_free; [reflexivity|assumption]
  | |- _ => unfold free_of; vm_compute; intuition discriminate
  end.

(** ** The open tag *)

Definition wf_attributes (c : command) : Prop :=
  match c with
  | CWrite dev width addr data => is_u8 dev /\ is_u8 width /\ is_u32 addr /\ width + zlen data < 65536
  | CRead dev width addr count => is_u8 dev /\ is_u8 width /\ is_u32 addr /\ 0 <= count /\ width + count < 65536
  | _ => True
  end.

Lemma after_open_tag (c : command) (r : string) :
  wf_attributes c -> after_char ">"%char (open_tag c (">" ++ r)) = Some r.
Proof.
  destruct c as [dev w a data|dev w a n|data|]; cbn [wf_attributes open_tag]; intros W.
  all: try pose proof (zlen_nonneg data).
  all: unfold attributes; rewrite ?after_char_app by (unfold is_u8 in *; text_free); reflexivity.
Qed.

Lemma until_nl_open_tag (c : command) (r l t : string) :
  wf_attributes c -> until_nl r = Some (l, t) -> until_nl (open_tag c r) = Some (open_tag c l, t).
Proof.
  intros W E. destruct c as [dev w a data|dev w a n|data|]; cbn [wf_attributes open_tag] in *.
  all: try pose proof (zlen_nonneg data).
  all: unfold attributes; rewrite !until_nl_app by (unfold is_u8 in *; text_free); by rewrite E.
Qed.

Lemma until_nl_hex_data (data : list Z) (r l t : string) :
  Forall is_u8 data -> until_nl r = Some (l, t) ->
  until_nl (hex_data data r) = Some (hex_data data l, t).
Proof.
  intros F E. induction data as [|b data IH]; [done|].
  apply Forall_cons_1 in F as [Fb F]. destruct data as [|b' data].
  - cbn [hex_data]. rewrite until_nl_app by text_free. by rewrite E.
  - cbn [hex_data] in *. rewrite until_nl_app by text_free.
    rewrite (until_nl_app " ") by text_free. by rewrite IH.
Qed.

(** A line ends at its newline. *)
Lemma until_nl_line (c : command) (r : string) :
  wf_command c -> until_nl (line c (NL ++ r)) = Some (line c NL, (NL ++ r)%string).
Proof.
  intros [_ W]. unfold line.
  apply until_nl_open_tag; [destruct c; cbn in *; intuition|].
  rewrite until_nl_app by text_free.
  assert (until_nl (tag_body c (NL ++ r)) = Some (tag_body c NL, (NL ++ r)%string)) as ->; [|done].
  destruct c as [dev w a data|dev w a n|data|]; cbn [tag_body]; try reflexivity.
  - apply until_nl_hex_data; [tauto|reflexivity].
  - apply until_nl_hex_data; [tauto|reflexivity].
Qed.

(** ** Scanning the open tag *)

Lemma scan_head (w : string) (f : list directive) (r : string) :
  w = "writeXbytes"%string \/ w = "read"%string ->
  sscanf (lit ("<action instr=" ++ Q) ++ [FStr] ++ lit (" SpiCmd=" ++ Q) ++ [FUnsigned 32] ++
          lit (Q ++ " SpiCmdWidth=" ++ Q) ++ [FUnsigned 8] ++ lit (Q ++ " addr_width =" ++ Q) ++ f)
    ("<action instr=" ++ Q ++ w ++ Q ++ " SpiCmd=" ++ Q ++ "0" ++ Q ++ " SpiCmdWidth=" ++ Q ++ "0" ++ Q
     ++ " addr_width=" ++ Q ++ r)
  = VStr (w ++ Q) :: VNum 0 :: VNum 0 :: sscanf f r.
Proof. by intros [-> | ->]. Qed.

Lemma scan_unsigned (b n : Z) (f : list directive) (r : string) :
  printable n -> starts_digit 10 r = false ->
  sscanf ([FUnsigned b] ++ f) (print_int n ++ r) = VNum (n mod 2 ^ b) :: sscanf f r.
Proof. apply sscanf_unsigned. Qed.

Lemma scan_data_width (f : list directive) (r : string) :
  sscanf (lit (Q ++ " data_width=" ++ Q) ++ [FUnsigned 8] ++ lit (Q ++ " len=" ++ Q) ++ f)
    (Q ++ " data_width=" ++ Q ++ "1" ++ Q ++ " len=" ++ Q ++ r) = VNum 1 :: sscanf f r.
Proof. done. Qed.

Lemma scan_addr (f : list directive) (r : string) :
  sscanf (lit (Q ++ " addr=" ++ Q) ++ f) (Q ++ " addr=" ++ Q ++ r) = sscanf f r.
Proof. done. Qed.

Lemma scan_i2caddr (f : list directive) (r : string) :
  sscanf (lit (Q ++ " i2caddr=" ++ Q) ++ f) (Q ++ " i2caddr=" ++ Q ++ r) = sscanf f r.
Proof. done. Qed.

Lemma scan_protocol (r : string) :
  sscanf (lit (Q ++ " AddrIncr=" ++ Q) ++ [FSkip] ++ lit (" Protocol=" ++ Q) ++ [FStr])
    (Q ++ " AddrIncr=" ++ Q ++ "0" ++ Q ++ " Protocol=" ++ Q ++ "I2C" ++ Q ++ String " " r)
  = [VStr ("I2C" ++ Q)].
Proof. done. Qed.

Lemma scan_attributes (w : string) (width len addr dev : Z) (r : string) :
  w = "writeXbytes"%string \/ w = "read"%string ->
  is_u8 width -> 0 <= len < 65536 -> is_u32 addr -> is_u8 dev ->
  sscanf action_format ("<action instr=" ++ Q ++ w ++ Q ++ attributes width len addr dev (String " " r))
  = [VStr (w ++ Q); VNum 0; VNum 0; VNum width; VNum 1; VNum len; VNum addr; VNum dev; VStr ("I2C" ++ Q)].
Proof.
  intros Hw H1 H2 H3 H4. unfold action_format, attributes.
  unfold is_u8, is_u32, UINT32_MAX in *.
  rewrite scan_head by done.
  rewrite scan_unsigned by (done || (unfold printable; lia)).
  rewrite scan_data_width.
  rewrite scan_unsigned by (done || (unfold printable; lia)).
  rewrite scan_addr.
  rewrite scan_unsigned by (done || (unfold printable; lia)).
  rewrite scan_i2caddr.
  rewrite scan_unsigned by (done || (unfold printable; lia)).
  rewrite scan_protocol, !Z.mod_small by lia. done.
Qed.

(** ** The data *)

Lemma strsep_word (w r : string) :
  free_of " "%char w -> strsep_all (w ++ String " " r) = w :: strsep_all r.
Proof.
  unfold free_of. induction w as [|d w IH]; intros F; [done|]. cbn in F |- *.
  destruct (Ascii.eqb_spec d " ") as [-> | N]; [tauto|]. by rewrite IH by tauto.
Qed.

Lemma strsep_last (w : string) : free_of " "%char w -> strsep_all w = [w].
Proof.
  unfold free_of. induction w as [|d w IH]; intros F; [done|]. cbn in F |- *.
  destruct (Ascii.eqb_spec d " ") as [-> | N]; [tauto|]. by rewrite IH by tauto.
Qed.

Definition close_tag : string := "</action>" ++ NL.

(** The tokens of the data are the bytes; the closing tag sticks to the last
    one, and [strtoul] stops in front of it. *)
Lemma tokens_hex_data (data : list Z) :
  Forall is_u8 data -> data <> [] ->
  map strtoul16_u8 (strsep_all (hex_data data close_tag)) = data.
Proof.
  induction data as [|b data IH]; intros F N; [done|].
  apply Forall_cons_1 in F as [Fb F]. destruct data as [|b' data].
  - cbn [hex_data]. rewrite strsep_last.
    + cbn [map]. by rewrite strtoul16_hex2.
    + pose proof (hex2_free " " b eq_refl Fb) as Hf. unfold free_of in *.
      cbn in Hf |- *. intuition (congruence || discriminate).
  - cbn [hex_data] in IH |- *.
    change (hex2 b ++ " " ++ ?r)%string with (hex2 b ++ String " " r)%string.
    rewrite strsep_word by text_free. cbn [map].
    assert (hex2 b = hex2 b ++ EmptyString)%string as E by done.
    rewrite E, strtoul16_hex2 by done. f_equal. by apply IH.
Qed.

Lemma store_tokens_done (ts : list string) (buf : list Z) (off : Z) :
  0 <= off -> off + zlen ts <= zlen buf ->
  store_tokens buf off ts = Done (splice buf (Z.to_nat off) (map strtoul16_u8 ts)).
Proof.
  revert buf off. induction ts as [|t ts IH]; intros buf off H0 H1.
  - cbn. by rewrite splice_nil.
  - unfold zlen in *. cbn [length] in H1. cbn [store_tokens map].
    rewrite array_set_done by (unfold zlen; lia). cbn [obind].
    rewrite IH by (unfold zlen; rewrite ?length_insert; lia).
    replace (Z.to_nat (off + 1)) with (Z.to_nat off + length [strtoul16_u8 t])%nat by (cbn; lia).
    assert (<[Z.to_nat off:=strtoul16_u8 t]> buf = splice buf (Z.to_nat off) [strtoul16_u8 t]) as ->.
    { unfold splice. cbn [length app]. rewrite insert_take_drop by lia.
      by replace (S (Z.to_nat off)) with (Z.to_nat off + 1)%nat by lia. }
    rewrite splice_splice by (rewrite length_map; cbn; lia). done.
Qed.

(** ** One action *)

(** The store after [bytes] were appended to its data. *)
Definition append_data (st : cfg_store) (bytes : list Z) : cfg_store :=
  {| fileA2BConfig := fileA2BConfig st; num_actions := num_actions st;
     config_buffer := splice (config_buffer st) (Z.to_nat (write_offset st)) bytes;
     write_offset := write_offset st + zlen bytes |}.

Lemma parse_data_done (st : cfg_store) (c : command) (data : list Z) (config : ADI_A2B_DISCOVERY_CONFIG) :
  wf_attributes c -> Forall is_u8 data ->
  nDataCount config = (if decide (data = []) then 0 else Z.max 1 (nDataCount config)) ->
  0 <= write_offset st -> write_offset st + Z.max (nDataCount config) (zlen data) < MAX_CONFIG_DATA ->
  zlen (config_buffer st) = MAX_CONFIG_DATA ->
  parse_data st (open_tag c (">" ++ hex_data data close_tag)) config
  = Done (set_nDataCount (zlen data) (set_paConfigData (DBuffer (write_offset st)) config),
          append_data st data).
Proof.
  intros W F C H0 H1 HB. unfold parse_data.
  rewrite (proj2 (Z.leb_gt _ _)) by lia. rewrite after_open_tag by done. cbv zeta.
  set (ts := if nDataCount config =? 0 then [] else _).
  assert (map strtoul16_u8 ts = data) as Ets.
  { subst ts. case_decide as D; [subst data; by rewrite C|].
    rewrite (proj2 (Z.eqb_neq _ _)) by lia. by apply tokens_hex_data. }
  assert (zlen ts = zlen data) as Lts by (unfold zlen; by rewrite <-Ets, length_map).
  rewrite store_tokens_done by lia. cbn [obind]. rewrite Ets, Lts. unfold append_data, u16.
  rewrite Z.mod_small by (pose proof (zlen_nonneg data); unfold MAX_CONFIG_DATA in *; lia). done.
Qed.

Lemma mem_read_own (buf bytes : list Z) (off : Z) :
  0 <= off -> off + zlen bytes <= zlen buf ->
  mem_read (splice buf (Z.to_nat off) bytes) off (zlen bytes) = Done bytes.
Proof.
  intros H0 H1. rewrite mem_read_done by (rewrite ?zlen_splice by lia; auto using zlen_nonneg).
  f_equal. unfold zslice, splice, zlen in *.
  rewrite drop_app_length' by (rewrite length_take; lia). rewrite Nat2Z.id. apply take_app_length.
Qed.

(** The entry that the attributes of a write or a read give. *)
Definition attr_config (op : opcode) (width len addr dev : Z) : ADI_A2B_DISCOVERY_CONFIG :=
  {| nDeviceAddr := dev; eOpCode := op; nAddrWidth := width; nAddr := addr; nDataWidth := 1;
     nDataCount := len; paConfigData := DNull; nSpiCmdWidth := 0; nSpiCmd := 0; eProtocol := I2C |}.

Lemma parseAction_nine (st : cfg_store) (action w : string) (op : opcode) (width len addr dev : Z) :
  sscanf action_format action
  = [VStr (w ++ Q); VNum 0; VNum 0; VNum width; VNum 1; VNum len; VNum addr; VNum dev; VStr ("I2C" ++ Q)] ->
  (w = "writeXbytes"%string /\ op = A2B24XX_WRITE) \/ (w = "read"%string /\ op = A2B24XX_READ) ->
  parseAction st action cleared_config
  = if (addr =? A2B_REG_BECCTL) && (width =? 1)
    then Done (attr_config A2B24XX_INVALID width len addr dev, st)
    else match op with
         | A2B24XX_WRITE => parse_data st action (attr_config op width (u16 (len - width)) addr dev)
         | _ => Done (attr_config op width (u16 (len - width)) addr dev, st)
         end.
Proof. intros E. unfold parseAction. rewrite E. by intros [[-> ->] | [-> ->]]. Qed.

Lemma parseAction_attributes (st : cfg_store) (w r : string) (op : opcode) (width len addr dev : Z) :
  (w = "writeXbytes"%string /\ op = A2B24XX_WRITE) \/ (w = "read"%string /\ op = A2B24XX_READ) ->
  is_u8 width -> width <= len < 65536 -> is_u32 addr -> is_u8 dev ->
  let action := ("<action instr=" ++ Q ++ w ++ Q ++ attributes width len addr dev (String " " r))%string in
  parseAction st action cleared_config
  = if (addr =? A2B_REG_BECCTL) && (width =? 1)
    then Done (attr_config A2B24XX_INVALID width len addr dev, st)
    else match op with
         | A2B24XX_WRITE => parse_data st action (attr_config op width (len - width) addr dev)
         | _ => Done (attr_config op width (len - width) addr dev, st)
         end.
Proof.
  intros Hw H1 H2 H3 H4 action.
  rewrite (parseAction_nine st action w op width len addr dev); [|apply scan_attributes|done].
  - unfold u16. by rewrite Z.mod_small by (unfold is_u8 in *; lia).
  - destruct Hw; intuition.
  - done.
  - unfold is_u8 in *; lia.
  - done.
  - done.
Qed.

Lemma parse_write (st : cfg_store) (dev w a : Z) (data : list Z) :
  wf_command (CWrite dev w a data) ->
  0 <= write_offset st -> write_offset st + zlen data < MAX_CONFIG_DATA ->
  zlen (config_buffer st) = MAX_CONFIG_DATA ->
  parseAction st (line (CWrite dev w a data) NL) cleared_config
  = if (a =? A2B_REG_BECCTL) && (w =? 1)
    then Done (attr_config A2B24XX_INVALID w (w + zlen data) a dev, st)
    else Done (set_paConfigData (DBuffer (write_offset st)) (attr_config A2B24XX_WRITE w (zlen data) a dev),
               append_data st data).
Proof.
  intros (_ & Wd & Ww & Wa & Wb & Wl) H0 H1 HB. pose proof (zlen_nonneg data).
  etransitivity;
    [apply (parseAction_attributes st "writeXbytes" _ A2B24XX_WRITE w (w + zlen data) a dev);
     auto; unfold is_u8 in *; lia|]. cbv zeta. zif; [done|].
  replace (w + zlen data - w) with (zlen data) by lia.
  etransitivity; [refine (parse_data_done st (CWrite dev w a data) data _ _ _ _ _ _ _);
    cbn [attr_config nDataCount]; try done; try lia|done].
  case_decide as D; [by subst data|]. destruct data; [done|]. unfold zlen. cbn [length]. lia.
Qed.

Lemma parse_delay (st : cfg_store) (data : list Z) :
  wf_command (CDelay data) ->
  0 <= write_offset st -> write_offset st + zlen data < MAX_CONFIG_DATA ->
  zlen (config_buffer st) = MAX_CONFIG_DATA ->
  parseAction st (line (CDelay data) NL) cleared_config
  = Done (set_nDataCount (zlen data) (set_paConfigData (DBuffer (write_offset st))
            (set_nDataCount 1 (set_eOpCode A2B24XX_DELAY cleared_config))),
          append_data st data).
Proof.
  intros (_ & Wb & Wn) H0 H1 HB.
  refine (parse_data_done st (CDelay data) data _ _ _ _ _ _ _); try done; cbn [nDataCount set_nDataCount].
  - case_decide; [subst data; unfold zlen in Wn; cbn in Wn; lia|done].
  - lia.
Qed.

(** A line is read into an entry that stands for its command wherever the
    bytes that were appended can be read. *)
Lemma parse_line (st : cfg_store) (c : command) :
  wf_command c ->
  0 <= write_offset st -> write_offset st + stored_bytes c < MAX_CONFIG_DATA ->
  zlen (config_buffer st) = MAX_CONFIG_DATA ->
  exists config bytes,
    parseAction st (line c NL) cleared_config = Done (config, append_data st bytes)
    /\ zlen bytes <= stored_bytes c
    /\ forall buf, mem_read buf (write_offset st) (zlen bytes) = Done bytes ->
       entry buf config (effective c).
Proof.
  intros W H0 H1 HB.
  assert (append_data st [] = st) as Nil.
  { unfold append_data. rewrite splice_nil, Z.add_0_r. by destruct st. }
  destruct c as [dev w a data|dev w a n|data|]; cbn [stored_bytes effective] in *.
  - rewrite parse_write by done. zif.
    + eexists _, []. rewrite Nil. split; [done|]. split; [apply zlen_nonneg|]. split; [done|].
      right. cbn. apply andb_true_iff in Heqb as [Ha _]. by zbool.
    + eexists _, data. split; [done|]. split; [lia|]. intros buf E. split; [|done].
      unfold command_of. cbn. by rewrite E.
  - destruct W as (_ & Wd & Ww & Wa & Wn & Wl).
    exists (if (a =? A2B_REG_BECCTL) && (w =? 1)
            then attr_config A2B24XX_INVALID w (w + n) a dev else attr_config A2B24XX_READ w n a dev), [].
    rewrite Nil. split; [|split; [done|]].
    2:{ intros buf _. zif; split; try done. right. cbn. apply andb_true_iff in Heqb as [Ha _]. by zbool. }
    etransitivity; [apply (parseAction_attributes st "read" _ A2B24XX_READ w (w + n) a dev);
                    auto; unfold is_u8 in *; lia|].
    cbv zeta. zif; [done|]. by replace (w + n - w) with n by lia.
  - rewrite parse_delay by done. eexists _, data. split; [done|]. split; [lia|]. intros buf E.
    split; [unfold command_of; cbn; by rewrite E|by left].
  - eexists _, []. rewrite Nil. split; [reflexivity|]. split; [done|]. intros buf _. split; [done|by left].
Qed.

(** ** The whole list *)

Lemma mem_read_prefix (b1 b2 : list Z) (w off n : Z) :
  zlen b1 = zlen b2 -> 0 <= off -> 0 <= n -> off + n <= w ->
  take (Z.to_nat w) b1 = take (Z.to_nat w) b2 -> mem_read b1 off n = mem_read b2 off n.
Proof.
  intros L H0 H1 H2 E. unfold mem_read. rewrite L. zif; [|done]. f_equal.
  unfold zslice. apply list_eq. intros i.
  destruct (decide (i < Z.to_nat n)%nat) as [D|D]; [|rewrite !lookup_take_ge by lia; done].
  rewrite !lookup_take_lt, !lookup_drop by lia.
  assert (Z.to_nat off + i < Z.to_nat w)%nat as D' by lia.
  by rewrite <-(lookup_take_lt b1 _ _ D'), <-(lookup_take_lt b2 _ _ D'), E.
Qed.

(** The table holds [cs] and the rest of it is clear.  The commands depend
    only on the data in front of [write_offset]. *)
Record filled (st : cfg_store) (cs : list command) : Prop := {
  fl_count : num_actions st = zlen cs;
  fl_size : zlen (fileA2BConfig st) = MAX_ACTIONS;
  fl_buffer : zlen (config_buffer st) = MAX_CONFIG_DATA;
  fl_offset : 0 <= write_offset st <= MAX_CONFIG_DATA;
  fl_rest : forall i c, (length cs <= i)%nat -> fileA2BConfig st !! i = Some c -> c = cleared_config;
  fl_commands : forall i cmd, cs !! i = Some cmd ->
    exists c, fileA2BConfig st !! i = Some c /\
      forall buf, zlen buf = MAX_CONFIG_DATA ->
        take (Z.to_nat (write_offset st)) buf = take (Z.to_nat (write_offset st)) (config_buffer st) ->
        entry buf c cmd
}.

Lemma filled_zero : filled zero_store [].
Proof.
  constructor; try done.
  intros i c _ H. cbn [zero_store fileA2BConfig] in H. by apply lookup_replicate_1 in H as [-> _].
Qed.

Lemma filled_holds (st : cfg_store) (cs : list command) :
  filled st cs -> table_holds (config_buffer st) (take (length cs) (fileA2BConfig st)) cs.
Proof.
  intros F. apply Forall2_same_length_lookup_2.
  - rewrite length_take. pose proof (fl_size _ _ F) as L. pose proof (fl_count _ _ F).
    destruct (decide (length cs <= length (fileA2BConfig st))%nat); [lia|].
    destruct (lookup_lt_is_Some_2 cs (length (fileA2BConfig st))) as [cmd E]; [lia|].
    apply (fl_commands _ _ F) in E as (c & Ec & _). apply lookup_lt_Some in Ec. lia.
  - intros i c cmd Hc Hcmd. apply lookup_take_Some in Hc as [Hc _].
    apply (fl_commands _ _ F) in Hcmd as (c' & Ec & H). rewrite Hc in Ec. simplify_eq.
    apply H; [apply (fl_buffer _ _ F)|done].
Qed.

Lemma take_splice_before (buf bytes : list Z) (off : nat) :
  (off <= length buf)%nat -> take off (splice buf off bytes) = take off buf.
Proof. intros H. unfold splice. rewrite take_app_length' by (rewrite length_take; lia). done. Qed.

Lemma take_shorter (m n : nat) (a b : list Z) :
  (n <= m)%nat -> take m a = take m b -> take n a = take n b.
Proof.
  intros H E. assert (forall l : list Z, take n l = take n (take m l)) as T
    by (intros l; rewrite take_take; f_equal; lia).
  by rewrite (T a), (T b), E.
Qed.

(** Adding a line adds its command. *)
Lemma add_action_filled (st : cfg_store) (cs : list command) (c : command) :
  filled st cs -> wf_command c -> zlen cs < MAX_ACTIONS ->
  write_offset st + stored_bytes c < MAX_CONFIG_DATA ->
  exists st', add_action st (line c NL) = Done st' /\ filled st' (cs ++ [effective c])
              /\ write_offset st' <= write_offset st + stored_bytes c.
Proof.
  intros F W HN HO. destruct F as [Fn Fs Fb Fo Fr Fc].
  destruct (parse_line st c W) as (config & bytes & E & L & Hcmd); [lia..|].
  unfold add_action. rewrite Fn.
  assert (array_get (fileA2BConfig st) (zlen cs) = Done cleared_config) as ->.
  { destruct (lookup_lt_is_Some_2 (fileA2BConfig st) (length cs)) as [c0 E0]; [unfold zlen in *; lia|].
    assert (c0 = cleared_config) as -> by eauto.
    apply array_get_lookup; [apply zlen_nonneg|]. unfold zlen. by rewrite Nat2Z.id. }
  cbn [obind]. rewrite E. cbn [obind append_data fileA2BConfig num_actions].
  rewrite Fn, array_set_done by (pose proof (zlen_nonneg cs); lia). cbn [obind].
  eexists. split; [done|]. pose proof (zlen_nonneg bytes).
  cbn [append_data config_buffer write_offset]. split; [|lia].
  replace (Z.to_nat (zlen cs)) with (length cs) by (unfold zlen; lia).
  constructor; cbn [num_actions fileA2BConfig config_buffer write_offset].
  - rewrite zlen_app. done.
  - unfold zlen in *. by rewrite length_insert.
  - rewrite zlen_splice; lia.
  - lia.
  - intros i c0 Hi Hl. rewrite length_app in Hi. cbn in Hi.
    rewrite list_lookup_insert_ne in Hl by lia. apply (Fr i); [lia|done].
  - intros i cmd Hi. apply lookup_app_Some in Hi as [Hi | [Hge Hi]].
    + destruct (Fc _ _ Hi) as (c0 & E0 & H1). exists c0.
      apply lookup_lt_Some in Hi. rewrite list_lookup_insert_ne by lia. split; [done|].
      intros buf Lb Eb. apply H1; [done|].
      rewrite <-(take_splice_before (config_buffer st) bytes) by (unfold zlen in *; lia).
      apply (take_shorter (Z.to_nat (write_offset st + zlen bytes))); [lia|done].
    + assert (i = length cs) as -> by (apply lookup_lt_Some in Hi; cbn in Hi; lia).
      rewrite Nat.sub_diag in Hi. cbn in Hi. injection Hi as <-.
      exists config. rewrite list_lookup_insert_eq by (unfold zlen in *; lia). split; [done|].
      intros buf Lb Eb. apply Hcmd.
      etransitivity; [|apply (mem_read_own (config_buffer st) bytes (write_offset st)); lia].
      apply (mem_read_prefix _ _ (write_offset st + zlen bytes)); try lia; [|done].
      rewrite zlen_splice by lia. lia.
Qed.

Lemma strstr_lines (cs : list command) :
  strstr (NL ++ lines cs ("</ROM>" ++ NL)) "<action"
  = match cs with [] => None | c :: cs => Some (line c (NL ++ lines cs ("</ROM>" ++ NL))) end.
Proof. by destruct cs as [|[] cs]. Qed.

Fixpoint total_bytes (cs : list command) : Z :=
  match cs with [] => 0 | c :: cs => stored_bytes c + total_bytes cs end.

Lemma total_bytes_nonneg (cs : list command) : 0 <= total_bytes cs.
Proof.
  induction cs as [|c cs IH]; cbn [total_bytes]; [lia|].
  assert (0 <= stored_bytes c) by (destruct c; cbn; auto using zlen_nonneg; lia). lia.
Qed.

Lemma parse_lines (cs done : list command) (st : cfg_store) (fuel : nat) :
  filled st done -> Forall wf_command cs -> (length cs <= fuel)%nat ->
  zlen done + zlen cs <= MAX_ACTIONS -> write_offset st + total_bytes cs < MAX_CONFIG_DATA ->
  exists st', parse_loop true fuel st (strstr (NL ++ lines cs ("</ROM>" ++ NL)) "<action") = Done st'
              /\ filled st' (done ++ map effective cs).
Proof.
  revert done st fuel. induction cs as [|c cs IH]; intros done st fuel F W HF HN HO.
  - rewrite strstr_lines. exists st. rewrite app_nil_r. split; [by destruct fuel|done].
  - rewrite strstr_lines. apply Forall_cons_1 in W as [Wc W].
    cbn [total_bytes length] in HO, HF. destruct fuel as [|fuel]; [lia|].
    unfold zlen in HN. cbn [length] in HN. pose proof (total_bytes_nonneg cs).
    cbn [parse_loop]. rewrite (fl_count _ _ F), (proj2 (Z.ltb_lt _ _)) by (unfold zlen; lia).
    rewrite until_nl_line by done. rewrite (proj2 (Z.leb_gt _ _)) by apply Wc. cbn [negb].
    destruct (add_action_filled st done c F Wc) as (st1 & E1 & F1 & O1); [unfold zlen; lia|lia|].
    rewrite E1. cbn [obind].
    destruct (IH (done ++ [effective c]) st1 fuel F1 W) as (st2 & E2 & F2);
      [lia|rewrite zlen_app; unfold zlen; cbn; lia|lia|].
    exists st2. split; [done|]. by rewrite <-app_assoc in F2.
Qed.

(** ** Properties *)

(** C8. Reading the text of a command list back: for commands within the
    limits of the driver (at most 256, fewer than 16384 data bytes, each line
    shorter than the scratch buffer, numbers in the range of their members),
    [parseXML] fills the table of the driver with exactly these commands in
    this order, accesses to the bit error control register being dropped. *)
Theorem parse_document (cs : list command) :
  Forall wf_command cs -> zlen cs <= MAX_ACTIONS -> total_bytes cs < MAX_CONFIG_DATA ->
  exists st, parseXML true zero_store (document cs) = Done st
    /\ num_actions st = zlen cs
    /\ table_holds (config_buffer st) (take (length cs) (fileA2BConfig st)) (map effective cs).
Proof.
  intros W HN HO.
  destruct (parse_lines cs [] zero_store (Z.to_nat MAX_ACTIONS) filled_zero W) as (st & E & F);
    [unfold zlen in *; lia|unfold zlen in *; cbn; lia|cbn [write_offset zero_store]; lia|].
  exists st. split; [exact E|]. cbn in F. split.
  - rewrite (fl_count _ _ F). unfold zlen. by rewrite length_map.
  - apply filled_holds in F. by rewrite length_map in F.
Qed.

Definition sample_commands : list command :=
  [ CWrite 104 1 18 [132]; CDelay [25]; CRead 104 1 23 1; CWrite 104 1 27 [119; 120; 15];
    CWrite 104 1 30 [239]; CIgnored ].

Lemma parse_document_witness :
  exists st, parseXML true zero_store (document sample_commands) = Done st
    /\ num_actions st = 6
    /\ table_holds (config_buffer st) (take 6 (fileA2BConfig st))
         [ CWrite 104 1 18 [132]; CDelay [25]; CRead 104 1 23 1; CWrite 104 1 27 [119; 120; 15];
           CIgnored; CIgnored ].
Proof.
  apply (parse_document sample_commands).
  - repeat constructor; vm_compute; intuition discriminate.
  - vm_compute. discriminate.
  - vm_compute. reflexivity.
Defined.
