(* ===== verification/A2bBus.v ===== *)
(** * The A2B bus driver

    [a2b24xx.c] on the I2C bus: the configuration of the network, the
    interrupts, the search for a node that dropped off the bus and its partial
    rediscovery, the works and the interrupt line that drive them, the control
    device and the life cycle of the driver.

    The bus is seen through the transfers on it.  The trace records every
    message and every wait; what a read returns is a function of the trace so
    far, given by the environment. *)

From Stdlib Require Import ZArith Lia Ascii String.
From stdpp Require Import base list numbers.
From S2P Require Import Prelude CString Sscanf A2bConfig.

#[local] Open Scope Z_scope.

(** ** Addresses, registers and interrupt types *)

Definition A2B_BASE_ADDR : Z := 104.
Definition A2B_BUS_ADDR : Z := 105.
Definition A2B_MASTER_NODE : Z := -1.
Definition A2B_INVALID_NODE : Z := -2.
Definition MAX_RETRIES : Z := 2.

Definition A2B_REG_CHIP : Z := 0.
Definition A2B_REG_NODEADR : Z := 1.
Definition A2B_REG_SWCTL : Z := 9.
Definition A2B_REG_LDNSLOTS : Z := 11.
Definition A2B_REG_DNSLOTS : Z := 13.
Definition A2B_REG_SLOTFMT : Z := 16.
Definition A2B_REG_DATCTL : Z := 17.
Definition A2B_REG_CONTROL : Z := 18.
Definition A2B_REG_DISCVRY : Z := 19.
Definition A2B_REG_INTSRC : Z := 22.
Definition A2B_REG_INTTYPE : Z := 23.
Definition A2B_REG_INTPND0 : Z := 24.
Definition A2B_REG_NODE : Z := 41.
Definition A2B_REG_I2SGCFG : Z := 65.
Definition A2B_REG_I2SCFG : Z := 66.
Definition A2B_REG_PDMCTL : Z := 71.
Definition A2B_REG_I2STEST : Z := 83.
Definition A2B_REG_DNMASK0 : Z := 101.

Definition A2B_BITM_NODEADR_NODE : Z := 15.
Definition A2B_BITM_NODEADR_PERI : Z := 32.
Definition A2B_BITM_SWCTL_MODE : Z := 48.
Definition A2B_BITM_NODE_LAST : Z := 128.
Definition A2B_BITM_INTSRC_MSTINT : Z := 128.
Definition A2B_BITM_INTSRC_SLVINT : Z := 64.
Definition A2B_BITM_INTSRC_INODE : Z := 15.

Definition A2B_ENUM_INTTYPE_SRFERR : Z := 5.
Definition A2B_ENUM_INTTYPE_DSCDONE : Z := 24.

(** The interrupt types of the table [intTypeString]: the faults. *)
Definition intTypes : list Z :=
  [0; 1; 2; 3; 4; 5; 9; 10; 11; 12; 13; 14; 15; 25; 26; 41; 42; 47;
   65; 66; 67; 68; 69; 70; 80; 128; 252; 253].

(** ** State *)

(** What the driver does on the bus, in order. *)
Inductive event :=
| Send (addr : Z) (bytes : list Z)
| Transfer (addr : Z) (bytes : list Z) (len : Z)
| Mdelay (ms : Z).

(** [struct a2b24xx].  [from_file]: [pA2BConfig] points to [fileA2BConfig],
    else to the table that is built in. *)
Record a2b24xx := {
  master_fmt : Z;
  work_allowed : bool;
  log_enabled : bool;
  has_fault : bool;
  num_nodes : Z;
  node_cycles : list Z;
  node_pos : list Z;
  from_file : bool;
  a2b_cfg : cfg_store
}.

(** The driver with what the kernel keeps for it: the transfers so far, the
    mutex [bus_lock], the interrupt line (how often it is disabled, whether
    the handler is installed, the warnings about unbalanced enables), and the
    works that are queued. *)
Record a2b_sys := {
  drv : a2b24xx;
  bus_trace : list event;
  bus_lock : bool;
  irq_depth : Z;
  irq_handler_set : bool;
  irq_warnings : Z;
  fault_check_pending : bool;
  setup_pending : bool
}.

Definition set_master_fmt (v : Z) (s : a2b24xx) : a2b24xx :=
  {| master_fmt := v; work_allowed := work_allowed s; log_enabled := log_enabled s; has_fault :=
     has_fault s; num_nodes := num_nodes s; node_cycles := node_cycles s; node_pos := node_pos
     s; from_file := from_file s; a2b_cfg := a2b_cfg s |}.
Definition set_work_allowed (v : bool) (s : a2b24xx) : a2b24xx :=
  {| master_fmt := master_fmt s; work_allowed := v; log_enabled := log_enabled s; has_fault :=
     has_fault s; num_nodes := num_nodes s; node_cycles := node_cycles s; node_pos := node_pos
     s; from_file := from_file s; a2b_cfg := a2b_cfg s |}.
Definition set_log_enabled (v : bool) (s : a2b24xx) : a2b24xx :=
  {| master_fmt := master_fmt s; work_allowed := work_allowed s; log_enabled := v; has_fault :=
     has_fault s; num_nodes := num_nodes s; node_cycles := node_cycles s; node_pos := node_pos
     s; from_file := from_file s; a2b_cfg := a2b_cfg s |}.
Definition set_has_fault (v : bool) (s : a2b24xx) : a2b24xx :=
  {| master_fmt := master_fmt s; work_allowed := work_allowed s; log_enabled := log_enabled s;
     has_fault := v; num_nodes := num_nodes s; node_cycles := node_cycles s; node_pos :=
     node_pos s; from_file := from_file s; a2b_cfg := a2b_cfg s |}.
Definition set_num_nodes (v : Z) (s : a2b24xx) : a2b24xx :=
  {| master_fmt := master_fmt s; work_allowed := work_allowed s; log_enabled := log_enabled s;
     has_fault := has_fault s; num_nodes := v; node_cycles := node_cycles s; node_pos :=
     node_pos s; from_file := from_file s; a2b_cfg := a2b_cfg s |}.
Definition set_node_cycles (v : list Z) (s : a2b24xx) : a2b24xx :=
  {| master_fmt := master_fmt s; work_allowed := work_allowed s; log_enabled := log_enabled s;
     has_fault := has_fault s; num_nodes := num_nodes s; node_cycles := v; node_pos := node_pos
     s; from_file := from_file s; a2b_cfg := a2b_cfg s |}.
Definition set_node_pos (v : list Z) (s : a2b24xx) : a2b24xx :=
  {| master_fmt := master_fmt s; work_allowed := work_allowed s; log_enabled := log_enabled s;
     has_fault := has_fault s; num_nodes := num_nodes s; node_cycles := node_cycles s; node_pos
     := v; from_file := from_file s; a2b_cfg := a2b_cfg s |}.
Definition set_from_file (v : bool) (s : a2b24xx) : a2b24xx :=
  {| master_fmt := master_fmt s; work_allowed := work_allowed s; log_enabled := log_enabled s;
     has_fault := has_fault s; num_nodes := num_nodes s; node_cycles := node_cycles s; node_pos
     := node_pos s; from_file := v; a2b_cfg := a2b_cfg s |}.
Definition set_a2b_cfg (v : cfg_store) (s : a2b24xx) : a2b24xx :=
  {| master_fmt := master_fmt s; work_allowed := work_allowed s; log_enabled := log_enabled s;
     has_fault := has_fault s; num_nodes := num_nodes s; node_cycles := node_cycles s; node_pos
     := node_pos s; from_file := from_file s; a2b_cfg := v |}.

Definition set_drv (v : a2b24xx) (s : a2b_sys) : a2b_sys :=
  {| drv := v; bus_trace := bus_trace s; bus_lock := bus_lock s; irq_depth := irq_depth s;
     irq_handler_set := irq_handler_set s; irq_warnings := irq_warnings s; fault_check_pending
     := fault_check_pending s; setup_pending := setup_pending s |}.
Definition set_bus_trace (v : list event) (s : a2b_sys) : a2b_sys :=
  {| drv := drv s; bus_trace := v; bus_lock := bus_lock s; irq_depth := irq_depth s;
     irq_handler_set := irq_handler_set s; irq_warnings := irq_warnings s; fault_check_pending
     := fault_check_pending s; setup_pending := setup_pending s |}.
Definition set_bus_lock (v : bool) (s : a2b_sys) : a2b_sys :=
  {| drv := drv s; bus_trace := bus_trace s; bus_lock := v; irq_depth := irq_depth s;
     irq_handler_set := irq_handler_set s; irq_warnings := irq_warnings s; fault_check_pending
     := fault_check_pending s; setup_pending := setup_pending s |}.
Definition set_irq_depth (v : Z) (s : a2b_sys) : a2b_sys :=
  {| drv := drv s; bus_trace := bus_trace s; bus_lock := bus_lock s; irq_depth := v;
     irq_handler_set := irq_handler_set s; irq_warnings := irq_warnings s; fault_check_pending
     := fault_check_pending s; setup_pending := setup_pending s |}.
Definition set_irq_handler_set (v : bool) (s : a2b_sys) : a2b_sys :=
  {| drv := drv s; bus_trace := bus_trace s; bus_lock := bus_lock s; irq_depth := irq_depth s;
     irq_handler_set := v; irq_warnings := irq_warnings s; fault_check_pending :=
     fault_check_pending s; setup_pending := setup_pending s |}.
Definition set_irq_warnings (v : Z) (s : a2b_sys) : a2b_sys :=
  {| drv := drv s; bus_trace := bus_trace s; bus_lock := bus_lock s; irq_depth := irq_depth s;
     irq_handler_set := irq_handler_set s; irq_warnings := v; fault_check_pending :=
     fault_check_pending s; setup_pending := setup_pending s |}.
Definition set_fault_check_pending (v : bool) (s : a2b_sys) : a2b_sys :=
  {| drv := drv s; bus_trace := bus_trace s; bus_lock := bus_lock s; irq_depth := irq_depth s;
     irq_handler_set := irq_handler_set s; irq_warnings := irq_warnings s; fault_check_pending
     := v; setup_pending := setup_pending s |}.
Definition set_setup_pending (v : bool) (s : a2b_sys) : a2b_sys :=
  {| drv := drv s; bus_trace := bus_trace s; bus_lock := bus_lock s; irq_depth := irq_depth s;
     irq_handler_set := irq_handler_set s; irq_warnings := irq_warnings s; fault_check_pending
     := fault_check_pending s; setup_pending := v |}.

(** The environment: the interrupt of the I2C client (0: none), the result of
    requesting it, the answer of a transfer (its return value and the bytes
    it has put into the buffer), and the memory that [kmalloc] returns. *)
Record host := {
  client_irq : Z;
  request_irq : Z;
  i2c_transfer : list event -> Z -> list Z -> Z -> Z * list Z;
  kmalloc : list event -> option (list Z)
}.

Definition io (A : Type) : Type := st a2b_sys A.

Definition upd (f : a2b24xx -> a2b24xx) : io unit := smodify (fun s => set_drv (f (drv s)) s).
Definition get : io a2b24xx := fun s => Done (drv s, s).

Definition emit (e : event) : io unit := smodify (fun s => set_bus_trace (bus_trace s ++ [e]) s).
Definition mdelay (ms : Z) : io unit := emit (Mdelay ms).

Definition mutex_lock : io unit :=
  fun s => if bus_lock s then Blocked else Done (tt, set_bus_lock true s).
Definition mutex_unlock : io unit := smodify (set_bus_lock false).

(** A loop [for (i = from; i < from + count; i++)] over an action. *)
Fixpoint for_loop (count : nat) (from : Z) (body : Z -> io unit) : io unit :=
  match count with
  | O => sret tt
  | S count => do! _ := body from in for_loop count (from + 1) body
  end.

(** ** The register address *)

Definition adi_a2b_Concat_Addr_Data (dst : list Z) (nAddrwidth nAddr : Z) : outcome (list Z) :=
  if nAddrwidth =? 1 then mem_write dst 0 [u8 nAddr]
  else if nAddrwidth =? 2 then mem_write dst 0 [u8 (Z.shiftr nAddr 8); u8 (Z.land nAddr 255)]
  else if nAddrwidth =? 3 then
    mem_write dst 0 [u8 (Z.shiftr (Z.land nAddr 16711680) 16); u8 (Z.shiftr (Z.land nAddr 65280) 8);
                     u8 (Z.land nAddr 255)]
  else if nAddrwidth =? 4 then
    mem_write dst 0 [u8 (Z.shiftr nAddr 24); u8 (Z.shiftr (Z.land nAddr 16711680) 16);
                     u8 (Z.shiftr (Z.land nAddr 65280) 8); u8 (Z.land nAddr 255)]
  else Done dst.

Section Driver.

Context (gaA2BConfig : list ADI_A2B_DISCOVERY_CONFIG) (h : host).

(** ** Transfers *)

(** [adi_a2b_I2CWrite] with a buffer of exactly the bytes to send; nobody
    looks at its result. *)
Definition adi_a2b_I2CWrite (devAddr : Z) (bytes : list Z) : io unit := emit (Send devAddr bytes).

(** [adi_a2b_I2CRead]: 0 or a negative error, and the buffer with the bytes
    that arrived. *)
Definition adi_a2b_I2CRead (devAddr : Z) (writeBuffer : list Z) (readLength : Z) (readBuffer : list Z)
  : io (Z * list Z) :=
  fun s =>
    let '(ret, bytes) := i2c_transfer h (bus_trace s) devAddr writeBuffer readLength in
    let! buf := mem_write readBuffer 0 (take (Z.to_nat readLength) bytes) in
    Done (((if ret <? 0 then ret else 0), buf),
          set_bus_trace (bus_trace s ++ [Transfer devAddr writeBuffer readLength]) s).

(** ** The table of actions *)

(** [pA2BConfig[i]]. *)
Definition pA2BConfig (d : a2b24xx) (i : Z) : outcome ADI_A2B_DISCOVERY_CONFIG :=
  array_get (if from_file d then fileA2BConfig (a2b_cfg d) else gaA2BConfig) i.

(** [paConfigData[0]]. *)
Definition first_data (d : a2b24xx) (c : ADI_A2B_DISCOVERY_CONFIG) : outcome Z :=
  match paConfigData c with
  | DNull => Undef
  | DBuffer off => array_get (config_buffer (a2b_cfg d)) off
  | DTable bytes => array_get bytes 0
  end.

(** The scratch buffer of 6000 bytes. *)
Definition alloc_scratch : io (option (list Z)) :=
  fun s => Done (option_map (resize (Z.to_nat SCRATCH) 0) (kmalloc h (bus_trace s)), s).

(** [A2B24XX_WRITE]: address and data are put together in the scratch buffer
    and sent from there. *)
Definition write_action (d : a2b24xx) (aDataBuffer : option (list Z)) (c : ADI_A2B_DISCOVERY_CONFIG)
  : io (option (list Z)) :=
  match aDataBuffer with
  | None => slift Undef
  | Some buf =>
      do! buf := slift (adi_a2b_Concat_Addr_Data buf (nAddrWidth c) (nAddr c)) in
      do! data := slift (data_bytes (config_buffer (a2b_cfg d)) (paConfigData c) (nDataCount c)) in
      do! buf := slift (mem_write buf (nAddrWidth c) data) in
      do! bytes := slift (mem_read buf 0 (u16 (nAddrWidth c + nDataCount c))) in
      do! _ := adi_a2b_I2CWrite (nDeviceAddr c) bytes in
      sret (Some buf)
  end.

(** [nDelayVal = (nDelayVal << 8u) | data], in 32 bits. *)
Definition delay_value (data : list Z) : Z :=
  fold_left (fun v b => Z.lor (u32 (Z.shiftl v 8)) b) data 0.

(** ** Interrupts *)

(** [processInterrupt]; the call of [checkFaultNode] that it makes for a
    partial discovery is the argument [check]. *)
Definition processInterrupt_with (check : Z -> io unit) (partialDisc : bool) : io Z :=
  do! (_, dataBuffer) := adi_a2b_I2CRead A2B_BASE_ADDR [A2B_REG_INTSRC] 2 [0; 0] in
  do! src := slift (array_get dataBuffer 0) in
  do! type := slift (array_get dataBuffer 1) in
  if negb (src =? 0) then
    let inode :=
      if negb (Z.land src A2B_BITM_INTSRC_MSTINT =? 0) then A2B_MASTER_NODE
      else if negb (Z.land src A2B_BITM_INTSRC_SLVINT =? 0) then Z.land src A2B_BITM_INTSRC_INODE
      else A2B_MASTER_NODE in
    if existsb (Z.eqb type) intTypes then
      do! _ := upd (set_has_fault true) in
      do! _ := (if partialDisc then check inode else sret tt) in
      sret type
    else sret type
  else
    do! _ := (if partialDisc then check A2B_INVALID_NODE else sret tt) in
    sret (-1).

(** [processInterrupt (a2b24xx, false)]. *)
Definition processInterrupt_poll : io Z := processInterrupt_with (fun _ => sret tt) false.

(** ** Configuring the network *)

(** [A2B24XX_READ]: the scratch buffer is cleared and filled; the address is
    put into a buffer of 4 bytes. *)
Definition read_action (aDataBuffer : option (list Z)) (c : ADI_A2B_DISCOVERY_CONFIG)
  : io (option (list Z)) :=
  match aDataBuffer with
  | None => slift Undef
  | Some buf =>
      do! buf := slift (mem_write buf 0 (replicate (Z.to_nat (nDataCount c)) 0)) in
      do! addr := slift (adi_a2b_Concat_Addr_Data [0; 0; 0; 0] (nAddrWidth c) (nAddr c)) in
      do! d := get in
      do! buf := (if (nAddr c =? A2B_REG_INTTYPE) && negb (has_fault d)
                  then do! _ := processInterrupt_poll in sret buf
                  else
                    do! addr := slift (mem_read addr 0 (nAddrWidth c)) in
                    do! (_, buf) := adi_a2b_I2CRead (nDeviceAddr c) addr (nDataCount c) buf in
                    sret buf) in
      do! _ := mdelay 2 in
      sret (Some buf)
  end.

Definition setup_action (aDataBuffer : option (list Z)) (c : ADI_A2B_DISCOVERY_CONFIG)
  : io (option (list Z)) :=
  do! d := get in
  match eOpCode c with
  | A2B24XX_WRITE => write_action d aDataBuffer c
  | A2B24XX_READ => read_action aDataBuffer c
  | A2B24XX_DELAY =>
      do! data := slift (data_bytes (config_buffer (a2b_cfg d)) (paConfigData c) (nDataCount c)) in
      do! _ := (if 0 <? delay_value data then mdelay (delay_value data) else sret tt) in
      sret aDataBuffer
  | A2B24XX_INVALID => sret aDataBuffer
  end.

Fixpoint setup_loop (count : nat) (nIndex : Z) (aDataBuffer : option (list Z)) : io unit :=
  match count with
  | O => sret tt
  | S count =>
      do! d := get in
      do! c := slift (pA2BConfig d nIndex) in
      do! aDataBuffer := setup_action aDataBuffer c in
      setup_loop count (nIndex + 1) aDataBuffer
  end.

Definition adi_a2b_NetworkSetup : io unit :=
  do! _ := upd (set_has_fault false) in
  do! buf := alloc_scratch in
  do! d := get in
  setup_loop (Z.to_nat (num_actions (a2b_cfg d))) 0 buf.

(** ** Rediscovery of one node *)

(** The attempts to see the node discovered: 24 ends them well. *)
Fixpoint discovery_loop (fuel : nat) (retry_count : Z) : io bool :=
  match fuel with
  | O => fun _ => Blocked
  | S fuel =>
      do! interrupt := processInterrupt_poll in
      if interrupt =? A2B_ENUM_INTTYPE_DSCDONE then sret true
      else
        let retry_count := u8 (retry_count + 1) in
        if (retry_count <? MAX_RETRIES) && (interrupt =? A2B_ENUM_INTTYPE_SRFERR) then
          do! _ := mdelay 25 in discovery_loop fuel retry_count
        else sret false
  end.

(** The actions of the node end where another node is addressed, a discovery
    starts or a switch changes its mode. *)
Definition node_ends (d : a2b24xx) (c : ADI_A2B_DISCOVERY_CONFIG) (inode : Z) : outcome bool :=
  let! other :=
    (if (nAddr c =? A2B_REG_NODEADR) && (nDeviceAddr c =? A2B_BASE_ADDR)
     then let! b := first_data d c in Done (negb (Z.land b A2B_BITM_NODEADR_NODE =? inode))
     else Done false) in
  if other then Done true
  else if (nAddr c =? A2B_REG_DISCVRY) && (nDeviceAddr c =? A2B_BASE_ADDR) then Done true
  else if nAddr c =? A2B_REG_SWCTL
  then let! b := first_data d c in Done (negb (Z.land b A2B_BITM_SWCTL_MODE =? 0))
  else Done false.

(** The index over the bytes of a delay is an [uint8_t]: with 256 bytes or
    more the loop does not end. *)
Definition node_action (aDataBuffer : option (list Z)) (c : ADI_A2B_DISCOVERY_CONFIG)
  : io (option (list Z)) :=
  do! d := get in
  match eOpCode c with
  | A2B24XX_WRITE => write_action d aDataBuffer c
  | A2B24XX_DELAY =>
      if nDataCount c <=? 255 then
        do! data := slift (data_bytes (config_buffer (a2b_cfg d)) (paConfigData c) (nDataCount c)) in
        do! _ := mdelay (delay_value data) in
        sret aDataBuffer
      else (fun _ => Blocked)
  | _ => sret aDataBuffer
  end.

Fixpoint node_loop (count : nat) (i inode : Z) (aDataBuffer : option (list Z)) : io unit :=
  match count with
  | O => sret tt
  | S count =>
      do! d := get in
      do! c := slift (pA2BConfig d i) in
      do! stop := slift (node_ends d c inode) in
      if (stop : bool) then sret tt
      else
        do! aDataBuffer := node_action aDataBuffer c in
        node_loop count (i + 1) inode aDataBuffer
  end.

Definition select_node (i : Z) : io unit := adi_a2b_I2CWrite A2B_BASE_ADDR [A2B_REG_NODEADR; u8 i].
Definition base_write (reg val : Z) : io unit := adi_a2b_I2CWrite A2B_BASE_ADDR [reg; val].
Definition bus_write (reg val : Z) : io unit := adi_a2b_I2CWrite A2B_BUS_ADDR [reg; val].

(** The switches of the first [n] nodes are set to [val]. *)
Definition set_switches (n val : Z) : io unit :=
  for_loop (Z.to_nat n) 0 (fun i => do! _ := select_node i in bus_write A2B_REG_SWCTL val).

(** Opens the switch in front of [inode], closes the ones upstream and starts
    its discovery. *)
Definition start_discovery (inode : Z) : io unit :=
  do! d := get in
  do! _ := select_node (inode - 1) in
  do! _ := bus_write A2B_REG_SWCTL 0 in
  do! _ := bus_write A2B_REG_INTPND0 255 in
  do! _ := mdelay 100 in
  do! _ := base_write A2B_REG_SWCTL 33 in
  do! _ := set_switches (inode - 1) 33 in
  do! _ := select_node (inode - 1) in
  do! _ := bus_write A2B_REG_SWCTL 1 in
  do! cycles := slift (array_get (node_cycles d) inode) in
  do! _ := base_write A2B_REG_DISCVRY cycles in
  mdelay 35.

(** Closes the switches up to the discovered node and runs its actions. *)
Definition configure_node (inode : Z) : io unit :=
  do! _ := base_write A2B_REG_SWCTL 1 in
  do! _ := set_switches inode 1 in
  do! buf := alloc_scratch in
  do! _ := select_node inode in
  do! d := get in
  do! pos := slift (array_get (node_pos d) inode) in
  do! _ := node_loop (Z.to_nat (num_actions (a2b_cfg d) - pos)) pos inode buf in
  adi_a2b_I2CWrite A2B_BASE_ADDR [A2B_REG_SLOTFMT; master_fmt d; 3; 129].

(** The log line looks into the tables. *)
Definition log_node (d : a2b24xx) (inode : Z) : outcome unit :=
  if log_enabled d then
    let! _ := array_get (node_cycles d) inode in
    let! pos := array_get (node_pos d) inode in
    let! _ := pA2BConfig d pos in Done tt
  else Done tt.

Definition processSingleNode (inode : Z) : io bool :=
  do! d := get in
  if negb ((1 <=? inode) && (inode <=? num_nodes d)) then sret false
  else
    do! _ := slift (log_node d inode) in
    do! _ := start_discovery inode in
    do! found := discovery_loop (Z.to_nat MAX_RETRIES) 0 in
    if (found : bool) then do! _ := configure_node inode in sret true
    else
      do! _ := bus_write A2B_REG_SWCTL 0 in
      do! _ := base_write A2B_REG_CONTROL 130 in
      sret false.

(** ** Faults *)

(** The nodes from [i] on, until one fails; false when one failed. *)
Fixpoint rediscover (fuel : nat) (i : Z) : io bool :=
  do! d := get in
  if i <=? num_nodes d then
    match fuel with
    | O => fun _ => Blocked
    | S fuel =>
        do! ok := processSingleNode i in
        if negb ok then sret false
        else
          do! _ := mdelay 1 in
          do! _ := adi_a2b_I2CRead A2B_BASE_ADDR [A2B_REG_INTSRC] 2 [0; 0] in
          rediscover fuel (u8 (i + 1))
    end
  else sret true.

Definition processFaultNode (inode : Z) : io unit :=
  if inode <=? 0 then adi_a2b_NetworkSetup
  else
    do! ok := rediscover 256 (u8 inode) in
    if (ok : bool) then
      do! d := get in
      do! _ := select_node (num_nodes d) in
      do! _ := bus_write A2B_REG_SWCTL 0 in
      do! _ := base_write A2B_REG_CONTROL 130 in
      upd (set_has_fault false)
    else sret tt.

(** The last node that answers.  With 255 nodes the loop variable never
    passes the end, so a round over all of them does not end the search. *)
Fixpoint last_node (fuel : nat) (i : Z) (dataBuffer : list Z) : io Z :=
  do! d := get in
  if i <=? num_nodes d then
    match fuel with
    | O => fun _ => Blocked
    | S fuel =>
        do! _ := select_node i in
        do! (ret, dataBuffer) := adi_a2b_I2CRead A2B_BUS_ADDR [A2B_REG_NODE] 1 dataBuffer in
        if negb (ret =? 0) then sret (to_signed 8 (i - 1))
        else
          do! node := slift (array_get dataBuffer 0) in
          if negb (Z.land node A2B_BITM_NODE_LAST =? 0) then sret (to_signed 8 i)
          else last_node fuel (u8 (i + 1)) dataBuffer
    end
  else sret A2B_MASTER_NODE.

Definition checkFaultNode (inode : Z) : io unit :=
  do! _ := mutex_lock in
  do! lastNode := last_node 256 0 [0] in
  do! d := get in
  do! _ := (if lastNode <? num_nodes d then
              do! _ := upd (set_has_fault true) in
              processFaultNode (to_signed 8 (lastNode + 1))
            else sret tt) in
  mutex_unlock.

Definition processInterrupt (partialDisc : bool) : io Z := processInterrupt_with checkFaultNode partialDisc.

(** ** The works and the interrupt line *)

Definition schedule_delayed_work : io unit := smodify (set_fault_check_pending true).

(** An enable of a line that is enabled is only reported. *)
Definition enable_irq : io unit :=
  smodify (fun s => if irq_depth s =? 0 then set_irq_warnings (irq_warnings s + 1) s
                    else set_irq_depth (irq_depth s - 1) s).
Definition disable_irq_nosync : io unit := smodify (fun s => set_irq_depth (irq_depth s + 1) s).

Definition a2b24xx_schedule_fault_check : io unit :=
  do! d := get in
  if (client_irq h =? 0) || has_fault d then schedule_delayed_work else enable_irq.

Definition a2b24xx_disable_fault_check : io unit :=
  do! _ := upd (set_work_allowed false) in
  smodify (set_fault_check_pending false).

Definition a2b24xx_reset : io unit :=
  do! _ := a2b24xx_disable_fault_check in
  do! _ := adi_a2b_NetworkSetup in
  do! _ := upd (set_work_allowed true) in
  a2b24xx_schedule_fault_check.

(** The reset through a control of the sound core. *)
Definition a2b24xx_reset_put : io Z := do! _ := a2b24xx_reset in sret 1.

Definition a2b24xx_irq_handler : io unit :=
  do! _ := disable_irq_nosync in
  do! d := get in
  if work_allowed d then schedule_delayed_work else sret tt.

Definition a2b24xx_fault_check_work : io unit :=
  do! _ := upd (set_has_fault false) in
  do! _ := processInterrupt true in
  a2b24xx_schedule_fault_check.

(** ** The scan of the table at setup *)

(** The entry addresses a node, and not a peripheral behind one. *)
Definition addresses_node (d : a2b24xx) (i : Z) : outcome bool :=
  let! c := pA2BConfig d i in
  if nAddr c =? A2B_REG_NODEADR then
    let! next := pA2BConfig d (i + 1) in
    if nAddr next =? A2B_REG_CHIP then Done false
    else let! b := first_data d c in Done (Z.land b A2B_BITM_NODEADR_PERI =? 0)
  else Done false.

(** From entry [count] down to entry 1: the format of the master and the
    number of nodes. *)
Fixpoint scan_master (count : nat) (d : a2b24xx) : outcome a2b24xx :=
  match count with
  | O => Done d
  | S count' =>
      let i := Z.of_nat count in
      let! c := pA2BConfig d i in
      if (nAddr c =? A2B_REG_SLOTFMT) && (nDeviceAddr c =? A2B_BASE_ADDR) then
        let! b := first_data d c in Done (set_master_fmt b d)
      else
        let! node := addresses_node d i in
        if (node : bool) then let! b := first_data d c in scan_master count' (set_num_nodes b d)
        else scan_master count' d
  end.

(** From entry [count] down to entry 1: the node that is addressed there gets
    the position [pos]. *)
Fixpoint scan_position (count : nat) (pos : Z) (d : a2b24xx) : outcome a2b24xx :=
  match count with
  | O => Done d
  | S count' =>
      let j := Z.of_nat count in
      let! node := addresses_node d j in
      if (node : bool) then
        let! c := pA2BConfig d j in
        let! b := first_data d c in
        let! p := array_set (node_pos d) b (u16 pos) in
        Done (set_node_pos p d)
      else scan_position count' pos d
  end.

Fixpoint scan_nodes (count : nat) (i node_id : Z) (d : a2b24xx) : outcome a2b24xx :=
  match count with
  | O => Done d
  | S count =>
      let! c := pA2BConfig d i in
      let! (d, node_id) :=
        (if (nAddr c =? A2B_REG_DISCVRY) && (nDeviceAddr c =? A2B_BASE_ADDR) then
           let! b := first_data d c in
           let! cycles := array_set (node_cycles d) node_id b in
           Done (set_node_cycles cycles d, u8 (node_id + 1))
         else Done (d, node_id)) in
      let! d := (if (nAddr c =? A2B_REG_LDNSLOTS) && (nAddrWidth c =? 1)
                 then scan_position (Z.to_nat i) i d else Done d) in
      scan_nodes count (i + 1) node_id d
  end.

Definition scan_table (d : a2b24xx) : outcome a2b24xx :=
  let n := num_actions (a2b_cfg d) in
  let! d := scan_master (Z.to_nat (n - 1)) d in
  scan_nodes (Z.to_nat n) 0 0 d.

(** The interrupt is requested disabled; a failure is only logged. *)
Definition devm_request_irq : io unit :=
  if request_irq h =? 0
  then smodify (fun s => set_irq_depth 1 (set_irq_handler_set true s)) else sret tt.

Definition a2b24xx_setup_work : io unit :=
  do! _ := smodify (set_setup_pending false) in
  do! _ := adi_a2b_NetworkSetup in
  do! d := get in
  do! d := slift (scan_table d) in
  do! _ := upd (fun _ => d) in
  do! _ := devm_request_irq in
  do! _ := mdelay 5000 in
  schedule_delayed_work.

End Driver.
