(* ===== verification/A2bControl.v ===== *)
(** * The control device and the life cycle of the A2B driver

    [a2b24xx_ctrl_write], the commands of the control device of
    [a2b24xx.c], and [a2b24xx_probe] and [a2b24xx_remove] with the I2C glue of
    [a2b24xx-i2c.c]. *)

From Stdlib Require Import ZArith Lia Ascii String.
From stdpp Require Import base list numbers.
From S2P Require Import Prelude CString Sscanf A2bConfig A2bBus.

#[local] Open Scope Z_scope.

(** ** Commands *)

Definition i2scfg : list Z := [17; 145].
Definition i2stest : list Z := [6; 1; 16; 192].

Definition loopback_format : list directive :=
  lit "Loopback Slave" ++ [FSigned 16] ++ lit " " ++ [FSigned 16].
Definition rx_format : list directive :=
  lit "RX Slave" ++ [FSigned 16] ++ lit " " ++ [FSigned 16].
Definition pdm_format : list directive :=
  lit "PDM Slave" ++ [FSigned 16] ++ lit " MIC" ++ [FSigned 16].

(** The numbers that were converted, over the old content of [params]. *)
Definition scanned_params (vs : list value) (p : Z * Z) : Z * Z :=
  match vs with
  | [VNum a] => (a, snd p)
  | [VNum a; VNum b] => (a, b)
  | _ => p
  end.

Section Control.

Context (gaA2BConfig : list ADI_A2B_DISCOVERY_CONFIG) (h : host).

(** A loop [for (i = from; i >= 0; i--)]. *)
Fixpoint down_loop (count : nat) (from : Z) (body : Z -> io unit) : io unit :=
  match count with
  | O => sret tt
  | S count => do! _ := body from in down_loop count (from - 1) body
  end.

(** [Loopback Slave<node> <test>]. *)
Definition loopback (p0 p1 : Z) : io unit :=
  do! d := get in
  if p0 <? 0 then
    do! _ := a2b24xx_disable_fault_check in
    do! _ := base_write A2B_REG_DATCTL 0 in
    do! test := slift (array_get i2stest p1) in
    base_write A2B_REG_I2STEST test
  else if (p0 <=? num_nodes d) && ((0 <=? p1) && (p1 <=? 3)) then
    do! _ := mutex_lock in
    do! _ := select_node p0 in
    do! _ := bus_write A2B_REG_PDMCTL 0 in
    do! _ := bus_write A2B_REG_I2SCFG 17 in
    do! _ := bus_write A2B_REG_DNMASK0 3 in
    do! test := slift (array_get i2stest p1) in
    do! _ := bus_write A2B_REG_I2STEST test in
    do! _ := (if p0 =? 0 then sret tt
              else down_loop (Z.to_nat (p0 + 1)) p0
                     (fun i => do! _ := select_node i in bus_write A2B_REG_DNSLOTS 2)) in
    do! _ := bus_write A2B_REG_I2SGCFG 18 in
    do! _ := base_write A2B_REG_DNSLOTS 2 in
    do! _ := adi_a2b_I2CWrite A2B_BASE_ADDR [A2B_REG_SLOTFMT; master_fmt d; 3; 129] in
    mutex_unlock
  else sret tt.

(** [RX Slave<node> <format>]. *)
Definition receive (p0 p1 : Z) : io unit :=
  do! d := get in
  if ((0 <=? p0) && (p0 <=? num_nodes d)) && ((0 <=? p1) && (p1 <=? 1)) then
    do! _ := mutex_lock in
    do! _ := select_node p0 in
    do! format := slift (array_get i2scfg p1) in
    do! _ := bus_write A2B_REG_I2SCFG format in
    do! _ := bus_write A2B_REG_PDMCTL 0 in
    mutex_unlock
  else sret tt.

(** One node of [PDM Slave<node> MIC<mic>]. *)
Definition pdm_node (p0 p1 argc i : Z) : io unit :=
  do! _ := select_node i in
  do! _ := bus_write A2B_REG_I2SCFG 1 in
  if (p0 <? 0) || (argc =? 1) then bus_write A2B_REG_PDMCTL 21
  else if p0 =? i then
    if p1 =? 0 then bus_write A2B_REG_PDMCTL 17
    else if p1 =? 1 then bus_write A2B_REG_PDMCTL 20
    else sret tt
  else bus_write A2B_REG_PDMCTL 0.

(** With 255 nodes the loop variable, an [uint8_t], never passes the end. *)
Definition microphones (p0 p1 argc : Z) : io unit :=
  do! d := get in
  if p0 <=? num_nodes d then
    do! _ := mutex_lock in
    do! _ := (if num_nodes d =? 255 then (fun _ => Blocked)
              else for_loop (Z.to_nat (num_nodes d + 1)) 0 (pdm_node p0 p1 argc)) in
    mutex_unlock
  else sret tt.

Definition ctrl_command (command : string) : io unit :=
  if String.eqb command "Reset" then a2b24xx_reset gaA2BConfig h
  else if String.eqb command "Log Enable" then upd (fun d => set_log_enabled (negb (log_enabled d)) d)
  else if String.eqb command "Disable Fault Check" then a2b24xx_disable_fault_check
  else
    let vs := sscanf loopback_format command in
    let p := scanned_params vs (0, 0) in
    if 1 <=? zlen vs then loopback (fst p) (snd p)
    else
      let vs := sscanf rx_format command in
      let p := scanned_params vs p in
      if zlen vs =? 2 then receive (fst p) (snd p)
      else
        let vs := sscanf pdm_format command in
        let p := scanned_params vs p in
        if 0 <? zlen vs then microphones (fst p) (snd p) (zlen vs) else sret tt.

(** [a2b24xx_ctrl_write]: [buf] is what can be copied from the user.  The last
    character is overwritten by the terminating NUL. *)
Definition a2b24xx_ctrl_write (buf : option string) (count : Z) : io Z :=
  let len := Z.min count COMMAND_SIZE in
  if len =? 0 then sret (- EINVAL)
  else
    match buf with
    | None => sret (- EFAULT)
    | Some text =>
        if Z.of_nat (String.length text) <? len then sret (- EFAULT)
        else
          do! _ := ctrl_command (c_text (String.substring 0 (Z.to_nat (len - 1)) text)) in
          sret len
    end.

End Control.

(** ** Life cycle *)

(** The objects that [a2b24xx_probe] creates for the control device and for
    the sound core. *)
Record resources := {
  chrdev_region : bool;
  cdev_added : bool;
  device_node : bool;
  component : bool
}.

Definition no_resources : resources :=
  {| chrdev_region := false; cdev_added := false; device_node := false; component := false |}.

(** What the kernel answers to [a2b24xx_probe]. *)
Record probe_env := {
  pe_regmap_err : option Z;         (* IS_ERR (regmap) *)
  pe_kzalloc : bool;
  pe_alloc_chrdev : Z;
  pe_cdev_add : Z;
  pe_file : file_env;
  pe_parse_kmalloc : bool;
  pe_register : Z                   (* snd_soc_register_component *)
}.

Definition zero_driver : a2b24xx :=
  {| master_fmt := 0; work_allowed := false; log_enabled := false; has_fault := false;
     num_nodes := 0; node_cycles := replicate 16 0; node_pos := replicate 16 0;
     from_file := false; a2b_cfg := zero_store |}.

(** The driver before its setup, with the interrupt not requested. *)
Definition new_sys (d : a2b24xx) : a2b_sys :=
  {| drv := d; bus_trace := []; bus_lock := false; irq_depth := 1; irq_handler_set := false;
     irq_warnings := 0; fault_check_pending := false; setup_pending := true |}.

(** The length [CONFIG_LEN] of the table that is built in. *)
Definition load_config (config_len : Z) (pe : probe_env) : outcome a2b24xx :=
  match a2b_pal_File_Read (pe_file pe) with
  | Some content =>
      let! st := parseXML (pe_parse_kmalloc pe) (a2b_cfg zero_driver) content in
      Done (set_from_file true (set_a2b_cfg st zero_driver))
  | None =>
      let st := a2b_cfg zero_driver in
      Done (set_a2b_cfg {| fileA2BConfig := fileA2BConfig st; num_actions := config_len;
                       config_buffer := config_buffer st; write_offset := write_offset st |} zero_driver)
  end.

(** The result, the resources that are held afterwards, and the driver if it
    was allocated. *)
Definition a2b24xx_probe (config_len : Z) (pe : probe_env)
  : outcome (Z * resources * option a2b_sys) :=
  match pe_regmap_err pe with
  | Some e => Done (e, no_resources, None)
  | None =>
      if negb (pe_kzalloc pe) then Done (- ENOMEM, no_resources, None)
      else if pe_alloc_chrdev pe <? 0 then Done (pe_alloc_chrdev pe, no_resources, None)
      else if pe_cdev_add pe <? 0 then Done (pe_cdev_add pe, no_resources, None)
      else
        let! d := load_config config_len pe in
        let sys := new_sys (set_work_allowed true d) in
        Done (pe_register pe,
              {| chrdev_region := true; cdev_added := true; device_node := true;
                 component := 0 <=? pe_register pe |}, Some sys)
  end.

(** [a2b24xx_remove]: the device goes first, then the works are stopped. *)
Definition a2b24xx_remove (r : resources) : io resources :=
  do! _ := smodify (set_setup_pending false) in
  do! _ := a2b24xx_disable_fault_check in
  sret {| chrdev_region := false; cdev_added := false; device_node := false; component := component r |}.

(** [a2b24xx_i2c_remove]. *)
Definition a2b24xx_i2c_remove (r : resources) : io resources :=
  a2b24xx_remove {| chrdev_region := chrdev_region r; cdev_added := cdev_added r;
                    device_node := device_node r; component := false |}.

(** ** The module *)

(** What the module keeps: the class of the control devices and the
    registration of the driver. *)
Record a2b_module := { a2b24xx_class : bool; driver_added : bool }.

Definition no_module : a2b_module := {| a2b24xx_class := false; driver_added := false |}.

(** [class_err]: the error that the creation of the class returns, if any. *)
Definition a2b24xx_init (class_err : option Z) (add_driver : Z) : Z * a2b_module :=
  match class_err with
  | Some e => (e, no_module)
  | None =>
      if negb (add_driver =? 0) then (add_driver, no_module)
      else (0, {| a2b24xx_class := true; driver_added := true |})
  end.

Definition a2b24xx_exit (s : a2b_module) : a2b_module := no_module.

(** [a2b24xx_i2c_probe]: the result of the register map goes on to the
    driver. *)
Definition a2b24xx_i2c_probe (config_len : Z) (regmap_err : option Z) (pe : probe_env)
  : outcome (Z * resources * option a2b_sys) :=
  a2b24xx_probe config_len
    {| pe_regmap_err := regmap_err; pe_kzalloc := pe_kzalloc pe; pe_alloc_chrdev := pe_alloc_chrdev pe;
       pe_cdev_add := pe_cdev_add pe; pe_file := pe_file pe; pe_parse_kmalloc := pe_parse_kmalloc pe;
       pe_register := pe_register pe |}.
