(* ===== verification/A2bProofs.v ===== *)
(** * The A2B driver configures the network as the command list says

    The abstract commands of the table ([A2bConfig]) are given a meaning on
    the bus, [setup_spec]; [adi_a2b_NetworkSetup] implements it.  With
    the result on reading the command list, a driver that is probed with the
    text of a command list performs these commands. *)

From Stdlib Require Import ZArith Lia Ascii String.
From stdpp Require Import base list numbers.
From S2P Require Import Prelude CString Sscanf A2bConfig A2bConfigProofs A2bBus A2bControl.

#[local] Open Scope Z_scope.

(** ** Register addresses in big-endian order *)

Fixpoint be_bytes (w : nat) (a : Z) : list Z :=
  match w with
  | O => []
  | S w => (a / 2 ^ (8 * Z.of_nat w)) mod 256 :: be_bytes w a
  end.

Definition be_value (l : list Z) : Z := fold_left (fun v b => v * 256 + b) l 0.

Lemma length_be_bytes (w : nat) (a : Z) : length (be_bytes w a) = w.
Proof. induction w as [|w IH]; cbn; auto. Qed.

Lemma zlen_be_bytes (w a : Z) : 0 <= w -> zlen (be_bytes (Z.to_nat w) a) = w.
Proof. intros. unfold zlen. rewrite length_be_bytes. lia. Qed.

Lemma be_value_cons (l : list Z) (v : Z) :
  fold_left (fun v b => v * 256 + b) l v = v * 256 ^ zlen l + be_value l.
Proof.
  unfold be_value. revert v. induction l as [|c l IH]; intros v; [change (v = v * 256 ^ 0 + 0); rewrite Z.pow_0_r; lia|].
  cbn [fold_left]. rewrite IH, (IH (0 * 256 + c)). unfold zlen. cbn [length].
  rewrite Nat2Z.inj_succ, Z.pow_succ_r by lia. lia.
Qed.

Lemma be_value_bytes (w : nat) (a : Z) :
  0 <= a -> be_value (be_bytes w a) = a mod 2 ^ (8 * Z.of_nat w).
Proof.
  intros Ha. induction w as [|w IH]; [cbn; by rewrite Z.mod_1_r|].
  unfold be_value. cbn [be_bytes fold_left]. rewrite be_value_cons, IH.
  unfold zlen. rewrite length_be_bytes.
  replace (8 * Z.of_nat (S w)) with (8 * Z.of_nat w + 8) by lia.
  rewrite Z.pow_add_r by lia. change (2 ^ 8) with 256.
  replace (256 ^ Z.of_nat w) with (2 ^ (8 * Z.of_nat w)) by (rewrite Z.pow_mul_r by lia; done).
  pose proof (Z.pow_pos_nonneg 2 (8 * Z.of_nat w)) as P.
  rewrite Z.rem_mul_r by lia. lia.
Qed.

Lemma land_byte (a k : Z) :
  0 <= k -> Z.shiftr (Z.land a (Z.shiftl 255 k)) k = (a / 2 ^ k) mod 256.
Proof.
  intros Hk. rewrite Z.shiftr_land, Z.shiftr_shiftl_l, Z.sub_diag by lia.
  rewrite Z.shiftl_0_r. change 255 with (Z.ones 8). rewrite Z.land_ones by lia.
  by rewrite Z.shiftr_div_pow2.
Qed.

Lemma u8_byte (a k : Z) :
  0 <= k -> u8 (Z.shiftr (Z.land a (Z.shiftl 255 k)) k) = (a / 2 ^ k) mod 256.
Proof. intros Hk. rewrite land_byte by done. unfold u8. by rewrite Z.mod_mod by lia. Qed.

Lemma u8_low (a : Z) : u8 (Z.land a 255) = a mod 256.
Proof.
  pose proof (u8_byte a 0 ltac:(lia)) as E.
  rewrite Z.shiftl_0_r, Z.shiftr_0_r, Z.pow_0_r, Z.div_1_r in E. done.
Qed.

Lemma u8_shiftr (a k : Z) : 0 <= k -> u8 (Z.shiftr a k) = (a / 2 ^ k) mod 256.
Proof. intros. unfold u8. by rewrite Z.shiftr_div_pow2. Qed.

Lemma u8_land_8 (a : Z) : u8 (Z.shiftr (Z.land a 65280) 8) = (a / 2 ^ 8) mod 256.
Proof. exact (u8_byte a 8 ltac:(lia)). Qed.

Lemma u8_land_16 (a : Z) : u8 (Z.shiftr (Z.land a 16711680) 16) = (a / 2 ^ 16) mod 256.
Proof. exact (u8_byte a 16 ltac:(lia)). Qed.

(** The register address is written in big-endian order. *)
Lemma concat_be (dst : list Z) (w a : Z) :
  1 <= w <= 4 -> w <= zlen dst ->
  adi_a2b_Concat_Addr_Data dst w a = Done (splice dst 0 (be_bytes (Z.to_nat w) a)).
Proof.
  intros Hw Hd. unfold adi_a2b_Concat_Addr_Data.
  assert (w = 1 \/ w = 2 \/ w = 3 \/ w = 4) as [-> | [-> | [-> | ->]]] by lia; cbn [Z.eqb Pos.eqb];
    rewrite mem_write_done by (unfold zlen in *; cbn [length]; lia); do 2 f_equal;
    rewrite ?u8_low, ?u8_land_8, ?u8_land_16, ?u8_shiftr by lia.
  - change (be_bytes (Z.to_nat 1) a) with [(a / 2 ^ 0) mod 256]. by rewrite Z.pow_0_r, Z.div_1_r.
  - change (be_bytes (Z.to_nat 2) a) with [(a / 2 ^ 8) mod 256; (a / 2 ^ 0) mod 256].
    by rewrite Z.pow_0_r, Z.div_1_r.
  - change (be_bytes (Z.to_nat 3) a)
      with [(a / 2 ^ 16) mod 256; (a / 2 ^ 8) mod 256; (a / 2 ^ 0) mod 256].
    by rewrite Z.pow_0_r, Z.div_1_r.
  - change (be_bytes (Z.to_nat 4) a)
      with [(a / 2 ^ 24) mod 256; (a / 2 ^ 16) mod 256; (a / 2 ^ 8) mod 256; (a / 2 ^ 0) mod 256].
    by rewrite Z.pow_0_r, Z.div_1_r.
Qed.

(** A register address that fits its width is read back from the bytes
    that the driver puts in front of the data, most significant byte first,
    for every width that the chips have (1 to 4 bytes); the rest of the
    buffer is kept. *)
Theorem register_address_roundtrip (dst : list Z) (w a : Z) :
  1 <= w <= 4 -> 0 <= a < 2 ^ (8 * w) -> w <= zlen dst ->
  exists out, adi_a2b_Concat_Addr_Data dst w a = Done out
    /\ be_value (take (Z.to_nat w) out) = a
    /\ drop (Z.to_nat w) out = drop (Z.to_nat w) dst.
Proof.
  intros Hw Ha Hd. eexists. split; [by apply concat_be|]. split.
  - rewrite take_splice_0 by (by rewrite length_be_bytes).
    rewrite be_value_bytes by lia. rewrite Z2Nat.id by lia. by apply Z.mod_small.
  - change (splice dst 0 ?b) with (b ++ drop (length b) dst).
    rewrite drop_app_length' by (by rewrite length_be_bytes). by rewrite length_be_bytes.
Qed.

Lemma register_address_roundtrip_witness :
  exists out, adi_a2b_Concat_Addr_Data (replicate 8 7) 3 74565 = Done out
    /\ be_value (take 3 out) = 74565 /\ drop 3 out = replicate 5 7.
Proof.
  apply (register_address_roundtrip (replicate 8 7) 3 74565).
  - lia.
  - split; [lia|reflexivity].
  - vm_compute. discriminate.
Defined.

(** ** What the commands mean on the bus *)

Section Setup.

Context (gaA2BConfig : list ADI_A2B_DISCOVERY_CONFIG) (h : host).

(** The registers INTSRC and INTTYPE that a read after the transfers [t]
    returns; bytes that did not arrive are 0. *)
Definition interrupt_answer (t : list event) : Z * Z :=
  match take 2 (snd (i2c_transfer h t A2B_BASE_ADDR [A2B_REG_INTSRC] 2)) with
  | [] => (0, 0)
  | [src] => (src, 0)
  | src :: type :: _ => (src, type)
  end.

Definition interrupt_type (a : Z * Z) : Z := if fst a =? 0 then -1 else snd a.
Definition is_fault (a : Z * Z) : bool := negb (fst a =? 0) && existsb (Z.eqb (snd a)) intTypes.

Definition poll_event : event := Transfer A2B_BASE_ADDR [A2B_REG_INTSRC] 2.

(** The state of the setup that the bus can see: whether a fault was
    reported, and the transfers. *)
Definition view : Type := bool * list event.

Definition command_spec (v : view) (c : command) : view :=
  let '(fault, t) := v in
  match c with
  | CWrite dev w a data => (fault, t ++ [Send dev (be_bytes (Z.to_nat w) a ++ data)])
  | CRead dev w a n =>
      if (a =? A2B_REG_INTTYPE) && negb fault
      then (is_fault (interrupt_answer t), t ++ [poll_event; Mdelay 2])
      else (fault, t ++ [Transfer dev (be_bytes (Z.to_nat w) a) n; Mdelay 2])
  | CDelay data =>
      (fault, if 0 <? delay_value data then t ++ [Mdelay (delay_value data)] else t)
  | CIgnored => v
  end.

Definition setup_spec (cs : list command) (t : list event) : view :=
  fold_left command_spec cs (false, t).

(** The state [s] of the driver with this view. *)
Definition show (v : view) (s : a2b_sys) : a2b_sys :=
  set_bus_trace (snd v) (set_drv (set_has_fault (fst v) (drv s)) s).

Lemma show_show (v w : view) (s : a2b_sys) : show v (show w s) = show v s.
Proof. done. Qed.

(** ** Transfers *)

Lemma io_bind {A B} (m : io A) (k : A -> io B) (s s' : a2b_sys) (a : A) :
  m s = Done (a, s') -> (sbind m k) s = k a s'.
Proof. intros E. unfold sbind. by rewrite E. Qed.

Lemma read_interrupt (s : a2b_sys) :
  exists ret,
    adi_a2b_I2CRead h A2B_BASE_ADDR [A2B_REG_INTSRC] 2 [0; 0] s
    = Done ((ret, [fst (interrupt_answer (bus_trace s)); snd (interrupt_answer (bus_trace s))]),
            set_bus_trace (bus_trace s ++ [poll_event]) s).
Proof.
  unfold adi_a2b_I2CRead, interrupt_answer.
  destruct (i2c_transfer h (bus_trace s) A2B_BASE_ADDR [A2B_REG_INTSRC] 2) as [ret bytes].
  exists (if ret <? 0 then ret else 0). change (Z.to_nat 2) with 2%nat. cbn [snd].
  assert (length (take 2 bytes) <= 2)%nat as L by (rewrite length_take; lia).
  destruct (take 2 bytes) as [|src [|type [|x l]]]; cbn in L; try lia; done.
Qed.

Lemma poll_answer (fault : bool) (t : list event) (s : a2b_sys) :
  processInterrupt_poll h (show (fault, t) s)
  = Done (interrupt_type (interrupt_answer t),
          show (fault || is_fault (interrupt_answer t), t ++ [poll_event]) s).
Proof.
  unfold processInterrupt_poll, processInterrupt_with.
  destruct (read_interrupt (show (fault, t) s)) as [ret E]. rewrite (io_bind _ _ _ _ _ E).
  change (bus_trace (show (fault, t) s)) with t. destruct (interrupt_answer t) as [src type].
  cbn [fst snd]. change (array_get [src; type] 0) with (Done src).
  change (array_get [src; type] 1) with (Done type).
  unfold interrupt_type, is_fault, sbind, slift. cbn -[existsb intTypes Z.land].
  destruct (src =? 0); cbn -[existsb intTypes Z.land]; [by rewrite orb_false_r|].
  destruct (existsb _ intTypes); cbn; by rewrite ?orb_false_r, ?orb_true_r.
Qed.

(** ** One action *)

(** The command fits the buffers of the driver and has an address width that
    the chips have. *)
Definition fits_bus (c : command) : Prop :=
  match c with
  | CWrite _ w _ data => 1 <= w <= 4 /\ w + zlen data <= SCRATCH
  | CRead _ w _ n => 1 <= w <= 4 /\ 0 <= n <= SCRATCH
  | _ => True
  end.

Lemma data_bytes_len (buf : list Z) (p : data_ptr) (n : Z) (data : list Z) :
  data_bytes buf p n = Done data -> zlen data = n.
Proof.
  assert (forall l off, mem_read l off n = Done data -> zlen data = n) as M.
  { intros l off. unfold mem_read. zif; [|done]. intros [= <-].
    apply andb_true_iff in Heqb as [H H2]. apply andb_true_iff in H as [H0 H1]. zbool.
    apply zlen_zslice; lia. }
  unfold data_bytes. destruct p; [zif; [intros [= <-]; subst; done|done]|apply M..].
Qed.

Lemma mem_write_front (buf bytes : list Z) :
  zlen bytes <= zlen buf ->
  exists buf', mem_write buf 0 bytes = Done buf' /\ zlen buf' = zlen buf.
Proof.
  intros H. eexists. split; [apply mem_write_done; lia|]. apply zlen_splice; lia.
Qed.

(** The message is the address followed by the data. *)
Lemma message_bytes (buf addr data : list Z) :
  zlen addr + zlen data <= zlen buf ->
  mem_write (splice buf 0 addr) (zlen addr) data
  = Done (splice buf 0 (addr ++ data))
  /\ mem_read (splice buf 0 (addr ++ data)) 0 (zlen addr + zlen data) = Done (addr ++ data).
Proof.
  intros H. pose proof (zlen_nonneg addr). pose proof (zlen_nonneg data).
  assert (zlen (splice buf 0 addr) = zlen buf) as L by (apply (zlen_splice buf 0); lia). split.
  - rewrite mem_write_done by lia. f_equal.
    replace (Z.to_nat (zlen addr)) with (0 + length addr)%nat by (unfold zlen; lia).
    apply splice_splice. unfold zlen in *. lia.
  - rewrite <-zlen_app. apply (mem_read_own buf (addr ++ data) 0); [lia|]. rewrite zlen_app. lia.
Qed.

Lemma write_action_spec (d : a2b24xx) (buf : list Z) (c : ADI_A2B_DISCOVERY_CONFIG) (data : list Z)
    (v : view) (s : a2b_sys) :
  data_bytes (config_buffer (a2b_cfg d)) (paConfigData c) (nDataCount c) = Done data ->
  1 <= nAddrWidth c <= 4 -> nAddrWidth c + zlen data <= SCRATCH -> zlen buf = SCRATCH ->
  exists buf', zlen buf' = SCRATCH
    /\ write_action d (Some buf) c (show v s)
       = Done (Some buf', show (command_spec v (CWrite (nDeviceAddr c) (nAddrWidth c) (nAddr c) data)) s).
Proof.
  intros E W L LB. pose proof (data_bytes_len _ _ _ _ E) as N. pose proof (zlen_nonneg data).
  set (addr := be_bytes (Z.to_nat (nAddrWidth c)) (nAddr c)).
  assert (zlen addr = nAddrWidth c) as LA by (apply zlen_be_bytes; lia).
  destruct (message_bytes buf addr data) as [E1 E2]; [lia|].
  exists (splice buf 0 (addr ++ data)). split.
  { rewrite <-LB. apply (zlen_splice buf 0); [lia|]. rewrite zlen_app. lia. }
  unfold write_action, slift, sbind. rewrite concat_be by lia. cbn [obind]. fold addr.
  rewrite E. cbn [obind]. rewrite <-LA at 1. rewrite E1. cbn [obind].
  unfold u16. rewrite <-N, <-LA, Z.mod_small by (unfold SCRATCH in *; lia). rewrite E2. cbn [obind].
  destruct v as [f t]. cbn. by rewrite LA.
Qed.

Lemma read_spec (s : a2b_sys) (dev : Z) (addr buf : list Z) (n : Z) :
  0 <= n <= zlen buf ->
  exists ret buf', zlen buf' = zlen buf
    /\ adi_a2b_I2CRead h dev addr n buf s
       = Done ((ret, buf'), set_bus_trace (bus_trace s ++ [Transfer dev addr n]) s).
Proof.
  intros H. unfold adi_a2b_I2CRead. destruct (i2c_transfer _ _ _ _ _) as [ret bytes].
  destruct (mem_write_front buf (take (Z.to_nat n) bytes)) as (buf' & E & L).
  { unfold zlen in *. rewrite length_take. lia. }
  exists (if ret <? 0 then ret else 0), buf'. by rewrite E.
Qed.

Lemma read_action_spec (buf : list Z) (c : ADI_A2B_DISCOVERY_CONFIG) (v : view) (s : a2b_sys) :
  1 <= nAddrWidth c <= 4 -> 0 <= nDataCount c <= SCRATCH -> zlen buf = SCRATCH ->
  exists buf', zlen buf' = SCRATCH
    /\ read_action h (Some buf) c (show v s)
       = Done (Some buf', show (command_spec v (CRead (nDeviceAddr c) (nAddrWidth c) (nAddr c) (nDataCount c))) s).
Proof.
  intros W N LB. destruct v as [f t]. unfold read_action.
  destruct (mem_write_front buf (replicate (Z.to_nat (nDataCount c)) 0)) as (buf1 & E1 & L1).
  { unfold zlen in *. rewrite length_replicate. lia. }
  unfold slift. rewrite (io_bind _ _ _ (show (f, t) s) buf1) by (by rewrite E1).
  set (addr := be_bytes (Z.to_nat (nAddrWidth c)) (nAddr c)).
  rewrite (io_bind _ _ _ (show (f, t) s) (splice [0; 0; 0; 0] 0 addr))
    by (by rewrite concat_be by (unfold zlen; cbn; lia)).
  rewrite (io_bind get _ _ (show (f, t) s) (drv (show (f, t) s))) by done.
  change (has_fault (drv (show (f, t) s))) with f. cbn [command_spec].
  destruct ((nAddr c =? A2B_REG_INTTYPE) && negb f) eqn:B.
  - exists buf1. split; [congruence|].
    rewrite (io_bind _ _ _ (show (f || is_fault (interrupt_answer t), t ++ [poll_event]) s) buf1).
    + apply andb_true_iff in B as [_ Bf]. destruct f; [done|]. cbn [orb].
      unfold sbind, mdelay, emit, smodify, sret, show. cbn. by rewrite <-app_assoc.
    + rewrite (io_bind _ _ _ _ _ (poll_answer f t s)). done.
  - destruct (read_spec (show (f, t) s) (nDeviceAddr c) addr buf1 (nDataCount c)) as (ret & buf2 & L2 & E2);
      [lia|].
    exists buf2. split; [congruence|].
    rewrite (io_bind _ _ _ (show (f, t ++ [Transfer (nDeviceAddr c) addr (nDataCount c)]) s) buf2).
    + unfold sbind, mdelay, emit, smodify, sret, show. cbn. by rewrite <-app_assoc.
    + assert (zlen addr = nAddrWidth c) as LA by (apply zlen_be_bytes; lia).
      rewrite (io_bind _ _ _ (show (f, t) s) addr).
      * rewrite (io_bind _ _ _ _ _ E2). done.
      * pose proof (mem_read_own [0; 0; 0; 0] addr 0 ltac:(lia)) as R.
        change (Z.to_nat 0) with 0%nat in R.
        unfold slift. rewrite <-LA, R by (unfold zlen in *; cbn; lia). done.
Qed.

Lemma setup_action_spec (buf : list Z) (c : ADI_A2B_DISCOVERY_CONFIG) (cmd : command) (v : view) (s : a2b_sys) :
  command_of (config_buffer (a2b_cfg (drv s))) c = Done cmd -> fits_bus cmd -> zlen buf = SCRATCH ->
  exists buf', zlen buf' = SCRATCH
    /\ setup_action h (Some buf) c (show v s) = Done (Some buf', show (command_spec v cmd) s).
Proof.
  intros E B LB. unfold setup_action.
  rewrite (io_bind get _ _ (show v s) (drv (show v s))) by done.
  unfold command_of in E. destruct (eOpCode c).
  - obinv E. injection E as <-. destruct B. by apply write_action_spec.
  - injection E as <-. destruct B. by apply read_action_spec.
  - obinv E. injection E as <-. exists buf. split; [done|].
    change (a2b_cfg (drv (show v s))) with (a2b_cfg (drv s)).
    rewrite (io_bind _ _ _ (show v s) a) by (unfold slift; by rewrite E0).
    destruct v as [f t]. cbn [command_spec]. destruct (0 <? delay_value a); done.
  - injection E as <-. exists buf. by destruct v.
Qed.

(** ** The whole table *)

(** The table that [pA2BConfig] points to holds the commands [cs]. *)
Definition loaded (d : a2b24xx) (cs : list command) : Prop :=
  num_actions (a2b_cfg d) = zlen cs
  /\ table_holds (config_buffer (a2b_cfg d))
       (take (length cs) (if from_file d then fileA2BConfig (a2b_cfg d) else gaA2BConfig)) cs.

Lemma setup_loop_spec (cs before : list command) (buf : list Z) (v : view) (s : a2b_sys) :
  table_holds (config_buffer (a2b_cfg (drv s)))
    (take (length (before ++ cs)) (if from_file (drv s) then fileA2BConfig (a2b_cfg (drv s)) else gaA2BConfig))
    (before ++ cs) ->
  Forall fits_bus cs -> zlen buf = SCRATCH ->
  setup_loop gaA2BConfig h (length cs) (zlen before) (Some buf) (show v s)
  = Done (tt, show (fold_left command_spec cs v) s).
Proof.
  revert before buf v. induction cs as [|cmd cs IH]; intros before buf v H B LB; [done|].
  apply Forall_cons_1 in B as [Bc B]. cbn [length setup_loop fold_left].
  rewrite (io_bind get _ _ (show v s) (drv (show v s))) by done.
  assert ((before ++ cmd :: cs) !! length before = Some cmd) as Hcmd by (by apply list_lookup_middle).
  destruct (Forall2_lookup_r _ _ _ _ _ H Hcmd) as (c & Hc & E & _).
  apply lookup_take_Some in Hc as [Hc _].
  rewrite (io_bind _ _ _ (show v s) c).
  2:{ unfold slift, pA2BConfig. cbn [show drv set_bus_trace set_drv from_file a2b_cfg set_has_fault].
      rewrite (array_get_lookup _ _ c (zlen_nonneg before)); [done|]. unfold zlen. by rewrite Nat2Z.id. }
  destruct (setup_action_spec buf c cmd v s E Bc LB) as (buf' & LB' & E').
  rewrite (io_bind _ _ _ _ _ E').
  replace (zlen before + 1) with (zlen (before ++ [cmd])) by (by rewrite zlen_app).
  apply IH; [|done|done]. by rewrite <-app_assoc.
Qed.

(** Memory for the scratch buffer can be had. *)
Definition memory_ok : Prop := forall t, is_Some (kmalloc h t).

Lemma network_setup_spec (s : a2b_sys) (cs : list command) :
  memory_ok -> loaded (drv s) cs -> Forall fits_bus cs ->
  adi_a2b_NetworkSetup gaA2BConfig h s = Done (tt, show (setup_spec cs (bus_trace s)) s).
Proof.
  intros M [N L] B. unfold adi_a2b_NetworkSetup.
  rewrite (io_bind _ _ _ (show (false, bus_trace s) s) tt) by done.
  destruct (M (bus_trace s)) as [l El].
  rewrite (io_bind _ _ _ (show (false, bus_trace s) s) (Some (resize (Z.to_nat SCRATCH) 0 l))).
  2:{ unfold alloc_scratch. cbn [show bus_trace set_bus_trace snd]. by rewrite El. }
  rewrite (io_bind get _ _ (show (false, bus_trace s) s) (drv (show (false, bus_trace s) s))) by done.
  change (a2b_cfg (drv (show (false, bus_trace s) s))) with (a2b_cfg (drv s)). rewrite N.
  replace (Z.to_nat (zlen cs)) with (length cs) by (unfold zlen; lia).
  apply (setup_loop_spec cs [] _ (false, bus_trace s) s); [done|done|].
  unfold zlen. rewrite length_resize. unfold SCRATCH. lia.
Qed.

End Setup.

(** ** Properties *)

(** C3. The configuration of the network refines the meaning of the commands
    that its table holds.  Whatever the bus answers, [adi_a2b_NetworkSetup]
    returns; it has sent, in the order of the table, each write as register
    address (most significant byte first) and data in one message, each delay
    that is not 0 as a wait of the big-endian value of its bytes, each read as
    one transfer followed by 2 ms; the first read of the interrupt type and
    the ones after it, until a fault was seen, poll the interrupt registers
    of the master instead.  The flag [has_fault] says whether a poll has
    reported a fault; nothing else of the driver changes. *)
Theorem network_setup_refines (gaA2BConfig : list ADI_A2B_DISCOVERY_CONFIG) (h : host)
    (s : a2b_sys) (cs : list command) :
  memory_ok h -> loaded gaA2BConfig (drv s) cs -> Forall fits_bus cs ->
  adi_a2b_NetworkSetup gaA2BConfig h s = Done (tt, show (setup_spec h cs (bus_trace s)) s).
Proof. apply network_setup_spec. Qed.

(** A bus on which every transfer succeeds and every register reads as [v]. *)
Definition flat_host (v : Z) : host :=
  {| client_irq := 17; request_irq := 0;
     i2c_transfer := fun _ _ _ n => (2, replicate (Z.to_nat n) v);
     kmalloc := fun _ => Some [] |}.

(** A table of two writes, a delay and a read, built in. *)
Definition small_table : list ADI_A2B_DISCOVERY_CONFIG :=
  [ set_paConfigData (DTable [132]) (attr_config A2B24XX_WRITE 1 1 18 104);
    set_eOpCode A2B24XX_DELAY (set_nDataCount 2 (set_paConfigData (DTable [1; 44]) cleared_config));
    attr_config A2B24XX_READ 1 1 23 104;
    set_paConfigData (DTable [1; 2]) (attr_config A2B24XX_WRITE 2 2 511 105) ].

Definition small_commands : list command :=
  [CWrite 104 1 18 [132]; CDelay [1; 44]; CRead 104 1 23 1; CWrite 105 2 511 [1; 2]].

Definition small_driver : a2b24xx :=
  set_a2b_cfg {| fileA2BConfig := []; num_actions := 4; config_buffer := []; write_offset := 0 |} zero_driver.

Lemma network_setup_refines_witness :
  adi_a2b_NetworkSetup small_table (flat_host 130) (new_sys small_driver)
  = Done (tt, show (false, [Send 104 [18; 132]; Mdelay 300; Transfer 104 [22] 2; Mdelay 2;
                            Send 105 [1; 255; 1; 2]]) (new_sys small_driver)).
Proof.
  apply (network_setup_refines small_table (flat_host 130) (new_sys small_driver) small_commands).
  - intros t. by exists [].
  - split; [reflexivity|]. repeat constructor; vm_compute; auto.
  - repeat constructor; vm_compute; intuition discriminate.
Defined.


Definition sample_probe : probe_env :=
  {| pe_regmap_err := None; pe_kzalloc := true; pe_alloc_chrdev := 0; pe_cdev_add := 0;
     pe_file := {| fe_open := true; fe_size := 900; fe_kmalloc := true;
                   fe_read := Some (document sample_commands) |};
     pe_parse_kmalloc := true; pe_register := 0 |}.

