(* ===== verification/A2bFault.v ===== *)
(** * Faults on the A2B bus

    What the driver does when a node drops off the bus: [checkFaultNode] looks
    for the last node that answers, [processFaultNode] discovers the nodes
    behind it again, one after the other, and gives up at the first one that
    does not come back. *)

From Stdlib Require Import ZArith Lia Ascii String.
From stdpp Require Import base list numbers.
From S2P Require Import Prelude CString Sscanf A2bConfig A2bConfigProofs A2bBus A2bControl A2bProofs.

#[local] Open Scope Z_scope.

(** ** The events of a rediscovery *)

Definition sel (i : Z) : event := Send A2B_BASE_ADDR [A2B_REG_NODEADR; i].
Definition to_base (reg v : Z) : event := Send A2B_BASE_ADDR [reg; v].
Definition to_bus (reg v : Z) : event := Send A2B_BUS_ADDR [reg; v].

(** The switches of [n] nodes from [i] on are set to [v]. *)
Fixpoint switch_events (n : nat) (i v : Z) : list event :=
  match n with
  | O => []
  | S n => sel i :: to_bus A2B_REG_SWCTL v :: switch_events n (i + 1) v
  end.

(** The switch in front of node [i] is opened and closed again, the ones
    upstream are set, and the discovery with the response cycles [c] starts. *)
Definition start_events (i c : Z) : list event :=
  [sel (i - 1); to_bus A2B_REG_SWCTL 0; to_bus A2B_REG_INTPND0 255; Mdelay 100; to_base A2B_REG_SWCTL 33]
  ++ switch_events (Z.to_nat (i - 1)) 0 33
  ++ [sel (i - 1); to_bus A2B_REG_SWCTL 1; to_base A2B_REG_DISCVRY c; Mdelay 35].

(** The part of the command list that belongs to node [i]: it ends where
    another node is addressed, a discovery starts or a switch changes its
    mode. *)
Definition ends (i : Z) (c : command) : bool :=
  match c with
  | CWrite dev _ a data =>
      ((a =? A2B_REG_NODEADR) && (dev =? A2B_BASE_ADDR)
       && negb (Z.land (default 0 (head data)) A2B_BITM_NODEADR_NODE =? i))
      || ((a =? A2B_REG_DISCVRY) && (dev =? A2B_BASE_ADDR))
      || ((a =? A2B_REG_SWCTL) && negb (Z.land (default 0 (head data)) A2B_BITM_SWCTL_MODE =? 0))
  | CRead dev _ a _ => (a =? A2B_REG_DISCVRY) && (dev =? A2B_BASE_ADDR)
  | _ => false
  end.

Fixpoint node_program (i : Z) (cs : list command) : list command :=
  match cs with
  | [] => []
  | c :: cs => if ends i c then [] else c :: node_program i cs
  end.

(** Only the writes and the delays of a node are repeated. *)
Definition program_events (c : command) : list event :=
  match c with
  | CWrite dev w a data => [Send dev (be_bytes (Z.to_nat w) a ++ data)]
  | CDelay data => [Mdelay (delay_value data)]
  | _ => []
  end.

Definition configure_events (i fmt : Z) (cs : list command) : list event :=
  [to_base A2B_REG_SWCTL 1] ++ switch_events (Z.to_nat i) 0 1 ++ [sel i]
  ++ concat (map program_events (node_program i cs))
  ++ [Send A2B_BASE_ADDR [A2B_REG_SLOTFMT; fmt; 3; 129]].

(** What a rediscovery can look at: reads have no data to look at. *)
Definition scannable (c : command) : Prop :=
  match c with
  | CWrite dev _ a data =>
      ((a = A2B_REG_NODEADR /\ dev = A2B_BASE_ADDR) \/ a = A2B_REG_SWCTL) -> data <> []
  | CRead dev _ a _ => ~ (a = A2B_REG_NODEADR /\ dev = A2B_BASE_ADDR) /\ a <> A2B_REG_SWCTL
  | CDelay data => zlen data <= 255
  | CIgnored => True
  end.

Section Fault.

Context (gaA2BConfig : list ADI_A2B_DISCOVERY_CONFIG) (h : host).

(** ** Straight-line parts *)

Lemma for_loop_switches (n : nat) (i v : Z) (f : bool) (t : list event) (s : a2b_sys) :
  0 <= i -> i + Z.of_nat n <= 256 ->
  for_loop n i (fun i => do! _ := select_node i in bus_write A2B_REG_SWCTL v) (show (f, t) s)
  = Done (tt, show (f, t ++ switch_events n i v) s).
Proof.
  revert i t. induction n as [|n IH]; intros i t H0 H1; cbn [for_loop switch_events].
  - by rewrite app_nil_r.
  - rewrite (io_bind _ _ _ (show (f, t ++ [sel i; to_bus A2B_REG_SWCTL v]) s) tt).
    + rewrite IH by lia. by rewrite <-app_assoc.
    + unfold select_node, u8. rewrite Z.mod_small by lia.
      unfold sbind, bus_write, adi_a2b_I2CWrite, emit, smodify, show. cbn. by rewrite <-app_assoc.
Qed.

Lemma start_discovery_spec (i c : Z) (f : bool) (t : list event) (s : a2b_sys) :
  1 <= i <= 15 -> node_cycles (drv s) !! Z.to_nat i = Some c ->
  start_discovery i (show (f, t) s) = Done (tt, show (f, t ++ start_events i c) s).
Proof.
  intros Hi Hc. unfold start_discovery.
  assert (u8 (i - 1) = i - 1) as U by (unfold u8; apply Z.mod_small; lia).
  do 6 (erewrite io_bind by reflexivity). cbv beta.
  cbn [drv show set_bus_trace set_drv bus_trace snd fst].
  match goal with |- context [set_bus_trace ?x _] =>
    rewrite (io_bind _ _ _ (show (f, x ++ switch_events (Z.to_nat (i - 1)) 0 33) s) tt)
      by (apply (for_loop_switches (Z.to_nat (i - 1)) 0 33 f x s); lia) end.
  do 2 (erewrite io_bind by reflexivity). cbv beta.
  erewrite io_bind; [|unfold slift; erewrite array_get_lookup; [reflexivity|lia|exact Hc]].
  unfold base_write, mdelay, adi_a2b_I2CWrite, emit, sbind, smodify, show.
  cbn. rewrite U. unfold start_events, sel, to_base, to_bus. rewrite <-!app_assoc. done.
Qed.

(** ** Waiting for the discovery *)

(** One poll, and a second one after 25 ms when the first one reports a
    superframe error; it is found when a poll reports the discovery done. *)
Definition attempts (v : view) : bool * view :=
  let '(f, t) := v in
  let a := interrupt_answer h t in
  let f := f || is_fault a in
  if interrupt_type a =? A2B_ENUM_INTTYPE_DSCDONE then (true, (f, t ++ [poll_event]))
  else if interrupt_type a =? A2B_ENUM_INTTYPE_SRFERR then
    let t := t ++ [poll_event; Mdelay 25] in
    let a := interrupt_answer h t in
    (interrupt_type a =? A2B_ENUM_INTTYPE_DSCDONE, (f || is_fault a, t ++ [poll_event]))
  else (false, (f, t ++ [poll_event])).

Lemma discovery_loop_spec (v : view) (s : a2b_sys) :
  discovery_loop h (Z.to_nat MAX_RETRIES) 0 (show v s)
  = Done (fst (attempts v), show (snd (attempts v)) s).
Proof.
  destruct v as [f t]. change (Z.to_nat MAX_RETRIES) with 2%nat. cbn [discovery_loop attempts].
  rewrite (io_bind _ _ _ _ _ (poll_answer h f t s)).
  set (a := interrupt_answer h t).
  destruct (interrupt_type a =? A2B_ENUM_INTTYPE_DSCDONE); [done|].
  change (u8 (0 + 1) <? MAX_RETRIES) with true. cbn [andb].
  destruct (interrupt_type a =? A2B_ENUM_INTTYPE_SRFERR); [|done].
  rewrite (io_bind _ _ _ (show (f || is_fault a, t ++ [poll_event; Mdelay 25]) s) tt)
    by (unfold mdelay, emit, smodify, show; cbn; by rewrite <-app_assoc).
  rewrite (io_bind _ _ _ _ _ (poll_answer h _ _ s)). cbn [fst snd].
  destruct (interrupt_type _ =? A2B_ENUM_INTTYPE_DSCDONE); [done|].
  by destruct (_ && _) eqn:B.
Qed.

(** ** The program of a node *)

Lemma first_data_spec (d : a2b24xx) (c : ADI_A2B_DISCOVERY_CONFIG) (data : list Z) :
  data_bytes (config_buffer (a2b_cfg d)) (paConfigData c) (nDataCount c) = Done data -> data <> [] ->
  first_data d c = Done (default 0 (head data)).
Proof.
  assert (forall l off n, mem_read l off n = Done data -> data <> [] ->
                          array_get l off = Done (default 0 (head data))) as M.
  { intros l off n E N. unfold mem_read in E. destruct (_ && _) eqn:B in E; [|done].
    injection E as <-. apply andb_true_iff in B as [B _]. apply andb_true_iff in B as [B _]. zbool.
    unfold zslice in *. destruct (drop (Z.to_nat off) l) as [|b r] eqn:D; [by rewrite take_nil in N|].
    destruct (Z.to_nat n) as [|k]; [done|]. cbn.
    apply array_get_lookup; [done|]. rewrite <-(Nat.add_0_r (Z.to_nat off)), <-lookup_drop, D. done. }
  unfold first_data, data_bytes. destruct (paConfigData c).
  - intros E N. destruct (_ =? 0); [|done]. by injection E as <-.
  - apply M.
  - apply M.
Qed.

Lemma node_ends_spec (d : a2b24xx) (c : ADI_A2B_DISCOVERY_CONFIG) (cmd : command) (i : Z) :
  entry (config_buffer (a2b_cfg d)) c cmd -> scannable cmd -> node_ends d c i = Done (ends i cmd).
Proof.
  intros [E P] S. unfold node_ends. unfold command_of in E. destruct (eOpCode c).
  - obinv E. injection E as <-. cbn [ends scannable] in *.
    pose proof (first_data_spec d c a E0) as F.
    destruct (nAddr c =? A2B_REG_NODEADR) eqn:B1, (nDeviceAddr c =? A2B_BASE_ADDR) eqn:B2; zbool; cbn [andb obind].
    { rewrite F by auto. cbn [obind]. rewrite B1. by destruct (negb _). }
    all: destruct (nAddr c =? A2B_REG_DISCVRY); cbn [andb orb]; try done.
    all: destruct (nAddr c =? A2B_REG_SWCTL) eqn:B3; zbool; [rewrite F by auto|]; done.
  - injection E as <-. cbn [ends scannable] in *. destruct S as [S1 S2].
    destruct (nAddr c =? A2B_REG_NODEADR) eqn:B1, (nDeviceAddr c =? A2B_BASE_ADDR) eqn:B2; zbool; cbn [andb obind].
    { tauto. }
    all: rewrite (proj2 (Z.eqb_neq _ _) S2); by destruct (nAddr c =? A2B_REG_DISCVRY).
  - obinv E. injection E as <-. cbn [ends] in *. by destruct P as [-> | ->].
  - injection E as <-. cbn [ends] in *. by destruct P as [-> | ->].
Qed.

Lemma node_action_spec (buf : list Z) (c : ADI_A2B_DISCOVERY_CONFIG) (cmd : command)
    (f : bool) (t : list event) (s : a2b_sys) :
  command_of (config_buffer (a2b_cfg (drv s))) c = Done cmd -> fits_bus cmd -> scannable cmd ->
  zlen buf = SCRATCH ->
  exists buf', zlen buf' = SCRATCH
    /\ node_action (Some buf) c (show (f, t) s) = Done (Some buf', show (f, t ++ program_events cmd) s).
Proof.
  intros E B S LB. unfold node_action.
  rewrite (io_bind get _ _ (show (f, t) s) (drv (show (f, t) s))) by done.
  unfold command_of in E. destruct (eOpCode c).
  - obinv E. injection E as <-. destruct B. by apply (write_action_spec h (drv (show (f, t) s)) buf c a (f, t) s).
  - injection E as <-. exists buf. cbn [program_events]. by rewrite app_nil_r.
  - obinv E. injection E as <-. exists buf. split; [done|]. cbn [scannable] in S.
    rewrite <-(data_bytes_len _ _ _ _ E0), (proj2 (Z.leb_le _ _) S).
    change (a2b_cfg (drv (show (f, t) s))) with (a2b_cfg (drv s)).
    rewrite (io_bind _ _ _ (show (f, t) s) a); [done|].
    unfold slift. by rewrite (data_bytes_len _ _ _ _ E0), E0.
  - injection E as <-. exists buf. cbn [program_events]. by rewrite app_nil_r.
Qed.

Lemma node_loop_spec (cs before : list command) (i : Z) (buf : list Z) (f : bool) (t : list event)
    (s : a2b_sys) :
  table_holds (config_buffer (a2b_cfg (drv s)))
    (take (length (before ++ cs)) (if from_file (drv s) then fileA2BConfig (a2b_cfg (drv s)) else gaA2BConfig))
    (before ++ cs) ->
  Forall fits_bus cs -> Forall scannable cs -> zlen buf = SCRATCH ->
  node_loop gaA2BConfig (length cs) (zlen before) i (Some buf) (show (f, t) s)
  = Done (tt, show (f, t ++ concat (map program_events (node_program i cs))) s).
Proof.
  revert before buf t. induction cs as [|cmd cs IH]; intros before buf t H B S LB.
  { cbn. by rewrite app_nil_r. }
  apply Forall_cons_1 in B as [Bc B]. apply Forall_cons_1 in S as [Sc S].
  cbn [length node_loop node_program].
  rewrite (io_bind get _ _ (show (f, t) s) (drv (show (f, t) s))) by done.
  assert ((before ++ cmd :: cs) !! length before = Some cmd) as Hcmd by (by apply list_lookup_middle).
  destruct (Forall2_lookup_r _ _ _ _ _ H Hcmd) as (c & Hc & E).
  apply lookup_take_Some in Hc as [Hc _].
  rewrite (io_bind _ _ _ (show (f, t) s) c).
  2:{ unfold slift, pA2BConfig. cbn [show drv set_bus_trace set_drv from_file a2b_cfg set_has_fault].
      rewrite (array_get_lookup _ _ c (zlen_nonneg before)); [done|]. unfold zlen. by rewrite Nat2Z.id. }
  rewrite (io_bind _ _ _ (show (f, t) s) (ends i cmd))
    by (unfold slift; by rewrite (node_ends_spec _ c cmd i)).
  destruct (ends i cmd); [cbn; by rewrite app_nil_r|].
  destruct (node_action_spec buf c cmd f t s (proj1 E) Bc Sc LB) as (buf' & LB' & E').
  rewrite (io_bind _ _ _ _ _ E').
  replace (zlen before + 1) with (zlen (before ++ [cmd])) by (by rewrite zlen_app).
  rewrite IH; [|by rewrite <-app_assoc|done..]. cbn [map concat]. by rewrite <-app_assoc.
Qed.

(** ** One node *)

(** The tables of the driver for the nodes 1 to [num_nodes]. *)
Record node_tables (d : a2b24xx) (cs : list command) : Prop := {
  nt_loaded : loaded gaA2BConfig d cs;
  nt_bus : Forall fits_bus cs;
  nt_scan : Forall scannable cs;
  nt_nodes : 0 <= num_nodes d <= 15;
  nt_cycles : length (node_cycles d) = 16%nat;
  nt_pos : length (node_pos d) = 16%nat;
  nt_range : forall i p, node_pos d !! i = Some p -> 0 <= p < zlen cs
}.

Lemma configure_node_spec (i pos : Z) (f : bool) (t : list event) (s : a2b_sys) (cs : list command) :
  memory_ok h -> node_tables (drv s) cs -> 1 <= i <= 15 -> node_pos (drv s) !! Z.to_nat i = Some pos ->
  configure_node gaA2BConfig h i (show (f, t) s)
  = Done (tt, show (f, t ++ configure_events i (master_fmt (drv s)) (drop (Z.to_nat pos) cs)) s).
Proof.
  intros M [[N L] B S _ _ _ R] Hi Hp. pose proof (R _ _ Hp) as Rp. unfold configure_node.
  erewrite io_bind by reflexivity. cbv beta.
  match goal with |- context [set_bus_trace ?x _] =>
    rewrite (io_bind _ _ _ (show (f, x ++ switch_events (Z.to_nat i) 0 1) s) tt)
      by (apply (for_loop_switches (Z.to_nat i) 0 1 f x s); lia) end.
  match goal with |- context [show (f, ?x) s] => destruct (M x) as [l El]; set (t1 := x) in * end.
  rewrite (io_bind _ _ _ (show (f, t1) s) (Some (resize (Z.to_nat SCRATCH) 0 l))).
  2:{ unfold alloc_scratch. change (bus_trace (show (f, t1) s)) with t1. by rewrite El. }
  assert (u8 i = i) as U by (unfold u8; apply Z.mod_small; lia).
  rewrite (io_bind _ _ _ (show (f, t1 ++ [sel i]) s) tt) by (unfold select_node; by rewrite U).
  rewrite (io_bind get _ _ (show (f, t1 ++ [sel i]) s) (drv (show (f, t1 ++ [sel i]) s))) by done.
  rewrite (io_bind _ _ _ (show (f, t1 ++ [sel i]) s) pos)
    by (unfold slift; erewrite array_get_lookup; [reflexivity|lia|exact Hp]).
  change (a2b_cfg (drv (show (f, t1 ++ [sel i]) s))) with (a2b_cfg (drv s)). rewrite N.
  assert (pos = zlen (take (Z.to_nat pos) cs)) as Ep by (unfold zlen in *; rewrite length_take; lia).
  assert (Z.to_nat (zlen cs - pos) = length (drop (Z.to_nat pos) cs)) as ->
    by (unfold zlen in *; rewrite length_drop; lia).
  erewrite io_bind.
  2:{ rewrite Ep at 2. apply node_loop_spec; rewrite ?take_drop; [done|by apply Forall_drop..|].
      unfold zlen. rewrite length_resize. unfold SCRATCH. lia. }
  unfold adi_a2b_I2CWrite, emit, smodify, show. cbn. subst t1. unfold configure_events.
  rewrite <-!app_assoc. done.
Qed.

(** What a rediscovery of node [i] does. *)
Definition node_spec (d : a2b24xx) (cs : list command) (i : Z) (v : view) : bool * view :=
  let '(found, (f, t)) := attempts (fst v, snd v ++ start_events i (node_cycles d !!! Z.to_nat i)) in
  if found
  then (true, (f, t ++ configure_events i (master_fmt d) (drop (Z.to_nat (node_pos d !!! Z.to_nat i)) cs)))
  else (false, (f, t ++ [to_bus A2B_REG_SWCTL 0; to_base A2B_REG_CONTROL 130])).

Lemma log_node_done (d : a2b24xx) (cs : list command) (i : Z) :
  node_tables d cs -> 1 <= i <= 15 -> log_node gaA2BConfig d i = Done tt.
Proof.
  intros [[N L] _ _ _ C P R] Hi. unfold log_node. destruct (log_enabled d); [|done].
  rewrite array_get_done by (unfold zlen; lia). cbn [obind].
  destruct (lookup_lt_is_Some_2 (node_pos d) (Z.to_nat i)) as [p Ep]; [lia|].
  rewrite (array_get_lookup _ i p) by (lia || done). cbn [obind].
  apply R in Ep. apply Forall2_length in L. rewrite length_take in L.
  assert (is_Some ((if from_file d then fileA2BConfig (a2b_cfg d) else gaA2BConfig) !! Z.to_nat p)) as [c Ec]
    by (apply lookup_lt_is_Some_2; unfold zlen in *; lia).
  unfold pA2BConfig. by rewrite (array_get_lookup _ p c) by (lia || done).
Qed.

Lemma processSingleNode_spec (s : a2b_sys) (cs : list command) (i : Z) (v : view) :
  memory_ok h -> node_tables (drv s) cs -> 1 <= i <= num_nodes (drv s) ->
  processSingleNode gaA2BConfig h i (show v s)
  = Done (fst (node_spec (drv s) cs i v), show (snd (node_spec (drv s) cs i v)) s).
Proof.
  intros M T Hi. pose proof (nt_nodes _ _ T) as Hn. destruct v as [f t]. unfold processSingleNode, node_spec.
  rewrite (io_bind get _ _ (show (f, t) s) (drv (show (f, t) s))) by done.
  change (num_nodes (drv (show (f, t) s))) with (num_nodes (drv s)).
  rewrite (proj2 (Z.leb_le 1 i)), (proj2 (Z.leb_le i _)) by lia. cbn [andb negb fst snd].
  rewrite (io_bind _ _ _ (show (f, t) s) tt).
  2:{ pose proof (log_node_done (drv s) cs i T ltac:(lia)) as E. unfold slift.
      change (log_node gaA2BConfig (drv (show (f, t) s)) i) with (log_node gaA2BConfig (drv s) i). by rewrite E. }
  destruct (lookup_lt_is_Some_2 (node_cycles (drv s)) (Z.to_nat i)) as [c Ec]; [rewrite (nt_cycles _ _ T); lia|].
  destruct (lookup_lt_is_Some_2 (node_pos (drv s)) (Z.to_nat i)) as [p Ep]; [rewrite (nt_pos _ _ T); lia|].
  rewrite (list_lookup_total_correct _ _ _ Ec), (list_lookup_total_correct _ _ _ Ep).
  rewrite (io_bind _ _ _ _ _ (start_discovery_spec i c f t s ltac:(lia) Ec)).
  rewrite (io_bind _ _ _ _ _ (discovery_loop_spec _ s)).
  destruct (attempts (f, t ++ start_events i c)) as [[] [f' t']]; cbn [fst snd].
  - rewrite (io_bind _ _ _ _ _ (configure_node_spec i p f' t' s cs M T ltac:(lia) Ep)). done.
  - unfold sbind, bus_write, base_write, adi_a2b_I2CWrite, emit, smodify, sret, show. cbn.
    by rewrite <-app_assoc.
Qed.

(** ** All nodes behind the fault *)

(** The nodes are discovered in order; the first one that does not come back
    ends it. *)
Fixpoint rediscover_spec (d : a2b24xx) (cs : list command) (nodes : list Z) (v : view) : bool * view :=
  match nodes with
  | [] => (true, v)
  | i :: nodes =>
      let '(ok, (f, t)) := node_spec d cs i v in
      if ok then rediscover_spec d cs nodes (f, t ++ [Mdelay 1; poll_event]) else (false, (f, t))
  end.

Lemma rediscover_refines (n fuel : nat) (i : Z) (v : view) (s : a2b_sys) (cs : list command) :
  memory_ok h -> node_tables (drv s) cs -> 1 <= i -> num_nodes (drv s) - i + 1 = Z.of_nat n ->
  (n <= fuel)%nat ->
  rediscover gaA2BConfig h fuel i (show v s)
  = Done (fst (rediscover_spec (drv s) cs (seqZ i (Z.of_nat n)) v),
          show (snd (rediscover_spec (drv s) cs (seqZ i (Z.of_nat n)) v)) s).
Proof.
  intros M T. revert fuel i v. induction n as [|n IH]; intros fuel i v Hi Hn Hf.
  - destruct fuel; cbn [rediscover];
      rewrite (io_bind get _ _ (show v s) (drv (show v s))) by done;
      change (num_nodes (drv (show v s))) with (num_nodes (drv s));
      rewrite (proj2 (Z.leb_gt i _)) by lia; done.
  - pose proof (nt_nodes _ _ T) as Hd. destruct fuel as [|fuel]; [lia|]. cbn [rediscover].
    rewrite (io_bind get _ _ (show v s) (drv (show v s))) by done.
    change (num_nodes (drv (show v s))) with (num_nodes (drv s)).
    rewrite (proj2 (Z.leb_le i _)) by lia.
    rewrite seqZ_cons by lia. replace (Z.pred (Z.of_nat (S n))) with (Z.of_nat n) by lia.
    cbn [rediscover_spec].
    rewrite (io_bind _ _ _ _ _ (processSingleNode_spec s cs i v M T ltac:(lia))).
    destruct (node_spec (drv s) cs i v) as [[] [f t]]; cbn [fst snd negb]; [|done].
    rewrite (io_bind _ _ _ (show (f, t ++ [Mdelay 1]) s) tt) by done.
    destruct (read_interrupt h (show (f, t ++ [Mdelay 1]) s)) as [ret E].
    rewrite (io_bind _ _ _ _ _ E).
    change (set_bus_trace (bus_trace (show (f, t ++ [Mdelay 1]) s) ++ [poll_event]) (show (f, t ++ [Mdelay 1]) s))
      with (show (f, (t ++ [Mdelay 1]) ++ [poll_event]) s). rewrite <-app_assoc. cbn [app].
    assert (u8 (i + 1) = i + 1) as -> by (unfold u8; apply Z.mod_small; lia).
    rewrite IH by lia. unfold Z.succ. done.
Qed.

(** [processFaultNode (i)]: everything for node 0, else the nodes from [i]
    on; the fault is over when all of them came back. *)
Definition fault_spec (d : a2b24xx) (cs : list command) (i : Z) (v : view) : view :=
  if i <=? 0 then setup_spec h cs (snd v)
  else
    let '(ok, (f, t)) := rediscover_spec d cs (seqZ i (num_nodes d - i + 1)) v in
    if ok
    then (false, t ++ [sel (num_nodes d); to_bus A2B_REG_SWCTL 0; to_base A2B_REG_CONTROL 130])
    else (f, t).

Lemma processFaultNode_spec (i : Z) (v : view) (s : a2b_sys) (cs : list command) :
  memory_ok h -> node_tables (drv s) cs -> i <= num_nodes (drv s) ->
  processFaultNode gaA2BConfig h i (show v s) = Done (tt, show (fault_spec (drv s) cs i v) s).
Proof.
  intros M T Hi. pose proof (nt_nodes _ _ T) as Hd. unfold processFaultNode, fault_spec.
  destruct (i <=? 0) eqn:B; zbool.
  { destruct T as [L Bs _ _ _ _ _].
    rewrite (network_setup_spec gaA2BConfig h (show v s) cs M L Bs). by rewrite show_show. }
  assert (u8 i = i) as -> by (unfold u8; apply Z.mod_small; lia).
  replace (num_nodes (drv s) - i + 1) with (Z.of_nat (Z.to_nat (num_nodes (drv s) - i + 1))) by lia.
  rewrite (io_bind _ _ _ _ _
    (rediscover_refines (Z.to_nat (num_nodes (drv s) - i + 1)) 256 i v s cs M T ltac:(lia) ltac:(lia) ltac:(lia))).
  destruct (rediscover_spec _ _ _ _) as [[] [f t]]; cbn [fst snd]; [|done].
  rewrite (io_bind get _ _ (show (f, t) s) (drv (show (f, t) s))) by done.
  unfold select_node. change (num_nodes (drv (show (f, t) s))) with (num_nodes (drv s)).
  assert (u8 (num_nodes (drv s)) = num_nodes (drv s)) as -> by (unfold u8; apply Z.mod_small; lia).
  unfold sbind, bus_write, base_write, adi_a2b_I2CWrite, emit, upd, smodify, show. cbn.
  by rewrite <-!app_assoc.
Qed.

(** A fault that was seen stays one until all nodes are back. *)
Lemma attempts_fault (v : view) : fst v = true -> fst (snd (attempts v)) = true.
Proof.
  destruct v as [f t]. cbn. intros ->.
  destruct (interrupt_type _ =? A2B_ENUM_INTTYPE_DSCDONE); [done|].
  by destruct (interrupt_type _ =? A2B_ENUM_INTTYPE_SRFERR).
Qed.

Lemma rediscover_fault (d : a2b24xx) (cs : list command) (nodes : list Z) (v : view) :
  fst v = true -> fst (snd (rediscover_spec d cs nodes v)) = true.
Proof.
  revert v. induction nodes as [|i nodes IH]; intros v F; [done|]. cbn [rediscover_spec].
  unfold node_spec.
  pose proof (attempts_fault (fst v, snd v ++ start_events i (node_cycles d !!! Z.to_nat i)) F) as A.
  destruct (attempts _) as [[] [f t]]; cbn [fst snd] in *; [|done]. by apply IH.
Qed.

(** ** The last node that answers *)

(** A bus with the nodes 0 to [k] (none for -1): the registers of a node that
    is selected can be read, the ones behind [k] do not answer, and if
    [marked] the last one has the flag that the discovery sets. *)
Definition bus_line (k : Z) (marked : bool) : Prop :=
  forall t i, 0 <= i ->
    let '(ret, bytes) := i2c_transfer h (t ++ [sel i]) A2B_BUS_ADDR [A2B_REG_NODE] 1 in
    if i <=? k
    then 0 <= ret /\ exists b, bytes = [b]
         /\ (Z.land b A2B_BITM_NODE_LAST =? 0) = negb ((i =? k) && marked)
    else ret < 0.

Definition node_read : event := Transfer A2B_BUS_ADDR [A2B_REG_NODE] 1.

(** The nodes from [i] to [last] are asked. *)
Definition probe_events (i last : Z) : list event :=
  concat (map (fun i => [sel i; node_read]) (seqZ i (last - i + 1))).

Definition line_end (k : Z) (marked : bool) (n : Z) : Z :=
  if (k <? n) || ((k =? n) && marked) then k else A2B_MASTER_NODE.

Definition last_asked (k : Z) (marked : bool) (n : Z) : Z :=
  Z.min n (if marked then k else k + 1).

Lemma probe_events_cons (i last : Z) :
  i <= last -> probe_events i last = [sel i; node_read] ++ probe_events (i + 1) last.
Proof.
  intros H. unfold probe_events. rewrite seqZ_cons by lia.
  replace (Z.pred (last - i + 1)) with (last - Z.succ i + 1) by lia. done.
Qed.

Lemma probe_events_nil (i last : Z) : last < i -> probe_events i last = [].
Proof. intros H. unfold probe_events. by rewrite seqZ_nil by lia. Qed.

Lemma read_node (k i x : Z) (marked f : bool) (t : list event) (s : a2b_sys) :
  bus_line k marked -> 0 <= i ->
  exists ret b,
    adi_a2b_I2CRead h A2B_BUS_ADDR [A2B_REG_NODE] 1 [x] (show (f, t ++ [sel i]) s)
    = Done ((ret, [b]), show (f, t ++ [sel i; node_read]) s)
    /\ (ret =? 0) = (i <=? k)
    /\ (i <= k -> (Z.land b A2B_BITM_NODE_LAST =? 0) = negb ((i =? k) && marked)).
Proof.
  intros L H0. specialize (L t i H0). unfold adi_a2b_I2CRead.
  change (bus_trace (show (f, t ++ [sel i]) s)) with (t ++ [sel i]).
  destruct (i2c_transfer _ _ _ _ _) as [ret bytes]. change (Z.to_nat 1) with 1%nat.
  assert (set_bus_trace ((t ++ [sel i]) ++ [Transfer A2B_BUS_ADDR [A2B_REG_NODE] 1]) (show (f, t ++ [sel i]) s)
          = show (f, t ++ [sel i; node_read]) s) as E by (unfold show; cbn; by rewrite <-app_assoc).
  destruct (i <=? k) eqn:B; zbool.
  - destruct L as (Hr & b & -> & Hb). exists 0, b. rewrite (proj2 (Z.ltb_ge ret 0)) by lia.
    split; [|done]. cbn [take mem_write]. rewrite <-E. done.
  - exists ret. rewrite (proj2 (Z.ltb_lt ret 0)) by lia.
    assert (length (take 1 bytes) <= 1)%nat as Lb by (rewrite length_take; lia).
    destruct (take 1 bytes) as [|b [|? ?]]; cbn in Lb; try lia; eexists; (split; [|split; [|lia]]).
    1,3: rewrite <-E; reflexivity.
    all: by apply Z.eqb_neq; lia.
Qed.

Lemma last_node_spec (m fuel : nat) (k i : Z) (marked : bool) (x : Z) (v : view) (s : a2b_sys) :
  bus_line k marked -> 0 <= num_nodes (drv s) <= 15 -> (m <= fuel)%nat ->
  0 <= i -> num_nodes (drv s) - i + 1 = Z.of_nat m ->
  i <= k \/ (i = k + 1 /\ marked = false) ->
  last_node h fuel i [x] (show v s)
  = Done (line_end k marked (num_nodes (drv s)),
          show (fst v, snd v ++ probe_events i (last_asked k marked (num_nodes (drv s)))) s).
Proof.
  intros L Hd. revert fuel i x v. induction m as [|m IH]; intros fuel i x v Hf H0 Hm Hi.
  - assert (line_end k marked (num_nodes (drv s)) = A2B_MASTER_NODE) as ->.
    { unfold line_end. rewrite (proj2 (Z.ltb_ge k _)) by lia.
      destruct marked; [|by rewrite andb_false_r]. by rewrite (proj2 (Z.eqb_neq k _)) by lia. }
    rewrite probe_events_nil by (unfold last_asked; lia). rewrite app_nil_r.
    destruct fuel, v; cbn [last_node]; (erewrite io_bind by reflexivity);
      change (num_nodes (drv (show _ s))) with (num_nodes (drv s));
      by rewrite (proj2 (Z.leb_gt i _)) by lia.
  - destruct fuel as [|fuel]; [lia|]. cbn [last_node].
    rewrite (io_bind get _ _ (show v s) (drv (show v s))) by done.
    change (num_nodes (drv (show v s))) with (num_nodes (drv s)).
    rewrite (proj2 (Z.leb_le i _)) by lia. destruct v as [f t]. cbn [fst snd].
    assert (u8 i = i) as U by (unfold u8; apply Z.mod_small; lia).
    rewrite (io_bind _ _ _ (show (f, t ++ [sel i]) s) tt) by (unfold select_node; by rewrite U).
    destruct (read_node k i x marked f t s L H0) as (ret & b & E & Er & Eb).
    rewrite (io_bind _ _ _ _ _ E), Er.
    assert (to_signed 8 i = i) as Si by (unfold to_signed; cbn; rewrite Z.mod_small by lia; by zif; lia).
    rewrite probe_events_cons by (unfold last_asked; destruct marked; lia).
    destruct (i <=? k) eqn:B; zbool; cbn [negb].
    + rewrite (io_bind _ _ _ (show (f, t ++ [sel i; node_read]) s) b) by done.
      rewrite Eb by done. destruct ((i =? k) && marked) eqn:B2; cbn [negb].
      * apply andb_true_iff in B2 as [B2 ->]. zbool. subst i. rewrite Si.
        unfold line_end. rewrite probe_events_nil by (unfold last_asked; lia).
        destruct (k <? num_nodes (drv s)) eqn:B3; zbool; [done|].
        by rewrite (proj2 (Z.eqb_eq k (num_nodes (drv s)))) by lia.
      * assert (u8 (i + 1) = i + 1) as -> by (unfold u8; apply Z.mod_small; lia).
        rewrite (IH fuel (i + 1) b (f, t ++ [sel i; node_read])); [|lia..|].
        -- cbn [fst snd]. by rewrite <-app_assoc.
        -- destruct (decide (i = k)) as [-> |]; [|lia]. rewrite Z.eqb_refl in B2. destruct marked; [done|]. lia.
    + assert (i = k + 1 /\ marked = false) as [-> ->] by (destruct Hi; [lia|done]).
      unfold line_end. rewrite (proj2 (Z.ltb_lt k _)) by lia. cbn [orb].
      assert (to_signed 8 (k + 1 - 1) = k) as ->.
      { replace (k + 1 - 1) with k by lia. unfold to_signed. cbn.
        destruct (decide (k = -1)) as [-> |]; [done|]. rewrite Z.mod_small by lia. by zif; lia. }
      rewrite probe_events_nil by (unfold last_asked; lia). done.
Qed.

(** ** The check *)

Definition check_spec (d : a2b24xx) (cs : list command) (k : Z) (marked : bool) (v : view) : view :=
  let n := num_nodes d in
  let t := snd v ++ probe_events 0 (last_asked k marked n) in
  if line_end k marked n <? n then fault_spec d cs (line_end k marked n + 1) (true, t) else (fst v, t).

Lemma checkFaultNode_spec (s : a2b_sys) (cs : list command) (k : Z) (marked : bool) (x : Z) (v : view) :
  memory_ok h -> node_tables (drv s) cs -> bus_line k marked -> -1 <= k -> (marked = true -> 0 <= k) ->
  bus_lock s = false ->
  checkFaultNode gaA2BConfig h x (show v s) = Done (tt, show (check_spec (drv s) cs k marked v) s).
Proof.
  intros M T L Hk Hm HL. pose proof (nt_nodes _ _ T) as Hd. unfold checkFaultNode.
  set (s1 := set_bus_lock true s).
  rewrite (io_bind _ _ _ (show v s1) tt).
  2:{ unfold mutex_lock. cbn [show set_bus_trace set_drv bus_lock]. by rewrite HL. }
  rewrite (io_bind _ _ _ _ _ (last_node_spec (Z.to_nat (num_nodes (drv s) + 1)) 256 k 0 marked 0 v s1
     L Hd ltac:(lia) ltac:(lia) ltac:(cbn; lia) ltac:(destruct marked; [left; auto|lia]))).
  change (num_nodes (drv s1)) with (num_nodes (drv s)).
  set (n := num_nodes (drv s)) in *. set (t := snd v ++ _).
  rewrite (io_bind get _ _ (show (fst v, t) s1) (drv (show (fst v, t) s1))) by done.
  change (num_nodes (drv (show (fst v, t) s1))) with n.
  assert (forall w, show w s = set_bus_lock false (show w s1)) as Eu by (intros; destruct s; cbn in HL; by subst).
  unfold check_spec. fold n. fold t.
  assert (-1 <= line_end k marked n <= n) as Hl.
  { unfold line_end, A2B_MASTER_NODE. destruct (k <? n) eqn:B1; zbool; cbn; [lia|].
    destruct (k =? n) eqn:B2; zbool; destruct marked; cbn; lia. }
  destruct (line_end k marked n <? n) eqn:B; zbool.
  - rewrite (io_bind _ _ _ (show (fault_spec (drv s) cs (line_end k marked n + 1) (true, t)) s1) tt).
    + rewrite Eu. done.
    + rewrite (io_bind _ _ _ (show (true, t) s1) tt) by done.
      assert (to_signed 8 (line_end k marked n + 1) = line_end k marked n + 1) as ->.
      { unfold to_signed. cbn. rewrite Z.mod_small by lia. by zif; lia. }
      apply (processFaultNode_spec _ (true, t) s1 cs M T). cbn. lia.
  - rewrite (io_bind _ _ _ (show (fst v, t) s1) tt) by done. rewrite Eu. done.
Qed.

End Fault.

(** ** A run in which every node comes back *)

(** What the rediscovery of node [i] does when it comes back at once. *)
Definition node_run (d : a2b24xx) (cs : list command) (i : Z) : list event :=
  start_events i (node_cycles d !!! Z.to_nat i) ++ [poll_event]
  ++ configure_events i (master_fmt d) (drop (Z.to_nat (node_pos d !!! Z.to_nat i)) cs)
  ++ [Mdelay 1; poll_event].

(** Every poll reports that the discovery is done. *)
Definition discovers (h : host) : Prop :=
  forall t, fst (interrupt_answer h t) <> 0 /\ snd (interrupt_answer h t) = A2B_ENUM_INTTYPE_DSCDONE.

Lemma rediscover_all (h : host) (d : a2b24xx) (cs : list command) (nodes : list Z) (f : bool) (t : list event) :
  discovers h ->
  rediscover_spec h d cs nodes (f, t) = (true, (f, t ++ concat (map (node_run d cs) nodes))).
Proof.
  intros D. revert t. induction nodes as [|i nodes IH]; intros t; [cbn; by rewrite app_nil_r|].
  cbn [rediscover_spec]. unfold node_spec. cbn [fst snd]. unfold attempts.
  destruct (D (t ++ start_events i (node_cycles d !!! Z.to_nat i))) as [D1 D2].
  unfold interrupt_type, is_fault. rewrite (proj2 (Z.eqb_neq _ _) D1), D2.
  change (existsb (Z.eqb A2B_ENUM_INTTYPE_DSCDONE) intTypes) with false.
  change (A2B_ENUM_INTTYPE_DSCDONE =? A2B_ENUM_INTTYPE_DSCDONE) with true. cbn [negb andb].
  rewrite orb_false_r, IH. cbn [map concat]. unfold node_run. by rewrite <-!app_assoc.
Qed.

Lemma show_self (s : a2b_sys) : show (has_fault (drv s), bus_trace s) s = s.
Proof. by destruct s as [[]]. Qed.

(** ** Properties *)


(** C9. Recovery: on a bus that has lost the nodes behind [k], if every
    discovery is reported done, the check ends without a fault, and it has
    run the whole discovery sequence and the program of every lost node, in
    order, and nothing else after asking for the nodes. *)
Theorem fault_recovery (gaA2BConfig : list ADI_A2B_DISCOVERY_CONFIG) (h : host) (s : a2b_sys)
    (cs : list command) (k : Z) (marked : bool) (inode : Z) :
  memory_ok h -> node_tables gaA2BConfig (drv s) cs -> bus_line h k marked ->
  0 <= k < num_nodes (drv s) -> bus_lock s = false -> discovers h ->
  checkFaultNode gaA2BConfig h inode s
  = Done (tt, show (false,
      bus_trace s ++ probe_events 0 (last_asked k marked (num_nodes (drv s)))
      ++ concat (map (node_run (drv s) cs) (seqZ (k + 1) (num_nodes (drv s) - k)))
      ++ [sel (num_nodes (drv s)); to_bus A2B_REG_SWCTL 0; to_base A2B_REG_CONTROL 130]) s).
Proof.
  intros M T L K HL D.
  pose proof (checkFaultNode_spec gaA2BConfig h s cs k marked inode (has_fault (drv s), bus_trace s)
                M T L ltac:(lia) ltac:(lia) HL) as E. rewrite show_self in E. rewrite E. do 3 f_equal.
  unfold check_spec, line_end. rewrite (proj2 (Z.ltb_lt k _)) by lia. cbn [orb snd].
  rewrite (proj2 (Z.ltb_lt k _)) by lia. unfold fault_spec. rewrite (proj2 (Z.leb_gt (k + 1) 0)) by lia.
  rewrite rediscover_all by done. replace (num_nodes (drv s) - (k + 1) + 1) with (num_nodes (drv s) - k) by lia.
  by rewrite <-!app_assoc.
Qed.

(** The flag of the driver tells the truth about a partial discovery:
    it returns, and a fault that was noted before is over exactly when all
    the nodes from [i] on came back. *)
Theorem fault_flag_after_rediscovery (gaA2BConfig : list ADI_A2B_DISCOVERY_CONFIG) (h : host) (s : a2b_sys)
    (cs : list command) (i : Z) :
  memory_ok h -> node_tables gaA2BConfig (drv s) cs -> 1 <= i <= num_nodes (drv s) ->
  has_fault (drv s) = true ->
  exists s', processFaultNode gaA2BConfig h i s = Done (tt, s')
    /\ has_fault (drv s')
       = negb (fst (rediscover_spec h (drv s) cs (seqZ i (num_nodes (drv s) - i + 1)) (true, bus_trace s))).
Proof.
  intros M T Hi F.
  pose proof (processFaultNode_spec gaA2BConfig h i (has_fault (drv s), bus_trace s) s cs M T ltac:(lia)) as E.
  rewrite show_self in E. eexists. split; [exact E|].
  unfold fault_spec. rewrite (proj2 (Z.leb_gt i 0)) by lia. rewrite F.
  pose proof (rediscover_fault h (drv s) cs (seqZ i (num_nodes (drv s) - i + 1)) (true, bus_trace s) eq_refl) as R.
  destruct (rediscover_spec _ _ _ _ _) as [[] [f t]]; cbn in *; [done|]. by rewrite R.
Qed.

(** *** A network of a master and two nodes, with node 1 lost *)

Definition two_node_commands : list command :=
  [ CWrite 104 1 19 [50]; CWrite 104 1 1 [0]; CWrite 105 1 11 [128];
    CWrite 104 1 19 [77]; CWrite 104 1 1 [1]; CWrite 105 1 11 [129]; CDelay [5]; CWrite 105 1 66 [1];
    CWrite 104 1 1 [0]; CWrite 104 1 16 [68]; CWrite 104 1 1 [1]; CWrite 105 1 9 [0] ].

Definition two_node_table : list ADI_A2B_DISCOVERY_CONFIG :=
  map (fun c =>
    match c with
    | CWrite dev w a data => set_paConfigData (DTable data) (attr_config A2B24XX_WRITE w (zlen data) a dev)
    | CRead dev w a n => attr_config A2B24XX_READ w n a dev
    | CDelay data => set_eOpCode A2B24XX_DELAY (set_nDataCount (zlen data) (set_paConfigData (DTable data) cleared_config))
    | CIgnored => set_eOpCode A2B24XX_INVALID cleared_config
    end) two_node_commands ++ [cleared_config].

Definition two_node_driver : a2b24xx :=
  {| master_fmt := 68; work_allowed := true; log_enabled := true; has_fault := true; num_nodes := 1;
     node_cycles := [50; 77] ++ replicate 14 0; node_pos := [2; 5] ++ replicate 14 0; from_file := false;
     a2b_cfg := {| fileA2BConfig := []; num_actions := 12; config_buffer := []; write_offset := 0 |} |}.

(** The node that the last write to NODEADR has selected. *)
Fixpoint selected (t : list event) (i : Z) : Z :=
  match t with
  | [] => i
  | Send 104 [1; j] :: t => selected t j
  | _ :: t => selected t i
  end.

(** Node 0 answers and carries the flag, node 1 does not; [type] is the type
    of every interrupt of the master. *)
Definition two_node_host (type : Z) : host :=
  {| client_irq := 17; request_irq := 0;
     i2c_transfer := fun t dev _ _ =>
       if dev =? 104 then (2, [128; type])
       else if selected t 0 <=? 0 then (2, [128]) else (-6, []);
     kmalloc := fun _ => Some [] |}.

Lemma selected_last (t : list event) (i j : Z) : selected (t ++ [sel i]) j = i.
Proof.
  revert j. induction t as [|e t IH]; intros j; [done|]. cbn [app].
  destruct e as [a l|a l n|ms]; try apply IH.
  cbn [selected]. destruct a as [|a|a]; try apply IH. repeat (destruct a as [a|a|]; try apply IH).
  destruct l as [|b l]; try apply IH. destruct b as [|b|b]; try apply IH. destruct b as [b|b|]; try apply IH.
  destruct l as [|c [|? ?]]; try apply IH.
Qed.

Lemma two_node_line (type : Z) : bus_line (two_node_host type) 0 true.
Proof.
  intros t i H. cbn [i2c_transfer two_node_host]. rewrite selected_last.
  change (A2B_BUS_ADDR =? 104) with false. cbn iota.
  destruct (i <=? 0) eqn:B; zbool; [|lia]. assert (i = 0) as -> by lia. split; [lia|]. by exists 128.
Qed.

Lemma two_node_tables : node_tables two_node_table two_node_driver two_node_commands.
Proof.
  constructor; try (vm_compute; intuition discriminate).
  - split; [reflexivity|]. repeat constructor; vm_compute; auto.
  - repeat constructor; vm_compute; intuition discriminate.
  - repeat constructor; vm_compute; intuition discriminate.
  - intros i p H. cbn [two_node_driver node_pos] in H. change (zlen two_node_commands) with 12.
    do 16 (destruct i as [|i]; [cbn in H; injection H as <-; lia|]). discriminate H.
Qed.


Lemma fault_recovery_witness :
  checkFaultNode two_node_table (two_node_host 24) (-2) (new_sys two_node_driver)
  = Done (tt, show (false,
      [sel 0; node_read; sel 0; to_bus 9 0; to_bus 24 255; Mdelay 100; to_base 9 33;
       sel 0; to_bus 9 1; to_base 19 77; Mdelay 35; poll_event;
       to_base 9 1; sel 0; to_bus 9 1; sel 1; to_bus 11 129; Mdelay 5; to_bus 66 1;
       Send 104 [16; 68; 3; 129]; Mdelay 1; poll_event; sel 1; to_bus 9 0; to_base 18 130])
      (new_sys two_node_driver)).
Proof.
  apply (fault_recovery two_node_table (two_node_host 24) (new_sys two_node_driver) two_node_commands 0 true).
  - intros t. by exists [].
  - apply two_node_tables.
  - apply two_node_line.
  - vm_compute. intuition discriminate.
  - reflexivity.
  - intros t. by vm_compute.
Defined.

Lemma fault_flag_after_rediscovery_witness :
  exists s', processFaultNode two_node_table (two_node_host 12) 1 (new_sys two_node_driver) = Done (tt, s')
    /\ has_fault (drv s') = true.
Proof.
  apply (fault_flag_after_rediscovery two_node_table (two_node_host 12) (new_sys two_node_driver)
           two_node_commands 1).
  - intros t. by exists [].
  - apply two_node_tables.
  - vm_compute. intuition discriminate.
  - reflexivity.
Defined.
