(* ===== verification/A2bMonitor.v ===== *)
(** * The monitor of the A2B bus

    The works, the interrupt line and the control device as a transition
    system: which of them can run when, and the invariant that the bus is
    being watched whenever watching is allowed. *)

From Stdlib Require Import ZArith Lia Ascii String.
From stdpp Require Import base list numbers.
From S2P Require Import Prelude CString Sscanf A2bConfig A2bConfigProofs A2bBus A2bControl A2bProofs A2bFault.

#[local] Open Scope Z_scope.

(** ** Operations that touch only the bus *)

(** If [m] returns, it has changed nothing but the fault flag and the trace. *)
Definition bus_quiet {A} (m : io A) : Prop :=
  forall s, run_spec True m (fun _ s' => exists v, s' = show v s) s.

Create HintDb a2b.

Lemma quiet_ret {A} (a : A) : bus_quiet (sret a).
Proof. intros s. exists (has_fault (drv s), bus_trace s). by rewrite show_self. Qed.

Lemma quiet_get : bus_quiet get.
Proof. intros s. exists (has_fault (drv s), bus_trace s). by rewrite show_self. Qed.

Lemma quiet_lift {A} (m : outcome A) : bus_quiet (slift m).
Proof.
  intros s. unfold run_spec, slift. destruct m; cbn; [|done..].
  exists (has_fault (drv s), bus_trace s). by rewrite show_self.
Qed.

Lemma quiet_bind {A B} (m : io A) (k : A -> io B) :
  bus_quiet m -> (forall a, bus_quiet (k a)) -> bus_quiet (sbind m k).
Proof.
  intros Hm Hk s. apply run_bind. eapply run_mono; [apply Hm|]. intros a s' [v ->].
  eapply run_mono; [apply Hk|]. intros b s'' [w ->]. exists w. by rewrite show_show.
Qed.

Lemma quiet_blocked {A} : bus_quiet (fun _ => @Blocked (A * a2b_sys)).
Proof. done. Qed.

Lemma quiet_emit (e : event) : bus_quiet (emit e).
Proof. intros s. exists (has_fault (drv s), bus_trace s ++ [e]). by destruct s as [[]]. Qed.

Lemma quiet_fault (b : bool) : bus_quiet (upd (set_has_fault b)).
Proof. intros s. exists (b, bus_trace s). by destruct s as [[]]. Qed.

Lemma quiet_read (h : host) (dev : Z) (w : list Z) (n : Z) (buf : list Z) :
  bus_quiet (adi_a2b_I2CRead h dev w n buf).
Proof.
  intros s. unfold run_spec, adi_a2b_I2CRead. destruct (i2c_transfer _ _ _ _ _) as [ret bytes].
  destruct (mem_write _ _ _); cbn; [|done..].
  exists (has_fault (drv s), bus_trace s ++ [Transfer dev w n]). by destruct s as [[]].
Qed.

Lemma quiet_alloc (h : host) : bus_quiet (alloc_scratch h).
Proof. intros s. exists (has_fault (drv s), bus_trace s). by rewrite show_self. Qed.

#[export] Hint Resolve quiet_ret quiet_get quiet_lift quiet_blocked quiet_emit quiet_fault quiet_read
  quiet_alloc : a2b.

(** Follows the structure of an operation. *)
Ltac quiet_solve :=
  repeat first
  [ solve [eauto with a2b]
  | apply quiet_bind; [|intros ?]
  | match goal with |- bus_quiet (let '(_, _) := ?x in _) => destruct x end
  | match goal with |- bus_quiet (if ?b then _ else _) => destruct b end
  | match goal with |- bus_quiet (match ?x with _ => _ end) => destruct x end ].

Lemma quiet_for_loop (n : nat) (i : Z) (body : Z -> io unit) :
  (forall i, bus_quiet (body i)) -> bus_quiet (for_loop n i body).
Proof. intros H. revert i. induction n as [|n IH]; intros i; cbn [for_loop]; quiet_solve. Qed.

Lemma quiet_down_loop (n : nat) (i : Z) (body : Z -> io unit) :
  (forall i, bus_quiet (body i)) -> bus_quiet (down_loop n i body).
Proof. intros H. revert i. induction n as [|n IH]; intros i; cbn [down_loop]; quiet_solve. Qed.

Section Quiet.

Context (gaA2BConfig : list ADI_A2B_DISCOVERY_CONFIG) (h : host).

Lemma quiet_poll : bus_quiet (processInterrupt_poll h).
Proof. unfold processInterrupt_poll, processInterrupt_with. quiet_solve. Qed.
#[local] Hint Resolve quiet_poll : a2b.

Lemma quiet_write_action d buf c : bus_quiet (write_action d buf c).
Proof. unfold write_action, adi_a2b_I2CWrite. quiet_solve. Qed.
#[local] Hint Resolve quiet_write_action : a2b.

Lemma quiet_setup_action buf c : bus_quiet (setup_action h buf c).
Proof. unfold setup_action, read_action, mdelay. quiet_solve. Qed.
#[local] Hint Resolve quiet_setup_action : a2b.

Lemma quiet_setup : bus_quiet (adi_a2b_NetworkSetup gaA2BConfig h).
Proof.
  assert (forall n i buf, bus_quiet (setup_loop gaA2BConfig h n i buf)) as L.
  { induction n as [|n IH]; intros i buf; cbn [setup_loop]; quiet_solve. }
  unfold adi_a2b_NetworkSetup. quiet_solve.
Qed.
#[local] Hint Resolve quiet_setup : a2b.

Lemma quiet_single i : bus_quiet (processSingleNode gaA2BConfig h i).
Proof.
  assert (forall n j buf, bus_quiet (node_loop gaA2BConfig n j i buf)) as L.
  { induction n as [|n IH]; intros j buf; cbn [node_loop]; unfold node_action, mdelay; quiet_solve. }
  assert (forall n r, bus_quiet (discovery_loop h n r)) as D.
  { induction n as [|n IH]; intros r; cbn [discovery_loop]; unfold mdelay; quiet_solve. }
  assert (forall n v, bus_quiet (set_switches n v)) as W.
  { intros. unfold set_switches. apply quiet_for_loop. intros.
    unfold select_node, bus_write, adi_a2b_I2CWrite. quiet_solve. }
  unfold processSingleNode, start_discovery, configure_node, mdelay, select_node, bus_write, base_write,
    adi_a2b_I2CWrite. quiet_solve.
Qed.
#[local] Hint Resolve quiet_single : a2b.

Lemma quiet_fault_node i : bus_quiet (processFaultNode gaA2BConfig h i).
Proof.
  assert (forall n j, bus_quiet (rediscover gaA2BConfig h n j)) as R.
  { induction n as [|n IH]; intros j; cbn [rediscover]; unfold mdelay; quiet_solve. }
  unfold processFaultNode, select_node, bus_write, base_write, adi_a2b_I2CWrite. quiet_solve.
Qed.

Lemma quiet_last_node n i buf : bus_quiet (last_node h n i buf).
Proof.
  revert i buf. induction n as [|n IH]; intros i buf; cbn [last_node];
    unfold select_node, adi_a2b_I2CWrite; quiet_solve.
Qed.

End Quiet.
#[export] Hint Resolve quiet_setup quiet_fault_node quiet_last_node : a2b.

(** ** Operations under the mutex *)

(** If [m] returns, it has released the mutex and is quiet otherwise. *)
Definition releases {A} (m : io A) : Prop :=
  forall s, run_spec True m (fun _ s' => exists v, s' = set_bus_lock false (show v s)) s.

Lemma releases_unlock : releases mutex_unlock.
Proof. intros s. exists (has_fault (drv s), bus_trace s). by destruct s as [[]]. Qed.

Lemma releases_bind {A B} (m : io A) (k : A -> io B) :
  bus_quiet m -> (forall a, releases (k a)) -> releases (sbind m k).
Proof.
  intros Hm Hk s. apply run_bind. eapply run_mono; [apply Hm|]. intros a s' [v ->].
  eapply run_mono; [apply Hk|]. intros b s'' [w ->]. exists w. by rewrite show_show.
Qed.

Lemma quiet_lock {A} (k : unit -> io A) : (forall u, releases (k u)) -> bus_quiet (sbind mutex_lock k).
Proof.
  intros Hk s. apply run_bind. unfold run_spec at 1, mutex_lock. destruct (bus_lock s) eqn:E; [done|].
  eapply run_mono; [apply Hk|]. intros b s'' [w ->]. exists w. destruct s; cbn in *. by subst.
Qed.

Ltac releases_solve :=
  repeat first
  [ apply releases_unlock
  | apply releases_bind; [quiet_solve|intros ?] ].

Lemma quiet_check (gaA2BConfig : list ADI_A2B_DISCOVERY_CONFIG) (h : host) (i : Z) :
  bus_quiet (checkFaultNode gaA2BConfig h i).
Proof. unfold checkFaultNode. apply quiet_lock. intros _. releases_solve. Qed.
#[export] Hint Resolve quiet_check : a2b.

Lemma quiet_processInterrupt (gaA2BConfig : list ADI_A2B_DISCOVERY_CONFIG) (h : host) (b : bool) :
  bus_quiet (processInterrupt gaA2BConfig h b).
Proof. unfold processInterrupt, processInterrupt_with. quiet_solve. Qed.

Lemma quiet_receive (p0 p1 : Z) : bus_quiet (receive p0 p1).
Proof.
  unfold receive, select_node, bus_write, adi_a2b_I2CWrite. apply quiet_bind; [quiet_solve|intros d].
  destruct (_ && _); [|quiet_solve]. apply quiet_lock. intros _. releases_solve.
Qed.

Lemma quiet_microphones (p0 p1 argc : Z) : bus_quiet (microphones p0 p1 argc).
Proof.
  assert (forall i, bus_quiet (pdm_node p0 p1 argc i)) as P.
  { intros. unfold pdm_node, select_node, bus_write, adi_a2b_I2CWrite. quiet_solve. }
  unfold microphones. apply quiet_bind; [quiet_solve|intros d].
  destruct (_ <=? _); [|quiet_solve]. apply quiet_lock. intros _. apply releases_bind; [|intros _; releases_solve].
  destruct (_ =? 255); [quiet_solve|by apply quiet_for_loop].
Qed.

Lemma quiet_loopback (p0 p1 : Z) : 0 <= p0 -> bus_quiet (loopback p0 p1).
Proof.
  intros H. unfold loopback. apply quiet_bind; [quiet_solve|intros d].
  rewrite (proj2 (Z.ltb_ge p0 0) H). destruct (_ && _); [|quiet_solve].
  unfold select_node, bus_write, base_write, adi_a2b_I2CWrite.
  apply quiet_lock. intros _. do 6 (apply releases_bind; [quiet_solve|intros ?]).
  apply releases_bind; [|intros ?; releases_solve].
  destruct (p0 =? 0); [quiet_solve|]. apply quiet_down_loop. intros. quiet_solve.
Qed.

(** ** The transition system *)

(** What can happen to the driver: its setup runs once; a check that is
    queued runs; the interrupt arrives when its handler is installed and the
    line is enabled; a process writes to the control device, or resets the bus
    through the sound core.  Each of them runs to its end. *)
Inductive a2b_step (gaA2BConfig : list ADI_A2B_DISCOVERY_CONFIG) (h : host) : a2b_sys -> a2b_sys -> Prop :=
| step_setup s s' :
    setup_pending s = true -> a2b24xx_setup_work gaA2BConfig h s = Done (tt, s') ->
    a2b_step gaA2BConfig h s s'
| step_check s s' :
    fault_check_pending s = true ->
    a2b24xx_fault_check_work gaA2BConfig h (set_fault_check_pending false s) = Done (tt, s') ->
    a2b_step gaA2BConfig h s s'
| step_irq s s' :
    irq_handler_set s = true -> irq_depth s = 0 -> a2b24xx_irq_handler s = Done (tt, s') ->
    a2b_step gaA2BConfig h s s'
| step_command s s' buf count r :
    a2b24xx_ctrl_write gaA2BConfig h buf count s = Done (r, s') ->
    a2b_step gaA2BConfig h s s'
| step_reset s s' r :
    a2b24xx_reset_put gaA2BConfig h s = Done (r, s') -> a2b_step gaA2BConfig h s s'.

Inductive reachable (gaA2BConfig : list ADI_A2B_DISCOVERY_CONFIG) (h : host) : a2b_sys -> Prop :=
| reach_probe config_len pe r x s :
    a2b24xx_probe config_len pe = Done (r, x, Some s) -> reachable gaA2BConfig h s
| reach_step s s' :
    reachable gaA2BConfig h s -> a2b_step gaA2BConfig h s s' -> reachable gaA2BConfig h s'.

(** The bus is watched: a check is queued, or the interrupt is enabled and
    leads to one. *)
Definition watched (s : a2b_sys) : Prop :=
  fault_check_pending s = true \/ (irq_handler_set s = true /\ irq_depth s = 0).

Record monitor_inv (h : host) (s : a2b_sys) : Prop := {
  mi_lock : bus_lock s = false;
  mi_depth : irq_depth s = 0 \/ irq_depth s = 1;
  mi_handler : setup_pending s = false -> request_irq h = 0 -> irq_handler_set s = true;
  mi_watched : setup_pending s = false -> work_allowed (drv s) = true -> watched s
}.

Section Monitor.

Context (gaA2BConfig : list ADI_A2B_DISCOVERY_CONFIG) (h : host).
(** An interrupt that the client has can be requested. *)
Context (irq_ok : client_irq h = 0 \/ request_irq h = 0).

(** The invariant without its last part. *)
Definition monitor_base (s : a2b_sys) : Prop :=
  bus_lock s = false /\ (irq_depth s = 0 \/ irq_depth s = 1)
  /\ (setup_pending s = false -> request_irq h = 0 -> irq_handler_set s = true).

Lemma monitor_inv_base (s : a2b_sys) : monitor_inv h s -> monitor_base s.
Proof. by intros []. Qed.

(** A state that is not allowed to watch needs no more than the base. *)
Lemma monitor_inv_off (s : a2b_sys) :
  monitor_base s -> work_allowed (drv s) = false -> monitor_inv h s.
Proof. intros (L & D & H) W. split; [done..|]. intros _ W'. congruence. Qed.

Lemma inv_quiet {A} (m : io A) (s : a2b_sys) :
  bus_quiet m -> monitor_inv h s -> run_spec True m (fun _ s' => monitor_inv h s') s.
Proof. intros Q [L D H W]. eapply run_mono; [apply Q|]. intros a s' [v ->]. by split. Qed.

Lemma base_quiet {A} (m : io A) (s : a2b_sys) :
  bus_quiet m -> monitor_base s -> run_spec True m (fun _ s' => monitor_base s') s.
Proof. intros Q B. eapply run_mono; [apply Q|]. by intros a s' [v ->]. Qed.

(** Scheduling the next check makes the bus watched. *)
Lemma schedule_inv (s : a2b_sys) :
  monitor_base s -> run_spec True (a2b24xx_schedule_fault_check h) (fun _ s' => monitor_inv h s') s.
Proof.
  intros (L & D & H). unfold a2b24xx_schedule_fault_check, run_spec, sbind, get. cbn.
  destruct ((client_irq h =? 0) || has_fault (drv s)) eqn:B; cbn.
  - split; [done..|]. intros _ _. by left.
  - apply orb_false_iff in B as [B _]. zbool.
    destruct (irq_depth s =? 0) eqn:B0; zbool.
    + split; [done..|]. intros P _. right. split; [apply H; [done|tauto]|done].
    + assert (irq_depth s = 1) as E by lia. split; cbn; [done|lia|done|].
      intros P _. right. split; [apply H; [done|tauto]|cbn; lia].
Qed.

Lemma disable_inv (s : a2b_sys) :
  monitor_base s -> run_spec True a2b24xx_disable_fault_check (fun _ s' => monitor_inv h s') s.
Proof. intros B. by apply monitor_inv_off. Qed.

Lemma reset_inv (s : a2b_sys) :
  monitor_base s -> run_spec True (a2b24xx_reset gaA2BConfig h) (fun _ s' => monitor_inv h s') s.
Proof.
  intros B. unfold a2b24xx_reset. apply run_bind.
  eapply run_mono; [by apply disable_inv|]. intros [] s1 I1. apply run_bind.
  eapply run_mono; [apply (base_quiet _ s1 (quiet_setup _ _)); by apply monitor_inv_base|].
  intros [] s2 B2. apply run_bind, run_modify. by apply schedule_inv.
Qed.

Lemma check_inv (s : a2b_sys) :
  monitor_inv h s ->
  run_spec True (a2b24xx_fault_check_work gaA2BConfig h) (fun _ s' => monitor_inv h s')
    (set_fault_check_pending false s).
Proof.
  intros I. unfold a2b24xx_fault_check_work. apply run_bind, run_modify, run_bind.
  eapply run_mono; [apply (base_quiet _ _ (quiet_processInterrupt _ _ _))|].
  - by apply monitor_inv_base in I.
  - intros r s' B. by apply schedule_inv.
Qed.

Lemma irq_inv (s : a2b_sys) :
  monitor_inv h s -> irq_depth s = 0 ->
  run_spec True a2b24xx_irq_handler (fun _ s' => monitor_inv h s') s.
Proof.
  intros [L D H W] E. unfold a2b24xx_irq_handler, run_spec, sbind, get. cbn.
  destruct (work_allowed (drv s)) eqn:A; cbn; split; cbn; try done; try lia.
  - intros _ _. by left.
  - congruence.
Qed.

Lemma setup_inv (s : a2b_sys) :
  monitor_inv h s ->
  run_spec True (a2b24xx_setup_work gaA2BConfig h) (fun _ s' => monitor_inv h s') s.
Proof.
  intros [L D H W]. unfold a2b24xx_setup_work. apply run_bind, run_modify, run_bind.
  eapply run_mono; [apply quiet_setup|]. intros [] s1 [v ->]. apply run_bind.
  unfold run_spec at 1, get. apply run_bind, run_lift.
  destruct (scan_table _ _) as [d| | |]; [|done..]. apply run_bind, run_modify.
  unfold devm_request_irq. destruct (request_irq h =? 0) eqn:B; zbool.
  - split; cbn; [done|lia|done|]. intros _ _. by left.
  - split; cbn; [done|lia|done|]. intros _ _. by left.
Qed.

Lemma loopback_inv (p0 p1 : Z) (s : a2b_sys) :
  monitor_inv h s -> run_spec True (loopback p0 p1) (fun _ s' => monitor_inv h s') s.
Proof.
  intros I. destruct (decide (0 <= p0)) as [P|P]; [apply inv_quiet; auto using quiet_loopback|].
  unfold loopback. apply run_bind. unfold run_spec at 1, get. rewrite (proj2 (Z.ltb_lt p0 0)) by lia.
  apply run_bind. eapply run_mono; [by apply disable_inv, monitor_inv_base|]. intros [] s1 I1.
  apply inv_quiet; [|done]. unfold base_write, adi_a2b_I2CWrite. quiet_solve.
Qed.

Lemma command_inv (command : string) (s : a2b_sys) :
  monitor_inv h s -> run_spec True (ctrl_command gaA2BConfig h command) (fun _ s' => monitor_inv h s') s.
Proof.
  intros I. pose proof (monitor_inv_base s I) as B. unfold ctrl_command.
  destruct (String.eqb command "Reset"); [by apply reset_inv|].
  destruct (String.eqb command "Log Enable"); [destruct I as [L D H W]; by split|].
  destruct (String.eqb command "Disable Fault Check"); [by apply disable_inv|].
  cbv zeta. destruct (1 <=? _); [by apply loopback_inv|].
  destruct (_ =? 2); [apply inv_quiet; auto using quiet_receive|].
  destruct (0 <? _); apply inv_quiet; auto using quiet_microphones with a2b.
Qed.

Lemma ctrl_write_inv (buf : option string) (count : Z) (s : a2b_sys) :
  monitor_inv h s ->
  run_spec True (a2b24xx_ctrl_write gaA2BConfig h buf count) (fun _ s' => monitor_inv h s') s.
Proof.
  intros I. unfold a2b24xx_ctrl_write. cbv zeta.
  destruct (_ =? 0); [done|]. destruct buf as [text|]; [|done]. destruct (_ <? _); [done|].
  apply run_bind. eapply run_mono; [by apply command_inv|]. by intros [] s'.
Qed.

Lemma step_inv (s s' : a2b_sys) : a2b_step gaA2BConfig h s s' -> monitor_inv h s -> monitor_inv h s'.
Proof.
  intros S I. destruct S as [s s' _ E|s s' _ E|s s' _ D E|s s' buf count r E|s s' r E].
  - exact (wlp_elim _ _ _ _ _ (setup_inv s I) E).
  - exact (wlp_elim _ _ _ _ _ (check_inv s I) E).
  - exact (wlp_elim _ _ _ _ _ (irq_inv s I D) E).
  - exact (wlp_elim _ _ _ _ _ (ctrl_write_inv buf count s I) E).
  - refine (wlp_elim _ (fun _ s' => monitor_inv h s') _ _ _ _ E).
    apply run_bind. eapply run_mono; [by apply reset_inv, monitor_inv_base|]. by intros [] s1.
Qed.

Lemma probe_inv (config_len : Z) (pe : probe_env) (r : Z) (x : resources) (s : a2b_sys) :
  a2b24xx_probe config_len pe = Done (r, x, Some s) -> monitor_inv h s.
Proof.
  unfold a2b24xx_probe. destruct (pe_regmap_err pe); [done|].
  destruct (negb _); [done|]. destruct (_ <? 0); [done|]. destruct (_ <? 0); [done|].
  intros E. obinv E. injection E as <- <- <-. split; cbn; [done|lia|done|done].
Qed.

Lemma reachable_inv (s : a2b_sys) : reachable gaA2BConfig h s -> monitor_inv h s.
Proof. induction 1; [by eapply probe_inv|by eapply step_inv]. Qed.

End Monitor.

(** ** Properties *)

(** C7. The bus stays watched.  Whatever the bus answers and in whichever
    order the works, the interrupt and the commands come: after the setup,
    as long as checks have not been switched off, either a check is queued or
    the interrupt line is enabled with its handler installed; the line is
    disabled at most once, and no operation leaves the mutex of the bus
    taken.  The interrupt, if the client has one, can be requested. *)
Theorem bus_stays_watched (gaA2BConfig : list ADI_A2B_DISCOVERY_CONFIG) (h : host) (s : a2b_sys) :
  client_irq h = 0 \/ request_irq h = 0 ->
  reachable gaA2BConfig h s ->
  bus_lock s = false /\ (irq_depth s = 0 \/ irq_depth s = 1)
  /\ (setup_pending s = false -> work_allowed (drv s) = true -> watched s).
Proof. intros I R. by destruct (reachable_inv gaA2BConfig h I s R). Qed.

(** A client with an interrupt, a table that is built in and no file. *)
Definition watch_probe : probe_env :=
  {| pe_regmap_err := None; pe_kzalloc := true; pe_alloc_chrdev := 0; pe_cdev_add := 0;
     pe_file := {| fe_open := false; fe_size := 0; fe_kmalloc := true; fe_read := None |};
     pe_parse_kmalloc := true; pe_register := 0 |}.

Definition run_of {A} (m : io A) (s : a2b_sys) : a2b_sys :=
  match m s with Done (_, s') => s' | _ => s end.

Lemma run_of_done (m : io unit) (s : a2b_sys) :
  (match m s with Done _ => true | _ => false end) = true -> m s = Done (tt, run_of m s).
Proof. unfold run_of. by destruct (m s) as [[[] s']| | |]. Qed.

Definition watch_start : a2b_sys :=
  new_sys (set_work_allowed true
    (set_a2b_cfg {| fileA2BConfig := fileA2BConfig zero_store; num_actions := 12;
                config_buffer := config_buffer zero_store; write_offset := 0 |} zero_driver)).

Definition watch_setup : a2b_sys :=
  run_of (a2b24xx_setup_work two_node_table (flat_host 0)) watch_start.

Lemma watch_setup_reachable : reachable two_node_table (flat_host 0) watch_setup.
Proof.
  eapply reach_step; [apply (reach_probe _ _ 12 watch_probe 0
    {| chrdev_region := true; cdev_added := true; device_node := true; component := true |} watch_start); reflexivity|].
  apply step_setup; [reflexivity|]. apply run_of_done. vm_compute. reflexivity.
Qed.

Lemma bus_stays_watched_witness :
  bus_lock watch_setup = false /\ (irq_depth watch_setup = 0 \/ irq_depth watch_setup = 1)
  /\ watched watch_setup.
Proof.
  destruct (bus_stays_watched two_node_table (flat_host 0) watch_setup) as (L & D & W).
  - right. reflexivity.
  - apply watch_setup_reachable.
  - split; [exact L|]. split; [exact D|]. apply W; vm_compute; reflexivity.
Defined.

(** ** Commands *)

Lemma substring_app (a b : string) : String.substring 0 (String.length a) (a ++ b) = a.
Proof. induction a as [|c a IH]; cbn; [by destruct b|]. by rewrite IH. Qed.

Lemma c_text_free (s : string) : free_of "000"%char s -> c_text s = s.
Proof.
  unfold free_of. induction s as [|c s IH]; intros F; [done|]. cbn in F |- *.
  destruct (Ascii.eqb_spec c "000"%char) as [-> | N]; [tauto|]. by rewrite IH by tauto.
Qed.

(** A command with its newline: the newline gives way to the NUL. *)
Lemma ctrl_write_line (gaA2BConfig : list ADI_A2B_DISCOVERY_CONFIG) (h : host) (command : string)
    (s s' : a2b_sys) :
  free_of "000"%char command -> Z.of_nat (String.length command) < COMMAND_SIZE ->
  ctrl_command gaA2BConfig h command s = Done (tt, s') ->
  a2b24xx_ctrl_write gaA2BConfig h (Some (command ++ NL)%string) (Z.of_nat (String.length command) + 1) s
  = Done (Z.of_nat (String.length command) + 1, s').
Proof.
  intros F L E. unfold a2b24xx_ctrl_write. cbv zeta. unfold COMMAND_SIZE in *.
  rewrite Z.min_l by lia. rewrite (proj2 (Z.eqb_neq _ 0)) by lia.
  rewrite length_append. change (String.length NL) with 1%nat.
  rewrite (proj2 (Z.ltb_ge _ _)) by lia.
  replace (Z.to_nat (Z.of_nat (String.length command) + 1 - 1)) with (String.length command) by lia.
  rewrite substring_app, c_text_free by done. by rewrite (io_bind _ _ _ _ _ E).
Qed.

(** C32. [Reset] while the bus is watched by its interrupt: the network is
    configured again, but the line, which is enabled, is enabled once more,
    which the kernel reports as unbalanced. *)
Theorem reset_unbalanced_enable (gaA2BConfig : list ADI_A2B_DISCOVERY_CONFIG) (h : host) (s : a2b_sys)
    (cs : list command) :
  memory_ok h -> loaded gaA2BConfig (drv s) cs -> Forall fits_bus cs ->
  client_irq h <> 0 -> irq_depth s = 0 -> fst (setup_spec h cs (bus_trace s)) = false ->
  exists s', a2b24xx_ctrl_write gaA2BConfig h (Some ("Reset" ++ NL)%string) 6 s = Done (6, s')
    /\ bus_trace s' = snd (setup_spec h cs (bus_trace s))
    /\ irq_warnings s' = irq_warnings s + 1 /\ irq_depth s' = 0 /\ fault_check_pending s' = false.
Proof.
  intros M L B I D F.
  assert (exists s', ctrl_command gaA2BConfig h "Reset" s = Done (tt, s')
    /\ bus_trace s' = snd (setup_spec h cs (bus_trace s))
    /\ irq_warnings s' = irq_warnings s + 1 /\ irq_depth s' = 0 /\ fault_check_pending s' = false)
    as (s' & E & P).
  { unfold ctrl_command. cbn [String.eqb Ascii.eqb Bool.eqb]. unfold a2b24xx_reset, a2b24xx_disable_fault_check.
    set (s1 := set_fault_check_pending false (set_drv (set_work_allowed false (drv s)) s)).
    rewrite (io_bind _ _ _ s1 tt) by done.
    rewrite (io_bind _ _ _ _ _ (network_setup_spec gaA2BConfig h s1 cs M L B)).
    change (bus_trace s1) with (bus_trace s). destruct (setup_spec h cs (bus_trace s)) as [f t].
    cbn in F. subst f. eexists. split.
    - unfold a2b24xx_schedule_fault_check, enable_irq, upd, smodify, sbind, get. cbn.
      rewrite (proj2 (Z.eqb_neq _ _) I). cbn. rewrite D. reflexivity.
    - done. }
  exists s'. split; [|done].
  apply (ctrl_write_line gaA2BConfig h "Reset" s s'); [unfold free_of; vm_compute; intuition discriminate| |done].
  reflexivity.
Qed.

Definition idle_sys : a2b_sys := set_irq_depth 0 (set_irq_handler_set true (new_sys two_node_driver)).

Lemma reset_unbalanced_enable_witness :
  exists s', a2b24xx_ctrl_write two_node_table (flat_host 0) (Some ("Reset" ++ NL)%string) 6 idle_sys = Done (6, s')
    /\ bus_trace s' = snd (setup_spec (flat_host 0) two_node_commands [])
    /\ irq_warnings s' = 1 /\ irq_depth s' = 0 /\ fault_check_pending s' = false.
Proof.
  apply (reset_unbalanced_enable two_node_table (flat_host 0) idle_sys two_node_commands).
  - intros t. by exists [].
  - apply two_node_tables.
  - apply (nt_bus _ _ _ two_node_tables).
  - vm_compute. discriminate.
  - reflexivity.
  - reflexivity.
Defined.
