(* ===== verification/A2bCommands.v ===== *)
(** * Commands and tables of the A2B driver

    The tables that the setup fills are the ones that the rediscovery needs;
    what the commands of the control device write on the bus; what a probe
    that fails leaves behind. *)

From Stdlib Require Import ZArith Lia Ascii String.
From stdpp Require Import base list numbers.
From S2P Require Import Prelude CString Sscanf A2bConfig A2bConfigProofs A2bBus.
From S2P Require Import A2bControl A2bProofs A2bFault A2bMonitor.

#[local] Open Scope Z_scope.

(** ** The tables after the setup *)

(** What the scan of the setup work should record, from the entries [tbl] of
    the command list and the buffer [buf] of their data. *)
Section Scan.

Context (gaA2BConfig tbl : list ADI_A2B_DISCOVERY_CONFIG) (buf : list Z).

Definition first_byte (c : ADI_A2B_DISCOVERY_CONFIG) : option Z :=
  match paConfigData c with
  | DNull => None
  | DBuffer off => if 0 <=? off then buf !! Z.to_nat off else None
  | DTable bytes => bytes !! 0%nat
  end.

Definition is_entry (P : ADI_A2B_DISCOVERY_CONFIG -> bool) (i : nat) : bool :=
  match tbl !! i with Some c => P c | None => false end.

Definition sets_format (c : ADI_A2B_DISCOVERY_CONFIG) : bool :=
  (nAddr c =? A2B_REG_SLOTFMT) && (nDeviceAddr c =? A2B_BASE_ADDR).
Definition discovers (c : ADI_A2B_DISCOVERY_CONFIG) : bool :=
  (nAddr c =? A2B_REG_DISCVRY) && (nDeviceAddr c =? A2B_BASE_ADDR).
Definition sets_slots (c : ADI_A2B_DISCOVERY_CONFIG) : bool :=
  (nAddr c =? A2B_REG_LDNSLOTS) && (nAddrWidth c =? 1).

Definition byte_at (i : nat) : option Z := tbl !! i ≫= first_byte.

(** The node that entry [i] addresses: a write to NODEADR without the bit of
    a peripheral, and no access to CHIP behind it. *)
Definition mark (i : nat) : option Z :=
  match tbl !! i, tbl !! S i with
  | Some c, Some next =>
      if (nAddr c =? A2B_REG_NODEADR) && negb (nAddr next =? A2B_REG_CHIP) then
        match first_byte c with
        | Some b => if Z.land b A2B_BITM_NODEADR_PERI =? 0 then Some b else None
        | None => None
        end
      else None
  | _, _ => None
  end.

(** The node addressed last up to entry [i], entry 0 apart. *)
Definition node_before (i : nat) : option Z := list.last (omap mark (seq 1 i)).

(** The last write of the slot format of the master among the entries 1 to
    [m], and the first node addressed behind it. *)
Definition last_format (m : nat) : option nat := list.last (filter (is_entry sets_format) (seq 1 m)).
Definition first_node (m : nat) : option Z :=
  let f := default 0%nat (last_format m) in list.head (omap mark (seq (S f) (m - f))).

(** The response cycles of the discoveries among [m] entries from [i] on, in
    their order. *)
Definition cycles_of (i m : nat) : list Z := omap byte_at (filter (is_entry discovers) (seq i m)).

(** The last entry among them that sets the slots of node [b]. *)
Definition position_of (b : Z) (i m : nat) : option nat :=
  list.last (filter (fun j => is_entry sets_slots j /\ node_before j = Some b) (seq i m)).

(** What the scan of [n] entries relies on: an entry follows every write to
    NODEADR, the entries it looks into have data, there are at most sixteen
    discoveries, and the nodes are numbered 0 to 15. *)
Record scan_clean (n : nat) : Prop := {
  sc_len : (n <= length tbl)%nat;
  sc_next : forall i c, (1 <= i < n)%nat -> tbl !! i = Some c -> nAddr c = A2B_REG_NODEADR ->
    is_Some (tbl !! S i);
  sc_byte : forall i c, (i < n)%nat -> tbl !! i = Some c ->
    nAddr c = A2B_REG_NODEADR \/ sets_format c = true \/ discovers c = true -> is_Some (first_byte c);
  sc_count : (length (cycles_of 0 n) <= 16)%nat;
  sc_node : forall i b, (1 <= i < n)%nat -> mark i = Some b -> 0 <= b < 16
}.

(** The driver whose table is [tbl]. *)
Definition reads (d : a2b24xx) : Prop :=
  (if from_file d then fileA2BConfig (a2b_cfg d) else gaA2BConfig) = tbl
  /\ config_buffer (a2b_cfg d) = buf.

Lemma entry_get (d : a2b24xx) (i : nat) (c : ADI_A2B_DISCOVERY_CONFIG) :
  reads d -> tbl !! i = Some c -> pA2BConfig gaA2BConfig d (Z.of_nat i) = Done c.
Proof. intros [T _] L. unfold pA2BConfig. rewrite T. apply array_get_lookup; [lia|by rewrite Nat2Z.id]. Qed.

Lemma first_data_byte (d : a2b24xx) (c : ADI_A2B_DISCOVERY_CONFIG) (b : Z) :
  reads d -> first_byte c = Some b -> first_data d c = Done b.
Proof.
  intros [_ B] E. unfold first_data, first_byte in *. rewrite B. destruct (paConfigData c) as [|off|bytes]; [done| |].
  - destruct (0 <=? off) eqn:O; [|done]. zbool. by apply array_get_lookup.
  - by apply array_get_lookup.
Qed.

Lemma addresses_mark (n i : nat) (d : a2b24xx) :
  scan_clean n -> reads d -> (1 <= i < n)%nat ->
  addresses_node gaA2BConfig d (Z.of_nat i) = Done (match mark i with Some _ => true | None => false end)
  /\ forall b, mark i = Some b -> exists c, tbl !! i = Some c /\ first_byte c = Some b.
Proof.
  intros Sc R I. unfold addresses_node, mark.
  destruct (lookup_lt_is_Some_2 tbl i) as [c Ec]; [pose proof (sc_len _ Sc); lia|].
  rewrite (entry_get d i c R Ec), Ec. cbn [obind].
  destruct (nAddr c =? A2B_REG_NODEADR) eqn:Ea; zbool; [|destruct (tbl !! S i); by split].
  destruct (sc_next _ Sc i c I Ec Ea) as [nx En]. destruct (sc_byte _ Sc i c (proj2 I) Ec (or_introl Ea)) as [b Eb].
  replace (Z.of_nat i + 1) with (Z.of_nat (S i)) by lia.
  rewrite (entry_get d _ nx R En), En, Eb. cbn [obind andb].
  destruct (nAddr nx =? A2B_REG_CHIP); cbn [negb]; [by split|].
  rewrite (first_data_byte d c b R Eb). cbn [obind].
  destruct (Z.land b A2B_BITM_NODEADR_PERI =? 0); split; try done. intros b' [= <-]. by exists c.
Qed.

(** *** The format of the master and the number of nodes *)

Lemma last_format_S (m : nat) :
  last_format (S m) = if is_entry sets_format (S m) then Some (S m) else last_format m.
Proof.
  unfold last_format. rewrite seq_S, list.filter_app. replace (1 + m)%nat with (S m) by lia.
  destruct (is_entry sets_format (S m)) eqn:E.
  - rewrite filter_cons_True by (by rewrite E). cbn. apply last_snoc.
  - rewrite filter_cons_False by (rewrite E; by intros []). by rewrite app_nil_r.
Qed.

Lemma last_format_le (m : nat) : (default 0%nat (last_format m) <= m)%nat.
Proof.
  induction m as [|m IH]; [done|]. rewrite last_format_S. destruct (is_entry _ _); cbn; lia.
Qed.

Lemma first_node_S (m : nat) :
  is_entry sets_format (S m) = false ->
  first_node (S m) = match first_node m with Some b => Some b | None => mark (S m) end.
Proof.
  intros E. unfold first_node. rewrite last_format_S, E. pose proof (last_format_le m) as L.
  set (f := default 0%nat (last_format m)) in *.
  replace (S m - f)%nat with (S (m - f)) by lia. rewrite seq_S, omap_app.
  replace (S f + (m - f))%nat with (S m) by lia. destruct (omap mark (seq (S f) (m - f))); [|done].
  cbn. by destruct (mark (S m)).
Qed.

Definition with_master (m : nat) (d : a2b24xx) : a2b24xx :=
  set_num_nodes (default (num_nodes d) (first_node m))
    (set_master_fmt (default (master_fmt d) (last_format m ≫= byte_at)) d).

Lemma scan_master_spec (n m : nat) (d : a2b24xx) :
  scan_clean n -> reads d -> (m < n)%nat ->
  scan_master gaA2BConfig m d = Done (with_master m d).
Proof.
  intros Sc. revert d. induction m as [|m IH]; intros d R M; cbn [scan_master]; [by destruct d|].
  destruct (lookup_lt_is_Some_2 tbl (S m)) as [c Ec]; [pose proof (sc_len _ Sc); lia|].
  rewrite (entry_get d (S m) c R Ec). cbn [obind]. fold (sets_format c). unfold with_master.
  rewrite last_format_S.
  assert (is_entry sets_format (S m) = sets_format c) as Ef by (unfold is_entry; by rewrite Ec).
  rewrite Ef. destruct (sets_format c) eqn:Es.
  - destruct (sc_byte _ Sc (S m) c M Ec) as [b Eb]; [auto|]. rewrite (first_data_byte d c b R Eb). cbn [obind].
    cbn [mbind option_bind default]. unfold first_node, byte_at. rewrite last_format_S, Ef, Ec. cbn [mbind option_bind default].
    rewrite Nat.sub_diag, Eb. by destruct d.
  - destruct (addresses_mark n (S m) d Sc R ltac:(lia)) as [-> Hm]. cbn [obind].
    rewrite first_node_S by done.
    destruct (mark (S m)) as [b|] eqn:Em.
    + destruct (Hm b eq_refl) as (c' & Ec' & Eb). rewrite Ec in Ec'. injection Ec' as <-.
      rewrite (first_data_byte d c b R Eb). cbn [obind]. rewrite IH by (done || lia).
      unfold with_master. cbn. by destruct (first_node m).
    + rewrite IH by (done || lia). unfold with_master. by destruct (first_node m).
Qed.

(** *** Response cycles and positions *)

Lemma node_before_S (i : nat) :
  node_before (S i) = match mark (S i) with Some b => Some b | None => node_before i end.
Proof.
  unfold node_before. rewrite seq_S, omap_app. replace (1 + i)%nat with (S i) by lia. cbn.
  destruct (mark (S i)); [apply last_snoc|by rewrite app_nil_r].
Qed.

Lemma node_before_range (n i : nat) (b : Z) :
  scan_clean n -> (i < n)%nat -> node_before i = Some b -> 0 <= b < 16.
Proof.
  intros Sc. induction i as [|i IH]; intros I E; [done|]. rewrite node_before_S in E.
  destruct (mark (S i)) as [x|] eqn:Em; [injection E as ->; by apply (sc_node _ Sc (S i)); [lia|]|apply IH; [lia|done]].
Qed.

Lemma scan_position_spec (n i : nat) (pos : Z) (d : a2b24xx) :
  scan_clean n -> reads d -> (i < n)%nat -> length (node_pos d) = 16%nat -> 0 <= pos < 65536 ->
  scan_position gaA2BConfig i pos d
  = Done (match node_before i with
          | Some b => set_node_pos (<[Z.to_nat b := pos]> (node_pos d)) d
          | None => d
          end).
Proof.
  intros Sc R I L P. induction i as [|i IH]; cbn [scan_position]; [done|].
  destruct (addresses_mark n (S i) d Sc R ltac:(lia)) as [-> Hm]. cbn [obind]. rewrite node_before_S.
  destruct (mark (S i)) as [b|] eqn:Em; [|apply IH; lia].
  destruct (Hm b eq_refl) as (c & Ec & Eb). rewrite (entry_get d (S i) c R Ec). cbn [obind].
  rewrite (first_data_byte d c b R Eb). cbn [obind].
  pose proof (sc_node _ Sc (S i) b ltac:(lia) Em).
  rewrite array_set_done by (unfold zlen; lia). cbn [obind]. unfold u16. by rewrite Z.mod_small by lia.
Qed.

(** The positions after [m] more entries. *)
Definition record_positions (i m : nat) (pos : list Z) : list Z :=
  imap (fun b p => match position_of (Z.of_nat b) i m with Some j => Z.of_nat j | None => p end) pos.

Lemma position_of_snoc (b : Z) (i m : nat) :
  position_of b i (S m) =
    if decide (is_entry sets_slots (i + m) /\ node_before (i + m) = Some b) then Some (i + m)%nat
    else position_of b i m.
Proof.
  unfold position_of. rewrite seq_S, list.filter_app.
  destruct (decide (is_entry sets_slots (i + m) /\ node_before (i + m) = Some b)) as [D|D].
  - rewrite filter_cons_True by done. cbn. apply last_snoc.
  - rewrite filter_cons_False by done. by rewrite app_nil_r.
Qed.

Lemma length_record_positions (i m : nat) (pos : list Z) : length (record_positions i m pos) = length pos.
Proof. apply length_imap. Qed.

Lemma record_positions_0 (i : nat) (pos : list Z) : record_positions i 0 pos = pos.
Proof.
  apply list_eq. intros k. unfold record_positions. rewrite list_lookup_imap. by destruct (pos !! k).
Qed.

Lemma record_positions_S (i m : nat) (pos : list Z) :
  record_positions i (S m) pos =
    (if is_entry sets_slots (i + m) then
       match node_before (i + m) with
       | Some b => if 0 <=? b then <[Z.to_nat b := Z.of_nat (i + m)]> (record_positions i m pos)
                   else record_positions i m pos
       | None => record_positions i m pos
       end
     else record_positions i m pos).
Proof.
  apply list_eq. intros k. unfold record_positions at 1. rewrite list_lookup_imap.
  assert (forall D, (fmap (fun p => match position_of (Z.of_nat k) i m with Some j => Z.of_nat j | None => p end) (pos !! k))
    = D -> record_positions i m pos !! k = D) as Old by (intros D <-; unfold record_positions; by rewrite list_lookup_imap).
  destruct (is_entry sets_slots (i + m)) eqn:Es.
  2: { rewrite (Old _ eq_refl). destruct (pos !! k); [cbn|done]. rewrite position_of_snoc, decide_False; [done|].
       rewrite Es. by intros [? _]. }
  destruct (node_before (i + m)) as [b|] eqn:Eb.
  2: { rewrite (Old _ eq_refl). destruct (pos !! k); [cbn|done]. rewrite position_of_snoc, decide_False; [done|].
       rewrite Eb. by intros [_ ?]. }
  destruct (0 <=? b) eqn:B0; zbool.
  2: { rewrite (Old _ eq_refl). destruct (pos !! k); [cbn|done]. rewrite position_of_snoc, decide_False; [done|].
       rewrite Eb. intros [_ [= ?]]. lia. }
  destruct (decide (Z.to_nat b = k)) as [<-|Nk].
  - destruct (pos !! Z.to_nat b) as [p|] eqn:Ep; cbn.
    + rewrite list_lookup_insert_eq by (rewrite length_record_positions; by apply lookup_lt_Some in Ep).
      rewrite position_of_snoc, Z2Nat.id, decide_True by (rewrite ?Es, ?Eb; done). done.
    + symmetry. apply lookup_ge_None. rewrite length_insert, length_record_positions. by apply lookup_ge_None in Ep.
  - rewrite list_lookup_insert_ne by done. rewrite (Old _ eq_refl). destruct (pos !! k); [cbn|done].
    rewrite position_of_snoc, decide_False; [done|]. rewrite Eb. intros [_ [= ?]]. lia.
Qed.

(** One more entry at the front. *)
Lemma cycles_of_cons (i m : nat) :
  cycles_of i (S m) = (if is_entry discovers i then match byte_at i with Some b => [b] | None => [] end else [])
                      ++ cycles_of (S i) m.
Proof.
  unfold cycles_of. cbn [seq]. destruct (is_entry discovers i) eqn:E.
  - rewrite filter_cons_True by (by rewrite E). cbn. by destruct (byte_at i).
  - by rewrite filter_cons_False by (rewrite E; by intros []).
Qed.

Lemma position_of_cons (b : Z) (i m : nat) :
  position_of b i (S m) = match position_of b (S i) m with
                          | Some j => Some j
                          | None => if decide (is_entry sets_slots i /\ node_before i = Some b) then Some i else None
                          end.
Proof.
  unfold position_of. cbn [seq]. destruct (decide (is_entry sets_slots i /\ node_before i = Some b)) as [D|D].
  - rewrite filter_cons_True by done. rewrite last_cons. done.
  - rewrite filter_cons_False by done. by destruct (list.last _).
Qed.

Lemma record_positions_cons (i m : nat) (pos : list Z) :
  record_positions i (S m) pos = record_positions (S i) m (record_positions i 1 pos).
Proof.
  unfold record_positions. apply list_eq. intros k. rewrite !list_lookup_imap. destruct (pos !! k); [cbn|done].
  rewrite position_of_cons. f_equal. destruct (position_of _ (S i) m); [done|].
  rewrite position_of_cons. by destruct (decide _).
Qed.

Definition with_nodes (i m id : nat) (d : a2b24xx) : a2b24xx :=
  set_node_pos (record_positions i m (node_pos d))
    (set_node_cycles (splice (node_cycles d) id (cycles_of i m)) d).

Lemma splice_insert (l bs : list Z) (id : nat) (b : Z) :
  (id < length l)%nat -> splice (<[id := b]> l) (S id) bs = splice l id (b :: bs).
Proof.
  intros L. unfold splice. cbn [length]. rewrite drop_insert_lt by lia.
  rewrite (take_S_r _ _ b) by (by apply list_lookup_insert_eq). rewrite take_insert_ge by lia.
  rewrite <- app_assoc. cbn. do 3 f_equal. by replace (id + S (length bs))%nat with (S id + length bs)%nat by lia.
Qed.

Lemma scan_nodes_spec (n m i id : nat) (d : a2b24xx) :
  scan_clean n -> reads d -> (i + m <= n)%nat -> Z.of_nat n <= 65536 ->
  length (node_pos d) = 16%nat -> length (node_cycles d) = 16%nat ->
  (id + length (cycles_of i m) <= 16)%nat ->
  scan_nodes gaA2BConfig m (Z.of_nat i) (Z.of_nat id) d = Done (with_nodes i m id d).
Proof.
  intros Sc. revert i id d. induction m as [|m IH]; intros i id d R I N Lp Lc Ld; cbn [scan_nodes].
  { unfold with_nodes. rewrite record_positions_0. unfold cycles_of. cbn [seq]. cbn. rewrite splice_nil. by destruct d. }
  destruct (lookup_lt_is_Some_2 tbl i) as [c Ec]; [pose proof (sc_len _ Sc); lia|].
  rewrite (entry_get d i c R Ec). cbn [obind]. fold (discovers c). fold (sets_slots c).
  assert (forall P, is_entry P i = P c) as Ei by (intros P; unfold is_entry; by rewrite Ec).
  rewrite cycles_of_cons, Ei in Ld. unfold byte_at in Ld. rewrite Ec in Ld. cbn [mbind option_bind] in Ld.
  unfold with_nodes. rewrite cycles_of_cons, Ei, record_positions_cons. unfold byte_at. rewrite Ec. cbn [mbind option_bind].
  assert (forall d1, reads d1 -> length (node_pos d1) = 16%nat ->
    (if sets_slots c then scan_position gaA2BConfig (Z.to_nat (Z.of_nat i)) (Z.of_nat i) d1 else Done d1)
    = Done (set_node_pos (record_positions i 1 (node_pos d1)) d1)) as Pos.
  { intros d1 R1 L1. rewrite record_positions_S, record_positions_0, Nat.add_0_r, Ei.
    destruct (sets_slots c); [|by destruct d1]. rewrite Nat2Z.id, (scan_position_spec n) by (done || lia).
    destruct (node_before i) as [b|] eqn:Eb; [|by destruct d1].
    pose proof (node_before_range n i b Sc ltac:(lia) Eb). by rewrite (proj2 (Z.leb_le 0 b)) by lia. }
  destruct (discovers c) eqn:Dc.
  - destruct (sc_byte _ Sc i c ltac:(lia) Ec) as [b Eb]; [auto|]. rewrite Eb in Ld |- *. cbn [length app] in Ld.
    rewrite (first_data_byte d c b R Eb). cbn [obind]. rewrite array_set_done by (unfold zlen; lia). cbn [obind].
    rewrite Pos by done. cbn [obind]. unfold u8. rewrite Z.mod_small, Nat2Z.id by lia.
    replace (Z.of_nat i + 1) with (Z.of_nat (S i)) by lia. replace (Z.of_nat id + 1) with (Z.of_nat (S id)) by lia.
    rewrite IH; [|done|lia|done|cbn [node_pos set_node_pos set_node_cycles]; by rewrite length_record_positions|cbn; by rewrite length_insert|lia].
    unfold with_nodes. cbn [app node_pos node_cycles set_node_pos set_node_cycles].
    by rewrite splice_insert by lia.
  - cbn [obind]. rewrite Pos by done. cbn [obind app length] in *. replace (Z.of_nat i + 1) with (Z.of_nat (S i)) by lia.
    rewrite IH; [|done|lia|done|cbn [node_pos set_node_pos set_node_cycles]; by rewrite length_record_positions|done|lia]. done.
Qed.

(** The driver after the scan of [n] entries. *)
Definition scanned (n : nat) (d : a2b24xx) : a2b24xx := with_nodes 0 n 0 (with_master (n - 1) d).

Lemma scan_table_spec (n : nat) (d : a2b24xx) :
  scan_clean n -> reads d -> num_actions (a2b_cfg d) = Z.of_nat n -> (0 < n)%nat -> Z.of_nat n <= 65536 ->
  length (node_pos d) = 16%nat -> length (node_cycles d) = 16%nat ->
  scan_table gaA2BConfig d = Done (scanned n d).
Proof.
  intros Sc R Na N0 N Lp Lc. unfold scan_table. rewrite Na.
  replace (Z.to_nat (Z.of_nat n - 1)) with (n - 1)%nat by lia.
  rewrite (scan_master_spec n) by (done || lia). cbn [obind]. rewrite Nat2Z.id.
  apply (scan_nodes_spec n n 0 0 (with_master (n - 1) d)); try done. apply (sc_count _ Sc).
Qed.

Lemma record_positions_range (n m i : nat) (pos : list Z) (k : nat) (p : Z) :
  (i + m <= n)%nat -> Forall (fun p => 0 <= p < Z.of_nat n) pos ->
  record_positions i m pos !! k = Some p -> 0 <= p < Z.of_nat n.
Proof.
  intros I F E. unfold record_positions in E. rewrite list_lookup_imap in E.
  destruct (pos !! k) as [q|] eqn:Eq; [|done]. injection E as <-.
  destruct (position_of (Z.of_nat k) i m) as [j|] eqn:Ej; [|exact (Forall_lookup_1 _ _ _ _ F Eq)].
  unfold position_of in Ej. apply last_Some_elem_of in Ej. apply list_elem_of_filter in Ej as [_ Ej].
  apply elem_of_seq in Ej. lia.
Qed.

End Scan.

(** The setup work after its scan: the interrupt and the first check. *)
Lemma setup_work_spec (gaA2BConfig : list ADI_A2B_DISCOVERY_CONFIG) (h : host) (s : a2b_sys) (d : a2b24xx)
    (cs : list command) :
  memory_ok h -> loaded gaA2BConfig (drv s) cs -> Forall fits_bus cs ->
  scan_table gaA2BConfig (set_has_fault (fst (setup_spec h cs (bus_trace s))) (drv s)) = Done d ->
  exists s', a2b24xx_setup_work gaA2BConfig h s = Done (tt, s') /\ drv s' = d.
Proof.
  intros M L B E. unfold a2b24xx_setup_work.
  rewrite (io_bind _ _ _ (set_setup_pending false s) tt) by done.
  rewrite (io_bind _ _ _ _ tt (network_setup_spec gaA2BConfig h (set_setup_pending false s) cs M L B)).
  set (s1 := show _ _). rewrite (io_bind get _ s1 s1 (drv s1)) by done.
  rewrite (io_bind (slift (scan_table gaA2BConfig (drv s1))) _ s1 s1 d) by (unfold slift; subst s1; cbn in *; by rewrite E).
  rewrite (io_bind (upd _) _ _ (set_drv d s1) tt) by done. unfold devm_request_irq.
  destruct (request_irq h =? 0); eexists; split; reflexivity.
Qed.

(** C11. The setup records what its command list says.  The list holds the
    commands [cs] and the scan finds what it relies on ([scan_clean]: an entry
    behind every write to NODEADR, data where it looks, at most sixteen
    discoveries, nodes 0 to 15).  Then the setup returns, and: the response
    cycles are the first bytes of the discoveries, in their order; the
    position of a node is the last entry that sets its slots, that is, the
    last LDNSLOTS whose nearest NODEADR before it addresses the node; the
    format of the master is that of the last SLOTFMT of the master; the
    number of nodes is the first node addressed behind it; what the list does
    not say keeps its value.  With these tables, at most 15 nodes and fresh
    positions the rediscovery can rely on [node_tables]. *)
Theorem setup_fills_tables (gaA2BConfig : list ADI_A2B_DISCOVERY_CONFIG) (h : host) (s : a2b_sys)
    (cs : list command) :
  let n := length cs in
  let d := drv s in
  let tbl := if from_file d then fileA2BConfig (a2b_cfg d) else gaA2BConfig in
  let buf := config_buffer (a2b_cfg d) in
  memory_ok h -> loaded gaA2BConfig d cs -> Forall fits_bus cs -> scan_clean tbl buf n ->
  0 < zlen cs <= MAX_ACTIONS -> length (node_cycles d) = 16%nat -> length (node_pos d) = 16%nat ->
  exists s', a2b24xx_setup_work gaA2BConfig h s = Done (tt, s')
    /\ node_cycles (drv s') = cycles_of tbl buf 0 n ++ drop (length (cycles_of tbl buf 0 n)) (node_cycles d)
    /\ (forall (b : nat) p, node_pos d !! b = Some p ->
          node_pos (drv s') !! b = Some (match position_of tbl buf (Z.of_nat b) 0 n with
                                         | Some j => Z.of_nat j
                                         | None => p
                                         end))
    /\ master_fmt (drv s') = default (master_fmt d) (last_format tbl (n - 1) ≫= byte_at tbl buf)
    /\ num_nodes (drv s') = default (num_nodes d) (first_node tbl buf (n - 1))
    /\ a2b_cfg (drv s') = a2b_cfg d
    /\ (node_pos d = replicate 16 0 -> Forall scannable cs -> 0 <= num_nodes (drv s') <= 15 ->
        node_tables gaA2BConfig (drv s') cs).
Proof.
  intros n d tbl buf M L B Sc N Lc Lp.
  set (d1 := set_has_fault (fst (setup_spec h cs (bus_trace s))) d).
  assert (scan_table gaA2BConfig d1 = Done (scanned tbl buf n d1)) as Es.
  { destruct L as [Ln _]. unfold zlen, MAX_ACTIONS in *. apply scan_table_spec; try done; fold n in N; lia. }
  destruct (setup_work_spec gaA2BConfig h s _ cs M L B Es) as (s' & E & Ed). exists s'. rewrite Ed.
  split; [exact E|]. split; [|split; [|split_and!; try done]].
  - done.
  - intros b p Ep. cbn [scanned with_nodes node_pos set_node_pos set_node_cycles with_master].
    unfold record_positions. rewrite list_lookup_imap. change (node_pos (with_master _ _ _ d1)) with (node_pos d).
    by rewrite Ep.
  - intros P S K. destruct L as [Ln Lh]. split; try done.
    + change (length (splice (node_cycles d) 0 (cycles_of tbl buf 0 n)) = 16%nat).
      rewrite length_splice by (pose proof (sc_count _ _ _ Sc); lia). exact Lc.
    + cbn [scanned with_nodes node_pos set_node_pos]. by rewrite length_record_positions.
    + intros i q Hq. unfold zlen. fold n.
      change (record_positions tbl buf 0 n (node_pos d) !! i = Some q) in Hq. eapply (record_positions_range tbl buf n n 0); [lia| |exact Hq].
      rewrite P. apply Forall_replicate. unfold zlen in N. fold n in N. lia.
Qed.

Definition fresh_two_node : a2b_sys :=
  new_sys (set_a2b_cfg {| fileA2BConfig := []; num_actions := 12; config_buffer := []; write_offset := 0 |} zero_driver).

Definition two_node_setup : a2b_sys :=
  run_of (a2b24xx_setup_work two_node_table (flat_host 0)) fresh_two_node.

(** The scan on the network of two nodes, by hand. *)
Example two_node_scan :
  let d := drv two_node_setup in
  (master_fmt d, num_nodes d, take 3 (node_cycles d), take 3 (node_pos d)) = (68, 1, [50; 77; 0], [2; 5; 0]).
Proof. vm_compute. reflexivity. Qed.

Lemma two_node_clean : scan_clean two_node_table [] 12.
Proof.
  split.
  - vm_compute. lia.
  - intros i c I E _. apply lookup_lt_is_Some_2. vm_compute. lia.
  - intros i c I E H. do 12 (destruct i as [|i]; [cbn in E; injection E as <-; vm_compute in H |- *;
      first [by eexists | (exfalso; destruct H as [H | [H | H]]; discriminate H)]|]). lia.
  - vm_compute. lia.
  - intros i b I E. do 12 (destruct i as [|i]; [vm_compute in E; first [discriminate E | (injection E as <-; lia)]|]). lia.
Qed.

Lemma setup_fills_tables_witness :
  exists s', a2b24xx_setup_work two_node_table (flat_host 0) fresh_two_node = Done (tt, s')
    /\ node_cycles (drv s') = [50; 77] ++ replicate 14 0
    /\ node_pos (drv s') !! 1%nat = Some 5 /\ master_fmt (drv s') = 68 /\ num_nodes (drv s') = 1
    /\ node_tables two_node_table (drv s') two_node_commands.
Proof.
  destruct (setup_fills_tables two_node_table (flat_host 0) fresh_two_node two_node_commands)
    as (s' & E & C & P & F & K & _ & T).
  - intros t. by exists [].
  - apply two_node_tables.
  - apply (nt_bus _ _ _ two_node_tables).
  - exact two_node_clean.
  - vm_compute. intuition discriminate.
  - reflexivity.
  - reflexivity.
  - exists s'. split; [exact E|]. split; [exact C|]. split; [exact (P 1%nat 0 eq_refl)|].
    split; [exact F|]. split; [exact K|]. apply T; [reflexivity|apply (nt_scan _ _ _ two_node_tables)|].
    rewrite K. vm_compute. intuition discriminate.
Defined.

(** ** Commands on the bus *)

(** [PDM Slave<p> MIC<m>] on the nodes from [i] on: the microphone of node
    [p] is switched on, the ones of the other nodes off. *)
Definition pdm_events (p m i : Z) : list event :=
  [sel i; to_bus A2B_REG_I2SCFG 1]
  ++ (if p =? i then
        if m =? 0 then [to_bus A2B_REG_PDMCTL 17]
        else if m =? 1 then [to_bus A2B_REG_PDMCTL 20] else []
      else [to_bus A2B_REG_PDMCTL 0]).

Lemma pdm_loop (p m i : Z) (n : nat) (v : view) (s : a2b_sys) :
  0 <= p -> 0 <= i -> i + Z.of_nat n <= 256 ->
  for_loop n i (pdm_node p m 2) (show v s)
  = Done (tt, show (fst v, snd v ++ concat (map (pdm_events p m) (seqZ i (Z.of_nat n)))) s).
Proof.
  intros P. revert i v. induction n as [|n IH]; intros i [f t] H0 H1; cbn [for_loop fst snd].
  - rewrite seqZ_nil by lia. cbn. by rewrite app_nil_r.
  - rewrite seqZ_cons by lia. replace (Z.pred (Z.of_nat (S n))) with (Z.of_nat n) by lia.
    rewrite (io_bind _ _ _ (show (f, t ++ pdm_events p m i) s) tt).
    + rewrite IH by lia. cbn [fst snd map concat]. by rewrite <-app_assoc.
    + unfold pdm_node, select_node, u8. rewrite Z.mod_small by lia.
      rewrite (proj2 (Z.ltb_ge p 0)) by lia. cbn [orb Z.eqb Pos.eqb]. unfold pdm_events.
      unfold sbind, bus_write, adi_a2b_I2CWrite, emit, smodify, sret.
      destruct (p =? i); [destruct (m =? 0); [|destruct (m =? 1)]|]; unfold show; cbn; by rewrite <-?app_assoc.
Qed.

Definition pdm_text (p m : Z) : string := "PDM Slave" ++ print_int p ++ " MIC" ++ print_int m.

Lemma scan_signed (b n : Z) (f : list directive) (r : string) :
  printable n -> starts_digit 10 r = false ->
  sscanf ([FSigned b] ++ f) (print_int n ++ r) = VNum (to_signed b n) :: sscanf f r.
Proof. apply sscanf_signed. Qed.

Lemma to_signed_small (n : Z) : 0 <= n < 32768 -> to_signed 16 n = n.
Proof. intros H. unfold to_signed. cbn. rewrite Z.mod_small by lia. by zif; lia. Qed.

Lemma append_empty_r (s : string) : (s ++ EmptyString)%string = s.
Proof. induction s as [|c s IH]; cbn; by rewrite ?IH. Qed.

Lemma sscanf_pdm (p m : Z) :
  0 <= p < 32768 -> 0 <= m < 32768 -> sscanf pdm_format (pdm_text p m) = [VNum p; VNum m].
Proof.
  intros P M. unfold pdm_format, pdm_text.
  change (sscanf (lit "PDM Slave" ++ ?f) ("PDM Slave" ++ ?r)) with (sscanf f r).
  rewrite scan_signed by (done || (unfold printable; lia)).
  change (sscanf (lit " MIC" ++ ?f) (" MIC" ++ ?r)) with (sscanf f r).
  rewrite <-(append_empty_r (print_int m)), <-(app_nil_r [FSigned 16]).
  rewrite scan_signed by (done || (unfold printable; lia)). by rewrite !to_signed_small by lia.
Qed.

(** C30. The command [PDM Slave<p> MIC<m>] for a node of the network: written
    with a newline to the control device, it is accepted with its full
    length; every node is selected in turn and set to receive, the
    microphone [m] of node [p] is switched on and the ones of all other nodes
    are off; the mutex is free afterwards and nothing else changes. *)
Theorem pdm_command (gaA2BConfig : list ADI_A2B_DISCOVERY_CONFIG) (h : host) (s : a2b_sys) (p m : Z) :
  0 <= num_nodes (drv s) <= 15 -> 0 <= p <= num_nodes (drv s) -> 0 <= m < 32768 -> bus_lock s = false ->
  let len := Z.of_nat (String.length (pdm_text p m)) + 1 in
  a2b24xx_ctrl_write gaA2BConfig h (Some (pdm_text p m ++ NL)%string) len s
  = Done (len, show (has_fault (drv s),
                     bus_trace s ++ concat (map (pdm_events p m) (seqZ 0 (num_nodes (drv s) + 1)))) s).
Proof.
  intros N P M L len. apply ctrl_write_line.
  - destruct (print_int_word "000" p eq_refl ltac:(lia)) as [_ F1].
    destruct (print_int_word "000" m eq_refl ltac:(lia)) as [_ F2].
    unfold pdm_text. repeat apply free_of_app; try done; unfold free_of; cbn; intuition discriminate.
  - unfold pdm_text. rewrite !length_append.
    pose proof (length_print_int p) as L1. pose proof (length_print_int m) as L2.
    unfold INT32_MAX, COMMAND_SIZE in *. cbn [String.length]. lia.
  - assert (ctrl_command gaA2BConfig h (pdm_text p m) s = microphones p m 2 s) as ->.
    { unfold ctrl_command. rewrite sscanf_pdm by lia. done. }
    unfold microphones. rewrite (io_bind get _ _ s (drv s)) by done.
    rewrite (proj2 (Z.leb_le _ _)) by lia. set (s1 := set_bus_lock true s).
    rewrite (io_bind mutex_lock _ _ s1 tt) by (unfold mutex_lock; by rewrite L).
    rewrite (proj2 (Z.eqb_neq _ 255)) by lia.
    pose proof (pdm_loop p m 0 (Z.to_nat (num_nodes (drv s) + 1)) (has_fault (drv s1), bus_trace s1) s1) as E.
    rewrite show_self in E. rewrite Z2Nat.id in E by lia. rewrite (io_bind _ _ _ _ _ (E ltac:(lia) ltac:(lia) ltac:(lia))).
    destruct s; cbn in *. by subst.
Qed.

Lemma pdm_command_witness :
  a2b24xx_ctrl_write [] (flat_host 0) (Some ("PDM Slave1 MIC0" ++ NL)%string) 16 (new_sys two_node_driver)
  = Done (16, show (true, [sel 0; to_bus 66 1; to_bus 71 0; sel 1; to_bus 66 1; to_bus 71 17])
                (new_sys two_node_driver)).
Proof.
  apply (pdm_command [] (flat_host 0) (new_sys two_node_driver) 1 0).
  - vm_compute. intuition discriminate.
  - vm_compute. intuition discriminate.
  - lia.
  - reflexivity.
Defined.

(** The index of the loopback test is checked for the nodes but not for
    the master: [Loopback Slave-1 <k>] with an index outside the table of the
    four tests reads past the array, while for a node of the network the same
    index is ignored. *)
Theorem loopback_index_unchecked (s : a2b_sys) (p k : Z) :
  k < 0 \/ 3 < k ->
  (p < 0 -> loopback p k s = Undef) /\ (0 <= p -> loopback p k s = Done (tt, s)).
Proof.
  intros K.
  assert (array_get i2stest k = Undef) as G.
  { unfold array_get. destruct (0 <=? k) eqn:B; zbool; [|done].
    rewrite lookup_ge_None_2; [done|]. cbn. lia. }
  unfold loopback. rewrite (io_bind get _ _ s (drv s)) by done. split; intros P.
  - rewrite (proj2 (Z.ltb_lt p 0)) by lia. unfold sbind, slift. cbn [a2b24xx_disable_fault_check].
    rewrite G. done.
  - rewrite (proj2 (Z.ltb_ge p 0)) by lia.
    assert (((0 <=? k) && (k <=? 3)) = false) as ->
      by (destruct K; [rewrite (proj2 (Z.leb_gt 0 k))|rewrite (proj2 (Z.leb_gt k 3)), andb_false_r]; done || lia).
    by rewrite andb_false_r.
Qed.

Lemma loopback_index_unchecked_witness :
  loopback (-1) 9 (new_sys two_node_driver) = Undef
  /\ loopback 1 9 (new_sys two_node_driver) = Done (tt, new_sys two_node_driver).
Proof.
  destruct (loopback_index_unchecked (new_sys two_node_driver) (-1) 9) as [A _]; [lia|].
  destruct (loopback_index_unchecked (new_sys two_node_driver) 1 9) as [_ B]; [lia|].
  split; [apply A; lia|apply B; lia].
Defined.

(** ** Probe and remove *)

(** C31. A probe that succeeds and a remove leave nothing behind: all the
    resources of the control device and of the sound core are given back and
    no work is queued.  A probe that fails in the sound core does not undo
    its steps: the device number, the device and its node stay, and the setup
    is queued on memory that the kernel then frees; one that fails earlier
    holds nothing. *)
Theorem probe_remove_resources (config_len : Z) (pe : probe_env) (r : Z) (x : resources) (o : option a2b_sys) :
  a2b24xx_probe config_len pe = Done (r, x, o) ->
  match o with
  | None => r < 0 \/ pe_regmap_err pe = Some r
  | Some s => setup_pending s = true /\ work_allowed (drv s) = true /\ bus_trace s = []
  end
  /\ (o = None -> x = no_resources)
  /\ (forall s s' y, o = Some s -> a2b24xx_i2c_remove x s = Done (y, s') ->
      y = no_resources /\ setup_pending s' = false /\ fault_check_pending s' = false
      /\ work_allowed (drv s') = false)
  /\ (is_Some o -> r < 0 ->
      x = {| chrdev_region := true; cdev_added := true; device_node := true; component := false |}).
Proof.
  unfold a2b24xx_probe. destruct (pe_regmap_err pe) as [e|].
  { intros [= -> <- <-]. split; [by right|]. split; [done|]. split; [done|]. by intros [? ?]. }
  destruct (negb (pe_kzalloc pe)).
  { intros [= <- <- <-]. split; [left; done|]. split; [done|]. split; [done|]. by intros [? ?]. }
  destruct (pe_alloc_chrdev pe <? 0) eqn:B1; zbool.
  { intros [= <- <- <-]. split; [by left|]. split; [done|]. split; [done|]. by intros [? ?]. }
  destruct (pe_cdev_add pe <? 0) eqn:B2; zbool.
  { intros [= <- <- <-]. split; [by left|]. split; [done|]. split; [done|]. by intros [? ?]. }
  intros E. obinv E. injection E as <- <- <-. split; [done|]. split; [done|]. split.
  - intros s s' y [= <-]. intros [= <- <-]. done.
  - intros _ R. by rewrite (proj2 (Z.leb_gt 0 _)) by lia.
Qed.

Definition probed_resources : resources :=
  {| chrdev_region := true; cdev_added := true; device_node := true; component := true |}.

Lemma probe_remove_resources_witness :
  exists s', a2b24xx_i2c_remove probed_resources watch_start = Done (no_resources, s')
    /\ setup_pending s' = false /\ fault_check_pending s' = false /\ work_allowed (drv s') = false.
Proof.
  destruct (probe_remove_resources 12 watch_probe 0 probed_resources (Some watch_start) eq_refl)
    as (_ & _ & H & _).
  eexists. split; [reflexivity|]. apply (H watch_start _ no_resources eq_refl). reflexivity.
Defined.
