(* ===== verification/A2bTool.v ===== *)
(** * The A2B configuration tool

    [adi_a2b_busconfig.c], the program that reads the command lists of an A2B
    bus and of the buses behind its nodes and shows the transfers that
    configure them: reading of the lists with their includes, the selection of
    the bus that a transfer goes to, and the configuration of each bus. *)

From Stdlib Require Import ZArith Lia Ascii String.
From stdpp Require Import base list numbers.
From S2P Require Import Prelude CString Sscanf A2bConfig A2bConfigProofs A2bBus A2bControl A2bProofs.

#[local] Open Scope Z_scope.

(** ** sscanf of the C library *)

Inductive udirective :=
| USpace
| UChar (c : ascii)
| UUntil (stop : string) (keep : bool)   (* %[^...], %*[^...] *)
| UNum (bits : Z)                        (* %u, %hu, %hhu *)
| UStr.                                  (* %s *)

Fixpoint ulit (s : string) : list udirective :=
  match s with
  | EmptyString => []
  | String c r => (if (c =? " ")%char then USpace else UChar c) :: ulit r
  end.

Fixpoint has_char (c : ascii) (s : string) : bool :=
  match s with EmptyString => false | String d r => (c =? d)%char || has_char c r end.

(** The text up to a character of [stop]. *)
Fixpoint span_until (stop s : string) : string * string :=
  match s with
  | EmptyString => (EmptyString, EmptyString)
  | String c r =>
      if has_char c stop then (EmptyString, s) else let '(w, t) := span_until stop r in (String c w, t)
  end.

(** An unsigned number with an optional sign. *)
Definition scan_unsigned_c (s : string) : option (Z * string) :=
  let '(neg, r) := sign_prefix s in
  if starts_digit 10 r
  then let '(n, t) := take_digits 10 0 r in
       Some ((if n >? ULONG_MAX then ULONG_MAX else if neg then - n else n), t)
  else None.

Fixpoint uscanf (f : list udirective) (s : string) : list value :=
  match f with
  | [] => []
  | USpace :: f => uscanf f (skip_space s)
  | UChar c :: f =>
      match s with
      | String d r => if (c =? d)%char then uscanf f r else []
      | EmptyString => []
      end
  | UUntil stop keep :: f =>
      let '(w, r) := span_until stop s in
      match w with
      | EmptyString => []
      | _ => if keep then VStr w :: uscanf f r else uscanf f r
      end
  | UNum b :: f =>
      match scan_unsigned_c (skip_space s) with
      | Some (n, r) => VNum (n mod 2 ^ b) :: uscanf f r
      | None => []
      end
  | UStr :: f =>
      let '(w, r) := word (skip_space s) in
      match w with
      | EmptyString => []
      | _ => VStr w :: uscanf f r
      end
  end.

(** ** State *)

Record a2b_node := { position : Z; cycle : Z }.

(** [struct a2b_bus]; [bus_file]: [pA2BConfig] points to [bus_config]. *)
Record a2b_bus := {
  bus_file : bool;
  bus_config : list ADI_A2B_DISCOVERY_CONFIG;
  bus_actions : Z;
  nodes : list a2b_node;
  bus_nodes : Z;
  bus_id : Z;
  bus_parent : Z;
  bus_fmt : Z
}.

(** The globals of the program and the transfers it has shown. *)
Record tool := {
  shown : list event;
  last_bus_id : Z;
  last_addr : Z;
  t_buffer : list Z;
  t_offset : Z;
  include_files : list string;
  bus_parents : list Z;
  num_files : Z
}.

Definition set_shown (v : list event) (s : tool) : tool :=
  {| shown := v; last_bus_id := last_bus_id s; last_addr := last_addr s; t_buffer := t_buffer s;
     t_offset := t_offset s; include_files := include_files s; bus_parents := bus_parents s;
     num_files := num_files s |}.
Definition set_last_bus_id (v : Z) (s : tool) : tool :=
  {| shown := shown s; last_bus_id := v; last_addr := last_addr s; t_buffer := t_buffer s;
     t_offset := t_offset s; include_files := include_files s; bus_parents := bus_parents s;
     num_files := num_files s |}.
Definition set_last_addr (v : Z) (s : tool) : tool :=
  {| shown := shown s; last_bus_id := last_bus_id s; last_addr := v; t_buffer := t_buffer s;
     t_offset := t_offset s; include_files := include_files s; bus_parents := bus_parents s;
     num_files := num_files s |}.
Definition set_t_buffer (v : list Z) (s : tool) : tool :=
  {| shown := shown s; last_bus_id := last_bus_id s; last_addr := last_addr s; t_buffer := v;
     t_offset := t_offset s; include_files := include_files s; bus_parents := bus_parents s;
     num_files := num_files s |}.
Definition set_t_offset (v : Z) (s : tool) : tool :=
  {| shown := shown s; last_bus_id := last_bus_id s; last_addr := last_addr s; t_buffer :=
     t_buffer s; t_offset := v; include_files := include_files s; bus_parents := bus_parents s;
     num_files := num_files s |}.
Definition set_include_files (v : list string) (s : tool) : tool :=
  {| shown := shown s; last_bus_id := last_bus_id s; last_addr := last_addr s; t_buffer :=
     t_buffer s; t_offset := t_offset s; include_files := v; bus_parents := bus_parents s;
     num_files := num_files s |}.
Definition set_bus_parents (v : list Z) (s : tool) : tool :=
  {| shown := shown s; last_bus_id := last_bus_id s; last_addr := last_addr s; t_buffer :=
     t_buffer s; t_offset := t_offset s; include_files := include_files s; bus_parents := v;
     num_files := num_files s |}.
Definition set_num_files (v : Z) (s : tool) : tool :=
  {| shown := shown s; last_bus_id := last_bus_id s; last_addr := last_addr s; t_buffer :=
     t_buffer s; t_offset := t_offset s; include_files := include_files s; bus_parents :=
     bus_parents s; num_files := v |}.
Definition set_bus_file (v : bool) (s : a2b_bus) : a2b_bus :=
  {| bus_file := v; bus_config := bus_config s; bus_actions := bus_actions s; nodes := nodes s;
     bus_nodes := bus_nodes s; bus_id := bus_id s; bus_parent := bus_parent s; bus_fmt :=
     bus_fmt s |}.
Definition set_bus_config (v : list ADI_A2B_DISCOVERY_CONFIG) (s : a2b_bus) : a2b_bus :=
  {| bus_file := bus_file s; bus_config := v; bus_actions := bus_actions s; nodes := nodes s;
     bus_nodes := bus_nodes s; bus_id := bus_id s; bus_parent := bus_parent s; bus_fmt :=
     bus_fmt s |}.
Definition set_bus_actions (v : Z) (s : a2b_bus) : a2b_bus :=
  {| bus_file := bus_file s; bus_config := bus_config s; bus_actions := v; nodes := nodes s;
     bus_nodes := bus_nodes s; bus_id := bus_id s; bus_parent := bus_parent s; bus_fmt :=
     bus_fmt s |}.
Definition set_nodes (v : list a2b_node) (s : a2b_bus) : a2b_bus :=
  {| bus_file := bus_file s; bus_config := bus_config s; bus_actions := bus_actions s; nodes :=
     v; bus_nodes := bus_nodes s; bus_id := bus_id s; bus_parent := bus_parent s; bus_fmt :=
     bus_fmt s |}.
Definition set_bus_nodes (v : Z) (s : a2b_bus) : a2b_bus :=
  {| bus_file := bus_file s; bus_config := bus_config s; bus_actions := bus_actions s; nodes :=
     nodes s; bus_nodes := v; bus_id := bus_id s; bus_parent := bus_parent s; bus_fmt := bus_fmt
     s |}.
Definition set_bus_id (v : Z) (s : a2b_bus) : a2b_bus :=
  {| bus_file := bus_file s; bus_config := bus_config s; bus_actions := bus_actions s; nodes :=
     nodes s; bus_nodes := bus_nodes s; bus_id := v; bus_parent := bus_parent s; bus_fmt :=
     bus_fmt s |}.
Definition set_bus_parent (v : Z) (s : a2b_bus) : a2b_bus :=
  {| bus_file := bus_file s; bus_config := bus_config s; bus_actions := bus_actions s; nodes :=
     nodes s; bus_nodes := bus_nodes s; bus_id := bus_id s; bus_parent := v; bus_fmt := bus_fmt
     s |}.
Definition set_bus_fmt (v : Z) (s : a2b_bus) : a2b_bus :=
  {| bus_file := bus_file s; bus_config := bus_config s; bus_actions := bus_actions s; nodes :=
     nodes s; bus_nodes := bus_nodes s; bus_id := bus_id s; bus_parent := bus_parent s; bus_fmt
     := v |}.

Definition zero_bus (id parent : Z) : a2b_bus :=
  {| bus_file := false; bus_config := replicate (Z.to_nat MAX_ACTIONS) cleared_config; bus_actions := 0;
     nodes := []; bus_nodes := 0; bus_id := id; bus_parent := parent; bus_fmt := 0 |}.

Definition zero_tool : tool :=
  {| shown := []; last_bus_id := 0; last_addr := 0;
     t_buffer := replicate (Z.to_nat MAX_CONFIG_DATA) 0; t_offset := 0;
     include_files := replicate 16 EmptyString; bus_parents := replicate 16 0; num_files := 0 |}.

(** ** Reading an action *)

Definition tool_format : list udirective :=
  ulit ("<action instr=" ++ Q) ++ [UUntil Q true] ++
  ulit (Q ++ " SpiCmd=" ++ Q) ++ [UNum 32] ++
  ulit (Q ++ " SpiCmdWidth=" ++ Q) ++ [UNum 8] ++
  ulit (Q ++ " addr_width =" ++ Q) ++ [UNum 8] ++
  ulit (Q ++ " data_width=" ++ Q) ++ [UNum 8] ++
  ulit (Q ++ " len=" ++ Q) ++ [UNum 16] ++
  ulit (Q ++ " addr=" ++ Q) ++ [UNum 32] ++
  ulit (Q ++ " i2caddr=" ++ Q) ++ [UNum 8] ++
  ulit (Q ++ " AddrIncr=" ++ Q) ++ [UUntil (Q ++ String nl EmptyString) false] ++
  ulit (Q ++ " Protocol=" ++ Q) ++ [UUntil Q true] ++ ulit Q.

Definition include_format : list udirective :=
  ulit "<include file=" ++ [UStr] ++ ulit (" parent=" ++ Q) ++ [UNum 8] ++ ulit Q.

(** The tokens of [strtok (s, " ")]. *)
Definition strtok_all (s : string) : list string :=
  List.filter (fun t => negb (String.eqb t EmptyString)) (strsep_all s).

Definition tool_data (t : tool) (action : string) (config : ADI_A2B_DISCOVERY_CONFIG)
  : outcome (ADI_A2B_DISCOVERY_CONFIG * tool) :=
  if MAX_CONFIG_DATA <=? t_offset t + nDataCount config then Done (config, t)
  else
    match after_char ">"%char action with
    | None => Undef
    | Some text =>
        let ts := if nDataCount config =? 0 then [] else strtok_all text in
        let! buf := store_tokens (t_buffer t) (t_offset t) ts in
        Done (set_nDataCount (u16 (zlen ts)) (set_paConfigData (DBuffer (t_offset t)) config),
              set_t_offset (t_offset t + zlen ts) (set_t_buffer buf t))
    end.

(** The row of a file name has 128 characters, and there are 16 rows. *)
Definition tool_include (t : tool) (action : string) : outcome (option tool) :=
  match uscanf include_format action with
  | [] => Done None
  | VStr name :: rest =>
      if Nat.leb 128 (String.length name) then Undef
      else
        let! files := array_set (include_files t) (num_files t) name in
        match rest with
        | VNum parent :: _ =>
            let! parents := array_set (bus_parents t) (num_files t) parent in
            Done (Some (set_num_files (u8 (num_files t + 1))
                    (set_bus_parents parents (set_include_files files t))))
        | _ => Done None
        end
  | _ => Done None
  end.

(** [parseAction].  [stale] is what the array [instr] holds before the call;
    it is looked at when the text does not start like an action.  A name that
    was stored for an include without a parent has no effect. *)
Definition tool_parseAction (stale : string) (t : tool) (action : string)
    (config : ADI_A2B_DISCOVERY_CONFIG) (deviceAddr : Z)
  : outcome (ADI_A2B_DISCOVERY_CONFIG * tool) :=
  let config := set_nDataCount 0 (set_nDeviceAddr deviceAddr config) in
  let vs := uscanf tool_format action in
  let sc := store_values vs {| sc_instr := stale; sc_protocol := EmptyString; sc_config := config |} in
  if negb (scanned_fits sc) then Undef
  else
    let config := sc_config sc in
    if 9 <=? zlen vs then
      let op := if String.eqb (sc_instr sc) "writeXbytes" then A2B24XX_WRITE
                else if String.eqb (sc_instr sc) "read" then A2B24XX_READ
                else A2B24XX_INVALID in
      let config := set_eOpCode op config in
      let config := set_eProtocol (if String.eqb (sc_protocol sc) "SPI" then SPI else I2C) config in
      let config := set_nDataCount (u16 (nDataCount config - nAddrWidth config)) config in
      match op with
      | A2B24XX_WRITE => tool_data t action config
      | _ => Done (config, t)
      end
    else if String.eqb (sc_instr sc) "delay" then
      tool_data t action (set_nDataCount 1 (set_eOpCode A2B24XX_DELAY config))
    else
      let! o := tool_include t action in
      match o with
      | Some t => Done (config, t)
      | None => Done (set_eOpCode A2B24XX_INVALID config, t)
      end.

(** ** Reading a list *)

(** [parseXML]; [stale] gives the content of [instr] before each call.  The
    entry is counted when another action follows; an include is read into the
    entry of the last action. *)
Fixpoint tool_loop (fuel : nat) (stale : nat -> string) (t : tool) (b : a2b_bus) (actionStart : option string)
  : outcome (a2b_bus * tool) :=
  match actionStart with
  | None => Done (b, t)
  | Some text =>
      if bus_actions b <? MAX_ACTIONS then
        match fuel with
        | O => Blocked
        | S fuel =>
            match until_nl text with
            | None => Undef
            | Some (action, actionEnd) =>
                let! config := array_get (bus_config b) (bus_actions b) in
                let! (config, t) := tool_parseAction (stale fuel) t action config 104 in
                let! cfgs := array_set (bus_config b) (bus_actions b) config in
                let b := set_bus_config cfgs b in
                match strstr actionEnd "<action" with
                | Some next => tool_loop fuel stale t (set_bus_actions (bus_actions b + 1) b) (Some next)
                | None => tool_loop fuel stale t b (strstr actionEnd "<include")
                end
            end
        end
      else Done (b, t)
  end.

Definition tool_parseXML (stale : nat -> string) (t : tool) (b : a2b_bus) (xml : string)
  : outcome (a2b_bus * tool) :=
  let! (b, t) := tool_loop (S (String.length xml)) stale t b (strstr xml "<action") in
  Done (set_bus_actions (bus_actions b + 1) b, t).

(** [loadConfig]: nothing is loaded when the file can not be read. *)
Definition loadConfig (stale : nat -> string) (t : tool) (b : a2b_bus) (content : option string)
  : outcome (option (a2b_bus * tool)) :=
  match content with
  | None => Done None
  | Some xml =>
      let! (b, t) := tool_parseXML stale t b xml in
      Done (Some (set_bus_file true b, t))
  end.

(** ** Selecting the bus *)

(** [adi_a2b_I2C_Write] and [adi_a2b_I2C_WriteRead] show the transfer; the
    calls of the kernel are switched off, so a read leaves its buffer. *)
Definition show_event (e : event) (t : tool) : tool := set_shown (shown t ++ [e]) t.

(** [BUS_SELECT]: a bus behind a node is reached through the node it hangs on:
    the node is selected, told the address, and switched to its peripherals,
    unless the last transfer went to the same address of the same bus. *)
Definition BUS_SELECT (b : a2b_bus) (addr : Z) (t : tool) : Z * tool :=
  if negb (bus_id b =? 0) then
    let t :=
      if negb (last_bus_id t =? bus_id b) || negb (last_addr t =? addr) then
        show_event (Send A2B_BASE_ADDR [A2B_REG_NODEADR; Z.lor (bus_parent b) 32])
          (show_event (Send A2B_BUS_ADDR [A2B_REG_CHIP; addr])
            (show_event (Send A2B_BASE_ADDR [A2B_REG_NODEADR; bus_parent b]) t))
      else t in
    (A2B_BUS_ADDR, set_last_bus_id (bus_id b) (set_last_addr addr t))
  else
    let t :=
      if negb (last_bus_id t =? bus_id b)
      then show_event (Send A2B_BASE_ADDR [A2B_REG_NODEADR; bus_parent b]) t else t in
    (addr, set_last_bus_id (bus_id b) t).

Definition tool_write (b : a2b_bus) (dev : Z) (bytes : list Z) (t : tool) : tool :=
  let '(a, t) := BUS_SELECT b dev t in show_event (Send a bytes) t.

Definition tool_read (b : a2b_bus) (dev : Z) (bytes : list Z) (n : Z) (t : tool) : tool :=
  let '(a, t) := BUS_SELECT b dev t in show_event (Transfer a bytes n) t.

(** [processInterrupt]: the registers read as 0, which is no interrupt. *)
Definition tool_processInterrupt (b : a2b_bus) (addr : Z) (t : tool) : tool :=
  tool_read b addr [A2B_REG_INTSRC] 2 t.

(** ** Configuring a bus *)

Section Tool.

Context (gaA2BConfig : list ADI_A2B_DISCOVERY_CONFIG).

Definition bus_entry (b : a2b_bus) (i : Z) : outcome ADI_A2B_DISCOVERY_CONFIG :=
  array_get (if bus_file b then bus_config b else gaA2BConfig) i.

(** The size of the static buffer of the messages. *)
Definition DATA_BUFFER : Z := 5192.

Definition tool_action (b : a2b_bus) (dataBuffer : list Z) (c : ADI_A2B_DISCOVERY_CONFIG) (t : tool)
  : outcome (list Z * tool) :=
  match eOpCode c with
  | A2B24XX_WRITE =>
      let! buf := adi_a2b_Concat_Addr_Data dataBuffer (nAddrWidth c) (nAddr c) in
      let! data := data_bytes (t_buffer t) (paConfigData c) (nDataCount c) in
      let! buf := mem_write buf (nAddrWidth c) data in
      let! bytes := mem_read buf 0 (u16 (nAddrWidth c + nDataCount c)) in
      Done (buf, tool_write b (nDeviceAddr c) bytes t)
  | A2B24XX_READ =>
      let! buf := mem_write dataBuffer 0 (replicate (Z.to_nat (nDataCount c)) 0) in
      let! addr := adi_a2b_Concat_Addr_Data [0; 0; 0; 0] (nAddrWidth c) (nAddr c) in
      if nAddr c =? A2B_REG_INTTYPE then Done (buf, tool_processInterrupt b (nDeviceAddr c) t)
      else
        let! addr := mem_read addr 0 (nAddrWidth c) in
        Done (buf, tool_read b (nDeviceAddr c) addr (nDataCount c) t)
  | A2B24XX_DELAY =>
      let! data := data_bytes (t_buffer t) (paConfigData c) (nDataCount c) in
      Done (dataBuffer, show_event (Mdelay (delay_value data)) t)
  | A2B24XX_INVALID => Done (dataBuffer, t)
  end.

Fixpoint tool_setup_loop (count : nat) (i : Z) (b : a2b_bus) (dataBuffer : list Z) (t : tool)
  : outcome (list Z * tool) :=
  match count with
  | O => Done (dataBuffer, t)
  | S count =>
      let! c := bus_entry b i in
      let! (dataBuffer, t) := tool_action b dataBuffer c t in
      tool_setup_loop count (i + 1) b dataBuffer t
  end.

(** [adi_a2b_NetworkSetup]; its buffer is static and is returned. *)
Definition tool_NetworkSetup (b : a2b_bus) (dataBuffer : list Z) (t : tool) : outcome (list Z * tool) :=
  tool_setup_loop (Z.to_nat (bus_actions b)) 0 b dataBuffer t.

Definition entry_data (t : tool) (c : ADI_A2B_DISCOVERY_CONFIG) : outcome Z :=
  match paConfigData c with
  | DNull => Undef
  | DBuffer off => array_get (t_buffer t) off
  | DTable bytes => array_get bytes 0
  end.

Definition entry_addresses_node (b : a2b_bus) (t : tool) (i : Z) : outcome bool :=
  let! c := bus_entry b i in
  if nAddr c =? A2B_REG_NODEADR then
    let! next := bus_entry b (i + 1) in
    if nAddr next =? A2B_REG_CHIP then Done false
    else let! d := entry_data t c in Done (Z.land d A2B_BITM_NODEADR_PERI =? 0)
  else Done false.

(** From entry [count - 1] down to entry 0. *)
Fixpoint tool_scan_master (count : nat) (t : tool) (b : a2b_bus) : outcome a2b_bus :=
  match count with
  | O => Done b
  | S count =>
      let i := Z.of_nat count in
      let! c := bus_entry b i in
      if (nAddr c =? A2B_REG_SLOTFMT) && (nDeviceAddr c =? A2B_BASE_ADDR) then
        let! d := entry_data t c in Done (set_bus_fmt d b)
      else
        let! node := entry_addresses_node b t i in
        if (node : bool) then let! d := entry_data t c in tool_scan_master count t (set_bus_nodes d b)
        else tool_scan_master count t b
  end.

Fixpoint tool_scan_position (count : nat) (pos : Z) (t : tool) (b : a2b_bus) : outcome a2b_bus :=
  match count with
  | O => Done b
  | S count =>
      let! node := entry_addresses_node b t (Z.of_nat count) in
      if (node : bool) then
        let! c := bus_entry b (Z.of_nat count) in
        let! d := entry_data t c in
        let! n := array_get (nodes b) d in
        let! ns := array_set (nodes b) d {| position := u16 pos; cycle := cycle n |} in
        Done (set_nodes ns b)
      else tool_scan_position count pos t b
  end.

Fixpoint tool_scan_nodes (count : nat) (i node_id : Z) (t : tool) (b : a2b_bus) : outcome a2b_bus :=
  match count with
  | O => Done b
  | S count =>
      let! c := bus_entry b i in
      let! (b, node_id) :=
        (if (nAddr c =? A2B_REG_DISCVRY) && (nDeviceAddr c =? A2B_BASE_ADDR) then
           let! d := entry_data t c in
           let! n := array_get (nodes b) node_id in
           let! ns := array_set (nodes b) node_id {| position := position n; cycle := d |} in
           Done (set_nodes ns b, u8 (node_id + 1))
         else Done (b, node_id)) in
      let! b := (if (nAddr c =? A2B_REG_LDNSLOTS) && (nAddrWidth c =? 1)
                 then tool_scan_position (Z.to_nat (i + 1)) i t b else Done b) in
      tool_scan_nodes count (i + 1) node_id t b
  end.

(** [setup]. *)
Definition tool_setup (b : a2b_bus) (dataBuffer : list Z) (t : tool) : outcome (a2b_bus * list Z * tool) :=
  let! (dataBuffer, t) := tool_NetworkSetup b dataBuffer t in
  let! b := tool_scan_master (Z.to_nat (bus_actions b)) t b in
  let b := set_nodes (replicate (Z.to_nat (bus_nodes b + 1)) {| position := 0; cycle := 0 |}) b in
  let! b := tool_scan_nodes (Z.to_nat (bus_actions b)) 0 0 t b in
  Done (b, dataBuffer, t).

(** ** The program *)

(** The buses behind the nodes, in the order of the includes; a list can name
    further files, so the number of files is read in every round.  [files] are
    the contents of the files, by name.  Sixteen files is the most there is
    room for. *)
Fixpoint sub_buses (fuel : nat) (i : Z) (stale : nat -> string) (files : string -> option string) (n : Z)
    (dataBuffer : list Z) (t : tool) : outcome tool :=
  if i <? num_files t then
    match fuel with
    | O => Blocked
    | S fuel =>
        let! parent := array_get (bus_parents t) i in
        if (0 <=? parent) && (parent <=? n) then
          let! name := array_get (include_files t) i in
          let! o := loadConfig stale t (zero_bus (i + 1) parent) (files name) in
          match o with
          | Some (b, t) =>
              let! (_, dataBuffer, t) := tool_setup b dataBuffer t in
              sub_buses fuel (i + 1) stale files n dataBuffer t
          | None => sub_buses fuel (i + 1) stale files n dataBuffer t
          end
        else sub_buses fuel (i + 1) stale files n dataBuffer t
    end
  else Done t.

(** [main] after the device is open: the main bus, then the buses behind its
    nodes. *)
Definition main (stale : nat -> string) (files : string -> option string) (name : string) (config_len : Z)
  : outcome tool :=
  let! o := loadConfig stale zero_tool (zero_bus 0 0) (files name) in
  let '(b, t) := match o with
                 | Some bt => bt
                 | None => (set_bus_actions config_len (zero_bus 0 0), zero_tool)
                 end in
  let! (b, dataBuffer, t) := tool_setup b (replicate (Z.to_nat DATA_BUFFER) 0) t in
  sub_buses 256 0 stale files (bus_nodes b) dataBuffer t.

End Tool.

(** ** Where a transfer arrives *)

(** The registers of the chips on the main bus that decide it: the node
    address of the master, and the peripheral address of every node. *)
Record chips := { nodeadr : Z; chip : Z -> Z }.

Definition selects_periphery (v : Z) : bool := negb (Z.land v A2B_BITM_NODEADR_PERI =? 0).
Definition node_of (v : Z) : Z := Z.land v A2B_BITM_NODEADR_NODE.

Definition chips_step (k : chips) (e : event) : chips :=
  match e with
  | Send dev bytes =>
      if dev =? A2B_BASE_ADDR then
        match bytes with
        | [r; v] => if r =? A2B_REG_NODEADR then {| nodeadr := v; chip := chip k |} else k
        | _ => k
        end
      else if selects_periphery (nodeadr k) then k
      else
        match bytes with
        | [r; v] =>
            if r =? A2B_REG_CHIP
            then {| nodeadr := nodeadr k; chip := fun n => if n =? node_of (nodeadr k) then v else chip k n |}
            else k
        | _ => k
        end
  | _ => k
  end.

(** What arrives at the peripherals of node [n]: their address and the bytes
    that are sent to them. *)
Definition arrives (n : Z) (k : chips) (e : event) : list (Z * list Z) :=
  match e with
  | Send dev bytes | Transfer dev bytes _ =>
      if (dev =? A2B_BUS_ADDR) && selects_periphery (nodeadr k) && (node_of (nodeadr k) =? n)
      then [(chip k n, bytes)] else []
  | Mdelay _ => []
  end.

Fixpoint run_chips (k : chips) (tr : list event) : chips :=
  match tr with [] => k | e :: tr => run_chips (chips_step k e) tr end.

Fixpoint peripheral_traffic (n : Z) (k : chips) (tr : list event) : list (Z * list Z) :=
  match tr with
  | [] => []
  | e :: tr => arrives n k e ++ peripheral_traffic n (chips_step k e) tr
  end.

Lemma run_chips_app (k : chips) (a b : list event) : run_chips k (a ++ b) = run_chips (run_chips k a) b.
Proof. revert k. induction a as [|e a IH]; intros k; [done|]. apply IH. Qed.

Lemma traffic_app (n : Z) (k : chips) (a b : list event) :
  peripheral_traffic n k (a ++ b) = peripheral_traffic n k a ++ peripheral_traffic n (run_chips k a) b.
Proof. revert k. induction a as [|e a IH]; intros k; [done|]. cbn. by rewrite IH, app_assoc. Qed.

(** The globals agree with the registers: the last bus is selected. *)
Definition coherent (b : a2b_bus) (k : chips) (t : tool) : Prop :=
  let k := run_chips k (shown t) in
  last_bus_id t = bus_id b -> bus_id b <> 0 ->
  nodeadr k = Z.lor (bus_parent b) 32 /\ chip k (bus_parent b) = last_addr t.

Lemma parent_bits (p : Z) :
  0 <= p <= 15 ->
  selects_periphery p = false /\ node_of p = p
  /\ selects_periphery (Z.lor p 32) = true /\ node_of (Z.lor p 32) = p.
Proof.
  intros H. assert (p = 0 \/ p = 1 \/ p = 2 \/ p = 3 \/ p = 4 \/ p = 5 \/ p = 6 \/ p = 7 \/ p = 8 \/ p = 9
    \/ p = 10 \/ p = 11 \/ p = 12 \/ p = 13 \/ p = 14 \/ p = 15) as D by lia.
  by repeat (destruct D as [->|D]; [done|]); subst.
Qed.

(** After the selection the bus is selected, and nothing has reached a
    peripheral. *)
Lemma select_coherent (b : a2b_bus) (dev : Z) (k : chips) (t : tool) :
  bus_id b <> 0 -> 0 <= bus_parent b <= 15 -> coherent b k t ->
  exists pre t',
    BUS_SELECT b dev t = (A2B_BUS_ADDR, t') /\ shown t' = shown t ++ pre
    /\ t_buffer t' = t_buffer t /\ last_bus_id t' = bus_id b /\ last_addr t' = dev
    /\ peripheral_traffic (bus_parent b) (run_chips k (shown t)) pre = []
    /\ nodeadr (run_chips k (shown t')) = Z.lor (bus_parent b) 32
    /\ chip (run_chips k (shown t')) (bus_parent b) = dev.
Proof.
  intros I P C. destruct (parent_bits (bus_parent b) P) as (B1 & B2 & B3 & B4).
  unfold BUS_SELECT. rewrite (proj2 (Z.eqb_neq _ _) I). cbn [negb].
  destruct (negb (last_bus_id t =? bus_id b) || negb (last_addr t =? dev)) eqn:E.
  - exists [Send 104 [1; bus_parent b]; Send 105 [0; dev]; Send 104 [1; Z.lor (bus_parent b) 32]].
    eexists. split; [reflexivity|]. cbn [shown set_shown show_event set_last_addr set_last_bus_id t_buffer last_bus_id last_addr].
    rewrite <-!app_assoc. split; [done|]. split; [done|]. split; [done|]. split; [done|].
    set (k1 := run_chips k (shown t)). rewrite run_chips_app. fold k1. cbn. rewrite B1. cbn. rewrite B2, Z.eqb_refl.
    done.
  - apply orb_false_iff in E as [E1 E2]. apply negb_false_iff in E1, E2. zbool.
    destruct (C E1 I) as [C1 C2].
    exists [], (set_last_bus_id (bus_id b) (set_last_addr dev t)). rewrite app_nil_r.
    repeat split; try done. cbn. by rewrite C2.
Qed.

(** What a command sends to its device. *)
Definition messages (c : command) : list (Z * list Z) :=
  match c with
  | CWrite dev w a data => [(dev, be_bytes (Z.to_nat w) a ++ data)]
  | CRead dev w a n =>
      [(dev, if a =? A2B_REG_INTTYPE then [A2B_REG_INTSRC] else be_bytes (Z.to_nat w) a)]
  | _ => []
  end.

(** The command fits the buffer of the messages. *)
Definition fits_tool (c : command) : Prop :=
  match c with
  | CWrite _ w _ data => 1 <= w <= 4 /\ w + zlen data <= DATA_BUFFER
  | CRead _ w _ n => 1 <= w <= 4 /\ 0 <= n <= DATA_BUFFER
  | _ => True
  end.

(** A step of the configuration of bus [b]: it adds transfers, of which [ms]
    arrive behind its node, and leaves the bus selected. *)
Definition adds (b : a2b_bus) (k : chips) (t t' : tool) (ms : list (Z * list Z)) : Prop :=
  t_buffer t' = t_buffer t /\ coherent b k t'
  /\ exists ext, shown t' = shown t ++ ext
     /\ peripheral_traffic (bus_parent b) (run_chips k (shown t)) ext = ms.

Lemma adds_trans (b : a2b_bus) (k : chips) (t1 t2 t3 : tool) (m1 m2 : list (Z * list Z)) :
  adds b k t1 t2 m1 -> adds b k t2 t3 m2 -> adds b k t1 t3 (m1 ++ m2).
Proof.
  intros (B1 & _ & e1 & E1 & M1) (B2 & C2 & e2 & E2 & M2). split; [congruence|]. split; [done|].
  exists (e1 ++ e2). split; [by rewrite E2, E1, app_assoc|].
  rewrite traffic_app, M1. f_equal. by rewrite <-run_chips_app, <-E1.
Qed.

Lemma transfer_adds (b : a2b_bus) (k : chips) (t : tool) (dev : Z) (bytes : list Z) (read : option Z) :
  bus_id b <> 0 -> 0 <= bus_parent b <= 15 -> coherent b k t ->
  adds b k t (match read with Some n => tool_read b dev bytes n t | None => tool_write b dev bytes t end)
    [(dev, bytes)].
Proof.
  intros I P C. destruct (parent_bits (bus_parent b) P) as (B1 & B2 & B3 & B4).
  destruct (select_coherent b dev k t I P C) as (pre & t' & E & ES & EB & EI & EA & ET & EN & EC).
  set (e := match read with Some n => Transfer A2B_BUS_ADDR bytes n | None => Send A2B_BUS_ADDR bytes end).
  replace (match read with Some n => _ | None => _ end) with (show_event e t')
    by (destruct read; unfold tool_read, tool_write; by rewrite E).
  assert (run_chips k (shown t' ++ [e]) = run_chips k (shown t')) as R.
  { rewrite run_chips_app. cbn. unfold e. destruct read; cbn; [done|]. by rewrite EN, B3. }
  split; [done|]. split.
  - intros _ _. cbn [shown show_event set_shown]. rewrite R. rewrite EN, EC. by rewrite <-EA.
  - exists (pre ++ [e]). cbn [shown show_event set_shown]. split; [by rewrite ES, app_assoc|].
    rewrite traffic_app, ET. cbn [app]. rewrite <-run_chips_app, <-ES. cbn [peripheral_traffic].
    rewrite app_nil_r. unfold e. destruct read; cbn [arrives]; by rewrite EN, B3, B4, EC, !Z.eqb_refl.
Qed.

Lemma adds_nothing (b : a2b_bus) (k : chips) (t : tool) : coherent b k t -> adds b k t t [].
Proof. intros C. split; [done|]. split; [done|]. exists []. by rewrite app_nil_r. Qed.

Lemma tool_action_adds (b : a2b_bus) (k : chips) (t : tool) (buf : list Z) (c : ADI_A2B_DISCOVERY_CONFIG)
    (cmd : command) :
  bus_id b <> 0 -> 0 <= bus_parent b <= 15 -> coherent b k t ->
  command_of (t_buffer t) c = Done cmd -> fits_tool cmd -> zlen buf = DATA_BUFFER ->
  exists buf' t', tool_action b buf c t = Done (buf', t') /\ zlen buf' = DATA_BUFFER
    /\ adds b k t t' (messages cmd).
Proof.
  intros I P C E F LB. unfold tool_action. unfold command_of in E. destruct (eOpCode c).
  - obinv E. injection E as <-. destruct F as [Fw Fl]. pose proof (data_bytes_len _ _ _ _ E0) as N.
    pose proof (zlen_nonneg a). set (addr := be_bytes (Z.to_nat (nAddrWidth c)) (nAddr c)).
    assert (zlen addr = nAddrWidth c) as LA by (apply zlen_be_bytes; lia).
    destruct (message_bytes buf addr a) as [E1 E2]; [lia|].
    rewrite concat_be by lia. cbn [obind]. fold addr. rewrite E0. cbn [obind].
    rewrite LA in E1. rewrite E1. cbn [obind].
    assert (u16 (nAddrWidth c + nDataCount c) = zlen addr + zlen a) as ->
      by (unfold u16, DATA_BUFFER in *; rewrite <-N, <-LA; apply Z.mod_small; lia).
    rewrite E2. cbn [obind]. eexists _, _. split; [reflexivity|]. split.
    + rewrite <-LB. apply (zlen_splice buf 0); [lia|]. rewrite zlen_app. lia.
    + by apply (transfer_adds b k t (nDeviceAddr c) (addr ++ a) None).
  - injection E as <-. destruct F as [Fw Fn].
    destruct (mem_write_front buf (replicate (Z.to_nat (nDataCount c)) 0)) as (buf1 & E1 & L1).
    { unfold zlen in *. rewrite length_replicate. lia. }
    rewrite E1. cbn [obind]. rewrite concat_be by (unfold zlen; cbn; lia). cbn [obind messages].
    set (addr := be_bytes (Z.to_nat (nAddrWidth c)) (nAddr c)).
    assert (zlen addr = nAddrWidth c) as LA by (apply zlen_be_bytes; lia).
    exists buf1. destruct (nAddr c =? A2B_REG_INTTYPE).
    + eexists. split; [reflexivity|]. split; [congruence|].
      by apply (transfer_adds b k t (nDeviceAddr c) [A2B_REG_INTSRC] (Some 2)).
    + pose proof (mem_read_own [0; 0; 0; 0] addr 0 ltac:(lia)) as R. change (Z.to_nat 0) with 0%nat in R.
      rewrite <-LA, R by (unfold zlen in *; cbn; lia). cbn [obind].
      eexists. split; [reflexivity|]. split; [congruence|].
      by apply (transfer_adds b k t (nDeviceAddr c) addr (Some (nDataCount c))).
  - obinv E. injection E as <-. rewrite E0. cbn [obind]. eexists _, _. split; [reflexivity|]. split; [done|].
    split; [done|]. split.
    + intros E1 I1. cbn [shown show_event set_shown]. rewrite run_chips_app. by apply C.
    + by exists [Mdelay (delay_value a)].
  - injection E as <-. eexists _, _. split; [reflexivity|]. split; [done|]. by apply adds_nothing.
Qed.

Lemma tool_setup_loop_adds (gaA2BConfig : list ADI_A2B_DISCOVERY_CONFIG) (cs before : list command)
    (b : a2b_bus) (k : chips) (buf : list Z) (t : tool) :
  bus_id b <> 0 -> 0 <= bus_parent b <= 15 -> coherent b k t ->
  table_holds (t_buffer t)
    (take (length (before ++ cs)) (if bus_file b then bus_config b else gaA2BConfig)) (before ++ cs) ->
  Forall fits_tool cs -> zlen buf = DATA_BUFFER ->
  exists buf' t', tool_setup_loop gaA2BConfig (length cs) (zlen before) b buf t = Done (buf', t')
    /\ adds b k t t' (concat (map messages cs)).
Proof.
  intros I P. revert before buf t. induction cs as [|cmd cs IH]; intros before buf t C H F LB.
  { eexists _, _. split; [reflexivity|]. by apply adds_nothing. }
  apply Forall_cons_1 in F as [Fc F]. cbn [length tool_setup_loop].
  assert ((before ++ cmd :: cs) !! length before = Some cmd) as Hcmd by (by apply list_lookup_middle).
  destruct (Forall2_lookup_r _ _ _ _ _ H Hcmd) as (c & Hc & E & _).
  apply lookup_take_Some in Hc as [Hc _]. unfold bus_entry.
  rewrite (array_get_lookup _ _ c (zlen_nonneg before)) by (unfold zlen; by rewrite Nat2Z.id). cbn [obind].
  destruct (tool_action_adds b k t buf c cmd I P C E Fc LB) as (buf1 & t1 & E1 & LB1 & A1).
  rewrite E1. cbn [obind].
  replace (zlen before + 1) with (zlen (before ++ [cmd])) by (by rewrite zlen_app).
  destruct (IH (before ++ [cmd]) buf1 t1) as (buf2 & t2 & E2 & A2); [apply A1| |done|done|].
  { rewrite <-app_assoc. by rewrite (proj1 A1). }
  exists buf2, t2. split; [done|]. by eapply adds_trans.
Qed.

(** ** Properties *)

(** C12. The configuration of a bus behind a node arrives there: for a bus on
    node [p] of the main bus whose table holds the commands [cs], and
    whatever was shown before, the tool runs to its end, and what the chips
    of the main bus pass on to the peripherals of node [p], following their
    node and peripheral address registers, is exactly the messages of the
    commands, each to the device that the command names, in order. *)
Theorem sub_bus_traffic (gaA2BConfig : list ADI_A2B_DISCOVERY_CONFIG) (b : a2b_bus) (k : chips)
    (buf : list Z) (t : tool) (cs : list command) :
  bus_id b <> 0 -> 0 <= bus_parent b <= 15 -> last_bus_id t <> bus_id b ->
  bus_actions b = zlen cs ->
  table_holds (t_buffer t) (take (length cs) (if bus_file b then bus_config b else gaA2BConfig)) cs ->
  Forall fits_tool cs -> zlen buf = DATA_BUFFER ->
  exists buf' t', tool_NetworkSetup gaA2BConfig b buf t = Done (buf', t')
    /\ peripheral_traffic (bus_parent b) k (shown t')
       = peripheral_traffic (bus_parent b) k (shown t) ++ concat (map messages cs).
Proof.
  intros I P N A H F LB. unfold tool_NetworkSetup. rewrite A.
  replace (Z.to_nat (zlen cs)) with (length cs) by (unfold zlen; lia).
  destruct (tool_setup_loop_adds gaA2BConfig cs [] b k buf t I P) as (buf' & t' & E & _ & _ & ext & ES & ET);
    [intros ?; congruence|done..|].
  exists buf', t'. split; [exact E|]. by rewrite ES, traffic_app, ET.
Qed.

Definition sub_bus : a2b_bus := set_bus_actions 4 (zero_bus 1 2).

Lemma sub_bus_traffic_witness :
  exists buf' t', tool_NetworkSetup small_table sub_bus (replicate (Z.to_nat DATA_BUFFER) 0) zero_tool
                  = Done (buf', t')
    /\ peripheral_traffic 2 {| nodeadr := 0; chip := fun _ => 0 |} (shown t')
       = [(104, [18; 132]); (104, [22]); (105, [1; 255; 1; 2])].
Proof.
  apply (sub_bus_traffic small_table sub_bus {| nodeadr := 0; chip := fun _ => 0 |}
           (replicate (Z.to_nat DATA_BUFFER) 0) zero_tool small_commands).
  - vm_compute. discriminate.
  - vm_compute. intuition discriminate.
  - vm_compute. discriminate.
  - reflexivity.
  - repeat constructor; vm_compute; auto.
  - repeat constructor; vm_compute; intuition discriminate.
  - vm_compute. reflexivity.
Defined.

(** ** Includes *)

Fixpoint no_space (s : string) : bool :=
  match s with EmptyString => true | String c r => negb (isspace c) && no_space r end.

Lemma word_no_space (w r : string) :
  no_space w = true -> word (w ++ String " " r) = (w, String " " r).
Proof.
  induction w as [|c w IH]; cbn; [done|]. destruct (isspace c); [done|]. cbn. intros H. by rewrite IH.
Qed.

Lemma skip_no_space (w r : string) :
  no_space w = true -> w <> EmptyString -> skip_space (w ++ r) = (w ++ r)%string.
Proof. destruct w as [|c w]; [done|]. cbn. by destruct (isspace c). Qed.

Lemma scan_unsigned_c_print (n : Z) (r : string) :
  printable n -> starts_digit 10 r = false ->
  scan_unsigned_c (skip_space (print_int n ++ r)) = Some (n, r).
Proof.
  intros Hn Hr. destruct (scan_print_int false n r Hn Hr) as (_ & -> & _). unfold printable in Hn.
  unfold print_int. rewrite (proj2 (Z.ltb_ge n 0)) by lia. rewrite dec_digits_app. cbn [String.append].
  destruct (dec_digits_head 10 n r) as (d & t & E & Hd & _); [done|lia|].
  pose proof (take_dec_digits 10 n r ltac:(done) ltac:(lia)) as T. rewrite E in *.
  assert (sign_prefix (String (digit_char d) t) = (false, String (digit_char d) t)) as S.
  { assert (d = 0 \/ d = 1 \/ d = 2 \/ d = 3 \/ d = 4 \/ d = 5 \/ d = 6 \/ d = 7 \/ d = 8 \/ d = 9) as D by lia.
    by repeat (destruct D as [->|D]; [done|]); subst. }
  unfold scan_unsigned_c. rewrite S, T, take_digits_stop by done.
  cbn [starts_digit]. rewrite digit_char_in by lia.
  rewrite Z.gtb_ltb, (proj2 (Z.ltb_ge _ _)) by (unfold ULONG_MAX; lia). done.
Qed.

Definition include_text (name : string) (parent : Z) : string :=
  "<include file=" ++ name ++ " parent=" ++ Q ++ print_int parent ++ Q ++ "/>" ++ NL.

Lemma scan_include (name : string) (parent : Z) :
  no_space name = true -> name <> EmptyString -> is_u8 parent ->
  uscanf include_format (include_text name parent) = [VStr name; VNum parent].
Proof.
  intros S N P. unfold is_u8 in P. unfold include_format, include_text.
  change (uscanf (ulit "<include file=" ++ ?f) ("<include file=" ++ ?r)) with (uscanf f r).
  set (r := (print_int parent ++ Q ++ "/>" ++ NL)%string).
  cbn [app uscanf]. rewrite skip_no_space by done.
  change (" parent=" ++ Q ++ r)%string with (String " " ("parent=" ++ Q ++ r)).
  rewrite word_no_space by done. destruct name as [|c name]; [done|]. f_equal.
  change (uscanf (ulit (" parent=" ++ Q) ++ ?f) (String " " ("parent=" ++ Q ++ r))) with (uscanf f r).
  cbn [uscanf]. unfold r. rewrite scan_unsigned_c_print by (done || (unfold printable; lia)).
  by rewrite Z.mod_small by lia.
Qed.

(** What [parseAction] does with an include and the entry it is given. *)
Lemma parse_include (stale : string) (t : tool) (name : string) (parent : Z)
    (config : ADI_A2B_DISCOVERY_CONFIG) :
  no_space name = true -> name <> EmptyString -> (String.length name < 128)%nat -> is_u8 parent ->
  free_of ">"%char name -> (String.length stale < 20)%nat ->
  0 <= num_files t < 16 -> length (include_files t) = 16%nat -> length (bus_parents t) = 16%nat ->
  0 <= t_offset t < MAX_CONFIG_DATA - 1 -> zlen (t_buffer t) = MAX_CONFIG_DATA ->
  (stale <> "delay"%string ->
   exists t', tool_parseAction stale t (include_text name parent) config 104
     = Done (set_nDataCount 0 (set_nDeviceAddr 104 config), t')
     /\ num_files t' = num_files t + 1
     /\ include_files t' !! Z.to_nat (num_files t) = Some name
     /\ bus_parents t' !! Z.to_nat (num_files t) = Some parent)
  /\ (stale = "delay"%string ->
      exists config' t', tool_parseAction stale t (include_text name parent) config 104 = Done (config', t')
        /\ eOpCode config' = A2B24XX_DELAY /\ num_files t' = num_files t).
Proof.
  intros S N L P NG LS F LF LP O LB.
  assert (uscanf tool_format (include_text name parent) = []) as E by done.
  unfold tool_parseAction. rewrite E. unfold store_values. cbn [zip zip_with fold_left].
  change (zip action_targets []) with (@nil ((value -> scan_result -> scan_result) * value)). cbn [fold_left].
  unfold scanned_fits. cbn [sc_instr sc_protocol sc_config String.length].
  rewrite (proj2 (Nat.ltb_lt _ _) LS). cbn [andb negb Nat.ltb Nat.leb].
  change (9 <=? zlen (@nil value)) with false. cbn iota. split.
  - intros D. rewrite (proj2 (String.eqb_neq _ _) D). unfold tool_include. rewrite scan_include by done.
    rewrite (proj2 (Nat.leb_gt _ _) L).
    rewrite array_set_done by (unfold zlen; lia). cbn [obind].
    rewrite array_set_done by (unfold zlen; lia). cbn [obind]. eexists. split; [reflexivity|]. cbn.
    split; [unfold u8; apply Z.mod_small; lia|].
    split; apply list_lookup_insert_eq; lia.
  - intros ->. change (String.eqb "delay" "delay") with true. cbn iota.
    assert (after_char ">"%char (include_text name parent) = Some NL) as Er.
    { unfold include_text, is_u8 in *. destruct (print_int_word ">"%char parent eq_refl ltac:(lia)) as [_ FP].
      rewrite !after_char_app by (done || (unfold free_of; vm_compute; intuition discriminate)). done. }
    unfold tool_data. cbn [nDataCount set_nDataCount].
    rewrite (proj2 (Z.leb_gt _ _)) by lia. rewrite Er. cbn [Z.eqb].
    change (strtok_all NL) with [NL].
    rewrite store_tokens_done by (unfold zlen in *; cbn [length]; lia). cbn [obind]. eexists _, _. done.
Qed.

(** *** A list of actions and an include behind it *)

(** A line of the list: the start of an element and the rest of the line; the
    one of an include opens no other element. *)
Definition tag_line (tag l : string) : Prop :=
  exists body, l = (tag ++ body ++ NL)%string /\ free_of nl body.
Definition include_line (l : string) : Prop :=
  exists body, l = ("<include" ++ body ++ NL)%string /\ free_of nl body /\ free_of "<"%char body.

Fixpoint texts (ls : list string) (rest : string) : string :=
  match ls with
  | [] => rest
  | l :: ls => (l ++ texts ls rest)%string
  end.

Lemma string_app_cons (c : ascii) (a b : string) : (String c a ++ b)%string = String c (a ++ b).
Proof. done. Qed.

Lemma string_app_assoc (a b c : string) : ((a ++ b) ++ c)%string = (a ++ (b ++ c))%string.
Proof. induction a as [|x a IH]; [done|]. rewrite !string_app_cons. by rewrite IH. Qed.

Lemma string_app_nil (a : string) : (a ++ EmptyString)%string = a.
Proof. induction a as [|x a IH]; [done|]. rewrite string_app_cons. by rewrite IH. Qed.

Lemma strstr_skip (w r p : string) :
  free_of "<"%char w -> strstr (w ++ r) (String "<" p) = strstr r (String "<" p).
Proof.
  unfold free_of. induction w as [|d w IH]; intros F; [done|]. cbn in F. rewrite string_app_cons. cbn [strstr String.prefix].
  destruct (ascii_dec "<" d) as [E|E]; [exfalso; apply F; by left|]. apply IH. tauto.
Qed.

Lemma strstr_free (w p : string) : free_of "<"%char w -> strstr w (String "<" p) = None.
Proof.
  unfold free_of. induction w as [|d w IH]; intros F; [done|]. cbn in F. cbn [strstr String.prefix].
  destruct (ascii_dec "<" d) as [E|E]; [exfalso; apply F; by left|]. apply IH. tauto.
Qed.

Lemma strstr_newline (r p : string) : strstr (NL ++ r) (String "<" p) = strstr r (String "<" p).
Proof. apply strstr_skip. unfold free_of. vm_compute. intuition discriminate. Qed.

Lemma until_nl_tag (tag l r : string) :
  free_of nl tag -> tag_line tag l -> until_nl (l ++ r) = Some (l, (NL ++ r)%string).
Proof.
  intros F (body & -> & B). rewrite !string_app_assoc, (until_nl_app tag), (until_nl_app body) by done. done.
Qed.

Lemma strstr_here (p s : string) : String.prefix p s = true -> strstr s p = Some s.
Proof. intros E. destruct s; cbn [strstr]; by rewrite E. Qed.

Lemma prefix_app (p s : string) : String.prefix p (p ++ s) = true.
Proof.
  induction p as [|c p IH]; [by destruct s|]. cbn. by destruct (ascii_dec c c).
Qed.

Lemma action_found (l r : string) : tag_line "<action" l -> strstr (l ++ r) "<action" = Some (l ++ r)%string.
Proof. intros (body & -> & _). rewrite !string_app_assoc. apply strstr_here, prefix_app. Qed.

Lemma include_found (inc : string) :
  include_line inc ->
  strstr (NL ++ inc) "<action" = None /\ strstr (NL ++ inc) "<include" = Some inc.
Proof.
  intros (body & -> & _ & F). rewrite !strstr_newline. split; [|apply strstr_here, prefix_app].
  change (strstr ("include" ++ body ++ NL) "<action" = None). apply strstr_free.
  apply free_of_app; [unfold free_of; vm_compute; intuition discriminate|].
  apply free_of_app; [done|unfold free_of; vm_compute; intuition discriminate].
Qed.

Lemma texts_length (ls : list string) (r : string) :
  String.length (texts ls r) = (String.length (texts ls EmptyString) + String.length r)%nat.
Proof.
  induction ls as [|l ls IH]; cbn [texts]; [done|].
  rewrite !length_append, IH. lia.
Qed.

Lemma texts_long (ls : list string) :
  Forall (tag_line "<action") ls -> (length ls <= String.length (texts ls EmptyString))%nat.
Proof.
  induction 1 as [|l ls (body & -> & _) F IH]; cbn [texts length]; [done|].
  rewrite length_append. cbn [String.append String.length]. lia.
Qed.

(** Behind the last action the loop goes on with the include, in the entry it
    has just filled. *)
Lemma loop_reaches_include (ls : list string) (inc : string) (stale : nat -> string) (k : nat) :
  Forall (tag_line "<action") ls -> ls <> [] -> include_line inc ->
  forall (fuel : nat) (t t1 : tool) (b b1 : a2b_bus),
  bus_actions b + zlen ls <= MAX_ACTIONS ->
  tool_loop fuel (fun j => stale (j + k)%nat) t b (Some (texts ls EmptyString)) = Done (b1, t1) ->
  tool_loop (fuel + k) stale t b (Some (texts ls inc))
    = tool_loop (fuel - length ls + k) stale t1 b1 (Some inc)
  /\ bus_actions b1 = bus_actions b + zlen ls - 1 /\ (length ls <= fuel)%nat.
Proof.
  intros F NE I. induction F as [|l ls Hl F IH]; [done|]. intros fuel t t1 b b1 A E.
  assert (zlen (l :: ls) = 1 + zlen ls) as Zl by (unfold zlen; cbn [length]; lia). rewrite Zl in *.
  pose proof (zlen_nonneg ls). cbn [texts] in *.
  destruct fuel as [|fuel]; cbn [tool_loop Nat.add] in *; rewrite (proj2 (Z.ltb_lt (bus_actions b) _)) in * by lia; [done|].
  assert (free_of nl "<action") as Fn by (unfold free_of; vm_compute; intuition discriminate).
  rewrite (until_nl_tag "<action") in E by done. rewrite (until_nl_tag "<action") by done.
  obinv E. rewrite E0. cbn [obind].
  obinv E. destruct a0 as [config t2]. rewrite E1. cbn [obind].
  obinv E. rewrite E2. cbn [obind].
  destruct ls as [|l2 ls].
  - cbn [texts] in *. destruct (include_found inc I) as [-> ->].
    change (strstr (NL ++ EmptyString) "<action") with (@None string) in E.
    change (strstr (NL ++ EmptyString) "<include") with (@None string) in E. cbn iota in E.
    assert (Done (set_bus_config a0 b, t2) = Done (b1, t1)) as E' by (by destruct fuel). injection E' as <- <-.
    cbn [length]. replace (S fuel - 1 + k)%nat with (fuel + k)%nat by lia.
    split; [done|]. split; [cbn; change (zlen (@nil string)) with 0; lia|lia].
  - inversion F as [|? ? Hl2 F2]; subst.
    assert (forall r, strstr (NL ++ texts (l2 :: ls) r) "<action" = Some (texts (l2 :: ls) r)) as Nx.
    { intros r. rewrite strstr_newline. by apply action_found. }
    rewrite Nx in E |- *. edestruct (IH ltac:(done)) as (E3 & A3 & L3); [|exact E|].
    + cbn [bus_actions set_bus_actions set_bus_config]. lia.
    + cbn [bus_actions set_bus_actions set_bus_config] in *.
      rewrite E3. cbn [length] in *. replace (S fuel - S (S (length ls)))%nat with (fuel - S (length ls))%nat by lia.
      split; [done|]. split; lia.
Qed.

Lemma include_is_line (name : string) (parent : Z) :
  no_space name = true -> free_of "<"%char name -> is_u8 parent -> include_line (include_text name parent).
Proof.
  intros S F P. unfold is_u8 in P. unfold include_text.
  assert (free_of nl name) as Fn.
  { unfold free_of. clear F. induction name as [|c name IH]; [by intros []|]. cbn in S |- *.
    destruct (isspace c) eqn:Ec; [done|]. intros [-> | X]; [discriminate Ec|by apply IH]. }
  exists (" file=" ++ name ++ " parent=" ++ Q ++ print_int parent ++ Q ++ "/>")%string. split.
  - rewrite !string_app_assoc. done.
  - destruct (print_int_word "<"%char parent eq_refl ltac:(lia)) as [_ F1].
    destruct (print_int_word nl parent eq_refl ltac:(lia)) as [_ F2].
    split; repeat apply free_of_app; try done; unfold free_of; vm_compute; intuition discriminate.
Qed.

(** C33. An include damages the action before it.  A list of actions [ls] is
    read as [b1]; with an include line behind the last action the same list
    is read as [b1] again, with the same number of entries, but with the last
    entry changed: the include was read into it, so its device is the master
    and its data is dropped, and the file is noted.  If the array of the
    instruction holds the word of a delay when the include is read ([stale]
    gives what it holds before each line), the include is lost and the last
    entry becomes a delay.  The list has at most [MAX_ACTIONS] actions and
    room for the include. *)
Theorem include_damages_last_action (stale : nat -> string) (t t1 : tool) (b b1 : a2b_bus)
    (ls : list string) (name : string) (parent : Z) :
  let inc := include_text name parent in
  let word := stale (String.length (texts ls inc) - length ls)%nat in
  let k := Z.to_nat (bus_actions b1 - 1) in
  Forall (tag_line "<action") ls -> ls <> [] -> 0 <= bus_actions b -> bus_actions b + zlen ls <= MAX_ACTIONS ->
  tool_parseXML (fun j => stale (j + String.length inc)%nat) t b (texts ls EmptyString) = Done (b1, t1) ->
  zlen (bus_config b1) = MAX_ACTIONS ->
  no_space name = true -> name <> EmptyString -> (String.length name < 128)%nat -> is_u8 parent ->
  free_of "<"%char name -> free_of ">"%char name -> (String.length word < 20)%nat ->
  0 <= num_files t1 < 16 -> length (include_files t1) = 16%nat -> length (bus_parents t1) = 16%nat ->
  0 <= t_offset t1 < MAX_CONFIG_DATA - 1 -> zlen (t_buffer t1) = MAX_CONFIG_DATA ->
  exists config, bus_config b1 !! k = Some config
  /\ (word <> "delay"%string ->
      exists t', tool_parseXML stale t b (texts ls inc)
        = Done (set_bus_config (<[k := set_nDataCount 0 (set_nDeviceAddr 104 config)]> (bus_config b1)) b1, t')
        /\ num_files t' = num_files t1 + 1
        /\ include_files t' !! Z.to_nat (num_files t1) = Some name
        /\ bus_parents t' !! Z.to_nat (num_files t1) = Some parent)
  /\ (word = "delay"%string ->
      exists config' t', tool_parseXML stale t b (texts ls inc)
        = Done (set_bus_config (<[k := config']> (bus_config b1)) b1, t')
        /\ eOpCode config' = A2B24XX_DELAY /\ num_files t' = num_files t1).
Proof.
  intros inc word k F NE B0 A E Lc Sp Nn Ln Pu Fl Fg Lw Nf Li Lp O Lb.
  pose proof (include_is_line name parent Sp Fl Pu) as I. fold inc in I.
  assert (forall r, strstr (texts ls r) "<action" = Some (texts ls r)) as St.
  { intros r. destruct F as [|l ls Hl F]; [done|]. by apply action_found. }
  unfold tool_parseXML in E |- *. rewrite St in E |- *. obinv E. destruct a as [b2 t2]. injection E as <- <-.
  destruct (loop_reaches_include ls inc stale (String.length inc) F NE I _ t t2 b b2 A E0) as (E1 & A1 & L1).
  rewrite (texts_length ls inc). change (S (?a + ?b)) with (S a + b)%nat. rewrite E1.
  pose proof (texts_long ls F) as TL. subst k word. cbn [bus_actions set_bus_actions bus_config] in *.
  rewrite (texts_length ls inc) in Lw |- *.
  replace (S (String.length (texts ls EmptyString)) - length ls + String.length inc)%nat
    with (S (String.length (texts ls EmptyString) + String.length inc - length ls)) by lia.
  set (f := (String.length (texts ls EmptyString) + String.length inc - length ls)%nat) in *.
  replace (bus_actions b2 + 1 - 1) with (bus_actions b2) by lia.
  assert (1 <= zlen ls) by (destruct ls; [done|unfold zlen; cbn [length]; lia]).
  destruct (lookup_lt_is_Some_2 (bus_config b2) (Z.to_nat (bus_actions b2))) as [config Ec];
    [unfold zlen in Lc; lia|].
  exists config. split; [done|].
  assert (until_nl inc = Some (inc, NL)) as Eu.
  { pose proof (until_nl_tag "<include" inc EmptyString) as U. rewrite !string_app_nil in U. apply U.
    - unfold free_of. vm_compute. intuition discriminate.
    - destruct I as (body & -> & Fb & _). by exists body. }
  cbn [tool_loop]. rewrite (proj2 (Z.ltb_lt (bus_actions b2) _)) by lia. rewrite Eu.
  rewrite (array_get_lookup _ _ config) by (done || lia). cbn [obind].
  destruct (parse_include (stale f) t2 name parent config Sp Nn Ln Pu Fg Lw Nf Li Lp O Lb) as [P1 P2]. fold inc in P1, P2.
  split; intros W; [destruct (P1 W) as (t' & -> & K)|destruct (P2 W) as (config' & t' & -> & K)]; cbn [obind];
    rewrite array_set_done by lia; cbn [obind];
    change (strstr NL "<action") with (@None string); change (strstr NL "<include") with (@None string); cbn iota.
  - exists t'. split; [|exact K]. destruct f; done.
  - exists config', t'. split; [|exact K]. destruct f; done.
Qed.

(** Two writes and an include: the second write loses its device and data. *)
Definition demo_list : list string :=
  [line (CWrite 104 1 18 [132]) NL; line (CWrite 105 1 11 [128]) NL].

Definition demo_bus : a2b_bus :=
  {| bus_file := false; bus_config := replicate (Z.to_nat MAX_ACTIONS) cleared_config; bus_actions := 0;
     nodes := []; bus_nodes := 0; bus_id := 0; bus_parent := 0; bus_fmt := 0 |}.

Definition demo_read (text : string) : a2b_bus * tool :=
  match tool_parseXML (fun _ => EmptyString) zero_tool demo_bus text with
  | Done x => x
  | _ => (demo_bus, zero_tool)
  end.

Lemma include_damages_last_action_witness :
  let b1 := (demo_read (texts demo_list EmptyString)).1 in
  exists config t',
    bus_config b1 !! 1%nat = Some config /\ nDeviceAddr config = 105 /\ nDataCount config = 1
    /\ tool_parseXML (fun _ => EmptyString) zero_tool demo_bus (texts demo_list (include_text "sub.xml" 1))
       = Done (set_bus_config (<[1%nat := set_nDataCount 0 (set_nDeviceAddr 104 config)]> (bus_config b1)) b1, t')
    /\ num_files t' = 1.
Proof.
  intros b1.
  destruct (include_damages_last_action (fun _ => EmptyString) zero_tool
    (demo_read (texts demo_list EmptyString)).2 demo_bus b1 demo_list "sub.xml" 1) as (config & Ec & H & _).
  - assert (forall l, l = ("<action" ++ String.substring 7 (String.length l - 8) l ++ NL)%string ->
      free_of nl (String.substring 7 (String.length l - 8) l) -> tag_line "<action" l) as T by (intros l L1 L2; by eexists).
    unfold demo_list. apply Forall_cons_2; [|apply Forall_cons_2; [|apply Forall_nil_2]];
      (apply T; [vm_compute; reflexivity|unfold free_of; vm_compute; intuition discriminate]).
  - discriminate.
  - discriminate.
  - vm_compute. discriminate.
  - vm_compute. reflexivity.
  - vm_compute. reflexivity.
  - reflexivity.
  - discriminate.
  - vm_compute. lia.
  - vm_compute. intuition discriminate.
  - unfold free_of. vm_compute. intuition discriminate.
  - unfold free_of. vm_compute. intuition discriminate.
  - vm_compute. lia.
  - vm_compute. intuition discriminate.
  - vm_compute. reflexivity.
  - vm_compute. reflexivity.
  - vm_compute. intuition discriminate.
  - vm_compute. reflexivity.
  - destruct H as (t' & E' & N & _); [discriminate|]. exists config, t'.
    assert (nDeviceAddr config = 105 /\ nDataCount config = 1) as [D1 D2]
      by (vm_compute in Ec; injection Ec as <-; split; reflexivity).
    split; [exact Ec|]. split; [exact D1|]. split; [exact D2|]. split; [exact E'|exact N].
Defined.
